(* ===== verification/_CoqProject ===== *)
-Q . S2P
Prelude.v
Platform.v
SpiFlash.v
Flash.v
CommonFunc.v
Double.v
HalTimer.v
CJson.v
SysTime.v
DeviceTimer.v
TimerTable.v
License.v
MainQueue.v
Cloud.v
Uart.v
UartProofs.v
Hardware.v
UserData.v
AppMain.v
UserDataProofs.v
Broadcast.v
PowerCut.v
Provisioning.v
MainSafety.v
MainProvision.v
LightColor.v
LightIo.v
Light.v
LightProofs.v
LightCloud.v
Aes.v
Ieee80211.v
SmartConfig.v
SmartConfigProofs.v
SmartConfigDelivery.v
SoftAp.v
SoftApProofs.v
OtaHttp.v
Ota.v
OtaProofs.v
OtaSafety.v
OtaCommand.v
AtCmd.v
AtProofs.v
AtTest.v
Console.v
ConsoleProofs.v
CloudEvents.v
AwsCloud.v
AlyCloud.v
CloudProofs.v
AwsProofs.v
AwsSafety.v
AlyProofs.v
CloudConn.v
CJsonText.v
CJsonPrint.v
CJsonRead.v
CJsonRound.v
JsonUse.v
AmtNv.v
AmtNvProofs.v
AmtNvCut.v
Partition.v
OtaFull.v
