(* ===== verification/Prelude.v ===== *)
(** * Verification of the akeeta application of the TR6260 light firmware

    The firmware is a Wi-Fi lamp module: FreeRTOS, lwIP, a binary Wi-Fi driver
    and, on top of them, the akeeta application ([src/apps/akeeta_tr6260]).
    This library models the application's own C code as executable Rocq
    functions and proves what makes it correct.

    ** The program

    - The main task ([ya_app_main.c]) is a state machine: provisioning by
      smart config or soft AP, connecting, connected, waiting to reconnect,
      idle, factory test.  It owns the persistent user data and reacts to the
      messages of the main queue, which every other task posts to.
    - The hardware task ([ya_hardware_app.c]) owns the clock and the timers
      the cloud installs, and dispatches cloud messages.
    - The UART task ([ya_uart_app.c]) serves the factory tool that writes the
      device's licences.
    - All of them persist through one record store ([ya_flash.c]) over the
      flash HAL and the SPI NOR driver, and talk to the cloud through
      [cloud.c].
    - Behind [cloud.c] stand two modules that keep the MQTT session with the
      AWS or the Aliyun cloud ([ya_aws_cloud.c], [ya_aliyun_cloud.c]): they hand
      requests to the tasks that listen for them, answer them, and publish what
      the tasks report.
    - The console ([system/util_cli_freertos.c], [system/util_cmd.c]) edits
      lines and hands them to the system task, which gives them to the AT
      commands of the factory tool ([at/ya_atcmd.c]) and then to the shell.
    - Smart config ([ya_smartconfig.c] over [wifi_80211.c]) listens to the
      frames in the air while a phone sends the router's name and password in
      multicast addresses or frame lengths; soft AP ([ya_softap_update.c]) is
      an access point with a UDP server that takes them in encrypted JSON
      messages and also serves the factory tool.  Both use the AES and MD5
      helpers of [ya_aes_md5.c] and end in a callback of the main task.
      After smart config a task ([ya_sniffer_broadcast.c]) announces the
      device to the phone.
    - The OTA task ([ya_ota.c] over [ya_ota_hal.c] and
      [platform/otaHal/otaDiffHal.c]) takes the cloud's upgrade command, fetches
      the firmware over HTTP into a partition of the flash, checks its digest,
      leaves a record for the boot loader and restarts; a second machine of the
      same shape serves the controller beside the module.
    - The product on top of the module is a lamp ([test_example/light]): a
      light task that takes settings from a queue, fades the five PWM channels
      to them, remembers the last one in flash and counts quick power-ons; a
      cloud command handler and a report builder; a factory test.
    - Documents of the cloud and the phone are read and written by the SDK's
      copy of cJSON ([platform/json/cJSON.c]).
    - Below the application the SDK keeps the factory parameters (serial number,
      addresses, calibration) in a sector of their own ([nv/amtNv/amtNv.c]), finds
      it in a partition table ([nv/src/ef_env.c]), and has a second way to store an
      update, as a whole image ([platform/otaHal/otaHal.c]).

    ** Files

    - [Prelude]: machine integers, buffers, the monad of computations with
      faults and resets, weakest preconditions, the tactics [wstep], [brun],
      [zbool] and the lemmas shared by all files.
    - [Platform]: the flash chip as an interface ([NorChip] and its laws), the
      machine record [hw] (chip, allocator answers and live blocks, tick
      counter, queues, trace of external effects) and the OS services.
    - [SpiFlash]: [drivers/hal_spiflash.c] and [hal/src/ya_hal_flash.c].
    - [Flash]: the record store [ya_flash.c].
    - [CommonFunc], [Double], [HalTimer], [CJson]: string helpers, binary64
      arithmetic, software timers, JSON trees and the interface their users see.
    - [SysTime], [DeviceTimer]: the two halves of [ya_hardware_timer.c];
      [TimerTable]: theorems about the timer table.
    - [License]: [ya_cert_flash_api.c].
    - [MainQueue], [Cloud]: posting to the main task; [cloud.c] and the
      document builders of [ya_hardware_translate.c].
    - [Uart], [UartProofs]: [ya_uart_app.c] and its theorems.
    - [Hardware]: the hardware task and the one-second update.
    - [UserData], [AppMain]: [ya_app_main.c]; [UserDataProofs], [PowerCut],
      [Provisioning] and [MainSafety] hold its theorems; [MainProvision]: the turn
      that takes the result of a provisioning procedure and saves it.
    - [Broadcast]: [ya_sniffer_broadcast.c] and its theorem.
    - [LightColor]: the colour arithmetic ([hls_rgb.c], white conversion);
      [LightIo]: PWM channels and fading ([ya_light_io.c], [ya_hal_pwm.c]);
      [Light]: [ya_light_example.c] and [ya_light_product_test.c];
      [LightProofs]: the light task; [LightCloud]: commands and reports.
    - [Aes]: [ya_aes_md5.c] and the CBC and CFB modes of mbedtls.
    - [Ieee80211]: the frame parser [wifi_80211.c]; [SmartConfig]:
      [ya_smartconfig.c]; [SmartConfigProofs]: reception by multicast;
      [SmartConfigDelivery]: from the phone to the saved user data.
    - [SoftAp], [SoftApProofs]: [ya_softap_update.c] and its theorems.
    - [OtaHttp]: the address and header parsers of [ya_ota.c]; [Ota]: the rest
      of it, [ya_ota_hal.c] and [otaDiffHal.c]; [OtaProofs]: the turns of a
      download; [OtaSafety]: relations that turns keep, and when the device
      restarts; [OtaCommand]: from the command to the new firmware.
    - [AtCmd]: [ya_atcmd.c]; [AtProofs]: its tokenizer, the address and the
      licence commands; [AtTest]: the update test, up to the next start.
    - [Console], [ConsoleProofs]: [util_cli_freertos.c], [util_cmd.c] and their
      theorems.
    - [CloudEvents]: what the two cloud modules share; [AwsCloud], [AlyCloud]:
      [ya_aws_cloud.c] and [ya_aliyun_cloud.c]; [CloudProofs], [AwsProofs],
      [AwsSafety], [AlyProofs]: their theorems; [CloudConn]: the table of
      functions behind [cloud.c].
    - [CJsonText]: the parser and the printer of [cJSON.c]; [CJsonPrint],
      [CJsonRead], [CJsonRound]: what they do, on texts; [JsonUse]: they are an
      instance of the interface of [CJson], used for the report of the lamp.
    - [AmtNv], [AmtNvProofs], [AmtNvCut]: [amtNv.c], its theorems, and those about
      power failure; [Partition]: the partition table of [ef_env.c]; [OtaFull]:
      [otaHal.c] and its theorems.

    ** How C becomes Rocq

    A C function is a definition of the same name in the monad [P C S]: state
    passing over the globals [S] of its file and the machine [hw C].  A run
    ends in [Done] with a value, in [Fault] (undefined behaviour: NULL
    dereference, access outside an allocation, freeing a dead block) or in
    [Reset] ([ya_hal_sys_reboot] never returns).  A buffer is the list of the
    bytes of its allocation, so bounds are checked by construction; [u8],
    [u16], [u32] truncate at assignments.  [malloc] answers come from the list
    [heap] ([[]] means memory to spare) and [live] counts blocks, so theorems
    can speak of failure and of leaks.  An infinite task loop is one definition
    per turn; interleavings with other tasks are steps of a relation
    ([MainSafety.main_step]) at the granularity of turns.

    A call of the MQTT library is logged in the trace; what it answers and what
    it delivers are inputs in the state of the module ([calls], [yields]), over
    which the theorems quantify.

    Interfaces stand for what is not application code: the flash chip
    ([NorChip]; [ideal] is an instance, [PowerCut.cutting] another), [pow]
    of the C library and the conversion of a number outside the range of [int]
    ([Libm]), the mbedtls verdicts ([CertCheck]), the cloud connection
    ([CloudEnv]), the UART line and the radio ([UartEnv], [MainEnv]), the block
    cipher and the digest ([BlockCipher] with the laws that decryption inverts
    encryption and that outputs are 16 bytes), the access point, its socket
    and the random generator ([ApEnv]), the socket of the announcement
    ([BroadcastEnv]), name resolution, connection, partition
    table and CRC of the update ([OtaEnv]; what a socket returns is the list
    [net] of its state), the driver's address and the environment store of the
    AT commands ([AtEnv]), the shell's table of commands ([Shell]), the environment
    store an update notes its image in ([OtaAddr], whose law is that it writes its
    own partition only).  Two more are filled by files of this library: JSON text
    ([JsonText], by [JsonUse]) and the place of the factory parameters
    ([AmtPartition], by [Partition.table_partition]).

    The users of JSON see a parser that gives a tree, gives NULL or overruns a
    block ([CJson.overruns]: the text with an incomplete escape), and a printer
    that reads every text of the tree, NULL or not.  A tree counts as one heap
    block whatever its parts; taking it asks the allocator once, and a document
    under construction asks it for every item, key and text, a refused copy
    leaving NULL ([CJson.json_build]).  [JsonStrings] (parsed trees have their
    texts, printed ones parse) is proved of the code in [JsonUse].
    Between components of the program: [CloudModule] is what the shared part of
    the cloud modules needs of one, [Callbacks] what a module calls back, with
    the contract [SafeCallbacks], which [AwsSafety.hardware_safe] discharges for
    the hardware task; [cloud_context_t] is the source's own table.
    Theorems hold for every instance; witnesses run on concrete ones.

    ** What is proved

    - Persistence: flash writes read back, readers are safe on any content,
      a save of the user data is atomic under power failure at any operation
      (as far as its 8-bit checksum tells torn records), timers and licences
      survive a reboot.
    - The main task: never faults in any reachable state (a change of mode only
      while memory is to spare); mode changes and factory resets take effect at
      the next start; provisioned credentials are saved by the turn that takes
      the result, and are the ones every later start connects with.
    - The clock follows the calendar (but for November) and the tick counter;
      timers fire at exactly the seconds of their schedule and their commands
      are queued in order; timer and time messages are handled without faults,
      and the blocks they take are accounted for.
    - The factory protocol stores and returns certificates; its CRC is cyclic.
      On the console, the line editor equals an editor on texts; a licence
      typed in AT mode is stored when its CRC fits and refused otherwise; the
      update test reaches the update task after the restart; an address read
      from one module can be given to another.
    - The clouds: the AWS task never faults and calls the library in the order
      of its sessions whatever the library answers; it reconnects; reports
      refine a bounded queue; a request reaches its listener and is answered in
      the same turn; the Aliyun listeners are told exactly the changes of the
      session, and its requests are answered under their ids.
    - The lamp: a setting ends shown on the LEDs, colour and white never lit
      together; the last queued setting wins and survives a power cycle; four
      quick power-ons change the mode; any cloud document the parser survives is
      handled safely and a report sent as a command reproduces the light.
    - Provisioning over the air: the multicast receiver reports a key exactly
      when it has heard every piece of it, in any order and among any other
      frames, and then it is the key sent; from there the credentials reach the
      user data, the flash and the next connection (the clean-up of the receiver,
      which reads freed memory, comes after).  A soft-AP session does the same for
      the router a phone sends, and a datagram that is not authentic changes
      nothing once the licence is written.  The announcement that follows ends by itself, with the phone's
      answer or after sixty messages.  The element search of the frame parser equals a search of the
      decoded list.
    - The update: from the command in the queue to the restart with the file
      in its partition and both boot records written, whatever the pieces the
      file comes in behind a first one of 64 bytes; no restart but right after the copy in flash matched the
      announced digest, whatever the network sends; the firmware that starts
      reports success exactly when it is the version asked for, once.
    - JSON: on any text whose escapes are complete the parser stays inside its
      blocks and gives the tree of the grammar (numbers as the code reads them);
      printing and parsing are inverse on trees with integers of 32 bits; a
      string that ends in an escape without digits overflows its block.
    - The factory parameters: writes in any order refine a table of values, also
      when power fails at any operation of a write or of the recovery, if
      [amt_nv_init] is called at the starts, which this firmware does not do; a
      partition table that puts them where
      the backup goes loses them.  A partition table reads back.
    - Whole images: a download is installed exactly when it has the format of a
      package, and never when one byte of it is damaged; the CRC equals the one
      computed bit by bit.
    - Defects, as theorems about the code as it is: buffer overflow, double
      free and leak of the UART task, its over-long print, NULL texts printed when
      memory runs short, a parameter lost without recovery, records and timer tables that cannot be
      read back, the inverted erase status, the November clock, timer
      overflow and wrap-around of the remaining time.

    ** Bounds and fuel

    Loops of the code that are not structural run on fuel that covers them:
    page writes on the length of the data (each page consumes at least one
    byte), table reloads on the buffer length (each entry consumes at least 34
    bytes), decimal conversion on ten digits (32-bit values), the licence
    parsers on four rounds (three strings and the final test), the RSSI scan on
    its five attempts, a fade on 256 rounds (every round moves a channel of one
    byte by one unit), draining the light queue on its length and one more
    receive, searching information elements on the length of the data (every
    element consumes at least two bytes), the searches of an HTTP header on the
    number of bytes received, the check of a file on its number of sections, the
    scan of the parameter sector on 512 rounds (each advances by four bytes of
    2047 at least), the JSON parser and printer on the text and the tree.

    ** What is not modelled

    Printing, but for the log of the certificate buffer, which may lack its
    terminator; the creation of the other tasks' queues, threads and semaphores;
    preemption inside a turn (the cloud modules' callbacks run inside their
    task's turn, as in the code).  The shell's own commands, the wrappers of the
    Wi-Fi driver and the network in [hal/src], the event loop of the SDK, and of
    cJSON the printer into a growing buffer, the editing of trees and the error
    pointer, which the application does not use.  Vendored and binary code
    (FreeRTOS, lwIP, mbedtls, EasyFlash, the cloud SDKs, the Wi-Fi driver) is
    relied on only through the interfaces above. *)

From stdpp Require Import base numbers list strings.
#[global] Open Scope Z_scope.

(** ** Machine integers

    A w-bit unsigned C integer is a [Z] in [0, 2^w); every assignment to a
    variable of that width goes through the matching truncation. *)

Definition u8 (z : Z) : Z := z mod 256.
Definition u16 (z : Z) : Z := z mod 65536.
Definition u32 (z : Z) : Z := z mod 4294967296.
(** Conversion to [int32_t] and [int8_t] (two's complement). *)
Definition i32 (z : Z) : Z := (z + 2147483648) mod 4294967296 - 2147483648.
Definition i8 (z : Z) : Z := (z + 128) mod 256 - 128.

Definition is_u8 (z : Z) : Prop := 0 <= z < 256.
Definition is_u16 (z : Z) : Prop := 0 <= z < 65536.
Definition is_u32 (z : Z) : Prop := 0 <= z < 4294967296.

#[export] Instance is_u8_dec z : Decision (is_u8 z).
Proof. unfold is_u8; apply _. Defined.
#[export] Instance is_u16_dec z : Decision (is_u16 z).
Proof. unfold is_u16; apply _. Defined.
#[export] Instance is_u32_dec z : Decision (is_u32 z).
Proof. unfold is_u32; apply _. Defined.

Create HintDb cint.

Lemma u8_range z : is_u8 (u8 z).
Proof. unfold is_u8, u8; apply Z.mod_pos_bound; lia. Qed.
Lemma u16_range z : is_u16 (u16 z).
Proof. unfold is_u16, u16; apply Z.mod_pos_bound; lia. Qed.
Lemma u32_range z : is_u32 (u32 z).
Proof. unfold is_u32, u32; apply Z.mod_pos_bound; lia. Qed.
#[export] Hint Resolve u8_range u16_range u32_range : cint.

Lemma u8_small z : is_u8 z -> u8 z = z.
Proof. apply Z.mod_small. Qed.
Lemma u16_small z : is_u16 z -> u16 z = z.
Proof. apply Z.mod_small. Qed.
Lemma u32_small z : is_u32 z -> u32 z = z.
Proof. apply Z.mod_small. Qed.

(** Boolean tests of the code, with the shape the C condition has. *)
Notation "a ==? b" := (bool_decide (a = b)) (at level 70, no associativity).
Notation "a <>? b" := (bool_decide (a <> b)) (at level 70, no associativity).

(** [zbool]: turn every boolean comparison in sight into its arithmetic
    meaning, then leave the rest to [lia]. *)
Ltac zbool :=
  repeat match goal with
  | H : context [Z.ltb ?a ?b] |- _ => destruct (Z.ltb_spec a b)
  | H : context [Z.leb ?a ?b] |- _ => destruct (Z.leb_spec a b)
  | H : context [Z.eqb ?a ?b] |- _ => destruct (Z.eqb_spec a b)
  | |- context [Z.ltb ?a ?b] => destruct (Z.ltb_spec a b)
  | |- context [Z.leb ?a ?b] => destruct (Z.leb_spec a b)
  | |- context [Z.eqb ?a ?b] => destruct (Z.eqb_spec a b)
  | |- context [bool_decide ?P] => case_bool_decide
  end; cbn [andb orb negb] in *.

(** [lia] on goals with divisions and remainders by constants. *)
Ltac zdiv := Z.to_euclidean_division_equations; lia.

(** ** Byte buffers

    A C buffer is the list of the bytes it holds; its length is the size it
    was allocated with, so an access outside the list is an access outside the
    allocation. *)

Abbreviation bytes := (list Z).

Definition len (b : bytes) : Z := Z.of_nat (length b).
Definition is_bytes (b : bytes) : Prop := Forall is_u8 b.
#[export] Instance is_bytes_dec b : Decision (is_bytes b).
Proof. unfold is_bytes; apply _. Defined.
(** Closed side conditions of concrete runs, by evaluation. *)
Ltac evaluate := apply (bool_decide_eq_true_1 _); vm_compute; reflexivity.
Definition zeros (n : Z) : bytes := replicate (Z.to_nat n) 0.
(** The [n] bytes of [b] from offset [off] (as many as there are). *)
Definition slice (b : bytes) (off n : Z) : bytes :=
  take (Z.to_nat n) (drop (Z.to_nat off) b).
(** [b] with [src] written over it from offset [off], which must fit. *)
Definition splice (b : bytes) (off : Z) (src : bytes) : bytes :=
  take (Z.to_nat off) b ++ src ++ drop (Z.to_nat off + length src) b.

(** ** Computations: state passing with faults and resets

    [T] is the state a component threads through its code.  A computation ends
    in a value ([Done]), in undefined behaviour ([Fault]: a NULL dereference,
    an access outside an allocation, a read of freed memory, freeing a dead
    pointer, or a shift by more than the width), or in a hardware reset ([Reset]:
    [ya_hal_sys_reboot] ends in [while (1);] and never returns). *)

Inductive fault := NullDeref | OutOfBounds | BadFree | UseAfterFree | BadShift.
#[export] Instance fault_eq_dec : EqDecision fault.
Proof. solve_decision. Defined.

Inductive outcome (T A : Type) :=
| Done (a : A) (t : T)
| Fault (f : fault)
| Reset (t : T).
Arguments Done {T A} a t.
Arguments Fault {T A} f.
Arguments Reset {T A} t.

Definition M (T A : Type) : Type := T -> outcome T A.

Section Monad.
Context {T : Type}.
Definition ret {A} (a : A) : M T A := fun t => Done a t.
Definition bind {A B} (m : M T A) (k : A -> M T B) : M T B := fun t =>
  match m t with
  | Done a t' => k a t'
  | Fault f => Fault f
  | Reset t' => Reset t'
  end.
Definition fail {A} (f : fault) : M T A := fun _ => Fault f.
Definition get : M T T := fun t => Done t t.
Definition modify (f : T -> T) : M T unit := fun t => Done tt (f t).
Definition reset {A} : M T A := fun t => Reset t.
Definition when (b : bool) (m : M T unit) : M T unit := if b then m else ret tt.
(** Dereferencing a pointer that may be NULL. *)
Definition deref {A} (o : option A) : M T A :=
  match o with Some a => ret a | None => fail NullDeref end.
End Monad.

Declare Scope c_scope.
Delimit Scope c_scope with c.
Notation "'let*' x ':=' m 'in' k" := (bind m (fun x => k))
  (at level 10, x name, m at level 100, k at level 200) : c_scope.
Notation "'let*' ' p ':=' m 'in' k" := (bind m (fun p => k))
  (at level 10, p strict pattern, m at level 100, k at level 200) : c_scope.
Notation "m ;; k" := (bind m (fun _ => k))
  (at level 100, k at level 200, right associativity) : c_scope.
(** A step that may [goto err]: [None] abandons the rest of the block. *)
Definition obind {T A B} (m : M T (option A)) (k : A -> M T (option B)) : M T (option B) :=
  bind m (fun o => match o with Some a => k a | None => ret None end).
Notation "'let?' x ':=' m 'in' k" := (obind m (fun x => k))
  (at level 10, x name, m at level 100, k at level 200) : c_scope.
Notation "'let?' ' p ':=' m 'in' k" := (obind m (fun p => k))
  (at level 10, p strict pattern, m at level 100, k at level 200) : c_scope.
(** [if (c) goto err;] *)
Definition guard {T} (ok : bool) : M T (option unit) := ret (if ok then Some tt else None).
Open Scope c_scope.

(** Running a computation of a sub-component inside a larger state. *)
Definition zoom {T U A} (g : T -> U) (p : U -> T -> T) (m : M U A) : M T A := fun t =>
  match m (g t) with
  | Done a u => Done a (p u t)
  | Fault f => Fault f
  | Reset u => Reset (p u t)
  end.

(** A [for] loop over the elements of a list, in order. *)
Fixpoint for_each {T A} (l : list A) (body : A -> M T unit) : M T unit :=
  match l with
  | [] => ret tt
  | x :: l' => body x ;; for_each l' body
  end.

(** ** Buffer accesses, faulting outside the allocation *)
Section Buffers.
Context {T : Type}.
Definition rd (b : bytes) (i : Z) : M T Z :=
  if (0 <=? i) && (i <? len b) then ret (b !!! Z.to_nat i) else fail OutOfBounds.
Definition wr (b : bytes) (i v : Z) : M T bytes :=
  if (0 <=? i) && (i <? len b) then ret (<[Z.to_nat i := u8 v]> b) else fail OutOfBounds.
(** [memcpy(dst + off, src, |src|)]. *)
Definition memcpy (dst : bytes) (off : Z) (src : bytes) : M T bytes :=
  if (0 <=? off) && (off + len src <=? len dst)
  then ret (splice dst off src) else fail OutOfBounds.
(** [memset(b, v, n)]. *)
Definition memset (b : bytes) (v n : Z) : M T bytes :=
  if (0 <=? n) && (n <=? len b)
  then ret (replicate (Z.to_nat n) (u8 v) ++ drop (Z.to_nat n) b) else fail OutOfBounds.
(** The [n] bytes a [memcpy] or a scan reads from [src + off]. *)
Definition rdn (src : bytes) (off n : Z) : M T bytes :=
  if (0 <=? off) && (0 <=? n) && (off + n <=? len src)
  then ret (slice src off n) else fail OutOfBounds.
End Buffers.

(** ** Laws of the monad *)
Section MonadLaws.
Context {T A B C : Type}.
Lemma bind_ret_l (a : A) (k : A -> M T B) t : bind (ret a) k t = k a t.
Proof. done. Qed.
Lemma bind_assoc (m : M T A) (k : A -> M T B) (k' : B -> M T C) t :
  bind (bind m k) k' t = bind m (fun a => bind (k a) k') t.
Proof. unfold bind. by destruct (m t). Qed.
Lemma bind_done (m : M T A) (k : A -> M T B) t a t' :
  m t = Done a t' -> bind m k t = k a t'.
Proof. unfold bind. by intros ->. Qed.
End MonadLaws.
Lemma for_each_app {T A} (l l' : list A) (f : A -> M T unit) t : for_each (l ++ l') f t = (for_each l f ;; for_each l' f) t.
Proof.
  revert t. induction l as [|x l IH]; intros t; [done|]. cbn [List.app for_each]. rewrite bind_assoc. unfold bind at 1 2.
  destruct (f x t); [apply IH|done|done].
Qed.

(** ** Weakest preconditions

    [wp m Q R t]: run from [t], the computation does not fault; it ends with a
    value and a state satisfying [Q], or in a reset in a state satisfying [R].
    This is total correctness: a computation always returns. *)

Definition wp {T A} (m : M T A) (Q : A -> T -> Prop) (R : T -> Prop) (t : T) : Prop :=
  match m t with
  | Done a t' => Q a t'
  | Fault _ => False
  | Reset t' => R t'
  end.

Section Wp.
Context {T : Type}.
Implicit Types (R : T -> Prop) (t : T).

Lemma wp_ret {A} (a : A) Q R t : Q a t -> wp (ret a) Q R t.
Proof. done. Qed.
Lemma wp_bind {A B} (m : M T A) (k : A -> M T B) Q R t :
  wp m (fun a t' => wp (k a) Q R t') R t -> wp (bind m k) Q R t.
Proof. unfold wp, bind. by destruct (m t). Qed.
Lemma wp_guard b Q R t :
  (b = true -> Q (Some tt) t) -> (b = false -> Q None t) -> wp (guard b) Q R t.
Proof. destruct b; cbn; auto. Qed.
Lemma wp_get Q R t : Q t t -> wp get Q R t.
Proof. done. Qed.
Lemma wp_modify f Q R t : Q tt (f t) -> wp (modify f) Q R t.
Proof. done. Qed.
Lemma wp_mono {A} (m : M T A) (Q Q' : A -> T -> Prop) R R' t :
  wp m Q R t -> (forall a t', Q a t' -> Q' a t') -> (forall t', R t' -> R' t') ->
  wp m Q' R' t.
Proof. unfold wp. destruct (m t); naive_solver. Qed.
Lemma wp_obind {A B} (m : M T (option A)) (k : A -> M T (option B)) Q R t :
  wp m (fun o t' => match o with Some a => wp (k a) Q R t' | None => Q None t' end) R t ->
  wp (obind m k) Q R t.
Proof. intros Hw. apply wp_bind. eapply wp_mono; [exact Hw | by intros [] | done]. Qed.
Lemma wp_if {A} (b : bool) (m1 m2 : M T A) Q R t :
  (b = true -> wp m1 Q R t) -> (b = false -> wp m2 Q R t) ->
  wp (if b then m1 else m2) Q R t.
Proof. destruct b; auto. Qed.
Lemma wp_deref {A} (o : option A) a Q R t : o = Some a -> Q a t -> wp (deref o) Q R t.
Proof. by intros ->. Qed.
Lemma wp_done {A} (m : M T A) Q R t a t' :
  m t = Done a t' -> Q a t' -> wp m Q R t.
Proof. unfold wp. by intros ->. Qed.
Lemma wp_elim {A} (m : M T A) Q t :
  wp m Q (fun _ => False) t -> exists a t', m t = Done a t' /\ Q a t'.
Proof. unfold wp. destruct (m t); naive_solver. Qed.

(** A loop over a list keeps an invariant indexed by what is left to do. *)
Lemma wp_for_each {A} (I : list A -> T -> Prop) (body : A -> M T unit) R l t :
  I l t ->
  (forall x l' t', I (x :: l') t' -> wp (body x) (fun _ => I l') R t') ->
  wp (for_each l body) (fun _ => I []) R t.
Proof.
  intros Hi Hb. revert t Hi. induction l as [|x l IH]; intros t Hi; [done|].
  cbn. apply wp_bind. eapply wp_mono; [by apply Hb | by auto | done].
Qed.
End Wp.

(** ** Buffer lemmas *)

Lemma len_nonneg (b : bytes) : 0 <= len b.
Proof. unfold len; lia. Qed.
Lemma len_app (a b : bytes) : len (a ++ b) = len a + len b.
Proof. unfold len. rewrite length_app. lia. Qed.
Lemma len_cons x (b : bytes) : len (x :: b) = len b + 1.
Proof. unfold len. cbn. lia. Qed.
Lemma len_zeros n : 0 <= n -> len (zeros n) = n.
Proof. unfold len, zeros. rewrite length_replicate. lia. Qed.
Lemma len_insert (b : bytes) i v : len (<[i := v]> b) = len b.
Proof. unfold len. by rewrite length_insert. Qed.
Lemma len_take (b : bytes) n : 0 <= n <= len b -> len (take (Z.to_nat n) b) = n.
Proof. unfold len. rewrite length_take. lia. Qed.
Lemma len_slice (b : bytes) off n :
  0 <= off -> 0 <= n -> off + n <= len b -> len (slice b off n) = n.
Proof. unfold len, slice. rewrite length_take, length_drop. lia. Qed.
Lemma len_splice (b : bytes) off src :
  0 <= off -> off + len src <= len b -> len (splice b off src) = len b.
Proof. unfold len, splice. rewrite !length_app, length_take, length_drop. lia. Qed.
Create Rewrite HintDb blen.
#[export] Hint Rewrite len_app len_cons len_insert @length_app : blen.
#[export] Hint Rewrite len_zeros len_slice len_splice len_take using lia : blen.

Lemma slice_splice (b : bytes) off src :
  0 <= off -> off + len src <= len b -> slice (splice b off src) off (len src) = src.
Proof.
  intros Ho Hl. unfold slice, splice, len in *.
  rewrite drop_app_length' by (rewrite length_take; lia).
  rewrite Nat2Z.id. by rewrite take_app_length.
Qed.
(** Bytes before and after the written range are untouched. *)
Lemma slice_splice_below (b : bytes) off src i n :
  0 <= i -> 0 <= n -> i + n <= off -> off + len src <= len b ->
  slice (splice b off src) i n = slice b i n.
Proof.
  intros Hi Hn Hin Hl. unfold slice, splice, len in *.
  rewrite drop_app_le by (rewrite length_take; lia).
  rewrite take_app_le by (rewrite length_drop, length_take; lia).
  apply list_eq; intros k.
  destruct (decide (k < Z.to_nat n)%nat).
  - rewrite !lookup_take_lt by lia. rewrite !lookup_drop, lookup_take_lt by lia. done.
  - by rewrite !lookup_take_ge by lia.
Qed.
Lemma lookup_splice_below (b : bytes) off src i :
  (i < Z.to_nat off)%nat -> off + len src <= len b -> splice b off src !! i = b !! i.
Proof.
  intros Hi Hl. unfold splice, len in *.
  rewrite lookup_app_l by (rewrite length_take; lia). by apply lookup_take_lt.
Qed.
Lemma splice_nil (b : bytes) : splice b 0 [] = b.
Proof. unfold splice. cbn [app length Nat.add]. change (Z.to_nat 0) with 0%nat. by rewrite drop_0. Qed.
(** Writing a byte and then the rest is writing them together. *)
Lemma splice_cons (b : bytes) off x src :
  0 <= off < len b -> splice b off (x :: src) = splice (<[Z.to_nat off := x]> b) (off + 1) src.
Proof.
  intros Ho. unfold splice, len in *. rewrite insert_take_drop by lia.
  replace (Z.to_nat (off + 1)) with (Z.to_nat off + 1)%nat by lia.
  assert (Hlt : length (take (Z.to_nat off) b) = Z.to_nat off) by (rewrite length_take; lia).
  rewrite <- Nat.add_assoc. set (a := take (Z.to_nat off) b) in *. clearbody a.
  rewrite <- Hlt. rewrite take_app_add, drop_app_add.
  cbn. rewrite take_0, <- app_assoc, drop_drop. cbn. repeat f_equal. lia.
Qed.
Lemma slice_app_l (a b : bytes) n : n = len a -> slice (a ++ b) 0 n = a.
Proof. intros ->. unfold slice, len. rewrite Nat2Z.id. change (Z.to_nat 0) with 0%nat.
  rewrite drop_0. by rewrite take_app_length. Qed.
Lemma slice_app_r (a b : bytes) off n : off = len a -> n = len b -> slice (a ++ b) off n = b.
Proof.
  intros -> ->. unfold slice, len. rewrite !Nat2Z.id, drop_app_length. apply take_ge. lia.
Qed.
Lemma slice_full (b : bytes) n : n = len b -> slice b 0 n = b.
Proof. intros ->. unfold slice, len. rewrite Nat2Z.id. apply take_ge. cbn. lia. Qed.

Lemma is_bytes_app a b : is_bytes (a ++ b) <-> is_bytes a /\ is_bytes b.
Proof. apply Forall_app. Qed.
Lemma is_bytes_slice b off n : is_bytes b -> is_bytes (slice b off n).
Proof. intros. by apply Forall_take, Forall_drop. Qed.
Lemma is_bytes_zeros n : is_bytes (zeros n).
Proof. apply Forall_replicate. unfold is_u8; lia. Qed.
Lemma is_bytes_splice b off src : is_bytes b -> is_bytes src -> is_bytes (splice b off src).
Proof.
  intros. unfold splice, is_bytes. rewrite !Forall_app.
  auto using Forall_take, Forall_drop.
Qed.
#[export] Hint Resolve is_bytes_slice is_bytes_zeros is_bytes_splice : cint.
#[export] Hint Constructors Forall : cint.

(** ** Weakest preconditions of the buffer accesses *)
Section WpBuffers.
Context {T : Type}.
Implicit Types (R : T -> Prop) (t : T) (b : bytes).
Lemma wp_rd b i Q R t : 0 <= i < len b -> Q (b !!! Z.to_nat i) t -> wp (rd b i) Q R t.
Proof. intros Hi HQ. unfold rd. zbool; try lia. done. Qed.
Lemma wp_wr b i v Q R t :
  0 <= i < len b -> Q (<[Z.to_nat i := u8 v]> b) t -> wp (wr b i v) Q R t.
Proof. intros Hi HQ. unfold wr. zbool; try lia. done. Qed.
Lemma wp_memcpy b off src Q R t :
  0 <= off -> off + len src <= len b -> Q (splice b off src) t -> wp (memcpy b off src) Q R t.
Proof. intros Ho Hl HQ. unfold memcpy. zbool; try lia. done. Qed.
Lemma wp_memset b v n Q R t :
  0 <= n <= len b -> Q (replicate (Z.to_nat n) (u8 v) ++ drop (Z.to_nat n) b) t ->
  wp (memset b v n) Q R t.
Proof. intros Ho HQ. unfold memset. zbool; try lia. done. Qed.
Lemma wp_rdn b off n Q R t :
  0 <= off -> 0 <= n -> off + n <= len b -> Q (slice b off n) t -> wp (rdn b off n) Q R t.
Proof. intros Ho Hn Hl HQ. unfold rdn. zbool; try lia. done. Qed.
End WpBuffers.

(** The same accesses as equations, for running a computation. *)
Section RunBuffers.
Context {T : Type}.
Implicit Types (t : T) (b : bytes).
Lemma rd_ok b i t : 0 <= i < len b -> rd b i t = Done (b !!! Z.to_nat i) t.
Proof. intros. unfold rd. zbool; done || lia. Qed.
Lemma wr_ok b i v t : 0 <= i < len b -> wr b i v t = Done (<[Z.to_nat i := u8 v]> b) t.
Proof. intros. unfold wr. zbool; done || lia. Qed.
Lemma memcpy_ok b off src t :
  0 <= off -> off + len src <= len b -> memcpy b off src t = Done (splice b off src) t.
Proof. intros. unfold memcpy. zbool; done || lia. Qed.
Lemma memset_ok b v n t : 0 <= n <= len b ->
  memset b v n t = Done (replicate (Z.to_nat n) (u8 v) ++ drop (Z.to_nat n) b) t.
Proof. intros. unfold memset. zbool; done || lia. Qed.
Lemma rdn_ok b off n t :
  0 <= off -> 0 <= n -> off + n <= len b -> rdn b off n t = Done (slice b off n) t.
Proof. intros. unfold rdn. zbool; done || lia. Qed.
End RunBuffers.

(** Filling a zeroed buffer from the front: after [a], the next bytes go where
    the zeros start. *)
Lemma splice_zeros (a b : bytes) k :
  len b <= k -> splice (a ++ zeros k) (len a) b = (a ++ b) ++ zeros (k - len b).
Proof.
  intros Hk. unfold splice, zeros, len in *. rewrite Nat2Z.id, take_app_length, <- app_assoc.
  do 2 f_equal. rewrite drop_app_add, drop_replicate. f_equal. lia.
Qed.
Lemma zeros_split j k : 0 <= j <= k -> zeros k = zeros j ++ zeros (k - j).
Proof. intros Hj. unfold zeros. rewrite <- replicate_add. f_equal. lia. Qed.
(** Reading back a field laid down between [a] and [c]. *)
Lemma slice_mid (a b c : bytes) off n :
  off = len a -> n = len b -> slice (a ++ b ++ c) off n = b.
Proof.
  intros -> ->. unfold slice, len. rewrite !Nat2Z.id, drop_app_length. by rewrite take_app_length.
Qed.
Lemma drop_len (a b : bytes) off : off = len a -> drop (Z.to_nat off) (a ++ b) = b.
Proof. intros ->. unfold len. by rewrite Nat2Z.id, drop_app_length. Qed.
Section RunZeros.
Context {T : Type}.
Lemma memcpy_zeros a b k off (t : T) :
  off = len a -> len b <= k ->
  memcpy (a ++ zeros k) off b t = Done ((a ++ b) ++ zeros (k - len b)) t.
Proof.
  intros -> Hk. pose proof (len_nonneg a). pose proof (len_nonneg b).
  rewrite memcpy_ok; [by rewrite splice_zeros| lia | rewrite len_app, len_zeros; lia].
Qed.
Lemma rdn_at (b a f c : bytes) off n (t : T) :
  b = a ++ f ++ c -> off = len a -> n = len f -> rdn b off n t = Done f t.
Proof.
  intros -> -> ->. pose proof (len_nonneg a). pose proof (len_nonneg f). pose proof (len_nonneg c).
  rewrite rdn_ok; [by rewrite slice_mid|lia|lia|rewrite !len_app; lia].
Qed.
Lemma rd_at (b a : bytes) x c off (t : T) :
  b = a ++ x :: c -> off = len a -> rd b off t = Done x t.
Proof.
  intros -> ->. pose proof (len_nonneg a). pose proof (len_nonneg c).
  rewrite rd_ok by (rewrite len_app, len_cons; lia). unfold len. rewrite Nat2Z.id.
  by rewrite lookup_total_app_r, Nat.sub_diag by lia.
Qed.
End RunZeros.

(** Run the first access of a computation whose bounds [lia] can check. *)
Ltac brun :=
  cbn beta iota; erewrite bind_done by
    (first [apply rd_ok | apply wr_ok | apply memcpy_ok | apply memset_ok | apply rdn_ok];
     autorewrite with blen; lia).

(** One step of a [wp] goal, driven by the head of the computation; side
    conditions on offsets are left to the caller when [lia] does not close
    them. *)
Ltac wstep :=
  lazymatch goal with
  | |- wp (ret _) _ _ _ => apply wp_ret
  | |- wp (bind _ _) _ _ _ => apply wp_bind
  | |- wp (obind _ _) _ _ _ => apply wp_obind
  | |- wp get _ _ _ => apply wp_get
  | |- wp (modify _) _ _ _ => apply wp_modify
  | |- wp (if ?b then _ else _) _ _ _ => apply wp_if; intros ?
  | |- wp (rd _ _) _ _ _ => apply wp_rd; [try lia|]
  | |- wp (wr _ _ _) _ _ _ => apply wp_wr; [try lia|]
  | |- wp (memcpy _ _ _) _ _ _ => apply wp_memcpy; [try lia | try lia |]
  | |- wp (memset _ _ _) _ _ _ => apply wp_memset; [try lia|]
  | |- wp (rdn _ _ _) _ _ _ => apply wp_rdn; [try lia | try lia | try lia |]
  end.
