(* ===== verification/Platform.v ===== *)
(** * The platform under the application

    What the application sees of the TR6260: the SPI NOR flash chip (an
    interface class, since the chip is hardware), the FreeRTOS heap and queues
    behind [hal/src/ya_hal_os.c], the tick counter, and a trace of the effects
    that leave the module (UART frames, PWM duties, radio commands). *)

From stdpp Require Import base numbers list strings.
From S2P Require Import Prelude.

(** ** The NOR flash chip

    The operations of the SPI controller the driver [drivers/hal_spiflash.c]
    issues: reading a byte, programming inside one 256-byte page (bits only go
    from 1 to 0), erasing one 4 KiB sector (every byte becomes 0xFF), and the
    outcome of the two status polls. *)

Class NorChip (C : Type) := {
  nor_read : C -> Z -> Z;
  nor_program : C -> Z -> bytes -> C;
  nor_erase : C -> Z -> C;
  (** the write-enable poll ends with the WEL bit set *)
  nor_wel : C -> bool;
  (** the completion poll ends with the WIP bit clear *)
  nor_ready : C -> bool;
}.

#[global] Arguments nor_read {C _} c a : simpl never.
#[global] Arguments nor_program {C _} c a b : simpl never.
#[global] Arguments nor_erase {C _} c a : simpl never.
#[global] Arguments nor_wel {C _} c : simpl never.
#[global] Arguments nor_ready {C _} c : simpl never.

(** What the data sheet of such a chip promises. *)
Class NorChipLaws (C : Type) `{NorChip C} := {
  nor_read_u8 : forall c a, is_u8 (nor_read c a);
  nor_program_spec : forall c a bs x,
    a mod 256 + len bs <= 256 -> is_bytes bs ->
    nor_read (nor_program c a bs) x =
      if bool_decide (a <= x < a + len bs)
      then Z.land (nor_read c x) (bs !!! Z.to_nat (x - a))
      else nor_read c x;
  nor_erase_spec : forall c a x,
    a mod 4096 = 0 ->
    nor_read (nor_erase c a) x =
      if bool_decide (a <= x < a + 4096) then 255 else nor_read c x;
}.

(** A chip whose status polls never time out. *)
Class NorReliable (C : Type) `{NorChip C} := {
  nor_wel_ok : forall c, nor_wel c = true;
  nor_ready_ok : forall c, nor_ready c = true;
}.

(** The ideal chip: a total memory of bytes. *)
Definition ideal := Z -> Z.
#[export] Instance ideal_chip : NorChip ideal := {
  nor_read f a := u8 (f a);
  nor_program f a bs := fun x =>
    if bool_decide (a <= x < a + len bs)
    then Z.land (u8 (f x)) (bs !!! Z.to_nat (x - a)) else f x;
  nor_erase f a := fun x => if bool_decide (a <= x < a + 4096) then 255 else f x;
  nor_wel _ := true;
  nor_ready _ := true;
}.

Lemma land_u8 a b : is_u8 a -> is_u8 b -> is_u8 (Z.land a b).
Proof.
  unfold is_u8. intros Ha Hb. split.
  - apply Z.land_nonneg. lia.
  - destruct (Z.eq_dec (Z.land a b) 0) as [->|Hne]; [lia|].
    assert (0 <= Z.land a b) by (apply Z.land_nonneg; lia).
    pose proof (Z.log2_land a b ltac:(lia) ltac:(lia)).
    destruct (Z.eq_dec a 0) as [->|]; [by rewrite Z.land_0_l in Hne|].
    assert (Z.log2 a < 8) by (apply (Z.log2_lt_pow2 a 8); lia).
    apply (Z.log2_lt_pow2 (Z.land a b) 8); lia.
Qed.

Lemma lookup_total_u8 bs i : is_bytes bs -> is_u8 (bs !!! i).
Proof.
  intros Hb. destruct (decide (i < length bs)%nat) as [Hi|Hi].
  - apply list_lookup_lookup_total_lt in Hi.
    by eapply Forall_lookup_1 in Hi.
  - rewrite list_lookup_total_alt, lookup_ge_None_2 by lia. unfold is_u8; cbn; lia.
Qed.

#[export] Instance ideal_laws : NorChipLaws ideal.
Proof.
  split; unfold nor_read, nor_program, nor_erase; cbn; intros.
  - apply u8_range.
  - case_bool_decide; [|done]. apply u8_small, land_u8; auto using u8_range, lookup_total_u8.
  - by case_bool_decide.
Qed.
#[export] Instance ideal_reliable : NorReliable ideal.
Proof. by split. Qed.

(** ** Queues, messages and external effects *)

(** [msg_t]; [m_addr] is the heap block the message owns, if any. *)
Record msg := mkMsg { m_len : Z; m_addr : option bytes; m_type : Z }.
#[export] Instance msg_eq_dec : EqDecision msg.
Proof. solve_decision. Defined.

Inductive qid := QMain | QUart | QHardware | QLight | QOta | QAws | QAly.
#[export] Instance qid_eq_dec : EqDecision qid.
Proof. solve_decision. Defined.

Inductive event :=
| EvUartTx (frame : bytes)
| EvPwm (channel duty : Z)
| EvRouter (status : Z) (data : list Z)
| EvServerTime (fields : list Z)
| EvHwTimer (running : bool)
| EvWlan (what : string) (args : list bytes)
| EvCloud (what : string) (arg : Z)
| EvCloudMsg (data : bytes)
| EvMqtt (call : string) (args : list bytes)
| EvDelay (ms : Z).
#[export] Instance event_eq_dec : EqDecision event.
Proof. solve_decision. Defined.

Definition MSG_QUEUE_LENGTH : nat := 16.
(** What the queues are created with. *)
Definition queue_length (q : qid) : nat := match q with QOta => 5 | _ => MSG_QUEUE_LENGTH end.

(** ** The machine state shared by every component *)
Record hw (C : Type) := mkHw {
  chip : C;
  (** answers of the next [pvPortMalloc] calls; none recorded = success *)
  heap : list bool;
  (** heap blocks in use, for leak accounting *)
  live : Z;
  (** what uninitialised memory reads as *)
  junk : Z;
  (** what a caller gets from a function that falls off its end *)
  stale : Z;
  (** the FreeRTOS tick counter *)
  ticks : Z;
  queues : qid -> list msg;
  (** effects so far, most recent first *)
  trace : list event;
}.
Arguments mkHw {C}. Arguments chip {C}. Arguments heap {C}. Arguments live {C}.
Arguments junk {C}. Arguments stale {C}. Arguments ticks {C}. Arguments queues {C}.
Arguments trace {C}.

Section Hw.
Context {C : Type}.
Implicit Types (h : hw C).
Definition set_chip (c : C) h : hw C :=
  mkHw c (heap h) (live h) (junk h) (stale h) (ticks h) (queues h) (trace h).
Definition set_heap (hp : list bool) (n : Z) h : hw C :=
  mkHw (chip h) hp n (junk h) (stale h) (ticks h) (queues h) (trace h).
Definition set_queue (q : qid) (l : list msg) h : hw C :=
  mkHw (chip h) (heap h) (live h) (junk h) (stale h) (ticks h)
       (fun q' => if bool_decide (q' = q) then l else queues h q') (trace h).
Definition log (e : event) h : hw C :=
  mkHw (chip h) (heap h) (live h) (junk h) (stale h) (ticks h) (queues h) (e :: trace h).

(** The machine with another trace. *)
Definition set_trace (tr : list event) h : hw C :=
  mkHw (chip h) (heap h) (live h) (junk h) (stale h) (ticks h) (queues h) tr.

Context {S : Type}.
(** A component's computations act on its own globals and the machine. *)
Definition P (A : Type) : Type := M (S * hw C) A.

Definition gets {A} (f : S -> A) : P A := fun '(s, h) => Done (f s) (s, h).
Definition puts (f : S -> S) : P unit := fun '(s, h) => Done tt (f s, h).
Definition get_hw : P (hw C) := fun '(s, h) => Done h (s, h).
Definition upd_hw (f : hw C -> hw C) : P unit := fun '(s, h) => Done tt (s, f h).
Definition emit (e : event) : P unit := upd_hw (log e).

(** [ya_hal_os_memory_alloc]: [pvPortMalloc], which refuses size 0. *)
Definition ya_hal_os_memory_alloc (n : Z) : P (option bytes) := fun '(s, h) =>
  let block := Some (replicate (Z.to_nat n) (u8 (junk h))) in
  if n =? 0 then Done None (s, h)
  else match heap h with
       | [] => Done block (s, set_heap [] (live h + 1) h)
       | true :: hp => Done block (s, set_heap hp (live h + 1) h)
       | false :: hp => Done None (s, set_heap hp (live h) h)
       end.
Definition ya_hal_os_memory_free : P unit := upd_hw (fun h => set_heap (heap h) (live h - 1) h).
(** [if (p) free(p)]. *)
Definition free_if {A} (p : option A) : P unit :=
  match p with Some _ => ya_hal_os_memory_free | None => ret tt end.

(** [ya_hal_os_queue_send] and [ya_hal_os_queue_recv]: a bounded FIFO; a send
    to a full queue times out. *)
Definition ya_hal_os_queue_send (q : qid) (m : msg) : P Z := fun '(s, h) =>
  if bool_decide (length (queues h q) < queue_length q)%nat
  then Done 0 (s, set_queue q (queues h q ++ [m]) h)
  else Done (-1) (s, h).
Definition ya_hal_os_queue_recv (q : qid) : P (option msg) := fun '(s, h) =>
  match queues h q with
  | [] => Done None (s, h)
  | m :: l => Done (Some m) (s, set_queue q l h)
  end.

(** [ya_hal_sys_reboot]: [wdt_reset_chip(1)] ends in [while (1);]. *)
Definition ya_hal_sys_reboot {A} : P A := reset.
End Hw.
Arguments P C S A : clear implicits.

(** A sub-component's computation inside a larger component. *)
Definition zoom_s {C S U A} (g : S -> U) (p : U -> S -> S) (m : P C U A) : P C S A :=
  zoom (fun '(s, h) => (g s, h)) (fun '(u, h) '(s, _) => (p u s, h)) m.

(** ** What the allocator guarantees *)
Section HwLemmas.
Context {C S : Type}.
Implicit Types (s : S) (h : hw C).

Lemma wp_gets {A} (f : S -> A) Q R (t : S * hw C) : Q (f t.1) t -> wp (gets f) Q R t.
Proof. by destruct t. Qed.
Lemma wp_puts f Q R s h : Q tt (f s, h) -> wp (puts f) Q R (s, h).
Proof. done. Qed.
Lemma wp_upd_hw f Q R s h : Q tt (s, f h) -> wp (upd_hw f) Q R (s, h).
Proof. done. Qed.

Lemma wp_zoom {U A} (g : S -> U) p (m : P C U A) Q R s h :
  wp m (fun a t => Q a (p t.1 s, t.2)) (fun t => R (p t.1 s, t.2)) (g s, h) ->
  wp (zoom_s g p m) Q R (s, h).
Proof. unfold wp, zoom_s, zoom. by destruct (m (g s, h)) as [a []| |[]]. Qed.

(** The machine moved only in the allocator, by [n] blocks; a machine with
    memory to spare ([heap] empty) still has some. *)
Definition moved (n : Z) h h' : Prop :=
  h' = set_heap (heap h') (live h + n) h /\ (heap h = [] -> heap h' = []).
Lemma moved_refl h : moved 0 h h.
Proof. unfold moved. destruct h; cbn. by rewrite Z.add_0_r. Qed.
Lemma moved_trans n m h h1 h2 : moved n h h1 -> moved m h1 h2 -> moved (n + m) h h2.
Proof.
  intros [E1 P1] [E2 P2]. split; [|auto]. rewrite E2, E1. cbn. by rewrite Z.add_assoc.
Qed.
Lemma moved_eq n m h h' : moved n h h' -> n = m -> moved m h h'.
Proof. by intros ? <-. Qed.
Lemma moved_free h : moved (-1) h (set_heap (heap h) (live h - 1) h).
Proof. done. Qed.
Lemma moved_fields n h h' : moved n h h' ->
  live h' = live h + n /\ queues h' = queues h /\ trace h' = trace h /\ ticks h' = ticks h
  /\ junk h' = junk h /\ stale h' = stale h /\ chip h' = chip h.
Proof. intros [-> _]. done. Qed.

Lemma wp_alloc_moved n Q R s h :
  0 <= n ->
  (forall b h', len b = n -> is_bytes b -> moved 1 h h' -> Q (Some b) (s, h')) ->
  (forall h', n = 0 \/ heap h <> [] -> moved 0 h h' -> Q None (s, h')) ->
  wp (ya_hal_os_memory_alloc n) Q R (s, h).
Proof.
  intros Hn Hs Hf. unfold wp, ya_hal_os_memory_alloc.
  assert (Hb : len (replicate (Z.to_nat n) (u8 (junk h))) = n)
    by (unfold len; rewrite length_replicate; lia).
  assert (Hb' : is_bytes (replicate (Z.to_nat n) (u8 (junk h))))
    by (apply Forall_replicate, u8_range).
  destruct (Z.eqb_spec n 0); [apply Hf; [by left | apply moved_refl]|].
  unfold moved. destruct (heap h) as [|[] hp] eqn:E; [apply Hs | apply Hs | apply Hf; [by right|]]; try done.
  - split; cbn; [done | congruence].
  - split; cbn; [by rewrite Z.add_0_r | congruence].
Qed.
Lemma wp_free_moved Q R s h :
  (forall h', moved (-1) h h' -> Q tt (s, h')) -> wp ya_hal_os_memory_free Q R (s, h).
Proof. intros HQ. apply wp_upd_hw, HQ, moved_free. Qed.

(** The same, with the flash chip possibly rewritten. *)
Definition stored (n : Z) h h' : Prop :=
  h' = set_heap (heap h') (live h + n) (set_chip (chip h') h) /\ (heap h = [] -> heap h' = []).
Lemma stored_moved n h h' : moved n h h' -> stored n h h'.
Proof. intros [E Hp]. split; [|done]. rewrite E at 1. rewrite E. by destruct h. Qed.
Lemma stored_trans n m h h1 h2 : stored n h h1 -> stored m h1 h2 -> stored (n + m) h h2.
Proof.
  intros [E1 P1] [E2 P2]. split; [|auto]. rewrite E2, E1. cbn. by rewrite Z.add_assoc.
Qed.
Lemma stored_eq n m h h' : stored n h h' -> n = m -> stored m h h'.
Proof. by intros ? <-. Qed.
Lemma stored_chip c h : stored 0 h (set_chip c h).
Proof. unfold stored. destruct h; cbn. by rewrite Z.add_0_r. Qed.
Lemma stored_fields n h h' : stored n h h' ->
  live h' = live h + n /\ queues h' = queues h /\ trace h' = trace h /\ ticks h' = ticks h
  /\ junk h' = junk h /\ stale h' = stale h.
Proof. intros [-> _]. done. Qed.
End HwLemmas.

(** A machine just out of reset, with an erased chip and memory to spare. *)
Definition boot : hw ideal := mkHw (fun _ => 255) [] 0 0 0 0 (fun _ => []) [].
