(* ===== verification/SpiFlash.v ===== *)
(** * The SPI flash driver and the flash HAL

    [drivers/hal_spiflash.c] (read, page-split write, sector erase) over the
    chip interface, and [akeeta/hal/src/ya_hal_flash.c], the flash primitives
    the application calls. *)

From stdpp Require Import base numbers list strings.
From S2P Require Import Prelude Platform.

Definition SPIFLASH_PAGE_SIZE : Z := 256.
Definition SPIFLASH_SECTOR_SIZE : Z := 4096.
Definition SPIFLASH_MEM_LENGTH : Z := 2097152.

Section Driver.
Context {C : Type} `{NorChip C}.

(** The bytes of [addr, addr + n) as the chip holds them: what one command
    read, or one read through the memory-mapped window, returns. *)
Definition nor_bytes (c : C) (addr n : Z) : bytes :=
  (fun i => nor_read c (addr + i)) <$> seqZ 0 n.

(** [spiflash_read]: command reads of at most 0x200 bytes each. *)
Fixpoint spiflash_read_loop (fuel : nat) (c : C) (addr offset left_size : Z) : bytes :=
  match fuel with
  | O => []
  | S fuel =>
    if left_size =? 0 then []
    else let curr_size := Z.min 512 left_size in
         nor_bytes c (addr + offset) curr_size
           ++ spiflash_read_loop fuel c addr (offset + curr_size) (left_size - curr_size)
  end.
Definition spiflash_read (c : C) (addr n : Z) : bytes :=
  spiflash_read_loop (S (Z.to_nat n)) c addr 0 n.

(** [hal_spiflash_read]: the mapped window first, commands beyond it. *)
Definition hal_spiflash_read (c : C) (addr n : Z) : Z * bytes :=
  if addr <? SPIFLASH_MEM_LENGTH then
    let length := if SPIFLASH_MEM_LENGTH <? u32 (addr + n)
                  then SPIFLASH_MEM_LENGTH - addr else n in
    let mapped := nor_bytes c addr length in
    (0, if length =? n then mapped
        else mapped ++ spiflash_read c (addr + length) (n - length))
  else (0, spiflash_read c addr n).

(** The [do ... while (length)] loop of [hal_spifiash_write]: [rest] is what
    is still to be programmed at [address], [length] the next chunk. *)
Fixpoint write_pages (fuel : nat) (c : C) (address : Z) (rest : bytes) (length : Z)
  : Z * C :=
  match fuel with
  | O => (-1, c)
  | S fuel =>
    if negb (nor_wel c) then (-1, c)
    else
      let c' := nor_program c address (take (Z.to_nat length) rest) in
      let rest' := drop (Z.to_nat length) rest in
      let address' := u32 (address + length) in
      let length' := if SPIFLASH_PAGE_SIZE <? len rest' then SPIFLASH_PAGE_SIZE
                     else len rest' in
      if negb (nor_ready c') then (-1, c')
      else if length' =? 0 then (0, c')
      else write_pages fuel c' address' rest' length'
  end.

Definition hal_spifiash_write (c : C) (addr : Z) (buf : bytes) : Z * C :=
  if len buf =? 0 then (0, c)
  else
    let off := addr mod SPIFLASH_PAGE_SIZE in
    let length := if SPIFLASH_PAGE_SIZE - off <? len buf
                  then SPIFLASH_PAGE_SIZE - off else len buf in
    write_pages (List.length buf) c addr buf length.

(** The sector loop of [hal_spiflash_erase]. *)
Fixpoint erase_sectors (n : nat) (c : C) (addr : Z) : Z * C :=
  match n with
  | O => (0, c)
  | S n =>
    if negb (nor_wel c) then (-1, c)
    else let c' := nor_erase c addr in
         if negb (nor_ready c') then (-2, c')
         else erase_sectors n c' (u32 (addr + SPIFLASH_SECTOR_SIZE))
  end.
Definition hal_spiflash_erase (c : C) (addr n : Z) : Z * C :=
  if negb (addr mod SPIFLASH_SECTOR_SIZE =? 0) || negb (n mod SPIFLASH_SECTOR_SIZE =? 0)
  then (-23, c)
  else erase_sectors (Z.to_nat (n / SPIFLASH_SECTOR_SIZE)) c addr.

(** ** [ya_hal_flash.c] *)
Definition ya_SPIFLASH_SECTOR_SIZE : Z := 4096.

Definition ya_hal_flash_read {S} (addr n : Z) : P C S (Z * bytes) := fun '(s, h) =>
  Done (hal_spiflash_read (chip h) addr n) (s, h).

Fixpoint hal_erase_loop (n : nat) (c : C) (addr : Z) : Z * C :=
  match n with
  | O => (0, c)
  | S n =>
    let '(r, c') := hal_spiflash_erase c addr ya_SPIFLASH_SECTOR_SIZE in
    if negb (r =? 0) then (-1, c')
    else hal_erase_loop n c' (u32 (addr + ya_SPIFLASH_SECTOR_SIZE))
  end.
Definition hal_erase (c : C) (addr size : Z) : Z * C :=
  let sector_count := size / ya_SPIFLASH_SECTOR_SIZE
    + (if 0 <? size mod ya_SPIFLASH_SECTOR_SIZE then 1 else 0) in
  hal_erase_loop (Z.to_nat sector_count) c addr.
Definition ya_hal_flash_erase {S} (addr size : Z) : P C S Z := fun '(s, h) =>
  let '(r, c') := hal_erase (chip h) addr size in Done r (s, set_chip c' h).

(** [ya_hal_flash_write] has no [return] after a successful write: its caller
    sees whatever the return register holds ([stale]). *)
Definition ya_hal_flash_write {S} (addr : Z) (data : bytes) : P C S Z := fun '(s, h) =>
  let '(r, c1) := hal_erase (chip h) addr (len data) in
  if negb (r =? 0) then Done (-1) (s, set_chip c1 h)
  else let '(w, c2) := hal_spifiash_write c1 addr data in
       if negb (w =? 0) then Done (-1) (s, set_chip c2 h)
       else Done (stale h) (s, set_chip c2 h).
End Driver.

(** ** The driver does what a flash driver should *)
Section DriverProofs.
Context {C : Type} `{NorChipLaws C}.
Implicit Types c : C.

Lemma len_nor_bytes c a n : 0 <= n -> len (nor_bytes c a n) = n.
Proof. unfold len, nor_bytes. rewrite length_fmap, length_seqZ. lia. Qed.
Lemma lookup_nor_bytes c a n i :
  (Z.of_nat i < n) -> nor_bytes c a n !! i = Some (nor_read c (a + Z.of_nat i)).
Proof.
  intros Hi. unfold nor_bytes. rewrite list_lookup_fmap, lookup_seqZ_lt by lia. done.
Qed.
Lemma is_bytes_nor_bytes c a n : is_bytes (nor_bytes c a n).
Proof. apply Forall_fmap, Forall_forall. intros. apply nor_read_u8. Qed.
(** Two chips agreeing on a range read the same there. *)
Lemma nor_bytes_ext c c' a n :
  (forall x, a <= x < a + n -> nor_read c x = nor_read c' x) ->
  nor_bytes c a n = nor_bytes c' a n.
Proof.
  intros He. unfold nor_bytes. apply list_fmap_ext. intros i x Hx.
  apply lookup_seqZ in Hx. apply He. lia.
Qed.
Lemma nor_bytes_app c a m n :
  0 <= m -> 0 <= n -> nor_bytes c a (m + n) = nor_bytes c a m ++ nor_bytes c (a + m) n.
Proof.
  intros Hm Hn. unfold nor_bytes. rewrite seqZ_app by lia. rewrite fmap_app. f_equal.
  replace (0 + m) with (m + 0) by lia.
  rewrite <- (fmap_add_seqZ m 0 n), <- list_fmap_compose.
  apply list_fmap_ext. intros i x _. cbn. f_equal. lia.
Qed.
Lemma nor_bytes_eq c a (b : bytes) :
  (forall i v, b !! i = Some v -> nor_read c (a + Z.of_nat i) = v) ->
  nor_bytes c a (len b) = b.
Proof.
  intros Hb. apply list_eq. intros i. destruct (b !! i) as [v|] eqn:E.
  - pose proof (lookup_lt_Some _ _ _ E). rewrite lookup_nor_bytes by (unfold len; lia).
    f_equal. auto.
  - apply lookup_ge_None in E. apply lookup_ge_None.
    unfold nor_bytes. rewrite length_fmap, length_seqZ. unfold len. lia.
Qed.

Lemma spiflash_read_loop_eq fuel c a off n :
  0 <= n < Z.of_nat fuel -> spiflash_read_loop fuel c a off n = nor_bytes c (a + off) n.
Proof.
  revert off n. induction fuel as [|fuel IH]; intros off n Hn; [lia|].
  cbn. destruct (Z.eqb_spec n 0) as [->|]; [done|].
  rewrite IH by lia. replace (a + (off + Z.min 512 n)) with (a + off + Z.min 512 n) by lia.
  rewrite <- nor_bytes_app by lia. f_equal. lia.
Qed.

Lemma spiflash_read_eq c a n : 0 <= n -> spiflash_read c a n = nor_bytes c a n.
Proof.
  intros. unfold spiflash_read. rewrite spiflash_read_loop_eq by lia. f_equal. lia.
Qed.

Lemma hal_read_eq c addr n :
  0 <= addr -> 0 <= n -> addr + n < 4294967296 ->
  hal_spiflash_read c addr n = (0, nor_bytes c addr n).
Proof.
  intros Ha Hn Hr. unfold hal_spiflash_read.
  rewrite u32_small by (unfold is_u32; lia).
  destruct (Z.ltb_spec addr SPIFLASH_MEM_LENGTH); [|by rewrite spiflash_read_eq].
  destruct (Z.ltb_spec SPIFLASH_MEM_LENGTH (addr + n)); zbool; try done.
  - by subst.
  - rewrite spiflash_read_eq, <- nor_bytes_app by lia. do 2 f_equal. lia.
Qed.

(** Programming the chunk [x] of [buf] that starts at [addr]. *)
Definition programmed (c c' : C) (addr : Z) (buf : bytes) : Prop :=
  forall x, nor_read c' x =
    if bool_decide (addr <= x < addr + len buf)
    then Z.land (nor_read c x) (buf !!! Z.to_nat (x - addr)) else nor_read c x.

Lemma programmed_app c c1 c2 a (b1 b2 : bytes) :
  programmed c c1 a b1 -> programmed c1 c2 (a + len b1) b2 -> programmed c c2 a (b1 ++ b2).
Proof.
  intros Hp1 Hp2 x. rewrite (Hp2 x), (Hp1 x), len_app.
  pose proof (len_nonneg b1). pose proof (len_nonneg b2).
  repeat case_bool_decide; try lia; try done; f_equal; unfold len in *.
  - rewrite lookup_total_app_r by lia. f_equal. lia.
  - by rewrite lookup_total_app_l by lia.
Qed.

Context `{!NorReliable C}.

Lemma write_pages_spec fuel c address (rest : bytes) length :
  (List.length rest <= fuel)%nat -> is_bytes rest ->
  0 < length <= len rest -> address mod 256 + length <= 256 ->
  (length < len rest -> (address + length) mod 256 = 0) ->
  0 <= address -> address + len rest < 4294967296 ->
  exists c', write_pages fuel c address rest length = (0, c')
             /\ programmed c c' address rest.
Proof.
  revert c address rest length. induction fuel as [|fuel IH];
    intros c address rest length Hf Hb Hl Hp Hal Ha Hr.
  { unfold len in *. lia. }
  cbn [write_pages]. rewrite nor_wel_ok. cbn [negb].
  set (b1 := take (Z.to_nat length) rest). set (b2 := drop (Z.to_nat length) rest).
  assert (Hb12 : rest = b1 ++ b2) by (symmetry; apply take_drop).
  assert (Hl1 : len b1 = length) by (apply len_take; lia).
  assert (Hl2 : len b2 = len rest - length) by (rewrite Hb12, len_app; lia).
  assert (is_bytes b1 /\ is_bytes b2) as [Hb1 Hb2] by (apply is_bytes_app; by rewrite <- Hb12).
  assert (Hp1 : programmed c (nor_program c address b1) address b1).
  { intros x. apply nor_program_spec; [lia | done]. }
  rewrite nor_ready_ok. cbn [negb]. unfold SPIFLASH_PAGE_SIZE.
  destruct (Z.eqb_spec (if 256 <? len b2 then 256 else len b2) 0) as [He|He].
  - eexists. split; [done|].
    assert (b2 = []) as E2.
    { destruct (256 <? len b2) eqn:?; [lia|]. unfold len in He.
      destruct b2; [done|cbn in He; lia]. }
    rewrite Hb12, E2, app_nil_r. done.
  - rewrite u32_small by (unfold is_u32; lia).
    assert (Hpos : 0 < len b2)
      by (pose proof (len_nonneg b2); destruct (Z.ltb_spec 256 (len b2)); lia).
    destruct (IH (nor_program c address b1) (address + length) b2
                 (if 256 <? len b2 then 256 else len b2)) as (c' & Hw & Hc'); try done.
    + rewrite Hb12, length_app in Hf. unfold len in *. lia.
    + pose proof (len_nonneg b2). destruct (Z.ltb_spec 256 (len b2)); lia.
    + rewrite Hal by lia. destruct (Z.ltb_spec 256 (len b2)); lia.
    + intros Hlt. destruct (Z.ltb_spec 256 (len b2)); [|lia].
      rewrite Zplus_mod, Hal by lia. done.
    + lia.
    + lia.
    + exists c'. split; [done|]. rewrite Hb12.
      eapply programmed_app; [done | by rewrite Hl1].
Qed.

Lemma spi_write_spec c addr buf :
  0 <= addr -> addr + len buf < 4294967296 -> is_bytes buf ->
  exists c', hal_spifiash_write c addr buf = (0, c') /\ programmed c c' addr buf.
Proof.
  intros Ha Hr Hb. unfold hal_spifiash_write, SPIFLASH_PAGE_SIZE.
  pose proof (len_nonneg buf). pose proof (Z.mod_pos_bound addr 256 ltac:(lia)).
  destruct (Z.eqb_spec (len buf) 0) as [He|He].
  - exists c. split; [done|]. intros x. rewrite bool_decide_eq_false_2 by lia. done.
  - apply write_pages_spec; try done.
    + destruct (Z.ltb_spec (256 - addr mod 256) (len buf)); lia.
    + destruct (Z.ltb_spec (256 - addr mod 256) (len buf)); lia.
    + destruct (Z.ltb_spec (256 - addr mod 256) (len buf)); [|lia]. intros _.
      replace (addr + (256 - addr mod 256)) with ((addr / 256 + 1) * 256) by (pose proof (Z_div_mod_eq_full addr 256); lia).
      by rewrite Z_mod_mult.
Qed.
End DriverProofs.

(** ** Erasing, and the write primitive of the HAL *)
Section HalProofs.
Context {C : Type} `{NorChipLaws C}.
Implicit Types c : C.

(** [c'] is [c] with [addr, addr + n) set to 0xFF. *)
Definition erased (c c' : C) (addr n : Z) : Prop :=
  forall x, nor_read c' x =
    if bool_decide (addr <= x < addr + n) then 255 else nor_read c x.

Lemma erased_app c c1 c2 a m n :
  0 <= m -> 0 <= n -> erased c c1 a m -> erased c1 c2 (a + m) n -> erased c c2 a (m + n).
Proof.
  intros Hm Hn He1 He2 x. rewrite (He2 x), (He1 x). repeat case_bool_decide; done || lia.
Qed.
Lemma erased_0 c a : erased c c a 0.
Proof. intros x. by rewrite bool_decide_eq_false_2 by lia. Qed.

Lemma hal_spiflash_erase_misaligned c addr n :
  addr mod 4096 <> 0 \/ n mod 4096 <> 0 -> hal_spiflash_erase c addr n = (-23, c).
Proof. intros Hm. unfold hal_spiflash_erase, SPIFLASH_SECTOR_SIZE. zbool; done || lia. Qed.

(** Number of 4 KiB sectors that [size] bytes occupy. *)
Definition sectors (size : Z) : Z :=
  size / 4096 + (if 0 <? size mod 4096 then 1 else 0).
Lemma sectors_bounds size : 0 <= size -> size <= sectors size * 4096 < size + 4096.
Proof.
  intros Hs. unfold sectors. pose proof (Z_div_mod_eq_full size 4096).
  pose proof (Z.mod_pos_bound size 4096). zbool; lia.
Qed.

Context `{!NorReliable C}.

Lemma hal_spiflash_erase_one c addr :
  addr mod 4096 = 0 ->
  exists c', hal_spiflash_erase c addr 4096 = (0, c') /\ erased c c' addr 4096.
Proof.
  intros Ha. unfold hal_spiflash_erase, SPIFLASH_SECTOR_SIZE. rewrite Ha.
  change (4096 mod 4096 =? 0) with true. change (0 =? 0) with true.
  change (Z.to_nat (4096 / 4096)) with 1%nat. cbn [negb orb erase_sectors].
  rewrite nor_wel_ok, nor_ready_ok. cbn [negb]. eexists. split; [done|].
  intros x. by apply nor_erase_spec.
Qed.

Lemma erase_sectors_spec k c addr :
  addr mod 4096 = 0 -> 0 <= addr -> addr + Z.of_nat k * 4096 < 4294967296 ->
  exists c', erase_sectors k c addr = (0, c') /\ erased c c' addr (Z.of_nat k * 4096).
Proof.
  revert c addr. induction k as [|k IH]; intros c addr Ha Hz Hr; cbn [erase_sectors].
  { exists c. split; [done | apply erased_0]. }
  rewrite nor_wel_ok, nor_ready_ok. cbn [negb]. unfold SPIFLASH_SECTOR_SIZE. rewrite u32_small by (unfold is_u32; lia).
  destruct (IH (nor_erase c addr) (addr + 4096)) as (c2 & -> & He2); [|lia|lia|].
  { rewrite Zplus_mod, Ha. done. }
  exists c2. split; [done|]. replace (Z.of_nat (S k) * 4096) with (4096 + Z.of_nat k * 4096) by lia.
  eapply erased_app; [lia|lia| |exact He2]. intros x. by apply nor_erase_spec.
Qed.
Lemma hal_spiflash_erase_whole c addr n : addr mod 4096 = 0 -> n mod 4096 = 0 -> 0 <= addr -> 0 <= n -> addr + n < 4294967296 ->
  exists c', hal_spiflash_erase c addr n = (0, c') /\ erased c c' addr n.
Proof.
  intros Ha Hn4 Hz Hn Hr. unfold hal_spiflash_erase, SPIFLASH_SECTOR_SIZE. rewrite Ha, Hn4. cbn [Z.eqb negb orb].
  assert (En : Z.of_nat (Z.to_nat (n / 4096)) * 4096 = n) by (pose proof (Z_div_mod_eq_full n 4096); pose proof (Z.div_pos n 4096); lia).
  destruct (erase_sectors_spec (Z.to_nat (n / 4096)) c addr) as (c'&Ec&He); [done|done|lia|]. rewrite Ec, En in *. by exists c'.
Qed.

Lemma hal_erase_loop_spec n c addr :
  addr mod 4096 = 0 -> 0 <= addr -> addr + Z.of_nat n * 4096 < 4294967296 ->
  exists c', hal_erase_loop n c addr = (0, c') /\ erased c c' addr (Z.of_nat n * 4096).
Proof.
  revert c addr. induction n as [|n IH]; intros c addr Ha H0' Hr; cbn [hal_erase_loop].
  { exists c. split; [done | apply erased_0]. }
  unfold ya_SPIFLASH_SECTOR_SIZE.
  destruct (hal_spiflash_erase_one c addr Ha) as (c1 & -> & He1). cbn [negb Z.eqb].
  rewrite u32_small by (unfold is_u32; lia).
  destruct (IH c1 (addr + 4096)) as (c2 & -> & He2); [|lia|lia|].
  { rewrite Zplus_mod, Ha. done. }
  exists c2. split; [done|].
  replace (Z.of_nat (S n) * 4096) with (4096 + Z.of_nat n * 4096) by lia.
  by eapply erased_app; [lia|lia|..].
Qed.

Lemma hal_erase_spec c addr size :
  addr mod 4096 = 0 -> 0 <= addr -> 0 <= size -> addr + sectors size * 4096 < 4294967296 ->
  exists c', hal_erase c addr size = (0, c') /\ erased c c' addr (sectors size * 4096).
Proof.
  intros Ha H0' Hs Hr. pose proof (sectors_bounds size Hs).
  destruct (hal_erase_loop_spec (Z.to_nat (sectors size)) c addr Ha H0') as (c' & He & Hc'); [lia|].
  exists c'. split; [exact He|]. by rewrite Z2Nat.id in Hc' by lia.
Qed.

(** What a client may rely on after a write of [data] at [addr]. *)
Definition written (c c' : C) (addr : Z) (data : bytes) : Prop :=
  nor_bytes c' addr (len data) = data /\
  forall x, x < addr \/ addr + sectors (len data) * 4096 <= x ->
    nor_read c' x = nor_read c x.

Lemma land_ff b : is_u8 b -> Z.land 255 b = b.
Proof.
  intros Hb. rewrite Z.land_comm. change 255 with (Z.ones 8).
  rewrite Z.land_ones by lia. by apply Z.mod_small.
Qed.

Lemma hal_write_spec {S} (s : S) (h : hw C) addr data :
  addr mod 4096 = 0 -> 0 <= addr -> is_bytes data ->
  addr + sectors (len data) * 4096 < 4294967296 ->
  exists c', ya_hal_flash_write addr data (s, h) = Done (stale h) (s, set_chip c' h)
             /\ written (chip h) c' addr data.
Proof.
  intros Ha H0' Hb Hr. unfold ya_hal_flash_write.
  pose proof (sectors_bounds (len data) (len_nonneg _)).
  destruct (hal_erase_spec (chip h) addr (len data)) as (c1 & -> & He); try done.
  { apply len_nonneg. }
  destruct (spi_write_spec c1 addr data) as (c2 & -> & Hp); [done|lia|done|].
  exists c2. split; [done|]. split.
  - apply nor_bytes_eq. intros i v Hv. pose proof (lookup_lt_Some _ _ _ Hv).
    rewrite (Hp _), (He _). unfold len in *. rewrite !bool_decide_eq_true_2 by lia.
    replace (Z.to_nat (addr + Z.of_nat i - addr)) with i by lia.
    rewrite (list_lookup_total_correct _ _ _ Hv). apply land_ff.
    by eapply Forall_lookup_1 in Hv.
  - intros x Hx. rewrite (Hp x), (He x). unfold len in *.
    rewrite !bool_decide_eq_false_2 by lia. done.
Qed.
End HalProofs.

(** C29: Writing [data] at a sector-aligned address through the HAL on a chip
    whose polls complete leaves exactly [data] readable there and changes no
    byte outside the sectors it occupies, whatever the page and sector splits. *)
Theorem hal_flash_write_read_back {C} `{NorChipLaws C, !NorReliable C}
    {S} (s : S) (h : hw C) (addr : Z) (data : bytes) :
  addr mod 4096 = 0 -> 0 <= addr -> is_bytes data ->
  addr + sectors (len data) * 4096 < 4294967296 ->
  exists h', ya_hal_flash_write addr data (s, h) = Done (stale h) (s, h')
    /\ ya_hal_flash_read addr (len data) (s, h') = Done (0, data) (s, h')
    /\ forall x, x < addr \/ addr + sectors (len data) * 4096 <= x ->
         nor_read (chip h') x = nor_read (chip h) x.
Proof.
  intros Ha H0' Hb Hr. destruct (hal_write_spec s h addr data) as (c' & Hw & Hd & Hf); try done.
  exists (set_chip c' h). split; [done|]. split; [|done].
  pose proof (sectors_bounds (len data) (len_nonneg _)).
  unfold ya_hal_flash_read. rewrite hal_read_eq by (pose proof (len_nonneg data); lia).
  cbn. by rewrite Hd.
Qed.

(** 300 bytes over two pages of an erased chip. *)
Lemma hal_flash_write_read_back_witness :
  exists h', ya_hal_flash_write 0xAD000 (replicate 300 7) (tt, boot) = Done 0 (tt, h') /\
    ya_hal_flash_read 0xAD000 300 (tt, h') = Done (0, replicate 300 7) (tt, h').
Proof.
  destruct (hal_flash_write_read_back tt boot 0xAD000 (replicate 300 7)) as (h' & Hw & Hr & _);
    [reflexivity|evaluate|evaluate|evaluate|].
  exists h'. split; [exact Hw | exact Hr].
Defined.
