(* ===== verification/Flash.v ===== *)
(** * Checksummed flash records: [akeeta/app/src/ya_flash.c]

    Everything the application persists (user data, licences, timers, light
    state) goes through these four functions: a record is the magic byte 0xAA,
    a 16-bit little-endian length, an 8-bit additive checksum, the data, and
    1 to 4 bytes of padding. *)

From stdpp Require Import base numbers list strings.
From S2P Require Import Prelude Platform SpiFlash.

Definition MAX_DATA_LEN : Z := 4096.

Definition ya_flash_checksum (data : bytes) : Z :=
  foldl (fun checksum b => u8 (checksum + b)) 0 data.

Section YaFlash.
Context {C : Type} `{NorChip C} {S : Type}.

Definition ya_write_flash (flash_addr : Z) (data : bytes) (data_len flash_block : Z)
  : P C S Z :=
  if flash_block =? 0 then ret (-1)
  else if (data_len =? 0) || (MAX_DATA_LEN * flash_block - 10 <? data_len) then ret (-1)
  else
    let alloc_len := u16 (data_len + 4 - data_len mod 4) in
    let* p := ya_hal_os_memory_alloc (alloc_len + 4) in
    match p with
    | None => ret (-1)
    | Some buf =>
      let* buf := wr buf 0 0xAA in
      let* buf := wr buf 1 (Z.land data_len 0xFF) in
      let* buf := wr buf 2 (Z.land (Z.shiftr data_len 8) 0xFF) in
      let* src := rdn data 0 data_len in
      let* buf := wr buf 3 (ya_flash_checksum src) in
      let* buf := memcpy buf 4 src in
      let* r := ya_hal_flash_write flash_addr buf in
      ya_hal_os_memory_free ;;
      ret r
    end.

(** The part both readers share: header, length check against [limit_ok],
    body and checksum.  [Some (buf, total_len)] when the record is good. *)
Definition read_record (flash_addr : Z) (limit_ok : Z -> bool) : P C S (option (bytes * Z)) :=
  let* '(r, header) := ya_hal_flash_read flash_addr 4 in
  if negb (r =? 0) then ret None
  else
    let* h0 := rd header 0 in
    if negb (h0 =? 0xAA) then ret None
    else
      let* h1 := rd header 1 in
      let* h2 := rd header 2 in
      let total_len := u16 (h1 + Z.shiftl (Z.land h2 0xFF) 8) in
      if (MAX_DATA_LEN - 10 <? total_len) || negb (limit_ok total_len) then ret None
      else
        let alloc_len := u16 (total_len + 4 - total_len mod 4) in
        let* p := ya_hal_os_memory_alloc (alloc_len + 4) in
        match p with
        | None => ret None
        | Some _ =>
          let* '(r, buf) := ya_hal_flash_read flash_addr (alloc_len + 4) in
          if negb (r =? 0) then ya_hal_os_memory_free ;; ret None
          else
            let* b3 := rd buf 3 in
            let* body := rdn buf 4 total_len in
            if negb (b3 =? ya_flash_checksum body)
            then ya_hal_os_memory_free ;; ret None
            else ret (Some (buf, total_len))
        end.

Definition ya_read_flash_with_fix_len (flash_addr : Z) (data : bytes)
    (data_len flash_block : Z) : P C S (Z * bytes) :=
  if flash_block =? 0 then ret (-1, data)
  else if (data_len =? 0) || (MAX_DATA_LEN * flash_block - 10 <? data_len)
  then ret (-1, data)
  else
    let* o := read_record flash_addr (fun _ => true) in
    match o with
    | None => ret (-1, data)
    | Some (buf, total_len) =>
      let* src := rdn buf 4 (if data_len <=? total_len then data_len else total_len) in
      let* data := memcpy data 0 src in
      ya_hal_os_memory_free ;;
      ret (0, data)
    end.

(** Returns the status, the buffer and the updated [*data_len]. *)
Definition ya_read_flash_with_var_len (flash_addr : Z) (data : bytes)
    (data_len flash_block : Z) : P C S (Z * bytes * Z) :=
  if flash_block =? 0 then ret (-1, data, data_len)
  else if (data_len =? 0) || (MAX_DATA_LEN * flash_block - 10 <? data_len)
  then ret (-1, data, data_len)
  else
    let* o := read_record flash_addr (fun total_len => negb (data_len <? total_len)) in
    match o with
    | None => ret (-1, data, data_len)
    | Some (buf, total_len) =>
      let* src := rdn buf 4 total_len in
      let* data := memcpy data 0 src in
      ya_hal_os_memory_free ;;
      ret (0, data, total_len)
    end.

Definition ya_erase_flash (flash_addr data_len : Z) : P C S Z :=
  let* r := ya_hal_flash_erase flash_addr data_len in
  if r =? 0 then ret (-1) else ret 0.
End YaFlash.

(** ** The image of a record *)
Definition record_image (data pad : bytes) : bytes :=
  [0xAA; u8 (len data); u8 (Z.shiftr (len data) 8); ya_flash_checksum data] ++ data ++ pad.
(** Bytes a record of [n] bytes occupies, header and padding included. *)
Definition record_size (n : Z) : Z := n + 4 - n mod 4 + 4.

Lemma checksum_u8 data : is_u8 (ya_flash_checksum data).
Proof.
  unfold ya_flash_checksum. induction data as [|x data IH] using rev_ind.
  - unfold is_u8; cbn; lia.
  - rewrite foldl_app. apply u8_range.
Qed.
#[export] Hint Resolve checksum_u8 : cint.

(** The checksum is the sum of the bytes modulo 256. *)
Lemma checksum_sum data : ya_flash_checksum data = u8 (foldr Z.add 0 data).
Proof.
  unfold ya_flash_checksum.
  enough (Hg : forall a, foldl (fun c b => u8 (c + b)) (u8 a) data = u8 (a + foldr Z.add 0 data)).
  { apply (Hg 0). }
  induction data as [|x data IH]; intros a; cbn.
  - f_equal. lia.
  - replace (u8 (u8 a + x)) with (u8 (a + x)) by (unfold u8; by rewrite Zplus_mod_idemp_l).
    rewrite IH. f_equal. lia.
Qed.

Lemma land_ff_u8 z : Z.land z 255 = u8 z.
Proof. change 255 with (Z.ones 8). by rewrite Z.land_ones by lia. Qed.

Lemma shiftl_8 a : Z.shiftl a 8 = a * 256.
Proof. rewrite Z.shiftl_mul_pow2 by lia. done. Qed.
Lemma shiftr_8 a : Z.shiftr a 8 = a / 256.
Proof. rewrite Z.shiftr_div_pow2 by lia. done. Qed.

(** Splitting a 16-bit value into its bytes and putting it back together. *)
Lemma u16_split n : is_u16 n -> u8 n + Z.shiftl (u8 (Z.shiftr n 8)) 8 = n.
Proof.
  unfold is_u16, u8. intros Hn. rewrite shiftl_8, shiftr_8.
  assert (n / 256 < 256) by (apply Z.div_lt_upper_bound; lia).
  assert (0 <= n / 256) by (apply Z.div_pos; lia).
  rewrite (Z.mod_small (n / 256)) by lia. pose proof (Z_div_mod_eq_full n 256). lia.
Qed.

Lemma is_bytes_image data pad : is_bytes data -> is_bytes pad -> is_bytes (record_image data pad).
Proof.
  intros Hd Hp. unfold record_image. apply is_bytes_app. split.
  - repeat constructor; try apply u8_range; try apply checksum_u8; unfold is_u8; lia.
  - by apply is_bytes_app.
Qed.
Lemma len_image data pad : len (record_image data pad) = len data + len pad + 4.
Proof. unfold record_image. rewrite len_app, len_app. unfold len. cbn. lia. Qed.

Lemma slice_image data pad : slice (record_image data pad) 4 (len data) = data.
Proof.
  unfold slice, record_image, len. rewrite Nat2Z.id. rewrite drop_app_length' by done.
  by rewrite take_app_length.
Qed.

Section Proofs.
Context {C : Type} `{NorChipLaws C} {S : Type}.
Implicit Types (s : S) (h : hw C) (c : C).

(** The chip holds a good record of [data] at [addr]. *)
Definition holds c addr data : Prop :=
  exists pad, nor_bytes c addr (record_size (len data)) = record_image data pad.

Lemma record_size_bounds n : 0 <= n -> n + 5 <= record_size n <= n + 8.
Proof. intros. unfold record_size. pose proof (Z.mod_pos_bound n 4). lia. Qed.

(** Erasing or writing other sectors keeps a record. *)
Lemma holds_frame c c' addr data :
  (forall x, addr <= x < addr + record_size (len data) -> nor_read c' x = nor_read c x) ->
  holds c addr data -> holds c' addr data.
Proof.
  intros Hx [pad Hp]. exists pad. rewrite <- Hp. apply nor_bytes_ext. auto.
Qed.

Lemma holds_prefix c addr data n :
  holds c addr data -> 0 <= n <= record_size (len data) ->
  exists pad, nor_bytes c addr n = take (Z.to_nat n) (record_image data pad).
Proof.
  intros [pad Hp] Hn. exists pad. rewrite <- Hp.
  replace (record_size (len data)) with (n + (record_size (len data) - n)) by lia.
  rewrite nor_bytes_app by lia.
  rewrite take_app_length'; [done|]. pose proof (len_nor_bytes c addr n). unfold len in *. lia.
Qed.

Lemma holds_read c addr data :
  holds c addr data -> 0 <= addr -> addr + record_size (len data) < 4294967296 ->
  0 < len data ->
  exists pad, hal_spiflash_read c addr 4 = (0, take 4 (record_image data pad)) /\
    hal_spiflash_read c addr (record_size (len data)) = (0, record_image data pad).
Proof.
  intros Hh Ha Hr Hl. pose proof (record_size_bounds (len data)).
  destruct Hh as [pad Hp]. exists pad. rewrite !hal_read_eq by lia. rewrite Hp. split; [|done].
  f_equal. rewrite <- Hp.
  replace (record_size (len data)) with (4 + (record_size (len data) - 4)) by lia.
  rewrite nor_bytes_app by lia. rewrite take_app_length'; [done|].
  pose proof (len_nor_bytes c addr 4). unfold len in *. lia.
Qed.

(** ** Reading is safe on any flash content

    Whatever the chip holds and whatever the allocator answers, a read
    returns, touches no memory outside its buffers, frees what it allocated,
    and on failure leaves the caller's buffer as it was. *)
Definition quiet h h' : Prop := moved 0 h h'.
Lemma quiet_refl h : quiet h h.
Proof. apply moved_refl. Qed.
(** A block was taken: the state differs from [h] only by it. *)
Definition taken h h' : Prop := moved 1 h h'.
Lemma taken_free h h' : taken h h' -> quiet h (set_heap (heap h') (live h' - 1) h').
Proof. intros Ht. exact (moved_trans _ _ _ _ _ Ht (moved_free h')). Qed.

Lemma wp_hal_flash_read addr n Q R s h :
  0 <= addr -> 0 <= n -> addr + n < 4294967296 ->
  Q (0, nor_bytes (chip h) addr n) (s, h) -> wp (ya_hal_flash_read addr n) Q R (s, h).
Proof. intros Ha Hn Hr HQ. unfold wp, ya_hal_flash_read. by rewrite hal_read_eq by lia. Qed.
Lemma wp_free Q R s h :
  Q tt (s, set_heap (heap h) (live h - 1) h) -> wp ya_hal_os_memory_free Q R (s, h).
Proof. done. Qed.

Lemma wp_read_record addr lim Q R s h :
  0 <= addr -> addr + 8192 < 4294967296 ->
  (forall h', quiet h h' -> Q None (s, h')) ->
  (forall buf n h', 0 <= n <= 4086 -> lim n = true ->
     buf = nor_bytes (chip h) addr (record_size n) -> len buf = record_size n ->
     taken h h' -> Q (Some (buf, n)) (s, h')) ->
  wp (read_record addr lim) Q R (s, h).
Proof.
  intros Ha Hr Hn Hs. unfold read_record.
  wstep. apply wp_hal_flash_read; [lia..|]. cbn [negb Z.eqb].
  pose proof (len_nor_bytes (chip h) addr 4 ltac:(lia)).
  do 2 wstep. wstep; [apply wp_ret, Hn, quiet_refl|].
  do 4 wstep. wstep; [apply wp_ret, Hn, quiet_refl|].
  set (n := u16 _) in *.
  assert (0 <= n <= 4086 /\ lim n = true) as [Hn1 Hn2].
  { assert (Hu : is_u16 n) by apply u16_range. unfold is_u16, MAX_DATA_LEN in *.
    destruct (lim n); zbool; done || lia. }
  pose proof (record_size_bounds n ltac:(lia)).
  assert (Halloc : u16 (n + 4 - n mod 4) + 4 = record_size n).
  { unfold record_size in *. rewrite u16_small; [lia|]. unfold is_u16.
    pose proof (Z.mod_pos_bound n 4). lia. }
  rewrite Halloc. wstep. apply wp_alloc_moved; [lia| |].
  - intros b h1 _ _ Hh1.
    wstep. apply wp_hal_flash_read; [lia..|]. cbn [negb Z.eqb].
    replace (chip h1) with (chip h) by (by destruct Hh1 as [-> _]).
    pose proof (len_nor_bytes (chip h) addr (record_size n) ltac:(lia)).
    do 4 wstep. wstep.
    + wstep. apply wp_free. apply wp_ret, Hn. by apply taken_free.
    + apply wp_ret. by apply Hs.
  - intros h1 _ Hh1. by apply wp_ret, Hn.
Qed.

Lemma wp_read_var addr data data_len block Q R s h :
  0 <= addr -> addr + 8192 < 4294967296 -> 0 <= data_len <= len data ->
  (forall h', quiet h h' -> Q (-1, data, data_len) (s, h')) ->
  (forall body n h', 0 <= n <= 4086 -> n <= data_len -> len body = n ->
     body = slice (nor_bytes (chip h) addr (record_size n)) 4 n -> quiet h h' ->
     Q (0, splice data 0 body, n) (s, h')) ->
  wp (ya_read_flash_with_var_len addr data data_len block) Q R (s, h).
Proof.
  intros Ha Hr Hd Hf Hs. unfold ya_read_flash_with_var_len.
  wstep; [apply wp_ret, Hf, quiet_refl|]. wstep; [apply wp_ret, Hf, quiet_refl|].
  wstep. apply wp_read_record; [done | done | by intros; apply wp_ret, Hf |].
  intros buf n h1 Hn Hlim Hbuf Hlb Ht. cbn in Hlim.
  pose proof (record_size_bounds n ltac:(lia)).
  assert (n <= data_len) by (destruct (Z.ltb_spec data_len n); [done | lia]).
  assert (len (slice buf 4 n) = n) by (apply len_slice; lia).
  do 4 wstep. wstep. apply wp_free, wp_ret, Hs; [lia..|by rewrite Hbuf| by apply taken_free].
Qed.

Lemma wp_read_fix addr data data_len block Q R s h :
  0 <= addr -> addr + 8192 < 4294967296 -> 0 <= data_len <= len data ->
  (forall h', quiet h h' -> Q (-1, data) (s, h')) ->
  (forall body n h', 0 <= n <= 4086 -> len body = Z.min data_len n ->
     body = slice (nor_bytes (chip h) addr (record_size n)) 4 (Z.min data_len n) ->
     quiet h h' -> Q (0, splice data 0 body) (s, h')) ->
  wp (ya_read_flash_with_fix_len addr data data_len block) Q R (s, h).
Proof.
  intros Ha Hr Hd Hf Hs. unfold ya_read_flash_with_fix_len.
  wstep; [apply wp_ret, Hf, quiet_refl|]. wstep; [apply wp_ret, Hf, quiet_refl|].
  wstep. apply wp_read_record; [done | done | by intros; apply wp_ret, Hf |].
  intros buf n h1 Hn _ Hbuf Hlb Ht.
  pose proof (record_size_bounds n ltac:(lia)).
  replace (if data_len <=? n then data_len else n) with (Z.min data_len n) by (zbool; lia).
  assert (len (slice buf 4 (Z.min data_len n)) = Z.min data_len n) by (apply len_slice; lia).
  do 4 wstep. wstep.
  apply wp_free, wp_ret, (Hs _ n); [lia..|by rewrite Hbuf| by apply taken_free].
Qed.

(** A good record is read back, provided the allocator has memory. *)
Lemma read_record_holds addr lim data s h :
  holds (chip h) addr data -> 0 <= addr -> addr + 8192 < 4294967296 ->
  0 < len data <= 4086 -> lim (len data) = true -> heap h = [] ->
  exists pad, read_record addr lim (s, h) =
    Done (Some (record_image data pad, len data)) (s, set_heap [] (live h + 1) h).
Proof.
  intros Hh Ha Hr Hd Hl Hheap.
  pose proof (record_size_bounds (len data) ltac:(lia)) as Hrs.
  destruct (holds_read (chip h) addr data) as (pad & Hr4 & Hrn); [done|lia..|].
  rewrite hal_read_eq in Hr4, Hrn by lia. apply (f_equal snd) in Hr4, Hrn. cbn [snd] in Hr4, Hrn.
  pose proof (len_nor_bytes (chip h) addr (record_size (len data)) ltac:(lia)) as Hlen.
  rewrite Hrn, len_image in Hlen. exists pad.
  enough (Hw : wp (read_record addr lim) (fun o t => o = Some (record_image data pad, len data)
     /\ t = (s, set_heap [] (live h + 1) h)) (fun _ => False) (s, h)).
  { apply wp_elim in Hw as (? & ? & -> & -> & ->). done. }
  unfold read_record. wstep. apply wp_hal_flash_read; [lia..|]. rewrite Hr4.
  cbn [negb Z.eqb take app record_image]. wstep. wstep; [by cbn|].
  cbn [negb]. wstep; [done|]. wstep. wstep; [by cbn|]. wstep. wstep; [by cbn|].
  change (_ !!! Z.to_nat 1) with (u8 (len data)).
  change (_ !!! Z.to_nat 2) with (u8 (Z.shiftr (len data) 8)).
  rewrite land_ff_u8, (u8_small (u8 _)) by apply u8_range.
  rewrite u16_split by (unfold is_u16; lia).
  rewrite u16_small by (unfold is_u16; lia).
  rewrite Hl. unfold MAX_DATA_LEN. wstep; [exfalso; zbool; done || lia|].
  replace (u16 (len data + 4 - len data mod 4) + 4) with (record_size (len data)).
  2:{ unfold record_size in *. rewrite u16_small; [lia|]. unfold is_u16. lia. }
  wstep. unfold ya_hal_os_memory_alloc, wp at 1. rewrite Hheap.
  destruct (Z.eqb_spec (record_size (len data)) 0); [lia|].
  wstep. apply wp_hal_flash_read; [lia..|]. cbn [chip set_heap]. rewrite Hrn.
  cbn [negb Z.eqb]. pose proof (len_image data pad). pose proof (len_nonneg pad).
  wstep. wstep. wstep. wstep.
  rewrite slice_image.
  change (_ !!! Z.to_nat 3) with (ya_flash_checksum data).
  rewrite Z.eqb_refl. wstep; [done|]. by apply wp_ret.
Qed.

Theorem read_var_holds addr data buf cap block s h :
  holds (chip h) addr data -> 0 <= addr -> addr + 8192 < 4294967296 ->
  0 < len data <= 4086 -> len data <= cap <= len buf -> cap <= 4096 * block - 10 ->
  0 < block -> heap h = [] ->
  ya_read_flash_with_var_len addr buf cap block (s, h) =
    Done (0, splice buf 0 data, len data) (s, set_heap [] (live h) h).
Proof.
  intros Hh Ha Hr Hd Hc Hb Hb0 Hheap. unfold ya_read_flash_with_var_len, MAX_DATA_LEN.
  destruct (Z.eqb_spec block 0); [lia|]. destruct (Z.eqb_spec cap 0); [lia|].
  destruct (Z.ltb_spec (4096 * block - 10) cap); [lia|]. cbn [orb].
  destruct (read_record_holds addr (fun n => negb (cap <? n)) data s h) as [pad Hrec]; try done.
  { zbool; [lia|done]. }
  erewrite bind_done by exact Hrec.
  pose proof (len_image data pad). pose proof (len_nonneg pad).
  brun. rewrite slice_image. brun. cbn. do 2 f_equal. by rewrite Z.add_simpl_r.
Qed.

Lemma read_fix_holds addr data buf n block s h :
  holds (chip h) addr data -> 0 <= addr -> addr + 8192 < 4294967296 ->
  0 < len data <= 4086 -> 0 < n <= len buf -> n <= 4096 * block - 10 ->
  0 < block -> heap h = [] ->
  ya_read_flash_with_fix_len addr buf n block (s, h) =
    Done (0, splice buf 0 (take (Z.to_nat n) data)) (s, set_heap [] (live h) h).
Proof.
  intros Hh Ha Hr Hd Hc Hb Hb0 Hheap. unfold ya_read_flash_with_fix_len, MAX_DATA_LEN.
  destruct (Z.eqb_spec block 0); [lia|]. destruct (Z.eqb_spec n 0); [lia|].
  destruct (Z.ltb_spec (4096 * block - 10) n); [lia|]. cbn [orb].
  destruct (read_record_holds addr (fun _ => true) data s h) as [pad Hrec]; try done.
  erewrite bind_done by exact Hrec.
  pose proof (len_image data pad). pose proof (len_nonneg pad).
  cbn beta iota. replace (if n <=? len data then n else len data) with (Z.min n (len data)) by (zbool; lia).
  brun. replace (slice (record_image data pad) 4 (Z.min n (len data))) with (take (Z.to_nat n) data).
  2:{ rewrite <- (slice_image data pad) at 1. unfold slice. rewrite take_take. f_equal. lia. }
  assert (len (take (Z.to_nat n) data) <= n) by (unfold len; rewrite length_take; lia).
  brun. cbn. do 2 f_equal. by rewrite Z.add_simpl_r.
Qed.

(** Writing and erasing are safe on any chip and allocator: they end, move no
    heap block and touch nothing but the chip. *)
Lemma wp_hal_flash_write addr data Q R s h :
  (forall r h', stored 0 h h' -> Q r (s, h')) -> wp (ya_hal_flash_write addr data) Q R (s, h).
Proof.
  intros HQ. unfold wp, ya_hal_flash_write.
  destruct (hal_erase _ _ _) as [r c1]. destruct (negb (r =? 0)); [apply HQ, stored_chip|].
  destruct (hal_spifiash_write _ _ _) as [w c2].
  destruct (negb (w =? 0)); apply HQ, stored_chip.
Qed.
Lemma wp_erase_flash addr n Q R s h :
  (forall r h', stored 0 h h' -> Q r (s, h')) -> wp (ya_erase_flash addr n) Q R (s, h).
Proof.
  intros HQ. unfold ya_erase_flash, ya_hal_flash_erase. wstep. unfold wp at 1.
  destruct (hal_erase _ _ _) as [r c1]. wstep; apply wp_ret, HQ, stored_chip.
Qed.
Lemma wp_write_flash addr data n block Q R s h :
  0 <= n <= len data -> n + 8 < 65536 ->
  (forall r h', stored 0 h h' -> Q r (s, h')) ->
  wp (ya_write_flash addr data n block) Q R (s, h).
Proof.
  intros Hn Hn' HQ. unfold ya_write_flash.
  assert (Hz : Q (-1) (s, h)) by (apply HQ, stored_moved, moved_refl).
  wstep; [by apply wp_ret|]. wstep; [by apply wp_ret|].
  pose proof (record_size_bounds n ltac:(lia)).
  replace (u16 (n + 4 - n mod 4) + 4) with (record_size n).
  2:{ unfold record_size in *. rewrite u16_small; [lia|]. unfold is_u16. lia. }
  wstep. apply wp_alloc_moved; [lia| |].
  2:{ intros h1 _ M1. apply wp_ret, HQ. by apply stored_moved. }
  intros b h1 Hb _ M1.
  do 6 (wstep; wstep; try (autorewrite with blen; lia)).
  wstep. apply wp_hal_flash_write. intros r h2 M2. wstep. apply wp_free_moved. intros h3 M3.
  apply wp_ret, HQ.
  exact (stored_trans _ _ _ _ _ (stored_moved _ _ _ M1)
    (stored_trans _ _ _ _ _ M2 (stored_moved _ _ _ M3))).
Qed.

(** ** Writing *)
Context `{!NorReliable C}.

Lemma write_image (b : bytes) src :
  len b = record_size (len src) ->
  splice (<[3%nat := ya_flash_checksum src]> (<[2%nat := u8 (Z.shiftr (len src) 8)]>
    (<[1%nat := u8 (len src)]> (<[0%nat := 0xAA]> b)))) 4 src
  = record_image src (drop (4 + length src) b).
Proof.
  intros Hl. pose proof (record_size_bounds (len src) (len_nonneg _)) as Hrs. unfold len in Hl, Hrs.
  destruct b as [|? [|? [|? [|? b]]]]; cbn in Hl; try lia. done.
Qed.

(** [ya_write_flash] is one write of the record's image, whatever the chip. *)
Lemma write_flash_run addr data n block s h :
  0 < block <= 16 -> 0 < n <= 4096 * block - 10 -> n <= len data -> is_bytes data -> heap h = [] ->
  exists pad h1, is_bytes (record_image (slice data 0 n) pad) /\
    len (record_image (slice data 0 n) pad) = record_size n /\ chip h1 = chip h /\ stale h1 = stale h /\
    forall r c', ya_hal_flash_write addr (record_image (slice data 0 n) pad) (s, h1)
        = Done r (s, set_chip c' h1) ->
      ya_write_flash addr data n block (s, h) = Done r (s, set_chip c' h).
Proof.
  intros Hb Hn Hl Hbytes Hheap. unfold ya_write_flash, MAX_DATA_LEN.
  destruct (Z.eqb_spec block 0); [lia|]. destruct (Z.eqb_spec n 0); [lia|].
  destruct (Z.ltb_spec (4096 * block - 10) n); [lia|]. cbn [orb].
  pose proof (record_size_bounds n ltac:(lia)).
  replace (u16 (n + 4 - n mod 4) + 4) with (record_size n).
  2:{ unfold record_size in *. rewrite u16_small; [lia|]. unfold is_u16. lia. }
  set (b := replicate (Z.to_nat (record_size n)) (u8 (junk h))).
  assert (Hlb : len b = record_size n) by (unfold len, b; rewrite length_replicate; lia).
  set (src := slice data 0 n). assert (Hls : len src = n) by (apply len_slice; lia).
  assert (Hsb : is_bytes src) by (by apply is_bytes_slice).
  set (pad := drop (4 + length src) b). set (h1 := set_heap [] (live h + 1) h).
  exists pad, h1. split; [|split; [|split; [done|split; [done|]]]].
  { apply is_bytes_image; [done|]. apply Forall_drop, Forall_replicate, u8_range. }
  { rewrite len_image, Hls. unfold pad, len in *. rewrite length_drop. lia. }
  intros r c' Hw. erewrite bind_done.
  2:{ unfold ya_hal_os_memory_alloc. rewrite Hheap.
      destruct (Z.eqb_spec (record_size n) 0); [lia|]. fold b. reflexivity. }
  rewrite !land_ff_u8. do 6 brun. fold src.
  rewrite !(u8_small (u8 _)) by apply u8_range. rewrite (u8_small (ya_flash_checksum _)) by apply checksum_u8.
  change (u8 170) with 170. change (Z.to_nat 0) with 0%nat. change (Z.to_nat 1) with 1%nat.
  change (Z.to_nat 2) with 2%nat. change (Z.to_nat 3) with 3%nat.
  rewrite <- Hls in Hlb |- *. rewrite write_image by done.
  erewrite bind_done by exact Hw. cbn. do 2 f_equal. unfold set_chip, set_heap. cbn.
  rewrite Z.add_simpl_r, <- Hheap. by destruct h.
Qed.

Lemma write_flash_spec addr data n block s h :
  addr mod 4096 = 0 -> 0 <= addr -> addr + block * 4096 < 4294967296 ->
  0 < block <= 16 -> 0 < n <= 4096 * block - 10 -> n <= len data -> is_bytes data ->
  heap h = [] ->
  exists c', ya_write_flash addr data n block (s, h) = Done (stale h) (s, set_chip c' h)
    /\ holds c' addr (slice data 0 n)
    /\ forall x, x < addr \/ addr + block * 4096 <= x -> nor_read c' x = nor_read (chip h) x.
Proof.
  intros Ha H0' Hr Hb Hn Hl Hbytes Hheap.
  destruct (write_flash_run addr data n block s h) as (pad & h1 & Hbi & Hli & Hc1 & Hs1 & Hrun); [done..|].
  pose proof (record_size_bounds n ltac:(lia)).
  pose proof (sectors_bounds (record_size n) ltac:(lia)).
  destruct (hal_write_spec s h1 addr (record_image (slice data 0 n) pad)) as (c' & Hw & Hrd & Hfr);
    [done|done|done|rewrite Hli; lia|].
  exists c'. split; [rewrite <- Hs1; by apply Hrun|]. split.
  - exists pad. rewrite len_slice, <- Hli by lia. exact Hrd.
  - intros x Hx. rewrite Hfr, Hc1; [done|]. rewrite Hli. lia.
Qed.

(** A record longer than 4086 bytes is refused whatever the reader asks. *)
Lemma read_record_oversized addr lim data s h :
  holds (chip h) addr data -> 0 <= addr -> addr + 65544 < 4294967296 ->
  4086 < len data < 65536 -> read_record addr lim (s, h) = Done None (s, h).
Proof.
  intros Hh Ha Hr Hd. pose proof (record_size_bounds (len data) ltac:(lia)) as Hrs.
  destruct (holds_read (chip h) addr data) as (pad & Hr4 & _); [done|lia..|].
  rewrite hal_read_eq in Hr4 by lia. apply (f_equal snd) in Hr4. cbn [snd] in Hr4.
  unfold read_record. erewrite bind_done.
  2:{ unfold ya_hal_flash_read. rewrite hal_read_eq by lia. rewrite Hr4. reflexivity. }
  cbn beta iota. cbn [negb Z.eqb take app record_image].
  erewrite bind_done by (apply rd_ok; by cbn).
  change (_ !!! Z.to_nat 0) with 170. cbn [negb Z.eqb Pos.eqb].
  do 2 (erewrite bind_done by (apply rd_ok; by cbn)).
  change (_ !!! Z.to_nat 1) with (u8 (len data)).
  change (_ !!! Z.to_nat 2) with (u8 (Z.shiftr (len data) 8)).
  rewrite land_ff_u8, (u8_small (u8 _)) by apply u8_range.
  rewrite u16_split by (unfold is_u16; lia). rewrite u16_small by (unfold is_u16; lia).
  unfold MAX_DATA_LEN. destruct (Z.ltb_spec (4096 - 10) (len data)); [done|lia].
Qed.
(** What the readers test before they trust a record. *)
Definition record_ok c addr : bool :=
  let n := u16 (nor_read c (addr + 1) + Z.shiftl (Z.land (nor_read c (addr + 2)) 0xFF) 8) in
  (nor_read c addr =? 0xAA) && (n <=? 4086) &&
  (nor_read c (addr + 3) =? ya_flash_checksum (nor_bytes c (addr + 4) n)).
Lemma rd_nor {T} c a n i (t : T) :
  0 <= i < n -> rd (nor_bytes c a n) i t = Done (nor_read c (a + i)) t.
Proof.
  intros Hi. rewrite rd_ok by (rewrite len_nor_bytes; lia).
  rewrite list_lookup_total_alt, lookup_nor_bytes by lia. cbn. do 2 f_equal. lia.
Qed.
Lemma rdn_nor {T} c a n off m (t : T) :
  0 <= off -> 0 <= m -> off + m <= n ->
  rdn (nor_bytes c a n) off m t = Done (nor_bytes c (a + off) m) t.
Proof.
  intros Ho Hm Hn. apply (rdn_at _ (nor_bytes c a off) _ (nor_bytes c (a + off + m) (n - off - m))).
  - rewrite <- !nor_bytes_app by lia. f_equal. lia.
  - by rewrite len_nor_bytes.
  - by rewrite len_nor_bytes.
Qed.
(** A damaged record is refused, by magic, length or checksum, and costs nothing. *)
Lemma read_record_bad addr lim s h :
  0 <= addr -> addr + 8192 < 4294967296 -> record_ok (chip h) addr = false -> heap h = [] ->
  read_record addr lim (s, h) = Done None (s, h).
Proof.
  intros Ha Hr Hok Hheap. unfold read_record.
  assert (Hread : forall k (h1 : hw C), 0 <= k <= 4100 -> chip h1 = chip h ->
    ya_hal_flash_read addr k (s, h1) = Done (0, nor_bytes (chip h) addr k) (s, h1)).
  { intros k h1 Hk Hc. unfold ya_hal_flash_read. by rewrite Hc, hal_read_eq by lia. }
  erewrite bind_done by (by apply Hread). cbn beta iota. cbn [negb Z.eqb].
  erewrite bind_done by (by apply rd_nor). rewrite Z.add_0_r. unfold record_ok in Hok.
  destruct (nor_read (chip h) addr =? 170); [|done]. cbn [negb andb] in *.
  do 2 (erewrite bind_done by (by apply rd_nor)). cbn beta zeta in *.
  set (n := u16 _) in *. assert (Hn : is_u16 n) by apply u16_range. unfold is_u16, MAX_DATA_LEN in *.
  destruct (Z.ltb_spec (4096 - 10) n); [done|]. destruct (Z.leb_spec n 4086); [|lia].
  destruct (lim n); [|done]. cbn [negb orb andb] in *.
  pose proof (record_size_bounds n ltac:(lia)).
  replace (u16 (n + 4 - n mod 4) + 4) with (record_size n).
  2:{ unfold record_size in *. rewrite u16_small; [lia|]. unfold is_u16. lia. }
  erewrite bind_done.
  2:{ unfold ya_hal_os_memory_alloc. rewrite Hheap.
      destruct (Z.eqb_spec (record_size n) 0); [lia|reflexivity]. }
  cbn beta iota. erewrite bind_done by (apply Hread; [lia|done]). cbn beta iota. cbn [negb Z.eqb].
  erewrite bind_done by (apply rd_nor; lia). erewrite bind_done by (apply rdn_nor; lia).
  rewrite Hok. cbn. do 2 f_equal. unfold set_heap. cbn. rewrite Z.add_simpl_r, <- Hheap. by destruct h.
Qed.
Lemma read_fix_bad addr buf n block s h :
  0 <= addr -> addr + 8192 < 4294967296 -> record_ok (chip h) addr = false -> heap h = [] ->
  ya_read_flash_with_fix_len addr buf n block (s, h) = Done (-1, buf) (s, h).
Proof.
  intros. unfold ya_read_flash_with_fix_len.
  destruct (block =? 0); [done|]. destruct (_ || _); [done|].
  by erewrite bind_done by (by apply read_record_bad).
Qed.
Lemma blank_not_ok c addr : nor_read c addr <> 0xAA -> record_ok c addr = false.
Proof. intros Hm. unfold record_ok. by rewrite (proj2 (Z.eqb_neq _ _) Hm). Qed.
(** An area without the magic byte holds no record. *)
Lemma read_record_blank addr lim s h :
  0 <= addr -> addr + 4 < 4294967296 -> nor_read (chip h) addr <> 0xAA ->
  read_record addr lim (s, h) = Done None (s, h).
Proof.
  intros Ha Hr Hm. unfold read_record. erewrite bind_done.
  2:{ unfold ya_hal_flash_read. rewrite hal_read_eq by lia. reflexivity. }
  cbn beta iota. cbn [negb Z.eqb]. pose proof (len_nor_bytes (chip h) addr 4 ltac:(lia)).
  erewrite bind_done by (apply rd_ok; lia).
  rewrite list_lookup_total_alt, lookup_nor_bytes by (cbn; lia). cbn [default].
  rewrite Z.add_0_r. cbn.
  destruct (Z.eqb_spec (nor_read (chip h) addr) 170); done.
Qed.
Lemma read_var_blank addr buf cap block s h :
  0 <= addr -> addr + 4 < 4294967296 -> nor_read (chip h) addr <> 0xAA ->
  ya_read_flash_with_var_len addr buf cap block (s, h) = Done (-1, buf, cap) (s, h).
Proof.
  intros Ha Hr Hm. unfold ya_read_flash_with_var_len.
  destruct (block =? 0); [done|]. destruct (_ || _); [done|].
  by erewrite bind_done by (by apply read_record_blank).
Qed.
Lemma read_fix_blank addr buf n block s h :
  0 <= addr -> addr + 4 < 4294967296 -> nor_read (chip h) addr <> 0xAA ->
  ya_read_flash_with_fix_len addr buf n block (s, h) = Done (-1, buf) (s, h).
Proof.
  intros Ha Hr Hm. unfold ya_read_flash_with_fix_len.
  destruct (block =? 0); [done|]. destruct (_ || _); [done|].
  by erewrite bind_done by (by apply read_record_blank).
Qed.
Lemma erase_flash_spec addr n s h :
  addr mod 4096 = 0 -> 0 <= addr -> 0 < n -> addr + n + 4096 < 4294967296 ->
  exists c', ya_erase_flash addr n (s, h) = Done (-1) (s, set_chip c' h) /\ nor_read c' addr = 255 /\
    forall x, x < addr \/ addr + sectors n * 4096 <= x -> nor_read c' x = nor_read (chip h) x.
Proof.
  intros Ha Ha0 Hn Hr. pose proof (sectors_bounds n ltac:(lia)).
  destruct (hal_erase_spec (chip h) addr n) as (c' & He & Hc); [done|lia..|].
  exists c'. unfold ya_erase_flash, ya_hal_flash_erase, bind. rewrite He. cbn. split; [done|].
  split; [rewrite Hc; by rewrite bool_decide_true by lia|].
  intros x Hx. rewrite Hc. by rewrite bool_decide_false by lia.
Qed.
End Proofs.

(** ** The properties of the record store *)

(** C28: a record written with [ya_write_flash] (up to the 4086 bytes the readers
    accept) is returned byte for byte by [ya_read_flash_with_var_len], with its
    exact length, at the cost of no heap block; the status of the write is the
    value the HAL leaves in the return register. *)
Theorem ya_flash_roundtrip {C} `{NorChipLaws C, !NorReliable C} {S} (s : S) (h : hw C)
    (addr : Z) (data buf : bytes) (block cap : Z) :
  addr mod 4096 = 0 -> 0 <= addr -> addr + 65536 < 4294967296 ->
  0 < block <= 16 -> 0 < len data <= 4086 -> is_bytes data -> heap h = [] ->
  len data <= cap <= len buf -> cap <= 4096 * block - 10 ->
  exists h1 h2,
    ya_write_flash addr data (len data) block (s, h) = Done (stale h) (s, h1) /\
    ya_read_flash_with_var_len addr buf cap block (s, h1)
      = Done (0, splice buf 0 data, len data) (s, h2) /\
    live h2 = live h /\ chip h2 = chip h1 /\
    (forall x, x < addr \/ addr + block * 4096 <= x ->
       nor_read (chip h1) x = nor_read (chip h) x).
Proof.
  intros Ha H0' Hr Hb Hd Hby Hheap Hc Hc'.
  destruct (write_flash_spec addr data (len data) block s h) as (c' & Hw & Hh & Hf);
    try done; try lia.
  rewrite slice_full in Hh by done.
  exists (set_chip c' h), (set_heap [] (live h) (set_chip c' h)). split; [done|].
  split; [|done]. apply (read_var_holds addr data buf cap block s (set_chip c' h)); done || lia.
Qed.

Lemma ya_flash_roundtrip_witness :
  exists h1 h2,
    ya_write_flash 0xAD000 [1; 2; 3] 3 1 (tt, boot) = Done 0 (tt, h1) /\
    ya_read_flash_with_var_len 0xAD000 (zeros 8) 8 1 (tt, h1)
      = Done (0, [1; 2; 3; 0; 0; 0; 0; 0], 3) (tt, h2).
Proof.
  destruct (ya_flash_roundtrip tt boot 0xAD000 [1; 2; 3] (zeros 8) 1 8)
    as (h1 & h2 & Hw & Hr & _); try evaluate; try reflexivity.
  exists h1, h2. split; [exact Hw | exact Hr].
Defined.

(** Whatever bytes the flash holds and whatever the allocator answers,
    [ya_read_flash_with_var_len] returns without a memory fault, frees what it
    allocated, changes nothing else, and either fails with -1 leaving the
    caller's buffer and length untouched, or succeeds with a length within the
    caller's capacity, having overwritten only that many leading bytes. *)
Theorem ya_read_var_safe {C} `{NorChipLaws C} {S} (s : S) (h : hw C)
    (addr : Z) (data : bytes) (data_len block : Z) :
  0 <= addr -> addr + 8192 < 4294967296 -> 0 <= data_len <= len data ->
  exists r data' n h',
    ya_read_flash_with_var_len addr data data_len block (s, h) = Done (r, data', n) (s, h')
    /\ quiet h h' /\ len data' = len data /\
    ((r = -1 /\ data' = data /\ n = data_len) \/
     (r = 0 /\ 0 <= n <= data_len /\ n <= 4086 /\
      drop (Z.to_nat n) data' = drop (Z.to_nat n) data)).
Proof.
  intros Ha Hr Hd.
  enough (Hw : wp (ya_read_flash_with_var_len addr data data_len block)
    (fun '(r, data', n) t => exists h', t = (s, h') /\ quiet h h' /\ len data' = len data /\
      ((r = -1 /\ data' = data /\ n = data_len) \/
       (r = 0 /\ 0 <= n <= data_len /\ n <= 4086 /\
        drop (Z.to_nat n) data' = drop (Z.to_nat n) data))) (fun _ => False) (s, h)).
  { apply wp_elim in Hw as ([[r d] n] & ? & -> & h' & -> & Hq). by exists r, d, n, h'. }
  apply wp_read_var; [done..| |].
  - intros h' Hq. exists h'. eauto 10.
  - intros body n h' Hn Hnd Hl Hbody Hq. exists h'.
    split; [done|]. split; [done|]. split; [by rewrite len_splice by lia|].
    right. repeat split; try lia. unfold splice, len in *. change (Z.to_nat 0) with 0%nat.
    rewrite take_0. cbn [app Nat.add].
    rewrite drop_app_length' by lia. f_equal. lia.
Qed.

Lemma ya_read_var_safe_witness :
  exists r data' n h',
    ya_read_flash_with_var_len 0xAD000 (zeros 8) 8 1 (tt, boot) = Done (r, data', n) (tt, h').
Proof.
  destruct (ya_read_var_safe tt boot 0xAD000 (zeros 8) 8 1) as (r & d & n & h' & He & _);
    try evaluate.
  by exists r, d, n, h'.
Defined.

(** a record of 4087 to 8182 bytes, which [ya_write_flash] accepts for a
    two-block area, is stored but can never be read back: both readers compare
    the stored length with a single block and fail. *)
Theorem ya_flash_oversized_lost {C} `{NorChipLaws C, !NorReliable C} {S} (s : S) (h : hw C)
    (addr : Z) (data : bytes) :
  addr mod 4096 = 0 -> 0 <= addr -> addr + 65544 < 4294967296 ->
  4086 < len data <= 8182 -> is_bytes data -> heap h = [] ->
  exists h1,
    ya_write_flash addr data (len data) 2 (s, h) = Done (stale h) (s, h1) /\
    (forall buf cap, ya_read_flash_with_var_len addr buf cap 2 (s, h1) = Done (-1, buf, cap) (s, h1)) /\
    (forall buf n, ya_read_flash_with_fix_len addr buf n 2 (s, h1) = Done (-1, buf) (s, h1)).
Proof.
  intros Ha H0' Hr Hd Hby Hheap.
  destruct (write_flash_spec addr data (len data) 2 s h) as (c' & Hw & Hh & _); try done; try lia.
  rewrite slice_full in Hh by done. exists (set_chip c' h). split; [done|].
  assert (Hrec : forall lim, read_record addr lim (s, set_chip c' h) = Done None (s, set_chip c' h)).
  { intros lim. apply (read_record_oversized _ _ data); done || lia. }
  split; intros.
  - unfold ya_read_flash_with_var_len. cbn [Z.eqb]. destruct (_ || _); [done|].
    by rewrite (bind_done _ _ _ _ _ (Hrec _)).
  - unfold ya_read_flash_with_fix_len. cbn [Z.eqb]. destruct (_ || _); [done|].
    by rewrite (bind_done _ _ _ _ _ (Hrec _)).
Qed.

Lemma ya_flash_oversized_lost_witness :
  exists h1,
    ya_write_flash 0xB5000 (zeros 5000) 5000 2 (tt, boot) = Done 0 (tt, h1) /\
    ya_read_flash_with_var_len 0xB5000 (zeros 7936) 7936 2 (tt, h1)
      = Done (-1, zeros 7936, 7936) (tt, h1).
Proof.
  destruct (ya_flash_oversized_lost tt boot 0xB5000 (zeros 5000)) as (h1 & Hw & Hv & _);
    try evaluate; try reflexivity.
  exists h1. split; [exact Hw | apply Hv].
Defined.

(** [ya_erase_flash] reports -1 exactly when every sector was erased and 0
    exactly when the erase failed: the status is inverted with respect to the
    convention of every other function of the file. *)
Theorem ya_erase_flash_inverted {C} `{NorChip C} {S} (s : S) (h : hw C) (addr n : Z) :
  exists c', ya_erase_flash addr n (s, h)
     = Done (if (hal_erase (chip h) addr n).1 =? 0 then -1 else 0) (s, set_chip c' h)
  /\ c' = (hal_erase (chip h) addr n).2.
Proof.
  unfold ya_erase_flash, ya_hal_flash_erase, bind.
  destruct (hal_erase (chip h) addr n) as [r c']. exists c'. cbn. by destruct (r =? 0).
Qed.
