(* ===== verification/CommonFunc.v ===== *)
(** * Strings and small helpers

    The C string functions the application calls ([strlen], [strcmp], [atoi],
    [strstr]) on byte lists without their terminator, and the helpers of
    [akeeta/app/src/ya_common_func.c]: hexadecimal in both directions and
    decimal printing. *)

From stdpp Require Import base numbers list strings.
From S2P Require Import Prelude.

(** ** C strings *)

(** The bytes of a string literal. *)
Definition str (s : string) : bytes :=
  (fun a => Z.of_N (Ascii.N_of_ascii a)) <$> String.list_ascii_of_string s.

(** [strlen] of a buffer: the bytes before the first 0. *)
Fixpoint cstr (b : bytes) : bytes :=
  match b with
  | [] => []
  | x :: b => if x =? 0 then [] else x :: cstr b
  end.
(** A value a C string can hold: no embedded terminator. *)
Definition no_nul (b : bytes) : Prop := Forall (fun x => x <> 0) b.
#[export] Instance no_nul_dec b : Decision (no_nul b).
Proof. unfold no_nul; apply _. Defined.

Lemma cstr_no_nul b : no_nul b -> cstr b = b.
Proof. induction 1 as [|x b Hx _ IH]; cbn; [done|]. destruct (Z.eqb_spec x 0); congruence. Qed.
Lemma cstr_app_nul b c : no_nul b -> cstr (b ++ 0 :: c) = b.
Proof. induction 1 as [|x b Hx _ IH]; cbn; [done|]. destruct (Z.eqb_spec x 0); congruence. Qed.

Definition is_digit (c : Z) : bool := (48 <=? c) && (c <=? 57).
Definition is_space (c : Z) : bool := (c =? 32) || ((9 <=? c) && (c <=? 13)).

(** The decimal value of the leading digits. *)
Fixpoint digits (acc : Z) (s : bytes) : Z :=
  match s with
  | c :: s' => if is_digit c then digits (acc * 10 + (c - 48)) s' else acc
  | [] => acc
  end.
Fixpoint skip_space (s : bytes) : bytes :=
  match s with
  | c :: s' => if is_space c then skip_space s' else s
  | [] => []
  end.
(** [atoi]: white space, a sign, digits; saturating as [strtol] does. *)
Definition atoi (s : bytes) : Z :=
  let v := match skip_space s with
           | 45 :: s' => - digits 0 s'
           | 43 :: s' => digits 0 s'
           | s' => digits 0 s'
           end in
  Z.max (-2147483648) (Z.min 2147483647 v).

(** [strstr(s, p) != NULL]. *)
Fixpoint prefix_of_b (p s : bytes) : bool :=
  match p, s with
  | [], _ => true
  | x :: p, y :: s => (x =? y) && prefix_of_b p s
  | _ :: _, [] => false
  end.
Fixpoint strstr (s p : bytes) : bool :=
  prefix_of_b p s || match s with [] => false | _ :: s' => strstr s' p end.

(** ** [ya_common_func.c] *)

Definition Num2CharTable : bytes := str "0123456789ABCDEF".

(** The characters written, the terminator included. *)
Fixpoint HexArrayToString (hexarray : bytes) : bytes :=
  match hexarray with
  | [] => [0]
  | x :: rest =>
    (Num2CharTable !!! Z.to_nat (Z.land (Z.shiftr x 4) 0x0f))
      :: (Num2CharTable !!! Z.to_nat (Z.land x 0x0f)) :: HexArrayToString rest
  end.

Definition hex_value (c : Z) : option Z :=
  if (97 <=? c) && (c <=? 102) then Some (c - 97 + 10)
  else if (65 <=? c) && (c <=? 70) then Some (c - 65 + 10)
  else if (48 <=? c) && (c <=? 57) then Some (c - 48)
  else None.

Section StringToHex.
Context {T : Type}.
(** The [for] loop: [rest] is [string + index], already cut at [total_len]. *)
Fixpoint hex_loop (index array_index : Z) (hexarray rest : bytes) : M T (Z * bytes) :=
  match rest with
  | [] => ret (array_index, hexarray)
  | c :: rest =>
    match hex_value c with
    | None => ret (-1, hexarray)
    | Some value =>
      if index mod 2 =? 0 then
        let* hexarray := wr hexarray array_index (Z.shiftl value 4) in
        hex_loop (index + 1) array_index hexarray rest
      else
        let* old := rd hexarray array_index in
        let* hexarray := wr hexarray array_index (old + value) in
        hex_loop (index + 1) (u16 (array_index + 1)) hexarray rest
    end
  end.
(** [string] is a C string; [total_len] is its length cut to 16 bits. *)
Definition StringToHexArray (hexarray : bytes) (length : Z) (string : bytes) : M T (Z * bytes) :=
  let total_len := u16 (len string) in
  if 2 * length <? total_len then ret (-1, hexarray)
  else hex_loop 0 0 hexarray (take (Z.to_nat total_len) string).
End StringToHex.

(** ** Decimal printing: [ya_int_to_string] is [snprintf("%d")] *)
Fixpoint dec_digits (fuel : nat) (n : Z) (acc : bytes) : bytes :=
  match fuel with
  | O => acc
  | S fuel =>
    let acc := (48 + n mod 10) :: acc in
    if n <? 10 then acc else dec_digits fuel (n / 10) acc
  end.
(** A 32-bit value has at most ten decimal digits. *)
Definition ya_int_to_string (value : Z) : bytes :=
  let v := i32 value in
  if v <? 0 then 45 :: dec_digits 10 (- v) [] else dec_digits 10 v [].
(** ["%0<n>x"], for values of at most [n] digits. *)
Definition lower_digit (d : Z) : Z := str "0123456789abcdef" !!! Z.to_nat d.
Fixpoint hex_pad (n : nat) (v : Z) : bytes :=
  match n with O => [] | S n => hex_pad n (v / 16) ++ [lower_digit (v mod 16)] end.

(** ** Proofs *)

Lemma hex_digit_value d :
  0 <= d < 16 -> hex_value (Num2CharTable !!! Z.to_nat d) = Some d.
Proof.
  intros Hd.
  assert (Hall : Forall (fun d => hex_value (Num2CharTable !!! Z.to_nat d) = Some d) (seqZ 0 16)).
  { evaluate. }
  rewrite Forall_forall in Hall. apply Hall. apply elem_of_seqZ. lia.
Qed.

Lemma nibbles x : is_u8 x ->
  0 <= Z.land (Z.shiftr x 4) 15 < 16 /\ 0 <= Z.land x 15 < 16 /\
  Z.shiftl (Z.land (Z.shiftr x 4) 15) 4 + Z.land x 15 = x.
Proof.
  unfold is_u8. intros Hx. change 15 with (Z.ones 4). rewrite !Z.land_ones by lia.
  rewrite Z.shiftr_div_pow2, Z.shiftl_mul_pow2 by lia. change (2 ^ 4) with 16.
  assert (x / 16 < 16) by (apply Z.div_lt_upper_bound; lia).
  assert (0 <= x / 16) by (apply Z.div_pos; lia).
  rewrite (Z.mod_small (x / 16)) by lia.
  pose proof (Z.mod_pos_bound x 16). pose proof (Z_div_mod_eq_full x 16). lia.
Qed.

Lemma length_hex b : length (HexArrayToString b) = (2 * length b + 1)%nat.
Proof. induction b as [|x b IH]; cbn; [done|]. rewrite IH. lia. Qed.

(** The characters of [HexArrayToString], terminator dropped. *)
Definition hex_chars (b : bytes) : bytes := take (2 * length b) (HexArrayToString b).
Lemma hex_chars_cons x b :
  hex_chars (x :: b) = (Num2CharTable !!! Z.to_nat (Z.land (Z.shiftr x 4) 0x0f))
      :: (Num2CharTable !!! Z.to_nat (Z.land x 0x0f)) :: hex_chars b.
Proof. unfold hex_chars. replace (2 * length (x :: b))%nat with (S (S (2 * length b))) by (cbn; lia). done. Qed.
Lemma len_hex_chars b : len (hex_chars b) = 2 * len b.
Proof. unfold hex_chars, len. rewrite length_take, length_hex. lia. Qed.

(** One byte's two digits, decoded at an even index. *)
Lemma hex_loop_byte {T} (t : T) index ai (arr : bytes) x rest :
  index mod 2 = 0 -> 0 <= ai < len arr -> ai + 1 < 65536 -> is_u8 x ->
  hex_loop index ai arr
    ((Num2CharTable !!! Z.to_nat (Z.land (Z.shiftr x 4) 0x0f))
     :: (Num2CharTable !!! Z.to_nat (Z.land x 0x0f)) :: rest) t
  = hex_loop (index + 2) (ai + 1) (<[Z.to_nat ai := x]> arr) rest t.
Proof.
  intros Hi Ha Ha' Hx. destruct (nibbles x Hx) as (Hh & Hl & Hs). unfold is_u8 in Hx.
  cbn [hex_loop]. rewrite !hex_digit_value by lia. rewrite Hi. cbn [Z.eqb].
  brun. rewrite Zplus_mod, Hi. change ((0 + 1 mod 2) mod 2 =? 0) with false. cbn beta iota.
  rewrite (u8_small (Z.shiftl _ _)) by (unfold is_u8; rewrite Z.shiftl_mul_pow2 in *; lia).
  brun. rewrite list_lookup_total_insert_eq by (unfold len in Ha; lia).
  rewrite Hs. brun. rewrite list_insert_insert_eq, u8_small by done.
  rewrite u16_small by (unfold is_u16; lia). f_equal. lia.
Qed.

Lemma hex_loop_decode {T} (t : T) b : forall index ai (arr : bytes),
  index mod 2 = 0 -> 0 <= ai -> ai + len b <= len arr -> ai + len b < 65536 -> is_bytes b ->
  hex_loop index ai arr (hex_chars b) t = Done (ai + len b, splice arr ai b) t.
Proof.
  induction b as [|x b IH]; intros index ai arr Hi Ha Hl Hs Hb.
  - cbn. unfold splice, len. cbn. rewrite Nat.add_0_r, take_drop, Z.add_0_r. done.
  - inversion Hb as [|?? Hx Hb']; subst. rewrite len_cons in *. rewrite hex_chars_cons.
    pose proof (len_nonneg b). rewrite hex_loop_byte by (done || lia).
    rewrite IH; [|rewrite Zplus_mod, Hi; done|lia|rewrite len_insert; lia|lia|done].
    do 2 f_equal; [lia|]. by rewrite splice_cons by lia.
Qed.

(** Decoding never leaves the array, whatever the characters. *)
Lemma wp_hex_loop {T} (t : T) rest : forall index ai (arr : bytes),
  0 <= index -> ai = index / 2 -> index + len rest <= 2 * len arr -> len arr < 65536 ->
  wp (hex_loop index ai arr rest)
     (fun '(r, arr') t' => t' = t /\ len arr' = len arr /\ -1 <= r <= len arr) (fun _ => False) t.
Proof.
  induction rest as [|c rest IH]; intros index ai arr Hi Ha Hl Hs.
  - apply wp_ret. change (len []) with 0 in Hl. repeat split; zdiv.
  - rewrite len_cons in Hl. pose proof (len_nonneg rest). cbn [hex_loop].
    destruct (hex_value c) as [v|]; [|apply wp_ret; repeat split; lia].
    assert (0 <= ai < len arr) by zdiv.
    destruct (Z.eqb_spec (index mod 2) 0).
    + do 2 wstep. eapply wp_mono; [apply IH; rewrite ?len_insert; zdiv| |done].
      intros [r a]. rewrite len_insert. done.
    + do 4 wstep. rewrite u16_small by (unfold is_u16; lia).
      eapply wp_mono; [apply IH; rewrite ?len_insert; zdiv| |done].
      intros [r a]. rewrite len_insert. done.
Qed.

Lemma hex_string b : HexArrayToString b = hex_chars b ++ [0].
Proof.
  unfold hex_chars. induction b as [|x b IH]; [done|]. cbn [HexArrayToString length]. rewrite IH at 1.
  replace (2 * S (length b))%nat with (S (S (2 * length b))) by lia. done.
Qed.
Lemma hex_digit_no_nul i : 0 <= i < 16 -> Num2CharTable !!! Z.to_nat i <> 0.
Proof.
  intros Hi. assert (Hc : forallb (fun i => negb (Num2CharTable !!! Z.to_nat i =? 0)) (seqZ 0 16) = true) by (vm_compute; reflexivity).
  rewrite forallb_forall in Hc. specialize (Hc i). rewrite negb_true_iff, Z.eqb_neq in Hc.
  apply Hc, list_elem_of_In, elem_of_seqZ. lia.
Qed.
Lemma hex_chars_no_nul b : no_nul (hex_chars b).
Proof.
  assert (Hn : forall x, 0 <= Z.land x 15 < 16)
    by (intros x; change 15 with (Z.ones 4); rewrite Z.land_ones by lia; apply Z.mod_pos_bound; lia).
  induction b as [|x b IH]; [constructor|]. rewrite hex_chars_cons.
  do 2 (constructor; [apply hex_digit_no_nul, Hn|]). done.
Qed.
(** Decoding the digits of [b]. *)
Lemma string_to_hex_chars {T} (t : T) (b arr : bytes) (length : Z) :
  is_bytes b -> len b <= length <= len arr -> len b < 32768 ->
  StringToHexArray arr length (hex_chars b) t = Done (len b, splice arr 0 b) t.
Proof.
  intros Hb Hl Hs. unfold StringToHexArray. pose proof (len_nonneg b).
  rewrite len_hex_chars, u16_small by (unfold is_u16; lia).
  destruct (Z.ltb_spec (2 * length) (2 * len b)); [lia|].
  rewrite take_ge by (pose proof (len_hex_chars b); unfold len in *; lia).
  by rewrite hex_loop_decode by (done || lia).
Qed.

(** [StringToHexArray] inverts [HexArrayToString]: the printed form of up to
    32767 bytes decodes to the same bytes and returns their number. *)
Theorem hex_string_roundtrip {T} (t : T) (b arr : bytes) (length : Z) :
  is_bytes b -> len b <= length <= len arr -> len b < 32768 ->
  StringToHexArray arr length (cstr (HexArrayToString b)) t = Done (len b, splice arr 0 b) t.
Proof. intros. rewrite hex_string, cstr_app_nul by apply hex_chars_no_nul. by apply string_to_hex_chars. Qed.

Lemma hex_string_roundtrip_witness :
  StringToHexArray (zeros 6) 6 (cstr (HexArrayToString [0; 0xAB; 255])) tt
    = Done (3, [0; 0xAB; 255; 0; 0; 0]) tt.
Proof. rewrite hex_string_roundtrip; [reflexivity|evaluate..]. Defined.

(** Decoding any string, valid or not, into an array of at least the
    announced length returns without writing outside the array, and the result
    is -1 or at most the array's length. *)
Theorem string_to_hex_safe {T} (t : T) (arr : bytes) (length : Z) (s : bytes) :
  0 <= length <= len arr -> len arr < 65536 ->
  exists r arr', StringToHexArray arr length s t = Done (r, arr') t
    /\ len arr' = len arr /\ -1 <= r <= len arr.
Proof.
  intros Hl Ha.
  enough (Hw : wp (StringToHexArray arr length s)
    (fun '(r, arr') t' => t' = t /\ len arr' = len arr /\ -1 <= r <= len arr) (fun _ => False) t).
  { apply wp_elim in Hw as ([r a] & ? & -> & -> & Hw). eauto. }
  unfold StringToHexArray. pose proof (u16_range (len s)) as Hu. unfold is_u16 in Hu.
  wstep; [apply wp_ret; repeat split; lia|].
  apply wp_hex_loop; try zdiv.
  destruct (Z.ltb_spec (2 * length) (u16 (len s))); [done|].
  unfold len at 1. rewrite length_take. lia.
Qed.

Lemma string_to_hex_safe_witness :
  exists r arr', StringToHexArray (zeros 2) 2 (str "0g") tt = Done (r, arr') tt.
Proof.
  destruct (string_to_hex_safe tt (zeros 2) 2 (str "0g")) as (r & a & He & _); [evaluate..|].
  by exists r, a.
Defined.

(** ** Printing and reading integers *)

Lemma digits_app a s s' : Forall (fun c => is_digit c = true) s ->
  digits a (s ++ s') = digits (digits a s) s'.
Proof. intros Hs. revert a. induction Hs as [|c s Hc _ IH]; intros a; cbn; [done|]. by rewrite Hc, IH. Qed.

Lemma dec_digits_app fuel n acc : dec_digits fuel n acc = dec_digits fuel n [] ++ acc.
Proof.
  revert n acc. induction fuel as [|fuel IH]; intros n acc; cbn; [done|].
  destruct (n <? 10); [done|]. rewrite IH, (IH _ [_]). by rewrite <- app_assoc.
Qed.

Lemma digit_char d : 0 <= d < 10 -> is_digit (48 + d) = true.
Proof. intros. unfold is_digit. zbool; done || lia. Qed.

Lemma dec_digits_spec fuel n :
  0 <= n < 10 ^ Z.of_nat fuel ->
  Forall (fun c => is_digit c = true) (dec_digits fuel n []) /\ digits 0 (dec_digits fuel n []) = n
  /\ (fuel <> 0%nat -> dec_digits fuel n [] <> []).
Proof.
  revert n. induction fuel as [|fuel IH]; intros n Hn; cbn [dec_digits].
  { change (10 ^ Z.of_nat 0) with 1 in Hn. cbn. repeat split; [by constructor|lia|done]. }
  pose proof (Z.mod_pos_bound n 10 ltac:(lia)). pose proof (Z.div_mod n 10 ltac:(lia)).
  destruct (Z.ltb_spec n 10).
  - rewrite Z.mod_small by lia. repeat split; [|cbn -[Z.add Z.mul]|done].
    + apply Forall_cons_2; [apply digit_char; lia | constructor].
    + rewrite digit_char by lia. lia.
  - rewrite dec_digits_app. destruct (IH (n / 10)) as (Hd & Hv & _).
    { split; [apply Z.div_pos; lia|]. apply Z.div_lt_upper_bound; [lia|].
      replace (Z.of_nat (S fuel)) with (Z.of_nat fuel + 1) in Hn by lia.
      rewrite Z.pow_add_r in Hn by lia. lia. }
    repeat split.
    + apply Forall_app. split; [done|]. apply Forall_cons_2; [apply digit_char; lia | constructor].
    + rewrite digits_app by done. rewrite Hv. cbn -[Z.add Z.mul]. rewrite digit_char by lia. lia.
    + intros _ He. by apply app_eq_nil in He as [_ He].
Qed.

Lemma i32_small v : -2147483648 <= v < 2147483648 -> i32 v = v.
Proof. intros. unfold i32. rewrite Z.mod_small by lia. lia. Qed.
Lemma i32_range v : -2147483648 <= i32 v < 2147483648.
Proof. unfold i32. pose proof (Z.mod_pos_bound (v + 2147483648) 4294967296 ltac:(lia)). lia. Qed.

Lemma skip_space_digits s :
  Forall (fun c => is_digit c = true) s -> skip_space s = s.
Proof.
  intros Hs. destruct Hs as [|c s Hc _]; [done|]. cbn. unfold is_digit, is_space in *.
  zbool; done || lia.
Qed.

(** [atoi] reads back what [ya_int_to_string] prints, as the signed 32-bit
    reading of the value. *)
Lemma int_string_roundtrip (v : Z) : atoi (ya_int_to_string v) = i32 v.
Proof.
  pose proof (i32_range v) as Hr. unfold ya_int_to_string.
  destruct (Z.ltb_spec (i32 v) 0).
  - destruct (dec_digits_spec 10 (- i32 v)) as (_ & Hv & _).
    { change (10 ^ Z.of_nat 10) with 10000000000. lia. }
    unfold atoi. cbn [skip_space]. change (is_space 45) with false. cbn beta iota.
    rewrite Hv. lia.
  - destruct (dec_digits_spec 10 (i32 v)) as (Hd & Hv & Hne).
    { change (10 ^ Z.of_nat 10) with 10000000000. lia. }
    unfold atoi. rewrite skip_space_digits by done.
    destruct (dec_digits 10 (i32 v) []) as [|c s] eqn:E; [by destruct Hne|].
    inversion Hd as [|?? Hc _]; subst. unfold is_digit in Hc.
    assert (48 <= c <= 57) by (zbool; done || lia).
    assert (Hm : match c :: s with 45 :: s' => - digits 0 s' | 43 :: s' => digits 0 s'
                 | s' => digits 0 s' end = digits 0 (c :: s)).
    { destruct (decide (c = 45)); [lia|]. destruct (decide (c = 43)); [lia|].
      destruct c as [|p|p]; try done. repeat (destruct p as [p|p|]; try done). }
    rewrite Hm, Hv. lia.
Qed.

(** The printed number is a C string. *)
Lemma digits_no_nul s : Forall (fun c => is_digit c = true) s -> no_nul s.
Proof. intros Hs. eapply Forall_impl; [exact Hs|]. by intros c Hc ->. Qed.
Lemma int_to_string_no_nul v : no_nul (ya_int_to_string v).
Proof.
  pose proof (i32_range v). unfold ya_int_to_string. destruct (Z.ltb_spec (i32 v) 0).
  - constructor; [done|]. apply digits_no_nul, dec_digits_spec. change (10 ^ Z.of_nat 10) with 10000000000. lia.
  - apply digits_no_nul, dec_digits_spec. change (10 ^ Z.of_nat 10) with 10000000000. lia.
Qed.

(** ** C strings in blocks *)

(** [strcpy(dst, src)]: [src] is the memory from the pointer to the end of its
    block, which must hold a terminator. *)
Definition strcpy {T} (dst src : bytes) : M T bytes :=
  if bool_decide (0 ∈ src) then memcpy dst 0 (cstr src ++ [0]) else fail OutOfBounds.

(** The text at a pointer whose block ends with [b]. *)
Definition text_at {T} (b : bytes) : M T bytes := if bool_decide (0 ∈ b) then ret (cstr b) else fail OutOfBounds.
Lemma text_at_ok {T} b (t : T) : 0 ∈ b -> text_at b t = Done (cstr b) t.
Proof. intros Hb. unfold text_at. by rewrite bool_decide_true. Qed.

Lemma cstr_prefix b : 0 ∈ b -> exists r, b = cstr b ++ 0 :: r.
Proof.
  induction b as [|x b IH]; [by intros ?%elem_of_nil|]. intros Hin. cbn.
  destruct (Z.eqb_spec x 0) as [->|Hx]; [by exists b|].
  apply elem_of_cons in Hin as [?|Hin]; [congruence|].
  destruct (IH Hin) as [r Hr]. exists r. cbn. by f_equal.
Qed.
Lemma cstr_is_no_nul b : no_nul (cstr b).
Proof.
  induction b as [|x b IH]; cbn; [constructor|].
  destruct (Z.eqb_spec x 0); [constructor|by constructor].
Qed.
Lemma is_bytes_cstr b : is_bytes b -> is_bytes (cstr b).
Proof.
  induction 1 as [|x b Hx _ IH]; cbn; [constructor|].
  destruct (x =? 0); [constructor|by constructor].
Qed.
(** A terminator after exactly [n] bytes bounds the string. *)
Lemma len_cstr_le b : 0 ∈ b -> len (cstr b) + 1 <= len b.
Proof.
  intros [r Hr]%cstr_prefix. rewrite Hr at 2. rewrite len_app, len_cons.
  pose proof (len_nonneg r). lia.
Qed.
Lemma cstr_splice_0 (dst src : bytes) : no_nul src -> cstr (splice dst 0 (src ++ [0])) = src.
Proof. intros Hs. unfold splice. cbn [take app]. rewrite <- app_assoc. by apply cstr_app_nul. Qed.

Lemma cstr_app b c : 0 ∈ b -> cstr (b ++ c) = cstr b.
Proof.
  intros [r Hr]%cstr_prefix. rewrite Hr at 1. rewrite <- app_assoc. cbn [app].
  apply cstr_app_nul, cstr_is_no_nul.
Qed.

(** A block of [n + 1] bytes that holds the C string of [src]. *)
Definition copy_of (src : bytes) (n : Z) (a : bytes) : Prop :=
  len a = n + 1 /\ is_bytes a /\ 0 ∈ a /\ cstr a = cstr src.

Lemma wp_strcpy {T} dst src n Q R (t : T) :
  len dst = n + 1 -> is_bytes dst -> is_bytes src -> 0 ∈ src -> len (cstr src) <= n ->
  (forall a, copy_of src n a -> Q a t) -> wp (strcpy dst src) Q R t.
Proof.
  intros Hd Hdb Hsb Hs Hn HQ. unfold strcpy. rewrite bool_decide_true by done.
  assert (Hb : is_bytes (cstr src ++ [0])).
  { apply is_bytes_app. split; [by apply is_bytes_cstr|]. constructor; [|constructor].
    unfold is_u8; lia. }
  pose proof (len_nonneg (cstr src)).
  wstep; [rewrite len_app; change (len [0]) with 1; lia|]. apply HQ. split; [|split; [|split]].
  - rewrite len_splice; [done|lia|rewrite len_app; change (len [0]) with 1; lia].
  - by apply is_bytes_splice.
  - unfold splice. apply elem_of_app. right. rewrite <- app_assoc. apply elem_of_app. right. left.
  - apply cstr_splice_0, cstr_is_no_nul.
Qed.

(** ** Strings in cleared arrays *)
Lemma zeros_succ n : 0 <= n -> [0] ++ zeros n = zeros (n + 1).
Proof. intros Hn. unfold zeros. by rewrite Z2Nat.inj_add, Nat.add_comm by lia. Qed.
Lemma strcpy_zeros {T} n src (t : T) : 0 ∈ src -> len (cstr src) < n ->
  strcpy (zeros n) src t = Done (cstr src ++ zeros (n - len (cstr src))) t.
Proof.
  intros H0 Hn. unfold strcpy. rewrite bool_decide_true by done. pose proof (len_nonneg (cstr src)).
  rewrite (memcpy_zeros [] _ n) by (try done; rewrite len_app; change (len [0]) with 1; lia).
  rewrite len_app. change (len [0]) with 1. cbn [List.app]. rewrite <- app_assoc, zeros_succ by lia. do 3 f_equal. lia.
Qed.
(** A terminated piece written where the zeros start. *)
Lemma memcpy_string {T} (x y : bytes) k off (t : T) : off = len x -> len y + 1 <= k ->
  memcpy (x ++ zeros k) off (y ++ [0]) t = Done ((x ++ y) ++ zeros (k - len y)) t.
Proof.
  intros -> Hk. pose proof (len_nonneg y). rewrite memcpy_zeros by (try done; rewrite len_app; change (len [0]) with 1; lia).
  rewrite len_app. change (len [0]) with 1. rewrite (assoc_L (++) x y [0]), <- (assoc_L (++) (x ++ y)), zeros_succ by lia.
  do 3 f_equal. lia.
Qed.
Lemma cstr_zeros b n : no_nul b -> 0 < n -> cstr (b ++ zeros n) = b.
Proof.
  intros Hb Hn. replace (zeros n) with (0 :: zeros (n - 1)); [by apply cstr_app_nul|].
  change (0 :: zeros (n - 1)) with ([0] ++ zeros (n - 1)). rewrite zeros_succ by lia. f_equal. lia.
Qed.
Lemma zero_in b n : 0 < n -> 0 ∈ b ++ zeros n.
Proof. intros Hn. apply elem_of_app. right. apply (list_elem_of_lookup_2 _ 0). unfold zeros. apply lookup_replicate_2. lia. Qed.
