(* ===== verification/Double.v ===== *)
(** * [double] arithmetic

    The type [double] of the compiler is binary64; the operations the program
    uses are those of the Standard Library's executable specification of
    IEEE 754, rounding to nearest. *)

From stdpp Require Import base numbers list.
From Stdlib Require Import SpecFloat.
From S2P Require Import Prelude.

Definition dmul := SFmul 53 1024.
Definition ddiv := SFdiv 53 1024.
Definition dadd := SFadd 53 1024.
Definition dsub := SFsub 53 1024.
Definition d_of_int (z : Z) : spec_float := binary_normalize 53 1024 z 0 false.
(** The integral part, towards zero; 0 for what is no number. *)
Definition d_int (f : spec_float) : Z :=
  match f with
  | S754_finite s m e => let z := Z.shiftl (Zpos m) e in if s then - z else z
  | _ => 0
  end.
(** Whether the integral part is an [int]. *)
Definition d_fits (f : spec_float) : bool :=
  match f with
  | S754_zero _ => true
  | S754_finite s m e => let z := d_int f in (-2147483648 <=? z) && (z <=? 2147483647)
  | _ => false
  end.

(** ** Integers below 2^53 are computed with exactly *)

#[export] Instance spec_float_eq_dec : EqDecision spec_float.
Proof. solve_decision. Defined.

(** The float of a positive integer: a mantissa of 53 bits. *)
Definition canon (s : bool) (z : Z) : spec_float :=
  S754_finite s (Z.to_pos (z * 2 ^ (52 - Z.log2 z))) (Z.log2 z - 52).
Definition d_small (z : Z) : Prop := 0 < z < 2 ^ 53.

Lemma digits2_log2 p : Zpos (digits2_pos p) = Z.log2 (Zpos p) + 1.
Proof.
  induction p as [p IH|p IH|]; cbn [digits2_pos]; [| |done]; rewrite Pos2Z.inj_succ, IH.
  - change (Z.pos p~1) with (2 * Z.pos p + 1). rewrite Z.log2_succ_double by lia. lia.
  - change (Z.pos p~0) with (2 * Z.pos p). rewrite Z.log2_double by lia. lia.
Qed.
Lemma log2_shift z k : 0 < z -> 0 <= k -> Z.log2 (z * 2 ^ k) = Z.log2 z + k.
Proof. intros. rewrite Z.log2_mul_pow2 by done. lia. Qed.
Lemma d_small_log2 z : d_small z -> 0 <= Z.log2 z <= 52.
Proof. intros [H0 H1]. split; [apply Z.log2_nonneg|]. apply Z.log2_lt_pow2 in H1; lia. Qed.
Lemma shr_1_even m : shr_1 (Build_shr_record (2 * m) false false) = Build_shr_record m false false.
Proof. by destruct m. Qed.
Lemma iter_shr p : forall m, iter_pos shr_1 p (Build_shr_record (m * 2 ^ Zpos p) false false) = Build_shr_record m false false.
Proof.
  induction p as [p IH|p IH|]; intros m; cbn [iter_pos].
  - rewrite (Pos2Z.inj_xI p). replace (m * 2 ^ (2 * Z.pos p + 1)) with (2 * (m * 2 ^ Z.pos p * 2 ^ Z.pos p))
      by (replace (2 * Z.pos p + 1) with (Z.pos p + Z.pos p + 1) by lia; rewrite !Z.pow_add_r by lia; ring). rewrite shr_1_even. by rewrite !IH.
  - rewrite (Pos2Z.inj_xO p). replace (m * 2 ^ (2 * Z.pos p)) with (m * 2 ^ Z.pos p * 2 ^ Z.pos p)
      by (replace (2 * Z.pos p) with (Z.pos p + Z.pos p) by lia; rewrite !Z.pow_add_r by lia; ring). by rewrite (IH (m * 2 ^ Z.pos p)), IH.
  - change (2 ^ 1) with 2. rewrite Z.mul_comm. apply shr_1_even.
Qed.
Lemma fexp_small z : d_small z -> fexp 53 1024 (Z.log2 z + 1) = Z.log2 z - 52.
Proof. intros Hz%d_small_log2. unfold fexp, emin. lia. Qed.
(** Shifting a multiple of a power of two right loses nothing. *)
Lemma shr_fexp_exact z k : d_small z -> 52 <= Z.log2 z + k -> 0 <= k ->
  shr_fexp 53 1024 (z * 2 ^ k) (- k) loc_Exact = (Build_shr_record (z * 2 ^ (52 - Z.log2 z)) false false, Z.log2 z - 52).
Proof.
  intros Hz Hk Hk0. pose proof (d_small_log2 z Hz) as Hl. unfold shr_fexp. cbn [shr_record_of_loc].
  assert (Hd : Zdigits2 (z * 2 ^ k) + - k = Z.log2 z + 1).
  { assert (0 < z * 2 ^ k) by (apply Z.mul_pos_pos; [apply Hz|lia]). destruct (z * 2 ^ k) eqn:E; [lia| |lia].
    cbn [Zdigits2]. rewrite digits2_log2, <- E, log2_shift by (destruct Hz; lia). lia. }
  rewrite Hd, fexp_small by done. set (e := Z.log2 z - 52 - - k).
  replace (z * 2 ^ k) with (z * 2 ^ (52 - Z.log2 z) * 2 ^ e) by (rewrite <- Z.mul_assoc, <- Z.pow_add_r by lia; do 2 f_equal; lia).
  destruct e as [|p|p] eqn:E; unfold shr; [|by rewrite iter_shr; f_equal; lia|lia].
  rewrite Z.mul_1_r. f_equal. lia.
Qed.
Lemma round_aux_exact s z k : d_small z -> 52 <= Z.log2 z + k -> 0 <= k ->
  binary_round_aux 53 1024 s (z * 2 ^ k) (- k) loc_Exact = canon s z.
Proof.
  intros Hz Hk Hk0. pose proof (d_small_log2 z Hz) as Hl. unfold binary_round_aux.
  rewrite shr_fexp_exact by done. cbn [shr_m loc_of_shr_record round_nearest_even].
  replace (Z.log2 z - 52) with (- (52 - Z.log2 z)) by lia. rewrite shr_fexp_exact by (done || lia). cbn [shr_m].
  assert (0 < z * 2 ^ (52 - Z.log2 z)) by (apply Z.mul_pos_pos; [apply Hz|lia]).
  unfold canon. destruct (z * 2 ^ (52 - Z.log2 z)) eqn:E; [lia| |lia]. by destruct (Z.leb_spec (Z.log2 z - 52) (1024 - 53)); [|lia].
Qed.
Lemma iter_xO d m : Zpos (Pos.iter xO m d) = Zpos m * 2 ^ Zpos d.
Proof.
  induction d as [|d IH] using Pos.peano_ind; [by rewrite Z.mul_comm|].
  rewrite Pos.iter_succ, (Pos2Z.inj_xO (Pos.iter _ _ _)), IH, Pos2Z.inj_succ, Z.pow_succ_r by lia. lia.
Qed.
(** A left shift, in terms of the integer. *)
Lemma shl_align_val m e e' : e' <= e -> Zpos (fst (shl_align m e e')) = Zpos m * 2 ^ (e - e') /\ snd (shl_align m e e') = e'.
Proof.
  intros He. unfold shl_align. destruct (e' - e) as [|p|p] eqn:E; [| lia|]; cbn [fst snd].
  - replace (e - e') with 0 by lia. split; lia.
  - rewrite iter_xO. split; [|done]. do 2 f_equal. lia.
Qed.
Lemma normalize_exact z k : d_small z -> 0 <= k -> binary_normalize 53 1024 (z * 2 ^ k) (- k) false = canon false z.
Proof.
  intros Hz Hk. pose proof (d_small_log2 z Hz) as Hl. assert (0 < z * 2 ^ k) by (apply Z.mul_pos_pos; [apply Hz|lia]).
  destruct (z * 2 ^ k) as [|p|p] eqn:E; [lia| |lia]. cbn [binary_normalize]. unfold binary_round.
  rewrite digits2_log2, <- E, log2_shift by (destruct Hz; lia). replace (Z.log2 z + k + 1 + - k) with (Z.log2 z + 1) by lia.
  rewrite fexp_small by done. destruct (decide (Z.log2 z - 52 <= - k)).
  - pose proof (shl_align_val p (- k) (Z.log2 z - 52) ltac:(done)) as [Hf Hs]. destruct (shl_align _ _ _) as [m e]. cbn in Hf, Hs. subst e.
    rewrite Hf, <- E, <- Z.mul_assoc, <- Z.pow_add_r by lia.
    replace (k + (- k - (Z.log2 z - 52))) with (52 - Z.log2 z) by lia.
    rewrite <- (round_aux_exact false z (52 - Z.log2 z)) by (done || lia). f_equal. lia.
  - unfold shl_align. destruct (Z.log2 z - 52 - - k) eqn:E'; [lia| |lia]. rewrite <- E. apply round_aux_exact; [done|lia|lia].
Qed.
Lemma normalize_neg z k b : d_small z -> 0 <= k -> binary_normalize 53 1024 (- (z * 2 ^ k)) (- k) b = canon true z.
Proof.
  intros Hz Hk. pose proof (normalize_exact z k Hz Hk) as Hn. assert (0 < z * 2 ^ k) by (apply Z.mul_pos_pos; [apply Hz|lia]).
  destruct (z * 2 ^ k) as [|p|p] eqn:E; [lia| |lia]. change (- Z.pos p) with (Z.neg p).
  cbn [binary_normalize] in *. unfold binary_round in *.
  destruct (shl_align _ _ _) as [m e]. unfold binary_round_aux in *. destruct (shr_fexp _ _ (Z.pos m) _ _) as [r1 e1].
  destruct (shr_fexp _ _ (round_nearest_even _ _) _ _) as [r2 e2]. unfold canon in *. destruct (shr_m r2); try discriminate.
  destruct (e2 <=? _); [|discriminate]. by injection Hn as -> ->.
Qed.
Lemma d_of_int_pos z : d_small z -> d_of_int z = canon false z.
Proof. intros Hz. pose proof (normalize_exact z 0 Hz ltac:(done)) as Hn. by rewrite Z.mul_1_r in Hn. Qed.
Lemma d_of_int_neg z : d_small z -> d_of_int (- z) = canon true z.
Proof. intros Hz. pose proof (normalize_neg z 0 false Hz ltac:(done)) as Hn. by rewrite Z.mul_1_r in Hn. Qed.

(** The mantissa of [canon]. *)
Lemma canon_mantissa z : d_small z -> Zpos (Z.to_pos (z * 2 ^ (52 - Z.log2 z))) = z * 2 ^ (52 - Z.log2 z).
Proof. intros Hz. pose proof (d_small_log2 z Hz). apply Z2Pos.id. apply Z.mul_pos_pos; [apply Hz|lia]. Qed.
Lemma canon_mul s1 s2 x y : d_small x -> d_small y -> d_small (x * y) -> dmul (canon s1 x) (canon s2 y) = canon (xorb s1 s2) (x * y).
Proof.
  intros Hx Hy Hxy. pose proof (d_small_log2 x Hx). pose proof (d_small_log2 y Hy). unfold dmul, canon at 1 2. cbn [SFmul].
  rewrite Pos2Z.inj_mul, !canon_mantissa by done.
  replace (x * 2 ^ (52 - Z.log2 x) * (y * 2 ^ (52 - Z.log2 y))) with (x * y * 2 ^ (104 - Z.log2 x - Z.log2 y))
    by (replace (104 - Z.log2 x - Z.log2 y) with ((52 - Z.log2 x) + (52 - Z.log2 y)) by lia; rewrite Z.pow_add_r by lia; ring).
  replace (Z.log2 x - 52 + (Z.log2 y - 52)) with (- (104 - Z.log2 x - Z.log2 y)) by lia.
  apply round_aux_exact; [done| |lia]. pose proof (Z.log2_mul_below x y ltac:(destruct Hx; lia) ltac:(destruct Hy; lia)). lia.
Qed.
(** Both operands of a sum at the smaller exponent. *)
Lemma canon_align z e : d_small z -> e <= Z.log2 z - 52 ->
  Zpos (fst (shl_align (Z.to_pos (z * 2 ^ (52 - Z.log2 z))) (Z.log2 z - 52) e)) = z * 2 ^ (- e).
Proof.
  intros Hz He. pose proof (d_small_log2 z Hz). destruct (shl_align_val (Z.to_pos (z * 2 ^ (52 - Z.log2 z))) _ _ He) as [-> _].
  rewrite canon_mantissa by done. rewrite <- Z.mul_assoc, <- Z.pow_add_r by lia. do 2 f_equal. lia.
Qed.
Lemma canon_add x y : d_small x -> d_small y -> d_small (x + y) -> dadd (canon false x) (canon false y) = canon false (x + y).
Proof.
  intros Hx Hy Hxy. pose proof (d_small_log2 x Hx). pose proof (d_small_log2 y Hy). unfold dadd, canon at 1 2. cbn [SFadd cond_Zopp].
  set (e := Z.min _ _). rewrite !canon_align by (done || lia). rewrite <- Z.mul_add_distr_r.
  replace e with (- - e) at 2 by lia. apply normalize_exact; [done|lia].
Qed.
Lemma canon_sub s x : d_small x -> dsub (canon s x) (canon s x) = S754_zero false.
Proof. intros Hx. unfold dsub, canon. cbn [SFsub]. by rewrite Z.sub_diag. Qed.

(** *** The statements on [d_of_int] *)
Lemma d_int_exact z : - 2 ^ 53 < z < 2 ^ 53 -> d_int (d_of_int z) = z.
Proof.
  intros Hz. destruct (decide (0 < z)); [|destruct (decide (z = 0)) as [->|]; [done|]].
  - assert (Hs : d_small z) by (split; lia). pose proof (d_small_log2 z Hs). rewrite d_of_int_pos by done. unfold canon. cbn [d_int].
    rewrite canon_mantissa by done. rewrite Z.shiftl_div_pow2 by lia. replace (- (Z.log2 z - 52)) with (52 - Z.log2 z) by lia.
    apply Z.div_mul. lia.
  - assert (Hs : d_small (- z)) by (split; lia). pose proof (d_small_log2 _ Hs). rewrite <- (Z.opp_involutive z) at 1. rewrite d_of_int_neg by done.
    unfold canon. cbn [d_int]. rewrite canon_mantissa by done. rewrite Z.shiftl_div_pow2 by lia.
    replace (- (Z.log2 (- z) - 52)) with (52 - Z.log2 (- z)) by lia. rewrite Z.div_mul by lia. lia.
Qed.
Lemma canon_compare x y : d_small x -> d_small y -> x <= y -> SFcompare (canon false x) (canon false y) <> Some Gt.
Proof.
  intros Hx Hy Hxy. pose proof (Z.log2_le_mono x y Hxy) as Hl. unfold canon. cbn [SFcompare].
  destruct (Z.compare_spec (Z.log2 x - 52) (Z.log2 y - 52)) as [E|E|E]; [|done|lia].
  intros [= Hc]. change (Pos.compare_cont Eq ?p ?q) with (Pos.compare p q) in Hc. apply Pos.compare_gt_iff in Hc.
  apply Pos2Z.pos_lt_pos in Hc. rewrite !canon_mantissa in Hc by done. replace (Z.log2 y) with (Z.log2 x) in Hc by lia.
  pose proof (d_small_log2 x Hx). assert (0 < 2 ^ (52 - Z.log2 x)) by (apply Z.pow_pos_nonneg; lia). nia.
Qed.
Lemma canon_compare_neg x y : SFcompare (canon true x) (canon true y) = CompOpp <$> SFcompare (canon false x) (canon false y).
Proof. unfold canon. cbn. f_equal. by destruct (Z.compare _ _). Qed.
(** The order of integers is that of their floats. *)
Lemma d_leb a b : - 2 ^ 53 < a -> a <= b -> b < 2 ^ 53 -> SFleb (d_of_int a) (d_of_int b) = true.
Proof.
  intros Ha Hab Hb. unfold SFleb.
  assert (Hp : forall z, 0 < z < 2 ^ 53 -> d_of_int z = canon false z) by (intros; by apply d_of_int_pos).
  assert (Hn : forall z, - 2 ^ 53 < z < 0 -> d_of_int z = canon true (- z))
    by (intros z ?; rewrite <- (Z.opp_involutive z) at 1; apply d_of_int_neg; split; lia).
  destruct (decide (0 < a)); [|destruct (decide (a = 0)) as [->|]].
  - rewrite !Hp by lia. pose proof (canon_compare a b ltac:(split; lia) ltac:(split; lia) Hab). destruct (SFcompare _ _) as [[]|] eqn:E; done.
  - destruct (decide (b = 0)) as [->|]; [done|]. by rewrite (Hp b) by lia.
  - rewrite (Hn a) by lia. destruct (decide (0 < b)); [by rewrite (Hp b) by lia|]. destruct (decide (b = 0)) as [->|]; [done|].
    rewrite (Hn b) by lia. pose proof (canon_compare (- b) (- a) ltac:(split; lia) ltac:(split; lia) ltac:(lia)) as Hc.
    rewrite canon_compare_neg. unfold canon in *. cbn [SFcompare] in *. rewrite (Z.compare_antisym (Z.log2 (- a) - 52)) in Hc.
    destruct (Z.log2 (- a) - 52 ?= Z.log2 (- b) - 52); cbn in *; try done.
    rewrite Pos.compare_cont_antisym. cbn [CompOpp]. by destruct (Pos.compare_cont _ _ _).
Qed.
Lemma d_eqb_zero z : - 2 ^ 53 < z < 2 ^ 53 -> SFeqb (d_of_int z) (S754_zero false) = (z =? 0).
Proof.
  intros Hz. destruct (Z.eqb_spec z 0) as [->|]; [done|]. destruct (decide (0 < z)).
  - by rewrite d_of_int_pos by (split; lia).
  - rewrite <- (Z.opp_involutive z). by rewrite d_of_int_neg by (split; lia).
Qed.
Lemma d_sub_self z : - 2 ^ 53 < z < 2 ^ 53 -> dsub (d_of_int z) (d_of_int z) = S754_zero false.
Proof.
  intros Hz. destruct (decide (0 < z)); [|destruct (decide (z = 0)) as [->|]; [done|]].
  - rewrite d_of_int_pos by (split; lia). by apply canon_sub; split; lia.
  - rewrite <- (Z.opp_involutive z). rewrite d_of_int_neg by (split; lia). apply canon_sub; split; lia.
Qed.
(** One more digit. *)
Lemma d_digit n d : 0 <= n -> 0 <= d < 10 -> 10 * n + d < 2 ^ 53 ->
  dadd (dmul (d_of_int n) (d_of_int 10)) (d_of_int d) = d_of_int (10 * n + d).
Proof.
  intros Hn Hd Hs. destruct (decide (n = 0)) as [->|].
  - change (10 * 0 + d) with d. destruct (decide (d = 0)) as [->|]; [done|]. rewrite !(d_of_int_pos d) by (split; lia). done.
  - rewrite (d_of_int_pos n), (d_of_int_pos 10) by (split; lia). rewrite canon_mul by (split; lia). rewrite (Z.mul_comm n).
    destruct (decide (d = 0)) as [->|].
    + rewrite Z.add_0_r, (d_of_int_pos (10 * n)) by (split; lia). done.
    + rewrite (d_of_int_pos d), (d_of_int_pos (10 * n + d)) by (split; lia). apply canon_add; split; lia.
Qed.
(** The sign, and a scale of one. *)
Lemma d_signed (neg : bool) n : 0 <= n < 2 ^ 53 -> (n = 0 -> neg = false) ->
  dmul (dmul (d_of_int (if neg then -1 else 1)) (d_of_int n)) (d_of_int 1) = d_of_int (if neg then - n else n).
Proof.
  intros Hn Hz. destruct (decide (n = 0)) as [->|]; [by rewrite Hz|].
  assert (H1 : d_of_int (if neg then -1 else 1) = canon neg 1) by (destruct neg; [apply (d_of_int_neg 1)|apply d_of_int_pos]; done).
  rewrite H1, (d_of_int_pos n), (d_of_int_pos 1), !canon_mul by (split; lia). rewrite !Z.mul_1_l, !Z.mul_1_r.
  destruct neg; [rewrite d_of_int_neg by (split; lia)|rewrite d_of_int_pos by (split; lia)]; done.
Qed.
Lemma d_fits_int z : -2147483648 <= z <= 2147483647 -> d_fits (d_of_int z) = true.
Proof.
  intros Hz. pose proof (d_int_exact z ltac:(lia)) as He. destruct (decide (z = 0)) as [->|]; [done|].
  assert (exists s m e, d_of_int z = S754_finite s m e) as (s&m&e&E).
  { destruct (decide (0 < z)); [rewrite d_of_int_pos by (split; lia); by do 3 eexists|].
    rewrite <- (Z.opp_involutive z), d_of_int_neg by (split; lia). by do 3 eexists. }
  rewrite E in *. unfold d_fits. rewrite He. lia.
Qed.
