(* ===== verification/HalTimer.v ===== *)
(** * Software timers: [akeeta/hal/src/ya_hal_timer.c]

    A timer stores the tick it was armed at and a timeout; expiry is decided
    from the 32-bit tick counter, which wraps. *)

From stdpp Require Import base numbers list strings.
From S2P Require Import Prelude.

(** [1000 / configTICK_RATE_HZ] with the 200 Hz tick of FreeRTOSConfig.h. *)
Definition portTICK_RATE_MS : Z := 5.

Inductive ya_timer_type := YA_TIMER_TYPE_MS | YA_TIMER_TYPE_S.
Record Ya_Timer := mkTimer { time_out : Z; init_tick : Z; type : ya_timer_type }.

(** [a - b] as the code computes it: one less than the true difference modulo
    2^32 when the counter has wrapped. *)
Definition wrapped_delta (cur init : Z) : Z :=
  if init <=? cur then cur - init else u32 (0xffffffff - init + cur).

(** [xTaskGetTickCount()] is [tick]. *)
Definition ya_has_timer_expired (tick : Z) (t : Ya_Timer) : Z :=
  let cur_timer := u32 (tick * portTICK_RATE_MS) in
  let init_timer := u32 (init_tick t * portTICK_RATE_MS) in
  let delta_timer := wrapped_delta cur_timer init_timer in
  match type t with
  | YA_TIMER_TYPE_MS => if time_out t <? delta_timer then 0 else -1
  | YA_TIMER_TYPE_S => if time_out t <? delta_timer / 1000 then 0 else -1
  end.

Definition ya_countdown_ms (tick : Z) (t : Ya_Timer) (timeout : Z) : Ya_Timer :=
  if timeout <=? 0 then t else mkTimer timeout tick YA_TIMER_TYPE_MS.
Definition ya_countdown_sec (tick : Z) (t : Ya_Timer) (timeout : Z) : Ya_Timer :=
  if timeout <=? 0 then t else mkTimer timeout tick YA_TIMER_TYPE_S.

Definition ya_left_ms (tick : Z) (t : Ya_Timer) : Z :=
  let delta_tick := wrapped_delta tick (init_tick t) in
  match type t with
  | YA_TIMER_TYPE_MS => u32 (time_out t - delta_tick * portTICK_RATE_MS)
  | YA_TIMER_TYPE_S => u32 (u32 (time_out t * 1000) - delta_tick * portTICK_RATE_MS)
  end.

Definition ya_timer_compare (time_start_ms time_end_ms timeout_ms : Z) : Z :=
  let delta_timer := wrapped_delta time_end_ms time_start_ms in
  if timeout_ms <? delta_timer then 0 else -1.

Definition ya_init_timer : Ya_Timer := mkTimer 0 0 YA_TIMER_TYPE_MS.

(** ** The computed difference against the true one *)

(** 1 when the counter is below its starting value, 0 otherwise. *)
Definition wrap_slip (cur init : Z) : Z := if init <=? cur then 0 else 1.

Lemma wrapped_delta_spec cur init :
  is_u32 cur -> is_u32 init ->
  wrapped_delta cur init = u32 (cur - init) - wrap_slip cur init.
Proof.
  unfold is_u32, wrapped_delta, wrap_slip, u32. intros Hc Hi.
  destruct (Z.leb_spec init cur).
  - rewrite Z.mod_small by lia. lia.
  - replace (cur - init) with (cur - init + 4294967296 + (-1) * 4294967296) by lia.
    rewrite Z.mod_add by lia. rewrite !Z.mod_small by lia. lia.
Qed.

Lemma u32_mul_sub a b k : u32 (u32 (a * k) - u32 (b * k)) = u32 ((a - b) * k).
Proof. unfold u32. rewrite <- Zminus_mod. f_equal. lia. Qed.

(** A millisecond timer armed at tick [t0] is reported expired [k] ticks
    later, before and after the tick counter and the millisecond counter wrap,
    exactly when more than its timeout has elapsed, with one millisecond of slip
    when the millisecond counter wrapped in between. *)
Theorem timer_ms_expiry (t0 k timeout : Z) (t : Ya_Timer) :
  is_u32 t0 -> 0 <= k -> k * 5 < 4294967296 -> 0 < timeout < 4294967296 ->
  let cur := u32 (u32 (t0 + k) * 5) in
  let slip := wrap_slip cur (u32 (t0 * 5)) in
  ya_has_timer_expired (u32 (t0 + k)) (ya_countdown_ms t0 t timeout)
    = if timeout <? k * 5 - slip then 0 else -1.
Proof.
  intros H0 Hk Hk5 Ht. cbn zeta. unfold ya_countdown_ms, ya_has_timer_expired.
  destruct (Z.leb_spec timeout 0); [lia|]. cbn [type time_out init_tick].
  unfold portTICK_RATE_MS. rewrite wrapped_delta_spec by apply u32_range.
  rewrite u32_mul_sub.
  replace (u32 ((u32 (t0 + k) - t0) * 5)) with (k * 5); [done|].
  unfold u32 at 1. unfold u32. rewrite <- Z.mul_mod_idemp_l, Zminus_mod_idemp_l by lia.
  rewrite Z.mul_mod_idemp_l by lia. replace ((t0 + k - t0) * 5) with (k * 5) by lia.
  rewrite Z.mod_small; lia.
Qed.

Lemma timer_ms_expiry_witness :
  ya_has_timer_expired (u32 (4294967290 + 201)) (ya_countdown_ms 4294967290 ya_init_timer 1000) = 0.
Proof.
  rewrite (timer_ms_expiry 4294967290 201 1000 ya_init_timer); [reflexivity|evaluate..].
Defined.

(** [ya_left_ms] of a running millisecond timer is the time left, and of an
    overrun one wraps to nearly 2^32 instead of reporting 0. *)
Theorem left_ms_wraps (tick : Z) (t : Ya_Timer) :
  type t = YA_TIMER_TYPE_MS -> is_u32 tick -> is_u32 (time_out t) ->
  0 <= init_tick t <= tick -> (tick - init_tick t) * 5 < 4294967296 ->
  let elapsed := (tick - init_tick t) * 5 in
  ya_left_ms tick t =
    if elapsed <=? time_out t then time_out t - elapsed
    else 4294967296 - (elapsed - time_out t).
Proof.
  unfold is_u32. intros Hty Ht Hto Hi He. cbn zeta. unfold ya_left_ms, wrapped_delta, portTICK_RATE_MS.
  rewrite Hty. destruct (Z.leb_spec (init_tick t) tick); [|lia].
  unfold u32. destruct (Z.leb_spec ((tick - init_tick t) * 5) (time_out t)).
  - rewrite Z.mod_small; lia.
  - rewrite <- (Z_mod_plus_full _ 1), Z.mod_small; lia.
Qed.

Lemma left_ms_wraps_witness : ya_left_ms 300 (mkTimer 1000 0 YA_TIMER_TYPE_MS) = 4294966796.
Proof. rewrite left_ms_wraps; [reflexivity|reflexivity|evaluate..]. Defined.
