(* ===== verification/CJson.v ===== *)
(** * JSON trees: the part of [platform/json/cJSON.c] the application uses

    A parsed document is a tree of items; an object's members carry their key.
    The accessors are modelled as written (keys are compared without case).
    Parsing and printing text are the operations of an interface: the
    application only relies on what a parsed tree looks like and on printing
    yielding a C string; [JsonUse] shows that the code of [cJSON.c], modelled in
    [CJsonText], is an instance.  A text on which the parser overruns is a fault
    here too, every call may be refused memory, and a document built while
    memory is short has NULL texts, on which printing faults. *)

From stdpp Require Import base numbers list strings.
From S2P Require Import Prelude Platform CommonFunc.

Definition cJSON_False : Z := 0.
Definition cJSON_Number : Z := 3.
Definition cJSON_String : Z := 4.
Definition cJSON_Array : Z := 5.
Definition cJSON_Object : Z := 6.

(** [struct cJSON]: key (NULL outside objects), type, string value (NULL unless
    the item is a string), and the chain of children. *)
Inductive cJSON :=
| Item (string : option bytes) (type : Z) (valuestring : option bytes) (child : list cJSON).

Definition j_string (j : cJSON) : option bytes := let '(Item s _ _ _) := j in s.
Definition j_type (j : cJSON) : Z := let '(Item _ t _ _) := j in t.
Definition valuestring (j : cJSON) : option bytes := let '(Item _ _ v _) := j in v.
Definition child (j : cJSON) : list cJSON := let '(Item _ _ _ c) := j in c.

Definition tolower (c : Z) : Z := if (65 <=? c) && (c <=? 90) then c + 32 else c.

(** [cJSON_strcasecmp(s1, s2) == 0] for a non-NULL [s2]; a NULL key matches
    nothing. *)
Definition key_matches (s1 : option bytes) (s2 : bytes) : bool :=
  match s1 with
  | None => false
  | Some s1 => bool_decide (tolower <$> cstr s1 = tolower <$> cstr s2)
  end.

Definition cJSON_GetArraySize (array : cJSON) : Z := Z.of_nat (length (child array)).
Definition cJSON_GetArrayItem (array : cJSON) (item : Z) : option cJSON :=
  child array !! Z.to_nat item.
Definition cJSON_GetObjectItem (object : cJSON) (string : bytes) : option cJSON :=
  List.find (fun c => key_matches (j_string c) string) (child object).

(** Text in, tree out, and back.  Reading a text may go wrong ([None]: the parser
    writes outside the block of a string, see [CJsonRead]), give NULL or give a
    tree; printing gives a text or NULL. *)
Class JsonText := {
  json_read : bytes -> option (option cJSON);
  cJSON_PrintUnformatted : cJSON -> option bytes;
}.
(** The tree of a text, and whether the parser overruns on it. *)
Definition cJSON_Parse `{JsonText} (t : bytes) : option cJSON := match json_read t with Some o => o | None => None end.
Definition overruns `{JsonText} (t : bytes) : bool := match json_read t with Some _ => false | None => true end.
(** The interface of a parser without overruns. *)
Definition json_of (parse : bytes -> option cJSON) (print : cJSON -> option bytes) : JsonText :=
  {| json_read t := Some (parse t); cJSON_PrintUnformatted := print |}.

(** A tree without NULL texts where the printer reads one: every string has its
    value, and every member of an object its key. *)
Definition is_there {A} (o : option A) : bool := match o with Some _ => true | None => false end.
Fixpoint printable (j : cJSON) : bool :=
  let '(Item _ ty v c) := j in
  (negb (ty =? cJSON_String) || is_there v) &&
  forallb (fun m => (negb (ty =? cJSON_Object) || is_there (j_string m)) && printable m) c.

(** A printed document is made of bytes. *)
Class JsonTextLaws `{JsonText} := {
  print_bytes : forall j s, cJSON_PrintUnformatted j = Some s -> is_bytes s;
}.
(** A text without terminator, and an object of such strings. *)
Definition text_ok (x : bytes) : bool := forallb (fun c => (0 <? c) && (c <? 256)) x.
Definition string_member (m : cJSON) : bool :=
  match m with Item (Some k) ty (Some v) [] => (ty =? cJSON_String) && text_ok k && text_ok v | _ => false end.
Definition text_document (j : cJSON) : bool :=
  match j with Item None ty None c => (ty =? cJSON_Object) && forallb string_member c | _ => false end.
(** A parsed tree has all its texts, and the parser survives what the printer
    makes of such an object. *)
Class JsonStrings `{JsonText} := {
  parse_printable : forall t j, cJSON_Parse t = Some j -> printable j = true;
  print_survives : forall j x, text_document j = true -> cJSON_PrintUnformatted j = Some x -> overruns (cstr x) = false;
}.

Section JsonOps.
Context `{JsonText} {C S : Type}.
(** The tree and the printed text are heap blocks of the caller, one each
    whatever their parts; one answer of the allocator tells whether all the
    parts were granted. *)
Definition json_take {A} (o : option A) : P C S (option A) :=
  match o with
  | Some a => let* p := ya_hal_os_memory_alloc 40 in ret (match p with Some _ => Some a | None => None end)
  | None => ret None
  end.
Definition json_parse (text : bytes) : P C S (option cJSON) :=
  match json_read (cstr text) with
  | Some o => json_take o
  | None => fail OutOfBounds
  end.
(** [print_string_ptr] reads its text before it tests it for NULL. *)
Definition json_print (j : cJSON) : P C S (option bytes) :=
  if printable j then json_take (cstr <$> cJSON_PrintUnformatted j) else fail NullDeref.
Definition cJSON_Delete : P C S unit := ya_hal_os_memory_free.

(** ** Documents under construction

    The document is one block from [cJSON_CreateObject] on, and attaching an
    object to another merges the two.  The answer of the allocator to the copy
    of a text; the copy is part of the document. *)
Definition cJSON_CreateObject : P C S (option unit) :=
  let* p := ya_hal_os_memory_alloc 40 in
  ret (match p with Some _ => Some tt | None => None end).
Definition cJSON_AddItemToObject : P C S unit :=
  upd_hw (fun h => set_heap (heap h) (live h - 1) h).
Definition granted : P C S bool := fun '(s, h) =>
  match heap h with
  | [] => Done true (s, h)
  | b :: hp => Done b (s, set_heap hp (live h) h)
  end.
Definition cJSON_strdup (text : option bytes) : P C S (option bytes) :=
  match text with
  | None => ret None
  | Some t => let* b := granted in ret (if b then Some t else None)
  end.
(** [cJSON_AddItemToObject(object, key, item)]: the key is copied; a refused copy
    leaves a NULL key. *)
Definition json_name (key : option bytes) (j : cJSON) : P C S cJSON :=
  let '(Item _ ty v c) := j in let* k := cJSON_strdup key in ret (Item k ty v c).
(** The members of a document as the calls that add them leave them: a string
    or number item that cannot be allocated is not added, a text that cannot be copied is
    NULL.  (An object is allocated by [cJSON_CreateObject], before.) *)
Fixpoint json_build (j : cJSON) : P C S (option cJSON) :=
  let '(Item k ty v c) := j in
  let* c := (fix members (l : list cJSON) : P C S (list cJSON) :=
    match l with
    | [] => ret []
    | m :: l => let* o := json_build m in let* l := members l in ret (option_list o ++ l)
    end) c in
  let* made := if (ty =? cJSON_String) || (ty =? cJSON_Number) then granted else ret true in
  if made then
    let* v := cJSON_strdup v in
    let* j := json_name k (Item None ty v c) in ret (Some j)
  else ret None.
(** The members are added, and the document is printed. *)
Definition json_document (j : cJSON) : P C S (option bytes) :=
  let* o := json_build j in
  match o with Some j => json_print j | None => ret None end.
End JsonOps.

(** ** With memory to spare, and without *)
Section JsonLemmas.
Context `{JsonText} {C S : Type}.
Implicit Types (s : S) (h : hw C).
Lemma read_parse t j : cJSON_Parse t = Some j -> json_read t = Some (Some j).
Proof. unfold cJSON_Parse. destruct (json_read t) as [o|]; [by intros ->|done]. Qed.
Lemma read_ok t : overruns t = false -> json_read t = Some (cJSON_Parse t).
Proof. unfold overruns, cJSON_Parse. by destruct (json_read t). Qed.
Lemma parse_some (t : bytes) j : cJSON_Parse (cstr t) = Some j -> json_parse (C:=C) (S:=S) t = json_take (Some j).
Proof. intros Hp. unfold json_parse. by rewrite (read_parse _ _ Hp). Qed.
Lemma take_spare {A} (a : A) s h : heap h = [] -> json_take (Some a) (s, h) = Done (Some a) (s, set_heap (heap h) (live h + 1) h).
Proof. intros Hh. unfold json_take, bind, ya_hal_os_memory_alloc. cbn. by rewrite Hh. Qed.
Lemma wp_take {A} (o : option A) Q R s h :
  (forall h', moved (if o then 1 else 0) h h' -> Q o (s, h')) ->
  (forall h', heap h <> [] -> moved 0 h h' -> Q None (s, h')) -> wp (json_take o) Q R (s, h).
Proof.
  intros Hs Hf. unfold json_take. destruct o as [a|]; [|apply wp_ret, Hs, moved_refl].
  wstep. apply wp_alloc_moved; [lia| |].
  - intros b h' _ _ M. apply wp_ret. by apply Hs.
  - intros h' [?|?] M; [done|]. apply wp_ret. by apply Hf.
Qed.
(** Reading a text: a tree, or NULL when there is none or no memory for it. *)
Lemma wp_json_parse text Q R s h : overruns (cstr text) = false ->
  (forall h', cJSON_Parse (cstr text) = None \/ heap h <> [] -> moved 0 h h' -> Q None (s, h')) ->
  (forall root h', cJSON_Parse (cstr text) = Some root -> moved 1 h h' -> Q (Some root) (s, h')) ->
  wp (json_parse text) Q R (s, h).
Proof.
  intros Ho Hn Hs. unfold json_parse. rewrite (read_ok _ Ho). apply wp_take.
  - intros h' M. destruct (cJSON_Parse (cstr text)) as [root|]; [by apply Hs|]. by apply Hn; [left|].
  - intros h' Hh M. by apply Hn; [right|].
Qed.
Lemma granted_spare s h : heap h = [] -> granted (s, h) = Done true (s, h).
Proof. intros Hh. unfold granted. by rewrite Hh. Qed.
Lemma strdup_spare t s h : heap h = [] -> cJSON_strdup t (s, h) = Done t (s, h).
Proof. intros Hh. destruct t; [|done]. unfold cJSON_strdup. by erewrite bind_done by (by apply granted_spare). Qed.
Lemma build_spare s h : heap h = [] -> forall j, json_build j (s, h) = Done (Some j) (s, h).
Proof.
  intros Hh. fix IH 1. intros [k ty v c]. cbn [json_build]. erewrite bind_done.
  2: { instantiate (1 := (s, h)). instantiate (1 := c). induction c as [|m c IHc]; [done|].
       rewrite (bind_done _ _ _ _ _ (IH m)). by rewrite (bind_done _ _ _ _ _ IHc). }
  erewrite bind_done by (destruct (_ || _); [by apply granted_spare|reflexivity]). cbn beta iota.
  erewrite bind_done by (by apply strdup_spare). unfold json_name. rewrite bind_assoc. erewrite bind_done by (by apply strdup_spare). done.
Qed.
Lemma document_spare j s h : heap h = [] -> printable j = true ->
  json_document j (s, h) = json_take (cstr <$> cJSON_PrintUnformatted j) (s, h).
Proof. intros Hh Hp. unfold json_document. rewrite (bind_done _ _ _ _ _ (build_spare s h Hh j)). unfold json_print. by rewrite Hp. Qed.
Lemma document_done j t s h : heap h = [] -> printable j = true -> cstr <$> cJSON_PrintUnformatted j = Some t ->
  json_document j (s, h) = Done (Some t) (s, set_heap (heap h) (live h + 1) h).
Proof. intros Hh Hp Ht. rewrite document_spare, Ht by done. by apply take_spare. Qed.
Lemma wp_document j Q R s h : heap h = [] -> printable j = true ->
  wp (json_take (cstr <$> cJSON_PrintUnformatted j)) Q R (s, h) -> wp (json_document j) Q R (s, h).
Proof. intros Hh Hp. unfold wp. by rewrite document_spare. Qed.
End JsonLemmas.

(** ** Building trees (used to state what a document contains) *)
Definition jstr (key value : string) : cJSON :=
  Item (Some (str key)) cJSON_String (Some (str value)) [].
Definition jobj (key : string) (members : list cJSON) : cJSON :=
  Item (Some (str key)) cJSON_Object None members.
Definition jarr (key : string) (items : list cJSON) : cJSON :=
  Item (Some (str key)) cJSON_Array None items.
Definition jroot (members : list cJSON) : cJSON := Item None cJSON_Object None members.

(** Looking a key up finds the first member with that key, in any case. *)
Lemma get_object_item_cons o k m ms :
  child o = m :: ms ->
  cJSON_GetObjectItem o k =
    if key_matches (j_string m) k then Some m
    else cJSON_GetObjectItem (Item (j_string o) (j_type o) (valuestring o) ms) k.
Proof. intros Hc. unfold cJSON_GetObjectItem. rewrite Hc. done. Qed.
Lemma get_array_item_lt a i :
  0 <= i < cJSON_GetArraySize a -> is_Some (cJSON_GetArrayItem a i).
Proof. intros Hi. apply lookup_lt_is_Some_2. unfold cJSON_GetArraySize in Hi. lia. Qed.

(** The parts of a tree that prints do too. *)
Lemma printable_child j m : printable j = true -> m ∈ child j -> printable m = true.
Proof.
  destruct j as [k ty v c]. cbn. intros [_ Hc]%andb_prop Hm. rewrite List.forallb_forall in Hc.
  specialize (Hc m (proj1 (list_elem_of_In _ _) Hm)). by apply andb_prop in Hc as [_ ?].
Qed.
Lemma printable_member j k m : printable j = true -> cJSON_GetObjectItem j k = Some m -> printable m = true.
Proof. intros Hj [Hm _]%List.find_some. by eapply printable_child, list_elem_of_In. Qed.
