(* ===== verification/SysTime.v ===== *)
(** * The wall clock: time keeping of [akeeta/app/src/ya_hardware_timer.c]

    The module keeps a calendar clock that the one-second hardware timer
    advances ([sys_abstime_running]) and that the cloud sets
    ([device_handle_severtime_set]). *)

From stdpp Require Import base numbers list strings.
From S2P Require Import Prelude Platform CommonFunc CJson.

(** [sys_time_t]. *)
Record sys_time_t := mkTime {
  year : Z; month : Z; day : Z; hour : Z; minute : Z; second : Z; week : Z }.
#[export] Instance sys_time_eq_dec : EqDecision sys_time_t.
Proof. solve_decision. Defined.

(** The globals: the clock and the "a second has passed" flag. *)
Record clock := mkClock { sys_time : sys_time_t; check_enable : Z }.

Definition is_leap_year (y : Z) : bool :=
  ((y mod 4 =? 0) && negb (y mod 100 =? 0)) || (y mod 400 =? 0).

(** As written: 10 stands where 11 was meant in the second test. *)
Definition days_in_month (m y : Z) : Z :=
  if (m =? 1) || (m =? 3) || (m =? 5) || (m =? 7) || (m =? 8) || (m =? 10) || (m =? 12) then 31
  else if (m =? 4) || (m =? 6) || (m =? 9) || (m =? 10) then 30
  else if m =? 2 then 28 + (if is_leap_year y then 1 else 0)
  else 31.

Definition sys_update_cloud_time (second_add : Z) (c : clock) : clock :=
  if 60 <=? second_add then c
  else
    let t := sys_time c in
    let second1 := u8 (second t + second_add) in
    let t' :=
      if second1 <=? 59
      then mkTime (year t) (month t) (day t) (hour t) (minute t) second1 (week t)
      else
        let second2 := u8 (second1 - 60) in
        let minute1 := u8 (minute t + 1) in
        if minute1 <=? 59
        then mkTime (year t) (month t) (day t) (hour t) minute1 second2 (week t)
        else
          let hour1 := u8 (hour t + 1) in
          if hour1 <=? 23
          then mkTime (year t) (month t) (day t) hour1 0 second2 (week t)
          else
            let day1 := u8 (day t + 1) in
            let week1 := u8 (week t + 1) in
            let week2 := if 7 <? week1 then 1 else week1 in
            if day1 <=? days_in_month (month t) (year t)
            then mkTime (year t) (month t) day1 0 0 second2 week2
            else
              let month1 := u8 (month t + 1) in
              if month1 <=? 12
              then mkTime (year t) month1 1 0 0 second2 week2
              else mkTime (u16 (year t + 1)) 1 1 0 0 second2 week2
    in mkClock t' 1.

Definition sys_abstime_running (c : clock) : clock := sys_update_cloud_time 1 c.

(** [sys_abstime_init]: 1 January 2000, a Saturday. *)
Definition sys_abstime_init (c : clock) : clock :=
  mkClock (mkTime 2000 1 1 0 0 0 6) (check_enable c).

(** ** Setting the clock from the cloud *)
Section SeverTime.
Context `{JsonText} {C : Type}.

(** [property = cJSON_GetObjectItem(time, key); if (!property) goto err;
    field = atoi(property->valuestring)], cut to the field's width; [None] is
    [goto err]. *)
Definition time_field (time : cJSON) (key : string) (cut : Z -> Z) : P C clock (option Z) :=
  match cJSON_GetObjectItem time (str key) with
  | None => ret None
  | Some property =>
    let* s := deref (valuestring property) in
    ret (Some (cut (atoi s)))
  end.

Definition severtime_err : P C clock Z := cJSON_Delete ;; ret (-1).

Definition device_handle_severtime_set (data_buf : bytes) : P C clock Z :=
  let* root := json_parse data_buf in
  match root with
  | None => ret (-1)
  | Some root =>
  match cJSON_GetObjectItem root (str "time") with
  | None => severtime_err
  | Some time =>
    let* f := time_field time "year" u16 in
    match f with None => severtime_err | Some y =>
    if y <? 2020 then severtime_err else
    let* f := time_field time "month" u8 in
    match f with None => severtime_err | Some mo =>
    if (12 <? mo) || (mo =? 0) then severtime_err else
    let* f := time_field time "day" u8 in
    match f with None => severtime_err | Some d =>
    if (31 <? d) || (d =? 0) then severtime_err else
    let* f := time_field time "hour" u8 in
    match f with None => severtime_err | Some ho =>
    if 23 <? ho then severtime_err else
    let* f := time_field time "minute" u8 in
    match f with None => severtime_err | Some mi =>
    if 59 <? mi then severtime_err else
    let* f := time_field time "second" u8 in
    match f with None => severtime_err | Some se =>
    if 59 <? se then severtime_err else
    let* f := time_field time "week" u8 in
    match f with None => severtime_err | Some w =>
    if (7 <? w) || (w =? 0) then severtime_err else
      emit (EvServerTime [y; mo; d; ho; mi; se; w]) ;;
      emit (EvHwTimer false) ;;
      puts (fun c => mkClock (mkTime y mo d ho mi se w) (check_enable c)) ;;
      emit (EvHwTimer true) ;;
      cJSON_Delete ;;
      ret 0
    end end end end end end end
  end
  end.
End SeverTime.

(** ** What a correct clock does *)

(** Fields in the ranges the clock keeps them in. *)
Definition valid_time (t : sys_time_t) : Prop :=
  0 <= year t < 65536 /\ 1 <= month t <= 12 /\ 1 <= day t <= 31 /\
  0 <= hour t <= 23 /\ 0 <= minute t <= 59 /\ 0 <= second t <= 59 /\ 1 <= week t <= 7.
#[export] Instance valid_time_dec t : Decision (valid_time t).
Proof. unfold valid_time; apply _. Defined.

(** The Gregorian calendar: length of a month, days before it in its year, and
    a day count that grows by one per day. *)
Definition month_length (m y : Z) : Z :=
  match m with
  | 2 => if is_leap_year y then 29 else 28
  | 4 | 6 | 9 | 11 => 30
  | _ => 31
  end.
Fixpoint days_before (m : nat) (y : Z) : Z :=
  match m with
  | O => 0
  | S m => days_before m y + month_length (Z.of_nat m + 1) y
  end.
Definition day_number (t : sys_time_t) : Z :=
  let y := year t - 1 in
  365 * y + y / 4 - y / 100 + y / 400 + days_before (Z.to_nat (month t - 1)) (year t) + day t.
Definition seconds_of_day (t : sys_time_t) : Z := hour t * 3600 + minute t * 60 + second t.
Definition abs_seconds (t : sys_time_t) : Z := day_number t * 86400 + seconds_of_day t.
(** A date of that calendar. *)
Definition real_date (t : sys_time_t) : Prop := day t <= month_length (month t) (year t).

(** ** Proofs *)

Lemma days_in_month_ge28 m y : 28 <= days_in_month m y <= 31.
Proof. unfold days_in_month. repeat case_match; lia. Qed.

Lemma days_in_month_correct m y :
  1 <= m <= 12 -> m <> 11 -> days_in_month m y = month_length m y.
Proof.
  intros Hm Hne. unfold days_in_month.
  assert (m = 1 \/ m = 2 \/ m = 3 \/ m = 4 \/ m = 5 \/ m = 6 \/ m = 7 \/ m = 8 \/ m = 9
    \/ m = 10 \/ m = 12) as Hc by lia.
  destruct Hc as [->|[->|[->|[->|[->|[->|[->|[->|[->|[->| ->]]]]]]]]]]; try done.
  cbn -[is_leap_year]. by destruct (is_leap_year y).
Qed.

(** The year's length, as the leap rule of the code has it. *)
Lemma days_before_year y : days_before 12 y = 365 + (if is_leap_year y then 1 else 0).
Proof. cbv -[is_leap_year]. by destruct (is_leap_year y). Qed.

Lemma leap_step y :
  let g x := x / 4 - x / 100 + x / 400 in
  g y - g (y - 1) = if is_leap_year y then 1 else 0.
Proof.
  cbn zeta. unfold is_leap_year.
  assert (Hk : forall k, 0 < k -> y / k - (y - 1) / k = if y mod k =? 0 then 1 else 0).
  { intros k Hk. destruct (Z.eqb_spec (y mod k) 0) as [He|He].
    - pose proof (Z_div_mod_eq_full y k).
      replace (y - 1) with ((y / k - 1) * k + (k - 1)) by lia.
      rewrite Z.div_add_l, (Z.div_small (k - 1)) by lia. lia.
    - pose proof (Z_div_mod_eq_full y k). pose proof (Z.mod_pos_bound y k Hk).
      replace (y - 1) with ((y / k) * k + (y mod k - 1)) by lia.
      rewrite Z.div_add_l, (Z.div_small (y mod k - 1)) by lia. lia. }
  pose proof (Hk 4 ltac:(lia)). pose proof (Hk 100 ltac:(lia)). pose proof (Hk 400 ltac:(lia)).
  assert (y mod 100 = 0 -> y mod 4 = 0) by (intros; zdiv).
  assert (y mod 400 = 0 -> y mod 100 = 0) by (intros; zdiv).
  zbool; lia.
Qed.

Lemma days_before_succ m y :
  1 <= m -> days_before (Z.to_nat m) y = days_before (Z.to_nat (m - 1)) y + month_length m y.
Proof.
  intros Hm. replace (Z.to_nat m) with (S (Z.to_nat (m - 1))) by lia. cbn [days_before].
  do 2 f_equal. lia.
Qed.

(** Crossing a month or a year is one day in the calendar's count. *)
Lemma day_number_next_month y m d h mi s w h' mi' s' w' :
  1 <= m -> d = month_length m y ->
  day_number (mkTime y (m + 1) 1 h' mi' s' w') = day_number (mkTime y m d h mi s w) + 1.
Proof.
  intros Hm ->. unfold day_number. cbn [year month day].
  replace (m + 1 - 1) with m by lia. rewrite (days_before_succ m) by lia. lia.
Qed.
Lemma day_number_next_year y d h mi s w h' mi' s' w' :
  d = 31 -> day_number (mkTime (y + 1) 1 1 h' mi' s' w') = day_number (mkTime y 12 d h mi s w) + 1.
Proof.
  intros ->. unfold day_number. cbn [year month day].
  change (Z.to_nat (1 - 1)) with 0%nat. change (Z.to_nat (12 - 1)) with 11%nat.
  pose proof (leap_step y) as Hl. pose proof (days_before_year y) as Hy. cbn beta zeta in Hl.
  change (days_before 12 y) with (days_before 11 y + 31) in Hy.
  replace (y + 1 - 1) with y by lia. change (days_before 0 (y + 1)) with 0. lia.
Qed.

(** One tick, on a clock whose fields are in range. *)
Lemma update_cases a c :
  valid_time (sys_time c) -> 0 <= a < 60 ->
  let t := sys_time c in
  let t' := sys_time (sys_update_cloud_time a c) in
  check_enable (sys_update_cloud_time a c) = 1 /\ valid_time t' /\
  ((seconds_of_day t + a < 86400 /\ seconds_of_day t' = seconds_of_day t + a /\
    year t' = year t /\ month t' = month t /\ day t' = day t /\ week t' = week t) \/
   (86400 <= seconds_of_day t + a /\ seconds_of_day t' = seconds_of_day t + a - 86400 /\
    week t' = week t mod 7 + 1 /\
    ((day t < days_in_month (month t) (year t) /\
      year t' = year t /\ month t' = month t /\ day t' = day t + 1) \/
     (days_in_month (month t) (year t) <= day t /\ month t < 12 /\
      year t' = year t /\ month t' = month t + 1 /\ day t' = 1) \/
     (days_in_month (month t) (year t) <= day t /\ month t = 12 /\
      year t' = u16 (year t + 1) /\ month t' = 1 /\ day t' = 1)))).
Proof.
  intros (Hy & Hmo & Hd & Hh & Hmi & Hs & Hw) Ha. cbn zeta.
  destruct c as [[y mo d h mi s w] e]. cbn [sys_time year month day hour minute second week] in *.
  unfold sys_update_cloud_time. cbn [sys_time year month day hour minute second week].
  pose proof (days_in_month_ge28 mo y). pose proof (u16_range (y + 1)) as Hu. unfold is_u16 in Hu.
  destruct (Z.leb_spec 60 a); [lia|].
  rewrite (u8_small (s + a)) by (unfold is_u8; lia).
  unfold valid_time, seconds_of_day.
  destruct (Z.leb_spec (s + a) 59); cbn [sys_time check_enable year month day hour minute second week].
  { split; [done|]. split; [lia|]. left. lia. }
  rewrite (u8_small (s + a - 60)), (u8_small (mi + 1)) by (unfold is_u8; lia).
  destruct (Z.leb_spec (mi + 1) 59); cbn [sys_time check_enable year month day hour minute second week].
  { split; [done|]. split; [lia|]. left. lia. }
  rewrite (u8_small (h + 1)) by (unfold is_u8; lia).
  destruct (Z.leb_spec (h + 1) 23); cbn [sys_time check_enable year month day hour minute second week].
  { split; [done|]. split; [lia|]. left. lia. }
  rewrite (u8_small (d + 1)), (u8_small (w + 1)), (u8_small (mo + 1)) by (unfold is_u8; lia).
  assert (Hw2 : (if 7 <? w + 1 then 1 else w + 1) = w mod 7 + 1) by (zbool; zdiv).
  rewrite Hw2. assert (1 <= w mod 7 + 1 <= 7) by zdiv. clear Hw2.
  destruct (Z.leb_spec (d + 1) (days_in_month mo y));
    cbn [sys_time check_enable year month day hour minute second week].
  { split; [done|]. split; [lia|]. right. lia. }
  destruct (Z.leb_spec (mo + 1) 12);
    cbn [sys_time check_enable year month day hour minute second week].
  { split; [done|]. split; [lia|]. right. lia. }
  split; [done|]. split; [lia|]. right. lia.
Qed.

(** advancing a clock whose fields are in range by up to 59 seconds keeps
    them in range and flags the timer check: the invariant of the clock. *)
Theorem clock_invariant (a : Z) (c : clock) :
  valid_time (sys_time c) -> 0 <= a < 60 ->
  valid_time (sys_time (sys_update_cloud_time a c)) /\
  check_enable (sys_update_cloud_time a c) = 1.
Proof. intros Hv Ha. destruct (update_cases a c Hv Ha) as (? & ? & _). done. Qed.

Lemma clock_invariant_witness :
  valid_time (sys_time (sys_update_cloud_time 59 (sys_abstime_init (mkClock (mkTime 0 0 0 0 0 0 0) 0)))).
Proof. apply clock_invariant; evaluate. Defined.

(** C39: on every real date but 30 November the clock is the Gregorian calendar:
    the absolute number of seconds of the date and time advances by exactly the
    seconds added, across minute, hour, day, month, leap-day and year
    boundaries, and the weekday advances with the date. *)
Theorem clock_refines_calendar (a : Z) (c : clock) :
  valid_time (sys_time c) -> real_date (sys_time c) -> year (sys_time c) < 65535 ->
  ~ (month (sys_time c) = 11 /\ day (sys_time c) = 30) -> 0 <= a < 60 ->
  let t := sys_time c in
  let t' := sys_time (sys_update_cloud_time a c) in
  abs_seconds t' = abs_seconds t + a /\ real_date t' /\
  (week t' - week t) mod 7 = (day_number t' - day_number t) mod 7.
Proof.
  intros Hv Hr Hy Hnov Ha. cbn zeta.
  destruct (update_cases a c Hv Ha) as (_ & _ & Hc). unfold real_date in *.
  destruct Hv as (Hy0 & Hmo & Hd & _ & _ & _ & Hw).
  set (t := sys_time c) in *. set (t' := sys_time (sys_update_cloud_time a c)) in *.
  unfold abs_seconds.
  destruct Hc as [(_ & Hs & Hyy & Hmm & Hdd & Hww) | (_ & Hs & Hww & Hc)].
  { assert (day_number t' = day_number t) as -> by (unfold day_number; congruence).
    rewrite Hyy, Hmm, Hdd, Hww. repeat split; try done; [lia|]. by rewrite !Z.sub_diag. }
  enough (He : day_number t' = day_number t + 1 /\ day t' <= month_length (month t') (year t')).
  { destruct He as [-> Hd']. repeat split; [lia|done|]. rewrite Hww. zdiv. }
  assert (Hlen : forall m y, 1 <= month_length m y).
  { intros m y. unfold month_length. repeat case_match; lia. }
  destruct t as [y mo d h mi s w]. destruct t' as [y' mo' d' h' mi' s' w'].
  cbn [year month day hour minute second week] in *.
  destruct (decide (mo = 11)) as [->|Hne].
  - change (days_in_month 11 y) with 31 in Hc. change (month_length 11 y) with 30 in Hr.
    destruct Hc as [(_ & -> & -> & ->)|[(? & _)|(? & ? & _)]]; [|lia|lia].
    split; [unfold day_number; cbn [year month day]; lia|].
    change (month_length 11 y) with 30. lia.
  - rewrite days_in_month_correct in Hc by lia.
    destruct Hc as [(? & -> & -> & ->)|[(? & ? & -> & -> & ->)|(? & -> & -> & -> & ->)]].
    + split; [unfold day_number; cbn [year month day]; lia | lia].
    + split; [apply day_number_next_month; lia | apply Hlen].
    + rewrite u16_small by (unfold is_u16; lia). change (month_length 12 y) with 31 in *.
      split; [apply day_number_next_year; lia | apply Hlen].
Qed.

Lemma clock_refines_calendar_witness :
  sys_time (sys_abstime_running (mkClock (mkTime 2024 2 28 23 59 59 3) 0)) = mkTime 2024 2 29 0 0 0 4
  /\ abs_seconds (mkTime 2024 2 29 0 0 0 4) = abs_seconds (mkTime 2024 2 28 23 59 59 3) + 1.
Proof.
  split; [reflexivity|].
  destruct (clock_refines_calendar 1 (mkClock (mkTime 2024 2 28 23 59 59 3) 0)) as [H _].
  - evaluate.
  - cbv. done.
  - evaluate.
  - cbn. lia.
  - lia.
  - exact H.
Defined.

(** November has 31 days for this clock: the second after 30 November
    23:59:59 is 31 November, a date that does not exist. *)
Theorem november_has_31_days (y w : Z) (e : Z) :
  sys_time (sys_abstime_running (mkClock (mkTime y 11 30 23 59 59 w) e))
    = mkTime y 11 31 0 0 0 (if 7 <? u8 (w + 1) then 1 else u8 (w + 1)) /\
  month_length 11 y = 30.
Proof. done. Qed.

(** ** Setting the clock *)
Section SetProofs.
Context `{JsonText} {C : Type}.
Implicit Types (c : clock) (h : hw C).

Definition string_members (o : cJSON) : Prop := Forall (fun m => is_Some (valuestring m)) (child o).

Lemma find_string_member o k m :
  string_members o -> cJSON_GetObjectItem o k = Some m -> is_Some (valuestring m).
Proof.
  intros Hs Hf. apply List.find_some in Hf as [Hin _].
  apply list_elem_of_In in Hin. unfold string_members in Hs. rewrite Forall_forall in Hs. auto.
Qed.

Lemma wp_time_field time key cut Q R (t : clock * hw C) :
  string_members time -> Q None t -> (forall v, Q (Some (cut v)) t) ->
  wp (time_field time key cut) Q R t.
Proof.
  intros Hs Hn Hq. unfold time_field.
  destruct (cJSON_GetObjectItem time (str key)) as [m|] eqn:E; [|by apply wp_ret].
  destruct (find_string_member _ _ _ Hs E) as [s Hv].
  wstep. eapply wp_deref; [done|]. by apply wp_ret.
Qed.

(** The outcomes of the handler, allowing for the parsed tree it holds. *)
Definition set_outcome c h r (t : clock * hw C) : Prop :=
  live t.2 = live h /\ chip t.2 = chip h /\ queues t.2 = queues h /\
  ((r = -1 /\ t.1 = c /\ trace t.2 = trace h) \/
   (r = 0 /\ valid_time (sys_time t.1) /\ 2020 <= year (sys_time t.1)
    /\ check_enable t.1 = check_enable c)).

Lemma wp_severtime_err c h h' R :
  live h' = live h + 1 -> chip h' = chip h -> queues h' = queues h -> trace h' = trace h ->
  wp severtime_err (set_outcome c h) R (c, h').
Proof.
  intros Hl Hc Hq Ht. unfold severtime_err, cJSON_Delete. wstep.
  unfold ya_hal_os_memory_free. apply wp_upd_hw. apply wp_ret. unfold set_outcome. cbn.
  rewrite Hl. repeat split; auto. lia.
Qed.
End SetProofs.

(** A server-time message whose text the parser survives and whose time fields
    are strings is handled without a
    fault or a leak: it either is rejected and leaves the clock alone, or sets
    the clock to a time of 2020 or later with every field in range. *)
Theorem severtime_set_sound `{JsonText} {C} (c : clock) (h : hw C) (text : bytes) :
  overruns (cstr text) = false ->
  (forall root time, cJSON_Parse (cstr text) = Some root ->
     cJSON_GetObjectItem root (str "time") = Some time -> string_members time) ->
  exists r c' h', device_handle_severtime_set text (c, h) = Done r (c', h')
    /\ set_outcome c h r (c', h').
Proof.
  intros Ho Hs.
  enough (Hw : wp (device_handle_severtime_set text) (set_outcome c h) (fun _ => False) (c, h)).
  { apply wp_elim in Hw as (r & [c' h'] & Hd & Hq). eauto. }
  unfold device_handle_severtime_set. wstep. apply wp_json_parse; [done| |].
  { intros h' _ (?&?&?&?&?&?&?)%moved_fields. apply wp_ret. unfold set_outcome. cbn. rewrite Z.add_0_r in *. auto 10. }
  intros root h1 Ep (?&?&?&?&?&?&?)%moved_fields.
  destruct (cJSON_GetObjectItem root (str "time")) as [time|] eqn:Et.
  2:{ by apply wp_severtime_err. }
  specialize (Hs root time Ep Et).
  assert (Herr : wp severtime_err (set_outcome c h) (fun _ => False) (c, h1))
    by (by apply wp_severtime_err).
  do 7 (wstep; apply wp_time_field; [done | exact Herr | intros ?; wstep; [exact Herr|]]).
  do 4 (wstep; first [apply wp_upd_hw | apply wp_puts]).
  wstep. apply wp_upd_hw. apply wp_ret. unfold set_outcome. cbn.
  repeat (split; [done || lia|]). right. split; [done|].
  unfold valid_time. cbn [year month day hour minute second week].
  pose proof (u16_range v). pose proof (u8_range v0). pose proof (u8_range v1).
  pose proof (u8_range v2). pose proof (u8_range v3). pose proof (u8_range v4).
  pose proof (u8_range v5). unfold is_u8, is_u16 in *. zbool; done || lia.
Qed.

Definition sample_time : cJSON :=
  jroot [jobj "time" [jstr "year" "2024"; jstr "month" "2"; jstr "day" "29"; jstr "hour" "23";
                      jstr "minute" "59"; jstr "second" "58"; jstr "week" "4"]].
Lemma severtime_set_sound_witness :
  exists r c' h',
    @device_handle_severtime_set (json_of (fun _ => Some sample_time) (fun _ => None))
      ideal [] (mkClock (mkTime 2000 1 1 0 0 0 6) 0, boot) = Done r (c', h').
Proof.
  destruct (@severtime_set_sound
    (json_of (fun _ => Some sample_time) (fun _ => None)) ideal
    (mkClock (mkTime 2000 1 1 0 0 0 6) 0) boot []) as (r & c' & h' & Hd & _).
  - reflexivity.
  - intros root time Hr Ht. injection Hr as <-. vm_compute in Ht. injection Ht as <-.
    repeat (apply Forall_cons_2; [eexists; reflexivity|]). apply Forall_nil_2.
  - exists r, c', h'. exact Hd.
Defined.
