(* ===== verification/DeviceTimer.v ===== *)
(** * Cloud timers: the timer list of [akeeta/app/src/ya_hardware_timer.c]

    The cloud installs timers (a date or a set of weekdays, a time and a
    command); the module keeps them in a linked list, persists the list in two
    flash blocks, and every second queues the commands that are due to the
    hardware task. *)

From stdpp Require Import base numbers list strings.
From S2P Require Import Prelude Platform SpiFlash Flash CommonFunc CJson SysTime.

Definition MAX_TIMER_DEVICE_DATA : Z := 4096 * 2 - 256.
Definition MAX_ACTION_LEN : Z := 256.
Definition MAX_TIMER_NUM : Z := 20.
Definition MAX_TIMER_ID_LEN : Z := 16.
(** [YA_USER_DATA_ADDR + 8 * 0x1000] for the 6260_S1 layout of ya_config.h. *)
Definition YA_DEVICE_TIMER_ADDR : Z := 0xB5000.

(** [device_common_timer_t]; [action] is the whole block the pointer owns. *)
Record timer := mkTimerNode {
  t_year : Z; t_month : Z; t_day : Z; t_hour : Z; t_minute : Z; t_week : Z;
  t_enable : Z; timer_id : bytes; t_second : Z; triggered : Z;
  action_len : Z; action : bytes }.
#[export] Instance timer_eq_dec : EqDecision timer.
Proof. solve_decision. Defined.

(** The globals of the file: the list from [device_common_timer_header], and
    the clock. *)
Record tstate := mkTs { timers : list timer; clk : clock }.
Definition set_timers (l : list timer) (s : tstate) : tstate := mkTs l (clk s).
Definition set_clk (c : clock) (s : tstate) : tstate := mkTs (timers s) c.

(** Message types of the hardware queue. *)
Definition YA_HARDWARE_HANDLE_CLOUD_DATA : Z := 0.
Definition YA_HARDWARE_HANDLE_TIMER_ACTION : Z := 1.
Definition YA_HARDWARE_HANDLE_UART_DATA : Z := 2.
Definition YA_HARDWARE_CLEAR_TIMER_FLASH : Z := 3.

Section Queueing.
Context {C S : Type}.
(** The body the three [ya_put_*_into_queue] functions of ya_hardware_app.c
    share: copy the data into a zero-terminated block owned by a message. *)
Definition put_into_queue (type : Z) (data : bytes) (data_len : Z) : P C S unit :=
  let* p := ya_hal_os_memory_alloc (data_len + 1) in
  match p with
  | None => ret tt
  | Some buff =>
    let* buff := memset buff 0 (data_len + 1) in
    let* src := rdn data 0 data_len in
    let* buff := memcpy buff 0 src in
    let* r := ya_hal_os_queue_send QHardware (mkMsg (u16 (data_len + 1)) (Some buff) type) in
    if negb (r =? 0) then ya_hal_os_memory_free else ret tt
  end.
Definition ya_put_cloud_data_into_queue := put_into_queue YA_HARDWARE_HANDLE_CLOUD_DATA.
Definition ya_put_timer_action_into_queue := put_into_queue YA_HARDWARE_HANDLE_TIMER_ACTION.
Definition ya_put_data_uart_into_queue := put_into_queue YA_HARDWARE_HANDLE_UART_DATA.
Definition ya_clear_timer_flash_into_hardware_queue : P C S unit :=
  ya_hal_os_queue_send QHardware (mkMsg 0 None YA_HARDWARE_CLEAR_TIMER_FLASH) ;; ret tt.
End Queueing.

(** ** The list *)
Section Timers.
Context {C : Type} `{NorChip C} `{JsonText}.
Abbreviation PT := (P C tstate).

(** [memcmp(a, b, MAX_TIMER_ID_LEN) == 0]. *)
Definition same_id (a b : bytes) : bool := bool_decide (slice a 0 16 = slice b 0 16).

(** Two blocks per node go back to the heap: the action and the node. *)
Definition free_node (t : timer) : PT unit := ya_hal_os_memory_free ;; ya_hal_os_memory_free.

Definition device_delete_all_timer : PT Z :=
  let* l := gets timers in
  for_each l (fun t => free_node t) ;;
  puts (set_timers []) ;;
  ret 0.

(** The first node with that id, what precedes it and what follows it. *)
Fixpoint find_timer (id : bytes) (l : list timer) : option (list timer * timer * list timer) :=
  match l with
  | [] => None
  | t :: l' =>
    if same_id (timer_id t) id then Some ([], t, l')
    else match find_timer id l' with
         | Some (pre, u, post) => Some (t :: pre, u, post)
         | None => None
         end
  end.

Definition device_delete_list_timer (id : bytes) : PT Z :=
  let* l := gets timers in
  match find_timer id l with
  | Some (pre, t, post) => puts (set_timers (pre ++ post)) ;; free_node t ;; ret 0
  | None => ret (-1)
  end.

(** [sizeof(action_len + 1)]: the operand is an [int]. *)
Definition SIZEOF_INT : Z := 4.

(** [t] is the caller's template node; [src] is what its [action] points to. *)
Definition device_add_list_timer (t : timer) (src : bytes) : PT Z :=
  let* l := gets timers in
  match find_timer (timer_id t) l with
  | Some _ => ret 0
  | None =>
    let index_timer := u8 (Z.of_nat (length l)) in
    if MAX_TIMER_NUM <? index_timer then ret (-1)
    else
      let* node := ya_hal_os_memory_alloc 48 in
      match node with
      | None => ret (-1)
      | Some _ =>
        let* p := ya_hal_os_memory_alloc (action_len t + 1) in
        match p with
        | None => ya_hal_os_memory_free ;; ret (-1)
        | Some a =>
          let* a := memset a 0 SIZEOF_INT in
          let* a := strcpy a src in
          puts (set_timers (l ++ [mkTimerNode (t_year t) (t_month t) (t_day t) (t_hour t)
            (t_minute t) (t_week t) (t_enable t) (slice (timer_id t) 0 16) (t_second t) 0
            (u16 (action_len t + 1)) a])) ;;
          ret 0
        end
      end
  end.

(** ** Persistence *)

Definition be16 (v : Z) : bytes := [u8 (Z.shiftr (Z.land v 0xFF00) 8); u8 (Z.land v 0x00FF)].

(** One node into the buffer at [pos]; [None] is [goto err]. *)
Definition save_node (t : timer) (buf : bytes) (pos : Z) : PT (option (bytes * Z)) :=
  if MAX_TIMER_DEVICE_DATA <? pos + 8 + MAX_TIMER_ID_LEN + 8 + 2 + action_len t then ret None
  else
    let* buf := memcpy buf pos (be16 (t_year t) ++
      [u8 (t_month t); u8 (t_day t); u8 (t_hour t); u8 (t_minute t); u8 (t_week t); u8 (t_enable t)]) in
    let* buf := memcpy buf (pos + 8) (timer_id t) in
    let* buf := wr buf (pos + 24) (t_second t) in
    if action_len t <? MAX_ACTION_LEN then
      let* buf := memcpy buf (pos + 32) (be16 (action_len t)) in
      let* src := rdn (action t) 0 (action_len t) in
      let* buf := memcpy buf (pos + 34) src in
      ret (Some (buf, pos + 34 + action_len t))
    else ret None.

Fixpoint save_loop (l : list timer) (buf : bytes) (pos : Z) : PT (option (bytes * Z)) :=
  match l with
  | [] => ret (Some (buf, pos))
  | t :: l' =>
    let* o := save_node t buf pos in
    match o with
    | Some (buf, pos) => save_loop l' buf pos
    | None => ret None
    end
  end.

Definition device_save_timer_into_flash : PT Z :=
  let* p := ya_hal_os_memory_alloc MAX_TIMER_DEVICE_DATA in
  match p with
  | None => ret (-1)
  | Some buf =>
    let* buf := memset buf 0 MAX_TIMER_DEVICE_DATA in
    let* l := gets timers in
    let* o := save_loop l buf 0 in
    match o with
    | None => ya_hal_os_memory_free ;; ret (-1)
    | Some (buf, pos) =>
      (if 0 <? pos then ya_write_flash YA_DEVICE_TIMER_ADDR buf pos 2
       else ya_erase_flash YA_DEVICE_TIMER_ADDR 1) ;;
      ya_hal_os_memory_free ;;
      ret 0
    end
  end.

(** The [while (pos < read_len)] loop; every turn consumes at least 34 bytes, so
    [fuel = read_len] is more than enough.  [false] is [goto err]. *)
Fixpoint read_loop (fuel : nat) (buf : bytes) (read_len pos : Z) : PT bool :=
  match fuel with
  | O => ret false
  | S fuel =>
    if negb (pos <? read_len) then ret true
    else if read_len <? pos + 16 + MAX_TIMER_ID_LEN + 2 then ret false
    else
      let* hd := rdn buf pos 8 in
      let* id := rdn buf (pos + 8) 16 in
      let* sec := rd buf (pos + 24) in
      let* l := rdn buf (pos + 32) 2 in
      let alen := u16 (Z.shiftl (l !!! 0%nat) 8 + (l !!! 1%nat)) in
      let pos := pos + 34 in
      if read_len <? pos + alen then ret false
      else if alen <? MAX_ACTION_LEN then
        device_add_list_timer
          (mkTimerNode (u16 (Z.shiftl (hd !!! 0%nat) 8 + (hd !!! 1%nat))) (hd !!! 2%nat)
             (hd !!! 3%nat) (hd !!! 4%nat) (hd !!! 5%nat) (hd !!! 6%nat) (hd !!! 7%nat)
             id sec 0 alen []) (drop (Z.to_nat pos) buf) ;;
        read_loop fuel buf read_len (pos + alen)
      else ret false
  end.

Definition device_read_timer_into_flash : PT Z :=
  let* p := ya_hal_os_memory_alloc MAX_TIMER_DEVICE_DATA in
  match p with
  | None => ret (-1)
  | Some buf =>
    let* buf := memset buf 0 MAX_TIMER_DEVICE_DATA in
    let* '(r, buf, read_len) :=
      ya_read_flash_with_var_len YA_DEVICE_TIMER_ADDR buf MAX_TIMER_DEVICE_DATA 2 in
    if negb (r =? 0) || (read_len =? 0) then ya_hal_os_memory_free ;; ret (-1)
    else
      let* ok := read_loop (S (Z.to_nat read_len)) buf read_len 0 in
      ya_hal_os_memory_free ;;
      ret (if ok then 0 else -1)
  end.

Definition ya_hardware_timer_init : PT unit := device_read_timer_into_flash ;; ret tt.
Definition ya_clear_timer_flash : PT unit :=
  device_delete_all_timer ;; device_save_timer_into_flash ;; ret tt.

(** ** Commands from the cloud *)

(** [property = cJSON_GetObjectItem(node, key); if (!property) goto err;] *)
Definition item (node : cJSON) (key : string) : PT (option cJSON) :=
  ret (cJSON_GetObjectItem node (str key)).
(** [property->valuestring] used as a C string: NULL is a fault. *)
Definition text (property : cJSON) : PT bytes :=
  let* s := deref (valuestring property) in ret (cstr s).
(** [if (!subproperty || strlen(subproperty->valuestring) == 0) goto err;
    field = atoi(subproperty->valuestring)]. *)
Definition number_field (node : cJSON) (key : string) : PT (option Z) :=
  let? p := item node key in
  let* s := text p in
  ret (if len s =? 0 then None else Some (u8 (atoi s))).
(** The same field when it is optional. *)
Definition second_field (node : cJSON) : PT Z :=
  match cJSON_GetObjectItem node (str "second") with
  | None => ret 0
  | Some p => let* s := text p in ret (if len s =? 0 then 0 else u8 (atoi s))
  end.
(** [char timer_id[16]], zeroed, with the id copied over it. *)
Definition id_field (node : cJSON) : PT (option bytes) :=
  let? p := item node "id" in
  let* s := text p in
  ret (if MAX_TIMER_ID_LEN <=? len s then None else Some (splice (zeros 16) 0 s)).
(** The week mask: bit [i] for each digit [i + 1] the text contains. *)
Definition week_mask (s : bytes) : Z :=
  foldl (fun w i => if strstr s [49 + i] then u8 (w + Z.shiftl 1 i) else w) 0 (seqZ 0 7).

(** [%d] of [sscanf]: the value and the rest of the input. *)
Fixpoint take_digits (s : bytes) : bytes * bytes :=
  match s with
  | c :: s' => if is_digit c then let '(d, r) := take_digits s' in (c :: d, r) else ([], s)
  | [] => ([], [])
  end.
Definition scan_int (s : bytes) : option (Z * bytes) :=
  let s := skip_space s in
  let '(sign, s) := match s with 45 :: s' => ([45], s') | 43 :: s' => ([], s') | _ => ([], s) end in
  match take_digits s with
  | ([], _) => None
  | (ds, rest) => Some (atoi (sign ++ ds), rest)
  end.
Definition scan_dash (s : bytes) : option bytes :=
  match s with 45 :: s' => Some s' | _ => None end.
(** [sscanf(s, "%d-%d-%d", &p1, &p2, &p3) == 3]. *)
Definition scan_date (s : bytes) : option (Z * Z * Z) :=
  '(p1, s) ← scan_int s; s ← scan_dash s;
  '(p2, s) ← scan_int s; s ← scan_dash s;
  '(p3, _) ← scan_int s; Some (p1, p2, p3).
Definition date_field (node : cJSON) : PT (option (Z * Z * Z)) :=
  let? p := item node "date" in
  let* s := text p in
  ret (if 8 <=? len s then
         '(p1, p2, p3) ← scan_date s; Some (u16 p1, u8 p2, u8 p3)
       else Some (0, 0, 0)).

(** One element of the "add" or "update" array. *)
Definition add_entry (array_node : cJSON) : PT (option unit) :=
  let? id := id_field array_node in
  device_delete_list_timer id ;;
  let? p := item array_node "enable" in
  let* s := text p in
  let enable := if u32 (atoi s) =? 0 then 0 else 1 in
  let? timer := item array_node "timer" in
  let? p := item timer "week" in
  let* s := text p in
  let week := week_mask s in
  let? hour := number_field timer "hour" in
  let? minute := number_field timer "minute" in
  let* second := second_field timer in
  let? '(year, month, day) := date_field timer in
  let? cmd := item array_node "cmd" in
  let* p := json_print cmd in
  let* cmd_buf := deref p in
  if MAX_ACTION_LEN <=? len cmd_buf then ya_hal_os_memory_free ;; ret None
  else
    let* r := device_add_list_timer
      (mkTimerNode year month day hour minute week enable id second 0 (len cmd_buf) [])
      (cmd_buf ++ [0]) in
    if negb (r =? 0) then ret None
    else ya_hal_os_memory_free ;; ret (Some tt).

(** One element of the "delete" array. *)
Definition delete_entry (array_node : cJSON) : PT (option unit) :=
  let? id := id_field array_node in
  device_delete_list_timer id ;;
  ret (Some tt).

(** [for (index = 0; index < item_num; index++)] over an array: whether it
    handled an element, or [None] on [goto err]. *)
Fixpoint entries (f : cJSON -> PT (option unit)) (array : cJSON) (l : list Z) (save : bool)
  : PT (option bool) :=
  match l with
  | [] => ret (Some save)
  | index :: l =>
    let? node := ret (cJSON_GetArrayItem array index) in
    let? _ := f node in
    entries f array l true
  end.
(** An array of the command, when present; [item_num] is 16 bits wide. *)
Definition handle_array (f : cJSON -> PT (option unit)) (root : cJSON) (key : string) (save : bool)
  : PT (option bool) :=
  match cJSON_GetObjectItem root (str key) with
  | None => ret (Some save)
  | Some array => entries f array (seqZ 0 (u16 (cJSON_GetArraySize array))) save
  end.

Definition handle_timer_root (root : cJSON) : PT (option unit) :=
  let? save := handle_array add_entry root "add" false in
  let? save := handle_array add_entry root "update" save in
  let? save := handle_array delete_entry root "delete" save in
  let* save :=
    match cJSON_GetObjectItem root (str "deleteAll") with
    | Some _ => device_delete_all_timer ;; ret true
    | None => ret save
    end in
  (if save then device_save_timer_into_flash ;; ret tt else ret tt) ;;
  ret (Some tt).

Definition device_handle_cloud_timer (data_buf : bytes) : PT Z :=
  let* root := json_parse data_buf in
  match root with
  | None => ret (-1)
  | Some root =>
    let* ok := handle_timer_root root in
    cJSON_Delete ;;
    ret (match ok with Some _ => 0 | None => -1 end)
  end.

(** ** The check run every second *)

(** [flag]: today is one of the timer's days. *)
Definition day_matches (t : timer) (now : sys_time_t) : bool :=
  if negb (t_week t =? 0) then
    negb (Z.land (Z.shiftr (t_week t) (week now - 1)) 1 =? 0)
  else if negb (t_year t =? 0) then
    (t_year t =? year now) && (t_month t =? month now) && (t_day t =? day now)
  else false.
Definition set_triggered (v : Z) (t : timer) : timer :=
  mkTimerNode (t_year t) (t_month t) (t_day t) (t_hour t) (t_minute t) (t_week t) (t_enable t)
    (timer_id t) (t_second t) v (action_len t) (action t).
(** [triggered++] while it is set, back to 0 above 60. *)
Definition age (t : timer) : timer :=
  if triggered t =? 0 then t
  else let n := u8 (triggered t + 1) in set_triggered (if 60 <? n then 0 else n) t.
Definition time_matches (t : timer) (now : sys_time_t) : bool :=
  (t_minute t =? minute now) && (t_hour t =? hour now) && (t_second t =? second now).

(** One node: whether it fires, and the node afterwards. *)
Definition check_node (t : timer) (now : sys_time_t) : bool * timer :=
  if t_enable t =? 0 then (false, t)
  else
    let t' := age t in
    if day_matches t now && time_matches t' now && (triggered t' =? 0)
    then (true, set_triggered 1 t') else (false, t').

Fixpoint check_loop (now : sys_time_t) (l : list timer) : PT (list timer) :=
  match l with
  | [] => ret []
  | t :: l =>
    let '(fire, t') := check_node t now in
    when fire (ya_put_timer_action_into_queue (action t) (action_len t)) ;;
    let* l' := check_loop now l in
    ret (t' :: l')
  end.

Definition device_check_cloud_timer : PT Z :=
  let* s := gets id in
  let c := clk s in
  if (check_enable c =? 0) || (year (sys_time c) <? 2020) then ret 0
  else
    puts (set_clk (mkClock (sys_time c) 0)) ;;
    let* l := check_loop (sys_time c) (timers s) in
    puts (set_timers l) ;;
    ret 0.
End Timers.

(** ** The table's invariant *)

Definition wf_timer (t : timer) : Prop :=
  is_u16 (t_year t) /\ is_u8 (t_month t) /\ is_u8 (t_day t) /\ is_u8 (t_hour t) /\
  is_u8 (t_minute t) /\ is_u8 (t_week t) /\ is_u8 (t_enable t) /\ is_u8 (t_second t) /\
  len (timer_id t) = 16 /\ is_bytes (timer_id t) /\
  4 <= action_len t <= 256 /\ len (action t) = action_len t /\ is_bytes (action t) /\ 0 ∈ action t.
(** Well-formed entries with distinct ids, at most 21 of them. *)
Definition wf_table (l : list timer) : Prop :=
  Forall wf_timer l /\ NoDup (timer_id <$> l) /\ (length l <= 21)%nat.
#[export] Instance wf_timer_dec t : Decision (wf_timer t).
Proof. unfold wf_timer; apply _. Defined.
#[export] Instance wf_table_dec l : Decision (wf_table l).
Proof. unfold wf_table; apply _. Defined.

Lemma same_id_eq a b : len a = 16 -> len b = 16 -> same_id a b = true <-> a = b.
Proof.
  intros Ha Hb. unfold same_id. rewrite !slice_full by done. apply bool_decide_eq_true.
Qed.

(** The lookup splits the list at the first match, or there is none. *)
Lemma find_timer_some id l pre t post :
  find_timer id l = Some (pre, t, post) -> l = pre ++ t :: post /\ same_id (timer_id t) id = true.
Proof.
  revert pre. induction l as [|u l IH]; intros pre; cbn; [done|].
  destruct (same_id (timer_id u) id) eqn:E; [by intros [= <- <- <-]|].
  destruct (find_timer id l) as [[[p v] q]|]; [|done]. intros [= <- <- <-].
  destruct (IH p eq_refl) as [-> ?]. done.
Qed.
Lemma find_timer_none id l :
  find_timer id l = None <-> Forall (fun t => same_id (timer_id t) id = false) l.
Proof.
  induction l as [|u l IH]; cbn; [done|].
  rewrite Forall_cons. destruct (same_id (timer_id u) id) eqn:E; [naive_solver|].
  rewrite <- IH. destruct (find_timer id l) as [[[p v] q]|]; naive_solver.
Qed.
Lemma find_timer_fresh id l :
  len id = 16 -> Forall wf_timer l -> find_timer id l = None <-> id ∉ timer_id <$> l.
Proof.
  intros Hid Hl. rewrite find_timer_none, list_elem_of_fmap, !Forall_forall.
  rewrite Forall_forall in Hl. split.
  - intros Hn (t & -> & Ht). specialize (Hn t Ht).
    assert (same_id (timer_id t) (timer_id t) = true) by (apply same_id_eq; done). congruence.
  - intros Hn t Ht. apply not_true_iff_false. intros Hs. apply Hn. exists t. split; [|done].
    destruct (Hl t Ht) as (_&_&_&_&_&_&_&_&Hlt&_). symmetry. by apply same_id_eq.
Qed.

Lemma wf_table_app pre post : wf_table (pre ++ post) -> wf_table pre /\ wf_table post.
Proof.
  unfold wf_table. rewrite Forall_app, fmap_app, NoDup_app, length_app.
  intros ([? ?] & (? & _ & ?) & ?). repeat split; auto; lia.
Qed.
Lemma wf_table_remove pre t post : wf_table (pre ++ t :: post) -> wf_table (pre ++ post).
Proof.
  unfold wf_table. rewrite !Forall_app, !fmap_app, !length_app, fmap_cons, Forall_cons. cbn.
  intros ([? [? ?]] & Hnd & Hl). repeat split; auto; [|lia].
  apply NoDup_app in Hnd as (Hp & Hd & Hq). apply NoDup_cons in Hq as [_ Hq].
  apply NoDup_app. split; [done|]. split; [|done]. intros x Hx Hx'. apply (Hd x Hx). by right.
Qed.
Lemma wf_table_snoc l t :
  wf_table l -> wf_timer t -> timer_id t ∉ timer_id <$> l -> (length l <= 20)%nat ->
  wf_table (l ++ [t]).
Proof.
  intros (Hf & Hnd & Hl) Ht Hid Hlen. unfold wf_table.
  rewrite Forall_app, fmap_app, length_app. cbn. repeat split; auto; [|lia].
  apply NoDup_app. split; [done|]. split; [|apply NoDup_singleton].
  intros x Hx Hx'. apply list_elem_of_singleton in Hx'. congruence.
Qed.
