(* ===== verification/TimerTable.v ===== *)
(** * The cloud-timer table: correctness

    Theorems about [DeviceTimer]: every command keeps the table well formed and
    the heap balanced, timers fire when they are due and are then held off for
    a minute, and the table survives a save and a reboot. *)

From stdpp Require Import base numbers list strings.
From S2P Require Import Prelude Platform SpiFlash Flash CommonFunc CJson SysTime DeviceTimer.

Section Table.
Context {C : Type} `{NorChip C} `{JsonText}.
Implicit Types (s : tstate) (h : hw C) (l : list timer).

(** Deleting an id: the entry goes, with its two blocks, or nothing changes. *)
Lemma wp_delete id Q R s h :
  (find_timer id (timers s) = None -> Q (-1) (s, h)) ->
  (forall pre t post h', find_timer id (timers s) = Some (pre, t, post) ->
     moved (-2) h h' -> Q 0 (set_timers (pre ++ post) s, h')) ->
  wp (device_delete_list_timer id) Q R (s, h).
Proof.
  intros Hn Hs. unfold device_delete_list_timer. wstep. apply wp_gets. cbn [fst].
  destruct (find_timer id (timers s)) as [[[pre t] post]|]; [|by apply wp_ret, Hn].
  wstep. apply wp_puts. unfold free_node. wstep. wstep. apply wp_free_moved. intros h1 M1.
  apply wp_free_moved. intros h2 M2. apply wp_ret. eapply Hs; [done|].
  exact (moved_trans _ _ _ _ _ M1 M2).
Qed.

Lemma wp_delete_all Q R s h :
  (forall h', moved (-2 * Z.of_nat (length (timers s))) h h' -> Q 0 (set_timers [] s, h')) ->
  wp device_delete_all_timer Q R (s, h).
Proof.
  intros HQ. unfold device_delete_all_timer. wstep. apply wp_gets. cbn [fst]. wstep.
  eapply wp_mono.
  - apply (wp_for_each (fun r t => exists h', t = (s, h') /\
      moved (2 * Z.of_nat (length r) - 2 * Z.of_nat (length (timers s))) h h')).
    + exists h. split; [done|]. eapply moved_eq; [apply moved_refl|lia].
    + intros t l' t' (h' & -> & Hm). unfold free_node. wstep. apply wp_free_moved. intros h1 M1.
      apply wp_free_moved. intros h2 M2. exists h2. split; [done|].
      eapply moved_eq; [apply (moved_trans _ _ _ _ _ Hm (moved_trans _ _ _ _ _ M1 M2))|].
      cbn [length]. lia.
  - intros [] t' (h' & -> & Hm). wstep. apply wp_puts, wp_ret, HQ.
    eapply moved_eq; [exact Hm|]. cbn. lia.
  - by intros.
Qed.

(** The node [device_add_list_timer] builds, around its copied action. *)
Definition added (t : timer) (a : bytes) : timer :=
  mkTimerNode (t_year t) (t_month t) (t_day t) (t_hour t) (t_minute t) (t_week t) (t_enable t)
    (slice (timer_id t) 0 16) (t_second t) 0 (u16 (action_len t + 1)) a.

Lemma wp_add t src Q R s h :
  (length (timers s) <= 21)%nat -> is_bytes src -> 0 ∈ src ->
  3 <= action_len t <= 255 -> len (cstr src) <= action_len t ->
  (is_Some (find_timer (timer_id t) (timers s)) -> Q 0 (s, h)) ->
  (forall h', (20 < length (timers s))%nat \/ heap h <> [] ->
     find_timer (timer_id t) (timers s) = None -> moved 0 h h' -> Q (-1) (s, h')) ->
  (forall a h', find_timer (timer_id t) (timers s) = None -> (length (timers s) <= 20)%nat ->
     copy_of src (action_len t) a -> moved 2 h h' ->
     Q 0 (set_timers (timers s ++ [added t a]) s, h')) ->
  wp (device_add_list_timer t src) Q R (s, h).
Proof.
  intros Hl Hsb Hs0 Ha Hn Hdup Hfail Hok. unfold device_add_list_timer, MAX_TIMER_NUM, SIZEOF_INT.
  wstep. apply wp_gets. cbn [fst].
  destruct (find_timer (timer_id t) (timers s)) as [x|]; [apply wp_ret, Hdup; by eexists|].
  rewrite u8_small by (unfold is_u8; lia).
  wstep; [apply wp_ret, Hfail; [left; zbool; done || lia | done | apply moved_refl]|].
  assert (length (timers s) <= 20)%nat by (zbool; done || lia).
  wstep. apply wp_alloc_moved; [lia| |].
  2:{ intros h1 Hh M1. apply wp_ret, Hfail; [right; by destruct Hh | done | done]. }
  intros nb h1 _ _ M1. wstep. apply wp_alloc_moved; [lia| |].
  - intros a h2 Hla Hab M2.
    wstep. wstep. wstep. eapply wp_strcpy; [| | done | done | done |].
    + rewrite len_app. unfold len at 1 2. rewrite length_replicate, length_drop.
      unfold len in Hla. lia.
    + apply is_bytes_app. split; [apply Forall_replicate, u8_range|by apply Forall_drop].
    + intros a' Ha'. wstep. apply wp_puts, wp_ret, Hok; try done.
      exact (moved_trans _ _ _ _ _ M1 M2).
  - intros h2 Hh M2. wstep. apply wp_free_moved. intros h3 M3. apply wp_ret, Hfail; [|done|].
    + right. intros He. destruct Hh as [|Hh]; [lia|]. apply Hh. by apply M1.
    + exact (moved_trans _ _ _ _ _ M1 (moved_trans _ _ _ _ _ M2 M3)).
Qed.

Lemma wf_added t src a :
  is_u16 (t_year t) -> is_u8 (t_month t) -> is_u8 (t_day t) -> is_u8 (t_hour t) ->
  is_u8 (t_minute t) -> is_u8 (t_week t) -> is_u8 (t_enable t) -> is_u8 (t_second t) ->
  len (timer_id t) = 16 -> is_bytes (timer_id t) -> 3 <= action_len t <= 255 ->
  copy_of src (action_len t) a -> wf_timer (added t a).
Proof.
  intros ???????? Hid ? Ha (Hla & ? & ? & _). unfold wf_timer, added. cbn.
  rewrite slice_full by done. rewrite u16_small by (unfold is_u16; lia).
  repeat (split; [done || lia|]). done.
Qed.
End Table.

(** ** The image of the table in flash *)

Definition node_head (t : timer) : bytes :=
  be16 (t_year t) ++
  [u8 (t_month t); u8 (t_day t); u8 (t_hour t); u8 (t_minute t); u8 (t_week t); u8 (t_enable t)].
Definition node_image (t : timer) : bytes :=
  node_head t ++ timer_id t ++ (u8 (t_second t) :: zeros 7) ++ be16 (action_len t) ++ action t.
Definition table_image (l : list timer) : bytes := concat (node_image <$> l).
Lemma table_image_cons t l : table_image (t :: l) = node_image t ++ table_image l.
Proof. done. Qed.
(** The entries whose action is short enough to be saved. *)
Definition savable (l : list timer) : Prop := Forall (fun t => action_len t < 256) l.

Lemma len_node_image t : wf_timer t -> len (node_image t) = 34 + action_len t.
Proof.
  intros (_&_&_&_&_&_&_&_&Hid&_&_&Ha&_). unfold node_image. rewrite !len_app, Hid, Ha.
  change (len (node_head t)) with 8. change (len (be16 (action_len t))) with 2.
  change (len (u8 (t_second t) :: zeros 7)) with 8. lia.
Qed.
Lemma is_bytes_node_image t : wf_timer t -> is_bytes (node_image t).
Proof.
  intros (_&_&_&_&_&_&_&_&_&Hid&_&_&Ha&_). unfold node_image, node_head, be16, is_bytes.
  repeat first [apply Forall_app_2 | apply Forall_cons_2 | apply Forall_nil_2 | apply u8_range
    | apply is_bytes_zeros | done].
Qed.
Lemma be16_value v : is_u16 v -> u16 (Z.shiftl (be16 v !!! 0%nat) 8 + (be16 v !!! 1%nat)) = v.
Proof.
  unfold is_u16, be16. intros Hv. cbn [lookup_total list_lookup_total].
  rewrite Z.shiftl_mul_pow2 by lia. rewrite (land_ff_u8 v).
  replace (Z.shiftr (Z.land v 65280) 8) with (Z.land (Z.shiftr v 8) 255).
  2:{ change 65280 with (Z.shiftl 255 8). rewrite Z.shiftr_land. f_equal. }
  rewrite land_ff_u8, !(u8_small (u8 _)) by apply u8_range.
  rewrite Z.shiftr_div_pow2 by lia. unfold u8, u16. change (2 ^ 8) with 256. zdiv.
Qed.

Section Persistence.
Context {C : Type} `{NorChipLaws C} `{JsonText}.
Implicit Types (s : tstate) (h : hw C) (l : list timer).

Lemma wr_zeros {T} (a : bytes) k off v (t : T) :
  off = len a -> 1 <= k -> wr (a ++ zeros k) off v t = Done ((a ++ [u8 v]) ++ zeros (k - 1)) t.
Proof.
  intros -> Hk. pose proof (len_nonneg a).
  rewrite wr_ok by (rewrite len_app, len_zeros; lia).
  rewrite insert_app_r_alt by (unfold len; lia). unfold len at 1. rewrite Nat2Z.id, Nat.sub_diag.
  rewrite (zeros_split 1 k) by lia. by rewrite <- app_assoc.
Qed.

(** One entry is laid down as its image, or refused when it does not fit. *)
Lemma save_node_ok t a k (st : tstate * hw C) :
  wf_timer t -> len a + k = MAX_TIMER_DEVICE_DATA -> 0 <= k ->
  save_node t (a ++ zeros k) (len a) st =
    Done (if (len a + 34 + action_len t <=? MAX_TIMER_DEVICE_DATA) && (action_len t <? 256)
          then Some ((a ++ node_image t) ++ zeros (k - 34 - action_len t),
                     len a + 34 + action_len t)
          else None) st.
Proof.
  intros Hwf Hk Hk0. pose proof (len_nonneg a). pose proof Hwf as (_&_&_&_&_&_&_&_&Hid&_&Hr&Hal&_).
  unfold save_node, MAX_TIMER_DEVICE_DATA, MAX_TIMER_ID_LEN, MAX_ACTION_LEN in *.
  destruct (Z.leb_spec (len a + 34 + action_len t) (4096 * 2 - 256)) as [Hfit|Hfit];
    destruct (Z.ltb_spec (4096 * 2 - 256) (len a + 8 + 16 + 8 + 2 + action_len t)); try lia; [|done].
  fold (node_head t). assert (Hh : len (node_head t) = 8) by done.
  erewrite bind_done by (apply memcpy_zeros; [done|lia]). rewrite Hh.
  erewrite bind_done by (apply memcpy_zeros; [rewrite len_app; lia|lia]). rewrite Hid.
  erewrite bind_done by (apply wr_zeros; [rewrite !len_app; lia|lia]).
  destruct (Z.ltb_spec (action_len t) 256) as [Hlt|Hlt]; [|done]. cbn [andb].
  rewrite (zeros_split 7) by lia. rewrite (app_assoc _ (zeros 7)).
  assert (Hb : len (be16 (action_len t)) = 2) by done.
  erewrite bind_done.
  2:{ apply memcpy_zeros; [|lia]. rewrite !len_app, len_zeros, Hh, Hid by lia.
      change (len [u8 (t_second t)]) with 1. lia. }
  rewrite Hb. erewrite bind_done by (apply rdn_ok; lia). rewrite slice_full by done.
  erewrite bind_done.
  2:{ apply memcpy_zeros; [|lia]. rewrite !len_app, len_zeros, Hh, Hid, Hb by lia.
      change (len [u8 (t_second t)]) with 1. lia. }
  unfold ret. do 3 f_equal. unfold node_image. rewrite <- !app_assoc. rewrite Hal.
  replace (k - 8 - 16 - 1 - 7 - 2 - action_len t) with (k - 34 - action_len t) by lia. done.
Qed.
Definition fits (n : Z) l : bool :=
  forallb (fun t => action_len t <? 256) l && (n + len (table_image l) <=? MAX_TIMER_DEVICE_DATA).

Lemma save_loop_ok l a k (st : tstate * hw C) :
  Forall wf_timer l -> len a + k = MAX_TIMER_DEVICE_DATA -> 0 <= k ->
  save_loop l (a ++ zeros k) (len a) st =
    Done (if fits (len a) l
          then Some ((a ++ table_image l) ++ zeros (k - len (table_image l)),
                     len a + len (table_image l))
          else None) st.
Proof.
  intros Hl. revert a k. induction Hl as [|t l Ht Hl IH]; intros a k Hk Hk0.
  - cbn [save_loop]. unfold fits. cbn [forallb]. change (len (table_image [])) with 0.
    destruct (Z.leb_spec (len a + 0) MAX_TIMER_DEVICE_DATA); [|lia]. cbn.
    by rewrite app_nil_r, Z.sub_0_r, Z.add_0_r.
  - cbn [save_loop]. erewrite bind_done by (by apply save_node_ok).
    pose proof (len_node_image t Ht) as Hn.
    assert (Htl : len (table_image (t :: l)) = 34 + action_len t + len (table_image l)).
    { rewrite table_image_cons, len_app. lia. }
    pose proof (len_nonneg (table_image l)).
    unfold fits. rewrite Htl. cbn [forallb].
    destruct (Z.ltb_spec (action_len t) 256); cbn [andb].
    2:{ by rewrite andb_false_r. }
    destruct (Z.leb_spec (len a + 34 + action_len t) MAX_TIMER_DEVICE_DATA) as [Hf|Hf]; cbn [andb].
    2:{ destruct (Z.leb_spec (len a + (34 + action_len t + len (table_image l))) MAX_TIMER_DEVICE_DATA);
          [lia|]. by rewrite andb_false_r. }
    replace (len a + 34 + action_len t) with (len (a ++ node_image t)) by (rewrite len_app; lia).
    rewrite IH by (rewrite ?len_app; lia). unfold fits. rewrite len_app, Hn.
    replace (len a + (34 + action_len t) + len (table_image l))
      with (len a + (34 + action_len t + len (table_image l))) by lia.
    destruct (_ && _); [|done]. do 2 f_equal. f_equal. rewrite table_image_cons, <- !app_assoc.
    replace (k - 34 - action_len t - len (table_image l))
      with (k - (34 + action_len t + len (table_image l))) by lia. done.
Qed.

(** What a reload makes of an entry: the same timer and command, not
    triggered, in a block one byte longer. *)
Definition reloaded (t t' : timer) : Prop :=
  t' = added (set_triggered 0 t) (action t') /\ action_len t' = action_len t + 1 /\
  cstr (action t') = cstr (action t) /\ wf_timer t'.

(** The entry as the reader rebuilds it in its local node. *)
Definition template (t : timer) : timer :=
  mkTimerNode (t_year t) (t_month t) (t_day t) (t_hour t) (t_minute t) (t_week t) (t_enable t)
    (timer_id t) (t_second t) 0 (action_len t) [].

Lemma add_reloaded t z s h :
  wf_timer t -> action_len t < 256 -> timer_id t ∉ timer_id <$> timers s ->
  Forall wf_timer (timers s) -> (length (timers s) <= 20)%nat -> heap h = [] -> is_bytes z ->
  exists t' h', reloaded t t' /\ moved 2 h h' /\
    device_add_list_timer (template t) (action t ++ z) (s, h) =
      Done 0 (set_timers (timers s ++ [t']) s, h').
Proof.
  intros Hwf Hlt Hid Hall Hlen Hheap Hz.
  pose proof Hwf as (Hy&Hmo&Hd&Hho&Hmi&Hwk&Hen&Hse&Hidl&Hidb&Har&Hal&Hab&Ha0).
  pose proof (len_cstr_le _ Ha0).
  assert (Hfr : find_timer (timer_id (template t)) (timers s) = None) by (by apply find_timer_fresh).
  enough (Hw : wp (device_add_list_timer (template t) (action t ++ z)) (fun r st => r = 0 /\
    exists a' h', copy_of (action t ++ z) (action_len t) a' /\ moved 2 h h' /\
      st = (set_timers (timers s ++ [added (template t) a']) s, h')) (fun _ => False) (s, h)).
  { apply wp_elim in Hw as (r & st & Hd' & -> & a' & h' & Hc & Hm & ->).
    exists (added (template t) a'), h'. split; [|done].
    split; [done|]. split; [|split].
    - cbn. rewrite u16_small; [done | unfold is_u16; lia].
    - destruct Hc as (_ & _ & _ & Hc). cbn. rewrite Hc. by apply cstr_app.
    - apply (wf_added _ (action t ++ z)); cbn; done || lia. }
  apply wp_add; cbn [action_len template]; try lia.
  - by apply is_bytes_app.
  - apply elem_of_app. by left.
  - rewrite cstr_app by done. lia.
  - rewrite Hfr. intros [? ?]. done.
  - intros h' [?|?]; [lia|done].
  - intros a' h' _ _ Hc Hm. split; [done|]. by exists a', h'.
Qed.

Lemma read_node_ok fuel t a z read_len s h :
  wf_timer t -> action_len t < 256 -> timer_id t ∉ timer_id <$> timers s ->
  Forall wf_timer (timers s) -> (length (timers s) <= 20)%nat ->
  heap h = [] -> is_bytes z -> len a + 34 + action_len t <= read_len ->
  exists t' h', reloaded t t' /\ moved 2 h h' /\
    read_loop (Datatypes.S fuel) (a ++ node_image t ++ z) read_len (len a) (s, h) =
    read_loop fuel (a ++ node_image t ++ z) read_len (len (a ++ node_image t))
      (set_timers (timers s ++ [t']) s, h').
Proof.
  intros Hwf Hlt Hid Hall Hlen Hheap Hz Hrl. pose proof (len_nonneg a).
  pose proof (len_node_image t Hwf) as Hn.
  pose proof Hwf as (Hy&Hmo&Hd&Hho&Hmi&Hwk&Hen&Hse&Hidl&Hidb&Har&Hal&Hab&Ha0).
  set (B := a ++ node_image t ++ z).
  assert (HB : B = a ++ node_head t ++ timer_id t ++ (u8 (t_second t) :: zeros 7)
    ++ be16 (action_len t) ++ action t ++ z).
  { unfold B, node_image. by rewrite <- !app_assoc. }
  cbn [read_loop]. unfold MAX_TIMER_ID_LEN, MAX_ACTION_LEN.
  destruct (Z.ltb_spec (len a) read_len); [|lia]. cbn [negb].
  destruct (Z.ltb_spec read_len (len a + 16 + 16 + 2)); [lia|].
  erewrite bind_done by (apply (rdn_at _ _ _ _ _ _ _ HB); done).
  erewrite bind_done.
  2:{ apply (rdn_at B (a ++ node_head t) (timer_id t)
        ((u8 (t_second t) :: zeros 7) ++ be16 (action_len t) ++ action t ++ z)).
      - by rewrite HB, <- !app_assoc.
      - by rewrite len_app.
      - done. }
  erewrite bind_done.
  2:{ apply (rd_at B (a ++ node_head t ++ timer_id t) (u8 (t_second t))
        (zeros 7 ++ be16 (action_len t) ++ action t ++ z)).
      - by rewrite HB, <- !app_assoc.
      - rewrite !len_app, Hidl. change (len (node_head t)) with 8. lia. }
  erewrite bind_done.
  2:{ apply (rdn_at B (a ++ node_head t ++ timer_id t ++ (u8 (t_second t) :: zeros 7))
        (be16 (action_len t)) (action t ++ z)).
      - by rewrite HB, <- !app_assoc.
      - rewrite !len_app, Hidl. change (len (node_head t)) with 8.
        change (len (u8 (t_second t) :: zeros 7)) with 8. lia.
      - done. }
  cbv zeta. rewrite be16_value by (unfold is_u16; lia).
  destruct (Z.ltb_spec read_len (len a + 34 + action_len t)); [lia|].
  destruct (Z.ltb_spec (action_len t) 256); [|lia].
  change (node_head t !!! 0%nat) with (be16 (t_year t) !!! 0%nat).
  change (node_head t !!! 1%nat) with (be16 (t_year t) !!! 1%nat).
  rewrite be16_value by done.
  replace (drop (Z.to_nat (len a + 34)) B) with (action t ++ z).
  2:{ rewrite HB. rewrite !app_assoc, <- app_assoc. symmetry. apply drop_len.
      rewrite !len_app, Hidl. change (len (node_head t)) with 8.
      change (len (u8 (t_second t) :: zeros 7)) with 8.
      change (len (be16 (action_len t))) with 2. lia. }
  cbn [lookup_total list_lookup_total node_head be16 app]. rewrite !u8_small by done.
  destruct (add_reloaded t z s h) as (t' & h' & Hr & Hm & He); [done..|].
  exists t', h'. split; [done|]. split; [done|]. fold (template t).
  erewrite bind_done by exact He. by rewrite len_app, Hn, Z.add_assoc.
Qed.

(** The whole table is rebuilt, entry by entry. *)
Lemma read_loop_ok l fuel a z s h :
  Forall wf_timer l -> savable l -> NoDup (timer_id <$> timers s ++ l) ->
  Forall wf_timer (timers s) -> (length (timers s) + length l <= 21)%nat ->
  heap h = [] -> is_bytes z -> (length l < fuel)%nat ->
  exists l' h', Forall2 reloaded l l' /\ moved (2 * Z.of_nat (length l)) h h' /\
    read_loop fuel (a ++ table_image l ++ z) (len a + len (table_image l)) (len a) (s, h) =
      Done true (set_timers (timers s ++ l') s, h').
Proof.
  revert fuel a s h. induction l as [|t l IH]; intros fuel a s h Hl Hsv Hnd Hall Hlen Hheap Hz Hfuel.
  - destruct fuel as [|fuel]; [cbn in Hfuel; lia|]. exists [], h. split; [done|].
    split; [apply moved_refl|]. cbn [read_loop table_image fmap list_fmap concat].
    destruct (Z.ltb_spec (len a) (len a + len [])) as [Hc|Hc]; [change (len []) with 0 in Hc; lia|].
    cbn. rewrite app_nil_r. by destruct s.
  - apply Forall_cons in Hl as [Ht Hl]. apply Forall_cons in Hsv as [Hts Hsv].
    cbn [length] in Hlen, Hfuel. destruct fuel as [|fuel]; [lia|].
    assert (Hid : timer_id t ∉ timer_id <$> timers s).
    { rewrite fmap_app, NoDup_app in Hnd. destruct Hnd as (_ & Hd & _). intros Hin.
      apply (Hd _ Hin). left. }
    pose proof (len_node_image t Ht) as Hn. pose proof (len_nonneg (table_image l)).
    assert (is_bytes (table_image l)).
    { apply Forall_concat, Forall_fmap. eapply Forall_impl; [exact Hl|].
      intros; by apply is_bytes_node_image. }
    rewrite table_image_cons, len_app, <- app_assoc.
    destruct (read_node_ok fuel t a (table_image l ++ z)
      (len a + (len (node_image t) + len (table_image l))) s h) as (t' & h1 & Hr & Hm & He);
      try done; [lia | by apply is_bytes_app | lia |].
    rewrite He. pose proof Hr as (Ht' & _ & _ & Hwf').
    assert (Hid' : timer_id t' = timer_id t).
    { rewrite Ht'. cbn. apply slice_full. by destruct Ht as (_&_&_&_&_&_&_&_&->&_). }
    destruct (IH fuel (a ++ node_image t) (set_timers (timers s ++ [t']) s) h1)
      as (l' & h2 & Hr2 & Hm2 & He2); try done; cbn [timers set_timers].
    + revert Hnd. rewrite <- app_assoc, !fmap_app, !fmap_cons, Hid'. done.
    + apply Forall_app_2; [done|]. by constructor.
    + rewrite length_app. cbn. lia.
    + by apply Hm.
    + lia.
    + exists (t' :: l'), h2. split; [by constructor|]. split.
      { eapply moved_eq; [exact (moved_trans _ _ _ _ _ Hm Hm2)|]. cbn. lia. }
      rewrite <- app_assoc in He2.
      rewrite len_app in He2 at 1. rewrite <- Z.add_assoc in He2.
      rewrite He2. cbn. by rewrite <- app_assoc.
Qed.

(** Saving ends with the table's image in the buffer, or refuses. *)
Lemma save_prefix s h :
  Forall wf_timer (timers s) -> heap h = [] ->
  device_save_timer_into_flash (s, h) =
    (let h1 := set_heap [] (live h + 1) h in
     let img := table_image (timers s) in
     if fits 0 (timers s)
     then (let* _ := (if 0 <? len img
                      then ya_write_flash YA_DEVICE_TIMER_ADDR (img ++ zeros (MAX_TIMER_DEVICE_DATA - len img))
                             (len img) 2
                      else ya_erase_flash YA_DEVICE_TIMER_ADDR 1) in
           ya_hal_os_memory_free ;; ret 0) (s, h1)
     else Done (-1) (s, set_heap [] (live h) h)).
Proof.
  intros Hwf Hheap. unfold device_save_timer_into_flash.
  erewrite bind_done by (unfold ya_hal_os_memory_alloc; rewrite Hheap; reflexivity).
  cbn beta iota zeta. erewrite bind_done.
  2:{ apply memset_ok. unfold len. rewrite length_replicate. done. }
  rewrite drop_ge, app_nil_r by (by rewrite length_replicate).
  erewrite bind_done by reflexivity. cbn [fst].
  change (replicate (Z.to_nat MAX_TIMER_DEVICE_DATA) (u8 0)) with ([] ++ zeros MAX_TIMER_DEVICE_DATA).
  change 0 with (len []) at 2.
  erewrite bind_done by (apply save_loop_ok; [done | reflexivity | by vm_compute]).
  change (len []) with 0. destruct (fits 0 (timers s)) eqn:Hf.
  - cbn beta iota. by rewrite app_nil_l, Z.add_0_l.
  - cbn. by rewrite Z.add_simpl_r.
Qed.
End Persistence.

(** ** Persistence: the properties *)
Section Reboot.
Context {C : Type} `{NorChipLaws C, !NorReliable C} `{JsonText}.
Implicit Types (s : tstate) (h : hw C) (l : list timer).

Lemma fits_savable l : savable l -> len (table_image l) <= 4086 -> fits 0 l = true.
Proof.
  intros Hs Hl. unfold fits. apply andb_true_iff. split.
  - apply forallb_forall. intros t Ht. apply list_elem_of_In in Ht.
    unfold savable in Hs. rewrite Forall_forall in Hs. specialize (Hs t Ht). zbool; done || lia.
  - unfold MAX_TIMER_DEVICE_DATA. zbool; done || lia.
Qed.

(** Saving leaves a record of the image, or an erased area for an empty table. *)
Lemma save_holds s h :
  wf_table (timers s) -> savable (timers s) -> len (table_image (timers s)) <= 4086 ->
  heap h = [] ->
  exists c', device_save_timer_into_flash (s, h) = Done 0 (s, set_chip c' h) /\
    if decide (timers s = []) then nor_read c' YA_DEVICE_TIMER_ADDR = 255
    else holds c' YA_DEVICE_TIMER_ADDR (table_image (timers s)).
Proof.
  intros (Hwf & _) Hs Hl Hheap. rewrite save_prefix by done. cbn zeta.
  rewrite fits_savable by done. set (h1 := set_heap [] (live h + 1) h).
  assert (Hback : forall c', set_heap (heap (set_chip c' h1)) (live (set_chip c' h1) - 1)
    (set_chip c' h1) = set_chip c' h).
  { intros c'. unfold set_heap, set_chip. cbn. rewrite Z.add_simpl_r, <- Hheap. done. }
  case_decide as He.
  - rewrite He. cbn [Z.ltb table_image fmap list_fmap concat]. change (0 <? len []) with false.
    destruct (erase_flash_spec YA_DEVICE_TIMER_ADDR 1 s h1) as (c' & Hr & Hc & _); try done.
    exists c'. split; [|done]. erewrite bind_done by exact Hr.
    cbn. by rewrite <- Hback.
  - assert (Hpos : 0 < len (table_image (timers s))).
    { destruct (timers s) as [|t l]; [done|]. apply Forall_cons in Hwf as [Ht _].
      rewrite table_image_cons, len_app, len_node_image by done.
      pose proof (len_nonneg (table_image l)). destruct Ht as (_&_&_&_&_&_&_&_&_&_&?&_). lia. }
    destruct (Z.ltb_spec 0 (len (table_image (timers s)))); [|lia].
    assert (Hb : is_bytes (table_image (timers s))).
    { apply Forall_concat, Forall_fmap. eapply Forall_impl; [exact Hwf|].
      intros; by apply is_bytes_node_image. }
    destruct (write_flash_spec YA_DEVICE_TIMER_ADDR
      (table_image (timers s) ++ zeros (MAX_TIMER_DEVICE_DATA - len (table_image (timers s))))
      (len (table_image (timers s))) 2 s h1) as (c' & Hr & Hc & _); try done; try lia.
    + rewrite len_app. pose proof (len_nonneg (zeros (MAX_TIMER_DEVICE_DATA - len (table_image (timers s))))). lia.
    + apply is_bytes_app. auto with cint.
    + exists c'. rewrite slice_app_l in Hc by done. split; [|done].
      erewrite bind_done by exact Hr. cbn. by rewrite <- Hback.
Qed.

Lemma read_prefix s h :
  heap h = [] ->
  device_read_timer_into_flash (s, h) =
    (let* '(r, buf, read_len) := ya_read_flash_with_var_len YA_DEVICE_TIMER_ADDR
       (zeros MAX_TIMER_DEVICE_DATA) MAX_TIMER_DEVICE_DATA 2 in
     if negb (r =? 0) || (read_len =? 0) then ya_hal_os_memory_free ;; ret (-1)
     else let* ok := read_loop (Datatypes.S (Z.to_nat read_len)) buf read_len 0 in
          ya_hal_os_memory_free ;; ret (if ok then 0 else -1)) (s, set_heap [] (live h + 1) h).
Proof.
  intros Hheap. unfold device_read_timer_into_flash.
  erewrite bind_done by (unfold ya_hal_os_memory_alloc; rewrite Hheap; reflexivity).
  cbn beta iota. erewrite bind_done.
  2:{ apply memset_ok. unfold len. rewrite length_replicate. done. }
  by rewrite drop_ge, app_nil_r by (by rewrite length_replicate).
Qed.

Lemma length_le_image l : Forall wf_timer l -> (length l <= Z.to_nat (len (table_image l)))%nat.
Proof.
  intros Hl. enough (Z.of_nat (length l) <= len (table_image l)) by lia.
  induction Hl as [|t l Ht Hl IH]; [done|].
  rewrite table_image_cons, len_app, len_node_image by done.
  destruct Ht as (_&_&_&_&_&_&_&_&_&_&?&_). cbn [length]. lia.
Qed.

(** A stored table is rebuilt into an empty one. *)
Lemma read_restores l c h :
  wf_table l -> savable l -> 0 < len (table_image l) <= 4086 ->
  holds (chip h) YA_DEVICE_TIMER_ADDR (table_image l) -> heap h = [] ->
  exists l' h', device_read_timer_into_flash (mkTs [] c, h) = Done 0 (mkTs l' c, h') /\
    Forall2 reloaded l l' /\ moved (2 * Z.of_nat (length l)) h h'.
Proof.
  intros (Hwf & Hnd & Hlen) Hs Hl Hh Hheap. rewrite read_prefix by done.
  set (h1 := set_heap [] (live h + 1) h).
  assert (M1 : moved 1 h h1) by done.
  assert (Hz : len (zeros MAX_TIMER_DEVICE_DATA) = 7936) by done.
  erewrite bind_done.
  2:{ apply (read_var_holds YA_DEVICE_TIMER_ADDR (table_image l)); try done.
      unfold MAX_TIMER_DEVICE_DATA in *. lia. }
  cbn beta iota. change (0 =? 0) with true. cbn [negb orb].
  destruct (Z.eqb_spec (len (table_image l)) 0); [lia|].
  set (h2 := set_heap [] (live h1) h1). assert (M2 : moved 0 h1 h2).
  { split; [|done]. cbn. by rewrite Z.add_0_r. }
  set (z := drop (Z.to_nat (len (table_image l))) (zeros MAX_TIMER_DEVICE_DATA)).
  replace (splice (zeros MAX_TIMER_DEVICE_DATA) 0 (table_image l)) with ([] ++ table_image l ++ z).
  2:{ unfold splice, z, len. by rewrite Nat2Z.id. }
  destruct (read_loop_ok l (Datatypes.S (Z.to_nat (len (table_image l)))) [] z (mkTs [] c) h2)
    as (l' & h3 & Hr & M3 & He); try done.
  { apply Forall_drop, is_bytes_zeros. }
  { pose proof (length_le_image l Hwf). lia. }
  change (len [] + len (table_image l)) with (len (table_image l)) in He. change (len []) with 0 in He.
  erewrite bind_done by exact He. cbn [timers set_timers].
  exists l', (set_heap (heap h3) (live h3 - 1) h3). split; [done|]. split; [done|].
  eapply moved_eq.
  { exact (moved_trans _ _ _ _ _ M1 (moved_trans _ _ _ _ _ M2
      (moved_trans _ _ _ _ _ M3 (moved_free h3)))). }
  lia.
Qed.

(** C30: a timer table that fits one flash block survives a power cycle: after
    [device_save_timer_into_flash], [ya_hardware_timer_init] on the rebooted
    device rebuilds every timer in order, with the same id, schedule and
    command text, none of them triggered, and each action block one byte longer
    than before (the terminator is counted again on every reload). *)
Theorem timers_survive_reboot s h :
  wf_table (timers s) -> savable (timers s) -> len (table_image (timers s)) <= 4086 ->
  heap h = [] ->
  exists h1, device_save_timer_into_flash (s, h) = Done 0 (s, h1) /\ live h1 = live h /\
    forall c hb, heap hb = [] -> chip hb = chip h1 ->
    exists l' hb', ya_hardware_timer_init (mkTs [] c, hb) = Done tt (mkTs l' c, hb') /\
      Forall2 reloaded (timers s) l' /\ live hb' = live hb + 2 * Z.of_nat (length l') /\
      chip hb' = chip hb.
Proof.
  intros Hw Hs Hl Hheap. destruct (save_holds s h Hw Hs Hl Hheap) as (c1 & Hsave & Hc).
  exists (set_chip c1 h). split; [done|]. split; [done|]. cbn [chip set_chip].
  intros c hb Hhb Hcb. unfold ya_hardware_timer_init. case_decide as He.
  - exists [], (set_heap [] (live hb) hb). rewrite He. cbn [length]. split; [|cbn; split; [apply Forall2_nil_2 | split; [lia | done]]].
    erewrite bind_done; [reflexivity|]. rewrite read_prefix by done.
    erewrite bind_done by (apply read_var_blank; [done | done | cbn; congruence]).
    cbn. by rewrite Z.add_simpl_r.
  - destruct (read_restores (timers s) c hb) as (l' & hb' & Hr & Hf & Hm); try done.
    + pose proof (length_le_image _ (proj1 Hw)). destruct (timers s); [done|]. cbn [length] in *. lia.
    + by rewrite Hcb.
    + exists l', hb'. split; [by erewrite bind_done by exact Hr|]. split; [done|].
      rewrite <- (Forall2_length _ _ _ Hf). split; [|by destruct Hm as [-> _]].
      by destruct Hm as [-> _].
Qed.
End Reboot.

Definition sample_timer (name : string) (mask hour minute : Z) : timer :=
  mkTimerNode 0 0 0 hour minute mask 1 (splice (zeros 16) 0 (str name)) 0 0 8 (str "{'p':1}" ++ [0]).
Definition sample_table : list timer := [sample_timer "a1" 62 7 30; sample_timer "b2" 65 22 0].
#[export] Instance savable_dec l : Decision (savable l).
Proof. unfold savable; apply _. Defined.

Lemma timers_survive_reboot_witness :
  exists h1, device_save_timer_into_flash (mkTs sample_table (mkClock (mkTime 2024 1 1 0 0 0 1) 0), boot)
      = Done 0 (mkTs sample_table (mkClock (mkTime 2024 1 1 0 0 0 1) 0), h1) /\
    exists l' hb', ya_hardware_timer_init (mkTs [] (mkClock (mkTime 2000 1 1 0 0 0 6) 0),
        set_chip (chip h1) boot) = Done tt (mkTs l' (mkClock (mkTime 2000 1 1 0 0 0 6) 0), hb') /\
      Forall2 reloaded sample_table l'.
Proof.
  destruct (timers_survive_reboot (mkTs sample_table (mkClock (mkTime 2024 1 1 0 0 0 1) 0)) boot)
    as (h1 & Hs & _ & Hr); try evaluate.
  exists h1. split; [exact Hs|].
  destruct (Hr (mkClock (mkTime 2000 1 1 0 0 0 6) 0) (set_chip (chip h1) boot)) as (l' & hb' & He & Hf & _);
    [reflexivity..|].
  exists l', hb'. split; [exact He | exact Hf].
Defined.

(** ** Commands from the cloud *)
Section Commands.
Context {C : Type} `{NorChipLaws C} `{JsonText}.
Implicit Types (s : tstate) (h : hw C) (l : list timer) (node : cJSON).

(** The member [key], when present, is a string (of bytes). *)
Definition str_at node (key : string) : Prop :=
  match cJSON_GetObjectItem node (str key) with
  | Some p => match valuestring p with Some v => is_bytes v | None => False end
  | None => True
  end.
#[export] Instance str_at_dec node key : Decision (str_at node key).
Proof. unfold str_at. repeat case_match; apply _. Defined.

(** What the code relies on in an array element of "add" and "update": string
    members where it calls string functions, and a command that prints as a
    text of at least three characters. *)
Definition good_entry node : Prop :=
  str_at node "id" /\ str_at node "enable" /\
  match cJSON_GetObjectItem node (str "timer") with
  | Some tm => str_at tm "week" /\ str_at tm "hour" /\ str_at tm "minute" /\ str_at tm "second"
               /\ str_at tm "date"
  | None => True
  end /\
  match cJSON_GetObjectItem node (str "cmd") with
  | Some cmd => match cJSON_PrintUnformatted cmd with
                | Some s => is_bytes s /\ 3 <= len (cstr s)
                | None => False
                end
  | None => True
  end.
Definition array_all (P : cJSON -> Prop) (root : cJSON) (key : string) : Prop :=
  match cJSON_GetObjectItem root (str key) with
  | Some array => Forall P (child array)
  | None => True
  end.
(** A command document the handler can process. *)
Definition good_command (root : cJSON) : Prop :=
  array_all good_entry root "add" /\ array_all good_entry root "update" /\
  array_all (fun node => str_at node "id") root "delete".

Lemma wp_text p v Q R (t : tstate * hw C) :
  valuestring p = Some v -> Q (cstr v) t -> wp (text p) Q R t.
Proof. intros Hv HQ. unfold text. wstep. eapply wp_deref; [done|]. by apply wp_ret. Qed.
(** Fetch a member and use its text. *)
Lemma wp_item_text {A} node key (k : cJSON -> bytes -> P C tstate (option A)) Q R (t : tstate * hw C) :
  str_at node key -> Q None t ->
  (forall p v, is_bytes v -> no_nul v -> wp (k p v) Q R t) ->
  wp (let? p := item node key in let* s := text p in k p s) Q R t.
Proof.
  unfold str_at, item. intros Hs Hn Hk. wstep. apply wp_ret.
  destruct (cJSON_GetObjectItem node (str key)) as [p|]; [|done].
  destruct (valuestring p) as [v|] eqn:Ev; [|done].
  wstep. eapply wp_text; [done|]. apply Hk; [by apply is_bytes_cstr|apply cstr_is_no_nul].
Qed.

Lemma wp_id_field node Q R (t : tstate * hw C) :
  str_at node "id" -> Q None t -> (forall id, len id = 16 -> is_bytes id -> Q (Some id) t) ->
  wp (id_field node) Q R t.
Proof.
  intros Hs Hn HQ. unfold id_field, MAX_TIMER_ID_LEN. apply wp_item_text; [done..|].
  intros _ v Hb _. apply wp_ret. destruct (Z.leb_spec 16 (len v)); [done|].
  apply HQ; [|auto with cint]. pose proof (len_nonneg v).
  rewrite len_splice; rewrite ?len_zeros; lia.
Qed.
Lemma wp_number_field node key Q R (t : tstate * hw C) :
  str_at node key -> Q None t -> (forall v, is_u8 v -> Q (Some v) t) ->
  wp (number_field node key) Q R t.
Proof.
  intros Hs Hn HQ. unfold number_field. apply wp_item_text; [done..|].
  intros _ v Hb _. apply wp_ret. destruct (len v =? 0); [done|]. apply HQ, u8_range.
Qed.
Lemma wp_second_field node Q R (t : tstate * hw C) :
  str_at node "second" -> (forall v, is_u8 v -> Q v t) -> wp (second_field node) Q R t.
Proof.
  unfold str_at, second_field. intros Hs HQ. assert (is_u8 0) by done.
  destruct (cJSON_GetObjectItem node (str "second")) as [p|]; [|by apply wp_ret, HQ].
  destruct (valuestring p) as [v|] eqn:Ev; [|done]. wstep. eapply wp_text; [done|].
  apply wp_ret. case_match; apply HQ; [done|apply u8_range].
Qed.
Lemma wp_date_field node Q R (t : tstate * hw C) :
  str_at node "date" -> Q None t ->
  (forall y m d, is_u16 y -> is_u8 m -> is_u8 d -> Q (Some (y, m, d)) t) ->
  wp (date_field node) Q R t.
Proof.
  intros Hs Hn HQ. unfold date_field. apply wp_item_text; [done..|].
  intros _ v Hb _. apply wp_ret. destruct (8 <=? len v); [|by apply HQ].
  destruct (scan_date v) as [[[a b] c]|]; cbn; [|done].
  apply HQ; [apply u16_range|apply u8_range|apply u8_range].
Qed.
Lemma week_mask_u8 v : is_u8 (week_mask v).
Proof.
  unfold week_mask. generalize (seqZ 0 7). intros l.
  assert (Hg : forall w, is_u8 w -> is_u8 (foldl (fun w i => if strstr v [49 + i] then u8 (w + Z.shiftl 1 i) else w) w l)).
  { induction l as [|i l IH]; intros w Hw; cbn; [done|]. apply IH. case_match; [apply u8_range|done]. }
  by apply Hg.
Qed.

(** From [(s0, h0)], the table is still well formed, the clock untouched, and
    the heap holds two blocks per timer and [k] more than it did. *)
Definition balanced (k : Z) (st0 st : tstate * hw C) : Prop :=
  wf_table (timers st.1) /\ clk st.1 = clk st0.1 /\
  moved (2 * (Z.of_nat (length (timers st.1)) - Z.of_nat (length (timers st0.1))) + k) st0.2 st.2.
Lemma balanced_refl st : wf_table (timers st.1) -> balanced 0 st st.
Proof.
  intros Hw. split; [done|]. split; [done|]. eapply moved_eq; [apply moved_refl|]. lia.
Qed.
Lemma balanced_trans k k' st0 st1 st2 :
  balanced k st0 st1 -> balanced k' st1 st2 -> balanced (k + k') st0 st2.
Proof.
  intros (Hw1 & Hc1 & Hm1) (Hw2 & Hc2 & Hm2). split; [done|]. split; [congruence|].
  eapply moved_eq; [exact (moved_trans _ _ _ _ _ Hm1 Hm2)|]. lia.
Qed.

(** The outcome of a step that may [goto err]; the one such exit that leaks the
    printed command is that of a full table. *)
Definition rejected (st0 st : tstate * hw C) : Prop :=
  balanced 0 st0 st \/ balanced 1 st0 st /\ length (timers st.1) = 21%nat.
Definition step_ok (st0 : tstate * hw C) {A} (o : option A) (st : tstate * hw C) : Prop :=
  match o with Some _ => balanced 0 st0 st | None => rejected st0 st end.
Lemma step_ok_trans st0 st1 st2 {A} (o : option A) :
  balanced 0 st0 st1 -> step_ok st1 o st2 -> step_ok st0 o st2.
Proof.
  intros Hb. destruct o; cbn.
  - apply (balanced_trans 0 0); done.
  - intros [?|[? ?]]; [left; by apply (balanced_trans 0 0 _ st1)|right; split; [by apply (balanced_trans 0 1 _ st1)|done]].
Qed.

Lemma wp_delete_balanced id Q R st0 s h :
  balanced 0 st0 (s, h) -> len id = 16 ->
  (forall r s' h', balanced 0 st0 (s', h') -> find_timer id (timers s') = None -> Q r (s', h')) ->
  wp (device_delete_list_timer id) Q R (s, h).
Proof.
  intros Hb Hid HQ. pose proof Hb as (Hw & _ & _). cbn in Hw. apply wp_delete.
  - intros Hf. by apply HQ.
  - intros pre t post h' Hf Hm. apply find_timer_some in Hf as [Hl Hs].
    rewrite Hl in Hw. pose proof (wf_table_remove _ _ _ Hw) as Hw'.
    apply HQ; cbn [timers set_timers].
    + apply (balanced_trans 0 0 _ (s, h)); [done|]. split; [done|]. split; [done|]. cbn.
      eapply moved_eq; [exact Hm|]. rewrite Hl, !length_app. cbn. lia.
    + apply find_timer_fresh; [done|by destruct Hw' as [? _]|].
      destruct Hw as (Hf & Hnd & _). apply Forall_app in Hf as [_ [Ht _]%Forall_cons].
      apply same_id_eq in Hs; [|by destruct Ht as (_&_&_&_&_&_&_&_&?&_)|done].
      rewrite fmap_app, fmap_cons in Hnd. rewrite fmap_app, <- Hs.
      apply NoDup_app in Hnd as (_ & Hd & Hp). apply NoDup_cons in Hp as [Hp _].
      intros Hin. apply elem_of_app in Hin as [Hin|Hin]; [|done]. apply (Hd _ Hin). by left.
Qed.

Lemma wp_add_balanced t src Q R st0 s h :
  heap st0.2 = [] -> balanced 1 st0 (s, h) -> find_timer (timer_id t) (timers s) = None ->
  is_bytes src -> 0 ∈ src -> 3 <= action_len t <= 255 -> len (cstr src) <= action_len t ->
  (forall a, copy_of src (action_len t) a -> wf_timer (added t a)) ->
  (forall r s' h', balanced 1 st0 (s', h') -> (r = 0 \/ r = -1 /\ length (timers s') = 21%nat) -> Q r (s', h')) ->
  wp (device_add_list_timer t src) Q R (s, h).
Proof.
  intros Hh0 Hb Hf Hsb Hs0 Ha Hn Hwf HQ. pose proof Hb as (Hw & _ & _). cbn in Hw.
  pose proof Hw as (Hall & Hnd & Hlen).
  apply wp_add; try done.
  - rewrite Hf. by intros [? ?].
  - intros h' Hfull _ Hm. apply HQ; [|right; split; [done|]; destruct Hfull as [?|Hful]; [lia|]; destruct Hful; by apply Hb].
    apply (balanced_trans 1 0 _ (s, h)); [done|].
    split; [done|]. split; [done|]. eapply moved_eq; [exact Hm|]. cbn; lia.
  - intros a h' _ Hl Hc Hm. apply HQ; [|by left]. apply (balanced_trans 1 0 _ (s, h)); [done|].
    specialize (Hwf a Hc). split; [|split; [done|]]; cbn.
    + apply wf_table_snoc; [done|done| |done]. apply find_timer_fresh; [|done|].
      * by destruct Hwf as (_&_&_&_&_&_&_&_&?&_).
      * revert Hf. rewrite !find_timer_none, !Forall_forall. intros Hn' x Hx.
        specialize (Hn' x Hx). unfold same_id in *. cbn. rewrite (slice_full (slice _ _ _)); [done|].
        destruct Hwf as (_&_&_&_&_&_&_&_&Hl'&_). by cbn in Hl'.
    + eapply moved_eq; [exact Hm|]. rewrite length_app. cbn. lia.
Qed.

Lemma wp_print cmd v Q R st0 s h :
  printable cmd = true -> cJSON_PrintUnformatted cmd = Some v -> heap st0.2 = [] -> balanced 0 st0 (s, h) ->
  (forall h', balanced 1 st0 (s, h') -> Q (Some (cstr v)) (s, h')) ->
  wp (json_print cmd) Q R (s, h).
Proof.
  intros Hpr Hp Hh (Hw & Hc & Hm) HQ. unfold json_print. rewrite Hpr, Hp. apply (wp_take (Some (cstr v))).
  - intros h' M. apply HQ. split; [done|]. split; [done|]. cbn in *. eapply moved_eq; [apply (moved_trans _ _ _ _ _ Hm M)|lia].
  - intros h' Hn _. destruct Hn. by apply Hm.
Qed.
Lemma wp_free_balanced k Q R st0 s h :
  balanced k st0 (s, h) -> (forall h', balanced (k - 1) st0 (s, h') -> Q tt (s, h')) ->
  wp ya_hal_os_memory_free Q R (s, h).
Proof.
  intros (Hw & Hc & Hm) HQ. apply wp_free_moved. intros h' Hm'. apply HQ.
  split; [done|]. split; [done|]. cbn in *.
  eapply moved_eq; [exact (moved_trans _ _ _ _ _ Hm Hm')|]. lia.
Qed.

Lemma wp_add_entry node R st0 s h :
  heap st0.2 = [] -> good_entry node /\ printable node = true -> balanced 0 st0 (s, h) -> wp (add_entry node) (step_ok st0) R (s, h).
Proof.
  intros Hh0 [(Hid & Hen & Htm & Hcmd) Hpr] Hb. unfold add_entry.
  wstep. apply wp_id_field; [done|by left|]. intros id Hil Hib.
  wstep. eapply wp_delete_balanced; [done|done|]. clear Hb s h. intros _ s h Hb Hfr.
  apply wp_item_text; [done|by left|]. intros _ ve _ _.
  wstep. unfold item at 1. apply wp_ret.
  destruct (cJSON_GetObjectItem node (str "timer")) as [tm|]; [|by left].
  destruct Htm as (Hwk & Hho & Hmi & Hse & Hda).
  apply wp_item_text; [done|by left|]. intros _ vw _ _. cbv zeta.
  wstep. apply wp_number_field; [done|by left|]. intros ho Hho'.
  wstep. apply wp_number_field; [done|by left|]. intros mi Hmi'.
  wstep. apply wp_second_field; [done|]. intros se Hse'.
  wstep. apply wp_date_field; [done|by left|]. intros y mo d Hy Hmo Hd.
  wstep. unfold item. apply wp_ret.
  destruct (cJSON_GetObjectItem node (str "cmd")) as [cmd|] eqn:Ecmd; [|by left]. pose proof (printable_member _ _ _ Hpr Ecmd) as Hprc.
  destruct (cJSON_PrintUnformatted cmd) as [v|] eqn:Ev; [|done]. destruct Hcmd as [Hvb Hvl].
  wstep. eapply wp_print; [done..|]. clear Hb h. intros h Hb. wstep.
  eapply wp_deref; [done|]. pose proof (cstr_is_no_nul v). unfold MAX_ACTION_LEN.
  destruct (Z.leb_spec 256 (len (cstr v))).
  { wstep. eapply wp_free_balanced; [done|]. intros h' Hb'. apply wp_ret. by left. }
  wstep. eapply wp_add_balanced; cbn [action_len]; try done.
  - apply is_bytes_app. split; [by apply is_bytes_cstr|]. by apply Forall_singleton.
  - apply elem_of_app. right. left.
  - lia.
  - rewrite cstr_app_nul by done. lia.
  - intros a Ha. eapply wf_added; [..|exact Ha]; cbn; try done; [apply week_mask_u8|by case_match|lia].
  - clear Hb s h Hfr. intros r s h Hb Hr. destruct (Z.eqb_spec r 0); cbn [negb]; [|apply wp_ret; right; by destruct Hr as [?|[_ ?]]].
    wstep. eapply wp_free_balanced; [done|]. intros h' Hb'. by apply wp_ret.
Qed.
Lemma wp_delete_entry node R st0 s h :
  str_at node "id" -> balanced 0 st0 (s, h) -> wp (delete_entry node) (step_ok st0) R (s, h).
Proof.
  intros Hid Hb. unfold delete_entry. wstep. apply wp_id_field; [done|by left|]. intros id Hil Hib.
  wstep. eapply wp_delete_balanced; [done|done|]. intros _ s' h' Hb' _. by apply wp_ret.
Qed.

(** An array is processed element by element. *)
Lemma wp_handle_array (P : cJSON -> Prop) f root key save R st0 s h :
  (forall node s h, P node -> balanced 0 st0 (s, h) -> wp (f node) (step_ok st0) R (s, h)) ->
  array_all P root key -> balanced 0 st0 (s, h) ->
  wp (handle_array f root key save) (step_ok st0) R (s, h).
Proof.
  intros Hf Ha Hb. unfold handle_array, array_all in *.
  destruct (cJSON_GetObjectItem root (str key)) as [array|]; [|by apply wp_ret].
  generalize (seqZ 0 (u16 (cJSON_GetArraySize array))). intros l. revert save s h Hb.
  induction l as [|i l IH]; intros save s h Hb; cbn [entries]; [by apply wp_ret|].
  wstep. apply wp_ret. unfold cJSON_GetArrayItem.
  destruct (child array !! Z.to_nat i) as [node|] eqn:En; [|by left].
  eapply Forall_lookup_1 in En; [|exact Ha].
  wstep. eapply wp_mono; [by apply Hf| |done]. intros [[]|] [s' h'] Hs; [|done]. by apply IH.
Qed.

Lemma array_printable (P : cJSON -> Prop) root key : printable root = true -> array_all P root key ->
  array_all (fun n => P n /\ printable n = true) root key.
Proof.
  intros Hpr. unfold array_all. destruct (cJSON_GetObjectItem root (str key)) as [a|] eqn:E; [|done]. pose proof (printable_member _ _ _ Hpr E) as Ha.
  rewrite !Forall_forall. intros HP x Hx. split; [by apply HP|]. by eapply printable_child.
Qed.
(** Saving is safe whatever the allocator and the chip answer. *)
Lemma wp_save Q R s h :
  wf_table (timers s) -> (forall r h', stored 0 h h' -> Q r (s, h')) ->
  wp device_save_timer_into_flash Q R (s, h).
Proof.
  intros (Hwf & _) HQ. unfold device_save_timer_into_flash.
  wstep. apply wp_alloc_moved; [by vm_compute| |].
  2:{ intros h' _ Hm. apply wp_ret, HQ. by apply stored_moved. }
  intros b h1 Hb _ M1. wstep. wstep; [rewrite Hb; by vm_compute|].
  rewrite drop_ge, app_nil_r by (unfold len in Hb; lia).
  wstep. apply wp_gets. cbn [fst]. wstep.
  change (replicate (Z.to_nat MAX_TIMER_DEVICE_DATA) (u8 0)) with ([] ++ zeros MAX_TIMER_DEVICE_DATA).
  change 0 with (len []) at 2.
  eapply wp_done; [apply save_loop_ok; [done | reflexivity | by vm_compute]|].
  change (len []) with 0. rewrite Z.add_0_l, app_nil_l.
  destruct (fits 0 (timers s)) eqn:Hf.
  2:{ wstep. apply wp_free_moved. intros h2 M2. apply wp_ret, HQ, stored_moved.
      exact (moved_trans _ _ _ _ _ M1 M2). }
  assert (Hfin : forall (r : Z) h2, stored 0 h1 h2 ->
    wp (ya_hal_os_memory_free ;; ret 0) Q R (s, h2)).
  { intros _ h2 M2. wstep. apply wp_free_moved. intros h3 M3. apply wp_ret, HQ.
    exact (stored_trans _ _ _ _ _ (stored_moved _ _ _ M1)
      (stored_trans _ _ _ _ _ M2 (stored_moved _ _ _ M3))). }
  apply andb_true_iff in Hf as [_ Hf]. unfold MAX_TIMER_DEVICE_DATA in *.
  pose proof (len_nonneg (table_image (timers s))).
  assert (len (table_image (timers s)) <= 7936) by (zbool; done || lia).
  wstep. wstep.
  - apply wp_write_flash; [rewrite len_app, len_zeros; lia|lia|done].
  - apply wp_erase_flash. done.
Qed.

(** The document after the arrays: the optional "deleteAll", then the save. *)
Lemma wp_timer_root root R st0 s h :
  heap st0.2 = [] -> good_command root -> printable root = true -> balanced 0 st0 (s, h) ->
  wp (handle_timer_root root) (fun o st =>
    match o with
    | Some _ => exists h1, balanced 0 st0 (st.1, h1) /\ stored 0 h1 st.2
    | None => rejected st0 st
    end) R (s, h).
Proof.
  intros Hh0 (Ha & Hu & Hd) Hpr Hb. apply (array_printable good_entry) in Ha, Hu; [|done..]. unfold handle_timer_root.
  wstep. eapply wp_mono; [apply (wp_handle_array (fun n => good_entry n /\ printable n = true)); [|done..]| |done].
  { intros. by apply wp_add_entry. }
  clear Hb s h. intros [sv|] [s h] Hb; [|done]. wstep.
  eapply wp_mono; [apply (wp_handle_array (fun n => good_entry n /\ printable n = true)); [|done..]| |done].
  { intros. by apply wp_add_entry. }
  clear Hb sv s h. intros [sv|] [s h] Hb; [|done]. wstep.
  eapply wp_mono; [apply (wp_handle_array (fun node => str_at node "id")); [|done..]| |done].
  { intros. by apply wp_delete_entry. }
  clear Hb sv s h. intros [sv|] [s h] Hb; [|done]. cbn in Hb.
  assert (Hsave : forall sv s h, balanced 0 st0 (s, h) ->
    wp ((if sv : bool then device_save_timer_into_flash ;; ret tt else ret tt) ;; ret (Some tt))
       (fun o st => match o with
        | Some _ => exists h1, balanced 0 st0 (st.1, h1) /\ stored 0 h1 st.2
        | None => rejected st0 st end) R (s, h)).
  { clear. intros sv s h Hb. pose proof Hb as (Hw & _). wstep. destruct sv.
    - wstep. apply wp_save; [done|]. intros r h' Hs. do 2 apply wp_ret. by exists h.
    - do 2 apply wp_ret. exists h. split; [done|]. apply stored_moved, moved_refl. }
  wstep. destruct (cJSON_GetObjectItem root (str "deleteAll")); [|by apply wp_ret, Hsave].
  wstep. apply wp_delete_all. intros h' Hm. apply wp_ret, (Hsave true).
  apply (balanced_trans 0 0 _ (s, h)); [done|].
  split; [by split; [constructor|split; [constructor|cbn; lia]]|]. split; [done|].
  eapply moved_eq; [exact Hm|]. cbn. lia.
Qed.

(** C31: A command document of the expected shape (members are strings where the
    code calls string functions, commands print as at least three characters),
    on whose text the parser does not overrun, is handled without a fault while
    memory is to spare.  The table stays well formed (at most 21 timers,
    distinct ids, bounded fields and actions), the clock, the queues and the
    trace are untouched, and the heap holds exactly two blocks per timer as
    before.  A rejected command (-1) leaves the flash alone; it leaks one block
    (the printed command of the refused entry), if at all, when it ends with the
    table full, and nothing otherwise. *)
Theorem timer_command_sound `{!JsonStrings} s h (text : bytes) :
  wf_table (timers s) -> heap h = [] -> overruns (cstr text) = false ->
  (forall root, cJSON_Parse (cstr text) = Some root -> good_command root) ->
  exists r s' h', device_handle_cloud_timer text (s, h) = Done r (s', h') /\
    wf_table (timers s') /\ clk s' = clk s /\ queues h' = queues h /\ trace h' = trace h /\
    let grown := 2 * (Z.of_nat (length (timers s')) - Z.of_nat (length (timers s))) in
    (r = 0 /\ live h' = live h + grown \/
     r = -1 /\ chip h' = chip h /\
       (live h' = live h + grown \/ live h' = live h + grown + 1 /\ length (timers s') = 21%nat)).
Proof.
  intros Hw Hh Hov Hgood.
  enough (Hwp : wp (device_handle_cloud_timer text) (fun r st =>
    exists s' h', st = (s', h') /\ wf_table (timers s') /\ clk s' = clk s /\
      queues h' = queues h /\ trace h' = trace h /\
      let grown := 2 * (Z.of_nat (length (timers s')) - Z.of_nat (length (timers s))) in
      (r = 0 /\ live h' = live h + grown \/
       r = -1 /\ chip h' = chip h /\
         (live h' = live h + grown \/ live h' = live h + grown + 1 /\ length (timers s') = 21%nat)))
    (fun _ => False) (s, h)).
  { apply wp_elim in Hwp as (r & st & Hd & s' & h' & -> & Hq). by exists r, s', h'. }
  unfold device_handle_cloud_timer. wstep. apply wp_json_parse; [done| |].
  { intros h1 _ (?&?&?&?&?&?&?)%moved_fields. apply wp_ret. exists s, h1. repeat (split; [done|]). right. split; [done|].
    split; [done|]. left. lia. }
  intros root h1 Hroot M1. cbn beta iota.
  wstep. eapply wp_mono; [apply (wp_timer_root root (fun _ => False) (s, h1));
    [by apply M1|by apply Hgood|by eapply parse_printable|by apply balanced_refl]| |done].
  intros o [s' h2] Ho. unfold cJSON_Delete. wstep. apply wp_free_moved. intros h3 M3. apply wp_ret.
  exists s', h3. split; [done|].
  destruct o as [u|].
  - destruct Ho as (h2' & (Hw' & Hc & Hm) & Hs). cbn in *.
    pose proof (stored_trans _ _ _ _ _ (stored_moved _ _ _ (moved_trans _ _ _ _ _ M1 Hm))
      (stored_trans _ _ _ _ _ Hs (stored_moved _ _ _ M3))) as Hall.
    apply stored_fields in Hall as (Hl & Hq & Ht & _).
    repeat (split; [done|]). left. split; [done|]. rewrite Hl. lia.
  - assert (Hk : exists k, (k = 0 \/ k = 1 /\ length (timers s') = 21%nat) /\ balanced k (s, h1) (s', h2))
      by (destruct Ho as [?|[? ?]]; eauto).
    destruct Hk as (k & Hk & Hw' & Hc & Hm). cbn in *.
    pose proof (moved_trans _ _ _ _ _ M1 (moved_trans _ _ _ _ _ Hm M3)) as Hall.
    apply moved_fields in Hall as (Hl & Hq & Ht & _ & _ & _ & Hch).
    repeat (split; [done|]). right. split; [done|]. split; [done|]. rewrite Hl.
    destruct Hk as [-> | [-> ?]]; [left|right; split; [|done]]; lia.
Qed.
End Commands.

#[export] Instance good_entry_dec `{JsonText} node : Decision (good_entry node).
Proof. unfold good_entry. repeat (apply and_dec; [try apply _|]); repeat case_match; apply _. Defined.
#[export] Instance array_all_dec P `{forall n, Decision (P n)} root key : Decision (array_all P root key).
Proof. unfold array_all. case_match; apply _. Defined.
#[export] Instance good_command_dec `{JsonText} root : Decision (good_command root).
Proof. unfold good_command. apply _. Defined.

(** A command document with one new timer and one deletion. *)
Definition sample_command : cJSON :=
  jroot [jarr "add" [Item None cJSON_Object None
           [jstr "id" "c3"; jstr "enable" "1";
            jobj "timer" [jstr "week" "1,3"; jstr "hour" "6"; jstr "minute" "45"; jstr "date" ""];
            jobj "cmd" []]];
         jarr "delete" [Item None cJSON_Object None [jstr "id" "a1"]]].
Definition sample_json : JsonText := json_of (fun _ => Some sample_command) (fun _ => Some (str "{'p':1}")).
#[export] Instance sample_json_strings : JsonStrings (H:=sample_json).
Proof. constructor; [by intros t j [= <-]|done]. Qed.

Lemma timer_command_sound_witness :
  exists r s' h', @device_handle_cloud_timer ideal _ sample_json []
      (mkTs sample_table (mkClock (mkTime 2024 1 1 0 0 0 1) 0), boot) = Done r (s', h') /\
    wf_table (timers s').
Proof.
  destruct (@timer_command_sound ideal _ sample_json _
    (mkTs sample_table (mkClock (mkTime 2024 1 1 0 0 0 1) 0)) boot []) as (r & s' & h' & He & Hw & _).
  - evaluate.
  - reflexivity.
  - reflexivity.
  - intros root [= <-]. evaluate.
  - exists r, s', h'. split; [exact He | exact Hw].
Defined.

(** ** Firing *)

(** Whether a timer is due at a moment: enabled, on one of its weekdays (day 1 is
    bit 0 of the mask) or, without weekdays, on its date, at its time. *)
Definition due (now : sys_time_t) (t : timer) : Prop :=
  t_enable t <> 0 /\
  (t_week t <> 0 /\ Z.testbit (t_week t) (week now - 1) = true \/
   t_week t = 0 /\ t_year t <> 0 /\ (t_year t, t_month t, t_day t) = (year now, month now, day now)) /\
  (t_hour t, t_minute t, t_second t) = (hour now, minute now, second now).
#[export] Instance due_dec now t : Decision (due now t).
Proof. unfold due; apply _. Defined.
Fixpoint moments (n : nat) (c : clock) : list sys_time_t :=
  match n with
  | O => []
  | S n => let c' := sys_abstime_running c in sys_time c' :: moments n c'
  end.

(** The tests of the code decide it. *)
Lemma due_matches now t : 1 <= week now -> due now t <-> negb (t_enable t =? 0) && (day_matches t now && time_matches t now) = true.
Proof.
  intros Hw. unfold due, day_matches, time_matches. rewrite !andb_true_iff, negb_true_iff, Z.eqb_neq, !Z.eqb_eq.
  assert (Hbit : Z.land (Z.shiftr (t_week t) (week now - 1)) 1 = Z.b2z (Z.testbit (t_week t) (week now - 1))).
  { rewrite (Z.land_ones _ 1) by lia. rewrite Z.testbit_spec' by lia. by rewrite Z.shiftr_div_pow2 by lia. }
  rewrite Hbit, !pair_equal_spec. destruct (Z.eqb_spec (t_week t) 0) as [E|E]; cbn [negb].
  - destruct (Z.eqb_spec (t_year t) 0); cbn [negb]; rewrite ?andb_true_iff, ?Z.eqb_eq; intuition congruence.
  - destruct (Z.testbit _ _); cbn [Z.b2z Z.eqb negb]; intuition congruence.
Qed.

(** The hold-off counter of an enabled timer is 0, or one more than the seconds since the timer's
    second came round. *)
Definition hold_off (t : timer) (now : sys_time_t) : Prop :=
  t_enable t = 0 \/ triggered t = 0 \/
  (1 <= triggered t <= 60 /\ triggered t = 1 + (second now - t_second t) mod 60).

Lemma running_second c :
  valid_time (sys_time c) ->
  valid_time (sys_time (sys_abstime_running c)) /\
  second (sys_time (sys_abstime_running c)) = (second (sys_time c) + 1) mod 60.
Proof.
  intros Hv. destruct (update_cases 1 c Hv ltac:(lia)) as (_ & Hv' & Hc). split; [done|].
  unfold sys_abstime_running, valid_time, seconds_of_day in *.
  destruct Hc as [(_ & Hs & _)|(_ & Hs & _)]; zdiv.
Qed.

(** One tick and check: it fires exactly when due, and changes the counter only. *)
Lemma check_tick t c :
  valid_time (sys_time c) -> hold_off t (sys_time c) ->
  let now := sys_time (sys_abstime_running c) in
  ((check_node t now).1 = true <-> due now t) /\ hold_off (check_node t now).2 now /\
  exists v, (check_node t now).2 = set_triggered v t.
Proof.
  intros Hv Ht now. destruct (running_second c Hv) as [Hv' Hs]. fold now in Hv', Hs.
  assert (0 <= second now < 60) by (unfold valid_time in Hv'; lia).
  assert (0 <= second (sys_time c) < 60) by (unfold valid_time in Hv; lia).
  rewrite due_matches by (unfold valid_time in Hv'; lia).
  assert (Hage : exists v, age t = set_triggered v t).
  { unfold age. destruct (triggered t =? 0); [exists (triggered t); by destruct t|by eexists]. }
  assert (Hc : t_enable t <> 0 -> triggered (age t) = 0 \/ (1 < triggered (age t) <= 60 /\
    triggered (age t) = 1 + (second now - t_second t) mod 60 /\ second now <> t_second t)).
  { intros He. unfold age. destruct Ht as [?|[Ht|[Hr Ht]]]; [done| |].
    - rewrite Ht. by left.
    - destruct (Z.eqb_spec (triggered t) 0); [lia|]. cbn [triggered set_triggered].
      rewrite u8_small by (unfold is_u8; lia).
      destruct (Z.ltb_spec 60 (triggered t + 1)); [by left|right]. zdiv. }
  unfold check_node. destruct Hage as [v Hage].
  destruct (Z.eqb_spec (t_enable t) 0) as [He|He]; cbn [negb andb fst snd].
  { split; [done|]. split; [by left|]. exists (triggered t). by destruct t. }
  specialize (Hc He). rewrite Hage in *. cbn [triggered set_triggered] in Hc.
  change (time_matches (set_triggered v t) now) with (time_matches t now). cbn [triggered set_triggered].
  destruct Hc as [Hc|(Hr & Hc & Hne)].
  - rewrite Hc. cbn [Z.eqb]. rewrite andb_true_r.
    destruct (day_matches t now && time_matches t now) eqn:E; cbn [fst snd].
    + split; [done|]. split; [|by exists 1]. right. right. cbn. apply andb_true_iff in E as [_ E].
      unfold time_matches in E.
      assert (t_second t = second now) as -> by (revert E; zbool; done || lia).
      rewrite Z.sub_diag. done.
    + split; [done|]. split; [|by eexists]. right. by left.
  - destruct (Z.eqb_spec v 0); [lia|]. rewrite andb_false_r. cbn [fst snd].
    split; [|split; [|by eexists]].
    + unfold time_matches. destruct (Z.eqb_spec (t_second t) (second now)); [congruence|].
      by rewrite !andb_false_r.
    + right. right. cbn [triggered set_triggered t_second]. lia.
Qed.

Section Check.
Context {C : Type}.
Implicit Types (s : tstate) (h : hw C) (l : list timer).

(** The message a timer's action travels in. *)
Definition action_msg (t : timer) : msg :=
  mkMsg (u16 (action_len t + 1)) (Some (action t ++ [0])) YA_HARDWARE_HANDLE_TIMER_ACTION.

(** A copy of the data, zero-terminated, at the end of the queue. *)
Lemma put_queue_ok {S} type data (s : S) h :
  0 <= len data -> heap h = [] -> (length (queues h QHardware) < 16)%nat ->
  put_into_queue type data (len data) (s, h) =
    Done tt (s, set_queue QHardware (queues h QHardware ++
      [mkMsg (u16 (len data + 1)) (Some (data ++ [0])) type]) (set_heap [] (live h + 1) h)).
Proof.
  intros Hd Hheap Hq. unfold put_into_queue. pose proof (len_nonneg data).
  erewrite bind_done.
  2:{ unfold ya_hal_os_memory_alloc. rewrite Hheap. destruct (Z.eqb_spec (len data + 1) 0); [lia|].
      reflexivity. }
  cbn beta iota. erewrite bind_done.
  2:{ apply memset_ok. unfold len. rewrite length_replicate. lia. }
  rewrite drop_ge, app_nil_r by (by rewrite length_replicate).
  erewrite bind_done by (apply rdn_ok; lia). rewrite slice_full by done.
  change (replicate (Z.to_nat (len data + 1)) (u8 0)) with ([] ++ zeros (len data + 1)).
  erewrite bind_done by (apply memcpy_zeros; [done|lia]).
  replace (len data + 1 - len data) with 1 by lia. cbn [app].
  unfold ya_hal_os_queue_send, bind, queue_length, MSG_QUEUE_LENGTH. cbn [queues set_heap].
  rewrite bool_decide_true by lia. done.
Qed.

Definition fires (now : sys_time_t) (t : timer) : Prop := (check_node t now).1 = true.
#[export] Instance fires_dec now t : Decision (fires now t).
Proof. unfold fires; apply _. Defined.

Lemma check_loop_ok now l s h :
  Forall wf_timer l -> heap h = [] ->
  (length (queues h QHardware) + length (filter (fires now) l) <= 16)%nat ->
  exists h', check_loop now l (s, h) = Done ((fun t => (check_node t now).2) <$> l) (s, h') /\
    queues h' QHardware = queues h QHardware ++ (action_msg <$> filter (fires now) l) /\
    live h' = live h + Z.of_nat (length (filter (fires now) l)) /\ heap h' = [].
Proof.
  intros Hl. revert h. induction Hl as [|t l Ht Hl IH]; intros h Hheap Hq.
  { exists h. cbn. split; [done|]. rewrite app_nil_r. split; [done|]. split; [lia|done]. }
  cbn [check_loop]. rewrite filter_cons in *.
  destruct (check_node t now) as [fire t'] eqn:E.
  destruct Ht as (_&_&_&_&_&_&_&_&_&_&Hr&Hal&_).
  destruct fire.
  - assert (Hf : fires now t) by (unfold fires; by rewrite E).
    rewrite decide_True in Hq by done. rewrite decide_True by done. cbn [length] in Hq.
    cbn [when]. unfold ya_put_timer_action_into_queue. rewrite <- Hal.
    erewrite bind_done by (apply put_queue_ok; [lia|done|lia]).
    match goal with |- context [bind _ _ (s, ?hh)] => destruct (IH hh) as (h' & He & Hq' & Hlv & Hh') end.
    + done.
    + cbn [queues set_queue set_heap]. rewrite bool_decide_true, length_app by done.
      cbn [length]. lia.
    + erewrite bind_done by exact He. exists h'. split; [by rewrite fmap_cons, E|].
      cbn [queues set_queue live set_heap] in *. rewrite bool_decide_true in Hq' by done.
      split; [|split; [cbn; lia|done]]. rewrite Hq', fmap_cons, <- app_assoc. cbn [app]. unfold action_msg at 2.
      by rewrite Hal.
  - assert (Hf : ~ fires now t) by (unfold fires; by rewrite E).
    rewrite !decide_False in * by done.
    destruct (IH h Hheap Hq) as (h' & He & Hq' & Hlv & Hh').
    cbn [when]. rewrite bind_ret_l. erewrite bind_done by exact He. exists h'.
    split; [by rewrite fmap_cons, E|]. done.
Qed.

(** A check at a valid server time queues, for each timer that fires and in
    list order, one message holding a zero-terminated copy of its command, and
    clears the check flag; the table is updated by the per-timer step.  (Assumes
    memory and room in the hardware queue.) *)
Theorem check_queues_actions s h :
  check_enable (clk s) <> 0 -> 2020 <= year (sys_time (clk s)) ->
  wf_table (timers s) -> heap h = [] ->
  (length (queues h QHardware) + length (filter (fires (sys_time (clk s))) (timers s)) <= 16)%nat ->
  exists h', device_check_cloud_timer (s, h) =
      Done 0 (mkTs ((fun t => (check_node t (sys_time (clk s))).2) <$> timers s)
                   (mkClock (sys_time (clk s)) 0), h') /\
    queues h' QHardware =
      queues h QHardware ++ (action_msg <$> filter (fires (sys_time (clk s))) (timers s)) /\
    live h' = live h + Z.of_nat (length (filter (fires (sys_time (clk s))) (timers s))) /\ heap h' = [].
Proof.
  intros Hce Hy (Hwf & _) Hheap Hq. unfold device_check_cloud_timer.
  erewrite bind_done by reflexivity. cbn [fst id].
  destruct (Z.eqb_spec (check_enable (clk s)) 0); [done|].
  destruct (Z.ltb_spec (year (sys_time (clk s))) 2020); [lia|]. cbn [orb].
  destruct (check_loop_ok (sys_time (clk s)) (timers s) (set_clk (mkClock (sys_time (clk s)) 0) s) h)
    as (h' & He & Hr); try done.
  exists h'. split; [|done]. erewrite bind_done by reflexivity.
  erewrite bind_done by exact He. done.
Qed.

(** ** Second by second *)

(** The other end of the queue: the hardware task takes what has arrived. *)
Fixpoint drain_hardware (n : nat) : P C tstate (list msg) :=
  match n with
  | O => ret []
  | S n =>
    let* o := ya_hal_os_queue_recv QHardware in
    match o with Some m => let* l := drain_hardware n in ret (m :: l) | None => ret [] end
  end.
(** One second: the clock ticks, the timers are checked, the messages taken. *)
Definition one_second : P C tstate (list msg) :=
  puts (fun s => set_clk (sys_abstime_running (clk s)) s) ;;
  device_check_cloud_timer ;;
  drain_hardware 16.
Fixpoint seconds (n : nat) : P C tstate (list (list msg)) :=
  match n with
  | O => ret []
  | S n => let* l := one_second in let* ls := seconds n in ret (l :: ls)
  end.

Lemma drain_ok n s h : (length (queues h QHardware) <= n)%nat ->
  exists h', drain_hardware n (s, h) = Done (queues h QHardware) (s, h') /\ queues h' QHardware = [] /\ heap h' = heap h.
Proof.
  revert h. induction n as [|n IH]; intros h Hn; cbn [drain_hardware].
  { destruct (queues h QHardware) eqn:E; [|cbn in Hn; lia]. exists h. by rewrite E. }
  unfold bind at 1, ya_hal_os_queue_recv. destruct (queues h QHardware) as [|m l] eqn:E; [by exists h|].
  destruct (IH (set_queue QHardware l h)) as (h' & Hd & Hq & Hp); [cbn in *; rewrite bool_decide_true by done; lia|].
  exists h'. cbn beta iota. rewrite (bind_done _ _ _ _ _ Hd). cbn [queues set_queue]. by rewrite bool_decide_true.
Qed.

(** The table after a check: the same timers, with other counters. *)
Definition same_timers : list timer -> list timer -> Prop := Forall2 (fun t t' => exists v, t' = set_triggered v t).
Lemma same_timers_wf l l' : same_timers l l' -> wf_table l -> wf_table l'.
Proof.
  intros Hs (Hf & Hn & Hl). unfold wf_table. rewrite <- (Forall2_length _ _ _ Hs). split; [|split; [|done]].
  - clear Hn Hl. induction Hs as [|t t' l l' [v ->] _ IH]; [done|]. apply Forall_cons in Hf as [Ht Hf]. by constructor; [|apply IH].
  - replace (timer_id <$> l') with (timer_id <$> l); [done|]. clear Hf Hn Hl.
    induction Hs as [|t t' l l' [v ->] _ IH]; [done|]. by rewrite !fmap_cons, IH.
Qed.
Lemma same_timers_due now l l' : same_timers l l' -> action_msg <$> filter (due now) l' = action_msg <$> filter (due now) l.
Proof.
  induction 1 as [|t t' l l' [v ->] _ IH]; [done|]. rewrite !filter_cons. change (due now (set_triggered v t)) with (due now t).
  destruct (decide (due now t)); [|done]. by rewrite !fmap_cons, IH.
Qed.
Lemma held_check c l : valid_time (sys_time c) -> Forall (fun t => hold_off t (sys_time c)) l ->
  let now := sys_time (sys_abstime_running c) in
  filter (fires now) l = filter (due now) l /\ same_timers l ((fun t => (check_node t now).2) <$> l) /\
  Forall (fun t => hold_off t now) ((fun t => (check_node t now).2) <$> l).
Proof.
  intros Hv Hl now. induction Hl as [|t l Ht _ (Hf & Hs & Hh)]; [by split; [|split; constructor]|]. destruct (check_tick t c Hv Ht) as (Hd & Hh' & v & Hc).
  rewrite !filter_cons, fmap_cons, Hf. split; [|split; [constructor; [by exists v|done]|by constructor]].
  unfold fires at 1. fold now in Hd. destruct (decide (due now t)) as [D|D]; [rewrite decide_True by (by apply Hd)|rewrite decide_False by (by rewrite Hd)]; done.
Qed.
Lemma running_flag c : check_enable (sys_abstime_running c) = 1.
Proof. done. Qed.

Lemma second_ok s h : wf_table (timers s) -> Forall (fun t => hold_off t (sys_time (clk s))) (timers s) ->
  valid_time (sys_time (clk s)) -> heap h = [] -> queues h QHardware = [] ->
  let now := sys_time (sys_abstime_running (clk s)) in
  2020 <= year now -> (length (filter (due now) (timers s)) <= 16)%nat ->
  exists s' h', one_second (s, h) = Done (action_msg <$> filter (due now) (timers s)) (s', h') /\
    same_timers (timers s) (timers s') /\ Forall (fun t => hold_off t now) (timers s') /\
    sys_time (clk s') = now /\ heap h' = [] /\ queues h' QHardware = [].
Proof.
  intros Hw Hl Hv Hh Hq now Hy Hn. destruct (held_check (clk s) (timers s) Hv Hl) as (Hf & Hs & Ho). fold now in Hf, Hs, Ho.
  unfold one_second. erewrite bind_done by reflexivity. set (s1 := set_clk (sys_abstime_running (clk s)) s).
  destruct (check_queues_actions s1 h) as (h1 & Hc & Hq1 & _ & Hh1); try done.
  { cbn [s1 clk set_clk timers]. fold now. by rewrite Hf, Hq. }
  erewrite bind_done by exact Hc. cbn [s1 clk set_clk timers] in *. fold now in Hq1. rewrite Hq, Hf in Hq1. cbn [Datatypes.app] in Hq1.
  destruct (drain_ok 16 (mkTs ((fun t => (check_node t now).2) <$> timers s) (mkClock now 0)) h1) as (h2 & Hd & Hq2 & Hh2).
  { rewrite Hq1, length_fmap. done. }
  eexists _, h2. split; [etransitivity; [exact Hd|by rewrite Hq1]|]. cbn [timers clk sys_time]. split_and!; try done. by rewrite Hh2.
Qed.

(** C32: Second by second, the clock ticking and the hardware task taking its
    messages: from a year of 2020 on (the code checks nothing before), with
    memory to spare, no timer held off at the start and never more than sixteen
    due at once (the queue holds no more), each second brings exactly the
    commands of the timers that are due at it, in the order of the table: each
    timer fires at every second of its schedule, and never otherwise; the
    one-minute hold-off never hides a due moment. *)
Theorem timer_fires_when_due (n : nat) s h :
  wf_table (timers s) -> Forall (fun t => triggered t = 0) (timers s) -> valid_time (sys_time (clk s)) ->
  heap h = [] -> queues h QHardware = [] ->
  Forall (fun now => 2020 <= year now /\ (length (filter (due now) (timers s)) <= 16)%nat) (moments n (clk s)) ->
  exists s' h', seconds n (s, h)
    = Done ((fun now => action_msg <$> filter (due now) (timers s)) <$> moments n (clk s)) (s', h').
Proof.
  intros Hw Ht. assert (Hl : Forall (fun t => hold_off t (sys_time (clk s))) (timers s))
    by (eapply Forall_impl; [exact Ht|]; intros t Et; right; by left). clear Ht.
  revert s h Hw Hl. induction n as [|n IH]; intros s h Hw Hl Hv Hh Hq Hm; [by exists s, h|].
  cbn [moments] in Hm |- *. apply Forall_cons in Hm as [[Hy H16] Hm]. cbn [seconds].
  destruct (second_ok s h Hw Hl Hv Hh Hq Hy H16) as (s1 & h1 & Hs & Hsame & Hl1 & Hc1 & Hh1 & Hq1).
  rewrite (bind_done _ _ _ _ _ Hs).
  assert (Hmom : forall k c c', sys_time c = sys_time c' -> moments k c = moments k c').
  { clear. induction k as [|k IHk]; intros c c' E; [done|]. cbn [moments].
    assert (E' : sys_abstime_running c = sys_abstime_running c')
      by (destruct c, c'; cbn in E; subst; done). by rewrite E'. }
  assert (Hdue : forall now, action_msg <$> filter (due now) (timers s1) = action_msg <$> filter (due now) (timers s))
    by (intros now; by apply same_timers_due).
  assert (Hcnt : forall now, length (filter (due now) (timers s1)) = length (filter (due now) (timers s))).
  { intros now. rewrite <- (length_fmap action_msg), Hdue. by rewrite length_fmap. }
  destruct (IH s1 h1) as (s2 & h2 & Hr).
  - by eapply same_timers_wf.
  - by rewrite Hc1.
  - rewrite Hc1. by apply running_second.
  - done.
  - done.
  - rewrite (Hmom n _ (sys_abstime_running (clk s))) by done. eapply Forall_impl; [exact Hm|].
    intros now [? ?]. cbn beta. by rewrite Hcnt.
  - exists s2, h2. rewrite (bind_done _ _ _ _ _ Hr). rewrite fmap_cons. unfold ret. do 2 f_equal.
    rewrite (Hmom n _ (sys_abstime_running (clk s))) by done. apply list_fmap_ext. intros ? now _. apply Hdue.
Qed.
End Check.

Lemma timer_fires_when_due_witness :
  exists s' h', seconds 3 (mkTs [sample_timer "a1" 1 0 0] (mkClock (mkTime 2023 12 31 23 59 58 7) 0), boot)
    = Done [[]; [action_msg (sample_timer "a1" 1 0 0)]; []] (s', h').
Proof.
  destruct (timer_fires_when_due 3 (mkTs [sample_timer "a1" 1 0 0] (mkClock (mkTime 2023 12 31 23 59 58 7) 0)) boot)
    as (s' & h' & E); [evaluate|evaluate|evaluate|reflexivity|reflexivity|evaluate|].
  exists s', h'. exact E.
Defined.

Lemma check_queues_actions_witness :
  exists h', device_check_cloud_timer
      (mkTs sample_table (mkClock (mkTime 2024 1 2 7 30 0 2) 1), boot) =
    Done 0 (mkTs [set_triggered 1 (sample_timer "a1" 62 7 30); sample_timer "b2" 65 22 0]
              (mkClock (mkTime 2024 1 2 7 30 0 2) 0), h') /\
    queues h' QHardware = [mkMsg 9 (Some (str "{'p':1}" ++ [0; 0])) 1].
Proof.
  destruct (check_queues_actions (mkTs sample_table (mkClock (mkTime 2024 1 2 7 30 0 2) 1)) boot)
    as (h' & He & Hq & _); try evaluate.
  exists h'. split; [exact He | exact Hq].
Defined.

(** A command text of fewer than three characters (the JSON texts 1, {}
    or []) makes [device_add_list_timer] write outside the block it has just
    allocated: the [memset] clears [sizeof(int)] bytes, not the block. *)
Theorem short_action_overflows {C} (t : timer) (src : bytes) (s : tstate) (h : hw C) :
  find_timer (timer_id t) (timers s) = None -> (length (timers s) <= 20)%nat -> heap h = [] ->
  0 <= action_len t < 3 ->
  device_add_list_timer t src (s, h) = Fault OutOfBounds.
Proof.
  intros Hf Hl Hheap Ha. unfold device_add_list_timer, MAX_TIMER_NUM.
  erewrite bind_done by reflexivity. cbn [fst]. rewrite Hf, u8_small by (unfold is_u8; lia).
  destruct (Z.ltb_spec 20 (Z.of_nat (length (timers s)))); [lia|].
  erewrite bind_done by (unfold ya_hal_os_memory_alloc; rewrite Hheap; reflexivity).
  cbn beta iota. erewrite bind_done.
  2:{ unfold ya_hal_os_memory_alloc. cbn [heap set_heap].
      destruct (Z.eqb_spec (action_len t + 1) 0); [lia|]. reflexivity. }
  unfold bind, memset, len. rewrite length_replicate. unfold SIZEOF_INT.
  destruct (Z.leb_spec 4 (Z.of_nat (Z.to_nat (action_len t + 1)))); [lia|]. done.
Qed.
Lemma short_action_overflows_witness :
  device_add_list_timer (mkTimerNode 0 0 0 7 30 62 1 (zeros 16) 0 0 2 []) (str "{}" ++ [0])
    (mkTs sample_table (mkClock (mkTime 2024 1 2 7 30 0 2) 1), boot) = Fault OutOfBounds.
Proof.
  apply short_action_overflows; [vm_compute; reflexivity | vm_compute; lia | reflexivity | vm_compute; split; congruence].
Defined.
