(* ===== verification/License.v ===== *)
(** * Device licences: [akeeta/app/src/ya_cert_flash_api.c]

    The credentials of the two clouds.  For AWS: certificate, RSA key, client
    id and thing type, one flash block each.  For Aliyun: three
    length-prefixed strings in one block.  The parsers of mbedtls are an
    interface: the code only uses their verdict. *)

From stdpp Require Import base numbers list strings.
From S2P Require Import Prelude Platform SpiFlash Flash CommonFunc.

Definition C_OK : Z := 0.
Definition C_ERROR : Z := -1.
Definition MAX_CERT_LEN : Z := 1024 + 512.
Definition MAX_RSA_LEN : Z := 2048 + 512.
Definition MAX_CLIENT_ID_LEN : Z := 128.
Definition MAX_THING_TYPE_LEN : Z := 128.
Definition YA_PRODUCT_KEY_LEN : Z := 20.
Definition YA_DEVICE_ID_LEN : Z := 32.
Definition YA_DEVICE_SECRET_LEN : Z := 64.

(** The 6260_S1 flash layout of ya_config.h: one 4 KiB block each. *)
Definition YA_LICENSE_DEVICE_CERT_ADDR : Z := 0xAF000.
Definition YA_LICENSE_DEVICE_RSA_PRIVATE_KEY_ADDR : Z := 0xB0000.
Definition YA_LICENSE_DEVICE_ID_ADDR : Z := 0xB1000.
Definition YA_LICENSE_THING_TYPE_ADDR : Z := 0xB2000.
Definition YA_LICENSE_ALIYUUN : Z := 0xB3000.

(** Status of the mbedtls parsers on a buffer with its terminator. *)
Class CertCheck := {
  mbedtls_x509_crt_parse : bytes -> Z;
  mbedtls_pk_parse_key : bytes -> Z;
}.

(** The file's globals; each pointer owns its block. *)
Record lic := mkLic {
  aws_certificateBuff : option bytes; aws_privateKeyBuff : option bytes;
  aws_client_id : option bytes; aws_thing_type : option bytes;
  aliyun_productkey : option bytes; aliyun_deviceid : option bytes;
  aliyun_productsecret : option bytes }.
Definition no_lic : lic := mkLic None None None None None None None.

(** One pointer of the record. *)
Record slot := mkSlot { slot_get : lic -> option bytes; slot_set : option bytes -> lic -> lic }.
Definition s_cert : slot := mkSlot aws_certificateBuff (fun v l =>
  mkLic v (aws_privateKeyBuff l) (aws_client_id l) (aws_thing_type l)
    (aliyun_productkey l) (aliyun_deviceid l) (aliyun_productsecret l)).
Definition s_key : slot := mkSlot aws_privateKeyBuff (fun v l =>
  mkLic (aws_certificateBuff l) v (aws_client_id l) (aws_thing_type l)
    (aliyun_productkey l) (aliyun_deviceid l) (aliyun_productsecret l)).
Definition s_client : slot := mkSlot aws_client_id (fun v l =>
  mkLic (aws_certificateBuff l) (aws_privateKeyBuff l) v (aws_thing_type l)
    (aliyun_productkey l) (aliyun_deviceid l) (aliyun_productsecret l)).
Definition s_thing : slot := mkSlot aws_thing_type (fun v l =>
  mkLic (aws_certificateBuff l) (aws_privateKeyBuff l) (aws_client_id l) v
    (aliyun_productkey l) (aliyun_deviceid l) (aliyun_productsecret l)).
Definition s_pkey : slot := mkSlot aliyun_productkey (fun v l =>
  mkLic (aws_certificateBuff l) (aws_privateKeyBuff l) (aws_client_id l) (aws_thing_type l)
    v (aliyun_deviceid l) (aliyun_productsecret l)).
Definition s_devid : slot := mkSlot aliyun_deviceid (fun v l =>
  mkLic (aws_certificateBuff l) (aws_privateKeyBuff l) (aws_client_id l) (aws_thing_type l)
    (aliyun_productkey l) v (aliyun_productsecret l)).
Definition s_secret : slot := mkSlot aliyun_productsecret (fun v l =>
  mkLic (aws_certificateBuff l) (aws_privateKeyBuff l) (aws_client_id l) (aws_thing_type l)
    (aliyun_productkey l) (aliyun_deviceid l) v).

Section ReadWrite.
Context {C : Type} `{NorChip C} {S : Type}.

(** The body of the four [ya_aws_read_check_*] readers, which differ in the
    size of their buffer: the status and the caller's buffer. *)
Definition read_check (max : Z) (dst : bytes) (addr : Z) : P C S (Z * bytes) :=
  let* p := ya_hal_os_memory_alloc max in
  match p with
  | None => ret (C_ERROR, dst)
  | Some buf =>
    let* buf := memset buf 0 max in
    let* '(r, buf, read_data_len) := ya_read_flash_with_var_len addr buf (max - 1) 1 in
    if negb (r =? C_OK) || (read_data_len =? 0)
    then ya_hal_os_memory_free ;; ret (C_ERROR, dst)
    else
      let* dst := memset dst 0 (read_data_len + 1) in
      let* src := rdn buf 0 read_data_len in
      let* dst := memcpy dst 0 src in
      ya_hal_os_memory_free ;;
      ret (C_OK, dst)
  end.
Definition ya_aws_read_check_device_cert := read_check MAX_CERT_LEN.
Definition ya_aws_read_check_device_rsa_private_key := read_check MAX_RSA_LEN.
Definition ya_aws_read_check_device_id := read_check MAX_CLIENT_ID_LEN.
Definition ya_aws_read_check_thing_type := read_check MAX_THING_TYPE_LEN.

(** The tail of the four writers. *)
Definition write_check (buf : bytes) (data_len addr : Z) : P C S Z :=
  let* r := ya_write_flash addr buf data_len 1 in
  ret (if r =? C_OK then C_OK else C_ERROR).
(** A writer that asks a parser first: it terminates the caller's buffer,
    which it hands back. *)
Definition write_parsed (parse : bytes -> Z) (buf : bytes) (data_len addr : Z) : P C S (Z * bytes) :=
  let* buf := wr buf data_len 0 in
  let* src := rdn buf 0 (data_len + 1) in
  if negb (parse src =? C_OK) then ret (C_ERROR, buf)
  else let* r := write_check buf data_len addr in ret (r, buf).
Definition ya_write_check_aws_para_device_cert `{CertCheck} := write_parsed mbedtls_x509_crt_parse.
Definition ya_write_check_aws_para_device_rsa_private_key `{CertCheck} :=
  write_parsed mbedtls_pk_parse_key.
Definition ya_write_check_aws_para_device_id := write_check.
Definition ya_write_check_aws_para_thing_type := write_check.

Definition ya_read_aliyun_cert (buf : bytes) (data_len aliyun_addr : Z) : P C S (Z * bytes * Z) :=
  ya_read_flash_with_var_len aliyun_addr buf data_len 1.

(** The three strings' length limits, in order; a fourth ends the scan. *)
Definition aliyun_limit (count : nat) : option Z :=
  match count with
  | O => Some YA_PRODUCT_KEY_LEN
  | 1%nat => Some YA_DEVICE_ID_LEN
  | 2%nat => Some YA_DEVICE_SECRET_LEN
  | _ => None
  end.

(** The validation loop of [ya_write_aliyun_cert]; at most three strings are
    looked at. *)
Fixpoint aliyun_valid (fuel count : nat) (buf : bytes) (index data_len : Z) : P C S bool :=
  match fuel with
  | O => ret true
  | Datatypes.S fuel =>
    if negb (index <? data_len) then ret true
    else match aliyun_limit count with
         | None => ret true
         | Some limit =>
           let* n := rd buf index in
           if limit <? n then ret false
           else aliyun_valid fuel (Datatypes.S count) buf (index + 1 + n) data_len
         end
  end.
Definition ya_write_aliyun_cert (buf : bytes) (data_len aliyun_addr : Z) : P C S Z :=
  let* ok := aliyun_valid 4 0 buf 0 data_len in
  if negb ok then ret C_ERROR else write_check buf data_len aliyun_addr.
End ReadWrite.

Section Globals.
Context {C : Type} `{NorChip C}.
Abbreviation PL := (P C lic).

(** [if (p) { free(p); p = NULL; }] *)
Definition slot_free (f : slot) : PL unit :=
  let* l := gets (slot_get f) in
  match l with
  | Some _ => ya_hal_os_memory_free ;; puts (slot_set f None)
  | None => ret tt
  end.
Definition ya_aws_para_free : PL Z :=
  slot_free s_cert ;; slot_free s_key ;; slot_free s_client ;; slot_free s_thing ;; ret 0.
Definition ya_aliyun_para_free : PL Z :=
  slot_free s_pkey ;; slot_free s_devid ;; slot_free s_secret ;; ret 0.

(** One of the four blocks of [ya_aws_para_init]; [None] is [goto err]. *)
Definition load_slot (f : slot) (max : Z) (reader : bytes -> Z -> PL (Z * bytes)) (addr : Z)
  : PL (option unit) :=
  let* cur := gets (slot_get f) in
  match cur with
  | Some _ => ret (Some tt)
  | None =>
    let? block := ya_hal_os_memory_alloc max in
    let* block := memset block 0 max in
    puts (slot_set f (Some block)) ;;
    let* '(r, block) := reader block addr in
    puts (slot_set f (Some block)) ;;
    guard (r =? C_OK)
  end.
Definition ya_aws_para_init : PL Z :=
  let* ok :=
    let? _ := load_slot s_cert MAX_CERT_LEN ya_aws_read_check_device_cert
                YA_LICENSE_DEVICE_CERT_ADDR in
    let? _ := load_slot s_key MAX_RSA_LEN ya_aws_read_check_device_rsa_private_key
                YA_LICENSE_DEVICE_RSA_PRIVATE_KEY_ADDR in
    let? _ := load_slot s_client MAX_CLIENT_ID_LEN ya_aws_read_check_device_id
                YA_LICENSE_DEVICE_ID_ADDR in
    load_slot s_thing MAX_THING_TYPE_LEN ya_aws_read_check_thing_type YA_LICENSE_THING_TYPE_ADDR in
  match ok with
  | Some _ => ret C_OK
  | None => ya_aws_para_free ;; ret C_ERROR
  end.

Definition ya_get_private_key : PL (option bytes) := gets aws_privateKeyBuff.
Definition ya_get_client_cert : PL (option bytes) := gets aws_certificateBuff.
Definition ya_aws_get_client_id : PL (option bytes) := gets aws_client_id.
Definition ya_aws_get_thing_type : PL (option bytes) := gets aws_thing_type.

Definition aliyun_slot (count : nat) : slot :=
  match count with O => s_pkey | 1%nat => s_devid | _ => s_secret end.

(** The [for] loop of [ya_read_parse_aliyun_cert]: a block already there is
    reused whatever its size; [None] is [goto err]. *)
Fixpoint aliyun_parse (fuel count : nat) (buf : bytes) (index read_data_len : Z)
  : PL (option unit) :=
  match fuel with
  | O => ret (Some tt)
  | S fuel =>
    if negb (index <? read_data_len) then ret (Some tt)
    else match aliyun_limit count with
         | None => ret (Some tt)
         | Some limit =>
           let f := aliyun_slot count in
           let* n := rd buf index in
           let? _ := guard (negb (limit <? n)) in
           let* cur := gets (slot_get f) in
           let? block := match cur with
                         | Some b => ret (Some b)
                         | None => ya_hal_os_memory_alloc (n + 1)
                         end in
           let* block := memset block 0 (n + 1) in
           let* src := rdn buf (index + 1) n in
           let* block := memcpy block 0 src in
           puts (slot_set f (Some block)) ;;
           aliyun_parse fuel (S count) buf (index + 1 + n) read_data_len
         end
  end.
(** A failed read returns without freeing [buf]. *)
Definition ya_read_parse_aliyun_cert (aliyun_addr : Z) : PL Z :=
  let* p := ya_hal_os_memory_alloc 1024 in
  match p with
  | None => ret C_ERROR
  | Some buf =>
    let* buf := memset buf 0 1024 in
    let* '(r, buf, read_data_len) := ya_read_flash_with_var_len aliyun_addr buf 1024 1 in
    if negb (r =? C_OK) || (read_data_len =? 0) then ret C_ERROR
    else
      let* ok := aliyun_parse 4 0 buf 0 read_data_len in
      ya_hal_os_memory_free ;;
      ret (match ok with Some _ => C_OK | None => C_ERROR end)
  end.

(** The three getters: the caller's array and the length. *)
Definition slot_copy (f : slot) (max : Z) (dst : bytes) : PL (Z * bytes) :=
  let* cur := gets (slot_get f) in
  match cur with
  | Some b => let* dst := strcpy dst b in ret (len (cstr dst), dst)
  | None => let* dst := memset dst 0 (max + 1) in ret (0, dst)
  end.
Definition ya_get_productKey := slot_copy s_pkey YA_PRODUCT_KEY_LEN.
Definition ya_get_deviceID := slot_copy s_devid YA_DEVICE_ID_LEN.
Definition ya_get_deviceSecret := slot_copy s_secret YA_DEVICE_SECRET_LEN.

Definition present (f : slot) (l : lic) : bool := match slot_get f l with Some _ => true | None => false end.
Definition ya_aliyun_para_init : PL Z :=
  let* l := gets id in
  if negb (present s_pkey l) || negb (present s_devid l) || negb (present s_secret l)
  then ya_read_parse_aliyun_cert YA_LICENSE_ALIYUUN
  else ret 0.

(** [if (p == NULL) p = alloc(max); memset(p, 0, max);], unchecked. *)
Definition slot_clear (f : slot) (max : Z) : PL unit :=
  let* cur := gets (slot_get f) in
  let* p := match cur with Some b => ret (Some b) | None => ya_hal_os_memory_alloc max end in
  let* block := deref p in
  let* block := memset block 0 max in
  puts (slot_set f (Some block)).
Definition slot_strcpy (f : slot) (src : bytes) : PL unit :=
  let* cur := gets (slot_get f) in
  let* block := deref cur in
  let* block := strcpy block src in
  puts (slot_set f (Some block)).

(** Arguments are pointers to C strings, or NULL. *)
Definition ya_test_akeeta_cn_with_obj_cert (productkey deviceid secret : option bytes) : PL Z :=
  match productkey, deviceid, secret with
  | Some pk, Some di, Some se =>
    if (YA_PRODUCT_KEY_LEN <? len (cstr pk)) || (YA_DEVICE_ID_LEN <? len (cstr di))
       || (YA_DEVICE_SECRET_LEN <? len (cstr se))
    then ret C_ERROR
    else
      slot_clear s_pkey (YA_PRODUCT_KEY_LEN + 1) ;;
      slot_clear s_devid (YA_DEVICE_ID_LEN + 1) ;;
      slot_clear s_secret (YA_DEVICE_SECRET_LEN + 1) ;;
      slot_strcpy s_pkey pk ;; slot_strcpy s_devid di ;; slot_strcpy s_secret se ;;
      ret C_OK
  | _, _, _ => ret C_ERROR
  end.
Definition ya_test_akeeta_us_with_obj_cert (certificateBuff privateKeyBuff client_id thing_type : option bytes)
  : PL Z :=
  match certificateBuff, privateKeyBuff, client_id, thing_type with
  | Some ce, Some pk, Some ci, Some ty =>
    slot_clear s_cert MAX_CERT_LEN ;; slot_clear s_key MAX_RSA_LEN ;;
    slot_clear s_client MAX_CLIENT_ID_LEN ;; slot_clear s_thing MAX_THING_TYPE_LEN ;;
    slot_strcpy s_cert ce ;; slot_strcpy s_key pk ;; slot_strcpy s_client ci ;;
    slot_strcpy s_thing ty ;;
    ret C_OK
  | _, _, _, _ => ret C_ERROR
  end.

Definition ya_check_us_license_exit : PL Z := ya_aws_para_init.
Definition ya_check_cn_license_exit : PL Z := ya_aliyun_para_init.
Definition ya_check_us_license_exit_internal : PL Z :=
  let* l := gets id in
  if negb (present s_cert l) || negb (present s_key l) || negb (present s_client l)
     || negb (present s_thing l)
  then ret (-1) else ret 0.
Definition ya_check_cn_license_exit_internal : PL Z :=
  let* l := gets id in
  if negb (present s_pkey l) || negb (present s_devid l) || negb (present s_secret l)
  then ret (-1) else ret 0.
End Globals.

(** ** Proofs *)

Definition one (f : slot) (l : lic) : Z := if present f l then 1 else 0.
(** Blocks the AWS and the Aliyun pointers own. *)
Definition aws_blocks (l : lic) : Z := one s_cert l + one s_key l + one s_client l + one s_thing l.
Definition aliyun_blocks (l : lic) : Z := one s_pkey l + one s_devid l + one s_secret l.
(** All four AWS pointers are set, or none. *)
Definition aws_all (l : lic) : bool :=
  present s_cert l && present s_key l && present s_client l && present s_thing l.
Definition aws_none (l : lic) : bool :=
  negb (present s_cert l) && negb (present s_key l) && negb (present s_client l)
  && negb (present s_thing l).
(** The Aliyun pointers are untouched. *)
Definition same_aliyun (l l' : lic) : Prop :=
  slot_get s_pkey l' = slot_get s_pkey l /\ slot_get s_devid l' = slot_get s_devid l /\
  slot_get s_secret l' = slot_get s_secret l.

(** Evaluate the pointer accesses of a concrete record. *)
Ltac lic_cbn :=
  cbn [present one slot_get slot_set s_cert s_key s_client s_thing s_pkey s_devid s_secret
       aws_certificateBuff aws_privateKeyBuff aws_client_id aws_thing_type
       aliyun_productkey aliyun_deviceid aliyun_productsecret Z.opp].

Section Proofs.
Context {C : Type} `{NorChipLaws C}.

Lemma wp_read_check {S} max dst addr Q R (s : S) (h : hw C) :
  1 < max <= 4087 -> max <= len dst -> is_bytes dst -> 0 <= addr -> addr + 8192 < 4294967296 ->
  (forall h', moved 0 h h' -> Q (C_ERROR, dst) (s, h')) ->
  (forall dst' h', len dst' = len dst -> moved 0 h h' -> Q (C_OK, dst') (s, h')) ->
  wp (read_check max dst addr) Q R (s, h).
Proof.
  intros Hm Hd Hdb Ha Hr Hf Hok. unfold read_check, C_OK, C_ERROR in *.
  wstep. apply wp_alloc_moved; [lia| |].
  2:{ intros h1 _ M1. apply wp_ret. by apply Hf. }
  intros b h1 Hb _ M1. wstep. wstep. rewrite drop_ge, app_nil_r by (unfold len in Hb; lia).
  assert (Hz : len (replicate (Z.to_nat max) (u8 0)) = max) by (unfold len; rewrite length_replicate; lia).
  wstep. apply wp_read_var; [done|done|lia| |].
  - intros h2 M2. cbn [negb orb Z.eqb]. wstep. apply wp_free_moved. intros h3 M3. apply wp_ret, Hf.
    exact (moved_trans _ _ _ _ _ M1 (moved_trans _ _ _ _ _ M2 M3)).
  - intros body n h2 Hn Hn' Hlb _ M2. cbn [negb orb Z.eqb].
    pose proof (moved_trans _ _ _ _ _ M1 M2) as M12.
    destruct (Z.eqb_spec n 0).
    { wstep. apply wp_free_moved. intros h3 M3. apply wp_ret, Hf.
      exact (moved_trans _ _ _ _ _ M12 M3). }
    wstep. wstep. wstep. wstep; [rewrite len_splice; lia|].
    wstep. wstep.
    { rewrite len_slice, len_app; [|lia|lia|rewrite len_splice; lia].
      unfold len. rewrite length_replicate, length_drop. unfold len in Hd. lia. }
    wstep. apply wp_free_moved. intros h3 M3. apply wp_ret, Hok.
    + assert (Hl0 : len (replicate (Z.to_nat (n + 1)) (u8 0) ++ drop (Z.to_nat (n + 1)) dst) = len dst).
      { unfold len. rewrite length_app, length_replicate, length_drop. unfold len in Hd. lia. }
      rewrite len_splice; [done|lia|]. rewrite len_slice, Hl0; [lia..|rewrite len_splice; lia].
    + exact (moved_trans _ _ _ _ _ M12 M3).
Qed.

(** One pointer of [ya_aws_para_init]. *)
Lemma wp_load_slot f max addr Q R l (h : hw C) :
  1 < max <= 4087 -> 0 <= addr -> addr + 8192 < 4294967296 ->
  (forall v w, slot_set f v (slot_set f w l) = slot_set f v l) ->
  (is_Some (slot_get f l) -> Q (Some tt) (l, h)) ->
  (forall h', slot_get f l = None -> moved 0 h h' -> Q None (l, h')) ->
  (forall b h', slot_get f l = None -> moved 1 h h' -> Q None (slot_set f (Some b) l, h')) ->
  (forall b h', slot_get f l = None -> moved 1 h h' -> len b = max ->
     Q (Some tt) (slot_set f (Some b) l, h')) ->
  wp (load_slot f max (read_check max) addr) Q R (l, h).
Proof.
  intros Hm Ha Hr Hss Hp Hn He Hok. unfold load_slot. wstep. apply wp_gets. cbn [fst].
  destruct (slot_get f l) as [b0|]; [apply wp_ret, Hp; eauto|].
  wstep. apply wp_alloc_moved; [lia| |].
  2:{ intros h1 _ M1. by apply Hn. }
  intros b h1 Hb _ M1. wstep. wstep. rewrite drop_ge, app_nil_r by (unfold len in Hb; lia).
  assert (Hz : len (replicate (Z.to_nat max) (u8 0)) = max) by (unfold len; rewrite length_replicate; lia).
  wstep. apply wp_puts. wstep. apply wp_read_check; try done; [lia|apply Forall_replicate, u8_range| |].
  - intros h2 M2. wstep. apply wp_puts. rewrite Hss. apply wp_guard; [done|]. intros _.
    apply He; [done|]. exact (moved_trans _ _ _ _ _ M1 M2).
  - intros dst' h2 Hl M2. wstep. apply wp_puts. rewrite Hss. apply wp_guard; [|done]. intros _.
    apply Hok; [done| |lia]. exact (moved_trans _ _ _ _ _ M1 M2).
Qed.

Lemma wp_slot_free f Q R l (h : hw C) :
  (forall h', moved (- one f l) h h' -> slot_get f l = None \/ is_Some (slot_get f l) ->
     Q tt (if present f l then slot_set f None l else l, h')) ->
  wp (slot_free f) Q R (l, h).
Proof.
  intros HQ. unfold slot_free. wstep. apply wp_gets. cbn [fst]. unfold one, present in HQ.
  destruct (slot_get f l) as [b|] eqn:E.
  - wstep. apply wp_free_moved. intros h1 M1. apply wp_puts. apply HQ; [done|right; eauto].
  - apply wp_ret, HQ; [apply moved_refl|by left].
Qed.
Lemma wp_aws_free Q R l (h : hw C) :
  (forall l' h', aws_none l' = true -> same_aliyun l l' -> moved (- aws_blocks l) h h' ->
     Q 0 (l', h')) ->
  wp ya_aws_para_free Q R (l, h).
Proof.
  intros HQ. unfold ya_aws_para_free. destruct l as [[] [] [] [] ? ? ?];
    (do 4 (wstep; apply wp_slot_free; lic_cbn; intros ? ? _); apply wp_ret, HQ;
     [done|done|eapply moved_eq; [eapply moved_trans; [eassumption|eapply moved_trans;
       [eassumption|eapply moved_trans; [eassumption|eassumption]]]|done]]).
Qed.

(** Relative to [(l0, h0)]: only AWS pointers moved, each with its block. *)
Definition loading (l0 : lic) (h0 : hw C) (st : lic * hw C) : Prop :=
  same_aliyun l0 st.1 /\ moved (aws_blocks st.1 - aws_blocks l0) h0 st.2.
Definition aws_slots : list slot := [s_cert; s_key; s_client; s_thing].
(** Pointers that are set stay set. *)
Definition keeps (l l' : lic) : Prop :=
  Forall (fun g => present g l = true -> present g l' = true) aws_slots.

(** Setting an empty AWS pointer accounts for one block. *)
Lemma loading_set f l0 h0 l h h' b :
  f ∈ aws_slots -> slot_get f l = None -> loading l0 h0 (l, h) -> moved 1 h h' ->
  loading l0 h0 (slot_set f (Some b) l, h') /\ keeps l (slot_set f (Some b) l) /\
  present f (slot_set f (Some b) l) = true.
Proof.
  intros Hf Hn [Ha Hm] M1. cbn [fst snd] in *.
  unfold loading, same_aliyun, keeps, aws_slots, aws_blocks in *. cbn [fst snd].
  destruct l as [ce ke ci th pk di se].
  repeat (apply elem_of_cons in Hf as [-> | Hf]; [|]); [..|by apply elem_of_nil in Hf];
    cbn in Hn; subst;
    (split; [split; [exact Ha|eapply moved_eq; [exact (moved_trans _ _ _ _ _ Hm M1)|]; unfold one, present; lic_cbn; lia]|]);
    (split; [repeat constructor; lic_cbn; done|done]).
Qed.

Lemma wp_load_inv f max addr R l0 h0 l (h : hw C) :
  f ∈ aws_slots -> 1 < max <= 4087 -> 0 <= addr -> addr + 8192 < 4294967296 ->
  loading l0 h0 (l, h) ->
  wp (load_slot f max (read_check max) addr) (fun o st => loading l0 h0 st /\ keeps l st.1 /\
    (o = Some tt -> present f st.1 = true)) R (l, h).
Proof.
  intros Hf Hm Ha Hr Hl. apply wp_load_slot; try done.
  - intros v w. unfold aws_slots in Hf.
    repeat (apply elem_of_cons in Hf as [-> | Hf]; [done|]). by apply elem_of_nil in Hf.
  - intros [b Hb]. split; [done|]. split; [by repeat constructor|]. intros _.
    unfold present. cbn [fst]. by rewrite Hb.
  - intros h' Hn M. split; [|split; [by repeat constructor|done]].
    destruct Hl as [Hs Hmv]. split; [done|]. cbn [fst snd] in *.
    eapply moved_eq; [exact (moved_trans _ _ _ _ _ Hmv M)|lia].
  - intros b h' Hn M. destruct (loading_set f l0 h0 l h h' b) as (? & ? & ?); try done.
  - intros b h' Hn M _. destruct (loading_set f l0 h0 l h h' b) as (? & ? & ?); try done.
Qed.

Lemma keeps_trans l1 l2 l3 : keeps l1 l2 -> keeps l2 l3 -> keeps l1 l3.
Proof.
  unfold keeps, aws_slots. rewrite !Forall_cons, !Forall_nil. intuition.
Qed.

(** [ya_aws_para_init] from any pointers, flash and allocator. *)
Lemma wp_aws_init R (l : lic) (h : hw C) :
  wp ya_aws_para_init (fun r st => loading l h st /\
    (r = C_OK /\ aws_all st.1 = true \/ r = C_ERROR /\ aws_none st.1 = true)) R (l, h).
Proof.
  assert (H0' : loading l h (l, h)).
  { split; [by repeat split|]. eapply moved_eq; [apply moved_refl|]. cbn. lia. }
  unfold ya_aws_para_init. wstep.
  eapply (wp_mono _ (fun o st => loading l h st /\ (o = Some tt -> aws_all st.1 = true)) _ R);
    [| |done].
  2:{ intros [[]|] [l' h'] [[Hs Hm] Ha].
      - apply wp_ret. split; [done|]. left. auto.
      - wstep. apply wp_aws_free. intros l2 h2 Hn Hs2 M2. apply wp_ret. split; [|by right].
        split; [unfold same_aliyun in *; cbn in *; intuition congruence|]. cbn [fst snd] in *.
        eapply moved_eq; [exact (moved_trans _ _ _ _ _ Hm M2)|].
        replace (aws_blocks l2) with 0; [lia|].
        unfold aws_none in Hn. unfold aws_blocks, one.
        destruct (present s_cert l2), (present s_key l2), (present s_client l2), (present s_thing l2); done. }
  wstep. eapply wp_mono; [apply (wp_load_inv _ _ _ R l h); try done; left| |done].
  intros [[]|] [l1 h1] (H1 & K1 & P1); [|done]. specialize (P1 eq_refl). cbn [fst] in *.
  wstep. eapply wp_mono; [apply (wp_load_inv _ _ _ R l h); try done; right; left| |done].
  intros [[]|] [l2 h2] (H2 & K2 & P2); [|done]. specialize (P2 eq_refl). cbn [fst] in *.
  wstep. eapply wp_mono; [apply (wp_load_inv _ _ _ R l h); try done; do 2 right; left| |done].
  intros [[]|] [l3 h3] (H3 & K3 & P3); [|done]. specialize (P3 eq_refl). cbn [fst] in *.
  eapply wp_mono; [apply (wp_load_inv _ _ _ R l h); try done; do 3 right; left| |done].
  intros [[]|] [l4 h4] (H4 & K4 & P4); [|done]. specialize (P4 eq_refl). cbn [fst] in *.
  split; [done|]. intros _. pose proof (keeps_trans _ _ _ K3 K4) as K34.
  pose proof (keeps_trans _ _ _ K2 K34) as K24. unfold keeps, aws_slots in *.
  rewrite !Forall_cons in *.
  destruct K4 as (_ & _ & Hc & _), K34 as (_ & Hk & _), K24 as (He & _).
  unfold aws_all. by rewrite He, Hk, Hc, P4.
Qed.

(** [ya_aws_para_init] always returns, whatever the flash holds and the
    allocator answers, and loads the four AWS credentials all or not at all:
    on success all four pointers are set, on failure all are NULL; exactly the
    blocks of the pointers that are set remain allocated, and the Aliyun
    credentials are untouched. *)
Theorem aws_para_init_all_or_nothing (l : lic) (h : hw C) :
  exists r l' h', ya_aws_para_init (l, h) = Done r (l', h') /\ same_aliyun l l' /\
    live h' = live h + aws_blocks l' - aws_blocks l /\ chip h' = chip h /\
    (r = C_OK /\ aws_all l' = true \/ r = C_ERROR /\ aws_none l' = true).
Proof.
  destruct (wp_elim _ _ _ (wp_aws_init (fun _ => False) l h)) as (r & [l' h'] & Hd & [Hs Hm] & Hr).
  exists r, l', h'. cbn in *. apply moved_fields in Hm as (Hl & _ & _ & _ & _ & _ & Hc).
  repeat (split; [done || lia|]). done.
Qed.
(** ** Loading the Aliyun credentials of a device just started *)

(** A licence string the application copies into a fixed array of [n + 1]
    bytes. *)
Definition name_ok (n : Z) (p : option bytes) : Prop :=
  match p with Some b => 0 ∈ b /\ len (cstr b) <= n | None => True end.
Definition lic_inv (l : lic) : Prop :=
  name_ok YA_PRODUCT_KEY_LEN (aliyun_productkey l) /\ name_ok YA_DEVICE_ID_LEN (aliyun_deviceid l).

(** The pointers from the [count]-th on are NULL. *)
Definition fresh (count : nat) (l : lic) : Prop :=
  forall k, (count <= k <= 2)%nat -> slot_get (aliyun_slot k) l = None.
(** Only Aliyun pointers moved, each with its block. *)
Definition same_aws (l l' : lic) : Prop :=
  slot_get s_cert l' = slot_get s_cert l /\ slot_get s_key l' = slot_get s_key l /\
  slot_get s_client l' = slot_get s_client l /\ slot_get s_thing l' = slot_get s_thing l.
Definition aliyun_loading (l0 : lic) (h0 : hw C) (st : lic * hw C) : Prop :=
  same_aws l0 st.1 /\ moved (aliyun_blocks st.1 - aliyun_blocks l0) h0 st.2.
Lemma aliyun_loading_refl l h : aliyun_loading l h (l, h).
Proof. split; [done|]. eapply moved_eq; [apply moved_refl|]. cbn. lia. Qed.
Lemma aliyun_loading_moved l0 h0 l h h' :
  aliyun_loading l0 h0 (l, h) -> moved 0 h h' -> aliyun_loading l0 h0 (l, h').
Proof.
  intros [Ha Hm] M. split; [done|]. cbn [fst snd] in *.
  eapply moved_eq; [exact (moved_trans _ _ _ _ _ Hm M)|lia].
Qed.

Lemma aliyun_loading_set count l0 h0 l h h' b :
  (count <= 2)%nat -> fresh count l -> aliyun_loading l0 h0 (l, h) -> moved 1 h h' ->
  aliyun_loading l0 h0 (slot_set (aliyun_slot count) (Some b) l, h') /\
  fresh (S count) (slot_set (aliyun_slot count) (Some b) l).
Proof.
  intros Hc Hf [Ha Hm] M1. cbn [fst snd] in *.
  pose proof (moved_trans _ _ _ _ _ Hm M1) as M. pose proof (Hf count ltac:(lia)) as Hn.
  assert (Hb : aliyun_blocks (slot_set (aliyun_slot count) (Some b) l) = aliyun_blocks l + 1).
  { destruct count as [|[|[|]]]; [| | |lia]; unfold aliyun_blocks, one, present; cbn in *;
      rewrite Hn; lia. }
  split; [split|].
  - destruct count as [|[|[|]]]; [exact Ha..|lia].
  - cbn [fst snd]. eapply moved_eq; [exact M|lia].
  - intros k Hk. rewrite <- (Hf k) by lia.
    destruct count as [|[|[|]]], k as [|[|[|]]]; try lia; done.
Qed.

(** What the parser stores is a terminated string within its limit. *)
Lemma lic_inv_set count limit l b :
  lic_inv l -> aliyun_limit count = Some limit -> 0 ∈ b -> len (cstr b) <= limit ->
  lic_inv (slot_set (aliyun_slot count) (Some b) l).
Proof.
  intros [Hp Hd] Hlim Hz Hb. destruct count as [|[|[|]]]; simplify_eq/=; done.
Qed.
Lemma wp_aliyun_parse fuel count buf index n R l0 h0 l (h : hw C) :
  len buf = 1024 -> is_bytes buf -> 0 <= index <= 66 * Z.of_nat count -> n <= 1024 ->
  (count <= 3)%nat -> fresh count l -> aliyun_loading l0 h0 (l, h) -> lic_inv l ->
  wp (aliyun_parse fuel count buf index n) (fun _ st => aliyun_loading l0 h0 st /\ lic_inv st.1) R (l, h).
Proof.
  intros Hl Hb. revert count index l h.
  induction fuel as [|fuel IH]; intros count index l h Hi Hn Hc Hf Hal Hli.
  { by apply wp_ret. }
  cbn [aliyun_parse]. wstep; [by apply wp_ret|]. zbool; [|done].
  destruct (aliyun_limit count) as [limit|] eqn:Hlim; [|by apply wp_ret].
  assert (Hc2 : (count <= 2)%nat /\ limit <= 64).
  { unfold aliyun_limit, YA_PRODUCT_KEY_LEN, YA_DEVICE_ID_LEN, YA_DEVICE_SECRET_LEN in Hlim.
    destruct count as [|[|[|]]]; simplify_eq; lia. }
  destruct Hc2 as [Hc2 H64]. wstep. wstep. pose proof (lookup_total_u8 buf (Z.to_nat index) Hb) as Hu.
  set (m := buf !!! Z.to_nat index) in *. unfold is_u8 in Hu.
  wstep. apply wp_guard; [intros Hg|done]. zbool; [done|].
  wstep. apply wp_gets. cbn [fst]. rewrite (Hf count) by lia.
  wstep. apply wp_alloc_moved; [lia| |].
  2:{ intros h1 _ M1. split; [by apply (aliyun_loading_moved _ _ _ h)|done]. }
  intros block h1 Hlb _ M1. wstep. wstep. wstep. wstep. wstep.
  assert (Hlz : len (replicate (Z.to_nat (m + 1)) (u8 0) ++ drop (Z.to_nat (m + 1)) block) = m + 1).
  { unfold len in *. rewrite length_app, length_replicate, length_drop. lia. }
  wstep; [rewrite Hlz, len_slice; lia|]. wstep. apply wp_puts.
  assert (Hcopy : splice (replicate (Z.to_nat (m + 1)) (u8 0) ++ drop (Z.to_nat (m + 1)) block) 0
       (slice buf (index + 1) m) = slice buf (index + 1) m ++ [0]).
  { rewrite (drop_ge block), app_nil_r by (unfold len in Hlb; lia).
    change (u8 0) with 0. change (replicate (Z.to_nat (m + 1)) 0) with ([] ++ zeros (m + 1)).
    change 0 with (len []) at 1. rewrite splice_zeros, len_slice by (rewrite ?len_slice; lia).
    by replace (m + 1 - m) with 1 by lia. }
  rewrite Hcopy.
  destruct (aliyun_loading_set count l0 h0 l h h1 (slice buf (index + 1) m ++ [0])) as [Hal' Hf']; try done.
  apply IH; [lia|done|lia|exact Hf'|exact Hal'|].
  assert (Hz : 0 ∈ slice buf (index + 1) m ++ [0]) by (apply elem_of_app; right; by left).
  eapply lic_inv_set; [done|done|done|]. pose proof (len_cstr_le _ Hz) as Hle.
  rewrite len_app, len_slice in Hle by lia. change (len [0]) with 1 in Hle. lia.
Qed.

(** The status block leaks when the read fails, so the machine is only known up
    to one block. *)
Lemma wp_aliyun_init R l (h : hw C) :
  fresh 0 l -> lic_inv l ->
  wp ya_aliyun_para_init (fun _ st => lic_inv st.1 /\ exists k, moved k h st.2) R (l, h).
Proof.
  intros Hf Hli. unfold ya_aliyun_para_init. wstep. apply wp_gets. cbn [fst id].
  wstep; [|apply wp_ret; split; [done|exists 0; apply moved_refl]].
  unfold ya_read_parse_aliyun_cert. wstep. apply wp_alloc_moved; [lia| |].
  2:{ intros h1 _ M1. apply wp_ret. split; [done|by exists 0]. }
  intros b h1 Hlb Hbb M1. wstep. wstep. rewrite drop_ge, app_nil_r by (unfold len in Hlb; lia).
  assert (Hz : len (replicate (Z.to_nat 1024) (u8 0)) = 1024) by done.
  wstep. apply wp_read_var; [done|done|lia| |].
  - intros h2 M2. apply wp_ret. split; [done|].
    exists 1. exact (moved_trans _ _ _ _ _ M1 M2).
  - intros body n h2 Hn Hn' Hlb' Hbody M2. pose proof (moved_trans _ _ _ _ _ M1 M2) as M12.
    wstep; [apply wp_ret; split; [done|by exists (1 + 0)]|].
    wstep. eapply wp_mono; [apply (wp_aliyun_parse 4 0 _ 0 n R l h2 l h2)| |done].
    + by rewrite len_splice by lia.
    + apply is_bytes_splice; [apply Forall_replicate, u8_range|].
      rewrite Hbody. apply is_bytes_slice, is_bytes_nor_bytes.
    + lia.
    + lia.
    + lia.
    + done.
    + apply aliyun_loading_refl.
    + done.
    + intros o [l' h3] [[_ M3] Hl3]. cbn [fst snd] in *. wstep. apply wp_free_moved. intros h4 M4.
      apply wp_ret. split; [done|]. eexists.
      exact (moved_trans _ _ _ _ _ M12 (moved_trans _ _ _ _ _ M3 M4)).
Qed.
End Proofs.

(** Each pointer of a provisioned device is loaded; on an erased one the
    function fails. *)
Lemma aws_para_init_all_or_nothing_witness :
  exists r l' h', ya_aws_para_init (no_lic, boot) = Done r (l', h') /\
    (r = C_OK /\ aws_all l' = true \/ r = C_ERROR /\ aws_none l' = true).
Proof.
  destruct (aws_para_init_all_or_nothing no_lic boot) as (r & l' & h' & He & _ & _ & _ & Hr).
  exists r, l', h'. split; [exact He | exact Hr].
Defined.

(** ** Aliyun credentials *)

Definition field (s : bytes) : bytes := len s :: s.
(** The image a provisioning tool writes: three length-prefixed strings. *)
Definition aliyun_image (pk di se : bytes) : bytes := field pk ++ field di ++ field se.
Definition fits_limits (pk di se : bytes) : Prop :=
  len pk <= YA_PRODUCT_KEY_LEN /\ len di <= YA_DEVICE_ID_LEN /\ len se <= YA_DEVICE_SECRET_LEN.

Section Aliyun.
Context {C : Type} `{NorChipLaws C}.

Lemma len_field s : len (field s) = len s + 1.
Proof. unfold field. by rewrite len_cons. Qed.

(** One string of the scan, on the writer's and on the reader's side. *)
Lemma valid_step {S} fuel count limit buf a f c data_len (st : S * hw C) :
  buf = a ++ field f ++ c -> aliyun_limit count = Some limit -> len f <= limit ->
  len a < data_len ->
  aliyun_valid (Datatypes.S fuel) count buf (len a) data_len st =
  aliyun_valid fuel (Datatypes.S count) buf (len (a ++ field f)) data_len st.
Proof.
  intros Hb Hl Hf Hd. cbn [aliyun_valid]. destruct (Z.ltb_spec (len a) data_len); [|lia].
  cbn [negb]. rewrite Hl. erewrite bind_done by (by eapply rd_at; [exact Hb|]).
  destruct (Z.ltb_spec limit (len f)); [lia|]. rewrite len_app, len_field. by replace (len a + 1 + len f) with (len a + (len f + 1)) by lia.
Qed.
Lemma parse_step fuel count limit buf a f c read_len l (h : hw C) :
  buf = a ++ field f ++ c -> aliyun_limit count = Some limit -> len f <= limit ->
  len a < read_len -> slot_get (aliyun_slot count) l = None -> heap h = [] ->
  aliyun_parse (Datatypes.S fuel) count buf (len a) read_len (l, h) =
  aliyun_parse fuel (Datatypes.S count) buf (len (a ++ field f)) read_len
    (slot_set (aliyun_slot count) (Some (f ++ [0])) l, set_heap [] (live h + 1) h).
Proof.
  intros Hb Hl Hf Hd Hs Hheap. cbn [aliyun_parse]. destruct (Z.ltb_spec (len a) read_len); [|lia].
  cbn [negb]. rewrite Hl. erewrite bind_done by (by eapply rd_at; [exact Hb|]).
  pose proof (len_nonneg f). destruct (Z.ltb_spec limit (len f)); [lia|].
  unfold obind at 1. erewrite bind_done by reflexivity. cbn [negb].
  erewrite bind_done by reflexivity. cbn [fst]. rewrite Hs. unfold obind at 1.
  erewrite bind_done.
  2:{ unfold ya_hal_os_memory_alloc. rewrite Hheap. destruct (Z.eqb_spec (len f + 1) 0); [lia|reflexivity]. }
  cbn beta iota. erewrite bind_done.
  2:{ apply memset_ok. unfold len. rewrite length_replicate. lia. }
  rewrite drop_ge, app_nil_r by (by rewrite length_replicate).
  erewrite bind_done.
  2:{ apply (rdn_at buf (a ++ [len f]) f c); [|rewrite len_app; done|done].
      rewrite Hb, <- app_assoc. done. }
  change (replicate (Z.to_nat (len f + 1)) (u8 0)) with ([] ++ zeros (len f + 1)).
  erewrite bind_done by (apply memcpy_zeros; [done|lia]).
  replace (len f + 1 - len f) with 1 by lia. cbn [app].
  erewrite bind_done by reflexivity. rewrite len_app, len_field.
  by replace (len a + 1 + len f) with (len a + (len f + 1)) by lia.
Qed.

Lemma len_aliyun_image pk di se : len (aliyun_image pk di se) = len pk + 1 + (len di + 1 + (len se + 1)).
Proof. unfold aliyun_image. by rewrite !len_app, !len_field. Qed.
Lemma aliyun_valid_image {S} pk di se z (st : S * hw C) :
  fits_limits pk di se ->
  aliyun_valid 4 0 (aliyun_image pk di se ++ z) 0 (len (aliyun_image pk di se)) st = Done true st.
Proof.
  intros (Hp & Hd & Hs). pose proof (len_nonneg pk). pose proof (len_nonneg di). pose proof (len_nonneg se).
  pose proof (len_aliyun_image pk di se) as Hlen.
  change 0 with (len []) at 1.
  erewrite valid_step; [|unfold aliyun_image; by rewrite app_nil_l, <- app_assoc|reflexivity|done|change (len []) with 0; lia].
  erewrite valid_step; [|unfold aliyun_image; by rewrite app_nil_l, <- !app_assoc|reflexivity|done|
    rewrite app_nil_l, len_field; lia].
  erewrite (valid_step _ _ _ _ _ se z); [|unfold aliyun_image; by rewrite app_nil_l, <- !app_assoc
    |reflexivity|done|rewrite !len_app, !len_field; change (len []) with 0; lia].
  cbn [aliyun_valid]. rewrite !len_app, !len_field, Hlen. change (len []) with 0.
  destruct (Z.ltb_spec (0 + (len pk + 1) + (len di + 1) + (len se + 1))
    (len pk + 1 + (len di + 1 + (len se + 1)))); [lia|done].
Qed.

Lemma aliyun_parse_image pk di se z l (h : hw C) :
  fits_limits pk di se -> heap h = [] -> aliyun_blocks l = 0 ->
  aliyun_parse 4 0 (aliyun_image pk di se ++ z) 0 (len (aliyun_image pk di se)) (l, h) =
    Done (Some tt)
      (mkLic (aws_certificateBuff l) (aws_privateKeyBuff l) (aws_client_id l) (aws_thing_type l)
         (Some (pk ++ [0])) (Some (di ++ [0])) (Some (se ++ [0])), set_heap [] (live h + 3) h).
Proof.
  intros (Hp & Hd & Hs) Hheap Hl0. pose proof (len_nonneg pk). pose proof (len_nonneg di). pose proof (len_nonneg se).
  assert (Hlen : len (aliyun_image pk di se) = len pk + 1 + (len di + 1 + (len se + 1)))
    by (unfold aliyun_image; by rewrite !len_app, !len_field).
  destruct l as [? ? ? ? [|] [|] [|]]; try done.
  change 0 with (len []) at 1.
  erewrite parse_step; [|unfold aliyun_image; by rewrite app_nil_l, <- app_assoc|reflexivity|done|
    change (len []) with 0; lia|done|done].
  erewrite parse_step; [|unfold aliyun_image; by rewrite app_nil_l, <- !app_assoc|reflexivity|done|
    rewrite app_nil_l, len_field; lia|done|done].
  erewrite (parse_step _ _ _ _ _ se z); [|unfold aliyun_image; by rewrite app_nil_l, <- !app_assoc
    |reflexivity|done|rewrite !len_app, !len_field; change (len []) with 0; lia|done|done].
  cbn [aliyun_parse]. rewrite !len_app, !len_field, Hlen. change (len []) with 0.
  destruct (Z.ltb_spec (0 + (len pk + 1) + (len di + 1) + (len se + 1))
    (len pk + 1 + (len di + 1 + (len se + 1)))); [lia|].
  cbn. unfold set_heap. cbn. by replace (live h + 1 + 1 + 1) with (live h + 3) by lia.
Qed.

Lemma image_bytes pk di se : fits_limits pk di se -> is_bytes (pk ++ di ++ se) -> is_bytes (aliyun_image pk di se).
Proof.
  intros (Hp & Hd & Hs) Hb. apply is_bytes_app in Hb as [Hbp [Hbd Hbs]%is_bytes_app].
  pose proof (len_nonneg pk). pose proof (len_nonneg di). pose proof (len_nonneg se).
  unfold YA_PRODUCT_KEY_LEN, YA_DEVICE_ID_LEN, YA_DEVICE_SECRET_LEN in *.
  unfold aliyun_image, field. repeat (apply is_bytes_app; split); (constructor; [unfold is_u8; lia|done]).
Qed.
(** Writing a licence from the front of a buffer. *)
Lemma write_aliyun_image `{!NorReliable C} {S} (s : S) (h : hw C) pk di se z :
  fits_limits pk di se -> is_bytes (pk ++ di ++ se) -> is_bytes z -> heap h = [] ->
  exists c, ya_write_aliyun_cert (aliyun_image pk di se ++ z) (len (aliyun_image pk di se)) YA_LICENSE_ALIYUUN (s, h)
      = Done (if stale h =? 0 then C_OK else C_ERROR) (s, set_chip c h) /\ holds c YA_LICENSE_ALIYUUN (aliyun_image pk di se).
Proof.
  intros Hlim Hb Hz Hheap. pose proof (image_bytes pk di se Hlim Hb) as Hib. pose proof Hlim as (Hp & Hd & Hs).
  pose proof (len_nonneg pk). pose proof (len_nonneg di). pose proof (len_nonneg se). pose proof (len_nonneg z).
  pose proof (len_aliyun_image pk di se) as Hlen. unfold YA_PRODUCT_KEY_LEN, YA_DEVICE_ID_LEN, YA_DEVICE_SECRET_LEN in *.
  destruct (write_flash_spec YA_LICENSE_ALIYUUN (aliyun_image pk di se ++ z) (len (aliyun_image pk di se)) 1 s h)
    as (c' & Hw & Hh & _); try done; try lia; [rewrite len_app; lia|by apply is_bytes_app|].
  rewrite slice_app_l in Hh by done. exists c'. split; [|done].
  unfold ya_write_aliyun_cert. erewrite bind_done by (by apply aliyun_valid_image).
  cbn [negb]. unfold write_check. erewrite bind_done by exact Hw. done.
Qed.
(** A device without credentials finds them in flash. *)
Lemma aliyun_reload (l : lic) (h : hw C) pk di se :
  fits_limits pk di se -> is_bytes (pk ++ di ++ se) -> heap h = [] -> aliyun_blocks l = 0 ->
  holds (chip h) YA_LICENSE_ALIYUUN (aliyun_image pk di se) ->
  exists l' h', ya_aliyun_para_init (l, h) = Done C_OK (l', h') /\
      aliyun_productkey l' = Some (pk ++ [0]) /\ aliyun_deviceid l' = Some (di ++ [0]) /\
      aliyun_productsecret l' = Some (se ++ [0]) /\ aws_blocks l' = aws_blocks l /\
      live h' = live h + 3.
Proof.
  intros Hlim Hb Hheap Hl0 Hh. pose proof (image_bytes pk di se Hlim Hb) as Hib. pose proof Hlim as (Hp & Hd & Hs).
  pose proof (len_nonneg pk). pose proof (len_nonneg di). pose proof (len_nonneg se).
  pose proof (len_aliyun_image pk di se) as Hlen. unfold YA_PRODUCT_KEY_LEN, YA_DEVICE_ID_LEN, YA_DEVICE_SECRET_LEN in *.
  set (img := aliyun_image pk di se) in *.
  unfold ya_aliyun_para_init, ya_read_parse_aliyun_cert.
  erewrite bind_done by reflexivity. cbn [fst id].
  replace (present s_pkey l) with false by (by destruct l as [? ? ? ? [|] [|] [|]]). cbn [negb orb].
  erewrite bind_done by (unfold ya_hal_os_memory_alloc; rewrite Hheap; reflexivity).
  cbn beta iota. erewrite bind_done.
  2:{ apply memset_ok. unfold len. by rewrite length_replicate. }
  rewrite drop_ge, app_nil_r by (by rewrite length_replicate).
  change (replicate (Z.to_nat 1024) (u8 0)) with (zeros 1024).
  erewrite bind_done.
  2:{ apply (read_var_holds YA_LICENSE_ALIYUUN img); try done; try lia.
      change (len (zeros 1024)) with 1024. lia. }
  cbn beta iota. change (0 =? C_OK) with true. destruct (Z.eqb_spec (len img) 0); [lia|].
  cbn [negb orb]. replace (splice (zeros 1024) 0 img) with (img ++ drop (length img) (zeros 1024)) by done.
  erewrite bind_done by (by apply aliyun_parse_image).
  eexists _, _. split; [reflexivity|]. cbn. split; [done|]. split; [done|]. split; [done|].
  split; [by destruct l|]. lia.
Qed.
End Aliyun.

(** Aliyun credentials within the length limits survive provisioning and a
    reboot: after [ya_write_aliyun_cert] of the three length-prefixed strings,
    [ya_aliyun_para_init] on a device without credentials succeeds and leaves
    each pointer owning a block with exactly that string and its terminator.
    (The write reports what the flash HAL left in the return register.) *)
Theorem aliyun_license_roundtrip {C} `{NorChipLaws C, !NorReliable C} {S} (s : S) (h : hw C)
    (l : lic) (pk di se : bytes) :
  fits_limits pk di se -> is_bytes (pk ++ di ++ se) -> heap h = [] -> aliyun_blocks l = 0 ->
  exists h1, ya_write_aliyun_cert (aliyun_image pk di se) (len (aliyun_image pk di se))
      YA_LICENSE_ALIYUUN (s, h) = Done (if stale h =? 0 then C_OK else C_ERROR) (s, h1) /\
    forall hb, heap hb = [] -> chip hb = chip h1 ->
    exists l' hb', ya_aliyun_para_init (l, hb) = Done C_OK (l', hb') /\
      aliyun_productkey l' = Some (pk ++ [0]) /\ aliyun_deviceid l' = Some (di ++ [0]) /\
      aliyun_productsecret l' = Some (se ++ [0]) /\ aws_blocks l' = aws_blocks l /\
      live hb' = live hb + 3.
Proof.
  intros Hlim Hb Hheap Hl0.
  destruct (write_aliyun_image s h pk di se []) as (c & Hw & Hh); [done|done|constructor|done|].
  rewrite app_nil_r in Hw. exists (set_chip c h). split; [exact Hw|].
  intros hb Hhb Hcb. apply aliyun_reload; try done. by rewrite Hcb.
Qed.

Lemma aliyun_license_roundtrip_witness :
  exists h1, ya_write_aliyun_cert (aliyun_image (str "a1Key") (str "dev1") (str "s3cret")) 18
      YA_LICENSE_ALIYUUN (tt, boot) = Done C_OK (tt, h1) /\
    exists l' hb', ya_aliyun_para_init (no_lic, set_chip (chip h1) boot) = Done C_OK (l', hb') /\
      aliyun_productkey l' = Some (str "a1Key" ++ [0]).
Proof.
  destruct (aliyun_license_roundtrip tt boot no_lic (str "a1Key") (str "dev1") (str "s3cret"))
    as (h1 & Hw & Hr); [by vm_compute | evaluate | reflexivity | reflexivity |].
  exists h1. split; [exact Hw|].
  destruct (Hr (set_chip (chip h1) boot)) as (l' & hb' & He & Hk & _); [reflexivity..|].
  exists l', hb'. split; [exact He | exact Hk].
Defined.

(** On a device that was never provisioned, each licence probe
    ([ya_check_cn_license_exit]) fails and loses a 1024-byte block: the
    function returns on the failed read without freeing its buffer. *)
Theorem aliyun_probe_leaks {C} `{NorChipLaws C} (n : nat) (h : hw C) :
  heap h = [] -> nor_read (chip h) YA_LICENSE_ALIYUUN <> 0xAA ->
  exists h', for_each (replicate n tt) (fun _ => ya_check_cn_license_exit ;; ret tt) (no_lic, h)
      = Done tt (no_lic, h') /\ live h' = live h + Z.of_nat n.
Proof.
  intros Hheap Hm. revert h Hheap Hm. induction n as [|n IH]; intros h Hheap Hm.
  { exists h. split; [done|cbn; lia]. }
  assert (Hstep : ya_check_cn_license_exit (no_lic, h) = Done C_ERROR (no_lic, set_heap [] (live h + 1) h)).
  { unfold ya_check_cn_license_exit, ya_aliyun_para_init, ya_read_parse_aliyun_cert.
    erewrite bind_done by reflexivity. cbn [fst id present no_lic negb orb].
    change (negb (present s_pkey no_lic) || negb (present s_devid no_lic)
      || negb (present s_secret no_lic)) with true. cbn beta iota.
    erewrite bind_done by (unfold ya_hal_os_memory_alloc; rewrite Hheap; reflexivity).
    cbn beta iota. erewrite bind_done.
    2:{ apply memset_ok. unfold len. by rewrite length_replicate. }
    by erewrite bind_done by (by apply read_var_blank). }
  destruct (IH (set_heap [] (live h + 1) h)) as (h' & He & Hl); [done..|].
  exists h'. cbn [replicate for_each]. split; [|cbn in Hl; lia].
  unfold bind at 1 2. rewrite Hstep. exact He.
Qed.
Lemma aliyun_probe_leaks_witness :
  exists h', for_each (replicate 3 tt) (fun _ => ya_check_cn_license_exit ;; ret tt) (no_lic, boot)
      = Done tt (no_lic, h') /\ live h' = 3.
Proof.
  destruct (aliyun_probe_leaks 3 boot) as (h' & He & Hl); [reflexivity | by vm_compute |].
  exists h'. split; [exact He | exact Hl].
Defined.
