(* ===== verification/MainQueue.v ===== *)
(** * Posting to the main task

    The functions of [akeeta/app/src/ya_app_main.c] through which other tasks
    (UART, hardware keys, AT commands, the WLAN driver) ask the main task for
    something: each builds a message and sends it to the main queue. *)

From stdpp Require Import base numbers list strings.
From S2P Require Import Prelude Platform CommonFunc.

(** [ya_app_main_queue_type_t]. *)
Definition YA_SNIFFER_SUCCESS : Z := 0.
Definition YA_SNIFFER_FAIL : Z := 1.
Definition YA_AP_CONFIG_FAIL : Z := 2.
Definition YA_AP_CONFIG_SUCCESS : Z := 3.
Definition YA_CONNECT_SUCCESS : Z := 4.
Definition YA_CONNECT_FAIL : Z := 5.
Definition YA_LINK_LOST : Z := 6.
Definition YA_CHANGE_TOGGLE_MODE : Z := 7.
Definition YA_CHANGE_AP_MODE : Z := 8.
Definition YA_CHANGE_SNIFFER_MODE : Z := 9.
Definition YA_CHANGE_IDLE_NEXT_REBOOT : Z := 10.
Definition YA_SET_SCAN_RSSI : Z := 11.
Definition YA_SET_OTA_TEST : Z := 12.
Definition YA_FACTORY_MODE : Z := 13.

Section Post.
Context {C S : Type}.

(** A zeroed [msg_t] with its type set; -1 when the queue refuses it. *)
Definition post (type : Z) : P C S Z :=
  let* r := ya_hal_os_queue_send QMain (mkMsg 0 None type) in
  ret (if r =? 0 then 0 else -1).
Definition ya_set_ap_mode : P C S Z := post YA_CHANGE_AP_MODE.
Definition ya_set_sniffer_mode : P C S Z := post YA_CHANGE_SNIFFER_MODE.
Definition ya_set_idle_next_reboot : P C S Z := post YA_CHANGE_IDLE_NEXT_REBOOT.
Definition ya_reset_module_to_factory : P C S Z := post YA_FACTORY_MODE.

(** A message that carries a copy of a C string; the allocation is not checked,
    and a refused message keeps its block. *)
Definition post_string (type : Z) (s : bytes) : P C S Z :=
  let n := len (cstr s) + 1 in
  let* p := ya_hal_os_memory_alloc n in
  let* pbuf := deref p in
  let* pbuf := memset pbuf 0 n in
  let* pbuf := strcpy pbuf (cstr s ++ [0]) in
  let* r := ya_hal_os_queue_send QMain (mkMsg (u16 n) (Some pbuf) type) in
  ret (if r =? 0 then 0 else -1).
Definition ya_set_enter_ota_test_mode : bytes -> P C S Z := post_string YA_SET_OTA_TEST.
Definition ya_set_factory_rssi_info : bytes -> P C S Z := post_string YA_SET_SCAN_RSSI.

(** Events of the WLAN driver. *)
Inductive ya_hal_wlan_event_t :=
| YA_HAL_EVT_LINK_LOST | YA_HAL_EVT_STA_CONNECT_SUCCESS | YA_HAL_EVT_STA_CONNECT_FAILED
| YA_HAL_EVT_OTHER.
Definition ya_app_wlan_event_callback (event : ya_hal_wlan_event_t) : P C S Z :=
  match event with
  | YA_HAL_EVT_LINK_LOST => post YA_LINK_LOST ;; ret 0
  | YA_HAL_EVT_STA_CONNECT_SUCCESS => post YA_CONNECT_SUCCESS ;; ret 0
  | YA_HAL_EVT_STA_CONNECT_FAILED => post YA_CONNECT_FAIL ;; ret 0
  | YA_HAL_EVT_OTHER => ret (-1)
  end.
End Post.
