(* ===== verification/Cloud.v ===== *)
(** * The cloud connection: [akeeta/app/src/cloud.c] and [ya_hardware_translate.c]

    [cloud_conn] points to the connection of the cloud the device is bound to
    (Aliyun or AWS); messages to the cloud are JSON documents sent through it.
    What the two connection modules answer is an interface. *)

From stdpp Require Import base numbers list strings.
From S2P Require Import Prelude Platform CommonFunc CJson.

Definition WIFI_CN : Z := 0.
Definition WIFI_US : Z := 1.
Definition WIFI_EU : Z := 2.
Definition WIFI_MAX : Z := 3.

(** The connection modules: whether [aliyun_cloud_create] / [ya_aws_cloud_create]
    return a context, and the answers of that context's functions. *)
Class CloudEnv := {
  cloud_context : Z -> bool;
  start_cloud_status : Z -> Z;
  cloud_connected : Z -> Z;
  cloud_send_status : bytes -> Z;
  cloud_client_id : Z -> option bytes;
  cloud_thing_name : Z -> option bytes;
}.

Section Cloud.
Context {C S : Type} `{CloudEnv} `{JsonText}.
(** [cloud_conn]: NULL, or the context of a cloud type. *)
Abbreviation conn := (option Z).

(** [cloud_create]: the new value of [cloud_conn] and the status; an unknown
    type leaves the old context. *)
Definition cloud_create (cloud_conn : conn) (cloud_type : Z) : conn * Z :=
  let c := if cloud_type =? WIFI_CN then (if cloud_context WIFI_CN then Some WIFI_CN else None)
           else if (cloud_type =? WIFI_US) || (cloud_type =? WIFI_EU)
           then (if cloud_context cloud_type then Some cloud_type else None)
           else cloud_conn in
  (c, match c with Some _ => 0 | None => -1 end).
Definition cloud_start (cloud_conn : conn) : Z :=
  match cloud_conn with Some t => start_cloud_status t | None => -1 end.
Definition ya_get_client_id (cloud_conn : conn) : option bytes :=
  match cloud_conn with Some t => cloud_client_id t | None => None end.
Definition ya_get_thing_type (cloud_conn : conn) : option bytes :=
  match cloud_conn with Some t => cloud_thing_name t | None => None end.
Definition ya_get_cloud_status (cloud_conn : conn) : Z :=
  match cloud_conn with Some t => cloud_connected t | None => 0 end.

Definition cloud_report_msg (cloud_conn : conn) (data : bytes) : P C S Z :=
  match cloud_conn with
  | Some _ => emit (EvCloudMsg data) ;; ret (cloud_send_status data)
  | None => ret (-1)
  end.

(** [data = cJSON_PrintUnformatted(cmd); if (data) { report; free }] and
    [cJSON_Delete(cmd)]. *)
Definition report_printed (cloud_conn : conn) (print : P C S (option bytes)) : P C S unit :=
  let* p := print in
  match p with
  | Some data => cloud_report_msg cloud_conn data ;; ya_hal_os_memory_free
  | None => ret tt
  end ;;
  cJSON_Delete.
Definition report_document (cloud_conn : conn) (cmd : cJSON) : P C S unit :=
  report_printed cloud_conn (json_document cmd).

(** A string member; the value is a pointer that must not be NULL. *)
Definition member (key : string) (v : bytes) : cJSON :=
  Item (Some (str key)) cJSON_String (Some v) [].

Definition request_document : cJSON :=
  jroot [jstr "method" "thing.service.device.severtime.require"; jstr "property" "time"].
Definition cloud_request_server_timer (cloud_conn : conn) : P C S Z :=
  let* cmd := cJSON_CreateObject in
  match cmd with
  | None => ret (-1)
  | Some _ => report_document cloud_conn request_document ;; ret 0
  end.
Definition ya_thing_request_server_timer := cloud_request_server_timer.

Definition ya_cloud_unregister (cloud_conn : conn) : P C S Z :=
  let* cmd := cJSON_CreateObject in
  match cmd with
  | None => ret (-1)
  | Some _ =>
    let* property := cJSON_CreateObject in
    match property with
    | None => cJSON_Delete ;; ret (-1)
    | Some _ =>
      cJSON_AddItemToObject ;;
      let* ty := deref (ya_get_thing_type cloud_conn) in
      let* id := deref (ya_get_client_id cloud_conn) in
      report_document cloud_conn
        (jroot [jstr "method" "thing.service.single.device.unregister";
                jobj "property" [jstr "unregister" "1"];
                member "productKey" (cstr ty); member "deviceName" (cstr id)]) ;;
      ret 0
    end
  end.

(** [ya_thing_report_to_cloud]: wrap a property document for the cloud. *)
Definition ya_thing_report_to_cloud (cloud_conn : conn) (buf : bytes) : P C S Z :=
  let* cmd := cJSON_CreateObject in
  match cmd with
  | None => ret (-1)
  | Some _ =>
    let* property := json_parse buf in
    match property with
    | None => cJSON_Delete ;; ret (-1)
    | Some property =>
      let* method := json_build (jstr "method" "thing.service.device.property.report") in
      let* property := json_name (Some (str "property")) property in
      cJSON_AddItemToObject ;;
      report_printed cloud_conn (json_print (jroot (option_list method ++ [property]))) ;;
      ret 0
    end
  end.

(** [ya_cloud_to_thing_translate]: hand the "property" object, as text, to the
    product's [ya_thing_handle_downlink_data]. *)
Definition ya_cloud_to_thing_translate (downlink : bytes -> Z -> P C S unit) (buf : bytes) : P C S Z :=
  let* cmd := json_parse buf in
  match cmd with
  | None => ret (-1)
  | Some cmd =>
    match cJSON_GetObjectItem cmd (str "property") with
    | None => cJSON_Delete ;; ret (-1)
    | Some property =>
      let* data := json_print property in
      match data with
      | Some data => downlink (data ++ [0]) (u16 (len data)) ;; ya_hal_os_memory_free
      | None => ret tt
      end ;;
      cJSON_Delete ;;
      ret 0
    end
  end.
End Cloud.

(** ** Reports do not leak *)
(** The machine moved by [n] heap blocks and sent messages to the cloud. *)
Definition talked {C} (n : Z) (h h' : hw C) : Prop :=
  exists msgs, h' = set_heap (heap h') (live h + n) (foldr log h (EvCloudMsg <$> msgs)) /\
    (heap h = [] -> heap h' = []).

Section Proofs.
Context {C S : Type} `{CloudEnv} `{JsonText}.
Implicit Types (s : S) (h : hw C).

(** Sending a printed document leaves at most cloud messages behind, and frees it. *)
Lemma wp_report_printed conn o (print : P C S (option bytes)) Q R s h :
  heap h = [] -> print (s, h) = json_take o (s, h) ->
  (forall h' msgs, h' = set_heap (heap h) (live h - 1) (foldr log h (EvCloudMsg <$> msgs)) ->
     (conn = None -> msgs = []) -> Q tt (s, h')) ->
  wp (report_printed conn print) Q R (s, h).
Proof.
  intros Hh Hp HQ. unfold report_printed. wstep. destruct o as [t|].
  - eapply wp_done; [by rewrite Hp; apply take_spare|]. cbn beta iota. wstep. unfold cloud_report_msg. wstep.
    destruct conn as [ty|].
    + wstep. apply wp_upd_hw. apply wp_ret. apply wp_upd_hw. apply wp_upd_hw.
      apply (HQ _ [t]); [|done]. unfold log, set_heap. cbn. do 2 f_equal. lia.
    + apply wp_ret. apply wp_upd_hw. apply wp_upd_hw. apply (HQ _ []); [|done].
      unfold set_heap. cbn. f_equal. lia.
  - eapply wp_done; [exact Hp|]. wstep. apply wp_ret. apply wp_upd_hw. by apply (HQ _ []).
Qed.
Lemma wp_report_document conn cmd Q R s h :
  heap h = [] -> printable cmd = true ->
  (forall h' msgs, h' = set_heap (heap h) (live h - 1) (foldr log h (EvCloudMsg <$> msgs)) ->
     (conn = None -> msgs = []) -> Q tt (s, h')) ->
  wp (report_document conn cmd) Q R (s, h).
Proof. intros Hh Hp. eapply wp_report_printed; [done|]. by apply document_spare. Qed.
Lemma log_fields (evs : list event) h :
  let h' := foldr log h evs in
  chip h' = chip h /\ heap h' = heap h /\ live h' = live h /\ queues h' = queues h /\
  junk h' = junk h /\ stale h' = stale h /\ ticks h' = ticks h /\ trace h' = evs ++ trace h.
Proof. cbn zeta. induction evs as [|e evs IH]; [done|]. destruct IH as (?&?&?&?&?&?&?&E). cbn. by rewrite E. Qed.
Lemma log_set_heap (evs : list event) hp n h : foldr log (set_heap hp n h) evs = set_heap hp n (foldr log h evs).
Proof. induction evs as [|e evs IH]; [done|]. cbn. by rewrite IH. Qed.
Lemma talked_moved n h h' : moved n h h' -> talked n h h'.
Proof. intros [E Hp]. by exists []. Qed.
Lemma talked_trans n m h h1 h2 : talked n h h1 -> talked m h1 h2 -> talked (n + m) h h2.
Proof.
  intros (m1&E1&P1) (m2&E2&P2). exists (m2 ++ m1). split; [|auto].
  rewrite E2, E1. rewrite fmap_app, foldr_app, log_set_heap. cbn. by rewrite Z.add_assoc.
Qed.
Lemma talked_eq n m h h' : talked n h h' -> n = m -> talked m h h'.
Proof. by intros ? <-. Qed.
Lemma talked_fields n h h' : talked n h h' ->
  live h' = live h + n /\ queues h' = queues h /\ chip h' = chip h /\ (heap h = [] -> heap h' = []) /\
  exists msgs, trace h' = (EvCloudMsg <$> msgs) ++ trace h.
Proof.
  intros (msgs&E&Hp). destruct (log_fields (EvCloudMsg <$> msgs) h) as (Ec&_&_&Eq&_&_&_&Et).
  split_and!; try done; [rewrite E; done..|]. exists msgs. rewrite E. cbn. done.
Qed.
Lemma wp_talk_create Q R s h :
  (forall (o : option unit) h', talked (if o then 1 else 0) h h' -> Q o (s, h')) -> wp cJSON_CreateObject Q R (s, h).
Proof.
  intros HQ. unfold cJSON_CreateObject. wstep. apply wp_alloc_moved; [lia| |].
  - intros b h1 _ _ M. apply wp_ret, HQ. by apply talked_moved.
  - intros h1 _ M. apply wp_ret, HQ. by apply talked_moved.
Qed.
Lemma talked_blocks n h : talked n h (set_heap (heap h) (live h + n) h).
Proof. by apply talked_moved. Qed.
Lemma wp_talk_printed conn o print Q R s h : heap h = [] -> print (s, h) = json_take o (s, h) ->
  (forall h', talked (-1) h h' -> Q tt (s, h')) -> wp (report_printed conn print) Q R (s, h).
Proof. intros Hh Hp HQ. eapply wp_report_printed; [done|exact Hp|]. intros h' msgs -> _. apply HQ. by exists msgs. Qed.
Lemma wp_talk_document conn cmd Q R s h : heap h = [] -> printable cmd = true ->
  (forall h', talked (-1) h h' -> Q tt (s, h')) -> wp (report_document conn cmd) Q R (s, h).
Proof. intros Hh Hp. eapply wp_talk_printed; [done|]. by apply document_spare. Qed.
Lemma wp_talk_take {A} (o : option A) Q R s h : heap h = [] ->
  (forall h', talked (if o then 1 else 0) h h' -> Q o (s, h')) -> wp (json_take o) Q R (s, h).
Proof. intros Hh HQ. apply wp_take; [|done]. intros h' M. apply HQ. by apply talked_moved. Qed.
(** When the copy of a text is refused, the item is added without its text, and the
    printer reads through NULL: taking the device off the cloud is not safe when
    memory runs short. *)
Lemma unregister_low_memory conn ty id s h :
  ya_get_thing_type conn = Some ty -> ya_get_client_id conn = Some id -> heap h = [true; true; true; false] ->
  ya_cloud_unregister conn (s, h) = Fault NullDeref.
Proof.
  intros Ht Hi Hh. unfold ya_cloud_unregister, cJSON_CreateObject, ya_hal_os_memory_alloc, bind. cbn [Z.eqb]. rewrite Hh. cbn. rewrite Ht. cbn. rewrite Hi. done.
Qed.
End Proofs.
