(* ===== verification/Uart.v ===== *)
(** * The factory UART protocol: [akeeta/app/src/ya_uart_app.c]

    Frames [55 AA ver cmd lenH lenL data checksum] let a factory tool reset the
    module, choose the configuration mode, read and set the MAC address, and
    write and read back the credentials in 512-byte sub-frames.  A second path
    sends queued frames out, optionally waiting for a reply. *)

From stdpp Require Import base numbers list strings.
From S2P Require Import Prelude Platform SpiFlash Flash CommonFunc HalTimer License MainQueue.

Definition MAX_CERT_BUF_LEN : Z := 3 * 1024.
Definition UART_RETRY_NUM : Z := 3.
Definition UART_RETRY_INTERVAL : Z := 1000.
Definition UART_MAX_FRAME_LEN : Z := 540.
Definition UART_HEADER_LEN : Z := 4.
Definition UART_HEADER_WITH_LEN : Z := 6.
Definition UART_WITHOUT_REPLY : Z := 0.
Definition UART_WITH_REPLY : Z := 1.

Definition CMD_RESET_WIFI : Z := 0x03.
Definition CMD_RESET_WIFE_CONFIG : Z := 0x04.
Definition CMD_GET_MAC : Z := 0xF0.
Definition CMD_WRITE_CERT : Z := 0xF1.
Definition CMD_READBACK_CERT : Z := 0xF2.
Definition CMD_SET_MAC : Z := 0xF3.

(** ** Checksums *)

Definition sum_bytes (l : bytes) : Z := foldr Z.add 0 l.
(** [get_checksum(buf, len)]: a 32-bit sum, reduced modulo 256. *)
Definition get_checksum {T} (buf : bytes) (n : Z) : M T Z :=
  let* l := rdn buf 0 n in ret (u32 (sum_bytes l) mod 256).

(** One bit, one byte, a message: CRC-16/CCITT. *)
Definition crc_bit (crc : Z) : Z :=
  if negb (Z.land crc 0x8000 =? 0) then u16 (Z.lxor (Z.shiftl crc 1) 0x1021) else u16 (Z.shiftl crc 1).
Definition crc_byte (crc b : Z) : Z :=
  Nat.iter 8 crc_bit (u16 (Z.lxor crc (Z.shiftl b 8))).
Definition crc_check (msg : bytes) : Z := foldl crc_byte 0xFFFF msg.

(** ** State *)

(** The module's radio address as the tool sees it, and the serial port. *)
Class UartEnv := {
  wlan_mac : bytes;
  ya_hal_wlan_set_mac_address : bytes -> Z;
  (** number of bytes [ya_hal_uart_write] reports sent *)
  uart_write_status : bytes -> Z;
}.

(** [cert_buffer], the static [read_data_len] of [read_certificate], and
    [tx_buf]. *)
Record ustate := mkUs { cert_buffer : option bytes; read_data_len : Z; tx_buf : bytes }.
Definition set_cert (b : option bytes) (s : ustate) : ustate := mkUs b (read_data_len s) (tx_buf s).
Definition set_rdl (n : Z) (s : ustate) : ustate := mkUs (cert_buffer s) n (tx_buf s).
Definition set_tx (b : bytes) (s : ustate) : ustate := mkUs (cert_buffer s) (read_data_len s) b.

Section Certificates.
Context {C : Type} `{NorChip C} `{CertCheck}.
Abbreviation PU := (P C ustate).

(** [if (cert_buffer) { free(cert_buffer); cert_buffer = NULL; }] *)
Definition drop_cert : PU unit :=
  let* c := gets cert_buffer in
  match c with
  | Some _ => ya_hal_os_memory_free ;; puts (set_cert None)
  | None => ret tt
  end.

(** The last sub-frame of a certificate or key: check the trailing CRC against
    what was written.  [None] is [goto err].  The log prints the buffer as a text. *)
Definition finish_certificate (sub_cmd eff idx : Z) : PU (option unit) :=
  let* c := gets cert_buffer in
  let* cert := deref c in
  let* _ := text_at cert in
  let cert_len := u32 (eff + idx * 512) in
  let* c1 := rd cert (u32 (cert_len - 2)) in
  let* c2 := rd cert (u32 (cert_len - 1)) in
  let crc_get := u16 (Z.shiftl c1 8 + c2) in
  let flash_addr := if sub_cmd =? 1 then YA_LICENSE_DEVICE_CERT_ADDR
                    else YA_LICENSE_DEVICE_RSA_PRIVATE_KEY_ADDR in
  let* '(r, cert) :=
    if sub_cmd =? 1 then ya_write_check_aws_para_device_cert cert (u16 (cert_len - 2)) flash_addr
    else ya_write_check_aws_para_device_rsa_private_key cert (u16 (cert_len - 2)) flash_addr in
  puts (set_cert (Some cert)) ;;
  let? _ := guard (r =? 0) in
  let* '(r, cert, read_cert_len) := ya_read_flash_with_var_len flash_addr cert MAX_CERT_BUF_LEN 1 in
  puts (set_cert (Some cert)) ;;
  let? _ := guard (r =? 0) in
  let? _ := guard (read_cert_len =? u32 (cert_len - 2)) in
  let* body := rdn cert 0 read_cert_len in
  let? _ := guard (crc_check body =? crc_get) in
  drop_cert ;;
  ret (Some tt).

(** One sub-frame of a certificate or key. *)
Definition write_cert_frame (sub_cmd : Z) (buf : bytes) (dataLen totalFrame idx : Z)
  : PU (option unit) :=
  let eff := dataLen - 4 in
  (if idx =? 0 then
     let* c := gets cert_buffer in
     let* p := match c with Some b => ret (Some b) | None => ya_hal_os_memory_alloc MAX_CERT_BUF_LEN end in
     let* b := deref p in
     let* b := memset b 0 MAX_CERT_BUF_LEN in
     puts (set_cert (Some b))
   else ret tt) ;;
  let? cert := gets cert_buffer in
  let* src := rdn buf 10 eff in
  let* cert := memcpy cert (idx * 512) src in
  puts (set_cert (Some cert)) ;;
  if idx + 1 =? totalFrame then finish_certificate sub_cmd eff idx
  else guard (negb (totalFrame <? idx + 1)).

Definition write_certificate (buf : bytes) (dataLen : Z) : PU Z :=
  let* sub_cmd := rd buf 7 in
  let* totalFrame := rd buf 8 in
  let* idx := rd buf 9 in
  let* ok :=
    if (sub_cmd =? 1) || (sub_cmd =? 2) then write_cert_frame sub_cmd buf dataLen totalFrame idx
    else if sub_cmd =? 3 then
      ya_write_check_aws_para_device_id (drop 8 buf) (u16 (dataLen - 2)) YA_LICENSE_DEVICE_ID_ADDR ;;
      ret (Some tt)
    else if sub_cmd =? 4 then
      ya_write_check_aws_para_thing_type (drop 8 buf) (u16 (dataLen - 2)) YA_LICENSE_THING_TYPE_ADDR ;;
      ret (Some tt)
    else ret None in
  match ok with
  | Some _ => ret 1
  | None => drop_cert ;; ret 0
  end.

(** [tmp_len] byte-swapped, stored little-endian. *)
Definition swap16 (v : Z) : Z := u16 (Z.lor (Z.shiftr v 8) (Z.shiftl v 8)).
Definition le16 (v : Z) : bytes := [u8 v; u8 (Z.shiftr v 8)].
Definition be_len (v : Z) : bytes := le16 (swap16 (u16 v)).

(** [tx_buf[frame_len - 1] = get_checksum(tx_buf, frame_len - 1)]. *)
Definition put_checksum (tx : bytes) (frame_len : Z) : PU bytes :=
  let* c := get_checksum tx (frame_len - 1) in
  wr tx (frame_len - 1) c.

(** Load the record on the first sub-frame; later ones need it loaded. *)
Definition readback_load (flash_addr idx : Z) : PU (option unit) :=
  let* c := gets cert_buffer in
  if idx =? 0 then
    let* p := match c with Some b => ret (Some b) | None => ya_hal_os_memory_alloc MAX_RSA_LEN end in
    puts (set_cert p) ;;
    let? b := ret p in
    let* b := memset b 0 MAX_RSA_LEN in
    let* '(r, b, n) := ya_read_flash_with_var_len flash_addr b MAX_RSA_LEN 1 in
    puts (set_cert (Some b)) ;;
    puts (set_rdl (if r =? 0 then n else 0)) ;;
    let? _ := guard (r =? 0) in
    let* _ := text_at b in
    ret (Some tt)
  else ret (match c with Some _ => Some tt | None => None end).

(** Build the reply for sub-frame [idx] of the loaded record. *)
Definition send_cert_frame (idx : Z) : PU (option Z) :=
  let* n := gets read_data_len in
  let total_frame := u8 (if n mod 512 =? 0 then n / 512 else n / 512 + 1) in
  if total_frame <? idx + 1 then ret None
  else
    let data_len := if idx + 1 =? total_frame then n mod 512 else 512 in
    let* tx := gets tx_buf in
    let* tx := memcpy tx 4 (be_len (data_len + 4)) in
    let* tx := wr tx 8 total_frame in
    let* tx := wr tx 9 idx in
    let* c := gets cert_buffer in
    let* cert := deref c in
    let* src := rdn cert (idx * 512) data_len in
    let* tx := memcpy tx 10 src in
    let frame_len := u16 (data_len + 10 + 1) in
    let* tx := put_checksum tx frame_len in
    puts (set_tx tx) ;;
    (if idx + 1 =? total_frame then drop_cert ;; puts (set_rdl 0) else ret tt) ;;
    ret (Some frame_len).
Definition read_cert_frame (flash_addr idx : Z) : PU (option Z) :=
  let? _ := readback_load flash_addr idx in
  send_cert_frame idx.

(** Client id and thing type: one frame each. *)
Definition read_small_frame (flash_addr : Z) : PU (option Z) :=
  let* tx := gets tx_buf in
  let* '(r, tail, data_len) := ya_read_flash_with_var_len flash_addr (drop 8 tx) 128 1 in
  let tx := take 8 tx ++ tail in
  puts (set_tx tx) ;;
  let? _ := guard (r =? 0) in
  let* tx := memcpy tx 4 (be_len (data_len + 2)) in
  let frame_len := u16 (data_len + 8 + 1) in
  let* tx := put_checksum tx frame_len in
  puts (set_tx tx) ;;
  ret (Some frame_len).

(** The length of the reply in [tx_buf], 0 for none. *)
Definition read_certificate (rx : bytes) (sub_cmd : Z) : PU Z :=
  let* ok :=
    if (sub_cmd =? 1) || (sub_cmd =? 2) then
      let* idx := rd rx 8 in
      read_cert_frame (if sub_cmd =? 1 then YA_LICENSE_DEVICE_CERT_ADDR
                       else YA_LICENSE_DEVICE_RSA_PRIVATE_KEY_ADDR) idx
    else if (sub_cmd =? 3) || (sub_cmd =? 4) then
      read_small_frame (if sub_cmd =? 3 then YA_LICENSE_DEVICE_ID_ADDR else YA_LICENSE_THING_TYPE_ADDR)
    else ret (Some 0) in
  match ok with
  | Some n => ret n
  | None => puts (set_rdl 0) ;; drop_cert ;; ret 0
  end.
End Certificates.

(** ** Frame handler *)
Section Frames.
Context {C : Type} `{NorChip C} `{CertCheck} `{UartEnv}.
Abbreviation PU := (P C ustate).

(** [ya_hal_uart_write(buf, len)]. *)
Definition ya_hal_uart_write {S} (buf : bytes) (n : Z) : P C S Z :=
  let* frame := rdn buf 0 n in
  emit (EvUartTx frame) ;;
  ret (uart_write_status frame).

(** Start a reply: the first [n] bytes of the request, then the length. *)
Definition reply_head (buf : bytes) (n reply_len : Z) : PU bytes :=
  let* tx := gets tx_buf in
  let* src := rdn buf 0 n in
  let* tx := memcpy tx 0 src in
  let* tx := wr tx 4 0 in
  wr tx 5 reply_len.
(** Close it with its checksum at [pos]; the reply is [pos + 1] bytes. *)
Definition reply_close (tx : bytes) (pos : Z) : PU Z :=
  let* c := get_checksum tx pos in
  let* tx := wr tx pos c in
  puts (set_tx tx) ;;
  ret (pos + 1).

Definition on_reset (buf : bytes) : PU Z :=
  let* tx := reply_head buf UART_HEADER_LEN 0 in
  let* n := reply_close tx UART_HEADER_WITH_LEN in
  ya_reset_module_to_factory ;;
  ret n.
Definition on_reset_config (buf : bytes) : PU Z :=
  let* tx := reply_head buf UART_HEADER_LEN 0 in
  let* n := reply_close tx UART_HEADER_WITH_LEN in
  let* d := rd buf 6 in
  (if d =? 0 then ya_set_sniffer_mode else ya_set_ap_mode) ;;
  ret n.
Definition on_get_mac (buf : bytes) : PU Z :=
  let* tx := reply_head buf UART_HEADER_LEN 6 in
  let* tx := memcpy tx 6 wlan_mac in
  reply_close tx (UART_HEADER_WITH_LEN + 6).
Definition on_set_mac (buf : bytes) (buf_len : Z) : PU Z :=
  let* tx := reply_head buf UART_HEADER_LEN 1 in
  let* tx :=
    if 6 + 1 + 6 <=? buf_len then
      let* mac := rdn buf 6 6 in
      if negb (ya_hal_wlan_set_mac_address mac =? 0) then wr tx 6 0 else wr tx 6 1
    else wr tx 6 0 in
  reply_close tx (UART_HEADER_WITH_LEN + 1).
Definition on_write_cert (buf : bytes) (buf_len : Z) : PU Z :=
  let* ty := rd buf 6 in
  if ty =? 1 then
    let* sub_cmd := rd buf 7 in
    let* r := write_certificate buf (buf_len - UART_HEADER_WITH_LEN - 1) in
    if (sub_cmd =? 3) || (sub_cmd =? 4) then
      let* tx := reply_head buf 10 3 in
      let* tx := wr tx 8 r in
      reply_close tx 9
    else
      let* tx := reply_head buf 10 5 in
      let* tx := wr tx 10 r in
      reply_close tx 11
  else if ty =? 2 then
    let* r := ya_write_aliyun_cert (drop 7 buf) (u16 (buf_len - UART_HEADER_WITH_LEN - 1 - 1))
                YA_LICENSE_ALIYUUN in
    let* tx := reply_head buf UART_HEADER_LEN 2 in
    let* tx := wr tx 6 2 in
    let* tx := wr tx 7 (if negb (r =? 0) then 0 else 1) in
    reply_close tx 8
  else ret 0.
(** [None]: the early [return] on an allocation failure. *)
Definition on_read_cert (buf : bytes) : PU (option Z) :=
  let* sub_cmd := rd buf 7 in
  let* ty := rd buf 6 in
  if ty =? 1 then
    let* tx := gets tx_buf in
    let* src := rdn buf 0 8 in
    let* tx := memcpy tx 0 src in
    puts (set_tx tx) ;;
    let* n := read_certificate buf sub_cmd in
    ret (Some n)
  else if ty =? 2 then
    let? buf_cert := ya_hal_os_memory_alloc 128 in
    let* '(r, buf_cert, cert_len) := ya_read_aliyun_cert buf_cert 128 YA_LICENSE_ALIYUUN in
    let* n :=
      if r =? 0 then
        let* tx := reply_head buf UART_HEADER_LEN (cert_len + 1) in
        let* tx := wr tx 6 2 in
        let* src := rdn buf_cert 0 cert_len in
        let* tx := memcpy tx 7 src in
        reply_close tx (7 + cert_len)
      else ret 0 in
    ya_hal_os_memory_free ;;
    ret (Some n)
  else ret (Some 0).

Definition ya_handle_uart_data (buf : bytes) (buf_len : Z) : PU unit :=
  let* crc := get_checksum buf (buf_len - 1) in
  let* last := rd buf (buf_len - 1) in
  if negb (crc =? last) then ret tt
  else
    let* cmd := rd buf 3 in
    let* n :=
      if cmd =? CMD_RESET_WIFI then let* n := on_reset buf in ret (Some n)
      else if cmd =? CMD_RESET_WIFE_CONFIG then let* n := on_reset_config buf in ret (Some n)
      else if cmd =? CMD_GET_MAC then let* n := on_get_mac buf in ret (Some n)
      else if cmd =? CMD_SET_MAC then let* n := on_set_mac buf buf_len in ret (Some n)
      else if cmd =? CMD_WRITE_CERT then let* n := on_write_cert buf buf_len in ret (Some n)
      else if cmd =? CMD_READBACK_CERT then on_read_cert buf
      else ret (Some 0) in
    match n with
    | None => ret tt
    | Some n =>
      if negb (n =? 0) then
        let* tx := gets tx_buf in
        ya_hal_uart_write tx n ;; ret tt
      else ret tt
    end.
End Frames.

(** ** Sending *)
Section Sending.
Context {C S : Type}.
(** The allocation is not checked before [memset]. *)
Definition ya_handle_uart_msg_send_to_queue (data : bytes) (data_len reply_flag : Z) : P C S Z :=
  let* p := ya_hal_os_memory_alloc data_len in
  let* buf := deref p in
  let* buf := memset buf 0 data_len in
  let* src := rdn data 0 data_len in
  let* buf := memcpy buf 0 src in
  let type := if reply_flag =? 0 then UART_WITHOUT_REPLY else UART_WITH_REPLY in
  let* r := ya_hal_os_queue_send QUart (mkMsg data_len (Some buf) type) in
  if negb (r =? 0) then ya_hal_os_memory_free ;; ret (-1) else ret 0.

(** The frame built here is [pos + 1] bytes long, but its checksum covers
    [pos - 1] bytes and [pos] bytes are queued; [buf] is not freed. *)
Definition ya_handle_uart_body_send_to_queue (cmd : Z) (data : bytes) (data_len : Z) : P C S Z :=
  let* p := ya_hal_os_memory_alloc (data_len + UART_HEADER_WITH_LEN + 1) in
  match p with
  | None => ret (-1)
  | Some buf =>
    let* buf := memcpy buf 0 [0x55; 0xAA; 0x00; u8 cmd; u8 (Z.shiftr (Z.land data_len 0xFF00) 8);
                              u8 (Z.land data_len 0x00FF)] in
    let* src := rdn data 0 data_len in
    let* buf := memcpy buf 6 src in
    let pos := u16 (6 + data_len) in
    let* c := get_checksum buf (pos - 1) in
    let* buf := wr buf pos c in
    ya_handle_uart_msg_send_to_queue buf pos UART_WITHOUT_REPLY
  end.
End Sending.

(** ** The task *)

(** [msg.addr]: NULL, a block it owns, or a block already freed. *)
Inductive pointer := PNull | POwned (b : bytes) | PFreed.
(** The globals and the locals of [ya_uart_app]; [cur_requeire_cmd] is 0 and
    never assigned. *)
Record uapp := mkUapp {
  ua_us : ustate; rx_buf : bytes; queue_rece_enable : bool; count : Z;
  resend_timer : Ya_Timer; msg_addr : pointer; msg_len : Z }.

Section Task.
Context {C : Type} `{NorChip C} `{CertCheck} `{UartEnv}.
Abbreviation PA := (P C uapp).

Definition lift_us {A} (m : P C ustate A) : PA A :=
  zoom_s ua_us (fun u s => mkUapp u (rx_buf s) (queue_rece_enable s) (count s) (resend_timer s)
                             (msg_addr s) (msg_len s)) m.
Definition set_rx (b : bytes) (s : uapp) : uapp :=
  mkUapp (ua_us s) b (queue_rece_enable s) (count s) (resend_timer s) (msg_addr s) (msg_len s).
Definition set_wait (enable : bool) (n : Z) (s : uapp) : uapp :=
  mkUapp (ua_us s) (rx_buf s) enable n (resend_timer s) (msg_addr s) (msg_len s).
Definition set_msg (a : pointer) (n : Z) (s : uapp) : uapp :=
  mkUapp (ua_us s) (rx_buf s) (queue_rece_enable s) (count s) (resend_timer s) a n.
Definition set_timer (t : Ya_Timer) (s : uapp) : uapp :=
  mkUapp (ua_us s) (rx_buf s) (queue_rece_enable s) (count s) t (msg_addr s) (msg_len s).

(** [if (msg.addr) ya_hal_os_memory_free(msg.addr);] *)
Definition free_msg : PA unit :=
  let* a := gets msg_addr in
  match a with
  | PNull => ret tt
  | POwned _ => ya_hal_os_memory_free ;; puts (fun s => set_msg PFreed (msg_len s) s)
  | PFreed => fail BadFree
  end.
(** [ya_hal_uart_write(msg.addr, msg.len)]. *)
Definition write_msg : PA Z :=
  let* s := gets id in
  match msg_addr s with
  | POwned b => ya_hal_uart_write b (msg_len s)
  | _ => fail NullDeref
  end.

(** [ya_hal_uart_recv(rx_buf + off, n, _)]: the port delivers [got], at most
    [n] bytes. *)
Definition uart_recv (off n : Z) (got : bytes) : PA Z :=
  let got := take (Z.to_nat n) got in
  let* b := gets rx_buf in
  let* b := memcpy b off got in
  puts (set_rx b) ;;
  ret (len got).

(** A frame, if one arrived: [hdr] and [body] are what the two reads deliver. *)
Definition uart_rx (hdr body : bytes) : PA unit :=
  let* n := uart_recv 0 UART_HEADER_WITH_LEN hdr in
  if negb (n =? UART_HEADER_WITH_LEN) then ret tt
  else
    let* b := gets rx_buf in
    let* h := rdn b 0 6 in
    if negb ((h !!! 0%nat =? 0x55) && (h !!! 1%nat =? 0xAA)) then ret tt
    else
      let mlen := u16 (u16 (Z.shiftl (h !!! 4%nat) 8) + (h !!! 5%nat)) in
      if negb (mlen <? UART_MAX_FRAME_LEN) then ret tt
      else
        let* n := uart_recv UART_HEADER_WITH_LEN (mlen + 1) body in
        if negb (n =? mlen + 1) then ret tt
        else
          let* b := gets rx_buf in
          lift_us (ya_handle_uart_data b (UART_HEADER_WITH_LEN + mlen + 1)) ;;
          let* s := gets id in
          let* cmd := rd b 3 in
          if queue_rece_enable s && (cmd =? 0)
          then puts (set_wait true 0) ;; free_msg
          else ret tt.

(** A queued frame, when none is waiting for its reply. *)
Definition uart_tx (tick : Z) : PA unit :=
  let* s := gets id in
  if negb (queue_rece_enable s) then ret tt
  else
    puts (set_msg PNull 0) ;;
    let* o := ya_hal_os_queue_recv QUart in
    match o with
    | None => ret tt
    | Some m =>
      puts (set_msg (match m_addr m with Some b => POwned b | None => PNull end) (m_len m)) ;;
      if m_type m =? UART_WITH_REPLY then
        puts (set_wait false 0) ;;
        let* r := write_msg in
        if r =? m_len m
        then puts (fun s => set_timer (ya_countdown_ms tick (resend_timer s) UART_RETRY_INTERVAL) s)
        else ret tt
      else if m_type m =? UART_WITHOUT_REPLY then
        puts (fun s => set_wait true (count s) s) ;;
        write_msg ;;
        free_msg
      else free_msg
    end.

(** Resending the frame that waits, up to [UART_RETRY_NUM] times. *)
Definition uart_retry (tick : Z) : PA unit :=
  let* s := gets id in
  if queue_rece_enable s then ret tt
  else if negb (ya_has_timer_expired tick (resend_timer s) =? 0) then ret tt
  else if count s <? UART_RETRY_NUM then
    write_msg ;;
    puts (fun s => set_wait false (u8 (count s + 1)) s)
  else puts (set_wait true 0).

(** One turn of [while (1)]. *)
Definition ya_uart_app_step (hdr body : bytes) (tick : Z) : PA unit :=
  uart_rx hdr body ;; uart_tx tick ;; uart_retry tick.
End Task.
