(* ===== verification/UartProofs.v ===== *)
(** * The factory UART protocol: correctness

    Theorems about [Uart]: the CRC detects its own trailer, a credential sent
    in sub-frames ends up in flash and is read back chunk by chunk, and the
    exact behaviour of the frame-length check, of the queued frames and of the
    reply and retry logic. *)

From stdpp Require Import base numbers list strings.
From S2P Require Import Prelude Platform SpiFlash Flash CommonFunc HalTimer License MainQueue Uart.

(** ** The CRC *)

Lemma crc_bit_u16 c : is_u16 (crc_bit c).
Proof. unfold crc_bit. case_match; apply u16_range. Qed.
Lemma crc_byte_u16 c b : is_u16 (crc_byte c b).
Proof. apply crc_bit_u16. Qed.
Lemma crc_check_u16 msg : is_u16 (crc_check msg).
Proof.
  unfold crc_check. assert (Hg : forall c, is_u16 c -> is_u16 (foldl crc_byte c msg)).
  { induction msg as [|b msg IH]; intros c Hc; cbn; [done|]. apply IH, crc_byte_u16. }
  apply Hg. unfold is_u16; lia.
Qed.
Lemma crc_check_app a b : crc_check (a ++ b) = foldl crc_byte (crc_check a) b.
Proof. unfold crc_check. by rewrite foldl_app. Qed.

(** Below the top bit, a step is a plain shift. *)
Lemma crc_bit_small c : 0 <= c < 0x8000 -> crc_bit c = 2 * c.
Proof.
  intros Hc. unfold crc_bit. replace (Z.land c 0x8000) with 0.
  - cbn [Z.eqb negb]. rewrite Z.shiftl_mul_pow2 by lia. rewrite u16_small; [lia|unfold is_u16; lia].
  - symmetry. apply Z.bits_inj'. intros i Hi. rewrite Z.land_spec, Z.bits_0.
    change 0x8000 with (2 ^ 15). destruct (decide (i = 15)) as [->|Hne].
    + destruct (decide (c = 0)) as [->|]; [by rewrite Z.bits_0|].
      rewrite (Z.bits_above_log2 c 15); [done|lia|].
      apply (Z.log2_lt_pow2 c 15); lia.
    + rewrite (Z.pow2_bits_false 15 i) by lia. by rewrite andb_false_r.
Qed.
(** A byte in the low half moves to the high half. *)
Lemma crc_iter_small k v : 0 <= v -> 2 ^ Z.of_nat k * v < 65536 -> Nat.iter k crc_bit v = 2 ^ Z.of_nat k * v.
Proof.
  intros Hv. induction k as [|k IH]; intros Hk; [by rewrite Z.mul_1_l|].
  rewrite Nat2Z.inj_succ, Z.pow_succ_r in * by lia.
  change (Nat.iter (S k) crc_bit v) with (crc_bit (Nat.iter k crc_bit v)).
  assert (0 <= 2 ^ Z.of_nat k) by lia. rewrite IH by nia. rewrite crc_bit_small by nia. lia.
Qed.
Lemma crc_shift_low v : 0 <= v < 256 -> Nat.iter 8 crc_bit v = 256 * v.
Proof. intros Hv. apply (crc_iter_small 8); change (2 ^ Z.of_nat 8) with 256; lia. Qed.

(** Feeding the CRC's own high byte, then its low byte. *)
Lemma crc_feed_high c : is_u16 c -> crc_byte c (c / 256) = 256 * (c mod 256).
Proof.
  unfold is_u16. intros Hc. unfold crc_byte. rewrite <- (crc_shift_low (c mod 256)) by zdiv.
  f_equal. replace (Z.lxor c (Z.shiftl (c / 256) 8)) with (c mod 256).
  { apply u16_small. unfold is_u16. zdiv. }
  change 256 with (2 ^ 8). rewrite <- Z.land_ones by lia. rewrite <- Z.shiftr_div_pow2 by lia.
  apply Z.bits_inj'. intros i Hi. rewrite Z.land_spec, Z.lxor_spec, Z.shiftl_spec by lia.
  destruct (decide (i < 8)).
  - rewrite Z.ones_spec_low by lia. rewrite (Z.testbit_neg_r _ (i - 8)) by lia.
    by rewrite andb_true_r, xorb_false_r.
  - rewrite Z.ones_spec_high by lia. rewrite Z.shiftr_spec by lia.
    replace (i - 8 + 8) with i by lia. by rewrite andb_false_r, xorb_nilpotent.
Qed.
Lemma crc_feed_low b : 0 <= b < 256 -> crc_byte (256 * b) b = 0.
Proof.
  intros Hb. unfold crc_byte. rewrite Z.shiftl_mul_pow2 by lia.
  replace (b * 2 ^ 8) with (256 * b) by lia. by rewrite Z.lxor_nilpotent.
Qed.

(** The CRC used for credentials is a true cyclic code: a message followed by
    its own CRC, high byte first, checks to zero, whatever the message. *)
Theorem crc_residue (msg : bytes) :
  crc_check (msg ++ [crc_check msg / 256; crc_check msg mod 256]) = 0.
Proof.
  rewrite crc_check_app. cbn [foldl]. pose proof (crc_check_u16 msg) as Hc.
  rewrite crc_feed_high by done. apply crc_feed_low. unfold is_u16 in Hc. zdiv.
Qed.

(** ** Frames *)

Lemma get_checksum_ok {T} buf n (t : T) :
  0 <= n <= len buf -> get_checksum buf n t = Done (u32 (sum_bytes (slice buf 0 n)) mod 256) t.
Proof. intros Hn. unfold get_checksum. brun. done. Qed.

Section Task.
Context {C : Type} `{NorChip C} `{CertCheck} `{UartEnv}.

Lemma uart_recv_ok off n got (s : uapp) (h : hw C) :
  0 <= off -> off + Z.min n (len got) <= len (rx_buf s) -> 0 <= n ->
  uart_recv off n got (s, h) =
    Done (Z.min n (len got)) (set_rx (splice (rx_buf s) off (take (Z.to_nat n) got)) s, h).
Proof.
  intros Ho Hl Hn. unfold uart_recv. erewrite bind_done by reflexivity. cbn [fst].
  assert (Hlt : len (take (Z.to_nat n) got) = Z.min n (len got)) by (unfold len; rewrite length_take; lia).
  erewrite bind_done by (apply memcpy_ok; lia). erewrite bind_done by reflexivity. by rewrite <- Hlt.
Qed.

(** A header of a frame whose declared length is [n]. *)
Definition header (ver cmd n : Z) : bytes := [0x55; 0xAA; ver; cmd; n / 256; n mod 256].

Lemma header_len n : 0 <= n < 65536 -> u16 (u16 (Z.shiftl (n / 256) 8) + n mod 256) = n.
Proof. intros Hn. rewrite Z.shiftl_mul_pow2 by lia. unfold u16. zdiv. Qed.

(** What the reader sees of a header it has just received. *)
Lemma rdn_header {T} b ver cmd n (t : T) :
  6 <= len b -> rdn (splice b 0 (header ver cmd n)) 0 6 t = Done (header ver cmd n) t.
Proof.
  intros Hb. apply (rdn_at _ [] _ (drop 6 b)); [|done|done].
  unfold splice. by rewrite take_0.
Qed.

(** The length check of the receiver admits frames that do not fit its
    buffer: a frame that declares 534 to 539 data bytes passes
    [msg_len < UART_MAX_FRAME_LEN], and receiving its data and checksum writes
    past the end of the 540-byte [rx_buf]. *)
Theorem uart_long_frame_overflows (s : uapp) (h : hw C) (ver cmd n : Z) (body : bytes) (tick : Z) :
  len (rx_buf s) = UART_MAX_FRAME_LEN -> 534 <= n < 540 -> n + 1 <= len body ->
  ya_uart_app_step (header ver cmd n) body tick (s, h) = Fault OutOfBounds.
Proof.
  unfold UART_MAX_FRAME_LEN. intros Hrx Hn Hb.
  unfold ya_uart_app_step, uart_rx, UART_HEADER_WITH_LEN, UART_MAX_FRAME_LEN.
  unfold bind at 1. unfold bind at 1.
  rewrite uart_recv_ok by (change (len (header ver cmd n)) with 6; lia).
  change (Z.min 6 (len (header ver cmd n))) with 6. cbn [negb Z.eqb Pos.eqb].
  change (take (Z.to_nat 6) (header ver cmd n)) with (header ver cmd n).
  erewrite bind_done by reflexivity. cbn [fst rx_buf set_rx].
  erewrite bind_done by (apply rdn_header; lia).
  change (header ver cmd n !!! 0%nat) with 0x55. change (header ver cmd n !!! 1%nat) with 0xAA.
  change (header ver cmd n !!! 4%nat) with (n / 256).
  change (header ver cmd n !!! 5%nat) with (n mod 256). cbn [Z.eqb Pos.eqb andb negb].
  rewrite header_len by lia. destruct (Z.ltb_spec n 540); [|lia]. cbn [negb].
  unfold bind at 1. unfold uart_recv at 1. erewrite bind_done by reflexivity. cbn [fst rx_buf set_rx].
  unfold bind at 1, memcpy at 1. rewrite len_splice by (change (len (header ver cmd n)) with 6; lia).
  rewrite len_take by lia. destruct (Z.leb_spec (6 + (n + 1)) (len (rx_buf s))); [lia|].
  by rewrite andb_false_r.
Qed.

(** A complete frame in the receive buffer. *)
Lemma rx_layout (b hd body : bytes) :
  len hd = 6 -> 6 + len body <= len b ->
  splice (splice b 0 hd) 6 body = hd ++ body ++ drop (6 + length body) b.
Proof.
  intros Hh Hb. unfold splice. rewrite take_0. cbn [app Nat.add].
  unfold len in *. change (Z.to_nat 6) with 6%nat. change (Z.to_nat 0) with 0%nat.
  rewrite take_app_length' by lia. do 2 f_equal.
  rewrite drop_app_ge by lia. rewrite drop_drop. f_equal. lia.
Qed.
(** The trailing byte is the sum of the others. *)
Definition checksum_ok (hd data : bytes) (c : Z) : Prop := c = u32 (sum_bytes (hd ++ data)) mod 256.

(** Receiving a well-formed frame hands it to [ya_handle_uart_data] with its
    exact length. *)
Lemma uart_rx_frame ver cmd data c (s : uapp) (h : hw C) :
  len (rx_buf s) = UART_MAX_FRAME_LEN -> len data <= 533 ->
  uart_rx (header ver cmd (len data)) (data ++ [c]) (s, h) =
    (let b := header ver cmd (len data) ++ (data ++ [c]) ++ drop (6 + length (data ++ [c])) (rx_buf s) in
     lift_us (ya_handle_uart_data b (6 + len data + 1)) ;;
     let* s := gets id in
     let* cmd := rd b 3 in
     if queue_rece_enable s && (cmd =? 0) then puts (set_wait true 0) ;; free_msg else ret tt)
    (set_rx (header ver cmd (len data) ++ (data ++ [c]) ++ drop (6 + length (data ++ [c])) (rx_buf s)) s, h).
Proof.
  unfold UART_MAX_FRAME_LEN. intros Hrx Hd. pose proof (len_nonneg data).
  unfold uart_rx, UART_HEADER_WITH_LEN, UART_MAX_FRAME_LEN.
  set (n := len data). set (hd := header ver cmd n). assert (Hhd : len hd = 6) by done.
  erewrite bind_done by (apply uart_recv_ok; lia). rewrite Hhd.
  change (Z.min 6 6) with 6. cbn [negb Z.eqb Pos.eqb].
  change (take (Z.to_nat 6) hd) with hd.
  erewrite bind_done by reflexivity. cbn [fst rx_buf set_rx].
  erewrite bind_done by (apply rdn_header; lia). fold hd.
  change (hd !!! 0%nat) with 0x55. change (hd !!! 1%nat) with 0xAA.
  change (hd !!! 4%nat) with (n / 256). change (hd !!! 5%nat) with (n mod 256).
  cbn [Z.eqb Pos.eqb andb negb]. rewrite header_len by (unfold n; lia).
  destruct (Z.ltb_spec n 540); [|unfold n in *; lia]. cbn [negb].
  assert (Hlb : len (data ++ [c]) = n + 1) by (rewrite len_app; done).
  erewrite bind_done.
  2:{ apply uart_recv_ok; cbn [rx_buf set_rx]; rewrite ?len_splice by lia; unfold n in *; lia. }
  cbn [rx_buf set_rx]. rewrite Hlb, Z.min_id, Z.eqb_refl. cbn [negb].
  rewrite (take_ge (data ++ [c])) by (unfold len in Hlb; lia).
  rewrite rx_layout by (unfold n in *; lia).
  erewrite bind_done by reflexivity. cbn [fst rx_buf set_rx]. reflexivity.
Qed.

(** A frame with an unknown command is accepted and answered by nothing. *)
Lemma handle_unknown hd data c rest (s : ustate) (h : hw C) :
  len hd = 6 -> checksum_ok hd data c -> hd !!! 3%nat = 0 ->
  ya_handle_uart_data (hd ++ (data ++ [c]) ++ rest) (6 + len data + 1) (s, h) = Done tt (s, h).
Proof.
  intros Hh Hc Hcmd. pose proof (len_nonneg data). pose proof (len_nonneg rest).
  assert (Hb : hd ++ (data ++ [c]) ++ rest = (hd ++ data) ++ c :: rest)
    by (by rewrite <- !app_assoc).
  assert (Hlen : len ((hd ++ data) ++ c :: rest) = 6 + len data + 1 + len rest)
    by (rewrite !len_app, len_cons; lia).
  rewrite Hb. unfold ya_handle_uart_data.
  replace (6 + len data + 1 - 1) with (len (hd ++ data)) by (rewrite len_app; lia).
  erewrite bind_done.
  2:{ apply get_checksum_ok. rewrite !len_app, len_cons. lia. }
  rewrite slice_app_l by done.
  erewrite bind_done by (by eapply rd_at). rewrite <- Hc, Z.eqb_refl. cbn [negb].
  erewrite bind_done.
  2:{ apply rd_ok. rewrite Hlen. lia. }
  rewrite <- app_assoc, lookup_total_app_l by (unfold len in Hh; lia).
  change (Z.to_nat 3) with 3%nat. rewrite Hcmd. reflexivity.
Qed.

(** After a frame sent without reply, a single received frame with command
    byte 0 and a good checksum makes the task free the sent block a second
    time: [msg.addr] is not cleared after the first free, and the reply test
    runs while no reply is awaited. *)
Theorem uart_double_free (s : uapp) (h : hw C) (b : bytes) (ver c t1 t2 : Z) (data : bytes) :
  len (rx_buf s) = UART_MAX_FRAME_LEN -> queue_rece_enable s = true ->
  queues h QUart = [mkMsg (len b) (Some b) UART_WITHOUT_REPLY] -> len data <= 533 ->
  checksum_ok (header ver 0 (len data)) data c ->
  exists s1 h1, ya_uart_app_step [] [] t1 (s, h) = Done tt (s1, h1) /\
    trace h1 = EvUartTx b :: trace h /\ live h1 = live h - 1 /\
    ya_uart_app_step (header ver 0 (len data)) (data ++ [c]) t2 (s1, h1) = Fault BadFree.
Proof.
  intros Hrx He Hq Hd Hc. pose proof (len_nonneg b).
  set (s1 := mkUapp (ua_us s) (splice (rx_buf s) 0 []) true (count s) (resend_timer s) PFreed (len b)).
  assert (Hrx1 : len (rx_buf s1) = UART_MAX_FRAME_LEN).
  { cbn. rewrite len_splice; [done|lia|]. rewrite Hrx. by vm_compute. }
  eexists s1, _. split; [|split; [|split]].
  - unfold ya_uart_app_step. erewrite bind_done.
    2:{ unfold uart_rx. erewrite bind_done.
        2:{ apply uart_recv_ok; [lia|rewrite Hrx; by vm_compute|by vm_compute]. }
        reflexivity. }
    erewrite bind_done; [|unfold uart_tx].
    2:{
    erewrite bind_done by reflexivity. cbn [fst id set_rx queue_rece_enable]. rewrite He. cbn [negb].
    erewrite bind_done by reflexivity.
    erewrite bind_done by (unfold ya_hal_os_queue_recv; rewrite Hq; reflexivity).
    cbn beta iota. erewrite bind_done by reflexivity. cbn [m_type Z.eqb UART_WITH_REPLY UART_WITHOUT_REPLY].
    erewrite bind_done by reflexivity. erewrite bind_done.
    2:{ unfold write_msg. erewrite bind_done by reflexivity. cbn [fst id msg_addr set_wait set_msg m_addr].
        unfold ya_hal_uart_write. erewrite bind_done by (apply rdn_ok; cbn; lia).
        erewrite bind_done by reflexivity. reflexivity. }
    unfold free_msg. erewrite bind_done by reflexivity. cbn [fst msg_addr set_wait set_msg m_addr].
    erewrite bind_done by reflexivity. reflexivity. }
    reflexivity.
  - cbn. by rewrite slice_full.
  - done.
  - unfold ya_uart_app_step, bind at 1. rewrite uart_rx_frame by done. cbn zeta.
    unfold bind at 1, lift_us, zoom_s, zoom. cbn [ua_us set_rx].
    rewrite handle_unknown by done. unfold bind at 1. cbn [gets id fst].
    unfold bind at 1. by erewrite (rd_at _ [0x55; 0xAA; ver] 0 _ 3) by reflexivity.
Qed.

(** With nothing on the line, a turn only sends and retries. *)
Lemma uart_step_silent (s : uapp) (h : hw C) tick :
  len (rx_buf s) = UART_MAX_FRAME_LEN ->
  ya_uart_app_step [] [] tick (s, h) = (uart_tx tick ;; uart_retry tick) (s, h).
Proof.
  intros Hrx. unfold ya_uart_app_step, uart_rx. erewrite bind_done; [reflexivity|].
  erewrite bind_done.
  2:{ apply uart_recv_ok; [lia|rewrite Hrx; by vm_compute|by vm_compute]. }
  rewrite take_nil, splice_nil. by destruct s.
Qed.
(** While a reply is awaited, a turn with an expired timer resends or gives up. *)
Lemma uart_step_waiting (s : uapp) (h : hw C) b tick :
  len (rx_buf s) = UART_MAX_FRAME_LEN -> queue_rece_enable s = false ->
  msg_addr s = POwned b -> msg_len s = len b -> 0 <= count s < 255 ->
  ya_has_timer_expired tick (resend_timer s) = 0 ->
  ya_uart_app_step [] [] tick (s, h) =
    if count s <? 3 then Done tt (set_wait false (count s + 1) s, log (EvUartTx b) h)
    else Done tt (set_wait true 0 s, h).
Proof.
  intros Hrx He Ha Hl Hc Ht. rewrite uart_step_silent by done.
  pose proof (len_nonneg b). unfold uart_tx, uart_retry, UART_RETRY_NUM.
  erewrite bind_done.
  2:{ erewrite bind_done by reflexivity. cbn [fst id]. rewrite He. reflexivity. }
  erewrite bind_done by reflexivity. cbn [fst id]. rewrite He, Ht. cbn [negb Z.eqb].
  destruct (Z.ltb_spec (count s) 3); [|done].
  erewrite bind_done.
  2:{ unfold write_msg. erewrite bind_done by reflexivity. cbn [fst id]. rewrite Ha, Hl.
      unfold ya_hal_uart_write. erewrite bind_done by (apply rdn_ok; lia).
      rewrite slice_full by done. erewrite bind_done by reflexivity. reflexivity. }
  cbn. rewrite u8_small by (unfold is_u8; lia). done.
Qed.

(** A frame sent with reply and not answered is resent exactly three times,
    then given up; but its block is not freed and, at the next turn, no longer
    referenced: every such frame leaks one block. *)
Theorem uart_unanswered_frame_leaks (s : uapp) (h : hw C) (b : bytes) (t1 t2 t3 t4 t5 : Z) :
  len (rx_buf s) = UART_MAX_FRAME_LEN -> queue_rece_enable s = false -> count s = 0 ->
  msg_addr s = POwned b -> msg_len s = len b -> queues h QUart = [] ->
  Forall (fun t => ya_has_timer_expired t (resend_timer s) = 0) [t1; t2; t3; t4] ->
  exists s' h', for_each [t1; t2; t3; t4; t5] (fun t => ya_uart_app_step [] [] t) (s, h)
      = Done tt (s', h') /\
    trace h' = EvUartTx b :: EvUartTx b :: EvUartTx b :: trace h /\
    queue_rece_enable s' = true /\ msg_addr s' = PNull /\ live h' = live h.
Proof.
  intros Hrx He Hc Ha Hl Hq Ht. rewrite !Forall_cons in Ht. destruct Ht as (H1' & H2' & H3' & H4' & _).
  cbn [for_each].
  erewrite bind_done by (by rewrite (uart_step_waiting _ _ b), Hc by (done || lia)).
  erewrite bind_done by (rewrite (uart_step_waiting _ _ b) by (cbn; done || lia); reflexivity).
  erewrite bind_done by (rewrite (uart_step_waiting _ _ b) by (cbn; done || lia); reflexivity).
  erewrite bind_done by (rewrite (uart_step_waiting _ _ b) by (cbn; done || lia); reflexivity).
  erewrite bind_done.
  2:{ rewrite uart_step_silent by done. unfold uart_tx. erewrite bind_done.
      2:{ erewrite bind_done by reflexivity. cbn [fst id set_wait queue_rece_enable negb].
          erewrite bind_done by reflexivity.
          erewrite bind_done by (unfold ya_hal_os_queue_recv; cbn [queues log]; rewrite Hq; reflexivity).
          reflexivity. }
      reflexivity. }
  eexists _, _. split; [reflexivity|]. done.
Qed.
End Task.

(** ** Uploading a credential in sub-frames *)
Section Upload.
Context {C : Type} `{NorChipLaws C, !NorReliable C} `{CertCheck}.
(** The seven bytes before the sub-command and whatever follows the chunk in
    the receive buffer, for each sub-frame. *)
Context (pre post : Z -> bytes).
Implicit Types (s : ustate) (h : hw C).

Definition cert_frame (sub total idx : Z) (chunk : bytes) : bytes :=
  pre idx ++ [sub; total; idx] ++ chunk ++ post idx.
(** The sub-frames sent in order, and the status of each. *)
Fixpoint upload (sub total idx : Z) (chunks : list bytes) : P C ustate (list Z) :=
  match chunks with
  | [] => ret []
  | c :: chunks =>
    let* r := write_certificate (cert_frame sub total idx c) (len c + 4) in
    let* rs := upload sub total (idx + 1) chunks in
    ret (r :: rs)
  end.
Definition addr_of (sub : Z) : Z :=
  if sub =? 1 then YA_LICENSE_DEVICE_CERT_ADDR else YA_LICENSE_DEVICE_RSA_PRIVATE_KEY_ADDR.
Definition verdict (sub : Z) (text : bytes) : Z :=
  if sub =? 1 then mbedtls_x509_crt_parse text else mbedtls_pk_parse_key text.
Definition trailer (cert : bytes) : bytes := [crc_check cert / 256; crc_check cert mod 256].

Lemma addr_of_bounds sub :
  addr_of sub mod 4096 = 0 /\ 0 <= addr_of sub /\ addr_of sub + 65536 < 4294967296.
Proof. unfold addr_of. by case_match. Qed.

(** Writing the credential and reading it back leaves it in flash. *)
Lemma write_parsed_ok sub cert x z s h :
  verdict sub (cert ++ [0]) = 0 -> is_bytes cert -> is_bytes (x :: z) ->
  0 < len cert <= 3069 -> heap h = [] -> stale h = 0 ->
  exists c',
    (if sub =? 1 then ya_write_check_aws_para_device_cert (cert ++ x :: z) (len cert) (addr_of sub)
     else ya_write_check_aws_para_device_rsa_private_key (cert ++ x :: z) (len cert) (addr_of sub)) (s, h)
      = Done (0, cert ++ 0 :: z) (s, set_chip c' h) /\ holds c' (addr_of sub) cert.
Proof.
  intros Hv Hb Hz Hl Hheap Hst. apply Forall_cons in Hz as [_ Hz].
  destruct (addr_of_bounds sub) as (Ha1 & Ha2 & Ha3). pose proof (len_nonneg z).
  destruct (write_flash_spec (addr_of sub) (cert ++ 0 :: z) (len cert) 1 s h)
    as (c' & Hw & Hh & _); try done; try lia.
  { rewrite len_app, len_cons. lia. }
  { apply is_bytes_app. split; [done|]. by constructor. }
  rewrite slice_app_l in Hh by done. exists c'. split; [|done].
  assert (Hwp : forall parse, parse (cert ++ [0]) = 0 ->
    write_parsed parse (cert ++ x :: z) (len cert) (addr_of sub) (s, h)
      = Done (0, cert ++ 0 :: z) (s, set_chip c' h)).
  { intros parse Hp. unfold write_parsed. erewrite bind_done.
    2:{ apply wr_ok. rewrite len_app, len_cons. lia. }
    replace (<[Z.to_nat (len cert):=u8 0]> (cert ++ x :: z)) with (cert ++ 0 :: z).
    2:{ unfold len. rewrite Nat2Z.id. by rewrite insert_app_r_alt, Nat.sub_diag by lia. }
    erewrite bind_done.
    2:{ apply (rdn_at _ [] (cert ++ [0]) z); [by rewrite <- app_assoc|done|rewrite len_app; done]. }
    rewrite Hp. cbn [negb C_OK Z.eqb]. unfold write_check.
    erewrite bind_done. 2:{ erewrite bind_done by exact Hw. rewrite Hst. reflexivity. }
    reflexivity. }
  unfold verdict in Hv. destruct (sub =? 1); by apply Hwp.
Qed.

(** The last sub-frame, once the whole credential and its CRC are in place. *)
Lemma finish_ok sub eff idx cert z s h :
  verdict sub (cert ++ [0]) = 0 -> is_bytes cert -> is_bytes z -> 0 < len cert <= 3069 ->
  cert_buffer s = Some (cert ++ trailer cert ++ z) ->
  len (cert ++ trailer cert ++ z) = MAX_CERT_BUF_LEN ->
  eff + idx * 512 = len cert + 2 -> 0 ∈ z -> heap h = [] -> stale h = 0 ->
  exists c', finish_certificate sub eff idx (s, h) =
      Done (Some tt) (set_cert None s, set_chip c' (set_heap [] (live h - 1) h)) /\
    holds c' (addr_of sub) cert.
Proof.
  intros Hv Hb Hz Hl Hcb Hlen He H0z Hheap Hst. unfold MAX_CERT_BUF_LEN in *.
  pose proof (crc_check_u16 cert) as Hcrc. unfold is_u16 in Hcrc.
  unfold finish_certificate. erewrite bind_done by reflexivity. cbn [fst]. rewrite Hcb.
  erewrite bind_done by reflexivity. erewrite bind_done by (apply text_at_ok, elem_of_app; right; apply elem_of_app; by right).
  rewrite He. rewrite (u32_small (len cert + 2)) by (unfold is_u32; lia).
  replace (len cert + 2 - 2) with (len cert) by lia. replace (len cert + 2 - 1) with (len cert + 1) by lia.
  rewrite !u32_small, u16_small by (unfold is_u32, is_u16; lia).
  erewrite bind_done by (by eapply rd_at; [reflexivity|]).
  erewrite bind_done.
  2:{ apply (rd_at _ (cert ++ [crc_check cert / 256]) (crc_check cert mod 256) z);
        [by rewrite <- app_assoc|by rewrite len_app]. }
  cbv zeta. fold (addr_of sub).
  replace (u16 (Z.shiftl (crc_check cert / 256) 8 + crc_check cert mod 256)) with (crc_check cert).
  2:{ rewrite Z.shiftl_mul_pow2 by lia. unfold u16. zdiv. }
  cbn [trailer app] in *.
  destruct (write_parsed_ok sub cert (crc_check cert / 256) (crc_check cert mod 256 :: z) s h)
    as (c' & Hw & Hh); try done.
  { do 2 (apply Forall_cons_2; [unfold is_u8; zdiv|]). done. }
  erewrite bind_done by exact Hw. cbn beta iota. erewrite bind_done by reflexivity.
  unfold obind at 1. erewrite bind_done by reflexivity. cbn [Z.eqb].
  destruct (addr_of_bounds sub) as (Ha1 & Ha2 & Ha3).
  set (B := cert ++ 0 :: crc_check cert mod 256 :: z).
  assert (HlB : len B = 3072).
  { unfold B. change 3072 with (3 * 1024). rewrite <- Hlen. rewrite !len_app, !len_cons. lia. }
  erewrite bind_done.
  2:{ apply (read_var_holds (addr_of sub) cert B 3072 1 _ (set_chip c' h)); done || lia. }
  cbn beta iota. erewrite bind_done by reflexivity. unfold obind at 1.
  erewrite bind_done by reflexivity. cbn [Z.eqb]. unfold obind at 1.
  rewrite Z.eqb_refl. erewrite bind_done by reflexivity. cbn beta iota.
  erewrite bind_done.
  2:{ apply (rdn_at _ [] cert (drop (length cert) B)); [by unfold splice; rewrite take_0|done|done]. }
  rewrite Z.eqb_refl. unfold obind at 1. erewrite bind_done by reflexivity. cbn beta iota.
  exists c'. by split.
Qed.

Context (Hpre : forall i, len (pre i) = 7).

(** The buffer before sub-frame [idx]: not allocated yet for the first, filled
    with the bytes [a] of the earlier ones otherwise. *)
Definition staged (idx : Z) (a : bytes) (k : Z) s h s1 h1 : Prop :=
  (idx = 0 /\ a = [] /\ k = MAX_CERT_BUF_LEN /\ cert_buffer s = None /\
     s1 = set_cert (Some (zeros MAX_CERT_BUF_LEN)) s /\ h1 = set_heap [] (live h + 1) h) \/
  (idx <> 0 /\ cert_buffer s = Some (a ++ zeros k) /\ s1 = s /\ h1 = h).

Lemma stage_ok idx a k s h s1 h1 :
  staged idx a k s h s1 h1 -> heap h = [] ->
  (if idx =? 0 then
     let* c := gets cert_buffer in
     let* p := match c with Some b => ret (Some b) | None => ya_hal_os_memory_alloc MAX_CERT_BUF_LEN end in
     let* b := deref p in
     let* b := memset b 0 MAX_CERT_BUF_LEN in
     puts (set_cert (Some b))
   else ret tt) (s, h) = Done tt (s1, h1) /\ cert_buffer s1 = Some (a ++ zeros k).
Proof.
  intros [(-> & -> & -> & Hc & -> & ->)|(Hi & Hc & -> & ->)] Hheap.
  - split; [|done]. cbn [Z.eqb]. erewrite bind_done by reflexivity. cbn [fst]. rewrite Hc.
    erewrite bind_done by (unfold ya_hal_os_memory_alloc; rewrite Hheap; reflexivity).
    cbn beta iota. erewrite bind_done by reflexivity. erewrite bind_done.
    2:{ apply memset_ok. unfold len. rewrite length_replicate. done. }
    rewrite drop_ge, app_nil_r by (by rewrite length_replicate). done.
  - destruct (Z.eqb_spec idx 0); [done|]. done.
Qed.

Lemma frame_ok sub total idx chunk a k s h s1 h1 :
  sub = 1 \/ sub = 2 -> staged idx a k s h s1 h1 -> heap h = [] ->
  len a = idx * 512 -> len a + k = MAX_CERT_BUF_LEN -> len chunk <= k ->
  write_certificate (cert_frame sub total idx chunk) (len chunk + 4) (s, h) =
    (let* ok := if idx + 1 =? total then finish_certificate sub (len chunk) idx
                else guard (negb (total <? idx + 1)) in
     match ok with Some _ => ret 1 | None => drop_cert ;; ret 0 end)
    (set_cert (Some ((a ++ chunk) ++ zeros (k - len chunk))) s1, h1).
Proof.
  intros Hsub Hst Hheap Ha Hk Hc. destruct (stage_ok _ _ _ _ _ _ _ Hst Hheap) as [Hstage Hcb].
  pose proof (Hpre idx) as Hp. pose proof (len_nonneg chunk).
  unfold write_certificate, cert_frame.
  erewrite bind_done by (apply (rd_at _ (pre idx) sub ([total; idx] ++ chunk ++ post idx)); done).
  erewrite bind_done.
  2:{ apply (rd_at _ (pre idx ++ [sub]) total ([idx] ++ chunk ++ post idx));
        [by rewrite <- app_assoc|by rewrite len_app, Hp]. }
  erewrite bind_done.
  2:{ apply (rd_at _ (pre idx ++ [sub; total]) idx (chunk ++ post idx));
        [by rewrite <- app_assoc|by rewrite len_app, Hp]. }
  assert (Hs12 : (sub =? 1) || (sub =? 2) = true) by (destruct Hsub as [-> | ->]; done).
  rewrite Hs12. unfold write_cert_frame. unfold bind at 1. unfold bind at 1.
  rewrite Hstage. replace (len chunk + 4 - 4) with (len chunk) by lia.
  unfold obind at 1, bind at 1. cbn [gets]. rewrite Hcb.
  erewrite bind_done.
  2:{ apply (rdn_at _ (pre idx ++ [sub; total; idx]) chunk (post idx));
        [by rewrite <- app_assoc|by rewrite len_app, Hp|done]. }
  erewrite bind_done by (apply memcpy_zeros; [lia|done]).
  erewrite bind_done by reflexivity. reflexivity.
Qed.

(** Full chunks of 512 bytes, then a last one. *)
Fixpoint chunks_ok (cs : list bytes) : Prop :=
  match cs with
  | [] => False
  | [c] => len c <= 512
  | c :: cs => len c = 512 /\ chunks_ok cs
  end.

Lemma upload_rest sub total cs cert idx a k s h s1 h1 :
  sub = 1 \/ sub = 2 -> verdict sub (cert ++ [0]) = 0 -> is_bytes cert -> 0 < len cert <= 3069 ->
  staged idx a k s h s1 h1 -> heap h = [] -> stale h = 0 ->
  len a = idx * 512 -> 0 <= idx -> len a + k = MAX_CERT_BUF_LEN ->
  chunks_ok cs -> a ++ concat cs = cert ++ trailer cert -> total = idx + Z.of_nat (length cs) ->
  exists c', upload sub total idx cs (s, h) =
      Done (replicate (length cs) 1) (set_cert None s, set_chip c' (set_heap [] (live h1 - 1) h)) /\
    holds c' (addr_of sub) cert.
Proof.
  intros Hsub Hv Hb Hl. revert idx a k s h s1 h1.
  induction cs as [|c cs IH]; intros idx a k s h s1 h1 Hst Hheap Hstale Ha Hi Hk Hcs Hcat Htot; [done|].
  assert (Hfit : len a + len c + len (concat cs) = len cert + 2).
  { apply (f_equal len) in Hcat. cbn [concat] in Hcat. rewrite !len_app in Hcat.
    change (len (trailer cert)) with 2 in Hcat. lia. }
  pose proof (len_nonneg (concat cs)). pose proof (len_nonneg a). pose proof (len_nonneg c).
  unfold MAX_CERT_BUF_LEN in *. cbn [upload].
  pose proof (frame_ok sub total idx c a k s h s1 h1 Hsub Hst Hheap Ha Hk ltac:(lia)) as Hf.
  assert (Hs1 : forall v, set_cert v s1 = set_cert v s /\ heap h1 = [] /\ stale h1 = 0).
  { intros v. destruct Hst as [(_ & _ & _ & _ & -> & ->)|(_ & _ & -> & ->)]; done. }
  assert (Hh1 : forall n c', set_chip c' (set_heap [] n h1) = set_chip c' (set_heap [] n h)).
  { intros n c'. destruct Hst as [(_ & _ & _ & _ & -> & ->)|(_ & _ & -> & ->)]; done. }
  destruct (Hs1 None) as (_ & Hheap1 & Hstale1). cbn [length] in Htot.
  destruct cs as [|c2 cs].
  - cbn [chunks_ok concat] in *. rewrite app_nil_r in Hcat.
    destruct (Z.eqb_spec (idx + 1) total); [|cbn in Htot; lia].
    destruct (finish_ok sub (len c) idx cert (zeros (k - len c))
      (set_cert (Some ((a ++ c) ++ zeros (k - len c))) s1) h1) as (c' & Hfin & Hh); try done.
    + auto with cint.
    + cbn [cert_buffer set_cert]. by rewrite Hcat, <- app_assoc.
    + rewrite app_assoc, <- Hcat, !len_app, len_zeros; unfold MAX_CERT_BUF_LEN; lia.
    + change (len []) with 0 in *. lia.
    + apply elem_of_replicate. change (len []) with 0 in *. lia.
    + exists c'. split; [|done]. erewrite bind_done.
      2:{ rewrite Hf. erewrite bind_done by exact Hfin. reflexivity. }
      cbn. rewrite <- Hh1. destruct (Hs1 None) as (<- & _). done.
  - destruct Hcs as [Hc512 Hcs]. destruct (Z.eqb_spec (idx + 1) total); [cbn in Htot; lia|].
    assert (Hlt : (total <? idx + 1) = false) by (apply Z.ltb_ge; cbn in Htot; lia).
    rewrite Hlt in Hf. destruct (IH (idx + 1) (a ++ c) (k - 512)
      (set_cert (Some ((a ++ c) ++ zeros (k - len c))) s1) h1
      (set_cert (Some ((a ++ c) ++ zeros (k - len c))) s1) h1) as (c' & Hup & Hh); try done; try lia.
    + right. rewrite Hc512. split; [lia|]. done.
    + rewrite len_app. lia.
    + rewrite len_app. lia.
    + by rewrite <- app_assoc.
    + exists c'. split; [|done]. erewrite bind_done by (rewrite Hf; reflexivity).
      erewrite bind_done by exact Hup. cbn. rewrite <- Hh1.
      destruct (Hs1 None) as (<- & _). done.
Qed.
(** A buffer filled to its end, by 3070 bytes and a CRC without a zero byte, has no
    terminator for the log. *)
Lemma full_buffer_overreads sub eff idx cert s h :
  cert_buffer s = Some (cert ++ trailer cert) -> 0 ∉ cert ++ trailer cert ->
  finish_certificate sub eff idx (s, h) = Fault OutOfBounds.
Proof.
  intros Hc Hno. unfold finish_certificate. erewrite bind_done by reflexivity. cbn [fst]. rewrite Hc.
  erewrite bind_done by reflexivity. unfold bind, text_at. by rewrite bool_decide_false.
Qed.
End Upload.

(** C40: A certificate (or RSA key) of at most 3069 bytes that the parser accepts,
    sent as full 512-byte sub-frames and a last one and followed by its CRC, is
    stored: with memory to spare and no upload pending, every sub-frame is
    acknowledged with 1, the flash block of that credential holds exactly the
    certificate, and the assembly buffer is freed.  (The indeterminate result of
    [ya_hal_flash_write] reads as 0, [stale h = 0]; and with 3070 bytes the
    buffer is full and the log, which prints it as a text, reads behind it:
    [full_buffer_overreads].) *)
Theorem certificate_upload {C} `{NorChipLaws C, !NorReliable C} `{CertCheck}
    (pre post : Z -> bytes) (sub : Z) (cs : list bytes) (cert : bytes) (s : ustate) (h : hw C) :
  (forall i, len (pre i) = 7) -> sub = 1 \/ sub = 2 -> chunks_ok cs ->
  concat cs = cert ++ trailer cert -> is_bytes cert -> 0 < len cert <= 3069 ->
  verdict sub (cert ++ [0]) = 0 -> cert_buffer s = None -> heap h = [] -> stale h = 0 ->
  exists h', upload pre post sub (Z.of_nat (length cs)) 0 cs (s, h)
      = Done (replicate (length cs) 1) (s, h') /\
    live h' = live h /\ holds (chip h') (addr_of sub) cert.
Proof.
  intros Hpre Hsub Hcs Hcat Hb Hl Hv Hc Hheap Hst.
  destruct (upload_rest pre post Hpre sub (Z.of_nat (length cs)) cs cert 0 [] MAX_CERT_BUF_LEN s h
    (set_cert (Some (zeros MAX_CERT_BUF_LEN)) s) (set_heap [] (live h + 1) h)) as (c' & Hu & Hh);
    try done; try lia.
  { left. done. }
  exists (set_chip c' (set_heap [] (live h + 1 - 1) h)). split; [|split; [|exact Hh]].
  - rewrite Hu. f_equal. f_equal. destruct s as [b r t]. cbn in *. by rewrite Hc.
  - cbn. lia.
Qed.

Lemma certificate_upload_witness :
  exists h', @upload ideal _ {| mbedtls_x509_crt_parse _ := 0; mbedtls_pk_parse_key _ := 0 |}
      (fun _ => zeros 7) (fun _ => []) 1 2 0
      [replicate 512 65; trailer (replicate 512 65)] (mkUs None 0 (zeros 540), boot)
      = Done [1; 1] (mkUs None 0 (zeros 540), h') /\
    holds (chip h') YA_LICENSE_DEVICE_CERT_ADDR (replicate 512 65).
Proof.
  destruct (@certificate_upload ideal _ _ _
    {| mbedtls_x509_crt_parse _ := 0; mbedtls_pk_parse_key _ := 0 |}
    (fun _ => zeros 7) (fun _ => []) 1 [replicate 512 65; trailer (replicate 512 65)]
    (replicate 512 65) (mkUs None 0 (zeros 540)) boot) as (h' & Hu & _ & Hh).
  - reflexivity.
  - left. reflexivity.
  - split; [reflexivity|]. vm_compute. congruence.
  - reflexivity.
  - evaluate.
  - split; vm_compute; congruence.
  - reflexivity.
  - reflexivity.
  - reflexivity.
  - reflexivity.
  - exists h'. split; [exact Hu | exact Hh].
Defined.

(** ** Reading a credential back *)
Definition frames_of (n : Z) : Z := if n mod 512 =? 0 then n / 512 else n / 512 + 1.
(** Bytes sub-frame [idx] of a record of [n] bytes carries. *)
Definition chunk_len (n idx : Z) : Z := if idx + 1 =? frames_of n then n mod 512 else 512.

Lemma frames_of_bounds n : 0 < n -> 512 * (frames_of n - 1) <= n <= 512 * frames_of n.
Proof. intros Hn. unfold frames_of. zbool; zdiv. Qed.

Lemma slice_insert_above (b : bytes) off n i v :
  0 <= off -> 0 <= n -> off + n <= i -> slice (<[Z.to_nat i := v]> b) off n = slice b off n.
Proof.
  intros Ho Hn Hi. unfold slice. apply list_eq. intros j.
  destruct (decide (j < Z.to_nat n)%nat).
  - rewrite !lookup_take_lt, !lookup_drop by lia. apply list_lookup_insert_ne. lia.
  - by rewrite !lookup_take_ge by lia.
Qed.

Section Readback.
Context {C : Type} `{NorChipLaws C}.
Context (pre post : Z -> bytes) (Hpre : forall i, len (pre i) = 8).
Implicit Types (s : ustate) (h : hw C).

(** Ask for sub-frames [idx], [idx + 1], ... and keep the data of each reply. *)
Fixpoint download (sub idx : Z) (count : nat) : P C ustate (list bytes) :=
  match count with
  | O => ret []
  | S count =>
    let* n := read_certificate (pre idx ++ idx :: post idx) sub in
    let* tx := gets tx_buf in
    let* rest := download sub (idx + 1) count in
    ret (slice tx 10 (n - 11) :: rest)
  end.

(** The record is in the buffer. *)
Definition loaded (cert : bytes) s : Prop :=
  cert_buffer s = Some (cert ++ zeros (MAX_RSA_LEN - len cert)) /\
  read_data_len s = len cert /\ len (tx_buf s) = UART_MAX_FRAME_LEN.

Lemma wp_get_checksum {T} b n Q R (t : T) :
  0 <= n <= len b -> (forall c, Q c t) -> wp (get_checksum b n) Q R t.
Proof. intros Hn HQ. unfold get_checksum. wstep. wstep. by apply wp_ret. Qed.
Lemma wp_put_checksum b n Q R (t : ustate * hw C) :
  0 < n <= len b -> (forall c, Q (<[Z.to_nat (n - 1) := c]> b) t) -> wp (put_checksum b n) Q R t.
Proof.
  intros Hn HQ. unfold put_checksum. wstep. apply wp_get_checksum; [lia|]. intros c.
  wstep. apply HQ.
Qed.

(** What is left of the buffer after sub-frame [idx]. *)
Definition after_frame (cert : bytes) (idx : Z) h s' h' : Prop :=
  if idx + 1 =? frames_of (len cert)
  then cert_buffer s' = None /\ moved (-1) h h' else loaded cert s' /\ moved 0 h h'.

Lemma wp_drop_cert Q R s h :
  (cert_buffer s = None -> Q tt (s, h)) ->
  (forall h', is_Some (cert_buffer s) -> moved (-1) h h' -> Q tt (set_cert None s, h')) ->
  wp drop_cert Q R (s, h).
Proof.
  intros Hn Hs. unfold drop_cert. wstep. apply wp_gets. cbn [fst].
  destruct (cert_buffer s) as [b|]; [|by apply wp_ret, Hn].
  wstep. apply wp_free_moved. intros h' M. apply wp_puts, Hs; eauto.
Qed.

Lemma len_be_len v : len (be_len v) = 2.
Proof. done. Qed.

Lemma wp_send_frame cert idx R s h :
  loaded cert s -> 0 < len cert < MAX_RSA_LEN -> 0 <= idx < frames_of (len cert) ->
  wp (send_cert_frame idx) (fun o st => o = Some (chunk_len (len cert) idx + 11) /\
    slice (tx_buf st.1) 10 (chunk_len (len cert) idx)
      = slice cert (idx * 512) (chunk_len (len cert) idx) /\
    after_frame cert idx h st.1 st.2) R (s, h).
Proof.
  intros (Hcb & Hn & Htx) Hl Hi. unfold MAX_RSA_LEN, UART_MAX_FRAME_LEN in *.
  pose proof (frames_of_bounds (len cert) ltac:(lia)) as Hf.
  assert (Hmod : len cert mod 512 = 0 \/ 512 * (frames_of (len cert) - 1) + len cert mod 512 = len cert).
  { unfold frames_of. zbool; zdiv. }
  unfold send_cert_frame. wstep. apply wp_gets. cbn [fst]. rewrite Hn. fold (frames_of (len cert)).
  rewrite u8_small by (unfold is_u8; lia). fold (chunk_len (len cert) idx).
  set (d := chunk_len (len cert) idx).
  assert (Hd : 0 <= d <= 512 /\ idx * 512 + d <= len cert).
  { unfold d, chunk_len. pose proof (Z.mod_pos_bound (len cert) 512 ltac:(lia)). zbool; lia. }
  destruct (Z.ltb_spec (frames_of (len cert)) (idx + 1)); [lia|].
  wstep. apply wp_gets. cbn [fst].
  wstep. wstep; [rewrite len_be_len; lia|].
  wstep. wstep; [rewrite len_splice by (rewrite ?len_be_len; lia); lia|].
  wstep. wstep; [rewrite len_insert, len_splice by (rewrite ?len_be_len; lia); lia|].
  set (tx3 := <[_ := _]> (<[_ := _]> _)). assert (Htx3 : len tx3 = 540).
  { unfold tx3. rewrite !len_insert, len_splice by (rewrite ?len_be_len; lia). lia. }
  wstep. apply wp_gets. cbn [fst]. rewrite Hcb. wstep. eapply wp_deref; [done|].
  wstep. wstep; [rewrite len_app, len_zeros; lia|].
  assert (Hsl : slice (cert ++ zeros (1024 * 2 + 512 - len cert)) (idx * 512) d = slice cert (idx * 512) d).
  { unfold slice. rewrite drop_app_le by (unfold len in *; lia).
    apply take_app_le. rewrite length_drop. unfold len in *. lia. }
  change (2048 + 512 - len cert) with (1024 * 2 + 512 - len cert). rewrite Hsl.
  assert (Hls : len (slice cert (idx * 512) d) = d) by (apply len_slice; lia).
  wstep. wstep. cbv zeta. rewrite u16_small by (unfold is_u16; lia).
  wstep. apply wp_put_checksum; [rewrite len_splice by lia; lia|]. intros ck.
  set (tx5 := <[_ := _]> _). assert (Htx5 : len tx5 = 540) by (unfold tx5; rewrite len_insert, len_splice; lia).
  assert (Hpay : slice tx5 10 d = slice cert (idx * 512) d).
  { unfold tx5. rewrite slice_insert_above by lia.
    pose proof (slice_splice tx3 10 (slice cert (idx * 512) d) ltac:(lia) ltac:(lia)) as Hss.
    by rewrite Hls in Hss. }
  wstep. apply wp_puts. wstep. unfold after_frame.
  destruct (Z.eqb_spec (idx + 1) (frames_of (len cert))).
  - wstep. apply wp_drop_cert.
    { cbn. rewrite Hcb. done. }
    intros h' _ M. apply wp_puts, wp_ret. cbn.
    replace (d + 10 + 1) with (d + 11) by lia. done.
  - apply wp_ret, wp_ret. replace (d + 10 + 1) with (d + 11) by lia.
    split; [done|]. split; [done|]. split; [|apply moved_refl]. split; [done|]. split; done.
Qed.

(** Before sub-frame [idx]: in flash for the first, in the buffer otherwise. *)
Definition available (sub : Z) (cert : bytes) (idx : Z) s h h1 : Prop :=
  (idx = 0 /\ cert_buffer s = None /\ len (tx_buf s) = UART_MAX_FRAME_LEN /\
     holds (chip h) (addr_of sub) cert /\ heap h = [] /\ h1 = set_heap [] (live h + 1) h) \/
  (idx <> 0 /\ loaded cert s /\ h1 = h).

Lemma load_ok sub cert idx s h h1 :
  available sub cert idx s h h1 -> 0 < len cert < MAX_RSA_LEN ->
  exists s1, readback_load (addr_of sub) idx (s, h) = Done (Some tt) (s1, h1) /\ loaded cert s1.
Proof.
  intros [(-> & Hc & Htx & Hh & Hheap & ->)|(Hi & (Hcb & Hn & Htx) & ->)] Hl; unfold MAX_RSA_LEN in *.
  - unfold readback_load, MAX_RSA_LEN. erewrite bind_done by reflexivity. cbn [fst Z.eqb]. rewrite Hc.
    erewrite bind_done by (unfold ya_hal_os_memory_alloc; rewrite Hheap; reflexivity).
    erewrite bind_done by reflexivity. unfold obind at 1. erewrite bind_done by reflexivity.
    cbn beta iota. erewrite bind_done.
    2:{ apply memset_ok. unfold len. rewrite length_replicate. done. }
    rewrite drop_ge, app_nil_r by (by rewrite length_replicate).
    destruct (addr_of_bounds sub) as (Ha1 & Ha2 & Ha3). erewrite bind_done.
    2:{ apply (read_var_holds (addr_of sub) cert); try done; try lia.
        split; [lia|]. unfold len. by rewrite length_replicate. }
    cbn beta iota. erewrite bind_done by reflexivity. erewrite bind_done by reflexivity.
    unfold obind at 1. erewrite bind_done by reflexivity. cbn [Z.eqb]. erewrite bind_done.
    2:{ apply text_at_ok. unfold splice. apply elem_of_app. right. apply elem_of_app. right. change (replicate _ _) with (zeros 2560).
        unfold zeros. rewrite drop_replicate. apply elem_of_replicate. unfold len in *. lia. }
    eexists. split; [reflexivity|]. split; [|split]; [|done|done]. cbn [cert_buffer set_rdl set_cert].
    f_equal. unfold splice. change (Z.to_nat 0) with 0%nat. rewrite take_0. cbn [app Nat.add]. f_equal.
    change (replicate _ _) with (zeros 2560). unfold zeros, MAX_RSA_LEN. rewrite drop_replicate. f_equal.
    unfold len in *. lia.
  - exists s. unfold readback_load. erewrite bind_done by reflexivity. cbn [fst].
    destruct (Z.eqb_spec idx 0); [done|]. rewrite Hcb. done.
Qed.

Lemma wp_read_step sub cert idx R s h h1 :
  sub = 1 \/ sub = 2 -> available sub cert idx s h h1 -> 0 < len cert < MAX_RSA_LEN ->
  0 <= idx < frames_of (len cert) ->
  wp (read_certificate (pre idx ++ idx :: post idx) sub) (fun r st =>
    slice (tx_buf st.1) 10 (r - 11) = slice cert (idx * 512) (chunk_len (len cert) idx) /\
    after_frame cert idx h1 st.1 st.2) R (s, h).
Proof.
  intros Hsub Hav Hl Hi. unfold read_certificate.
  assert ((sub =? 1) || (sub =? 2) = true) as -> by (destruct Hsub as [-> | ->]; done).
  wstep. wstep. eapply wp_done; [by eapply rd_at; [reflexivity|rewrite Hpre]|].
  fold (addr_of sub). destruct (load_ok sub cert idx s h h1 Hav Hl) as (s1 & Hload & Hld).
  unfold read_cert_frame. wstep. eapply wp_done; [exact Hload|]. cbn beta iota.
  eapply wp_mono; [by apply (wp_send_frame cert idx R)| |done].
  intros o [s2 h2] (-> & Hp & Ha). apply wp_ret. by rewrite Z.add_simpl_r.
Qed.

(** The data of the replies. *)
Definition payloads (cert : bytes) (idx : Z) (count : nat) : list bytes :=
  (fun i => slice cert (i * 512) (chunk_len (len cert) i)) <$> seqZ idx (Z.of_nat count).

Lemma wp_download sub cert count idx R s h h1 :
  sub = 1 \/ sub = 2 -> 0 < len cert < MAX_RSA_LEN -> available sub cert idx s h h1 ->
  0 <= idx -> idx + Z.of_nat count = frames_of (len cert) -> (0 < count)%nat ->
  wp (download sub idx count) (fun ds st => ds = payloads cert idx count /\
    cert_buffer st.1 = None /\ moved (-1) h1 st.2) R (s, h).
Proof.
  intros Hsub Hl. revert idx s h h1. induction count as [|count IH]; intros idx s h h1 Hav Hi Hc Hpos; [lia|].
  cbn [download]. wstep. eapply wp_mono; [apply (wp_read_step sub cert idx R s h h1); done || lia| |done].
  intros n [s2 h2] [Hp Ha]. wstep. apply wp_gets. cbn [fst snd] in *. unfold after_frame in Ha.
  assert (Hpl : payloads cert idx (Datatypes.S count) =
    slice cert (idx * 512) (chunk_len (len cert) idx) :: payloads cert (idx + 1) count).
  { unfold payloads. rewrite (seqZ_cons idx) by lia. rewrite fmap_cons. do 3 f_equal; lia. }
  wstep. destruct (Z.eqb_spec (idx + 1) (frames_of (len cert))) as [He|He].
  - assert (count = 0)%nat as -> by lia. apply wp_ret, wp_ret. rewrite Hp, Hpl. done.
  - destruct Ha as [Hld M]. eapply wp_mono; [apply (IH (idx + 1) s2 h2 h2)| |done]; try lia.
    + right. split; [lia|done].
    + intros ds [s3 h3] (-> & Hn & M3). apply wp_ret. rewrite Hp, Hpl. split; [done|]. split; [done|].
      exact (moved_trans _ _ _ _ _ M M3).
Qed.
End Readback.

(** What the tool can reassemble from the replies. *)
Lemma take_slice (cert : bytes) n m :
  0 <= n -> 0 <= m -> take (Z.to_nat n) cert ++ slice cert n m = take (Z.to_nat (n + m)) cert.
Proof.
  intros Hn Hm. unfold slice. replace (Z.to_nat (n + m)) with (Z.to_nat n + Z.to_nat m)%nat by lia.
  by rewrite take_take_drop.
Qed.
Lemma concat_payloads cert (k : nat) :
  Z.of_nat k < frames_of (len cert) -> 0 < len cert ->
  concat (payloads cert 0 k) = take (Z.to_nat (512 * Z.of_nat k)) cert.
Proof.
  induction k as [|k IH]; intros Hk Hl; [done|].
  unfold payloads in *. replace (Z.of_nat (S k)) with (Z.of_nat k + 1) by lia.
  rewrite seqZ_app by lia. rewrite fmap_app, concat_app, IH by lia.
  change (seqZ (0 + Z.of_nat k) 1) with [0 + (0 + Z.of_nat k)]. cbn [fmap list_fmap concat].
  rewrite app_nil_r. unfold chunk_len.
  destruct (Z.eqb_spec (0 + (0 + Z.of_nat k) + 1) (frames_of (len cert))); [lia|].
  replace ((0 + (0 + Z.of_nat k)) * 512) with (512 * Z.of_nat k) by lia.
  rewrite take_slice by lia. f_equal. lia.
Qed.
Lemma concat_all_payloads cert :
  0 < len cert ->
  concat (payloads cert 0 (Z.to_nat (frames_of (len cert)))) =
    if len cert mod 512 =? 0 then take (Z.to_nat (len cert - 512)) cert else cert.
Proof.
  intros Hl. pose proof (frames_of_bounds (len cert) Hl) as Hf.
  set (k := Z.to_nat (frames_of (len cert) - 1)).
  assert (Hk : Z.of_nat k = frames_of (len cert) - 1) by (unfold k; lia).
  replace (Z.to_nat (frames_of (len cert))) with (S k) by (unfold k; lia).
  unfold payloads. replace (Z.of_nat (S k)) with (Z.of_nat k + 1) by lia.
  rewrite seqZ_app by lia. rewrite fmap_app, concat_app.
  change (concat ((fun i => slice cert (i * 512) (chunk_len (len cert) i)) <$> seqZ 0 (Z.of_nat k)))
    with (concat (payloads cert 0 k)).
  rewrite concat_payloads by lia.
  change (seqZ (0 + Z.of_nat k) 1) with [0 + (0 + Z.of_nat k)]. cbn [fmap list_fmap concat].
  rewrite app_nil_r. unfold chunk_len.
  destruct (Z.eqb_spec (0 + (0 + Z.of_nat k) + 1) (frames_of (len cert))) as [_|]; [|lia].
  replace ((0 + (0 + Z.of_nat k)) * 512) with (512 * Z.of_nat k) by lia.
  pose proof (Z.mod_pos_bound (len cert) 512 ltac:(lia)).
  rewrite take_slice by lia. rewrite Hk. unfold frames_of in *.
  pose proof (Z_div_mod_eq_full (len cert) 512).
  destruct (Z.eqb_spec (len cert mod 512) 0) as [He|He].
  - f_equal. lia.
  - apply take_ge. unfold len in *. lia.
Qed.

(** Reading a stored certificate or key back sub-frame by sub-frame ends with
    the buffer freed and yields the stored bytes, except that a record whose
    length is a multiple of 512 comes back without its last 512 bytes: the
    final sub-frame is sent empty ([read_data_len % 512] is 0). *)
Theorem certificate_readback {C} `{NorChipLaws C} (pre post : Z -> bytes) (sub : Z) (cert : bytes)
    (s : ustate) (h : hw C) :
  (forall i, len (pre i) = 8) -> sub = 1 \/ sub = 2 -> 0 < len cert < MAX_RSA_LEN ->
  holds (chip h) (addr_of sub) cert -> cert_buffer s = None ->
  len (tx_buf s) = UART_MAX_FRAME_LEN -> heap h = [] ->
  exists ds s' h', download pre post sub 0 (Z.to_nat (frames_of (len cert))) (s, h) = Done ds (s', h') /\
    concat ds = (if len cert mod 512 =? 0 then take (Z.to_nat (len cert - 512)) cert else cert) /\
    cert_buffer s' = None /\ live h' = live h.
Proof.
  intros Hpre Hsub Hl Hh Hc Htx Hheap. pose proof (frames_of_bounds (len cert) ltac:(lia)).
  pose proof (wp_download pre post Hpre sub cert (Z.to_nat (frames_of (len cert))) 0 (fun _ => False)
    s h (set_heap [] (live h + 1) h)) as Hw.
  destruct (wp_elim _ _ _ (Hw Hsub Hl ltac:(left; done) ltac:(lia) ltac:(lia) ltac:(lia)))
    as (ds & [s' h'] & Hd & -> & Hn & M).
  exists (payloads cert 0 (Z.to_nat (frames_of (len cert)))), s', h'. split; [done|].
  split; [apply concat_all_payloads; lia|]. split; [done|].
  apply moved_fields in M as (Hlive & _). cbn in Hlive. lia.
Qed.

(** ** Witnesses *)
Definition sample_check : CertCheck := {| mbedtls_x509_crt_parse _ := 0; mbedtls_pk_parse_key _ := 0 |}.
Definition sample_env : UartEnv :=
  {| wlan_mac := [2; 0; 0; 0; 0; 1]; ya_hal_wlan_set_mac_address _ := 0; uart_write_status f := len f |}.
Definition sample_app (enable : bool) (a : pointer) (n : Z) : uapp :=
  mkUapp (mkUs None 0 (zeros 540)) (zeros 540) enable 0 (mkTimer 1000 0 YA_TIMER_TYPE_MS) a n.

Lemma certificate_readback_witness :
  exists h1 ds s' h', ya_write_flash YA_LICENSE_DEVICE_CERT_ADDR (replicate 600 65) 600 1
      (mkUs None 0 (zeros 540), boot) = Done 0 (mkUs None 0 (zeros 540), h1) /\
    download (fun _ => zeros 8) (fun _ => []) 1 0 2 (mkUs None 0 (zeros 540), h1) = Done ds (s', h') /\
    concat ds = replicate 600 65.
Proof.
  destruct (write_flash_spec YA_LICENSE_DEVICE_CERT_ADDR (replicate 600 65) 600 1
    (mkUs None 0 (zeros 540)) boot) as (c' & Hw & Hh & _); try evaluate; try reflexivity.
  destruct (certificate_readback (fun _ => zeros 8) (fun _ => []) 1 (replicate 600 65)
    (mkUs None 0 (zeros 540)) (set_chip c' boot)) as (ds & s' & h' & Hd & Hc & _).
  - reflexivity.
  - left. reflexivity.
  - split; vm_compute; congruence.
  - exact Hh.
  - reflexivity.
  - reflexivity.
  - reflexivity.
  - exists (set_chip c' boot), ds, s', h'. split; [exact Hw|]. split; [exact Hd | exact Hc].
Defined.

Lemma uart_long_frame_overflows_witness :
  @ya_uart_app_step ideal _ sample_check sample_env (header 0 0xF0 534) (zeros 535) 0
    (sample_app true PNull 0, boot) = Fault OutOfBounds.
Proof.
  apply (@uart_long_frame_overflows ideal _ sample_check sample_env); [reflexivity | lia |].
  vm_compute. congruence.
Defined.

Lemma uart_double_free_witness :
  exists s1 h1, @ya_uart_app_step ideal _ sample_check sample_env [] [] 0
      (sample_app true PNull 0, set_queue QUart [mkMsg 2 (Some [1; 2]) 0] boot) = Done tt (s1, h1) /\
    @ya_uart_app_step ideal _ sample_check sample_env (header 0 0 0) [255] 0 (s1, h1) = Fault BadFree.
Proof.
  destruct (@uart_double_free ideal _ sample_check sample_env (sample_app true PNull 0)
    (set_queue QUart [mkMsg 2 (Some [1; 2]) 0] boot) [1; 2] 0 255 0 0 [])
    as (s1 & h1 & He & _ & _ & Hf); [reflexivity | reflexivity | reflexivity | vm_compute; congruence
    | vm_compute; reflexivity |].
  exists s1, h1. split; [exact He | exact Hf].
Defined.

Lemma uart_unanswered_frame_leaks_witness :
  exists s' h', for_each [300; 300; 301; 301; 301]
      (fun t => @ya_uart_app_step ideal _ sample_check sample_env [] [] t)
      (sample_app false (POwned [7; 8]) 2, boot) = Done tt (s', h') /\
    trace h' = [EvUartTx [7; 8]; EvUartTx [7; 8]; EvUartTx [7; 8]] /\ live h' = 0.
Proof.
  destruct (@uart_unanswered_frame_leaks ideal _ sample_check sample_env
    (sample_app false (POwned [7; 8]) 2) boot [7; 8] 300 300 301 301 301)
    as (s' & h' & He & Ht & _ & _ & Hl); try reflexivity.
  - evaluate.
  - exists s', h'. split; [exact He|]. split; [exact Ht | exact Hl].
Defined.

(** A queued frame is a copy of the first [n] bytes. *)
Lemma msg_send_ok {C S} (s : S) (h : hw C) (data rest : bytes) flag :
  heap h = [] -> (length (queues h QUart) < 16)%nat -> 0 < len data ->
  exists h', ya_handle_uart_msg_send_to_queue (data ++ rest) (len data) flag (s, h) = Done 0 (s, h') /\
    queues h' QUart = queues h QUart ++
      [mkMsg (len data) (Some data) (if flag =? 0 then UART_WITHOUT_REPLY else UART_WITH_REPLY)] /\
    live h' = live h + 1.
Proof.
  intros Hheap Hq Hl. unfold ya_handle_uart_msg_send_to_queue. erewrite bind_done.
  2:{ unfold ya_hal_os_memory_alloc. rewrite Hheap.
      destruct (Z.eqb_spec (len data) 0); [lia|reflexivity]. }
  cbn [deref]. erewrite bind_done by reflexivity.
  erewrite bind_done by (apply memset_ok; unfold len; rewrite length_replicate; lia).
  rewrite drop_ge, app_nil_r by (by rewrite length_replicate).
  erewrite bind_done by (by apply (rdn_at _ [] data rest)).
  change (replicate (Z.to_nat (len data)) (u8 0)) with ([] ++ zeros (len data)).
  erewrite bind_done by (apply memcpy_zeros; [done|lia]).
  rewrite Z.sub_diag. change (zeros 0) with (@nil Z). rewrite app_nil_r. cbn [app].
  unfold ya_hal_os_queue_send, bind, queue_length, MSG_QUEUE_LENGTH. cbn [queues set_heap].
  rewrite bool_decide_true by lia. eexists. split; [reflexivity|].
  cbn. by rewrite bool_decide_true by done.
Qed.
(** The two length bytes of the header. *)
Lemma length_bytes n : 0 <= n < 65536 ->
  u8 (Z.shiftr (Z.land n 0xFF00) 8) = n / 256 /\ u8 (Z.land n 0x00FF) = n mod 256.
Proof.
  intros Hn. split.
  - change 0xFF00 with (Z.shiftl 255 8). rewrite Z.shiftr_land.
    change (Z.shiftr (Z.shiftl 255 8) 8) with 255. rewrite land_ff_u8, (u8_small (u8 _)) by apply u8_range.
    rewrite Z.shiftr_div_pow2 by lia. unfold u8. change (2 ^ 8) with 256. zdiv.
  - rewrite land_ff_u8. by rewrite u8_small by apply u8_range.
Qed.

(** [ya_handle_uart_body_send_to_queue] queues the header and the data but not
    the checksum byte it has just computed, and never frees the frame it
    built: each call keeps two blocks, of which only the queued copy will be
    freed. *)
Theorem uart_body_without_checksum {C S} (s : S) (h : hw C) (cmd : Z) (data : bytes) :
  heap h = [] -> (length (queues h QUart) < 16)%nat -> len data <= 1000 -> is_u8 cmd ->
  exists h', ya_handle_uart_body_send_to_queue cmd data (len data) (s, h) = Done 0 (s, h') /\
    queues h' QUart = queues h QUart ++
      [mkMsg (6 + len data)
         (Some ([0x55; 0xAA; 0; cmd; len data / 256; len data mod 256] ++ data)) UART_WITHOUT_REPLY] /\
    live h' = live h + 2.
Proof.
  intros Hheap Hq Hl Hcmd. pose proof (len_nonneg data) as Hd0.
  unfold ya_handle_uart_body_send_to_queue, UART_HEADER_WITH_LEN.
  erewrite bind_done.
  2:{ unfold ya_hal_os_memory_alloc. rewrite Hheap.
      destruct (Z.eqb_spec (len data + 6 + 1) 0); [lia|reflexivity]. }
  cbn beta iota. set (blk := replicate _ _).
  assert (Hblk : len blk = len data + 7) by (unfold blk, len; rewrite length_replicate; lia).
  destruct (length_bytes (len data)) as [Hhi Hlo]; [lia|].
  rewrite Hhi, Hlo, (u8_small cmd) by done.
  set (hd := [0x55; 0xAA; 0; cmd; len data / 256; len data mod 256]).
  assert (Hhd : len hd = 6) by done.
  erewrite bind_done by (apply memcpy_ok; lia).
  erewrite bind_done by (apply rdn_ok; lia). rewrite slice_full by done.
  erewrite bind_done by (apply memcpy_ok; rewrite ?len_splice; lia).
  rewrite rx_layout by lia. rewrite u16_small by (unfold is_u16; lia).
  set (rest := drop _ blk). assert (Hrest : len rest = 1).
  { unfold rest, len. rewrite length_drop. unfold len in *. lia. }
  erewrite bind_done by (apply get_checksum_ok; rewrite !len_app; lia).
  erewrite bind_done by (apply wr_ok; rewrite !len_app; lia).
  set (c := u8 _). replace (<[Z.to_nat (6 + len data):=c]> (hd ++ data ++ rest)) with (hd ++ data ++ [c]).
  2:{ rewrite !app_assoc. rewrite insert_app_r_alt by (rewrite length_app; unfold len in *; lia).
      f_equal. replace (Z.to_nat (6 + len data) - length (hd ++ data))%nat with 0%nat
        by (rewrite length_app; unfold len in *; lia).
      destruct rest as [|x [|y r]]; try done; rewrite ?len_cons in Hrest; change (len []) with 0 in *; try lia.
      pose proof (len_nonneg r). lia. }
  rewrite app_assoc. replace (6 + len data) with (len (hd ++ data)) by (rewrite len_app; lia).
  destruct (msg_send_ok s (set_heap [] (live h + 1) h) (hd ++ data) [c] UART_WITHOUT_REPLY)
    as (h' & He & Hq' & Hlv); [done|done|rewrite len_app; lia|].
  exists h'. split; [done|]. split; [done|]. cbn in Hlv. lia.
Qed.
Lemma uart_body_without_checksum_witness :
  exists h', ya_handle_uart_body_send_to_queue 8 [1; 2; 3] 3 (tt, boot) = Done 0 (tt, h') /\
    queues h' QUart = [mkMsg 9 (Some [0x55; 0xAA; 0; 8; 0; 3; 1; 2; 3]) 0].
Proof.
  destruct (uart_body_without_checksum tt boot 8 [1; 2; 3]) as (h' & He & Hq & _);
    [reflexivity | vm_compute; lia | vm_compute; congruence | evaluate |].
  exists h'. split; [exact He | exact Hq].
Defined.
