(* ===== verification/Hardware.v ===== *)
(** * The hardware task: [akeeta/app/src/ya_hardware_app.c], [ya_hardware_translate.c]
    and [platform/.../ya_hardware_timer_hal.c]

    One task owns the clock and the timers.  Each turn it advances the clock,
    fires due timers, asks the server for the time every two hours, and handles
    one queued message: cloud data, a timer's action, data for the UART, or the
    order to forget all timers. *)

From stdpp Require Import base numbers list strings.
From S2P Require Import Prelude Platform SpiFlash Flash CommonFunc HalTimer CJson SysTime.
From S2P Require Import DeviceTimer TimerTable Cloud Uart.

Definition SEVER_TIME_UPDATE_PERIOD : Z := 2 * 60 * 60 * 1000.
Definition YA_CLOUD_OFFLINE : Z := 0.
Definition YA_CLOUD_ONLINE : Z := 1.
Definition YA_CLOUD_DEBIND : Z := 2.

(** The timers and clock, the product's own state, [cloud_conn], the 64-bit
    [ya_start_timer] and the local timer of the task. *)
Record hstate (U : Type) := mkHs {
  hs_ts : tstate; hs_user : U; hs_conn : option Z; ya_start_timer : Z; req_timer : Ya_Timer }.
Arguments mkHs {U}. Arguments hs_ts {U}. Arguments hs_user {U}. Arguments hs_conn {U}.
Arguments ya_start_timer {U}. Arguments req_timer {U}.

Section Hardware.
Context {C U : Type} `{NorChip C} `{JsonText} `{CloudEnv} `{UartEnv}.
(** The product's handler of a property document. *)
Context (ya_thing_handle_downlink_data : bytes -> Z -> P C U unit).
Abbreviation PH := (P C (hstate U)).

Definition in_ts {A} (m : P C tstate A) : PH A :=
  zoom_s hs_ts (fun t s => mkHs t (hs_user s) (hs_conn s) (ya_start_timer s) (req_timer s)) m.
Definition in_clock {A} (m : P C clock A) : PH A := in_ts (zoom_s clk set_clk m).
Definition in_user {A} (m : P C U A) : PH A :=
  zoom_s hs_user (fun u s => mkHs (hs_ts s) u (hs_conn s) (ya_start_timer s) (req_timer s)) m.
Definition set_start (v : Z) (s : hstate U) : hstate U :=
  mkHs (hs_ts s) (hs_user s) (hs_conn s) v (req_timer s).
Definition set_req (t : Ya_Timer) (s : hstate U) : hstate U :=
  mkHs (hs_ts s) (hs_user s) (hs_conn s) (ya_start_timer s) t.
Definition downlink (buf : bytes) (n : Z) : PH unit := in_user (ya_thing_handle_downlink_data buf n).

(** [xTaskGetTickCount() * portTICK_PERIOD_MS], a 32-bit product. *)
Definition ya_hal_os_ticks_to_msec (tick : Z) : Z := u32 (tick * portTICK_RATE_MS).

Definition sys_start_abstime (tick : Z) : PH unit := puts (set_start (ya_hal_os_ticks_to_msec tick)).
Definition sys_run_abstime_1s (tick : Z) : PH unit :=
  let* start := gets ya_start_timer in
  if ya_timer_compare (u32 start) (ya_hal_os_ticks_to_msec tick) 1000 =? 0 then
    in_ts (puts (fun t => set_clk (sys_update_cloud_time 1 (clk t)) t)) ;;
    puts (set_start (start + 1000))
  else ret tt.

Definition ya_hardware_handle_cloud_onff_event (data : bytes) (data_len : Z) : PH unit :=
  if 0 <? data_len then
    let* d := rd data 0 in
    if d =? 2 then emit (EvCloud "status" YA_CLOUD_DEBIND)
    else if d =? 1 then
      emit (EvCloud "status" YA_CLOUD_ONLINE) ;;
      let* c := gets hs_conn in
      ya_thing_request_server_timer c ;; ret tt
    else if d =? 0 then emit (EvCloud "status" YA_CLOUD_OFFLINE)
    else ret tt
  else ret tt.

(** [strcmp(s, lit) == 0]. *)
Definition streq (s : bytes) (lit : string) : bool := bool_decide (cstr s = str lit).

Definition ya_handle_cloud_data (buf : bytes) : PH Z :=
  let* cmd := json_parse buf in
  match cmd with
  | None => ret (-1)
  | Some cmd =>
    match cJSON_GetObjectItem cmd (str "method") with
    | None => cJSON_Delete ;; ret (-1)
    | Some method =>
      let* v := deref (valuestring method) in
      (if streq v "thing.service.device.property.set" then
         ya_cloud_to_thing_translate downlink buf ;; ret tt
       else if streq v "thing.service.device.severtime.set" then
         in_clock (device_handle_severtime_set buf) ;; ret tt
       else if streq v "thing.service.device.timer.set" then
         in_ts (device_handle_cloud_timer buf) ;; ret tt
       else ret tt) ;;
      cJSON_Delete ;;
      ret 0
    end
  end.

(** The entry of [ya_hardware_app], before its loop. *)
Definition ya_hardware_app_init (tick : Z) : PH unit :=
  in_ts ya_hardware_timer_init ;;
  in_ts (puts (fun t => set_clk (sys_abstime_init (clk t)) t)) ;;
  sys_start_abstime tick ;;
  puts (set_req (ya_countdown_ms tick ya_init_timer SEVER_TIME_UPDATE_PERIOD)).

(** The message switch; [ms_msg.addr] is dereferenced by every handler that
    takes data. *)
Definition handle_hw_msg (m : msg) : PH unit :=
  if m_type m =? YA_HARDWARE_HANDLE_CLOUD_DATA then
    let* a := deref (m_addr m) in ya_handle_cloud_data a ;; ret tt
  else if m_type m =? YA_HARDWARE_HANDLE_TIMER_ACTION then
    let* a := deref (m_addr m) in downlink a (m_len m)
  else if m_type m =? YA_HARDWARE_HANDLE_UART_DATA then
    let* a := deref (m_addr m) in ya_hal_uart_write a (m_len m) ;; ret tt
  else if m_type m =? YA_HARDWARE_CLEAR_TIMER_FLASH then in_ts ya_clear_timer_flash
  else ret tt.

(** One turn of [while (1)]. *)
Definition ya_hardware_app_step (tick : Z) : PH unit :=
  sys_run_abstime_1s tick ;;
  in_ts device_check_cloud_timer ;;
  let* s := gets id in
  (if ya_has_timer_expired tick (req_timer s) =? 0 then
     puts (fun s => set_req (ya_countdown_ms tick (req_timer s) SEVER_TIME_UPDATE_PERIOD) s) ;;
     ya_thing_request_server_timer (hs_conn s) ;; ret tt
   else ret tt) ;;
  let* o := ya_hal_os_queue_recv QHardware in
  match o with
  | None => ret tt
  | Some m => handle_hw_msg m ;; free_if (m_addr m)
  end.
End Hardware.

(** ** The clock keeps pace with the tick counter *)
Section Pace.
Context {C U : Type}.

(** Polling the one-second update at a sequence of tick counts. *)
Definition poll (ticks : list Z) : P C (hstate U) unit := for_each ticks sys_run_abstime_1s.

(** [n] seconds were counted: the clock advanced [n] times and the reference
    moved [n] seconds. *)
Definition counted (n : nat) (s s' : hstate U) : Prop :=
  ya_start_timer s' = ya_start_timer s + 1000 * Z.of_nat n /\
  clk (hs_ts s') = Nat.iter n (sys_update_cloud_time 1) (clk (hs_ts s)) /\
  timers (hs_ts s') = timers (hs_ts s) /\ hs_user s' = hs_user s.

(** The lag of the clock behind the tick counter, in milliseconds. *)
Definition lag (tick : Z) (s : hstate U) : Z := tick * 5 - ya_start_timer s.

Lemma poll_once tick s (h : hw C) :
  0 <= ya_start_timer s -> 0 <= lag tick s -> tick * 5 < 4294967296 ->
  sys_run_abstime_1s tick (s, h) =
    Done tt (if 1000 <? lag tick s
             then mkHs (set_clk (sys_update_cloud_time 1 (clk (hs_ts s))) (hs_ts s)) (hs_user s)
                    (hs_conn s) (ya_start_timer s + 1000) (req_timer s)
             else s, h).
Proof.
  unfold lag. intros Hs Hl Hb. unfold sys_run_abstime_1s, ya_hal_os_ticks_to_msec, portTICK_RATE_MS.
  erewrite bind_done by reflexivity. cbn [fst].
  rewrite !u32_small by (unfold is_u32; lia). unfold ya_timer_compare, wrapped_delta.
  destruct (Z.leb_spec (ya_start_timer s) (tick * 5)); [|lia].
  destruct (Z.ltb_spec 1000 (tick * 5 - ya_start_timer s)); [|done]. cbn [Z.eqb].
  by destruct s.
Qed.

Lemma last_cons_indep (x : Z) l d d' : List.last (x :: l) d = List.last (x :: l) d'.
Proof. revert x. induction l as [|y l IH]; intros x; [done|]. apply IH. Qed.

(** polled at least once a second, the software clock neither loses nor gains
    time over any number of polls (until the millisecond counter wraps): it has
    advanced by exactly as many seconds as its reference moved, and lags the
    tick counter by at most one second. *)
Theorem clock_keeps_pace (ticks : list Z) (t0 : Z) (s : hstate U) (h : hw C) :
  0 <= ya_start_timer s -> 0 <= lag t0 s <= 1000 ->
  (forall i a b, (t0 :: ticks) !! i = Some a -> (t0 :: ticks) !! S i = Some b ->
     a <= b <= a + 200 /\ b * 5 < 4294967296) ->
  exists n s', poll ticks (s, h) = Done tt (s', h) /\ counted n s s' /\
    0 <= lag (List.last ticks t0) s' <= 1000.
Proof.
  revert t0 s. induction ticks as [|t ticks IH]; intros t0 s Hs Hl Hstep.
  { exists 0%nat, s. split; [done|]. split; [|done]. split; [lia|done]. }
  destruct (Hstep 0%nat t0 t eq_refl eq_refl) as [Ht Hb].
  unfold poll. cbn [for_each]. erewrite bind_done by (apply poll_once; unfold lag in *; lia).
  set (s1 := if 1000 <? lag t s then _ else _).
  assert (H1 : 0 <= ya_start_timer s1 /\ 0 <= lag t s1 <= 1000 /\ exists k, counted k s s1).
  { unfold s1, lag in *. destruct (Z.ltb_spec 1000 (t * 5 - ya_start_timer s)); cbn.
    - split; [lia|]. split; [lia|]. by exists 1%nat.
    - split; [lia|]. split; [lia|]. exists 0%nat. split; [lia|done]. }
  clearbody s1. destruct H1 as (Hs1 & Hl1 & k & Hc1).
  destruct (IH t s1 Hs1 Hl1) as (n & s' & He & Hc & Hl').
  { intros i a b Ha Hb'. by apply (Hstep (S i)). }
  exists (n + k)%nat, s'. split; [exact He|]. split.
  - destruct Hc as (Hc1' & Hc2 & Hc3 & Hc4), Hc1 as (Hk1 & Hk2 & Hk3 & Hk4).
    split; [lia|]. split; [|split; congruence].
    rewrite Hc2, Hk2. by rewrite Nat.iter_add.
  - destruct ticks as [|t2 ticks]; [done|].
    change (List.last (t :: t2 :: ticks) t0) with (List.last (t2 :: ticks) t0).
    by rewrite (last_cons_indep t2 ticks t0 t).
Qed.
End Pace.

Lemma clock_keeps_pace_witness :
  exists n (s' : hstate unit), poll [100; 300; 450] (mkHs (mkTs [] (mkClock (mkTime 2024 1 1 0 0 0 1) 0)) tt None 0
      ya_init_timer, boot) = Done tt (s', boot) /\ 0 <= lag 450 s' <= 1000 /\ counted n
      (mkHs (mkTs [] (mkClock (mkTime 2024 1 1 0 0 0 1) 0)) tt None 0 ya_init_timer) s'.
Proof.
  destruct (clock_keeps_pace [100; 300; 450] 0
    (mkHs (mkTs [] (mkClock (mkTime 2024 1 1 0 0 0 1) 0)) tt None 0 ya_init_timer) boot)
    as (n & s' & He & Hc & Hl); [reflexivity || (vm_compute; congruence) | vm_compute; split; congruence | |].
  - intros [|[|[|i]]] a b Ha Hb; cbn in Ha, Hb; simplify_eq; lia.
  - exists n, s'. split; [exact He|]. split; [exact Hl | exact Hc].
Defined.
