(* ===== verification/UserData.v ===== *)
(** * Persistent user data and the start mode: [akeeta/app/src/ya_app_main.c]

    [ya_user_data] (mode, router credentials, cloud choice, factory flags) is
    kept as the raw bytes of the C structure, which is what is written to flash:
    a main copy and a backup.  On top of it: reading with fallback, the mode
    changes that end in a reboot, and the results of the two provisioning
    procedures. *)

From stdpp Require Import base numbers list strings.
From S2P Require Import Prelude Platform SpiFlash Flash CommonFunc CJson SysTime DeviceTimer License.
From S2P Require Import MainQueue Cloud.

(** ** Layout of [ya_user_data_t] *)
Definition SIZEOF_USER_DATA : Z := 564.
Definition o_mode : Z := 0.
Definition o_ssid : Z := 1.
Definition o_ssid_len : Z := 34.
Definition o_pwd : Z := 35.
Definition o_pwd_len : Z := 100.
Definition o_bssid : Z := 101.
Definition o_cloud_select : Z := 107.
Definition o_rssi_flag : Z := 115.
Definition o_rssi_name : Z := 116.
Definition o_ota_url : Z := 153.
Definition o_ota_all : Z := 556.
Definition o_ota_success : Z := 560.

Definition YA_USER_DATA_ADDR : Z := 0xAD000.
Definition YA_USER_DATA_BACK_ADDR : Z := 0xAE000.
Definition YA_OTA_DATA_ADDR : Z := 0xB4000.

(** [ya_init_module_mode] and [ya_app_status_t]. *)
Definition AP_MODE : Z := 0.
Definition SNIFFER_MODE : Z := 1.
Definition CONNECT_MODE : Z := 2.
Definition IDLE_MODE : Z := 3.
Inductive ya_app_status_t :=
| YA_APP_IDLE | YA_APP_SNIFFER_START | YA_APP_SNIFFER | YA_APP_AP_START | YA_APP_AP_STATE
| YA_APP_TO_CONNECT | YA_APP_CONNECTING | YA_APP_CONNECTED | YA_APP_WAIT_TO_CONNECT
| YA_APP_FACTORY_TEST.
#[export] Instance ya_app_status_eq_dec : EqDecision ya_app_status_t.
Proof. solve_decision. Defined.

(** [ya_app_main_para_t]: what the product passes to [ya_start_app_main]. *)
Record para_t := mkPara {
  cloud_type : Z; ya_init_mode : Z; sniffer_timeout : Z; ap_timeout : Z;
  cur_version : bytes; mcu_version : bytes; mcu_ota_enable : bool; enable_factory_uart : bool;
  enable_factory_router_scan : bool; enable_low_power : bool; enable_debind : bool }.
Definition AKEETA_CN : Z := 0.
Definition AKEETA_OVERSEA : Z := 1.
Definition UNKNOWN_CLOUD_TYPE : Z := 0xFF.
Definition MCU_MAX_VERSION_LEN : Z := 64.

(** The globals of ya_app_main.c, with [cloud_conn], the licences, and the two
    cached names of ya_aliyun_cloud.c. *)
Record app := mkApp {
  ud : bytes; sniffer_ap_mode : bool; debine_enable : bool; support_cloud : bool;
  ya_app_state : ya_app_status_t; config_random_num : bytes; para : para_t; ya_wifiCloud : Z;
  a_conn : option Z; a_lic : lic; product_key : bytes; device_name : bytes }.

Definition set_ud (v : bytes) (s : app) : app :=
  mkApp v (sniffer_ap_mode s) (debine_enable s) (support_cloud s) (ya_app_state s)
    (config_random_num s) (para s) (ya_wifiCloud s) (a_conn s) (a_lic s) (product_key s) (device_name s).
Definition set_sniffer_ap (v : bool) (s : app) : app :=
  mkApp (ud s) v (debine_enable s) (support_cloud s) (ya_app_state s)
    (config_random_num s) (para s) (ya_wifiCloud s) (a_conn s) (a_lic s) (product_key s) (device_name s).
Definition set_debine (v : bool) (s : app) : app :=
  mkApp (ud s) (sniffer_ap_mode s) v (support_cloud s) (ya_app_state s)
    (config_random_num s) (para s) (ya_wifiCloud s) (a_conn s) (a_lic s) (product_key s) (device_name s).
Definition set_support (v : bool) (s : app) : app :=
  mkApp (ud s) (sniffer_ap_mode s) (debine_enable s) v (ya_app_state s)
    (config_random_num s) (para s) (ya_wifiCloud s) (a_conn s) (a_lic s) (product_key s) (device_name s).
Definition set_state (v : ya_app_status_t) (s : app) : app :=
  mkApp (ud s) (sniffer_ap_mode s) (debine_enable s) (support_cloud s) v
    (config_random_num s) (para s) (ya_wifiCloud s) (a_conn s) (a_lic s) (product_key s) (device_name s).
Definition set_random (v : bytes) (s : app) : app :=
  mkApp (ud s) (sniffer_ap_mode s) (debine_enable s) (support_cloud s) (ya_app_state s)
    v (para s) (ya_wifiCloud s) (a_conn s) (a_lic s) (product_key s) (device_name s).
Definition set_para (v : para_t) (s : app) : app :=
  mkApp (ud s) (sniffer_ap_mode s) (debine_enable s) (support_cloud s) (ya_app_state s)
    (config_random_num s) v (ya_wifiCloud s) (a_conn s) (a_lic s) (product_key s) (device_name s).
Definition set_wifi_cloud (v : Z) (s : app) : app :=
  mkApp (ud s) (sniffer_ap_mode s) (debine_enable s) (support_cloud s) (ya_app_state s)
    (config_random_num s) (para s) v (a_conn s) (a_lic s) (product_key s) (device_name s).
Definition set_conn (v : option Z) (s : app) : app :=
  mkApp (ud s) (sniffer_ap_mode s) (debine_enable s) (support_cloud s) (ya_app_state s)
    (config_random_num s) (para s) (ya_wifiCloud s) v (a_lic s) (product_key s) (device_name s).
Definition set_lic (v : lic) (s : app) : app :=
  mkApp (ud s) (sniffer_ap_mode s) (debine_enable s) (support_cloud s) (ya_app_state s)
    (config_random_num s) (para s) (ya_wifiCloud s) (a_conn s) v (product_key s) (device_name s).
Definition set_names (pk dn : bytes) (s : app) : app :=
  mkApp (ud s) (sniffer_ap_mode s) (debine_enable s) (support_cloud s) (ya_app_state s)
    (config_random_num s) (para s) (ya_wifiCloud s) (a_conn s) (a_lic s) pk dn.

Definition para_cloud (v : Z) (p : para_t) : para_t :=
  mkPara v (ya_init_mode p) (sniffer_timeout p) (ap_timeout p) (cur_version p) (mcu_version p)
    (mcu_ota_enable p) (enable_factory_uart p) (enable_factory_router_scan p) (enable_low_power p)
    (enable_debind p).
Definition para_mcu (v : bytes) (p : para_t) : para_t :=
  mkPara (cloud_type p) (ya_init_mode p) (sniffer_timeout p) (ap_timeout p) (cur_version p) v
    (mcu_ota_enable p) (enable_factory_uart p) (enable_factory_router_scan p) (enable_low_power p)
    (enable_debind p).

Section UserData.
Context {C : Type} `{NorChip C} `{CloudEnv} `{JsonText}.
Abbreviation PM := (P C app).

(** Access to a byte and to bytes of [ya_user_data]. *)
Definition ud_get (o : Z) : PM Z := let* b := gets ud in rd b o.
Definition ud_put (o v : Z) : PM unit := let* b := gets ud in let* b := wr b o v in puts (set_ud b).
Definition ud_copy (o : Z) (src : bytes) : PM unit :=
  let* b := gets ud in let* b := memcpy b o src in puts (set_ud b).
(** [memset(&ya_user_data, 0, sizeof(ya_user_data_t))]. *)
Definition ud_clear : PM unit := puts (set_ud (zeros SIZEOF_USER_DATA)).
(** [strlen(ya_user_data.ota_test_url)], scanning on to the end of the structure. *)
Definition ud_string (o : Z) : PM bytes := let* b := gets ud in ret (cstr (drop (Z.to_nat o) b)).

(** ** Small accessors *)
Definition ya_set_mcu_ver_string (obj : bytes) : PM unit :=
  if len (cstr obj) <=? MCU_MAX_VERSION_LEN then
    let* s := gets id in
    let* v := strcpy (mcu_version (para s)) (cstr obj ++ [0]) in
    puts (set_para (para_mcu v (para s)))
  else ret tt.
Definition ya_get_debind_enable : PM bool := gets debine_enable.
Definition ya_debind_enable : PM unit := puts (set_debine true).
Definition ya_debind_disable : PM unit := puts (set_debine false).
(** The caller's buffer and the status. *)
Definition ya_get_randomnum (num : bytes) : PM (Z * bytes) :=
  let* r := gets config_random_num in
  let* r0 := rd r 0 in
  if r0 =? 0 then ret (-1, num)
  else let* num := strcpy num r in ret (0, num).
Definition ya_clear_randomnum : PM unit :=
  let* r := gets config_random_num in
  let* r := memset r 0 33 in puts (set_random r).
Definition ya_set_sniffer_ap_mode : PM unit := puts (set_sniffer_ap true).

(** ** Saving and reading *)
Definition ya_save_user_data : PM Z :=
  let* u := gets ud in
  let* r := ya_write_flash YA_USER_DATA_BACK_ADDR u SIZEOF_USER_DATA 1 in
  let* r1 := ya_write_flash YA_USER_DATA_ADDR u SIZEOF_USER_DATA 1 in
  ret (if negb (r =? 0) || negb (r1 =? 0) then C_ERROR else C_OK).

(** The stored credentials make sense, for a device that is to connect. *)
Definition user_data_valid (u : bytes) : bool :=
  let b o := u !!! Z.to_nat o in
  negb ((b o_mode =? CONNECT_MODE) &&
        ((b o_ssid_len =? 0) || (32 <? b o_ssid_len) || (64 <? b o_pwd_len) || (b o_ssid =? 0))).

Definition ya_read_user_data : PM Z :=
  ud_clear ;;
  let* u := gets ud in
  let* '(r, u) := ya_read_flash_with_fix_len YA_USER_DATA_ADDR u SIZEOF_USER_DATA 1 in
  puts (set_ud u) ;;
  let* read_error :=
    if negb (r =? 0) then
      let* '(r, u) := ya_read_flash_with_fix_len YA_USER_DATA_BACK_ADDR u SIZEOF_USER_DATA 1 in
      puts (set_ud u) ;;
      if negb (r =? 0) then ret true
      else ya_write_flash YA_USER_DATA_ADDR u SIZEOF_USER_DATA 1 ;; ret false
    else ret false in
  let* u := gets ud in
  if read_error || negb (user_data_valid u) then
    ud_clear ;;
    let* p := gets para in
    ud_put o_mode (ya_init_mode p) ;;
    ya_save_user_data ;;
    ret 0
  else ret 0.

(** ** OTA test and RSSI scan requests *)
Definition ya_delay (ms : Z) : PM unit := emit (EvDelay ms).

Definition ya_set_enter_ota_test_mode_internal {A} (url : option bytes) : PM A :=
  ud_copy o_ota_url (zeros 400) ;;
  let* url := deref url in
  ud_copy o_ota_url (cstr url) ;;
  ya_save_user_data ;;
  ya_delay 50 ;;
  ya_hal_sys_reboot.
Definition ya_check_enter_ota_test_mode : PM Z :=
  let* u := ud_string o_ota_url in ret (if len u =? 0 then 0 else 1).
Definition ya_get_ota_test_mode_url : PM (option bytes) :=
  let* u := ud_string o_ota_url in ret (if len u =? 0 then None else Some u).
(** A little-endian 32-bit counter of the structure, incremented. *)
Definition le32 (v : Z) : bytes := [u8 v; u8 (v / 256); u8 (v / 65536); u8 (v / 16777216)].
Definition of_le32 (b : bytes) : Z :=
  b !!! 0%nat + 256 * (b !!! 1%nat) + 65536 * (b !!! 2%nat) + 16777216 * (b !!! 3%nat).
Definition ud_incr (o : Z) : PM unit :=
  let* b := gets ud in
  let* v := rdn b o 4 in
  ud_copy o (le32 (u32 (of_le32 v + 1))).
Definition ya_cal_ota_test_num (ota_flag : Z) : PM unit :=
  ud_incr o_ota_all ;;
  (if ota_flag =? 1 then ud_incr o_ota_success else ret tt) ;;
  ya_save_user_data ;;
  ret tt.
Definition ya_set_exit_ota_test_mode : PM unit :=
  ya_read_user_data ;;
  let* u := ud_string o_ota_url in
  if negb (len u =? 0) then
    ud_copy o_ota_url (zeros 400) ;;
    ud_copy o_ota_all (zeros 4) ;;
    ud_copy o_ota_success (zeros 4) ;;
    ya_save_user_data ;;
    ya_delay 50 ;;
    ya_hal_sys_reboot
  else ret tt.
Definition ya_set_factory_rssi_info_internal {A} (buf : option bytes) : PM A :=
  ud_put o_rssi_flag 1 ;;
  ud_copy o_rssi_name (zeros 33) ;;
  let* buf := deref buf in
  ud_copy o_rssi_name (cstr buf) ;;
  ya_save_user_data ;;
  ya_delay 50 ;;
  ya_hal_sys_reboot.

(** ** Start mode and mode changes *)
Definition toggled_default (init : Z) : Z :=
  if init =? SNIFFER_MODE then SNIFFER_MODE else if init =? AP_MODE then AP_MODE else AP_MODE.
Definition start_state (mode : Z) : ya_app_status_t :=
  if mode =? AP_MODE then YA_APP_AP_START
  else if mode =? SNIFFER_MODE then YA_APP_SNIFFER_START
  else if mode =? CONNECT_MODE then YA_APP_TO_CONNECT
  else if mode =? IDLE_MODE then YA_APP_IDLE
  else YA_APP_SNIFFER_START.
Definition ya_init_start_mode : PM unit :=
  let* toggle := gets sniffer_ap_mode in
  (if toggle then
     let* mode := ud_get o_mode in
     let* p := gets para in
     ud_put o_mode (if mode =? SNIFFER_MODE then AP_MODE
                    else if mode =? AP_MODE then SNIFFER_MODE
                    else toggled_default (ya_init_mode p)) ;;
     ya_save_user_data ;; ret tt
   else ret tt) ;;
  let* mode := ud_get o_mode in
  puts (set_state (start_state mode)).

Definition ya_erase_all_user_data : PM unit :=
  ya_erase_flash YA_USER_DATA_BACK_ADDR SIZEOF_USER_DATA ;;
  ya_erase_flash YA_USER_DATA_ADDR SIZEOF_USER_DATA ;;
  ya_erase_flash YA_OTA_DATA_ADDR 0x1000 ;;
  ya_erase_flash YA_DEVICE_TIMER_ADDR 0x1000 ;;
  ret tt.
Definition ya_set_idle_internal : PM unit :=
  ud_put o_mode IDLE_MODE ;; ya_save_user_data ;; ret tt.

Definition toggle_target (st : ya_app_status_t) (init : Z) : Z :=
  match st with
  | YA_APP_SNIFFER_START | YA_APP_SNIFFER => AP_MODE
  | YA_APP_AP_START | YA_APP_AP_STATE => SNIFFER_MODE
  | _ => toggled_default init
  end.
Definition ya_set_mode_internal {A} (obj_mode : Z) (flag : bool) : PM A :=
  ud_clear ;;
  let* s := gets id in
  ud_put o_mode (if flag then toggle_target (ya_app_state s) (ya_init_mode (para s)) else obj_mode) ;;
  ya_save_user_data ;;
  ya_erase_flash YA_OTA_DATA_ADDR 0x1000 ;;
  ya_delay 50 ;;
  (if enable_debind (para s) then
     ya_erase_flash YA_DEVICE_TIMER_ADDR 0x1000 ;;
     if negb (ya_get_cloud_status (a_conn s) =? 0) then ya_cloud_unregister (a_conn s) ;; ya_delay 2000
     else ret tt
   else ret tt) ;;
  ya_hal_sys_reboot.
Definition ya_set_toggle_mode (change_with_power_on : Z) : PM Z :=
  if negb (change_with_power_on =? 0) then ya_set_sniffer_ap_mode ;; ret 0
  else post YA_CHANGE_TOGGLE_MODE.
Definition ya_reset_module_to_factory_internal {A} : PM A :=
  ya_erase_all_user_data ;; ya_delay 50 ;; ya_hal_sys_reboot.

(** ** Results of the provisioning procedures *)

(** [ya_ap_router_para_t]: fixed arrays of the soft-AP module. *)
Record ap_result := mkAp {
  router_ssid : bytes; router_pwd : bytes; router_bssid : bytes; ap_random : bytes; ap_cloud : Z }.
(** Store the router and the session's random number; the caller has checked
    the lengths. *)
Definition store_router (ssid pwd bssid random : bytes) (select : Z) : PM unit :=
  ud_clear ;;
  ud_put o_mode CONNECT_MODE ;;
  ud_put o_ssid_len (len ssid) ;;
  ud_copy o_ssid ssid ;;
  ud_put o_pwd_len (len pwd) ;;
  ud_copy o_pwd pwd ;;
  let* b := rdn bssid 0 6 in
  ud_copy o_bssid b ;;
  ud_put o_cloud_select (select + 1) ;;
  let* r := gets config_random_num in
  let* r := memset r 0 33 in
  let* r := strcpy r random in
  puts (set_random r).

Definition ya_softap_callback (errorcode : Z) (r : ap_result) : PM unit :=
  let ssid := cstr (router_ssid r) in
  let pwd := cstr (router_pwd r) in
  let* type :=
    if errorcode =? 0 then
      if (len ssid =? 0) || (32 <? len ssid) || (64 <? len pwd) then ret YA_AP_CONFIG_FAIL
      else store_router ssid pwd (router_bssid r) (ap_random r) (ap_cloud r) ;; ret YA_AP_CONFIG_SUCCESS
    else ret YA_AP_CONFIG_FAIL in
  ya_hal_os_queue_send QMain (mkMsg 0 None type) ;; ret tt.

(** [smnt_result_t]: the lengths are separate fields. *)
Record smnt_result := mkSmnt {
  smnt_result_status : Z; smnt_ssid_len : Z; smnt_password_len : Z; smnt_ssid : bytes;
  smnt_password : bytes; smnt_bssid : bytes; smnt_cloud : Z; smnt_rand : bytes }.
Definition ya_smart_config_result_callback (r : smnt_result) : PM unit :=
  let* first := rd (smnt_ssid r) 0 in
  let error := negb (smnt_result_status r =? 0) || (smnt_ssid_len r =? 0) || (32 <? smnt_ssid_len r)
               || (64 <? smnt_password_len r) || (first =? 0) in
  if error then ya_hal_os_queue_send QMain (mkMsg 0 None YA_SNIFFER_FAIL) ;; ret tt
  else
    let* ssid := rdn (smnt_ssid r) 0 (smnt_ssid_len r) in
    let* pwd := rdn (smnt_password r) 0 (smnt_password_len r) in
    store_router ssid pwd (smnt_bssid r) (smnt_rand r) (smnt_cloud r) ;;
    ya_hal_os_queue_send QMain (mkMsg 0 None YA_SNIFFER_SUCCESS) ;; ret tt.
End UserData.
