(* ===== verification/AppMain.v ===== *)
(** * The main task: [akeeta/app/src/ya_app_main.c]

    [ya_start_app_main] reads the user data and chooses the start state; the
    task [ya_app_main] then runs a state machine (sniffer or soft-AP
    provisioning, connecting, connected, waiting to reconnect, idle, factory
    test) driven by its own state and by the messages of the main queue. *)

From stdpp Require Import base numbers list strings.
From S2P Require Import Prelude Platform SpiFlash Flash CommonFunc HalTimer CJson SysTime.
From S2P Require Import DeviceTimer License MainQueue Cloud UserData.

Definition MODULE_AP : Z := 0.
Definition MODULE_SNIFFER : Z := 1.
Definition MODULE_IDLE : Z := 2.
Definition MODULE_CONNECTING : Z := 3.
Definition MODLUE_CONNECT : Z := 4.
Definition MODLUE_FACTORY_TEST : Z := 5.
Definition AWS_DOMAIN_SUPPORT : Z := 2 + 4.

(** What the modules started from here answer: the OTA, UART and hardware
    tasks, the watchdog, smart config, the WLAN driver. *)
Class MainEnv := {
  ya_start_ota_app : Z;
  ya_start_uart_app : Z;
  ya_start_hardware_app : Z;
  ya_hal_wdt_set_timeout : Z -> Z;
  start_smnt : Z -> Z;
  ya_hal_wlan_connect_ap : bytes -> bytes -> bytes -> Z;
  (** status, and (found, rssi) for each name *)
  ya_hal_wlan_scan_obj_ssid : list bytes -> Z * list (Z * Z);
  (** the answer of the [i]-th scan for the network in [scan_ssid] *)
  rssi_scan : bytes -> Z -> Z * (Z * Z);
  check_enter_get_rssi_mode : Z;
}.

(** [ya_sniffer_broadcast_enable]. *)
Inductive broadcast_state := INIT_MODE | SNIFFER_SUCCESS | START_BROADCAST | BROADCAST_WAIT.
#[export] Instance broadcast_state_eq_dec : EqDecision broadcast_state.
Proof. solve_decision. Defined.
(** The locals of [ya_app_main] that live across turns. *)
Record mstate := mkMs {
  ms_app : app; link_connect : bool; broadcast : broadcast_state; reconnect_count : Z;
  wait_start : Z }.

Section CloudChoice.
Context {C : Type} `{NorChip C} `{CloudEnv} `{JsonText} `{MainEnv}.
Abbreviation PM := (P C app).

Definition in_lic {A} (m : P C lic A) : PM A := zoom_s a_lic set_lic m.
Definition ya_thing_handle_router (status : Z) (data : list Z) : PM unit := emit (EvRouter status data).

(** [ya_aly_get_thing_name], [ya_aly_get_client_id] of ya_aliyun_cloud.c: names
    cached from the licence, NULL while empty. *)
Definition ya_aly_get_thing_name : PM (option bytes) :=
  let* s := gets id in
  (if len (cstr (product_key s)) =? 0 then
     let* '(_, pk) := in_lic (ya_get_productKey (product_key s)) in
     puts (set_names pk (device_name s))
   else ret tt) ;;
  let* s := gets id in
  ret (if len (cstr (product_key s)) =? 0 then None else Some (product_key s)).
Definition ya_aly_get_client_id : PM (option bytes) :=
  let* s := gets id in
  (if len (cstr (device_name s)) =? 0 then
     let* '(_, dn) := in_lic (ya_get_deviceID (device_name s)) in
     puts (set_names (product_key s) dn)
   else ret tt) ;;
  let* s := gets id in
  ret (if len (cstr (device_name s)) =? 0 then None else Some (device_name s)).

Definition ya_check_cloud_support (save_cloud_type : Z) : PM Z :=
  let ct := u8 (save_cloud_type - 1) in
  if WIFI_MAX <=? ct then ret (-1)
  else
    let* s := gets id in
    let cur := cloud_type (para s) in
    if ((cur =? AKEETA_CN) && negb (ct =? WIFI_CN)) || ((cur =? AKEETA_OVERSEA) && (ct =? WIFI_CN))
    then ret (-1)
    else
      puts (set_para (para_cloud ct (para s))) ;;
      let* pk := if ct =? 0 then ya_aly_get_thing_name else in_lic ya_aws_get_thing_type in
      let* id := if ct =? 0 then ya_aly_get_client_id else in_lic ya_aws_get_client_id in
      match pk, id with
      | Some pk, Some id =>
        ret (if (len (cstr pk) =? 0) || (len (cstr id) =? 0) then -1 else 0)
      | _, _ => ret (-1)
      end.

(** [if (name() && id()) ya_wifiCloud += bits]: the second getter is only
    called when the first answers. *)
Definition add_support (name id : PM (option bytes)) (bits : Z) : PM unit :=
  let* a := name in
  match a with
  | None => ret tt
  | Some _ =>
    let* b := id in
    match b with
    | None => ret tt
    | Some _ => puts (fun s => set_wifi_cloud (u32 (ya_wifiCloud s + bits)) s)
    end
  end.
Definition ya_wifi_cloud_support : PM Z :=
  puts (set_wifi_cloud 0) ;;
  let* s := gets id in
  let cn := add_support ya_aly_get_thing_name ya_aly_get_client_id (Z.shiftl 1 WIFI_CN) in
  let aws := add_support (in_lic ya_aws_get_thing_type) (in_lic ya_aws_get_client_id) AWS_DOMAIN_SUPPORT in
  (if cloud_type (para s) =? AKEETA_CN then cn
   else if cloud_type (para s) =? AKEETA_OVERSEA then aws
   else cn ;; aws) ;;
  ret 0.

Definition ya_start_cloud_apps (ct : Z) : PM unit :=
  (if ct =? WIFI_CN then in_lic ya_aws_para_free else in_lic ya_aliyun_para_free) ;;
  let* s := gets id in
  let '(c, _) := cloud_create (a_conn s) ct in
  puts (set_conn c) ;;
  (match c with Some _ => emit (EvCloud "listen" 3) | None => ret tt end) ;;
  if negb (cloud_start c =? 0) then ya_hal_sys_reboot
  else if negb (ya_start_ota_app =? 0) then ya_hal_sys_reboot
  else ret tt.

Definition ya_start_other_apps : PM unit :=
  let* s := gets id in
  if enable_factory_uart (para s) && negb (ya_start_uart_app =? 0) then ya_hal_sys_reboot
  else if negb (ya_start_hardware_app =? 0) then ya_hal_sys_reboot
  else if bool_decide (ya_app_state s = YA_APP_TO_CONNECT) && (cloud_type (para s) <? WIFI_MAX)
  then ya_start_cloud_apps (cloud_type (para s))
  else ret tt.

Definition ya_check_enter_factory_mode : PM Z :=
  if negb (check_enter_get_rssi_mode =? 0) then ret (-1)
  else
    let '(r, found) := ya_hal_wlan_scan_obj_ssid [str "akeeta_mdev_test1"; str "akeeta_mdev_test2"] in
    match found with
    | [(r0, s0); (r1, s1)] =>
      if (r =? 0) && ((r0 =? 1) || (r1 =? 1)) then
        ya_thing_handle_router MODLUE_FACTORY_TEST [r0; s0; r1; s1] ;; ret 0
      else ret (-1)
    | _ => ret (-1)
    end.

(** The [Rescan] loop: up to five scans that fail to run; [flag] counts them.  The
    stored name is copied, as long as it is, into an array of 33. *)
Fixpoint rescan (fuel : nat) (flag : Z) : PM Z :=
  match fuel with
  | O => ret (-1)
  | S fuel =>
    let* name := ud_string o_rssi_name in
    let* scan_ssid := memcpy (zeros 33) 0 name in
    let '(r, (found, rssi)) := rssi_scan scan_ssid flag in
    if r =? 0 then
      if found =? 1 then
        let rsp := str "rsp:-" ++ ya_int_to_string (u32 (- rssi)) in
        emit (EvWlan "at" [rsp]) ;; ya_delay 100 ;; emit (EvWlan "at" [rsp]) ;; ya_delay 100 ;;
        emit (EvWlan "clear_enter_get_rssi_mode" []) ;;
        ret 0
      else ret (-1)
    else if u8 (flag + 1) <? 5 then rescan fuel (u8 (flag + 1))
    else emit (EvWlan "at" [str "rsp:ERROR"]) ;; ret (-1)
  end.
Definition ya_enter_scan_specific_ssid_rssi_mode : PM Z := rescan 5 0.
End CloudChoice.

Section MainTask.
Context {C : Type} `{NorChip C} `{CloudEnv} `{JsonText} `{MainEnv}.
Abbreviation PT := (P C mstate).
Definition in_app {A} (m : P C app A) : PT A :=
  zoom_s ms_app (fun a s => mkMs a (link_connect s) (broadcast s) (reconnect_count s) (wait_start s)) m.
Definition set_link (v : bool) (s : mstate) : mstate :=
  mkMs (ms_app s) v (broadcast s) (reconnect_count s) (wait_start s).
Definition set_broadcast (v : broadcast_state) (s : mstate) : mstate :=
  mkMs (ms_app s) (link_connect s) v (reconnect_count s) (wait_start s).
Definition set_reconnect (v : Z) (s : mstate) : mstate :=
  mkMs (ms_app s) (link_connect s) (broadcast s) v (wait_start s).
Definition set_wait_start (v : Z) (s : mstate) : mstate :=
  mkMs (ms_app s) (link_connect s) (broadcast s) (reconnect_count s) v.
Definition to_state (st : ya_app_status_t) : PT unit := in_app (puts (set_state st)).
Definition tell_router (status : Z) : PT unit := in_app (ya_thing_handle_router status []).
Definition wlan (what : string) : PT unit := emit (EvWlan what []).

(** [ya_start_app_main], before the task starts. *)
Definition ya_start_app_main (p : para_t) : P C app unit :=
  puts (set_para p) ;;
  ya_read_user_data ;;
  ya_init_start_mode ;;
  (if cloud_type p =? AKEETA_OVERSEA then in_lic ya_aws_para_init
   else if cloud_type p =? AKEETA_CN then in_lic ya_aliyun_para_init
   else in_lic ya_aliyun_para_init ;; in_lic ya_aws_para_init) ;;
  ret tt.

Definition announce (st : ya_app_status_t) : P C app unit :=
  match st with
  | YA_APP_IDLE => ya_thing_handle_router MODULE_IDLE []
  | YA_APP_SNIFFER_START => ya_thing_handle_router MODULE_SNIFFER []
  | YA_APP_AP_START => ya_thing_handle_router MODULE_AP []
  | YA_APP_TO_CONNECT => ya_thing_handle_router MODULE_CONNECTING []
  | _ => ret tt
  end.
(** The one-off RSSI measurement a factory tool asked for before the reboot. *)
Definition rssi_request : P C app unit :=
  let* f := ud_get o_rssi_flag in
  if f =? 1 then
    emit (EvWlan "at_cmd_log_OFF" []) ;;
    puts (fun s => set_para (let p := para s in
      mkPara (cloud_type p) (ya_init_mode p) (sniffer_timeout p) (ap_timeout p) (cur_version p)
        (mcu_version p) (mcu_ota_enable p) (enable_factory_uart p) false (enable_low_power p)
        (enable_debind p)) s) ;;
    ya_enter_scan_specific_ssid_rssi_mode ;;
    ud_put o_rssi_flag 0 ;;
    ud_copy o_rssi_name (zeros 33) ;;
    ya_save_user_data ;;
    ya_delay 500 ;;
    emit (EvWlan "at_cmd_log_ON" [])
  else ret tt.

(** [ya_app_main] up to its loop. *)
Definition ya_app_main_init : P C app unit :=
  ya_wifi_cloud_support ;;
  let* s := gets id in
  (if bool_decide (ya_app_state s = YA_APP_TO_CONNECT) then
     let* sel := ud_get o_cloud_select in
     let ct := u32 (sel - 1) in
     puts (set_para (para_cloud (if WIFI_MAX <=? ct then WIFI_CN else ct) (para s)))
   else ret tt) ;;
  announce (ya_app_state s) ;;
  emit (EvWlan "start" []) ;;
  rssi_request ;;
  ya_start_other_apps ;;
  if negb (ya_hal_wdt_set_timeout 60000 =? 0) then ya_hal_sys_reboot
  else
    emit (EvWlan "wdt_start" []) ;;
    let* s := gets id in
    (if enable_low_power (para s) then ret tt else emit (EvWlan "disable_power_saving" [])) ;;
    (if bool_decide (ya_app_state s = YA_APP_TO_CONNECT) || negb (enable_debind (para s))
     then ya_debind_disable else ya_debind_enable) ;;
    ya_clear_randomnum ;;
    if enable_factory_router_scan (para s) then
      ya_delay 200 ;;
      let* r := ya_check_enter_factory_mode in
      if r =? 0 then puts (set_state YA_APP_FACTORY_TEST) else ret tt
    else ret tt.

(** The [YA_APP_TO_CONNECT] state: hand the stored router to the driver. *)
Definition start_connecting : PT unit :=
  tell_router MODULE_CONNECTING ;;
  let* u := gets (fun s => ud (ms_app s)) in
  let* n := rd u o_ssid_len in
  let* ssid := rdn u o_ssid n in
  let* y_ssid := memcpy (zeros 33) 0 ssid in
  let* m := rd u o_pwd_len in
  let* pwd := rdn u o_pwd m in
  let* y_pwd := memcpy (zeros 65) 0 pwd in
  let* bssid := rdn u o_bssid 6 in
  if negb (ya_hal_wlan_connect_ap y_ssid y_pwd bssid =? 0) then ya_hal_sys_reboot
  else to_state YA_APP_CONNECTING.

(** The switch on [ya_app_state] at the head of a turn; [now] is
    [ya_hal_os_ticks_to_msec()]. *)
Definition state_step (now : Z) : PT unit :=
  let* s := gets id in
  match ya_app_state (ms_app s) with
  | YA_APP_SNIFFER_START =>
    tell_router MODULE_SNIFFER ;;
    if negb (start_smnt (sniffer_timeout (para (ms_app s))) =? 0) then ya_hal_sys_reboot
    else to_state YA_APP_SNIFFER
  | YA_APP_AP_START =>
    tell_router MODULE_AP ;; wlan "start_softap" ;; to_state YA_APP_AP_STATE
  | YA_APP_TO_CONNECT => start_connecting
  | YA_APP_WAIT_TO_CONNECT =>
    let reconnect_timer := if 10 <? reconnect_count s then 10000 else 3000 in
    if ya_timer_compare (wait_start s) (u32 now) reconnect_timer =? 0 then
      puts (fun s => set_reconnect (u16 (reconnect_count s + 1)) s) ;;
      wlan "sta_mode" ;;
      to_state YA_APP_TO_CONNECT
    else ret tt
  | _ => ret tt
  end.

(** The shared tail of the two provisioning successes. *)
Definition provisioned : PT unit :=
  in_app ya_save_user_data ;;
  ya_clear_timer_flash_into_hardware_queue ;;
  let* sel := in_app (ud_get o_cloud_select) in
  let* r := in_app (ya_check_cloud_support sel) in
  (if r =? 0 then
     let* s := gets id in in_app (ya_start_cloud_apps (cloud_type (para (ms_app s))))
   else in_app (puts (set_support false))) ;;
  wlan "sta_mode" ;;
  to_state YA_APP_TO_CONNECT.
Definition provisioning_failed : PT unit :=
  wlan "sta_mode" ;; to_state YA_APP_IDLE ;; tell_router MODULE_IDLE.

(** The switch on the message type. *)
Definition handle_main_msg (now : Z) (m : msg) : PT unit :=
  let ty := m_type m in
  if ty =? YA_SNIFFER_SUCCESS then provisioned ;; puts (set_broadcast SNIFFER_SUCCESS)
  else if ty =? YA_SNIFFER_FAIL then provisioning_failed
  else if ty =? YA_CONNECT_SUCCESS then
    puts (set_reconnect 0) ;;
    tell_router MODLUE_CONNECT ;;
    to_state YA_APP_CONNECTED ;;
    puts (set_link true) ;;
    let* s := gets id in
    if bool_decide (broadcast s = SNIFFER_SUCCESS)
    then puts (set_broadcast BROADCAST_WAIT) ;; wlan "start_sniffer_broadcast" else ret tt
  else if ty =? YA_CONNECT_FAIL then
    to_state YA_APP_WAIT_TO_CONNECT ;; wlan "stop" ;; puts (set_wait_start (u32 now))
  else if ty =? YA_AP_CONFIG_SUCCESS then provisioned
  else if ty =? YA_AP_CONFIG_FAIL then provisioning_failed
  else if ty =? YA_CHANGE_TOGGLE_MODE then in_app (ya_set_mode_internal 0 true)
  else if ty =? YA_CHANGE_AP_MODE then in_app (ya_set_mode_internal AP_MODE false)
  else if ty =? YA_CHANGE_SNIFFER_MODE then in_app (ya_set_mode_internal SNIFFER_MODE false)
  else if ty =? YA_FACTORY_MODE then in_app ya_reset_module_to_factory_internal
  else if ty =? YA_CHANGE_IDLE_NEXT_REBOOT then in_app ya_set_idle_internal
  else if ty =? YA_LINK_LOST then
    let* s := gets id in
    if link_connect s then to_state YA_APP_TO_CONNECT ;; puts (set_link false) else ret tt
  else if ty =? YA_SET_SCAN_RSSI then in_app (ya_set_factory_rssi_info_internal (m_addr m))
  else if ty =? YA_SET_OTA_TEST then in_app (ya_set_enter_ota_test_mode_internal (m_addr m))
  else ret tt.

(** One turn of [while (1)]. *)
Definition ya_app_main_step (now : Z) : PT unit :=
  state_step now ;;
  let* o := ya_hal_os_queue_recv QMain in
  (match o with
   | None => ret tt
   | Some m => handle_main_msg now m ;; free_if (m_addr m)
   end) ;;
  wlan "wdt_feed".
End MainTask.
