(* ===== verification/UserDataProofs.v ===== *)
(** * Persistence of the user data: correctness

    Theorems about [UserData] and the mode messages of [AppMain]: the saved
    data survives a reboot and an interrupted save, a mode change takes effect
    at the next start, and provisioned credentials are the ones used to
    connect. *)

From stdpp Require Import base numbers list strings.
From S2P Require Import Prelude Platform SpiFlash Flash CommonFunc HalTimer CJson SysTime.
From S2P Require Import DeviceTimer License MainQueue Cloud UserData AppMain.

(** The structure in memory. *)
Definition ud_image (u : bytes) : Prop := len u = SIZEOF_USER_DATA /\ is_bytes u.
#[export] Instance ud_image_dec u : Decision (ud_image u).
Proof. unfold ud_image; apply _. Defined.
(** The image a mode change or a failed read leaves: zeros with the mode. *)
Definition fresh_image (mode : Z) : bytes := <[0%nat := u8 mode]> (zeros SIZEOF_USER_DATA).

Lemma fresh_image_ok mode : ud_image (fresh_image mode).
Proof.
  split; [unfold fresh_image; rewrite len_insert; done|].
  unfold fresh_image. apply Forall_insert; [apply is_bytes_zeros|apply u8_range].
Qed.
Lemma fresh_valid mode : mode <> CONNECT_MODE -> is_u8 mode -> user_data_valid (fresh_image mode) = true.
Proof.
  intros Hm Hu. unfold user_data_valid, fresh_image, CONNECT_MODE in *.
  change (<[0%nat:=u8 mode]> (zeros SIZEOF_USER_DATA) !!! Z.to_nat o_mode) with (u8 mode).
  rewrite u8_small by done. destruct (Z.eqb_spec mode 2); done.
Qed.

Section Store.
Context {C : Type} `{NorChipLaws C, !NorReliable C}.
Implicit Types (s : app) (h : hw C) (u : bytes) (c : C).

(** The chip agrees with another outside the two user-data blocks. *)
Definition elsewhere c c' : Prop :=
  forall x, x < YA_USER_DATA_ADDR \/ YA_USER_DATA_ADDR + 8192 <= x -> nor_read c' x = nor_read c x.

Definition block_addr (addr : Z) : Prop := addr = YA_USER_DATA_ADDR \/ addr = YA_USER_DATA_BACK_ADDR.
Lemma block_addr_fits addr : block_addr addr -> addr mod 4096 = 0 /\ 0 <= addr <= 1000000.
Proof. by intros [-> | ->]. Qed.

Lemma write_block addr u s h :
  block_addr addr -> ud_image u -> heap h = [] ->
  exists c', ya_write_flash addr u SIZEOF_USER_DATA 1 (s, h) = Done (stale h) (s, set_chip c' h) /\
    holds c' addr u /\ forall x, x < addr \/ addr + 4096 <= x -> nor_read c' x = nor_read (chip h) x.
Proof.
  intros [Ha Ha']%block_addr_fits [Hl Hb] Hheap. unfold SIZEOF_USER_DATA in *.
  destruct (write_flash_spec addr u 564 1 s h) as (c' & Hw & Hh & Hf);
    [exact Ha|lia|lia|lia|lia|lia|exact Hb|exact Hheap|].
  rewrite slice_full in Hh by done. by exists c'.
Qed.

(** A record elsewhere survives a write. *)
Lemma holds_other c c' addr addr' u :
  ud_image u -> holds c addr u ->
  (forall x, x < addr' \/ addr' + 4096 <= x -> nor_read c' x = nor_read c x) ->
  addr + 4096 <= addr' \/ addr' + 4096 <= addr -> holds c' addr u.
Proof.
  intros [Hl _] Hh Hf Ha. eapply holds_frame; [|exact Hh]. intros x Hx. apply Hf.
  pose proof (record_size_bounds (len u) (len_nonneg _)). unfold SIZEOF_USER_DATA in *. lia.
Qed.

Lemma save_ok s h :
  ud_image (ud s) -> heap h = [] ->
  exists c', ya_save_user_data (s, h) =
      Done (if stale h =? 0 then C_OK else C_ERROR) (s, set_chip c' h) /\
    holds c' YA_USER_DATA_BACK_ADDR (ud s) /\ holds c' YA_USER_DATA_ADDR (ud s) /\
    elsewhere (chip h) c'.
Proof.
  intros Hu Hheap. unfold ya_save_user_data. erewrite bind_done by reflexivity. cbn [fst].
  destruct (write_block YA_USER_DATA_BACK_ADDR (ud s) s h) as (c1 & Hw1 & Hh1 & Hf1); [by right|done..|].
  destruct (write_block YA_USER_DATA_ADDR (ud s) s (set_chip c1 h)) as (c2 & Hw2 & Hh2 & Hf2);
    [by left|done..|].
  exists c2. erewrite bind_done by exact Hw1. erewrite bind_done by exact Hw2. split; [|split; [|split]].
  - cbn. by destruct (stale h =? 0).
  - apply (holds_other c1 c2 YA_USER_DATA_BACK_ADDR YA_USER_DATA_ADDR); try done. by right.
  - done.
  - intros x Hx. rewrite Hf2, Hf1; [done|..]; unfold YA_USER_DATA_ADDR, YA_USER_DATA_BACK_ADDR in *; cbn; lia.
Qed.

Lemma splice_zeros_full u : ud_image u -> splice (zeros SIZEOF_USER_DATA) 0 u = u.
Proof.
  intros [Hl _]. unfold splice. change (Z.to_nat 0) with 0%nat. rewrite take_0, app_nil_l. cbn [Nat.add].
  rewrite drop_ge; [by rewrite app_nil_r|]. unfold zeros. rewrite length_replicate.
  unfold len, SIZEOF_USER_DATA in *. lia.
Qed.
Lemma read_block addr u s h :
  block_addr addr -> ud_image u -> heap h = [] ->
  holds (chip h) addr u ->
  ya_read_flash_with_fix_len addr (zeros SIZEOF_USER_DATA) SIZEOF_USER_DATA 1 (s, h)
    = Done (0, u) (s, h).
Proof.
  intros [Ha Ha']%block_addr_fits Hu Hheap Hh. pose proof Hu as [Hl Hb].
  pose proof (len_zeros SIZEOF_USER_DATA ltac:(done)) as Hz. unfold SIZEOF_USER_DATA in *.
  rewrite (read_fix_holds addr u); [|exact Hh|lia|lia|lia|lia|lia|lia|exact Hheap].
  rewrite take_ge by (unfold len in Hl; lia).
  rewrite splice_zeros_full by done. do 2 f_equal. rewrite <- Hheap. by destruct h.
Qed.

(** The main copy is good: it is what is read. *)
Lemma read_main u s h :
  ud_image u -> user_data_valid u = true -> heap h = [] -> holds (chip h) YA_USER_DATA_ADDR u ->
  ya_read_user_data (s, h) = Done 0 (set_ud u s, h).
Proof.
  intros Hu Hv Hheap Hh. unfold ya_read_user_data. erewrite bind_done by reflexivity.
  erewrite bind_done by reflexivity. cbn [fst ud set_ud].
  erewrite bind_done by (apply read_block; [by left|exact Hu|done|done]).
  cbn beta iota. erewrite bind_done by reflexivity. cbn [negb Z.eqb].
  erewrite bind_done by reflexivity. erewrite bind_done by reflexivity. cbn [fst ud set_ud orb].
  rewrite Hv. done.
Qed.
(** The main copy is gone, the backup is good: it is read and the main copy
    restored. *)
Lemma read_backup u s h :
  ud_image u -> user_data_valid u = true -> heap h = [] ->
  record_ok (chip h) YA_USER_DATA_ADDR = false -> holds (chip h) YA_USER_DATA_BACK_ADDR u ->
  exists c', ya_read_user_data (s, h) = Done 0 (set_ud u s, set_chip c' h) /\
    holds c' YA_USER_DATA_ADDR u /\ holds c' YA_USER_DATA_BACK_ADDR u.
Proof.
  intros Hu Hv Hheap Hm Hh. unfold ya_read_user_data. erewrite bind_done by reflexivity.
  erewrite bind_done by reflexivity. cbn [fst ud set_ud].
  erewrite bind_done by (by apply read_fix_bad).
  cbn beta iota. erewrite bind_done by reflexivity. cbn [negb Z.eqb].
  set (s1 := set_ud _ (set_ud _ s)).   destruct (write_block YA_USER_DATA_ADDR u (set_ud u s1) h) as (c' & Hw & Hh' & Hf); [by left|done..|].
  exists c'. split; [|split; [done|]].
  - erewrite bind_done.
    2:{ erewrite bind_done by (apply read_block; [by right|exact Hu|done|done]).
        cbn beta iota. erewrite bind_done by reflexivity. cbn [negb Z.eqb].
        erewrite bind_done by exact Hw. reflexivity. }
    erewrite bind_done by reflexivity. cbn [fst ud set_ud orb]. by rewrite Hv.
  - apply (holds_other (chip h) c' YA_USER_DATA_BACK_ADDR YA_USER_DATA_ADDR); try done. by right.
Qed.
(** Neither copy: the defaults, saved. *)
Lemma read_default s h :
  heap h = [] -> record_ok (chip h) YA_USER_DATA_ADDR = false ->
  record_ok (chip h) YA_USER_DATA_BACK_ADDR = false ->
  exists c', ya_read_user_data (s, h) =
      Done 0 (set_ud (fresh_image (ya_init_mode (para s))) s, set_chip c' h) /\
    holds c' YA_USER_DATA_ADDR (fresh_image (ya_init_mode (para s))).
Proof.
  intros Hheap Hm Hb. unfold ya_read_user_data. erewrite bind_done by reflexivity.
  erewrite bind_done by reflexivity. cbn [fst ud set_ud].
  erewrite bind_done by (by apply read_fix_bad).
  cbn beta iota. erewrite bind_done by reflexivity. cbn [negb Z.eqb].
  erewrite bind_done.
  2:{ erewrite bind_done by (by apply read_fix_bad). cbn beta iota.
      erewrite bind_done by reflexivity. reflexivity. }
  erewrite bind_done by reflexivity. cbn [fst orb].
  erewrite bind_done by reflexivity. erewrite bind_done by reflexivity. cbn [fst para set_ud].
  erewrite bind_done.
  2:{ unfold ud_put. erewrite bind_done by reflexivity. cbn [fst ud set_ud].
      erewrite bind_done by (by apply wr_ok). reflexivity. }
  change (<[Z.to_nat o_mode:=_]> (zeros SIZEOF_USER_DATA)) with (fresh_image (ya_init_mode (para s))).
  match goal with |- context [bind ya_save_user_data _ (?s1, h)] =>
    destruct (save_ok s1 h) as (c' & Hs & _ & Hh & _); [apply fresh_image_ok|done|] end.
  exists c'. erewrite bind_done by exact Hs. done.
Qed.

(** ** Power failure during a save *)

(** The flash that a save of [u] over [c] may leave when power is lost: while
    the backup is rewritten nothing else has changed; while the main copy is
    rewritten the backup is complete and the main block is not a good record
    (erased, or half programmed with a checksum that does not fit); after that
    the main copy is complete. *)
Inductive save_cut c u : C -> Prop :=
| cut_in_backup c' :
    (forall x, x < YA_USER_DATA_BACK_ADDR \/ YA_USER_DATA_BACK_ADDR + 4096 <= x ->
       nor_read c' x = nor_read c x) -> save_cut c u c'
| cut_in_main c' :
    holds c' YA_USER_DATA_BACK_ADDR u -> record_ok c' YA_USER_DATA_ADDR = false -> save_cut c u c'
| cut_after c' : holds c' YA_USER_DATA_ADDR u -> save_cut c u c'.

(** Each such flash recovers. *)
Lemma save_cut_recovers s h old u :
  ud_image old -> user_data_valid old = true -> ud_image u -> user_data_valid u = true ->
  heap h = [] -> forall c, holds c YA_USER_DATA_ADDR old -> save_cut c u (chip h) ->
  exists v c', ya_read_user_data (s, h) = Done 0 (set_ud v s, set_chip c' h) /\
    (v = old \/ v = u) /\ holds c' YA_USER_DATA_ADDR v.
Proof.
  intros Ho Hvo Hu Hvu Hheap c Hc Hcut.
  assert (Hid : h = set_chip (chip h) h) by (by destruct h).
  inversion Hcut as [c' Hf|c' Hb Hm|c' Hm]; subst; clear Hcut.
  - exists old, (chip h). assert (Hh : holds (chip h) YA_USER_DATA_ADDR old).
    { apply (holds_other c (chip h) YA_USER_DATA_ADDR YA_USER_DATA_BACK_ADDR); try done. by left. }
    rewrite <- Hid. split; [by apply read_main|]. auto.
  - destruct (read_backup u s h) as (c2 & Hr & Hh & _); try done. exists u, c2. auto.
  - exists u, (chip h). rewrite <- Hid. split; [by apply read_main|]. auto.
Qed.

(** ** Starting up *)

(** RAM after a reset: zeroed globals. *)
Definition fresh_ram s : Prop := sniffer_ap_mode s = false /\ a_lic s = no_lic.
(** Loading the licences at the start changes nothing else of the globals. *)
Lemma wp_start_licences p s h :
  a_lic s = no_lic ->
  wp ((if cloud_type p =? AKEETA_OVERSEA then in_lic ya_aws_para_init
       else if cloud_type p =? AKEETA_CN then in_lic ya_aliyun_para_init
       else in_lic ya_aliyun_para_init ;; in_lic ya_aws_para_init) ;; ret tt)
    (fun _ t => (exists l, t.1 = set_lic l s /\ lic_inv l) /\ exists k, moved k h t.2) (fun _ => False) (s, h).
Proof.
  intros Hs. assert (Hno : lic_inv no_lic) by done.
  assert (Hfresh : fresh 0 no_lic) by (intros [|[|[|]]]; done || lia).
  assert (Haws : forall l' h', lic_inv l' ->
    wp ya_aws_para_init (fun _ t => lic_inv t.1 /\ exists k, moved k h' t.2) (fun _ => False) (l', h')).
  { intros l' h' [Hp Hd]. eapply wp_mono; [apply (wp_aws_init (fun _ => False))| |done].
    intros r [l2 h2] [[(Epk & Edi & _) M] _]. split; [|by eexists].
    cbn in Epk, Edi. unfold lic_inv. cbn [fst]. by rewrite Epk, Edi. }
  wstep. wstep.
  { unfold in_lic. apply wp_zoom. rewrite Hs. eapply wp_mono; [by apply Haws| |done].
    intros r [l h1] [Hli M]. apply wp_ret. eauto. }
  wstep.
  { unfold in_lic. apply wp_zoom. rewrite Hs.
    eapply wp_mono; [by apply (wp_aliyun_init (fun _ => False))| |done].
    intros r [l h1] [Hli M]. apply wp_ret. eauto. }
  wstep. unfold in_lic at 1. apply wp_zoom. rewrite Hs.
  eapply wp_mono; [by apply (wp_aliyun_init (fun _ => False))| |done].
  intros r [l h1] [Hli [k M]]. cbn [fst snd] in *. unfold in_lic. apply wp_zoom.
  eapply wp_mono; [by apply Haws| |done].
  intros r2 [l2 h2] [Hl2 [k2 M2]]. apply wp_ret. cbn [fst snd] in *.
  split; [by exists l2|]. eexists. exact (moved_trans _ _ _ _ _ M M2).
Qed.

(** The start, once the user data are read and the start mode is chosen. *)
Lemma start_after_mode p s h t s1 c1 :
  ya_read_user_data (set_para p s, h) = Done 0 t -> ya_init_start_mode t = Done tt (s1, set_chip c1 h) ->
  heap h = [] -> a_lic s1 = no_lic ->
  exists l h1, ya_start_app_main p (s, h) = Done tt (set_lic l s1, h1) /\ lic_inv l /\
    chip h1 = c1 /\ heap h1 = [] /\ queues h1 = queues h.
Proof.
  intros Hread Hmode Hheap Hlic.
  assert (wp (ya_start_app_main p) (fun _ t => (exists l, t.1 = set_lic l s1 /\ lic_inv l) /\
    exists k, moved k (set_chip c1 h) t.2) (fun _ => False) (s, h))
    as ([] & [s2 h1] & He & (l & Hs2 & Hli) & k & Hm)%wp_elim.
  { unfold ya_start_app_main. wstep. apply wp_puts. wstep. eapply wp_done; [exact Hread|].
    wstep. eapply wp_done; [exact Hmode|]. by apply wp_start_licences. }
  cbn [fst snd] in *. subst s2. exists l, h1. pose proof (proj2 Hm Hheap).
  apply moved_fields in Hm as (_ & Hq & _ & _ & _ & _ & ?). eauto 10.
Qed.

Lemma start_after_read p s h u c' :
  ya_read_user_data (set_para p s, h) = Done 0 (set_ud u (set_para p s), set_chip c' h) ->
  ud_image u -> heap h = [] -> fresh_ram s ->
  exists s1 h1, ya_start_app_main p (s, h) = Done tt (s1, h1) /\
    ya_app_state s1 = start_state (u !!! 0%nat) /\ ud s1 = u /\ chip h1 = c' /\ heap h1 = [] /\
    queues h1 = queues h /\
    exists l, s1 = set_lic l (set_state (start_state (u !!! 0%nat)) (set_ud u (set_para p s))) /\ lic_inv l.
Proof.
  intros Hread [Hl _] Hheap [Hsn Hlic].
  destruct (start_after_mode p s h _ (set_state (start_state (u !!! 0%nat)) (set_ud u (set_para p s))) c' Hread)
    as (l & h1 & He & Hli & Hc & Hp & Hq); [|done|done|].
  { unfold ya_init_start_mode. erewrite bind_done by reflexivity. cbn [fst sniffer_ap_mode set_ud set_para].
    rewrite Hsn. erewrite bind_done by reflexivity. unfold ud_get. rewrite bind_assoc.
    erewrite bind_done by reflexivity. cbn [fst ud set_ud].
    erewrite bind_done by (apply rd_ok; unfold o_mode, SIZEOF_USER_DATA in *; lia). done. }
  eexists _, h1. split; [exact He|]. split_and!; try done. by exists l.
Qed.

(** ** Mode changes *)
Context `{CloudEnv} `{JsonText} `{MainEnv}.

(** The connection modules name the device while they are connected. *)
Definition connected_named : Prop := forall t, cloud_connected t <> 0 ->
  is_Some (cloud_thing_name t) /\ is_Some (cloud_client_id t).

(** The allocator and the trace may have moved; flash and queues have not. *)
Definition same_store h h' : Prop :=
  chip h' = chip h /\ queues h' = queues h /\ (heap h = [] -> heap h' = []).
Lemma same_store_moved n h h' : moved n h h' -> same_store h h'.
Proof. intros M. pose proof (proj2 M). by apply moved_fields in M as (_ & ? & _ & _ & _ & _ & ?). Qed.
Lemma same_store_trans h h1 h2 : same_store h h1 -> same_store h1 h2 -> same_store h h2.
Proof. intros (? & ? & ?) (? & ? & ?). split; [congruence|]. split; [congruence|auto]. Qed.
Lemma wp_create {S} Q R (s : S) h :
  (forall o h', same_store h h' -> Q o (s, h')) ->
  wp cJSON_CreateObject Q R (s, h).
Proof.
  intros HQ. unfold cJSON_CreateObject. wstep. apply wp_alloc_moved; [lia| |].
  - intros b h1 _ _ M. apply wp_ret, HQ. by eapply same_store_moved.
  - intros h1 _ M. apply wp_ret, HQ. by eapply same_store_moved.
Qed.
Lemma same_store_log (l : list event) n h : same_store h (set_heap (heap h) n (foldr log h l)).
Proof. by induction l. Qed.
Lemma wp_unregister {S} conn Q R (s : S) h :
  connected_named -> ya_get_cloud_status conn <> 0 -> heap h = [] ->
  (forall r h', same_store h h' -> Q r (s, h')) ->
  wp (ya_cloud_unregister conn) Q R (s, h).
Proof.
  intros Hn Hst Hh HQ. destruct conn as [t|]; [|done]. destruct (Hn t Hst) as [[ty Hty] [i Hi]].
  unfold ya_cloud_unregister. wstep. apply wp_create. intros [[]|] h1 E1; [|by apply wp_ret, HQ].
  wstep. apply wp_create. intros [[]|] h2 E2; pose proof (same_store_trans _ _ _ E1 E2) as E12.
  - wstep. apply wp_upd_hw. cbn [ya_get_thing_type ya_get_client_id].
    wstep. eapply wp_deref; [exact Hty|]. wstep. eapply wp_deref; [exact Hi|].
    wstep. apply wp_report_document; [by apply E12|done|]. intros h3 msgs -> _.
    apply wp_ret, HQ. exact (same_store_trans _ _ _ E12 (same_store_log _ _ (set_heap _ _ _))).
  - wstep. apply wp_upd_hw. by apply wp_ret, HQ.
Qed.

Lemma wp_save_ud Q R s h :
  ud_image (ud s) -> heap h = [] ->
  (forall r c', holds c' YA_USER_DATA_ADDR (ud s) -> elsewhere (chip h) c' -> Q r (s, set_chip c' h)) ->
  wp ya_save_user_data Q R (s, h).
Proof.
  intros Hu Hheap HQ. destruct (save_ok s h) as (c' & Hs & _ & Hh & He); [done..|].
  eapply wp_done; [exact Hs|]. by apply HQ.
Qed.
(** Erasing a block other than the user data's. *)
Lemma wp_erase_other addr n Q R s h u :
  addr mod 4096 = 0 -> YA_USER_DATA_ADDR + 4096 <= addr < 1000000 -> 0 < n <= 65536 ->
  ud_image u -> holds (chip h) YA_USER_DATA_ADDR u ->
  (forall r c', holds c' YA_USER_DATA_ADDR u -> Q r (s, set_chip c' h)) ->
  wp (ya_erase_flash addr n) Q R (s, h).
Proof.
  intros Ha Hb Hn [Hl _] Hh HQ.
  destruct (erase_flash_spec addr n s h) as (c' & He & _ & Hf); [done|unfold YA_USER_DATA_ADDR in *; lia..|].
  eapply wp_done; [exact He|]. apply HQ. eapply holds_frame; [|exact Hh].
  intros x Hx. apply Hf. pose proof (record_size_bounds (len u) (len_nonneg _)).
  unfold SIZEOF_USER_DATA in *. lia.
Qed.

(** A mode change ends in a reset with the mode on flash. *)
Lemma wp_set_mode {A} obj flag (Q : A -> _ -> Prop) (R : app * hw C -> Prop) s h :
  connected_named -> heap h = [] ->
  (forall s' h', heap h' = [] -> holds (chip h') YA_USER_DATA_ADDR
     (fresh_image (if flag : bool then toggle_target (ya_app_state s) (ya_init_mode (para s)) else obj)) ->
     R (s', h')) ->
  wp (ya_set_mode_internal obj flag) Q R (s, h).
Proof.
  intros Hn Hheap HR. set (mode := if flag then _ else _) in HR. unfold ya_set_mode_internal.
  wstep. apply wp_puts. wstep. apply wp_gets. cbn [fst id ya_app_state para set_ud].
  fold mode. wstep. unfold ud_put. wstep. apply wp_gets. cbn [fst ud set_ud].
  wstep. apply wp_wr; [done|]. change (<[Z.to_nat o_mode:=_]> _) with (fresh_image mode).
  apply wp_puts. wstep. apply wp_save_ud; [apply fresh_image_ok|done|]. cbn [ud set_ud].
  intros r1 c1 Hh1 _. set (s1 := set_ud _ _). clearbody s1.
  wstep. eapply wp_erase_other; [done|done|done|apply (fresh_image_ok mode)|exact Hh1|].
  intros r2 c2 Hh2. wstep. apply wp_upd_hw. wstep. cbn [enable_debind para set_ud].
  destruct (enable_debind (para s)); [|by apply wp_ret, HR].
  wstep. eapply wp_erase_other; [done|done|done|apply (fresh_image_ok mode)|exact Hh2|].
  intros r3 c3 Hh3. cbn [a_conn set_ud]. wstep; [|by apply wp_ret, HR].
  wstep. apply wp_unregister; [done|zbool; done|done|]. intros r4 h4 (Hc4 & _ & Hp4). apply wp_upd_hw.
  apply HR; cbn; [by apply Hp4|]. by rewrite Hc4.
Qed.

(** The machine after a reset: only the flash survives. *)
Definition reboot h : hw C := mkHw (chip h) [] 0 (junk h) (stale h) 0 (fun _ => []) [].

(** The mode a message of the main queue asks for. *)
Definition requested_mode (type : Z) s : option Z :=
  if type =? YA_CHANGE_TOGGLE_MODE then Some (toggle_target (ya_app_state s) (ya_init_mode (para s)))
  else if type =? YA_CHANGE_AP_MODE then Some AP_MODE
  else if type =? YA_CHANGE_SNIFFER_MODE then Some SNIFFER_MODE
  else None.
Lemma requested_mode_cases type s mode :
  requested_mode type s = Some mode -> mode = AP_MODE \/ mode = SNIFFER_MODE.
Proof.
  unfold requested_mode, toggle_target, toggled_default. intros Hr.
  repeat case_match; simplify_eq; auto.
Qed.
Lemma mode_message_runs now m ms h mode R :
  requested_mode (m_type m) (ms_app ms) = Some mode -> connected_named -> heap h = [] ->
  (forall ms' h', holds (chip h') YA_USER_DATA_ADDR (fresh_image mode) -> R (ms', h')) ->
  wp (handle_main_msg now m) (fun _ _ => False) R (ms, h).
Proof.
  intros Hr Hn Hheap HR. unfold requested_mode, handle_main_msg in *.
  destruct (Z.eqb_spec (m_type m) YA_CHANGE_TOGGLE_MODE) as [->|].
  { cbn. apply wp_zoom, wp_set_mode; [done..|]. injection Hr as <-. intros. by apply HR. }
  destruct (Z.eqb_spec (m_type m) YA_CHANGE_AP_MODE) as [->|].
  { cbn. apply wp_zoom, wp_set_mode; [done..|]. injection Hr as <-. intros. by apply HR. }
  destruct (Z.eqb_spec (m_type m) YA_CHANGE_SNIFFER_MODE) as [->|]; [|done].
  cbn. apply wp_zoom, wp_set_mode; [done..|]. injection Hr as <-. intros. by apply HR.
Qed.
Lemma wp_reset {T A} (m : M T A) R t :
  wp m (fun _ _ => False) R t -> exists t', m t = Reset t' /\ R t'.
Proof. unfold wp. destruct (m t); naive_solver. Qed.

(** A request to change the provisioning mode (toggle, soft AP or
    sniffer) stores the mode and resets the module, and the next start enters
    the state of that mode, whatever the state the request came in. *)
Theorem mode_change_takes_effect now m ms h mode p s0 :
  requested_mode (m_type m) (ms_app ms) = Some mode -> connected_named -> heap h = [] -> fresh_ram s0 ->
  exists ms' h' s1 h1, handle_main_msg now m (ms, h) = Reset (ms', h') /\
    ya_start_app_main p (s0, reboot h') = Done tt (s1, h1) /\
    ya_app_state s1 = start_state mode /\ ud s1 = fresh_image mode.
Proof.
  intros Hr Hn Hheap Hs0.
  destruct (wp_reset _ _ _ (mode_message_runs now m ms h mode
    (fun t => holds (chip t.2) YA_USER_DATA_ADDR (fresh_image mode)) Hr Hn Hheap (fun _ _ Hx => Hx)))
    as ([ms' h'] & He & Hh). cbn [snd] in Hh.
  assert (Hm : mode <> CONNECT_MODE /\ u8 mode = mode).
  { by destruct (requested_mode_cases _ _ _ Hr) as [-> | ->]. }
  assert (Hu : is_u8 mode) by (rewrite <- (proj2 Hm); apply u8_range).
  assert (Hid : reboot h' = set_chip (chip h') (reboot h')) by done.
  destruct (start_after_read p s0 (reboot h') (fresh_image mode) (chip h'))
    as (s1 & h1 & Hst & Ha & Hud & _); [|apply fresh_image_ok|done|done|].
  { rewrite <- Hid. apply read_main; [apply fresh_image_ok|apply fresh_valid; [apply Hm|done]|done|exact Hh]. }
  exists ms', h', s1, h1. split; [done|]. split; [done|]. split; [|done].
  rewrite Ha. change (fresh_image mode !!! 0%nat) with (u8 mode). by rewrite (proj2 Hm).
Qed.

(** ** Factory reset *)
Lemma holds_blank c addr : nor_read c addr = 255 -> record_ok c addr = false.
Proof. intros He. apply blank_not_ok. by rewrite He. Qed.

(** Blocks between the user data and the OTA area: the licences. *)
Definition licence_area (x : Z) : Prop := YA_LICENSE_DEVICE_CERT_ADDR <= x < YA_OTA_DATA_ADDR.

Lemma factory_reset_runs {A} s h :
  exists h', ya_reset_module_to_factory_internal (A := A) (s, h) = Reset (s, h') /\
    record_ok (chip h') YA_USER_DATA_ADDR = false /\ record_ok (chip h') YA_USER_DATA_BACK_ADDR = false /\
    record_ok (chip h') YA_DEVICE_TIMER_ADDR = false /\
    forall x, licence_area x -> nor_read (chip h') x = nor_read (chip h) x.
Proof.
  destruct (erase_flash_spec YA_USER_DATA_BACK_ADDR SIZEOF_USER_DATA s h) as (c1 & H1' & E1 & F1); [done..|].
  destruct (erase_flash_spec YA_USER_DATA_ADDR SIZEOF_USER_DATA s (set_chip c1 h))
    as (c2 & H2' & E2 & F2); [done..|].
  destruct (erase_flash_spec YA_OTA_DATA_ADDR 0x1000 s (set_chip c2 h)) as (c3 & H3' & _ & F3); [done..|].
  destruct (erase_flash_spec YA_DEVICE_TIMER_ADDR 0x1000 s (set_chip c3 h)) as (c4 & H4' & E4 & F4); [done..|].
  cbn [chip set_chip] in *.
  change (sectors SIZEOF_USER_DATA) with 1 in *. change (sectors 4096) with 1 in *.
  exists (log (EvDelay 50) (set_chip c4 h)). split.
  { unfold ya_reset_module_to_factory_internal, ya_erase_all_user_data.
    erewrite bind_done.
    2:{ erewrite bind_done by exact H1'. erewrite bind_done by exact H2'.
        erewrite bind_done by exact H3'. erewrite bind_done by exact H4'. reflexivity. }
    done. }
  unfold licence_area, YA_LICENSE_DEVICE_CERT_ADDR, YA_USER_DATA_ADDR, YA_USER_DATA_BACK_ADDR,
    YA_OTA_DATA_ADDR, DeviceTimer.YA_DEVICE_TIMER_ADDR in *. cbn [chip log set_chip].
  split; [|split; [|split]].
  - apply holds_blank. rewrite F4, F3 by lia. done.
  - apply holds_blank. rewrite F4, F3, F2 by lia. done.
  - by apply holds_blank.
  - intros x Hx. by rewrite F4, F3, F2, F1 by lia.
Qed.

(** C27: a factory reset erases the user data (both copies) and the timers,
    leaves the licences alone and resets the module, which then starts in the
    product's initial mode with default data. *)
Theorem factory_reset_restores_defaults now m ms h p s0 :
  m_type m = YA_FACTORY_MODE -> is_u8 (ya_init_mode p) -> fresh_ram s0 ->
  exists ms' h' s1 h1, handle_main_msg now m (ms, h) = Reset (ms', h') /\
    record_ok (chip h') YA_DEVICE_TIMER_ADDR = false /\
    (forall x, licence_area x -> nor_read (chip h') x = nor_read (chip h) x) /\
    ya_start_app_main p (s0, reboot h') = Done tt (s1, h1) /\
    ya_app_state s1 = start_state (ya_init_mode p) /\ ud s1 = fresh_image (ya_init_mode p).
Proof.
  intros Hty Hu Hs0. destruct (factory_reset_runs (A := unit) (ms_app ms) h) as (h' & He & Hm & Hb & Ht & Hl).
  destruct (read_default (set_para p s0) (reboot h')) as (c' & Hr & _); [done..|].
  destruct (start_after_read p s0 (reboot h') (fresh_image (ya_init_mode p)) c')
    as (s1 & h1 & Hst & Ha & Hud & _); [exact Hr|apply fresh_image_ok|done|done|].
  exists ms, h', s1, h1. split.
  { unfold handle_main_msg. rewrite Hty. cbn. unfold in_app, zoom_s, zoom. rewrite He. by destruct ms. }
  split; [done|]. split; [done|]. split; [done|]. split; [|done].
  rewrite Ha. change (fresh_image _ !!! 0%nat) with (u8 (ya_init_mode p)). by rewrite u8_small.
Qed.
End Store.

(** ** Concrete runs *)

(** A connected cloud that names the device, and a driver that accepts. *)
#[export] Instance sample_cloud : CloudEnv := {|
  cloud_context _ := true; start_cloud_status _ := 0; cloud_connected _ := 1;
  cloud_send_status _ := 0; cloud_client_id _ := Some (str "dev"); cloud_thing_name _ := Some (str "lamp") |}.
#[export] Instance sample_text : JsonText :=
  json_of (fun _ => None) (fun _ => Some (str "{}")).
#[export] Instance sample_main : MainEnv := {|
  ya_start_ota_app := 0; ya_start_uart_app := 0; ya_start_hardware_app := 0;
  ya_hal_wdt_set_timeout _ := 0; start_smnt _ := 0; ya_hal_wlan_connect_ap _ _ _ := 0;
  ya_hal_wlan_scan_obj_ssid _ := (-1, []); rssi_scan _ _ := (-1, (0, 0)); check_enter_get_rssi_mode := 0 |}.
Definition sample_para : para_t :=
  mkPara AKEETA_CN SNIFFER_MODE 60000 60000 [] (zeros 65) false false false false true.
Definition sample_app : app :=
  mkApp (zeros SIZEOF_USER_DATA) false false true YA_APP_AP_STATE (zeros 33) sample_para 0 (Some WIFI_CN)
    no_lic (zeros 21) (zeros 33).
(** A chip with [u] as the main copy and an erased backup. *)
Definition sample_chip (u : bytes) : ideal := fun x =>
  if bool_decide (YA_USER_DATA_ADDR <= x < YA_USER_DATA_ADDR + 572)
  then record_image u (zeros 4) !!! Z.to_nat (x - YA_USER_DATA_ADDR) else 255.

Lemma mode_change_takes_effect_witness :
  exists ms' h' s1 h1,
    handle_main_msg 0 (mkMsg 0 None YA_CHANGE_TOGGLE_MODE) (mkMs sample_app false INIT_MODE 0 0, boot)
      = Reset (ms', h') /\
    ya_start_app_main sample_para (sample_app, reboot h') = Done tt (s1, h1) /\
    ya_app_state s1 = YA_APP_SNIFFER_START.
Proof.
  destruct (mode_change_takes_effect 0 (mkMsg 0 None YA_CHANGE_TOGGLE_MODE)
    (mkMs sample_app false INIT_MODE 0 0) boot SNIFFER_MODE sample_para sample_app)
    as (ms' & h' & s1 & h1 & He & Hs & Ha & _); [reflexivity| |reflexivity|by split|].
  - intros t _. by split; eexists.
  - exists ms', h', s1, h1. split; [exact He|]. split; [exact Hs | exact Ha].
Defined.

Lemma factory_reset_restores_defaults_witness :
  exists ms' h' s1 h1,
    handle_main_msg 0 (mkMsg 0 None YA_FACTORY_MODE) (mkMs sample_app false INIT_MODE 0 0, boot)
      = Reset (ms', h') /\
    ya_start_app_main sample_para (sample_app, reboot h') = Done tt (s1, h1) /\
    ya_app_state s1 = YA_APP_SNIFFER_START.
Proof.
  destruct (factory_reset_restores_defaults 0 (mkMsg 0 None YA_FACTORY_MODE)
    (mkMs sample_app false INIT_MODE 0 0) boot sample_para sample_app)
    as (ms' & h' & s1 & h1 & He & _ & _ & Hs & Ha & _); [reflexivity|evaluate|by split|].
  exists ms', h', s1, h1. split; [exact He|]. split; [exact Hs | exact Ha].
Defined.
