(* ===== verification/Broadcast.v ===== *)
(** * The announcement of a provisioned device ([ya_sniffer_broadcast.c])

    After smart config the phone does not know the device's address: once
    connected, a task announces it to the network, about once a second, until
    the phone answers, the connection is lost or a minute has passed. *)

From stdpp Require Import base numbers list strings.
From S2P Require Import Prelude Platform SpiFlash Flash CommonFunc CJson License MainQueue Cloud UserData AppMain UserDataProofs.

Definition ROUTER_BROADCAST_DATA_LEN : Z := 256.

(** The socket of the task and the address of the device. *)
Class BroadcastEnv := {
  listen_socket : Z;
  broadcast_status : bytes -> Z;
  ip_string : bytes;
}.

Section Broadcast.
Context {C : Type} `{CloudEnv} `{JsonText} `{BroadcastEnv}.
(** The buffer is the second half of the state. *)
Abbreviation PB := (P C (app * bytes)).

Definition put_buffer (b : bytes) : PB unit := puts (fun s => (s.1, b)).

Definition announcement (id key : bytes) (code : string) (cloud : Z) : cJSON :=
  jroot [jstr "Command" "SmartGatewaySetUpNet"; member "DeviceId" id; member "ProductKey" key; jstr "Code" code;
         member "WiFiCloud" (ya_int_to_string cloud); member "Ip" (cstr ip_string); jstr "Port" "5356"].
(** The status, the buffer and [*len]. *)
Definition ya_sniffer_broadcast_content (send_buffer : bytes) (n : Z) : PB (Z * bytes * Z) :=
  let* cmd := cJSON_CreateObject in
  match cmd with
  | None => ret (-1, send_buffer, n)
  | Some _ =>
    let* a := gets fst in
    let* doc :=
      if support_cloud a then
        let* id := deref (ya_get_client_id (a_conn a)) in
        let* key := deref (ya_get_thing_type (a_conn a)) in
        ret (announcement (cstr id) (cstr key) "0" (ya_wifiCloud a))
      else ret (announcement [] [] "1" (ya_wifiCloud a)) in
    let* o := json_document doc in
    let* buf := deref o in
    if n <? len buf then cJSON_Delete ;; ya_hal_os_memory_free ;; ret (-1, send_buffer, n)
    else
      let* send_buffer := memcpy send_buffer 0 buf in
      cJSON_Delete ;; ya_hal_os_memory_free ;; ret (0, send_buffer, u16 (len buf))
  end.

Definition ya_parse_listen_data (buffer : bytes) : PB Z :=
  let* cmd := json_parse buffer in
  match cmd with
  | None => ret (-1)
  | Some cmd =>
    match cJSON_GetObjectItem cmd (str "Type") with
    | None => cJSON_Delete ;; ret (-1)
    | Some ty =>
      let* v := deref (valuestring ty) in
      cJSON_Delete ;; ret (if cstr v ==? str "BackSuccess" then 0 else -1)
    end
  end.

(** One round: [status] is the main task's state, [heard] the datagram that
    arrives within a second; [true] is [goto out]. *)
Definition broadcast_round (status : ya_app_status_t) (heard : option bytes) : PB bool :=
  if negb (bool_decide (status = YA_APP_CONNECTED)) then ret true
  else
    let* '(_, b, send_len) := ya_sniffer_broadcast_content (zeros ROUTER_BROADCAST_DATA_LEN) ROUTER_BROADCAST_DATA_LEN in
    put_buffer b ;;
    let* data := rdn b 0 send_len in
    emit (EvWlan "sendto" [data]) ;;
    if broadcast_status data <? 0 then ret true
    else
      put_buffer (zeros ROUTER_BROADCAST_DATA_LEN) ;;
      match heard with
      | None => ret false
      | Some d =>
        let d := take (Z.to_nat ROUTER_BROADCAST_DATA_LEN) d in
        let* b := memcpy (zeros ROUTER_BROADCAST_DATA_LEN) 0 d in
        put_buffer b ;;
        if 0 <? len d then
          if ROUTER_BROADCAST_DATA_LEN - 1 <? len d then ret true
          else
            let* b := wr b (len d) 0 in
            put_buffer b ;;
            let* r := ya_parse_listen_data b in
            ret (r =? 0)
        else ret false
      end.
(** [world] is what the rounds find. *)
Fixpoint broadcast_rounds (fuel : nat) (count : nat) (world : nat -> ya_app_status_t * option bytes) : PB unit :=
  match fuel with
  | O => ret tt
  | S fuel =>
    let* out := broadcast_round (world count).1 (world count).2 in
    if out : bool then ret tt else broadcast_rounds fuel (S count) world
  end.
Definition ya_snifer_broadcast_task (world : nat -> ya_app_status_t * option bytes) : PB unit :=
  if listen_socket <? 0 then ret tt
  else broadcast_rounds 60 0 world ;; emit (EvWlan "close" [[listen_socket]]).
End Broadcast.

(** ** The task announces until it is answered *)

(** A datagram that ends the announcements: an answer, or one that is too
    long. *)
Definition answer_type `{JsonText} (d : bytes) : option (option bytes) :=
  match cJSON_Parse d with
  | None => None
  | Some cmd => match cJSON_GetObjectItem cmd (str "Type") with Some ty => Some (valuestring ty) | None => None end
  end.
Definition text_of (d : bytes) : bytes := cstr (d ++ [0]).
Definition ends `{JsonText} (heard : option bytes) : bool :=
  match heard with
  | None => false
  | Some d =>
    (0 <? len d) && ((255 <? len d) ||
      match answer_type (text_of d) with Some (Some v) => cstr v ==? str "BackSuccess" | _ => false end)
  end.
(** The parser survives the text, and the type of an answer is a string. *)
Definition heard_ok `{JsonText} (heard : option bytes) : Prop :=
  match heard with Some d => overruns (text_of d) = false /\ answer_type (text_of d) <> Some None | None => True end.
(** How many announcements the rounds from [count] make. *)
Fixpoint announcements `{JsonText} (fuel count : nat) (world : nat -> ya_app_status_t * option bytes) : nat :=
  match fuel with
  | O => O
  | S fuel =>
    if bool_decide ((world count).1 = YA_APP_CONNECTED)
    then S (if ends (world count).2 then O else announcements fuel (S count) world)
    else O
  end.
Definition announced `{CloudEnv, BroadcastEnv} (a : app) (doc : cJSON) : Prop :=
  if support_cloud a then
    exists id key, ya_get_client_id (a_conn a) = Some id /\ ya_get_thing_type (a_conn a) = Some key /\
      doc = announcement (cstr id) (cstr key) "0" (ya_wifiCloud a)
  else doc = announcement [] [] "1" (ya_wifiCloud a).

Section BroadcastProofs.
Context {C : Type} `{CloudEnv} `{JsonText} `{BroadcastEnv}.
Context (a : app) (doc : cJSON) (text : bytes).
Context (Hdoc : announced a doc) (Htext : cstr <$> cJSON_PrintUnformatted doc = Some text) (Hlen : len text <= 256).
Context (Hsend : forall b, 0 <= broadcast_status b).

Lemma content_ok b0 b (h : hw C) : heap h = [] -> len b = 256 ->
  ya_sniffer_broadcast_content b 256 ((a, b0), h) = Done (0, splice b 0 text, len text) ((a, b0), h).
Proof.
  intros Hh Hb. pose proof (len_nonneg text). destruct h as [c hp lv j st tk qs tr]. cbn in Hh. subst hp.
  unfold ya_sniffer_broadcast_content, cJSON_CreateObject. erewrite bind_done by reflexivity. cbn beta iota.
  erewrite bind_done by reflexivity. cbn [fst].
  erewrite (bind_done _ _ _ doc).
  2:{ unfold announced in Hdoc. destruct (support_cloud a); [|by rewrite Hdoc]. destruct Hdoc as (id&key&Hi&Hk&->). by rewrite Hi, Hk. }
  assert (Hpr : printable doc = true) by (unfold announced in Hdoc; destruct (support_cloud a); [destruct Hdoc as (?&?&_&_&->)|rewrite Hdoc]; done).
  erewrite bind_done by (by apply document_done). cbn beta iota. erewrite bind_done by reflexivity.
  destruct (Z.ltb_spec 256 (len text)); [lia|]. erewrite bind_done by (apply memcpy_ok; lia). cbn.
  rewrite u16_small by (unfold is_u16; lia). unfold set_heap. cbn. by replace (lv + 1 + 1 - 1 - 1) with lv by lia.
Qed.
Lemma parse_ok b0 b d (h : hw C) : heap h = [] -> cstr b = text_of d -> heard_ok (Some d) ->
  exists r, ya_parse_listen_data b ((a, b0), h) = Done r ((a, b0), h) /\
    (r =? 0) = match answer_type (text_of d) with Some (Some v) => cstr v ==? str "BackSuccess" | _ => false end.
Proof.
  intros Hh Hb Hok. destruct h as [c hp lv j st tk qs tr]. cbn in Hh. subst hp. unfold heard_ok, answer_type in *. destruct Hok as [Hov Hok].
  unfold ya_parse_listen_data, json_parse. rewrite Hb, (read_ok _ Hov). unfold json_take. destruct (cJSON_Parse (text_of d)) as [cmd|]; [|by exists (-1)].
  erewrite bind_done by reflexivity. cbn beta iota. destruct (cJSON_GetObjectItem cmd (str "Type")) as [ty|].
  - destruct (valuestring ty) as [v|]; [|done].
    exists (if cstr v ==? str "BackSuccess" then 0 else -1). split; [cbn; unfold set_heap; cbn; by replace (lv + 1 - 1) with lv by lia|].
    by destruct (bool_decide (cstr v = str "BackSuccess")).
  - exists (-1). split; [|done]. cbn. unfold set_heap. cbn. by replace (lv + 1 - 1) with lv by lia.
Qed.

(** One round of a connected device. *)
Definition told (h : hw C) : hw C := log (EvWlan "sendto" [text]) h.
Lemma round_ok b0 heard (h : hw C) : heap h = [] -> heard_ok heard ->
  exists b, broadcast_round YA_APP_CONNECTED heard ((a, b0), h) = Done (ends heard) ((a, b), told h).
Proof.
  intros Hh Hok. pose proof (len_nonneg text). unfold broadcast_round, ROUTER_BROADCAST_DATA_LEN. rewrite bool_decide_true by done. cbn [negb].
  erewrite bind_done by (apply content_ok; [done|by rewrite len_zeros]). cbn beta iota. erewrite bind_done by reflexivity.
  assert (Es : splice (zeros 256) 0 text = text ++ zeros (256 - len text)) by (apply (splice_zeros [] text 256); lia).
  rewrite Es. erewrite bind_done by (by eapply (rdn_at _ [] text)). erewrite bind_done by reflexivity.
  specialize (Hsend text). destruct (Z.ltb_spec (broadcast_status text) 0); [lia|]. cbn [fst]. erewrite bind_done by reflexivity.
  destruct heard as [d|]; [|by eexists]. unfold ends. set (d' := take (Z.to_nat 256) d).
  assert (Hd' : len d' = Z.min 256 (len d)) by (unfold d', len; rewrite length_take; lia). pose proof (len_nonneg d).
  erewrite bind_done by (apply memcpy_ok; rewrite ?len_zeros; lia). erewrite bind_done by reflexivity. rewrite Hd'.
  destruct (Z.ltb_spec 0 (len d)) as [Hpos|]; [|assert (E : 0 <? Z.min 256 (len d) = false) by (apply Z.ltb_ge; lia); rewrite E; by eexists].
  assert (E : 0 <? Z.min 256 (len d) = true) by (apply Z.ltb_lt; lia). rewrite E. clear E. cbn [andb].
  destruct (Z.ltb_spec 255 (len d)) as [Hbig|Hsmall].
  { assert (E : 256 - 1 <? Z.min 256 (len d) = true) by (apply Z.ltb_lt; lia). rewrite E. by eexists. }
  assert (E : 256 - 1 <? Z.min 256 (len d) = false) by (apply Z.ltb_ge; lia). rewrite E. clear E. cbn [orb].
  assert (Ed : d' = d) by (unfold d'; apply take_ge; unfold len in *; lia). rewrite Ed in *.
  assert (Ez : splice (zeros 256) 0 d = d ++ zeros (256 - len d)) by (apply (splice_zeros [] d 256); lia). rewrite Ez.
  erewrite bind_done by (apply wr_ok; rewrite len_app, len_zeros; lia). erewrite bind_done by reflexivity.
  match goal with |- context [ya_parse_listen_data ?x] => set (b := x) end.
  assert (Hb : cstr b = text_of d).
  { unfold b, text_of. replace (Z.min 256 (len d)) with (len d) by lia. rewrite (zeros_split 1 (256 - len d)) by lia.
    change (zeros 1) with [0]. set (z := zeros _). unfold len. rewrite Nat2Z.id, insert_app_r_alt, Nat.sub_diag by lia.
    change (<[0%nat := u8 0]> ([0] ++ z)) with ([0] ++ z). rewrite app_assoc, cstr_app; [done|apply elem_of_app; right; left]. }
  destruct (parse_ok b b d (told h)) as (r&Er&Hr); [done|done|done|].
  erewrite bind_done by exact Er. eexists. rewrite <- Hr. reflexivity.
Qed.

Lemma rounds_ok fuel count world b0 (h : hw C) : heap h = [] -> (forall k, heard_ok (world k).2) ->
  exists b, broadcast_rounds fuel count world ((a, b0), h)
    = Done tt ((a, b), foldr log h (replicate (announcements fuel count world) (EvWlan "sendto" [text]))).
Proof.
  intros Hh Hok. revert count b0 h Hh. induction fuel as [|fuel IH]; intros count b0 h Hh; [by exists b0|].
  cbn [broadcast_rounds announcements]. specialize (Hok count) as Hk. destruct (world count) as [st heard]. cbn [fst snd] in *.
  destruct (bool_decide_reflect (st = YA_APP_CONNECTED)) as [->|Hne].
  - destruct (round_ok b0 heard h Hh Hk) as (b1&E1). erewrite bind_done by exact E1. destruct (ends heard); [by exists b1|].
    destruct (IH (S count) b1 (told h)) as (b&E); [done|]. exists b. rewrite E. f_equal. f_equal.
    rewrite replicate_S_end, foldr_app. done.
  - exists b0. unfold broadcast_round. by rewrite bool_decide_false.
Qed.
Lemma announcements_le fuel count world : (announcements fuel count world <= fuel)%nat.
Proof.
  revert count. induction fuel as [|fuel IH]; intros count; cbn; [lia|]. specialize (IH (S count)).
  destruct (bool_decide _); [|lia]. destruct (ends _); lia.
Qed.
(** Which rounds announce, and why the last one is. *)
Lemma announcements_spec fuel count world : let k := announcements fuel count world in
  (forall i, (i < k)%nat -> (world (count + i)%nat).1 = YA_APP_CONNECTED /\ ((S i < k)%nat -> ends (world (count + i)%nat).2 = false)) /\
  ((k < fuel)%nat -> (world (count + k)%nat).1 <> YA_APP_CONNECTED \/ exists i, k = S i /\ ends (world (count + i)%nat).2 = true).
Proof.
  cbn zeta. revert count. induction fuel as [|fuel IH]; intros count; cbn [announcements]; [split; lia|].
  destruct (bool_decide_reflect ((world count).1 = YA_APP_CONNECTED)) as [Hc|Hc].
  - destruct (ends (world count).2) eqn:Ee.
    + split; [|intros _; right; exists O; by rewrite Nat.add_0_r]. intros i Hi. assert (i = O) as -> by lia. rewrite Nat.add_0_r. split; [done|lia].
    + destruct (IH (S count)) as [IH1 IH2]. set (k := announcements fuel (S count) world) in *. split.
      * intros [|i] Hi; [rewrite Nat.add_0_r; done|]. replace (count + S i)%nat with (S count + i)%nat by lia.
        destruct (IH1 i) as [A B]; [lia|]. split; [done|]. intros Hk. apply B. lia.
      * intros Hk. replace (count + S k)%nat with (S count + k)%nat by lia. destruct IH2 as [Hn|(i&Ei&Hi)]; [lia|by left|].
        right. exists (S i). split; [lia|]. by replace (count + S i)%nat with (S count + i)%nat by lia.
  - split; [lia|]. intros _. left. by rewrite Nat.add_0_r.
Qed.
End BroadcastProofs.


(** A phone that answers in the third round. *)
#[export] Instance sample_broadcast : BroadcastEnv := {| listen_socket := 4; broadcast_status b := len b; ip_string := str "192.168.1.7" ++ zeros 53 |}.
Definition answering_phone : JsonText := json_of (fun s => if s ==? str "ok" then Some (jroot [jstr "Type" "BackSuccess"]) else None) (fun _ => Some (str "{announcement}")).
Definition phone_world (k : nat) : ya_app_status_t * option bytes :=
  (YA_APP_CONNECTED, match k with 1%nat => Some (str "noise") | 2%nat => Some (str "ok") | _ => None end).
