(* ===== verification/PowerCut.v ===== *)
(** * Power failure while saving

    The same driver, record store and [ya_save_user_data] as everywhere else,
    run on a chip whose power fails after a given number of page programs and
    sector erases: the later ones are lost.  Whatever that number, the next
    start finds the old or the new user data complete. *)

From stdpp Require Import base numbers list strings.
From S2P Require Import Prelude Platform SpiFlash Flash CommonFunc CJson DeviceTimer License MainQueue.
From S2P Require Import Cloud UserData AppMain UserDataProofs.

(** A chip with power for [budget] more operations. *)
Record cutting (C : Type) := mkCut { inner : C; budget : nat }.
Arguments mkCut {C}. Arguments inner {C}. Arguments budget {C}.
#[export] Instance cut_chip {C} `{NorChip C} : NorChip (cutting C) := {
  nor_read k a := nor_read (inner k) a;
  nor_program k a bs :=
    match budget k with O => k | S n => mkCut (nor_program (inner k) a bs) n end;
  nor_erase k a := match budget k with O => k | S n => mkCut (nor_erase (inner k) a) n end;
  nor_wel _ := true;
  nor_ready _ := true;
}.
(** The same machine around another chip. *)
Definition with_chip {C D : Type} (d : D) (h : hw C) : hw D :=
  mkHw d (heap h) (live h) (junk h) (stale h) (ticks h) (queues h) (trace h).

Section Cut.
Context {C : Type} `{NorChipLaws C}.
Implicit Types c : C.

Lemma programmed_nil c a : programmed c c a [].
Proof. intros x. by rewrite bool_decide_eq_false_2 by (unfold len; cbn; lia). Qed.
Lemma programmed_nil_any c c' a a' : programmed c c' a [] -> programmed c c' a' [].
Proof.
  intros Hp x. rewrite (Hp x). by rewrite !bool_decide_eq_false_2 by (unfold len; cbn; lia).
Qed.

(** The page loop programs a whole number of pages, and all of them if power
    is left. *)
Lemma cut_pages fuel c n address (rest : bytes) length :
  (List.length rest <= fuel)%nat -> is_bytes rest ->
  0 < length <= len rest -> address mod 256 + length <= 256 ->
  (length < len rest -> (address + length) mod 256 = 0) ->
  0 <= address -> address + len rest < 4294967296 ->
  exists k c' n', write_pages fuel (mkCut c n) address rest length = (0, mkCut c' n') /\
    0 <= k <= len rest /\ programmed c c' address (take (Z.to_nat k) rest) /\
    (k = len rest \/ n' = 0%nat /\ (k = 0 \/ (address + k) mod 256 = 0)) /\ (n = 0%nat -> k = 0 /\ c' = c).
Proof.
  revert c n address rest length. induction fuel as [|fuel IH];
    intros c n address rest length Hf Hb Hl Hp Hal Ha Hr.
  { unfold len in *. lia. }
  cbn [write_pages]. change (nor_wel (mkCut c n)) with true. cbn [negb].
  set (b1 := take (Z.to_nat length) rest). set (b2 := drop (Z.to_nat length) rest).
  assert (Hb12 : rest = b1 ++ b2) by (symmetry; apply take_drop).
  assert (Hl1 : len b1 = length) by (apply len_take; lia).
  assert (Hl2 : len b2 = len rest - length) by (rewrite Hb12, len_app; lia).
  assert (is_bytes b1 /\ is_bytes b2) as [Hb1 Hb2] by (apply is_bytes_app; by rewrite <- Hb12).
  set (c1 := match n with O => c | S _ => nor_program c address b1 end).
  set (n1 := Nat.pred n).
  replace (nor_program (mkCut c n) address b1) with (mkCut c1 n1) by (by destruct n).
  change (nor_ready (mkCut c1 n1)) with true. cbn [negb]. unfold SPIFLASH_PAGE_SIZE.
  assert (Hp1 : n <> 0%nat -> programmed c c1 address b1).
  { intros Hn x. destruct n; [done|]. apply nor_program_spec; [lia | done]. }
  destruct (Z.eqb_spec (if 256 <? len b2 then 256 else len b2) 0) as [He|He].
  - assert (E2 : len b2 = 0) by (pose proof (len_nonneg b2); destruct (Z.ltb_spec 256 (len b2)); lia).
    destruct n as [|n].
    + exists 0, c, 0%nat. change (Z.to_nat 0) with 0%nat. rewrite take_0.
      split; [done|]. split; [lia|]. split; [apply programmed_nil|]. split; [right; auto|done].
    + exists (len rest), c1, n. split; [done|]. split; [lia|]. split; [|split; [by left|done]].
      rewrite take_ge by (unfold len; lia). rewrite Hb12.
      replace b2 with (@nil Z) by (destruct b2; [done|unfold len in E2; cbn in E2; lia]).
      rewrite app_nil_r. by apply Hp1.
  - rewrite u32_small by (unfold is_u32; lia).
    assert (Hpos : 0 < len b2)
      by (pose proof (len_nonneg b2); destruct (Z.ltb_spec 256 (len b2)); lia).
    specialize (Hal ltac:(lia)).
    destruct (IH c1 n1 (address + length) b2 (if 256 <? len b2 then 256 else len b2))
      as (k & c' & n' & Hw & Hk & Hpr & Hend & H0n); try done.
    + rewrite Hb12, length_app in Hf. unfold len in *. lia.
    + destruct (Z.ltb_spec 256 (len b2)); lia.
    + rewrite Hal. destruct (Z.ltb_spec 256 (len b2)); lia.
    + intros Hlt. destruct (Z.ltb_spec 256 (len b2)); [|lia]. rewrite Zplus_mod, Hal. done.
    + lia.
    + lia.
    + destruct n as [|n].
      * destruct (H0n eq_refl) as [-> ->]. exists 0, c, n'. change (Z.to_nat 0) with 0%nat. rewrite take_0.
        split; [done|]. split; [lia|]. split; [apply programmed_nil|].
        split; [right; split; [by destruct Hend as [|[]]; [lia|]|by left]|done].
      * exists (length + k), c', n'. split; [done|]. split; [lia|]. split.
        { replace (take (Z.to_nat (length + k)) rest) with (b1 ++ take (Z.to_nat k) b2).
          - eapply programmed_app; [by apply Hp1|by rewrite Hl1].
          - rewrite Hb12, take_app. rewrite (take_ge b1) by (unfold len in Hl1; lia).
            do 2 f_equal. unfold len in Hl1. lia. }
        split; [|done]. rewrite Z.add_assoc. destruct Hend as [->|[Hn' [->|Hm]]]; [left; lia|right..].
        { split; [done|]. right. by rewrite Z.add_0_r. }
        { split; [done|]. by right. }
Qed.

(** [c'] is [c] with the sector at [addr] erased and [data] programmed from
    its start. *)
Definition sector_holds c c' addr (data : bytes) : Prop :=
  forall x, nor_read c' x =
    if bool_decide (addr <= x < addr + 4096)
    then (if bool_decide (x < addr + len data) then data !!! Z.to_nat (x - addr) else 255)
    else nor_read c x.

(** A write to one sector, cut: nothing happened, or the sector holds a prefix
    of whole pages, or all of it. *)
Lemma cut_write {S} (s : S) (h : hw (cutting C)) c n addr (data : bytes) :
  chip h = mkCut c n -> addr mod 4096 = 0 -> 0 <= addr -> addr + 4096 < 4294967296 ->
  0 < len data <= 4096 -> is_bytes data ->
  exists c' n', ya_hal_flash_write addr data (s, h) = Done (stale h) (s, set_chip (mkCut c' n') h) /\
    ((c' = c /\ n' = 0%nat) \/
     exists k, 0 <= k <= len data /\ sector_holds c c' addr (take (Z.to_nat k) data) /\
       (k = len data \/ n' = 0%nat /\ k mod 256 = 0)) /\ (n = 0%nat -> c' = c).
Proof.
  intros Hc Ha H0' Hr Hl Hb. unfold ya_hal_flash_write. rewrite Hc.
  assert (He : hal_erase (mkCut c n) addr (len data)
    = (0, match n with O => mkCut c n | S m => mkCut (nor_erase c addr) m end)).
  { unfold hal_erase, ya_SPIFLASH_SECTOR_SIZE.
    replace (Z.to_nat (len data / 4096 + (if 0 <? len data mod 4096 then 1 else 0))) with 1%nat.
    2:{ pose proof (sectors_bounds (len data) ltac:(lia)) as Hsb. unfold sectors in Hsb. lia. }
    cbn [hal_erase_loop]. unfold hal_spiflash_erase, ya_SPIFLASH_SECTOR_SIZE, SPIFLASH_SECTOR_SIZE. rewrite Ha.
    change (Z.to_nat (4096 / 4096)) with 1%nat. cbn. by destruct n. }
  rewrite He. cbn [negb Z.eqb].
  assert (Ha256 : addr mod 256 = 0).
  { rewrite (Z_div_mod_eq_full addr 4096), Ha.
    replace (4096 * (addr / 4096) + 0) with ((16 * (addr / 4096)) * 256) by lia. apply Z_mod_mult. }
  assert (Hwp : forall c1 n1, exists k c' n', hal_spifiash_write (mkCut c1 n1) addr data = (0, mkCut c' n') /\
    0 <= k <= len data /\ programmed c1 c' addr (take (Z.to_nat k) data) /\
    (k = len data \/ n' = 0%nat /\ (k = 0 \/ (addr + k) mod 256 = 0)) /\ (n1 = 0%nat -> k = 0 /\ c' = c1)).
  { intros c1 n1. unfold hal_spifiash_write, SPIFLASH_PAGE_SIZE. destruct (Z.eqb_spec (len data) 0); [lia|].
    rewrite Ha256. apply cut_pages; try done; destruct (Z.ltb_spec (256 - 0) (len data)); try lia.
    intros _. rewrite Zplus_mod, Ha256. done. }
  destruct n as [|n].
  - destruct (Hwp c 0%nat) as (k & c' & n' & -> & Hk & _ & Hend & H0n).
    destruct (H0n eq_refl) as [-> ->]. exists c, n'. split; [done|]. split; [|done]. left.
    split; [done|]. destruct Hend as [?|[? _]]; [lia|done].
  - destruct (Hwp (nor_erase c addr) n) as (k & c' & n' & -> & Hk & Hp & Hend & _).
    exists c', n'. split; [done|]. split; [|done]. right. exists k. split; [done|]. split.
    + assert (Hlk : len (take (Z.to_nat k) data) = k) by (by apply len_take).
      assert (Htb : is_bytes (take (Z.to_nat k) data)) by (by apply Forall_take).
      intros x. rewrite (Hp x), nor_erase_spec, Hlk by done.
      repeat case_bool_decide; try lia; try done. apply land_ff, lookup_total_u8, Htb.
    + destruct Hend as [->|[Hn' Hm]]; [by left|right]. split; [done|]. destruct Hm as [->|Hm]; [done|].
      rewrite Zplus_mod, Ha256, Z.add_0_l, Zmod_mod in Hm. done.
Qed.

(** ** The record of the user data, torn *)

(** The body a reader sees when only the first [k] bytes of [u] were
    programmed. *)
Definition torn_body (u : bytes) (k : nat) : bytes := take k u ++ replicate (564 - k) 255.
(** The 8-bit checksum tells a record cut after its first or second page from
    a whole one. *)
Definition torn_detected (u : bytes) : Prop :=
  Forall (fun k => ya_flash_checksum (torn_body u k) <> ya_flash_checksum u) [252; 508]%nat.

Lemma torn_record_bad c c' addr u pad k :
  ud_image u -> torn_detected u -> 0 <= k < 568 -> k mod 256 = 0 ->
  sector_holds c c' addr (take (Z.to_nat k) (record_image u pad)) -> record_ok c' addr = false.
Proof.
  intros [Hl Hb] Ht Hk Hm Hs. unfold SIZEOF_USER_DATA in Hl.
  assert (Hli : 568 <= len (record_image u pad)) by (rewrite len_image; pose proof (len_nonneg pad); lia).
  assert (Hcases : k = 0 \/ k = 256 \/ k = 512).
  { pose proof (Z_div_mod_eq_full k 256). assert (0 <= k / 256 < 3) by (split; [apply Z.div_pos; lia|apply Z.div_lt_upper_bound; lia]). lia. }
  assert (Hlt : len (take (Z.to_nat k) (record_image u pad)) = k) by (apply len_take; lia).
  destruct (decide (k = 0)) as [->|Hk0].
  { apply blank_not_ok. rewrite (Hs addr). change (take (Z.to_nat 0) _) with (@nil Z).
    rewrite bool_decide_eq_true_2, bool_decide_eq_false_2 by (unfold len; cbn; lia). done. }
  assert (Hbyte : forall i, 0 <= i < k -> nor_read c' (addr + i) = record_image u pad !!! Z.to_nat i).
  { intros i Hi. rewrite (Hs (addr + i)), Hlt, !bool_decide_eq_true_2 by lia.
    rewrite !list_lookup_total_alt, lookup_take_lt by lia. do 2 f_equal. lia. }
  assert (Hbody : nor_bytes c' (addr + 4) 564 = torn_body u (Z.to_nat (k - 4))).
  { assert (Htl : len (torn_body u (Z.to_nat (k - 4))) = 564).
    { unfold torn_body, len in *. rewrite length_app, length_take, length_replicate. lia. }
    rewrite <- Htl at 1. apply nor_bytes_eq. intros i v Hv.
    pose proof (lookup_lt_Some _ _ _ Hv) as Hi. unfold len in Htl. unfold torn_body in Hv.
    destruct (decide (Z.of_nat i < k - 4)) as [Hik|Hik].
    - rewrite lookup_app_l, lookup_take_lt in Hv by (rewrite ?length_take; unfold len in Hl; lia).
      rewrite <- Z.add_assoc, Hbyte by lia.
      replace (Z.to_nat (4 + Z.of_nat i)) with (4 + i)%nat by lia.
      change (record_image u pad !!! (4 + i)%nat) with ((u ++ pad) !!! i).
      rewrite list_lookup_total_alt, lookup_app_l, Hv by (by eapply lookup_lt_Some). done.
    - rewrite lookup_app_r in Hv by (rewrite length_take; lia).
      apply lookup_replicate in Hv as [-> _].
      rewrite (Hs _), Hlt, bool_decide_eq_true_2, bool_decide_eq_false_2 by lia. done. }
  unfold record_ok. rewrite !Hbyte by lia.
  replace (nor_read c' addr) with (record_image u pad !!! 0%nat)
    by (rewrite <- (Z.add_0_r addr), Hbyte by lia; done).
  change (record_image u pad !!! Z.to_nat 1) with (u8 (len u)).
  change (record_image u pad !!! Z.to_nat 2) with (u8 (Z.shiftr (len u) 8)).
  change (record_image u pad !!! Z.to_nat 3) with (ya_flash_checksum u).
  rewrite Hl. change (u16 _) with 564. rewrite Hbody.
  unfold torn_detected in Ht. rewrite !Forall_cons in Ht. destruct Ht as (H252 & H508 & _).
  apply andb_false_intro2, Z.eqb_neq.
  destruct Hcases as [?|[->| ->]]; [lia|by apply not_eq_sym..].
Qed.

Lemma cut_record {S} addr u (s : S) (h : hw (cutting C)) c n :
  block_addr addr -> ud_image u -> torn_detected u -> heap h = [] -> chip h = mkCut c n ->
  exists c' n', ya_write_flash addr u SIZEOF_USER_DATA 1 (s, h) = Done (stale h) (s, set_chip (mkCut c' n') h) /\
    (forall x, x < addr \/ addr + 4096 <= x -> nor_read c' x = nor_read c x) /\
    (n' = 0%nat /\ (c' = c \/ record_ok c' addr = false) \/ holds c' addr u) /\ (n = 0%nat -> c' = c).
Proof.
  intros [Ha Ha']%block_addr_fits Hu Ht Hheap Hc. pose proof Hu as [Hl Hb]. unfold SIZEOF_USER_DATA in *.
  destruct (write_flash_run addr u 564 1 s h) as (pad & h1 & Hbi & Hli & Hc1 & Hs1 & Hrun); [lia..|done|done|].
  rewrite slice_full in * by done. change (record_size 564) with 572 in Hli.
  destruct (cut_write s h1 c n addr (record_image u pad)) as (c' & n' & Hw & Hcut & Hn0);
    [congruence|done|lia|lia|lia|done|].
  exists c', n'. split; [rewrite <- Hs1; by apply Hrun|]. split; [|split; [|done]].
  - intros x Hx. destruct Hcut as [[-> _]|(k & _ & Hs & _)]; [done|].
    rewrite (Hs x). by rewrite bool_decide_eq_false_2 by lia.
  - destruct Hcut as [[-> ->]|(k & Hk & Hs & Hend)]; [by left; auto|].
    destruct (decide (k = 572)) as [->|Hk'].
    + right. exists pad. rewrite Hl. change (record_size 564) with 572. rewrite <- Hli.
      apply nor_bytes_eq. intros i v Hv. pose proof (lookup_lt_Some _ _ _ Hv) as Hi. unfold len in Hli.
      rewrite (Hs _). rewrite take_ge by lia. unfold len. rewrite !bool_decide_eq_true_2 by lia.
      replace (Z.to_nat (addr + Z.of_nat i - addr)) with i by lia. by apply list_lookup_total_correct.
    + left. destruct Hend as [?|[-> Hm]]; [lia|]. split; [done|]. right.
      eapply torn_record_bad; [done|done| |exact Hm|exact Hs].
      pose proof (Z_div_mod_eq_full k 256). lia.
Qed.

(** Data whose fields from the factory fields on are unused, as after a mode
    change or provisioning, is always told apart. *)
Lemma sum_replicate n v : foldr Z.add 0 (replicate n v) = Z.of_nat n * v.
Proof. induction n as [|n IH]; [done|]. cbn [replicate foldr]. rewrite IH. lia. Qed.
Lemma sum_app (a b : bytes) : foldr Z.add 0 (a ++ b) = foldr Z.add 0 a + foldr Z.add 0 b.
Proof. induction a as [|x a IH]; [done|]. cbn -[Z.add]. rewrite IH. lia. Qed.
Lemma zero_tail_detected u : drop 252 u = replicate 312 0 -> torn_detected u.
Proof.
  intros Hd. assert (Hu : u = take 252 u ++ replicate 312 0) by (rewrite <- Hd; symmetry; apply take_drop).
  assert (Hl : length (take 252 u) = 252%nat).
  { apply (f_equal length) in Hd. rewrite length_drop, length_replicate in Hd. rewrite length_take. lia. }
  set (a := take 252 u) in *. clearbody a. subst u. unfold torn_detected, torn_body.
  repeat constructor; rewrite !checksum_sum; intros He; unfold u8 in He.
  - rewrite take_app_le, take_ge, !sum_app, !sum_replicate in He by lia.
    revert He. generalize (foldr Z.add 0 a) as z. intros z. zdiv.
  - rewrite take_app, (take_ge a), take_replicate, Hl, !sum_app, !sum_replicate in He by lia.
    revert He. generalize (foldr Z.add 0 a) as z. intros z. cbn. zdiv.
Qed.

(** C2: A save of the user data is atomic under power failure, as far as the
    8-bit checksum of the record can tell.  Old and new data valid, memory to
    spare, and the new data such that every torn record of it fails its
    checksum ([torn_detected]; [zero_tail_detected] gives it for every image
    whose factory fields are unused): whatever the number of page programs and
    sector erases that complete before power is lost in [ya_save_user_data],
    [ya_read_user_data] at the next start returns either the old data or the new
    data in full, never the defaults and never a mixture, and the main copy then
    holds what was returned. *)
Theorem user_data_power_fail `{!NorReliable C} (n : nat) (s s0 : app) (h : hw C) (old : bytes) :
  ud_image old -> user_data_valid old = true -> holds (chip h) YA_USER_DATA_ADDR old ->
  ud_image (ud s) -> user_data_valid (ud s) = true -> torn_detected (ud s) -> heap h = [] ->
  exists r c' n', ya_save_user_data (s, with_chip (mkCut (chip h) n) h)
      = Done r (s, with_chip (mkCut c' n') h) /\
  exists v c'', ya_read_user_data (s0, reboot (set_chip c' h))
      = Done 0 (set_ud v s0, set_chip c'' (reboot (set_chip c' h))) /\
    (v = old \/ v = ud s) /\ holds c'' YA_USER_DATA_ADDR v.
Proof.
  intros Ho Hvo Hho Hu Hvu Ht Hheap. set (h0 := with_chip (mkCut (chip h) n) h).
  destruct (cut_record YA_USER_DATA_BACK_ADDR (ud s) s h0 (chip h) n)
    as (c1 & n1 & Hw1 & Hf1 & Hc1 & _); [by right|done..|].
  destruct (cut_record YA_USER_DATA_ADDR (ud s) s (set_chip (mkCut c1 n1) h0) c1 n1)
    as (c2 & n2 & Hw2 & Hf2 & Hc2 & Hn2); [by left|done..|].
  eexists _, c2, n2. split.
  { unfold ya_save_user_data. erewrite bind_done by reflexivity. cbn [fst].
    erewrite bind_done by exact Hw1. erewrite bind_done by exact Hw2. reflexivity. }
  apply (save_cut_recovers s0 (reboot (set_chip c2 h)) old (ud s)) with (c := chip h); try done.
  cbn [chip reboot set_chip]. destruct Hc2 as [[_ [-> | Hbad]]|Hh2].
  - by apply cut_in_backup.
  - destruct Hc1 as [[-> _]|Hh1]; [rewrite (Hn2 eq_refl); by apply cut_in_backup|].
    apply cut_in_main; [|done].
    apply (holds_other c1 c2 YA_USER_DATA_BACK_ADDR YA_USER_DATA_ADDR); try done. by right.
  - by apply cut_after.
Qed.
End Cut.

(** A change from soft AP to sniffer mode on a device that has saved before,
    cut after the backup and the erase of the main copy. *)
Definition saving : app := set_ud (fresh_image SNIFFER_MODE) sample_app.
Lemma user_data_power_fail_witness :
  let h := set_chip (sample_chip (fresh_image AP_MODE)) boot in
  exists r c' n', ya_save_user_data (saving, with_chip (mkCut (chip h) 5) h)
      = Done r (saving, with_chip (mkCut c' n') h) /\
  exists v c'', ya_read_user_data (sample_app, reboot (set_chip c' h))
      = Done 0 (set_ud v sample_app, c'') /\ (v = fresh_image AP_MODE \/ v = fresh_image SNIFFER_MODE).
Proof.
  intros h. destruct (user_data_power_fail 5 saving sample_app h (fresh_image AP_MODE))
    as (r & c' & n' & Hs & v & c2 & Hr & Hv & _); try evaluate; try reflexivity.
  - exists (zeros 4). vm_compute. reflexivity.
  - exists r, c', n'. split; [exact Hs|]. eexists v, _. split; [exact Hr | exact Hv].
Defined.
