(* ===== verification/Provisioning.v ===== *)
(** * Provisioning: correctness

    The router a provisioning procedure delivers ([ya_softap_callback],
    [ya_smart_config_result_callback] of [ya_app_main.c]) is stored as a
    structure image, survives a reboot, and is what the main task hands to the
    WLAN driver. *)

From stdpp Require Import base numbers list strings.
From S2P Require Import Prelude Platform SpiFlash Flash CommonFunc HalTimer CJson SysTime.
From S2P Require Import DeviceTimer License MainQueue Cloud UserData AppMain UserDataProofs.

(** A string in a zeroed array of [n] bytes. *)
Definition padded (n : Z) (b : bytes) : bytes := b ++ zeros (n - len b).
Lemma len_padded n b : len b <= n -> len (padded n b) = n.
Proof. intros Hn. pose proof (len_nonneg b). unfold padded. rewrite len_app, len_zeros; lia. Qed.
Lemma is_bytes_padded n b : is_bytes b -> is_bytes (padded n b).
Proof. intros. apply is_bytes_app. auto with cint. Qed.

(** [ya_user_data] of a provisioned device. *)
Definition router_image (ssid pwd bssid : bytes) (select : Z) : bytes :=
  [CONNECT_MODE] ++ padded 33 ssid ++ [len ssid] ++ padded 65 pwd ++ [len pwd] ++
  bssid ++ [u8 (select + 1)] ++ zeros 456.

(** What the callers of [store_router] have checked. *)
Definition router_ok (ssid pwd bssid : bytes) : Prop :=
  (0 < len ssid <= 32 /\ ssid !!! 0%nat <> 0) /\ len pwd <= 64 /\ len bssid = 6 /\
  is_bytes ssid /\ is_bytes pwd /\ is_bytes bssid.

#[export] Instance router_ok_dec ssid pwd bssid : Decision (router_ok ssid pwd bssid).
Proof. unfold router_ok; apply _. Defined.

Lemma router_image_ok ssid pwd bssid select :
  router_ok ssid pwd bssid -> ud_image (router_image ssid pwd bssid select).
Proof.
  intros ((Hs & _) & Hp & Hb & Bs & Bp & Bb). pose proof (len_nonneg pwd). split.
  - unfold router_image. rewrite !len_app, !len_padded, Hb by lia. done.
  - unfold router_image. repeat (apply is_bytes_app; split); auto using is_bytes_padded with cint;
      repeat constructor; try apply u8_range; unfold is_u8, CONNECT_MODE; lia.
Qed.

(** Reading the fields back. *)
Section Fields.
Context (ssid pwd bssid : bytes) (select : Z) (Hr : router_ok ssid pwd bssid) {T : Type} (t : T).
Let u := router_image ssid pwd bssid select.

Lemma rd_ssid_len : rd u o_ssid_len t = Done (len ssid) t.
Proof.
  destruct Hr as ((Hs & _) & _). eapply (rd_at _ ([CONNECT_MODE] ++ padded 33 ssid)).
  - unfold u, router_image. by rewrite <- app_assoc.
  - by rewrite len_app, len_padded by lia.
Qed.
Lemma rdn_ssid : rdn u o_ssid (len ssid) t = Done ssid t.
Proof.
  eapply (rdn_at _ [CONNECT_MODE]); [|done|done].
  unfold u, router_image, padded. rewrite <- !app_assoc. reflexivity.
Qed.
Lemma rd_pwd_len : rd u o_pwd_len t = Done (len pwd) t.
Proof.
  destruct Hr as ((Hs & _) & Hp & _).
  eapply (rd_at _ ([CONNECT_MODE] ++ padded 33 ssid ++ [len ssid] ++ padded 65 pwd)).
  - unfold u, router_image. by rewrite <- !app_assoc.
  - rewrite !len_app, !len_padded by lia. done.
Qed.
Lemma rdn_pwd : rdn u o_pwd (len pwd) t = Done pwd t.
Proof.
  destruct Hr as ((Hs & _) & Hp & _).
  eapply (rdn_at _ ([CONNECT_MODE] ++ padded 33 ssid ++ [len ssid])); [| |done].
  - unfold u, router_image, padded. rewrite <- !app_assoc. reflexivity.
  - rewrite !len_app, !len_padded by lia. done.
Qed.
Lemma rdn_bssid : rdn u o_bssid 6 t = Done bssid t.
Proof.
  destruct Hr as ((Hs & _) & Hp & Hb & _).
  eapply (rdn_at _ ([CONNECT_MODE] ++ padded 33 ssid ++ [len ssid] ++ padded 65 pwd ++ [len pwd]));
    [| |by rewrite Hb].
  - unfold u, router_image. rewrite <- !app_assoc. reflexivity.
  - rewrite !len_app, !len_padded by lia. done.
Qed.
End Fields.

Lemma router_valid ssid pwd bssid select :
  router_ok ssid pwd bssid -> user_data_valid (router_image ssid pwd bssid select) = true.
Proof.
  intros Hr. set (u := router_image _ _ _ _).
  assert (Hf : forall o v, rd u o tt = Done v tt -> u !!! Z.to_nat o = v).
  { intros o v. unfold rd. destruct (_ && _); [by intros [=]|done]. }
  pose proof (Hf _ _ (rd_ssid_len _ _ _ select Hr tt)) as H1.
  pose proof (Hf _ _ (rd_pwd_len _ _ _ select Hr tt)) as H2.
  destruct Hr as ((Hs & H0) & Hp & _). unfold user_data_valid. rewrite H1, H2.
  replace (u !!! Z.to_nat o_ssid) with (ssid !!! 0%nat).
  2:{ clear H1 H2. unfold u. destruct ssid as [|x ssid]; [by destruct Hs|reflexivity]. }
  zbool; done || lia.
Qed.

(** ** Writing the fields *)
Section Store.
Context {C : Type} `{NorChipLaws C, !NorReliable C} `{CloudEnv} `{JsonText} `{MainEnv}.
Implicit Types (s : app) (h : hw C).

Lemma ud_put_at (a : bytes) x c o v s h :
  ud s = a ++ x :: c -> o = len a -> ud_put o v (s, h) = Done tt (set_ud (a ++ u8 v :: c) s, h).
Proof.
  intros Hu ->. unfold ud_put. erewrite bind_done by reflexivity. cbn [fst]. rewrite Hu.
  pose proof (len_nonneg a). pose proof (len_nonneg c).
  erewrite bind_done by (apply wr_ok; rewrite len_app, len_cons; lia).
  unfold len. rewrite Nat2Z.id, insert_app_r_alt, Nat.sub_diag by lia. done.
Qed.
Lemma ud_copy_at (a : bytes) k c o src s h :
  ud s = a ++ zeros k ++ c -> o = len a -> len src <= k ->
  ud_copy o src (s, h) = Done tt (set_ud (a ++ padded k src ++ c) s, h).
Proof.
  intros Hu -> Hk. unfold ud_copy. erewrite bind_done by reflexivity. cbn [fst]. rewrite Hu.
  pose proof (len_nonneg a). pose proof (len_nonneg c). pose proof (len_nonneg src).
  erewrite bind_done by (apply memcpy_ok; rewrite ?len_app, ?len_zeros; lia).
  unfold puts. do 4 f_equal. unfold splice, padded, len. rewrite Nat2Z.id, take_app_length.
  f_equal. rewrite drop_app_add, <- app_assoc. f_equal.
  rewrite drop_app_le by (unfold zeros, len in *; rewrite length_replicate; lia).
  f_equal. unfold zeros. rewrite drop_replicate. f_equal. lia.
Qed.
Lemma set_ud_twice u v s : set_ud u (set_ud v s) = set_ud u s.
Proof. done. Qed.
Lemma padded_full n b : len b = n -> padded n b = b.
Proof. intros <-. unfold padded. rewrite Z.sub_diag. apply app_nil_r. Qed.

(** The structure is filled whatever the order of the assignments. *)
Lemma store_router_ok ssid pwd bssid random select s h :
  router_ok ssid pwd (slice bssid 0 6) -> 6 <= len bssid ->
  len (config_random_num s) = 33 -> 0 ∈ random -> len (cstr random) <= 32 ->
  exists rn, store_router ssid pwd bssid random select (s, h)
      = Done tt (set_random rn (set_ud (router_image ssid pwd (slice bssid 0 6) select) s), h) /\
    len rn = 33 /\ cstr rn = cstr random.
Proof.
  intros ((Hs & _) & Hp & Hb & _) Hb6 Hrn Hnul Hrl. pose proof (len_nonneg pwd). unfold store_router.
  erewrite bind_done by reflexivity.
  change (zeros SIZEOF_USER_DATA) with
    ([] ++ 0 :: zeros 33 ++ [0] ++ zeros 65 ++ [0] ++ zeros 6 ++ [0] ++ zeros 456).
  erewrite bind_done by (by eapply (ud_put_at [])).
  erewrite bind_done by (eapply (ud_put_at ([CONNECT_MODE] ++ zeros 33)); [|done]; reflexivity).
  erewrite bind_done.
  2:{ eapply (ud_copy_at [CONNECT_MODE] 33); [reflexivity|done|lia]. }
  erewrite bind_done.
  2:{ eapply (ud_put_at ([CONNECT_MODE] ++ padded 33 ssid ++ [u8 (len ssid)] ++ zeros 65)); [|].
      - cbn [ud set_ud]. rewrite <- !app_assoc. reflexivity.
      - rewrite !len_app, len_padded by lia. done. }
  erewrite bind_done.
  2:{ eapply (ud_copy_at ([CONNECT_MODE] ++ padded 33 ssid ++ [u8 (len ssid)]) 65); [| |lia].
      - cbn [ud set_ud]. rewrite <- !app_assoc. reflexivity.
      - rewrite !len_app, len_padded by lia. done. }
  erewrite bind_done by (apply rdn_ok; lia).
  erewrite bind_done.
  2:{ eapply (ud_copy_at ([CONNECT_MODE] ++ padded 33 ssid ++ [u8 (len ssid)] ++ padded 65 pwd
        ++ [u8 (len pwd)]) 6); [| |lia].
      - cbn [ud set_ud]. rewrite <- !app_assoc. reflexivity.
      - rewrite !len_app, !len_padded by lia. done. }
  erewrite bind_done.
  2:{ eapply (ud_put_at ([CONNECT_MODE] ++ padded 33 ssid ++ [u8 (len ssid)] ++ padded 65 pwd
        ++ [u8 (len pwd)] ++ padded 6 (slice bssid 0 6))).
      - cbn [ud set_ud]. rewrite <- !app_assoc. reflexivity.
      - rewrite !len_app, !len_padded by lia. done. }
  erewrite bind_done by reflexivity. cbn [fst config_random_num set_ud].
  erewrite bind_done by (apply memset_ok; lia).
  set (z := replicate (Z.to_nat 33) (u8 0) ++ drop (Z.to_nat 33) (config_random_num s)).
  assert (Hz : len z = 33).
  { unfold z. rewrite drop_ge, app_nil_r by (unfold len in Hrn; lia). done. }
  pose proof (len_nonneg (cstr random)).
  assert (Hcp : len (cstr random ++ [0]) <= 33) by (rewrite len_app; change (len [0]) with 1; lia).
  exists (splice z 0 (cstr random ++ [0])). split; [|split].
  - erewrite bind_done.
    2:{ unfold strcpy. rewrite bool_decide_true by done. apply memcpy_ok; lia. }
    unfold puts, router_image. rewrite !(u8_small (len _)) by (unfold is_u8; lia).
    rewrite (padded_full 6) by done. rewrite <- !app_assoc. reflexivity.
  - rewrite len_splice; lia.
  - apply cstr_splice_0, cstr_is_no_nul.
Qed.

(** ** From the provisioning result to the connection *)

(** The next pass of the main loop hands name, password and BSSID to the driver. *)
Definition hands_over (ssid pwd bssid : bytes) (ms : mstate) h : Prop :=
  forall now, exists h3, state_step now (ms, h) =
    if ya_hal_wlan_connect_ap (padded 33 ssid) (padded 65 pwd) bssid =? 0
    then Done tt (mkMs (set_state YA_APP_CONNECTING (ms_app ms)) (link_connect ms) (broadcast ms) (reconnect_count ms) (wait_start ms), h3)
    else Reset (ms, h3).
(** Every start from this flash connects to the router: the start state is
    [YA_APP_TO_CONNECT], and the main loop hands it over. *)
Definition boots_into (ssid pwd bssid : bytes) h : Prop :=
  forall p s0, fresh_ram s0 ->
  exists s2 h2, ya_start_app_main p (s0, reboot h) = Done tt (s2, h2) /\ ya_app_state s2 = YA_APP_TO_CONNECT /\
    forall link br rc ws, hands_over ssid pwd bssid (mkMs s2 link br rc ws) h2.

Lemma memcpy_padded {T} n b (t : T) : len b <= n -> memcpy (zeros n) 0 b t = Done (padded n b) t.
Proof.
  intros Hn. change (zeros n) with ([] ++ zeros n). rewrite memcpy_zeros by done. done.
Qed.
Lemma connecting_ok ssid pwd bssid select s2 link br rc ws h :
  router_ok ssid pwd bssid -> ud s2 = router_image ssid pwd bssid select ->
  exists h3, start_connecting (mkMs s2 link br rc ws, h) =
    if ya_hal_wlan_connect_ap (padded 33 ssid) (padded 65 pwd) bssid =? 0
    then Done tt (mkMs (set_state YA_APP_CONNECTING s2) link br rc ws, h3)
    else Reset (mkMs s2 link br rc ws, h3).
Proof.
  intros Hr Hu. exists (log (EvRouter MODULE_CONNECTING []) h).
  unfold start_connecting. pose proof Hr as ((Hs & _) & Hp & _).
  erewrite bind_done by reflexivity. erewrite bind_done by reflexivity. cbn [fst ms_app]. rewrite Hu.
  erewrite bind_done by (by apply rd_ssid_len). erewrite bind_done by (by apply rdn_ssid).
  erewrite bind_done by (apply memcpy_padded; lia).
  erewrite bind_done by (by apply rd_pwd_len). erewrite bind_done by (by apply rdn_pwd).
  erewrite bind_done by (apply memcpy_padded; lia). erewrite bind_done by (by apply rdn_bssid).
  by destruct (_ =? 0).
Qed.
Lemma image_hands_over ssid pwd bssid select ms h :
  router_ok ssid pwd bssid -> ud (ms_app ms) = router_image ssid pwd bssid select -> ya_app_state (ms_app ms) = YA_APP_TO_CONNECT ->
  hands_over ssid pwd bssid ms h.
Proof.
  destruct ms as [s2 link br rc ws]. intros Hr Hu Ha now.
  destruct (connecting_ok ssid pwd bssid select s2 link br rc ws h) as [h3 Hc]; [done..|].
  exists h3. unfold state_step. erewrite bind_done by reflexivity. cbn [fst id ms_app] in *. by rewrite Ha.
Qed.
Lemma flash_boots_into ssid pwd bssid select h :
  router_ok ssid pwd bssid -> holds (chip h) YA_USER_DATA_ADDR (router_image ssid pwd bssid select) -> boots_into ssid pwd bssid h.
Proof.
  intros Hr Hh p s0 Hs0. pose proof (router_image_ok _ _ _ select Hr) as Hi.
  destruct (start_after_read p s0 (reboot h) (router_image ssid pwd bssid select) (chip h))
    as (s2 & h2 & Hst & Ha & Hud & _); [|done|done|done|].
  { change (set_chip (chip h) (reboot h)) with (reboot h). by apply read_main; [| apply router_valid | |]. }
  exists s2, h2. split; [done|]. split; [done|]. intros. by eapply image_hands_over.
Qed.

(** What the soft-AP module hands over: terminated arrays. *)
Definition ap_result_ok (r : ap_result) : Prop :=
  let ssid := cstr (router_ssid r) in let pwd := cstr (router_pwd r) in
  router_ok ssid pwd (slice (router_bssid r) 0 6) /\ 6 <= len (router_bssid r) /\
  0 ∈ ap_random r /\ len (cstr (ap_random r)) <= 32.

#[export] Instance ap_result_ok_dec r : Decision (ap_result_ok r).
Proof. unfold ap_result_ok; apply _. Defined.

(** Posting a result to the main task. *)
Definition post_result (type : Z) : P C app unit :=
  ya_hal_os_queue_send QMain (mkMsg 0 None type) ;; ret tt.
Lemma soft_ap_stores r s h :
  ap_result_ok r -> len (config_random_num s) = 33 ->
  exists rn, len rn = 33 /\ cstr rn = cstr (ap_random r) /\
    ya_softap_callback 0 r (s, h) = post_result YA_AP_CONFIG_SUCCESS
      (set_random rn (set_ud (router_image (cstr (router_ssid r)) (cstr (router_pwd r))
         (slice (router_bssid r) 0 6) (ap_cloud r)) s), h).
Proof.
  intros (Hr & Hb & H0r & Hrl) Hrn. pose proof Hr as ((Hs & _) & Hp & _).
  destruct (store_router_ok _ _ _ _ (ap_cloud r) s h Hr Hb Hrn H0r Hrl) as (rn & Hst & Hl & Hc).
  exists rn. split; [done|]. split; [done|].
  unfold ya_softap_callback. cbn [Z.eqb]. erewrite bind_done; [reflexivity|].
  destruct (Z.eqb_spec (len (cstr (router_ssid r))) 0); [lia|].
  destruct (Z.ltb_spec 32 (len (cstr (router_ssid r)))); [lia|].
  destruct (Z.ltb_spec 64 (len (cstr (router_pwd r)))); [lia|]. cbn [orb].
  erewrite bind_done by exact Hst. reflexivity.
Qed.
Lemma post_result_ok type s h :
  (length (queues h QMain) < MSG_QUEUE_LENGTH)%nat ->
  post_result type (s, h) = Done tt (s, set_queue QMain (queues h QMain ++ [mkMsg 0 None type]) h).
Proof.
  intros Hq. unfold post_result. erewrite bind_done; [reflexivity|].
  unfold ya_hal_os_queue_send. by rewrite bool_decide_true.
Qed.

(** What smart config hands over: the lengths are separate fields. *)
Definition smnt_ok (r : smnt_result) : Prop :=
  smnt_result_status r = 0 /\ 0 < smnt_ssid_len r <= len (smnt_ssid r) /\
  0 <= smnt_password_len r <= len (smnt_password r) /\
  router_ok (slice (smnt_ssid r) 0 (smnt_ssid_len r)) (slice (smnt_password r) 0 (smnt_password_len r))
    (slice (smnt_bssid r) 0 6) /\ 6 <= len (smnt_bssid r) /\
  0 ∈ smnt_rand r /\ len (cstr (smnt_rand r)) <= 32.

#[export] Instance smnt_ok_dec r : Decision (smnt_ok r).
Proof. unfold smnt_ok; apply _. Defined.

Lemma smart_config_stores r s h :
  smnt_ok r -> len (config_random_num s) = 33 ->
  exists rn, len rn = 33 /\ cstr rn = cstr (smnt_rand r) /\
    ya_smart_config_result_callback r (s, h) = post_result YA_SNIFFER_SUCCESS
      (set_random rn (set_ud (router_image (slice (smnt_ssid r) 0 (smnt_ssid_len r))
         (slice (smnt_password r) 0 (smnt_password_len r)) (slice (smnt_bssid r) 0 6) (smnt_cloud r)) s), h).
Proof.
  intros (H0s & Hls & Hlp & Hr & Hb & H0r & Hrl) Hrn. pose proof Hr as ((Hs & Hf) & Hp & _).
  destruct (store_router_ok _ _ _ _ (smnt_cloud r) s h Hr Hb Hrn H0r Hrl) as (rn & Hst & Hl & Hc).
  rewrite len_slice in Hs, Hp by lia. exists rn. split; [done|]. split; [done|].
  unfold ya_smart_config_result_callback. erewrite bind_done by (apply rd_ok; lia).
  replace (smnt_ssid r !!! Z.to_nat 0) with (slice (smnt_ssid r) 0 (smnt_ssid_len r) !!! 0%nat).
  2:{ unfold slice. rewrite drop_0, !list_lookup_total_alt, lookup_take_lt by lia. done. }
  rewrite H0s, (proj2 (Z.eqb_neq _ _) Hf). cbn [negb Z.eqb].
  destruct (Z.eqb_spec (smnt_ssid_len r) 0); [lia|].
  destruct (Z.ltb_spec 32 (smnt_ssid_len r)); [lia|].
  destruct (Z.ltb_spec 64 (smnt_password_len r)); [lia|]. cbn [orb].
  erewrite bind_done by (apply rdn_ok; lia). erewrite bind_done by (apply rdn_ok; lia).
  erewrite bind_done by exact Hst. reflexivity.
Qed.

End Store.
