(* ===== verification/MainSafety.v ===== *)
(** * The main task never faults

    An invariant of the globals of [ya_app_main.c] under which every turn of
    the main task ([AppMain.ya_app_main_step]) returns or resets the module,
    for every message, flash content and driver status, and for every allocator
    answer unless the message changes the mode. *)

From stdpp Require Import base numbers list strings relations.
From S2P Require Import Prelude Platform SpiFlash Flash CommonFunc HalTimer CJson SysTime.
From S2P Require Import DeviceTimer License MainQueue Cloud UserData AppMain UserDataProofs Provisioning.

(** The globals: the structure, credentials within their arrays, the cached
    names and the licence strings behind them. *)
Definition app_inv (s : app) : Prop :=
  len (ud s) = SIZEOF_USER_DATA /\ 0 <= ud s !!! Z.to_nat o_ssid_len <= 32 /\
  0 <= ud s !!! Z.to_nat o_pwd_len <= 64 /\
  len (product_key s) = YA_PRODUCT_KEY_LEN + 1 /\ len (device_name s) = YA_DEVICE_ID_LEN + 1 /\
  len (config_random_num s) = 33 /\
  name_ok YA_PRODUCT_KEY_LEN (aliyun_productkey (a_lic s)) /\
  name_ok YA_DEVICE_ID_LEN (aliyun_deviceid (a_lic s)).
(** Messages that carry text carry one that fits its field. *)
Definition text_fits (n : Z) (p : option bytes) : Prop :=
  match p with Some b => len (cstr b) < n | None => False end.
Definition main_msg_ok (m : msg) : Prop :=
  (m_type m = YA_SET_SCAN_RSSI -> text_fits 33 (m_addr m)) /\
  (m_type m = YA_SET_OTA_TEST -> text_fits 400 (m_addr m)).
#[export] Instance name_ok_dec n p : Decision (name_ok n p).
Proof. unfold name_ok; destruct p; apply _. Defined.
#[export] Instance text_fits_dec n p : Decision (text_fits n p).
Proof. unfold text_fits; destruct p; apply _. Defined.
#[export] Instance app_inv_dec s : Decision (app_inv s).
Proof. unfold app_inv; apply _. Defined.
#[export] Instance main_msg_ok_dec m : Decision (main_msg_ok m).
Proof. unfold main_msg_ok; apply _. Defined.

(** Inverting runs. *)
Lemma bind_done_inv {T A B} (m : M T A) (k : A -> M T B) t b t' :
  bind m k t = Done b t' -> exists a t1, m t = Done a t1 /\ k a t1 = Done b t'.
Proof. unfold bind. destruct (m t); naive_solver. Qed.
Lemma wp_done_inv {T A} (m : M T A) Q R t a t' : wp m Q R t -> m t = Done a t' -> Q a t'.
Proof. unfold wp. intros Hw He. by rewrite He in Hw. Qed.

Section Safety.
Context {C : Type} `{NorChipLaws C} `{CloudEnv} `{JsonText} `{MainEnv}.
Implicit Types (h : hw C).

Definition main_queue_ok h : Prop := Forall main_msg_ok (queues h QMain).

(** [m] ends without a fault and, if it returns, keeps [I], the messages waiting and
    memory to spare. *)
Definition spared h h' : Prop := (heap h = [] -> heap h' = []) /\ queues h' QMain = queues h QMain.
Lemma spared_trans h1 h2 h3 : spared h1 h2 -> spared h2 h3 -> spared h1 h3.
Proof. intros [P1 E1] [P2 E2]. split; [auto|congruence]. Qed.
Definition safe {S A} (I : S -> Prop) (m : P C S A) : Prop :=
  forall s h, I s -> main_queue_ok h ->
  wp m (fun _ t => I t.1 /\ main_queue_ok t.2 /\ spared h t.2) (fun _ => True) (s, h).

Lemma spared_refl h : spared h h.
Proof. by split. Qed.
Ltac safe_now := intros ? ? ? ?; split; [done|split; [done|by split]].
Section Rules.
Context {S : Type} (I : S -> Prop).
#[local] Hint Resolve spared_refl : core.
Lemma safe_ret {A} (a : A) : safe I (ret a).
Proof. safe_now. Qed.
Lemma safe_bind {A B} (m : P C S A) (k : A -> P C S B) :
  safe I m -> (forall a, safe I (k a)) -> safe I (bind m k).
Proof.
  intros Hm Hk s h Hi Hq. apply wp_bind. eapply wp_mono; [by apply Hm| |done].
  intros a [s' h'] (Hi' & Hq' & Hsp). eapply wp_mono; [by apply Hk| |done].
  intros b [s2 h2] (? & ? & Hsp2). split_and!; [done..|]. by eapply spared_trans.
Qed.
Lemma safe_deref {A B} (b : A) (k : A -> P C S B) : safe I (k b) -> safe I (bind (deref (Some b)) k).
Proof. done. Qed.
Lemma safe_if {A} (b : bool) (m1 m2 : P C S A) : safe I m1 -> safe I m2 -> safe I (if b then m1 else m2).
Proof. by destruct b. Qed.
Lemma safe_gets {A} (f : S -> A) : safe I (gets f).
Proof. safe_now. Qed.
Lemma safe_puts f : (forall s, I s -> I (f s)) -> safe I (puts f).
Proof. intros Hf s h Hi Hq. split; [by apply Hf|]. by split. Qed.
Lemma safe_emit e : safe I (emit e).
Proof. safe_now. Qed.
Lemma safe_reset {A} : safe I (ya_hal_sys_reboot (A := A)).
Proof. by intros s h Hi Hq. Qed.
Lemma safe_free : safe I ya_hal_os_memory_free.
Proof. safe_now. Qed.
Lemma safe_stored {A} (m : P C S A) :
  (forall Q R s h, (forall r h', stored 0 h h' -> Q r (s, h')) -> wp m Q R (s, h)) -> safe I m.
Proof.
  intros Hm s h Hi Hq. apply Hm. intros r h' Hst. split; [done|]. cbn [snd]. pose proof (proj2 Hst).
  apply stored_fields in Hst as (_ & Hqs & _). unfold main_queue_ok, spared. by rewrite Hqs.
Qed.
Lemma safe_erase addr n : safe I (ya_erase_flash addr n).
Proof. apply safe_stored. intros Q R s h HQ. by apply wp_erase_flash. Qed.
Lemma safe_hardware_send m : safe I (ya_hal_os_queue_send QHardware m).
Proof.
  intros s h Hi Hq. unfold wp, ya_hal_os_queue_send. case_bool_decide; (split; [done|split; [done|by split]]).
Qed.
End Rules.

Lemma safe_zoom {S U A} (I : S -> Prop) (J : U -> Prop) (g : S -> U) p (m : P C U A) :
  safe J m -> (forall s, I s -> J (g s)) -> (forall u s, I s -> J u -> I (p u s)) ->
  safe I (zoom_s g p m).
Proof.
  intros Hm Hg Hp s h Hi Hq. apply wp_zoom. eapply wp_mono; [by apply Hm, Hq; apply Hg| |done].
  intros a [u h'] (Hj & Hq'). split; [by apply Hp|done].
Qed.
End Safety.

#[export] Hint Resolve spared_refl : core.
(** Compose the rules down to the operations. *)
Ltac safe_step :=
  lazymatch goal with
  | |- safe _ (bind _ _) => apply safe_bind; [|intros ?]
  | |- safe _ (ret _) => apply safe_ret
  | |- safe _ (if ?b then _ else _) =>
    lazymatch type of b with bool => apply safe_if | _ => destruct b end
  | |- safe _ (match ?x with _ => _ end) => destruct x
  | |- safe _ (gets _) => apply safe_gets
  | |- safe _ (emit _) => apply safe_emit
  | |- safe _ ya_hal_sys_reboot => apply safe_reset
  | |- safe _ ya_hal_os_memory_free => apply safe_free
  | |- safe _ (ya_erase_flash _ _) => apply safe_erase
  | |- safe _ (ya_delay _) => apply safe_emit
  end.

(** ** The operations *)
Section Operations.
Context {C : Type} `{NorChipLaws C} `{CloudEnv} `{JsonText} `{MainEnv}.
Implicit Types (h : hw C) (s : app).

Lemma app_inv_ud s u :
  app_inv s -> len u = SIZEOF_USER_DATA -> 0 <= u !!! Z.to_nat o_ssid_len <= 32 ->
  0 <= u !!! Z.to_nat o_pwd_len <= 64 -> app_inv (set_ud u s).
Proof. intros (_ & _ & _ & Hr) Hl Hs Hp. exact (conj Hl (conj Hs (conj Hp Hr))). Qed.
Lemma safe_clear : safe (C := C) app_inv ud_clear.
Proof. apply safe_puts. intros s Hi. by apply app_inv_ud. Qed.
(** A store outside the two length bytes. *)
Lemma safe_put o v :
  0 <= o < SIZEOF_USER_DATA -> o <> o_ssid_len -> o <> o_pwd_len -> safe (C := C) app_inv (ud_put o v).
Proof.
  intros Ho Hs Hp s h Hi Hq. pose proof Hi as (Hl & Hn & Hm & _).
  unfold ud_put. wstep. apply wp_gets. cbn [fst]. wstep. apply wp_wr; [lia|]. apply wp_puts.
  split; [|by split]. unfold o_ssid_len, o_pwd_len in *.
  apply app_inv_ud; [done|by rewrite len_insert|rewrite list_lookup_total_insert_ne;
    [done|unfold o_ssid_len, o_pwd_len in *; lia]..].
Qed.
Lemma lookup_total_splice_below (b : bytes) off src i :
  (i < Z.to_nat off)%nat -> off + len src <= len b -> splice b off src !!! i = b !!! i.
Proof. intros. rewrite !list_lookup_total_alt. by rewrite lookup_splice_below. Qed.
(** A copy behind them. *)
Lemma safe_copy o src :
  o_pwd_len < o -> o + len src <= SIZEOF_USER_DATA -> safe (C := C) app_inv (ud_copy o src).
Proof.
  intros Ho Hs s h Hi Hq. pose proof Hi as (Hl & Hn & Hm & _). unfold o_ssid_len, o_pwd_len in *.
  unfold ud_copy. wstep. apply wp_gets. cbn [fst]. wstep. apply wp_memcpy; [lia|lia|]. apply wp_puts.
  split; [|by split].
  apply app_inv_ud; [done|by rewrite len_splice by lia|rewrite lookup_total_splice_below;
    [done|unfold o_ssid_len, o_pwd_len; lia|lia]..].
Qed.
Lemma safe_save : safe (C := C) app_inv ya_save_user_data.
Proof.
  intros s h Hi Hq. unfold ya_save_user_data. wstep. apply wp_gets. cbn [fst].
  pose proof Hi as (Hl & _). unfold SIZEOF_USER_DATA in *.
  wstep. apply wp_write_flash; [lia|lia|]. intros r1 h1 H1'. wstep. apply wp_write_flash; [lia|lia|].
  intros r2 h2 H2'. apply wp_ret. split; [done|]. cbn [snd].
  pose proof (proj2 H1'). pose proof (proj2 H2').
  apply stored_fields in H1' as (_ & Hq1 & _), H2' as (_ & Hq2 & _).
  unfold main_queue_ok, spared. rewrite Hq2, Hq1. auto.
Qed.

(** Licence getters and the cached names. *)
Lemma app_inv_lic l s : app_inv s -> lic_inv l -> app_inv (set_lic l s).
Proof.
  intros (H1' & H2' & H3' & H4' & H5' & H6' & _) Hl.
  exact (conj H1' (conj H2' (conj H3' (conj H4' (conj H5' (conj H6' Hl)))))).
Qed.
Lemma app_inv_names pk dn s :
  app_inv s -> len pk = YA_PRODUCT_KEY_LEN + 1 -> len dn = YA_DEVICE_ID_LEN + 1 -> app_inv (set_names pk dn s).
Proof.
  intros (H1' & H2' & H3' & _ & _ & Hl) Hp Hd. exact (conj H1' (conj H2' (conj H3' (conj Hp (conj Hd Hl))))).
Qed.
Lemma app_inv_random rn s : app_inv s -> len rn = 33 -> app_inv (set_random rn s).
Proof.
  intros (H1' & H2' & H3' & H4' & H5' & _ & Hl) Hr.
  exact (conj H1' (conj H2' (conj H3' (conj H4' (conj H5' (conj Hr Hl)))))).
Qed.
Lemma safe_in_lic {A} (m : P C lic A) : safe lic_inv m -> safe app_inv (in_lic m).
Proof.
  intros Hm. apply (safe_zoom _ lic_inv); [done|by intros s (_ & _ & _ & _ & _ & _ & ? & ?)|].
  intros l s Hi Hl. by apply app_inv_lic.
Qed.
Lemma safe_slot_free f :
  (forall l, lic_inv l -> lic_inv (slot_set f None l)) -> safe (C := C) lic_inv (slot_free f).
Proof.
  intros Hf. unfold slot_free. repeat safe_step. by apply safe_puts.
Qed.
Lemma safe_aws_free : safe (C := C) lic_inv ya_aws_para_free.
Proof. unfold ya_aws_para_free. repeat safe_step; by apply safe_slot_free. Qed.
Lemma safe_aliyun_free : safe (C := C) lic_inv ya_aliyun_para_free.
Proof. unfold ya_aliyun_para_free. repeat safe_step; apply safe_slot_free; by intros l []. Qed.

(** Copying a licence string into its cache. *)
Lemma wp_slot_copy f n dst Q R l h :
  name_ok n (slot_get f l) -> len dst = n + 1 -> 0 <= n ->
  (forall r d, len d = n + 1 -> Q (r, d) (l, h)) -> wp (slot_copy f n dst) Q R (l, h).
Proof.
  intros Hn Hd H0' HQ. unfold slot_copy. wstep. apply wp_gets. cbn [fst].
  destruct (slot_get f l) as [b|].
  - destruct Hn as [Hz Hn]. pose proof (len_nonneg (cstr b)).
    wstep. unfold strcpy. rewrite bool_decide_true by done.
    apply wp_memcpy; [lia|rewrite len_app; change (len [0]) with 1; lia|]. apply wp_ret, HQ.
    rewrite len_splice; [done|lia|rewrite len_app; change (len [0]) with 1; lia].
  - wstep. apply wp_memset; [lia|]. apply wp_ret, HQ. rewrite drop_ge, app_nil_r by (unfold len in Hd; lia).
    unfold len. rewrite length_replicate. lia.
Qed.
Lemma safe_aly_thing_name : safe (C := C) app_inv ya_aly_get_thing_name.
Proof.
  unfold ya_aly_get_thing_name. intros s h Hi Hq. wstep. apply wp_gets. cbn [fst id].
  wstep. wstep; [|by apply wp_ret].
  wstep. unfold in_lic. apply wp_zoom. pose proof Hi as (? & ? & ? & ? & ? & ? & ? & ?).
  apply wp_slot_copy; [done..|]. intros r d Hd. apply wp_puts. cbn [fst snd]. wstep. apply wp_gets.
  apply wp_ret. split; [|by split]. apply app_inv_names; [|done|done]. by apply app_inv_lic.
Qed.
Lemma safe_aly_client_id : safe (C := C) app_inv ya_aly_get_client_id.
Proof.
  unfold ya_aly_get_client_id. intros s h Hi Hq. wstep. apply wp_gets. cbn [fst id].
  wstep. wstep; [|by apply wp_ret].
  wstep. unfold in_lic. apply wp_zoom. pose proof Hi as (? & ? & ? & ? & ? & ? & ? & ?).
  apply wp_slot_copy; [done..|]. intros r d Hd. apply wp_puts. cbn [fst snd]. wstep. apply wp_gets.
  apply wp_ret. split; [|by split]. apply app_inv_names; [|done|done]. by apply app_inv_lic.
Qed.

(** Changes of the other globals. *)
Lemma safe_set_state st : safe (C := C) app_inv (puts (set_state st)).
Proof. by apply safe_puts. Qed.
Lemma safe_check_support sel : safe (C := C) app_inv (ya_check_cloud_support sel).
Proof.
  unfold ya_check_cloud_support. repeat safe_step; first [by apply safe_puts
    | apply safe_aly_thing_name | apply safe_aly_client_id
    | apply safe_in_lic; apply safe_gets].
Qed.
Lemma safe_start_cloud ct : safe (C := C) app_inv (ya_start_cloud_apps ct).
Proof.
  unfold ya_start_cloud_apps. apply safe_bind; [safe_step; apply safe_in_lic;
    [apply safe_aws_free|apply safe_aliyun_free]|intros _].
  safe_step; [safe_step|]. destruct (cloud_create (a_conn a) ct) as [c r].
  repeat safe_step. by apply safe_puts.
Qed.
Lemma safe_factory {A} : safe (C := C) app_inv (ya_reset_module_to_factory_internal (A := A)).
Proof. unfold ya_reset_module_to_factory_internal, ya_erase_all_user_data. repeat safe_step. Qed.
Lemma safe_idle : safe (C := C) app_inv ya_set_idle_internal.
Proof. unfold ya_set_idle_internal. repeat safe_step; [by apply safe_put|apply safe_save]. Qed.
Lemma safe_rssi {A} buf :
  text_fits 33 buf -> safe (C := C) app_inv (ya_set_factory_rssi_info_internal (A := A) buf).
Proof.
  intros Hb. destruct buf as [b|]; [|done]. cbn in Hb. unfold ya_set_factory_rssi_info_internal.
  safe_step; [by apply safe_put|]. safe_step; [by apply safe_copy|]. apply safe_deref.
  safe_step; [apply safe_copy; [done|unfold o_rssi_name, SIZEOF_USER_DATA; lia]|].
  safe_step; [apply safe_save|]. repeat safe_step.
Qed.
Lemma safe_ota_test {A} url :
  text_fits 400 url -> safe (C := C) app_inv (ya_set_enter_ota_test_mode_internal (A := A) url).
Proof.
  intros Hb. destruct url as [b|]; [|done]. cbn in Hb. unfold ya_set_enter_ota_test_mode_internal.
  safe_step; [by apply safe_copy|]. apply safe_deref.
  safe_step; [apply safe_copy; [done|unfold o_ota_url, SIZEOF_USER_DATA; lia]|].
  safe_step; [apply safe_save|]. repeat safe_step.
Qed.

(** ** The entry of the task *)
Lemma safe_ud_get o : 0 <= o < SIZEOF_USER_DATA -> safe (C := C) app_inv (ud_get o).
Proof.
  intros Ho s h Hi Hq. pose proof Hi as (Hl & _). unfold ud_get. wstep. apply wp_gets. cbn [fst].
  by apply wp_rd; [lia|].
Qed.
Lemma safe_add_support name id bits :
  safe (C := C) app_inv name -> safe (C := C) app_inv id -> safe (C := C) app_inv (add_support name id bits).
Proof. intros Hn Hi. unfold add_support. repeat (done || safe_step). Qed.
Lemma safe_wifi_support : safe (C := C) app_inv ya_wifi_cloud_support.
Proof.
  assert (Hcn : safe (C := C) app_inv (add_support ya_aly_get_thing_name ya_aly_get_client_id (Z.shiftl 1 WIFI_CN)))
    by (apply safe_add_support; [apply safe_aly_thing_name|apply safe_aly_client_id]).
  assert (Haws : safe (C := C) app_inv (add_support (in_lic ya_aws_get_thing_type)
      (in_lic ya_aws_get_client_id) AWS_DOMAIN_SUPPORT))
    by (apply safe_add_support; apply safe_in_lic, safe_gets).
  unfold ya_wifi_cloud_support. repeat (done || safe_step).
Qed.
Lemma safe_other_apps : safe (C := C) app_inv ya_start_other_apps.
Proof. unfold ya_start_other_apps. repeat safe_step. apply safe_start_cloud. Qed.
Lemma safe_factory_check : safe (C := C) app_inv ya_check_enter_factory_mode.
Proof.
  unfold ya_check_enter_factory_mode. safe_step; [safe_step|].
  destruct (ya_hal_wlan_scan_obj_ssid _) as [r [|[] [|[] [|]]]]; repeat safe_step; apply safe_emit.
Qed.
(** The stored name fits the array it is copied into before a scan. *)
Definition rssi_name_ok (u : bytes) : Prop := len (cstr (drop (Z.to_nat o_rssi_name) u)) < 33.
Definition named_inv s : Prop := app_inv s /\ rssi_name_ok (ud s).
Lemma safe_rescan fuel flag : safe (C := C) named_inv (rescan fuel flag).
Proof.
  revert flag. induction fuel as [|fuel IH]; intros flag; cbn [rescan]; [safe_step|].
  intros s h Hi Hq. pose proof Hi as [_ Hn]. unfold ud_string. wstep. wstep. apply wp_gets. cbn [fst]. apply wp_ret.
  wstep. apply wp_memcpy; [lia|rewrite len_zeros; unfold rssi_name_ok in Hn; lia|]. cbn beta.
  destruct (rssi_scan _ flag) as [r [found rssi]].
  match goal with |- wp ?m _ _ _ => enough (safe named_inv m) as Hm by (by apply Hm) end.
  repeat (safe_step || apply IH).
Qed.
Lemma safe_weaken {A} (I J : app -> Prop) (m : P C app A) s h : safe J m -> J s -> (forall s, J s -> I s) -> main_queue_ok h ->
  wp m (fun _ t => I t.1 /\ main_queue_ok t.2 /\ spared h t.2) (fun _ => True) (s, h).
Proof. intros Hm Hj Hij Hq. eapply wp_mono; [by apply Hm| |done]. intros a t (? & ?). split; [by apply Hij|done]. Qed.
Lemma rssi_request_safe s h : app_inv s -> (ud s !!! Z.to_nat o_rssi_flag = 1 -> rssi_name_ok (ud s)) -> main_queue_ok h ->
  wp rssi_request (fun _ t => app_inv t.1 /\ main_queue_ok t.2 /\ spared h t.2) (fun _ => True) (s, h).
Proof.
  intros Hi Hn Hq. pose proof Hi as (Hl & _). unfold rssi_request. wstep. unfold ud_get. wstep. apply wp_gets. cbn [fst].
  apply wp_rd; [unfold o_rssi_flag, SIZEOF_USER_DATA in *; lia|]. destruct (Z.eqb_spec (ud s !!! Z.to_nat o_rssi_flag) 1) as [Ef|_]; [|by apply wp_ret].
  specialize (Hn Ef). wstep. apply wp_upd_hw. wstep. apply wp_puts. wstep.
  eapply wp_mono; [apply (safe_weaken app_inv named_inv); [apply safe_rescan|by split|by intros ? []|exact Hq]| |done].
  intros a [s1 h1] (Hi1 & Hq1 & Hsp1). cbn [fst snd] in *.
  match goal with |- wp ?m _ _ _ => assert (Hm : safe app_inv m) end.
  { repeat safe_step; first [by apply safe_put | by apply safe_copy | apply safe_save]. }
  eapply wp_mono; [by apply Hm| |done]. intros _ t (? & ? & Hsp). split_and!; [done..|]. by eapply spared_trans.
Qed.
(** What runs before the request leaves the user data alone. *)
Definition same_ud {A} (m : P C app A) : Prop := forall s h a t, m (s, h) = Done a t -> ud t.1 = ud s.
Lemma same_ud_bind {A B} (m : P C app A) (k : A -> P C app B) : same_ud m -> (forall a, same_ud (k a)) -> same_ud (bind m k).
Proof. intros Hm Hk s h b t (a & [s1 h1] & H1' & H2')%bind_done_inv. rewrite (Hk _ _ _ _ _ H2'). exact (Hm _ _ _ _ H1'). Qed.
Lemma same_ud_ret {A} (a : A) : same_ud (ret a).
Proof. by intros s h b t [= _ <-]. Qed.
Lemma same_ud_gets {A} (f : app -> A) : same_ud (gets f).
Proof. by intros s h b t [= _ <-]. Qed.
Lemma same_ud_puts f : (forall s, ud (f s) = ud s) -> same_ud (puts f).
Proof. intros Hf s h b t [= _ <-]. apply Hf. Qed.
Lemma same_ud_emit e : same_ud (emit e).
Proof. by intros s h b t [= _ <-]. Qed.
Lemma same_ud_lic {A} (m : P C lic A) : same_ud (in_lic m).
Proof. intros s h a t. unfold in_lic, zoom_s, zoom. destruct (m _) as [b []| |]; [|done..]. by intros [= _ <-]. Qed.
Lemma same_ud_get o : same_ud (ud_get o).
Proof. apply same_ud_bind; [apply same_ud_gets|]. intros b s h a t. unfold rd. destruct (_ && _); [|done]. by intros [= _ <-]. Qed.
Ltac same_step :=
  lazymatch goal with
  | |- same_ud (bind _ _) => apply same_ud_bind; [|intros ?]
  | |- same_ud (ret _) => apply same_ud_ret
  | |- same_ud (gets _) => apply same_ud_gets
  | |- same_ud (puts _) => by apply same_ud_puts
  | |- same_ud (emit _) => apply same_ud_emit
  | |- same_ud (in_lic _) => apply same_ud_lic
  | |- same_ud (ud_get _) => apply same_ud_get
  | |- same_ud (if ?b then _ else _) => destruct b
  | |- same_ud (match ?x with _ => _ end) => destruct x
  end.
Lemma same_ud_support : same_ud (ya_wifi_cloud_support (C := C)).
Proof. unfold ya_wifi_cloud_support, add_support, ya_aly_get_thing_name, ya_aly_get_client_id. repeat same_step. Qed.
Lemma same_ud_announce st : same_ud (announce (C := C) st).
Proof. unfold announce, ya_thing_handle_router. repeat same_step. Qed.
(** A safe step that leaves the user data alone, followed by the rest. *)
Lemma wp_same_ud {A B} (m : P C app A) (k : A -> P C app B) Q s h : safe app_inv m -> same_ud m -> app_inv s -> main_queue_ok h ->
  (forall a s' h', app_inv s' -> main_queue_ok h' -> spared h h' -> ud s' = ud s -> wp (k a) Q (fun _ => True) (s', h')) ->
  wp (bind m k) Q (fun _ => True) (s, h).
Proof.
  intros Hm Hu Hi Hq Hk. wstep. pose proof (Hm s h Hi Hq) as Hw. unfold wp at 1 in Hw. unfold wp at 1.
  destruct (m (s, h)) as [a [s' h']| |] eqn:E; [|done..]. destruct Hw as (? & ? & ?). apply Hk; try done. exact (Hu _ _ _ _ E).
Qed.
Lemma safe_clear_random : safe (C := C) app_inv ya_clear_randomnum.
Proof.
  intros s h Hi Hq. pose proof Hi as (_ & _ & _ & _ & _ & Hr & _). unfold ya_clear_randomnum.
  wstep. apply wp_gets. cbn [fst]. wstep. apply wp_memset; [lia|]. apply wp_puts. split; [|by split].
  apply app_inv_random; [done|]. rewrite drop_ge, app_nil_r by (unfold len in Hr; lia). done.
Qed.
Lemma safe_announce st : safe (C := C) app_inv (announce st).
Proof. unfold announce, ya_thing_handle_router. repeat safe_step. Qed.
Lemma main_init_safe s h : app_inv s -> (ud s !!! Z.to_nat o_rssi_flag = 1 -> rssi_name_ok (ud s)) -> main_queue_ok h ->
  wp ya_app_main_init (fun _ t => app_inv t.1 /\ main_queue_ok t.2) (fun _ => True) (s, h).
Proof.
  intros Hi Hn Hq. unfold ya_app_main_init.
  apply wp_same_ud; [apply safe_wifi_support|apply same_ud_support|done..|]. intros _ s1 h1 Hi1 Hq1 _ E1.
  apply wp_same_ud; [apply safe_gets|apply same_ud_gets|done..|]. intros a s2 h2 Hi2 Hq2 _ E2.
  apply wp_same_ud; [safe_step; [safe_step; [by apply safe_ud_get|by apply safe_puts]|safe_step]|repeat same_step|done..|]. intros _ s3 h3 Hi3 Hq3 _ E3.
  apply wp_same_ud; [apply safe_announce|apply same_ud_announce|done..|]. intros _ s4 h4 Hi4 Hq4 _ E4.
  apply wp_same_ud; [apply safe_emit|apply same_ud_emit|done..|]. intros _ s5 h5 Hi5 Hq5 _ E5.
  wstep. eapply wp_mono; [apply rssi_request_safe; [done|rewrite E5, E4, E3, E2, E1; exact Hn|done]| |done].
  intros _ [s6 h6] (Hi6 & Hq6 & _).
  match goal with |- wp ?m _ _ _ => assert (Hm : safe app_inv m) end; [|eapply wp_mono; [by apply Hm| |done]; by intros _ t (? & ? & _)].
  safe_step; [apply safe_other_apps|]. safe_step; [safe_step|].
  repeat lazymatch goal with
    | |- safe _ ya_clear_randomnum => apply safe_clear_random
    | |- safe _ ya_check_enter_factory_mode => apply safe_factory_check
    | |- safe _ ya_debind_disable => by apply safe_puts
    | |- safe _ ya_debind_enable => by apply safe_puts
    | |- safe _ (puts _) => by apply safe_puts
    | _ => safe_step
    end.
Qed.
End Operations.

(** ** A turn of the task *)
Lemma in_app_done {C A} (m : P C app A) (s : mstate) (h : hw C) a t' :
  in_app m (s, h) = Done a t' ->
  exists u h', m (ms_app s, h) = Done a (u, h') /\ ms_app t'.1 = u /\ t'.2 = h'.
Proof.
  unfold in_app, zoom_s, zoom. destruct (m (ms_app s, h)) as [b [u h']| |]; [|done..].
  intros [= <- <-]. by exists u, h'.
Qed.

Section Turn.
Context {C : Type} `{NorChipLaws C, !NorReliable C} `{CloudEnv} `{JsonText} `{MainEnv} (Hnamed : connected_named).
Implicit Types (h : hw C) (s : mstate).
Definition main_inv s : Prop := app_inv (ms_app s).

Lemma safe_in_app {A} (m : P C app A) : safe app_inv m -> safe main_inv (in_app m).
Proof. intros Hm. by apply (safe_zoom _ app_inv). Qed.
Lemma safe_to_state st : safe (C := C) main_inv (to_state st).
Proof. by apply safe_in_app, safe_puts. Qed.
Lemma safe_router st : safe (C := C) main_inv (tell_router st).
Proof. apply safe_in_app, safe_emit. Qed.
Lemma safe_clear_timers : safe (C := C) main_inv ya_clear_timer_flash_into_hardware_queue.
Proof. unfold ya_clear_timer_flash_into_hardware_queue. repeat safe_step. apply safe_hardware_send. Qed.
(** The stored credentials fit the driver's structures. *)
Lemma safe_connecting : safe (C := C) main_inv start_connecting.
Proof.
  unfold start_connecting. safe_step; [apply safe_router|]. intros s h Hi Hq.
  pose proof Hi as (Hl & Hn & Hm & _). wstep. apply wp_gets. cbn [fst].
  unfold SIZEOF_USER_DATA, o_ssid, o_ssid_len, o_pwd, o_pwd_len, o_bssid in *.
  set (u := ud (ms_app s)) in *. clearbody u.
  wstep. wstep. revert Hn. generalize (u !!! Z.to_nat 34) as n. intros n Hn.
  wstep. wstep. wstep. wstep; [rewrite len_slice, len_zeros; lia|].
  wstep. wstep. revert Hm. generalize (u !!! Z.to_nat 100) as m. intros m Hm.
  wstep. wstep. wstep. wstep; [rewrite len_slice, len_zeros; lia|].
  wstep. wstep. wstep; [done|]. by apply safe_to_state.
Qed.
(** The main task's own operations, by name. *)
Ltac safe_main :=
  lazymatch goal with
  | |- safe _ (to_state _) => apply safe_to_state
  | |- safe _ (tell_router _) => apply safe_router
  | |- safe _ (wlan _) => apply safe_emit
  | |- safe _ (puts _) => by apply safe_puts
  | |- safe _ start_connecting => apply safe_connecting
  | |- safe _ ya_clear_timer_flash_into_hardware_queue => apply safe_clear_timers
  | |- safe _ (in_app ya_save_user_data) => apply safe_in_app, safe_save
  | |- safe _ (in_app (ya_check_cloud_support _)) => apply safe_in_app, safe_check_support
  | |- safe _ (in_app (ya_start_cloud_apps _)) => apply safe_in_app, safe_start_cloud
  | |- safe _ (in_app (puts _)) => by apply safe_in_app, safe_puts
  | |- safe _ (in_app ya_reset_module_to_factory_internal) => apply safe_in_app, safe_factory
  | |- safe _ (in_app ya_set_idle_internal) => apply safe_in_app, safe_idle
  | _ => safe_step
  end.
Lemma safe_state_step now : safe (C := C) main_inv (state_step now).
Proof.
  unfold state_step. safe_step; [safe_step|]. destruct (ya_app_state (ms_app a)); repeat safe_main.
Qed.
Lemma safe_provisioned : safe (C := C) main_inv provisioned.
Proof.
  unfold provisioned. repeat safe_main.
  apply safe_in_app. unfold ud_get. intros s h Hi Hq. pose proof Hi as (Hl & _).
  wstep. apply wp_gets. cbn [fst]. apply wp_rd; [unfold o_cloud_select, SIZEOF_USER_DATA in *; lia|done].
Qed.
Lemma safe_failed : safe (C := C) main_inv provisioning_failed.
Proof. unfold provisioning_failed. repeat safe_main. Qed.

(** The messages that change the mode: they end in a reset, after the cloud has
    been told. *)
Definition mode_change (type : Z) : Prop :=
  type = YA_CHANGE_TOGGLE_MODE \/ type = YA_CHANGE_AP_MODE \/ type = YA_CHANGE_SNIFFER_MODE.
#[export] Instance mode_change_dec type : Decision (mode_change type).
Proof. unfold mode_change; apply _. Defined.
Lemma safe_message now m : main_msg_ok m -> ~ mode_change (m_type m) -> safe (C := C) main_inv (handle_main_msg now m).
Proof.
  intros [Hrssi Hota] Hmode. unfold mode_change in Hmode. unfold handle_main_msg.
  repeat lazymatch goal with
    | |- safe _ (if m_type m =? ?k then _ else _) => destruct (Z.eqb_spec (m_type m) k)
    | |- safe _ provisioned => apply safe_provisioned
    | |- safe _ provisioning_failed => apply safe_failed
    | |- safe _ (in_app (ya_set_mode_internal _ _)) => exfalso; tauto
    | _ => safe_main
    end.
  - by apply safe_in_app, safe_rssi, Hrssi.
  - by apply safe_in_app, safe_ota_test, Hota.
Qed.

Lemma mode_message now m s h Q : mode_change (m_type m) -> heap h = [] -> wp (handle_main_msg now m) Q (fun _ => True) (s, h).
Proof.
  intros Hm Hh. unfold handle_main_msg. by destruct Hm as [-> | [-> | ->]]; cbn; apply wp_zoom, wp_set_mode.
Qed.
Lemma set_mode_ends {A} obj flag (s : app) h (a : A) t : ya_set_mode_internal obj flag (s, h) <> Done a t.
Proof.
  unfold ya_set_mode_internal. intros E. do 7 (apply bind_done_inv in E as (? & ? & _ & E)). done.
Qed.
Lemma mode_message_ends now m s h a t : mode_change (m_type m) -> handle_main_msg now m (s, h) <> Done a t.
Proof.
  intros Hm. unfold handle_main_msg. destruct Hm as [-> | [-> | ->]]; cbn; intros (? & ? & E & _)%in_app_done; by eapply set_mode_ends.
Qed.

(** One turn: it may only go wrong with a change of mode when memory is short. *)
Lemma turn_safe now s h : main_inv s -> main_queue_ok h ->
  (heap h = [] \/ forall m l, queues h QMain = m :: l -> ~ mode_change (m_type m)) ->
  wp (ya_app_main_step now) (fun _ t => main_inv t.1 /\ main_queue_ok t.2) (fun _ => True) (s, h).
Proof.
  intros Hi Hq Hm. unfold ya_app_main_step. wstep. eapply wp_mono; [by apply safe_state_step| |done].
  intros _ [s1 h1] (Hi1 & Hq1 & Hsp & Eq). cbn [fst snd] in *. wstep. unfold wp at 1, ya_hal_os_queue_recv.
  destruct (queues h1 QMain) as [|m l] eqn:E; [done|]. unfold main_queue_ok in Hq1. rewrite E in Hq1. inversion Hq1; subst.
  destruct (decide (mode_change (m_type m))) as [Hc|Hc].
  - wstep. wstep. apply mode_message; [done|]. cbn. destruct Hm as [Hh|Hm]; [by apply Hsp|]. by destruct (Hm m l).
  - match goal with |- wp ?c _ _ (_, ?g) => assert (Hs : safe main_inv c) end; [|eapply wp_mono; [by apply Hs| |done]; by intros _ t (? & ? & _)].
    safe_step; [|apply safe_emit]. safe_step; [by apply safe_message|]. unfold free_if. repeat safe_step.
Qed.
(** A turn that returns keeps the invariant, whatever memory it found. *)
Lemma turn_keeps now s h a t : main_inv s -> main_queue_ok h -> ya_app_main_step now (s, h) = Done a t -> main_inv t.1 /\ main_queue_ok t.2.
Proof.
  intros Hi Hq E. destruct (decide (Forall (fun m => ~ mode_change (m_type m)) (take 1 (queues h QMain)))) as [Hm|Hm].
  - refine (wp_done_inv _ _ _ _ _ _ (turn_safe now s h Hi Hq _) E). right. intros m l Em. rewrite Em in Hm. by inversion Hm.
  - exfalso. unfold ya_app_main_step in E. apply bind_done_inv in E as (? & [s1 h1] & E1 & E).
    destruct (wp_done_inv _ _ _ _ _ _ (safe_state_step now s h Hi Hq) E1) as (_ & _ & _ & Eq). cbn [snd] in Eq.
    destruct (queues h QMain) as [|m l] eqn:Em; [destruct Hm; constructor|].
    apply bind_done_inv in E as (o & t2 & E2 & E). unfold ya_hal_os_queue_recv in E2. rewrite Eq in E2. injection E2 as <- <-.
    apply bind_done_inv in E as (? & ? & E & _). apply bind_done_inv in E as (? & ? & E & _).
    destruct (decide (mode_change (m_type m))) as [Hc|Hc]; [by eapply mode_message_ends|]. destruct Hm. by repeat constructor.
Qed.
End Turn.

(** ** Every interleaving with the other tasks *)
Section Reach.
Context {C : Type} `{NorChipLaws C, !NorReliable C} `{CloudEnv} `{JsonText} `{MainEnv}.
Implicit Types (t : mstate * hw C).

(** One turn of the main task, or something another task does between two
    turns: it posts a message (a failed provisioning procedure does only
    that), the WLAN driver reports an event, a provisioning procedure delivers
    credentials, or the rest of the machine moves (flash, heap, clock, other
    queues).  A text message comes from [post_string], whose callers' names fit
    their field. *)
Inductive main_step : mstate * hw C -> mstate * hw C -> Prop :=
| step_turn now t t' : ya_app_main_step now t = Done tt t' -> main_step t t'
| step_post type r t t' :
    type <> YA_SET_SCAN_RSSI -> type <> YA_SET_OTA_TEST -> post type t = Done r t' -> main_step t t'
| step_text type n text r t t' :
    (type = YA_SET_SCAN_RSSI /\ n = 33 \/ type = YA_SET_OTA_TEST /\ n = 400) ->
    len (cstr text) < n -> post_string type text t = Done r t' -> main_step t t'
| step_wlan ev r t t' : ya_app_wlan_event_callback ev t = Done r t' -> main_step t t'
| step_soft_ap r t t' :
    ap_result_ok r -> in_app (ya_softap_callback 0 r) t = Done tt t' -> main_step t t'
| step_smart_config r t t' :
    smnt_ok r -> in_app (ya_smart_config_result_callback r) t = Done tt t' -> main_step t t'
| step_machine s h h' : queues h' QMain = queues h QMain -> main_step (s, h) (s, h').

Definition task_inv t : Prop := main_inv t.1 /\ main_queue_ok t.2.

Lemma send_inv {S} m (s s' : S) (h h' : hw C) r :
  main_msg_ok m -> main_queue_ok h -> ya_hal_os_queue_send QMain m (s, h) = Done r (s', h') ->
  s' = s /\ main_queue_ok h'.
Proof.
  intros Hm Hq. unfold ya_hal_os_queue_send. case_bool_decide; intros [= <- <- <-]; [|done].
  split; [done|]. unfold main_queue_ok. cbn. apply Forall_app. split; [done|]. by apply Forall_singleton.
Qed.
Lemma plain_msg_ok type :
  type <> YA_SET_SCAN_RSSI -> type <> YA_SET_OTA_TEST -> main_msg_ok (mkMsg 0 None type).
Proof. by split. Qed.
Lemma post_inv {S} type (s s' : S) (h h' : hw C) r :
  type <> YA_SET_SCAN_RSSI -> type <> YA_SET_OTA_TEST -> main_queue_ok h ->
  post type (s, h) = Done r (s', h') -> s' = s /\ main_queue_ok h'.
Proof.
  intros H1' H2' Hq. unfold post, bind.
  destruct (ya_hal_os_queue_send _ _ _) as [r1 [s1 h1]| |] eqn:E; [|done..].
  intros [= _ <- <-]. eapply send_inv; [by apply plain_msg_ok|done|exact E].
Qed.
Lemma post_string_inv {S} type n text (s s' : S) (h h' : hw C) r :
  (type = YA_SET_SCAN_RSSI /\ n = 33 \/ type = YA_SET_OTA_TEST /\ n = 400) ->
  len (cstr text) < n -> main_queue_ok h ->
  post_string type text (s, h) = Done r (s', h') -> s' = s /\ main_queue_ok h'.
Proof.
  intros Hty Hl Hq He. pose proof (len_nonneg (cstr text)). unfold post_string in He.
  apply bind_done_inv in He as (p & [s1 h1] & Ha & He).
  eapply (wp_done_inv _ (fun (p : option bytes) (t : S * hw C) => t.1 = s /\ queues t.2 = queues h /\
    match p with Some b => len b = len (cstr text) + 1 | None => True end) (fun _ => True)) in Ha.
  2:{ apply wp_alloc_moved; [lia| |].
      - intros b h2 Hb _ M. by apply moved_fields in M as (_ & ? & _).
      - intros h2 _ M. by apply moved_fields in M as (_ & ? & _). }
  destruct Ha as (Es & Eq & Hp). cbn [fst snd] in *. subst s1. destruct p as [b|]; [|done].
  erewrite bind_done in He by reflexivity. erewrite bind_done in He by (apply memset_ok; lia).
  apply bind_done_inv in He as (pbuf & t2 & Hc & He).
  assert (Hz : 0 ∈ cstr text ++ [0]) by (apply elem_of_app; right; by left).
  unfold strcpy in Hc. rewrite bool_decide_true in Hc by done. unfold memcpy in Hc.
  destruct (_ && _); [|done]. injection Hc as <- <-.
  apply bind_done_inv in He as (r1 & [s3 h3] & Hs & [= _ <- <-]).
  eapply send_inv; [|by unfold main_queue_ok; rewrite Eq|exact Hs].
  assert (Hfit : text_fits n (Some (splice (replicate (Z.to_nat (len (cstr text) + 1)) (u8 0) ++
    drop (Z.to_nat (len (cstr text) + 1)) b) 0 (cstr (cstr text ++ [0]) ++ [0])))).
  { cbn. rewrite cstr_splice_0 by apply cstr_is_no_nul.
    rewrite cstr_app_nul; [done|apply cstr_is_no_nul]. }
  destruct Hty as [[-> ->]|[-> ->]]; split; cbn [m_type m_addr]; done.
Qed.

Lemma router_image_inv ssid pwd bssid select rn s :
  router_ok ssid pwd bssid -> len rn = 33 -> app_inv s ->
  app_inv (set_random rn (set_ud (router_image ssid pwd bssid select) s)).
Proof.
  intros Hr Hl Hi. apply app_inv_random; [|done].
  assert (Hf : forall o v, rd (router_image ssid pwd bssid select) o tt = Done v tt ->
    router_image ssid pwd bssid select !!! Z.to_nat o = v).
  { intros o v. unfold rd. destruct (_ && _); [by intros [=]|done]. }
  apply app_inv_ud; [done|by apply router_image_ok| |].
  - rewrite (Hf _ _ (rd_ssid_len _ _ _ select Hr tt)). destruct Hr as ((? & _) & _). lia.
  - rewrite (Hf _ _ (rd_pwd_len _ _ _ select Hr tt)). pose proof (len_nonneg pwd).
    destruct Hr as (_ & ? & _). lia.
Qed.
Lemma post_result_inv type (s s' : app) (h h' : hw C) :
  type <> YA_SET_SCAN_RSSI -> type <> YA_SET_OTA_TEST -> main_queue_ok h ->
  post_result type (s, h) = Done tt (s', h') -> s' = s /\ main_queue_ok h'.
Proof.
  intros H1' H2' Hq He. apply bind_done_inv in He as (r & [s1 h1] & Hs & [= <- <-]).
  eapply send_inv; [by apply plain_msg_ok|done|exact Hs].
Qed.
Lemma task_inv_step t t' : connected_named -> task_inv t -> main_step t t' -> task_inv t'.
Proof.
  intros Hn [Hi Hq] Hs. destruct Hs as [now [s h] [s' h'] He|ty r [s h] [s' h'] H1' H2' He
    |ty n txt r [s h] [s' h'] Hty Hl He|ev r [s h] [s' h'] He|r [s h] t' Hok He|r [s h] t' Hok He|s h h' He];
    cbn [fst snd] in *.
  - by eapply turn_keeps.
  - by apply post_inv in He as [-> ?].
  - by eapply post_string_inv in He as [-> ?].
  - destruct ev; [apply bind_done_inv in He as (? & [] & He & [= _ <- <-]); by apply post_inv in He as [-> ?]..|].
    by injection He as _ <- <-.
  - apply in_app_done in He as (u & h' & He & Hu & Hh). pose proof Hi as (_ & _ & _ & _ & _ & Hr & _).
    destruct (soft_ap_stores r (ms_app s) h Hok Hr) as (rn & Hl & _ & Hc). rewrite Hc in He.
    apply post_result_inv in He as [-> Hq']; [|done..]. destruct t' as [s' h2]. cbn [fst snd] in *. subst.
    split; [|done]. unfold main_inv. cbn [fst]. rewrite Hu. apply router_image_inv; [apply Hok|done|done].
  - apply in_app_done in He as (u & h' & He & Hu & Hh). pose proof Hi as (_ & _ & _ & _ & _ & Hr & _).
    destruct (smart_config_stores r (ms_app s) h Hok Hr) as (rn & Hl & _ & Hc). rewrite Hc in He.
    apply post_result_inv in He as [-> Hq']; [|done..]. destruct t' as [s' h2]. cbn [fst snd] in *. subst.
    split; [|done]. unfold main_inv. cbn [fst]. rewrite Hu. apply router_image_inv; [apply Hok|done|done].
  - split; [done|]. cbn [snd]. unfold main_queue_ok. by rewrite He.
Qed.

(** The user data the code itself writes: credentials within their arrays, and a
    network name for the factory's scan that fits its array. *)
Definition ud_ok (u : bytes) : Prop :=
  ud_image u /\ user_data_valid u = true /\ 0 <= u !!! Z.to_nat o_ssid_len <= 32 /\
  0 <= u !!! Z.to_nat o_pwd_len <= 64 /\ (u !!! Z.to_nat o_rssi_flag = 1 -> rssi_name_ok u).
(** The arrays of a module just started. *)
Definition ram_ok (s : app) : Prop :=
  fresh_ram s /\ len (product_key s) = YA_PRODUCT_KEY_LEN + 1 /\
  len (device_name s) = YA_DEVICE_ID_LEN + 1 /\ len (config_random_num s) = 33.

(** C1: The main task never faults.  From a start with any stored user data of the
    kind the code writes, the entry of the task and then every turn it can
    reach, in any interleaving with messages (texts fit their fields), WLAN
    events, provisioning results within their arrays and arbitrary changes of
    flash, heap and the other queues, returns or resets the module; it never
    reads or writes outside an array or through NULL.  The start has memory to
    spare, and a turn has too if its message changes the mode (with refused
    memory the farewell to the cloud may print a NULL text); the cloud modules
    name the device while they are connected. *)
Theorem main_task_never_faults p s0 h u :
  connected_named -> ram_ok s0 -> ud_ok u -> holds (chip h) YA_USER_DATA_ADDR u ->
  heap h = [] -> main_queue_ok h ->
  exists s1 h1, ya_start_app_main p (s0, h) = Done tt (s1, h1) /\
    (forall f, ya_app_main_init (s1, h1) <> Fault f) /\
    forall s2 h2 t, ya_app_main_init (s1, h1) = Done tt (s2, h2) ->
      rtc main_step (mkMs s2 false INIT_MODE 0 0, h2) t ->
      (heap t.2 = [] \/ forall m l, queues t.2 QMain = m :: l -> ~ mode_change (m_type m)) ->
      forall now f, ya_app_main_step now t <> Fault f.
Proof.
  intros Hn (Hram & Hpk & Hdn & Hrn) (Hu & Hv & Hs & Hp & Hname) Hh Hheap Hq.
  destruct (start_after_read p s0 h u (chip h)) as (s1 & h1 & Hst & _ & _ & _ & _ & Hqs & l & -> & Hl);
    [|done..|].
  { replace (set_chip (chip h) h) with h by (by destruct h). by apply read_main. }
  assert (Hi1 : app_inv (set_lic l (set_state (start_state (u !!! 0%nat)) (set_ud u (set_para p s0))))).
  { destruct Hl. repeat split; try done; apply Hs || apply Hp || apply Hu. }
  assert (Hq1 : main_queue_ok h1) by (unfold main_queue_ok; by rewrite Hqs).
  pose proof (main_init_safe _ h1 Hi1 Hname Hq1) as Hw.
  eexists _, h1. split; [exact Hst|]. split.
  - intros f He. unfold wp in Hw. by rewrite He in Hw.
  - intros s2 h2 t He Hr Hmode now f Hf. pose proof (wp_done_inv _ _ _ _ _ _ Hw He) as Hinv.
    assert (Ht : task_inv t).
    { refine (rtc_ind_l (fun t0 => task_inv t0 -> task_inv t) t _ _ _ Hr Hinv); [done|].
      intros t0 t1 Hs1 _ IH Ht0. apply IH. by eapply task_inv_step. }
    destruct t as [s h3]. destruct Ht as [Hi3 Hq3].
    pose proof (turn_safe Hn now s h3 Hi3 Hq3 Hmode) as Hturn. unfold wp in Hturn. by rewrite Hf in Hturn.
Qed.
End Reach.


(** A provisioned device, started. *)
Lemma main_task_never_faults_witness :
  let u := router_image (str "home") (str "secret") [1; 2; 3; 4; 5; 6] 0 in
  let h := set_chip (sample_chip u) boot in
  exists s1 h1, ya_start_app_main sample_para (sample_app, h) = Done tt (s1, h1) /\
    (forall f, ya_app_main_init (s1, h1) <> Fault f) /\
    forall s2 h2 t, ya_app_main_init (s1, h1) = Done tt (s2, h2) ->
      rtc main_step (mkMs s2 false INIT_MODE 0 0, h2) t ->
      (heap t.2 = [] \/ forall m l, queues t.2 QMain = m :: l -> ~ mode_change (m_type m)) ->
      forall now f, ya_app_main_step now t <> Fault f.
Proof.
  intros u h. apply (main_task_never_faults sample_para sample_app h u).
  - intros t _. by split; eexists.
  - by repeat split.
  - assert (Hr : router_ok (str "home") (str "secret") [1; 2; 3; 4; 5; 6]) by evaluate.
    split; [by apply router_image_ok|]. split; [by apply router_valid|]. vm_compute. done.
  - exists (zeros 4). vm_compute. reflexivity.
  - reflexivity.
  - constructor.
Defined.
