(* ===== verification/MainProvision.v ===== *)
(** * Provisioning: what the main task does with the result

    A provisioning procedure leaves the router in the user data and a message
    in the main queue.  Here the turn of the main task that takes the message
    ([AppMain.ya_app_main_step], with [provisioned]) is shown to save the user
    data, so that the router outlives every later power failure, and to go on
    to connect. *)

From stdpp Require Import base numbers list strings.
From S2P Require Import Prelude Platform SpiFlash Flash CommonFunc HalTimer CJson SysTime.
From S2P Require Import DeviceTimer License MainQueue Cloud UserData AppMain UserDataProofs Provisioning MainSafety.

(** [m] leaves the flash alone, also when it ends in a reset, and the part [f]
    of the state. *)
Section Keeps.
Context {C : Type} `{NorChip C}.
Definition keeps_flash {S A} (f : S -> bytes) (m : P C S A) : Prop := forall s h,
  match m (s, h) with
  | Done _ t => f t.1 = f s /\ chip t.2 = chip h
  | Reset t => chip t.2 = chip h
  | Fault _ => True
  end.
Context {S : Type} (f : S -> bytes).
Lemma kf_bind {A B} (m : P C S A) (k : A -> P C S B) :
  keeps_flash f m -> (forall a, keeps_flash f (k a)) -> keeps_flash f (bind m k).
Proof.
  intros Hm Hk s h. specialize (Hm s h). unfold bind. destruct (m (s, h)) as [a [s1 h1]| |]; [|done..].
  specialize (Hk a s1 h1). cbn in Hm. destruct Hm as [<- <-]. done.
Qed.
Lemma kf_ret {A} (a : A) : keeps_flash f (ret a).
Proof. done. Qed.
Lemma kf_gets {A} (g : S -> A) : keeps_flash f (gets g).
Proof. done. Qed.
Lemma kf_puts g : (forall s, f (g s) = f s) -> keeps_flash f (puts g).
Proof. intros Hg s h. by split; [apply Hg|]. Qed.
Lemma kf_emit e : keeps_flash f (emit e).
Proof. done. Qed.
Lemma kf_reset {A} : keeps_flash f (ya_hal_sys_reboot (A := A)).
Proof. done. Qed.
Lemma kf_free : keeps_flash f ya_hal_os_memory_free.
Proof. done. Qed.
Lemma kf_send q m : keeps_flash f (ya_hal_os_queue_send q m).
Proof. intros s h. unfold ya_hal_os_queue_send. by case_bool_decide. Qed.
Lemma kf_recv q : keeps_flash f (ya_hal_os_queue_recv q).
Proof. intros s h. unfold ya_hal_os_queue_recv. by destruct (queues h q). Qed.
(** An operation on bytes alone. *)
Lemma kf_pure {A} (m : P C S A) : (forall t, match m t with Done _ t' | Reset t' => t' = t | Fault _ => True end) -> keeps_flash f m.
Proof. intros Hm s h. specialize (Hm (s, h)). by destruct (m (s, h)); subst. Qed.
Lemma kf_rd b o : keeps_flash f (rd b o).
Proof. apply kf_pure. intros t. unfold rd. by destruct (_ && _). Qed.
Lemma kf_memset b v n : keeps_flash f (memset b v n).
Proof. apply kf_pure. intros t. unfold memset. by destruct (_ && _). Qed.
Lemma kf_strcpy b src : keeps_flash f (strcpy b src).
Proof. apply kf_pure. intros t. unfold strcpy, memcpy. case_bool_decide; [by destruct (_ && _)|done]. Qed.
Lemma kf_zoom {U A} (g : S -> U) p (m : P C U A) fu :
  keeps_flash fu m -> (forall u s, fu u = fu (g s) -> f (p u s) = f s) -> keeps_flash f (zoom_s g p m).
Proof.
  intros Hm Hp s h. specialize (Hm (g s) h). unfold zoom_s, zoom. destruct (m (g s, h)) as [a [u h1]|?|[u h1]]; [|done..].
  destruct Hm as [Hu Hc]. split; [by apply Hp|done].
Qed.
End Keeps.

(** ** The operations of the turn *)
Section Turn.
Context {C : Type} `{NorChipLaws C, !NorReliable C} `{CloudEnv} `{JsonText} `{MainEnv}.
Implicit Types (h : hw C) (s : mstate).
Abbreviation stored_ud := (fun s : mstate => ud (ms_app s)).

Lemma kf_in_app {A} (m : P C app A) : keeps_flash ud m -> keeps_flash stored_ud (in_app m).
Proof. intros Hm. by apply (kf_zoom _ _ _ _ ud). Qed.
Lemma kf_in_lic {A} (m : P C lic A) : keeps_flash (fun _ => []) m -> keeps_flash ud (in_lic m).
Proof. intros Hm. by apply (kf_zoom _ _ _ _ (fun _ => [])). Qed.
Ltac kf_step :=
  lazymatch goal with
  | |- keeps_flash _ (bind _ _) => apply kf_bind; [|intros ?]
  | |- keeps_flash _ (ret _) => apply kf_ret
  | |- keeps_flash _ (gets _) => apply kf_gets
  | |- keeps_flash _ (puts _) => by apply kf_puts
  | |- keeps_flash _ (emit _) => apply kf_emit
  | |- keeps_flash _ (rd _ _) => apply kf_rd
  | |- keeps_flash _ (memset _ _ _) => apply kf_memset
  | |- keeps_flash _ (strcpy _ _) => apply kf_strcpy
  | |- keeps_flash _ (ya_hal_os_queue_send _ _) => apply kf_send
  | |- keeps_flash _ (ya_hal_os_queue_recv _) => apply kf_recv
  | |- keeps_flash _ ya_hal_sys_reboot => apply kf_reset
  | |- keeps_flash _ ya_hal_os_memory_free => apply kf_free
  | |- keeps_flash _ (in_app _) => apply kf_in_app
  | |- keeps_flash _ (in_lic _) => apply kf_in_lic
  | |- keeps_flash _ (if ?b then _ else _) => destruct b
  | |- keeps_flash _ (match ?x with _ => _ end) => destruct x
  end.
Lemma kf_slot_free g : keeps_flash (C := C) (fun _ => []) (slot_free g).
Proof. unfold slot_free. repeat kf_step. Qed.
Lemma kf_slot_copy g n dst : keeps_flash (C := C) (fun _ => []) (slot_copy g n dst).
Proof. unfold slot_copy. repeat kf_step. Qed.
Lemma kf_check_support sel : keeps_flash (C := C) ud (ya_check_cloud_support sel).
Proof.
  unfold ya_check_cloud_support, ya_aly_get_thing_name, ya_aly_get_client_id, ya_get_productKey, ya_get_deviceID,
    ya_aws_get_thing_type, ya_aws_get_client_id.
  repeat first [apply kf_slot_copy | kf_step].
Qed.
Lemma kf_start_cloud ct : keeps_flash (C := C) ud (ya_start_cloud_apps ct).
Proof.
  unfold ya_start_cloud_apps, ya_aws_para_free, ya_aliyun_para_free. repeat first [apply kf_slot_free | kf_step].
Qed.

(** A safe operation that leaves the flash alone, followed by the rest. *)
Lemma wp_keeps_flash {A B} (m : P C mstate A) (k : A -> P C mstate B) Q (R : mstate * hw C -> Prop) s h :
  safe main_inv m -> keeps_flash stored_ud m -> main_inv s -> main_queue_ok h ->
  (forall t, chip t.2 = chip h -> R t) ->
  (forall a s' h', main_inv s' -> main_queue_ok h' -> ud (ms_app s') = ud (ms_app s) -> chip h' = chip h -> wp (k a) Q R (s', h')) ->
  wp (bind m k) Q R (s, h).
Proof.
  intros Hm Hu Hi Hq HR Hk. wstep. pose proof (Hm s h Hi Hq) as Hw. specialize (Hu s h). unfold wp at 1 in Hw. unfold wp at 1.
  destruct (m (s, h)) as [a [s' h']| |t]; [|done|by apply HR]. destruct Hw as (? & ? & _), Hu. by apply Hk.
Qed.

(** ** The turn that takes the result *)

(** The router is in the user data, the message in the queue: the task's next
    turn saves it and goes on to connect, or resets the module (the cloud
    client cannot be started) with the router already saved. *)
Definition stored_by_main (ssid pwd bssid : bytes) (a : app) h : Prop :=
  forall now link br rc ws,
  wp (ya_app_main_step now)
    (fun _ t => ya_app_state (ms_app t.1) = YA_APP_TO_CONNECT /\ hands_over ssid pwd bssid t.1 t.2 /\ boots_into ssid pwd bssid t.2)
    (fun t => boots_into ssid pwd bssid t.2) (mkMs a link br rc ws, h).

Lemma provisioned_stores ssid pwd bssid select s h :
  router_ok ssid pwd bssid -> ud (ms_app s) = router_image ssid pwd bssid select -> main_inv s -> heap h = [] -> main_queue_ok h ->
  wp provisioned
    (fun _ t => ya_app_state (ms_app t.1) = YA_APP_TO_CONNECT /\ ud (ms_app t.1) = router_image ssid pwd bssid select /\ boots_into ssid pwd bssid t.2)
    (fun t => boots_into ssid pwd bssid t.2) (s, h).
Proof.
  intros Hr Hu Hi Hh Hq. pose proof (router_image_ok _ _ _ select Hr) as Him.
  destruct (save_ok (ms_app s) h) as (c' & Hs & _ & Hf & _); [by rewrite Hu|done|]. rewrite Hu in Hf.
  assert (HB : forall h', chip h' = c' -> boots_into ssid pwd bssid h') by (intros h' <-; by eapply flash_boots_into).
  unfold provisioned. wstep. unfold in_app at 1. apply wp_zoom. eapply wp_done; [exact Hs|]. destruct s as [a link br rc ws]. cbn [ms_app] in *.
  eapply wp_keeps_flash; [apply safe_clear_timers| |done|done|intros t Ht; by apply HB|].
  { unfold ya_clear_timer_flash_into_hardware_queue. repeat kf_step. }
  intros _ s2 h2 Hi2 Hq2 Hu2 Hc2. cbn [ms_app chip set_chip] in *.
  assert (HR : forall t : mstate * hw C, chip t.2 = chip h2 -> boots_into ssid pwd bssid t.2) by (intros t Ht; apply HB; by rewrite Ht, Hc2).
  eapply wp_keeps_flash; [| |done|done|done|].
  { apply safe_in_app. by apply safe_ud_get. }
  { unfold ud_get. repeat kf_step. }
  intros sel s3 h3 Hi3 Hq3 Hu3 Hc3. rewrite <- Hc3 in HR.
  eapply wp_keeps_flash; [apply safe_in_app, safe_check_support|apply kf_in_app, kf_check_support|done|done|done|].
  intros r s4 h4 Hi4 Hq4 Hu4 Hc4. rewrite <- Hc4 in HR.
  eapply wp_keeps_flash; [| |done|done|done|].
  { safe_step; [safe_step; [safe_step|]; apply safe_in_app, safe_start_cloud|]. by apply safe_in_app, safe_puts. }
  { kf_step; [kf_step; [kf_step|]; apply kf_in_app, kf_start_cloud|]. repeat kf_step. }
  intros [] s5 h5 Hi5 Hq5 Hu5 Hc5. rewrite <- Hc5 in HR. wstep. apply wp_upd_hw. unfold to_state, in_app. apply wp_zoom. apply wp_puts.
  cbn [fst snd ms_app set_state ud ya_app_state]. split; [done|]. split; [by rewrite Hu5, Hu4, Hu3, Hu2|]. by apply (HR (s5, log _ h5)).
Qed.

(** The message of a procedure that ended well, in the state that waits for it. *)
Definition awaited (type : Z) (st : ya_app_status_t) : Prop :=
  type = YA_SNIFFER_SUCCESS /\ st = YA_APP_SNIFFER \/ type = YA_AP_CONFIG_SUCCESS /\ st = YA_APP_AP_STATE.
Lemma main_stores_router type ssid pwd bssid select (a : app) h :
  router_ok ssid pwd bssid -> ud a = router_image ssid pwd bssid select -> app_inv a -> heap h = [] ->
  queues h QMain = [mkMsg 0 None type] -> awaited type (ya_app_state a) -> stored_by_main ssid pwd bssid a h.
Proof.
  intros Hr Hu Hi Hh Hq Hty now link br rc ws. unfold ya_app_main_step. wstep.
  assert (Hidle : state_step now (mkMs a link br rc ws, h) = Done tt (mkMs a link br rc ws, h)).
  { unfold state_step. erewrite bind_done by reflexivity. cbn [fst id ms_app]. by destruct Hty as [[_ ->]|[_ ->]]. }
  eapply wp_done; [exact Hidle|]. wstep. unfold wp at 1, ya_hal_os_queue_recv. rewrite Hq.
  set (h1 := set_queue QMain [] h).
  assert (Hq1 : main_queue_ok h1) by (by unfold main_queue_ok, h1; cbn; rewrite bool_decide_true).
  pose proof (provisioned_stores ssid pwd bssid select (mkMs a link br rc ws) h1 Hr Hu Hi Hh Hq1) as Hp.
  wstep. wstep. unfold handle_main_msg. cbn [m_type].
  destruct Hty as [[-> _]|[-> _]]; cbn [YA_SNIFFER_SUCCESS YA_AP_CONFIG_SUCCESS YA_SNIFFER_FAIL YA_CONNECT_SUCCESS YA_CONNECT_FAIL Z.eqb Pos.eqb].
  - wstep. eapply wp_mono; [exact Hp| |done]. intros _ [s2 h2] (Ha & Hu2 & Hb). apply wp_puts. apply wp_ret. apply wp_upd_hw.
    split; [done|]. split; [by eapply image_hands_over|done].
  - eapply wp_mono; [exact Hp| |done]. intros _ [s2 h2] (Ha & Hu2 & Hb). apply wp_ret. apply wp_upd_hw.
    split; [done|]. split; [by eapply image_hands_over|done].
Qed.
End Turn.
