(* ===== verification/LightColor.v ===== *)
(** * Colour conversion: [ya_white_color_convert] and [HSVtoRGB]

    From a light setting to LED values: white light by a [double] expression,
    modelled in binary64 arithmetic, and colours by integer arithmetic. *)

From stdpp Require Import base numbers list.
From Stdlib Require Import SpecFloat Nsatz.
From S2P Require Import Prelude Double.

(** The literal [2.55], correctly rounded. *)
Definition d2_55 : spec_float := ddiv (d_of_int 255) (d_of_int 100).
(** Conversion to an unsigned integer: truncation. *)
Definition d_trunc (f : spec_float) : Z :=
  match f with S754_finite false m e => Z.shiftl (Zpos m) e | _ => 0 end.
(** [(uint8_t)(c*w_l*2.55/100)]. *)
Definition scaled (c w_l : Z) : Z := u8 (d_trunc (ddiv (dmul (d_of_int (c * w_l)) d2_55) (d_of_int 100))).
(** [*cool] and [*warm]. *)
Definition ya_white_color_convert (w_l w_c : Z) : Z * Z :=
  let w_l := u8 w_l in
  let c := u8 w_c in
  let w := u8 (100 - u8 w_c) in
  (scaled c w_l, scaled w w_l).

(** [*r], [*g], [*b]; 16-bit arguments, 32-bit unsigned intermediate values. *)
Definition HSVtoRGB (h s v : Z) : Z * Z * Z :=
  let RGB_max := u32 (v * 255 / 100) in
  let RGB_min := u32 (RGB_max * (100 - s)) / 100 in
  let i := h / 60 in
  let difs := h mod 60 in
  let RGB_Adj := u32 (u32 (RGB_max - RGB_min) * difs) / 60 in
  let up := u8 (RGB_min + RGB_Adj) in
  let down := u8 (RGB_max - RGB_Adj) in
  let hi := u8 RGB_max in
  let lo := u8 RGB_min in
  if i =? 0 then (hi, up, lo)
  else if i =? 1 then (down, hi, lo)
  else if i =? 2 then (lo, hi, up)
  else if i =? 3 then (lo, down, hi)
  else if i =? 4 then (up, lo, hi)
  else (hi, lo, down).

(** ** White: the [double] conversion is the exact quotient, but for one value *)

Definition scaled_exact (p : Z) : Z := p * 255 / 10000 - (if p =? 6000 then 1 else 0).
Definition scaled_ok (p : Z) : bool :=
  u8 (d_trunc (ddiv (dmul (d_of_int p) d2_55) (d_of_int 100))) =? scaled_exact p.
Lemma scaled_checked : forallb scaled_ok (seqZ 0 10001) = true.
Proof. vm_compute. reflexivity. Qed.
Lemma scaled_spec c w : 0 <= c <= 100 -> 0 <= w <= 100 -> scaled c w = scaled_exact (c * w).
Proof.
  intros Hc Hw. assert (Hp : 0 <= c * w < 0 + 10001) by nia.
  apply elem_of_seqZ, list_elem_of_In in Hp.
  pose proof (proj1 (forallb_forall _ _) scaled_checked _ Hp) as Hs. by apply Z.eqb_eq in Hs.
Qed.

(** C38: White light: for a brightness and a colour temperature in percent, the
    cool and the warm LED get the exact share of full scale rounded down, one
    less when the product is 6000 (where [6000*2.55/100] falls below 153 in
    binary64); together they never exceed the brightness asked for and miss it
    by at most three units. *)
Theorem white_color_convert_exact w_l w_c :
  0 <= w_l <= 100 -> 0 <= w_c <= 100 ->
  ya_white_color_convert w_l w_c
  = (scaled_exact (w_c * w_l), scaled_exact ((100 - w_c) * w_l)) /\
  let '(cool, warm) := ya_white_color_convert w_l w_c in
  is_u8 cool /\ is_u8 warm /\ w_l * 255 / 100 - 3 <= cool + warm <= w_l * 255 / 100.
Proof.
  intros Hl Hc.
  assert (E : ya_white_color_convert w_l w_c
              = (scaled_exact (w_c * w_l), scaled_exact ((100 - w_c) * w_l))).
  { unfold ya_white_color_convert. rewrite !(u8_small w_l), !(u8_small w_c), (u8_small (100 - w_c))
      by (unfold is_u8; lia). by rewrite !scaled_spec by lia. }
  split; [done|]. rewrite E.
  assert (0 <= w_c * w_l <= 10000 /\ 0 <= (100 - w_c) * w_l <= 10000
          /\ w_c * w_l + (100 - w_c) * w_l = 100 * w_l) as (?&?&?) by nia.
  unfold scaled_exact, is_u8. generalize dependent (w_c * w_l); intros p ??.
  generalize dependent ((100 - w_c) * w_l); intros q ??.
  destruct (Z.eqb_spec p 6000), (Z.eqb_spec q 6000); zdiv.
Qed.
Lemma white_color_convert_exact_witness :
  ya_white_color_convert 80 75 = (152, 51) /\
  let '(cool, warm) := ya_white_color_convert 80 75 in
  is_u8 cool /\ is_u8 warm /\ 80 * 255 / 100 - 3 <= cool + warm <= 80 * 255 / 100.
Proof. apply (white_color_convert_exact 80 75); lia. Defined.

(** ** Colour: the integer conversion approximates the HSV model *)

(** Sixty times the distance of the hue from the point where channel [n] (5 for
    red, 3 for green, 1 for blue) is strongest, cut to one sextant. *)
Definition hsv_m (n h : Z) : Z :=
  let k := (60 * n + h) mod 360 in Z.max 0 (Z.min k (Z.min (240 - k) 60)).
(** [600000] times the exact value of the channel: [V - V*S*m]. *)
Definition hsv_exact (n h s v : Z) : Z := 255 * v * (6000 - s * hsv_m n h).
Definition near (n h s v x : Z) : Prop :=
  is_u8 x /\ -600000 < hsv_exact n h s v - 600000 * x < 3 * 600000.

(** The three rounded divisions of the conversion, with their remainders. *)
Lemma hsv_parts s v d M mn adj :
  0 <= s <= 100 -> 0 <= v <= 100 -> 0 <= d < 60 ->
  M = v * 255 / 100 -> mn = M * (100 - s) / 100 -> adj = (M - mn) * d / 60 ->
  (0 <= mn <= M /\ M <= 255 /\ 0 <= adj <= M - mn) /\
  0 <= 255 * v * (6000 - s * 0) - 600000 * M < 600000 /\
  0 <= 255 * v * (6000 - s * 60) - 600000 * mn < 2 * 600000 /\
  0 <= 255 * v * (6000 - s * (60 - d)) - 600000 * (mn + adj) < 3 * 600000 /\
  -600000 < 255 * v * (6000 - s * d) - 600000 * (M - adj) < 2 * 600000.
Proof.
  intros Hs Hv Hd EM Em Ea.
  assert (E1 : exists e1, 255 * v = 100 * M + e1 /\ 0 <= e1 <= 99)
    by (exists (v * 255 mod 100); subst M; zdiv).
  assert (E2 : exists e2, M * (100 - s) = 100 * mn + e2 /\ 0 <= e2 <= 99)
    by (exists (M * (100 - s) mod 100); subst mn; zdiv).
  assert (E3 : exists e3, (M - mn) * d = 60 * adj + e3 /\ 0 <= e3 <= 59)
    by (exists ((M - mn) * d mod 60); subst adj; zdiv).
  destruct E1 as (e1&E1&?), E2 as (e2&E2&?), E3 as (e3&E3&?). clear EM Em Ea.
  assert (0 <= M <= 255) by lia. assert (0 <= mn <= M) by nia.
  assert (0 <= adj <= M - mn) by nia.
  assert (255 * v * (6000 - s * 60) = 600000 * mn + 6000 * e2 + 60 * (e1 * (100 - s))) by nsatz.
  assert (255 * v * (6000 - s * (60 - d))
          = 600000 * (mn + adj) + 10000 * e3 + 100 * (e2 * (60 - d)) + e1 * (6000 - s * (60 - d))) by nsatz.
  assert (255 * v * (6000 - s * d)
          = 600000 * (M - adj) - 10000 * e3 + 100 * (e2 * d) + e1 * (6000 - s * d)) by nsatz.
  assert (forall a b x y, 0 <= a <= x -> 0 <= b <= y -> 0 <= a * b <= x * y) as Hm by (intros; nia).
  pose proof (Hm e1 (100 - s) 99 100). pose proof (Hm e2 (60 - d) 99 60).
  pose proof (Hm s (60 - d) 100 60). pose proof (Hm s d 100 60). pose proof (Hm e2 d 99 59).
  pose proof (Hm e1 (6000 - s * (60 - d)) 99 6000). pose proof (Hm e1 (6000 - s * d) 99 6000).
  lia.
Qed.

(** The value of [hsv_m] in a known sextant. *)
Ltac hsv_sextant h :=
  let E := fresh in
  match goal with |- context [hsv_m ?n h] =>
    first [ assert (E : hsv_m n h = 0) by (unfold hsv_m; zdiv)
          | assert (E : hsv_m n h = 60) by (unfold hsv_m; zdiv)
          | assert (E : hsv_m n h = 60 - h mod 60) by (unfold hsv_m; zdiv)
          | assert (E : hsv_m n h = h mod 60) by (unfold hsv_m; zdiv) ];
    rewrite E; lia end.

(** C37: Colour: for a hue below 360 and saturation and brightness in percent,
    every channel [HSVtoRGB] computes is a byte within three units of the exact
    value of the HSV model, whatever the sextant. *)
Theorem HSVtoRGB_approximates h s v :
  0 <= h < 360 -> 0 <= s <= 100 -> 0 <= v <= 100 ->
  let '(r, g, b) := HSVtoRGB h s v in near 5 h s v r /\ near 3 h s v g /\ near 1 h s v b.
Proof.
  intros Hh Hs Hv. unfold HSVtoRGB.
  pose proof (hsv_parts s v (h mod 60) _ _ _ Hs Hv ltac:(zdiv) eq_refl eq_refl eq_refl) as Hp.
  cbv zeta in Hp. destruct Hp as ((?&?&?)&?&?&?&?).
  rewrite (u32_small (v * 255 / 100)) by (unfold is_u32; lia).
  set (M := v * 255 / 100) in *.
  rewrite (u32_small (M * (100 - s))) by (unfold is_u32; nia).
  set (mn := M * (100 - s) / 100) in *.
  rewrite (u32_small (M - mn)) by (unfold is_u32; lia).
  rewrite (u32_small ((M - mn) * (h mod 60))) by (unfold is_u32; zdiv || nia).
  set (adj := (M - mn) * (h mod 60) / 60) in *.
  rewrite !u8_small by (unfold is_u8; lia).
  clearbody adj; clearbody mn; clearbody M.
  repeat match goal with |- context [h / 60 =? ?k] => destruct (Z.eqb_spec (h / 60) k) end;
    (split; [|split]); unfold near, hsv_exact, is_u8;
    (split; [lia|]); hsv_sextant h.
Qed.
Lemma HSVtoRGB_approximates_witness :
  HSVtoRGB 200 35 80 = (132, 180, 204) /\
  let '(r, g, b) := HSVtoRGB 200 35 80 in near 5 200 35 80 r /\ near 3 200 35 80 g /\ near 1 200 35 80 b.
Proof. split; [reflexivity | apply (HSVtoRGB_approximates 200 35 80); lia]. Defined.
