(* ===== verification/LightIo.v ===== *)
(** * The lamp: [test_example/light/ya_light_io.c] and the PWM HAL

    Five LED channels (red, green, blue, cool and warm white).  A light setting
    is converted to a target value per channel, and the channels then fade to
    their targets one unit at a time. *)

From stdpp Require Import base numbers sets list strings.
From S2P Require Import Prelude Platform LightColor.

(** ** The channels *)

(** [ya_control_pwm_t]. *)
Record pwm := mkPwm { cur_value : Z; end_value : Z; flag : Z }.
#[export] Instance pwm_eq_dec : EqDecision pwm.
Proof. solve_decision. Defined.
#[export] Instance pwm_inhabited : Inhabited pwm := populate (mkPwm 0 0 0).
(** [ya_control_pwm] and [mode_cur]. *)
Record lio := mkLio { ctl : list pwm; mode_cur : Z }.
Definition set_ctl (l : list pwm) (s : lio) : lio := mkLio l (mode_cur s).
Definition set_mode_cur (m : Z) (s : lio) : lio := mkLio (ctl s) m.

(** [YA_PWM_NAME]. *)
Definition PWM_R : Z := 4.
Definition PWM_G : Z := 1.
Definition PWM_B : Z := 2.
Definition PWM_COOL : Z := 5.
Definition PWM_WARM : Z := 0.
Definition PMW_CHANNEL_MAC : Z := 6.

(** [ya_light_data_t]. *)
Record light_para := mkLightPara { p_w_l : Z; p_w_color : Z; p_c_h : Z; p_c_s : Z; p_c_b : Z }.

Section LightIo.
Context {C : Type}.
Abbreviation PI := (P C lio).

Definition ya_hal_pwm_write (index duty_ratio : Z) : PI unit :=
  if 1000 <? duty_ratio then ret tt
  else if index <? PMW_CHANNEL_MAC then emit (EvPwm index duty_ratio)
  else ret tt.
Definition ya_pwm_led_write (r g b c w : Z) : PI unit :=
  ya_hal_pwm_write PWM_R (r * 999 / 255) ;;
  ya_hal_pwm_write PWM_G (g * 999 / 255) ;;
  ya_hal_pwm_write PWM_B (b * 999 / 255) ;;
  ya_hal_pwm_write PWM_COOL (c * 999 / 255) ;;
  ya_hal_pwm_write PWM_WARM (w * 999 / 255).
Definition ya_pwm_led_write_index (index : nat) (value : Z) : PI unit :=
  let n := value * 999 / 255 in
  match index with
  | 0 => ya_hal_pwm_write PWM_R n
  | 1 => ya_hal_pwm_write PWM_G n
  | 2 => ya_hal_pwm_write PWM_B n
  | 3 => ya_hal_pwm_write PWM_COOL n
  | 4 => ya_hal_pwm_write PWM_WARM n
  | _ => ret tt
  end%nat.

(** An element of [ya_control_pwm]. *)
Definition get_pwm (index : nat) : PI pwm :=
  let* l := gets ctl in
  match l !! index with Some p => ret p | None => fail OutOfBounds end.
Definition put_pwm (index : nat) (p : pwm) : PI unit :=
  let* _ := get_pwm index in
  puts (fun s => set_ctl (<[index := p]> (ctl s)) s).

(** The direction a channel will move in. *)
Definition direction (p : pwm) : Z :=
  if cur_value p =? end_value p then 0 else if cur_value p <? end_value p then 1 else 2.
Definition mark (index : nat) : PI unit :=
  let* p := get_pwm index in put_pwm index (mkPwm (cur_value p) (end_value p) (direction p)).
(** One channel in one round of the fade. *)
Definition move (index : nat) : PI unit :=
  let* p := get_pwm index in
  if cur_value p =? end_value p then ret tt
  else
    let cur := if flag p =? 1 then u8 (cur_value p + 1)
               else if flag p =? 2 then u8 (cur_value p - 1) else cur_value p in
    put_pwm index (mkPwm cur (end_value p) (flag p)) ;;
    ya_pwm_led_write_index index cur.
(** [total_flag]: channels of the range that have arrived. *)
Fixpoint arrived (l : list nat) : PI Z :=
  match l with
  | [] => ret 0
  | index :: l =>
    let* p := get_pwm index in
    let* n := arrived l in
    ret (if cur_value p =? end_value p then n + 1 else n)
  end.
(** [while(1)]; [false] when the fuel runs out. *)
Fixpoint fade (fuel : nat) (l : list nat) : PI bool :=
  match fuel with
  | O => ret false
  | S fuel =>
    let* n := arrived l in
    if n =? Z.of_nat (length l) then ret true
    else for_each l move ;; emit (EvDelay 5) ;; fade fuel l
  end.
Definition ya_pwm_control_with_step (start_index index_num : nat) : PI bool :=
  let l := seq start_index index_num in
  for_each l mark ;;
  fade 256 l.

Definition set_end (index : nat) (v : Z) : PI unit :=
  let* p := get_pwm index in put_pwm index (mkPwm (cur_value p) v (flag p)).
(** The choice between colour and white and the targets of the channels; the
    result is [mode]. *)
Definition set_targets (q : light_para) : PI Z :=
  let c_h := if 360 <=? p_c_h q then 0 else p_c_h q in
  if negb (p_c_b q =? 0) || negb (c_h =? 0) || negb (p_c_s q =? 0) then
    set_end 3 0 ;; set_end 4 0 ;;
    (let '(r, g, b) := HSVtoRGB c_h (p_c_s q) (p_c_b q) in
     set_end 0 r ;; set_end 1 g ;; set_end 2 b) ;;
    ret 1
  else
    set_end 0 0 ;; set_end 1 0 ;; set_end 2 0 ;;
    (let '(c, w) := ya_white_color_convert (p_w_l q) (p_w_color q) in
     set_end 3 c ;; set_end 4 w) ;;
    ret 0.
Definition ya_write_light_para (q : light_para) : PI unit :=
  let* mode := set_targets q in
  let* cur := gets mode_cur in
  if negb (cur =? mode) then
    puts (set_mode_cur mode) ;;
    if mode =? 1 then ya_pwm_control_with_step 3 2 ;; ya_pwm_control_with_step 0 3 ;; ret tt
    else ya_pwm_control_with_step 0 3 ;; ya_pwm_control_with_step 3 2 ;; ret tt
  else if cur =? 0 then ya_pwm_control_with_step 3 2 ;; ret tt
  else ya_pwm_control_with_step 0 3 ;; ret tt.

Definition ya_light_control_pwm_para_init : PI unit := puts (set_ctl (replicate 5 (mkPwm 0 0 0))).
End LightIo.

(** ** Fading *)

Definition chan (index : nat) : Z := [PWM_R; PWM_G; PWM_B; PWM_COOL; PWM_WARM] !!! index.
Definition duty (value : Z) : Z := value * 999 / 255.
(** The duty a PWM channel has after the effects [tr] (most recent first). *)
Fixpoint shown (tr : list event) (c : Z) : Z :=
  match tr with
  | [] => 0
  | EvPwm c' d :: tr => if c' =? c then d else shown tr c
  | _ :: tr => shown tr c
  end.
Definition wf_pwm (p : pwm) : Prop := is_u8 (cur_value p) /\ is_u8 (end_value p).
(** An LED shows the value [v]; one that is off may still have the duty of
    1/1000 the initialisation of the PWM leaves. *)
Definition shows (tr : list event) (c v : Z) : Prop := shown tr c = duty v \/ (v = 0 /\ shown tr c = 1).
(** Five channels with byte values, and the LEDs show them. *)
Definition in_step (l : list pwm) (tr : list event) : Prop :=
  length l = 5%nat /\ forall i p, l !! i = Some p -> wf_pwm p /\ shows tr (chan i) (cur_value p).
(** An effect of fading the channels of [l]. *)
Definition fades (l : list nat) (e : event) : Prop :=
  e = EvDelay 5 \/ exists i v, i ∈ l /\ e = EvPwm (chan i) v.
(** The channel has its direction, and [n] rounds are enough for it. *)
Definition aimed (n : nat) (p : pwm) : Prop :=
  (cur_value p < end_value p -> flag p = 1) /\ (end_value p < cur_value p -> flag p = 2) /\
  Z.abs (end_value p - cur_value p) <= Z.of_nat n.
(** The channel after one round. *)
Definition step (p : pwm) : pwm :=
  if cur_value p =? end_value p then p
  else mkPwm (if flag p =? 1 then u8 (cur_value p + 1)
              else if flag p =? 2 then u8 (cur_value p - 1) else cur_value p) (end_value p) (flag p).

Lemma chan_inj i j : (i < 5)%nat -> (j < 5)%nat -> chan i = chan j -> i = j.
Proof. intros Hi Hj. do 5 (destruct i as [|i]; [do 5 (destruct j as [|j]; [done|]); lia|]); lia. Qed.
Lemma duty_range v : is_u8 v -> 0 <= duty v <= 999.
Proof. unfold is_u8, duty. intros. zdiv. Qed.
Lemma step_wf p : wf_pwm p -> wf_pwm (step p).
Proof. unfold wf_pwm, step. intros []. repeat case_match; cbn; auto using u8_range. Qed.
Lemma step_end p : end_value (step p) = end_value p.
Proof. unfold step. by case_match. Qed.
Lemma step_aimed n p : wf_pwm p -> aimed (S n) p -> aimed n (step p).
Proof.
  unfold wf_pwm, is_u8, aimed, step. intros [? ?] (Hu&Hd&Hn).
  destruct (Z.eqb_spec (cur_value p) (end_value p)); [lia|].
  destruct (Z.lt_total (cur_value p) (end_value p)) as [Hlt|[|Hgt]]; [|lia|].
  - rewrite (Hu Hlt), Z.eqb_refl. cbn. rewrite u8_small by (unfold is_u8; lia). lia.
  - rewrite (Hd Hgt). cbn. rewrite u8_small by (unfold is_u8; lia). lia.
Qed.
Lemma aimed_mark p n : wf_pwm p -> (255 <= n)%nat -> aimed n (mkPwm (cur_value p) (end_value p) (direction p)).
Proof. unfold wf_pwm, is_u8, aimed, direction. cbn. intros. repeat case_match; zbool; lia. Qed.

Lemma shown_other l evs tr c :
  Forall (fades l) evs -> (forall i, i ∈ l -> chan i <> c) -> shown (evs ++ tr) c = shown tr c.
Proof.
  intros Hf Hc. induction Hf as [|e evs [->|(i&v&Hi&->)] _ IH]; [done|done|].
  cbn. by rewrite (proj2 (Z.eqb_neq _ _) (Hc _ Hi)).
Qed.

Section Fading.
Context {C : Type}.
Implicit Types (s : lio) (h : hw C) (l : list nat).

(** What fading the channels of [l] does: each may have moved, its target is
    kept, the others are untouched, and only effects of [fades] are added. *)
Definition faded l s h s' h' : Prop :=
  in_step (ctl s') (trace h') /\ mode_cur s' = mode_cur s /\
  (forall i, i ∉ l -> ctl s' !! i = ctl s !! i) /\
  (forall i, end_value <$> ctl s' !! i = end_value <$> ctl s !! i) /\
  exists evs, h' = set_trace (evs ++ trace h) h /\ Forall (fades l) evs.

Lemma faded_refl l s h : in_step (ctl s) (trace h) -> faded l s h s h.
Proof. intros Hi. do 4 (split; [done|]). exists []. by destruct h. Qed.
Lemma faded_trans l s1 h1 s2 h2 s3 h3 :
  faded l s1 h1 s2 h2 -> faded l s2 h2 s3 h3 -> faded l s1 h1 s3 h3.
Proof.
  intros (_&E1&O1&T1&evs1&->&F1) (I&E2&O2&T2&evs2&->&F2). split; [done|].
  split; [congruence|]. split; [intros i Hi; by rewrite O2, O1|].
  split; [intros i; by rewrite T2, T1|].
  exists (evs2 ++ evs1). cbn. rewrite (assoc (++)). split; [done | by apply Forall_app].
Qed.

(** Changing one channel of the range. *)
Lemma faded_set l s h i p q :
  in_step (ctl s) (trace h) -> i ∈ l -> ctl s !! i = Some p ->
  wf_pwm q -> end_value q = end_value p ->
  (cur_value q = cur_value p -> faded l s h (set_ctl (<[i:=q]> (ctl s)) s) h) /\
  faded l s h (set_ctl (<[i:=q]> (ctl s)) s) (log (EvPwm (chan i) (duty (cur_value q))) h).
Proof.
  intros [H5 Hs] Hi Hp Hq He. assert (Hlt := lookup_lt_Some _ _ _ Hp).
  assert (Hl : forall j, j ∉ l -> <[i:=q]> (ctl s) !! j = ctl s !! j)
    by (intros j Hj; apply list_lookup_insert_ne; congruence).
  assert (Ht : forall j, end_value <$> <[i:=q]> (ctl s) !! j = end_value <$> ctl s !! j).
  { intros j. destruct (decide (i = j)) as [<-|]; [|by rewrite list_lookup_insert_ne].
    rewrite list_lookup_insert_eq, Hp by done. cbn. by rewrite He. }
  split; [intros Hc|]; (split; [split; cbn; [by rewrite length_insert|]|split; [done|split; [done|split; [done|]]]]).
  - intros j r [(<-&<-&_)|[? Hj]]%list_lookup_insert_Some; [|by apply Hs].
    split; [done|]. rewrite Hc. by apply Hs.
  - exists []. by destruct h.
  - intros j r [(<-&<-&_)|[Hne Hj]]%list_lookup_insert_Some; cbn.
    + unfold shows. cbn. rewrite Z.eqb_refl. auto.
    + unfold shows. cbn. rewrite (proj2 (Z.eqb_neq _ _)); [by apply Hs|]. intros E.
      apply Hne, chan_inj; [lia | apply lookup_lt_Some in Hj; lia | done].
  - exists [EvPwm (chan i) (duty (cur_value q))]. split; [by destruct h|].
    constructor; [right; eauto | constructor].
Qed.

Lemma wp_get_pwm i p Q R s h : ctl s !! i = Some p -> Q p (s, h) -> wp (get_pwm i) Q R (s, h).
Proof. unfold get_pwm. intros Hp HQ. wstep. apply wp_gets. cbn. by rewrite Hp. Qed.
Lemma wp_put_pwm i p q Q R s h :
  ctl s !! i = Some p -> Q tt (set_ctl (<[i:=q]> (ctl s)) s, h) -> wp (put_pwm i q) Q R (s, h).
Proof. unfold put_pwm. intros Hp HQ. wstep. by eapply wp_get_pwm. Qed.
Lemma wp_led_index i v Q R s h :
  (i < 5)%nat -> is_u8 v -> Q tt (s, log (EvPwm (chan i) (duty v)) h) ->
  wp (ya_pwm_led_write_index i v) Q R (s, h).
Proof.
  intros Hi Hv HQ. pose proof (duty_range v Hv) as Hd. unfold ya_pwm_led_write_index, ya_hal_pwm_write.
  fold (duty v). rewrite (proj2 (Z.ltb_ge 1000 (duty v))) by lia.
  do 5 (destruct i as [|i]; [exact HQ|]). lia.
Qed.

(** One round for one channel. *)
Lemma wp_move l i p Q R s h :
  in_step (ctl s) (trace h) -> i ∈ l -> ctl s !! i = Some p ->
  (forall s' h', ctl s' = <[i:=step p]> (ctl s) -> faded l s h s' h' -> Q tt (s', h')) ->
  wp (move i) Q R (s, h).
Proof.
  intros Hs Hi Hp HQ. destruct (proj2 Hs _ _ Hp) as [Hwf _].
  pose proof (lookup_lt_Some _ _ _ Hp) as Hlt. rewrite (proj1 Hs) in Hlt.
  pose proof (faded_set l s h i p (step p) Hs Hi Hp (step_wf _ Hwf) (step_end _)) as [_ Hf].
  unfold move. wstep. eapply wp_get_pwm; [done|]. unfold step in HQ, Hf.
  destruct (cur_value p =? end_value p).
  - wstep. apply HQ; [by rewrite list_insert_id | by apply faded_refl].
  - wstep. eapply wp_put_pwm; [done|]. apply wp_led_index; [done | | by apply HQ].
    destruct Hwf. repeat case_match; auto using u8_range.
Qed.
Lemma wp_mark l i p Q R s h :
  in_step (ctl s) (trace h) -> i ∈ l -> ctl s !! i = Some p ->
  (forall s', ctl s' = <[i:=mkPwm (cur_value p) (end_value p) (direction p)]> (ctl s) ->
     faded l s h s' h -> Q tt (s', h)) ->
  wp (mark i) Q R (s, h).
Proof.
  intros Hs Hi Hp HQ. destruct (proj2 Hs _ _ Hp) as [Hwf _].
  unfold mark. wstep. eapply wp_get_pwm; [done|]. eapply wp_put_pwm; [done|].
  apply HQ; [done|]. by eapply faded_set.
Qed.

(** A loop over the channels of [l] applies [f] to each of them. *)
Lemma wp_channels l (body : nat -> P C lio unit) (f : pwm -> pwm) Q R s h :
  in_step (ctl s) (trace h) -> NoDup l -> (forall i, i ∈ l -> (i < 5)%nat) ->
  (forall i p Q' s h, in_step (ctl s) (trace h) -> i ∈ l -> ctl s !! i = Some p ->
     (forall s' h', ctl s' = <[i:=f p]> (ctl s) -> faded l s h s' h' -> Q' tt (s', h')) ->
     wp (body i) Q' R (s, h)) ->
  (forall s' h', faded l s h s' h' ->
     (forall i, i ∈ l -> ctl s' !! i = f <$> ctl s !! i) -> Q tt (s', h')) ->
  wp (for_each l body) Q R (s, h).
Proof.
  intros Hs Hnd Hl Hb HQ.
  set (I := fun rest (t : lio * hw C) => faded l s h t.1 t.2 /\ NoDup rest /\ rest ⊆ l /\
    forall i, i ∈ l -> ctl t.1 !! i = if decide (i ∈ rest) then ctl s !! i else f <$> ctl s !! i).
  apply wp_mono with (Q := fun _ => I []) (R := R); [|intros [] [s' h'] (Hf&_&_&He); by apply HQ | done].
  apply wp_for_each.
  { split; [by apply faded_refl|]. split; [done|]. split; [done|]. intros i Hi. by rewrite decide_True. }
  intros i rest [s1 h1] (Hf&[Hni Hnd']%NoDup_cons&Hsub&He). cbn [fst snd] in *.
  assert (Hi : i ∈ l) by (apply Hsub; by left).
  assert (exists p, ctl s !! i = Some p /\ ctl s1 !! i = Some p) as (p&Hp0&Hp).
  { rewrite (He i Hi), decide_True by (by left). destruct (lookup_lt_is_Some_2 (ctl s) i) as [p Hp]; [|eauto].
    rewrite (proj1 Hs). auto. }
  eapply Hb; [apply Hf | done | done|]. intros s2 h2 E2 Hf2.
  split; [by eapply faded_trans|]. split; [done|]. split; [by intros j Hj; apply Hsub; right|].
  cbn [fst]. intros j Hj. rewrite E2. destruct (decide (i = j)) as [<-|Hne].
  - rewrite decide_False, Hp0 by done. apply list_lookup_insert_eq, (lookup_lt_Some _ _ _ Hp).
  - rewrite list_lookup_insert_ne, He by done. do 2 case_decide; set_solver.
Qed.

(** Counting the channels that have arrived. *)
Lemma wp_arrived l Q R s h :
  (forall i, i ∈ l -> is_Some (ctl s !! i)) ->
  (forall n, (n = Z.of_nat (length l) <-> forall i p, i ∈ l -> ctl s !! i = Some p -> cur_value p = end_value p) ->
     n <= Z.of_nat (length l) -> Q n (s, h)) ->
  wp (arrived l) Q R (s, h).
Proof.
  revert Q. induction l as [|i l IH]; intros Q Hl HQ; cbn [arrived].
  { wstep. apply HQ; [|done]. split; [intros _ i p Hi; by apply not_elem_of_nil in Hi | done]. }
  destruct (Hl i ltac:(constructor)) as [p Hp].
  wstep. eapply wp_get_pwm; [done|]. wstep. apply IH; [intros; apply Hl; by constructor|].
  intros n Hn Hle. wstep. apply HQ; cbn [length]; destruct (Z.eqb_spec (cur_value p) (end_value p)); try lia.
  - rewrite Nat2Z.inj_succ. split.
    + intros E. assert (n = Z.of_nat (length l)) as Hn' by lia.
      intros j q [->|Hj]%elem_of_cons Hq; [congruence | by eapply (proj1 Hn)].
    + intros Ha. assert (n = Z.of_nat (length l)); [|lia]. apply Hn. intros; eapply Ha; [by right | done].
  - split; [lia|]. intros Ha. destruct n0. eapply Ha; [by left | done].
Qed.
(** [n] more rounds are enough for channels that are at most [n] away. *)
Lemma wp_fade n l R s h :
  in_step (ctl s) (trace h) -> NoDup l -> (forall i, i ∈ l -> (i < 5)%nat) ->
  (forall i p, i ∈ l -> ctl s !! i = Some p -> aimed n p) ->
  wp (fade (S n) l) (fun b t => b = true /\ faded l s h t.1 t.2 /\
    forall i p, i ∈ l -> ctl t.1 !! i = Some p -> cur_value p = end_value p) R (s, h).
Proof.
  revert s h. induction n as [|n IH]; intros s h Hs Hnd Hl Ha;
    (cbn [fade]; wstep; apply wp_arrived;
     [intros i Hi; apply lookup_lt_is_Some_2; rewrite (proj1 Hs); auto|]; intros m Hm _;
     destruct (Z.eqb_spec m (Z.of_nat (length l))) as [E|E];
     [wstep; split; [done|]; split; [by apply faded_refl | by apply Hm]|]).
  - destruct E. apply Hm. intros i p Hi Hp. destruct (Ha i p Hi Hp) as (_&_&?). lia.
  - wstep. eapply (wp_channels l _ step); try done.
    { intros. eapply wp_move; eauto. }
    intros s1 h1 Hf He. wstep. apply wp_upd_hw.
    assert (Hf' : faded l s h s1 (log (EvDelay 5) h1)).
    { destruct Hf as (I&?&?&?&evs&->&Hev). do 4 (split; [done|]).
      exists (EvDelay 5 :: evs). split; [by destruct h|]. constructor; [by left | done]. }
    eapply wp_mono; [apply IH; [apply Hf' | done | done|] | | done].
    + intros i p Hi Hp. rewrite (He i Hi) in Hp. destruct (ctl s !! i) as [p0|] eqn:E0; [|done].
      injection Hp as <-. apply step_aimed; [by apply (proj2 Hs i) | eauto].
    + intros b t (->&Hf2&Ht). split; [done|]. split; [by eapply faded_trans | done].
Qed.
Lemma wp_control_with_step a n R s h :
  in_step (ctl s) (trace h) -> (a + n <= 5)%nat ->
  wp (ya_pwm_control_with_step a n) (fun b t => b = true /\ faded (seq a n) s h t.1 t.2 /\
    forall i p, i ∈ seq a n -> ctl t.1 !! i = Some p -> cur_value p = end_value p) R (s, h).
Proof.
  intros Hs Hn. assert (Hl : forall i, i ∈ seq a n -> (i < 5)%nat) by (intros i Hi%elem_of_seq; lia).
  unfold ya_pwm_control_with_step. wstep.
  eapply (wp_channels (seq a n) _ (fun p => mkPwm (cur_value p) (end_value p) (direction p)));
    [done | apply NoDup_seq | done | |].
  { intros. eapply wp_mark; eauto. }
  intros s1 h1 Hf He.
  eapply wp_mono; [apply (wp_fade 255); [apply Hf | apply NoDup_seq | done|] | | done].
  - intros i p Hi Hp. rewrite (He i Hi) in Hp. destruct (ctl s !! i) as [p0|] eqn:E0; [|done].
    injection Hp as <-. apply aimed_mark; [by apply (proj2 Hs i) | lia].
  - intros b t (->&Hf2&Ht). split; [done|]. split; [by eapply faded_trans | done].
Qed.
End Fading.

(** ** The lamp as a whole *)

(** What a setting asks for: the mode and the value of each channel. *)
Definition colour_asked (q : light_para) : bool :=
  bool_decide (p_c_b q <> 0 \/ (p_c_h q <> 0 /\ p_c_h q < 360) \/ p_c_s q <> 0).
Definition light_target (q : light_para) : list Z :=
  if colour_asked q then
    let '(r, g, b) := HSVtoRGB (if 360 <=? p_c_h q then 0 else p_c_h q) (p_c_s q) (p_c_b q) in
    [r; g; b; 0; 0]
  else let '(c, w) := ya_white_color_convert (p_w_l q) (p_w_color q) in [0; 0; 0; c; w].
(** The channels of the colour group and of the white group. *)
Definition group (mode : Z) : list nat := if mode =? 1 then seq 0 3 else seq 3 2.
Definition dark (mode : Z) (tr : list event) : Prop := forall i, i ∈ group mode -> shown tr (chan i) <= 1.
(** Never colour and white at the same time, from [tr] on through [evs]. *)
Definition exclusive (evs tr : list event) : Prop :=
  forall later earlier, evs = later ++ earlier ->
    dark 0 (earlier ++ tr) \/ dark 1 (earlier ++ tr).
Definition is_mode (m : Z) : Prop := m = 0 \/ m = 1.
(** The channels are in step with the LEDs and the group that is not in use is off. *)
Definition lamp_ok {C} (s : lio) (h : hw C) : Prop :=
  in_step (ctl s) (trace h) /\ is_mode (mode_cur s) /\
  forall i p, i ∈ group (1 - mode_cur s) -> ctl s !! i = Some p -> cur_value p = 0.

Lemma HSVtoRGB_u8 h s v : let '(r, g, b) := HSVtoRGB h s v in is_u8 r /\ is_u8 g /\ is_u8 b.
Proof. unfold HSVtoRGB. cbv zeta. repeat case_match; simplify_eq; auto using u8_range. Qed.
Lemma target_u8 q : Forall is_u8 (light_target q).
Proof.
  unfold light_target. case_match.
  - pose proof (HSVtoRGB_u8 (if 360 <=? p_c_h q then 0 else p_c_h q) (p_c_s q) (p_c_b q)).
    destruct (HSVtoRGB _ _ _) as [[]]. unfold is_u8 in *. repeat constructor; lia.
  - unfold ya_white_color_convert, scaled. repeat constructor; try apply u8_range; unfold is_u8; lia.
Qed.
Lemma target_dark q m i v :
  is_mode m -> m <> (if colour_asked q then 1 else 0) -> i ∈ group m -> light_target q !! i = Some v -> v = 0.
Proof.
  unfold light_target. intros [->| ->] Hm Hi%elem_of_seq Hv; destruct (colour_asked q); try done.
  - destruct (HSVtoRGB _ _ _) as [[]]. do 5 (destruct i as [|i]; [try lia; by injection Hv|]). lia.
  - destruct (ya_white_color_convert _ _). do 3 (destruct i as [|i]; [by injection Hv|]). lia.
Qed.
Lemma groups_disjoint m i j : is_mode m -> i ∈ group m -> j ∈ group (1 - m) -> chan i <> chan j.
Proof.
  intros [->| ->] Hi%elem_of_seq Hj%elem_of_seq E; apply chan_inj in E; lia.
Qed.
Lemma group_total m i : is_mode m -> (i < 5)%nat -> i ∈ group m \/ i ∈ group (1 - m).
Proof. intros [->| ->] Hi; unfold group; simpl Z.eqb; cbv iota; rewrite !elem_of_seq; lia. Qed.

(** Fading one group while the other is off. *)
Lemma fades_exclusive m evs tr :
  is_mode m -> Forall (fades (group m)) evs -> dark (1 - m) tr ->
  dark (1 - m) (evs ++ tr) /\ exclusive evs tr.
Proof.
  intros Hm Hf Hd.
  assert (Hk : forall e, Forall (fades (group m)) e -> dark (1 - m) (e ++ tr)).
  { intros e He i Hi. rewrite (shown_other (group m)); [by apply Hd | done|].
    intros j Hj. by apply (groups_disjoint m). }
  split; [by apply Hk|]. intros l e ->. apply Forall_app in Hf as [_ He].
  destruct Hm as [->| ->]; [right | left]; by apply Hk.
Qed.
Lemma exclusive_app e1 e2 tr : exclusive e1 tr -> exclusive e2 (e1 ++ tr) -> exclusive (e2 ++ e1) tr.
Proof.
  intros H1 H2 l e (k&[[-> ->]|[-> ->]])%app_eq_app; [|by apply (H1 k)].
  rewrite <-(assoc (++)). by apply (H2 l).
Qed.
Lemma in_step_dark m l tr :
  in_step l tr -> is_mode m -> (forall i p, i ∈ group m -> l !! i = Some p -> cur_value p = 0) -> dark m tr.
Proof.
  intros [H5 Hs] Hm H0 i Hi. assert (i < length l)%nat as [p Hp]%lookup_lt_is_Some_2
    by (destruct Hm as [->| ->]; apply elem_of_seq in Hi; lia).
  destruct (Hs _ _ Hp) as [_ Hsh]. rewrite (H0 _ _ Hi Hp) in Hsh. unfold shows in Hsh. change (duty 0) with 0 in Hsh. lia.
Qed.

Lemma in_step_ends l l' T tr :
  in_step l tr -> length l' = 5%nat -> (forall i, cur_value <$> l' !! i = cur_value <$> l !! i) ->
  (forall i, end_value <$> l' !! i = T !! i) -> Forall is_u8 T -> in_step l' tr.
Proof.
  intros [_ Hs] H5 Hc He HT. split; [done|]. intros i p' Hp'.
  specialize (Hc i). specialize (He i). rewrite Hp' in Hc, He. cbn in Hc, He.
  destruct (l !! i) as [p|] eqn:Hp; [|done]. injection Hc as Hc.
  destruct (Hs _ _ Hp) as [[? _] Hsh]. rewrite Hc. split; [|done]. split; [by rewrite Hc|].
  symmetry in He. by apply (Forall_lookup_1 _ _ _ _ HT He).
Qed.

Lemma colour_asked_spec q :
  (negb (p_c_b q =? 0) || negb ((if 360 <=? p_c_h q then 0 else p_c_h q) =? 0) || negb (p_c_s q =? 0))
  = colour_asked q.
Proof.
  unfold colour_asked. symmetry.
  destruct (Z.leb_spec 360 (p_c_h q)), (Z.eqb_spec (p_c_b q) 0), (Z.eqb_spec (p_c_s q) 0), (Z.eqb_spec (p_c_h q) 0);
    cbn; (apply bool_decide_eq_true_2 || apply bool_decide_eq_false_2); lia.
Qed.

Lemma wp_set_targets {C} q Q R s (h : hw C) :
  in_step (ctl s) (trace h) ->
  (forall s', in_step (ctl s') (trace h) -> mode_cur s' = mode_cur s ->
     (forall i, cur_value <$> ctl s' !! i = cur_value <$> ctl s !! i) ->
     (forall i, end_value <$> ctl s' !! i = light_target q !! i) ->
     Q (if colour_asked q then 1 else 0) (s', h)) ->
  wp (set_targets q) Q R (s, h).
Proof.
  intros Hs HQ. pose proof (target_u8 q) as HT. destruct s as [l m]. cbn in *.
  assert (exists p0 p1 p2 p3 p4, l = [p0; p1; p2; p3; p4]) as (p0&p1&p2&p3&p4&->).
  { destruct Hs as [H5 _]. do 6 (destruct l as [|? l]; try done). eauto 6. }
  assert (Hgo : forall l' : list pwm, length l' = 5%nat ->
    (forall i, cur_value <$> l' !! i = cur_value <$> [p0; p1; p2; p3; p4] !! i) ->
    (forall i, end_value <$> l' !! i = light_target q !! i) ->
    Q (if colour_asked q then 1 else 0) (mkLio l' m, h)).
  { intros l' H5 Hc He. apply HQ; try done. by eapply in_step_ends. }
  unfold set_targets. cbv zeta. rewrite colour_asked_spec. unfold light_target in Hgo.
  destruct (colour_asked q); [destruct (HSVtoRGB _ _ _) as [[]] | destruct (ya_white_color_convert _ _)];
    apply Hgo; try done; intros i; by do 5 (destruct i as [|i]; [done|]).
Qed.

(** The fade of one group, and the fades of [ya_write_light_para] by groups. *)
Definition fade_group {C} (m : Z) : P C lio bool :=
  if m =? 1 then ya_pwm_control_with_step 0 3 else ya_pwm_control_with_step 3 2.
Lemma wp_switch {C} m Q R (t : lio * hw C) :
  is_mode m -> wp (fade_group (1 - m) ;; fade_group m ;; ret tt) Q R t ->
  wp (if m =? 1 then ya_pwm_control_with_step 3 2 ;; ya_pwm_control_with_step 0 3 ;; ret tt
      else ya_pwm_control_with_step 0 3 ;; ya_pwm_control_with_step 3 2 ;; ret tt) Q R t.
Proof. by intros [->| ->]. Qed.
Lemma wp_stay {C} m Q R (t : lio * hw C) :
  is_mode m -> wp (fade_group m ;; ret tt) Q R t ->
  wp (if m =? 0 then ya_pwm_control_with_step 3 2 ;; ret tt else ya_pwm_control_with_step 0 3 ;; ret tt) Q R t.
Proof. by intros [->| ->]. Qed.

(** Nothing but the LEDs, and the two groups never lit together. *)
Definition leds_only (evs tr : list event) : Prop := exclusive evs tr /\ Forall (fades (seq 0 5)) evs.
Lemma leds_only_app evs evs' tr : leds_only evs tr -> leds_only evs' (evs ++ tr) -> leds_only (evs' ++ evs) tr.
Proof. intros [? ?] [? ?]. split; [by apply exclusive_app|by apply Forall_app]. Qed.
Lemma fades_group m evs : is_mode m -> Forall (fades (group m)) evs -> Forall (fades (seq 0 5)) evs.
Proof.
  intros Hm Hf. eapply Forall_impl; [exact Hf|]. intros e [->|(i&v&Hi&->)]; [by left|]. right. exists i, v. split; [|done]. apply elem_of_seq.
  destruct Hm as [->| ->]; apply list_elem_of_In in Hi; cbn in Hi; lia.
Qed.

(** Fading the group [m] while the other one is off. *)
Lemma wp_fade_group {C} m (T : list Z) R s (h : hw C) :
  is_mode m -> in_step (ctl s) (trace h) -> dark (1 - m) (trace h) ->
  (forall i, end_value <$> ctl s !! i = T !! i) ->
  wp (fade_group m)
    (fun b t => b = true /\ in_step (ctl t.1) (trace t.2) /\ mode_cur t.1 = mode_cur s /\
       (forall i, end_value <$> ctl t.1 !! i = T !! i) /\
       (forall i, i ∈ group m -> cur_value <$> ctl t.1 !! i = T !! i) /\
       (forall i, i ∉ group m -> ctl t.1 !! i = ctl s !! i) /\
       exists evs, t.2 = set_trace (evs ++ trace h) h /\ leds_only evs (trace h) /\ dark (1 - m) (trace t.2))
    R (s, h).
Proof.
  intros Hm Hs Hd HT.
  assert (Hw : wp (fade_group m)
    (fun b t => b = true /\ faded (group m) s h t.1 t.2 /\
       forall i p, i ∈ group m -> ctl t.1 !! i = Some p -> cur_value p = end_value p) R (s, h))
    by (destruct Hm as [->| ->]; apply wp_control_with_step; [done | lia | done | lia]).
  eapply wp_mono; [exact Hw | | done].
  intros b [s' h'] (->&(Hs'&Em&Ho&He&evs&E&Hf)&Ha). cbn [fst snd] in *. subst h'.
  destruct (fades_exclusive m evs (trace h) Hm Hf Hd) as [Hd' Hx0]. assert (Hx : leds_only evs (trace h)) by (split; [done|by eapply fades_group]).
  split; [done|]. split; [done|]. split; [done|]. split; [intros i; by rewrite He|].
  split; [|split; [done | by exists evs]].
  intros i Hi. rewrite <-HT, <-He. destruct (ctl s' !! i) as [p|] eqn:Hp; [|done].
  cbn. by rewrite (Ha i p).
Qed.

(** The state between and after the fades: the ends are set, the group [m] may
    be lit and the other one has arrived at zero. *)
Definition ready (T : list Z) (m : Z) {C} (s : lio) (h : hw C) : Prop :=
  in_step (ctl s) (trace h) /\ (forall i, end_value <$> ctl s !! i = T !! i) /\
  forall i p, i ∈ group (1 - m) -> ctl s !! i = Some p -> cur_value p = 0.

Lemma wp_fade_ready {C} m T Q R s (h : hw C) :
  is_mode m -> ready T m s h ->
  (forall s' evs, ready T m s' (set_trace (evs ++ trace h) h) -> mode_cur s' = mode_cur s ->
     (forall i, i ∈ group m -> cur_value <$> ctl s' !! i = T !! i) -> leds_only evs (trace h) ->
     Q true (s', set_trace (evs ++ trace h) h)) ->
  wp (fade_group m) Q R (s, h).
Proof.
  intros Hm (Hs&He&H0) HQ.
  eapply wp_mono; [apply (wp_fade_group m T); try done | | done].
  - eapply in_step_dark; [done | by destruct Hm as [->| ->]; [right|left] | done].
  - intros b [s' h'] (->&Hs'&Em&He'&Hc&Ho&evs&E&Hx&_). cbn [fst snd] in *. subst h'.
    apply HQ; try done. split; [done|]. split; [done|].
    intros i p Hi. rewrite Ho; [by apply H0|]. intros Hi'. by apply (groups_disjoint m i i Hm Hi' Hi).
Qed.

(** The group that is not asked for has target zero. *)
Lemma lamp_arrived {C} q m s (h : hw C) :
  m = (if colour_asked q then 1 else 0) -> mode_cur s = m -> ready (light_target q) m s h ->
  (forall i, i ∈ group m -> cur_value <$> ctl s !! i = light_target q !! i) ->
  lamp_ok s h /\ forall i, cur_value <$> ctl s !! i = light_target q !! i.
Proof.
  intros Em Es (Hs&He&H0) Hc. assert (Hm : is_mode m) by (subst m; destruct (colour_asked q); [by right | by left]).
  split; [by rewrite <-Es in Hm, H0|]. intros i.
  destruct (decide (i < 5)%nat) as [Hi|Hi].
  - destruct (group_total m i Hm Hi) as [Hg|Hg]; [by apply Hc|].
    specialize (He i). destruct (ctl s !! i) as [p|] eqn:Hp; cbn in *; [|done].
    rewrite (H0 i p Hg Hp), <-He. symmetry in He. f_equal. symmetry.
    eapply (target_dark q (1 - m)); [destruct Hm as [->| ->]; [by right | by left] | | done | done].
    rewrite <-Em. destruct Hm as [->| ->]; done.
  - rewrite <-He. assert (ctl s !! i = None) as ->; [|done]. apply lookup_ge_None_2. rewrite (proj1 Hs). lia.
Qed.

(** The second fade starts from a lamp that is off. *)
Lemma ready_swap {C} q m s (h : hw C) :
  m = (if colour_asked q then 1 else 0) -> ready (light_target q) (1 - m) s h ->
  (forall i, i ∈ group (1 - m) -> cur_value <$> ctl s !! i = light_target q !! i) ->
  ready (light_target q) m s h.
Proof.
  intros Em (Hs&He&_) Hc. split; [done|]. split; [done|]. intros i p Hi Hp.
  specialize (Hc i Hi). rewrite Hp in Hc. symmetry in Hc.
  eapply (target_dark q (1 - m)); [| |done|done]; subst m; destruct (colour_asked q); cbn; unfold is_mode; lia.
Qed.

Lemma wp_write_light_para {C} q Q R s (h : hw C) :
  lamp_ok s h ->
  (forall s' evs, lamp_ok s' (set_trace (evs ++ trace h) h) -> mode_cur s' = (if colour_asked q then 1 else 0) ->
     (forall i, cur_value <$> ctl s' !! i = light_target q !! i) -> leds_only evs (trace h) ->
     Q tt (s', set_trace (evs ++ trace h) h)) ->
  wp (ya_write_light_para q) Q R (s, h).
Proof.
  intros (Hs&Hm&H0) HQ. unfold ya_write_light_para. wstep. apply wp_set_targets; [done|].
  intros s1 Hs1 Em Hc He. wstep. apply wp_gets. cbn [fst]. rewrite Em.
  remember (if colour_asked q then 1 else 0) as m eqn:Dm.
  assert (Hmm : is_mode m) by (subst m; destruct (colour_asked q); [by right | by left]).
  assert (Hr : ready (light_target q) (mode_cur s) s1 h).
  { split; [done|]. split; [done|]. intros i p Hi Hp. specialize (Hc i). rewrite Hp in Hc.
    destruct (ctl s !! i) eqn:E; [|done]. injection Hc as ->. by eapply H0. }
  destruct (Z.eqb_spec (mode_cur s) m) as [E|E]; cbn [negb].
  - rewrite E in Hr |- *. apply wp_stay; [done|]. wstep. eapply wp_fade_ready; [done | done|].
    intros s2 evs Hr2 Em2 Hc2 Hx. wstep.
    destruct (lamp_arrived q m s2 _ Dm ltac:(congruence) Hr2 Hc2). apply HQ; congruence || done.
  - assert (E' : mode_cur s = 1 - m) by (unfold is_mode in *; lia). rewrite E' in Hr.
    wstep. apply wp_puts, wp_switch; [done|].
    wstep. eapply (wp_fade_ready (1 - m) (light_target q)); [unfold is_mode in *; lia | done|].
    intros s2 evs Hr2 Em2 Hc2 Hx. apply ready_swap in Hr2; [|done|done].
    wstep. eapply wp_fade_ready; [done | done|]. intros s3 evs3 Hr3 Em3 Hc3 Hx3. wstep.
    destruct (lamp_arrived q m s3 _ Dm ltac:(cbn in *; congruence) Hr3 Hc3).
    assert (Ht : set_trace (evs3 ++ trace (set_trace (evs ++ trace h) h)) (set_trace (evs ++ trace h) h)
                 = set_trace ((evs3 ++ evs) ++ trace h) h) by (cbn; by rewrite (assoc (++))).
    rewrite Ht in *. apply HQ; [done | cbn in *; congruence | done | by apply leds_only_app].
Qed.

(** After the initialisation of the channels, with the LEDs off. *)
Lemma lamp_ok_init {C} m (h : hw C) :
  is_mode m -> (forall c, 0 <= shown (trace h) c <= 1) -> lamp_ok (mkLio (replicate 5 (mkPwm 0 0 0)) m) h.
Proof.
  intros Hm Hoff. split; [split; [done|]|split; [done|]].
  - intros i p [-> _]%lookup_replicate. specialize (Hoff (chan i)). unfold wf_pwm, is_u8, shows. cbn. change (duty 0) with 0. lia.
  - by intros i p _ [-> _]%lookup_replicate.
Qed.

Lemma write_light_para_run {C} q s (h : hw C) :
  lamp_ok s h ->
  exists s' evs, let h' := set_trace (evs ++ trace h) h in
    ya_write_light_para q (s, h) = Done tt (s', h') /\ lamp_ok s' h' /\
    (forall i v, light_target q !! i = Some v ->
       shows (trace h') (chan i) v /\ cur_value <$> ctl s' !! i = Some v) /\
    leds_only evs (trace h).
Proof.
  intros Hl. assert (wp (ya_write_light_para q) (fun _ t => exists evs,
    let h' := set_trace (evs ++ trace h) h in t.2 = h' /\ lamp_ok t.1 h' /\
    (forall i v, light_target q !! i = Some v ->
       shows (trace h') (chan i) v /\ cur_value <$> ctl t.1 !! i = Some v) /\
    leds_only evs (trace h)) (fun _ => False) (s, h)) as ([]&[s' h']&E&evs&Eh&Hr)%wp_elim.
  - apply wp_write_light_para; [done|]. intros s' evs Hl' _ Hc Hx. exists evs.
    split; [done|]. split; [done|]. split; [|done]. intros i v Hv. rewrite Hc, Hv. split; [|done].
    specialize (Hc i). rewrite Hv in Hc. destruct (ctl s' !! i) as [p|] eqn:Hp; [|done].
    injection Hc as <-. by apply (proj1 Hl').
  - cbn in Eh. subst h'. exists s', evs. by split.
Qed.

(** C33: Setting the lamp, from any state in which the channels match the LEDs and
    the unused group is off: the function returns (the fade ends within its 255
    rounds), every channel ends exactly at the value the setting asks for and
    the LEDs show it; colour and white LEDs are not lit together at any moment
    of the fade, also when the mode changes (a channel at or below the duty of
    1/1000 it has after power-on counts as off); the only
    effects are PWM settings of the five channels and the waits of 5 ms between
    the rounds; and the lamp is ready for the next setting. *)
Theorem write_light_para_shows {C} q s (h : hw C) :
  lamp_ok s h ->
  exists s' evs, let h' := set_trace (evs ++ trace h) h in
    ya_write_light_para q (s, h) = Done tt (s', h') /\ lamp_ok s' h' /\
    (forall i v, light_target q !! i = Some v ->
       shows (trace h') (chan i) v /\ cur_value <$> ctl s' !! i = Some v) /\
    exclusive evs (trace h) /\ Forall (fades (seq 0 5)) evs.
Proof. apply write_light_para_run. Qed.
Lemma write_light_para_shows_witness :
  let q := mkLightPara 0 0 120 100 100 in
  light_target q = [0; 255; 0; 0; 0] /\
  exists s' evs, let h' := set_trace (evs ++ trace boot) boot in
    ya_write_light_para q (mkLio (replicate 5 (mkPwm 0 0 0)) 0, boot) = Done tt (s', h') /\ lamp_ok s' h' /\
    (forall i v, light_target q !! i = Some v ->
       shows (trace h') (chan i) v /\ cur_value <$> ctl s' !! i = Some v) /\
    exclusive evs (trace boot) /\ Forall (fades (seq 0 5)) evs.
Proof. split; [reflexivity|]. apply write_light_para_shows, lamp_ok_init; [by left | cbn; lia]. Defined.
