(* ===== verification/Light.v ===== *)
(** * The light product: [test_example/light/ya_light_example.c] and
    [ya_light_product_test.c]

    The product keeps the setting asked for by the cloud, reports it, hands it
    to the light task through a queue, drives the lamp with it, saves it to
    flash and restores it at power-on.  Four quick power cycles in a row change
    the provisioning mode. *)

From stdpp Require Import base numbers list strings.
From S2P Require Import Prelude Platform SpiFlash Flash CommonFunc HalTimer CJson SysTime.
From S2P Require Import DeviceTimer License MainQueue Cloud Hardware UserData AppMain LightColor LightIo.

(** [ya_light_mode], [ya_light_scene_mode], [ya_light_control_mode]. *)
Definition W_CONTROL : Z := 0.
Definition C_CONTROL : Z := 1.
Definition S_CONTROL : Z := 2.
Definition L_READ : Z := 0.
Definition L_WORK : Z := 1.
Definition L_NIGHT : Z := 2.
Definition L_IDLE : Z := 3.
Definition NON_CONTROL : Z := 0.
Definition WHITE_CONTROL : Z := 1.
Definition COLOR_CONTROL : Z := 2.
Definition SCENE_CONTROL : Z := 3.
Definition MODULE_UNKNOWN : Z := 0xFF.
Definition YA_LIGHT_FLASH_PARA_ADDR : Z := 0x1d0000.

(** [ya_cloud_light_data_t], with its byte of padding. *)
Record light := mkLight {
  l_mode : Z; onoff : Z; w_l : Z; w_color : Z; c_h : Z; c_s : Z; c_b : Z; scene : Z; l_pad : Z }.
#[export] Instance light_eq_dec : EqDecision light.
Proof. solve_decision. Defined.
Definition set_mode v l := mkLight v (onoff l) (w_l l) (w_color l) (c_h l) (c_s l) (c_b l) (scene l) (l_pad l).
Definition set_onoff v l := mkLight (l_mode l) v (w_l l) (w_color l) (c_h l) (c_s l) (c_b l) (scene l) (l_pad l).
Definition set_w_l v l := mkLight (l_mode l) (onoff l) v (w_color l) (c_h l) (c_s l) (c_b l) (scene l) (l_pad l).
Definition set_w_color v l := mkLight (l_mode l) (onoff l) (w_l l) v (c_h l) (c_s l) (c_b l) (scene l) (l_pad l).
Definition set_c_h v l := mkLight (l_mode l) (onoff l) (w_l l) (w_color l) v (c_s l) (c_b l) (scene l) (l_pad l).
Definition set_c_s v l := mkLight (l_mode l) (onoff l) (w_l l) (w_color l) (c_h l) v (c_b l) (scene l) (l_pad l).
Definition set_c_b v l := mkLight (l_mode l) (onoff l) (w_l l) (w_color l) (c_h l) (c_s l) v (scene l) (l_pad l).
Definition set_scene v l := mkLight (l_mode l) (onoff l) (w_l l) (w_color l) (c_h l) (c_s l) (c_b l) v (l_pad l).
Definition light0 : light := mkLight 0 0 0 0 0 0 0 0 0.

(** [ya_save_light_data_t], likewise. *)
Record save := mkSave { num : Z; config_default : Z; sv_pad : Z; ya_cloud_light : light }.
#[export] Instance save_eq_dec : EqDecision save.
Proof. solve_decision. Defined.
Definition set_num v d := mkSave v (config_default d) (sv_pad d) (ya_cloud_light d).
Definition set_config v d := mkSave (num d) v (sv_pad d) (ya_cloud_light d).
Definition set_cloud_light v d := mkSave (num d) (config_default d) (sv_pad d) v.
Definition save0 : save := mkSave 0 0 0 light0.

(** The structures in memory: little endian, 16-bit fields aligned. *)
Definition SIZEOF_LIGHT : Z := 14.
Definition SIZEOF_LIGHT_DATA : Z := 10.
Definition SIZEOF_SAVE : Z := 18.
Definition h16 (v : Z) : bytes := [u8 v; u8 (v / 256)].
Definition light_bytes (l : light) : bytes :=
  [u8 (l_mode l); u8 (onoff l)] ++ h16 (w_l l) ++ h16 (w_color l) ++ h16 (c_h l) ++ h16 (c_s l)
  ++ h16 (c_b l) ++ [u8 (scene l); u8 (l_pad l)].
Definition save_bytes (d : save) : bytes :=
  h16 (num d) ++ [u8 (config_default d); u8 (sv_pad d)] ++ light_bytes (ya_cloud_light d).
Definition at8 (b : bytes) (i : nat) : Z := b !!! i.
Definition at16 (b : bytes) (i : nat) : Z := at8 b i + 256 * at8 b (S i).
Definition light_of (b : bytes) : light :=
  mkLight (at8 b 0) (at8 b 1) (at16 b 2) (at16 b 4) (at16 b 6) (at16 b 8) (at16 b 10) (i8 (at8 b 12)) (at8 b 13).
Definition save_of (b : bytes) : save :=
  mkSave (at16 b 0) (at8 b 2) (at8 b 3) (light_of (drop 4 b)).

(** [DEFAULT_W_COLOR_READ_SCALE] and the like. *)
Definition w_color_scale (kelvin : Z) : Z := (kelvin - 2000) * 100 / (6500 - 2000).

Definition default_light (pad : Z) : light := mkLight W_CONTROL 1 50 50 0 100 100 0 pad.
Definition ya_cloud_light_set_to_idle (l : light) : light := mkLight W_CONTROL 0 0 0 0 0 0 0 (l_pad l).
(** An unknown scene leaves the structure as it is. *)
Definition ya_cloud_light_set_to_mode (l : light) (mode : Z) : light :=
  if mode =? L_READ then mkLight W_CONTROL 1 75 (w_color_scale 4500) 0 0 0 L_READ (l_pad l)
  else if mode =? L_WORK then mkLight W_CONTROL 1 80 (w_color_scale 3000) 0 0 0 L_WORK (l_pad l)
  else if mode =? L_NIGHT then mkLight W_CONTROL 1 5 (w_color_scale 6000) 0 0 0 L_NIGHT (l_pad l)
  else if mode =? L_IDLE then mkLight W_CONTROL 1 50 (w_color_scale 3500) 0 0 0 L_IDLE (l_pad l)
  else l.

(** The lamp parameters of a setting: the first half of [ya_light_control]. *)
Definition light_control_para (l : light) : light_para :=
  if onoff l =? 1 then
    if (l_mode l =? W_CONTROL) || (l_mode l =? S_CONTROL)
    then mkLightPara (if w_l l <? 10 then 10 else w_l l) (w_color l) 0 0 0
    else mkLightPara 0 0 (c_h l) (c_s l) (c_b l)
  else mkLightPara 0 0 0 0 0.

(** The globals of ya_light_example.c, the module below it ([l_app]), the lamp
    and the locals of [ya_light_task] that live across turns. *)
Record lstate := mkLs {
  l_app : app; l_io : lio; l_new : light; l_default : light; l_saved : save;
  wait_to_restart : Z; connected : Z; cur_status : Z; scan_result : list Z;
  seen_status : Z; time_blink : Z; blink_timer : Ya_Timer; scene_light : light }.
Definition set_app v s := mkLs v (l_io s) (l_new s) (l_default s) (l_saved s) (wait_to_restart s)
  (connected s) (cur_status s) (scan_result s) (seen_status s) (time_blink s) (blink_timer s) (scene_light s).
Definition set_io v s := mkLs (l_app s) v (l_new s) (l_default s) (l_saved s) (wait_to_restart s)
  (connected s) (cur_status s) (scan_result s) (seen_status s) (time_blink s) (blink_timer s) (scene_light s).
Definition set_new v s := mkLs (l_app s) (l_io s) v (l_default s) (l_saved s) (wait_to_restart s)
  (connected s) (cur_status s) (scan_result s) (seen_status s) (time_blink s) (blink_timer s) (scene_light s).
Definition set_default v s := mkLs (l_app s) (l_io s) (l_new s) v (l_saved s) (wait_to_restart s)
  (connected s) (cur_status s) (scan_result s) (seen_status s) (time_blink s) (blink_timer s) (scene_light s).
Definition set_saved v s := mkLs (l_app s) (l_io s) (l_new s) (l_default s) v (wait_to_restart s)
  (connected s) (cur_status s) (scan_result s) (seen_status s) (time_blink s) (blink_timer s) (scene_light s).
Definition set_wait v s := mkLs (l_app s) (l_io s) (l_new s) (l_default s) (l_saved s) v
  (connected s) (cur_status s) (scan_result s) (seen_status s) (time_blink s) (blink_timer s) (scene_light s).
Definition set_connected v s := mkLs (l_app s) (l_io s) (l_new s) (l_default s) (l_saved s) (wait_to_restart s)
  v (cur_status s) (scan_result s) (seen_status s) (time_blink s) (blink_timer s) (scene_light s).
Definition set_cur_status v s := mkLs (l_app s) (l_io s) (l_new s) (l_default s) (l_saved s) (wait_to_restart s)
  (connected s) v (scan_result s) (seen_status s) (time_blink s) (blink_timer s) (scene_light s).
Definition set_scan v s := mkLs (l_app s) (l_io s) (l_new s) (l_default s) (l_saved s) (wait_to_restart s)
  (connected s) (cur_status s) v (seen_status s) (time_blink s) (blink_timer s) (scene_light s).
Definition set_seen v s := mkLs (l_app s) (l_io s) (l_new s) (l_default s) (l_saved s) (wait_to_restart s)
  (connected s) (cur_status s) (scan_result s) v (time_blink s) (blink_timer s) (scene_light s).
Definition set_blink ms v s := mkLs (l_app s) (l_io s) (l_new s) (l_default s) (l_saved s) (wait_to_restart s)
  (connected s) (cur_status s) (scan_result s) (seen_status s) ms v (scene_light s).
Definition set_scene_light v s := mkLs (l_app s) (l_io s) (l_new s) (l_default s) (l_saved s) (wait_to_restart s)
  (connected s) (cur_status s) (scan_result s) (seen_status s) (time_blink s) (blink_timer s) v.

Definition VERSION_LEN : Z := 32.
(** What [ya_start_akeeta_sdk] passes on ([LIGHT_CLOUD] is 2). *)
Definition test_light_main_para : para_t :=
  mkPara UNKNOWN_CLOUD_TYPE SNIFFER_MODE 300 300 (splice (zeros (VERSION_LEN + 1)) 0 (str "tr6260.light.300.005"))
    (zeros (MCU_MAX_VERSION_LEN + 1)) false false true false true.

Section Light.
Context {C : Type} `{NorChip C} `{JsonText} `{CloudEnv} `{MainEnv}.
Abbreviation PL := (P C lstate).
Definition in_main {A} (m : P C app A) : PL A := zoom_s l_app set_app m.
Definition in_io {A} (m : P C lio A) : PL A := zoom_s l_io set_io m.
Definition upd_new (f : light -> light) : PL unit := puts (fun s => set_new (f (l_new s)) s).
(** A loop without exit: its rounds are all alike and only a reset ends them. *)
Definition forever {A} (round : PL unit) : PL A := round ;; reset.

Definition ya_cloud_light_set_to_config : PL unit := puts (fun s => set_new (l_default s) s).

(** ** Reporting *)
Definition report_members (l : light) : list cJSON :=
  member "Switch" (ya_int_to_string (onoff l)) ::
  (if onoff l =? 1 then
     [member "WorkMode" (ya_int_to_string (l_mode l));
      member "Luminance" (ya_int_to_string (w_l l));
      member "ColorTemperature" (ya_int_to_string (w_color l));
      member "Hue" (ya_int_to_string (c_h l));
      member "Saturation" (ya_int_to_string (c_s l));
      member "Brightness" (ya_int_to_string (c_b l));
      member "LightScene" (ya_int_to_string (scene l))]
   else []).
Definition ya_report_whole_key_value_formulate : PL Z :=
  let* property := cJSON_CreateObject in
  match property with
  | None => ret (-1)
  | Some _ =>
    let* s := gets id in
    let* p := json_document (jroot (report_members (l_new s))) in
    match p with
    | Some buf => ya_thing_report_to_cloud (a_conn (l_app s)) (buf ++ [0]) ;; ya_hal_os_memory_free
    | None => ret tt
    end ;;
    cJSON_Delete ;;
    ret 0
  end.

(** ** The queue to the light task *)
Definition ya_set_light_para_to_queue : PL unit :=
  let* p := ya_hal_os_memory_alloc SIZEOF_LIGHT in
  match p with
  | None => ret tt
  | Some buf =>
    let* l := gets l_new in
    let* buf := memset buf 0 SIZEOF_LIGHT_DATA in
    let* buf := memcpy buf 0 (light_bytes l) in
    let* r := ya_hal_os_queue_send QLight (mkMsg SIZEOF_LIGHT_DATA (Some buf) 0) in
    if negb (r =? 0) then ya_hal_os_memory_free else ret tt
  end.

Definition ya_light_control (l : light) : PL unit := in_io (ya_write_light_para (light_control_para l)).

(** ** Commands from the cloud *)

(** A key of the document: absent, or the number its string holds; anything but
    a string is an error. *)
Definition prop_value (property : cJSON) (key : string) : PL (option (option Z)) :=
  match cJSON_GetObjectItem property (str key) with
  | None => ret (Some None)
  | Some k =>
    let? _ := guard (j_type k =? cJSON_String) in
    let* v := deref (valuestring k) in
    ret (Some (Some (u32 (atoi (cstr v)))))
  end.
(** The keys of one group in turn: each present one is stored, selects the
    group's mode and switches on.  The result tells whether one was present. *)
Fixpoint prop_group (property : cJSON) (mode : Z) (keys : list (string * (Z -> light -> light)))
  : PL (option bool) :=
  match keys with
  | [] => ret (Some false)
  | (key, store) :: keys =>
    let? o := prop_value property key in
    (match o with
     | Some v => upd_new (fun l => set_onoff 1 (set_mode mode (store v l)))
     | None => ret tt
     end) ;;
    let? b := prop_group property mode keys in
    ret (Some (match o with Some _ => true | None => b end))
  end.
Definition white_keys : list (string * (Z -> light -> light)) :=
  [("Luminance"%string, fun v => set_w_l (u16 v)); ("ColorTemperature"%string, fun v => set_w_color (u16 v))].
Definition color_keys : list (string * (Z -> light -> light)) :=
  [("Hue"%string, fun v => set_c_h (u16 v)); ("Saturation"%string, fun v => set_c_s (u16 v));
   ("Brightness"%string, fun v => set_c_b (u16 v))].
Definition scene_keys : list (string * (Z -> light -> light)) := [("LightScene"%string, fun v => set_scene (i8 v))].
(** One group when [control_type] allows it: the new [control_type] and
    [enable_send]. *)
Definition try_group (property : cJSON) (group : Z) (mode : Z) (keys : list (string * (Z -> light -> light)))
    (st : Z * bool) : PL (option (Z * bool)) :=
  let '(control_type, enable_send) := st in
  if (control_type =? group) || (control_type =? NON_CONTROL) then
    let? b := prop_group property mode keys in
    ret (Some (if b : bool then (group, true) else (control_type, enable_send)))
  else ret (Some (control_type, enable_send)).
(** From "Switch" to "LightScene"; [None] is [goto err], otherwise
    [enable_send]. *)
Definition handle_property (property : cJSON) : PL (option bool) :=
  let? sw := prop_value property "Switch" in
  (match sw with
   | Some v => upd_new (set_onoff (if negb (v =? 0) then 1 else 0))
   | None => ret tt
   end) ;;
  let enable_send := match sw with Some _ => true | None => false end in
  if (match sw with Some v => v =? 0 | None => false end) then ret (Some enable_send)
  else
    let? wm := prop_value property "WorkMode" in
    (match wm with Some v => upd_new (set_mode (u8 v)) | None => ret tt end) ;;
    let st := match wm with Some v => (u8 v + 1, true) | None => (NON_CONTROL, enable_send) end in
    let? st := try_group property WHITE_CONTROL W_CONTROL white_keys st in
    let? st := try_group property COLOR_CONTROL C_CONTROL color_keys st in
    let? st := try_group property SCENE_CONTROL S_CONTROL scene_keys st in
    ret (Some st.2).
Definition ya_thing_handle_downlink_data (buf : bytes) (n : Z) : PL unit :=
  let* property := json_parse buf in
  match property with
  | None => ret tt
  | Some property =>
    let* r := handle_property property in
    (match r with
     | Some true => ya_set_light_para_to_queue ;; ya_report_whole_key_value_formulate ;; ret tt
     | _ => ret tt
     end) ;;
    cJSON_Delete
  end.

(** ** Saving, restoring and status callbacks *)
Definition write_saved : PL unit :=
  let* d := gets l_saved in
  ya_write_flash YA_LIGHT_FLASH_PARA_ADDR (save_bytes d) SIZEOF_SAVE 1 ;; ret tt.

Definition ya_thing_handle_cloud_status (status : Z) : PL unit :=
  if status =? YA_CLOUD_ONLINE then ya_report_whole_key_value_formulate ;; puts (set_connected 1)
  else if status =? YA_CLOUD_DEBIND then
    puts (fun s => set_saved (set_config 0 (l_saved s)) s) ;;
    write_saved ;;
    puts (set_wait 1) ;;
    ya_reset_module_to_factory ;; ret tt
  else ret tt.
Definition ya_thing_handle_router_status_callback (status : Z) (data : list Z) : PL unit :=
  (if status =? MODLUE_FACTORY_TEST then
     let* p := rdn data 0 4 in puts (set_scan p)
   else ret tt) ;;
  puts (set_cur_status status).

Definition ya_light_read_power_on_flag : PL unit :=
  let* '(r, buf) := ya_read_flash_with_fix_len YA_LIGHT_FLASH_PARA_ADDR (replicate 18 0) SIZEOF_SAVE 1 in
  let d := if negb (r =? 0) then save0 else save_of buf in
  let d := set_num (u16 (num d + 1)) d in
  (if num d =? 4 then in_main (ya_set_toggle_mode 1) ;; ret tt else ret tt) ;;
  let d := if 4 <=? num d then set_config 0 d else d in
  puts (set_saved d) ;;
  (if negb (config_default d =? 0) then puts (set_default (ya_cloud_light d))
   else puts (fun s => set_default (default_light (l_pad (l_default s))) s)) ;;
  ya_cloud_light_set_to_config ;;
  ya_set_light_para_to_queue ;;
  write_saved.
Definition ya_clear_power_on_flag_callback : PL unit :=
  puts (fun s => set_saved (set_num 0 (l_saved s)) s) ;; write_saved.

(** [pwm_cfg_init] of the five channels in use. *)
Definition ya_hal_pwm_init : PL unit := for_each [0; 1; 2; 4; 5] (fun c => emit (EvPwm c 1)).
(** The five-second timer that clears the flag is [ya_clear_power_on_flag_callback]. *)
Definition ya_init_light_io : PL unit :=
  puts (set_new light0) ;;
  ya_light_read_power_on_flag ;;
  in_io ya_light_control_pwm_para_init ;;
  ya_hal_pwm_init.
Definition ya_start_akeeta_sdk : PL unit := in_main (ya_start_app_main test_light_main_para).

(** ** The factory test *)
Definition LICENSE_TEST : Z := 0.
Definition RGBCW_TEST : Z := 1.
Definition AGING_TEST : Z := 2.
Definition LIGHT_ROUTER_FAILED : Z := 3.
Definition LIGHT_ROUTER_LOW_RSSI : Z := 4.
Definition LIGHT_LICENSE_FAILED : Z := 5.
Definition LIGHT_TEST_OK : Z := 6.

(** An LED pattern and the pause after it. *)
Definition pattern (ms r g b c w : Z) : PL unit :=
  in_io (ya_pwm_led_write (u8 r) (u8 g) (u8 b) (u8 c) (u8 w)) ;; emit (EvDelay ms).
Definition each_colour (ms : Z) : PL unit :=
  pattern ms 255 0 0 0 0 ;; pattern ms 0 255 0 0 0 ;; pattern ms 0 0 255 0 0 ;;
  pattern ms 0 0 0 255 0 ;; pattern ms 0 0 0 0 255.
Definition ya_rgbcw_test (test_type : Z) : PL Z :=
  if test_type =? 0 then for_each (seq 0 24) (fun _ => each_colour 1000) ;; ret 0
  else forever (each_colour 1000).
Definition ya_aging_poweron_rgbcw_test : PL Z := for_each (seq 0 5) (fun _ => each_colour 500) ;; ret 0.
(** [aging_time] is 0 when the test starts. *)
Definition ya_aging_rgbcw_test : PL Z :=
  for_each (seqZ 0 50) (fun aging_time =>
    if aging_time <? 20 then pattern 60000 0 0 0 255 0
    else if aging_time <? 40 then pattern 60000 0 0 0 0 255
    else pattern 60000 255 255 255 0 0) ;;
  ret 0.
Definition ya_ligth_rgbcw_router_failed {A} : PL A :=
  in_io (ya_pwm_led_write 0 0 0 255 0) ;; forever (emit (EvDelay 1000)).
(** [vTaskDelay(150)] is 750 ms. *)
Definition ya_ligth_rgbcw_router_low_rssi {A} : PL A :=
  forever (for_each (seqZ 0 11) (fun k => pattern 750 0 0 0 (10 + 24 * k) 0) ;;
           for_each (seqZ 0 11) (fun k => pattern 750 0 0 0 (255 - 24 * k) 0) ;;
           pattern 250 0 0 0 0 0 ;; pattern 250 0 0 0 255 0 ;; pattern 250 0 0 0 0 0).
Definition ya_ligth_rgbcw_router_license_failed {A} : PL A :=
  forever (pattern 3000 10 0 0 0 0 ;; pattern 3000 0 0 0 0 0).
Definition ya_ligth_test_ok {A} : PL A :=
  in_io (ya_pwm_led_write 0 10 0 0 0) ;; forever (emit (EvDelay 1000)).

Definition in_licence {A} (m : P C lic A) : PL A := in_main (in_lic m).
Definition license_test (cloud_type : Z) : PL Z :=
  if cloud_type =? AKEETA_OVERSEA then
    let* r := in_licence ya_check_us_license_exit in
    ret (if r =? 0 then RGBCW_TEST else LIGHT_LICENSE_FAILED)
  else if cloud_type =? AKEETA_CN then
    let* r := in_licence ya_check_cn_license_exit in
    ret (if r =? 0 then RGBCW_TEST else LIGHT_LICENSE_FAILED)
  else if cloud_type =? UNKNOWN_CLOUD_TYPE then
    let* r := in_licence ya_check_cn_license_exit in
    if r =? 0 then
      let* r := in_licence ya_check_us_license_exit in
      ret (if r =? 0 then RGBCW_TEST else LIGHT_LICENSE_FAILED)
    else ret LIGHT_LICENSE_FAILED
  else ret LIGHT_LICENSE_FAILED.
(** One turn of the test machine: the next [test_state]. *)
Definition factory_turn (test_type cloud_type test_state : Z) : PL Z :=
  if test_state =? LICENSE_TEST then license_test cloud_type
  else if test_state =? RGBCW_TEST then
    let* r := ya_rgbcw_test test_type in ret (if r =? 0 then AGING_TEST else test_state)
  else if test_state =? AGING_TEST then
    let* r := ya_aging_rgbcw_test in
    if r =? 0 then ya_ligth_test_ok else ret test_state
  else if test_state =? LIGHT_ROUTER_FAILED then ya_ligth_rgbcw_router_failed
  else if test_state =? LIGHT_ROUTER_LOW_RSSI then ya_ligth_rgbcw_router_low_rssi
  else if test_state =? LIGHT_LICENSE_FAILED then ya_ligth_rgbcw_router_license_failed
  else ret test_state.
Fixpoint factory_run (fuel : nat) (test_type cloud_type test_state : Z) : PL unit :=
  match fuel with
  | O => ret tt
  | S fuel =>
    let* st := factory_turn test_type cloud_type test_state in
    factory_run fuel test_type cloud_type st
  end.
(** Three turns reach a state that is never left. *)
Definition ya_light_factory_test (router_rssi test_type cloud_type : Z) : PL unit :=
  factory_run 3 test_type cloud_type (if router_rssi <? -60 then LIGHT_ROUTER_LOW_RSSI else LICENSE_TEST).

(** ** The light task *)

(** The turn's reaction to a new router status. *)
Definition status_changed (tick : Z) : PL unit :=
  let* s := gets id in
  let st := cur_status s in
  puts (set_seen st) ;;
  if negb (st =? MODLUE_FACTORY_TEST) then
    (if st =? MODULE_SNIFFER then puts (fun s => set_blink 500 (blink_timer s) s)
     else if st =? MODULE_AP then puts (fun s => set_blink 2000 (blink_timer s) s)
     else if (st =? MODULE_CONNECTING) || (st =? MODULE_IDLE) || (st =? MODLUE_CONNECT) then
       puts (fun s => set_blink 0 (blink_timer s) s) ;;
       if connected s =? 0 then ya_cloud_light_set_to_config ;; ya_set_light_para_to_queue else ret tt
     else ret tt) ;;
    let* s := gets id in
    if negb (time_blink s =? 0) then
      puts (fun s => set_blink (time_blink s) (ya_countdown_ms tick ya_init_timer (time_blink s)) s) ;;
      ya_cloud_light_set_to_config ;;
      ya_set_light_para_to_queue
    else ret tt
  else
    let* s0 := rd (scan_result s) 0 in
    let* s1 := rd (scan_result s) 1 in
    let* s2 := rd (scan_result s) 2 in
    let* s3 := rd (scan_result s) 3 in
    if s0 =? 1 then ya_light_factory_test s1 0 UNKNOWN_CLOUD_TYPE
    else if s2 =? 1 then ya_light_factory_test s3 1 UNKNOWN_CLOUD_TYPE
    else ret tt.
Definition blink (tick : Z) : PL unit :=
  let* s := gets id in
  if negb (time_blink s =? 0) then
    if ya_has_timer_expired tick (blink_timer s) =? 0 then
      puts (fun s => set_blink (time_blink s) (ya_countdown_ms tick (blink_timer s) (time_blink s)) s) ;;
      (if negb (onoff (l_new s) =? 0) then upd_new ya_cloud_light_set_to_idle
       else ya_cloud_light_set_to_config) ;;
      ya_set_light_para_to_queue
    else ret tt
  else ret tt.
(** [do ... while (ret == C_OK)]: the last setting in the queue, if any.  The
    fuel is the length of the queue and the final empty receive. *)
Fixpoint drain (fuel : nat) (last : option light) : PL (option light) :=
  match fuel with
  | O => ret last
  | S fuel =>
    let* o := ya_hal_os_queue_recv QLight in
    match o with
    | None => ret last
    | Some m =>
      let* a := deref (m_addr m) in
      let* b := rdn a 0 SIZEOF_LIGHT in
      ya_hal_os_memory_free ;;
      drain fuel (Some (light_of b))
    end
  end.
(** What a setting taken from the queue does. *)
Definition apply_light (l : light) : PL unit :=
  let* s := gets id in
  (if negb (connected s =? 0) && negb (onoff l =? 0) then
     puts (fun s => set_saved (set_cloud_light l (set_config 1 (l_saved s))) s) ;; write_saved
   else ret tt) ;;
  if negb (l_mode l =? S_CONTROL) || (onoff l =? 0) then ya_light_control l
  else
    let* s := gets id in
    let sc := ya_cloud_light_set_to_mode (scene_light s) (scene l) in
    puts (set_scene_light sc) ;;
    ya_light_control sc.
(** The entry of [ya_light_task] and one turn of its loop. *)
Definition ya_light_task_init : PL unit := ya_init_light_io ;; ya_start_akeeta_sdk.
Definition ya_light_task_step (tick : Z) : PL unit :=
  let* s := gets id in
  (if negb (seen_status s =? cur_status s) then status_changed tick else ret tt) ;;
  blink tick ;;
  let* s := gets id in
  if negb (wait_to_restart s =? 0) then forever (emit (EvDelay 2000))
  else
    let* h := get_hw in
    let* o := drain (S (length (queues h QLight))) None in
    (match o with Some l => apply_light l | None => ret tt end) ;;
    emit (EvDelay 50).
End Light.
