(* ===== verification/LightProofs.v ===== *)
(** * Theorems about the light product *)

From stdpp Require Import base numbers sets list strings.
From S2P Require Import Prelude Platform SpiFlash Flash CommonFunc HalTimer CJson SysTime.
From S2P Require Import DeviceTimer License MainQueue Cloud Hardware UserData AppMain UserDataProofs LightColor LightIo Light.

(** ** The structures in memory *)

(** Every field within its C type. *)
Definition light_wf (l : light) : Prop :=
  is_u8 (l_mode l) /\ is_u8 (onoff l) /\ is_u16 (w_l l) /\ is_u16 (w_color l) /\ is_u16 (c_h l) /\
  is_u16 (c_s l) /\ is_u16 (c_b l) /\ -128 <= scene l < 128 /\ is_u8 (l_pad l).
#[export] Instance light_wf_dec l : Decision (light_wf l).
Proof. unfold light_wf. apply _. Defined.
Definition save_wf (d : save) : Prop :=
  is_u16 (num d) /\ is_u8 (config_default d) /\ is_u8 (sv_pad d) /\ light_wf (ya_cloud_light d).
#[export] Instance save_wf_dec d : Decision (save_wf d).
Proof. unfold save_wf. apply _. Defined.

Lemma h16_value v : is_u16 v -> u8 v + 256 * u8 (v / 256) = v.
Proof. unfold is_u16, u8. intros. zdiv. Qed.
Lemma i8_u8 v : -128 <= v < 128 -> i8 (u8 v) = v.
Proof. unfold i8, u8. intros. zdiv. Qed.
Lemma light_of_bytes l : light_wf l -> light_of (light_bytes l) = l.
Proof.
  intros (?&?&?&?&?&?&?&?&?). unfold light_of, light_bytes, h16, at16, at8. cbn.
  rewrite !h16_value, i8_u8, !u8_small by done. by destruct l.
Qed.
Lemma save_of_bytes d : save_wf d -> save_of (save_bytes d) = d.
Proof.
  intros (?&?&?&?). destruct d as [n c p l]. unfold save_of, save_bytes, h16, at16, at8. cbn -[light_bytes light_of].
  rewrite drop_0, light_of_bytes by done. cbn. by rewrite h16_value, !u8_small by done.
Qed.
Lemma len_light_bytes l : len (light_bytes l) = SIZEOF_LIGHT.
Proof. done. Qed.
Lemma len_save_bytes d : len (save_bytes d) = SIZEOF_SAVE.
Proof. done. Qed.
Lemma is_bytes_light l : is_bytes (light_bytes l).
Proof. unfold light_bytes, h16. repeat (apply Forall_cons; split; [apply u8_range|]). by apply Forall_nil. Qed.
Lemma is_bytes_save d : is_bytes (save_bytes d).
Proof.
  unfold save_bytes, h16. do 4 (apply Forall_cons; split; [apply u8_range|]). apply is_bytes_light.
Qed.

(** ** The queue to the light task *)

(** A message of [ya_set_light_para_to_queue]. *)
Definition light_msg (l : light) : msg := mkMsg SIZEOF_LIGHT_DATA (Some (light_bytes l)) 0.
(** A setting as the lamp shows it: a scene is looked up. *)
Definition effective (sc l : light) : light :=
  if negb (l_mode l =? S_CONTROL) || (onoff l =? 0) then l else ya_cloud_light_set_to_mode sc (scene l).
(** The target of each channel for a setting. *)
Definition lamp_target (l : light) : list Z := light_target (light_control_para l).
(** The LEDs show a setting. *)
Definition lamp_shows {C} (l : light) (h : hw C) : Prop :=
  forall i v, lamp_target l !! i = Some v -> shows (trace h) (chan i) v.

Section Light.
Context {C : Type} `{NorChip C} `{JsonText} `{CloudEnv} `{MainEnv}.
Implicit Types (s : lstate) (h : hw C) (l : light).

(** The machine after queueing [m]. *)
Definition queued (m : msg) h : hw C :=
  set_queue QLight (queues h QLight ++ [m]) (set_heap [] (live h + 1) h).
Lemma set_light_para_run s h :
  heap h = [] -> (length (queues h QLight) < MSG_QUEUE_LENGTH)%nat ->
  ya_set_light_para_to_queue (s, h) = Done tt (s, queued (light_msg (l_new s)) h).
Proof.
  intros Hh Hq. unfold ya_set_light_para_to_queue. erewrite bind_done.
  2:{ unfold ya_hal_os_memory_alloc. rewrite Hh. reflexivity. }
  cbn beta iota. erewrite bind_done by reflexivity. cbn [fst].
  erewrite bind_done by (apply memset_ok; by vm_compute).
  erewrite bind_done by (apply memcpy_ok; by vm_compute).
  erewrite bind_done.
  2:{ unfold ya_hal_os_queue_send. cbn [queues set_heap]. rewrite bool_decide_true by done. reflexivity. }
  done.
Qed.

(** The machine with the queue emptied and [n] blocks freed. *)
Definition drained (n : Z) h h' : Prop :=
  chip h' = chip h /\ heap h' = heap h /\ live h' = live h - n /\ trace h' = trace h /\ stale h' = stale h /\
  forall q, queues h' q = if bool_decide (q = QLight) then [] else queues h q.

(** Draining the queue takes the last setting and frees every block. *)
Lemma drain_run ls fuel o s h :
  queues h QLight = light_msg <$> ls -> Forall light_wf ls -> (length ls < fuel)%nat ->
  exists h', drain fuel o (s, h) = Done (match last ls with Some l => Some l | None => o end) (s, h') /\
    drained (Z.of_nat (length ls)) h h'.
Proof.
  revert fuel o h. induction ls as [|l ls IH]; intros fuel o h Hq Hw Hf; (destruct fuel as [|fuel]; [lia|]).
  { exists h. cbn. unfold ya_hal_os_queue_recv, bind. rewrite Hq. split; [done|].
    do 2 (split; [done|]). split; [lia|]. do 2 (split; [done|]). intros q. by case_bool_decide; subst. }
  cbn [drain]. apply Forall_cons in Hw as [Hl Hw]. erewrite bind_done.
  2:{ unfold ya_hal_os_queue_recv. rewrite Hq. reflexivity. }
  cbn [m_addr light_msg]. erewrite bind_done by reflexivity.
  erewrite bind_done by (apply rdn_ok; by vm_compute).
  erewrite bind_done by reflexivity.
  change (slice (light_bytes l) 0 SIZEOF_LIGHT) with (light_bytes l). rewrite light_of_bytes by done.
  destruct (IH fuel (Some l) (set_heap (heap h) (live h - 1) (set_queue QLight (light_msg <$> ls) h)))
    as (h'&Hr&(?&?&Hv&?&?&Hq')); [done|done|cbn in Hf; lia|].
  exists h'. split.
  - etransitivity; [exact Hr|]. f_equal. destruct ls as [|l' ls]; [done|]. rewrite last_cons_cons.
    by destruct (last_is_Some (l' :: ls)) as [_ [x ->]].
  - do 2 (split; [done|]). split; [rewrite Hv; cbn; lia|]. do 2 (split; [done|]).
    intros q. rewrite Hq'. cbn. by case_bool_decide.
Qed.

(** Driving the lamp with a setting. *)
Lemma light_control_run l s h :
  lamp_ok (l_io s) h ->
  exists io evs, ya_light_control l (s, h) = Done tt (set_io io s, set_trace (evs ++ trace h) h) /\
    lamp_ok io (set_trace (evs ++ trace h) h) /\ lamp_shows l (set_trace (evs ++ trace h) h).
Proof.
  intros Hl. destruct (write_light_para_run (light_control_para l) _ _ Hl) as (io&evs&Hr&Hl'&Hs&_).
  exists io, evs. split; [unfold ya_light_control, in_io, zoom_s, zoom; by rewrite Hr|].
  split; [done|]. intros i v Hv. by apply Hs.
Qed.

Context `{!NorChipLaws C, !NorReliable C}.

(** The saved data reach the flash, in their own sector. *)
Definition saved_in (c : C) (d : save) : Prop := holds c YA_LIGHT_FLASH_PARA_ADDR (save_bytes d).
Lemma write_saved_run s h :
  heap h = [] ->
  exists c, write_saved (s, h) = Done tt (s, set_chip c h) /\ saved_in c (l_saved s) /\
    forall x, x < YA_LIGHT_FLASH_PARA_ADDR \/ YA_LIGHT_FLASH_PARA_ADDR + 4096 <= x ->
      nor_read c x = nor_read (chip h) x.
Proof.
  intros Hh. destruct (write_flash_spec YA_LIGHT_FLASH_PARA_ADDR (save_bytes (l_saved s)) SIZEOF_SAVE 1 s h)
    as (c&Hw&Hd&Hf); try done; [apply is_bytes_save|].
  exists c. split; [|by split]. unfold write_saved. erewrite bind_done by reflexivity. cbn [fst].
  by erewrite bind_done by exact Hw.
Qed.

(** What applying a setting leaves behind. *)
Definition applied (l : light) s h s' h' : Prop :=
  lamp_ok (l_io s') h' /\ lamp_shows (effective (scene_light s) l) h' /\
  heap h' = heap h /\ live h' = live h /\ queues h' = queues h /\
  if negb (connected s =? 0) && negb (onoff l =? 0)
  then l_saved s' = set_cloud_light l (set_config 1 (l_saved s)) /\ saved_in (chip h') (l_saved s')
  else l_saved s' = l_saved s /\ chip h' = chip h.
Lemma apply_light_run l s h :
  heap h = [] -> lamp_ok (l_io s) h -> exists s' h', apply_light l (s, h) = Done tt (s', h') /\ applied l s h s' h'.
Proof.
  intros Hh Hl. unfold apply_light, applied, effective. erewrite bind_done by reflexivity. cbn [fst id].
  set (sv := negb (connected s =? 0) && negb (onoff l =? 0)).
  assert (exists d c, (if sv then puts (fun s => set_saved (set_cloud_light l (set_config 1 (l_saved s))) s) ;; write_saved
      else ret tt) (s, h) = Done tt (set_saved d s, set_chip c h) /\
      if sv then d = set_cloud_light l (set_config 1 (l_saved s)) /\ saved_in c d
      else d = l_saved s /\ c = chip h) as (d&c&Hrun&Hsv).
  { destruct sv.
    - destruct (write_saved_run (set_saved (set_cloud_light l (set_config 1 (l_saved s))) s) h) as (c&Hw&Hc&_); [done|].
      by exists (set_cloud_light l (set_config 1 (l_saved s))), c.
    - exists (l_saved s), (chip h). split; [by destruct s, h|done]. }
  erewrite bind_done by exact Hrun. destruct (_ || _).
  - destruct (light_control_run l (set_saved d s) (set_chip c h)) as (io&evs&Hr&Hl'&Hsh); [by destruct Hl|].
    eexists _, _. split; [exact Hr|]. by destruct sv.
  - erewrite bind_done by reflexivity. cbn [fst id]. erewrite bind_done by reflexivity.
    edestruct (light_control_run) as (io&evs&Hr&Hl'&Hsh); [|eexists _, _; split; [exact Hr|]]; [by destruct Hl|].
    by destruct sv.
Qed.

(** No status change, no blinking, no restart pending. *)
Definition idle_turn s : Prop := seen_status s = cur_status s /\ time_blink s = 0 /\ wait_to_restart s = 0.
(** A turn that finds settings in the queue. *)
Lemma light_task_step_run tick ls l s h :
  heap h = [] -> lamp_ok (l_io s) h -> idle_turn s ->
  queues h QLight = light_msg <$> (ls ++ [l]) -> Forall light_wf (ls ++ [l]) ->
  exists s' h' h1, ya_light_task_step tick (s, h) = Done tt (s', h') /\
    drained (Z.of_nat (length ls) + 1) h h1 /\ applied l s h1 s' h'.
Proof.
  intros Hh Hl (Es&Eb&Ew) Hq Hw. unfold ya_light_task_step, blink.
  erewrite bind_done by reflexivity. cbn [fst id]. rewrite Es, Z.eqb_refl. cbn [negb].
  erewrite bind_done by reflexivity. erewrite bind_done.
  2:{ erewrite bind_done by reflexivity. cbn [fst id]. rewrite Eb. reflexivity. }
  erewrite bind_done by reflexivity. cbn [fst id]. rewrite Ew. cbn [negb Z.eqb].
  erewrite bind_done by reflexivity. cbn beta.
  destruct (drain_run (ls ++ [l]) (S (length (queues h QLight))) None s h) as (h1&Hd&Hdr); try done.
  { rewrite Hq, length_fmap. lia. }
  rewrite last_snoc in Hd. erewrite bind_done by exact Hd. cbn beta iota.
  destruct Hdr as (Ec&Ep&Ev&Et&Est&Eq). destruct (apply_light_run l s h1) as (s'&h'&Ha&Hap).
  { by rewrite Ep. } { unfold lamp_ok. by rewrite Et. }
  erewrite bind_done by exact Ha.
  eexists _, _, h1. split; [reflexivity|]. split.
  - do 2 (split; [done|]). split; [rewrite Ev, length_app; cbn; lia|]. by do 2 (split; [done|]).
  - exact Hap.
Qed.

(** ** Power-on *)

(** What the flash tells at power-on: a record, or nothing valid. *)
Definition light_record (c : C) (d : save) : Prop :=
  (saved_in c d /\ save_wf d) \/ (record_ok c YA_LIGHT_FLASH_PARA_ADDR = false /\ d = save0).
(** The data after counting one power-on, and the setting to start with. *)
Definition power_counted (d : save) : save :=
  let d := set_num (u16 (num d + 1)) d in if 4 <=? num d then set_config 0 d else d.
Definition start_light (pad : Z) (d : save) : light :=
  if negb (config_default (power_counted d) =? 0) then ya_cloud_light d else default_light pad.
(** The fourth power-on asks the main task to change its mode. *)
Definition toggled (d : save) (a : app) : app := if num (power_counted d) =? 4 then set_sniffer_ap true a else a.

Lemma num_power_counted d : num (power_counted d) = u16 (num d + 1).
Proof. unfold power_counted. by case_match. Qed.
Lemma light_power_counted d : ya_cloud_light (power_counted d) = ya_cloud_light d.
Proof. unfold power_counted. by case_match. Qed.
Lemma power_counted_wf d : save_wf d -> save_wf (power_counted d).
Proof.
  intros (?&?&?&?). pose proof (u16_range (num d + 1)). unfold power_counted, save_wf.
  case_match; cbn; split_and!; try done; unfold is_u8; lia.
Qed.
Lemma save0_wf : save_wf save0.
Proof. by vm_compute. Qed.

Lemma read_light_record d s h :
  light_record (chip h) d -> heap h = [] ->
  exists r buf, ya_read_flash_with_fix_len YA_LIGHT_FLASH_PARA_ADDR (replicate 18 0) SIZEOF_SAVE 1 (s, h)
    = Done (r, buf) (s, h) /\ (if negb (r =? 0) then save0 else save_of buf) = d.
Proof.
  intros [[Hd Hw]|[Hb ->]] Hh.
  - eexists 0, _. rewrite (read_fix_holds _ (save_bytes d)) by (try done; by vm_compute).
    split; [f_equal; f_equal; rewrite <-Hh; by destruct h|]. cbn [negb Z.eqb].
    etransitivity; [|by apply save_of_bytes]. done.
  - eexists (-1), _. split; [by apply read_fix_bad | done].
Qed.

Lemma power_on_run d s h :
  light_record (chip h) d -> heap h = [] -> (length (queues h QLight) < MSG_QUEUE_LENGTH)%nat ->
  let l := start_light (l_pad (l_default s)) d in
  exists c, ya_light_read_power_on_flag (s, h)
    = Done tt (set_new l (set_default l (set_saved (power_counted d) (set_app (toggled d (l_app s)) s))),
               set_chip c (queued (light_msg l) h)) /\
    saved_in c (power_counted d) /\
    forall x, x < YA_LIGHT_FLASH_PARA_ADDR \/ YA_LIGHT_FLASH_PARA_ADDR + 4096 <= x ->
      nor_read c x = nor_read (chip h) x.
Proof.
  intros Hd Hh Hq l. destruct (read_light_record d s h Hd Hh) as (r&buf&Hr&Eb).
  unfold ya_light_read_power_on_flag. erewrite bind_done by exact Hr. cbn beta iota. rewrite Eb.
  cbv zeta. fold (power_counted d).
  set (s1 := set_app (toggled d (l_app s)) s).
  rewrite (bind_done _ _ _ tt (s1, h)).
  2:{ unfold s1, toggled. rewrite num_power_counted. cbn [num set_num].
      destruct (_ =? 4); [reflexivity | by destruct s]. }
  erewrite bind_done by reflexivity.
  rewrite (bind_done _ _ _ tt (set_default l (set_saved (power_counted d) s1), h)).
  2:{ unfold l, start_light. rewrite light_power_counted. by destruct (config_default _ =? 0). }
  erewrite bind_done by reflexivity. cbn [l_default set_default].
  erewrite bind_done by (by apply set_light_para_run). cbn [l_new set_new].
  destruct (write_saved_run (set_new l (set_default l (set_saved (power_counted d) s1))) (queued (light_msg l) h))
    as (c&Hw&Hc&Hf); [done|].
  exists c. by rewrite Hw.
Qed.

(** The whole initialisation: the LEDs are at the duty the PWM starts with. *)
Definition pwm_started (tr : list event) : list event :=
  [EvPwm 5 1; EvPwm 4 1; EvPwm 2 1; EvPwm 1 1; EvPwm 0 1] ++ tr.
Lemma init_light_io_run d s h :
  light_record (chip h) d -> heap h = [] -> queues h QLight = [] ->
  let l := start_light (l_pad (l_default s)) d in
  exists c s' h', ya_init_light_io (s, h) = Done tt (s', h') /\
    s' = set_io (mkLio (replicate 5 (mkPwm 0 0 0)) (mode_cur (l_io s)))
           (set_new l (set_default l (set_saved (power_counted d) (set_app (toggled d (l_app s)) s)))) /\
    h' = set_trace (pwm_started (trace h)) (set_chip c (queued (light_msg l) h)) /\
    saved_in c (power_counted d) /\
    forall x, x < YA_LIGHT_FLASH_PARA_ADDR \/ YA_LIGHT_FLASH_PARA_ADDR + 4096 <= x ->
      nor_read c x = nor_read (chip h) x.
Proof.
  intros Hd Hh Hq l. destruct (power_on_run d (set_new light0 s) h) as (c&Hr&Hc); [done|done|rewrite Hq; unfold MSG_QUEUE_LENGTH; cbn; lia|].
  exists c. eexists _, _. split; [|split; [reflexivity|split; [reflexivity|exact Hc]]].
  unfold ya_init_light_io. erewrite bind_done by reflexivity. erewrite bind_done by exact Hr. by destruct s.
Qed.
Lemma start_light_wf pad d : is_u8 pad -> save_wf d -> light_wf (start_light pad d).
Proof.
  intros Hp (_&_&_&Hl). unfold start_light. case_match; [done|]. unfold light_wf, is_u8, is_u16 in *. cbn. unfold W_CONTROL. lia.
Qed.
Lemma light_record_wf c d : light_record c d -> save_wf d.
Proof. intros [[_ Hw]|[_ ->]]; [done | apply save0_wf]. Qed.

(** Fresh memory after a reset: nothing queued or lit, the task's locals at their
    initial values; the padding and the lamp's mode are what the linker set. *)
Definition fresh_light s h : Prop :=
  heap h = [] /\ queues h QLight = [] /\ trace h = [] /\ idle_turn s /\ connected s = 0 /\
  is_mode (mode_cur (l_io s)) /\ is_u8 (l_pad (l_default s)).

(** Power-on and the first turn of the task: the lamp shows the start setting. *)
Lemma power_on_shows tick d s h :
  fresh_light s h -> light_record (chip h) d ->
  exists s' h', (ya_init_light_io ;; ya_light_task_step tick) (s, h) = Done tt (s', h') /\
    lamp_ok (l_io s') h' /\ lamp_shows (effective (scene_light s) (start_light (l_pad (l_default s)) d)) h' /\
    queues h' QLight = [] /\ live h' = live h /\ l_saved s' = power_counted d /\
    saved_in (chip h') (power_counted d).
Proof.
  intros (Hh&Hq&Ht&Hi&Hc&Hm&Hp) Hd.
  destruct (init_light_io_run d s h) as (c&s1&h1&Hr&->&->&Hsv&_); try done.
  rewrite (bind_done _ _ _ _ _ Hr). rewrite Ht.
  edestruct (light_task_step_run tick [] (start_light (l_pad (l_default s)) d))
    as (s'&h'&h2&Hs&(Ec&_&Ev&_&_&Eq)&(Hl'&Hsh&_&Ev'&Eq'&Hfl)); [| | | | |exists s', h'; split; [exact Hs|]].
  - done.
  - apply lamp_ok_init; [done|]. intros x. cbn. repeat case_match; lia.
  - done.
  - cbn. by rewrite Hq.
  - constructor; [|done]. apply start_light_wf; [done | by eapply light_record_wf].
  - rewrite Eq', Eq, Ev', Ev. cbn in Hfl |- *. rewrite Hc in Hfl. cbn in Hfl. destruct Hfl as [-> ->].
    rewrite Ec. split_and!; try done; lia.
Qed.

(** ** Quick power cycles *)

(** The provisioning mode the fourth quick power-on changes to. *)
Definition flipped_mode (mode : Z) : Z :=
  if mode =? SNIFFER_MODE then AP_MODE else if mode =? AP_MODE then SNIFFER_MODE else SNIFFER_MODE.
Definition flipped (u : bytes) : bytes := <[0%nat := flipped_mode (u !!! 0%nat)]> u.
(** The user data [u] is what a start reads. *)
Definition user_in (c : C) (u : bytes) : Prop :=
  ud_image u /\ user_data_valid u = true /\ holds c YA_USER_DATA_ADDR u.

Lemma flipped_mode_cases mode : flipped_mode mode = AP_MODE \/ flipped_mode mode = SNIFFER_MODE.
Proof. unfold flipped_mode. repeat case_match; auto. Qed.
Lemma flipped_ok u : ud_image u -> ud_image (flipped u) /\ user_data_valid (flipped u) = true.
Proof.
  intros [Hl Hb]. unfold flipped. destruct (flipped_mode_cases (u !!! 0%nat)) as [-> | ->]; (split; [split|]).
  all: try (unfold len in *; by rewrite length_insert).
  all: try (apply Forall_insert; [done | unfold is_u8, AP_MODE, SNIFFER_MODE; lia]).
  all: unfold user_data_valid, CONNECT_MODE; change (Z.to_nat o_mode) with 0%nat;
    rewrite list_lookup_total_insert_eq by (unfold len, SIZEOF_USER_DATA in Hl; lia); done.
Qed.

(** The module's start with the mode change pending. *)
Lemma start_toggled (a : app) h u :
  user_in (chip h) u -> heap h = [] -> sniffer_ap_mode a = true -> a_lic a = no_lic ->
  exists a1 h1, ya_start_app_main test_light_main_para (a, h) = Done tt (a1, h1) /\
    ya_app_state a1 = start_state (flipped_mode (u !!! 0%nat)) /\
    user_in (chip h1) (flipped u) /\ heap h1 = [] /\ queues h1 = queues h /\ elsewhere (chip h) (chip h1).
Proof.
  intros (Hu&Hv&Hd) Hh Ht Hl. destruct (flipped_ok u Hu) as [Hu' Hv'].
  set (a1 := set_ud u (set_para test_light_main_para a)). set (a2 := set_ud (flipped u) a1).
  destruct (save_ok a2 h Hu' Hh) as (c&Hs&_&Hc&Hel).
  assert (Hu0 : 0 <= o_mode < len u) by (destruct Hu; unfold SIZEOF_USER_DATA, o_mode in *; lia).
  assert (Hu1 : 0 <= o_mode < len (flipped u)) by (destruct Hu'; unfold SIZEOF_USER_DATA, o_mode in *; lia).
  assert (Hm : flipped u !!! Z.to_nat o_mode = flipped_mode (u !!! 0%nat))
    by (apply list_lookup_total_insert_eq; unfold len, o_mode in Hu0; lia).
  destruct (start_after_mode test_light_main_para a h (a1, h)
    (set_state (start_state (flipped_mode (u !!! 0%nat))) a2) c) as (l&h1&Hr&_&Ec&Eh&Eq); [by apply read_main| |done|done|].
  - unfold ya_init_start_mode. erewrite bind_done by reflexivity. cbn [fst]. change (sniffer_ap_mode a1) with (sniffer_ap_mode a).
    rewrite Ht. rewrite (bind_done _ _ _ tt (a2, set_chip c h)).
    + unfold ud_get. rewrite bind_assoc. erewrite bind_done by reflexivity. cbn [fst ud set_ud a2].
      erewrite bind_done by (by apply rd_ok). by rewrite Hm.
    + unfold ud_get, ud_put. rewrite bind_assoc. erewrite bind_done by reflexivity. cbn [fst ud set_ud a1].
      erewrite bind_done by (by apply rd_ok). erewrite bind_done by reflexivity. cbn [fst].
      rewrite bind_assoc. erewrite bind_done by reflexivity. cbn [fst ud set_ud a1].
      rewrite bind_assoc. erewrite bind_done by (by apply wr_ok).
      change (Z.to_nat o_mode) with 0%nat.
      assert (Hf : <[0%nat := u8 (if u !!! 0%nat =? SNIFFER_MODE then AP_MODE
        else if u !!! 0%nat =? AP_MODE then SNIFFER_MODE else toggled_default (ya_init_mode (para a1)))]> u = flipped u).
      { unfold flipped, flipped_mode. f_equal. by repeat case_match. }
      rewrite Hf. erewrite bind_done by reflexivity. erewrite bind_done by exact Hs. done.
  - eexists _, h1. split; [exact Hr|]. rewrite Ec. split_and!; done.
Qed.

(** Neither record touches the other. *)
Lemma user_in_frame c c' u :
  user_in c u ->
  (forall x, x < YA_LIGHT_FLASH_PARA_ADDR \/ YA_LIGHT_FLASH_PARA_ADDR + 4096 <= x -> nor_read c' x = nor_read c x) ->
  user_in c' u.
Proof.
  intros (Hu&Hv&Hd) Hf. split; [done|]. split; [done|]. eapply holds_frame; [|exact Hd].
  intros x Hx. apply Hf. destruct Hu as [Hl _]. rewrite Hl in Hx.
  change (record_size SIZEOF_USER_DATA) with 572 in Hx. unfold YA_USER_DATA_ADDR, YA_LIGHT_FLASH_PARA_ADDR in *. lia.
Qed.
Lemma saved_in_frame c c' d : saved_in c d -> elsewhere c c' -> saved_in c' d.
Proof.
  intros Hd Hf. eapply holds_frame; [|exact Hd]. intros x Hx. apply Hf. rewrite len_save_bytes in Hx.
  change (record_size SIZEOF_SAVE) with 24 in Hx. unfold YA_USER_DATA_ADDR, YA_LIGHT_FLASH_PARA_ADDR in *. lia.
Qed.

(** Reset: fresh memory for the product and for the module. *)
Definition fresh_boot s h : Prop := fresh_light s h /\ fresh_ram (l_app s).
Definition flips (d : save) : bool := num (power_counted d) =? 4.
Lemma task_init_run d u s h :
  fresh_boot s h -> light_record (chip h) d -> user_in (chip h) u ->
  exists s' h', ya_light_task_init (s, h) = Done tt (s', h') /\
    ya_app_state (l_app s') = start_state (if flips d then flipped_mode (u !!! 0%nat) else u !!! 0%nat) /\
    l_new s' = start_light (l_pad (l_default s)) d /\
    saved_in (chip h') (power_counted d) /\ user_in (chip h') (if flips d then flipped u else u).
Proof.
  intros [(Hh&Hq&Ht&Hi&Hc&Hm&Hp) [Hsn Hl]] Hd Hu.
  destruct (init_light_io_run d s h) as (c&s1&h1&Hr&Es&Eh&Hsv&Hf); try done.
  assert (Hu1 : user_in (chip h1) u) by (subst h1; by eapply user_in_frame).
  assert (Hh1 : heap h1 = []) by by subst h1.
  assert (exists a2 h2, ya_start_app_main test_light_main_para (l_app s1, h1) = Done tt (a2, h2) /\
    ya_app_state a2 = start_state (if flips d then flipped_mode (u !!! 0%nat) else u !!! 0%nat) /\
    user_in (chip h2) (if flips d then flipped u else u) /\ elsewhere (chip h1) (chip h2))
    as (a2&h2&Hr2&Hst&Hu2&Hel).
  { subst s1. cbn [l_app set_io set_new set_default set_saved set_app]. unfold toggled, flips.
    destruct (num (power_counted d) =? 4).
    - destruct (start_toggled (set_sniffer_ap true (l_app s)) h1 u) as (a2&h2&?&?&?&_&_&?); try done. by exists a2, h2.
    - pose proof Hu1 as (Hu0&Hv&Hhd).
      destruct (start_after_read test_light_main_para (l_app s) h1 u (chip h1)) as (a2&h2&?&?&_&Ec&_); try done.
      { rewrite read_main with (u := u) by done. by destruct h1. }
      exists a2, h2. rewrite Ec. split_and!; done. }
  exists (set_app a2 s1), h2. split.
  { unfold ya_light_task_init. erewrite bind_done by exact Hr.
    unfold ya_start_akeeta_sdk, in_main, zoom_s, zoom. by rewrite Hr2. }
  split; [done|]. split; [by subst s1|]. split; [|done]. eapply saved_in_frame; [|done]. by subst h1.
Qed.

(** [n] power-ons in a row, each cut before the five seconds after which the
    count is cleared. *)
Inductive quick_cycles (c : C) : nat -> C -> Prop :=
| quick_none : quick_cycles c 0 c
| quick_one n s h s' h' :
    quick_cycles c n (chip h) -> fresh_boot s h ->
    ya_light_task_init (s, h) = Done tt (s', h') -> quick_cycles c (S n) (chip h').
Definition user_after (n : nat) (u : bytes) : bytes := if (4 <=? n)%nat then flipped u else u.
Lemma quick_cycles_state c d u n c' :
  light_record c d -> num d = 0 -> user_in c u -> quick_cycles c n c' -> Z.of_nat n < 65536 ->
  exists d', light_record c' d' /\ num d' = Z.of_nat n /\ user_in c' (user_after n u) /\
    (config_default d' <> 0 -> (n < 4)%nat).
Proof.
  intros Hd Hn Hu Hq. induction Hq as [|n s h s' h' Hq IH Hf Hr]; intros Hb.
  { exists d. split_and!; done || lia. }
  destruct IH as (d'&Hd'&Hn'&Hu'&_); [lia|].
  destruct (task_init_run d' _ s h Hf Hd' Hu') as (s1&h1&Hr1&_&_&Hsv&Hu1).
  rewrite Hr in Hr1. injection Hr1 as <- <-.
  exists (power_counted d'). assert (Hn1 : num (power_counted d') = Z.of_nat (S n)).
  { rewrite num_power_counted, Hn'. rewrite u16_small by (unfold is_u16; lia). lia. }
  split_and!; try done.
  - left. split; [done|]. by eapply power_counted_wf, light_record_wf.
  - unfold flips in Hu1. rewrite Hn1 in Hu1. unfold user_after in *.
    destruct (Z.eqb_spec (Z.of_nat (S n)) 4), (Nat.leb_spec 4 n), (Nat.leb_spec 4 (S n)); try lia; done.
  - revert Hn1. unfold power_counted. cbn [num set_num]. destruct (Z.leb_spec 4 (u16 (num d' + 1))); cbn; [by intros ? []|]. lia.
Qed.

(** Five seconds after power-on the count starts again from zero. *)
Lemma clear_flag_run s h :
  heap h = [] -> save_wf (l_saved s) ->
  exists c, ya_clear_power_on_flag_callback (s, h)
    = Done tt (set_saved (set_num 0 (l_saved s)) s, set_chip c h) /\
    light_record c (set_num 0 (l_saved s)) /\ forall u, user_in (chip h) u -> user_in c u.
Proof.
  intros Hh Hw. destruct (write_saved_run (set_saved (set_num 0 (l_saved s)) s) h Hh) as (c&Hr&Hc&Hf).
  exists c. split; [exact Hr|]. split; [|intros u Hu; by eapply user_in_frame].
  left. split; [done|]. destruct Hw as (_&?&?&?). split_and!; try done; cbn; unfold is_u16; lia.
Qed.
Lemma quick_cycles_exist c d u s h n :
  light_record c d -> num d = 0 -> user_in c u -> (forall c, fresh_boot s (set_chip c h)) -> Z.of_nat n < 65536 ->
  exists c', quick_cycles c n c'.
Proof.
  intros Hd Hn Hu Hf. induction n as [|n IH]; intros Hb; [exists c; constructor|].
  destruct IH as [c1 Hq]; [lia|]. destruct (quick_cycles_state c d u n c1) as (d1&Hd1&_&Hu1&_); try done; [lia|].
  destruct (task_init_run d1 _ s (set_chip c1 h) (Hf c1) Hd1 Hu1) as (s'&h'&Hr&_).
  exists (chip h'). by eapply (quick_one c n s (set_chip c1 h)).
Qed.
End Light.

(** A turn of the light task that finds settings in its queue (whatever their
    number) ends with the lamp showing the last of them, a scene as its table
    says; the queue is empty and every block freed; and, once the device has
    been connected, a setting that is not off is what the flash now holds. *)
Theorem light_task_applies_last {C} `{NorChipLaws C, !NorReliable C} `{JsonText, CloudEnv, MainEnv}
    tick ls l s (h : hw C) :
  heap h = [] -> lamp_ok (l_io s) h -> idle_turn s ->
  queues h QLight = light_msg <$> (ls ++ [l]) -> Forall light_wf (ls ++ [l]) ->
  exists s' h', ya_light_task_step tick (s, h) = Done tt (s', h') /\
    lamp_ok (l_io s') h' /\ lamp_shows (effective (scene_light s) l) h' /\
    queues h' QLight = [] /\ live h' = live h - (Z.of_nat (length ls) + 1) /\
    if negb (connected s =? 0) && negb (onoff l =? 0)
    then l_saved s' = set_cloud_light l (set_config 1 (l_saved s)) /\ saved_in (chip h') (l_saved s')
    else l_saved s' = l_saved s /\ chip h' = chip h.
Proof.
  intros Hh Hl Hi Hq Hw.
  destruct (light_task_step_run tick ls l s h Hh Hl Hi Hq Hw)
    as (s'&h'&h1&Hr&(Ec&Ep&Ev&Et&Est&Eq)&(Hl'&Hs&?&Ev'&Eq'&Hsv)).
  exists s', h'. split; [done|]. split; [done|]. split; [done|]. split; [by rewrite Eq', Eq|].
  split; [by rewrite Ev', Ev|]. by rewrite <-Ec.
Qed.

(** A connected device with an empty queue; fresh memory. *)
Definition sample_light : lstate :=
  mkLs sample_app (mkLio (replicate 5 (mkPwm 0 0 0)) 0) light0 light0 save0 0 1 MODLUE_CONNECT [0; 0; 0; 0]
    MODLUE_CONNECT 0 ya_init_timer light0.
Definition cold_light : lstate := set_connected 0 sample_light.
Definition green : light := mkLight C_CONTROL 1 0 0 120 100 100 0 0.
Definition night : light := mkLight S_CONTROL 1 0 0 0 0 0 L_NIGHT 0.
Definition sample_queue (ls : list light) : hw ideal := set_queue QLight (light_msg <$> ls) boot.
Lemma sample_lamp ls : lamp_ok (l_io sample_light) (sample_queue ls).
Proof. apply lamp_ok_init; [by left | cbn; lia]. Qed.

Lemma light_task_applies_last_witness :
  lamp_target (effective light0 night) = [0; 0; 0; 22; 3] /\
  exists s' h', ya_light_task_step 7 (sample_light, sample_queue [green; night]) = Done tt (s', h') /\
    lamp_ok (l_io s') h' /\ lamp_shows (effective light0 night) h' /\
    queues h' QLight = [] /\ live h' = live boot - (Z.of_nat 1 + 1) /\
    (l_saved s' = set_cloud_light night (set_config 1 save0) /\ saved_in (chip h') (l_saved s')).
Proof.
  split; [reflexivity|].
  apply (light_task_applies_last 7 [green] night sample_light (sample_queue [green; night]));
    [done | apply sample_lamp | done | done | evaluate].
Defined.

(** C34: The last setting of a turn survives a power cycle, if it is one that
    turns the lamp on: an off setting is not saved.  Applied while the device is
    connected, in a turn with no status change, blinking or restart pending, with
    memory to spare and fewer than three quick power-ons counted in the record:
    after any reset with that flash content, and memory to spare, the
    initialisation and the first turn of the task leave the lamp showing it
    again. *)
Theorem light_survives_power_cycle {C} `{NorChipLaws C, !NorReliable C} `{JsonText, CloudEnv, MainEnv}
    tick tick' ls l s (h : hw C) :
  heap h = [] -> lamp_ok (l_io s) h -> idle_turn s ->
  queues h QLight = light_msg <$> (ls ++ [l]) -> Forall light_wf (ls ++ [l]) ->
  connected s <> 0 -> onoff l <> 0 -> save_wf (l_saved s) -> num (l_saved s) < 3 ->
  exists s1 h1, ya_light_task_step tick (s, h) = Done tt (s1, h1) /\
    forall s2 h2, fresh_light s2 h2 -> chip h2 = chip h1 ->
    exists s3 h3, (ya_init_light_io ;; ya_light_task_step tick') (s2, h2) = Done tt (s3, h3) /\
      lamp_ok (l_io s3) h3 /\ lamp_shows (effective (scene_light s2) l) h3.
Proof.
  intros Hh Hl Hi Hq Hw Hc Ho (?&?&?&?) Hn.
  destruct (light_task_step_run tick ls l s h Hh Hl Hi Hq Hw)
    as (s1&h1&h0&Hr&(Ec&_)&(_&_&_&_&_&Hsv)).
  rewrite (proj2 (Z.eqb_neq _ _) Hc), (proj2 (Z.eqb_neq _ _) Ho) in Hsv. destruct Hsv as [Es Hin].
  exists s1, h1. split; [done|]. intros s2 h2 Hf Ech.
  apply Forall_app in Hw as [_ [Hwl _]%Forall_cons].
  assert (Hst : start_light (l_pad (l_default s2)) (l_saved s1) = l).
  { unfold start_light, power_counted. rewrite Es. cbn. rewrite u16_small by (unfold is_u16 in *; lia).
    destruct (Z.leb_spec 4 (num (l_saved s) + 1)); [lia|done]. }
  destruct (power_on_shows tick' (l_saved s1) s2 h2 Hf) as (s3&h3&Hr3&Hok&Hsh&_).
  - left. rewrite Ech. split; [done|]. rewrite Es. split_and!; try done; cbn; unfold is_u8; lia.
  - exists s3, h3. rewrite Hst in Hsh. done.
Qed.
Lemma light_survives_power_cycle_witness :
  exists s1 h1, ya_light_task_step 7 (sample_light, sample_queue [night; green]) = Done tt (s1, h1) /\
    forall s2 h2, fresh_light s2 h2 -> chip h2 = chip h1 ->
    exists s3 h3, (ya_init_light_io ;; ya_light_task_step 9) (s2, h2) = Done tt (s3, h3) /\
      lamp_ok (l_io s3) h3 /\ lamp_shows (effective (scene_light s2) green) h3.
Proof.
  apply (light_survives_power_cycle 7 9 [night] green sample_light (sample_queue [night; green]));
    [done | apply sample_lamp | done | done | evaluate | done | done | evaluate | done].
Defined.

(** Power-ons cut short within five seconds are counted in flash: from a
    cleared count, the fourth one (and no earlier one) makes the module start
    in the other provisioning mode and the lamp with its default setting, and
    the mode change is stored and stays in force. *)
Theorem quick_power_cycles_toggle {C} `{NorChipLaws C, !NorReliable C} `{JsonText, CloudEnv, MainEnv}
    c d u n s (h : hw C) :
  light_record c d -> num d = 0 -> user_in c u -> quick_cycles c n (chip h) -> Z.of_nat n < 65535 ->
  fresh_boot s h ->
  exists s' h', ya_light_task_init (s, h) = Done tt (s', h') /\
    ya_app_state (l_app s')
      = start_state (if (3 <=? n)%nat then flipped_mode (u !!! 0%nat) else u !!! 0%nat) /\
    user_in (chip h') (if (3 <=? n)%nat then flipped u else u) /\
    ((3 <= n)%nat -> l_new s' = default_light (l_pad (l_default s))).
Proof.
  intros Hd Hn Hu Hq Hb Hf.
  destruct (quick_cycles_state c d u n _ Hd Hn Hu Hq) as (d'&Hd'&Hn'&Hu'&_); [lia|].
  destruct (task_init_run d' _ s h Hf Hd' Hu') as (s'&h'&Hr&Hst&Hl&_&Hu1).
  assert (Hc : num (power_counted d') = Z.of_nat n + 1)
    by (rewrite num_power_counted, Hn'; apply u16_small; unfold is_u16; lia).
  assert (Hfl : flips d' = (n =? 3)%nat).
  { unfold flips. rewrite Hc. destruct (Z.eqb_spec (Z.of_nat n + 1) 4), (Nat.eqb_spec n 3); lia || done. }
  assert (Hm : flipped u !!! 0%nat = flipped_mode (u !!! 0%nat)).
  { apply list_lookup_total_insert_eq. destruct Hu as ([Hlu _]&_). unfold len, SIZEOF_USER_DATA in Hlu. lia. }
  assert (Hdef : (3 <= n)%nat -> l_new s' = default_light (l_pad (l_default s))).
  { intros H3n. rewrite Hl. unfold start_light. revert Hc. unfold power_counted. cbn [num set_num].
    destruct (Z.leb_spec 4 (u16 (num d' + 1))); cbn; [done|lia]. }
  rewrite Hfl in Hst, Hu1. exists s', h'. split; [done|]. unfold user_after in *.
  destruct (Nat.leb_spec 4 n), (Nat.leb_spec 3 n), (Nat.eqb_spec n 3); try lia; by rewrite ?Hm in Hst.
Qed.
Definition sniffer_chip : ideal := sample_chip (fresh_image SNIFFER_MODE).
Lemma sniffer_chip_user : user_in sniffer_chip (fresh_image SNIFFER_MODE).
Proof.
  split; [apply fresh_image_ok|]. split; [by apply fresh_valid|]. exists (zeros 4). vm_compute. reflexivity.
Qed.
Lemma quick_power_cycles_toggle_witness :
  exists c s' h', quick_cycles sniffer_chip 3 c /\
    ya_light_task_init (cold_light, set_chip c boot) = Done tt (s', h') /\
    ya_app_state (l_app s') = YA_APP_AP_START /\ l_new s' = default_light 0.
Proof.
  assert (Hrec : light_record sniffer_chip save0) by (right; split; [by apply blank_not_ok | done]).
  assert (Hf : forall c, fresh_boot cold_light (set_chip c boot)) by (intros c; split; [split_and!; done || by left | by split]).
  destruct (quick_cycles_exist sniffer_chip save0 (fresh_image SNIFFER_MODE) cold_light boot 3) as [c Hq];
    [done | done | apply sniffer_chip_user | done | done|].
  destruct (quick_power_cycles_toggle sniffer_chip save0 (fresh_image SNIFFER_MODE) 3 cold_light (set_chip c boot))
    as (s'&h'&Hr&Hst&_&Hl); [done | done | apply sniffer_chip_user | done | done | done|].
  exists c, s', h'. split; [done|]. split; [done|]. split; [exact Hst|]. apply Hl. lia.
Defined.

(** ** The factory test ends in a pattern that is never left *)
Section Factory.
Context {C : Type} `{NorChipLaws C} `{JsonText, CloudEnv, MainEnv}.
Implicit Types (s : lstate) (h : hw C).

(** A computation that only writes LEDs and waits keeps the globals. *)
Definition leds_only {A} (m : P C lstate A) : Prop :=
  forall s h, exists a h', m (s, h) = Done a (s, h').
Lemma leds_bind {A B} (m : P C lstate A) (k : A -> P C lstate B) :
  leds_only m -> (forall a, leds_only (k a)) -> leds_only (bind m k).
Proof. intros Hm Hk s h. destruct (Hm s h) as (a&h1&E). rewrite (bind_done _ _ _ _ _ E). apply Hk. Qed.
Lemma leds_ret {A} (a : A) : leds_only (ret a).
Proof. intros s h. by exists a, h. Qed.
Lemma leds_emit e : leds_only (emit e).
Proof. intros s h. by eexists _, _. Qed.
Lemma hal_pwm_run i d io h : exists h', ya_hal_pwm_write i d (io, h) = Done tt (io, h').
Proof. unfold ya_hal_pwm_write. destruct (1000 <? d); [by eexists|]. destruct (i <? PMW_CHANNEL_MAC); by eexists. Qed.
Lemma leds_write r g b c w : leds_only (in_io (ya_pwm_led_write r g b c w)).
Proof.
  intros s h. unfold in_io, zoom_s, zoom. assert (exists h', ya_pwm_led_write r g b c w (l_io s, h) = Done tt (l_io s, h')) as [h' ->].
  { unfold ya_pwm_led_write. do 4 (edestruct (hal_pwm_run) as [? E]; rewrite (bind_done _ _ _ _ _ E); clear E).
    apply hal_pwm_run. }
  exists tt, h'. by destruct s.
Qed.
Lemma leds_pattern ms r g b c w : leds_only (pattern ms r g b c w).
Proof. apply leds_bind; [apply leds_write|]. intros _. apply leds_emit. Qed.
Lemma leds_each ms : leds_only (each_colour ms).
Proof. repeat (apply leds_bind; [apply leds_pattern|intros _]). apply leds_pattern. Qed.
Lemma leds_for {A} (l : list A) (f : A -> P C lstate unit) : (forall x, leds_only (f x)) -> leds_only (for_each l f).
Proof. intros Hf. induction l as [|x l IH]; [apply leds_ret|]. apply leds_bind; [done|]. by intros _. Qed.
Lemma leds_forever {A} (m : P C lstate unit) Q R s h :
  leds_only m -> (forall h', R (s, h')) -> wp (forever (A := A) m) Q R (s, h).
Proof. intros Hm HR. destruct (Hm s h) as (a&h1&E). unfold wp, forever. rewrite (bind_done _ _ _ _ _ E). apply HR. Qed.

Lemma wp_leds {A} (m : P C lstate A) Q R s h :
  leds_only m -> (forall a h', Q a (s, h')) -> wp m Q R (s, h).
Proof. intros Hm HQ. destruct (Hm s h) as (a&h1&E). unfold wp. by rewrite E. Qed.
(** From the colour test, the low-signal state or the licence failure on: the
    test hangs, and nothing of the product has changed. *)
Lemma factory_hangs fuel test_type cloud st s h :
  (st = RGBCW_TEST /\ (2 <= fuel)%nat) \/
  (st = AGING_TEST \/ st = LIGHT_ROUTER_LOW_RSSI \/ st = LIGHT_LICENSE_FAILED) /\ (1 <= fuel)%nat ->
  wp (factory_run fuel test_type cloud st) (fun _ _ => False) (fun t => t.1 = s) (s, h).
Proof.
  revert st s h. induction fuel as [|fuel IH]; intros st s h Hst; [lia|]. cbn [factory_run]. wstep.
  destruct Hst as [[-> Hf]|[[->|[->| ->]] _]];
    unfold factory_turn, LICENSE_TEST, RGBCW_TEST, AGING_TEST, LIGHT_ROUTER_FAILED, LIGHT_ROUTER_LOW_RSSI,
      LIGHT_LICENSE_FAILED; cbn [Z.eqb Pos.eqb].
  - unfold ya_rgbcw_test. destruct (test_type =? 0).
    + wstep. wstep. apply wp_leds; [apply leds_for; intros; apply leds_each|]. intros _ h1. apply wp_ret, wp_ret.
      apply IH. right. split; [by left | lia].
    + wstep. apply leds_forever; [apply leds_each | done].
  - unfold ya_aging_rgbcw_test. wstep. wstep. apply wp_leds.
    { apply leds_for. intros t. destruct (t <? 20); [|destruct (t <? 40)]; apply leds_pattern. }
    intros _ h1. apply wp_ret. cbn [Z.eqb]. unfold ya_ligth_test_ok. wstep.
    apply wp_leds; [apply leds_write|]. intros _ h2. apply leds_forever; [apply leds_emit | done].
  - apply leds_forever; [|done]. do 2 (apply leds_bind; [apply leds_for; intros; apply leds_pattern | intros _]).
    do 2 (apply leds_bind; [apply leds_pattern | intros _]). apply leds_pattern.
  - apply leds_forever; [|done]. apply leds_bind; [|intros _]; apply leds_pattern.
Qed.
(** Started with no licence loaded, the factory test never returns: its verdict
    stands until a reset, and only the licences in memory have changed. *)
Lemma factory_test_never_returns rssi test_type cloud s h :
  fresh 0 (a_lic (l_app s)) -> lic_inv (a_lic (l_app s)) ->
  wp (ya_light_factory_test rssi test_type cloud) (fun _ _ => False)
    (fun t => exists l, t.1 = set_app (set_lic l (l_app s)) s) (s, h).
Proof.
  intros Hf Hl. unfold ya_light_factory_test.
  assert (Hhang : forall fuel st l h', (2 <= fuel)%nat ->
    st = RGBCW_TEST \/ st = LIGHT_ROUTER_LOW_RSSI \/ st = LIGHT_LICENSE_FAILED ->
    wp (factory_run fuel test_type cloud st) (fun _ _ => False)
      (fun t => exists l, t.1 = set_app (set_lic l (l_app s)) s) (set_app (set_lic l (l_app s)) s, h')).
  { intros fuel st l h' Hfu Hst. eapply wp_mono; [apply factory_hangs; destruct Hst as [->|[->| ->]]; auto with lia | done|].
    intros t ->. by exists l. }
  assert (Hid : s = set_app (set_lic (a_lic (l_app s)) (l_app s)) s) by (destruct s as [[]]; done).
  destruct (rssi <? -60).
  { pose proof (Hhang 3%nat LIGHT_ROUTER_LOW_RSSI (a_lic (l_app s)) h) as Hw. rewrite <-Hid in Hw. apply Hw; [lia | by right; left]. }
  change (factory_run 3 test_type cloud LICENSE_TEST) with
    (let* st := license_test cloud in factory_run 2 test_type cloud st).
  assert (Hend : forall b : bool, let st := if b then RGBCW_TEST else LIGHT_LICENSE_FAILED in
    st = RGBCW_TEST \/ st = LIGHT_ROUTER_LOW_RSSI \/ st = LIGHT_LICENSE_FAILED) by (intros []; auto).
  wstep. unfold license_test, in_licence, in_main, in_lic, ya_check_us_license_exit, ya_check_cn_license_exit.
  wstep; [|wstep; [|wstep]].
  - wstep. apply wp_zoom, wp_zoom. eapply wp_mono; [apply (wp_aws_init (fun _ => False))| |done].
    intros r [l1 h1] _. apply wp_ret, Hhang; [lia | apply (Hend (r =? 0))].
  - wstep. apply wp_zoom, wp_zoom. eapply wp_mono; [by apply (wp_aliyun_init (fun _ => False))| |done].
    intros r [l1 h1] _. apply wp_ret, Hhang; [lia | apply (Hend (r =? 0))].
  - wstep. apply wp_zoom, wp_zoom. eapply wp_mono; [by apply (wp_aliyun_init (fun _ => False))| |done].
    intros r [l1 h1] _. wstep; [|apply wp_ret, Hhang; [lia | by right; right]].
    wstep. apply wp_zoom, wp_zoom. eapply wp_mono; [apply (wp_aws_init (fun _ => False))| |done].
    intros r2 [l2 h2] _. apply wp_ret, Hhang; [lia | apply (Hend (r2 =? 0))].
  - apply wp_ret. pose proof (Hhang 2%nat LIGHT_LICENSE_FAILED (a_lic (l_app s)) h) as Hw. rewrite <-Hid in Hw.
    apply Hw; [lia | by right; right].
Qed.
End Factory.
