(* ===== verification/LightCloud.v ===== *)
(** * The light product and the cloud

    Commands from the cloud and reports to it: the handler of property
    documents is safe on every document, and a report says all the lamp needs:
    handling it as a command reproduces the setting. *)

From stdpp Require Import base numbers list strings.
From S2P Require Import Prelude Platform SpiFlash Flash CommonFunc HalTimer CJson SysTime.
From S2P Require Import DeviceTimer License MainQueue Cloud Hardware UserData AppMain UserDataProofs LightColor LightIo Light LightProofs.

(** ** Reading a report *)

(** The key is in the report of a light that is on. *)
Lemma prop_value_member {C} `{NorChip C} p key v (s : lstate) (h : hw C) :
  cJSON_GetObjectItem p (str key) = Some (member key (ya_int_to_string v)) ->
  prop_value p key (s, h) = Done (Some (Some (u32 (i32 v)))) (s, h).
Proof.
  intros Hk. unfold prop_value. rewrite Hk. cbn.
  by rewrite cstr_no_nul, int_string_roundtrip by apply int_to_string_no_nul.
Qed.

(** The parser gives every string item its text. *)
Definition strings_ok (j : cJSON) : Prop :=
  Forall (fun k => j_type k = cJSON_String -> is_Some (valuestring k)) (child j).
Lemma printable_strings j : printable j = true -> strings_ok j.
Proof.
  intros Hp. apply Forall_forall. intros k Hk Ht. pose proof (printable_child _ _ Hp Hk) as Hpk. destruct k as [key ty v c]. cbn in *. subst ty.
  destruct v; [by eexists|done].
Qed.

Section Talk.
Context {C : Type} `{NorChip C} `{JsonStrings} `{CloudEnv} `{MainEnv}.
Implicit Types (s : lstate) (h : hw C) (l : light).

(** Messages to the cloud leave the lamp as it is. *)
Lemma talked_lamp n h h' : talked n h h' ->
  live h' = live h + n /\ queues h' = queues h /\ chip h' = chip h /\ (heap h = [] -> heap h' = []) /\
  forall c, shown (trace h') c = shown (trace h) c.
Proof.
  intros (?&?&?&?&msgs&Et)%talked_fields. split_and!; try done. intros c. rewrite Et. clear. by induction msgs.
Qed.

(** With memory to spare, reporting a text the parser survives leaves no block
    behind. *)
Lemma printable_property p : printable p = true ->
  printable (jroot [jstr "method" "thing.service.device.property.report"; let '(Item _ ty v c) := p in Item (Some (str "property")) ty v c]) = true.
Proof. destruct p as [k ty v c]. intros Hp. cbn in *. by rewrite Hp. Qed.
Lemma wp_thing_report conn buf Q R s h : heap h = [] -> overruns (cstr buf) = false ->
  (forall r h', talked 0 h h' -> Q r (s, h')) -> wp (ya_thing_report_to_cloud conn buf) Q R (s, h).
Proof.
  intros Hh Ho HQ. unfold ya_thing_report_to_cloud. wstep. apply wp_talk_create. intros [[]|] h1 T1; [|by apply wp_ret, HQ].
  assert (Hh1 : heap h1 = []) by (by apply talked_lamp in T1 as (_&_&_&T1&_); apply T1).
  wstep. unfold json_parse. rewrite (read_ok _ Ho). apply wp_talk_take; [done|]. intros h2 T2.
  assert (Hh2 : heap h2 = []) by (by apply talked_lamp in T2 as (_&_&_&T2&_); apply T2).
  pose proof (talked_trans _ _ _ _ _ T1 T2) as T12. clear T1 T2.
  destruct (cJSON_Parse (cstr buf)) as [p|] eqn:Ep.
  - wstep. eapply wp_done; [by apply build_spare|]. wstep. destruct p as [k ty v c].
    eapply wp_done; [unfold json_name; by erewrite bind_done by (by apply strdup_spare)|].
    wstep. apply wp_upd_hw. wstep. eapply wp_talk_printed; [done| |].
    { unfold json_print. change (option_list _ ++ _) with ([jstr "method" "thing.service.device.property.report"; Item (Some (str "property")) ty v c]).
      rewrite (printable_property (Item k ty v c)); [reflexivity|]. by eapply parse_printable. }
    intros h3 T3. apply wp_ret, HQ.
    pose proof (talked_trans _ _ _ _ _ T12 (talked_trans _ _ _ _ _ (talked_blocks (-1) h2) T3)) as T.
    by eapply talked_eq; [exact T|].
  - wstep. apply wp_upd_hw. apply wp_ret, HQ.
    by eapply talked_eq; [exact (talked_trans _ _ _ _ _ T12 (talked_blocks (-1) h2))|].
Qed.
Lemma int_text_ok i : text_ok (ya_int_to_string i) = true.
Proof.
  pose proof (i32_range i) as Hi.
  assert (Hd : forall n, 0 <= n < 10 ^ Z.of_nat 10 -> text_ok (dec_digits 10 n []) = true).
  { intros n Hn. destruct (dec_digits_spec 10 n Hn) as (Hd & _). unfold text_ok. rewrite List.forallb_forall. intros c Hc%list_elem_of_In.
    eapply Forall_forall in Hd; [|exact Hc]. unfold is_digit in Hd. lia. }
  unfold ya_int_to_string. destruct (i32 i <? 0) eqn:E; [cbn [text_ok forallb]; change (text_ok (dec_digits 10 (- i32 i) []) = true)|];
    apply Hd; change (10 ^ Z.of_nat 10) with 10000000000; lia.
Qed.
Lemma report_text l : text_document (jroot (report_members l)) = true.
Proof.
  assert (Hm : forall k v, text_ok (str k) = true -> string_member (member k (ya_int_to_string v)) = true).
  { intros k v Hk. unfold member, string_member. rewrite Hk. cbn. apply int_text_ok. }
  unfold report_members. destruct (onoff l =? 1); cbn [text_document jroot forallb]; by rewrite !Hm.
Qed.
Lemma report_printable l : printable (jroot (report_members l)) = true.
Proof. unfold report_members. by destruct (onoff l =? 1). Qed.
Lemma wp_report Q R s h : heap h = [] ->
  (forall r h', talked 0 h h' -> Q r (s, h')) -> wp ya_report_whole_key_value_formulate Q R (s, h).
Proof.
  intros Hh HQ. unfold ya_report_whole_key_value_formulate. wstep. apply wp_talk_create.
  intros [[]|] h1 T1; [|by apply wp_ret, HQ]. wstep. apply wp_gets. cbn [fst id].
  assert (Hh1 : heap h1 = []) by (by apply talked_lamp in T1 as (_&_&_&T1&_); apply T1).
  wstep. apply wp_document; [done|apply report_printable|]. apply wp_talk_take; [done|]. intros h2 T2.
  assert (Hh2 : heap h2 = []) by (by apply talked_lamp in T2 as (_&_&_&T2&_); apply T2).
  pose proof (talked_trans _ _ _ _ _ T1 T2) as T12. clear T1 T2.
  destruct (cJSON_PrintUnformatted (jroot (report_members (l_new s)))) as [b|] eqn:Eb; cbn [fmap option_fmap option_map] in T12 |- *.
  - wstep. wstep. apply wp_thing_report; [done| |].
    { rewrite cstr_app_nul by apply cstr_is_no_nul. eapply print_survives; [apply report_text|exact Eb]. }
    intros r h3 T3. apply wp_upd_hw. wstep. apply wp_upd_hw. apply wp_ret, HQ.
    pose proof (talked_trans _ _ _ _ _ T12 (talked_trans _ _ _ _ _ T3 (talked_blocks (-1) h3))) as T.
    pose proof (talked_trans _ _ _ _ _ T (talked_blocks (-1) _)) as T'. by eapply talked_eq; [exact T'|].
  - wstep. apply wp_ret. wstep. apply wp_upd_hw. apply wp_ret, HQ.
    by eapply talked_eq; [exact (talked_trans _ _ _ _ _ T12 (talked_blocks (-1) h2))|].
Qed.
End Talk.

Section Downlink.
Context {C : Type} `{NorChip C} `{JsonStrings} `{CloudEnv} `{MainEnv}.
Implicit Types (s : lstate) (h : hw C) (l : light).

(** ** The handler on any document *)

Lemma wp_prop_value p key Q R s h :
  strings_ok p -> (forall o, match o with Some (Some v) => is_u32 v | _ => True end -> Q o (s, h)) ->
  wp (prop_value p key) Q R (s, h).
Proof.
  intros Hp HQ. unfold prop_value. destruct (cJSON_GetObjectItem p (str key)) as [k|] eqn:Hk; [|by apply wp_ret, HQ].
  apply find_some in Hk as [Hin _]. apply list_elem_of_In in Hin.
  wstep. apply wp_guard; intros Ht; [|by apply HQ]. apply Z.eqb_eq in Ht.
  destruct (proj1 (Forall_forall _ _) Hp k Hin Ht) as [v Hv].
  wstep. eapply wp_deref; [exact Hv|]. apply wp_ret, HQ, u32_range.
Qed.

(** A setting whose fields are replaced by values in range. *)
Ltac lwf :=
  unfold light_wf in *; cbn; intuition (first [done | apply u8_range | apply u16_range | unfold is_u8 in *; lia]).
(** A store that keeps the fields within their types. *)
Definition store_ok (store : Z -> light -> light) : Prop := forall v l, light_wf l -> light_wf (store v l).
Lemma white_keys_ok : Forall (fun k => store_ok k.2) white_keys.
Proof.
  unfold white_keys. repeat (apply Forall_cons; split); try by apply Forall_nil.
  all: intros v l Hl; lwf.
Qed.
Lemma color_keys_ok : Forall (fun k => store_ok k.2) color_keys.
Proof.
  unfold color_keys. repeat (apply Forall_cons; split); try by apply Forall_nil.
  all: intros v l Hl; lwf.
Qed.
Lemma scene_keys_ok : Forall (fun k => store_ok k.2) scene_keys.
Proof.
  unfold scene_keys. repeat (apply Forall_cons; split); try by apply Forall_nil.
  intros v l Hl. pose proof (Z.mod_pos_bound (v + 128) 256). unfold i8. lwf.
Qed.
Lemma group_mode_wf m l : is_u8 m -> light_wf l -> light_wf (set_onoff 1 (set_mode m l)).
Proof. intros Hm Hl. lwf. Qed.

Lemma wp_upd_new f Q R s h : Q tt (set_new (f (l_new s)) s, h) -> wp (upd_new f) Q R (s, h).
Proof. done. Qed.
(** The handler changes nothing but the setting, which stays well formed. *)
Definition keeps {A} (s : lstate) (h : hw C) (o : A) (t : lstate * hw C) : Prop :=
  exists l, light_wf l /\ t = (set_new l s, h).
Lemma keeps_refl {A} s h (o : A) : light_wf (l_new s) -> keeps s h o (s, h).
Proof. intros Hl. exists (l_new s). split; [done|]. by destruct s. Qed.
Lemma wp_keeps {A B} (m : P C lstate A) (k : A -> P C lstate B) R s h :
  wp m (keeps s h) R (s, h) ->
  (forall a s', light_wf (l_new s') -> wp (k a) (keeps s' h) R (s', h)) ->
  wp (bind m k) (keeps s h) R (s, h).
Proof.
  intros Hm Hk. apply wp_bind. eapply wp_mono; [exact Hm| |done].
  intros a t (l&Hl&->). eapply wp_mono; [by apply Hk| |done].
  intros b t (l'&Hl'&->). by exists l'.
Qed.
Lemma wp_okeeps {A B} (m : P C lstate (option A)) (k : A -> P C lstate (option B)) R s h :
  wp m (keeps s h) R (s, h) ->
  (forall a s', light_wf (l_new s') -> wp (k a) (keeps s' h) R (s', h)) ->
  wp (obind m k) (keeps s h) R (s, h).
Proof.
  intros Hm Hk. apply wp_keeps; [exact Hm|]. intros [a|] s' Hl; [by apply Hk | by apply wp_ret, keeps_refl].
Qed.
Lemma wp_keeps_value p key R s h :
  strings_ok p -> light_wf (l_new s) -> wp (prop_value p key) (keeps s h) R (s, h).
Proof. intros Hp Hl. apply wp_prop_value; [done|]. intros o _. by apply keeps_refl. Qed.
Lemma wp_keeps_upd (o : option Z) (f : Z -> light -> light) R s h :
  light_wf (l_new s) -> (forall v l, light_wf l -> light_wf (f v l)) ->
  wp (match o with Some v => upd_new (f v) | None => ret tt end) (keeps s h) R (s, h).
Proof.
  intros Hl Hf. destruct o as [v|]; [|by apply wp_ret, keeps_refl]. apply wp_upd_new.
  exists (f v (l_new s)). auto.
Qed.
Lemma wp_keeps_group p m keys R s h :
  strings_ok p -> is_u8 m -> Forall (fun k => store_ok k.2) keys -> light_wf (l_new s) ->
  wp (prop_group p m keys) (keeps s h) R (s, h).
Proof.
  intros Hp Hm Hk. revert s. induction Hk as [|[key store] keys Hs _ IH]; intros s Hl; cbn [prop_group].
  { by apply wp_ret, keeps_refl. }
  apply wp_okeeps; [by apply wp_keeps_value|]. intros o s1 Hl1.
  apply wp_keeps; [apply (wp_keeps_upd o (fun v l => set_onoff 1 (set_mode m (store v l)))); [done|]|].
  { intros v l Hw. by apply group_mode_wf, Hs. }
  intros _ s2 Hl2. apply wp_okeeps; [by apply IH|]. intros b s3 Hl3. by apply wp_ret, keeps_refl.
Qed.
Lemma wp_keeps_try p g m keys st R s h :
  strings_ok p -> is_u8 m -> Forall (fun k => store_ok k.2) keys -> light_wf (l_new s) ->
  wp (try_group p g m keys st) (keeps s h) R (s, h).
Proof.
  intros Hp Hm Hk Hl. unfold try_group. destruct st as [ct en]. destruct (_ || _); [|by apply wp_ret, keeps_refl].
  apply wp_okeeps; [by apply wp_keeps_group|]. intros b s' Hl'. by apply wp_ret, keeps_refl.
Qed.
Lemma wp_handle_property p R s h :
  strings_ok p -> light_wf (l_new s) -> wp (handle_property p) (keeps s h) R (s, h).
Proof.
  intros Hp Hl. unfold handle_property. apply wp_okeeps; [by apply wp_keeps_value|]. intros sw s1 Hl1.
  apply wp_keeps; [apply (wp_keeps_upd sw (fun v => set_onoff (if negb (v =? 0) then 1 else 0))); [done|]|].
  { intros v l Hw. destruct (negb _); lwf. }
  intros _ s2 Hl2. cbv zeta. destruct (match sw with Some v => v =? 0 | None => false end); [by apply wp_ret, keeps_refl|].
  apply wp_okeeps; [by apply wp_keeps_value|]. intros wm s3 Hl3.
  apply wp_keeps; [apply (wp_keeps_upd wm (fun v => set_mode (u8 v))); [done|]|].
  { intros v l Hw. lwf. }
  intros _ s4 Hl4.
  apply wp_okeeps; [apply wp_keeps_try; try done; apply white_keys_ok|]. intros st s5 Hl5.
  apply wp_okeeps; [apply wp_keeps_try; try done; apply color_keys_ok|]. intros st' s6 Hl6.
  apply wp_okeeps; [apply wp_keeps_try; try done; apply scene_keys_ok|]. intros st'' s7 Hl7.
  by apply wp_ret, keeps_refl.
Qed.

(** Nothing was queued, or one message that owns one block. *)
Definition queues_light (l : light) (n : Z) h h' : Prop :=
  (queues h' = queues h /\ n = 0) \/
  ((forall q, queues h' q = if bool_decide (q = QLight) then queues h QLight ++ [light_msg l] else queues h q) /\ n = 1).
(** With memory and a place in the queue, the message is queued. *)
Definition roomy (n : Z) h h' : Prop :=
  heap h = [] -> heap h' = [] /\ ((length (queues h QLight) < MSG_QUEUE_LENGTH)%nat -> n = 1).
Lemma wp_set_light_para Q R s h :
  (forall h' n, queues_light (l_new s) n h h' -> live h' = live h + n -> chip h' = chip h -> trace h' = trace h ->
     roomy n h h' -> Q tt (s, h')) ->
  wp ya_set_light_para_to_queue Q R (s, h).
Proof.
  intros HQ. unfold ya_set_light_para_to_queue. wstep. apply wp_alloc_moved; [done| |].
  2:{ intros h1 Hno M. apply moved_fields in M as (Ev&Eq&Et&_&_&_&Ec). apply wp_ret, (HQ h1 0); [by left|lia|done|done|].
      intros Hh. by destruct Hno. }
  intros b h1 Hlen _ M. pose proof (proj2 M) as Hhp. apply moved_fields in M as (Ev&Eq&Et&_&_&_&Ec). unfold SIZEOF_LIGHT in Hlen.
  wstep. apply wp_gets. cbn [fst]. wstep. wstep; [unfold SIZEOF_LIGHT_DATA; lia|].
  set (b' := replicate _ _ ++ _). assert (Hb' : length b' = 14%nat).
  { unfold b', len in *. rewrite length_app, length_replicate, length_drop. unfold SIZEOF_LIGHT_DATA. lia. }
  wstep. wstep; [rewrite len_light_bytes; unfold len, SIZEOF_LIGHT; lia|].
  assert (Hs : splice b' 0 (light_bytes (l_new s)) = light_bytes (l_new s)).
  { do 15 (destruct b' as [|? b']; try done). }
  rewrite Hs. wstep. unfold wp at 1, ya_hal_os_queue_send. case_bool_decide.
  - apply wp_ret. apply (HQ _ 1); [right; split; [|done]|cbn; lia|done|done|].
    + intros q. cbn. rewrite Eq. by case_bool_decide.
    + intros Hh. cbn. auto.
  - apply wp_upd_hw. apply (HQ _ 0); [by left|cbn; lia|done|done|]. intros Hh. cbn. rewrite <-Eq. naive_solver.
Qed.

Lemma wp_downlink p buf n Q R s h :
  heap h = [] -> cJSON_Parse (cstr buf) = Some p -> light_wf (l_new s) ->
  (forall s' h' k, s' = set_new (l_new s') s -> light_wf (l_new s') -> queues_light (l_new s') k h h' ->
     live h' = live h + k -> chip h' = chip h -> (forall c, shown (trace h') c = shown (trace h) c) ->
     (exists r, handle_property p (s, set_heap (heap h) (live h + 1) h) = Done r (s', set_heap (heap h) (live h + 1) h) /\
        (if bool_decide (r = Some true) then roomy k h h' else k = 0)) -> Q tt (s', h')) ->
  wp (ya_thing_handle_downlink_data buf n) Q R (s, h).
Proof.
  intros Hh Hp Hl HQ. pose proof (printable_strings _ (parse_printable _ _ Hp)) as Hok.
  unfold ya_thing_handle_downlink_data. wstep. rewrite (parse_some _ _ Hp). eapply wp_done; [by apply take_spare|]. set (h0 := set_heap (heap h) (live h + 1) h) in *.
  destruct (wp_elim _ _ _ (wp_handle_property p (fun _ => False) s h0 Hok Hl)) as (r&t&Hr&(l&Hwl&->)).
  wstep. eapply wp_done; [exact Hr|]. wstep.
  assert (Hskip : r <> Some true -> wp (ret tt) (fun _ : unit => wp cJSON_Delete Q R) R (set_new l s, h0)).
  { intros Hne. apply wp_ret, wp_upd_hw. apply (HQ _ _ 0); try done; [by left|cbn; lia|].
    exists r. by rewrite bool_decide_false. }
  destruct r as [[|]|]; [|by apply Hskip|by apply Hskip].
  wstep. apply wp_set_light_para. intros h1 k Hq Ev Ec Et Hro. wstep. apply wp_report; [by apply Hro|]. intros r h2 T.
  apply talked_lamp in T as (Ev2&Eq2&Ec2&Eh2&Es2). apply wp_ret, wp_upd_hw. apply (HQ _ _ k); try done.
  - unfold queues_light in *. cbn in *. by rewrite Eq2.
  - cbn. rewrite Ev2, Ev. cbn. lia.
  - cbn. by rewrite Ec2.
  - intros c. cbn. by rewrite Es2, Et.
  - exists (Some true). rewrite bool_decide_true by done. split; [done|].
    intros _. destruct (Hro Hh) as [Hh1 Hk]. cbn. auto.
Qed.
End Downlink.

(** C35: A document of the cloud on which the JSON parser does not overrun is
    handled, with memory to spare, without a fault: it changes nothing of the
    product but the setting (which stays within its types), queues at most one
    message, the current setting, and leaves no other heap block behind.  (What
    the light relies on in the JSON code, [JsonStrings], is proved of it in
    [JsonUse].) *)
Theorem downlink_safe {C} `{NorChip C} `{JsonStrings} `{CloudEnv, MainEnv} buf n s (h : hw C) :
  light_wf (l_new s) -> heap h = [] -> overruns (cstr buf) = false ->
  exists l k h', ya_thing_handle_downlink_data buf n (s, h) = Done tt (set_new l s, h') /\ light_wf l /\
    queues_light l k h h' /\ live h' = live h + k /\ chip h' = chip h.
Proof.
  intros Hl Hh Ho.
  assert (wp (ya_thing_handle_downlink_data buf n) (fun _ t => exists l k, t.1 = set_new l s /\ light_wf l /\
    queues_light l k h t.2 /\ live t.2 = live h + k /\ chip t.2 = chip h) (fun _ => False) (s, h))
    as ([]&[s' h']&Hr&l&k&E&Hrest)%wp_elim.
  - destruct (cJSON_Parse (cstr buf)) as [p|] eqn:Hp.
    + eapply wp_downlink; [done|done|done|]. intros s' h' k E Hw Hq Ev Ec _ _. by exists (l_new s'), k.
    + unfold ya_thing_handle_downlink_data, json_parse. rewrite (read_ok _ Ho), Hp. exists (l_new s), 0.
      split; [by destruct s|]. split; [done|]. split; [by left|]. cbn. split; [lia|done].
  - exists l, k, h'. cbn in E. by subst s'.
Qed.

(** A parser that reads one document, and a printer that writes one. *)
#[export] Instance doc_text (j : cJSON) : JsonText :=
  json_of (fun _ => Some j) (fun _ => Some (str "{}")).
Definition sample_report : cJSON := jroot (report_members green).
Lemma sample_report_strings : JsonStrings (H := doc_text sample_report).
Proof.
  constructor; [by intros t j [= <-]|done].
Qed.
Lemma downlink_safe_witness :
  exists l k h', ya_thing_handle_downlink_data (H0 := doc_text sample_report) (str "x") 1 (sample_light, boot)
      = Done tt (set_new l sample_light, h') /\ light_wf l /\
    queues_light l k boot h' /\ live h' = live boot + k /\ chip h' = chip boot.
Proof. apply (downlink_safe (H1 := sample_report_strings) (str "x") 1 sample_light boot); [evaluate|reflexivity|reflexivity]. Defined.

(** ** A report as a command *)
Section Report.
Context {C : Type} `{NorChip C} `{JsonText} `{CloudEnv} `{MainEnv}.
Implicit Types (s : lstate) (h : hw C) (l : light).

Lemma u32_i32 v : u32 (i32 v) = u32 v.
Proof.
  unfold u32, i32. rewrite Zminus_mod_idemp_l. f_equal. lia.
Qed.
Lemma u16_u32 v : is_u16 v -> u16 (u32 v) = v.
Proof. unfold is_u16, u16, u32. intros. rewrite (Z.mod_small v 4294967296) by lia. apply Z.mod_small. lia. Qed.
Lemma i8_u32 v : -128 <= v < 128 -> i8 (u32 v) = v.
Proof. unfold i8, u32. intros. zdiv. Qed.

(** What a group of keys that are all present does. *)
Fixpoint stored_keys (mode : Z) (keys : list (string * (Z -> light -> light))) (vs : list Z) (l : light) : light :=
  match keys, vs with
  | (_, store) :: keys, v :: vs => stored_keys mode keys vs (set_onoff 1 (set_mode mode (store (u32 v) l)))
  | _, _ => l
  end.
Lemma prop_group_present p m keys vs s h :
  Forall2 (fun k v => cJSON_GetObjectItem p (str k.1) = Some (member k.1 (ya_int_to_string v))) keys vs ->
  prop_group p m keys (s, h)
  = Done (Some (negb (bool_decide (keys = [])))) (set_new (stored_keys m keys vs (l_new s)) s, h).
Proof.
  intros Hk. revert s. induction Hk as [|[key store] v keys vs Hv _ IH]; intros s; cbn [prop_group stored_keys].
  { by destruct s. }
  unfold obind at 1. erewrite bind_done by (by apply prop_value_member). cbn beta iota.
  erewrite bind_done by reflexivity. cbn beta. unfold obind. erewrite bind_done by apply IH.
  rewrite u32_i32. by destruct s.
Qed.

Definition valid_setting l : Prop :=
  light_wf l /\ (onoff l = 0 \/ onoff l = 1) /\ 0 <= l_mode l <= 2.
(** The document of a report contains every key, when the light is on. *)
Lemma report_keys l :
  onoff l = 1 ->
  let p := jroot (report_members l) in
  let has k v := cJSON_GetObjectItem p (str k) = Some (member k (ya_int_to_string v)) in
  has "Switch"%string (onoff l) /\ has "WorkMode"%string (l_mode l) /\
  Forall2 (fun k v => has k.1 v) white_keys [w_l l; w_color l] /\
  Forall2 (fun k v => has k.1 v) color_keys [c_h l; c_s l; c_b l] /\
  Forall2 (fun k v => has k.1 v) scene_keys [scene l].
Proof. intros Hon. unfold report_members. rewrite Hon. by repeat split; repeat constructor. Qed.

(** The lamp cannot tell the two settings apart, whatever the last scene was. *)
Definition same_lamp l l' : Prop :=
  forall sc, light_control_para (effective sc l') = light_control_para (effective sc l).
Lemma same_lamp_off l l' : onoff l = 0 -> onoff l' = 0 -> same_lamp l l'.
Proof.
  intros E E' sc. unfold effective. rewrite E, E', !orb_true_r. unfold light_control_para. by rewrite E, E'.
Qed.
Lemma same_lamp_on l l' :
  onoff l = 1 -> onoff l' = 1 -> l_mode l' = l_mode l ->
  (l_mode l = 0 -> w_l l' = w_l l /\ w_color l' = w_color l) ->
  (l_mode l = 1 -> c_h l' = c_h l /\ c_s l' = c_s l /\ c_b l' = c_b l) ->
  (l_mode l = 2 -> scene l' = scene l) -> 0 <= l_mode l <= 2 -> same_lamp l l'.
Proof.
  intros E E' Em H0' H1' H2' Hm sc. unfold effective. rewrite E, E', Em.
  assert (l_mode l = 0 \/ l_mode l = 1 \/ l_mode l = 2) as [Hl|[Hl|Hl]] by lia; rewrite Hl in *.
  - destruct H0' as [E1 E2]; [done|]. cbn. unfold light_control_para. by rewrite E, E', Em, E1, E2, Hl.
  - destruct H1' as (E1&E2&E3); [done|]. cbn. unfold light_control_para. by rewrite E, E', Em, E1, E2, E3, Hl.
  - cbn. by rewrite H2'.
Qed.

(** A group that is selected and whose keys are all present. *)
Lemma try_group_present p g m keys vs en s h :
  Forall2 (fun k v => cJSON_GetObjectItem p (str k.1) = Some (member k.1 (ya_int_to_string v))) keys vs ->
  keys <> [] ->
  try_group p g m keys (g, en) (s, h) = Done (Some (g, true)) (set_new (stored_keys m keys vs (l_new s)) s, h).
Proof.
  intros Hk Hne. unfold try_group. rewrite Z.eqb_refl. unfold obind. cbn [orb].
  erewrite bind_done by (by apply prop_group_present). by rewrite bool_decide_false.
Qed.
Lemma try_group_skip p g m keys ct en s h :
  ct <> g -> ct <> NON_CONTROL -> try_group p g m keys (ct, en) (s, h) = Done (Some (ct, en)) (s, h).
Proof. intros H1' H2'. unfold try_group. by rewrite (proj2 (Z.eqb_neq _ _) H1'), (proj2 (Z.eqb_neq _ _) H2'). Qed.

Lemma handle_report l s h :
  valid_setting l ->
  exists l', handle_property (jroot (report_members l)) (s, h) = Done (Some true) (set_new l' s, h) /\ same_lamp l l'.
Proof.
  intros (Hw&[Hoff|Hon]&Hm).
  - exists (set_onoff 0 (l_new s)). split; [|by apply same_lamp_off].
    unfold handle_property, obind at 1. erewrite bind_done.
    2:{ apply (prop_value_member _ "Switch" (onoff l)). unfold report_members. by rewrite Hoff. }
    rewrite Hoff. reflexivity.
  - destruct (report_keys l Hon) as (Hsw&Hwm&Hwh&Hco&Hsc).
    destruct Hw as (?&_&?&?&?&?&?&?&_).
    unfold handle_property, obind at 1. erewrite bind_done by (apply prop_value_member, Hsw).
    rewrite Hon. cbn beta iota zeta. change (u32 (i32 1)) with 1. erewrite bind_done by reflexivity. cbn [negb Z.eqb].
    unfold obind at 1. erewrite bind_done by (apply prop_value_member, Hwm). cbn beta iota zeta.
    erewrite bind_done by reflexivity. rewrite !u32_i32.
    assert (Hu : u8 (u32 (l_mode l)) = l_mode l).
    { unfold u8, u32. zdiv. }
    rewrite Hu. assert (l_mode l = 0 \/ l_mode l = 1 \/ l_mode l = 2) as [Hl|[Hl|Hl]] by lia; rewrite Hl; cbn [Z.add].
    all: unfold obind.
    + erewrite bind_done by (by apply try_group_present). cbn beta iota.
      erewrite bind_done by (by apply try_group_skip). cbn beta iota. erewrite bind_done by (by apply try_group_skip).
      eexists. split; [reflexivity|]. apply same_lamp_on; cbn; rewrite ?Hl, ?u16_u32 by done; done || lia.
    + erewrite bind_done by (by apply try_group_skip). cbn beta iota.
      erewrite bind_done by (by apply try_group_present). cbn beta iota. erewrite bind_done by (by apply try_group_skip).
      eexists. split; [reflexivity|]. apply same_lamp_on; cbn; rewrite ?Hl, ?u16_u32 by done; done || lia.
    + erewrite bind_done by (by apply try_group_skip). cbn beta iota.
      erewrite bind_done by (by apply try_group_skip). cbn beta iota. erewrite bind_done by (by apply try_group_present).
      eexists. split; [reflexivity|]. apply same_lamp_on; cbn; rewrite ?Hl, ?i8_u32 by done; done || lia.
Qed.
End Report.

(** Report and command are inverse to each other where the lamp is
    concerned: a device that receives another's report as a command, and lets
    its light task run, shows that light, whatever it showed before. *)
Theorem report_reproduces_lamp {C} `{NorChipLaws C, !NorReliable C} `{JsonStrings} `{CloudEnv, MainEnv}
    tick l buf n s (h : hw C) :
  valid_setting l -> cJSON_Parse (cstr buf) = Some (jroot (report_members l)) ->
  heap h = [] -> queues h QLight = [] -> lamp_ok (l_io s) h -> idle_turn s -> light_wf (l_new s) ->
  exists s1 h1 s2 h2, ya_thing_handle_downlink_data buf n (s, h) = Done tt (s1, h1) /\
    ya_light_task_step tick (s1, h1) = Done tt (s2, h2) /\
    lamp_ok (l_io s2) h2 /\ lamp_shows (effective (scene_light s) l) h2.
Proof.
  intros Hv Hp Hh Hq Hl Hi Hw.
  destruct (handle_report l s (set_heap (heap h) (live h + 1) h) Hv) as (l'&Hr&Hsame).
  assert (wp (ya_thing_handle_downlink_data buf n) (fun _ t => t.1 = set_new l' s /\ light_wf l' /\ heap t.2 = [] /\
    queues t.2 QLight = [light_msg l'] /\ forall c, shown (trace t.2) c = shown (trace h) c) (fun _ => False) (s, h))
    as ([]&[s1 h1]&Hr1&Es1&Hwl&Hh1&Hq1&Hsh)%wp_elim.
  { eapply wp_downlink; [done..|].
    - intros s' h' k Es Hwl Hql _ _ Hsh (r&Hr'&Hk). rewrite Hr in Hr'. injection Hr' as <- <-. cbn in *.
      destruct (Hk Hh) as [Hh' Hk1]. rewrite Hq in Hk1. unfold MSG_QUEUE_LENGTH in Hk1. cbn in Hk1.
      split_and!; try done. destruct Hql as [[_ Hf]|[Hql _]]; [lia|]. by rewrite Hql, Hq. }
  cbn in *. subst s1.
  destruct (light_task_step_run tick [] l' (set_new l' s) h1) as (s2&h2&h3&Hst&_&Hl2&Hs2&_); try done.
  { destruct Hl as ([H5 Hin]&Hmo). split; [|done]. split; [done|]. intros i p Hip. destruct (Hin i p Hip).
    split; [done|]. unfold shows in *. by rewrite Hsh. }
  { by constructor. }
  exists (set_new l' s), h1, s2, h2. split_and!; try done. cbn in Hs2.
  unfold lamp_shows, lamp_target in *. by rewrite <-Hsame.
Qed.
Lemma report_reproduces_lamp_witness :
  exists s1 h1 s2 h2,
    ya_thing_handle_downlink_data (H0 := doc_text sample_report) (str "x") 1 (sample_light, boot) = Done tt (s1, h1) /\
    ya_light_task_step 3 (s1, h1) = Done tt (s2, h2) /\
    lamp_ok (l_io s2) h2 /\ lamp_shows green h2.
Proof.
  apply (report_reproduces_lamp (H2 := sample_report_strings) 3 green (str "x") 1 sample_light boot);
    [split_and!; try evaluate; by right | reflexivity | done | done | apply (sample_lamp []) | done | evaluate].
Defined.
