(* ===== verification/Aes.v ===== *)
(** * AES and MD5 helpers

    [ya_aes_md5.c] and the two cipher modes it uses, as mbedtls writes them
    ([aes.c]: [mbedtls_aes_crypt_cfb128], [mbedtls_aes_crypt_cbc]).  The AES
    block function and MD5 are an interface.  Every caller sets its [iv] anew
    before each call, so the definitions return the output only. *)

From stdpp Require Import base numbers list strings.
From S2P Require Import Prelude Platform.

(** ** The primitives *)
Class BlockCipher := {
  (** [mbedtls_aes_crypt_ecb] under a 128-bit key *)
  ecb_enc : bytes -> bytes -> bytes;
  ecb_dec : bytes -> bytes -> bytes;
  (** [mbedtls_md5_starts], [_update], [_finish] on one message *)
  md5 : bytes -> bytes;
}.
Class BlockCipherLaws `{BlockCipher} := {
  ecb_enc_len : forall k b, len b = 16 -> len (ecb_enc k b) = 16;
  ecb_dec_enc : forall k b, len b = 16 -> is_bytes b -> ecb_dec k (ecb_enc k b) = b;
  ecb_enc_bytes : forall k b, is_bytes (ecb_enc k b);
  ecb_dec_bytes : forall k b, is_bytes (ecb_dec k b);
  ecb_dec_len : forall k b, len b = 16 -> len (ecb_dec k b) = 16;
  md5_len : forall m, len (md5 m) = 16;
  md5_bytes : forall m, is_bytes (md5 m);
}.

Definition AES_BLOCK_SIZE : Z := 16.
Definition xor_bytes : bytes -> bytes -> bytes := zip_with Z.lxor.

Section Modes.
Context `{BlockCipher}.

(** [mbedtls_aes_crypt_cfb128] from offset [n] in [iv]. *)
Fixpoint mbedtls_aes_crypt_cfb128 (decrypt : bool) (key : bytes) (n : Z) (iv input : bytes) : bytes :=
  match input with
  | [] => []
  | c :: input =>
    let iv := if n =? 0 then ecb_enc key iv else iv in
    let o := Z.lxor c (iv !!! Z.to_nat n) in
    let iv := <[Z.to_nat n := if decrypt then c else o]> iv in
    o :: mbedtls_aes_crypt_cfb128 decrypt key (Z.land (n + 1) 15) iv input
  end.

(** [mbedtls_aes_crypt_cbc] on [n] blocks. *)
Fixpoint cbc_decrypt (n : nat) (key iv input : bytes) : bytes :=
  match n with
  | O => []
  | S n =>
    let temp := take 16 input in
    xor_bytes (ecb_dec key temp) iv ++ cbc_decrypt n key temp (drop 16 input)
  end.
Fixpoint cbc_encrypt (n : nat) (key iv input : bytes) : bytes :=
  match n with
  | O => []
  | S n =>
    let output := ecb_enc key (xor_bytes (take 16 input) iv) in
    output ++ cbc_encrypt n key output (drop 16 input)
  end.
Definition blocks (b : bytes) : nat := (length b / 16)%nat.

(** ** [ya_aes_md5.c] *)

(** The status and the 16 bytes of [output]; [input] holds [len] bytes. *)
Definition ya_mbedtls_md5 (input output : bytes) : Z * bytes :=
  if len input =? 0 then (-1, output) else (0, md5 input).

(** [enc_s]: the plaintext and its padding. *)
Definition pkcs5 (plaintext : bytes) : bytes :=
  let n := len plaintext in
  let nTotal := (n / AES_BLOCK_SIZE + 1) * AES_BLOCK_SIZE in
  let nNumber := if 0 <? n mod AES_BLOCK_SIZE then u8 (nTotal - n) else AES_BLOCK_SIZE in
  plaintext ++ replicate (Z.to_nat (nTotal - n)) nNumber.

Context {C S : Type}.
(** The ciphertext goes to [dst + off]; returns [nTotal].  The block is used
    unchecked. *)
Definition AES_CBC_PKCS5Padding_encrypt (key iv plaintext dst : bytes) (off : Z) : P C S (Z * bytes) :=
  let enc_s := pkcs5 plaintext in
  let* o := ya_hal_os_memory_alloc (len enc_s) in
  let* _ := deref o in
  let* dst := memcpy dst off (cbc_encrypt (blocks enc_s) key iv enc_s) in
  ya_hal_os_memory_free ;;
  ret (len enc_s, dst).

(** The plaintext goes to [dst + off].  For a length that is no multiple of 16
    the cipher refuses and [dec_s] keeps what the block held. *)
Definition AES_CBC_PKCS5Padding_decrypt (key iv ciphertext dst : bytes) (off : Z) : P C S (Z * bytes) :=
  let n := len ciphertext in
  let* o := ya_hal_os_memory_alloc n in
  let* dec_s :=
    match o with
    | Some b => ret (if n mod 16 =? 0 then cbc_decrypt (blocks ciphertext) key iv ciphertext else b)
    | None => if n =? 0 then ret [] else fail NullDeref
    end in
  let* dst := memcpy dst off dec_s in
  free_if o ;;
  let* last := rd dst (off + n - 1) in
  ret (if last <? n then n - last else 0, dst).

Definition AES_CFB_NoPadding_decrypt (key iv ciphertext dst : bytes) : P C S (Z * bytes) :=
  let n := len ciphertext in
  let* o := ya_hal_os_memory_alloc n in
  let* _ := deref o in
  let* dst := memcpy dst 0 (mbedtls_aes_crypt_cfb128 true key 0 iv ciphertext) in
  ya_hal_os_memory_free ;;
  ret (n, dst).
End Modes.

(** ** Lengths and inverses *)
Section Laws.
Context `{BlockCipher}.

Lemma len_cfb d key n iv input : len (mbedtls_aes_crypt_cfb128 d key n iv input) = len input.
Proof.
  revert n iv. induction input as [|c input IH]; intros n iv; [done|].
  cbn [mbedtls_aes_crypt_cfb128]. cbv zeta. by rewrite !len_cons, IH.
Qed.
(** CFB: decryption undoes encryption, whatever the block function. *)
Lemma cfb_inverse key n iv p :
  mbedtls_aes_crypt_cfb128 true key n iv (mbedtls_aes_crypt_cfb128 false key n iv p) = p.
Proof.
  revert n iv. induction p as [|c p IH]; intros n iv; [done|].
  cbn [mbedtls_aes_crypt_cfb128]. cbv zeta. f_equal.
  - by rewrite Z.lxor_assoc, Z.lxor_nilpotent, Z.lxor_0_r.
  - apply IH.
Qed.

Context `{!BlockCipherLaws}.
Lemma len_xor a b : len a = 16 -> len b = 16 -> len (xor_bytes a b) = 16.
Proof. unfold len, xor_bytes. rewrite length_zip_with. lia. Qed.
Lemma lxor_u8 a b : is_u8 a -> is_u8 b -> is_u8 (Z.lxor a b).
Proof.
  unfold is_u8. intros Ha Hb.
  assert (E : Z.lxor a b = Z.lxor (a mod 2 ^ 8) (b mod 2 ^ 8)) by (rewrite !Z.mod_small by lia; done).
  rewrite E, <- Z.land_ones, <- Z.land_ones by lia.
  assert (E2 : Z.lxor (Z.land a (Z.ones 8)) (Z.land b (Z.ones 8)) = Z.land (Z.lxor a b) (Z.ones 8)).
  { apply Z.bits_inj'. intros i Hi. rewrite Z.lxor_spec, !Z.land_spec, Z.lxor_spec.
    by destruct (Z.testbit a i), (Z.testbit b i), (Z.testbit (Z.ones 8) i). }
  rewrite E2, Z.land_ones by lia. apply Z.mod_pos_bound. lia.
Qed.
Lemma xor_is_bytes a b : is_bytes a -> is_bytes b -> is_bytes (xor_bytes a b).
Proof.
  intros Ha. revert b. induction Ha as [|x a Hx Ha IH]; intros [|y b] Hb; try constructor;
    inversion Hb; subst; [by apply lxor_u8|by apply IH].
Qed.
Lemma xor_cancel a b : len a = len b -> xor_bytes (xor_bytes a b) b = a.
Proof.
  unfold len. intros E%Nat2Z.inj. revert b E. induction a as [|x a IH]; intros [|y b] E; try done.
  cbn in *. f_equal; [by rewrite Z.lxor_assoc, Z.lxor_nilpotent, Z.lxor_0_r|]. apply IH. lia.
Qed.

Lemma len_cbc_decrypt n key iv c :
  len iv = 16 -> Z.of_nat n * 16 <= len c -> len (cbc_decrypt n key iv c) = Z.of_nat n * 16.
Proof.
  revert iv c. induction n as [|n IH]; intros iv c Hi Hc; [done|]. cbn [cbc_decrypt].
  assert (len (take 16 c) = 16) by (unfold len in *; rewrite length_take; lia).
  rewrite len_app, len_xor, IH; [lia|done| |by apply ecb_dec_len|done].
  unfold len in *. rewrite length_drop. lia.
Qed.
Lemma len_cbc_encrypt n key iv c :
  len iv = 16 -> Z.of_nat n * 16 <= len c -> len (cbc_encrypt n key iv c) = Z.of_nat n * 16.
Proof.
  revert iv c. induction n as [|n IH]; intros iv c Hi Hc; [done|]. cbn [cbc_encrypt].
  assert (len (take 16 c) = 16) by (unfold len in *; rewrite length_take; lia).
  rewrite len_app, ecb_enc_len, IH; [lia|apply ecb_enc_len, len_xor; done| |by apply len_xor].
  unfold len in *. rewrite length_drop. lia.
Qed.
Lemma is_bytes_cbc_decrypt n key iv c :
  is_bytes iv -> is_bytes c -> is_bytes (cbc_decrypt n key iv c).
Proof.
  revert iv c. induction n as [|n IH]; intros iv c Hi Hc; [constructor|]. cbn [cbc_decrypt].
  apply is_bytes_app. split; [apply xor_is_bytes; [apply ecb_dec_bytes|done]|].
  apply IH; [by apply Forall_take | by apply Forall_drop].
Qed.
Lemma is_bytes_cbc_encrypt n key iv c : is_bytes (cbc_encrypt n key iv c).
Proof.
  revert iv c. induction n as [|n IH]; intros iv c; [constructor|]. cbn [cbc_encrypt].
  apply is_bytes_app. split; [apply ecb_enc_bytes|apply IH].
Qed.
Lemma cbc_inverse n key iv p :
  len iv = 16 -> is_bytes iv -> is_bytes p -> len p = Z.of_nat n * 16 ->
  cbc_decrypt n key iv (cbc_encrypt n key iv p) = p.
Proof.
  revert iv p. induction n as [|n IH]; intros iv p Hi Hib Hp Hl.
  { destruct p; [done|]. unfold len in Hl. cbn in Hl. lia. }
  cbn [cbc_encrypt cbc_decrypt].
  assert (Ht : len (take 16 p) = 16) by (unfold len in *; rewrite length_take; lia).
  pose proof (len_xor _ _ Ht Hi) as Hx. pose proof (ecb_enc_len key _ Hx) as Ho.
  set (o := ecb_enc key (xor_bytes (take 16 p) iv)) in *.
  assert (Hlo : length o = 16%nat) by (unfold len in Ho; lia).
  rewrite take_app_length', drop_app_length' by done.
  unfold o at 1. rewrite ecb_dec_enc, xor_cancel, IH; [apply take_drop|..]; try done.
  - apply ecb_enc_bytes.
  - by apply Forall_drop.
  - unfold len in *. rewrite length_drop. lia.
  - by rewrite Ht, Hi.
  - apply xor_is_bytes; [by apply Forall_take|done].
Qed.

(** ** Padding *)
Lemma pkcs5_total p : len (pkcs5 p) = (len p / 16 + 1) * 16.
Proof.
  unfold pkcs5, AES_BLOCK_SIZE. rewrite len_app. unfold len at 2. rewrite length_replicate.
  pose proof (len_nonneg p). zdiv.
Qed.
Lemma pkcs5_spec p : exists k, 1 <= k <= 16 /\ pkcs5 p = p ++ replicate (Z.to_nat k) k /\ len (pkcs5 p) = len p + k.
Proof.
  pose proof (len_nonneg p). pose proof (pkcs5_total p) as Ht. exists ((len p / 16 + 1) * 16 - len p).
  split; [zdiv|]. split; [|lia]. unfold pkcs5, AES_BLOCK_SIZE. do 2 f_equal.
  destruct (Z.ltb_spec 0 (len p mod 16)); [apply u8_small; unfold is_u8|]; zdiv.
Qed.
Lemma blocks_pkcs5 p : Z.of_nat (blocks (pkcs5 p)) * 16 = len (pkcs5 p).
Proof.
  pose proof (pkcs5_total p) as Ht. pose proof (len_nonneg p).
  unfold blocks, len in *. rewrite Nat2Z.inj_div. zdiv.
Qed.
Lemma pkcs5_bytes p : is_bytes p -> is_bytes (pkcs5 p).
Proof.
  intros Hp. destruct (pkcs5_spec p) as (k&?&->&_). apply is_bytes_app. split; [done|].
  apply Forall_replicate. unfold is_u8. lia.
Qed.

Context {C S : Type}.
Implicit Types (s : S) (h : hw C).

Lemma wp_cbc_encrypt key iv p dst off Q R s h :
  len iv = 16 -> 0 <= off -> off + len (pkcs5 p) <= len dst -> heap h = [] ->
  (forall h', moved 0 h h' ->
    Q (len (pkcs5 p), splice dst off (cbc_encrypt (blocks (pkcs5 p)) key iv (pkcs5 p))) (s, h')) ->
  wp (AES_CBC_PKCS5Padding_encrypt key iv p dst off) Q R (s, h).
Proof.
  intros Hi Ho Hd Hh HQ. unfold AES_CBC_PKCS5Padding_encrypt. wstep.
  pose proof (pkcs5_total p). pose proof (len_nonneg p).
  apply wp_alloc_moved; [zdiv| |intros h' [E|E]; [exfalso; zdiv|done]].
  intros b h1 _ _ M1. wstep. eapply wp_deref; [done|]. cbn beta.
  assert (Hl : len (cbc_encrypt (blocks (pkcs5 p)) key iv (pkcs5 p)) = len (pkcs5 p))
    by (rewrite len_cbc_encrypt; rewrite ?blocks_pkcs5; done || lia).
  wstep. wstep. wstep. apply wp_free_moved. intros h2 M2. apply wp_ret, HQ.
  eapply moved_eq; [by eapply moved_trans|done].
Qed.

(** Decryption of any bytes: the length it reports is that of the output. *)
Lemma wp_cbc_decrypt key iv c dst off Q R s h :
  len iv = 16 -> is_bytes iv -> is_bytes c -> is_bytes dst -> 1 <= off -> off + len c <= len dst -> heap h = [] ->
  (forall n out h', moved 0 h h' -> len out = len c -> is_bytes out -> 0 <= n <= len c ->
    (len c mod 16 = 0 -> out = cbc_decrypt (blocks c) key iv c) ->
    (0 < len c -> n = let last := out !!! Z.to_nat (len c - 1) in if last <? len c then len c - last else 0) ->
    Q (n, splice dst off out) (s, h')) ->
  wp (AES_CBC_PKCS5Padding_decrypt key iv c dst off) Q R (s, h).
Proof.
  intros Hi Hib Hc Hdb Ho Hd Hh HQ. unfold AES_CBC_PKCS5Padding_decrypt. pose proof (len_nonneg c) as Hn.
  assert (Hdec : len c mod 16 = 0 -> len (cbc_decrypt (blocks c) key iv c) = len c).
  { intros Hm. assert (Z.of_nat (blocks c) * 16 = len c).
    { unfold blocks, len in *. rewrite Nat2Z.inj_div. zdiv. }
    rewrite len_cbc_decrypt; lia. }
  assert (Hrest : forall out h', len out = len c -> is_bytes out ->
    (len c mod 16 = 0 -> out = cbc_decrypt (blocks c) key iv c) -> moved 0 h h' ->
    wp (let* last := rd (splice dst off out) (off + len c - 1) in
        ret (if last <? len c then len c - last else 0, splice dst off out)) Q R (s, h')).
  { intros out h' Hl Hb Hout M. wstep. wstep; [rewrite len_splice; lia|]. apply wp_ret.
    assert (Hu : is_u8 (splice dst off out !!! Z.to_nat (off + len c - 1)))
      by (apply lookup_total_u8, is_bytes_splice; done).
    apply HQ; try done.
    - unfold is_u8 in Hu. zbool; lia.
    - intros Hpos. cbv zeta.
      assert (E : splice dst off out !!! Z.to_nat (off + len c - 1) = out !!! Z.to_nat (len c - 1)); [|by rewrite E].
      rewrite !list_lookup_total_alt. f_equal. unfold splice, len in *.
      rewrite lookup_app_r by (rewrite length_take; lia). rewrite lookup_app_l by (rewrite length_take; lia).
      f_equal. rewrite length_take. lia. }
  wstep. apply wp_alloc_moved; [done|..].
  - intros b h1 Hb Hbb M1. wstep. apply wp_ret.
    assert (Ho2 : len (if len c mod 16 =? 0 then cbc_decrypt (blocks c) key iv c else b) = len c)
      by (destruct (Z.eqb_spec (len c mod 16) 0); auto).
    wstep. wstep. cbn [free_if]. wstep. apply wp_free_moved. intros h2 M2. apply Hrest; [done| | |].
    + destruct (len c mod 16 =? 0); [by apply is_bytes_cbc_decrypt|done].
    + intros ->. done.
    + eapply moved_eq; [by eapply moved_trans|done].
  - intros h1 [E|E] M1; [|done]. destruct c; [|rewrite len_cons in E; pose proof (len_nonneg c); lia].
    wstep. cbn [len length Z.of_nat Z.eqb]. apply wp_ret. wstep. wstep. cbn [free_if]. wstep. apply wp_ret.
    by apply Hrest; [| constructor | |].
Qed.

Lemma wp_cfb_decrypt key iv c dst Q R s h :
  0 < len c <= len dst -> heap h = [] ->
  (forall h', moved 0 h h' -> Q (len c, splice dst 0 (mbedtls_aes_crypt_cfb128 true key 0 iv c)) (s, h')) ->
  wp (AES_CFB_NoPadding_decrypt key iv c dst) Q R (s, h).
Proof.
  intros Hc Hh HQ. unfold AES_CFB_NoPadding_decrypt. wstep.
  apply wp_alloc_moved; [lia| |intros h' [E|E]; [lia|done]].
  intros b h1 _ _ M1. wstep. eapply wp_deref; [done|]. cbn beta.
  pose proof (len_cfb true key 0 iv c). wstep. wstep. wstep.
  apply wp_free_moved. intros h2 M2. apply wp_ret, HQ. eapply moved_eq; [by eapply moved_trans|done].
Qed.
End Laws.

(** The ciphertext of a padded message decrypts to it, and its last byte gives
    its length. *)
Lemma cbc_message `{BlockCipherLaws} key iv p :
  len iv = 16 -> is_bytes iv -> is_bytes p ->
  let c := cbc_encrypt (blocks (pkcs5 p)) key iv (pkcs5 p) in
  len c = len (pkcs5 p) /\ len c mod 16 = 0 /\ cbc_decrypt (blocks c) key iv c = pkcs5 p /\
  (if (pkcs5 p !!! Z.to_nat (len c - 1)) <? len c then len c - pkcs5 p !!! Z.to_nat (len c - 1) else 0) = len p.
Proof.
  intros Hi Hib Hp c.
  assert (Hl : len c = len (pkcs5 p)) by (unfold c; rewrite len_cbc_encrypt; rewrite ?blocks_pkcs5; done || lia).
  split; [done|]. rewrite Hl. pose proof (blocks_pkcs5 p) as Hb. pose proof (len_nonneg p).
  split; [rewrite <- Hb; apply Z.mod_mul; lia|]. split.
  - assert (Eb : blocks c = blocks (pkcs5 p)) by (unfold blocks, len in *; by apply Nat2Z.inj in Hl as ->).
    rewrite Eb. unfold c. by apply cbc_inverse; [| |apply pkcs5_bytes|].
  - destruct (pkcs5_spec p) as (k&Hk&E&El).
    assert (El2 : pkcs5 p !!! Z.to_nat (len (pkcs5 p) - 1) = k).
    { rewrite El, E, list_lookup_total_alt, lookup_app_r by (unfold len; lia).
      rewrite lookup_replicate_2; [done|]. unfold len. lia. }
    rewrite El2, El. destruct (Z.ltb_spec k (len p + k)) as [?|?]; lia.
Qed.

(** A toy cipher and hash, for concrete runs. *)
#[export] Instance toy : BlockCipher := {|
  ecb_enc k b := (fun x => u8 (x + 1)) <$> b;
  ecb_dec k b := (fun x => u8 (x - 1)) <$> b;
  md5 m := take 16 ((u8 <$> m) ++ zeros 16) |}.
#[export] Instance toy_laws : @BlockCipherLaws toy.
Proof.
  assert (Hf : forall (f : Z -> Z) b, is_bytes ((fun x => u8 (f x)) <$> b)).
  { intros f b. apply Forall_fmap, Forall_true. intros. apply u8_range. }
  split; cbn; intros.
  - unfold len in *. by rewrite length_fmap.
  - rewrite <- list_fmap_compose. rewrite <- (list_fmap_id b) at 2. apply list_fmap_ext. intros i x Hx.
    cbn. eapply Forall_lookup_1 in Hx; [|done]. unfold u8, is_u8 in *. zdiv.
  - apply (Hf (fun x => x + 1)).
  - apply (Hf (fun x => x - 1)).
  - unfold len in *. by rewrite length_fmap.
  - unfold len. rewrite length_take, length_app, length_fmap. unfold zeros. rewrite length_replicate. lia.
  - apply Forall_take, is_bytes_app. split; [apply (Hf id)|apply is_bytes_zeros].
Qed.
