(* ===== verification/Ieee80211.v ===== *)
(** * 802.11 frame parsing ([wifi_80211.c])

    A received frame is the block of bytes the driver hands over; pointers into
    it are offsets, and a read outside the block is a fault.  The host is little
    endian.  [SUPPORT_SMARTCONFIG_WPS] is not defined in the build. *)

From stdpp Require Import base numbers list strings.
From S2P Require Import Prelude Platform.

(** ** Byte order *)

(** The first byte of [0xFF000000] in memory. *)
Definition os_is_big_endian : bool := Z.land 0xFF000000 0xFF =? 0xFF.
Definition reverse_16bit (data : Z) : Z := u16 (Z.lor (Z.shiftr data 8) (Z.shiftl data 8)).
Definition os_htole16 (data : Z) : Z := if os_is_big_endian then reverse_16bit data else data.
Definition os_le16toh (data : Z) : Z := os_htole16 data.

(** ** The frame control field *)
Definition IEEE80211_FCTL_FTYPE : Z := 0x000c.
Definition IEEE80211_FCTL_STYPE : Z := 0x00f0.
Definition IEEE80211_FCTL_TODS : Z := 0x0100.
Definition IEEE80211_FCTL_FROMDS : Z := 0x0200.
Definition IEEE80211_FCTL_MOREFRAGS : Z := 0x0400.
Definition IEEE80211_FCTL_RETRY : Z := 0x0800.
Definition IEEE80211_FCTL_PROTECTED : Z := 0x4000.
Definition IEEE80211_FCTL_ORDER : Z := 0x8000.
Definition IEEE80211_FTYPE_MGMT : Z := 0x0000.
Definition IEEE80211_FTYPE_CTL : Z := 0x0004.
Definition IEEE80211_FTYPE_DATA : Z := 0x0008.
Definition IEEE80211_STYPE_QOS_DATA : Z := 0x0080.
Definition IEEE80211_STYPE_PROBE_REQ : Z := 0x0040.
Definition IEEE80211_STYPE_PROBE_RESP : Z := 0x0050.
Definition IEEE80211_STYPE_BEACON : Z := 0x0080.

(** The masked field of [fc] has a value; some bit of the mask is set. *)
Definition fc_is (fc mask v : Z) : bool := Z.land fc (os_htole16 mask) =? os_htole16 v.
Definition fc_has (fc mask : Z) : bool := negb (Z.land fc (os_htole16 mask) =? 0).

Definition wifi_80211_is_ctl fc := fc_is fc IEEE80211_FCTL_FTYPE IEEE80211_FTYPE_CTL.
Definition wifi_80211_is_data fc := fc_is fc IEEE80211_FCTL_FTYPE IEEE80211_FTYPE_DATA.
Definition wifi_80211_has_tods fc := fc_has fc IEEE80211_FCTL_TODS.
Definition wifi_80211_is_retry fc := fc_has fc IEEE80211_FCTL_RETRY.
Definition wifi_80211_has_fromds fc := fc_has fc IEEE80211_FCTL_FROMDS.
Definition wifi_80211_has_a4 fc :=
  let tmp := Z.lor IEEE80211_FCTL_TODS IEEE80211_FCTL_FROMDS in fc_is fc tmp tmp.
Definition wifi_80211_has_order fc := fc_has fc IEEE80211_FCTL_ORDER.
Definition wifi_80211_has_protected fc := fc_has fc IEEE80211_FCTL_PROTECTED.
Definition wifi_80211_is_data_qos fc :=
  fc_is fc (Z.lor IEEE80211_FCTL_FTYPE IEEE80211_STYPE_QOS_DATA)
           (Z.lor IEEE80211_FTYPE_DATA IEEE80211_STYPE_QOS_DATA).
Definition wifi_80211_is_data_exact fc :=
  let mask := Z.lor IEEE80211_FCTL_FTYPE IEEE80211_FCTL_STYPE in
  fc_is fc mask IEEE80211_FTYPE_DATA
  || fc_is fc mask (Z.lor IEEE80211_FTYPE_DATA IEEE80211_STYPE_QOS_DATA).
Definition wifi_80211_is_beacon fc :=
  fc_is fc (Z.lor IEEE80211_FCTL_FTYPE IEEE80211_FCTL_STYPE)
           (Z.lor IEEE80211_FTYPE_MGMT IEEE80211_STYPE_BEACON).
Definition wifi_80211_is_probe_req fc :=
  fc_is fc (Z.lor IEEE80211_FCTL_FTYPE IEEE80211_FCTL_STYPE)
           (Z.lor IEEE80211_FTYPE_MGMT IEEE80211_STYPE_PROBE_REQ).
Definition wifi_80211_is_probe_resp fc :=
  fc_is fc (Z.lor IEEE80211_FCTL_FTYPE IEEE80211_FCTL_STYPE)
           (Z.lor IEEE80211_FTYPE_MGMT IEEE80211_STYPE_PROBE_RESP).
Definition wifi_80211_has_frags fc :=
  fc_has fc (Z.lor IEEE80211_FCTL_MOREFRAGS IEEE80211_FCTL_ORDER).

(** Offsets of the address fields of [struct wifi_80211_hdr]. *)
Definition ETH_ALEN : Z := 6.
Definition o_addr1 : Z := 4.
Definition o_addr2 : Z := 10.
Definition o_addr3 : Z := 16.
Definition o_addr4 : Z := 24.

Definition wifi_80211_get_SA (fc : Z) : Z :=
  if wifi_80211_has_a4 fc then o_addr4
  else if wifi_80211_has_fromds fc then o_addr3 else o_addr2.
Definition wifi_80211_get_DA (fc : Z) : Z := if wifi_80211_has_tods fc then o_addr3 else o_addr1.
Definition wifi_80211_get_BSSID (fc : Z) : option Z :=
  if wifi_80211_has_tods fc then
    if negb (wifi_80211_has_fromds fc) then Some o_addr1 else None
  else if wifi_80211_has_fromds fc then Some o_addr2 else Some o_addr3.

Definition wifi_80211_hdrlen (fc : Z) : Z :=
  if wifi_80211_is_data fc then
    let hdrlen := if wifi_80211_has_a4 fc then 30 else 24 in
    if wifi_80211_is_data_qos fc then
      let hdrlen := hdrlen + 2 in if wifi_80211_has_order fc then hdrlen + 4 else hdrlen
    else hdrlen
  else if wifi_80211_is_ctl fc then (if fc_is fc 0x00E0 0x00C0 then 10 else 16)
  else 24.

(** ** Information elements *)
Definition WLAN_EID_SSID : Z := 0.
Definition WLAN_EID_DS_PARAMS : Z := 3.
Definition WLAN_EID_RSN : Z := 48.
Definition WLAN_EID_HT_OPERATION : Z := 61.
Definition WLAN_EID_VENDOR_SPECIFIC : Z := 221.
Definition WLAN_CAPABILITY_PRIVACY : Z := 16.
(** Offsets of [u.beacon.capab_info] and [u.beacon.variable]. *)
Definition o_capab_info : Z := 34.
Definition ieoffset : Z := 36.

Definition AUTH_TYPE_OPEN : Z := 0.
Definition AUTH_TYPE_SHARED : Z := 1.
Definition AUTH_TYPE_WPA2PSK : Z := 4.
Definition AUTH_TYPE_WPA28021X : Z := 5.
Definition AUTH_TYPE_MAX : Z := 6.
Definition AUTH_TYPE_INVALID : Z := 0xff.
Definition ENC_TYPE_NONE : Z := 0.
Definition ENC_TYPE_WEP : Z := 1.
Definition ENC_TYPE_TKIP : Z := 2.
Definition ENC_TYPE_AES : Z := 3.
Definition ENC_TYPE_TKIPAES : Z := 4.
Definition ENC_TYPE_MAX : Z := 4.
Definition ENC_TYPE_INVALID : Z := 0xff.

Section Parse.
Context {T : Type}.

Definition os_get_unaligned_le16 (b : bytes) (ptr : Z) : M T Z :=
  let* lo := rd b ptr in let* hi := rd b (ptr + 1) in ret (os_le16toh (lo + 256 * hi)).
(** [hdr->frame_control] *)
Definition frame_control (b : bytes) : M T Z :=
  let* lo := rd b 0 in let* hi := rd b 1 in ret (lo + 256 * hi).
Definition wifi_80211_get_radiotap_len (b : bytes) : M T Z := os_get_unaligned_le16 b 2.

Definition wifi_80211_get_bssid (b : bytes) : M T (option bytes) :=
  let* fc := frame_control b in
  match wifi_80211_get_BSSID fc with
  | Some o => let* mac := rdn b o ETH_ALEN in ret (Some mac)
  | None => ret None
  end.

(** The [while] loop of [wifi_80211_find_ie]: the final [ies] and [len]. *)
Fixpoint skip_ies (fuel : nat) (eid : Z) (b : bytes) (ies n : Z) : M T (Z * Z) :=
  match fuel with
  | O => ret (ies, n)
  | S fuel =>
    if 2 <? n then
      let* e := rd b ies in
      if e =? eid then ret (ies, n)
      else let* l := rd b (ies + 1) in skip_ies fuel eid b (ies + (l + 2)) (n - (l + 2))
    else ret (ies, n)
  end.
Definition wifi_80211_find_ie (eid : Z) (b : bytes) (ies n : Z) : M T (option Z) :=
  let* '(ies, n) := skip_ies (Z.to_nat n) eid b ies n in
  if n <? 2 then ret None
  else let* l := rd b (ies + 1) in if n <? 2 + l then ret None else ret (Some ies).

(** [sizeof(struct wifi_80211_vendor_ie)] is 6. *)
Fixpoint find_vendor (fuel : nat) (oui oui_type : Z) (b : bytes) (pos end_ : Z) : M T (option Z) :=
  match fuel with
  | O => ret None
  | S fuel =>
    if pos <? end_ then
      let* o := wifi_80211_find_ie WLAN_EID_VENDOR_SPECIFIC b pos (end_ - pos) in
      match o with
      | None => ret None
      | Some pos =>
        let* l := rd b (pos + 1) in
        let cont := find_vendor fuel oui oui_type b (pos + (2 + l)) end_ in
        if l <? 6 then cont
        else
          let* o0 := rd b (pos + 2) in let* o1 := rd b (pos + 3) in let* o2 := rd b (pos + 4) in
          let* ty := rd b (pos + 5) in
          let ie_oui := Z.lor (Z.lor (Z.shiftl o0 16) (Z.shiftl o1 8)) o2 in
          if (ie_oui =? oui) && (ty =? oui_type) then ret (Some pos) else cont
      end
    else ret None
  end.
Definition wifi_80211_find_vendor_ie (oui oui_type : Z) (b : bytes) (ies n : Z) : M T (option Z) :=
  find_vendor (Z.to_nat n) oui oui_type b ies (ies + n).

(** The status and the caller's array [ssid]. *)
Definition wifi_80211_get_ssid (b : bytes) (frame_len : Z) (ssid : bytes) : M T (Z * bytes) :=
  let* ptr := wifi_80211_find_ie WLAN_EID_SSID b ieoffset (u16 frame_len - ieoffset) in
  match ptr with
  | Some ptr =>
    let* ssid_len := rd b (ptr + 1) in
    if ssid_len <=? 32 then
      let* src := rdn b (ptr + 2) ssid_len in
      let* ssid := memcpy ssid 0 src in
      let* ssid := wr ssid ssid_len 0 in
      ret (0, ssid)
    else ret (-1, ssid)
  | None => ret (-1, ssid)
  end.

(** [sizeof(struct wifi_80211_ht_operation)] is 22. *)
Definition wifi_80211_get_bss_channel (b : bytes) (frame_len : Z) : M T Z :=
  let ielen := u16 (u16 frame_len - ieoffset) in
  let ht :=
    let* tmp := wifi_80211_find_ie WLAN_EID_HT_OPERATION b ieoffset ielen in
    match tmp with
    | Some tmp => let* l := rd b (tmp + 1) in if 22 <=? l then rd b (tmp + 2) else ret 0
    | None => ret 0
    end in
  let* tmp := wifi_80211_find_ie WLAN_EID_DS_PARAMS b ieoffset ielen in
  match tmp with
  | Some tmp => let* l := rd b (tmp + 1) in if l =? 1 then rd b (tmp + 2) else ht
  | None => ht
  end.

(** ** Cipher suites *)
Definition WPA_CIPHER_NONE : Z := 1.
Definition WPA_CIPHER_WEP40 : Z := 2.
Definition WPA_CIPHER_WEP104 : Z := 4.
Definition WPA_CIPHER_TKIP : Z := 8.
Definition WPA_CIPHER_CCMP : Z := 16.
Definition map_cipher_to_encry (cipher : Z) : Z :=
  if cipher =? WPA_CIPHER_CCMP then ENC_TYPE_AES
  else if cipher =? WPA_CIPHER_TKIP then ENC_TYPE_TKIP
  else if (cipher =? WPA_CIPHER_WEP40) || (cipher =? WPA_CIPHER_WEP104) then ENC_TYPE_WEP
  else if cipher =? WPA_CIPHER_NONE then ENC_TYPE_NONE
  else if cipher =? Z.lor WPA_CIPHER_TKIP WPA_CIPHER_CCMP then ENC_TYPE_TKIPAES
  else ENC_TYPE_INVALID.
Definition suite_of (oui : bytes) (s : bytes) : Z :=
  if s ==? oui ++ [0] then WPA_CIPHER_NONE
  else if s ==? oui ++ [1] then WPA_CIPHER_WEP40
  else if s ==? oui ++ [2] then WPA_CIPHER_TKIP
  else if s ==? oui ++ [4] then WPA_CIPHER_CCMP
  else if s ==? oui ++ [5] then WPA_CIPHER_WEP104
  else 0.
Definition get_wpa_cipher_suite : bytes -> Z := suite_of [0x00; 0x50; 0xf2].
Definition get_wpa2_cipher_suite : bytes -> Z := suite_of [0x00; 0x0f; 0xac].

(** [group_cipher], [pairwise_cipher], [is_8021x], which start at 0. *)
Record cipher_info := mkCipher { group_cipher : Z; pairwise_cipher : Z; is_8021x : Z }.

Fixpoint pairwise_loop (count : nat) (suite : bytes -> Z) (b : bytes) (pos acc : Z) : M T Z :=
  match count with
  | O => ret acc
  | S count =>
    let* s := rdn b pos 4 in
    pairwise_loop count suite b (pos + 4) (u8 (Z.lor acc (suite s)))
  end.
(** What the two parsers do from the group cipher on: the status and what was
    stored, also when it fails. *)
Definition parse_suites (suite : bytes -> Z) (suite_1x : bytes) (b : bytes) (pos left_ : Z) : M T (Z * cipher_info) :=
  let key_mgmt g p pos left_ :=
    if 6 <=? left_ then
      let* s := rdn b (pos + 2) 4 in
      ret (0, mkCipher g p (if s ==? suite_1x then 1 else 0))
    else ret (0, mkCipher g p 0) in
  let pairwise g pos left_ :=
    if 2 <=? left_ then
      let* count := os_get_unaligned_le16 b pos in
      let pos := pos + 2 in let left_ := left_ - 2 in
      if (count =? 0) || (left_ <? count * 4) then ret (-1, mkCipher g 0 0)
      else
        let* p := pairwise_loop (Z.to_nat count) suite b pos 0 in
        key_mgmt g p (pos + 4 * count) (left_ - 4 * count)
    else if left_ =? 1 then ret (-1, mkCipher g 0 0)
    else key_mgmt g 0 pos left_ in
  if 4 <=? left_ then
    let* s := rdn b pos 4 in pairwise (u8 (suite s)) (pos + 4) (left_ - 4)
  else if 0 <? left_ then ret (-1, mkCipher 0 0 0)
  else pairwise 0 pos left_.
Definition cfg80211_parse_wpa_info (b : bytes) (wpa_ie wpa_ie_len : Z) : M T (Z * cipher_info) :=
  if wpa_ie_len <=? 0 then ret (-1, mkCipher 0 0 0)
  else
    let* l := rd b (wpa_ie + 1) in
    if negb (l =? u8 (wpa_ie_len - 2)) then ret (-1, mkCipher 0 0 0)
    else parse_suites get_wpa_cipher_suite [0x00; 0x50; 0xf2; 0x01] b (wpa_ie + 8) (wpa_ie_len - 8).
Definition cfg80211_parse_wpa2_info (b : bytes) (rsn_ie rsn_ie_len : Z) : M T (Z * cipher_info) :=
  if rsn_ie_len <=? 0 then ret (-1, mkCipher 0 0 0)
  else
    let* e := rd b rsn_ie in
    let* l := rd b (rsn_ie + 1) in
    if negb (e =? WLAN_EID_RSN) || negb (l =? u8 (rsn_ie_len - 2)) then ret (-1, mkCipher 0 0 0)
    else parse_suites get_wpa2_cipher_suite [0x00; 0x0f; 0xac; 0x01] b (rsn_ie + 4) (rsn_ie_len - 4).

(** The status, [auth_type], [pairwise_cipher_type], [group_cipher_type]. *)
Definition wifi_80211_get_cipher_info (b : bytes) (frame_len : Z) : M T (Z * (Z * Z * Z)) :=
  let* c0 := rd b o_capab_info in
  let* c1 := rd b (o_capab_info + 1) in
  let is_privacy := negb (Z.land (c0 + 256 * c1) WLAN_CAPABILITY_PRIVACY =? 0) in
  let ielen := u16 (u16 frame_len - ieoffset) in
  let other :=
    if is_privacy then ret (0, (AUTH_TYPE_SHARED, ENC_TYPE_WEP, ENC_TYPE_WEP))
    else ret (0, (AUTH_TYPE_OPEN, ENC_TYPE_NONE, ENC_TYPE_NONE)) in
  let* tmp := wifi_80211_find_ie WLAN_EID_RSN b ieoffset ielen in
  match tmp with
  | Some tmp =>
    let* l := rd b (tmp + 1) in
    if negb (l =? 0) then
      let* '(r, i) := cfg80211_parse_wpa2_info b tmp (l + 2) in
      let auth := if negb (is_8021x i =? 0) then AUTH_TYPE_WPA28021X else AUTH_TYPE_WPA2PSK in
      ret (r, (auth, map_cipher_to_encry (pairwise_cipher i), map_cipher_to_encry (group_cipher i)))
    else other
  | None => other
  end.
End Parse.

(** ** Element lists, and the search as a function on them *)
Abbreviation element := (Z * bytes)%type.
Definition enc_ie (e : element) : bytes := e.1 :: len e.2 :: e.2.
Definition enc_ies (es : list element) : bytes := es ≫= enc_ie.
(** What follows the last complete element. *)
Definition truncated (rest : bytes) : Prop :=
  match rest with _ :: l :: p => len p < l | _ => True end.

(** The offset of the first element called [eid]; an empty element that ends
    the data exactly is taken whatever it is called. *)
Fixpoint find_ref (eid off : Z) (es : list element) (rest : bytes) : option Z :=
  match es with
  | [] => None
  | (id, p) :: es' =>
    if bool_decide (id = eid) || bool_decide (p = [] /\ es' = [] /\ rest = []) then Some off
    else find_ref eid (off + (len p + 2)) es' rest
  end.

Lemma enc_ies_cons id p es : enc_ies ((id, p) :: es) = id :: len p :: p ++ enc_ies es.
Proof. done. Qed.
Lemma len_enc_ies_cons id p es : len (enc_ies ((id, p) :: es)) = len p + 2 + len (enc_ies es).
Proof. rewrite enc_ies_cons, !len_cons, len_app. lia. Qed.

(** Any bytes are complete elements followed by a truncated one. *)
Lemma elements_exist s : is_bytes s -> exists es rest, s = enc_ies es ++ rest /\ truncated rest.
Proof.
  remember (length s) as n eqn:Hn. revert s Hn.
  induction (lt_wf n) as [n _ IH]. intros s -> Hb. destruct s as [|id [|l p]].
  - by exists [], [].
  - by exists [], [id].
  - destruct (Z.leb_spec l (len p)) as [Hl|Hl]; [|by exists [], (id :: l :: p)].
    inversion Hb as [|? ? _ Hb']; subst. inversion Hb' as [|? ? Hlu Hp]; subst. unfold is_u8 in Hlu.
    destruct (IH (length (drop (Z.to_nat l) p))) with (s := drop (Z.to_nat l) p) as (es&rest&E&Ht).
    + rewrite length_drop. cbn. lia.
    + done.
    + by apply Forall_drop.
    + exists ((id, take (Z.to_nat l) p) :: es), rest. split; [|done].
      rewrite enc_ies_cons, len_take by lia. cbn. do 2 f_equal.
      rewrite <- app_assoc, <- E. by rewrite take_drop.
Qed.

Section FindIe.
Context {T : Type}.
Implicit Types (t : T).

(** Reading the id and the length of the element that starts at [off]. *)
Lemma rd_id (pre : bytes) x q off t : off = len pre -> rd (pre ++ x :: q) off t = Done x t.
Proof. intros ->. by eapply rd_at. Qed.
Lemma rd_len (pre : bytes) x y q off t : off = len pre + 1 -> rd (pre ++ x :: y :: q) off t = Done y t.
Proof.
  intros ->. apply (rd_at _ (pre ++ [x]) y q); [by rewrite <- app_assoc|]. rewrite len_app. done.
Qed.

Definition check_ie (b : bytes) (eid ies n : Z) (fuel : nat) : M T (option Z) :=
  let* '(ies, n) := skip_ies fuel eid b ies n in
  if n <? 2 then ret None
  else let* l := rd b (ies + 1) in if n <? 2 + l then ret None else ret (Some ies).

(** Nothing is found in a truncated rest. *)
Lemma find_rest eid (pre rest post : bytes) off n fuel t :
  truncated rest -> off = len pre -> n = len rest -> (Z.to_nat n <= fuel)%nat ->
  check_ie (pre ++ rest ++ post) eid off n fuel t = Done None t.
Proof.
  intros Ht -> -> Hf. unfold check_ie. destruct rest as [|id [|l p]].
  - by destruct fuel.
  - by destruct fuel.
  - cbn [truncated] in Ht. pose proof (len_nonneg p) as Hp. rewrite !len_cons in *.
    destruct fuel as [|fuel]; [lia|]. cbn [skip_ies].
    destruct (Z.ltb_spec 2 (len p + 1 + 1)) as [H2|H2].
    + cbn [app]. unfold bind at 1 2. rewrite rd_id by done. destruct (Z.eqb_spec id eid).
      * cbn -[rd len]. destruct (Z.ltb_spec (len p + 1 + 1) 2); [lia|].
        erewrite bind_done by (by apply rd_len). destruct (Z.ltb_spec (len p + 1 + 1) (2 + l)); [done|lia].
      * erewrite bind_done by (by apply rd_len).
        assert (E : skip_ies fuel eid (pre ++ id :: l :: p ++ post) (len pre + (l + 2)) (len p + 1 + 1 - (l + 2)) t
                    = Done (len pre + (l + 2), len p + 1 + 1 - (l + 2)) t).
        { destruct fuel; [done|]. cbn [skip_ies]. destruct (Z.ltb_spec 2 (len p + 1 + 1 - (l + 2))); [lia|done]. }
        rewrite E. destruct (Z.ltb_spec (len p + 1 + 1 - (l + 2)) 2); [done|lia].
    + cbn [app]. erewrite bind_done by done. cbn beta iota.
      destruct (Z.ltb_spec (len p + 1 + 1) 2); [lia|].
      erewrite bind_done by (by apply rd_len). destruct (Z.ltb_spec (len p + 1 + 1) (2 + l)); [done|lia].
Qed.

Lemma find_elements eid es : forall (pre rest post : bytes) off n fuel t,
  truncated rest -> off = len pre -> n = len (enc_ies es ++ rest) -> (Z.to_nat n <= fuel)%nat ->
  check_ie (pre ++ (enc_ies es ++ rest) ++ post) eid off n fuel t = Done (find_ref eid off es rest) t.
Proof.
  induction es as [|[id p] es IH]; intros pre rest post off n fuel t Ht -> -> Hf.
  { by apply find_rest. }
  pose proof (len_nonneg p) as Hp. pose proof (len_nonneg (enc_ies es)) as He. pose proof (len_nonneg rest) as Hr.
  assert (En : len (enc_ies ((id, p) :: es) ++ rest) = len p + 2 + (len (enc_ies es) + len rest))
    by (rewrite len_app, len_enc_ies_cons; lia).
  rewrite En in Hf |- *. rewrite enc_ies_cons. cbn [app find_ref]. unfold check_ie. destruct fuel as [|fuel]; [lia|]. cbn [skip_ies].
  assert (Hfound : forall n, n = len p + 2 + (len (enc_ies es) + len rest) ->
    (if n <? 2 then ret None
     else let* l := rd (pre ++ id :: len p :: ((p ++ enc_ies es) ++ rest) ++ post) (len pre + 1) in
          if n <? 2 + l then ret None else ret (Some (len pre))) t = Done (Some (len pre)) t).
  { intros n ->. destruct (Z.ltb_spec (len p + 2 + (len (enc_ies es) + len rest)) 2); [lia|].
    erewrite bind_done by (by apply rd_len).
    by destruct (Z.ltb_spec (len p + 2 + (len (enc_ies es) + len rest)) (2 + len p)); [lia|]. }
  destruct (Z.ltb_spec 2 (len p + 2 + (len (enc_ies es) + len rest))) as [H2|H2].
  - unfold bind at 1 2. rewrite rd_id by done. destruct (Z.eqb_spec id eid) as [->|Hne].
    + rewrite bool_decide_true by done. cbn [orb]. by apply Hfound.
    + rewrite (bool_decide_false (id = eid)) by done. rewrite bool_decide_false.
      2:{ intros (->&->&->). unfold len, enc_ies in H2; cbn in H2; lia. }
      cbn [orb]. erewrite bind_done by (by apply rd_len).
      specialize (IH (pre ++ id :: len p :: p) rest post (len pre + (len p + 2))
                     (len p + 2 + (len (enc_ies es) + len rest) - (len p + 2)) fuel t Ht).
      unfold check_ie, bind at 1 in IH. rewrite <- IH; [|rewrite len_app, !len_cons; lia|rewrite len_app; lia|lia].
      replace ((pre ++ id :: len p :: p) ++ (enc_ies es ++ rest) ++ post)
        with (pre ++ id :: len p :: ((p ++ enc_ies es) ++ rest) ++ post); [done|].
      by rewrite <- !(assoc_L (++)).
  - assert (p = [] /\ es = [] /\ rest = []) as (->&->&->).
    { assert (len p = 0 /\ len (enc_ies es) = 0 /\ len rest = 0) as (Ep&Ee&Er) by lia. split; [|split].
      - destruct p; [done|]. rewrite len_cons in Ep. pose proof (len_nonneg p). lia.
      - destruct es as [|[i q] es']; [done|]. rewrite len_enc_ies_cons in Ee. pose proof (len_nonneg q).
        pose proof (len_nonneg (enc_ies es')). lia.
      - destruct rest; [done|]. rewrite len_cons in Er. pose proof (len_nonneg rest). lia. }
    rewrite (bool_decide_true ([] = [] /\ _)) by done. rewrite orb_true_r. erewrite bind_done by done. cbn beta iota. by apply Hfound.
Qed.

(** [wifi_80211_find_ie] on data laid out as elements. *)
Lemma find_ie_elements eid es (pre rest post b : bytes) off n t :
  b = pre ++ (enc_ies es ++ rest) ++ post -> truncated rest -> off = len pre -> n = len (enc_ies es ++ rest) ->
  wifi_80211_find_ie eid b off n t = Done (find_ref eid off es rest) t.
Proof. intros -> ? -> ->. by apply find_elements. Qed.
End FindIe.

(** What is found is a complete element inside the data. *)
Lemma find_ref_inside eid es rest : forall off o,
  find_ref eid off es rest = Some o ->
  exists es1 id p es2, es = es1 ++ (id, p) :: es2 /\ o = off + len (enc_ies es1) /\
    (id = eid \/ p = [] /\ es2 = [] /\ rest = []) /\ Forall (fun e => e.1 <> eid) es1.
Proof.
  induction es as [|[id p] es IH]; intros off o; cbn [find_ref]; [done|].
  destruct (bool_decide (id = eid)) eqn:E1; cbn [orb].
  - intros [= <-]. apply bool_decide_eq_true in E1. exists [], id, p, es. cbn.
    split_and!; [done|unfold len; cbn; lia|by left|constructor].
  - apply bool_decide_eq_false in E1. case_bool_decide as E2.
    + intros [= <-]. exists [], id, p, es. destruct E2 as (?&?&?). cbn.
      split_and!; [done|unfold len; cbn; lia|by right|constructor].
    + intros (es1&i&q&es2&->&->&Hi&Hf)%IH. exists ((id, p) :: es1), i, q, es2. rewrite len_enc_ies_cons.
      split_and!; [done|lia|done|by constructor].
Qed.

Lemma find_ie_none {T} eid b off n (t : T) : n < 0 -> wifi_80211_find_ie eid b off n t = Done None t.
Proof.
  intros Hn. unfold wifi_80211_find_ie. replace (Z.to_nat n) with 0%nat by lia. cbn -[rd].
  destruct (Z.ltb_spec n 2); [done|lia].
Qed.
Lemma split_region b off n : 0 <= off -> 0 <= n ->
  b = take (Z.to_nat off) b ++ slice b off n ++ drop (Z.to_nat (off + n)) b.
Proof.
  intros. unfold slice. rewrite Z2Nat.inj_add, <- drop_drop, take_drop by lia. by rewrite take_drop.
Qed.

(** [wifi_80211_find_ie] never reads outside the data it is given, whatever
    its content, and always ends: the data are complete elements followed by a
    truncated one, and the result is the first element with the id asked for
    (or the empty element that ends the data exactly). *)
Theorem find_ie_finds {T} eid b off n (t : T) :
  is_bytes b -> 0 <= off <= len b -> off + n <= len b ->
  exists es rest, slice b off n = enc_ies es ++ rest /\ truncated rest /\
    wifi_80211_find_ie eid b off n t = Done (find_ref eid off es rest) t.
Proof.
  intros Hb Ho Hn. destruct (Z.ltb_spec n 0) as [Hneg|Hpos].
  - exists [], []. split; [|split; [done|]].
    + unfold slice. by replace (Z.to_nat n) with 0%nat by lia.
    + by apply find_ie_none.
  - destruct (elements_exist (slice b off n)) as (es&rest&E&Ht); [by apply is_bytes_slice|].
    exists es, rest. split; [done|]. split; [done|].
    apply (find_ie_elements eid es (take (Z.to_nat off) b) rest (drop (Z.to_nat (off + n)) b)); try done.
    + rewrite <- E. by apply split_region; lia.
    + by rewrite len_take.
    + rewrite <- E, len_slice; lia.
Qed.
Definition sample_ies : bytes := [1; 2; 0x82; 0x84; 0; 3; 97; 98; 99; 3; 1; 6; 48; 9].
Lemma find_ie_finds_witness :
  slice sample_ies 0 14 = enc_ies [(1, [0x82; 0x84]); (0, [97; 98; 99]); (3, [6])] ++ [48; 9] /\
  find_ref 0 0 [(1, [0x82; 0x84]); (0, [97; 98; 99]); (3, [6])] [48; 9] = Some 4 /\
  exists es rest, slice sample_ies 0 14 = enc_ies es ++ rest /\ truncated rest /\
    wifi_80211_find_ie 0 sample_ies 0 14 tt = Done (find_ref 0 0 es rest) tt.
Proof.
  split; [reflexivity|]. split; [reflexivity|].
  apply (find_ie_finds 0 sample_ies 0 14 tt); [evaluate|evaluate|evaluate].
Defined.

(** ** The parsers of a beacon are safe *)
Section Safe.
Context {T : Type}.
Implicit Types (t : T) (b : bytes).

Lemma wp_find_ie eid b off n (Q : option Z -> T -> Prop) R t :
  is_bytes b -> 0 <= off <= len b -> off + n <= len b ->
  Q None t ->
  (forall o, off <= o -> o + 2 + b !!! Z.to_nat (o + 1) <= off + n ->
     b !!! Z.to_nat o = eid \/ b !!! Z.to_nat (o + 1) = 0 -> Q (Some o) t) ->
  wp (wifi_80211_find_ie eid b off n) Q R t.
Proof.
  intros Hb Ho Hn HN HS. destruct (Z.ltb_spec n 0) as [Hneg|Hpos].
  { eapply wp_done; [by apply find_ie_none|done]. }
  destruct (elements_exist (slice b off n)) as (es&rest&E&Ht); [by apply is_bytes_slice|].
  assert (Hbs : b = take (Z.to_nat off) b ++ (enc_ies es ++ rest) ++ drop (Z.to_nat (off + n)) b).
  { rewrite <- E. by apply split_region; lia. }
  eapply wp_done.
  { eapply (find_ie_elements eid es (take (Z.to_nat off) b) rest); [exact Hbs|done|by rewrite len_take|].
    rewrite <- E, len_slice; lia. }
  destruct (find_ref eid off es rest) as [o|] eqn:Ef; [|done].
  apply find_ref_inside in Ef as (es1&id&p&es2&->&->&Hid&_).
  assert (Hl : len (enc_ies es1) + (len p + 2) <= n).
  { assert (Hs : len (slice b off n) = n) by (apply len_slice; lia).
    rewrite E, len_app in Hs. unfold enc_ies in Hs. rewrite bind_app, len_app in Hs. fold (enc_ies es1) in Hs.
    fold (enc_ies ((id, p) :: es2)) in Hs. rewrite len_enc_ies_cons in Hs.
    pose proof (len_nonneg (enc_ies es2)). pose proof (len_nonneg rest). lia. }
  pose proof (len_nonneg (enc_ies es1)).
  assert (Hat : forall k x, enc_ie (id, p) !! k = Some x -> b !!! Z.to_nat (off + len (enc_ies es1) + Z.of_nat k) = x).
  { intros k x Hk. rewrite Hbs, list_lookup_total_alt.
    rewrite lookup_app_r by (rewrite length_take; unfold len in *; lia).
    unfold enc_ies. rewrite bind_app. fold (enc_ies es1). rewrite <- !app_assoc.
    rewrite lookup_app_r by (rewrite length_take; unfold len in *; lia).
    cbn [mbind list_bind]. rewrite <- app_assoc. rewrite lookup_app_l.
    - replace (_ - _ - _)%nat with k; [by rewrite Hk|]. rewrite length_take. unfold len in *. lia.
    - apply lookup_lt_Some in Hk. rewrite length_take. unfold len in *. lia. }
  pose proof (Hat 0%nat id eq_refl) as H0. pose proof (Hat 1%nat (len p) eq_refl) as H1.
  rewrite Z.add_0_r in H0. change (Z.of_nat 1) with 1 in H1. apply HS.
  - lia.
  - rewrite H1. lia.
  - rewrite H0, H1. destruct Hid as [->|(->&_)]; [by left|by right].
Qed.

Lemma wp_le16 b p (Q : Z -> T -> Prop) R t :
  is_bytes b -> 0 <= p -> p + 2 <= len b -> (forall v, is_u16 v -> Q v t) -> wp (os_get_unaligned_le16 b p) Q R t.
Proof.
  intros Hb Hp Hl HQ. unfold os_get_unaligned_le16. wstep. wstep. wstep. wstep. wstep.
  apply HQ. unfold os_le16toh, os_htole16.
  pose proof (lookup_total_u8 b (Z.to_nat p) Hb) as H1. pose proof (lookup_total_u8 b (Z.to_nat (p + 1)) Hb) as H2.
  change os_is_big_endian with false. cbn iota. unfold is_u8, is_u16 in *. lia.
Qed.

(** The network name is copied with its terminator into an array of 33. *)
Lemma wp_get_ssid b n ssid (Q : Z * bytes -> T -> Prop) R t :
  is_bytes b -> 36 <= len b -> 0 <= n <= len b -> n < 65536 -> len ssid = 33 -> is_bytes ssid ->
  Q (-1, ssid) t ->
  (forall a, len a = 33 -> is_bytes a -> 0 ∈ a -> Q (0, a) t) ->
  wp (wifi_80211_get_ssid b n ssid) Q R t.
Proof.
  intros Hb H36 Hn Hn6 Hs Hsb HN HS. unfold wifi_80211_get_ssid, ieoffset.
  rewrite u16_small by (unfold is_u16; lia). wstep.
  apply wp_find_ie; [done|lia|lia|by apply wp_ret|]. intros o Ho1 Ho2 _.
  pose proof (lookup_total_u8 b (Z.to_nat (o + 1)) Hb) as Hu. unfold is_u8 in Hu.
  wstep. wstep. apply wp_if; intros E; [apply Z.leb_le in E|by apply wp_ret].
  wstep. wstep. set (l := b !!! Z.to_nat (o + 1)) in *.
  assert (Hl : len (slice b (o + 2) l) = l) by (apply len_slice; lia).
  wstep. wstep. wstep. wstep; [rewrite len_splice; lia|]. apply wp_ret. apply HS.
  - rewrite len_insert, len_splice; lia.
  - apply Forall_insert; [|apply u8_range]. apply is_bytes_splice; [done|by apply is_bytes_slice].
  - apply (list_elem_of_lookup_2 _ (Z.to_nat l)). apply list_lookup_insert_eq.
    assert (len (splice ssid 0 (slice b (o + 2) l)) = 33) by (rewrite len_splice; lia). unfold len in *. lia.
Qed.

Lemma wp_get_bss_channel b n (Q : Z -> T -> Prop) R t :
  is_bytes b -> 36 <= n <= len b -> n < 65536 -> (forall c, is_u8 c -> Q c t) ->
  wp (wifi_80211_get_bss_channel b n) Q R t.
Proof.
  intros Hb Hn Hn6 HQ. unfold wifi_80211_get_bss_channel, ieoffset.
  rewrite (u16_small n) by (unfold is_u16; lia). rewrite u16_small by (unfold is_u16; lia).
  assert (H0 : Q 0 t) by (apply HQ; unfold is_u8; lia).
  assert (Hu : forall i, is_u8 (b !!! i)) by (intros; by apply lookup_total_u8).
  assert (Hht : wp (let* tmp := wifi_80211_find_ie WLAN_EID_HT_OPERATION b 36 (n - 36) in
    match tmp with
    | Some tmp => let* l := rd b (tmp + 1) in if 22 <=? l then rd b (tmp + 2) else ret 0
    | None => ret 0 end) Q R t).
  { wstep. apply wp_find_ie; [done|lia|lia|by apply wp_ret|]. intros o Ho1 Ho2 _.
    pose proof (Hu (Z.to_nat (o + 1))) as Hl. unfold is_u8 in Hl. wstep. wstep.
    apply wp_if; intros E; [apply Z.leb_le in E; wstep; auto|by apply wp_ret]. }
  wstep. apply wp_find_ie; [done|lia|lia|done|]. intros o Ho1 Ho2 _.
  pose proof (Hu (Z.to_nat (o + 1))) as Hl. unfold is_u8 in Hl. wstep. wstep.
  apply wp_if; intros E; [apply Z.eqb_eq in E; wstep; auto|done].
Qed.

(** ** Cipher suites: safe, and the bits stay those of known suites *)
Lemma suite_of_range oui s : is_u8 (suite_of oui s).
Proof. unfold suite_of, is_u8, WPA_CIPHER_NONE, WPA_CIPHER_WEP40, WPA_CIPHER_WEP104, WPA_CIPHER_TKIP, WPA_CIPHER_CCMP.
  repeat case_bool_decide; lia. Qed.
Lemma wp_pairwise_loop k suite b : forall p acc (Q : Z -> T -> Prop) R t,
  0 <= p -> p + 4 * Z.of_nat k <= len b -> is_u8 acc -> (forall a, is_u8 a -> Q a t) ->
  wp (pairwise_loop k suite b p acc) Q R t.
Proof.
  induction k as [|k IH]; intros p acc Q R t Hp Hl Ha HQ; [by apply wp_ret, HQ|]. cbn [pairwise_loop].
  wstep. wstep. apply IH; [lia|lia|apply u8_range|done].
Qed.
Definition cipher_ok (i : cipher_info) : Prop := is_u8 (group_cipher i) /\ is_u8 (pairwise_cipher i).
Lemma wp_parse_suites suite s1x b p n (Q : Z * cipher_info -> T -> Prop) R t :
  is_bytes b -> 0 <= p -> (0 <= n -> p + n <= len b) -> (forall r i, cipher_ok i -> Q (r, i) t) ->
  wp (parse_suites suite s1x b p n) Q R t.
Proof.
  intros Hb Hp Hn HQ. unfold parse_suites. cbv zeta.
  assert (H0 : is_u8 0) by (unfold is_u8; lia).
  assert (Hkm : forall g pw p n, is_u8 g -> is_u8 pw -> 0 <= p -> (0 <= n -> p + n <= len b) ->
    wp (if 6 <=? n then let* s := rdn b (p + 2) 4 in ret (0, mkCipher g pw (if s ==? s1x then 1 else 0))
        else ret (0, mkCipher g pw 0)) Q R t).
  { intros g pw p' n' Hg Hpw Hp' Hn'. apply wp_if; intros E; [apply Z.leb_le in E|by apply wp_ret, HQ].
    wstep. wstep. by apply wp_ret, HQ. }
  assert (Hpw : forall g p n, is_u8 g -> 0 <= p -> (0 <= n -> p + n <= len b) ->
    wp (if 2 <=? n then
      let* count := os_get_unaligned_le16 b p in
      if (count =? 0) || (n - 2 <? count * 4) then ret (-1, mkCipher g 0 0)
      else let* pw := pairwise_loop (Z.to_nat count) suite b (p + 2) 0 in
        (if 6 <=? n - 2 - 4 * count then
           let* s := rdn b (p + 2 + 4 * count + 2) 4 in ret (0, mkCipher g pw (if s ==? s1x then 1 else 0))
         else ret (0, mkCipher g pw 0))
    else if n =? 1 then ret (-1, mkCipher g 0 0)
    else (if 6 <=? n then let* s := rdn b (p + 2) 4 in ret (0, mkCipher g 0 (if s ==? s1x then 1 else 0))
          else ret (0, mkCipher g 0 0))) Q R t).
  { intros g p' n' Hg Hp' Hn'. apply wp_if; intros E; [|apply wp_if; intros _; [by apply wp_ret, HQ|by apply Hkm]].
    apply Z.leb_le in E. wstep. apply wp_le16; [done|lia|lia|]. intros c Hc. unfold is_u16 in Hc.
    apply wp_if; intros E2; [by apply wp_ret, HQ|]. apply orb_false_iff in E2 as [?%Z.eqb_neq ?%Z.ltb_ge].
    wstep. apply wp_pairwise_loop; [lia|lia|done|]. intros a Ha. apply Hkm; [done|done|lia|lia]. }
  apply wp_if; intros E; [|apply wp_if; intros E2; [by apply wp_ret, HQ|]].
  - apply Z.leb_le in E. wstep. wstep. apply Hpw; [apply u8_range|lia|lia].
  - apply Hpw; done.
Qed.

Definition enc_type (e : Z) : Prop := e = ENC_TYPE_INVALID \/ 0 <= e <= ENC_TYPE_MAX.
Lemma map_cipher_enc c : enc_type (map_cipher_to_encry c).
Proof.
  unfold map_cipher_to_encry, enc_type, ENC_TYPE_MAX, ENC_TYPE_AES, ENC_TYPE_TKIP, ENC_TYPE_WEP, ENC_TYPE_NONE, ENC_TYPE_TKIPAES.
  repeat case_match; lia || by left.
Qed.
Lemma wp_get_cipher_info b n (Q : Z * (Z * Z * Z) -> T -> Prop) R t :
  is_bytes b -> 36 <= n <= len b -> n < 65536 ->
  (forall r a p g, 0 <= a <= AUTH_TYPE_MAX -> enc_type p -> enc_type g -> Q (r, (a, p, g)) t) ->
  wp (wifi_80211_get_cipher_info b n) Q R t.
Proof.
  intros Hb Hn Hn6 HQ. unfold wifi_80211_get_cipher_info, o_capab_info, ieoffset. cbv zeta.
  rewrite (u16_small n) by (unfold is_u16; lia). rewrite u16_small by (unfold is_u16; lia).
  wstep. wstep. wstep. wstep.
  assert (Hoth : forall c : bool, wp (if c then ret (0, (AUTH_TYPE_SHARED, ENC_TYPE_WEP, ENC_TYPE_WEP))
    else ret (0, (AUTH_TYPE_OPEN, ENC_TYPE_NONE, ENC_TYPE_NONE)) : M T _) Q R t).
  { intros [|]; apply wp_ret, HQ; unfold enc_type, AUTH_TYPE_SHARED, AUTH_TYPE_OPEN, AUTH_TYPE_MAX, ENC_TYPE_WEP,
      ENC_TYPE_NONE, ENC_TYPE_MAX; lia. }
  wstep. apply wp_find_ie; [done|lia|lia|apply Hoth|]. intros o Ho1 Ho2 Hid.
  pose proof (lookup_total_u8 b (Z.to_nat (o + 1)) Hb) as Hl. unfold is_u8 in Hl.
  wstep. wstep. apply wp_if; intros E; [|apply Hoth]. apply negb_true_iff, Z.eqb_neq in E.
  destruct Hid as [Hid|?]; [|done]. wstep. unfold cfg80211_parse_wpa2_info.
  apply wp_if; intros E1; [apply Z.leb_le in E1; lia|]. wstep. wstep. wstep. wstep.
  assert (Hend : forall r i, cipher_ok i ->
    wp (ret (r, (if negb (is_8021x i =? 0) then AUTH_TYPE_WPA28021X else AUTH_TYPE_WPA2PSK,
      map_cipher_to_encry (pairwise_cipher i), map_cipher_to_encry (group_cipher i))) : M T _) Q R t).
  { intros r i _. apply wp_ret, HQ; try apply map_cipher_enc.
    unfold AUTH_TYPE_WPA28021X, AUTH_TYPE_WPA2PSK, AUTH_TYPE_MAX. destruct (negb _); lia. }
  apply wp_if; intros _; [apply wp_ret, Hend; split; cbn; unfold is_u8; lia|].
  apply wp_parse_suites; [done|lia|lia|]. intros r i Hi. by apply Hend.
Qed.
End Safe.
