(* ===== verification/SmartConfig.v ===== *)
(** * The smart-config receiver ([ya_smartconfig.c])

    The radio listens to every frame of a channel.  A phone that knows the
    router's password sends it where anyone can see it: in the group addresses
    of multicast frames, or in the lengths of broadcast frames.  The driver
    calls [easyjoin_callback] for every frame; the task switches channels until
    a sender is recognised, decodes what was received and hands the result to
    the callback it was started with. *)

From stdpp Require Import base numbers list strings.
From S2P Require Import Prelude Platform CommonFunc HalTimer UserData Aes Ieee80211.

(** ** Data *)

(** [ROUTER_INFO], without the link: the list is a list. *)
Record router := mkRouter {
  r_auth : Z; r_channel : Z; r_encry0 : Z; r_encry1 : Z; r_bssid : bytes; r_ssid : bytes }.
Definition SIZEOF_ROUTER_INFO : Z := 48.
Definition MAX_SSID_LEN : Z := 33.
(** The fields of a block that was not initialised. *)
Definition router_of_block (b : bytes) : router :=
  mkRouter (b !!! 4%nat) (b !!! 5%nat) (b !!! 6%nat) (b !!! 7%nat) (slice b 8 6) (slice b 14 33).

(** [SCONFIG_INFO] *)
Record sconfig := mkSconfig {
  switchChannel : Z; findPhone : Z; sc_delay : Z; sc_bssid : bytes; srcmac : bytes }.
Definition SIZEOF_SCONFIG_INFO : Z := 16.
Definition CHANNEL_SEARCH_START : Z := 0.
Definition CHANNEL_SEARCH_END : Z := 1.
Definition NOT_ACTIVE : Z := 0.
Definition OK_KEY : Z := 1.

(** The fields [ya_parse_para_multicast_t] and [ya_parse_para_broadcast_t]
    share; the arrays have 128 and 80 bytes. *)
Record parse := mkParse {
  key : bytes; key_flag : bytes; key_len : Z; key_cur_index : Z; key_checksum : Z;
  key_checksum_flag : Z; count_num : Z; finish : Z }.
Definition zero_parse (n : Z) : parse := mkParse (zeros n) (zeros n) 0 0 0 0 0 0.
Definition put_key (k f : bytes) (p : parse) : parse :=
  mkParse k f (key_len p) (key_cur_index p) (key_checksum p) (key_checksum_flag p) (count_num p) (finish p).
Definition put_key_len (n : Z) (p : parse) : parse :=
  mkParse (key p) (key_flag p) n (key_cur_index p) (key_checksum p) (key_checksum_flag p) (count_num p) (finish p).
Definition put_index (i : Z) (p : parse) : parse :=
  mkParse (key p) (key_flag p) (key_len p) i (key_checksum p) (key_checksum_flag p) (count_num p) (finish p).
Definition put_checksum (c : Z) (p : parse) : parse :=
  mkParse (key p) (key_flag p) (key_len p) (key_cur_index p) c 1 (count_num p) (finish p).
Definition put_count (n : Z) (p : parse) : parse :=
  mkParse (key p) (key_flag p) (key_len p) (key_cur_index p) (key_checksum p) (key_checksum_flag p) n (finish p).
Definition put_finish (p : parse) : parse :=
  mkParse (key p) (key_flag p) (key_len p) (key_cur_index p) (key_checksum p) (key_checksum_flag p) (count_num p) 1.

(** The broadcast struct also has a [status]. *)
Record bparse := mkBparse { b_para : parse; status : Z }.
Definition zero_bparse : bparse := mkBparse (zero_parse 80) 0.
Definition SCONFIG_IDLE : Z := 0.
Definition SCONFIG_LEN : Z := 1.
Definition SCONFIG_INDEX : Z := 2.
Definition SCONFIG_KEY : Z := 3.
Definition SCONFIG_CHK : Z := 4.
Definition SIZEOF_MULTICAST : Z := 262.
Definition SIZEOF_BROADCAST : Z := 167.

(** A pointer to a block: the three parse pointers keep their value when the
    block is freed. *)
Inductive ptr (A : Type) := Null | Live (a : A) | Freed.
Arguments Null {A}. Arguments Live {A} a. Arguments Freed {A}.

Record sc := mkSc {
  info_head : option (list router);  (** first the head node, then the routers heard *)
  sconfig_info : option sconfig;
  ya_parse_mul : ptr parse;
  ya_parse_to_ds : ptr bparse;
  ya_parse_from_ds : ptr bparse;
  sc_result : smnt_result;
  has_callback : bool;
  sc_timeout : Z;
  run_smartconfig : Z;
  channel_lock_time : Z;
}.
Definition set_head x s := mkSc x (sconfig_info s) (ya_parse_mul s) (ya_parse_to_ds s) (ya_parse_from_ds s)
  (sc_result s) (has_callback s) (sc_timeout s) (run_smartconfig s) (channel_lock_time s).
Definition set_sconfig x s := mkSc (info_head s) x (ya_parse_mul s) (ya_parse_to_ds s) (ya_parse_from_ds s)
  (sc_result s) (has_callback s) (sc_timeout s) (run_smartconfig s) (channel_lock_time s).
Definition set_mul x s := mkSc (info_head s) (sconfig_info s) x (ya_parse_to_ds s) (ya_parse_from_ds s)
  (sc_result s) (has_callback s) (sc_timeout s) (run_smartconfig s) (channel_lock_time s).
Definition set_to_ds x s := mkSc (info_head s) (sconfig_info s) (ya_parse_mul s) x (ya_parse_from_ds s)
  (sc_result s) (has_callback s) (sc_timeout s) (run_smartconfig s) (channel_lock_time s).
Definition set_from_ds x s := mkSc (info_head s) (sconfig_info s) (ya_parse_mul s) (ya_parse_to_ds s) x
  (sc_result s) (has_callback s) (sc_timeout s) (run_smartconfig s) (channel_lock_time s).
Definition set_result x s := mkSc (info_head s) (sconfig_info s) (ya_parse_mul s) (ya_parse_to_ds s)
  (ya_parse_from_ds s) x (has_callback s) (sc_timeout s) (run_smartconfig s) (channel_lock_time s).
Definition set_callback x s := mkSc (info_head s) (sconfig_info s) (ya_parse_mul s) (ya_parse_to_ds s)
  (ya_parse_from_ds s) (sc_result s) x (sc_timeout s) (run_smartconfig s) (channel_lock_time s).
Definition set_timeout x s := mkSc (info_head s) (sconfig_info s) (ya_parse_mul s) (ya_parse_to_ds s)
  (ya_parse_from_ds s) (sc_result s) (has_callback s) x (run_smartconfig s) (channel_lock_time s).
Definition set_run x s := mkSc (info_head s) (sconfig_info s) (ya_parse_mul s) (ya_parse_to_ds s)
  (ya_parse_from_ds s) (sc_result s) (has_callback s) (sc_timeout s) x (channel_lock_time s).
Definition set_lock_time x s := mkSc (info_head s) (sconfig_info s) (ya_parse_mul s) (ya_parse_to_ds s)
  (ya_parse_from_ds s) (sc_result s) (has_callback s) (sc_timeout s) (run_smartconfig s) x.

Definition broadcast_mac : bytes := [0xff; 0xff; 0xff; 0xff; 0xff; 0xff].
Definition multicast_mac : bytes := [0x01; 0x00; 0x5e].
Definition channel_list : bytes := [1; 6; 11; 4; 8; 13; 2; 5; 9; 3; 7; 12; 10].
(** [len_fixed_offset[encry][0]]; the second column is not used. *)
Definition len_fixed_offset : bytes := [36; 44; 56; 52; 56].
Definition AES_KEY_SMARTCONFIG_STRING : bytes := str "ABKFnm123##&".

(** [smnt_result_t] after [memset]. *)
Definition zero_smnt : smnt_result := mkSmnt 0 0 0 (zeros 33) (zeros 65) (zeros 6) 0 (zeros 33).
Definition smnt_result_ok : Z := 0.
Definition smnt_result_overtime : Z := 4.
Definition with_status st (r : smnt_result) : smnt_result :=
  mkSmnt st (smnt_ssid_len r) (smnt_password_len r) (smnt_ssid r) (smnt_password r) (smnt_bssid r) (smnt_cloud r) (smnt_rand r).
Definition with_ssid n ssid (r : smnt_result) : smnt_result :=
  mkSmnt (smnt_result_status r) n (smnt_password_len r) ssid (smnt_password r) (smnt_bssid r) (smnt_cloud r) (smnt_rand r).
Definition with_password n pwd (r : smnt_result) : smnt_result :=
  mkSmnt (smnt_result_status r) (smnt_ssid_len r) n (smnt_ssid r) pwd (smnt_bssid r) (smnt_cloud r) (smnt_rand r).
Definition with_cloud c (r : smnt_result) : smnt_result :=
  mkSmnt (smnt_result_status r) (smnt_ssid_len r) (smnt_password_len r) (smnt_ssid r) (smnt_password r) (smnt_bssid r) c (smnt_rand r).
Definition with_bssid b (r : smnt_result) : smnt_result :=
  mkSmnt (smnt_result_status r) (smnt_ssid_len r) (smnt_password_len r) (smnt_ssid r) (smnt_password r) b (smnt_cloud r) (smnt_rand r).
Definition with_rand x (r : smnt_result) : smnt_result :=
  mkSmnt (smnt_result_status r) (smnt_ssid_len r) (smnt_password_len r) (smnt_ssid r) (smnt_password r) (smnt_bssid r) (smnt_cloud r) x.

Section SmartConfig.
(** [A]: the state of the task that started the receiver. *)
Context {C A : Type}.
Abbreviation PS := (P C (A * sc)).

Definition sgets {B} (f : sc -> B) : PS B := gets (fun s => f s.2).
Definition sputs (f : sc -> sc) : PS unit := puts (fun s => (s.1, f s.2)).
Definition live_ptr {B} (p : ptr B) : PS B :=
  match p with Live a => ret a | Null => fail NullDeref | Freed => fail UseAfterFree end.
Definition get_sconfig : PS sconfig := let* o := sgets sconfig_info in deref o.
Definition put_sconfig (i : sconfig) : PS unit := sputs (set_sconfig (Some i)).
(** [ya_hal_os_ticks_to_msec] *)
Definition now : PS Z := let* h := get_hw in ret (u32 (ticks h * portTICK_RATE_MS)).
Definition note_time : PS unit := let* t := now in sputs (set_lock_time t).

(** ** The routers heard *)
Definition sconfig_init : PS unit :=
  let* o := ya_hal_os_memory_alloc SIZEOF_ROUTER_INFO in
  let* b := deref o in
  sputs (set_head (Some [router_of_block b])) ;;
  let* o := ya_hal_os_memory_alloc SIZEOF_SCONFIG_INFO in
  let* b := deref o in
  put_sconfig (mkSconfig CHANNEL_SEARCH_START NOT_ACTIVE 60 (slice b 4 6) (slice b 10 6)).
Definition add_node_info (info : router) : PS Z :=
  let* o := sgets info_head in let* l := deref o in
  sputs (set_head (Some (l ++ [info]))) ;; ret (Z.of_nat (length l)).
(** The node after the head is freed and then read for the next one. *)
Definition free_node_info : PS unit :=
  let* o := sgets info_head in let* l := deref o in
  match l with
  | head :: [] => sputs (set_head (Some [head]))
  | _ => ya_hal_os_memory_free ;; fail UseAfterFree
  end.
Definition set_channel (ch : Z) : PS unit := emit (EvWlan "set_channel" [[ch]]).

(** The search over the list: the head node is compared like the others. *)
Definition find_router (bssid : bytes) (l : list router) : option router :=
  find (fun r => bool_decide (r_bssid r = bssid)) l.
Definition get_ap_info (bssid : option bytes) : PS (option router) :=
  let* o := sgets info_head in
  match o with
  | None => ret None
  | Some l => let* bssid := deref bssid in ret (find_router bssid l)
  end.
Definition get_ap_info_channel (bssid : bytes) : PS Z :=
  let* o := get_ap_info (Some bssid) in ret (match o with Some r => r_channel r | None => 0 end).

Definition save_aplist (ssid bssid : bytes) (channel auth pairwise group : Z) : PS Z :=
  let auth := if AUTH_TYPE_MAX <? auth then AUTH_TYPE_INVALID else auth in
  let pairwise := if ENC_TYPE_MAX <? pairwise then ENC_TYPE_INVALID else pairwise in
  let group := if ENC_TYPE_MAX <? group then ENC_TYPE_INVALID else group in
  let pairwise := if pairwise =? ENC_TYPE_TKIPAES then ENC_TYPE_AES else pairwise in
  let* known := get_ap_info (Some bssid) in
  match known with
  | Some _ => ret (-1)
  | None =>
    let* o := ya_hal_os_memory_alloc SIZEOF_ROUTER_INFO in
    let* _ := deref o in
    let* name := memcpy (zeros MAX_SSID_LEN) 0 (take (Z.to_nat (MAX_SSID_LEN - 1)) (cstr ssid)) in
    add_node_info (mkRouter auth (u8 channel) group pairwise bssid name) ;; ret 0
  end.

(** ** Reception by multicast *)

(** The test both receivers make once a length and a checksum are known: every
    byte below [key_len] received, and their sum. *)
Fixpoint key_loop (n : nat) (k f : bytes) (acc : Z) : PS (option Z) :=
  match n, k, f with
  | O, _, _ => ret (Some acc)
  | S n, x :: k, y :: f => if y =? 0 then ret None else key_loop n k f (u8 (acc + x))
  | S _, _, _ => fail OutOfBounds
  end.
Definition key_sum (p : parse) : PS (option Z) :=
  key_loop (Z.to_nat (key_len p)) (key p) (key_flag p) 0.

(** From another sender than the one locked on. *)
Definition foreign (i : sconfig) (bssid sa_mac : bytes) : bool :=
  (switchChannel i =? CHANNEL_SEARCH_END) && (negb (sa_mac ==? srcmac i) || negb (sc_bssid i ==? bssid)).
Definition lock_on (i : sconfig) (bssid sa_mac : bytes) : sconfig :=
  mkSconfig CHANNEL_SEARCH_END (findPhone i) (sc_delay i) bssid sa_mac.

(** The check after every piece that was accepted. *)
Definition check_multicast (i : sconfig) (p : parse) : PS unit :=
  if negb (key_checksum_flag p =? 0) && negb (key_len p =? 0) then
    let* r := key_sum p in
    match r with
    | Some check_cacul =>
      when (key_checksum p =? check_cacul)
        (put_sconfig (mkSconfig (switchChannel i) OK_KEY (sc_delay i) (sc_bssid i) (srcmac i)) ;;
         sputs (set_mul (Live (put_finish p))))
    | None => ret tt
    end
  else ret tt.

(** [ds_mac] is the last half of the destination address. *)
Definition ya_parse_multicast (bssid ds_mac sa_mac : bytes) (n : Z) : PS unit :=
  let* i := get_sconfig in
  if foreign i bssid sa_mac then ret tt
  else
    let* p0 := sgets ya_parse_mul in
    let* d0 := rd ds_mac 0 in let* d1 := rd ds_mac 1 in let* d2 := rd ds_mac 2 in
    let d0 := Z.land d0 0x7F in
    let tmp := u8 (d0 + d1 + d2) in
    let tmp_len_check := tmp + 1 in
    let* p := live_ptr p0 in
    if switchChannel i =? CHANNEL_SEARCH_START then
      let p := put_count (if n =? tmp_len_check then u8 (count_num p + 1) else 0) p in
      sputs (set_mul (Live p)) ;;
      when (1 <? count_num p) (put_sconfig (lock_on i bssid sa_mac))
    else if negb (n =? tmp_len_check) then ret tt
    else
      let* o :=
        if (d0 =? 0x20) && (d1 =? d2) then
          note_time ;;
          ret (if (8 <=? d1) && (d1 <=? 128) then Some (put_key_len d1 p) else None)
        else if negb (Z.land d0 0x40 =? 0) then
          note_time ;;
          let tmp := Z.land d0 0x3F in
          let* k := wr (key p) (tmp * 2) d1 in
          let* k := wr k (tmp * 2 + 1) d2 in
          let* f := wr (key_flag p) (tmp * 2) 1 in
          let* f := wr f (tmp * 2 + 1) 1 in
          ret (Some (put_key k f p))
        else if (d0 =? 0x01) && (d1 =? d2) then
          note_time ;; ret (Some (put_checksum d1 p))
        else ret None in
      match o with
      | None => ret tt
      | Some p => sputs (set_mul (Live p)) ;; check_multicast i p
      end.

(** ** Reception by broadcast *)

(** The [switch]: what a frame of length [n] means in each status; [None] is an
    early [return]. *)
Definition broadcast_symbol (b : bparse) (n : Z) : PS (option bparse) :=
  let p := b_para b in
  if status b =? SCONFIG_LEN then
    ret (if (n <? 6) || (80 <? n) then None
         else Some (mkBparse (put_index 0xff (put_key_len n p)) SCONFIG_IDLE))
  else if status b =? SCONFIG_INDEX then
    ret (if (n <? 7) || (87 <? n) then None else Some (mkBparse (put_index (n - 7) p) SCONFIG_KEY))
  else if status b =? SCONFIG_KEY then
    if (n <? 100) || (255 + 100 <? n) then ret None
    else
      let* k := wr (key p) (key_cur_index p) (n - 100) in
      let* f := wr (key_flag p) (key_cur_index p) 1 in
      ret (Some (mkBparse (put_key k f p) SCONFIG_IDLE))
  else if status b =? SCONFIG_CHK then
    ret (if (n <? 100) || (255 + 100 <? n) then None
         else Some (mkBparse (put_checksum (n - 100) p) SCONFIG_IDLE))
  else ret (Some b).

(** The check; the router must have been heard, and is used unchecked. *)
Definition check_broadcast (put : ptr bparse -> sc -> sc) (i : sconfig) (b : bparse) : PS unit :=
  let p := b_para b in
  if negb (key_checksum_flag p =? 0) && negb (key_len p =? 0) then
    let* r := key_sum p in
    match r with
    | Some check_cacul =>
      if key_checksum p =? check_cacul then
        let* ap_info := get_ap_info (Some (sc_bssid i)) in
        let* ap := deref ap_info in
        if negb (len (cstr (r_ssid ap)) =? 0) then
          sputs (put (Live (mkBparse (put_finish p) (status b)))) ;;
          put_sconfig (mkSconfig (switchChannel i) OK_KEY (sc_delay i) (sc_bssid i) (srcmac i))
        else ret tt
      else ret tt
    | None => ret tt
    end
  else ret tt.

(** [get] and [put] select [ya_parse_to_ds] or [ya_parse_from_ds]. *)
Definition ya_parse_broadcast (get : sc -> ptr bparse) (put : ptr bparse -> sc -> sc)
    (bssid sa_mac : bytes) (n : Z) : PS unit :=
  let* i := get_sconfig in
  if findPhone i =? OK_KEY then ret tt
  else if foreign i bssid sa_mac then ret tt
  else if switchChannel i =? CHANNEL_SEARCH_START then
    let* p0 := sgets get in let* b := live_ptr p0 in
    if n =? 3 then
      let p := put_count (u8 (count_num (b_para b) + 1)) (b_para b) in
      if 3 <? count_num p then
        put_sconfig (lock_on i bssid sa_mac) ;; sputs (put (Live zero_bparse))
      else sputs (put (Live (mkBparse p (status b))))
    else sputs (put (Live (mkBparse (put_count 0 (b_para b)) (status b))))
  else
    let mark st := note_time ;;
      let* p0 := sgets get in let* b := live_ptr p0 in
      sputs (put (Live (mkBparse (put_index 0xff (b_para b)) st))) in
    if n =? 1 then mark SCONFIG_LEN
    else if n =? 3 then mark SCONFIG_INDEX
    else if n =? 5 then mark SCONFIG_CHK
    else
      let* p0 := sgets get in let* b := live_ptr p0 in
      let* o := broadcast_symbol b n in
      match o with
      | None => ret tt
      | Some b => sputs (put (Live b)) ;; check_broadcast put i b
      end.

(** ** The frame callback *)
Definition wifi_80211_aplist_process (frame : bytes) : PS unit :=
  let* o := wifi_80211_get_bssid frame in
  match o with
  | None => ret tt
  | Some bssid =>
    let* '(r, ssid) := wifi_80211_get_ssid frame (len frame) (zeros 33) in
    if r <? 0 then ret tt
    else
      let* channel := wifi_80211_get_bss_channel frame (len frame) in
      let* '(_, (auth, pairwise, group)) := wifi_80211_get_cipher_info frame (len frame) in
      save_aplist ssid bssid channel auth pairwise group ;; ret tt
  end.

(** How the payload is encrypted, when the beacon did not tell; [None] is the
    early [return]. *)
Definition guess_encry (frame : bytes) (fc data n : Z) : PS (option Z) :=
  if negb (wifi_80211_has_protected fc) then ret (Some ENC_TYPE_NONE)
  else if n <? 8 then ret None
  else
    let* u3 := rd frame 3 in
    if Z.land u3 0x3F =? 0 then ret (Some ENC_TYPE_WEP)
    else
      let* d3 := rd frame (data + 3) in
      if negb (Z.land d3 0x20 =? 0) then
        let* d0 := rd frame data in let* d1 := rd frame (data + 1) in let* d2 := rd frame (data + 2) in
        let encry := if d1 =? Z.land (Z.lor d0 0x20) 0x7F then ENC_TYPE_TKIP else ENC_TYPE_INVALID in
        ret (Some (if (d2 =? 0) && (Z.land d3 0x0F =? 0) then ENC_TYPE_AES else encry))
      else ret (Some ENC_TYPE_INVALID).

Definition easyjoin_callback (frame : bytes) : PS unit :=
  let data_len := len frame in
  let* fc := frame_control frame in
  if wifi_80211_has_frags fc then ret tt
  else
    when (wifi_80211_is_beacon fc || wifi_80211_is_probe_resp fc) (wifi_80211_aplist_process frame) ;;
    let* i := get_sconfig in
    if negb (findPhone i =? NOT_ACTIVE) then ret tt
    else if negb (wifi_80211_is_data_exact fc) then ret tt
    else
      let hdrlen := wifi_80211_hdrlen fc in
      if data_len <? hdrlen then ret tt
      else
        let n := data_len - hdrlen in
        let tods := wifi_80211_has_tods fc in
        let fromds := wifi_80211_has_fromds fc in
        let* bssid_mac :=
          match wifi_80211_get_BSSID fc with
          | Some o => let* m := rdn frame o 6 in ret (Some m)
          | None => ret None
          end in
        let* da_mac := rdn frame (wifi_80211_get_DA fc) 6 in
        let* sa_mac := rdn frame (wifi_80211_get_SA fc) 6 in
        let* ap_info := get_ap_info bssid_mac in
        let encry_of r := if tods then r_encry1 r else r_encry0 r in
        let* encry :=
          match ap_info with
          | Some r => if negb (encry_of r =? ENC_TYPE_INVALID) then ret (Some (encry_of r))
                      else guess_encry frame fc hdrlen n
          | None => guess_encry frame fc hdrlen n
          end in
        match encry with
        | None => ret tt
        | Some encry =>
          let* overhead := rd len_fixed_offset encry in
          let n := n - overhead in
          if wifi_80211_is_retry fc then ret tt
          else
            let* bssid := deref bssid_mac in
            if da_mac ==? broadcast_mac then
              if tods then ya_parse_broadcast ya_parse_to_ds set_to_ds bssid sa_mac n
              else when fromds (ya_parse_broadcast ya_parse_from_ds set_from_ds bssid sa_mac n)
            else when (take 3 da_mac ==? multicast_mac) (ya_parse_multicast bssid (drop 3 da_mac) sa_mac n)
        end.

(** ** Decoding *)
Section Decode.
Context `{BlockCipher}.

(** A result under construction is the global [smnt_result]. *)
Definition upd_result (f : smnt_result -> smnt_result) : PS unit :=
  let* r := sgets sc_result in sputs (set_result (f r)).
(** [out_len < (1 + pos + buf[pos] + 1)] *)
Definition room (buf : bytes) (out_len pos : Z) : PS (option unit) :=
  let* l := rd buf pos in guard (negb (out_len <? 1 + pos + l + 1)).
(** The password at [pos]: the position after it. *)
Definition take_password (buf : bytes) (pos : Z) : PS (option Z) :=
  let* l := rd buf pos in
  let? _ := guard (negb (64 <? l)) in
  let* pwd := rdn buf (pos + 1) l in
  let* pwd := memcpy (zeros 65) 0 pwd in
  upd_result (with_password l pwd) ;;
  ret (Some (pos + 1 + l)).
(** The cloud and the two random bytes at [pos]. *)
Definition take_tail (buf : bytes) (out_len pos : Z) : PS (option (Z * Z)) :=
  let? _ := room buf out_len pos in
  let* l := rd buf pos in
  let? _ := guard (negb (l <? 3)) in
  let* cloud := rd buf (pos + 1) in
  upd_result (with_cloud cloud) ;;
  let* randA := rd buf (pos + 2) in
  let* randB := rd buf (pos + 3) in
  ret (Some (randA, randB)).
Definition decode_multicast (buf : bytes) (out_len : Z) : PS (option (Z * Z)) :=
  let* l := rd buf 0 in
  let? _ := guard (negb ((32 <? l) || (l =? 0))) in
  upd_result (fun r => with_ssid l (smnt_ssid r) r) ;;
  let? _ := guard (negb (out_len <? 1 + l + 1)) in
  let* ssid := rdn buf 1 l in
  let* ssid := memcpy (zeros 33) 0 ssid in
  upd_result (with_ssid l ssid) ;;
  let pos := 1 + l in
  let? _ := room buf out_len pos in
  let? pos := take_password buf pos in
  take_tail buf out_len pos.
Definition decode_broadcast (buf : bytes) (out_len : Z) : PS (option (Z * Z)) :=
  let? pos := take_password buf 0 in
  take_tail buf out_len pos.

(** Which receiver finished: its key and length. *)
Definition finished_key : PS (option (bytes * Z)) :=
  let* t := sgets ya_parse_to_ds in let* t := live_ptr t in
  if finish (b_para t) =? 1 then ret (Some (key (b_para t), key_len (b_para t)))
  else
    let* f := sgets ya_parse_from_ds in let* f := live_ptr f in
    if finish (b_para f) =? 1 then ret (Some (key (b_para f), key_len (b_para f)))
    else
      let* m := sgets ya_parse_mul in let* m := live_ptr m in
      ret (if finish m =? 1 then Some (key m, key_len m) else None).

(** The network name: the router's own when it was heard, else what the phone
    sent. *)
Definition choose_ssid (ap_info : option router) : PS (option unit) :=
  match ap_info with
  | Some ap =>
    let* c := rd (r_ssid ap) 0 in
    if negb (c =? 0) then
      let* ssid := strcpy (zeros 33) (r_ssid ap) in
      upd_result (with_ssid (u8 (len (cstr (r_ssid ap)))) ssid) ;; ret (Some tt)
    else ret (Some tt)
  | None =>
    let* r := sgets sc_result in
    let* c := rd (smnt_ssid r) 0 in
    guard (negb (c =? 0))
  end.

Definition decode_body (buf : bytes) : PS (option unit) :=
  let '(_, aes) := ya_mbedtls_md5 AES_KEY_SMARTCONFIG_STRING (zeros 16) in
  let iv := aes in
  let? '(p, in_len) := finished_key in
  let? _ := guard (negb (in_len =? 0)) in
  let* c := rdn p 0 in_len in
  let* '(out_len, buf) := AES_CFB_NoPadding_decrypt aes iv c buf in
  let* body := rdn buf 0 (out_len - 1) in
  let* last := rd buf (out_len - 1) in
  let? _ := guard (u8 (foldr Z.add 0 body) =? last) in
  let* i := get_sconfig in
  let* ap_info := get_ap_info (Some (sc_bssid i)) in
  sputs (set_result zero_smnt) ;;
  let* m := sgets ya_parse_mul in let* m := live_ptr m in
  let? '(randA, randB) :=
    if finish m =? 1 then decode_multicast buf out_len else decode_broadcast buf out_len in
  upd_result (with_bssid (sc_bssid i)) ;;
  let? _ := choose_ssid ap_info in
  let* r := sgets sc_result in
  let* tmp := strcpy (zeros 72) (smnt_password r) in
  let* tmp := memcpy tmp (smnt_password_len r) (HexArrayToString [randA]) in
  let* tmp := memcpy tmp (smnt_password_len r + 2) (HexArrayToString [randB]) in
  let '(_, aes) := ya_mbedtls_md5 (cstr tmp) aes in
  let* rand := memcpy (smnt_rand r) 0 (HexArrayToString aes) in
  upd_result (with_rand rand) ;;
  ret (Some tt).

Definition ya_smartconfig_decode : PS Z :=
  let* o := ya_hal_os_memory_alloc 128 in
  match o with
  | None => ret (-1)
  | Some _ =>
    let* r := decode_body (zeros 128) in
    ya_hal_os_memory_free ;;
    ret (match r with Some _ => 0 | None => -1 end)
  end.

(** ** The task *)
Context (get_result_callback : smnt_result -> P C A unit).
Definition smartconfig_finish (result_status : Z) : PS unit :=
  let* cb := sgets has_callback in
  if cb then
    upd_result (with_status result_status) ;;
    let* r := sgets sc_result in
    zoom_s fst (fun a s => (a, s.2)) (get_result_callback r)
  else ret tt.

(** The local variables of [smartconfig_task]. *)
Record task := mkTask { start_time : Z; first_time : Z; fix_channel_flag : Z; chan : Z }.
Definition zero_parsers : PS unit :=
  let* t := sgets ya_parse_to_ds in live_ptr t ;; sputs (set_to_ds (Live zero_bparse)) ;;
  let* f := sgets ya_parse_from_ds in live_ptr f ;; sputs (set_from_ds (Live zero_bparse)) ;;
  let* m := sgets ya_parse_mul in live_ptr m ;; sputs (set_mul (Live (zero_parse 128))).
Definition search_again : PS unit :=
  zero_parsers ;;
  let* i := get_sconfig in
  put_sconfig (mkSconfig CHANNEL_SEARCH_START NOT_ACTIVE (sc_delay i) (sc_bssid i) (srcmac i)).
(** From the entry to the loop. *)
Definition smartconfig_task_init : PS task :=
  emit (EvWlan "start_monitor" []) ;;
  let* t := now in
  note_time ;;
  zero_parsers ;;
  ret (mkTask t t 0 0).

(** The end of a turn: fix the channel of the router the sender uses. *)
Definition fix_channel (k : task) : PS (option task) :=
  let* i := get_sconfig in
  if (fix_channel_flag k =? 0) && (switchChannel i =? CHANNEL_SEARCH_END) then
    let* ch := get_ap_info_channel (sc_bssid i) in
    if negb (ch =? 0) then
      set_channel ch ;; ret (Some (mkTask (start_time k) (first_time k) 1 (chan k)))
    else ret (Some k)
  else ret (Some k).
(** A turn without a key: the next channel, or give up the sender after eight
    silent seconds. *)
Definition hunt (k : task) (current_time : Z) : PS task :=
  let* i := get_sconfig in
  if switchChannel i =? CHANNEL_SEARCH_START then
    note_time ;;
    if sc_delay i <=? u32 (current_time - start_time k) then
      let channel := if 12 <? chan k then 0 else chan k in
      let* ch := rd channel_list channel in
      set_channel ch ;;
      let* t := now in
      ret (mkTask t (first_time k) (fix_channel_flag k) (channel + 1))
    else ret k
  else
    let* lock := sgets channel_lock_time in
    if 8 * 1000 <? u32 (current_time - lock) then
      note_time ;; search_again ;; ret (mkTask (start_time k) (first_time k) 0 (chan k))
    else ret k.
(** One turn of the loop; [None] is [goto ejoin_out]. *)
Definition smartconfig_turn (k : task) : PS (option task) :=
  emit (EvDelay 10) ;;
  let* current_time := now in
  let* timeout := sgets sc_timeout in
  if u32 (timeout * 1000) <? u32 (current_time - first_time k) then
    emit (EvWlan "stop_monitor" []) ;; smartconfig_finish smnt_result_overtime ;; ret None
  else
    let* i := get_sconfig in
    if findPhone i =? OK_KEY then
      let* r := ya_smartconfig_decode in
      if r <? 0 then
        search_again ;; fix_channel (mkTask (start_time k) (first_time k) 0 (chan k))
      else
        emit (EvWlan "stop_monitor" []) ;; smartconfig_finish smnt_result_ok ;; ret None
    else
      let* k := hunt k current_time in fix_channel k.

(** ** Start and end of a session *)
Definition free_ptr {B} (get : sc -> ptr B) (put : ptr B -> sc -> sc) : PS unit :=
  let* p := sgets get in
  match p with
  | Null => ret tt
  | Live _ => ya_hal_os_memory_free ;; sputs (put Freed)
  | Freed => fail BadFree
  end.
Definition release : PS unit :=
  free_node_info ;;
  let* i := sgets sconfig_info in
  free_if i ;;
  free_ptr ya_parse_to_ds set_to_ds ;;
  free_ptr ya_parse_from_ds set_from_ds ;;
  free_ptr ya_parse_mul set_mul ;;
  sputs (set_head None) ;;
  sputs (set_sconfig None) ;;
  sputs (set_callback false).
Definition ejoin_out : PS unit := sputs (set_run 0) ;; release.

(** A block of the parse structs holds what the memory held. *)
Definition parse_of_block (n : nat) (b : bytes) : parse :=
  mkParse (take n b) (take n (drop n b)) (b !!! (2 * n)%nat) (b !!! (2 * n + 1)%nat) (b !!! (2 * n + 2)%nat)
    (b !!! (2 * n + 3)%nat) (b !!! (2 * n + 4)%nat) (b !!! (2 * n + 5)%nat).
Definition alloc_ptr {B} (get : sc -> ptr B) (put : ptr B -> sc -> sc) (n : Z) (view : bytes -> B) : PS unit :=
  let* p := sgets get in
  match p with
  | Null =>
    let* o := ya_hal_os_memory_alloc n in
    sputs (put (match o with Some b => Live (view b) | None => Null end))
  | _ => ret tt
  end.
(** [thread_ok]: whether the task could be created. *)
Definition start_smnt (thread_ok callback : bool) (timeout : Z) : PS Z :=
  let* run := sgets run_smartconfig in
  if negb (run =? 0) then ret (-1)
  else
    sputs (set_run 1) ;;
    when callback (sputs (set_callback true)) ;;
    sputs (set_timeout timeout) ;;
    alloc_ptr ya_parse_to_ds set_to_ds SIZEOF_BROADCAST (fun b => mkBparse (parse_of_block 80 b) (b !!! 166%nat)) ;;
    alloc_ptr ya_parse_from_ds set_from_ds SIZEOF_BROADCAST (fun b => mkBparse (parse_of_block 80 b) (b !!! 166%nat)) ;;
    alloc_ptr ya_parse_mul set_mul SIZEOF_MULTICAST (parse_of_block 128) ;;
    sconfig_init ;;
    ret (if thread_ok then 0 else -1).
Definition stop_smnt : PS Z :=
  let* run := sgets run_smartconfig in
  if run =? 0 then ret 0
  else sputs (set_run 0) ;; emit (EvWlan "stop_monitor" []) ;; release ;; ret 0.
End Decode.
End SmartConfig.
