(* ===== verification/SmartConfigProofs.v ===== *)
(** * Theorems about the smart-config receiver

    What a phone sends, and that the receiver of [SmartConfig] gets exactly
    that: whatever the order of the frames, with repetitions, and between the
    frames of any other sender. *)

From stdpp Require Import base numbers list strings.
From S2P Require Import Prelude Platform CommonFunc HalTimer UserData Aes Ieee80211 SmartConfig.

(** ** Steps of the receiver's monad *)
Section Steps.
Context {C A : Type}.
Implicit Types (a : A) (s : sc) (h : hw C) (R : (A * sc) * hw C -> Prop).

Lemma wp_sgets {B} (f : sc -> B) Q R a s h : Q (f s) (a, s, h) -> wp (sgets f) Q R (a, s, h).
Proof. done. Qed.
Lemma wp_sputs f Q R a s h : Q tt (a, f s, h) -> wp (sputs f) Q R (a, s, h).
Proof. done. Qed.
Lemma wp_get_sconfig i Q R a s h :
  sconfig_info s = Some i -> Q i (a, s, h) -> wp get_sconfig Q R (a, s, h).
Proof. intros Hi HQ. unfold wp, get_sconfig, bind, sgets, gets, deref. cbn. by rewrite Hi. Qed.
Lemma wp_put_sconfig i Q R a s h : Q tt (a, set_sconfig (Some i) s, h) -> wp (put_sconfig i) Q R (a, s, h).
Proof. done. Qed.
Lemma wp_note_time Q R a s h : (forall t, Q tt (a, set_lock_time t s, h)) -> wp note_time Q R (a, s, h).
Proof. intros HQ. apply HQ. Qed.
Lemma wp_live {B} (p : ptr B) x Q R (t : (A * sc) * hw C) : p = Live x -> Q x t -> wp (live_ptr p) Q R t.
Proof. by intros ->. Qed.
Lemma wp_get_ap_info bssid l Q R a s h :
  info_head s = Some l -> Q (find_router bssid l) (a, s, h) -> wp (get_ap_info (Some bssid)) Q R (a, s, h).
Proof. intros Hl HQ. unfold wp, get_ap_info, bind, sgets, gets, deref. cbn. by rewrite Hl. Qed.
Lemma wp_when b (m : P C (A * sc) unit) (Q : unit -> (A * sc) * hw C -> Prop) R t :
  (b = true -> wp m Q R t) -> (b = false -> Q tt t) -> wp (when b m) Q R t.
Proof. destruct b; cbn; [auto|]. intros _ HQ. by apply wp_ret, HQ. Qed.

Lemma wp_three {B} x y z (k : Z -> Z -> Z -> P C (A * sc) B) Q R t :
  wp (k x y z) Q R t ->
  wp (let* a := rd [x; y; z] 0 in let* b := rd [x; y; z] 1 in let* c := rd [x; y; z] 2 in k a b c) Q R t.
Proof. done. Qed.

(** The bytes all received: the loop computes their sum. *)
Lemma key_loop_run n : forall (k f : bytes) acc (t : (A * sc) * hw C),
  (n <= length k)%nat -> length k = length f ->
  key_loop n k f acc t = Done
    (if decide (Forall (fun y => y <> 0) (take n f)) then Some (fold_left (fun x y => u8 (x + y)) (take n k) acc) else None) t.
Proof.
  induction n as [|n IH]; intros k f acc t Hn Hl; [done|].
  destruct k as [|x k], f as [|y f]; cbn in Hn, Hl; try lia. cbn [key_loop take fold_left].
  destruct (Z.eqb_spec y 0) as [->|Hy].
  - rewrite decide_False; [done|]. intros Hf. by inversion Hf.
  - rewrite IH by lia.
    destruct (decide (Forall _ (take n f))) as [Hd|Hd], (decide (Forall _ (y :: take n f))) as [Hd1|Hd1]; try done.
    + exfalso. apply Hd1. by constructor.
    + by apply Forall_cons in Hd1 as [_ ?].
Qed.
End Steps.

(** ** What a phone sends by multicast *)

(** The sum the receiver computes. *)
Definition sum8 (k : bytes) : Z := fold_left (fun x y => u8 (x + y)) k 0.
(** The last half of a group address that carries a piece of the key [k]: its
    length, two of its bytes (the second is arbitrary after the last), or its
    sum. *)
Inductive mc_piece (k : bytes) : bytes -> Prop :=
| mc_length : mc_piece k [0x20; len k; len k]
| mc_bytes i x y : k !! (2 * i)%nat = Some x -> is_u8 y -> (forall y', k !! (2 * i + 1)%nat = Some y' -> y = y') ->
    mc_piece k [0x40 + Z.of_nat i; x; y]
| mc_sum : mc_piece k [0x01; sum8 k; sum8 k].
(** The length of the datagram that carries it. *)
Definition piece_len (ds : bytes) : Z := u8 (foldr Z.add 0 ds) + 1.
Definition mc_key (k : bytes) : Prop := is_bytes k /\ 8 <= len k <= 128.

(** The pieces received so far, and the parser's memory of them. *)
Record rx_inv (k : bytes) (seen : list bytes) (p : parse) : Prop := mkRx {
  rx_key : length (key p) = 128%nat;
  rx_flag : length (key_flag p) = 128%nat;
  rx_len : key_len p = 0 \/ key_len p = len k;
  rx_len_seen : [0x20; len k; len k] ∈ seen -> key_len p = len k;
  rx_sum : key_checksum_flag p = 0 \/ key_checksum_flag p <> 0 /\ key_checksum p = sum8 k;
  rx_sum_seen : [0x01; sum8 k; sum8 k] ∈ seen -> key_checksum_flag p <> 0;
  rx_byte : forall j x, k !! j = Some x -> key_flag p !!! j <> 0 -> key p !!! j = x;
  rx_byte_seen : forall i x y, [0x40 + Z.of_nat i; x; y] ∈ seen -> (2 * i < length k)%nat ->
    key_flag p !!! (2 * i)%nat <> 0 /\ key_flag p !!! (2 * i + 1)%nat <> 0;
  rx_len_heard : key_len p <> 0 -> [0x20; len k; len k] ∈ seen;
  rx_sum_heard : key_checksum_flag p <> 0 -> [0x01; sum8 k; sum8 k] ∈ seen;
  rx_byte_heard : forall i, (2 * i < length k)%nat -> key_flag p !!! (2 * i)%nat <> 0 -> exists x y, [0x40 + Z.of_nat i; x; y] ∈ seen;
}.
(** Everything the check needs is there. *)
Definition rx_complete (k : bytes) (p : parse) : Prop :=
  key_len p = len k /\ key_checksum_flag p <> 0 /\ Forall (fun y => y <> 0) (take (length k) (key_flag p)).

Lemma rx_inv_zero k : (length k <= 128)%nat -> rx_inv k [] (zero_parse 128).
Proof.
  intros Hk. split; cbn; try done; try (by left); try (by intros ?%elem_of_nil).
  - intros j x Hj H0. exfalso. apply H0, lookup_total_replicate_2. apply lookup_lt_Some in Hj. lia.
  - intros i x y Hin. by apply elem_of_nil in Hin.
  - intros i Hi H0. exfalso. apply H0, lookup_total_replicate_2. lia.
Qed.

(** A prefix given pointwise. *)
Lemma take_pointwise (k b : bytes) :
  (length k <= length b)%nat -> (forall j x, k !! j = Some x -> b !!! j = x) -> take (length k) b = k.
Proof.
  intros Hl Hp. apply list_eq. intros j. destruct (decide (j < length k)%nat) as [Hj|Hj].
  - rewrite lookup_take_lt by done. destruct (lookup_lt_is_Some_2 k j Hj) as [x Hx].
    rewrite Hx. rewrite (list_lookup_lookup_total_lt b j) by lia. f_equal. by apply Hp.
  - rewrite lookup_take_ge, lookup_ge_None_2 by lia. done.
Qed.
Lemma rx_prefix k seen p : rx_inv k seen p -> (length k <= 128)%nat -> rx_complete k p -> take (length k) (key p) = k.
Proof.
  intros Hi Hk (_&_&Hf). apply take_pointwise; [rewrite (rx_key _ _ _ Hi); lia|]. intros j x Hj.
  apply (rx_byte _ _ _ Hi _ _ Hj). pose proof (lookup_lt_Some _ _ _ Hj) as Hlt.
  rewrite Forall_lookup in Hf. apply (Hf j). rewrite lookup_take_lt by done.
  apply list_lookup_lookup_total_lt. rewrite (rx_flag _ _ _ Hi). lia.
Qed.
(** All pieces seen: the check succeeds. *)
Definition all_pieces (k : bytes) (seen : list bytes) : Prop :=
  [0x20; len k; len k] ∈ seen /\ [0x01; sum8 k; sum8 k] ∈ seen /\
  forall i, (2 * i < length k)%nat -> exists x y, [0x40 + Z.of_nat i; x; y] ∈ seen.
Lemma all_pieces_complete k seen p : rx_inv k seen p -> (length k <= 128)%nat -> all_pieces k seen -> rx_complete k p.
Proof.
  intros Hi Hk (H1&H2&H3). split; [by apply Hi|]. split; [by apply Hi|].
  apply Forall_lookup. intros j y Hj. pose proof (lookup_lt_Some _ _ _ Hj) as Hlt. rewrite length_take in Hlt.
  rewrite lookup_take_lt in Hj by lia. apply list_lookup_total_correct in Hj.
  destruct (H3 (j / 2)%nat) as (x&z&Hin).
  { pose proof (Nat.Div0.mul_div_le j 2). lia. }
  destruct (rx_byte_seen _ _ _ Hi _ _ _ Hin) as [E0 E1].
  { pose proof (Nat.Div0.mul_div_le j 2). lia. }
  pose proof (Nat.div_mod_eq j 2) as Hd. pose proof (Nat.mod_upper_bound j 2). 
  destruct (decide (j = 2 * (j / 2))%nat) as [Ej|Ej]; [rewrite <- Ej in E0; congruence|].
  assert (Ej1 : j = (2 * (j / 2) + 1)%nat) by lia. rewrite <- Ej1 in E1. congruence.
Qed.
(** And it succeeds on nothing less. *)
Lemma complete_all_pieces k seen p : rx_inv k seen p -> 8 <= len k <= 128 -> rx_complete k p -> all_pieces k seen.
Proof.
  intros Hi Hk (El&Es&Hf). split; [apply Hi; lia|]. split; [by apply Hi|]. intros i Hl. apply (rx_byte_heard _ _ _ Hi); [done|].
  rewrite Forall_lookup in Hf. apply (Hf (2 * i)%nat). rewrite lookup_take_lt by done.
  apply list_lookup_lookup_total_lt. rewrite (rx_flag _ _ _ Hi). unfold len in Hk. lia.
Qed.
Lemma all_pieces_perm k seen seen' : (forall d, d ∈ seen -> d ∈ seen') -> all_pieces k seen -> all_pieces k seen'.
Proof. intros Hs (H1&H2&H3). split; [auto|]. split; [auto|]. intros i Hi. destruct (H3 i Hi) as (x&y&Hd). eauto. Qed.

(** What of the receiver a data frame does not touch. *)
Definition same_rest (s s' : sc) : Prop :=
  info_head s' = info_head s /\ ya_parse_to_ds s' = ya_parse_to_ds s /\ ya_parse_from_ds s' = ya_parse_from_ds s /\
  sc_result s' = sc_result s /\ has_callback s' = has_callback s /\ sc_timeout s' = sc_timeout s /\
  run_smartconfig s' = run_smartconfig s.
Lemma same_rest_refl s : same_rest s s.
Proof. done. Qed.
Lemma same_rest_trans s1 s2 s3 : same_rest s1 s2 -> same_rest s2 s3 -> same_rest s1 s3.
Proof. unfold same_rest. intuition congruence. Qed.

(** Locked on a sender. *)
Definition locked (bssid sa : bytes) (i : sconfig) : Prop :=
  switchChannel i = CHANNEL_SEARCH_END /\ sc_bssid i = bssid /\ srcmac i = sa.
Lemma locked_own bssid sa i : locked bssid sa i -> foreign i bssid sa = false.
Proof.
  intros (E1&E2&E3). unfold foreign. rewrite E1, E2, E3. rewrite !bool_decide_true by done. done.
Qed.
Lemma locked_foreign bssid sa bssid' sa' i :
  locked bssid sa i -> sa' <> sa \/ bssid' <> bssid -> foreign i bssid' sa' = true.
Proof.
  intros (E1&E2&E3) Hd. unfold foreign. rewrite E1, E2, E3. cbn [CHANNEL_SEARCH_END Z.eqb andb].
  destruct Hd as [Hd|Hd]; [rewrite bool_decide_false by done; done|].
  rewrite (bool_decide_false (bssid = bssid')) by congruence. by rewrite orb_true_r.
Qed.

(** Receiving the key [k] by multicast: finished with it, or still collecting. *)
Definition rx_state (k : bytes) (seen : list bytes) (i : sconfig) (p : parse) : Prop :=
  (findPhone i = OK_KEY /\ finish p = 1 /\ take (length k) (key p) = k /\ key_len p = len k /\ all_pieces k seen) \/
  (findPhone i = NOT_ACTIVE /\ finish p = 0 /\ rx_inv k seen p /\ ~ rx_complete k p).
Definition rx_done (k : bytes) (seen : list bytes) (i : sconfig) (p : parse) : Prop :=
  findPhone i = OK_KEY /\ finish p = 1 /\ take (length k) (key p) = k /\ key_len p = len k /\ all_pieces k seen.
Lemma rx_done_more k seen more i p : rx_done k seen i p -> rx_done k (more ++ seen) i p.
Proof. intros (?&?&?&?&Ha). split_and!; try done. eapply all_pieces_perm; [|done]. intros d Hd. apply elem_of_app. by right. Qed.
Definition receiving (k bssid sa : bytes) (seen : list bytes) (s : sc) : Prop :=
  exists i p, sconfig_info s = Some i /\ locked bssid sa i /\ ya_parse_mul s = Live p /\ rx_state k seen i p.

Lemma piece_index i : 0 <= i < 64 ->
  Z.land (0x40 + i) 0x7F = 0x40 + i /\ Z.land (0x40 + i) 0x40 <> 0 /\ Z.land (0x40 + i) 0x3F = i.
Proof.
  intros Hi. assert (Hc : forallb (fun i => (Z.land (0x40 + i) 0x7F =? 0x40 + i) && negb (Z.land (0x40 + i) 0x40 =? 0)
    && (Z.land (0x40 + i) 0x3F =? i)) (seqZ 0 64) = true) by (vm_compute; reflexivity).
  rewrite forallb_forall in Hc. specialize (Hc i). rewrite !andb_true_iff, negb_true_iff, !Z.eqb_eq, Z.eqb_neq in Hc.
  destruct Hc as [[? ?] ?]; [apply list_elem_of_In, elem_of_seqZ; lia|done].
Qed.

Section Multicast.
Context {C A : Type}.
Implicit Types (a : A) (s : sc) (h : hw C).

(** The check at the end of an accepted piece. *)
Lemma wp_check_multicast k seen i p (Q : unit -> (A * sc) * hw C -> Prop) R a s h :
  mc_key k -> rx_inv k seen p -> finish p = 0 -> findPhone i = NOT_ACTIVE -> sconfig_info s = Some i ->
  ya_parse_mul s = Live p ->
  (forall i' p' s', sconfig_info s' = Some i' -> ya_parse_mul s' = Live p' -> same_rest s s' ->
     (forall b sa, locked b sa i -> locked b sa i') -> rx_state k seen i' p' -> Q tt (a, s', h)) ->
  wp (check_multicast i p) Q R (a, s, h).
Proof.
  intros [Hkb Hk] Hi Hf Hn Hs Hm HQ. unfold check_multicast.
  assert (Hlk : (8 <= length k <= 128)%nat) by (unfold len in Hk; lia).
  assert (Hquiet : ~ rx_complete k p -> wp (ret tt) Q R (a, s, h)).
  { intros Hnc. apply wp_ret, (HQ i p s); try done. by right. }
  apply wp_if; intros E.
  - apply andb_true_iff in E as [E1%negb_true_iff%Z.eqb_neq E2%negb_true_iff%Z.eqb_neq].
    destruct (rx_len _ _ _ Hi) as [?|El]; [done|]. destruct (rx_sum _ _ _ Hi) as [?|[_ Es]]; [done|].
    wstep. unfold key_sum. eapply wp_done.
    { apply key_loop_run; rewrite ?(rx_key _ _ _ Hi), ?(rx_flag _ _ _ Hi); [|done].
      rewrite El. unfold len. lia. }
    rewrite El. unfold len. rewrite Nat2Z.id. case_decide as Hd.
    + assert (Hc : rx_complete k p) by done. pose proof (rx_prefix _ _ _ Hi ltac:(lia) Hc) as Hp. rewrite Hp.
      fold (sum8 k). rewrite Es, Z.eqb_refl. cbn [when]. wstep. apply wp_put_sconfig, wp_sputs.
      eapply HQ; [done|done|done| |].
      * intros b sa (?&?&?). done.
      * left. split_and!; try done. by eapply complete_all_pieces.
    + apply Hquiet. intros (_&_&?). done.
  - apply Hquiet. intros (E1&E2&_). apply andb_false_iff in E as [E|E]; apply negb_false_iff, Z.eqb_eq in E; [done|].
    lia.
Qed.
End Multicast.

Ltac cons_seen H := apply elem_of_cons in H as [H|H]; [first [injection H; intros; lia | discriminate H | idtac]|].
Lemma rx_put_len k seen p : mc_key k -> rx_inv k seen p -> rx_inv k ([0x20; len k; len k] :: seen) (put_key_len (len k) p).
Proof.
  intros _ Hi. destruct Hi. split; cbn; try done; try (by right).
  - intros H. cons_seen H. auto.
  - intros i x y H. cons_seen H. by eapply rx_byte_seen0.
  - intros ?. first [left | right; auto].
  - intros ?. first [left | right; auto].
  - intros i Hl Hf. destruct (rx_byte_heard0 i Hl Hf) as (x&y&?). exists x, y. by right.
Qed.
Lemma rx_put_sum k seen p : rx_inv k seen p -> rx_inv k ([0x01; sum8 k; sum8 k] :: seen) (put_checksum (sum8 k) p).
Proof.
  intros Hi. destruct Hi. split; cbn; try done; try (by right).
  - intros H. cons_seen H. auto.
  - intros i x y H. cons_seen H. by eapply rx_byte_seen0.
  - intros ?. first [left | right; auto].
  - intros ?. first [left | right; auto].
  - intros i Hl Hf. destruct (rx_byte_heard0 i Hl Hf) as (x&y&?). exists x, y. by right.
Qed.
(** Two neighbouring cells written. *)
Lemma lookup_two (b : bytes) i x y j : (2 * i + 1 < length b)%nat ->
  <[(2 * i + 1)%nat := y]> (<[(2 * i)%nat := x]> b) !!! j =
    if decide (j = 2 * i + 1)%nat then y else if decide (j = 2 * i)%nat then x else b !!! j.
Proof.
  intros Hl. destruct (decide (j = 2 * i + 1)%nat) as [->|H1].
  - rewrite list_lookup_total_insert_eq; [done|]. rewrite length_insert. lia.
  - rewrite list_lookup_total_insert_ne by done. destruct (decide (j = 2 * i)%nat) as [->|H2].
    + rewrite list_lookup_total_insert_eq; [done|lia].
    + by rewrite list_lookup_total_insert_ne by done.
Qed.
Lemma rx_put_bytes k seen p i x y :
  (length k <= 128)%nat -> k !! (2 * i)%nat = Some x -> (forall y', k !! (2 * i + 1)%nat = Some y' -> y = y') ->
  rx_inv k seen p ->
  rx_inv k ([0x40 + Z.of_nat i; x; y] :: seen)
    (put_key (<[(2 * i + 1)%nat := y]> (<[(2 * i)%nat := x]> (key p)))
             (<[(2 * i + 1)%nat := 1]> (<[(2 * i)%nat := 1]> (key_flag p))) p).
Proof.
  intros Hk Hx Hy Hi. pose proof (lookup_lt_Some _ _ _ Hx). destruct Hi.
  split; cbn [key key_flag key_len key_checksum key_checksum_flag put_key]; rewrite ?length_insert; try done.
  - intros H1. cons_seen H1. auto.
  - intros H1. cons_seen H1. auto.
  - intros j z Hj. rewrite !lookup_two by lia.
    destruct (decide (j = 2 * i + 1)%nat) as [->|]; [auto|].
    destruct (decide (j = 2 * i)%nat) as [->|]; [congruence|]. by apply rx_byte0.
  - intros i' x' y' H1 Hi'. rewrite !lookup_two by lia.
    apply elem_of_cons in H1 as [H1|H1].
    + injection H1 as Ei _ _. assert (i' = i) as -> by lia.
      split; repeat case_decide; lia.
    + destruct (rx_byte_seen0 _ _ _ H1 Hi'). split; repeat case_decide; done || lia.
  - intros ?. right. auto.
  - intros ?. right. auto.
  - intros i' Hl. rewrite lookup_two by lia. destruct (decide (2 * i' = 2 * i + 1)%nat); [lia|]. destruct (decide (2 * i' = 2 * i)%nat) as [E|].
    + assert (i' = i) as -> by lia. intros _. exists x, y. left.
    + intros Hf. destruct (rx_byte_heard0 i' Hl Hf) as (x'&y'&?). exists x', y'. by right.
Qed.

Section MulticastStep.
Context {C A : Type}.
Implicit Types (a : A) (s : sc) (h : hw C).

(** A piece of the key from the sender the receiver is locked on. *)
Lemma wp_multicast_own k bssid sa seen ds (Q : unit -> (A * sc) * hw C -> Prop) R a s h i p :
  mc_key k -> mc_piece k ds -> sconfig_info s = Some i -> locked bssid sa i -> ya_parse_mul s = Live p ->
  findPhone i = NOT_ACTIVE -> finish p = 0 -> rx_inv k seen p ->
  (forall s', same_rest s s' -> receiving k bssid sa (ds :: seen) s' -> Q tt (a, s', h)) ->
  wp (ya_parse_multicast bssid ds sa (piece_len ds)) Q R (a, s, h).
Proof.
  intros Hk Hd Hs Hl Hm Hn Hf Hi HQ. unfold ya_parse_multicast.
  assert (Hlk : (8 <= length k <= 128)%nat) by (destruct Hk as [_ Hk]; unfold len in Hk; lia).
  wstep. eapply wp_get_sconfig; [done|]. rewrite locked_own by done. wstep. apply wp_sgets. rewrite Hm.
  assert (Htail : forall p' t, rx_inv k (ds :: seen) p' -> finish p' = 0 ->
    wp (sputs (set_mul (Live p')) ;; check_multicast i p') Q R (a, set_lock_time t s, h)).
  { intros p' t Hi' Hf'. wstep. apply wp_sputs. eapply wp_check_multicast; try done.
    intros i' p'' s' E1 E2 Hr Hlk' Hrx. apply HQ; [done|]. exists i', p''. split; [done|]. auto. }
  pose proof Hl as (Hsw&_&_).
  assert (Hend : (switchChannel i =? CHANNEL_SEARCH_START) = false) by (by rewrite Hsw).
  destruct Hd as [|j x y Hx Hyu Hy|]; apply wp_three.
  - wstep. eapply wp_live; [done|]. rewrite Hend.
    change (Z.land 32 127) with 32. replace (piece_len [32; len k; len k]) with (u8 (32 + len k + len k) + 1)
      by (unfold piece_len; cbn [foldr]; do 2 f_equal; lia).
    rewrite !Z.eqb_refl. cbn [negb andb]. wstep. wstep.
    apply wp_note_time. intros t. apply wp_ret.
    destruct Hk as [Hkb Hk]. rewrite (proj2 (Z.leb_le 8 (len k))), (proj2 (Z.leb_le (len k) 128)) by lia. cbn [andb].
    apply Htail; [by apply rx_put_len|done].
  - assert (Hj : 0 <= Z.of_nat j < 64) by (apply lookup_lt_Some in Hx; lia).
    destruct (piece_index _ Hj) as (L1&L2&L3).
    assert (Hxu : is_u8 x) by (destruct Hk as [Hkb _]; by eapply Forall_lookup_1 in Hkb).
    wstep. eapply wp_live; [done|]. rewrite Hend, L1.
    replace (piece_len [0x40 + Z.of_nat j; x; y]) with (u8 (0x40 + Z.of_nat j + x + y) + 1)
      by (unfold piece_len; cbn [foldr]; do 2 f_equal; lia).
    rewrite Z.eqb_refl. cbn [negb]. wstep.
    destruct (Z.eqb_spec (0x40 + Z.of_nat j) 0x20); [lia|]. cbn [andb].
    rewrite (proj2 (Z.eqb_neq _ _) L2). cbn [negb]. wstep. apply wp_note_time. intros t. rewrite L3.
    assert (Hlen1 : len (key p) = 128) by (unfold len; by rewrite (rx_key _ _ _ Hi)).
    assert (Hlen2 : len (key_flag p) = 128) by (unfold len; by rewrite (rx_flag _ _ _ Hi)).
    wstep. wstep. wstep. wstep; [rewrite len_insert; lia|]. wstep. wstep. wstep. wstep; [rewrite len_insert; lia|].
    apply wp_ret. rewrite (u8_small x), (u8_small y) by done. change (u8 1) with 1.
    replace (Z.to_nat (Z.of_nat j * 2)) with (2 * j)%nat by lia.
    replace (Z.to_nat (Z.of_nat j * 2 + 1)) with (2 * j + 1)%nat by lia.
    apply Htail; [|done]. apply rx_put_bytes; done || lia.
  - wstep. eapply wp_live; [done|]. rewrite Hend.
    change (Z.land 1 127) with 1. replace (piece_len [1; sum8 k; sum8 k]) with (u8 (1 + sum8 k + sum8 k) + 1)
      by (unfold piece_len; cbn [foldr]; do 2 f_equal; lia).
    rewrite !Z.eqb_refl. change (Z.land 1 64 =? 0) with true. change (1 =? 32) with false. cbn [andb negb].
    wstep. wstep. apply wp_note_time. intros t. apply wp_ret.
    apply Htail; [by apply rx_put_sum|done].
Qed.

(** Frames of another sender, or a piece whose length does not agree, leave the
    receiver as it is. *)
Lemma wp_multicast_other bssid sa bssid' sa' ds n (Q : unit -> (A * sc) * hw C -> Prop) R a s h i :
  sconfig_info s = Some i -> locked bssid sa i -> sa' <> sa \/ bssid' <> bssid ->
  Q tt (a, s, h) -> wp (ya_parse_multicast bssid' ds sa' n) Q R (a, s, h).
Proof.
  intros Hs Hl Hd HQ. unfold ya_parse_multicast. wstep. eapply wp_get_sconfig; [done|].
  erewrite locked_foreign by done. by apply wp_ret.
Qed.
Lemma wp_broadcast_other get put bssid sa bssid' sa' n (Q : unit -> (A * sc) * hw C -> Prop) R a s h i :
  sconfig_info s = Some i -> locked bssid sa i -> sa' <> sa \/ bssid' <> bssid ->
  Q tt (a, s, h) -> wp (ya_parse_broadcast get put bssid' sa' n) Q R (a, s, h).
Proof.
  intros Hs Hl Hd HQ. unfold ya_parse_broadcast. wstep. eapply wp_get_sconfig; [done|].
  apply wp_if; intros _; [by apply wp_ret|]. erewrite locked_foreign by done. by apply wp_ret.
Qed.
End MulticastStep.

(** ** Data frames as they are on the air *)
Record air := mkAir {
  to_ds : bool; protected : bool; retry : bool; qos : bool;
  a_bssid : bytes; a_sa : bytes; a_da : bytes; duration : bytes; seq_ctrl : bytes; qos_ctrl : bytes; body : bytes }.
Definition air_fc (x : air) : bytes :=
  [if qos x then 0x88 else 0x08;
   (if to_ds x then 1 else 2) + (if protected x then 0x40 else 0) + (if retry x then 8 else 0)].
Definition frame_of (x : air) : bytes :=
  air_fc x ++ duration x
  ++ (if to_ds x then a_bssid x ++ a_sa x ++ a_da x else a_da x ++ a_bssid x ++ a_sa x)
  ++ seq_ctrl x ++ (if qos x then qos_ctrl x else []) ++ body x.
Definition air_wf (x : air) : Prop :=
  len (a_bssid x) = 6 /\ len (a_sa x) = 6 /\ len (a_da x) = 6 /\ len (duration x) = 2 /\ len (seq_ctrl x) = 2 /\
  len (qos_ctrl x) = 2.

(** What the encryption of its router adds to the datagram: [None] when the
    receiver would have to guess. *)
Definition air_encry (x : air) (r : router) : Z := if to_ds x then r_encry1 r else r_encry0 r.
Definition overhead_of (l : list router) (x : air) : option Z :=
  let plain := if protected x then None else Some 36 in
  match find_router (a_bssid x) l with
  | Some r => if air_encry x r =? ENC_TYPE_INVALID then plain
              else if (0 <=? air_encry x r) && (air_encry x r <=? ENC_TYPE_MAX)
                   then Some (len_fixed_offset !!! Z.to_nat (air_encry x r)) else None
  | None => plain
  end.

Section Air.
Context {C A : Type}.
Implicit Types (a : A) (s : sc) (h : hw C).

Definition air_val (x : air) : Z :=
  (if qos x then 0x88 else 0x08)
  + 256 * ((if to_ds x then 1 else 2) + (if protected x then 0x40 else 0) + (if retry x then 8 else 0)).
Lemma air_frame_control x (t : (A * sc) * hw C) : frame_control (frame_of x) t = Done (air_val x) t.
Proof.
  unfold frame_control, frame_of, air_fc. cbn [List.app].
  erewrite bind_done by (by eapply (rd_at _ [])). erewrite bind_done by (by eapply (rd_at _ [_])). done.
Qed.
(** What the header bits say. *)
Lemma air_bits x : let fc := air_val x in
  wifi_80211_has_frags fc = false /\ wifi_80211_is_beacon fc = false /\ wifi_80211_is_probe_resp fc = false /\
  wifi_80211_is_data_exact fc = true /\ wifi_80211_hdrlen fc = (if qos x then 26 else 24) /\
  wifi_80211_has_tods fc = to_ds x /\ wifi_80211_has_fromds fc = negb (to_ds x) /\
  wifi_80211_get_BSSID fc = Some (if to_ds x then 4 else 10) /\
  wifi_80211_get_DA fc = (if to_ds x then 16 else 4) /\ wifi_80211_get_SA fc = (if to_ds x then 10 else 16) /\
  wifi_80211_has_protected fc = protected x /\ wifi_80211_is_retry fc = retry x.
Proof. unfold air_val. destruct (to_ds x), (protected x), (retry x), (qos x); vm_compute; repeat split. Qed.

Lemma air_len x : air_wf x -> len (frame_of x) = (if qos x then 26 else 24) + len (body x).
Proof.
  intros (?&?&?&?&?&?). unfold frame_of, air_fc. destruct (to_ds x), (qos x); rewrite !len_app; cbn [len length Z.of_nat];
    change (len [_; _]) with 2; change (len []) with 0; lia.
Qed.
(** The three addresses, where the header says they are. *)
Lemma air_addresses x (t : (A * sc) * hw C) : air_wf x ->
  rdn (frame_of x) (if to_ds x then 4 else 10) 6 t = Done (a_bssid x) t /\
  rdn (frame_of x) (if to_ds x then 16 else 4) 6 t = Done (a_da x) t /\
  rdn (frame_of x) (if to_ds x then 10 else 16) 6 t = Done (a_sa x) t.
Proof.
  intros (Hb&Hs&Hd&Hu&Hq&Hc). unfold frame_of.
  set (rest := seq_ctrl x ++ (if qos x then qos_ctrl x else []) ++ body x).
  assert (Hf : len (air_fc x ++ duration x) = 4) by (rewrite len_app; change (len (air_fc x)) with 2; lia).
  assert (Hat : forall p1 p2 p3 : bytes, len p1 = 6 -> len p2 = 6 -> len p3 = 6 ->
    rdn (air_fc x ++ duration x ++ (p1 ++ p2 ++ p3) ++ rest) 4 6 t = Done p1 t /\
    rdn (air_fc x ++ duration x ++ (p1 ++ p2 ++ p3) ++ rest) 10 6 t = Done p2 t /\
    rdn (air_fc x ++ duration x ++ (p1 ++ p2 ++ p3) ++ rest) 16 6 t = Done p3 t).
  { intros p1 p2 p3 H1 H2 H3. split; [|split].
    - apply (rdn_at _ (air_fc x ++ duration x) p1 (p2 ++ p3 ++ rest)); [by rewrite <- !app_assoc|lia|lia].
    - apply (rdn_at _ ((air_fc x ++ duration x) ++ p1) p2 (p3 ++ rest)); [by rewrite <- !app_assoc|rewrite len_app; lia|lia].
    - apply (rdn_at _ ((air_fc x ++ duration x) ++ p1 ++ p2) p3 rest); [by rewrite <- !app_assoc|rewrite len_app, Hf, len_app; lia|lia]. }
  destruct (to_ds x).
  - destruct (Hat _ _ _ Hb Hs Hd) as (?&?&?). done.
  - destruct (Hat _ _ _ Hd Hb Hs) as (?&?&?). done.
Qed.

(** The callback on a data frame, while a phone is looked for. *)
Definition on_data (x : air) (n : Z) : P C (A * sc) unit :=
  if retry x then ret tt
  else if a_da x ==? broadcast_mac then
    if to_ds x then ya_parse_broadcast ya_parse_to_ds set_to_ds (a_bssid x) (a_sa x) n
    else when true (ya_parse_broadcast ya_parse_from_ds set_from_ds (a_bssid x) (a_sa x) n)
  else when (take 3 (a_da x) ==? multicast_mac) (ya_parse_multicast (a_bssid x) (drop 3 (a_da x)) (a_sa x) n).
Lemma wp_callback_data x i l o (Q : unit -> (A * sc) * hw C -> Prop) R a s h :
  air_wf x -> sconfig_info s = Some i -> findPhone i = NOT_ACTIVE -> info_head s = Some l ->
  overhead_of l x = Some o ->
  wp (on_data x (len (body x) - o)) Q R (a, s, h) -> wp (easyjoin_callback (frame_of x)) Q R (a, s, h).
Proof.
  intros Hw Hi Hf Hl Ho HQ. unfold easyjoin_callback.
  destruct (air_bits x) as (B1&B2&B3&B4&B5&B6&B7&B8&B9&B10&B11&B12). cbv zeta in *.
  destruct (air_addresses x (a, s, h) Hw) as (D1&D2&D3).
  wstep. eapply wp_done; [apply air_frame_control|]. rewrite B1, B2, B3. cbn [orb when]. wstep. apply wp_ret.
  wstep. eapply wp_get_sconfig; [done|]. rewrite Hf. cbn [NOT_ACTIVE Z.eqb negb].
  rewrite B4, B5, air_len by done. cbn [negb]. pose proof (len_nonneg (body x)).
  destruct (Z.ltb_spec ((if qos x then 26 else 24) + len (body x)) (if qos x then 26 else 24)); [destruct (qos x); lia|].
  rewrite B8. wstep. wstep. eapply wp_done; [done|]. apply wp_ret. rewrite B9, B10.
  wstep. eapply wp_done; [done|]. wstep. eapply wp_done; [done|]. wstep. eapply wp_get_ap_info; [done|].
  rewrite B6, B7.
  assert (Hfin : forall e, (0 <= e < 5) -> len_fixed_offset !!! Z.to_nat e = o ->
    wp (let* overhead := rd len_fixed_offset e in
        if wifi_80211_is_retry (air_val x) then ret tt
        else let* bssid := deref (Some (a_bssid x)) in
          if a_da x ==? broadcast_mac then
            if to_ds x then ya_parse_broadcast ya_parse_to_ds set_to_ds bssid (a_sa x)
              ((if qos x then 26 else 24) + len (body x) - (if qos x then 26 else 24) - overhead)
            else when (negb (to_ds x)) (ya_parse_broadcast ya_parse_from_ds set_from_ds bssid (a_sa x)
              ((if qos x then 26 else 24) + len (body x) - (if qos x then 26 else 24) - overhead))
          else when (take 3 (a_da x) ==? multicast_mac) (ya_parse_multicast bssid (drop 3 (a_da x)) (a_sa x)
              ((if qos x then 26 else 24) + len (body x) - (if qos x then 26 else 24) - overhead))) Q R (a, s, h)).
  { intros e He Eo. wstep. wstep; [change (len len_fixed_offset) with 5; lia|]. rewrite Eo, B12.
    replace ((if qos x then 26 else 24) + len (body x) - (if qos x then 26 else 24) - o) with (len (body x) - o) by lia.
    unfold on_data in HQ. destruct (retry x); [done|]. wstep. eapply wp_deref; [done|].
    destruct (a_da x ==? broadcast_mac); [|done]. destruct (to_ds x); done. }
  assert (Hplain : (if protected x then None else Some 36) = Some o ->
    wp (guess_encry (frame_of x) (air_val x) (if qos x then 26 else 24)
          ((if qos x then 26 else 24) + len (body x) - (if qos x then 26 else 24)))
       (fun e t => e = Some ENC_TYPE_NONE /\ o = 36 /\ t = (a, s, h)) R (a, s, h)).
  { intros Ep. unfold guess_encry. rewrite B11. destruct (protected x); [done|]. injection Ep as <-. by apply wp_ret. }
  unfold overhead_of in Ho. wstep.
  destruct (find_router (a_bssid x) l) as [r|].
  - fold (air_encry x r). destruct (Z.eqb_spec (air_encry x r) ENC_TYPE_INVALID) as [E|E]; cbn [negb].
    + eapply wp_mono; [by apply Hplain| |done]. intros e t (->&->&->). by apply Hfin.
    + apply wp_ret. destruct (Z.leb_spec 0 (air_encry x r)), (Z.leb_spec (air_encry x r) ENC_TYPE_MAX); try done.
      injection Ho as Ho. apply Hfin; [unfold ENC_TYPE_MAX in *; lia|done].
  - eapply wp_mono; [by apply Hplain| |done]. intros e t (->&->&->). by apply Hfin.
Qed.
(** ... and once a key was found. *)
Lemma callback_data_done x i a s h :
  sconfig_info s = Some i -> findPhone i <> NOT_ACTIVE ->
  easyjoin_callback (frame_of x) (a, s, h) = Done tt (a, s, h).
Proof.
  intros Hi Hf. unfold easyjoin_callback. destruct (air_bits x) as (B1&B2&B3&_). cbv zeta in *.
  erewrite bind_done by apply air_frame_control. rewrite B1, B2, B3. cbn [orb when].
  erewrite bind_done by done. unfold get_sconfig. erewrite bind_done.
  2:{ unfold bind, sgets, gets, deref. cbn. by rewrite Hi. }
  by rewrite (proj2 (Z.eqb_neq _ _) Hf).
Qed.
End Air.

(** ** Beacons and other frames *)

(** A router in the list: known encryption types and a terminated name. *)
Definition heard_ok (r : router) : Prop :=
  enc_type (r_encry0 r) /\ enc_type (r_encry1 r) /\ len (r_ssid r) = 33 /\ is_bytes (r_ssid r) /\ 0 ∈ r_ssid r.
Definition fc_of (f : bytes) : Z := f !!! 0%nat + 256 * f !!! 1%nat.
Definition is_announcement (f : bytes) : bool := wifi_80211_is_beacon (fc_of f) || wifi_80211_is_probe_resp (fc_of f).

Section Beacons.
Context {C A : Type}.
Implicit Types (a : A) (s : sc) (h : hw C).

Lemma wp_frame_control f (Q : Z -> (A * sc) * hw C -> Prop) R t :
  2 <= len f -> Q (fc_of f) t -> wp (frame_control f) Q R t.
Proof. intros Hl HQ. unfold frame_control. wstep. wstep. wstep. wstep. by apply wp_ret. Qed.

(** The lists of routers the receiver goes through: they only grow. *)
Lemma wp_save_aplist ssid bssid channel auth pairwise group l (Q : Z -> (A * sc) * hw C -> Prop) R a s h :
  info_head s = Some l -> heap h = [] -> is_bytes ssid -> enc_type pairwise -> enc_type group -> Forall heard_ok l ->
  (forall e r h', moved (Z.of_nat (length e)) h h' -> Forall heard_ok (l ++ e) ->
     Q r (a, set_head (Some (l ++ e)) s, h')) ->
  wp (save_aplist ssid bssid channel auth pairwise group) Q R (a, s, h).
Proof.
  intros Hl Hh Hs Hp Hg Hok HQ. unfold save_aplist. wstep. eapply wp_get_ap_info; [done|].
  destruct (find_router bssid l) as [r|].
  { apply wp_ret. specialize (HQ [] (-1) h (moved_refl h)). rewrite app_nil_r in HQ.
    replace s with (set_head (Some l) s) by (rewrite <- Hl; by destruct s). by apply HQ. }
  wstep. apply wp_alloc_moved; [done| |intros h' [E|E]; done].
  intros b h1 _ _ M1. wstep. eapply wp_deref; [done|].
  assert (Hn : len (take (Z.to_nat (MAX_SSID_LEN - 1)) (cstr ssid)) <= 32)
    by (unfold len; rewrite length_take; change (Z.to_nat (MAX_SSID_LEN - 1)) with 32%nat; lia).
  assert (Hz : len (zeros MAX_SSID_LEN) = 33) by reflexivity.
  wstep. wstep. wstep. unfold add_node_info. wstep. apply wp_sgets. rewrite Hl. wstep. eapply wp_deref; [done|].
  wstep. apply wp_sputs. apply wp_ret, wp_ret.
  apply (HQ [_]); [by destruct M1|]. apply Forall_app. split; [done|]. apply Forall_singleton.
  set (nm := take (Z.to_nat (MAX_SSID_LEN - 1)) (cstr ssid)) in *.
  assert (Hclamp : forall e, enc_type e -> enc_type (if ENC_TYPE_MAX <? e then ENC_TYPE_INVALID else e)).
  { intros e [->|He]; [by left|]. destruct (Z.ltb_spec ENC_TYPE_MAX e); [by left|by right]. }
  unfold heard_ok. cbn [r_encry0 r_encry1 r_ssid]. split; [by apply Hclamp|]. split.
  { specialize (Hclamp _ Hp). destruct (_ =? ENC_TYPE_TKIPAES); [right; unfold ENC_TYPE_AES, ENC_TYPE_MAX; lia|done]. }
  split; [rewrite len_splice; lia|]. split.
  - apply is_bytes_splice; [apply is_bytes_zeros|]. by apply Forall_take, is_bytes_cstr.
  - unfold splice. apply elem_of_app. right. apply elem_of_app. right.
    apply (list_elem_of_lookup_2 _ (32 - length nm)). rewrite lookup_drop. unfold zeros.
    apply lookup_replicate_2. unfold len, MAX_SSID_LEN in *. lia.
Qed.

Lemma wp_aplist_process f l (Q : unit -> (A * sc) * hw C -> Prop) R a s h :
  is_bytes f -> 36 <= len f < 65536 -> info_head s = Some l -> heap h = [] -> Forall heard_ok l ->
  (forall e h', moved (Z.of_nat (length e)) h h' -> Forall heard_ok (l ++ e) ->
     Q tt (a, set_head (Some (l ++ e)) s, h')) ->
  wp (wifi_80211_aplist_process f) Q R (a, s, h).
Proof.
  intros Hb Hf Hl Hh Hok HQ. unfold wifi_80211_aplist_process.
  assert (Hret : wp (ret tt) Q R (a, s, h)).
  { apply wp_ret. specialize (HQ [] h (moved_refl h)). rewrite app_nil_r in HQ.
    replace s with (set_head (Some l) s) by (rewrite <- Hl; by destruct s). by apply HQ. }
  wstep. unfold wifi_80211_get_bssid. wstep. apply wp_frame_control; [lia|].
  destruct (wifi_80211_get_BSSID (fc_of f)) as [o|] eqn:Eo; [|by apply wp_ret].
  assert (Ho : 4 <= o <= 16).
  { unfold wifi_80211_get_BSSID, o_addr1, o_addr2, o_addr3 in Eo. repeat case_match; simplify_eq; lia. }
  wstep. unfold ETH_ALEN. wstep. wstep. wstep.
  apply wp_get_ssid; [done|lia|lia|lia|done|apply is_bytes_zeros|done|].
  intros ssid Hs1 Hs2 Hs3. cbn [Z.ltb Z.compare]. wstep.
  apply wp_get_bss_channel; [done|lia|lia|]. intros ch _. wstep.
  apply wp_get_cipher_info; [done|lia|lia|]. intros r au p g _ Hp Hg. wstep.
  eapply wp_save_aplist; try done. intros e r' h' M Hok'. apply wp_ret. by apply HQ.
Qed.

(** An announcement adds at most its router to the list. *)
Lemma wp_callback_announcement f i l (Q : unit -> (A * sc) * hw C -> Prop) R a s h :
  is_bytes f -> 36 <= len f < 65536 -> is_announcement f = true -> sconfig_info s = Some i ->
  info_head s = Some l -> heap h = [] -> Forall heard_ok l ->
  (forall e h', moved (Z.of_nat (length e)) h h' -> Forall heard_ok (l ++ e) ->
     Q tt (a, set_head (Some (l ++ e)) s, h')) ->
  wp (easyjoin_callback f) Q R (a, s, h).
Proof.
  intros Hb Hf Ha Hi Hl Hh Hok HQ. unfold easyjoin_callback. wstep. apply wp_frame_control; [lia|].
  apply wp_if; intros _.
  { apply wp_ret. specialize (HQ [] h (moved_refl h)). rewrite app_nil_r in HQ.
    replace s with (set_head (Some l) s) by (rewrite <- Hl; by destruct s). by apply HQ. }
  unfold is_announcement in Ha. rewrite Ha. cbn [when]. wstep. eapply wp_aplist_process; try done.
  intros e h' M Hok'. wstep. eapply wp_get_sconfig; [done|].
  apply wp_if; intros _; [by apply wp_ret, HQ|].
  assert (Hnd : wifi_80211_is_data_exact (fc_of f) = false); [|rewrite Hnd; by apply wp_ret, HQ].
  change ((Z.land (fc_of f) 252 =? 128) || (Z.land (fc_of f) 252 =? 80) = true) in Ha.
  change ((Z.land (fc_of f) 252 =? 8) || (Z.land (fc_of f) 252 =? 136) = false).
  apply orb_true_iff in Ha as [E%Z.eqb_eq|E%Z.eqb_eq]; by rewrite E.
Qed.

(** Neither an announcement nor a data frame, or a fragment: ignored. *)
Lemma callback_ignored f i a s h :
  2 <= len f -> sconfig_info s = Some i ->
  wifi_80211_has_frags (fc_of f) = true \/ (is_announcement f = false /\ wifi_80211_is_data_exact (fc_of f) = false) ->
  easyjoin_callback f (a, s, h) = Done tt (a, s, h).
Proof.
  intros Hl Hi Hd.
  assert (wp (easyjoin_callback f) (fun _ t => t = (a, s, h)) (fun _ => False) (a, s, h)) as ([]&t&Hr&->)%wp_elim; [|done].
  unfold easyjoin_callback. wstep. apply wp_frame_control; [lia|]. apply wp_if; intros E; [by apply wp_ret|].
  destruct Hd as [?|[Ha Hd]]; [congruence|]. unfold is_announcement in Ha. rewrite Ha. cbn [when]. wstep. apply wp_ret.
  wstep. eapply wp_get_sconfig; [done|]. apply wp_if; intros _; [by apply wp_ret|]. rewrite Hd. by apply wp_ret.
Qed.
End Beacons.

(** ** A session on the air *)

(** The receiver knows what the encryption of the frame adds. *)
Definition data_ok (l : list router) (x : air) : Prop :=
  (exists r, find_router (a_bssid x) l = Some r /\ 0 <= air_encry x r <= ENC_TYPE_MAX) \/ protected x = false.
Definition is_group (x : air) : Prop := a_da x = broadcast_mac \/ take 3 (a_da x) = multicast_mac.

(** The frames of a session in which the phone [sa] behind the router [bssid]
    sends the key [k] by multicast: a piece of it, or any of the frames that
    carry none (repetitions the sender marks as such, frames of other senders,
    frames to single stations, announcements of routers, frames of other
    types). *)
Inductive on_air (k : bytes) (l : list router) (bssid sa : bytes) : bytes -> option bytes -> Prop :=
| on_piece x ds r : air_wf x -> a_bssid x = bssid -> a_sa x = sa -> a_da x = multicast_mac ++ ds -> mc_piece k ds ->
    retry x = false -> find_router bssid l = Some r -> 0 <= air_encry x r <= ENC_TYPE_MAX ->
    len (body x) = piece_len ds + len_fixed_offset !!! Z.to_nat (air_encry x r) ->
    on_air k l bssid sa (frame_of x) (Some ds)
| on_quiet x : air_wf x -> data_ok l x -> retry x = true \/ (a_sa x <> sa \/ a_bssid x <> bssid) \/ ~ is_group x ->
    on_air k l bssid sa (frame_of x) None
| on_announcement f : is_bytes f -> 36 <= len f < 65536 -> is_announcement f = true -> on_air k l bssid sa f None
| on_ignored f : 2 <= len f -> is_announcement f = false -> wifi_80211_is_data_exact (fc_of f) = false ->
    on_air k l bssid sa f None.

Lemma find_router_app b l e r : find_router b l = Some r -> find_router b (l ++ e) = Some r.
Proof.
  unfold find_router. induction l as [|x l IH]; cbn; [done|]. by case_bool_decide.
Qed.
Lemma find_router_ok b l r : Forall heard_ok l -> find_router b l = Some r -> heard_ok r.
Proof.
  intros Hl Hf. apply find_some in Hf as [Hin _]. apply list_elem_of_In in Hin. by eapply Forall_forall in Hin.
Qed.
(** ... also after more routers were heard. *)
Lemma data_ok_overhead l e x : Forall heard_ok (l ++ e) -> data_ok l x -> exists o, overhead_of (l ++ e) x = Some o.
Proof.
  intros Hok Hd. unfold overhead_of. destruct Hd as [(r&Hr&He)|Hp].
  - rewrite (find_router_app _ _ _ _ Hr). destruct (Z.eqb_spec (air_encry x r) ENC_TYPE_INVALID) as [E|E].
    { rewrite E in He. unfold ENC_TYPE_INVALID, ENC_TYPE_MAX in He. lia. }
    rewrite (proj2 (Z.leb_le _ _) (proj1 He)), (proj2 (Z.leb_le _ _) (proj2 He)). by eexists.
  - rewrite Hp. destruct (find_router (a_bssid x) (l ++ e)) as [r|] eqn:Er; [|by eexists].
    assert (Henc : enc_type (air_encry x r)).
    { apply find_router_ok in Er as (?&?&_); [|done]. unfold air_encry. by destruct (to_ds x). }
    destruct (Z.eqb_spec (air_encry x r) ENC_TYPE_INVALID) as [|E]; [by eexists|]. destruct Henc as [|He]; [done|].
    rewrite (proj2 (Z.leb_le _ _) (proj1 He)), (proj2 (Z.leb_le _ _) (proj2 He)). by eexists.
Qed.
Lemma piece_overhead l e x r : find_router (a_bssid x) l = Some r -> 0 <= air_encry x r <= ENC_TYPE_MAX ->
  overhead_of (l ++ e) x = Some (len_fixed_offset !!! Z.to_nat (air_encry x r)).
Proof.
  intros Hr He. unfold overhead_of. rewrite (find_router_app _ _ _ _ Hr).
  destruct (Z.eqb_spec (air_encry x r) ENC_TYPE_INVALID) as [E|E].
  { rewrite E in He. unfold ENC_TYPE_INVALID, ENC_TYPE_MAX in He. lia. }
  by rewrite (proj2 (Z.leb_le _ _) (proj1 He)), (proj2 (Z.leb_le _ _) (proj2 He)).
Qed.

(** What stays as it was during a session but for the list of routers. *)
Definition same_session (s s' : sc) : Prop :=
  ya_parse_to_ds s' = ya_parse_to_ds s /\ ya_parse_from_ds s' = ya_parse_from_ds s /\
  sc_result s' = sc_result s /\ has_callback s' = has_callback s /\ sc_timeout s' = sc_timeout s /\
  run_smartconfig s' = run_smartconfig s.
Lemma same_rest_session s s' : same_rest s s' -> same_session s s'.
Proof. by intros (_&?). Qed.
Lemma same_session_trans s1 s2 s3 : same_session s1 s2 -> same_session s2 s3 -> same_session s1 s3.
Proof. unfold same_session. intuition congruence. Qed.

Definition routers_grow (l : list router) (s : sc) : Prop :=
  exists e, info_head s = Some (l ++ e) /\ Forall heard_ok (l ++ e).

Section Session.
Context {C A : Type}.
Implicit Types (a : A) (s : sc) (h : hw C).

(** The receiver's state, the routers heard so far and the memory they take. *)
Definition in_session k l bssid sa (s0 : sc) (h0 : hw C) (seen : list bytes) (s : sc) (h : hw C) : Prop :=
  receiving k bssid sa seen s /\ routers_grow l s /\ same_session s0 s /\ exists n, moved n h0 h.

Lemma wp_session_step k l bssid sa s0 h0 seen f o (Q : unit -> (A * sc) * hw C -> Prop) R a s h :
  mc_key k -> heap h0 = [] -> on_air k l bssid sa f o -> in_session k l bssid sa s0 h0 seen s h ->
  (forall s' h', in_session k l bssid sa s0 h0 (option_list o ++ seen) s' h' -> Q tt (a, s', h')) ->
  wp (easyjoin_callback f) Q R (a, s, h).
Proof.
  intros Hk Hh0 Hair ((i&p&Hi&Hl&Hp&Hrx)&(e&Hhd&Hok)&Hss&n&Hm) HQ.
  assert (Hh : heap h = []) by (apply Hm, Hh0).
  assert (Hstay : rx_state k (option_list o ++ seen) i p -> Q tt (a, s, h)).
  { intros Hrx'. apply HQ. split; [by exists i, p|]. split; [by exists e|]. split; [done|by exists n]. }
  destruct Hair as [x ds r Hw Hb Hsa Hda Hpc Hr Hfr Her Hlen|x Hw Hd Hq|f Hfb Hfl Ha|f Hf Ha Hd].
  - destruct Hrx as [Hdone|(Hna&Hfin&Hinv&Hnc)].
    { eapply wp_done; [eapply callback_data_done; [done|]|].
      - destruct Hdone as (E&_). rewrite E. done.
      - apply Hstay. by left; eapply rx_done_more. }
    rewrite <- Hb in Hfr. eapply wp_callback_data; [done|done|done|done|by eapply piece_overhead|].
    rewrite Hlen. replace (piece_len ds + _ - _) with (piece_len ds) by lia.
    unfold on_data. rewrite Hr, Hda, bool_decide_false, (bool_decide_true (take 3 _ = _)) by done. cbn [when].
    change (drop 3 (multicast_mac ++ ds)) with ds. rewrite Hb, Hsa.
    eapply wp_multicast_own; try done. intros s' Hsr Hrec. apply HQ.
    split; [done|]. destruct Hsr as (Eh&Hrest). split; [by exists e; rewrite Eh|].
    split; [by eapply same_session_trans|]. by exists n.
  - destruct Hrx as [Hdone|(Hna&Hfin&Hinv&Hnc)].
    { eapply wp_done; [eapply callback_data_done; [done|]|].
      - destruct Hdone as (E&_). rewrite E. done.
      - apply Hstay. by left; eapply rx_done_more. }
    destruct (data_ok_overhead l e x Hok Hd) as [ov Hov].
    assert (Hsame : Q tt (a, s, h)) by (apply Hstay; by right).
    eapply wp_callback_data; [done|done|done|done|done|]. unfold on_data.
    destruct (retry x) eqn:Er; [by apply wp_ret|]. destruct Hq as [?|[Hf|Hg]]; [done| |].
    + case_bool_decide; [destruct (to_ds x); cbn [when]; by eapply wp_broadcast_other|].
      apply wp_when; intros _; [by eapply wp_multicast_other|done].
    + unfold is_group in Hg. rewrite !bool_decide_false by tauto. by apply wp_ret.
  - eapply wp_callback_announcement; try done. intros e' h' M Hok'. apply HQ.
    split; [by exists i, p|]. split; [exists (e ++ e'); cbn; by rewrite (assoc_L (++))|].
    split; [done|]. eexists. by eapply moved_trans.
  - eapply wp_done; [by eapply callback_ignored; [done|done|right]|]. by apply Hstay.
Qed.

Lemma session_run k l bssid sa s0 h0 fs os seen a s h :
  mc_key k -> heap h0 = [] -> Forall2 (on_air k l bssid sa) fs os -> in_session k l bssid sa s0 h0 seen s h ->
  exists s' h', for_each fs easyjoin_callback (a, s, h) = Done tt (a, s', h') /\
    in_session k l bssid sa s0 h0 (reverse (omap id os) ++ seen) s' h'.
Proof.
  intros Hk Hh Hair. revert seen s h. induction Hair as [|f o fs os Hf Hair IH]; intros seen s h Hin.
  { by exists s, h. }
  assert (wp (easyjoin_callback f) (fun _ t => exists s' h', t = (a, s', h') /\
    in_session k l bssid sa s0 h0 (option_list o ++ seen) s' h') (fun _ => False) (a, s, h))
    as ([]&t&Hr&s1&h1&->&Hin1)%wp_elim.
  { eapply wp_session_step; try done. intros s' h' Hi'. by exists s', h'. }
  destruct (IH _ _ _ Hin1) as (s2&h2&Hr2&Hin2). exists s2, h2. cbn [for_each].
  erewrite bind_done by exact Hr. split; [done|]. destruct o as [ds|]; [|done].
  change (omap id (Some ds :: os)) with (ds :: omap id os). by rewrite reverse_cons, <- (assoc_L (++)).
Qed.
End Session.


(** A receiver locked on the sender, that knows its router. *)
Record ready (l : list router) (bssid sa : bytes) (s : sc) : Prop := mkReady {
  rd_lock : exists i, sconfig_info s = Some i /\ locked bssid sa i /\ findPhone i = NOT_ACTIVE;
  rd_mul : ya_parse_mul s = Live (zero_parse 128);
  rd_to : ya_parse_to_ds s = Live zero_bparse;
  rd_from : ya_parse_from_ds s = Live zero_bparse;
  rd_head : info_head s = Some l;
  rd_routers : Forall heard_ok l;
}.
Lemma ready_session {C} k l bssid sa s (h : hw C) : mc_key k -> ready l bssid sa s ->
  in_session k l bssid sa s h [] s h.
Proof.
  intros Hk [(i&Hi&Hl&Hn) Hm _ _ Hh Hok].
  assert (Hlk : (8 <= length k <= 128)%nat) by (destruct Hk as [_ Hk]; unfold len in Hk; lia).
  split; [|split; [exists []; by rewrite app_nil_r|split; [done|]]].
  - exists i, (zero_parse 128). split_and!; try done. right. split_and!; try done; [by apply rx_inv_zero; lia|].
    intros (E&_). cbn in E. unfold len in E. lia.
  - exists 0. apply moved_refl.
Qed.


(** ** A concrete session *)

(** Every piece of a key, in the order a phone would send them. *)
Definition data_piece (k : bytes) (i : nat) : bytes :=
  [0x40 + Z.of_nat i; k !!! (2 * i)%nat; match k !! (2 * i + 1)%nat with Some y => y | None => 0 end].
Definition pieces (k : bytes) : list bytes :=
  [0x20; len k; len k] :: [0x01; sum8 k; sum8 k] :: (data_piece k <$> seq 0 (Nat.div2 (S (length k)))).
Lemma pieces_mc k : is_bytes k -> Forall (mc_piece k) (pieces k).
Proof.
  intros Hb. repeat constructor. apply Forall_fmap, Forall_seq. intros i Hi.
  assert (Hi2 : (2 * i < length k)%nat).
  { pose proof (Nat.div2_odd (S (length k))) as E. destruct (Nat.odd (S (length k))); cbn [Nat.b2n] in E; lia. }
  cbn. unfold data_piece. apply (mc_bytes k i).
  - by apply list_lookup_lookup_total_lt.
  - destruct (k !! (2 * i + 1)%nat) as [y|] eqn:E; [by eapply Forall_lookup_1 in E|unfold is_u8; lia].
  - intros y' E. by rewrite E.
Qed.
Lemma pieces_all k : all_pieces k (pieces k).
Proof.
  split; [left|]. split; [right; left|]. intros i Hi. do 2 eexists. right. right. apply list_elem_of_fmap.
  exists i. split; [done|]. apply elem_of_seq. split; [lia|].
  pose proof (Nat.div2_odd (S (length k))) as E. destruct (Nat.odd (S (length k))); cbn [Nat.b2n] in E; lia.
Qed.

Definition sample_bssid : bytes := [2; 0; 0; 0; 0; 1].
Definition sample_sa : bytes := [6; 0; 0; 0; 0; 9].
Definition sample_router : router :=
  mkRouter AUTH_TYPE_WPA2PSK 6 ENC_TYPE_AES ENC_TYPE_AES sample_bssid (str "home" ++ zeros 29).
Definition sample_sc : sc :=
  mkSc (Some [sample_router]) (Some (mkSconfig CHANNEL_SEARCH_END NOT_ACTIVE 60 sample_bssid sample_sa))
    (Live (zero_parse 128)) (Live zero_bparse) (Live zero_bparse) zero_smnt true 120 1 0.
Definition sample_air (ds : bytes) : air :=
  mkAir true true false false sample_bssid sample_sa (multicast_mac ++ ds) [0; 0] [0; 0] [0; 0] (zeros (piece_len ds + 52)).
Lemma sample_ready : ready [sample_router] sample_bssid sample_sa sample_sc.
Proof.
  split; try done.
  - by eexists.
  - apply Forall_singleton. unfold heard_ok, enc_type, ENC_TYPE_MAX. cbn [r_encry0 r_encry1 r_ssid sample_router].
    unfold ENC_TYPE_AES. split; [right; lia|]. split; [right; lia|]. split; [done|]. split; evaluate.
Qed.
Lemma sample_on_air k ds : mc_piece k ds ->
  on_air k [sample_router] sample_bssid sample_sa (frame_of (sample_air ds)) (Some ds).
Proof.
  intros Hp. apply (on_piece k _ _ _ (sample_air ds) ds sample_router); try done.
  - unfold air_wf. cbn. split_and!; try done. inversion Hp; done.
  - cbn [body sample_air]. rewrite len_zeros; [done|]. unfold piece_len. pose proof (u8_range (foldr Z.add 0 ds)).
    unfold is_u8 in *. lia.
Qed.
Lemma sample_session k : mc_key k ->
  Forall2 (on_air k [sample_router] sample_bssid sample_sa) ((fun ds => frame_of (sample_air ds)) <$> pieces k) (Some <$> pieces k).
Proof.
  intros [Hb _]. apply Forall2_fmap, Forall_Forall2_diag. eapply Forall_impl; [by apply pieces_mc|].
  intros ds Hd. by apply sample_on_air.
Qed.
Lemma omap_some (l : list bytes) : omap id (Some <$> l) = l.
Proof. induction l as [|x l IH]; [done|]. cbn in *. by rewrite IH. Qed.


(** ** The end of a session *)
Section End.
Context {C A : Type}.
Implicit Types (a : A) (s : sc) (h : hw C).

(** After a session in which some router was heard, the clean-up reads the
    first router's node after freeing it. *)
Lemma release_reads_freed head r l a s h :
  info_head s = Some (head :: r :: l) -> release (a, s, h) = Fault UseAfterFree.
Proof. intros Hl. unfold release, free_node_info, bind, sgets, gets, deref. cbn. by rewrite Hl. Qed.
(** Without routers it frees the session's blocks but for the head node; the
    parse pointers keep their old values, so the task of the next session
    works on freed memory. *)
Lemma release_then_restart head i bt bf m cb tm a s h :
  info_head s = Some [head] -> sconfig_info s = Some i -> ya_parse_to_ds s = Live bt -> ya_parse_from_ds s = Live bf ->
  ya_parse_mul s = Live m -> heap h = [] ->
  exists s' h', ejoin_out (a, s, h) = Done tt (a, s', h') /\ live h' = live h - 4 /\
    exists s2 h2, start_smnt true cb tm (a, s', h') = Done 0 (a, s2, h2) /\
      smartconfig_task_init (a, s2, h2) = Fault UseAfterFree.
Proof.
  intros Hl Hi Ht Hf Hm Hh. destruct s. cbn in *. subst. destruct h. cbn in *. subst.
  do 2 eexists. split; [reflexivity|]. split; [cbn; lia|]. destruct cb; do 2 eexists; (split; [reflexivity|reflexivity]).
Qed.
End End.
