(* ===== verification/SmartConfigDelivery.v ===== *)
(** * Smart config, end to end

    From the phone's message (network name, password, cloud, random bytes),
    through its encryption and the frames on the air, to the user data from
    which the main task connects. *)

From stdpp Require Import base numbers list strings.
From S2P Require Import Prelude Platform CJson CommonFunc HalTimer MainQueue Cloud UserData AppMain UserDataProofs Provisioning MainSafety MainProvision Aes Ieee80211 SmartConfig SmartConfigProofs.

(** ** The phone's message *)
Definition phone_fields (ssid pwd : bytes) (cloud ra rb : Z) : bytes :=
  (len ssid :: ssid) ++ (len pwd :: pwd) ++ [3; cloud; ra; rb].
Definition phone_text (ssid pwd : bytes) (cloud ra rb : Z) : bytes :=
  phone_fields ssid pwd cloud ra rb ++ [u8 (foldr Z.add 0 (phone_fields ssid pwd cloud ra rb))].
Definition credentials_ok (ssid pwd : bytes) (cloud ra rb : Z) : Prop :=
  is_bytes ssid /\ no_nul ssid /\ 0 < len ssid <= 32 /\ is_bytes pwd /\ no_nul pwd /\ len pwd <= 64 /\
  is_u8 cloud /\ is_u8 ra /\ is_u8 rb.
(** The key the phone sends: the text in CFB under the hash of the fixed
    string. *)
Definition phone_key `{BlockCipher} (ssid pwd : bytes) (cloud ra rb : Z) : bytes :=
  let aes := md5 AES_KEY_SMARTCONFIG_STRING in
  mbedtls_aes_crypt_cfb128 false aes 0 aes (phone_text ssid pwd cloud ra rb).
(** The name the receiver goes by: the router's own unless it hides it. *)
Definition chosen (r : router) (ssid : bytes) : bytes :=
  if r_ssid r !!! 0%nat =? 0 then ssid else cstr (r_ssid r).

Lemma len_phone_text ssid pwd cloud ra rb : len (phone_text ssid pwd cloud ra rb) = len ssid + len pwd + 7.
Proof.
  unfold phone_text, phone_fields. rewrite !len_app, !len_cons. change (len []) with 0. lia.
Qed.
Lemma len_phone_key `{BlockCipher} ssid pwd cloud ra rb :
  len (phone_key ssid pwd cloud ra rb) = len ssid + len pwd + 7.
Proof. unfold phone_key. by rewrite len_cfb, len_phone_text. Qed.

Section Decode.
Context {C A : Type} `{BlockCipher}.
Implicit Types (a : A) (s : sc) (h : hw C).

Lemma wp_upd_result f (Q : unit -> (A * sc) * hw C -> Prop) R a s h :
  Q tt (a, set_result (f (sc_result s)) s, h) -> wp (upd_result f) Q R (a, s, h).
Proof. done. Qed.

(** The password field at [pre], in a result that was cleared. *)
Lemma wp_take_password (pre pwd z buf : bytes) (Q : option Z -> (A * sc) * hw C -> Prop) R a s h :
  buf = pre ++ (len pwd :: pwd) ++ z -> len pwd <= 64 ->
  Q (Some (len pre + 1 + len pwd))
    (a, set_result (with_password (len pwd) (pwd ++ zeros (65 - len pwd)) (sc_result s)) s, h) ->
  wp (take_password buf (len pre)) Q R (a, s, h).
Proof.
  intros -> Hp HQ. unfold take_password. pose proof (len_nonneg pwd). wstep.
  eapply wp_done; [by eapply rd_at|]. wstep. apply wp_guard; intros E.
  2:{ apply negb_false_iff, Z.ltb_lt in E. lia. }
  wstep. eapply wp_done.
  { eapply (rdn_at _ (pre ++ [len pwd]) pwd z); [by rewrite <- !app_assoc|by rewrite len_app|done]. }
  wstep. eapply wp_done; [apply (memcpy_zeros [] pwd 65 0); [done|lia]|]. wstep. apply wp_upd_result. by apply wp_ret.
Qed.

(** The cloud and the random bytes after [pre]; [n] is the length of the text. *)
Lemma wp_take_tail (pre z buf : bytes) cloud ra rb n (Q : option (Z * Z) -> (A * sc) * hw C -> Prop) R a s h :
  buf = pre ++ [3; cloud; ra; rb] ++ z -> n = len pre + 5 ->
  Q (Some (ra, rb)) (a, set_result (with_cloud cloud (sc_result s)) s, h) ->
  wp (take_tail buf n (len pre)) Q R (a, s, h).
Proof.
  intros -> -> HQ. unfold take_tail, room.
  assert (Hrd : forall k x (t : (A * sc) * hw C), [3; cloud; ra; rb] !! k = Some x ->
    rd (pre ++ [3; cloud; ra; rb] ++ z) (len pre + Z.of_nat k) t = Done x t).
  { intros k x t Hk. apply (rd_at _ (pre ++ take k [3; cloud; ra; rb]) x (drop (S k) [3; cloud; ra; rb] ++ z)).
    - rewrite <- app_assoc. f_equal. rewrite <- (take_drop_middle _ _ _ Hk) at 1. by rewrite <- app_assoc.
    - apply lookup_lt_Some in Hk. rewrite len_app. unfold len. rewrite length_take. cbn in *. lia. }
  pose proof (Hrd 0%nat 3) as R0. rewrite Z.add_0_r in R0.
  wstep. wstep. eapply wp_done; [by apply R0|]. apply wp_guard; intros E.
  2:{ apply negb_false_iff, Z.ltb_lt in E. lia. }
  wstep. eapply wp_done; [by apply R0|]. cbn [Z.ltb Z.compare Pos.compare Pos.compare_cont]. wstep. apply wp_guard; intros E2; [|done].
  wstep. eapply wp_done; [by apply (Hrd 1%nat)|]. wstep. apply wp_upd_result.
  wstep. eapply wp_done; [by apply (Hrd 2%nat)|]. wstep. eapply wp_done; [by apply (Hrd 3%nat)|]. by apply wp_ret.
Qed.

Lemma wp_decode_multicast ssid pwd cloud ra rb buf n (Q : option (Z * Z) -> (A * sc) * hw C -> Prop) R a s h :
  credentials_ok ssid pwd cloud ra rb -> sc_result s = zero_smnt ->
  (exists z, buf = phone_fields ssid pwd cloud ra rb ++ z) -> n = len ssid + len pwd + 7 ->
  Q (Some (ra, rb)) (a, set_result (mkSmnt 0 (len ssid) (len pwd) (ssid ++ zeros (33 - len ssid))
      (pwd ++ zeros (65 - len pwd)) (zeros 6) cloud (zeros 33)) s, h) ->
  wp (decode_multicast buf n) Q R (a, s, h).
Proof.
  intros (_&_&Hs&_&_&Hp&_) Hz (z&->) -> HQ. unfold decode_multicast, phone_fields. pose proof (len_nonneg pwd).
  rewrite <- !app_assoc. wstep. eapply wp_done; [by eapply (rd_at _ [])|]. wstep. apply wp_guard; intros E.
  2:{ apply negb_false_iff, orb_true_iff in E as [E%Z.ltb_lt|E%Z.eqb_eq]; lia. }
  wstep. apply wp_upd_result. wstep. apply wp_guard; intros E2.
  2:{ apply negb_false_iff, Z.ltb_lt in E2. lia. }
  wstep. eapply wp_done; [by eapply (rdn_at _ [len ssid] ssid)|].
  wstep. eapply wp_done; [apply (memcpy_zeros [] ssid 33 0); [done|lia]|]. wstep. apply wp_upd_result.
  assert (Hl : len (len ssid :: ssid) = 1 + len ssid) by (rewrite len_cons; lia). rewrite <- Hl.
  wstep. unfold room. wstep. eapply wp_done; [by eapply rd_at|]. apply wp_guard; intros E3.
  2:{ apply negb_false_iff, Z.ltb_lt in E3. lia. }
  wstep. eapply wp_take_password; [done|done|].
  replace (len (len ssid :: ssid) + 1 + len pwd) with (len ((len ssid :: ssid) ++ len pwd :: pwd))
    by (rewrite len_app, !len_cons; lia).
  eapply wp_take_tail; [by rewrite <- !app_assoc|rewrite len_app, !len_cons; lia|].
  cbn [sc_result set_result]. rewrite Hz. exact HQ.
Qed.

(** The result the phone's message amounts to. *)
Definition phone_result (name pwd : bytes) (cloud ra rb : Z) (bssid : bytes) : smnt_result :=
  mkSmnt 0 (len name) (len pwd) (name ++ zeros (33 - len name)) (pwd ++ zeros (65 - len pwd)) bssid cloud
    (HexArrayToString (md5 (pwd ++ hex_chars [ra] ++ hex_chars [rb]))).

Lemma wp_choose_ssid r ssid pwd cloud bssid (Q : option unit -> (A * sc) * hw C -> Prop) R a s h :
  heard_ok r -> sc_result s = mkSmnt 0 (len ssid) (len pwd) (ssid ++ zeros (33 - len ssid))
      (pwd ++ zeros (65 - len pwd)) bssid cloud (zeros 33) ->
  (let name := chosen r ssid in
   Q (Some tt) (a, set_result (mkSmnt 0 (len name) (len pwd) (name ++ zeros (33 - len name))
      (pwd ++ zeros (65 - len pwd)) bssid cloud (zeros 33)) s, h)) ->
  wp (choose_ssid (Some r)) Q R (a, s, h).
Proof.
  intros (_&_&Hl&Hb&H0) Hr HQ. unfold choose_ssid. unfold chosen in HQ. cbv zeta in HQ. wstep. wstep.
  destruct (Z.eqb_spec (r_ssid r !!! Z.to_nat 0) 0) as [E|E]; cbn [negb].
  - apply wp_ret. change (Z.to_nat 0) with 0%nat in E. rewrite E in HQ. cbn [Z.eqb] in HQ.
    rewrite <- Hr in HQ. by destruct s.
  - change (Z.to_nat 0) with 0%nat in E. rewrite (proj2 (Z.eqb_neq _ _) E) in HQ.
    pose proof (len_cstr_le _ H0). pose proof (len_nonneg (cstr (r_ssid r))).
    wstep. eapply wp_done; [apply strcpy_zeros; [done|lia]|]. wstep. apply wp_upd_result. apply wp_ret.
    rewrite Hr, u8_small by (unfold is_u8; lia). exact HQ.
Qed.

Lemma wp_decode ssid pwd cloud ra rb bt bf p i l r (Q : Z -> (A * sc) * hw C -> Prop) R a s h :
  credentials_ok ssid pwd cloud ra rb -> heap h = [] ->
  ya_parse_to_ds s = Live bt -> finish (b_para bt) = 0 -> ya_parse_from_ds s = Live bf -> finish (b_para bf) = 0 ->
  ya_parse_mul s = Live p -> finish p = 1 -> key_len p = len (phone_key ssid pwd cloud ra rb) ->
  take (length (phone_key ssid pwd cloud ra rb)) (key p) = phone_key ssid pwd cloud ra rb ->
  sconfig_info s = Some i -> info_head s = Some l -> find_router (sc_bssid i) l = Some r -> heard_ok r ->
  (forall m, len (md5 m) = 16) ->
  (forall h', moved 0 h h' ->
    Q 0 (a, set_result (phone_result (chosen r ssid) pwd cloud ra rb (sc_bssid i)) s, h')) ->
  wp ya_smartconfig_decode Q R (a, s, h).
Proof.
  intros Hc Hh Et Ft Ef Ff Em Fm Ekl Ek Ei El Er Hr Hmd HQ.
  pose proof Hc as (Hsb&Hsn&Hsl&Hpb&Hpn&Hpl&Hcl&Hra&Hrb). pose proof (len_nonneg pwd) as Hp0.
  set (k := phone_key ssid pwd cloud ra rb) in *. set (text := phone_text ssid pwd cloud ra rb).
  assert (Hk : len k = len ssid + len pwd + 7) by apply len_phone_key.
  assert (Ht : len text = len k) by (unfold text; rewrite len_phone_text; lia).
  unfold ya_smartconfig_decode. wstep. apply wp_alloc_moved; [done| |intros h' [E|E]; done].
  intros b h1 _ _ M1. wstep. unfold decode_body.
  change (ya_mbedtls_md5 AES_KEY_SMARTCONFIG_STRING (zeros 16)) with (0, md5 AES_KEY_SMARTCONFIG_STRING).
  cbn beta iota. wstep. unfold finished_key.
  wstep. apply wp_sgets. wstep. eapply wp_live; [done|]. rewrite Ft. cbn [Z.eqb].
  wstep. apply wp_sgets. wstep. eapply wp_live; [done|]. rewrite Ff. cbn [Z.eqb].
  wstep. apply wp_sgets. wstep. eapply wp_live; [done|]. rewrite Fm. cbn [Z.eqb Pos.eqb]. apply wp_ret. cbn beta iota.
  rewrite Ekl. wstep. apply wp_guard; intros Eg; [clear Eg|apply negb_false_iff, Z.eqb_eq in Eg; lia].
  wstep. eapply wp_done.
  { apply (rdn_at _ [] k (drop (length k) (key p))); [by rewrite <- Ek at 1; rewrite take_drop|done|done]. }
  wstep. apply wp_cfb_decrypt; [change (len (zeros 128)) with 128; lia|by apply M1|].
  intros h2 M2. set (aes := md5 AES_KEY_SMARTCONFIG_STRING) in *.
  assert (Edec : mbedtls_aes_crypt_cfb128 true aes 0 aes k = text) by apply cfb_inverse. rewrite Edec.
  assert (Ebuf : splice (zeros 128) 0 text = text ++ zeros (128 - len text)).
  { apply (splice_zeros [] text 128). lia. }
  rewrite Ebuf, <- Ht. set (fields := phone_fields ssid pwd cloud ra rb).
  assert (Etext : text = fields ++ [u8 (foldr Z.add 0 fields)]) by done.
  assert (Hf : len fields = len text - 1) by (rewrite Etext, len_app; change (len [_]) with 1; lia).
  wstep. eapply wp_done.
  { apply (rdn_at _ [] fields (u8 (foldr Z.add 0 fields) :: zeros (128 - len text)));
      [by rewrite Etext at 1; rewrite <- app_assoc|done|done]. }
  wstep. eapply wp_done.
  { apply (rd_at _ fields (u8 (foldr Z.add 0 fields)) (zeros (128 - len text))); [by rewrite Etext at 1; rewrite <- app_assoc|done]. }
  rewrite Z.eqb_refl. wstep. apply wp_ret. wstep. eapply wp_get_sconfig; [done|].
  wstep. eapply wp_get_ap_info; [done|]. rewrite Er. wstep. apply wp_sputs.
  wstep. apply wp_sgets. wstep. eapply wp_live; [done|]. rewrite Fm. cbn [Z.eqb Pos.eqb]. wstep.
  eapply wp_decode_multicast; [done|done|by exists (u8 (foldr Z.add 0 fields) :: zeros (128 - len text));
    rewrite Etext at 1; rewrite <- app_assoc|lia|]. cbn beta iota.
  wstep. apply wp_upd_result. wstep. eapply wp_choose_ssid; [done|done|]. cbv zeta.
  set (name := chosen r ssid). wstep. apply wp_sgets. cbn [sc_result set_result smnt_password smnt_password_len smnt_rand].
  wstep. eapply wp_done; [apply strcpy_zeros; [apply zero_in; lia|rewrite cstr_zeros by (done || lia); lia]|].
  rewrite cstr_zeros by (done || lia).
  wstep. eapply wp_done; [rewrite hex_string; apply memcpy_string; [done|rewrite len_hex_chars; change (len [ra]) with 1; lia]|].
  wstep. eapply wp_done; [rewrite hex_string; apply memcpy_string; rewrite ?len_app, !len_hex_chars;
    change (len [ra]) with 1; change (len [rb]) with 1; lia|].
  rewrite cstr_zeros.
  2:{ apply Forall_app. split; [apply Forall_app; split; [done|]|]; apply hex_chars_no_nul. }
  2:{ rewrite !len_hex_chars. change (len [ra]) with 1; change (len [rb]) with 1; lia. }
  unfold ya_mbedtls_md5. destruct (Z.eqb_spec (len ((pwd ++ hex_chars [ra]) ++ hex_chars [rb])) 0) as [E0|_].
  { rewrite !len_app, !len_hex_chars in E0. change (len [ra]) with 1 in E0. change (len [rb]) with 1 in E0. lia. }
  rewrite <- (assoc_L (++)). cbn beta iota. set (d := md5 _).
  assert (Hd : len (HexArrayToString d) = 33).
  { rewrite hex_string, len_app, len_hex_chars. unfold d. rewrite Hmd. done. }
  wstep. eapply wp_done; [apply (memcpy_zeros [] _ 33 0); [done|lia]|]. wstep. apply wp_upd_result. apply wp_ret.
  wstep. apply wp_free_moved. intros h3 M3. apply wp_ret.
  rewrite Hd. cbn [List.app Z.sub Z.add Z.opp Z.pos_sub Pos.pred_double]. change (zeros (33 - 33)) with (@nil Z). rewrite app_nil_r.
  apply HQ. eapply moved_eq; [eapply moved_trans; [|exact M3]; by eapply moved_trans|done].
Qed.
End Decode.

Lemma is_bytes_cfb `{BlockCipherLaws} d key n iv input :
  is_bytes iv -> is_bytes input -> is_bytes (mbedtls_aes_crypt_cfb128 d key n iv input).
Proof.
  intros Hi Hp. revert n iv Hi. induction Hp as [|c p Hc _ IH]; intros n iv Hi; [constructor|].
  cbn [mbedtls_aes_crypt_cfb128]. cbv zeta.
  assert (Hiv : is_bytes (if n =? 0 then ecb_enc key iv else iv)) by (destruct (n =? 0); [apply ecb_enc_bytes|done]).
  set (iv' := if n =? 0 then ecb_enc key iv else iv) in *.
  assert (Ho : is_u8 (Z.lxor c (iv' !!! Z.to_nat n))) by (apply lxor_u8; [done|by apply lookup_total_u8]).
  constructor; [done|]. apply IH, Forall_insert; [done|by destruct d].
Qed.
Lemma phone_key_ok `{BlockCipherLaws} ssid pwd cloud ra rb :
  credentials_ok ssid pwd cloud ra rb -> mc_key (phone_key ssid pwd cloud ra rb).
Proof.
  intros (Hsb&_&Hsl&Hpb&_&Hpl&Hc&Ha&Hb). split; [|rewrite len_phone_key; pose proof (len_nonneg pwd); lia].
  apply is_bytes_cfb; [apply md5_bytes|]. unfold phone_text, phone_fields.
  assert (is_u8 (len ssid) /\ is_u8 (len pwd)) by (pose proof (len_nonneg pwd); unfold is_u8; lia).
  assert (is_u8 3) by (unfold is_u8; lia). set (sum := u8 _). assert (is_u8 sum) by apply u8_range.
  rewrite !is_bytes_app. unfold is_bytes in *. rewrite !Forall_cons, !Forall_nil. tauto.
Qed.

(** The result is one the main task accepts. *)
Lemma phone_result_ok `{BlockCipherLaws} name pwd cloud ra rb bssid :
  is_bytes name -> no_nul name -> 0 < len name <= 32 -> is_bytes pwd -> len pwd <= 64 -> len bssid = 6 -> is_bytes bssid ->
  let res := phone_result name pwd cloud ra rb bssid in
  smnt_ok res /\ slice (smnt_ssid res) 0 (smnt_ssid_len res) = name /\
  slice (smnt_password res) 0 (smnt_password_len res) = pwd /\ slice (smnt_bssid res) 0 6 = bssid.
Proof.
  intros Hnb Hnn Hnl Hpb Hpl Hbl Hbb res. pose proof (len_nonneg pwd).
  assert (E1 : slice (smnt_ssid res) 0 (smnt_ssid_len res) = name) by (by apply slice_app_l).
  assert (E2 : slice (smnt_password res) 0 (smnt_password_len res) = pwd) by (by apply slice_app_l).
  assert (E3 : slice (smnt_bssid res) 0 6 = bssid) by (by apply slice_full).
  split; [|done]. split; [done|]. rewrite E1, E2, E3.
  cbn [smnt_ssid smnt_ssid_len smnt_password smnt_password_len smnt_bssid smnt_rand res phone_result].
  rewrite !len_app, !len_zeros by lia. split; [lia|]. split; [lia|]. split.
  { split; [|done]. split; [done|]. destruct name as [|c name]; [by cbn in Hnl|]. by apply Forall_cons in Hnn as [? _]. }
  split; [lia|]. rewrite hex_string. split; [apply elem_of_app; right; left|].
  rewrite cstr_app_nul by apply hex_chars_no_nul. rewrite len_hex_chars, md5_len. lia.
Qed.

Lemma chosen_ok r ssid : heard_ok r -> is_bytes ssid -> no_nul ssid -> 0 < len ssid <= 32 ->
  is_bytes (chosen r ssid) /\ no_nul (chosen r ssid) /\ 0 < len (chosen r ssid) <= 32.
Proof.
  intros (_&_&Hl&Hb&H0) Hsb Hsn Hsl. unfold chosen. destruct (Z.eqb_spec (r_ssid r !!! 0%nat) 0) as [|E]; [done|].
  pose proof (len_cstr_le _ H0) as Hle. split; [by apply is_bytes_cstr|]. split; [apply cstr_is_no_nul|].
  split; [|lia]. destruct (r_ssid r) as [|x b]; [done|]. cbn in E |- *. rewrite (proj2 (Z.eqb_neq _ _) E).
  rewrite len_cons. pose proof (len_nonneg (cstr b)). lia.
Qed.

Section Delivery.
Context {C : Type} `{NorChipLaws C, !NorReliable C} `{CloudEnv} `{JsonText} `{MainEnv} `{BlockCipherLaws}.
Implicit Types (a : app) (s : sc) (h : hw C).

(** Before the timeout of the session [k]. *)
Definition in_time (k : task) s h : Prop :=
  u32 (u32 (ticks h * portTICK_RATE_MS) - first_time k) <= u32 (sc_timeout s * 1000).

(** A turn of the task that finds the phone's key. *)
Lemma turn_delivers ssid pwd cloud ra rb tk bt bf p i l r a s h :
  credentials_ok ssid pwd cloud ra rb -> heap h = [] -> in_time tk s h -> has_callback s = true ->
  ya_parse_to_ds s = Live bt -> finish (b_para bt) = 0 -> ya_parse_from_ds s = Live bf -> finish (b_para bf) = 0 ->
  ya_parse_mul s = Live p -> finish p = 1 -> key_len p = len (phone_key ssid pwd cloud ra rb) ->
  take (length (phone_key ssid pwd cloud ra rb)) (key p) = phone_key ssid pwd cloud ra rb ->
  sconfig_info s = Some i -> findPhone i = OK_KEY -> len (sc_bssid i) = 6 -> is_bytes (sc_bssid i) ->
  info_head s = Some l -> find_router (sc_bssid i) l = Some r -> heard_ok r ->
  app_inv a -> ya_app_state a = YA_APP_SNIFFER -> queues h QMain = [] ->
  exists a' s' h', smartconfig_turn ya_smart_config_result_callback tk (a, s, h) = Done None (a', s', h') /\
    queues h' QMain = [mkMsg 0 None YA_SNIFFER_SUCCESS] /\
    live h' = live h /\ stored_by_main (chosen r ssid) pwd (sc_bssid i) a' h'.
Proof.
  intros Hc Hh Htime Hcb Et Ft Ef Ff Em Fm Ekl Ek Ei Eph Hbl Hbb El Er Hr Hinv Hst0 Hq.
  pose proof Hc as (Hsb&Hsn&Hsl&Hpb&Hpn&Hpl&_).
  destruct (chosen_ok r ssid Hr Hsb Hsn Hsl) as (Hnb&Hnn&Hnl).
  destruct (phone_result_ok (chosen r ssid) pwd cloud ra rb (sc_bssid i) Hnb Hnn Hnl Hpb Hpl Hbl Hbb) as (Hok&R1&R2&R3).
  set (res := phone_result (chosen r ssid) pwd cloud ra rb (sc_bssid i)) in *.
  assert (wp (smartconfig_turn ya_smart_config_result_callback tk) (fun o t => o = None /\
    exists a' s' h', t = (a', s', h') /\ queues h' QMain = [mkMsg 0 None YA_SNIFFER_SUCCESS] /\
    live h' = live h /\ stored_by_main (chosen r ssid) pwd (sc_bssid i) a' h') (fun _ => False) (a, s, h))
    as (o&t&Hrun&->&a'&s'&h'&->&Hrest)%wp_elim; [|by exists a', s', h'].
  unfold smartconfig_turn. wstep. apply wp_upd_hw. wstep. unfold now. wstep. eapply wp_done; [done|]. apply wp_ret.
  wstep. apply wp_sgets. unfold in_time in Htime. cbn [ticks log].
  apply wp_if; intros E; [apply Z.ltb_lt in E; lia|clear E].
  wstep. eapply wp_get_sconfig; [done|]. rewrite Eph. cbn [OK_KEY Z.eqb Pos.eqb]. wstep.
  eapply wp_decode; try done; [apply md5_len|]. intros h2 M2. cbn [Z.ltb Z.compare].
  wstep. apply wp_upd_hw. wstep. unfold smartconfig_finish. wstep. apply wp_sgets. cbn [has_callback set_result]. rewrite Hcb.
  wstep. apply wp_upd_result. wstep. apply wp_sgets. cbn [sc_result set_result]. change (with_status smnt_result_ok res) with res.
  set (h3 := log (EvWlan "stop_monitor" []) h2). apply moved_fields in M2 as Mf. destruct Mf as (Ev&Eq&_).
  destruct (smart_config_stores res a h3 Hok) as (rn'&Hrn'&_&Hst); [by apply Hinv|]. rewrite R1, R2, R3 in Hst.
  apply wp_zoom. cbn [fst snd]. eapply wp_done.
  { etrans; [exact Hst|]. apply post_result_ok. cbn [queues h3 log]. rewrite Eq. cbn. rewrite Hq. cbn. unfold MSG_QUEUE_LENGTH. lia. }
  cbn [fst snd]. apply wp_ret. split; [done|]. eexists _, _, _. split; [reflexivity|].
  cbn [queues set_queue log h3 live]. rewrite bool_decide_true by done. rewrite Eq, Ev. cbn. rewrite Hq.
  split; [done|]. split; [lia|].
  assert (Hro : router_ok (chosen r ssid) pwd (sc_bssid i)) by (by destruct Hok as (_&_&_&Hro&_); rewrite R1, R2, R3 in Hro).
  eapply main_stores_router; [done|done|by apply router_image_inv|by apply M2|cbn; rewrite Eq; cbn; by rewrite Hq, bool_decide_true|by left].
Qed.
End Delivery.

(** C3: Smart config, from the lock on the phone to the connection: a phone
    encrypts a network name, a password and three parameters as its app does and
    sends them by multicast; the receiver, already locked on it, hears every
    piece at least once, in any order and between any other frames, before its
    timeout and with memory to spare.  Then the next turn of the smart-config
    task decodes them, puts the router (by the name it announces itself, unless
    it hides it) in the user data and posts the result to the main task.  The
    turn of the main task that takes the message, sniffing and with nothing else
    in its queue, saves the user data to flash and goes on to hand exactly that
    router to the WLAN driver, or resets because the cloud client cannot be
    started; in both cases every later start connects to it.  The claim stops
    before the clean-up of the smart-config task. *)
Theorem smart_config_delivers {C} `{NorChipLaws C, !NorReliable C} `{CloudEnv} `{JsonText} `{MainEnv} `{BlockCipherLaws}
    ssid pwd cloud ra rb l bssid sa r fs os tk (a : app) s (h : hw C) :
  credentials_ok ssid pwd cloud ra rb -> ready l bssid sa s -> heap h = [] ->
  len bssid = 6 -> is_bytes bssid -> find_router bssid l = Some r ->
  Forall2 (on_air (phone_key ssid pwd cloud ra rb) l bssid sa) fs os ->
  all_pieces (phone_key ssid pwd cloud ra rb) (omap id os) ->
  has_callback s = true -> in_time tk s h ->
  app_inv a -> ya_app_state a = YA_APP_SNIFFER -> queues h QMain = [] ->
  exists a' s' h',
    (for_each fs easyjoin_callback ;; smartconfig_turn ya_smart_config_result_callback tk) (a, s, h)
      = Done None (a', s', h') /\
    queues h' QMain = [mkMsg 0 None YA_SNIFFER_SUCCESS] /\
    stored_by_main (chosen r ssid) pwd bssid a' h'.
Proof.
  intros Hc Hrd Hh Hbl Hbb Hfr Hair Hall Hcb Htime Hinv0 Hst0 Hq.
  pose proof (phone_key_ok _ _ _ _ _ Hc) as Hk. set (k := phone_key ssid pwd cloud ra rb) in *.
  destruct (session_run k l bssid sa s h fs os [] a s h Hk Hh Hair (ready_session k l bssid sa s h Hk Hrd))
    as (s1&h1&Hrun&(i&p&Hi&(_&Eb&_)&Hp&Hrx)&(e&Hhd&Hok)&(E1&E2&E3&E4&E5&_)&n&Hm).
  rewrite app_nil_r in Hrx.
  assert (Hdone : findPhone i = OK_KEY /\ finish p = 1 /\ take (length k) (key p) = k /\ key_len p = len k).
  { destruct Hrx as [(?&?&?&?&_)|(_&_&Hinv&Hnc)]; [done|]. destruct Hnc.
    eapply all_pieces_complete; [done|destruct Hk as [_ Hk]; unfold len in Hk; lia|].
    eapply all_pieces_perm; [|done]. intros d Hd. by apply elem_of_reverse. }
  destruct Hdone as (F1&F2&F3&F4). destruct Hrd as [_ _ Hto Hfrom _ Hr0].
  apply moved_fields in Hm as Hmf. destruct Hmf as (_&Eq&_&Etk&_).
  destruct (turn_delivers ssid pwd cloud ra rb tk zero_bparse zero_bparse p i (l ++ e) r a s1 h1)
    as (a'&s'&h'&Ht&Hqm&_&Hrem); try done.
  - by apply Hm.
  - unfold in_time. by rewrite Etk, E5.
  - by rewrite E4.
  - by rewrite E1.
  - by rewrite E2.
  - by rewrite Eb.
  - by rewrite Eb.
  - rewrite Eb. by apply find_router_app.
  - by apply (find_router_ok bssid l r).
  - by rewrite Eq.
  - exists a', s', h'. erewrite bind_done by exact Hrun. rewrite Eb in Hrem. done.
Qed.

Definition sniffing_app : app := set_state YA_APP_SNIFFER sample_app.
Definition sample_key : bytes := phone_key (str "home") (str "secret") 1 171 205.
Lemma smart_config_delivers_witness : exists a' s' h',
    (for_each ((fun ds => frame_of (sample_air ds)) <$> pieces sample_key) easyjoin_callback ;;
     smartconfig_turn ya_smart_config_result_callback (mkTask 0 0 0 0)) (sniffing_app, sample_sc, boot)
      = Done None (a', s', h') /\
    queues h' QMain = [mkMsg 0 None YA_SNIFFER_SUCCESS] /\
    stored_by_main (str "home") (str "secret") sample_bssid a' h'.
Proof.
  assert (Hc : credentials_ok (str "home") (str "secret") 1 171 205).
  { repeat split; evaluate. }
  apply (smart_config_delivers (str "home") (str "secret") 1 171 205 [sample_router] sample_bssid sample_sa sample_router
    _ (Some <$> pieces sample_key) (mkTask 0 0 0 0) sniffing_app sample_sc boot);
    [exact Hc | exact sample_ready | reflexivity | reflexivity | evaluate | reflexivity
    | apply sample_session, phone_key_ok, Hc | rewrite omap_some; apply pieces_all
    | reflexivity | unfold in_time; evaluate | evaluate | reflexivity | reflexivity].
Defined.
