(* ===== verification/SoftAp.v ===== *)
(** * The soft-AP provisioning server ([ya_softap_update.c])

    In soft-AP mode the module is an access point of its own and listens on a
    UDP port.  A phone asks for a random number, for the device's identity, and
    finally hands over the router; every message is a header, a JSON document
    in AES-CBC and its MD5.  The same port serves the factory tool, which reads
    and writes the licences in plain JSON while none is present. *)

From stdpp Require Import base numbers list strings.
From S2P Require Import Prelude Platform SpiFlash Flash CommonFunc HalTimer CJson SysTime.
From S2P Require Import DeviceTimer License MainQueue Cloud UserData AppMain Aes.

Definition SOFTAP_BUF_SIZE : Z := 2 * 1024.
Definition SOFTAP_CONFIG_CMD_LOW_POS : Z := 3.
Definition SOFTAP_CONFIG_CMD_HIGH_POS : Z := 4.
Definition SOFTAP_CONFIG_DATA_LEN_LOW_POS : Z := 7.
Definition SOFTAP_CONFIG_DATA_LEN_HIGH_POS : Z := 8.
Definition SOFTAP_CONFIG_DATA_POS : Z := 9.
Definition SOFTAP_CONFIG_CMD_GET_RANDOM_RESPONSE : Z := 0x8001.
Definition SOFTAP_CONFIG_CMD_GET_DEVICE_MSG_RESPONSE : Z := 0x8002.
Definition SOFTAP_CONFIG_CMD_GET_NET_MSG_RESPONSE : Z := 0x8003.
Definition SOFTAP_CONFIG_FINISH : Z := 0.
Definition SOFTAP_TIME_OUT : Z := 1.
Definition SOFTAP_ERROR : Z := 2.
Definition AES_KEY_ADD_STRING : bytes := str "nm123##&".

(** What the radio, the sockets and the random generator answer. *)
Class ApEnv := {
  ya_hal_wlan_start_ap : bytes -> bytes -> Z;
  ya_udp_server : Z;
  ya_os_get_random : bytes;
  device_mac : bytes;
}.

(** [softap_param_st] *)
Record softap_param := mkApParam {
  sp_timeout : Z; ap_ssid : bytes; ap_password : bytes; cloud_support_type : Z }.

(** The file's globals; [soft_ap_config]: whether the task runs. *)
Record sap := mkSap {
  ya_softap_decode_buf : option bytes;
  ya_softap_rece_buf : option bytes;
  g_softap_param : softap_param;
  ya_router_para : ap_result;
  soft_ap_config : bool;
  aes_key : bytes;
  aes_iv : bytes;
  random_data : bytes;
  init_aes_key_and_iv_flag : Z;
}.
Definition set_decode b s := mkSap b (ya_softap_rece_buf s) (g_softap_param s) (ya_router_para s) (soft_ap_config s)
  (aes_key s) (aes_iv s) (random_data s) (init_aes_key_and_iv_flag s).
Definition set_rece b s := mkSap (ya_softap_decode_buf s) b (g_softap_param s) (ya_router_para s) (soft_ap_config s)
  (aes_key s) (aes_iv s) (random_data s) (init_aes_key_and_iv_flag s).
Definition set_param p s := mkSap (ya_softap_decode_buf s) (ya_softap_rece_buf s) p (ya_router_para s) (soft_ap_config s)
  (aes_key s) (aes_iv s) (random_data s) (init_aes_key_and_iv_flag s).
Definition set_router r s := mkSap (ya_softap_decode_buf s) (ya_softap_rece_buf s) (g_softap_param s) r (soft_ap_config s)
  (aes_key s) (aes_iv s) (random_data s) (init_aes_key_and_iv_flag s).
Definition set_running b s := mkSap (ya_softap_decode_buf s) (ya_softap_rece_buf s) (g_softap_param s) (ya_router_para s) b
  (aes_key s) (aes_iv s) (random_data s) (init_aes_key_and_iv_flag s).
Definition set_keys k v s := mkSap (ya_softap_decode_buf s) (ya_softap_rece_buf s) (g_softap_param s) (ya_router_para s)
  (soft_ap_config s) k v (random_data s) (init_aes_key_and_iv_flag s).
Definition set_random_data r s := mkSap (ya_softap_decode_buf s) (ya_softap_rece_buf s) (g_softap_param s) (ya_router_para s)
  (soft_ap_config s) (aes_key s) (aes_iv s) r (init_aes_key_and_iv_flag s).
Definition set_flag f s := mkSap (ya_softap_decode_buf s) (ya_softap_rece_buf s) (g_softap_param s) (ya_router_para s)
  (soft_ap_config s) (aes_key s) (aes_iv s) (random_data s) f.

(** [ya_router_para] after [memset]. *)
Definition zero_ap : ap_result := mkAp (zeros 33) (zeros 65) (zeros 6) (zeros 33) 0.

Section SoftAp.
Context {C : Type} `{NorChip C} `{CloudEnv} `{JsonText} `{MainEnv} `{BlockCipher} `{CertCheck} `{ApEnv}.
Abbreviation PA := (P C (app * sap)).

Definition agets {B} (f : sap -> B) : PA B := gets (fun s => f s.2).
Definition aputs (f : sap -> sap) : PA unit := puts (fun s => (s.1, f s.2)).
Definition in_app {B} (m : P C app B) : PA B := zoom_s fst (fun a s => (a, s.2)) m.
Definition sendto (data : bytes) : PA unit := emit (EvWlan "sendto" [data]).
Definition get_decode : PA bytes := let* o := agets ya_softap_decode_buf in deref o.
Definition put_decode (b : bytes) : PA unit := aputs (set_decode (Some b)).

(** ** Factory answers in plain JSON *)
(** Create, print, send, free, delete. *)
Definition send_document (members : list cJSON) : PA Z :=
  let* cmd := cJSON_CreateObject in
  match cmd with
  | None => ret (-1)
  | Some _ =>
    let* p := json_document (jroot members) in
    match p with
    | Some data => sendto data ;; ya_hal_os_memory_free
    | None => ret tt
    end ;;
    cJSON_Delete ;; ret 0
  end.
(** [snprintf("%02x:...")] of the six bytes. *)
Definition hex_lower (x : Z) : bytes := (fun c => tolower c) <$> hex_chars [x].
Definition mac_string : bytes :=
  match device_mac with
  | x :: l => foldl (fun acc y => acc ++ str ":" ++ hex_lower y) (hex_lower x) l
  | [] => []
  end.
(** [ya_get_ver_string] into an array of 65. *)
Definition version_string : PA bytes :=
  let* s := gets fst in strcpy (zeros 65) (cur_version (para s)).
Definition ya_factory_response_device_para : PA Z :=
  let* cmd := cJSON_CreateObject in
  match cmd with
  | None => ret (-1)
  | Some _ =>
    let* v := version_string in
    let* p := json_document (jroot [jstr "code" "0"; member "mac" mac_string; member "version" (cstr v)]) in
    match p with
    | Some data => sendto data ;; ya_hal_os_memory_free
    | None => ret tt
    end ;;
    cJSON_Delete ;; ret 0
  end.
(** [buffer] is a C string or NULL. *)
Definition ya_factory_test_query_response (json_key : string) (buffer : option bytes) (code : string) : PA Z :=
  send_document (match buffer with Some b => [member json_key (cstr b)] | None => [] end ++ [jstr "code" code]).
Definition ya_factory_test_cmd_response (code : string) : PA Z := send_document [jstr "code" code].

(** One string of the stored licence at [pos]: it and the next position. *)
Definition aliyun_field (buf_cert : bytes) (pos limit : Z) : PA (option (bytes * Z)) :=
  let* n := rd buf_cert pos in
  if limit <? n then ret None
  else
    let* v := rdn buf_cert (pos + 1) n in
    let* value_string := memcpy (zeros 65) 0 v in
    ret (Some (cstr value_string, pos + 1 + n)).
Definition ya_response_aliyun_cert : PA unit :=
  let err created := ya_factory_test_query_response "" None "1" ;; when created cJSON_Delete in
  let* '(r, buf_cert, _) := ya_read_aliyun_cert (zeros 128) 128 YA_LICENSE_ALIYUUN in
  if negb (r =? 0) then err false
  else
    let* cmd := cJSON_CreateObject in
    match cmd with
    | None => err false
    | Some _ =>
      let* aliyun := cJSON_CreateObject in
      match aliyun with
      | None => err true
      | Some _ =>
        cJSON_AddItemToObject ;;
        let* f := aliyun_field buf_cert 0 YA_PRODUCT_KEY_LEN in
        match f with
        | None => err true
        | Some (pk, pos) =>
          let* f := aliyun_field buf_cert pos YA_DEVICE_ID_LEN in
          match f with
          | None => err true
          | Some (id, pos) =>
            let* f := aliyun_field buf_cert pos YA_DEVICE_SECRET_LEN in
            match f with
            | None => err true
            | Some (secret, _) =>
              let* p := json_document (jroot [jobj "aliyun" [member "product_key" pk; member "device_id" id;
                                                          member "device_secret" secret]; jstr "code" "0"]) in
              match p with Some data => sendto data ;; ya_hal_os_memory_free | None => ret tt end
            end
          end
        end
      end
    end.

(** ** Factory requests *)
Definition query_slot (json_key : string) (addr : Z) (buffer : bytes) : PA bytes :=
  let* '(r, buffer, _) := ya_read_flash_with_var_len addr buffer SOFTAP_BUF_SIZE 1 in
  (if negb (r =? 0) then ya_factory_test_query_response json_key None "1"
   else ya_factory_test_query_response json_key (Some buffer) "0") ;;
  ret buffer.
(** The [query] branch; [buffer] has been cleared. *)
Definition factory_query (v buffer : bytes) : PA bytes :=
  let asks (s : string) := bool_decide (cstr v = str s) in
  if asks "device" then ya_factory_response_device_para ;; ret buffer
  else if asks "cert" then query_slot "cert" YA_LICENSE_DEVICE_CERT_ADDR buffer
  else if asks "key" then query_slot "key" YA_LICENSE_DEVICE_RSA_PRIVATE_KEY_ADDR buffer
  else if asks "clientid" then query_slot "clientid" YA_LICENSE_DEVICE_ID_ADDR buffer
  else if asks "thingtype" then query_slot "thingtype" YA_LICENSE_THING_TYPE_ADDR buffer
  else if asks "aliyun" then ya_response_aliyun_cert ;; ret buffer
  else ret buffer.
(** A licence string to store: written with its terminator in its own block. *)
Definition factory_write (o : option cJSON) (write : bytes -> Z -> PA Z) : PA unit :=
  match o with
  | None => ret tt
  | Some item =>
    let* v := deref (valuestring item) in
    let v := cstr v in
    let* r := write (v ++ [0]) (len v) in
    (if negb (r =? 0) then ya_factory_test_cmd_response "1" else ya_factory_test_cmd_response "0") ;; ret tt
  end.
(** The [for] loop over the three strings of an Aliyun licence: [pos] at its
    end. *)
Fixpoint aliyun_strings (keys : list string) (o : cJSON) (buffer : bytes) (pos : Z) : PA (bytes * Z) :=
  match keys with
  | [] => ret (buffer, pos)
  | k :: keys =>
    match cJSON_GetObjectItem o (str k) with
    | None => ret (buffer, 0)
    | Some sub_object =>
      let* v := deref (valuestring sub_object) in
      let v := cstr v in
      let* buffer := wr buffer pos (len v) in
      let* buffer := memcpy buffer (pos + 1) v in
      let pos := u16 (pos + 1 + len v) in
      match keys with
      | [] =>
        let* r := ya_write_aliyun_cert buffer pos YA_LICENSE_ALIYUUN in
        ret (buffer, if negb (r =? 0) then 0 else pos)
      | _ => aliyun_strings keys o buffer pos
      end
    end
  end.
Definition ya_softap_factory_license_parse (buffer : bytes) : PA (Z * bytes) :=
  let* o := json_parse buffer in
  match o with
  | None => ret (-1, buffer)
  | Some j =>
    let* buffer :=
      match cJSON_GetObjectItem j (str "query") with
      | Some q =>
        let* buffer := memset buffer 0 SOFTAP_BUF_SIZE in
        let* v := deref (valuestring q) in factory_query v buffer
      | None => ret buffer
      end in
    factory_write (cJSON_GetObjectItem j (str "cert")) (fun b n =>
      let* '(r, _) := ya_write_check_aws_para_device_cert b n YA_LICENSE_DEVICE_CERT_ADDR in ret r) ;;
    factory_write (cJSON_GetObjectItem j (str "key")) (fun b n =>
      let* '(r, _) := ya_write_check_aws_para_device_rsa_private_key b n YA_LICENSE_DEVICE_RSA_PRIVATE_KEY_ADDR in ret r) ;;
    factory_write (cJSON_GetObjectItem j (str "clientid")) (fun b n =>
      ya_write_check_aws_para_device_id b n YA_LICENSE_DEVICE_ID_ADDR) ;;
    factory_write (cJSON_GetObjectItem j (str "thingtype")) (fun b n =>
      ya_write_check_aws_para_thing_type b n YA_LICENSE_THING_TYPE_ADDR) ;;
    let* buffer :=
      match cJSON_GetObjectItem j (str "aliyun") with
      | None => ret buffer
      | Some o =>
        let* '(buffer, pos) := aliyun_strings ["product_key"; "device_id"; "device_secret"]%string o buffer 0 in
        (if negb (pos =? 0) then ya_factory_test_cmd_response "0" else ya_factory_test_cmd_response "1") ;;
        ret buffer
      end in
    cJSON_Delete ;; ret (0, buffer)
  end.

(** ** Keys and answers of the phone's protocol *)
Definition create_aes_key_and_iv : PA unit :=
  let* s := agets id in
  if init_aes_key_and_iv_flag s =? 0 then
    let name := cstr (ap_ssid (g_softap_param s)) in
    let* ssid_tmp := memcpy (zeros 100) 0 name in
    let* ssid_tmp := memcpy ssid_tmp (len name) AES_KEY_ADD_STRING in
    let '(_, k) := ya_mbedtls_md5 (cstr ssid_tmp) (zeros 16) in
    aputs (set_keys k k)
  else if init_aes_key_and_iv_flag s =? 1 then
    let* v := rdn (random_data s) 0 16 in
    let* k := rdn (random_data s) 16 16 in
    aputs (set_keys k v)
  else ret tt.

Definition softap_set_ap (ssid pwd : bytes) : PA Z :=
  let ssid_len := len (cstr ssid) in
  let pwd_len := len (cstr pwd) in
  if (ssid_len =? 0) || (32 <? ssid_len) || (64 <? pwd_len) then ret (-1)
  else if negb (ya_hal_wlan_start_ap (cstr ssid) (cstr pwd) =? 0) then ret (-1)
  else aputs (set_random_data ya_os_get_random) ;; ret 0.

(** The answer is built over the header of the request; returns its length. *)
Definition softap_feedback_encrypt_pack (cmd : Z) (data : bytes) : PA Z :=
  let* b := get_decode in
  let* b := wr b SOFTAP_CONFIG_CMD_LOW_POS cmd in
  let* b := wr b SOFTAP_CONFIG_CMD_HIGH_POS (Z.shiftr cmd 8) in
  let '(_, data_md5) := ya_mbedtls_md5 data (zeros 16) in
  create_aes_key_and_iv ;;
  let* s := agets id in
  let* '(n, b) := AES_CBC_PKCS5Padding_encrypt (aes_key s) (aes_iv s) data b SOFTAP_CONFIG_DATA_POS in
  let* b := wr b SOFTAP_CONFIG_DATA_LEN_LOW_POS n in
  let* b := wr b SOFTAP_CONFIG_DATA_LEN_HIGH_POS (Z.shiftr n 8) in
  let* b := memcpy b (SOFTAP_CONFIG_DATA_POS + n) data_md5 in
  put_decode b ;;
  ret (n + 25).
Definition send_packed (cmd : Z) (buf : bytes) (times : nat) : PA unit :=
  let* n := softap_feedback_encrypt_pack cmd buf in
  let* b := get_decode in
  let* data := rdn b 0 n in
  for_each (seq 0 times) (fun _ => sendto data) ;;
  ya_hal_os_memory_free.

Definition ya_softap_random_cmd : PA Z :=
  let* s := agets id in
  let* random_data_string := memcpy (zeros 128) 0 (HexArrayToString (random_data s)) in
  let* root := cJSON_CreateObject in
  match root with
  | None => ret (-1)
  | Some _ =>
    let* buf := json_document (jroot [member "Random" (cstr random_data_string)]) in
    cJSON_Delete ;;
    match buf with
    | Some buf => send_packed SOFTAP_CONFIG_CMD_GET_RANDOM_RESPONSE buf 1 ;; ret 0
    | None => ret (-1)
    end
  end.

(** The decision of [ya_softap_get_cmd]: the names to answer with, or the
    error code. *)
Definition get_cmd_names (j : cJSON) : PA (sum Z (bytes * bytes)) :=
  let* item := deref (cJSON_GetObjectItem j (str "CloudType")) in
  if negb (j_type item =? cJSON_String) then ret (inl 2)
  else
    let* v := deref (valuestring item) in
    let cloud_type := atoi (cstr v) in
    if WIFI_MAX <=? cloud_type then ret (inl 2)
    else
      let* s := agets id in
      let sup := cloud_support_type (g_softap_param s) in
      if ((sup =? AKEETA_CN) && negb (cloud_type =? WIFI_CN)) || ((sup =? AKEETA_OVERSEA) && (cloud_type =? WIFI_CN))
      then ret (inl 1)
      else
        let* product_key := if cloud_type =? WIFI_CN then in_app ya_aly_get_thing_name else in_app (in_lic ya_aws_get_thing_type) in
        let* client_id := if cloud_type =? WIFI_CN then in_app ya_aly_get_client_id else in_app (in_lic ya_aws_get_client_id) in
        match product_key, client_id with
        | Some pk, Some id =>
          if (len (cstr pk) =? 0) || (len (cstr id) =? 0) then ret (inl 1)
          else
            aputs (fun s => let r := ya_router_para s in
              set_router (mkAp (router_ssid r) (router_pwd r) (router_bssid r) (ap_random r) (u8 cloud_type)) s) ;;
            ret (inr (cstr pk, cstr id))
        | _, _ => ret (inl 1)
        end.
Definition ya_softap_get_cmd (j : cJSON) : PA Z :=
  let* a := gets fst in
  let wificloud := ya_int_to_string (ya_wifiCloud a) in
  let* r := get_cmd_names j in
  let* root := cJSON_CreateObject in
  match root with
  | None => ret (-1)
  | Some _ =>
    let* v := version_string in
    let* buf := json_document (jroot (jstr "Command" "Return" ::
      match r with
      | inr (pk, id) => [member "DeviceId" id; member "ProductKey" pk; jstr "Code" "0"; member "WiFiCloud" wificloud]
      | inl c => [jstr "DeviceId" ""; jstr "ProductKey" ""; jstr "Code" (if c =? 1 then "1" else "2");
                  member "WiFiCloud" wificloud]
      end ++ [member "Version" (cstr v)])) in
    cJSON_Delete ;;
    match buf with
    | Some buf =>
      send_packed SOFTAP_CONFIG_CMD_GET_DEVICE_MSG_RESPONSE buf 1 ;;
      ret (match r with inr _ => 0 | inl _ => -1 end)
    | None => ret (-1)
    end
  end.

(** A string member of at most [n] characters; [None] is [goto out]. *)
Definition text_member (j : cJSON) (k : string) (n : Z) : PA (option bytes) :=
  match cJSON_GetObjectItem j (str k) with
  | None => ret None
  | Some item =>
    if negb (j_type item =? cJSON_String) then ret None
    else
      let* v := deref (valuestring item) in
      ret (if n <? len (cstr v) then None else Some (cstr v))
  end.
Definition store_apconfig (j : cJSON) : PA (option unit) :=
  let? Ssid := text_member j "Ssid" 32 in
  let? Password := text_member j "Password" 64 in
  let? Bssid := text_member j "Bssid" 12 in
  let? Random := text_member j "Random" 32 in
  let* s := agets id in
  let r := ya_router_para s in
  let* ssid := strcpy (router_ssid r) (Ssid ++ [0]) in
  let* pwd := strcpy (router_pwd r) (Password ++ [0]) in
  let* '(_, bssid) := StringToHexArray (router_bssid r) 6 Bssid in
  let* random := strcpy (ap_random r) (Random ++ [0]) in
  aputs (set_router (mkAp ssid pwd bssid random (ap_cloud r))) ;;
  ret (Some tt).
(** The document is not deleted. *)
Definition ya_softap_apconfig_cmd (j : cJSON) : PA Z :=
  let* ok := store_apconfig j in
  let* root := cJSON_CreateObject in
  match root with
  | None => ret (-1)
  | Some _ =>
    let* buf := json_document (jroot [jstr "Code" (match ok with Some _ => "0" | None => "1" end)]) in
    match buf with
    | Some buf =>
      send_packed SOFTAP_CONFIG_CMD_GET_NET_MSG_RESPONSE buf 3 ;;
      emit (EvDelay 1000) ;;
      match ok with
      | Some _ =>
        let* s := agets id in
        in_app (ya_softap_callback SOFTAP_CONFIG_FINISH (ya_router_para s)) ;; ret 1
      | None => ret (-1)
      end
    | None => ret (-1)
    end
  end.

(** ** A message of the phone *)
(** The command by the first letters of its name; the comparison stops at the
    string's end. *)
Definition run_command (j : cJSON) : PA Z :=
  match cJSON_GetObjectItem j (str "Command") with
  | None => ret 0
  | Some c =>
    let* v := deref (valuestring c) in
    let v := cstr v in
    if prefix_of_b (str "Random") v then ya_softap_random_cmd
    else if prefix_of_b (str "Get") v then ya_softap_get_cmd j
    else if prefix_of_b (str "Apconfig") v then ya_softap_apconfig_cmd j
    else ret 0
  end.
Definition ya_softap_comm_parse (buffer : bytes) : PA Z :=
  let* h1 := rd buffer 1 in let* h0 := rd buffer 0 in
  if negb (h1 =? 0x5A) || negb (h0 =? 0x5A) then ret (-1)
  else
    let* b := get_decode in
    let* b := memset b 0 SOFTAP_BUF_SIZE in
    let* c1 := rd buffer SOFTAP_CONFIG_CMD_HIGH_POS in let* c0 := rd buffer SOFTAP_CONFIG_CMD_LOW_POS in
    let cmd := u16 (Z.shiftl c1 8 + c0) in
    aputs (set_flag (if cmd =? 0x0001 then 0 else 1)) ;;
    create_aes_key_and_iv ;;
    let* l1 := rd buffer SOFTAP_CONFIG_DATA_LEN_HIGH_POS in let* l0 := rd buffer SOFTAP_CONFIG_DATA_LEN_LOW_POS in
    let cipher_data_len := Z.shiftl l1 8 + l0 in
    let* hdr := rdn buffer 0 SOFTAP_CONFIG_DATA_POS in
    let* b := memcpy b 0 hdr in
    let* s := agets id in
    let* c := rdn buffer SOFTAP_CONFIG_DATA_POS cipher_data_len in
    let* '(n, b) := AES_CBC_PKCS5Padding_decrypt (aes_key s) (aes_iv s) c b SOFTAP_CONFIG_DATA_POS in
    put_decode b ;;
    if n =? 0 then ret (-1)
    else
      let* text := rdn b SOFTAP_CONFIG_DATA_POS n in
      let '(_, data_decrypt_md5) := ya_mbedtls_md5 text (zeros 16) in
      let md5_pos := u16 (SOFTAP_CONFIG_DATA_POS + cipher_data_len) in
      let* m := rdn buffer md5_pos 16 in
      if m ==? data_decrypt_md5 then
        let* b := wr b (SOFTAP_CONFIG_DATA_POS + n) 0 in
        put_decode b ;;
        let* o := json_parse (drop (Z.to_nat SOFTAP_CONFIG_DATA_POS) b) in
        match o with
        | None => ret (-1)
        | Some j => let* r := run_command j in cJSON_Delete ;; ret r
        end
      else ret (-1).

(** ** The task *)
Definition license_missing : PA bool :=
  let* s := agets id in
  let sup := cloud_support_type (g_softap_param s) in
  let cn := in_app (in_lic ya_check_cn_license_exit_internal) in
  let us := in_app (in_lic ya_check_us_license_exit_internal) in
  if sup =? AKEETA_CN then let* r := cn in ret (negb (r =? 0))
  else if sup =? AKEETA_OVERSEA then let* r := us in ret (negb (r =? 0))
  else
    let* r := cn in
    if negb (r =? 0) then ret true else let* r := us in ret (negb (r =? 0)).
(** A buffer that is allocated unless it is there. *)
Definition ensure (get : sap -> option bytes) (put : option bytes -> sap -> sap) : PA bool :=
  let* o := agets get in
  match o with
  | Some _ => ret true
  | None =>
    let* o := ya_hal_os_memory_alloc SOFTAP_BUF_SIZE in
    aputs (put o) ;; ret (match o with Some _ => true | None => false end)
  end.
(** From the entry to the loop: whether licences may be written and the timer,
    or [None] for [goto out]. *)
Definition ya_softap_update_init (tick : Z) : PA (option (bool * Ya_Timer)) :=
  let* enable_license_write := license_missing in
  let* s := agets id in
  let* r := softap_set_ap (ap_ssid (g_softap_param s)) (ap_password (g_softap_param s)) in
  if r <? 0 then ret None
  else if ya_udp_server <? 0 then ret None
  else
    let* ok := ensure ya_softap_rece_buf set_rece in
    if negb ok then ret None
    else
      let* ok := ensure ya_softap_decode_buf set_decode in
      if negb ok then ret None
      else
        aputs (set_router zero_ap) ;;
        ret (Some (enable_license_write, ya_countdown_ms tick ya_init_timer (sp_timeout (g_softap_param s) * 1000))).

Definition factory_request (enable_license_write : bool) : PA unit :=
  if enable_license_write then
    let* o := agets ya_softap_rece_buf in
    let* b := deref o in
    let* '(_, b) := ya_softap_factory_license_parse b in
    aputs (set_rece (Some b))
  else ret tt.
(** One turn: [packet] is the datagram received, [None] a timeout of the
    socket.  [true] is [goto out]. *)
Definition ya_softap_update_step (tick : Z) (enable_license_write : bool) (timer : Ya_Timer) (packet : option bytes) : PA bool :=
  if ya_has_timer_expired tick timer =? 0 then
    in_app (ya_softap_callback SOFTAP_TIME_OUT zero_ap) ;; ret true
  else
    let* o := agets ya_softap_rece_buf in
    let* b := deref o in
    let* b := memset b 0 SOFTAP_BUF_SIZE in
    let data := take (Z.to_nat (SOFTAP_BUF_SIZE - 1)) (default [] packet) in
    let* b := memcpy b 0 data in
    aputs (set_rece (Some b)) ;;
    let n := match packet with Some _ => len data | None => -1 end in
    if 25 <? n then
      let* h1 := rd b 1 in let* h0 := rd b 0 in
      if (h1 =? 0x5A) && (h0 =? 0x5A) then
        let* l1 := rd b SOFTAP_CONFIG_DATA_LEN_HIGH_POS in let* l0 := rd b SOFTAP_CONFIG_DATA_LEN_LOW_POS in
        if Z.lor (Z.shiftl l1 8) l0 <=? n then
          let* r := ya_softap_comm_parse b in
          if r =? 1 then ret true
          else if r =? -1 then
            emit (EvDelay 2000) ;; in_app (ya_softap_callback SOFTAP_ERROR zero_ap) ;; ret true
          else ret false
        else ret false
      else factory_request enable_license_write ;; ret false
    else factory_request enable_license_write ;; ret false.
(** [out:] the socket is closed, the buffers are freed. *)
Definition softap_out : PA unit :=
  let* s := agets id in
  free_if (ya_softap_rece_buf s) ;; aputs (set_rece None) ;;
  free_if (ya_softap_decode_buf s) ;; aputs (set_decode None) ;;
  aputs (set_running false).
Definition ya_start_softap (thread_ok : bool) (p : softap_param) : PA Z :=
  let* s := agets id in
  free_if (ya_softap_rece_buf s) ;; aputs (set_rece None) ;;
  free_if (ya_softap_decode_buf s) ;; aputs (set_decode None) ;;
  if soft_ap_config s then ret 0
  else aputs (set_param p) ;; if thread_ok then aputs (set_running true) ;; ret 0 else ret (-1).
End SoftAp.
