(* ===== verification/SoftApProofs.v ===== *)
(** * Theorems about the soft-AP server

    The messages of the phone and of the module have one format; a message in
    that format is understood, one that is not authentic has no effect, and the
    router handed over is the one the module connects to. *)

From stdpp Require Import base numbers list strings.
From S2P Require Import Prelude Platform SpiFlash Flash CommonFunc HalTimer CJson SysTime.
From S2P Require Import DeviceTimer License MainQueue Cloud UserData AppMain UserDataProofs Provisioning MainSafety MainProvision Aes SoftAp.

(** ** The message format *)
Definition ap_header (ver cmd : Z) (sn : bytes) (n : Z) : bytes :=
  [0x5A; 0x5A; ver; u8 cmd; u8 (Z.shiftr cmd 8)] ++ sn ++ [u8 n; u8 (Z.shiftr n 8)].
Definition ap_cipher `{BlockCipher} (key iv text : bytes) : bytes := cbc_encrypt (blocks (pkcs5 text)) key iv (pkcs5 text).
Definition ap_message `{BlockCipher} (ver cmd : Z) (sn key iv text : bytes) : bytes :=
  ap_header ver cmd sn (len (pkcs5 text)) ++ ap_cipher key iv text ++ md5 text.
(** The keys a command is protected with: the first exchange by the name of
    the access point, the others by the random number of the session. *)
Definition session_keys `{BlockCipher} (cmd : Z) (s : sap) : bytes * bytes :=
  if cmd =? 0x0001 then let k := md5 (cstr (ap_ssid (g_softap_param s)) ++ AES_KEY_ADD_STRING) in (k, k)
  else (slice (random_data s) 16 16, slice (random_data s) 0 16).

Record sap_ok (s : sap) : Prop := mkSapOk {
  so_ssid : 0 ∈ ap_ssid (g_softap_param s) /\ len (cstr (ap_ssid (g_softap_param s))) <= 32;
  so_random : len (random_data s) = 32 /\ is_bytes (random_data s);
  so_decode : exists b, ya_softap_decode_buf s = Some b /\ len b = 2048;
  so_flag : init_aes_key_and_iv_flag s = 0 \/ init_aes_key_and_iv_flag s = 1;
}.

Section Keys.
Context {C : Type} `{BlockCipherLaws}.
Implicit Types (a : app) (s : sap) (h : hw C).

Lemma wp_agets {B} (f : sap -> B) Q R a s h : Q (f s) (a, s, h) -> wp (agets f) Q R (a, s, h).
Proof. done. Qed.
Lemma wp_aputs f Q R a s h : Q tt (a, f s, h) -> wp (aputs f) Q R (a, s, h).
Proof. done. Qed.
Lemma wp_get_decode b Q R a s h :
  ya_softap_decode_buf s = Some b -> Q b (a, s, h) -> wp get_decode Q R (a, s, h).
Proof. intros Hb HQ. unfold wp, get_decode, bind, agets, gets, deref. cbn. by rewrite Hb. Qed.

(** The command number that selects the current keys. *)
Definition flag_cmd s : Z := if init_aes_key_and_iv_flag s =? 0 then 1 else 2.
Lemma wp_create_keys (Q : unit -> (app * sap) * hw C -> Prop) R a s h :
  sap_ok s -> (let '(k, v) := session_keys (flag_cmd s) s in Q tt (a, set_keys k v s, h)) ->
  wp create_aes_key_and_iv Q R (a, s, h).
Proof.
  intros [[H0s Hl] [Hr Hrb] _ Hf] HQ. unfold create_aes_key_and_iv. wstep. apply wp_agets.
  unfold session_keys, flag_cmd in HQ. cbn [id] in *. pose proof (len_nonneg (cstr (ap_ssid (g_softap_param s)))).
  destruct Hf as [E|E]; rewrite E in *; cbn [Z.eqb Pos.eqb] in *.
  - set (name := cstr (ap_ssid (g_softap_param s))) in *.
    wstep. eapply wp_done; [apply (memcpy_zeros [] name 100 0); [done|lia]|].
    wstep. eapply wp_done; [apply (memcpy_zeros name); [done|change (len AES_KEY_ADD_STRING) with 8; lia]|].
    assert (Hc : forall n, 0 < n -> cstr ((name ++ AES_KEY_ADD_STRING) ++ zeros n) = name ++ AES_KEY_ADD_STRING).
    { intros n Hn. assert (Hz : zeros n = 0 :: zeros (n - 1)).
      { unfold zeros. replace (Z.to_nat n) with (S (Z.to_nat (n - 1))) by lia. done. }
      rewrite Hz. apply cstr_app_nul, Forall_app. split; [apply cstr_is_no_nul|]. unfold no_nul. evaluate. }
    rewrite Hc by (change (len AES_KEY_ADD_STRING) with 8; lia).
    unfold ya_mbedtls_md5. destruct (Z.eqb_spec (len (name ++ AES_KEY_ADD_STRING)) 0) as [E0|_].
    { rewrite len_app in E0. change (len AES_KEY_ADD_STRING) with 8 in E0. lia. }
    cbn beta iota. by apply wp_aputs.
  - wstep. wstep. wstep. wstep. by apply wp_aputs.
Qed.
Lemma session_keys_ok cmd s : sap_ok s ->
  let '(k, v) := session_keys cmd s in len v = 16 /\ is_bytes v.
Proof.
  intros [_ [Hr Hrb] _ _]. unfold session_keys. destruct (cmd =? 1).
  - split; [apply md5_len|apply md5_bytes].
  - split; [apply len_slice; lia|by apply is_bytes_slice].
Qed.
End Keys.

(** ** Answers *)
Lemma u16_bytes n : is_u16 n -> Z.shiftl (u8 (Z.shiftr n 8)) 8 + u8 n = n.
Proof.
  unfold is_u16, u8. intros Hn. rewrite Z.shiftr_div_pow2, Z.shiftl_mul_pow2 by lia. change (2 ^ 8) with 256. zdiv.
Qed.
Lemma len_ap_header ver cmd sn n : len sn = 2 -> len (ap_header ver cmd sn n) = 9.
Proof. intros Hs. unfold ap_header. rewrite !len_app. change (len [_; _; _; _; _]) with 5. change (len [_; _]) with 2. lia. Qed.

Lemma splice_after (p r c : bytes) : splice (p ++ r) (len p) c = p ++ c ++ drop (length c) r.
Proof.
  unfold splice, len. rewrite Nat2Z.id, take_app_length, drop_app_add. done.
Qed.

Section Answers.
Context {C : Type} `{BlockCipherLaws}.
Implicit Types (a : app) (s : sap) (h : hw C).
Lemma len_ap_cipher key iv text : len iv = 16 -> len (ap_cipher key iv text) = len (pkcs5 text).
Proof. intros Hi. unfold ap_cipher. rewrite len_cbc_encrypt; rewrite ?blocks_pkcs5; done || lia. Qed.

Lemma sends_run data k a s h :
  for_each (seq 0 k) (fun _ => sendto data) (a, s, h)
  = Done tt (a, s, set_trace (replicate k (EvWlan "sendto" [data]) ++ trace h) h).
Proof.
  generalize 0%nat. revert h. induction k as [|k IH]; intros h i; [by destruct h|].
  cbn [seq for_each]. erewrite bind_done by done. rewrite IH. unfold set_trace. cbn.
  assert (E : forall tr, replicate k (EvWlan "sendto" [data]) ++ EvWlan "sendto" [data] :: tr
    = EvWlan "sendto" [data] :: replicate k (EvWlan "sendto" [data]) ++ tr); [|by rewrite E].
  intros tr. clear. induction k as [|k IH]; [done|]. cbn. by rewrite IH.
Qed.

(** Only events were logged and blocks moved. *)
Definition aired (n : Z) (ev : list event) h h' : Prop :=
  h' = set_heap (heap h') (live h + n) (set_trace (ev ++ trace h) h) /\ (heap h = [] -> heap h' = []).
Lemma aired_moved n h h' : moved n h h' -> aired n [] h h'.
Proof. intros [E Hp]. split; [|done]. rewrite E. by destruct h. Qed.
Lemma aired_log e h : aired 0 [e] h (log e h).
Proof. split; [|done]. destruct h. unfold log, set_heap, set_trace. cbn. f_equal; lia. Qed.
Lemma aired_trans n m e f h h1 h2 : aired n e h h1 -> aired m f h1 h2 -> aired (n + m) (f ++ e) h h2.
Proof.
  intros [E1 P1] [E2 P2]. split; [|auto]. rewrite E2, E1. destruct h. unfold set_heap, set_trace. cbn.
  f_equal; [lia|]. by rewrite (assoc_L (++)).
Qed.
Lemma aired_eq n m e f h h' : aired n e h h' -> n = m -> e = f -> aired m f h h'.
Proof. by intros ? <- <-. Qed.

(** The answer is a message in the same format, with the version and the serial
    number of the request whose header the buffer holds. *)
Lemma wp_send_packed cmd text times ver cmd0 sn n0 rest (Q : unit -> (app * sap) * hw C -> Prop) R a s h :
  sap_ok s -> heap h = [] -> len sn = 2 -> 0 < len text -> 25 + len (pkcs5 text) <= 2048 ->
  ya_softap_decode_buf s = Some (ap_header ver cmd0 sn n0 ++ rest) -> len (ap_header ver cmd0 sn n0 ++ rest) = 2048 ->
  (forall b h', let '(k, v) := session_keys (flag_cmd s) s in
     aired (-1) (replicate times (EvWlan "sendto" [ap_message ver cmd sn k v text])) h h' -> len b = 2048 ->
     Q tt (a, set_decode (Some b) (set_keys k v s), h')) ->
  wp (send_packed cmd text times) Q R (a, s, h).
Proof.
  intros Hok Hh Hsn Htx Hfit Hb Hbl HQ. unfold send_packed, softap_feedback_encrypt_pack.
  pose proof (session_keys_ok (flag_cmd s) s Hok) as Hkv.
  destruct (session_keys (flag_cmd s) s) as [k v] eqn:Ekv. destruct Hkv as [Hv Hvb].
  destruct sn as [|s0 [|s1 [|]]]; [done..| |unfold len in Hsn; cbn in Hsn; lia].
  assert (Hrest : len rest = 2039) by (rewrite len_app, len_ap_header in Hbl; [lia|done]).
  wstep. wstep. eapply wp_get_decode; [done|]. unfold ap_header at 1. cbn [List.app].
  wstep. apply wp_wr; [autorewrite with blen; unfold SOFTAP_CONFIG_CMD_LOW_POS; lia|].
  wstep. apply wp_wr; [autorewrite with blen; unfold SOFTAP_CONFIG_CMD_HIGH_POS; lia|].
  unfold ya_mbedtls_md5 at 1. destruct (Z.eqb_spec (len text) 0) as [?|_]; [lia|]. cbn beta iota.
  wstep. apply wp_create_keys; [done|]. rewrite Ekv. wstep. apply wp_agets. cbn [aes_key aes_iv set_keys id].
  set (hd := [0x5A; 0x5A; ver; u8 cmd; u8 (Z.shiftr cmd 8); s0; s1; u8 n0; u8 (Z.shiftr n0 8)]).
  match goal with |- context [AES_CBC_PKCS5Padding_encrypt k v text ?b _] => change b with (hd ++ rest) end.
  assert (Hhd : len hd = 9) by done. pose proof (pkcs5_total text) as Hpt.
  wstep. apply wp_cbc_encrypt; [done|done|rewrite len_app; unfold SOFTAP_CONFIG_DATA_POS; lia|done|].
  intros h1 M1. fold (ap_cipher k v text). set (c := ap_cipher k v text).
  assert (Hc : len c = len (pkcs5 text)) by (by apply len_ap_cipher). assert (Hn0 : 0 <= len (pkcs5 text)) by apply len_nonneg. set (n := len (pkcs5 text)) in *.
  assert (Esp : splice (hd ++ rest) SOFTAP_CONFIG_DATA_POS c = hd ++ c ++ drop (length c) rest).
  { change SOFTAP_CONFIG_DATA_POS with (len hd). apply splice_after. }
  rewrite Esp. unfold hd at 1. cbn [List.app].
  wstep. apply wp_wr; [autorewrite with blen; unfold SOFTAP_CONFIG_DATA_LEN_LOW_POS; pose proof (len_nonneg (drop (length c) rest)); lia|].
  wstep. apply wp_wr; [autorewrite with blen; unfold SOFTAP_CONFIG_DATA_LEN_HIGH_POS; pose proof (len_nonneg (drop (length c) rest)); lia|].
  set (hd' := [0x5A; 0x5A; ver; u8 cmd; u8 (Z.shiftr cmd 8); s0; s1; u8 n; u8 (Z.shiftr n 8)]).
  match goal with |- context [memcpy ?b (_ + n) _] => change b with (hd' ++ c ++ drop (length c) rest) end.
  assert (Hd : len (drop (length c) rest) = 2039 - n) by (unfold len in *; rewrite length_drop; lia).
  pose proof (md5_len text) as Hmd.
  wstep. apply wp_memcpy; [unfold SOFTAP_CONFIG_DATA_POS; lia|rewrite !len_app; change (len hd') with 9; unfold SOFTAP_CONFIG_DATA_POS; lia|].
  assert (Esp2 : splice (hd' ++ c ++ drop (length c) rest) (SOFTAP_CONFIG_DATA_POS + n) (md5 text)
    = (hd' ++ c ++ md5 text) ++ drop (length (md5 text)) (drop (length c) rest)).
  { replace (SOFTAP_CONFIG_DATA_POS + n) with (len (hd' ++ c)) by (rewrite len_app, Hc; done).
    rewrite (assoc_L (++) hd' c (drop (length c) rest)), splice_after. by rewrite <- !(assoc_L (++)). }
  rewrite Esp2. wstep. apply wp_aputs. apply wp_ret. wstep. eapply wp_get_decode; [done|].
  set (msg := hd' ++ c ++ md5 text). set (z := drop (length (md5 text)) (drop (length c) rest)).
  assert (Hmsg : len msg = n + 25) by (unfold msg; rewrite !len_app, Hc, Hmd; change (len hd') with 9; lia).
  assert (Hz : len z = 2048 - (n + 25)).
  { unfold z. unfold len in *. rewrite length_drop. lia. }
  wstep. eapply wp_done; [by apply (rdn_at _ [] msg z)|]. wstep.
  eapply wp_done; [apply sends_run|]. apply wp_upd_hw.
  apply HQ; [|rewrite len_app; lia]. split; [|intros _; by apply M1].
  destruct M1 as [E1 _]. destruct h1, h. unfold set_heap, set_trace in *. cbn in *. injection E1; intros; subst. f_equal; lia.
Qed.
End Answers.

(** ** Requests *)

(** A string member of a document. *)
Definition has_text (j : cJSON) (k : string) (v : bytes) : Prop :=
  exists item b, cJSON_GetObjectItem j (str k) = Some item /\ j_type item = cJSON_String /\
    valuestring item = Some b /\ cstr b = v.
Lemma lor_add x y : is_u8 y -> Z.lor (Z.shiftl x 8) y = Z.shiftl x 8 + y.
Proof.
  intros Hy. unfold is_u8 in Hy. assert (Hl : Z.land (Z.shiftl x 8) y = 0).
  { apply Z.bits_inj'. intros n Hn. rewrite Z.land_spec, Z.bits_0. destruct (Z.lt_ge_cases n 8).
    - by rewrite Z.shiftl_spec_low.
    - rewrite andb_comm. destruct (decide (y = 0)) as [->|]; [by rewrite Z.bits_0|].
      rewrite Z.bits_above_log2; [done|lia|]. apply Z.log2_lt_pow2; [lia|].
      eapply Z.lt_le_trans; [apply Hy|]. change 256 with (2 ^ 8). by apply Z.pow_le_mono_r. }
  by rewrite <- Z.lxor_lor, Z.add_nocarry_lxor.
Qed.

Section Requests.
Context {C : Type} `{NorChip C} `{CloudEnv} `{JsonText} `{MainEnv} `{BlockCipherLaws} `{CertCheck} `{ApEnv}.
Implicit Types (a : app) (s : sap) (h : hw C).

(** The state in which a command runs: the request's header and text in the
    buffer, the keys of the request selected. *)
Definition with_request (cmd : Z) (b k v : bytes) (s : sap) : sap :=
  set_decode (Some b) (set_keys k v (set_flag (if cmd =? 1 then 0 else 1) s)).
Lemma ap_header_bytes ver cmd sn n : is_u8 ver -> is_bytes sn -> is_bytes (ap_header ver cmd sn n).
Proof.
  intros Hv Hs. assert (H5a : is_u8 0x5A) by (unfold is_u8; lia).
  pose proof (u8_range cmd). pose proof (u8_range (Z.shiftr cmd 8)). pose proof (u8_range n). pose proof (u8_range (Z.shiftr n 8)).
  unfold ap_header. rewrite !is_bytes_app. unfold is_bytes in *. rewrite !Forall_cons, !Forall_nil. tauto.
Qed.
Lemma with_request_keys cmd b k v s : is_u16 cmd ->
  session_keys (flag_cmd (with_request cmd b k v s)) (with_request cmd b k v s) = session_keys cmd s.
Proof.
  intros _. unfold flag_cmd, with_request. cbn [init_aes_key_and_iv_flag set_decode set_keys set_flag].
  unfold session_keys. cbn. by destruct (cmd =? 1).
Qed.
Lemma with_request_ok cmd b k v s : sap_ok s -> len b = 2048 -> sap_ok (with_request cmd b k v s).
Proof.
  intros [? ? _ _] Hb. split; cbn; [done|done|by exists b|]. destruct (cmd =? 1); auto.
Qed.

(** The four bytes of the header that are read, in a message of the format. *)
Lemma ap_header_at ver cmd sn n rest (t : (app * sap) * hw C) : len sn = 2 ->
  let b := ap_header ver cmd sn n ++ rest in
  rd b 0 t = Done 0x5A t /\ rd b 1 t = Done 0x5A t /\ rd b 3 t = Done (u8 cmd) t /\ rd b 4 t = Done (u8 (Z.shiftr cmd 8)) t /\
  rd b 7 t = Done (u8 n) t /\ rd b 8 t = Done (u8 (Z.shiftr n 8)) t /\ rdn b 0 9 t = Done (ap_header ver cmd sn n) t.
Proof.
  intros Hsn. destruct sn as [|s0 [|s1 [|]]]; [done..| |unfold len in Hsn; cbn in Hsn; lia]. cbv zeta.
  split_and!; [by eapply (rd_at _ [])|by eapply (rd_at _ [_])|by eapply (rd_at _ [_; _; _])|by eapply (rd_at _ [_; _; _; _])
    |by eapply (rd_at _ [_; _; _; _; _; _; _])|by eapply (rd_at _ [_; _; _; _; _; _; _; _])|by apply (rdn_at _ [] (ap_header ver cmd [s0; s1] n) rest)].
Qed.

Lemma wp_comm_parse ver cmd sn text z j (Q : Z -> (app * sap) * hw C -> Prop) R a s h :
  sap_ok s -> heap h = [] -> len sn = 2 -> is_bytes sn -> is_u8 ver -> is_u16 cmd -> is_bytes text -> no_nul text -> 0 < len text ->
  25 + len (pkcs5 text) <= 2048 -> cJSON_Parse text = Some j ->
  (let '(k, v) := session_keys cmd s in len (ap_message ver cmd sn k v text ++ z) = 2048 ->
   forall rest h1, moved 1 h h1 -> len (ap_header ver cmd sn (len (pkcs5 text)) ++ rest) = 2048 ->
   let s1 := with_request cmd (ap_header ver cmd sn (len (pkcs5 text)) ++ rest) k v s in
   wp (let* r := run_command j in cJSON_Delete ;; ret r) Q R (a, s1, h1)) ->
  let '(k, v) := session_keys cmd s in
  len (ap_message ver cmd sn k v text ++ z) = 2048 ->
  wp (ya_softap_comm_parse (ap_message ver cmd sn k v text ++ z)) Q R (a, s, h).
Proof.
  intros Hok Hh Hsn Hsnb Hver Hcmd Htb Htn Htl Hfit Hj HQ.
  pose proof (session_keys_ok cmd s Hok) as Hkv.
  assert (Efl : session_keys (flag_cmd (set_flag (if cmd =? 1 then 0 else 1) s)) (set_flag (if cmd =? 1 then 0 else 1) s)
    = session_keys cmd s) by (unfold flag_cmd, session_keys; cbn; by destruct (cmd =? 1)).
  destruct (session_keys cmd s) as [k v]. destruct Hkv as [Hv Hvb]. intros Hlen.
  destruct (cbc_message k v text Hv Hvb Htb) as (Hcl&Hc16&Hdec&Hlast). fold (ap_cipher k v text) in *.
  set (c := ap_cipher k v text) in *. set (n := len (pkcs5 text)) in *.
  assert (Hn : is_u16 n) by (pose proof (len_nonneg (pkcs5 text)); unfold is_u16; lia).
  unfold ap_message. fold n. fold c. rewrite <- (assoc_L (++)).
  destruct (ap_header_at ver cmd sn n ((c ++ md5 text) ++ z) (a, s, h) Hsn) as (R0&R1&R3&R4&R7&R8&R9).
  unfold ya_softap_comm_parse.
  wstep. eapply wp_done; [exact R1|]. wstep. eapply wp_done; [exact R0|]. cbn [Z.eqb Pos.eqb negb orb].
  destruct (so_decode _ Hok) as (b0&Hb0&Hb0l). wstep. eapply wp_get_decode; [done|].
  wstep. apply wp_memset; [unfold SOFTAP_BUF_SIZE; lia|].
  replace (replicate _ (u8 0) ++ _) with (zeros 2048).
  2:{ rewrite drop_ge by (unfold len in Hb0l; unfold SOFTAP_BUF_SIZE; lia). by rewrite app_nil_r. }
  wstep. eapply wp_done; [exact R4|]. wstep. eapply wp_done; [exact R3|]. rewrite u16_bytes, u16_small by done.
  wstep. apply wp_aputs.
  wstep. apply wp_create_keys.
  { destruct Hok. split; cbn; [done|done|done|]. destruct (cmd =? 1); auto. }
  cbn [fst snd]. rewrite Efl.
  destruct (ap_header_at ver cmd sn n ((c ++ md5 text) ++ z)
    (a, set_keys k v (set_flag (if cmd =? 1 then 0 else 1) s), h) Hsn) as (_&_&_&_&R7'&R8'&R9').
  wstep. eapply wp_done; [exact R8'|]. wstep. eapply wp_done; [exact R7'|]. rewrite u16_bytes by done.
  pose proof (len_ap_header ver cmd sn n Hsn) as Hhd. set (hd := ap_header ver cmd sn n) in *.
  wstep. eapply wp_done; [exact R9'|].
  wstep. eapply wp_done; [apply (memcpy_zeros [] hd 2048 0); [done|lia]|]. cbn [List.app]. rewrite Hhd.
  wstep. apply wp_agets. cbn [aes_key aes_iv set_keys id].
  wstep. eapply wp_done.
  { apply (rdn_at _ hd c (md5 text ++ z)); [by rewrite <- (assoc_L (++))|done|by rewrite Hcl]. }
  assert (Hcb : is_bytes c) by apply is_bytes_cbc_encrypt.
  assert (Hz : len (zeros (2048 - 9)) = 2039) by done.
  wstep. apply wp_cbc_decrypt; try done.
  { apply is_bytes_app. split; [by apply ap_header_bytes|apply is_bytes_zeros]. }
  { rewrite len_app, Hhd, Hz. unfold SOFTAP_CONFIG_DATA_POS. lia. }
  intros m out h1 M1 Hol Hob Hm Hout Hml. specialize (Hout Hc16). rewrite Hdec in Hout. subst out.
  destruct (pkcs5_spec text) as (kk&Hkk&Epk&Elen). fold n in Elen.
  assert (m = len text) as ->.
  { rewrite Hml by lia. cbv zeta. exact Hlast. }
  clear Hml Hm. wstep. apply wp_aputs. destruct (Z.eqb_spec (len text) 0) as [?|_]; [lia|].
  assert (Esp : splice (hd ++ zeros (2048 - 9)) SOFTAP_CONFIG_DATA_POS (pkcs5 text)
    = hd ++ text ++ replicate (Z.to_nat kk) kk ++ drop (length (pkcs5 text)) (zeros (2048 - 9))).
  { change SOFTAP_CONFIG_DATA_POS with 9. rewrite <- Hhd at 2. rewrite splice_after, Epk. by rewrite <- !(assoc_L (++)). }
  rewrite Esp. set (tl := replicate (Z.to_nat kk) kk ++ drop (length (pkcs5 text)) (zeros (2048 - 9))).
  assert (Hcons : exists y tl', tl = y :: tl').
  { unfold tl. replace (Z.to_nat kk) with (S (Z.to_nat (kk - 1))) by lia. by eexists _, _. }
  destruct Hcons as (y&tl'&Etl). rewrite Etl.
  assert (Hbl : len (hd ++ text ++ y :: tl') = 2048).
  { rewrite <- Etl. unfold tl. rewrite <- Esp, len_splice; rewrite ?len_app, ?Hhd, ?Hz; unfold SOFTAP_CONFIG_DATA_POS; lia. }
  wstep. eapply wp_done; [by apply (rdn_at _ hd text (y :: tl'))|].
  unfold ya_mbedtls_md5. destruct (Z.eqb_spec (len text) 0) as [?|_]; [lia|]. cbn beta iota.
  wstep. eapply wp_done.
  { apply (rdn_at _ (hd ++ c) (md5 text) z); [by rewrite <- !(assoc_L (++))| |by rewrite md5_len].
    rewrite u16_small by (unfold is_u16, SOFTAP_CONFIG_DATA_POS in *; lia). rewrite len_app, Hhd, Hcl. done. }
  rewrite bool_decide_true by done.
  wstep. apply wp_wr; [rewrite Hbl; unfold SOFTAP_CONFIG_DATA_POS; lia|].
  assert (Eins : <[Z.to_nat (SOFTAP_CONFIG_DATA_POS + len text) := u8 0]> (hd ++ text ++ y :: tl') = hd ++ text ++ 0 :: tl').
  { replace (Z.to_nat (SOFTAP_CONFIG_DATA_POS + len text)) with (length hd + (length text + 0))%nat
      by (unfold len, SOFTAP_CONFIG_DATA_POS in *; lia). by rewrite !insert_app_r. }
  rewrite Eins. wstep. apply wp_aputs. wstep. unfold json_parse.
  assert (Edr : drop (Z.to_nat SOFTAP_CONFIG_DATA_POS) (hd ++ text ++ 0 :: tl') = text ++ 0 :: tl').
  { change SOFTAP_CONFIG_DATA_POS with 9. rewrite <- Hhd. unfold len. by rewrite Nat2Z.id, drop_app_length. }
  rewrite Edr, cstr_app_nul, (read_parse _ _ Hj) by done. apply wp_take; [|intros ? Hno; destruct Hno; by apply M1]. intros h2 M2. cbn beta iota.
  apply HQ; [done| |].
  - eapply moved_eq; [eapply (moved_trans 0 1); [exact M1|exact M2]|done].
  - rewrite <- Hbl, !len_app, !len_cons. done.
Qed.

(** A turn of the task that receives a message of the format. *)
Lemma wp_step_message tick w timer ver cmd sn text j (Q : bool -> (app * sap) * hw C -> Prop) R a s h rb :
  sap_ok s -> heap h = [] -> len sn = 2 -> is_bytes sn -> is_u8 ver -> is_u16 cmd -> is_bytes text -> no_nul text ->
  0 < len text -> 25 + len (pkcs5 text) <= 2047 -> cJSON_Parse text = Some j ->
  ya_softap_rece_buf s = Some rb -> len rb = 2048 -> ya_has_timer_expired tick timer <> 0 ->
  (let '(k, v) := session_keys cmd s in
   forall rest rb' h1, moved 1 h h1 -> len (ap_header ver cmd sn (len (pkcs5 text)) ++ rest) = 2048 -> len rb' = 2048 ->
   let s1 := with_request cmd (ap_header ver cmd sn (len (pkcs5 text)) ++ rest) k v (set_rece (Some rb') s) in
   wp (let* r := (let* r := run_command j in cJSON_Delete ;; ret r) in
       if r =? 1 then ret true
       else if r =? -1 then
         emit (EvDelay 2000) ;; in_app (ya_softap_callback SOFTAP_ERROR zero_ap) ;; ret true
       else ret false) Q R (a, s1, h1)) ->
  let '(k, v) := session_keys cmd s in
  wp (ya_softap_update_step tick w timer (Some (ap_message ver cmd sn k v text))) Q R (a, s, h).
Proof.
  intros Hok Hh Hsn Hsnb Hver Hcmd Htb Htn Htl Hfit Hj Hrb Hrbl Hexp HQ.
  pose proof (session_keys_ok cmd s Hok) as Hkv.
  pose proof (wp_comm_parse ver cmd sn text (zeros (2048 - (25 + len (pkcs5 text)))) j) as Hparse.
  pose proof (fun rb' => eq_refl : session_keys cmd (set_rece (Some rb') s) = session_keys cmd s) as Esk.
  destruct (session_keys cmd s) as [k v] eqn:Ekv. destruct Hkv as [Hv Hvb].
  set (msg := ap_message ver cmd sn k v text).
  assert (Hmsg : len msg = 25 + len (pkcs5 text)).
  { unfold msg, ap_message. rewrite !len_app, len_ap_header, len_ap_cipher, md5_len by done. lia. }
  unfold ya_softap_update_step. rewrite (proj2 (Z.eqb_neq _ _) Hexp).
  wstep. apply wp_agets. rewrite Hrb. wstep. eapply wp_deref; [done|].
  wstep. apply wp_memset; [unfold SOFTAP_BUF_SIZE; lia|].
  replace (replicate _ (u8 0) ++ _) with (zeros 2048).
  2:{ rewrite drop_ge by (unfold len in Hrbl; unfold SOFTAP_BUF_SIZE; lia). by rewrite app_nil_r. }
  change (default [] (Some msg)) with msg. rewrite take_ge by (unfold len, SOFTAP_BUF_SIZE in *; lia).
  wstep. eapply wp_done; [apply (memcpy_zeros [] msg 2048 0); [done|lia]|]. cbn [List.app]. rewrite Hmsg.
  wstep. apply wp_aputs. destruct (Z.ltb_spec 25 (25 + len (pkcs5 text))) as [_|?].
  2:{ destruct (pkcs5_spec text) as (?&?&_&?). lia. }
  set (z := zeros (2048 - (25 + len (pkcs5 text)))) in *. set (rb' := msg ++ z).
  assert (Hrb' : len rb' = 2048).
  { unfold rb', z. rewrite len_app, len_zeros; lia. }
  destruct (ap_header_at ver cmd sn (len (pkcs5 text)) ((ap_cipher k v text ++ md5 text) ++ z) (a, set_rece (Some rb') s, h) Hsn)
    as (R0&R1&_&_&R7&R8&_).
  assert (Eb : ap_header ver cmd sn (len (pkcs5 text)) ++ (ap_cipher k v text ++ md5 text) ++ z = rb')
    by (unfold rb', msg, ap_message; by rewrite <- !(assoc_L (++))). rewrite Eb in *.
  wstep. eapply wp_done; [exact R1|]. wstep. eapply wp_done; [exact R0|]. cbn [Z.eqb Pos.eqb andb].
  wstep. eapply wp_done; [exact R8|]. wstep. eapply wp_done; [exact R7|].
  rewrite lor_add, u16_bytes by (apply u8_range || (pose proof (len_nonneg (pkcs5 text)); unfold is_u16; lia)).
  rewrite (proj2 (Z.leb_le _ _)) by lia. wstep.
  match goal with |- wp _ ?Q' _ _ => specialize (Hparse Q' R a (set_rece (Some rb') s) h) end. rewrite (Esk rb') in Hparse.
  apply Hparse; clear Hparse; try done.
  - destruct Hok. by split.
  - lia.
  - intros _ rest h1 M1 Hrest. specialize (HQ rest rb' h1 M1 Hrest Hrb'). cbv zeta in HQ.
    unfold wp, bind at 1 in HQ. unfold wp.
    match goal with |- match ?m ?t with _ => _ end => destruct (m t) end; done.
Qed.

(** ** Handing over the router *)
Definition router_shape (r : ap_result) : Prop :=
  len (router_ssid r) = 33 /\ len (router_pwd r) = 65 /\ len (router_bssid r) = 6 /\ len (ap_random r) = 33.
(** The document of the [Apconfig] command. *)
Definition ap_request (ssid pwd bssid random : bytes) (j : cJSON) : Prop :=
  has_text j "Command" (str "Apconfig") /\ has_text j "Ssid" ssid /\ has_text j "Password" pwd /\
  has_text j "Bssid" (hex_chars bssid) /\ has_text j "Random" random.

Lemma has_text_no_nul j k v : has_text j k v -> no_nul v.
Proof. intros (?&b&_&_&_&<-). apply cstr_is_no_nul. Qed.
Lemma text_member_ok j k v n (t : (app * sap) * hw C) : has_text j k v -> len v <= n -> text_member j k n t = Done (Some v) t.
Proof.
  intros (item&b&Hi&Ht&Hv&Hc) Hn. unfold text_member. rewrite Hi, Ht, Z.eqb_refl, Hv. cbn.
  unfold bind, deref. cbn. rewrite Hc. destruct (Z.ltb_spec n (len v)); [lia|done].
Qed.
Lemma strcpy_over {T} dst v (t : T) : no_nul v -> len v < len dst ->
  strcpy dst (v ++ [0]) t = Done (splice dst 0 (v ++ [0])) t /\ cstr (splice dst 0 (v ++ [0])) = v /\
  0 ∈ splice dst 0 (v ++ [0]) /\ len (splice dst 0 (v ++ [0])) = len dst.
Proof.
  intros Hv Hl. pose proof (len_nonneg v). assert (Hl1 : len (v ++ [0]) = len v + 1) by (by rewrite len_app).
  split; [|split; [by apply cstr_splice_0|split; [|rewrite len_splice; lia]]].
  - unfold strcpy. rewrite bool_decide_true by (apply elem_of_app; right; left). rewrite (cstr_app_nul v []) by done.
    apply memcpy_ok; lia.
  - unfold splice. rewrite !elem_of_app. right. left. right. left.
Qed.

Lemma wp_store_apconfig ssid pwd bssid random j (Q : option unit -> (app * sap) * hw C -> Prop) R a s h :
  router_ok ssid pwd bssid -> len random <= 32 -> ap_request ssid pwd bssid random j -> router_shape (ya_router_para s) ->
  (forall r, ap_result_ok r -> cstr (router_ssid r) = ssid -> cstr (router_pwd r) = pwd -> slice (router_bssid r) 0 6 = bssid ->
     cstr (ap_random r) = random -> ap_cloud r = ap_cloud (ya_router_para s) -> Q (Some tt) (a, set_router r s, h)) ->
  wp (store_apconfig j) Q R (a, s, h).
Proof.
  intros Hro Hrl (_&Hs&Hp&Hb&Hr) (L1&L2&L3&L4) HQ. pose proof Hro as ((Hsl&Hs0)&Hpl&Hbl&Hsb&Hpb&Hbb).
  assert (Hbh : len (hex_chars bssid) = 12) by (rewrite len_hex_chars; lia).
  unfold store_apconfig. apply wp_obind. eapply wp_done; [apply (text_member_ok _ _ _ _ _ Hs); lia|]. cbn beta iota.
  apply wp_obind. eapply wp_done; [apply (text_member_ok _ _ _ _ _ Hp); lia|]. cbn beta iota.
  apply wp_obind. eapply wp_done; [apply (text_member_ok _ _ _ _ _ Hb); lia|]. cbn beta iota.
  apply wp_obind. eapply wp_done; [apply (text_member_ok _ _ _ _ _ Hr); lia|]. cbn beta iota.
  wstep. apply wp_agets. cbn [id]. set (r := ya_router_para s) in *.
  destruct (strcpy_over (router_ssid r) ssid (a, s, h)) as (E1&C1&_&_); [by eapply has_text_no_nul|lia|].
  destruct (strcpy_over (router_pwd r) pwd (a, s, h)) as (E2&C2&_&_); [by eapply has_text_no_nul|lia|].
  destruct (strcpy_over (ap_random r) random (a, s, h)) as (E3&C3&Z3&_); [by eapply has_text_no_nul|lia|].
  wstep. eapply wp_done; [exact E1|]. wstep. eapply wp_done; [exact E2|].
  wstep. eapply wp_done; [apply string_to_hex_chars; [done|lia|lia]|]. cbn beta iota.
  wstep. eapply wp_done; [exact E3|]. wstep. apply wp_aputs. apply wp_ret.
  assert (Eb : splice (router_bssid r) 0 bssid = bssid).
  { unfold splice. rewrite drop_ge by (unfold len in *; lia). cbn. by rewrite app_nil_r. }
  apply HQ; cbn [router_ssid router_pwd router_bssid ap_random ap_cloud]; rewrite ?Eb; try done; [|by apply slice_full].
  unfold ap_result_ok. cbn [router_ssid router_pwd router_bssid ap_random]. rewrite C1, C2, C3, slice_full by done.
  split_and!; done || lia.
Qed.

(** What the printer makes of a document that fits an answer. *)
Definition prints (members : list cJSON) (text : bytes) : Prop :=
  exists t, cJSON_PrintUnformatted (jroot members) = Some t /\ cstr t = text /\ 0 < len text /\ 25 + len (pkcs5 text) <= 2048.
Lemma wp_create_object (Q : option unit -> (app * sap) * hw C -> Prop) R a s h : heap h = [] ->
  (forall h', moved 1 h h' -> Q (Some tt) (a, s, h')) -> wp cJSON_CreateObject Q R (a, s, h).
Proof.
  intros Hh HQ. unfold cJSON_CreateObject. wstep. apply wp_alloc_moved; [lia| |intros ? [?|?]; done].
  intros. apply wp_ret. by apply HQ.
Qed.
Lemma wp_prints members text (Q : option bytes -> (app * sap) * hw C -> Prop) R a s h :
  prints members text -> printable (jroot members) = true -> heap h = [] ->
  (forall h', moved 1 h h' -> Q (Some text) (a, s, h')) -> wp (json_document (jroot members)) Q R (a, s, h).
Proof.
  intros (t&Ht&<-&_) Hp Hh HQ. apply wp_document; [done..|]. rewrite Ht. apply (wp_take (Some (cstr t))); [|by intros ? []]. intros h' M. by apply HQ.
Qed.

Lemma wp_random_cmd text ver cmd0 sn n0 rest (Q : Z -> (app * sap) * hw C -> Prop) R a s h :
  sap_ok s -> heap h = [] -> len sn = 2 ->
  ya_softap_decode_buf s = Some (ap_header ver cmd0 sn n0 ++ rest) -> len (ap_header ver cmd0 sn n0 ++ rest) = 2048 ->
  prints [member "Random" (hex_chars (random_data s))] text ->
  (forall b h', let '(k, v) := session_keys (flag_cmd s) s in
     aired 0 [EvWlan "sendto" [ap_message ver SOFTAP_CONFIG_CMD_GET_RANDOM_RESPONSE sn k v text]] h h' -> len b = 2048 ->
     Q 0 (a, set_decode (Some b) (set_keys k v s), h')) ->
  wp ya_softap_random_cmd Q R (a, s, h).
Proof.
  intros Hok Hh Hsn Hb Hbl Hp HQ. unfold ya_softap_random_cmd. wstep. apply wp_agets. cbn [id]. rewrite hex_string.
  assert (Hhl : len (hex_chars (random_data s)) = 64) by (rewrite len_hex_chars; destruct Hok as [_ [? _] _ _]; lia).
  wstep. eapply wp_done; [apply (memcpy_zeros [] _ 128 0); [done|rewrite len_app, Hhl; done]|]. cbn [List.app].
  rewrite <- (assoc_L (++)). cbn [List.app]. rewrite (cstr_app_nul (hex_chars (random_data s))) by apply hex_chars_no_nul.
  wstep. apply wp_create_object; [done|]. intros h1 M1. cbn beta iota.
  wstep. eapply wp_prints; [exact Hp|done|by apply M1|]. intros h2 M2. destruct Hp as (_&_&_&Hp0&Hpl).
  wstep. apply wp_free_moved. intros h3 M3. cbn beta iota.
  assert (M : moved 1 h h3) by (eapply moved_eq; [eapply moved_trans; [|exact M3]; by eapply moved_trans|done]).
  wstep. eapply wp_send_packed; try done; [by apply M|]. intros b h4. specialize (HQ b h4).
  destruct (session_keys (flag_cmd s) s) as [k v]. intros A4 Hbl4. apply wp_ret, HQ; [|done].
  eapply aired_eq; [eapply aired_trans; [by apply aired_moved|exact A4]|done|]. by rewrite app_nil_r.
Qed.

(** The answer to [Apconfig], then the result for the main task.  The document
    of the answer stays allocated. *)
Lemma wp_apconfig_cmd text ssid pwd bssid random j ver cmd0 sn n0 rest (Q : Z -> (app * sap) * hw C -> Prop) R a s h :
  sap_ok s -> heap h = [] -> len sn = 2 ->
  ya_softap_decode_buf s = Some (ap_header ver cmd0 sn n0 ++ rest) -> len (ap_header ver cmd0 sn n0 ++ rest) = 2048 ->
  router_ok ssid pwd bssid -> len random <= 32 -> ap_request ssid pwd bssid random j -> router_shape (ya_router_para s) ->
  prints [jstr "Code" "0"] text ->
  (forall r b h', let '(k, v) := session_keys (flag_cmd s) s in
     ap_result_ok r -> cstr (router_ssid r) = ssid -> cstr (router_pwd r) = pwd -> slice (router_bssid r) 0 6 = bssid ->
     cstr (ap_random r) = random -> ap_cloud r = ap_cloud (ya_router_para s) ->
     aired 1 (EvDelay 1000 :: replicate 3 (EvWlan "sendto" [ap_message ver SOFTAP_CONFIG_CMD_GET_NET_MSG_RESPONSE sn k v text])) h h' ->
     len b = 2048 ->
     wp (in_app (ya_softap_callback SOFTAP_CONFIG_FINISH r) ;; ret 1) Q R (a, set_decode (Some b) (set_keys k v (set_router r s)), h')) ->
  wp (ya_softap_apconfig_cmd j) Q R (a, s, h).
Proof.
  intros Hok Hh Hsn Hb Hbl Hro Hrl Hreq Hshape Hp HQ. unfold ya_softap_apconfig_cmd.
  wstep. eapply wp_store_apconfig; try done. intros r Hr R1 R2 R3 R4 R5.
  wstep. apply wp_create_object; [done|]. intros h1 M1. cbn beta iota.
  wstep. eapply wp_prints; [exact Hp|done|by apply M1|]. intros h2 M2. destruct Hp as (_&_&_&Hp0&Hpl). cbn beta iota.
  assert (M : moved 2 h h2) by (eapply moved_eq; [by eapply moved_trans|done]).
  assert (Hok' : sap_ok (set_router r s)) by (by destruct Hok; split).
  wstep. eapply wp_send_packed; try done; [by apply M|]. intros b h3. specialize (HQ r b (log (EvDelay 1000) h3)).
  change (session_keys (flag_cmd (set_router r s)) (set_router r s)) with (session_keys (flag_cmd s) s).
  destruct (session_keys (flag_cmd s) s) as [k v]. intros A3 Hbl3.
  wstep. apply wp_upd_hw. wstep. apply wp_agets. cbn [id ya_router_para set_decode set_keys set_router].
  apply HQ; try done. eapply aired_eq; [eapply aired_trans; [|apply aired_log]; eapply aired_trans; [by apply aired_moved|exact A3]|done|].
  by rewrite app_nil_r.
Qed.
End Requests.

(** ** Whole turns *)
Section Session.
Context {C : Type} `{NorChipLaws C, !NorReliable C} `{CloudEnv} `{JsonText} `{MainEnv} `{BlockCipherLaws} `{CertCheck} `{ApEnv}.
Implicit Types (a : app) (s : sap) (h : hw C).

(** The server between two messages. *)
Definition serving s : Prop :=
  sap_ok s /\ (exists rb, ya_softap_rece_buf s = Some rb /\ len rb = 2048) /\ router_shape (ya_router_para s).
(** A message of the phone and its document. *)
Definition phone_message (ver cmd : Z) (sn text : bytes) (j : cJSON) : Prop :=
  len sn = 2 /\ is_bytes sn /\ is_u8 ver /\ is_u16 cmd /\ is_bytes text /\ no_nul text /\ 0 < len text /\
  25 + len (pkcs5 text) <= 2047 /\ cJSON_Parse text = Some j.
Definition sealed s (ver cmd : Z) (sn text : bytes) : bytes :=
  let '(k, v) := session_keys cmd s in ap_message ver cmd sn k v text.
(** An answer under the keys that protect command [cmd]. *)
Definition answer s (ver cmd resp : Z) (sn text : bytes) : event :=
  let '(k, v) := session_keys cmd s in EvWlan "sendto" [ap_message ver resp sn k v text].

Lemma run_named j name (k : bytes -> P C (app * sap) Z) (Q : Z -> (app * sap) * hw C -> Prop) R t :
  has_text j "Command" name -> (forall b, cstr b = name -> wp (k b) Q R t) ->
  wp (match cJSON_GetObjectItem j (str "Command") with None => ret 0 | Some c => let* v := deref (valuestring c) in k v end) Q R t.
Proof.
  intros (item&b&Hi&_&Hv&Hc) HQ. rewrite Hi. wstep. eapply wp_deref; [exact Hv|]. by apply HQ.
Qed.

(** A turn that receives a message runs its command in a state that has the
    request in the buffer and its keys selected. *)
Definition received s s1 (k v : bytes) (ver cmd : Z) (sn rest : bytes) (n : Z) : Prop :=
  sap_ok s1 /\ session_keys (flag_cmd s1) s1 = (k, v) /\ random_data s1 = random_data s /\
  ya_router_para s1 = ya_router_para s /\ (exists rb, ya_softap_rece_buf s1 = Some rb /\ len rb = 2048) /\
  ya_softap_decode_buf s1 = Some (ap_header ver cmd sn n ++ rest) /\ len (ap_header ver cmd sn n ++ rest) = 2048.
Lemma message_turn tick w timer ver cmd sn text j (Q : bool -> (app * sap) * hw C -> Prop) a s h :
  serving s -> heap h = [] -> ya_has_timer_expired tick timer <> 0 -> phone_message ver cmd sn text j ->
  (forall k v rest n s1 h1, session_keys cmd s = (k, v) -> moved 1 h h1 -> received s s1 k v ver cmd sn rest n ->
     wp (run_command j) (fun r t => r <> -1 /\ forall h', moved (-1) t.2 h' -> Q (r =? 1) (t.1, h')) (fun _ => False) (a, s1, h1)) ->
  exists r t, ya_softap_update_step tick w timer (Some (sealed s ver cmd sn text)) (a, s, h) = Done r t /\ Q r t.
Proof.
  intros (Hok&(rb&Hrb&Hrbl)&Hsh) Hh Hex (Hsn&Hsb&Hv&Hc&Htb&Htn&Htl&Hfit&Hj) HQ. apply wp_elim.
  pose proof (wp_step_message tick w timer ver cmd sn text j Q (fun _ => False) a s h rb) as Hstep.
  unfold sealed. pose proof (fun b k v rb' => with_request_keys cmd b k v (set_rece (Some rb') s)) as Hk.
  pose proof (fun rb' => eq_refl : session_keys cmd (set_rece (Some rb') s) = session_keys cmd s) as Ek.
  destruct (session_keys cmd s) as [k v] eqn:Ekv. apply Hstep; try done. clear Hstep.
  intros rest rb' h1 M1 Hrest Hrb' s1. apply wp_bind, wp_bind. eapply wp_mono; [apply (HQ k v rest (len (pkcs5 text)) s1 h1); [done|done|]| |done].
  - split_and!; try done; [apply with_request_ok; [by destruct Hok|done]|unfold s1; by rewrite Hk, Ek|by exists rb'].
  - intros r [u h2] [Hr Hq]. wstep. apply wp_free_moved. intros h3 M3. apply wp_ret. specialize (Hq h3 M3).
    destruct (Z.eqb_spec r 1); [by apply wp_ret|]. rewrite (proj2 (Z.eqb_neq _ _) Hr). by apply wp_ret.
Qed.

Lemma random_turn tick w timer ver sn text j doc a s h :
  serving s -> heap h = [] -> ya_has_timer_expired tick timer <> 0 ->
  phone_message ver 1 sn text j -> has_text j "Command" (str "Random") ->
  prints [member "Random" (hex_chars (random_data s))] doc ->
  exists s' h', ya_softap_update_step tick w timer (Some (sealed s ver 1 sn text)) (a, s, h) = Done false (a, s', h') /\
    serving s' /\ aired 0 [answer s ver 1 SOFTAP_CONFIG_CMD_GET_RANDOM_RESPONSE sn doc] h h' /\
    random_data s' = random_data s /\ ya_router_para s' = ya_router_para s.
Proof.
  intros Hs Hh Hex Hm Hcmd Hp.
  destruct (message_turn tick w timer ver 1 sn text j (fun r t => r = false /\ exists s' h', t = (a, s', h') /\
    serving s' /\ aired 0 [answer s ver 1 SOFTAP_CONFIG_CMD_GET_RANDOM_RESPONSE sn doc] h h' /\
    random_data s' = random_data s /\ ya_router_para s' = ya_router_para s) a s h Hs Hh Hex Hm)
    as (r&t&Hrun&->&s'&h'&->&Hq); [|by exists s', h'].
  intros k v rest n s1 h1 Ek M1 (Hok1&Ek1&Er1&Ep1&Hrb1&Hd1&Hl1). unfold run_command. eapply run_named; [exact Hcmd|].
  intros b ->. change (prefix_of_b (str "Random") (str "Random")) with true. cbn beta iota.
  eapply wp_random_cmd; try done; [by apply M1|by apply Hm|by rewrite Er1|]. intros b1 h2. rewrite Ek1. intros A2 Hb1.
  split; [done|]. intros h3 M3. split; [done|]. eexists _, _. split; [reflexivity|]. split_and!; [| |done|done].
  - split_and!; [|done|cbn; rewrite Ep1; apply Hs]. destruct Hok1. split; cbn in *; [done|done|by exists b1|done].
  - unfold answer. rewrite Ek.
    eapply aired_eq; [eapply aired_trans; [|by apply aired_moved]; eapply aired_trans; [by apply aired_moved|exact A2]|done|done].
Qed.

(** The hand-over: the reply goes out three times, the main task is told, and
    the router is the one every later start connects to. *)
Lemma apconfig_turn tick w timer ver cmd sn text j ssid pwd bssid random doc a s h :
  serving s -> heap h = [] -> ya_has_timer_expired tick timer <> 0 ->
  phone_message ver cmd sn text j -> ap_request ssid pwd bssid random j ->
  router_ok ssid pwd bssid -> len random <= 32 -> prints [jstr "Code" "0"] doc ->
  app_inv a -> ya_app_state a = YA_APP_AP_STATE -> queues h QMain = [] ->
  exists a' s' h', ya_softap_update_step tick w timer (Some (sealed s ver cmd sn text)) (a, s, h) = Done true (a', s', h') /\
    trace h' = EvDelay 1000 :: replicate 3 (answer s ver cmd SOFTAP_CONFIG_CMD_GET_NET_MSG_RESPONSE sn doc) ++ trace h /\
    queues h' QMain = [mkMsg 0 None YA_AP_CONFIG_SUCCESS] /\ live h' = live h + 1 /\
    cstr (config_random_num a') = random /\ stored_by_main ssid pwd bssid a' h'.
Proof.
  intros Hs Hh Hex Hm Hreq Hro Hrl Hp Hinv Hst0 Hq.
  destruct (message_turn tick w timer ver cmd sn text j (fun r t => r = true /\ exists a' s' h', t = (a', s', h') /\
    trace h' = EvDelay 1000 :: replicate 3 (answer s ver cmd SOFTAP_CONFIG_CMD_GET_NET_MSG_RESPONSE sn doc) ++ trace h /\
    queues h' QMain = [mkMsg 0 None YA_AP_CONFIG_SUCCESS] /\ live h' = live h + 1 /\
    cstr (config_random_num a') = random /\ stored_by_main ssid pwd bssid a' h') a s h Hs Hh Hex Hm)
    as (r&t&Hrun&->&a'&s'&h'&->&Hr); [|by exists a', s', h'].
  intros k v rest n s1 h1 Ek M1 (Hok1&Ek1&Er1&Ep1&Hrb1&Hd1&Hl1). unfold run_command. eapply run_named; [apply Hreq|].
  intros b ->. change (prefix_of_b _ (str "Apconfig")) with true at 3.
  change (prefix_of_b (str "Random") (str "Apconfig")) with false. change (prefix_of_b (str "Get") (str "Apconfig")) with false.
  cbn beta iota. eapply wp_apconfig_cmd; try done; [by apply M1|by apply Hm|rewrite Ep1; apply Hs|].
  intros r b1 h2. rewrite Ek1. intros Hr R1 R2 R3 R4 _ A2 Hb1. pose proof (moved_fields _ _ _ M1) as (V1&Q1&T1&_).
  destruct A2 as [E2 P2]. assert (Q2 : queues h2 QMain = []) by (rewrite E2; cbn; by rewrite Q1).
  destruct (soft_ap_stores r a h2 Hr) as (rn&Hrn&Hc&He); [by apply Hinv|]. rewrite R1, R2, R3 in He.
  wstep. apply wp_zoom. cbn [fst snd]. eapply wp_done; [etrans; [exact He|]; apply post_result_ok; rewrite Q2; cbn; unfold MSG_QUEUE_LENGTH; lia|].
  apply wp_ret. split; [done|]. intros h3 M3. split; [done|]. eexists _, _, _. cbn [fst snd] in *. split; [reflexivity|].
  pose proof (moved_fields _ _ _ M3) as (V3&Q3&T3&_). unfold answer. rewrite Ek, V3, Q3, T3.
  cbn [trace queues set_queue live config_random_num set_random]. rewrite bool_decide_true, Q2, Hc, R4 by done.
  split_and!; [rewrite E2; cbn; by rewrite T1|done|rewrite E2; cbn; lia|done|].
  eapply main_stores_router; [done|done|by apply router_image_inv|apply M3; cbn; by apply P2, M1| |by right].
  rewrite Q3. cbn. by rewrite bool_decide_true, Q2.
Qed.

(** ** Messages that are not authentic *)
Definition at16 (b : bytes) (lo hi : Z) : Z := Z.shiftl (b !!! Z.to_nat hi) 8 + b !!! Z.to_nat lo.
Definition declared (b : bytes) : Z := at16 b SOFTAP_CONFIG_DATA_LEN_LOW_POS SOFTAP_CONFIG_DATA_LEN_HIGH_POS.
(** What the message in [b] decrypts to, without its padding. *)
Definition opened s (b : bytes) : bytes :=
  let '(k, v) := session_keys (at16 b SOFTAP_CONFIG_CMD_LOW_POS SOFTAP_CONFIG_CMD_HIGH_POS) s in
  let n := declared b in
  let c := slice b SOFTAP_CONFIG_DATA_POS n in
  let out := cbc_decrypt (blocks c) k v c in
  let last := out !!! Z.to_nat (n - 1) in
  slice out 0 (if last <? n then n - last else 0).
Definition forged s (b : bytes) : Prop :=
  declared b mod 16 = 0 /\ slice b (SOFTAP_CONFIG_DATA_POS + declared b) 16 <> md5 (opened s b).

Lemma at16_range b lo hi : is_bytes b -> is_u16 (at16 b lo hi).
Proof.
  intros Hb. pose proof (lookup_total_u8 b (Z.to_nat hi) Hb) as H1'. pose proof (lookup_total_u8 b (Z.to_nat lo) Hb) as H2'.
  unfold at16, is_u16, is_u8 in *. rewrite Z.shiftl_mul_pow2 by lia. change (2 ^ 8) with 256. lia.
Qed.

Lemma wp_parse_forged b (Q : Z -> (app * sap) * hw C -> Prop) R a s h :
  serving s -> heap h = [] -> is_bytes b -> len b = 2048 -> declared b <= 2023 -> forged s b ->
  (forall s' h', serving s' -> moved 0 h h' -> ya_router_para s' = ya_router_para s -> random_data s' = random_data s ->
     Q (-1) (a, s', h')) ->
  wp (ya_softap_comm_parse b) Q R (a, s, h).
Proof.
  intros Hs Hh Hb Hl Hn (H16&Hmd) HQ. pose proof Hs as (Hok&Hrece&Hsh). unfold ya_softap_comm_parse.
  wstep. apply wp_rd; [lia|]. wstep. apply wp_rd; [lia|]. apply wp_if; intros _; [apply wp_ret, HQ; [done|apply moved_refl|done|done]|].
  destruct (so_decode _ Hok) as (b0&Hb0&Hb0l). wstep. eapply wp_get_decode; [done|].
  wstep. apply wp_memset; [unfold SOFTAP_BUF_SIZE; lia|].
  replace (replicate _ (u8 0) ++ _) with (zeros 2048).
  2:{ rewrite drop_ge by (unfold len in Hb0l; unfold SOFTAP_BUF_SIZE; lia). by rewrite app_nil_r. }
  wstep. apply wp_rd; [unfold SOFTAP_CONFIG_CMD_HIGH_POS; lia|]. wstep. apply wp_rd; [unfold SOFTAP_CONFIG_CMD_LOW_POS; lia|].
  fold (at16 b SOFTAP_CONFIG_CMD_LOW_POS SOFTAP_CONFIG_CMD_HIGH_POS).
  rewrite u16_small by (by apply at16_range). unfold opened in Hmd.
  set (cmd := at16 b SOFTAP_CONFIG_CMD_LOW_POS SOFTAP_CONFIG_CMD_HIGH_POS) in *.
  wstep. apply wp_aputs. set (fl := if cmd =? 1 then 0 else 1).
  assert (Hokf : sap_ok (set_flag fl s)) by (destruct Hok; split; cbn; [done|done|done|]; unfold fl; destruct (cmd =? 1); auto).
  assert (Efl : session_keys (flag_cmd (set_flag fl s)) (set_flag fl s) = session_keys cmd s)
    by (unfold fl, flag_cmd, session_keys; cbn; by destruct (cmd =? 1)).
  pose proof (session_keys_ok cmd s Hok) as Hkv. cbn [fst snd].
  wstep. apply wp_create_keys; [done|]. rewrite Efl. destruct (session_keys cmd s) as [k v]. destruct Hkv as [Hv Hvb].
  wstep. apply wp_rd; [unfold SOFTAP_CONFIG_DATA_LEN_HIGH_POS; lia|]. wstep. apply wp_rd; [unfold SOFTAP_CONFIG_DATA_LEN_LOW_POS; lia|].
  fold (at16 b SOFTAP_CONFIG_DATA_LEN_LOW_POS SOFTAP_CONFIG_DATA_LEN_HIGH_POS). fold (declared b).
  pose proof (at16_range b SOFTAP_CONFIG_DATA_LEN_LOW_POS SOFTAP_CONFIG_DATA_LEN_HIGH_POS Hb) as [Hd0 _]. fold (declared b) in Hd0.
  set (n := declared b) in *. unfold SOFTAP_CONFIG_DATA_POS in *.
  wstep. apply wp_rdn; [lia|lia|lia|].
  assert (Hhd : len (slice b 0 9) = 9) by (apply len_slice; lia). set (hd := slice b 0 9) in *.
  wstep. eapply wp_done; [apply (memcpy_zeros [] hd 2048 0); [done|lia]|]. cbn [List.app]. rewrite Hhd.
  wstep. apply wp_agets. cbn [aes_key aes_iv set_keys id]. wstep. apply wp_rdn; [lia|lia|lia|].
  set (c := slice b 9 n) in *. assert (Hc : len c = n) by (apply len_slice; lia).
  assert (Hz : len (zeros (2048 - 9)) = 2039) by done.
  wstep. apply wp_cbc_decrypt; try done.
  { by apply is_bytes_slice. }
  { apply is_bytes_app. split; [by apply is_bytes_slice|apply is_bytes_zeros]. }
  { rewrite len_app, Hhd, Hz. lia. }
  intros m out h1 M1 Hol Hob Hm Hout Hml. rewrite Hc in *. specialize (Hout H16). subst out. cbn beta iota.
  set (out := cbc_decrypt (blocks c) k v c) in *.
  set (db := splice (hd ++ zeros (2048 - 9)) 9 out). assert (Hdb : len db = 2048).
  { unfold db. rewrite len_splice; rewrite ?len_app, ?Hhd, ?Hz; lia. }
  assert (Hq : forall z, z = -1 -> Q z (a, set_decode (Some db) (set_keys k v (set_flag fl s)), h1)).
  { intros ? ->. apply HQ; [|done|done|done]. split_and!; [|done|done]. destruct Hokf. split; cbn in *; [done|done|by exists db|done]. }
  wstep. apply wp_aputs. destruct (Z.eqb_spec m 0) as [_|Hm0]; [by apply wp_ret, Hq|].
  wstep. apply wp_rdn; [lia|lia|lia|].
  assert (Et : slice db 9 m = slice out 0 m).
  { assert (Edb : db = hd ++ out ++ drop (length out) (zeros (2048 - 9))) by (unfold db; rewrite <- Hhd at 2; apply splice_after).
    rewrite Edb, <- Hhd. unfold slice, len. change (Z.to_nat 0) with 0%nat. rewrite Nat2Z.id, drop_app_length. rewrite drop_0. apply take_app_le. unfold len in *. lia. }
  unfold ya_mbedtls_md5. rewrite Et. assert (Htl : len (slice out 0 m) = m) by (apply len_slice; lia).
  destruct (Z.eqb_spec (len (slice out 0 m)) 0) as [?|_]; [lia|]. cbn beta iota.
  rewrite u16_small by (unfold is_u16; lia). wstep. apply wp_rdn; [lia|lia|lia|].
  rewrite bool_decide_false; [by apply wp_ret, Hq|]. cbv zeta in Hml. by rewrite Hml by lia.
Qed.

(** C5: With the licence already written ([w] false, so that the factory's
    licence commands are not served), a datagram of at most 2023 bytes that
    declares a whole number of cipher blocks and whose digest does not fit what
    it decrypts to changes nothing but the server's own buffers: with memory to
    spare and room in the main queue there is no memory error, no block lost,
    and the flash, the user data, the random number of the session and the
    router collected so far are as before.  The session goes on, or ends with
    the failure message to the main task. *)
Theorem softap_ignores_forgery tick timer p a s h :
  serving s -> heap h = [] -> ya_has_timer_expired tick timer <> 0 -> is_bytes p -> len p <= 2023 ->
  forged s (padded 2048 p) -> (length (queues h QMain) < MSG_QUEUE_LENGTH)%nat ->
  exists r s' h', ya_softap_update_step tick false timer (Some p) (a, s, h) = Done r (a, s', h') /\ serving s' /\
    ya_router_para s' = ya_router_para s /\ random_data s' = random_data s /\ live h' = live h /\ chip h' = chip h /\
    queues h' QMain = queues h QMain ++ (if r then [mkMsg 0 None YA_AP_CONFIG_FAIL] else []).
Proof.
  intros Hs Hh Hex Hp Hpl Hf Hq. pose proof Hs as (Hok&(rb&Hrb&Hrbl)&Hsh).
  assert (wp (ya_softap_update_step tick false timer (Some p)) (fun r t => exists s' h', t = (a, s', h') /\ serving s' /\
    ya_router_para s' = ya_router_para s /\ random_data s' = random_data s /\ live h' = live h /\ chip h' = chip h /\
    queues h' QMain = queues h QMain ++ (if r then [mkMsg 0 None YA_AP_CONFIG_FAIL] else [])) (fun _ => False) (a, s, h))
    as (r&t&Hr&s'&h'&->&Hrest)%wp_elim; [|by exists r, s', h'].
  unfold ya_softap_update_step. rewrite (proj2 (Z.eqb_neq _ _) Hex).
  wstep. apply wp_agets. rewrite Hrb. wstep. eapply wp_deref; [done|].
  wstep. apply wp_memset; [unfold SOFTAP_BUF_SIZE; lia|].
  replace (replicate _ (u8 0) ++ _) with (zeros 2048).
  2:{ rewrite drop_ge by (unfold len in Hrbl; unfold SOFTAP_BUF_SIZE; lia). by rewrite app_nil_r. }
  change (default [] (Some p)) with p. rewrite take_ge by (unfold len, SOFTAP_BUF_SIZE in *; lia).
  wstep. eapply wp_done; [apply memcpy_padded; lia|]. set (b := padded 2048 p) in *.
  assert (Hb : is_bytes b) by (by apply is_bytes_padded). assert (Hbl : len b = 2048) by (apply len_padded; lia).
  wstep. apply wp_aputs. assert (Hs' : serving (set_rece (Some b) s)).
  { split_and!; [by destruct Hok; split|by exists b|done]. }
  assert (Hstay : exists s' h', (a, set_rece (Some b) s, h) = (a, s', h') /\ serving s' /\
    ya_router_para s' = ya_router_para s /\ random_data s' = random_data s /\ live h' = live h /\ chip h' = chip h /\
    queues h' QMain = queues h QMain ++ []).
  { eexists _, _. rewrite app_nil_r. done. }
  apply wp_if; intros _; [|wstep; apply wp_ret; by apply wp_ret].
  wstep. apply wp_rd; [lia|]. wstep. apply wp_rd; [lia|].
  apply wp_if; intros _; [|wstep; apply wp_ret; by apply wp_ret].
  wstep. apply wp_rd; [unfold SOFTAP_CONFIG_DATA_LEN_HIGH_POS; lia|]. wstep. apply wp_rd; [unfold SOFTAP_CONFIG_DATA_LEN_LOW_POS; lia|].
  rewrite lor_add by (by apply lookup_total_u8). fold (at16 b SOFTAP_CONFIG_DATA_LEN_LOW_POS SOFTAP_CONFIG_DATA_LEN_HIGH_POS). fold (declared b).
  apply wp_if; intros Hd; [apply Z.leb_le in Hd|by apply wp_ret].
  wstep. apply wp_parse_forged; try done; [lia|]. intros s1 h1 Hs1 M1 E1 E2. cbn [Z.eqb Pos.eqb Z.opp].
  pose proof (moved_fields _ _ _ M1) as (V1&Q1&_&_&_&_&C1).
  wstep. apply wp_upd_hw. wstep. apply wp_zoom. cbn [fst snd]. eapply wp_done.
  { apply (post_result_ok YA_AP_CONFIG_FAIL). cbn. by rewrite Q1. }
  apply wp_ret. eexists _, _. split; [reflexivity|]. cbn [fst snd queues set_queue log live chip].
  rewrite bool_decide_true, Q1, V1, C1 by done. split_and!; try done. lia.
Qed.
End Session.

(** C4: A soft-AP session hands over the router.  The phone asks for the random
    number under the key derived from the access point's name, and gets it; it
    then sends network name, password, BSSID and session number under the keys
    cut from that random number.  With memory to spare, the module answers the
    first once and the second three times in the same format, with the version
    and serial number of the request, keeps the session number and posts the
    result to the main task.  The turn of the main task that takes the message,
    in soft-AP mode and with nothing else in its queue, saves the user data to
    flash and goes on to hand exactly that router to the WLAN driver, or resets
    because the cloud client cannot be started; in both cases every later start
    connects to it. *)
Theorem softap_provisions {C} `{NorChipLaws C, !NorReliable C} `{CloudEnv} `{JsonText} `{MainEnv} `{BlockCipherLaws} `{CertCheck} `{ApEnv}
    t1 t2 w timer ver1 sn1 text1 j1 doc1 ver2 cmd2 sn2 text2 j2 doc2 ssid pwd bssid random (a : app) s (h : hw C) :
  serving s -> heap h = [] -> ya_has_timer_expired t1 timer <> 0 -> ya_has_timer_expired t2 timer <> 0 ->
  phone_message ver1 1 sn1 text1 j1 -> has_text j1 "Command" (str "Random") ->
  prints [member "Random" (hex_chars (random_data s))] doc1 ->
  phone_message ver2 cmd2 sn2 text2 j2 -> cmd2 <> 1 -> ap_request ssid pwd bssid random j2 ->
  router_ok ssid pwd bssid -> len random <= 32 -> prints [jstr "Code" "0"] doc2 ->
  app_inv a -> ya_app_state a = YA_APP_AP_STATE -> queues h QMain = [] ->
  let key := slice (random_data s) 16 16 in
  let iv := slice (random_data s) 0 16 in
  let step t m := ya_softap_update_step t w timer (Some m) in
  exists a' s' h',
    (let* b1 := step t1 (sealed s ver1 1 sn1 text1) in
     let* b2 := step t2 (ap_message ver2 cmd2 sn2 key iv text2) in ret (b1, b2)) (a, s, h) = Done (false, true) (a', s', h') /\
    trace h' = EvDelay 1000 ::
      replicate 3 (EvWlan "sendto" [ap_message ver2 SOFTAP_CONFIG_CMD_GET_NET_MSG_RESPONSE sn2 key iv doc2]) ++
      answer s ver1 1 SOFTAP_CONFIG_CMD_GET_RANDOM_RESPONSE sn1 doc1 :: trace h /\
    queues h' QMain = [mkMsg 0 None YA_AP_CONFIG_SUCCESS] /\
    cstr (config_random_num a') = random /\ stored_by_main ssid pwd bssid a' h'.
Proof.
  intros Hs Hh Ht1 Ht2 Hm1 Hj1 Hp1 Hm2 Hc2 Hj2 Hro Hrl Hp2 Hinv Hst0 Hq key iv step.
  destruct (random_turn t1 w timer ver1 sn1 text1 j1 doc1 a s h) as (s1&h1&Hr1&Hs1&[E1 P1]&Er&_); [done..|].
  assert (Hseal : sealed s1 ver2 cmd2 sn2 text2 = ap_message ver2 cmd2 sn2 key iv text2).
  { unfold sealed, session_keys. rewrite (proj2 (Z.eqb_neq _ _) Hc2), Er. done. }
  assert (Hans : answer s1 ver2 cmd2 SOFTAP_CONFIG_CMD_GET_NET_MSG_RESPONSE sn2 doc2
    = EvWlan "sendto" [ap_message ver2 SOFTAP_CONFIG_CMD_GET_NET_MSG_RESPONSE sn2 key iv doc2]).
  { unfold answer, session_keys. rewrite (proj2 (Z.eqb_neq _ _) Hc2), Er. done. }
  assert (Q1 : queues h1 = queues h) by (by rewrite E1).
  destruct (apconfig_turn t2 w timer ver2 cmd2 sn2 text2 j2 ssid pwd bssid random doc2 a s1 h1)
    as (a'&s'&h'&Hr2&T2&Q2&_&R2&Hrem); try done; [by apply P1|by rewrite Q1|].
  exists a', s', h'. unfold step. erewrite bind_done by exact Hr1. rewrite <- Hseal. erewrite bind_done by exact Hr2.
  rewrite Q2, T2, Hans. split_and!; try done. rewrite E1. done.
Qed.

(** ** A concrete session *)
Definition random_doc : cJSON := jroot [jstr "Command" "Random"].
Definition router_doc : cJSON := jroot [jstr "Command" "Apconfig"; jstr "Ssid" "home"; jstr "Password" "secret";
  jstr "Bssid" "0A0B0C0D0E0F"; jstr "Random" "1234"].
(** A parser that knows two texts. *)
#[export] Instance session_text : JsonText := json_of (fun t => if bool_decide (t = str "r") then Some random_doc else if bool_decide (t = str "a") then Some router_doc else None) (fun _ => Some (str "{}")).
#[export] Instance session_check : CertCheck := {| mbedtls_x509_crt_parse _ := 0; mbedtls_pk_parse_key _ := 0 |}.
#[export] Instance sample_ap : ApEnv := {|
  ya_hal_wlan_start_ap _ _ := 0; ya_udp_server := 1; ya_os_get_random := seqZ 0 32; device_mac := [1; 2; 3; 4; 5; 6] |}.
Definition sample_sap : sap :=
  mkSap (Some (zeros 2048)) (Some (zeros 2048)) (mkApParam 60 (str "AKEETA" ++ [0]) [0] AKEETA_CN) zero_ap true
    (zeros 16) (zeros 16) (seqZ 0 32) 0.
Definition sample_timer : Ya_Timer := ya_countdown_ms 0 ya_init_timer 60000.

Lemma sample_serving : serving sample_sap.
Proof.
  split_and!; [split; cbn|by exists (zeros 2048)|by cbn].
  - split; evaluate.
  - split; evaluate.
  - by exists (zeros 2048).
  - by left.
Qed.
Lemma sample_message cmd t j : is_u16 cmd -> is_u8 t -> t <> 0 -> cJSON_Parse [t] = Some j -> phone_message 1 cmd [7; 8] [t] j.
Proof.
  intros Hc Ht H0 Hj. split_and!; try done; try evaluate; by constructor.
Qed.
Lemma sample_prints members : prints members (str "{}").
Proof. exists (str "{}"). split_and!; done. Qed.

Lemma softap_provisions_witness :
  exists a' s' h',
    (let* b1 := ya_softap_update_step 0 false sample_timer (Some (sealed sample_sap 1 1 [7; 8] (str "r"))) in
     let* b2 := ya_softap_update_step 1 false sample_timer (Some (ap_message 1 3 [7; 8] (seqZ 16 16) (seqZ 0 16) (str "a"))) in
     ret (b1, b2)) (sample_app, sample_sap, boot) = Done (false, true) (a', s', h') /\
    queues h' QMain = [mkMsg 0 None YA_AP_CONFIG_SUCCESS] /\ cstr (config_random_num a') = str "1234" /\
    stored_by_main (str "home") (str "secret") [10; 11; 12; 13; 14; 15] a' h'.
Proof.
  assert (Ht : forall j k v, cJSON_GetObjectItem j (str k) = Some (jstr k v) -> has_text j k (cstr (str v))).
  { intros j k v Hj. exists (jstr k v), (str v). by rewrite Hj. }
  destruct (softap_provisions 0 1 false sample_timer 1 [7; 8] (str "r") random_doc (str "{}") 1 3 [7; 8] (str "a") router_doc
    (str "{}") (str "home") (str "secret") [10; 11; 12; 13; 14; 15] (str "1234") sample_app sample_sap boot)
    as (a'&s'&h'&Hr&_&Hq&Hn&Hrem);
    [exact sample_serving | reflexivity | vm_compute; discriminate | vm_compute; discriminate
    | apply sample_message; [evaluate | evaluate | discriminate | reflexivity] | apply (Ht _ _ "Random"); reflexivity | apply sample_prints
    | apply sample_message; [evaluate | evaluate | discriminate | reflexivity] | discriminate
    | split_and!; [apply (Ht _ _ "Apconfig"); reflexivity | apply (Ht _ _ "home"); reflexivity | apply (Ht _ _ "secret"); reflexivity
        | apply (Ht _ _ "0A0B0C0D0E0F"); reflexivity | apply (Ht _ _ "1234"); reflexivity]
    | evaluate | evaluate | apply sample_prints | evaluate | reflexivity | reflexivity | ].
  exists a', s', h'. split; [exact Hr|]. split; [exact Hq|]. split; [exact Hn|exact Hrem].
Defined.

(** A message with its digest cleared. *)
Definition forged_packet : bytes := ap_header 1 3 [7; 8] 16 ++ ap_cipher (seqZ 16 16) (seqZ 0 16) (str "a") ++ zeros 16.
Lemma softap_ignores_forgery_witness :
  exists r s' h', ya_softap_update_step 0 false sample_timer (Some forged_packet) (sample_app, sample_sap, boot)
      = Done r (sample_app, s', h') /\ serving s' /\
    ya_router_para s' = zero_ap /\ random_data s' = random_data sample_sap /\ live h' = live boot /\ chip h' = chip boot /\
    queues h' QMain = queues boot QMain ++ (if r then [mkMsg 0 None YA_AP_CONFIG_FAIL] else []).
Proof.
  apply (softap_ignores_forgery 0 sample_timer forged_packet sample_app sample_sap boot);
    [exact sample_serving | reflexivity | vm_compute; discriminate | evaluate | evaluate
    | split; [vm_compute; reflexivity | vm_compute; discriminate] | evaluate].
Defined.
