(* ===== verification/OtaHttp.v ===== *)
(** * HTTP for the OTA update (first part of [ya_ota.c])

    The address of a firmware file is split into host, port and resource
    ([ya_parser_url]); the answer of the server is read in pieces of at most
    4096 bytes, of which the header is searched for the status, the length of
    the file and its own end ([ya_parse_http_header_response]). *)

From stdpp Require Import base numbers list strings.
From S2P Require Import Prelude Platform CommonFunc.

Definition HTTP_BUF_SIZE : Z := 4096.
Definition HTTP_HEADER_BAK_LEN : Z := 32.

(** ** Addresses *)

(** [ya_http_ota_url_para_t] *)
Record url_para := mkUrl {
  ya_http_url : option bytes;
  ya_http_host : option bytes;
  ya_http_resource : option bytes;
  ya_http_port : Z;
  retry_num : Z;
  retry_interval : Z;
  url_md5 : bytes;
  ota_ver : bytes;
  ota_size : Z;
}.
Definition zero_url : url_para := mkUrl None None None 0 0 0 (zeros 16) (zeros 65) 0.
Definition set_url x u := mkUrl x (ya_http_host u) (ya_http_resource u) (ya_http_port u) (retry_num u)
  (retry_interval u) (url_md5 u) (ota_ver u) (ota_size u).
Definition set_host x u := mkUrl (ya_http_url u) x (ya_http_resource u) (ya_http_port u) (retry_num u)
  (retry_interval u) (url_md5 u) (ota_ver u) (ota_size u).
Definition set_resource x u := mkUrl (ya_http_url u) (ya_http_host u) x (ya_http_port u) (retry_num u)
  (retry_interval u) (url_md5 u) (ota_ver u) (ota_size u).
Definition set_port x u := mkUrl (ya_http_url u) (ya_http_host u) (ya_http_resource u) x (retry_num u)
  (retry_interval u) (url_md5 u) (ota_ver u) (ota_size u).
Definition set_retry n i u := mkUrl (ya_http_url u) (ya_http_host u) (ya_http_resource u) (ya_http_port u) n i
  (url_md5 u) (ota_ver u) (ota_size u).
Definition set_md5 x u := mkUrl (ya_http_url u) (ya_http_host u) (ya_http_resource u) (ya_http_port u) (retry_num u)
  (retry_interval u) x (ota_ver u) (ota_size u).
Definition set_ver x u := mkUrl (ya_http_url u) (ya_http_host u) (ya_http_resource u) (ya_http_port u) (retry_num u)
  (retry_interval u) (url_md5 u) x (ota_size u).
Definition set_size x u := mkUrl (ya_http_url u) (ya_http_host u) (ya_http_resource u) (ya_http_port u) (retry_num u)
  (retry_interval u) (url_md5 u) (ota_ver u) x.

(** The rest of [s] from the first occurrence of [p]. *)
Fixpoint strstr (p s : bytes) : option bytes :=
  if prefix_of_b p s then Some s
  else match s with [] => None | _ :: s => strstr p s end.
(** [pos - url] characters of [url]. *)
Definition before (url pos : bytes) : bytes := take (length url - length pos) url.

(** ** Answers *)

(** [ya_http_response_result_t] *)
Record resp := mkResp {
  status_code : Z;
  header_len : Z;
  body_len : Z;
  body_read_len : Z;
  header_bak : bytes;
  parse_status : Z;
}.
Definition zero_resp : resp := mkResp 0 0 0 0 (zeros 32) 0.
Definition set_status c r := mkResp c (header_len r) (body_len r) (body_read_len r) (header_bak r) (parse_status r).
Definition set_parse p r := mkResp (status_code r) (header_len r) (body_len r) (body_read_len r) (header_bak r) p.
Definition set_body_len n r := mkResp (status_code r) (header_len r) n (body_read_len r) (header_bak r) (parse_status r).
Definition set_bak b r := mkResp (status_code r) (header_len r) (body_len r) (body_read_len r) b (parse_status r).
(** The header ends at [e] of [n] bytes received. *)
Definition set_end (n e : Z) r := mkResp (status_code r) e (body_len r) (u32 (n - e)) (header_bak r) 4.

Section Http.
Context {T : Type}.

Definition ya_parser_url (u : url_para) : M T (Z * url_para) :=
  match ya_http_url u with
  | None => ret (-1, u)
  | Some url =>
    let url := cstr url in
    let url := match strstr (str "http://") url with Some _ => drop 7 url | None => url end in
    let* '(u, url) :=
      match strstr (str ":") url with
      | Some pos =>
        let* host := deref (ya_http_host u) in
        let* host := memcpy host 0 (before url pos) in
        ret (set_port (u16 (atoi (drop 1 pos))) (set_host (Some host) u), url)
      | None =>
        match strstr (str "/") url with
        | Some pos =>
          let* host := deref (ya_http_host u) in
          let* host := memcpy host 0 (before url pos) in
          ret (set_port 80 (set_host (Some host) u), pos)
        | None => ret (set_port 80 u, url)
        end
      end in
    match strstr (str "/") url with
    | Some pos =>
      let* resource := deref (ya_http_resource u) in
      let* resource := memcpy resource 0 (drop 1 pos) in
      ret (0, set_resource (Some resource) u)
    | None => ret (0, u)
    end
  end.

(** The first two spaces: [p] and [q], 0 while not found. *)
Fixpoint find_spaces (fuel : nat) (b : bytes) (n i m p : Z) : M T (Z * Z) :=
  match fuel with
  | O => ret (p, 0)
  | S fuel =>
    if i <? n then
      let* c := rd b i in
      if c =? 32 then
        if m + 1 =? 2 then ret (p, i) else find_spaces fuel b n (i + 1) (m + 1) (if m + 1 =? 1 then i else p)
      else find_spaces fuel b n (i + 1) m p
    else ret (p, 0)
  end.
(** Line end at [i]; empty line at [i]: [&&] stops at the first difference. *)
Definition at_char (b : bytes) (i c : Z) (rest : M T bool) : M T bool :=
  let* x := rd b i in if x =? c then rest else ret false.
Definition crlf (b : bytes) (i : Z) : M T bool := at_char b i 13 (at_char b (i + 1) 10 (ret true)).
Definition blank_line (b : bytes) (i : Z) : M T bool :=
  at_char b i 13 (at_char b (i + 1) 10 (at_char b (i + 2) 13 (at_char b (i + 3) 10 (ret true)))).
(** [memcmp(response + p, s, strlen(s)) == 0]: stops at the first difference. *)
Fixpoint starts_with (b : bytes) (p : Z) (s : bytes) : M T bool :=
  match s with
  | [] => ret true
  | c :: s => at_char b p c (starts_with b (p + 1) s)
  end.
(** [j1]: over colons and spaces up to [q]; [j2]: back over spaces down to
    [j1]. *)
Fixpoint skip_colons (fuel : nat) (b : bytes) (j1 q : Z) : M T Z :=
  match fuel with
  | O => ret j1
  | S fuel =>
    if j1 <? q then let* c := rd b j1 in if (c =? 58) || (c =? 32) then skip_colons fuel b (j1 + 1) q else ret j1
    else ret j1
  end.
Fixpoint back_spaces (fuel : nat) (b : bytes) (j1 j2 : Z) : M T Z :=
  match fuel with
  | O => ret j2
  | S fuel => if j1 <? j2 then let* c := rd b j2 in if c =? 32 then back_spaces fuel b j1 (j2 - 1) else ret j2 else ret j2
  end.
(** The line [p, q): its length field, when it is one. *)
Definition content_length (b : bytes) (p q : Z) (r : resp) : M T resp :=
  let* m := starts_with b p (str "CONTENT-LENGTH") in
  let* m := if m then ret true else starts_with b p (str "Content-Length") in
  if m then
    let* j1 := skip_colons (Z.to_nat q) b (p + 14) q in
    let* j2 := back_spaces (Z.to_nat q) b j1 (q - 1) in
    let* v := rdn b j1 (j2 - j1 + 1) in
    let* len_buf := memcpy (zeros 12) 0 v in
    if bool_decide (0 ∈ len_buf) then ret (set_parse 2 (set_body_len (u32 (atoi (cstr len_buf))) r))
    else fail OutOfBounds
  else ret r.
(** The loop of the length search; [None] is [return -1]. *)
Fixpoint header_loop (fuel : nat) (b : bytes) (n i p : Z) (r : resp) : M T (option resp) :=
  match fuel with
  | O => ret (Some r)
  | S fuel =>
    if i <? n then
      let* e := crlf b i in
      let* r := if e then content_length b p i r else ret r in
      let p := if e then i + 2 else p in
      let* e := blank_line b i in
      if e then ret (if parse_status r =? 2 then Some (set_end n (i + 4) r) else None)
      else header_loop fuel b n (i + 1) p r
    else ret (Some r)
  end.
(** The loop that looks for the end only. *)
Fixpoint end_loop (fuel : nat) (b : bytes) (n i : Z) (r : resp) : M T resp :=
  match fuel with
  | O => ret r
  | S fuel =>
    if i <? n then
      let* e := blank_line b i in
      if e then ret (set_end n (i + 4) r) else end_loop fuel b n (i + 1) r
    else ret r
  end.
(** The last 32 bytes received. *)
Definition keep_tail (b : bytes) (n : Z) (r : resp) : M T resp :=
  let* t := rdn b (n - HTTP_HEADER_BAK_LEN) HTTP_HEADER_BAK_LEN in ret (set_bak t r).

(** [None] is -1. *)
Definition ya_parse_http_header_response (b : bytes) (n : Z) (r : resp) : M T (option resp) :=
  let? r :=
    if parse_status r =? 0 then
      let* '(p, q) := find_spaces (Z.to_nat n) b n 0 0 0 in
      if (p =? 0) || (q =? 0) || negb (u32 (q - p) =? 4) then ret None
      else
        let* v := rdn b (p + 1) 3 in
        let* status := memcpy (zeros 4) 0 v in
        let r := set_status (u32 (atoi (cstr status))) r in
        ret (if status_code r =? 200 then Some (set_parse 1 r) else None)
    else ret (Some r) in
  let* r :=
    if parse_status r =? 3 then
      let* r := end_loop (Z.to_nat n) b n 0 r in
      if parse_status r =? 3 then
        (* [strlen] of an array without terminator runs on into [parse_status],
           whose low byte the [memset] then clears *)
        let st := if bool_decide (0 ∈ header_bak r) then 3 else 0 in
        keep_tail b n (set_parse st r)
      else ret r
    else ret r in
  if parse_status r =? 1 then
    let? r := header_loop (Z.to_nat n) b n 0 0 r in
    if parse_status r =? 1 then let* r := keep_tail b n r in ret (Some r)
    else if parse_status r =? 2 then let* r := keep_tail b n (set_parse 3 r) in ret (Some r)
    else ret (Some r)
  else ret (Some r).
End Http.

(** ** A header that arrives in one piece *)

(** A line without carriage return, that is no length field. *)
Definition plain_line (l : bytes) : Prop :=
  0 < len l /\ Forall (fun c => c <> 13) l /\ prefix_of_b (str "CONTENT-LENGTH") l = false /\
  prefix_of_b (str "Content-Length") l = false.
Definition http_lines (ls : list bytes) : bytes := ls ≫= (fun l => l ++ [13; 10]).
(** The field "Content-Length: 123". *)
Definition length_line (sep digits : bytes) : bytes := str "Content-Length" ++ sep ++ digits.
Definition length_ok (sep digits : bytes) : Prop :=
  Forall (fun c => c = 58 \/ c = 32) sep /\ Forall (fun c => 48 <= c <= 57) digits /\ 0 < len digits <= 11.
(** The header of a successful answer. *)
Definition http_head (pre post : bytes) (ls1 : list bytes) (sep digits : bytes) (ls2 : list bytes) : bytes :=
  http_lines ((pre ++ str " 200 " ++ post) :: ls1 ++ length_line sep digits :: ls2) ++ [13; 10].

Lemma prefix_of_b_app s l r : (forall c, c ∈ s -> c <> 13) -> prefix_of_b s (l ++ 13 :: r) = prefix_of_b s l.
Proof.
  revert l. induction s as [|c s IH]; intros l Hs; [by destruct l|]. destruct l as [|x l]; cbn.
  - destruct (Z.eqb_spec c 13); [|done]. exfalso. by apply (Hs c); [left|].
  - rewrite IH; [done|]. intros d Hd. apply Hs. by right.
Qed.

Section Header.
Context {T : Type}.
Implicit Types (t : T) (b : bytes) (r : resp).

Lemma at_char_at b pre x post c k t : b = pre ++ x :: post ->
  at_char b (len pre) c k t = if x =? c then k t else Done false t.
Proof. intros Hb. unfold at_char. erewrite bind_done by (by eapply (rd_at _ pre)). by destruct (x =? c). Qed.
Lemma at_char_off b pre mid x post i c k t : b = pre ++ mid ++ x :: post -> i = len pre + len mid ->
  at_char b i c k t = if x =? c then k t else Done false t.
Proof. intros Hb ->. rewrite <- len_app. apply (at_char_at _ _ _ post). by rewrite Hb, app_assoc. Qed.

Lemma starts_with_at s b pre post t : b = pre ++ post -> len s <= len post ->
  starts_with b (len pre) s t = Done (prefix_of_b s post) t.
Proof.
  revert pre post. induction s as [|c s IH]; intros pre post Hb Hl; [by destruct post|].
  destruct post as [|x post]; [unfold len in Hl; cbn in Hl; lia|]. rewrite !len_cons in Hl. cbn [starts_with prefix_of_b].
  erewrite at_char_at by exact Hb. rewrite (Z.eqb_sym c x). destruct (x =? c); [|done]. cbn [andb].
  rewrite <- (IH (pre ++ [x]) post); [|by rewrite <- app_assoc|lia]. by rewrite len_app.
Qed.

Lemma other_char b pre x post t : b = pre ++ x :: post -> x <> 13 ->
  crlf b (len pre) t = Done false t /\ blank_line b (len pre) t = Done false t.
Proof.
  intros Hb Hx. unfold crlf, blank_line. by rewrite !(at_char_at _ _ _ _ _ _ _ Hb), (proj2 (Z.eqb_neq _ _) Hx).
Qed.
Lemma line_end b pre post t : b = pre ++ 13 :: 10 :: post -> crlf b (len pre) t = Done true t.
Proof.
  intros Hb. unfold crlf. erewrite at_char_at by exact Hb. cbn [Z.eqb Pos.eqb].
  by rewrite (at_char_off b pre [13] 10 post) by done.
Qed.
Lemma blank_end b pre x y post t : b = pre ++ 13 :: 10 :: x :: y :: post -> (x = 13 -> y = 10) ->
  blank_line b (len pre) t = Done (x =? 13) t.
Proof.
  intros Hb Hxy. unfold blank_line. erewrite at_char_at by exact Hb. cbn [Z.eqb Pos.eqb].
  rewrite (at_char_off b pre [13] 10 (x :: y :: post)) by done. cbn [Z.eqb Pos.eqb].
  rewrite (at_char_off b pre [13; 10] x (y :: post)) by done.
  destruct (Z.eqb_spec x 13) as [->|]; [|done]. rewrite Hxy in Hb by done.
  by rewrite (at_char_off b pre [13; 10; 13] 10 post) by done.
Qed.

(** Characters of a line are stepped over. *)
Lemma header_loop_chars l b pre post n p r fuel t : b = pre ++ l ++ post -> Forall (fun c => c <> 13) l ->
  len pre + len l <= n ->
  header_loop (length l + fuel) b n (len pre) p r t = header_loop fuel b n (len pre + len l) p r t.
Proof.
  revert pre. induction l as [|x l IH]; intros pre Hb Hl Hn.
  { change (len []) with 0. by rewrite Z.add_0_r. }
  apply Forall_cons in Hl as [Hx Hl]. rewrite len_cons in *. pose proof (len_nonneg l).
  cbn [length Nat.add header_loop]. destruct (Z.ltb_spec (len pre) n); [|lia].
  destruct (other_char b pre x (l ++ post) t Hb Hx) as [E1 E2].
  erewrite bind_done by exact E1. erewrite bind_done by done. erewrite bind_done by exact E2.
  replace (len pre + 1) with (len (pre ++ [x])) by (by rewrite len_app). rewrite IH.
  - rewrite len_app. change (len [x]) with 1. f_equal. lia.
  - by rewrite Hb, <- app_assoc.
  - done.
  - rewrite len_app. change (len [x]) with 1. lia.
Qed.
(** A line, with what its field changes, when another follows. *)
Lemma header_loop_line l b pre x y post n r r' fuel t :
  b = pre ++ l ++ 13 :: 10 :: x :: y :: post -> Forall (fun c => c <> 13) l -> x <> 13 -> len pre + len l + 2 <= n ->
  content_length b (len pre) (len pre + len l) r t = Done r' t ->
  header_loop (length l + 2 + fuel) b n (len pre) (len pre) r t
  = header_loop fuel b n (len pre + len l + 2) (len pre + len l + 2) r' t.
Proof.
  intros Hb Hl Hx Hn Hc. rewrite <- Nat.add_assoc, (header_loop_chars l b pre (13 :: 10 :: x :: y :: post) n) by (done || lia).
  cbn [Nat.add header_loop]. destruct (Z.ltb_spec (len pre + len l) n); [|lia].
  rewrite app_assoc in Hb. assert (El : len pre + len l = len (pre ++ l)) by (by rewrite len_app). rewrite El in *.
  erewrite bind_done by (by eapply line_end). erewrite bind_done by exact Hc.
  erewrite bind_done by (by eapply blank_end). rewrite (proj2 (Z.eqb_neq _ _) Hx).
  destruct (Z.ltb_spec (len (pre ++ l) + 1) n); [|lia].
  assert (Hb' : b = ((pre ++ l) ++ [13]) ++ 10 :: x :: y :: post) by (by rewrite Hb, <- (app_assoc (pre ++ l) [13])).
  replace (len (pre ++ l) + 1) with (len ((pre ++ l) ++ [13])) by (by rewrite len_app).
  destruct (other_char b ((pre ++ l) ++ [13]) 10 _ t Hb') as [E1 E2]; [done|].
  erewrite bind_done by exact E1. erewrite bind_done by done. erewrite bind_done by exact E2.
  rewrite len_app. change (len [13]) with 1. f_equal; lia.
Qed.
(** The last line and the empty line after it. *)
Lemma header_loop_last l b pre post n r r' fuel t :
  b = pre ++ l ++ 13 :: 10 :: 13 :: 10 :: post -> Forall (fun c => c <> 13) l -> len pre + len l + 4 <= n ->
  content_length b (len pre) (len pre + len l) r t = Done r' t -> parse_status r' = 2 ->
  header_loop (length l + S fuel) b n (len pre) (len pre) r t = Done (Some (set_end n (len pre + len l + 4) r')) t.
Proof.
  intros Hb Hl Hn Hc Hp. rewrite (header_loop_chars l b pre (13 :: 10 :: 13 :: 10 :: post) n) by (done || lia).
  cbn [header_loop]. destruct (Z.ltb_spec (len pre + len l) n); [|lia].
  rewrite app_assoc in Hb. assert (El : len pre + len l = len (pre ++ l)) by (by rewrite len_app). rewrite El in *.
  erewrite bind_done by (by eapply line_end). erewrite bind_done by exact Hc.
  erewrite bind_done by (by eapply blank_end). cbn [Z.eqb Pos.eqb]. by rewrite Hp.
Qed.

Lemma content_length_plain l b pre post r t :
  b = pre ++ l ++ 13 :: post -> plain_line l -> 14 <= len (l ++ 13 :: post) ->
  content_length b (len pre) (len pre + len l) r t = Done r t.
Proof.
  intros Hb (_&_&P1&P2) Hl. unfold content_length.
  assert (Hn : forall s, (forall c, c ∈ s -> c <> 13) -> prefix_of_b s (l ++ 13 :: post) = prefix_of_b s l)
    by (intros; by apply prefix_of_b_app).
  erewrite bind_done by (by apply (starts_with_at _ b pre (l ++ 13 :: post))).
  rewrite Hn, P1 by (intros c Hc; revert c Hc; apply Forall_forall; evaluate). cbv beta iota.
  erewrite bind_done by (by apply (starts_with_at _ b pre (l ++ 13 :: post))).
  by rewrite Hn, P2 by (intros c Hc; revert c Hc; apply Forall_forall; evaluate).
Qed.

Lemma skip_colons_at sep b pre d post q fuel t : b = pre ++ sep ++ d :: post -> Forall (fun c => c = 58 \/ c = 32) sep ->
  d <> 58 -> d <> 32 -> (length sep < fuel)%nat -> len pre + len sep < q ->
  skip_colons fuel b (len pre) q t = Done (len pre + len sep) t.
Proof.
  revert pre fuel. induction sep as [|c sep IH]; intros pre fuel Hb Hs H1 H2 Hf Hq.
  - destruct fuel; [cbn in Hf; lia|]. cbn [skip_colons]. change (len []) with 0 in *. rewrite Z.add_0_r in *.
    destruct (Z.ltb_spec (len pre) q); [|lia]. erewrite bind_done by (by eapply (rd_at _ pre)).
    by rewrite (proj2 (Z.eqb_neq _ _) H1), (proj2 (Z.eqb_neq _ _) H2).
  - apply Forall_cons in Hs as [Hc Hs]. destruct fuel; [cbn in Hf; lia|]. cbn [skip_colons length] in *. rewrite len_cons in *.
    pose proof (len_nonneg sep). destruct (Z.ltb_spec (len pre) q); [|lia].
    erewrite bind_done by (by eapply (rd_at _ pre)).
    assert ((c =? 58) || (c =? 32) = true) as -> by (by destruct Hc as [->| ->]).
    replace (len pre + 1) with (len (pre ++ [c])) by (by rewrite len_app). rewrite IH; try done.
    + rewrite len_app. change (len [c]) with 1. f_equal. lia.
    + by rewrite Hb, <- app_assoc.
    + lia.
    + rewrite len_app. change (len [c]) with 1. lia.
Qed.
Lemma content_length_field sep digits b pre post r t :
  b = pre ++ length_line sep digits ++ 13 :: post -> length_ok sep digits ->
  content_length b (len pre) (len pre + len (length_line sep digits)) r t
  = Done (set_parse 2 (set_body_len (u32 (atoi digits)) r)) t.
Proof.
  intros Hb (Hsep&Hdig&Hdl). unfold content_length.
  assert (Hll : len (length_line sep digits) = 14 + len sep + len digits) by (unfold length_line; rewrite !len_app; change (len (str _)) with 14; lia).
  pose proof (len_nonneg sep).
  assert (Hfit : 14 <= len (length_line sep digits ++ 13 :: post)) by (rewrite len_app; pose proof (len_nonneg (13 :: post)); lia).
  erewrite bind_done by (by apply (starts_with_at _ b pre (length_line sep digits ++ 13 :: post))).
  change (prefix_of_b (str "CONTENT-LENGTH") (length_line sep digits ++ 13 :: post)) with false. cbv beta iota.
  erewrite bind_done by (by apply (starts_with_at _ b pre (length_line sep digits ++ 13 :: post))).
  change (prefix_of_b (str "Content-Length") (length_line sep digits ++ 13 :: post)) with true. cbv beta iota.
  destruct digits as [|d digits]; [by destruct Hdl|]. assert (Hd : 48 <= d <= 57) by (by apply Forall_cons in Hdig as [? _]).
  set (name := str "Content-Length") in *. assert (Hname : len (pre ++ name) = len pre + 14) by (by rewrite len_app).
  assert (Hb1 : b = (pre ++ name) ++ sep ++ d :: digits ++ 13 :: post).
  { rewrite Hb. unfold length_line. by rewrite <- !app_assoc. }
  pose proof (len_nonneg pre). rewrite Hll, <- Hname. set (q := len pre + (14 + len sep + len (d :: digits))).
  erewrite bind_done by (eapply (skip_colons_at sep); [exact Hb1|done|lia|lia|unfold q, len in *; lia|unfold q; rewrite Hname; lia]).
  rewrite Hname. set (j1 := len pre + 14 + len sep).
  erewrite bind_done with (a := q - 1) (t' := t).
  2:{ destruct (Z.to_nat q) eqn:Eq; [unfold q, len in Eq; cbn in Eq; lia|]. cbn [back_spaces].
      destruct (Z.ltb_spec j1 (q - 1)) as [Hlt|]; [|done].
      destruct (exists_last (l := d :: digits)) as (ds&z&Ez); [done|].
      assert (Hz : 48 <= z <= 57) by (rewrite Ez in Hdig; apply Forall_app in Hdig as [_ Hz]; by apply Forall_cons in Hz as [? _]).
      erewrite bind_done.
      2:{ eapply (rd_at _ ((pre ++ name) ++ sep ++ ds) z (13 :: post)).
          - change (d :: digits ++ 13 :: post) with ((d :: digits) ++ 13 :: post) in Hb1. rewrite Ez in Hb1. rewrite Hb1.
            by rewrite <- !app_assoc.
          - unfold q. rewrite Ez, !len_app. change (len name) with 14. change (len [z]) with 1. lia. }
      destruct (Z.eqb_spec z 32); [lia|done]. }
  erewrite bind_done.
  2:{ eapply (rdn_at _ ((pre ++ name) ++ sep) (d :: digits) (13 :: post)).
      - by rewrite Hb1, <- !app_assoc.
      - unfold j1. rewrite !len_app. change (len name) with 14. lia.
      - unfold q, j1. lia. }
  erewrite bind_done by (apply (memcpy_zeros [] _ 12 0); [done|lia]). rewrite app_nil_l.
  assert (Hz : zeros (12 - len (d :: digits)) = 0 :: zeros (12 - len (d :: digits) - 1)).
  { unfold zeros. replace (Z.to_nat (12 - len (d :: digits))) with (S (Z.to_nat (12 - len (d :: digits) - 1))) by lia. done. }
  rewrite Hz. set (z := zeros _). change (d :: digits ++ 0 :: z) with ((d :: digits) ++ 0 :: z).
  rewrite bool_decide_true by (apply elem_of_app; right; left). rewrite cstr_app_nul; [done|]. eapply Forall_impl; [exact Hdig|]. cbn. lia.
Qed.

Lemma plain_start l post : plain_line l -> exists x y post', l ++ 13 :: post = x :: y :: post' /\ x <> 13.
Proof.
  intros (Hl&H13&_). destruct l as [|c l]; [unfold len in Hl; cbn in Hl; lia|]. apply Forall_cons in H13 as [Hc _].
  destruct l as [|d l]; by eexists _, _, _.
Qed.
Lemma lines_start ls x y post : Forall plain_line ls -> x <> 13 ->
  exists x' y' post', http_lines ls ++ x :: y :: post = x' :: y' :: post' /\ x' <> 13.
Proof.
  intros Hls Hx. destruct ls as [|l ls]; [by exists x, y, post|]. apply Forall_cons in Hls as [Hl _].
  destruct (plain_start l (10 :: http_lines ls ++ x :: y :: post) Hl) as (x'&y'&post'&E&Hx').
  exists x', y', post'. split; [|done]. rewrite <- E. cbn [http_lines mbind list_bind]. by rewrite <- !app_assoc.
Qed.
(** Lines that are no length field are stepped over, when a line follows. *)
Lemma header_loop_lines ls b pre x y post n r fuel t :
  b = pre ++ http_lines ls ++ x :: y :: post -> Forall plain_line ls -> x <> 13 -> 14 <= len (x :: y :: post) ->
  len pre + len (http_lines ls) <= n ->
  header_loop (length (http_lines ls) + fuel) b n (len pre) (len pre) r t
  = header_loop fuel b n (len pre + len (http_lines ls)) (len pre + len (http_lines ls)) r t.
Proof.
  revert pre. induction ls as [|l ls IH]; intros pre Hb Hls Hx Hl Hn.
  { change (len (http_lines [])) with 0. by rewrite Z.add_0_r. }
  apply Forall_cons in Hls as [Hp Hls]. cbn [http_lines mbind list_bind] in *. fold (http_lines ls) in *.
  rewrite !len_app in *. rewrite !length_app in *. change (len [13; 10]) with 2 in *. cbn [length].
  pose proof (len_nonneg (http_lines ls)). pose proof (len_nonneg (x :: y :: post)).
  destruct (lines_start ls x y post Hls Hx) as (x'&y'&post'&Enext&Hx').
  assert (Hb' : b = pre ++ l ++ 13 :: 10 :: x' :: y' :: post') by (rewrite Hb, <- Enext; by rewrite <- !app_assoc).
  replace (length l + 2 + length (http_lines ls) + fuel)%nat with (length l + 2 + (length (http_lines ls) + fuel))%nat by lia.
  rewrite (header_loop_line l b pre x' y' post' n r r); try done.
  - replace (len pre + len l + 2) with (len (pre ++ l ++ [13; 10])) by (rewrite !len_app; change (len [13; 10]) with 2; lia).
    rewrite IH; try done.
    + rewrite !len_app. change (len [13; 10]) with 2. f_equal; lia.
    + by rewrite Hb, <- !app_assoc.
    + rewrite !len_app. change (len [13; 10]) with 2. lia.
  - apply Hp.
  - lia.
  - apply (content_length_plain l b pre (10 :: x' :: y' :: post')); [done|done|]. rewrite len_app, !len_cons.
    rewrite <- Enext in Hb'. assert (len (http_lines ls ++ x :: y :: post) = len (x' :: y' :: post')) as E by (by rewrite Enext).
    rewrite len_app, !len_cons in E. rewrite !len_cons in Hl. pose proof (len_nonneg l). lia.
Qed.

(** The search for the length, from the start of the lines to the empty one. *)
Lemma header_loop_head ls1 sep digits ls2 b post n r t :
  b = (http_lines (ls1 ++ length_line sep digits :: ls2) ++ [13; 10]) ++ post ->
  Forall plain_line ls1 -> Forall plain_line ls2 -> length_ok sep digits -> 14 <= len post ->
  len (http_lines (ls1 ++ length_line sep digits :: ls2)) + 2 <= n ->
  header_loop (Z.to_nat n) b n 0 0 r t
  = Done (Some (set_end n (len (http_lines (ls1 ++ length_line sep digits :: ls2)) + 2)
      (set_parse 2 (set_body_len (u32 (atoi digits)) r)))) t.
Proof.
  intros Hb H1 H2 Hlen Hpost Hn. set (cl := length_line sep digits) in *.
  assert (Hcl : Forall (fun c => c <> 13) cl /\ exists c d e, cl = c :: d :: e /\ c <> 13).
  { split; [|by eexists _, _, _; split; [reflexivity|]]. destruct Hlen as (Hs&Hd&_). unfold cl, length_line. rewrite !Forall_app.
    split_and!; [evaluate|eapply Forall_impl; [exact Hs|cbn; lia]|eapply Forall_impl; [exact Hd|cbn; lia]]. }
  destruct Hcl as (Hcl13&c0&d0&e0&Ecl&Hc0).
  assert (Eb : http_lines (ls1 ++ cl :: ls2) = http_lines ls1 ++ cl ++ 13 :: 10 :: http_lines ls2).
  { unfold http_lines. rewrite bind_app. cbn [mbind list_bind]. f_equal. by rewrite <- app_assoc. }
  rewrite Eb in *. rewrite !len_app, !len_cons in Hn. pose proof (len_nonneg (http_lines ls1)). pose proof (len_nonneg (http_lines ls2)).
  pose proof (len_nonneg cl).
  assert (Hb1 : b = [] ++ http_lines ls1 ++ c0 :: d0 :: e0 ++ 13 :: 10 :: http_lines ls2 ++ [13; 10] ++ post).
  { rewrite Hb, Ecl, <- !app_assoc. done. }
  replace (Z.to_nat n) with (length (http_lines ls1) + (Z.to_nat n - length (http_lines ls1)))%nat by (unfold len in *; lia).
  assert (Hroom : 14 <= len (c0 :: d0 :: e0 ++ 13 :: 10 :: http_lines ls2 ++ [13; 10] ++ post)).
  { rewrite !len_cons, len_app, !len_cons, !len_app. pose proof (len_nonneg e0). change (len [13; 10]) with 2. lia. }
  rewrite (header_loop_lines ls1 b [] _ _ _ n r _ t Hb1) by (done || (change (len []) with 0; lia)).
  change (len []) with 0. rewrite Z.add_0_l.
  assert (Hb2 : b = http_lines ls1 ++ cl ++ 13 :: 10 :: http_lines ls2 ++ 13 :: 10 :: post).
  { by rewrite Hb, <- !app_assoc. }
  destruct ls2 as [|l2 ls2] using rev_ind.
  - replace (Z.to_nat n - length (http_lines ls1))%nat with (length cl + S (Z.to_nat n - length (http_lines ls1) - length cl - 1))%nat
      by (unfold len in *; lia).
    erewrite (header_loop_last cl b (http_lines ls1)); [|exact Hb2|done|lia|by eapply content_length_field|done].
    rewrite !len_app, !len_cons. change (len (http_lines [])) with 0. do 3 f_equal. lia.
  - apply Forall_app in H2 as [H2 Hl2]. apply Forall_cons in Hl2 as [Hl2 _].
    assert (E2 : http_lines (ls2 ++ [l2]) = http_lines ls2 ++ l2 ++ [13; 10]).
    { unfold http_lines. rewrite bind_app. cbn [mbind list_bind]. by rewrite app_nil_r. }
    rewrite E2 in *. rewrite !len_app in *. change (len [13; 10]) with 2 in *.
    pose proof (len_nonneg (http_lines ls2)). pose proof (len_nonneg l2).
    destruct (plain_start l2 (10 :: 13 :: 10 :: post) Hl2) as (x&y&p2&El2&Hx).
    destruct (lines_start ls2 x y p2 H2 Hx) as (x'&y'&p2'&El2'&Hx').
    assert (Hb3 : b = http_lines ls1 ++ cl ++ 13 :: 10 :: x' :: y' :: p2').
    { rewrite Hb2, <- El2', <- El2, <- !app_assoc. done. }
    set (r2 := set_parse 2 (set_body_len (u32 (atoi digits)) r)).
    set (k := (Z.to_nat n - length (http_lines ls1) - length cl - 2)%nat).
    assert (Hk : (Z.to_nat n - length (http_lines ls1) = length cl + 2 + k)%nat) by (unfold k, len in *; lia). rewrite Hk.
    rewrite (header_loop_line cl b (http_lines ls1) x' y' p2' n r r2) by
      (done || lia || by apply (content_length_field sep digits b _ (10 :: x' :: y' :: p2'))).
    set (pre2 := http_lines ls1 ++ cl ++ [13; 10]).
    assert (Hp2 : len (http_lines ls1) + len cl + 2 = len pre2) by (unfold pre2; rewrite !len_app; change (len [13; 10]) with 2; lia).
    rewrite Hp2. assert (Hb4 : b = pre2 ++ http_lines ls2 ++ x :: y :: p2).
    { rewrite Hb3, <- El2'. unfold pre2. by rewrite <- !app_assoc. }
    assert (Hroom2 : 14 <= len (x :: y :: p2)).
    { rewrite <- El2, len_app, !len_cons. lia. }
    replace k with (length (http_lines ls2) + (length l2 + S (k - length (http_lines ls2) - length l2 - 1)))%nat
      by (unfold k, len in *; lia).
    rewrite (header_loop_lines ls2 b pre2 x y p2 n r2) by (done || lia).
    assert (Hb5 : b = (pre2 ++ http_lines ls2) ++ l2 ++ 13 :: 10 :: 13 :: 10 :: post).
    { rewrite Hb4, <- El2. by rewrite <- !app_assoc. }
    rewrite <- len_app. rewrite (header_loop_last l2 b (pre2 ++ http_lines ls2) post n r2 r2); try done.
    + rewrite !len_app, <- Hp2. do 3 f_equal. rewrite !len_cons, !len_app. change (len [13; 10]) with 2. lia.
    + apply Hl2.
    + rewrite len_app. lia.
    + apply (content_length_plain l2 b _ (10 :: 13 :: 10 :: post)); [done|done|]. rewrite len_app, !len_cons. lia.
Qed.

Lemma find_spaces_skip l b pre post n m p fuel t : b = pre ++ l ++ post -> Forall (fun c => c <> 32) l ->
  len pre + len l <= n ->
  find_spaces (length l + fuel) b n (len pre) m p t = find_spaces fuel b n (len pre + len l) m p t.
Proof.
  revert pre. induction l as [|x l IH]; intros pre Hb Hl Hn.
  { change (len []) with 0. by rewrite Z.add_0_r. }
  apply Forall_cons in Hl as [Hx Hl]. rewrite len_cons in *. pose proof (len_nonneg l).
  cbn [length Nat.add find_spaces]. destruct (Z.ltb_spec (len pre) n); [|lia].
  erewrite bind_done by (by eapply (rd_at _ pre)). rewrite (proj2 (Z.eqb_neq _ _) Hx).
  replace (len pre + 1) with (len (pre ++ [x])) by (by rewrite len_app). rewrite IH; try done.
  - rewrite len_app. change (len [x]) with 1. f_equal. lia.
  - by rewrite Hb, <- app_assoc.
  - rewrite len_app. change (len [x]) with 1. lia.
Qed.
(** The status: three characters between the first two spaces. *)
Lemma find_spaces_status b pre code post n t : b = pre ++ 32 :: code ++ 32 :: post -> Forall (fun c => c <> 32) pre ->
  Forall (fun c => c <> 32) code -> len pre + len code + 2 <= n ->
  find_spaces (Z.to_nat n) b n 0 0 0 t = Done (len pre, len pre + 1 + len code) t.
Proof.
  intros Hb Hp Hc Hn. pose proof (len_nonneg pre). pose proof (len_nonneg code).
  set (k := (Z.to_nat n - length pre - length code - 2)%nat).
  replace (Z.to_nat n) with (length pre + S (length code + S k))%nat by (unfold k, len in *; lia).
  change 0 with (len []) at 1. rewrite (find_spaces_skip pre b [] (32 :: code ++ 32 :: post)) by (done || (change (len []) with 0; lia)).
  change (len [] + len pre) with (len pre). cbn [find_spaces]. destruct (Z.ltb_spec (len pre) n); [|lia].
  erewrite bind_done by (by eapply (rd_at _ pre)). change (0 + 1 =? 2) with false. change (0 + 1 =? 1) with true.
  change (32 =? 32) with true. cbv iota.
  assert (Hb' : b = (pre ++ [32]) ++ code ++ 32 :: post) by (by rewrite Hb, <- app_assoc).
  replace (len pre + 1) with (len (pre ++ [32])) by (by rewrite len_app).
  assert (Hl : len (pre ++ [32]) = len pre + 1) by (by rewrite len_app).
  rewrite (find_spaces_skip code b (pre ++ [32]) (32 :: post)) by (done || lia).
  cbn [find_spaces]. destruct (Z.ltb_spec (len (pre ++ [32]) + len code) n); [|lia].
  erewrite bind_done by (eapply (rd_at _ ((pre ++ [32]) ++ code)); [by rewrite Hb', <- !app_assoc|by rewrite (len_app (pre ++ [32]) code)]).
  done.
Qed.

Lemma header_complete pre post ls1 sep digits ls2 body z r t :
  let status := pre ++ str " 200 " ++ post in
  let head := http_head pre post ls1 sep digits ls2 in
  0 < len pre -> Forall (fun c => c <> 32) pre -> plain_line status -> Forall plain_line ls1 -> Forall plain_line ls2 ->
  length_ok sep digits -> 14 <= len body + len z -> len head + len body < 4294967296 -> parse_status r = 0 ->
  ya_parse_http_header_response (head ++ body ++ z) (len head + len body) r t
  = Done (Some (mkResp 200 (len head) (u32 (atoi digits)) (len body) (header_bak r) 4)) t.
Proof.
  intros status head Hpre Hsp Hst H1 H2 Hlen Hroom Hsz Hr. pose proof (len_nonneg body). pose proof (len_nonneg z).
  set (n := len head + len body). set (b := head ++ body ++ z).
  set (rest := post ++ 13 :: 10 :: http_lines (ls1 ++ length_line sep digits :: ls2) ++ [13; 10]).
  assert (Hhead : head = pre ++ 32 :: [50; 48; 48] ++ 32 :: rest).
  { unfold head, http_head, rest. cbn [http_lines mbind list_bind]. rewrite <- !app_assoc. done. }
  assert (Hhl : len head = len pre + 5 + len rest).
  { rewrite Hhead, len_app. cbn [app]. rewrite !len_cons. lia. }
  pose proof (len_nonneg rest).
  assert (Hb : b = pre ++ 32 :: [50; 48; 48] ++ 32 :: rest ++ body ++ z).
  { unfold b. rewrite Hhead. by rewrite <- app_assoc. }
  unfold ya_parse_http_header_response. rewrite Hr. cbn [Z.eqb]. unfold obind.
  erewrite bind_done.
  2:{ erewrite bind_done by (eapply (find_spaces_status b pre [50; 48; 48]);
        [exact Hb|done|evaluate|unfold n; change (len [50; 48; 48]) with 3; lia]).
      change (len [50; 48; 48]) with 3. cbv beta iota.
      destruct (Z.eqb_spec (len pre) 0); [lia|]. destruct (Z.eqb_spec (len pre + 1 + 3) 0); [lia|].
      replace (len pre + 1 + 3 - len pre) with 4 by lia. change (u32 4 =? 4) with true. cbn [orb negb].
      erewrite bind_done by (eapply (rdn_at _ (pre ++ [32]) [50; 48; 48]); [by rewrite Hb, <- app_assoc|by rewrite len_app|done]).
      reflexivity. }
  set (r1 := set_parse 1 (set_status 200 r)).
  match goal with |- context [match (if ?c then Some ?x else None) with _ => _ end] =>
    change (if c then Some x else None) with (Some r1) end.
  cbv beta iota.
  change (parse_status r1) with 1. cbn [Z.eqb Pos.eqb]. erewrite bind_done by done. change (parse_status r1) with 1. cbn [Z.eqb Pos.eqb].
  assert (Ehl : http_lines ((status :: ls1) ++ length_line sep digits :: ls2) ++ [13; 10] = head) by done.
  assert (Elen : len (http_lines ((status :: ls1) ++ length_line sep digits :: ls2)) + 2 = len head).
  { rewrite <- Ehl, len_app. done. }
  erewrite bind_done.
  2:{ eapply (header_loop_head (status :: ls1) sep digits ls2 b (body ++ z)); try done.
      - by constructor.
      - rewrite len_app. lia.
      - rewrite Elen. unfold n. lia. }
  assert (Eu : u32 (n - len head) = len body).
  { unfold n. replace (len head + len body - len head) with (len body) by lia. apply u32_small. unfold is_u32.
    pose proof (len_nonneg head). lia. }
  rewrite Elen. unfold set_end. by rewrite Eu.
Qed.
End Header.
