(* ===== verification/Ota.v ===== *)
(** * The OTA update ([ya_ota.c], [internal_hal/ya_ota_hal.c], [otaDiffHal.c])

    A cloud command names a firmware file.  The OTA task downloads it over HTTP
    into a partition of the flash, one state of a small machine per turn,
    digests it while it arrives, checks the copy in flash once more, leaves a
    record for the boot loader and restarts; after the restart it reports
    whether the new version runs.  A second machine of the same shape serves
    the file for the controller beside the module. *)

From stdpp Require Import base numbers list strings.
From S2P Require Import Prelude Platform SpiFlash Flash CommonFunc HalTimer CJson SysTime.
From S2P Require Import DeviceTimer License MainQueue Cloud UserData AppMain Aes OtaHttp.

Definition VERSION_LEN : Z := 32.
Definition YA_MAX_MCU_VERSION_LEN : Z := 64.
Definition HTTP_FILE_HEADER_LEN : Z := 8.
Definition YA_WIFI_OTA_REQUIRE : Z := 0.
Definition YA_MCU_OTA_REQUIRE : Z := 1.
Definition YA_CHECK_FILE_FAILED : Z := -3.
Definition YA_DOWNLOAD_FILE_FAILED : Z := -2.
Definition YA_HTTP_OTA_FAILED : Z := -1.
Definition YA_START_DOWN : Z := 10.
Definition YA_ERASE_FLASH_OK : Z := 30.
Definition YA_DOWNLOAD_OK : Z := 80.
Definition YA_CHECKSUM_OK : Z := 90.
Definition YA_HTTP_SUCCESS : Z := 100.
Definition YA_NORMAL_WITH_OTA_SUCCESS : Z := 1.
Definition YA_NORMAL_WITH_OTA_FAILE : Z := 2.

(** [ya_http_ota_status_t]; the states no code enters are left out. *)
Inductive http_state :=
| YA_HTTP_START | YA_HTTP_CONNECT | YA_HTTP_SEND_GET | YA_HTTP_HEADER_HANDLE | YA_PRE_FILE_HANDLE | YA_EARSE_FLASH
| YA_HTTP_BODY_HANDLE | YA_HTTP_CHECKSUM | YA_ERROR_HANDLE | YA_HTTP_RETRY_WAIT | YA_WAIT_TO_REBOOT | YA_HTTP_IDLE
| YA_NOTIFY_MCU.
#[export] Instance http_state_eq_dec : EqDecision http_state.
Proof. solve_decision. Defined.

(** ** The flash side: [otaDiffHal.c] *)

(** [OtaOperateInfo] *)
Record ota_info := mkInfo {
  i_init : Z; get_first_frame : Z; s_addr : Z; e_addr : Z; i_offset : Z; max_len : Z; data_len : Z }.
Definition zero_info : ota_info := mkInfo 0 0 0 0 0 0 0.
Definition OTA_STAT_PART_SIZE : Z := 4 * 1024.
Definition SIZEOF_OTA_PKG_HEADER : Z := 64.

(** ** The globals of [ya_ota.c] *)

(** [http_file_para_t] *)
Record file := mkFile {
  f_header_len : Z; file_len : Z; f_read_len : Z; body_cur_pos : Z;
  body_flie_header_cur_len : Z; body_file_header : bytes; body_file_header_enbable : Z }.
Definition zero_file : file := mkFile 0 0 0 0 0 (zeros 8) 0.
Definition set_read n f := mkFile (f_header_len f) (file_len f) n (body_cur_pos f) (body_flie_header_cur_len f)
  (body_file_header f) (body_file_header_enbable f).
Definition set_hlen n f := mkFile n (file_len f) (f_read_len f) (body_cur_pos f) (body_flie_header_cur_len f)
  (body_file_header f) (body_file_header_enbable f).
Definition set_pos n f := mkFile (f_header_len f) (file_len f) (f_read_len f) n (body_flie_header_cur_len f)
  (body_file_header f) (body_file_header_enbable f).
Definition set_file_header b n f := mkFile (f_header_len f) (file_len f) (f_read_len f) (body_cur_pos f) n b
  (body_file_header_enbable f).

(** [ya_module_ota_para_t] *)
Record module := mkModule {
  ya_http_state : http_state; ota_file_addr : Z; ota_buffer : option bytes; ota_server_socket : Z;
  eror_code : Z; ya_ota_retry_timer : Ya_Timer; curdelta : Z; delta : Z; count : Z }.
Definition set_http st m := mkModule st (ota_file_addr m) (ota_buffer m) (ota_server_socket m) (eror_code m)
  (ya_ota_retry_timer m) (curdelta m) (delta m) (count m).
Definition set_buffer b m := mkModule (ya_http_state m) (ota_file_addr m) b (ota_server_socket m) (eror_code m)
  (ya_ota_retry_timer m) (curdelta m) (delta m) (count m).
Definition set_socket n m := mkModule (ya_http_state m) (ota_file_addr m) (ota_buffer m) n (eror_code m)
  (ya_ota_retry_timer m) (curdelta m) (delta m) (count m).
Definition set_error n m := mkModule (ya_http_state m) (ota_file_addr m) (ota_buffer m) (ota_server_socket m) n
  (ya_ota_retry_timer m) (curdelta m) (delta m) (count m).
Definition set_delta c d m := mkModule (ya_http_state m) (ota_file_addr m) (ota_buffer m) (ota_server_socket m) (eror_code m)
  (ya_ota_retry_timer m) c d (count m).
Definition set_retries t n m := mkModule (ya_http_state m) (ota_file_addr m) (ota_buffer m) (ota_server_socket m) (eror_code m)
  t (curdelta m) (delta m) n.
Definition zero_module (addr : Z) : module := mkModule YA_HTTP_START addr None (-1) 0 ya_init_timer 0 0 0.

(** The parameters of one of the two downloads. *)
Record side := mkSide { d_resp : resp; d_url : url_para; d_file : file; d_mod : module }.
Definition upd_resp f d := mkSide (f (d_resp d)) (d_url d) (d_file d) (d_mod d).
Definition upd_url f d := mkSide (d_resp d) (f (d_url d)) (d_file d) (d_mod d).
Definition upd_file f d := mkSide (d_resp d) (d_url d) (f (d_file d)) (d_mod d).
Definition upd_mod f d := mkSide (d_resp d) (d_url d) (d_file d) (f (d_mod d)).

(** The running digest: the statics of [update_ota_buffer_md5]. *)
Record digest := mkDigest { md5_reset : bool; md5_init_flag : bool; md5_ctx : bytes; total_len : Z }.

(** [net] is what the next reads of a socket return: an error or data. *)
Record ota := mkOta {
  wifi : side; mcu : side; ota_result_upload_enable : Z; new_ota_version : bytes; md5_state : digest;
  check_md5_result : Z; hal_info : ota_info; net : list (option bytes) }.
Definition set_wifi x o := mkOta x (mcu o) (ota_result_upload_enable o) (new_ota_version o) (md5_state o) (check_md5_result o)
  (hal_info o) (net o).
Definition set_mcu x o := mkOta (wifi o) x (ota_result_upload_enable o) (new_ota_version o) (md5_state o) (check_md5_result o)
  (hal_info o) (net o).
Definition set_upload x o := mkOta (wifi o) (mcu o) x (new_ota_version o) (md5_state o) (check_md5_result o) (hal_info o) (net o).
Definition set_new_version x o := mkOta (wifi o) (mcu o) (ota_result_upload_enable o) x (md5_state o) (check_md5_result o)
  (hal_info o) (net o).
Definition set_digest x o := mkOta (wifi o) (mcu o) (ota_result_upload_enable o) (new_ota_version o) x (check_md5_result o)
  (hal_info o) (net o).
Definition set_check x o := mkOta (wifi o) (mcu o) (ota_result_upload_enable o) (new_ota_version o) (md5_state o) x
  (hal_info o) (net o).
Definition set_info x o := mkOta (wifi o) (mcu o) (ota_result_upload_enable o) (new_ota_version o) (md5_state o)
  (check_md5_result o) x (net o).
Definition set_net x o := mkOta (wifi o) (mcu o) (ota_result_upload_enable o) (new_ota_version o) (md5_state o)
  (check_md5_result o) (hal_info o) x.

(** What the network, the partition table, the ROM and the product answer. *)
Class OtaEnv := {
  ya_hal_get_ip_by_name : bytes -> option Z;
  ya_tcp_client_connect_block : Z -> Z -> option Z;
  sock_write : bytes -> Z;
  partion_info_get : option (Z * Z);
  crc32 : bytes -> Z;
  ya_mcu_ota_download_addr : Z;
}.

Inductive which := Wifi | Mcu.

Section Ota.
Context {C : Type} `{NorChip C} `{CloudEnv} `{JsonText} `{BlockCipher} `{OtaEnv}.
Abbreviation PO := (P C (app * ota)).

Definition ogets {B} (f : ota -> B) : PO B := gets (fun s => f s.2).
Definition oputs (f : ota -> ota) : PO unit := puts (fun s => (s.1, f s.2)).
Definition app_of {B} (m : P C app B) : PO B := zoom_s fst (fun a s => (a, s.2)) m.
Definition dget (w : which) : PO side := ogets (fun o => match w with Wifi => wifi o | Mcu => mcu o end).
Definition dupd (w : which) (f : side -> side) : PO unit :=
  oputs (fun o => match w with Wifi => set_wifi (f (wifi o)) o | Mcu => set_mcu (f (mcu o)) o end).
Definition goto (w : which) (st : http_state) : PO unit := dupd w (upd_mod (set_http st)).

(** [read(socket, buf, n)]: [None] is an error, no data the end. *)
Definition sock_read (n : Z) : PO (option bytes) :=
  let* l := ogets net in
  match l with
  | [] => ret None
  | x :: l => oputs (set_net l) ;; ret (take (Z.to_nat n) <$> x)
  end.
Definition close_socket (w : which) : PO unit :=
  let* d := dget w in
  if 0 <=? ota_server_socket (d_mod d) then
    emit (EvWlan "close" [[ota_server_socket (d_mod d)]]) ;; dupd w (upd_mod (set_socket (-1)))
  else ret tt.

(** *** [otaDiffHal.c] *)
Definition get_OTA_write_data_addr : PO Z := let* i := ogets hal_info in ret (s_addr i).
Definition otaHal_init : PO Z :=
  oputs (set_info zero_info) ;;
  match partion_info_get with
  | None => ret (-1)
  | Some (addr, n) =>
    oputs (set_info (mkInfo 0 0 addr 0 0 n 0)) ;;
    let* h := get_hw in
    let '(r, c) := hal_spiflash_erase (chip h) addr n in
    upd_hw (set_chip c) ;;
    if negb (r =? 0) then ret (-1)
    else oputs (set_info (mkInfo 1 0 addr (u32 (addr + n)) 0 n 0)) ;; ret 0
  end.
(** The first frame gives the size of the package, which is placed at the end
    of the partition before the two state sectors; [None] is [return -1]. *)
Definition first_frame (buf : bytes) (off n : Z) : PO (option unit) :=
  if n <? SIZEOF_OTA_PKG_HEADER then ret None
  else
    let* v := rdn buf (off + 8) 4 in
    let size := of_le32 v in
    let tmpFileLen := if negb (size mod OTA_STAT_PART_SIZE =? 0) then u32 (size + OTA_STAT_PART_SIZE - size mod OTA_STAT_PART_SIZE)
                      else size in
    let* i := ogets hal_info in
    if max_len i <? u32 (tmpFileLen + 2 * OTA_STAT_PART_SIZE) then
      oputs (set_info (mkInfo (i_init i) 0 (s_addr i) (e_addr i) (i_offset i) (max_len i) size)) ;; ret None
    else
      oputs (set_info (mkInfo (i_init i) 1 (u32 (s_addr i + max_len i - tmpFileLen - 2 * OTA_STAT_PART_SIZE)) (e_addr i)
        (i_offset i) (max_len i) size)) ;;
      ret (Some tt).
(** The data is at [buf + off]; the status of the write is ignored. *)
Definition otaHal_write (buf : bytes) (off n : Z) : PO Z :=
  let n := u16 n in
  let* i := ogets hal_info in
  let* ok := if get_first_frame i =? 0 then first_frame buf off n else ret (Some tt) in
  match ok with
  | None => ret (-1)
  | Some _ =>
    let* i := ogets hal_info in
    if data_len i <? u32 (i_offset i + n) then ret (-1)
    else
      let* v := rdn buf off n in
      let* h := get_hw in
      upd_hw (set_chip (snd (hal_spifiash_write (chip h) (u32 (s_addr i + i_offset i)) v))) ;;
      oputs (set_info (mkInfo (i_init i) (get_first_frame i) (s_addr i) (e_addr i) (u32 (i_offset i + n)) (max_len i)
        (data_len i))) ;;
      ret 0
  end.
(** [OtaState], the record for the boot loader. *)
Definition ota_state_tail (i : ota_info) : bytes :=
  le32 (s_addr i) ++ le32 (data_len i) ++ [1; 255; 255; 255; 255; 255; 255; 255].
Definition ota_state (i : ota_info) : bytes := str "OTA" ++ [16] ++ le32 (crc32 (ota_state_tail i)) ++ ota_state_tail i.
Definition flash_program (addr : Z) (v : bytes) : PO unit :=
  let* h := get_hw in upd_hw (set_chip (snd (hal_spifiash_write (chip h) addr v))).
Definition otaHal_done : PO unit :=
  let* i := ogets hal_info in
  when (negb (data_len i =? 0) && (i_offset i =? data_len i))
    (flash_program (u32 (e_addr i - 2 * OTA_STAT_PART_SIZE)) (ota_state i) ;;
     flash_program (u32 (e_addr i - OTA_STAT_PART_SIZE)) (ota_state i)) ;;
  reset.

(** *** [ya_ota_hal.c] *)
Definition ya_hal_ota_done : PO unit := otaHal_done.
Definition ya_get_file_header_writer_flash_enable : Z := 1.
Definition ya_get_ota_download_addr : Z := 0xB6000.
Definition ya_http_prefile_header_init : PO Z := ret 0.
Definition ya_http_prefile_header_handle : PO Z := ret 1.
Definition ya_get_download_whole_file_finish : Z := 0.
Definition ya_http_ota_sector_erase (address size : Z) : PO Z := otaHal_init.
Definition ya_http_ota_sector_write (address n : Z) (buf : bytes) (off : Z) : PO Z := otaHal_write buf off n.
(** The sections of a file: full buffers and a last one; the digest is taken
    over what each read puts into the buffer.  The flash has far fewer than
    the 65536 sections the 16-bit index can count. *)
Fixpoint read_sections (sections : nat) (addr cur_len file_size : Z) (buf acc : bytes) : PO (option (bytes * bytes)) :=
  match sections with
  | O => ret (Some (buf, acc))
  | S sections =>
    let read_len := match sections with O => file_size - cur_len | _ => HTTP_BUF_SIZE end in
    let* '(r, v) := ya_hal_flash_read (u32 (addr + cur_len)) read_len in
    if negb (r =? 0) then ret None
    else
      let* buf := memcpy buf 0 v in
      read_sections sections addr (cur_len + read_len) file_size buf (acc ++ v)
  end.
Definition total_section (file_size : Z) : Z :=
  file_size / HTTP_BUF_SIZE + (if 0 <? file_size mod HTTP_BUF_SIZE then 1 else 0).
Definition verify_md5 (addr file_size : Z) (file_md5 buf : bytes) : PO (Z * bytes) :=
  let* o := read_sections (Z.to_nat (total_section file_size)) addr 0 file_size buf [] in
  ret (match o with
       | None => (-1, buf)
       | Some (buf, v) => (if md5 v ==? file_md5 then 0 else -1, buf)
       end).
Definition ya_verify_mcu_file_checksum (addr file_size : Z) (file_md5 buf : bytes) : PO (Z * bytes) :=
  verify_md5 addr file_size file_md5 buf.
(** The address given is replaced by the one the HAL wrote to. *)
Definition ya_verify_ota_checksum (addr file_size : Z) (file_md5 buf : bytes) : PO (Z * bytes) :=
  let* addr := get_OTA_write_data_addr in verify_md5 addr file_size file_md5 buf.

(** *** Reports *)
Definition upgrade_document (code : Z) (type : string) (cur new : bytes) : cJSON :=
  jroot [jstr "method" "thing.service.device.upgrade.report";
         jobj "data" [member "otaStep" (ya_int_to_string code); jstr "firmwareType" type; member "currentVersion" cur;
                      member "newVersion" new]].
(** Two objects, joined; [before] is what happens between building and
    printing. *)
Definition report_upgrade (code : Z) (type : string) (cur new : bytes) (before : PO unit) : PO Z :=
  let* cmd := cJSON_CreateObject in
  match cmd with
  | None => ret (-1)
  | Some _ =>
    let* data := cJSON_CreateObject in
    match data with
    | None => cJSON_Delete ;; ret (-1)
    | Some _ =>
      cJSON_AddItemToObject ;;
      before ;;
      let* a := gets fst in
      report_document (a_conn a) (upgrade_document code type cur new) ;;
      ret 0
    end
  end.
Definition ya_get_ver_string : PO bytes := let* a := gets fst in strcpy (zeros 65) (cur_version (para a)).
Definition ya_get_mcu_ver_string : PO bytes := let* a := gets fst in strcpy (zeros 65) (mcu_version (para a)).
Definition ya_report_ota_result (code : Z) : PO Z :=
  let* cur := ya_get_ver_string in
  let* v := ogets new_ota_version in
  report_upgrade code "module" (cstr cur) (cstr v) (ret tt).
Definition ya_report_mcu_ota_result (code : Z) : PO Z :=
  let* cur := ya_get_mcu_ver_string in
  let* d := dget Mcu in
  report_upgrade code "mcu" (cstr cur) (cstr (ota_ver (d_url d)))
    (when (code =? 100) (app_of (ya_set_mcu_ver_string (ota_ver (d_url d))))).

(** *** The record of a pending update *)
Definition ya_write_ota_enable_into_flash (u : url_para) : PO Z :=
  let* buf := wr (zeros 64) 0 1 in
  let* buf := memcpy buf 1 (cstr (ota_ver u)) in
  ya_write_flash YA_OTA_DATA_ADDR buf 64 1.
Definition ya_read_ota_result_from_flash : PO Z :=
  let* '(r, buf) := ya_read_flash_with_fix_len YA_OTA_DATA_ADDR (zeros 64) 64 1 in
  if negb (r =? 0) then ret (-1)
  else
    let* b0 := rd buf 0 in
    if 0 <? b0 then
      let* a := gets fst in
      let* v := strcpy (zeros 33) (cur_version (para a)) in
      oputs (set_new_version v) ;;
      let* x := rdn buf 1 VERSION_LEN in
      let* y := rdn v 0 VERSION_LEN in
      oputs (set_upload (if x ==? y then YA_NORMAL_WITH_OTA_SUCCESS else YA_NORMAL_WITH_OTA_FAILE)) ;;
      ya_write_flash YA_OTA_DATA_ADDR (zeros 64) 64 1 ;;
      ret 0
    else ret 0.

(** *** Commands *)
Definition ya_free_http_url_resource (w : which) : PO unit :=
  let* d := dget w in
  free_if (ya_http_host (d_url d)) ;; dupd w (upd_url (set_host None)) ;;
  free_if (ya_http_resource (d_url d)) ;; dupd w (upd_url (set_resource None)) ;;
  free_if (ya_http_url (d_url d)) ;; dupd w (upd_url (set_url None)).
(** Two characters into [*value], and whether both were digits. *)
Definition char_to_int (x y value : Z) : Z * bool :=
  let digit c := if (48 <=? c) && (c <=? 57) then Some (c - 48)
                 else if (65 <=? c) && (c <=? 70) then Some (c - 55)
                 else if (97 <=? c) && (c <=? 102) then Some (c - 87) else None in
  match digit x with
  | None => (value, false)
  | Some a => match digit y with Some b => (u8 (Z.shiftl a 4 + b), true) | None => (u8 (Z.shiftl a 4), false) end
  end.
(** The digest from pairs of characters, up to the first pair that is none. *)
Fixpoint md5_bytes_of (n : nat) (s md5 : bytes) : bytes * bool :=
  match n, s, md5 with
  | O, _, _ => (md5, true)
  | S n, x :: y :: s, value :: md5 =>
    let '(v, ok) := char_to_int x y value in
    if ok then let '(l, ok) := md5_bytes_of n s md5 in (v :: l, ok) else (v :: md5, false)
  | S _, _, _ => (md5, false)
  end.
(** The string value of a member; [None] is [goto err]. *)
Definition prop_text (cmd : cJSON) (k : string) : PO (option bytes) :=
  match cJSON_GetObjectItem cmd (str k) with
  | None => ret None
  | Some p => let* v := deref (valuestring p) in ret (Some (cstr v))
  end.
Definition digit_at (b : bytes) (i : Z) : PO bool := let* c := rd b i in ret ((48 <=? c) && (c <=? 57)).
(** Whether a module version may be installed over the running one:
    [Some false] for the same version. *)
Definition version_newer (ver cur : bytes) : PO (option bool) :=
  let k := len (cstr cur) - 3 in
  let* x := rdn ver 0 k in
  let* y := rdn cur 0 k in
  if negb (x ==? y) then ret None
  else
    let* ok := (let? _ := (let* d := digit_at ver k in let* e := digit_at cur k in guard (d && e)) in
                let? _ := (let* d := digit_at ver (k + 1) in let* e := digit_at cur (k + 1) in guard (d && e)) in
                let* d := digit_at ver (k + 2) in let* e := digit_at cur (k + 2) in guard (d && e)) in
    match ok with
    | None => ret None
    | Some _ =>
      let* t := app_of ya_check_enter_ota_test_mode in
      if t =? 0 then
        let new_ver := atoi (cstr (drop (Z.to_nat k) ver)) in
        let cur_ver := atoi (cstr (drop (Z.to_nat k) cur)) in
        ret (if new_ver <? cur_ver then None else Some (negb (new_ver =? cur_ver)))
      else ret (Some true)
    end.
(** A block of [n] bytes, cleared. *)
Definition alloc_zero (n : Z) : PO (option bytes) :=
  let* o := ya_hal_os_memory_alloc n in ret (match o with Some _ => Some (zeros n) | None => None end).
(** The part after the version check; [None] is [goto err]. *)
Definition require_url (w : which) (cmd : cJSON) : PO (option unit) :=
  let? url := prop_text cmd "url" in
  let n := len url + 1 in
  let* b := alloc_zero n in
  dupd w (upd_url (set_url ((fun _ => url ++ [0]) <$> b))) ;;
  let? _ := ret b in
  let* b := alloc_zero n in
  dupd w (upd_url (set_host b)) ;;
  let? _ := ret b in
  let* b := alloc_zero n in
  dupd w (upd_url (set_resource b)) ;;
  let? _ := ret b in
  let* d := dget w in
  let* '(r, u) := ya_parser_url (d_url d) in
  dupd w (upd_url (fun _ => u)) ;;
  let? _ := guard (r =? 0) in
  let? sum := prop_text cmd "md5sum" in
  let? _ := guard (negb (len sum <? 32)) in
  let '(v, ok) := md5_bytes_of 16 sum (url_md5 u) in
  dupd w (upd_url (set_md5 v)) ;;
  let? _ := guard ok in
  let? n := prop_text cmd "failRetryTimes" in
  dupd w (upd_url (fun u => set_retry (atoi n) (retry_interval u) u)) ;;
  let? i := prop_text cmd "failRetryInternal" in
  let i := atoi i in
  dupd w (upd_url (fun u => set_retry (retry_num u) (if i <=? 0 then 5 * 1000 else i32 (i * 60 * 1000)) u)) ;;
  ret (Some tt).
(** 0, -1, or [YA_HTTP_SUCCESS] for a version that runs already. *)
Definition require_body (w : which) (cur_version : bytes) (root : cJSON) : PO (option Z) :=
  let? cmd := ret (cJSON_GetObjectItem root (str "data")) in
  let? size := prop_text cmd "size" in
  dupd w (upd_url (set_size (u32 (atoi size)))) ;;
  let? version := prop_text cmd "version" in
  let? newer :=
    match w with
    | Wifi =>
      let? _ := guard (negb ((VERSION_LEN <? len version) || (len version <? 4))) in
      let* d := dget Wifi in
      let* v := strcpy (ota_ver (d_url d)) (version ++ [0]) in
      dupd Wifi (upd_url (set_ver v)) ;;
      version_newer v cur_version
    | Mcu =>
      let? _ := guard (negb (YA_MAX_MCU_VERSION_LEN <? len version)) in
      let* d := dget Mcu in
      let* v := strcpy (ota_ver (d_url d)) (version ++ [0]) in
      dupd Mcu (upd_url (set_ver v)) ;;
      ret (Some true)
    end in
  if negb newer then ret (Some YA_HTTP_SUCCESS)
  else let? _ := require_url w cmd in ret (Some 0).
(** For a version that runs already only a part of the document is deleted. *)
Definition ya_ota_require_handle (w : which) (buf : bytes) : PO Z :=
  let* cur := match w with Wifi => ya_get_ver_string | Mcu => ya_get_mcu_ver_string end in
  let* root := json_parse buf in
  match root with
  | None => ret (-1)
  | Some root =>
    let* r := require_body w cur root in
    match r with
    | Some r => if r =? YA_HTTP_SUCCESS then ret r else cJSON_Delete ;; ret r
    | None => cJSON_Delete ;; ret (-1)
    end
  end.

(** The cloud's upgrade command is queued for the task; the block is used
    unchecked. *)
Definition ya_ota_handle_command (data : bytes) (data_len : Z) : PO unit :=
  let* root := json_parse data in
  match root with
  | None => ret tt
  | Some root =>
    match cJSON_GetObjectItem root (str "data") with
    | None => cJSON_Delete
    | Some cmd =>
      let* t := prop_text cmd "firmwareType" in
      let type := match t with Some t => if t ==? str "mcu" then YA_MCU_OTA_REQUIRE else YA_WIFI_OTA_REQUIRE
                             | None => YA_WIFI_OTA_REQUIRE end in
      let* o := ya_hal_os_memory_alloc (data_len + 1) in
      let* buff := deref o in
      let* buff := memset buff 0 (data_len + 1) in
      let* v := rdn data 0 data_len in
      let* buff := memcpy buff 0 v in
      let* r := ya_hal_os_queue_send QOta (mkMsg (u16 (data_len + 1)) (Some buff) type) in
      (if negb (r =? 0) then ya_hal_os_memory_free else ret tt) ;;
      cJSON_Delete
    end
  end.
(** The upgrade event of either cloud has one listener, the function above. *)
Definition ya_ota_handle_onoffline (data : bytes) (n : Z) : PO unit :=
  if 0 <? n then
    let* e := rd data 0 in
    when (e =? 1)
      (let* up := ogets ota_result_upload_enable in
       (if up =? YA_NORMAL_WITH_OTA_SUCCESS then
          ya_report_ota_result YA_HTTP_SUCCESS ;; oputs (set_upload 0) ;;
          let* t := app_of ya_check_enter_ota_test_mode in
          when (t =? 1) (app_of (ya_cal_ota_test_num 1))
        else if up =? YA_NORMAL_WITH_OTA_FAILE then
          ya_report_ota_result YA_HTTP_OTA_FAILED ;; oputs (set_upload 0) ;;
          let* t := app_of ya_check_enter_ota_test_mode in
          when (t =? 1) (app_of (ya_cal_ota_test_num 0))
        else ret tt) ;;
       let* t := app_of ya_check_enter_ota_test_mode in
       when (t =? 1)
         (emit (EvDelay 2000) ;;
          let* url := app_of ya_get_ota_test_mode_url in
          let* url := deref url in
          ya_ota_handle_command (url ++ [0]) (u16 (len url))))
  else ret tt.

(** *** The running digest *)
(** [n] bytes at [buf + off]: 1 and -1 once the whole body has been seen; the
    context is then freed, and not used again before a reset. *)
Definition update_ota_buffer_md5 (buf : option bytes) (off n : Z) : PO Z :=
  match buf with
  | None => ret (-1)
  | Some buf =>
    let* o := ogets id in
    let g := md5_state o in
    let g := if md5_reset g then mkDigest false false [] 0 else g in
    let total := u32 (total_len g + n) in
    let ctx := if md5_init_flag g then md5_ctx g else [] in
    let* v := if 0 <? n then rdn buf off n else ret [] in
    let ctx := ctx ++ v in
    if body_len (d_resp (wifi o)) <=? total then
      oputs (set_digest (mkDigest (md5_reset g) true [] total)) ;;
      ret (if url_md5 (d_url (wifi o)) ==? md5 ctx then 1 else -1)
    else oputs (set_digest (mkDigest (md5_reset g) true ctx total)) ;; ret 0
  end.
Definition digest_part (off n : Z) : PO unit :=
  let* d := dget Wifi in
  let* r := update_ota_buffer_md5 (ota_buffer (d_mod d)) off n in
  oputs (set_check r).

(** *** Reading the answer *)
(** What a failed search left in the answer is not looked at before the next
    connection clears it. *)
Definition ya_http_header_handle (w : which) : PO Z :=
  let* d := dget w in
  let r := d_resp d in
  let* ok :=
    if parse_status r <=? 3 then
      let backup_len := if (parse_status r =? 1) || (parse_status r =? 3) then HTTP_HEADER_BAK_LEN else 0 in
      let* o := sock_read (HTTP_BUF_SIZE - backup_len) in
      match o with
      | None | Some [] => ret None
      | Some v =>
        let* buf := deref (ota_buffer (d_mod d)) in
        let* buf := memcpy buf backup_len v in
        let* buf := if backup_len =? 0 then ret buf else memcpy buf 0 (header_bak r) in
        dupd w (upd_mod (set_buffer (Some buf))) ;;
        let* p := ya_parse_http_header_response buf (u16 (len v + backup_len)) r in
        match p with
        | None => ret None
        | Some r => dupd w (upd_resp (fun _ => r)) ;; ret (Some (parse_status r))
        end
      end
    else ret (Some (parse_status r)) in
  ret (match ok with None => -1 | Some st => if 3 <? st then 1 else 0 end).

(** The first bytes of the file may be kept back; the rest of what the buffer
    holds goes to flash; [None] is [return -1]. *)
Definition body_write (w : which) : PO (option unit) :=
  let* d := dget w in
  if negb (f_read_len (d_file d) =? 0) then
    let* buf := deref (ota_buffer (d_mod d)) in
    let f := d_file d in
    let* '(f, pos) :=
      if (body_file_header_enbable f =? 0) && (body_flie_header_cur_len f <? HTTP_FILE_HEADER_LEN) then
        let room := HTTP_FILE_HEADER_LEN - body_flie_header_cur_len f in
        let n := if room <? f_read_len f then room else f_read_len f in
        let* v := rdn buf (f_header_len f) n in
        let* b := memcpy (body_file_header f) (body_flie_header_cur_len f) v in
        ret (set_hlen 0 (set_file_header b (u8 (body_flie_header_cur_len f + n))
               (set_read (f_read_len f - n) (set_pos (u32 (body_cur_pos f + n)) f))), f_header_len f + n)
      else ret (set_hlen 0 f, f_header_len f) in
    dupd w (upd_file (fun _ => f)) ;;
    if negb (f_read_len f =? 0) then
      let* r := ya_http_ota_sector_write (u32 (ota_file_addr (d_mod d) + body_cur_pos f)) (f_read_len f) buf pos in
      if r <? 0 then ret None
      else dupd w (upd_file (set_pos (u32 (body_cur_pos f + f_read_len f)))) ;; ret (Some tt)
    else ret (Some tt)
  else dupd w (upd_file (set_hlen 0)) ;; ret (Some tt).
(** Then the next piece is read, unless the file is complete. *)
Definition ya_http_body_handle (w : which) : PO Z :=
  let* ok := body_write w in
  match ok with
  | None => ret (-1)
  | Some _ =>
    let* d := dget w in
    if file_len (d_file d) <=? body_cur_pos (d_file d) then ret 1
    else
      let* o := sock_read HTTP_BUF_SIZE in
      match o with
      | None => dupd w (upd_file (set_read (-1))) ;; ret (-1)
      | Some v =>
        let* buf := deref (ota_buffer (d_mod d)) in
        let* buf := memcpy buf 0 v in
        dupd w (fun d => upd_mod (set_buffer (Some buf)) (upd_file (set_read (len v)) d)) ;; ret 0
      end
  end.
Definition ya_http_connect_server (host : bytes) (port : Z) : Z :=
  match ya_hal_get_ip_by_name host with
  | None => -1
  | Some ip => match ya_tcp_client_connect_block ip port with Some s => s | None => -1 end
  end.

(** *** The states both downloads share *)
Definition http_start (w : which) : PO unit :=
  let* d := dget w in
  match ya_http_host (d_url d), ya_http_resource (d_url d) with
  | Some _, Some _ =>
    let* ok :=
      match ota_buffer (d_mod d) with
      | Some _ => ret true
      | None =>
        let* b := ya_hal_os_memory_alloc HTTP_BUF_SIZE in
        dupd w (upd_mod (set_buffer b)) ;;
        ret (match b with Some _ => true | None => false end)
      end in
    if ok then close_socket w ;; goto w YA_HTTP_CONNECT else goto w YA_HTTP_IDLE
  | _, _ => goto w YA_HTTP_IDLE
  end.
(** Whether the server answered. *)
Definition http_connect (w : which) : PO bool :=
  dupd w (fun d => upd_mod (set_error YA_DOWNLOAD_FILE_FAILED) d) ;;
  let* d := dget w in
  let* host := deref (ya_http_host (d_url d)) in
  let s := ya_http_connect_server (cstr host) (ya_http_port (d_url d)) in
  dupd w (upd_mod (set_socket s)) ;;
  if s =? -1 then goto w YA_ERROR_HANDLE ;; ret false else goto w YA_HTTP_SEND_GET ;; ret true.
Definition get_request (u : url_para) : PO bytes :=
  let* resource := deref (ya_http_resource u) in
  let* host := deref (ya_http_host u) in
  ret (str "GET /" ++ cstr resource ++ str " HTTP/1.1" ++ [13; 10] ++ str "Host: " ++ cstr host ++ [13; 10; 13; 10]).
Definition http_send_get (w : which) : PO unit :=
  let* d := dget w in
  let* req := get_request (d_url d) in
  let* o := ya_hal_os_memory_alloc (len req + 1) in
  let* b := deref o in
  let* b := memcpy b 0 (req ++ [0]) in
  emit (EvWlan "write" [cstr b]) ;;
  (if sock_write (cstr b) <? 0 then goto w YA_ERROR_HANDLE
   else
     let* buf := deref (ota_buffer (d_mod d)) in
     let* buf := memset buf 0 HTTP_BUF_SIZE in
     dupd w (upd_mod (set_buffer (Some buf))) ;; goto w YA_HTTP_HEADER_HANDLE) ;;
  ya_hal_os_memory_free.
(** The file that is to come. *)
Definition new_file (r : resp) (enable : Z) : file :=
  mkFile (header_len r) (body_len r) (i32 (body_read_len r)) 0 0 (zeros 8) enable.
Definition http_error (w : which) (tick : Z) : PO bool :=
  close_socket w ;;
  let* d := dget w in
  free_if (ota_buffer (d_mod d)) ;; dupd w (upd_mod (set_buffer None)) ;;
  when (match w with Wifi => true | Mcu => false end)
    (oputs (fun o => let g := md5_state o in set_digest (mkDigest true (md5_init_flag g) (md5_ctx g) (total_len g)) o)) ;;
  if count (d_mod d) <? u32 (retry_num (d_url d)) then
    dupd w (upd_mod (fun m => set_retries (ya_countdown_ms tick ya_init_timer (retry_interval (d_url d))) (u32 (count m + 1))
      (set_http YA_HTTP_RETRY_WAIT m))) ;;
    ret false
  else goto w YA_HTTP_IDLE ;; ya_free_http_url_resource w ;; ret true.

(** *** One turn of the download of the module's firmware *)
(** The reads after the file while the digest is not complete; unreachable as
    long as [ya_get_download_whole_file_finish] is 0. *)
Fixpoint drain_reads (fuel : nat) : PO unit :=
  match fuel with
  | O => ret tt
  | S fuel =>
    let* o := sock_read HTTP_BUF_SIZE in
    match o with
    | None => dupd Wifi (upd_file (set_read (-1))) ;; goto Wifi YA_ERROR_HANDLE
    | Some v =>
      let* d := dget Wifi in
      let* buf := deref (ota_buffer (d_mod d)) in
      let* buf := memcpy buf 0 v in
      dupd Wifi (fun d => upd_mod (set_buffer (Some buf)) (upd_file (set_read (len v)) d)) ;;
      digest_part 0 (len v) ;;
      let* r := ogets check_md5_result in
      if r =? 1 then goto Wifi YA_HTTP_CHECKSUM
      else if r =? -1 then goto Wifi YA_ERROR_HANDLE
      else drain_reads fuel
    end
  end.
(** Every tenth of the file is reported. *)
Definition download_progress : PO unit :=
  let* d := dget Wifi in
  let f := d_file d in
  when (body_cur_pos f <? file_len f)
    (let dl := u16 (u32 (body_cur_pos f * 100) / file_len f) in
     if 10 <? dl - curdelta (d_mod d) then
       dupd Wifi (upd_mod (set_delta dl dl)) ;;
       (if YA_ERASE_FLASH_OK + dl / 2 <? YA_DOWNLOAD_OK then ya_report_ota_result (YA_ERASE_FLASH_OK + dl / 2) ;; ret tt
        else ret tt)
     else dupd Wifi (upd_mod (fun m => set_delta (curdelta m) dl m))).
Definition wifi_body : PO unit :=
  let* r := ya_http_body_handle Wifi in
  if r <? 0 then goto Wifi YA_ERROR_HANDLE
  else if 0 <? r then
    ya_report_ota_result YA_DOWNLOAD_OK ;;
    if ya_get_download_whole_file_finish =? 0 then
      let* c := ogets check_md5_result in
      if c =? 1 then goto Wifi YA_HTTP_CHECKSUM else goto Wifi YA_ERROR_HANDLE
    else let* l := ogets net in drain_reads (S (length l))
  else
    download_progress ;;
    let* d := dget Wifi in
    digest_part 0 (f_read_len (d_file d)).
Definition ya_wifi_ota_download (tick : Z) : PO unit :=
  let* d := dget Wifi in
  match ya_http_state (d_mod d) with
  | YA_HTTP_START => http_start Wifi
  | YA_HTTP_CONNECT =>
    oputs (fun o => let g := md5_state o in set_digest (mkDigest true (md5_init_flag g) (md5_ctx g) (total_len g)) o) ;;
    dupd Wifi (upd_resp (fun _ => zero_resp)) ;;
    let* v := strcpy (zeros 33) (ota_ver (d_url d)) in
    oputs (set_new_version v) ;;
    let* ok := http_connect Wifi in
    (if ok : bool then ya_report_ota_result YA_START_DOWN ;; ret tt else ret tt)
  | YA_HTTP_SEND_GET => http_send_get Wifi
  | YA_HTTP_HEADER_HANDLE =>
    let* r := ya_http_header_handle Wifi in
    if r <? 0 then goto Wifi YA_ERROR_HANDLE
    else if 0 <? r then
      let* d := dget Wifi in
      if negb (body_len (d_resp d) =? ota_size (d_url d)) then goto Wifi YA_ERROR_HANDLE
      else
        goto Wifi YA_PRE_FILE_HANDLE ;;
        ya_http_prefile_header_init ;;
        let f := new_file (d_resp d) ya_get_file_header_writer_flash_enable in
        dupd Wifi (upd_file (fun _ => f)) ;;
        digest_part (f_header_len f) (f_read_len f)
    else ret tt
  | YA_PRE_FILE_HANDLE =>
    let* r := ya_http_prefile_header_handle in
    if r <? 0 then goto Wifi YA_ERROR_HANDLE
    else if 0 <? r then goto Wifi YA_EARSE_FLASH
    else digest_part 0 (f_read_len (d_file d))
  | YA_EARSE_FLASH =>
    let* r := ya_http_ota_sector_erase (ota_file_addr (d_mod d)) (file_len (d_file d)) in
    if negb (r =? 0) then goto Wifi YA_ERROR_HANDLE
    else
      goto Wifi YA_HTTP_BODY_HANDLE ;;
      dupd Wifi (upd_mod (set_delta 0 0)) ;;
      ya_report_ota_result YA_ERASE_FLASH_OK ;; ret tt
  | YA_HTTP_BODY_HANDLE => wifi_body
  | YA_HTTP_CHECKSUM =>
    let* buf := deref (ota_buffer (d_mod d)) in
    let* '(r, buf) := ya_verify_ota_checksum (ota_file_addr (d_mod d)) (file_len (d_file d)) (url_md5 (d_url d)) buf in
    dupd Wifi (upd_mod (set_buffer (Some buf))) ;;
    if negb (r =? 0) then dupd Wifi (upd_mod (fun m => set_http YA_ERROR_HANDLE (set_error YA_CHECK_FILE_FAILED m)))
    else ya_report_ota_result YA_CHECKSUM_OK ;; goto Wifi YA_WAIT_TO_REBOOT
  | YA_ERROR_HANDLE =>
    let* over := http_error Wifi tick in
    when over
      ((if eror_code (d_mod d) <? 0 then ya_report_ota_result (eror_code (d_mod d)) ;; ret tt else ret tt) ;;
       let* t := app_of ya_check_enter_ota_test_mode in
       when (t =? 1) (app_of (ya_cal_ota_test_num 0)))
  | YA_HTTP_RETRY_WAIT =>
    when (ya_has_timer_expired tick (ya_ota_retry_timer (d_mod d)) =? 0) (goto Wifi YA_HTTP_START)
  | YA_WAIT_TO_REBOOT => emit (EvDelay 2000) ;; ya_hal_ota_done
  | YA_HTTP_IDLE | YA_NOTIFY_MCU => ret tt
  end.

(** *** One turn of the download for the controller *)
Definition ya_mcu_ota_download (tick : Z) : PO unit :=
  let* d := dget Mcu in
  match ya_http_state (d_mod d) with
  | YA_HTTP_START => http_start Mcu
  | YA_HTTP_CONNECT =>
    dupd Mcu (upd_resp (fun _ => zero_resp)) ;; let* _ := http_connect Mcu in ret tt
  | YA_HTTP_SEND_GET => http_send_get Mcu
  | YA_HTTP_HEADER_HANDLE =>
    let* r := ya_http_header_handle Mcu in
    if r <? 0 then goto Mcu YA_ERROR_HANDLE
    else if 0 <? r then
      let* d := dget Mcu in
      if negb (body_len (d_resp d) =? ota_size (d_url d)) then goto Mcu YA_ERROR_HANDLE
      else
        goto Mcu YA_EARSE_FLASH ;;
        ya_http_prefile_header_init ;;
        dupd Mcu (upd_file (fun _ => new_file (d_resp d) 1))
    else ret tt
  | YA_EARSE_FLASH =>
    let* r := ya_http_ota_sector_erase (ota_file_addr (d_mod d)) (file_len (d_file d)) in
    if negb (r =? 0) then goto Mcu YA_ERROR_HANDLE
    else goto Mcu YA_HTTP_BODY_HANDLE ;; dupd Mcu (upd_mod (set_delta 0 0))
  | YA_HTTP_BODY_HANDLE =>
    let* r := ya_http_body_handle Mcu in
    if r <? 0 then goto Mcu YA_ERROR_HANDLE
    else when (0 <? r) (goto Mcu YA_HTTP_CHECKSUM)
  | YA_HTTP_CHECKSUM =>
    let* buf := deref (ota_buffer (d_mod d)) in
    let* '(r, buf) := ya_verify_mcu_file_checksum (ota_file_addr (d_mod d)) (file_len (d_file d)) (url_md5 (d_url d)) buf in
    dupd Mcu (upd_mod (set_buffer (Some buf))) ;;
    if negb (r =? 0) then dupd Mcu (upd_mod (fun m => set_http YA_ERROR_HANDLE (set_error YA_CHECK_FILE_FAILED m)))
    else goto Mcu YA_NOTIFY_MCU
  | YA_ERROR_HANDLE =>
    let* over := http_error Mcu tick in
    when over (if eror_code (d_mod d) <? 0 then ya_report_mcu_ota_result (eror_code (d_mod d)) ;; ret tt else ret tt)
  | YA_HTTP_RETRY_WAIT =>
    when (ya_has_timer_expired tick (ya_ota_retry_timer (d_mod d)) =? 0) (goto Mcu YA_HTTP_START)
  | YA_NOTIFY_MCU =>
    emit (EvWlan "mcu_download_finish" [[ota_size (d_url d)]; cstr (ota_ver (d_url d))]) ;;
    close_socket Mcu ;;
    free_if (ota_buffer (d_mod d)) ;; dupd Mcu (upd_mod (set_buffer None)) ;;
    goto Mcu YA_HTTP_IDLE ;;
    ya_free_http_url_resource Mcu
  | YA_PRE_FILE_HANDLE | YA_WAIT_TO_REBOOT | YA_HTTP_IDLE => ret tt
  end.

(** *** The task *)
Definition ya_wifi_ota_init : PO unit :=
  oputs (set_upload 0) ;;
  close_socket Wifi ;; ya_free_http_url_resource Wifi ;;
  dupd Wifi (fun d => upd_mod (fun m => set_retries (ya_ota_retry_timer m) 0 m) (upd_url (fun _ => zero_url) d)).
Definition ya_mcu_ota_init : PO unit :=
  close_socket Mcu ;; ya_free_http_url_resource Mcu ;;
  dupd Mcu (fun d => upd_mod (fun m => set_retries (ya_ota_retry_timer m) 0 m) (upd_url (fun _ => zero_url) d)).
Definition wifi_require (m : msg) : PO unit :=
  let* d := dget Wifi in
  (if ota_file_addr (d_mod d) =? 0 then ya_report_ota_result (-1) ;; ret tt else ret tt) ;;
  ya_wifi_ota_init ;;
  let* buf := deref (m_addr m) in
  let* r := ya_ota_require_handle Wifi buf in
  if (r <? 0) || (r =? YA_HTTP_SUCCESS) then ya_free_http_url_resource Wifi ;; ya_report_ota_result r ;; ret tt
  else
    let* d := dget Wifi in
    let* r := ya_write_ota_enable_into_flash (d_url d) in
    if negb (r =? 0) then ya_report_ota_result YA_HTTP_OTA_FAILED ;; ret tt else goto Wifi YA_HTTP_START.
Definition mcu_require (m : msg) : PO unit :=
  let* d := dget Mcu in
  let* a := gets fst in
  (if (ota_file_addr (d_mod d) =? 0) || negb (mcu_ota_enable (para a)) then ya_report_mcu_ota_result (-1) ;; ret tt else ret tt) ;;
  ya_mcu_ota_init ;;
  let* buf := deref (m_addr m) in
  let* r := ya_ota_require_handle Mcu buf in
  if (r <? 0) || (r =? YA_HTTP_SUCCESS) then ya_free_http_url_resource Mcu ;; ya_report_mcu_ota_result r ;; ret tt
  else goto Mcu YA_HTTP_START.
(** From the entry of the task to its loop. *)
Definition ya_http_ota_app_init : PO unit :=
  dupd Wifi (upd_mod (fun _ => zero_module ya_get_ota_download_addr)) ;;
  dupd Mcu (upd_mod (fun _ => zero_module ya_mcu_ota_download_addr)) ;;
  ya_read_ota_result_from_flash ;;
  dupd Wifi (fun d => upd_url (fun _ => zero_url) (upd_resp (fun _ => zero_resp) d)) ;;
  dupd Mcu (fun d => upd_url (fun _ => zero_url) (upd_resp (fun _ => zero_resp) d)).
Definition ya_http_ota_app_step (tick : Z) : PO unit :=
  ya_wifi_ota_download tick ;;
  ya_mcu_ota_download tick ;;
  let* o := ya_hal_os_queue_recv QOta in
  match o with
  | None => ret tt
  | Some m =>
    (if m_type m =? YA_WIFI_OTA_REQUIRE then wifi_require m
     else if m_type m =? YA_MCU_OTA_REQUIRE then mcu_require m else ret tt) ;;
    free_if (m_addr m)
  end.
End Ota.
