(* ===== verification/OtaProofs.v ===== *)
(** * The OTA update keeps its promises *)

From stdpp Require Import base numbers list strings.
From S2P Require Import Prelude Platform SpiFlash Flash CommonFunc HalTimer CJson SysTime.
From S2P Require Import DeviceTimer License MainQueue Cloud UserData AppMain Aes OtaHttp Ota.

(** ** The flash side *)

(** The package is kept in whole sectors. *)
Definition package_room (size : Z) : Z := sectors size * 4096.
(** Where a package of [size] bytes goes in a partition: below its last two
    sectors. *)
Definition package_addr (addr n size : Z) : Z := addr + n - package_room size - 8192.
(** A partition and a package that fits into it. *)
Definition partition_ok (addr n size : Z) : Prop :=
  0 <= addr /\ addr mod 4096 = 0 /\ 0 <= n /\ n mod 4096 = 0 /\ addr + n < 4294967296 /\
  0 < size /\ package_room size + 8192 <= n.

Section HalProofs.
Context {C : Type} `{NorChipLaws C, !NorReliable C}.
Context `{CloudEnv} `{JsonText} `{BlockCipher} `{OtaEnv}.

Lemma otaHal_init_ok addr n size a o (h : hw C) : partition_ok addr n size -> partion_info_get = Some (addr, n) ->
  exists c, otaHal_init ((a, o), h) = Done 0 ((a, set_info (mkInfo 1 0 addr (addr + n) 0 n 0) o), set_chip c h) /\
    erased (chip h) c addr n.
Proof.
  intros (Hz&Ha&Hn&Hn4&Hr&_) Hp. unfold otaHal_init. rewrite Hp. cbn.
  destruct (hal_spiflash_erase_whole (chip h) addr n) as (c&Ec&He); [done..|]. rewrite Ec.
  exists c. split; [|done]. cbn. rewrite u32_small by (unfold is_u32; lia). by destruct o.
Qed.

(** The bookkeeping once [dn] is in flash. *)
Definition hal_at (addr n size : Z) (dn : bytes) : ota_info :=
  match dn with
  | [] => mkInfo 1 0 addr (addr + n) 0 n 0
  | _ => mkInfo 1 1 (package_addr addr n size) (addr + n) (len dn) n size
  end.
(** A first piece starts with the package's header, which holds its size. *)
Definition first_piece (size : Z) (piece : bytes) : Prop := 64 <= len piece /\ of_le32 (slice piece 8 4) = size.

Lemma hal_at_app addr n size dn x piece : hal_at addr n size (dn ++ x :: piece)
  = mkInfo 1 1 (package_addr addr n size) (addr + n) (len (dn ++ x :: piece)) n size.
Proof. by destruct dn. Qed.

Lemma first_frame_ok addr n size piece buf pre post a o (h : hw C) :
  partition_ok addr n size -> first_piece size piece -> buf = pre ++ piece ++ post -> len piece < 65536 ->
  hal_info o = hal_at addr n size [] ->
  first_frame buf (len pre) (len piece) ((a, o), h)
  = Done (Some tt) ((a, set_info (mkInfo 1 1 (package_addr addr n size) (addr + n) 0 n size) o), h).
Proof.
  intros (Hz&Ha&Hn&Hn4&Hr&Hs&Hroom) [H64 Hsz] Hb Hl Ho. unfold first_frame, SIZEOF_OTA_PKG_HEADER.
  destruct (Z.ltb_spec (len piece) 64); [lia|].
  erewrite bind_done.
  2:{ eapply (rdn_at _ (pre ++ slice piece 0 8) (slice piece 8 4) (drop 12 piece ++ post)).
      - rewrite Hb, <- app_assoc. f_equal. rewrite !app_assoc. f_equal. unfold slice.
        change (Z.to_nat 8) with 8%nat. change (Z.to_nat 0) with 0%nat. change (Z.to_nat 4) with 4%nat. rewrite drop_0.
        rewrite <- (take_drop 8 piece) at 1. rewrite <- app_assoc. f_equal.
        rewrite <- (take_drop 4 (drop 8 piece)) at 1. by rewrite drop_drop.
      - rewrite len_app, len_slice by lia. done.
      - by rewrite len_slice by lia. }
  rewrite Hsz. unfold ogets, oputs, gets, puts. unfold bind at 1. cbn [snd]. rewrite Ho. cbn [hal_at max_len i_init s_addr e_addr i_offset].
  pose proof (sectors_bounds size ltac:(lia)) as Hsb. unfold package_room in *.
  assert (Et : (if negb (size mod OTA_STAT_PART_SIZE =? 0) then u32 (size + OTA_STAT_PART_SIZE - size mod OTA_STAT_PART_SIZE) else size)
    = sectors size * 4096).
  { unfold OTA_STAT_PART_SIZE. change (4 * 1024) with 4096. unfold sectors. pose proof (Z_div_mod_eq_full size 4096).
    pose proof (Z.mod_pos_bound size 4096). zbool; try lia; cbn [negb]; try lia. rewrite u32_small by (unfold is_u32; lia). lia. }
  rewrite Et. unfold OTA_STAT_PART_SIZE. change (2 * (4 * 1024)) with 8192.
  rewrite !u32_small by (unfold is_u32; lia). destruct (Z.ltb_spec n (sectors size * 4096 + 8192)); [lia|].
  unfold package_addr, package_room. cbn. by destruct o.
Qed.

Lemma otaHal_write_ok addr n size ce dn piece buf pre post a o (h : hw C) :
  partition_ok addr n size -> piece <> [] -> (dn = [] -> first_piece size piece) -> buf = pre ++ piece ++ post ->
  len piece < 65536 -> is_bytes piece -> len dn + len piece <= size ->
  hal_info o = hal_at addr n size dn -> programmed ce (chip h) (package_addr addr n size) dn ->
  exists c, otaHal_write buf (len pre) (len piece) ((a, o), h)
    = Done 0 ((a, set_info (hal_at addr n size (dn ++ piece)) o), set_chip c h) /\
    programmed ce c (package_addr addr n size) (dn ++ piece).
Proof.
  intros Hp Hne Hfirst Hb Hl Hby Hsz Ho Hpr. pose proof (len_nonneg dn). pose proof (len_nonneg piece).
  destruct piece as [|x piece]; [done|]. rewrite hal_at_app. pose proof Hp as (Hz&Ha&Hn&Hn4&Hr&Hs&Hroom).
  pose proof (sectors_bounds size ltac:(lia)) as Hsb. set (dst := package_addr addr n size) in *.
  assert (Hdst : 0 <= dst /\ dst + size < 4294967296) by (unfold dst, package_addr, package_room in *; lia).
  destruct (spi_write_spec (chip h) (dst + len dn) (x :: piece)) as (c&Ec&Hc); [lia|lia|done|].
  exists c. split; [|by eapply programmed_app].
  unfold otaHal_write. rewrite u16_small by (unfold is_u16; lia).
  set (i1 := mkInfo 1 1 dst (addr + n) (len dn) n size).
  assert (Hok : bind (if get_first_frame (hal_info o) =? 0 then first_frame buf (len pre) (len (x :: piece)) else ret (Some tt))
      (fun ok => ret ok) ((a, o), h) = Done (Some tt) ((a, set_info i1 o), h)).
  { rewrite Ho. destruct dn as [|y dn].
    - cbn [hal_at get_first_frame Z.eqb]. by rewrite (bind_done _ _ _ _ _ (first_frame_ok addr n size _ buf pre post a o h Hp (Hfirst eq_refl) Hb Hl Ho)).
    - cbn. destruct o. cbn in Ho. by rewrite Ho. }
  unfold ogets at 1, gets at 1. unfold bind at 1. cbn [snd]. erewrite bind_done.
  2:{ destruct (get_first_frame (hal_info o) =? 0); unfold bind in Hok.
      - destruct (first_frame _ _ _ _); [|done|done]. by injection Hok as -> ->.
      - by injection Hok as ->. }
  cbn beta iota. unfold ogets, gets. unfold bind at 1. cbn [snd hal_info set_info].
  cbn [i1 data_len i_offset s_addr]. rewrite !u32_small by (unfold is_u32; lia).
  destruct (Z.ltb_spec size (len dn + len (x :: piece))); [lia|].
  erewrite bind_done by (by eapply (rdn_at _ pre (x :: piece) post)). cbn. rewrite Ec.
  rewrite len_app. by destruct o.
Qed.

(** Data programmed into an erased area reads back. *)
Lemma programmed_reads (ce c : C) dst (b : bytes) : is_bytes b -> (forall x, dst <= x < dst + len b -> nor_read ce x = 255) ->
  programmed ce c dst b -> nor_bytes c dst (len b) = b.
Proof.
  intros Hb He Hp. apply nor_bytes_eq. intros i v Hv. pose proof (lookup_lt_Some _ _ _ Hv).
  rewrite (Hp _). rewrite bool_decide_eq_true_2 by (unfold len; lia). rewrite He by (unfold len; lia).
  replace (Z.to_nat (dst + Z.of_nat i - dst)) with i by lia. rewrite (list_lookup_total_correct _ _ _ Hv).
  apply land_ff. by eapply Forall_lookup_1 in Hv.
Qed.

Lemma read_sections_ok k addr cur size buf acc a o (h : hw C) :
  0 <= addr -> 0 <= cur <= size -> addr + size < 4294967296 -> 4096 <= len buf ->
  (0 < k)%nat -> cur + (Z.of_nat k - 1) * 4096 < size <= cur + Z.of_nat k * 4096 ->
  exists buf', read_sections k addr cur size buf acc ((a, o), h)
    = Done (Some (buf', acc ++ nor_bytes (chip h) (addr + cur) (size - cur))) ((a, o), h) /\ len buf' = len buf.
Proof.
  revert cur buf acc. induction k as [|k IH]; intros cur buf acc Ha Hc Hr Hb Hk Hs; [lia|].
  cbn [read_sections]. rewrite u32_small by (unfold is_u32; lia).
  set (rl := match k with O => size - cur | _ => HTTP_BUF_SIZE end).
  assert (Hrl : 0 <= rl <= 4096 /\ cur + rl <= size /\ (k = O -> rl = size - cur) /\ ((0 < k)%nat -> rl = 4096)).
  { unfold rl, HTTP_BUF_SIZE. destruct k; split_and!; lia. }
  destruct Hrl as (Hrl&Hle&Hrl0&Hrl1).
  erewrite bind_done by (unfold ya_hal_flash_read; rewrite hal_read_eq by lia; reflexivity). cbn [negb Z.eqb].
  erewrite bind_done by (apply memcpy_ok; rewrite ?len_nor_bytes by lia; lia).
  set (buf1 := splice buf 0 _). assert (Hb1 : len buf1 = len buf) by (apply len_splice; rewrite ?len_nor_bytes by lia; lia).
  destruct k as [|k].
  - exists buf1. split; [|done]. cbn [read_sections]. unfold ret. by rewrite Hrl0.
  - destruct (IH (cur + rl) buf1 (acc ++ nor_bytes (chip h) (addr + cur) rl)) as (buf'&E&El); [lia..|].
    exists buf'. split; [|lia]. rewrite E, <- app_assoc.
    replace (addr + (cur + rl)) with (addr + cur + rl) by lia. rewrite <- nor_bytes_app by lia.
    by replace (rl + (size - (cur + rl))) with (size - cur) by lia.
Qed.
Lemma total_section_bounds size : 0 < size -> 0 < total_section size /\ (total_section size - 1) * 4096 < size <= total_section size * 4096.
Proof.
  intros Hs. unfold total_section, HTTP_BUF_SIZE. pose proof (Z_div_mod_eq_full size 4096).
  pose proof (Z.mod_pos_bound size 4096). zbool; lia.
Qed.

(** The check reads what is in flash. *)
Lemma verify_md5_ok addr size sum buf a o (h : hw C) :
  0 <= addr -> 0 <= size -> addr + size < 4294967296 -> 4096 <= len buf ->
  exists buf', verify_md5 addr size sum buf ((a, o), h)
    = Done (if md5 (nor_bytes (chip h) addr size) ==? sum then 0 else -1, buf') ((a, o), h) /\ len buf' = len buf.
Proof.
  intros Ha Hs Hr Hb. unfold verify_md5. destruct (Z.eq_dec size 0) as [->|].
  { exists buf. by split. }
  destruct (total_section_bounds size) as [Ht Htb]; [lia|].
  destruct (read_sections_ok (Z.to_nat (total_section size)) addr 0 size buf [] a o h) as (buf'&E&El); [lia..|].
  exists buf'. split; [|done]. rewrite (bind_done _ _ _ _ _ E). rewrite Z.add_0_r, Z.sub_0_r. done.
Qed.
End HalProofs.

(** ** Reports *)
Section Reports.
Context {C : Type} `{NorChip C} `{CloudEnv} `{JsonText} `{BlockCipher} `{OtaEnv}.

(** A version string that fits its readers. *)
Definition version_ok (a : app) : Prop := 0 ∈ cur_version (para a) /\ len (cstr (cur_version (para a))) <= 64.

Lemma wp_report_ota code Q R a o (h : hw C) : version_ok a -> heap h = [] ->
  (forall r h', talked 0 h h' -> Q r ((a, o), h')) -> wp (ya_report_ota_result code) Q R ((a, o), h).
Proof.
  intros [Hz Hl] Hh HQ. unfold ya_report_ota_result, ya_get_ver_string. wstep. wstep. apply wp_gets. cbn [fst].
  eapply wp_done; [apply strcpy_zeros; [done|lia]|]. wstep. apply wp_gets. cbn [snd fst].
  unfold report_upgrade. wstep. apply wp_talk_create. intros [[]|] h1 T1; [|by apply wp_ret, HQ].
  wstep. apply wp_talk_create. intros [[]|] h2 T2; pose proof (talked_trans _ _ _ _ _ T1 T2) as T12; clear T1 T2.
  - wstep. apply wp_upd_hw. wstep. apply wp_ret. wstep. apply wp_gets. cbn [fst]. wstep. apply wp_talk_document; [by apply talked_fields in T12 as (_&_&_&T12&_); apply T12|done|]. intros h3 T3.
    apply wp_ret, HQ. by eapply talked_eq; [exact (talked_trans _ _ _ _ _ T12 (talked_trans _ _ _ _ _ (talked_blocks (-1) h2) T3))|].
  - wstep. apply wp_upd_hw. apply wp_ret, HQ. by eapply talked_eq; [exact (talked_trans _ _ _ _ _ T12 (talked_blocks (-1) h2))|].
Qed.
End Reports.

(** ** Receiving the file *)
Section Download.
Context {C : Type} `{NorChipLaws C, !NorReliable C}.
Context `{CloudEnv} `{JsonText} `{BlockCipher} `{OtaEnv}.
Context (a : app) (addr n : Z) (image : bytes) (u : url_para) (c0 : C).
Context (Hpart : partition_ok addr n (len image)) (Hinfo : partion_info_get = Some (addr, n)).
Context (Hbytes : is_bytes image) (Hsum : md5 image = url_md5 u) (Hver : version_ok a).

(** A chip with an erased partition. *)
Definition cleared (ce : C) : Prop := erased c0 ce addr n.
Definition pieces_ok (rest : list bytes) : Prop := Forall (fun p => 0 < len p <= 4096) rest.
(** The first bytes to come hold the package's header. *)
Fixpoint header_first (l : list bytes) : Prop :=
  match l with
  | [] => False
  | [] :: l => header_first l
  | p :: _ => first_piece (len image) p
  end.

(** The digest has seen [dn]; with nothing to come it has matched. *)
Definition digest_of (dn : bytes) (rest : list bytes) (o : ota) : Prop :=
  match rest with
  | [] => check_md5_result o = 1
  | _ => md5_state o = mkDigest false true dn (len dn)
  end.
(** The file with [dn] written, [piece] in the buffer and [rest] to come. *)
Definition part_file (hl : Z) (dn piece : bytes) : file := mkFile hl (len image) (len piece) (len dn) 0 (zeros 8) 1.
Record file_at (st : http_state) (dn piece : bytes) (rest : list bytes) (o : ota) : Prop := {
  f_state : ya_http_state (d_mod (wifi o)) = st;
  f_url : d_url (wifi o) = u;
  f_len : body_len (d_resp (wifi o)) = len image;
  f_buffer : exists pre post, ota_buffer (d_mod (wifi o)) = Some (pre ++ piece ++ post) /\ len (pre ++ piece ++ post) = 4096 /\
    d_file (wifi o) = part_file (len pre) dn piece;
  f_net : net o = Some <$> rest;
  f_image : image = dn ++ piece ++ concat rest;
  f_pieces : pieces_ok rest;
  f_first : dn = [] -> header_first (piece :: rest);
  f_digest : digest_of (dn ++ piece) rest o;
}.
Definition in_flash (c : C) (dn : bytes) : Prop :=
  exists ce, cleared ce /\ programmed ce c (package_addr addr n (len image)) dn.
Record body_at (dn piece : bytes) (rest : list bytes) (o : ota) (h : hw C) : Prop := {
  b_file : file_at YA_HTTP_BODY_HANDLE dn piece rest o;
  b_info : hal_info o = hal_at addr n (len image) dn;
  b_flash : in_flash (chip h) dn;
  b_heap : heap h = [];
}.
(** The whole file is in flash. *)
Record stored_at (st : http_state) (o : ota) (h : hw C) : Prop := {
  s_state : ya_http_state (d_mod (wifi o)) = st;
  s_url : d_url (wifi o) = u;
  s_buffer : exists buf, ota_buffer (d_mod (wifi o)) = Some buf /\ len buf = 4096;
  s_file : file_len (d_file (wifi o)) = len image;
  s_info : hal_info o = hal_at addr n (len image) image;
  s_flash : in_flash (chip h) image;
  s_heap : heap h = [];
}.

Lemma image_size : 0 < len image < 4294967296 /\ 0 <= package_addr addr n (len image) /\ addr <= package_addr addr n (len image) /\
  package_addr addr n (len image) + len image <= addr + n - 8192.
Proof.
  destruct Hpart as (Hz&Ha&Hn&Hn4&Hr&Hs&Hroom). pose proof (sectors_bounds (len image) (len_nonneg _)).
  unfold package_addr, package_room in *. lia.
Qed.

(** The state after [dn] has been written. *)
Definition kept (dn piece : bytes) (o : ota) : ota :=
  set_info (hal_at addr n (len image) dn) (set_wifi (upd_file (fun _ => part_file 0 dn piece) (wifi o)) o).
(** The state with the next piece read into the buffer. *)
Definition fetched (dn p b : bytes) (rest : list bytes) (o : ota) : ota :=
  set_net (Some <$> rest) (set_wifi (upd_mod (set_buffer (Some (p ++ drop (length p) b)))
    (upd_file (fun _ => part_file 0 dn p) (wifi o))) o).

Lemma wp_body_write dn piece rest o h Q R : body_at dn piece rest o h ->
  (forall c, in_flash c (dn ++ piece) -> Q (Some tt) ((a, kept (dn ++ piece) piece o), set_chip c h)) ->
  wp (body_write Wifi) Q R ((a, o), h).
Proof.
  intros [[Hst Hu Hl (pre&post&Hbuf&Hblen&Hf) Hnet Him Hpc Hfirst Hd] Hi (ce&Hce&Hpr) _] HQ.
  pose proof image_size as Hsz. pose proof (len_nonneg pre). pose proof (len_nonneg post). pose proof (len_nonneg piece).
  rewrite !len_app in Hblen. assert (Hbp : is_bytes piece).
  { rewrite Him in Hbytes. apply is_bytes_app in Hbytes as [_ Hb]. by apply is_bytes_app in Hb as []. }
  assert (Hle : len dn + len piece <= len image).
  { rewrite Him, !len_app. pose proof (len_nonneg (concat rest)). lia. }
  unfold body_write. wstep. apply wp_gets. cbn [snd fst]. rewrite Hbuf, Hf.
  destruct piece as [|x piece].
  - cbn [f_read_len part_file]. change (len [] =? 0) with true. cbn [negb].
    wstep. apply wp_puts, wp_ret. rewrite app_nil_r in HQ. specialize (HQ (chip h) ltac:(by exists ce)).
    unfold kept in HQ. destruct o as [[r u' f m] mc up nv g chk info nt], h. cbn in *. by rewrite Hi, Hf in *.
  - cbn [part_file f_read_len]. pose proof (len_nonneg piece). pose proof (len_nonneg dn). rewrite len_cons in *.
    destruct (Z.eqb_spec (len piece + 1) 0); [lia|]. cbn [negb]. wstep. eapply wp_deref; [done|].
    cbn [body_file_header_enbable part_file f_header_len andb Z.eqb]. wstep. apply wp_ret. wstep. apply wp_puts.
    cbn [set_hlen f_read_len body_cur_pos part_file]. rewrite len_cons.
    destruct (Z.eqb_spec (len piece + 1) 0); [lia|]. cbn [negb].
    rewrite <- len_cons with (x := x).
    destruct (otaHal_write_ok addr n (len image) ce dn (x :: piece) (pre ++ (x :: piece) ++ post) pre post a
      (set_wifi (upd_file (fun _ => part_file 0 dn (x :: piece)) (wifi o)) o) h) as (c&Ew&Hw);
      try done; try (rewrite len_cons; lia).
    wstep. eapply wp_done; [exact Ew|]. change (0 <? 0) with false. cbn iota. wstep. apply wp_puts, wp_ret.
    specialize (HQ c ltac:(by exists ce)). rewrite u32_small by (rewrite len_cons; unfold is_u32; lia).
    unfold kept, part_file in HQ. rewrite (len_app dn) in HQ. by destruct o.
Qed.
Lemma wp_body_handle dn piece rest o h Q R : body_at dn piece rest o h ->
  (forall c b, in_flash c (dn ++ piece) -> ota_buffer (d_mod (wifi o)) = Some b -> len b = 4096 ->
    match rest with
    | [] => Q 1 ((a, kept (dn ++ piece) piece o), set_chip c h)
    | p :: rest => Q 0 ((a, fetched (dn ++ piece) p b rest (kept (dn ++ piece) piece o)), set_chip c h)
    end) ->
  wp (ya_http_body_handle Wifi) Q R ((a, o), h).
Proof.
  intros Hb HQ. unfold ya_http_body_handle. wstep. eapply wp_body_write; [exact Hb|]. intros c Hc.
  destruct Hb as [[Hst Hu Hl (pre&post&Hbuf&Hblen&Hf) Hnet Him Hpc Hfirst Hd] Hi _].
  specialize (HQ c _ Hc Hbuf Hblen). cbn beta iota. wstep. apply wp_gets.
  cbn [snd fst kept wifi set_info set_wifi upd_file d_file part_file file_len body_cur_pos].
  assert (Hlen : len image = len (dn ++ piece) + len (concat rest)) by (by rewrite Him at 1; rewrite app_assoc, len_app).
  destruct rest as [|p rest].
  - change (len (concat [])) with 0 in Hlen. destruct (Z.leb_spec (len image) (len (dn ++ piece))); [|lia]. by apply wp_ret.
  - apply Forall_cons in Hpc as [Hp _]. cbn [concat] in Hlen. rewrite (len_app p) in Hlen.
    pose proof (len_nonneg (concat rest)). destruct (Z.leb_spec (len image) (len (dn ++ piece))); [lia|]. wstep. unfold sock_read. wstep. apply wp_gets.
    cbn [snd fst net kept set_info set_wifi]. rewrite Hnet. cbn [fmap list_fmap]. wstep. apply wp_puts, wp_ret.
    cbn [fmap option_fmap option_map]. rewrite take_ge by (unfold HTTP_BUF_SIZE, len in *; lia).
    cbn [d_mod wifi kept set_info set_wifi upd_file]. wstep. eapply wp_deref; [exact Hbuf|]. wstep. wstep. wstep. apply wp_puts, wp_ret.
    unfold fetched in HQ. unfold splice. by destruct o.
Qed.

(** *** The running digest *)
Definition digest_at (dn : bytes) (g : digest) : Prop :=
  (md5_reset g = true /\ dn = []) \/ g = mkDigest false true dn (len dn).
Lemma concat_pos rest : pieces_ok rest -> 0 <= len (concat rest) /\ (rest <> [] -> 0 < len (concat rest)).
Proof.
  intros Hr. split; [apply len_nonneg|]. destruct Hr as [|p rest Hp]; [done|]. intros _. cbn [concat].
  rewrite len_app. pose proof (len_nonneg (concat rest)). lia.
Qed.
Lemma wp_digest_part dn piece rest pre post o (h : hw C) Q R :
  digest_at dn (md5_state o) -> d_url (wifi o) = u -> body_len (d_resp (wifi o)) = len image ->
  ota_buffer (d_mod (wifi o)) = Some (pre ++ piece ++ post) -> image = dn ++ piece ++ concat rest -> pieces_ok rest ->
  (forall g k, let o' := set_check k (set_digest g o) in digest_of (dn ++ piece) rest o' -> Q tt ((a, o'), h)) ->
  wp (digest_part (len pre) (len piece)) Q R ((a, o), h).
Proof.
  intros Hg Hu Hl Hb Him Hr HQ. pose proof image_size as (Hsz&_). destruct (concat_pos rest Hr) as [Hc0 Hc1].
  assert (Hlen : len image = len dn + len piece + len (concat rest)) by (rewrite Him at 1; rewrite !len_app; lia).
  pose proof (len_nonneg dn). pose proof (len_nonneg piece).
  unfold digest_part, update_ota_buffer_md5. wstep. apply wp_gets. cbn [snd fst]. rewrite Hb. wstep. wstep. apply wp_gets. cbn [snd fst id].
  set (g := if md5_reset (md5_state o) then mkDigest false false [] 0 else md5_state o).
  assert (Hg' : total_len g = len dn /\ (if md5_init_flag g then md5_ctx g else []) = dn /\ md5_reset g = false).
  { unfold g. destruct Hg as [[-> ->]| ->]; done. }
  destruct Hg' as (->&->&->). rewrite u32_small by (unfold is_u32; lia).
  assert (Hv : forall Q', Q' piece ((a, o), h) -> wp (if 0 <? len piece then rdn (pre ++ piece ++ post) (len pre) (len piece) else ret []) Q' R ((a, o), h)).
  { intros Q' HQ'. destruct (Z.ltb_spec 0 (len piece)).
    - eapply wp_done; [by eapply (rdn_at _ pre piece post)|done].
    - destruct piece; [by apply wp_ret|]. rewrite len_cons in *. pose proof (len_nonneg piece). lia. }
  wstep. apply Hv. rewrite Hl. destruct (Z.leb_spec (len image) (len dn + len piece)).
  - assert (rest = []) as -> by (destruct rest; [done|]; specialize (Hc1 ltac:(done)); lia).
    wstep. apply wp_puts, wp_ret, wp_puts. assert (E : url_md5 (d_url (wifi o)) ==? md5 (dn ++ piece) = true).
    { apply bool_decide_true. rewrite Hu, <- Hsum. rewrite Him at 1. cbn [concat]. by rewrite app_nil_r. }
    rewrite E. by apply HQ.
  - wstep. apply wp_puts, wp_ret, wp_puts. apply HQ. destruct rest; [change (len (concat [])) with 0 in *; lia|].
    unfold digest_of. cbn. by rewrite len_app.
Qed.

(** *** One turn with a piece *)
Lemma wp_progress o (h : hw C) Q R : version_ok a -> heap h = [] ->
  (forall m' h', chip h' = chip h -> heap h' = [] -> ya_http_state m' = ya_http_state (d_mod (wifi o)) -> ota_buffer m' = ota_buffer (d_mod (wifi o)) ->
     Q tt ((a, set_wifi (upd_mod (fun _ => m') (wifi o)) o), h')) ->
  wp download_progress Q R ((a, o), h).
Proof.
  intros Hv Hh HQ. unfold download_progress. wstep. apply wp_gets. cbn [snd fst]. cbv zeta. unfold when. wstep.
  - wstep.
    + wstep. apply wp_puts. cbn beta iota. wstep.
      * wstep. apply wp_report_ota; [done..|]. intros _ h' T. apply wp_ret. apply talked_fields in T as (_&_&Ec&Eh&_). apply (HQ _ h' Ec (Eh Hh)); done.
      * apply wp_ret. apply (HQ _ h); done.
    + apply wp_puts. apply (HQ _ h); done.
  - apply wp_ret. specialize (HQ (d_mod (wifi o)) h eq_refl Hh eq_refl eq_refl). by destruct o as [[] ? ? ? ? ? ? ?].
Qed.

Lemma drop_in p (b : bytes) : len p <= 4096 -> len b = 4096 -> len (p ++ drop (length p) b) = 4096.
Proof. intros Hp Hb. unfold len in *. rewrite length_app, length_drop. lia. Qed.

Lemma wp_body_turn tick dn piece rest o (h : hw C) Q R : body_at dn piece rest o h ->
  (forall o' h', match rest with
     | [] => stored_at YA_HTTP_CHECKSUM o' h'
     | p :: rest => body_at (dn ++ piece) p rest o' h'
     end -> Q tt ((a, o'), h')) ->
  wp (ya_wifi_ota_download tick) Q R ((a, o), h).
Proof.
  intros Hb HQ. pose proof Hb as [[Hst Hu Hl _ Hnet Him Hpc Hfirst Hd] Hi _ Hh].
  unfold ya_wifi_ota_download. wstep. apply wp_gets. cbn [snd fst]. rewrite Hst. unfold wifi_body. wstep.
  eapply wp_body_handle; [exact Hb|]. intros c b Hc Hbuf Hblen. destruct rest as [|p rest].
  - cbn [Z.ltb Z.compare Pos.compare Pos.compare_cont]. wstep. apply wp_report_ota; [done..|]. intros _ h1 T1.
    apply talked_fields in T1 as (_&_&Ec&Eh&_). cbn [ya_get_download_whole_file_finish Z.eqb]. wstep. apply wp_gets.
    cbn [snd fst kept set_info set_wifi check_md5_result]. rewrite Hd. cbn [Z.eqb Pos.eqb]. apply wp_puts, HQ.
    cbn [concat] in Him. rewrite app_nil_r in Him. rewrite <- Him in *.
    constructor; try done; [by exists b|by rewrite Ec|by apply Eh].
  - cbn [Z.ltb Z.compare]. wstep. apply wp_progress; [done..|]. intros m' h1 Ec Eh Hs' Hb'. wstep. apply wp_gets. cbn [snd fst].
    apply Forall_cons in Hpc as [Hp Hpc].
    set (o1 := set_wifi (upd_mod (fun _ => m') (wifi (fetched (dn ++ piece) p b rest (kept (dn ++ piece) piece o))))
      (fetched (dn ++ piece) p b rest (kept (dn ++ piece) piece o))).
    assert (Hf1 : d_file (wifi o1) = part_file 0 (dn ++ piece) p) by done. rewrite Hf1. cbn [f_read_len part_file].
    change 0 with (len []). eapply (wp_digest_part (dn ++ piece) p rest [] (drop (length p) b) o1); try done.
    + right. exact Hd.
    + cbn [concat] in Him. by rewrite Him, <- app_assoc.
    + intros g k o' Hg. apply HQ. constructor; [constructor; try done|done|by rewrite Ec|done].
      * by rewrite <- Hst.
      * exists [], (drop (length p) b). split; [done|]. split; [|done]. apply drop_in; [lia|done].
      * cbn [concat] in Him. by rewrite Him, <- app_assoc.
      * intros [-> ->]%app_nil. exact (Hfirst eq_refl).
Qed.

(** *** The check and the restart *)
Lemma stored_reads st o (h : hw C) : stored_at st o h -> nor_bytes (chip h) (package_addr addr n (len image)) (len image) = image.
Proof.
  intros [_ _ _ _ _ (ce&Hce&Hpr) _]. pose proof image_size. eapply programmed_reads; [done| |exact Hpr].
  intros x Hx. rewrite (Hce x). by rewrite bool_decide_eq_true_2 by lia.
Qed.
Lemma hal_at_image : hal_at addr n (len image) image
  = mkInfo 1 1 (package_addr addr n (len image)) (addr + n) (len image) n (len image).
Proof.
  assert (Hne : forall b, 0 < len b -> hal_at addr n (len b) b = mkInfo 1 1 (package_addr addr n (len b)) (addr + n) (len b) n (len b))
    by (by intros [] ?). apply Hne, image_size.
Qed.

Lemma wp_checksum_turn tick o (h : hw C) Q R : stored_at YA_HTTP_CHECKSUM o h ->
  (forall o' h', stored_at YA_WAIT_TO_REBOOT o' h' -> Q tt ((a, o'), h')) ->
  wp (ya_wifi_ota_download tick) Q R ((a, o), h).
Proof.
  intros Hs HQ. pose proof image_size. pose proof (stored_reads _ _ _ Hs) as Hread. destruct Hs as [Hst Hu (buf&Hb&Hbl) Hf Hi Hfl Hh].
  destruct Hpart as (_&_&_&_&Hr&_).
  unfold ya_wifi_ota_download. wstep. apply wp_gets. cbn [snd fst]. rewrite Hst. wstep. eapply wp_deref; [done|].
  rewrite Hf, Hu. wstep. unfold ya_verify_ota_checksum, get_OTA_write_data_addr. wstep. wstep. apply wp_gets. cbn [snd fst].
  apply wp_ret. rewrite Hi, hal_at_image. cbn [s_addr].
  destruct (verify_md5_ok (package_addr addr n (len image)) (len image) (url_md5 u) buf a o h) as (buf'&E&El); [lia..|].
  eapply wp_done; [exact E|]. rewrite Hread, bool_decide_true by done. cbn beta iota. wstep. apply wp_puts. cbn [Z.eqb negb].
  wstep. apply wp_report_ota; [done..|]. intros _ h1 T1. apply talked_fields in T1 as (_&_&Ec&Eh&_). apply wp_puts, HQ.
  constructor; try done; [|by rewrite Ec|by apply Eh]. exists buf'. split; [done|lia].
Qed.

Definition boot_record : bytes := ota_state (hal_at addr n (len image) image).
(** What the boot loader finds after the restart. *)
Definition ready_to_boot (c : C) : Prop :=
  nor_bytes c (package_addr addr n (len image)) (len image) = image /\
  nor_bytes c (addr + n - 8192) 24 = boot_record /\ nor_bytes c (addr + n - 4096) 24 = boot_record /\
  forall x, x < addr \/ addr + n <= x -> nor_read c x = nor_read c0 x.

Lemma is_bytes_record : is_bytes boot_record.
Proof. repeat constructor; try apply u8_range; unfold is_u8; lia. Qed.

Lemma wp_reboot_turn tick o (h : hw C) Q (R : _ -> Prop) : stored_at YA_WAIT_TO_REBOOT o h ->
  (forall o' h', ready_to_boot (chip h') -> R ((a, o'), h')) ->
  wp (ya_wifi_ota_download tick) Q R ((a, o), h).
Proof.
  intros Hs HR. pose proof image_size as (Hsz&Hd0&Hda&Hde). pose proof (stored_reads _ _ _ Hs) as Hread.
  destruct Hs as [Hst Hu (buf&Hb&Hbl) Hf Hi (ce&Hce&Hpr) _]. destruct Hpart as (Hz&Ha&Hn&Hn4&Hr&_).
  unfold ya_wifi_ota_download. wstep. apply wp_gets. cbn [snd fst]. rewrite Hst. wstep. apply wp_upd_hw.
  unfold ya_hal_ota_done, otaHal_done. wstep. apply wp_gets. cbn [snd fst]. wstep. rewrite Hi. fold boot_record. rewrite hal_at_image. cbn [data_len i_offset e_addr].
  destruct (Z.eqb_spec (len image) 0); [lia|]. rewrite Z.eqb_refl. cbn [negb andb when].
  unfold OTA_STAT_PART_SIZE. change (2 * (4 * 1024)) with 8192. change (4 * 1024) with 4096.
  assert (Hrl : len boot_record = 24) by done.
  rewrite !u32_small by (unfold is_u32; lia).
  destruct (spi_write_spec (chip h) (addr + n - 8192) boot_record) as (c1&E1&P1); [lia|lia|apply is_bytes_record|].
  destruct (spi_write_spec c1 (addr + n - 4096) boot_record) as (c2&E2&P2); [lia|lia|apply is_bytes_record|].
  wstep. unfold flash_program. wstep. unfold wp at 1, get_hw. cbn [chip log]. rewrite E1. apply wp_upd_hw.
  wstep. unfold wp at 1, get_hw. cbn [chip set_chip snd]. rewrite E2. apply wp_upd_hw. cbn [snd].
  unfold wp, reset. apply HR. cbn [chip set_chip log].
  assert (Hff : forall x, addr + n - 8192 <= x < addr + n -> nor_read (chip h) x = 255).
  { intros x Hx. rewrite (Hpr x), bool_decide_eq_false_2 by lia. rewrite (Hce x). by rewrite bool_decide_eq_true_2 by lia. }
  split; [|split; [|split]].
  - etransitivity; [|exact Hread]. apply nor_bytes_ext. intros x Hx. rewrite (P2 x), (P1 x). by rewrite !bool_decide_eq_false_2 by lia.
  - rewrite (nor_bytes_ext _ c1); [|intros x Hx; rewrite (P2 x); by rewrite bool_decide_eq_false_2 by lia].
    rewrite <- Hrl. eapply programmed_reads; [apply is_bytes_record| |exact P1]. intros x Hx. apply Hff. lia.
  - rewrite <- Hrl. eapply programmed_reads; [apply is_bytes_record| |exact P2]. intros x Hx.
    rewrite (P1 x), bool_decide_eq_false_2 by lia. apply Hff. lia.
  - intros x Hx. rewrite (P2 x), (P1 x), (Hpr x), !bool_decide_eq_false_2 by lia.
    rewrite (Hce x). by rewrite bool_decide_eq_false_2 by lia.
Qed.

(** *** The answer of the server *)
(** A header that arrives whole, with the first bytes of the file behind it. *)
Record answer := mkAnswer {
  r_pre : bytes; r_post : bytes; r_lines : list bytes; r_sep : bytes; r_digits : bytes; r_more : list bytes;
  r_piece : bytes; r_rest : list bytes }.
Definition r_head (w : answer) : bytes := http_head (r_pre w) (r_post w) (r_lines w) (r_sep w) (r_digits w) (r_more w).
Definition answer_ok (w : answer) : Prop :=
  0 < len (r_pre w) /\ Forall (fun c => c <> 32) (r_pre w) /\ plain_line (r_pre w ++ str " 200 " ++ r_post w) /\
  Forall plain_line (r_lines w) /\ Forall plain_line (r_more w) /\ length_ok (r_sep w) (r_digits w) /\
  u32 (atoi (r_digits w)) = len image /\ len (r_head w) <= 4082 /\ len (r_head w) + len (r_piece w) <= 4096 /\
  image = r_piece w ++ concat (r_rest w) /\ pieces_ok (r_rest w) /\ header_first (r_piece w :: r_rest w).
(** What the reads of the socket return. *)
Definition r_stream (w : answer) : list (option bytes) := Some (r_head w ++ r_piece w) :: (Some <$> r_rest w).

Record asked (w : answer) (o : ota) (h : hw C) : Prop := {
  a_state : ya_http_state (d_mod (wifi o)) = YA_HTTP_HEADER_HANDLE;
  a_url : d_url (wifi o) = u;
  a_parse : parse_status (d_resp (wifi o)) = 0;
  a_buffer : exists b, ota_buffer (d_mod (wifi o)) = Some b /\ len b = 4096;
  a_net : net o = r_stream w;
  a_digest : md5_reset (md5_state o) = true;
  a_chip : chip h = c0;
  a_heap : heap h = [];
}.

Lemma wp_header_turn tick w o (h : hw C) Q R : ota_size u = len image -> answer_ok w -> asked w o h ->
  (forall o' h', file_at YA_PRE_FILE_HANDLE [] (r_piece w) (r_rest w) o' -> chip h' = c0 -> heap h' = [] -> Q tt ((a, o'), h')) ->
  wp (ya_wifi_ota_download tick) Q R ((a, o), h).
Proof.
  intros Hsize (Hw1&Hw2&Hw3&Hw4&Hw5&Hw6&Hw7&Hw8&Hw9&Him&Hpc&Hfirst) [Hst Hu Hp (b&Hb&Hbl) Hn Hg Hc Hheap] HQ.
  pose proof image_size as (Hsz&_). pose proof (len_nonneg (r_piece w)). pose proof (len_nonneg (r_head w)).
  assert (Hv0 : 0 < len (r_head w)).
  { unfold r_head, http_head. cbn [http_lines mbind list_bind]. rewrite <- !app_assoc, len_app.
    match goal with |- context [_ + len ?r] => pose proof (len_nonneg r) end. lia. }
  set (r1 := mkResp 200 (len (r_head w)) (len image) (len (r_piece w)) (header_bak (d_resp (wifi o))) 4).
  set (post := drop (length (r_head w ++ r_piece w)) b).
  assert (Hbuf : splice b 0 (r_head w ++ r_piece w) = r_head w ++ r_piece w ++ post) by (unfold splice; cbn [take List.app]; by rewrite <- app_assoc).
  assert (Hblen : len (r_head w ++ r_piece w ++ post) = 4096) by (rewrite <- Hbuf, len_splice; [done|lia|rewrite len_app; lia]).
  set (o1 := set_wifi (upd_resp (fun _ => r1) (upd_mod (set_buffer (Some (r_head w ++ r_piece w ++ post))) (wifi o)))
    (set_net (Some <$> r_rest w) o)).
  unfold ya_wifi_ota_download. wstep. apply wp_gets. cbn [snd fst]. rewrite Hst. wstep.
  assert (Hh : wp (ya_http_header_handle Wifi) (fun r t => r = 1 /\ t = ((a, o1), h)) R ((a, o), h)).
  { unfold ya_http_header_handle. wstep. apply wp_gets. cbn [snd fst]. rewrite Hp. cbn [Z.leb Z.compare Z.eqb orb]. wstep. wstep.
    unfold sock_read. wstep. apply wp_gets. cbn [snd fst]. rewrite Hn. unfold r_stream. wstep. apply wp_puts, wp_ret.
    cbn [fmap option_fmap option_map]. remember (r_head w ++ r_piece w) as v eqn:Hv.
    assert (Hvl : len v = len (r_head w) + len (r_piece w)) by (rewrite Hv; apply len_app).
    rewrite take_ge by (unfold HTTP_BUF_SIZE, len in *; lia). destruct v as [|x v'] eqn:Ev; [change (len []) with 0 in Hvl; lia|]. rewrite <- Ev in *.
    rewrite Hb. wstep. eapply wp_deref; [done|]. wstep. wstep. wstep. apply wp_ret. wstep. apply wp_puts. wstep.
    rewrite Hbuf, Z.add_0_r, u16_small by (unfold is_u16; lia). eapply wp_done.
    { rewrite Hvl. unfold r_head in *. apply header_complete; try done; [|lia]. rewrite !len_app in Hblen. lia. }
    cbn beta iota. wstep. apply wp_puts, wp_ret. cbn beta iota. apply wp_ret. split; [done|]. rewrite Hw7. by destruct o. }
  eapply wp_mono; [exact Hh| |done]. intros r t [-> ->]. cbn [Z.ltb Z.compare Pos.compare Pos.compare_cont]. wstep. apply wp_gets. cbn [snd fst].
  change (body_len (d_resp (wifi o1))) with (len image). change (d_url (wifi o1)) with (d_url (wifi o)). rewrite Hu, Hsize, Z.eqb_refl. cbn [negb].
  wstep. apply wp_puts. wstep. apply wp_ret. wstep. apply wp_puts.
  assert (Hf : new_file (d_resp (wifi o1)) ya_get_file_header_writer_flash_enable = part_file (len (r_head w)) [] (r_piece w)).
  { unfold new_file, part_file. cbn. f_equal. unfold i32. rewrite Z.mod_small; lia. }
  rewrite Hf. cbn [f_header_len f_read_len part_file].
  eapply (wp_digest_part [] (r_piece w) (r_rest w) (r_head w) post); try done; [by left|].
  intros g k o' Hd. apply HQ; [|done..]. constructor; try done. by exists (r_head w), post.
Qed.

Lemma wp_prefile_turn tick piece rest o (h : hw C) Q R : file_at YA_PRE_FILE_HANDLE [] piece rest o -> chip h = c0 -> heap h = [] ->
  (forall o' h', file_at YA_EARSE_FLASH [] piece rest o' -> chip h' = c0 -> heap h' = [] -> Q tt ((a, o'), h')) ->
  wp (ya_wifi_ota_download tick) Q R ((a, o), h).
Proof.
  intros [Hst Hu Hl Hb Hn Him Hpc Hfirst Hd] Hc Hh HQ. unfold ya_wifi_ota_download. wstep. apply wp_gets. cbn [snd fst].
  rewrite Hst. wstep. apply wp_ret. cbn [Z.ltb Z.compare]. apply wp_puts, HQ; [|done..]. by constructor.
Qed.
Lemma wp_erase_turn tick piece rest o (h : hw C) Q R : file_at YA_EARSE_FLASH [] piece rest o -> chip h = c0 -> heap h = [] ->
  (forall o' h', body_at [] piece rest o' h' -> Q tt ((a, o'), h')) ->
  wp (ya_wifi_ota_download tick) Q R ((a, o), h).
Proof.
  intros [Hst Hu Hl Hb Hn Him Hpc Hfirst Hd] Hc Hh HQ. unfold ya_wifi_ota_download. wstep. apply wp_gets. cbn [snd fst].
  rewrite Hst. wstep. destruct (otaHal_init_ok addr n (len image) a o h) as (c&E&He); [done|done|].
  eapply wp_done; [exact E|]. cbn [Z.eqb negb]. wstep. apply wp_puts. wstep. apply wp_puts. wstep.
  apply wp_report_ota; [done..|]. intros _ h1 T. apply talked_fields in T as (_&_&Ec&Eh&_). apply wp_ret, HQ.
  constructor; [by constructor|done| |by apply Eh]. rewrite Ec. exists c. split; [unfold cleared; by rewrite <- Hc|]. intros x.
  by rewrite bool_decide_eq_false_2 by (change (len []) with 0; lia).
Qed.

(** *** Asking for the file *)
Record ordered (w : answer) (st : http_state) (o : ota) (h : hw C) : Prop := {
  d_state : ya_http_state (d_mod (wifi o)) = st;
  d_url_is : d_url (wifi o) = u;
  d_buffer : match ota_buffer (d_mod (wifi o)) with Some b => len b = 4096 | None => st = YA_HTTP_START end;
  d_net : net o = r_stream w;
  d_chip : chip h = c0;
  d_heap : heap h = [];
}.
Context (host resource : bytes) (Hhost : ya_http_host u = Some host) (Hres : ya_http_resource u = Some resource).
Context (Hnew : 0 ∈ ota_ver u /\ len (cstr (ota_ver u)) <= 32).
Context (Hconn : 0 <= ya_http_connect_server (cstr host) (ya_http_port u)) (Hsend : forall r, 0 <= sock_write r).

Lemma wp_close o (h : hw C) Q R :
  (forall m' h', ya_http_state m' = ya_http_state (d_mod (wifi o)) -> ota_buffer m' = ota_buffer (d_mod (wifi o)) ->
     (h' = h \/ exists e, h' = log e h) -> Q tt ((a, set_wifi (upd_mod (fun _ => m') (wifi o)) o), h')) ->
  wp (close_socket Wifi) Q R ((a, o), h).
Proof.
  intros HQ. unfold close_socket. wstep. apply wp_gets. cbn [snd fst]. wstep.
  - wstep. apply wp_upd_hw, wp_puts. apply HQ; [done..|right; by eexists].
  - apply wp_ret. specialize (HQ (d_mod (wifi o)) h eq_refl eq_refl (or_introl eq_refl)). by destruct o as [[] ? ? ? ? ? ? ?].
Qed.
Lemma wp_start_turn tick w o (h : hw C) Q R : ordered w YA_HTTP_START o h ->
  (forall o' h', ordered w YA_HTTP_CONNECT o' h' -> Q tt ((a, o'), h')) ->
  wp (ya_wifi_ota_download tick) Q R ((a, o), h).
Proof.
  intros [Hst Hu Hb Hn Hc Hh] HQ. unfold ya_wifi_ota_download. wstep. apply wp_gets. cbn [snd fst]. rewrite Hst.
  unfold http_start. wstep. apply wp_gets. cbn [snd fst]. rewrite Hu, Hhost, Hres. wstep.
  destruct (ota_buffer (d_mod (wifi o))) as [b|] eqn:Eb.
  - apply wp_ret. cbn beta iota. wstep. apply wp_close. intros m' h' Es' Eb' Eh. apply wp_puts, HQ.
    constructor; try done; [cbn; by rewrite Eb', Eb|by destruct Eh as [->|[e ->]]..].
  - wstep. apply wp_alloc_moved; [unfold HTTP_BUF_SIZE; lia| |].
    + intros b h1 Hbl _ M. wstep. apply wp_puts, wp_ret. cbn beta iota. wstep. apply wp_close. intros m' h' Es' Eb' Eh.
      apply wp_puts, HQ. destruct M as [M1 M2]. constructor; try done.
      * cbn. rewrite Eb'. done.
      * destruct Eh as [->|[e ->]]; cbn; by rewrite M1.
      * destruct Eh as [->|[e ->]]; cbn; auto.
    + intros h1 [?|?] _; [unfold HTTP_BUF_SIZE in *; lia|done].
Qed.
Lemma wp_connect_turn tick w o (h : hw C) Q R : ordered w YA_HTTP_CONNECT o h ->
  (forall o' h', ordered w YA_HTTP_SEND_GET o' h' -> parse_status (d_resp (wifi o')) = 0 -> md5_reset (md5_state o') = true ->
     Q tt ((a, o'), h')) ->
  wp (ya_wifi_ota_download tick) Q R ((a, o), h).
Proof.
  intros [Hst Hu Hb Hn Hc Hh] HQ. unfold ya_wifi_ota_download. wstep. apply wp_gets. cbn [snd fst]. rewrite Hst.
  wstep. apply wp_puts. wstep. apply wp_puts. wstep. rewrite Hu. eapply wp_done; [apply strcpy_zeros; [apply Hnew|lia]|].
  wstep. apply wp_puts. wstep. unfold http_connect. wstep. apply wp_puts. wstep. apply wp_gets. cbn [snd fst].
  cbn [set_new_version wifi set_wifi set_digest upd_resp upd_mod d_url]. rewrite Hu. wstep. eapply wp_deref; [exact Hhost|].
  wstep. apply wp_puts. set (sk := ya_http_connect_server _ _). assert (0 <= sk) by exact Hconn.
  destruct (Z.eqb_spec sk (-1)); [lia|]. wstep. apply wp_puts, wp_ret. cbn beta iota. wstep. apply wp_report_ota; [done..|].
  intros _ h1 T. apply talked_fields in T as (_&_&Ec&Eh&_). apply wp_ret, HQ; [|done..].
  constructor; try done; [|by rewrite Ec|auto]. cbn. by destruct (ota_buffer (d_mod (wifi o))).
Qed.
Lemma wp_send_turn tick w o (h : hw C) Q R : ordered w YA_HTTP_SEND_GET o h ->
  parse_status (d_resp (wifi o)) = 0 -> md5_reset (md5_state o) = true ->
  (forall o' h', asked w o' h' -> Q tt ((a, o'), h')) ->
  wp (ya_wifi_ota_download tick) Q R ((a, o), h).
Proof.
  intros [Hst Hu Hb Hn Hc Hh] Hp Hg HQ. unfold ya_wifi_ota_download. wstep. apply wp_gets. cbn [snd fst]. rewrite Hst.
  unfold http_send_get. wstep. apply wp_gets. cbn [snd fst]. rewrite Hu. wstep. unfold get_request. wstep.
  eapply wp_deref; [exact Hres|]. wstep. eapply wp_deref; [exact Hhost|]. apply wp_ret. set (req := str "GET /" ++ _).
  pose proof (len_nonneg req). wstep. apply wp_alloc_moved; [lia| |intros h1 [?|?] _; [lia|done]].
  intros b h1 Hbl _ M. wstep. eapply wp_deref; [done|]. wstep. wstep; [rewrite len_app; change (len [0]) with 1; lia|].
  wstep. apply wp_upd_hw. wstep. pose proof (Hsend (cstr (splice b 0 (req ++ [0])))).
  destruct (Z.ltb_spec (sock_write (cstr (splice b 0 (req ++ [0])))) 0); [lia|].
  destruct (ota_buffer (d_mod (wifi o))) as [buf|] eqn:Eb; [|done]. wstep. eapply wp_deref; [done|]. wstep. wstep; [unfold HTTP_BUF_SIZE; lia|].
  wstep. apply wp_puts, wp_puts. apply wp_upd_hw, HQ. destruct M as [M1 M2]. constructor; try done.
  - eexists. split; [done|]. unfold len in *. rewrite length_app, length_replicate, length_drop. unfold HTTP_BUF_SIZE. lia.
  - cbn. by rewrite M1.
  - cbn. by apply M2.
Qed.

(** *** The whole download *)
Lemma wp_body_turns ticks dn piece rest o (h : hw C) (R : _ -> Prop) : body_at dn piece rest o h -> (length rest + 3 <= length ticks)%nat ->
  (forall o' h', ready_to_boot (chip h') -> R ((a, o'), h')) ->
  wp (for_each ticks ya_wifi_ota_download) (fun _ _ => False) R ((a, o), h).
Proof.
  revert dn piece rest o h. induction ticks as [|k ticks IH]; intros dn piece rest o h Hb Hl HR; [cbn in Hl; lia|].
  cbn [for_each length] in *. wstep. eapply wp_body_turn; [exact Hb|]. intros o1 h1 D1. destruct rest as [|p rest].
  - destruct ticks as [|k1 [|k2 ticks]]; [cbn in Hl; lia..|]. cbn [for_each]. wstep. eapply wp_checksum_turn; [exact D1|].
    intros o2 h2 D2. wstep. eapply wp_reboot_turn; [exact D2|done].
  - eapply IH; [exact D1|cbn in Hl; lia|done].
Qed.
Lemma wp_turns ticks w o (h : hw C) (R : _ -> Prop) : ota_size u = len image -> answer_ok w -> ordered w YA_HTTP_START o h ->
  (length (r_rest w) + 9 <= length ticks)%nat -> (forall o' h', ready_to_boot (chip h') -> R ((a, o'), h')) ->
  wp (for_each ticks ya_wifi_ota_download) (fun _ _ => False) R ((a, o), h).
Proof.
  intros Hs Hw Ho Hl HR. destruct ticks as [|k1 [|k2 [|k3 [|k4 [|k5 [|k6 ticks]]]]]]; [cbn in Hl; lia..|]. cbn [for_each length] in *.
  wstep. eapply wp_start_turn; [exact Ho|]. intros o1 h1 D1. wstep. eapply wp_connect_turn; [exact D1|]. intros o2 h2 D2 Hp Hg.
  wstep. eapply wp_send_turn; [exact D2|done|done|]. intros o3 h3 D3. wstep. eapply wp_header_turn; [done|done|exact D3|].
  intros o4 h4 D4 C4 Hp4. wstep. eapply wp_prefile_turn; [exact D4|done|done|]. intros o5 h5 D5 C5 Hp5. wstep.
  eapply wp_erase_turn; [exact D5|done|done|]. intros o6 h6 D6. eapply wp_body_turns; [exact D6|lia|done].
Qed.
End Download.
