(* ===== verification/OtaSafety.v ===== *)
(** * What the OTA task leaves alone, and when it restarts

    A small logic for relations a computation keeps between the states it
    starts and ends in.  With it: a turn of the module's download touches
    neither the controller's download nor the queue of the task, no turn but
    the one after a successful check restarts the device. *)

From stdpp Require Import base numbers list strings.
From S2P Require Import Prelude Platform SpiFlash Flash CommonFunc HalTimer CJson SysTime.
From S2P Require Import DeviceTimer License MainQueue Cloud UserData AppMain UserDataProofs Aes OtaHttp Ota OtaProofs.

(** ** Relations kept *)
Section Keeps.
Context {T : Type} (R : T -> T -> Prop) `{!PreOrder R}.
(** [m] does not restart the device, and ends in a state related to the one it
    started from. *)
Definition keeps {A} (m : M T A) : Prop :=
  forall t, match m t with Done _ t' => R t t' | Fault _ => True | Reset _ => False end.

Lemma keeps_ret {A} (x : A) : keeps (ret x).
Proof. intros t. cbn. reflexivity. Qed.
Lemma keeps_fail {A} f : keeps (fail (A := A) f).
Proof. by intros t. Qed.
Lemma keeps_bind {A B} (m : M T A) (k : A -> M T B) : keeps m -> (forall x, keeps (k x)) -> keeps (bind m k).
Proof.
  intros Hm Hk t. unfold bind. specialize (Hm t). destruct (m t) as [x t1| |]; [|done|done]. specialize (Hk x t1).
  destruct (k x t1); [by etransitivity|done|done].
Qed.
Lemma keeps_obind {A B} (m : M T (option A)) (k : A -> M T (option B)) :
  keeps m -> (forall x, keeps (k x)) -> keeps (obind m k).
Proof. intros Hm Hk. apply keeps_bind; [done|]. intros [x|]; [apply Hk|apply keeps_ret]. Qed.
Lemma keeps_when b (m : M T unit) : keeps m -> keeps (when b m).
Proof. intros Hm. destruct b; [done|apply keeps_ret]. Qed.
Lemma keeps_deref {A} (o : option A) : keeps (deref o).
Proof. destruct o; [apply keeps_ret|apply keeps_fail]. Qed.
Lemma keeps_guard b : keeps (guard b).
Proof. apply keeps_ret. Qed.
(** Buffer accesses change no state. *)
Lemma keeps_rd b i : keeps (rd b i).
Proof. intros t. unfold rd. destruct (_ && _); cbn; [reflexivity|done]. Qed.
Lemma keeps_wr b i v : keeps (wr b i v).
Proof. intros t. unfold wr. destruct (_ && _); cbn; [reflexivity|done]. Qed.
Lemma keeps_rdn b i k : keeps (rdn b i k).
Proof. intros t. unfold rdn. destruct (_ && _); cbn; [reflexivity|done]. Qed.
Lemma keeps_memcpy b i s : keeps (memcpy b i s).
Proof. intros t. unfold memcpy. destruct (_ && _); cbn; [reflexivity|done]. Qed.
Lemma keeps_memset b v k : keeps (memset b v k).
Proof. intros t. unfold memset. destruct (_ && _); cbn; [reflexivity|done]. Qed.
Lemma keeps_strcpy b s : keeps (strcpy b s).
Proof. unfold strcpy. destruct (bool_decide _); [apply keeps_memcpy|apply keeps_fail]. Qed.
End Keeps.

Create HintDb keeps.
#[export] Hint Resolve keeps_ret keeps_fail keeps_deref keeps_guard keeps_rd keeps_wr keeps_rdn keeps_memcpy keeps_memset keeps_strcpy : keeps.
#[export] Hint Extern 1 (PreOrder _) => typeclasses eauto : keeps.
(** Take a computation apart. *)
Ltac keep :=
  repeat lazymatch goal with
  | |- keeps _ (bind _ _) => apply keeps_bind
  | |- keeps _ (obind _ _) => apply keeps_obind
  | |- keeps _ (when _ _) => apply keeps_when
  | |- keeps _ (match ?x with _ => _ end) => destruct x
  | |- keeps _ (let _ := _ in _) => cbv zeta
  | |- keeps _ ((fun _ => _) _) => cbv beta
  | |- forall _, _ => intros ?
  | |- PreOrder _ => typeclasses eauto
  end; auto with keeps.

(** ** Relations blind to the allocator and the trace, and to the flash *)
Class Blind {C S} (R : S * hw C -> S * hw C -> Prop) : Prop := {
  blind_order :: PreOrder R;
  blind_heap : forall s h hp k, R (s, h) (s, set_heap hp k h);
  blind_log : forall s h e, R (s, h) (s, log e h);
}.
Class BlindChip {C S} (R : S * hw C -> S * hw C -> Prop) : Prop := blind_chip : forall s h c, R (s, h) (s, set_chip c h).

#[export] Hint Extern 1 (Blind _) => typeclasses eauto : keeps.
#[export] Hint Extern 1 (BlindChip _) => typeclasses eauto : keeps.

Section Blind.
Context {C S : Type} `{NorChip C} `{CloudEnv} `{JsonText} (R : S * hw C -> S * hw C -> Prop) `{!Blind R}.

Lemma keeps_gets {A} (f : S -> A) : keeps R (gets f).
Proof. intros [s h]. cbn. reflexivity. Qed.
Lemma keeps_get_hw : keeps R get_hw.
Proof. intros [s h]. cbn. reflexivity. Qed.
Lemma keeps_puts f : (forall s h, R (s, h) (f s, h)) -> keeps R (puts f).
Proof. intros Hf [s h]. cbn. apply Hf. Qed.
Lemma keeps_set_chip `{!BlindChip R} c : keeps R (upd_hw (set_chip c)).
Proof. intros [s h]. cbn. apply blind_chip. Qed.
Lemma keeps_emit e : keeps R (emit e).
Proof. intros [s h]. cbn. apply blind_log. Qed.
Lemma keeps_blocks f : keeps R (upd_hw (fun h => set_heap (heap h) (f h) h)).
Proof. intros [s h]. cbn. apply blind_heap. Qed.
Lemma keeps_alloc n : keeps R (ya_hal_os_memory_alloc n).
Proof.
  intros [s h]. unfold ya_hal_os_memory_alloc. destruct (n =? 0); cbn; [reflexivity|].
  destruct (heap h) as [|[] hp]; apply blind_heap.
Qed.
Lemma keeps_free : keeps R ya_hal_os_memory_free.
Proof. apply keeps_blocks. Qed.
Lemma keeps_free_if {A} (o : option A) : keeps R (free_if o).
Proof. destruct o; [apply keeps_free|apply keeps_ret, _]. Qed.
Lemma keeps_flash_read addr n : keeps R (ya_hal_flash_read addr n).
Proof. intros [s h]. cbn. reflexivity. Qed.
Lemma keeps_flash_write `{!BlindChip R} addr data : keeps R (ya_hal_flash_write addr data).
Proof.
  intros [s h]. unfold ya_hal_flash_write. destruct (hal_erase _ _ _) as [r c1]. destruct (negb (r =? 0)); [apply blind_chip|].
  destruct (hal_spifiash_write _ _ _) as [w c2]. destruct (negb (w =? 0)); apply blind_chip.
Qed.
Hint Resolve keeps_gets keeps_get_hw keeps_set_chip keeps_emit keeps_alloc keeps_free keeps_free_if keeps_flash_read keeps_flash_write : keeps.

Lemma keeps_write_flash `{!BlindChip R} addr data n block : keeps R (ya_write_flash addr data n block).
Proof. unfold ya_write_flash. keep. Qed.
Lemma keeps_read_record addr lim : keeps R (read_record addr lim).
Proof. unfold read_record. keep. Qed.
Hint Resolve keeps_read_record : keeps.
Lemma keeps_read_fix addr data n block : keeps R (ya_read_flash_with_fix_len addr data n block).
Proof. unfold ya_read_flash_with_fix_len. keep. Qed.
Lemma keeps_take {A} (o : option A) : keeps R (json_take o).
Proof. unfold json_take. keep. Qed.
Hint Resolve keeps_take : keeps.
Lemma keeps_json_parse text : keeps R (json_parse text).
Proof. unfold json_parse. keep. Qed.
Lemma keeps_granted : keeps R granted.
Proof. intros [s h]. unfold granted. destruct (heap h) as [|b hp]; [cbn; reflexivity|apply blind_heap]. Qed.
Hint Resolve keeps_granted : keeps.
Lemma keeps_strdup t : keeps R (cJSON_strdup t).
Proof. unfold cJSON_strdup. keep. Qed.
Hint Resolve keeps_strdup : keeps.
Lemma keeps_build : forall j, keeps R (json_build j).
Proof.
  fix IH 1. intros [k ty v c]. cbn [json_build].
  assert (Hc : keeps R ((fix members (l : list cJSON) : P C S (list cJSON) :=
    match l with [] => ret [] | m :: l => let* o := json_build m in let* l := members l in ret (option_list o ++ l) end) c)).
  { induction c as [|m c IHc]; [apply keeps_ret, _|]. apply keeps_bind; [apply _|apply IH|]. intros o. apply keeps_bind; [apply _|exact IHc|]. intros l. apply keeps_ret, _. }
  apply keeps_bind; [apply _|exact Hc|]. intros c'. unfold json_name. keep.
Qed.
Hint Resolve keeps_build : keeps.
Lemma keeps_document conn doc : keeps R (report_document conn doc).
Proof. unfold report_document, report_printed, json_document, json_print, cJSON_Delete, cloud_report_msg. keep. Qed.
Lemma keeps_create : keeps R cJSON_CreateObject.
Proof. unfold cJSON_CreateObject. keep. Qed.
End Blind.
#[export] Hint Resolve keeps_gets keeps_get_hw keeps_set_chip keeps_emit keeps_alloc keeps_free keeps_free_if keeps_flash_read
  keeps_flash_write keeps_write_flash keeps_read_fix keeps_take keeps_json_parse keeps_document keeps_create : keeps.

(** ** Turns of the OTA task *)
Section Turns.
Context {C : Type} `{NorChip C} `{CloudEnv} `{JsonText} `{BlockCipher} `{OtaEnv}.
Abbreviation ostate := ((app * ota) * hw C)%type.

(** A relation that does not look at the main task's data either. *)
Class Aside (R : ostate -> ostate -> Prop) : Prop := {
  aside_blind :: Blind R;
  aside_app : forall a a' o h, R ((a, o), h) ((a', o), h);
}.
#[local] Hint Extern 1 (Aside _) => typeclasses eauto : keeps.
(** The relation seen from the main task's data. *)
Definition lifted (R : ostate -> ostate -> Prop) (t t' : app * hw C) : Prop := forall o, R ((t.1, o), t.2) ((t'.1, o), t'.2).
#[local] Instance lifted_blind R `{!Aside R} : Blind (lifted R).
Proof.
  constructor; [constructor|..]; unfold lifted; cbn.
  - intros [a h] o. reflexivity.
  - intros [a h] [a1 h1] [a2 h2] T1 T2 o. cbn in *. etransitivity; [apply T1|apply T2].
  - intros a h hp k o. apply blind_heap.
  - intros a h e o. apply blind_log.
Qed.

#[local] Instance lifted_chip R `{!BlindChip R} : BlindChip (lifted R).
Proof. intros a h c o. apply blind_chip. Qed.

Section Aside.
Context (R : ostate -> ostate -> Prop) `{!Aside R}.
Lemma keeps_app_of {A} (m : P C app A) : keeps (lifted R) m -> keeps R (app_of m).
Proof.
  intros Hm [[a o] h]. unfold app_of, zoom_s, zoom. specialize (Hm (a, h)). cbn. destruct (m (a, h)) as [x [a' h']| |]; [apply Hm|done|done].
Qed.
Lemma keeps_lifted_puts f : keeps (lifted R) (puts f).
Proof. apply keeps_puts. intros a h o. apply aside_app. Qed.
Lemma keeps_ogets {A} (f : ota -> A) : keeps R (ogets f).
Proof. apply keeps_gets, _. Qed.
Hint Resolve keeps_lifted_puts keeps_ogets : keeps.
Lemma keeps_test_mode : keeps R (app_of ya_check_enter_ota_test_mode).
Proof. apply keeps_app_of. unfold ya_check_enter_ota_test_mode, ud_string. keep. Qed.
Lemma keeps_test_num `{!BlindChip R} k : keeps R (app_of (ya_cal_ota_test_num k)).
Proof. apply keeps_app_of. unfold ya_cal_ota_test_num, ud_incr, ud_copy, ya_save_user_data. keep. Qed.
Lemma keeps_report code : keeps R (ya_report_ota_result code).
Proof. unfold ya_report_ota_result, ya_get_ver_string, report_upgrade, cJSON_Delete, cJSON_AddItemToObject. keep. Qed.
End Aside.
Hint Resolve keeps_ogets keeps_test_mode keeps_test_num keeps_report : keeps.

Definition wifi_state (t : ostate) : http_state := ya_http_state (d_mod (wifi t.1.2)).
(** The other download and the task's queue are as they were. *)
Definition aloof (t t' : ostate) : Prop := mcu t'.1.2 = mcu t.1.2 /\ queues t'.2 = queues t.2.
(** ... and the device is not about to restart unless it was. *)
Definition unready (t t' : ostate) : Prop := aloof t t' /\ (wifi_state t' = YA_WAIT_TO_REBOOT -> wifi_state t = YA_WAIT_TO_REBOOT).
#[local] Instance aloof_aside : Aside aloof.
Proof.
  constructor; [constructor; [constructor|..]|]; try done. intros [[a o] h] [[a1 o1] h1] [[a2 o2] h2] [E1 E2] [E3 E4].
  unfold aloof in *. cbn in *. by rewrite E3, E4.
Qed.
#[local] Instance aloof_chip : BlindChip aloof.
Proof. done. Qed.
#[local] Instance unready_chip : BlindChip unready.
Proof. done. Qed.
#[local] Instance unready_aside : Aside unready.
Proof.
  constructor; [constructor; [constructor|..]|]; try done. intros t1 t2 t3 [E1 E2] [E3 E4]. split; [by etransitivity|auto].
Qed.
Lemma keeps_oputs (R : ostate -> ostate -> Prop) f : (forall a o h, R ((a, o), h) ((a, f o), h)) -> keeps R (oputs f).
Proof. intros Hf [[a o] h]. cbn. apply Hf. Qed.
Ltac leaf := first [apply keeps_oputs; intros ? ? ?; done | idtac].
Ltac turn := keep; unfold goto, dupd, dget; leaf; auto with keeps.

Lemma keeps_close : keeps unready (close_socket Wifi).
Proof. unfold close_socket. turn. Qed.
Lemma keeps_free_url : keeps unready (ya_free_http_url_resource Wifi).
Proof. unfold ya_free_http_url_resource. turn. Qed.
Hint Resolve keeps_close keeps_free_url : keeps.
Lemma keeps_start : keeps unready (http_start Wifi).
Proof. unfold http_start. turn. Qed.
Lemma keeps_connect : keeps unready (http_connect Wifi).
Proof. unfold http_connect. turn. Qed.
Lemma keeps_send : keeps unready (http_send_get Wifi).
Proof. unfold http_send_get, get_request. turn. Qed.
Lemma keeps_read n : keeps unready (sock_read n).
Proof. unfold sock_read. turn. Qed.
Hint Resolve keeps_start keeps_connect keeps_send keeps_read : keeps.

(** The search of a header reads its bytes only. *)
Lemma keeps_find_spaces fuel b n i m p : keeps unready (find_spaces fuel b n i m p).
Proof. revert i m p. induction fuel as [|fuel IH]; intros; cbn [find_spaces]; turn. Qed.
Lemma keeps_at_char b i c k : keeps unready k -> keeps unready (at_char b i c k).
Proof. intros. unfold at_char. turn. Qed.
Hint Resolve keeps_find_spaces keeps_at_char : keeps.
Lemma keeps_crlf b i : keeps unready (crlf b i).
Proof. unfold crlf. turn. Qed.
Lemma keeps_blank_line b i : keeps unready (blank_line b i).
Proof. unfold blank_line. auto 10 with keeps. Qed.
Lemma keeps_starts_with b p s : keeps unready (starts_with b p s).
Proof. revert p. induction s as [|c s IH]; intros; cbn [starts_with]; turn. Qed.
Lemma keeps_skip_colons fuel b j q : keeps unready (skip_colons fuel b j q).
Proof. revert j. induction fuel as [|fuel IH]; intros; cbn [skip_colons]; turn. Qed.
Lemma keeps_back_spaces fuel b j q : keeps unready (back_spaces fuel b j q).
Proof. revert q. induction fuel as [|fuel IH]; intros; cbn [back_spaces]; turn. Qed.
Hint Resolve keeps_crlf keeps_blank_line keeps_starts_with keeps_skip_colons keeps_back_spaces : keeps.
Lemma keeps_content_length b p q r : keeps unready (content_length b p q r).
Proof. unfold content_length. turn. Qed.
Hint Resolve keeps_content_length : keeps.
Lemma keeps_header_loop fuel b n i p r : keeps unready (header_loop fuel b n i p r).
Proof. revert i p r. induction fuel as [|fuel IH]; intros; cbn [header_loop]; turn. Qed.
Lemma keeps_end_loop fuel b n i r : keeps unready (end_loop fuel b n i r).
Proof. revert i. induction fuel as [|fuel IH]; intros; cbn [end_loop]; turn. Qed.
Hint Resolve keeps_header_loop keeps_end_loop : keeps.
Lemma keeps_parse b n r : keeps unready (ya_parse_http_header_response b n r).
Proof. unfold ya_parse_http_header_response, keep_tail. turn. Qed.
Hint Resolve keeps_parse : keeps.
Lemma keeps_header : keeps unready (ya_http_header_handle Wifi).
Proof. unfold ya_http_header_handle. turn. Qed.

Lemma keeps_hal_init : keeps unready otaHal_init.
Proof. unfold otaHal_init. turn. Qed.
Lemma keeps_hal_write b off n : keeps unready (otaHal_write b off n).
Proof. unfold otaHal_write, first_frame. turn. Qed.
Hint Resolve keeps_header keeps_hal_init keeps_hal_write : keeps.
Lemma keeps_body : keeps unready (ya_http_body_handle Wifi).
Proof. unfold ya_http_body_handle, body_write, ya_http_ota_sector_write. turn. Qed.
Lemma keeps_digest off n : keeps unready (digest_part off n).
Proof. unfold digest_part, update_ota_buffer_md5. turn. Qed.
Lemma keeps_progress : keeps unready download_progress.
Proof. unfold download_progress. turn. Qed.
Hint Resolve keeps_body keeps_digest keeps_progress : keeps.
Lemma keeps_drain fuel : keeps unready (drain_reads fuel).
Proof. induction fuel as [|fuel IH]; cbn [drain_reads]; turn. Qed.
Hint Resolve keeps_drain : keeps.
Lemma keeps_wifi_body : keeps unready wifi_body.
Proof. unfold wifi_body. turn. Qed.
Lemma keeps_error tick : keeps unready (http_error Wifi tick).
Proof. unfold http_error. turn. Qed.
Hint Resolve keeps_wifi_body keeps_error : keeps.
Lemma keeps_sections k addr cur size buf acc : keeps aloof (read_sections k addr cur size buf acc).
Proof. revert cur buf acc. induction k as [|k IH]; intros; cbn [read_sections]; turn. Qed.
Hint Resolve keeps_sections : keeps.
Lemma keeps_verify addr size sum buf : keeps aloof (ya_verify_ota_checksum addr size sum buf).
Proof. unfold ya_verify_ota_checksum, get_OTA_write_data_addr, verify_md5. turn. Qed.
Hint Resolve keeps_verify : keeps.

(** A turn that neither checks nor restarts. *)
Lemma turn_unready tick (t : ostate) : wifi_state t <> YA_HTTP_CHECKSUM -> wifi_state t <> YA_WAIT_TO_REBOOT ->
  match ya_wifi_ota_download tick t with Done _ t' => unready t t' | Fault _ => True | Reset _ => False end.
Proof.
  intros Hc Hw. destruct t as [[a o] h]. unfold ya_wifi_ota_download. erewrite bind_done by reflexivity. cbn [snd].
  unfold wifi_state in *. cbn [fst snd] in *. destruct (ya_http_state (d_mod (wifi o))); try done;
  match goal with |- match ?m _ with _ => _ end => enough (Hm : keeps unready m) by apply Hm end;
  unfold ya_http_prefile_header_init, ya_http_prefile_header_handle, ya_http_ota_sector_erase; turn.
Qed.
(** The check of the copy in flash. *)
Lemma turn_checks tick (t : ostate) : wifi_state t = YA_HTTP_CHECKSUM ->
  match ya_wifi_ota_download tick t with Done _ t' => aloof t t' | Fault _ => True | Reset _ => False end.
Proof.
  intros Hc. destruct t as [[a o] h]. unfold ya_wifi_ota_download. erewrite bind_done by reflexivity. cbn [snd].
  unfold wifi_state in *. cbn [fst snd] in *. rewrite Hc.
  match goal with |- match ?m _ with _ => _ end => enough (Hm : keeps aloof m) by apply Hm end. turn.
Qed.

(** ** The task with nothing else to do *)
Definition alone (t : ostate) : Prop := ya_http_state (d_mod (mcu t.1.2)) = YA_HTTP_IDLE /\ queues t.2 QOta = [].
Lemma alone_aloof t t' : aloof t t' -> alone t -> alone t'.
Proof. intros [E1 E2] [A1 A2]. unfold alone. by rewrite E1, E2. Qed.
Lemma alone_turn tick (t : ostate) : alone t -> match ya_wifi_ota_download tick t with Done _ t' => alone t' | _ => True end.
Proof.
  intros Ht. destruct (decide (wifi_state t = YA_HTTP_CHECKSUM)) as [Hc|Hc].
  { pose proof (turn_checks tick t Hc) as Hk. destruct (ya_wifi_ota_download tick t); [by eapply alone_aloof|done|done]. }
  destruct (decide (wifi_state t = YA_WAIT_TO_REBOOT)) as [Hw|Hw].
  - destruct t as [[a o] h]. unfold ya_wifi_ota_download. erewrite bind_done by reflexivity. unfold wifi_state in Hw. cbn in Hw |- *.
    rewrite Hw. unfold ya_hal_ota_done, otaHal_done. unfold emit, upd_hw, ogets, gets, bind, when. cbn. by destruct (_ && _).
  - pose proof (turn_unready tick t Hc Hw) as Hk. destruct (ya_wifi_ota_download tick t); [by eapply alone_aloof; [apply Hk|]|done|done].
Qed.
(** A turn of the task is then one of the download. *)
Lemma step_alone tick (t : ostate) : alone t -> ya_http_ota_app_step tick t = ya_wifi_ota_download tick t.
Proof.
  intros Ht. unfold ya_http_ota_app_step. unfold bind at 1. pose proof (alone_turn tick t Ht) as Hn.
  destruct (ya_wifi_ota_download tick t) as [[] [[a o] h]| |]; [|done|done]. destruct Hn as [Hm Hq]. cbn in Hm, Hq.
  unfold ya_mcu_ota_download. unfold bind at 1. erewrite bind_done by reflexivity. cbn. rewrite Hm. cbn.
  unfold ya_hal_os_queue_recv, bind. by rewrite Hq.
Qed.
Lemma steps_alone ticks (t : ostate) : alone t -> for_each ticks ya_http_ota_app_step t = for_each ticks ya_wifi_ota_download t.
Proof.
  revert t. induction ticks as [|k ticks IH]; intros t Ht; [done|]. cbn [for_each]. unfold bind. rewrite step_alone by done.
  pose proof (alone_turn k t Ht) as Hn. destruct (ya_wifi_ota_download k t); [by apply IH|done|done].
Qed.
End Turns.

(** ** A restart follows a check *)
Section Verified.
Context {C : Type} `{NorChipLaws C} `{CloudEnv} `{JsonText} `{BlockCipher} `{OtaEnv}.
Abbreviation ostate := ((app * ota) * hw C)%type.

(** The package in flash has the digest the cloud announced. *)
Definition verified (t : ostate) : Prop :=
  let o := t.1.2 in
  let addr := s_addr (hal_info o) in
  let size := file_len (d_file (wifi o)) in
  0 <= addr -> 0 <= size -> addr + size < 4294967296 -> md5 (nor_bytes (chip t.2) addr size) = url_md5 (d_url (wifi o)).

Lemma read_sections_some k addr cur size buf acc buf' v (t t' : ostate) :
  0 <= addr -> 0 <= cur <= size -> addr + size < 4294967296 -> cur + (Z.of_nat k - 1) * 4096 < size \/ k = O ->
  (k = O -> size <= cur) -> size <= cur + Z.of_nat k * 4096 ->
  read_sections k addr cur size buf acc t = Done (Some (buf', v)) t' ->
  v = acc ++ nor_bytes (chip t.2) (addr + cur) (size - cur) /\ t' = t.
Proof.
  revert cur buf acc. induction k as [|k IH]; intros cur buf acc Ha Hc Hr Hk Hk0 Hs.
  { cbn. intros [= -> -> ->]. replace (size - cur) with 0 by lia. by rewrite app_nil_r. }
  cbn [read_sections]. rewrite u32_small by (unfold is_u32; lia).
  set (rl := match k with O => size - cur | _ => HTTP_BUF_SIZE end).
  assert (Hrl : 0 <= rl <= 4096 /\ cur + rl <= size /\ (k = O -> rl = size - cur) /\ ((0 < k)%nat -> rl = 4096)).
  { unfold rl, HTTP_BUF_SIZE. destruct k; split_and!; lia. }
  destruct Hrl as (Hrl&Hle&Hrl0&Hrl1). destruct t as [[a o] h].
  erewrite bind_done by (unfold ya_hal_flash_read; rewrite hal_read_eq by lia; reflexivity). cbn [negb Z.eqb].
  unfold bind, memcpy. destruct (_ && _); [|done]. cbn beta iota. intros E. apply IH in E as [-> ->]; [|lia..]. split; [|done].
  cbn [snd]. rewrite <- app_assoc. replace (addr + (cur + rl)) with (addr + cur + rl) by lia. rewrite <- nor_bytes_app by lia.
  by replace (rl + (size - (cur + rl))) with (size - cur) by lia.
Qed.
Lemma verify_md5_sound addr size sum buf r buf' (t t' : ostate) :
  0 <= addr -> 0 <= size -> addr + size < 4294967296 ->
  verify_md5 addr size sum buf t = Done (r, buf') t' -> r = 0 -> md5 (nor_bytes (chip t.2) addr size) = sum.
Proof.
  intros Ha Hs Hr. unfold verify_md5, bind. destruct (read_sections _ _ _ _ _ _ _) as [[[b v]|] t1| |] eqn:E; [|by intros [= <- _ _]..].
  assert (Ht : 0 <= total_section size /\ (0 < size -> (total_section size - 1) * 4096 < size <= total_section size * 4096) /\
    (size = 0 -> total_section size = 0)).
  { destruct (Z.eq_dec size 0) as [->|]; [done|]. pose proof (total_section_bounds size ltac:(lia)). lia. }
  apply read_sections_some in E as [-> ->]; [|lia..]. cbn [List.app]. rewrite Z.add_0_r, Z.sub_0_r.
  intros [= Hx _ _] ->. by destruct (bool_decide_reflect (md5 (nor_bytes (chip t.2) addr size) = sum)).
Qed.

(** The check changes nothing. *)
Lemma read_sections_pure k addr cur size buf acc : keeps (@eq ostate) (read_sections k addr cur size buf acc).
Proof.
  revert cur buf acc. induction k as [|k IH]; intros; cbn [read_sections]; [apply keeps_ret, _|].
  apply keeps_bind; [typeclasses eauto|by intros [s h]|]. keep.
Qed.
Lemma verify_md5_pure addr size sum buf : keeps (@eq ostate) (verify_md5 addr size sum buf).
Proof. unfold verify_md5. apply keeps_bind; [typeclasses eauto|apply read_sections_pure|]. keep. Qed.
(** A report changes neither the task's data nor the flash. *)
Definition told (t t' : ostate) : Prop := t'.1.2 = t.1.2 /\ chip t'.2 = chip t.2.
#[local] Instance told_aside : Aside told.
Proof.
  constructor; [constructor; [constructor|..]|]; try done. intros t1 t2 t3 [E1 E2] [E3 E4]. unfold told. by rewrite E3, E4.
Qed.
Lemma check_verified tick (t t' : ostate) : wifi_state t = YA_HTTP_CHECKSUM -> ya_wifi_ota_download tick t = Done tt t' ->
  wifi_state t' = YA_WAIT_TO_REBOOT -> verified t'.
Proof.
  intros Hc. destruct t as [[a o] h]. unfold ya_wifi_ota_download. erewrite bind_done by reflexivity. unfold wifi_state in *.
  cbn [fst snd] in *. rewrite Hc. destruct (ota_buffer (d_mod (wifi o))) as [buf|]; [|done]. unfold deref.
  erewrite bind_done by reflexivity. unfold ya_verify_ota_checksum, get_OTA_write_data_addr. unfold bind at 1.
  erewrite bind_done by (by erewrite bind_done by reflexivity). cbn [snd].
  destruct (verify_md5 _ _ _ _ _) as [[r buf'] t1| |] eqn:E; [|done|done].
  assert (Ht1 : t1 = ((a, o), h)).
  { pose proof (verify_md5_pure (s_addr (hal_info o)) (file_len (d_file (wifi o))) (url_md5 (d_url (wifi o))) buf ((a, o), h)) as Hp.
    by rewrite E in Hp. }
  subst t1. erewrite bind_done by reflexivity. cbn beta iota. destruct (Z.eqb_spec r 0) as [->|]; cbn [negb]; [|by intros [= <-]].
  unfold bind. match goal with |- context [ya_report_ota_result ?c ?t] => pose proof (keeps_report told c t) as Hk;
    destruct (ya_report_ota_result c t) as [x [[a1 o1] h1]| |]; [|done|done] end.
  destruct Hk as [Eo Ec]. cbn in Eo, Ec. intros [= <-] _. unfold verified. cbn. rewrite Eo, Ec. cbn. intros Hs1 Hs2 Hs3.
  by eapply verify_md5_sound in E.
Qed.

Lemma restart_after_check ticks (t t' : ostate) : wifi_state t <> YA_WAIT_TO_REBOOT ->
  for_each ticks ya_wifi_ota_download t = Reset t' ->
  exists s h, verified (s, h) /\ wifi_state (s, h) = YA_WAIT_TO_REBOOT /\ otaHal_done (s, log (EvDelay 2000) h) = Reset t'.
Proof.
  revert t. induction ticks as [|k ticks IH]; intros t Hw; [done|]. cbn [for_each]. unfold bind at 1.
  destruct (decide (wifi_state t = YA_HTTP_CHECKSUM)) as [Hc|Hc].
  - pose proof (turn_checks k t Hc) as Hk. pose proof (check_verified k t) as Hv.
    destruct (ya_wifi_ota_download k t) as [[] t1| |]; [|done|done]. destruct (decide (wifi_state t1 = YA_WAIT_TO_REBOOT)) as [Hw1|Hw1]; [|by apply IH].
    destruct ticks as [|k1 ticks]; [done|]. cbn [for_each]. destruct t1 as [[a o] h]. intros E. exists (a, o), h. split; [by eapply Hv|]. split; [done|].
    unfold bind at 1, ya_wifi_ota_download in E. erewrite bind_done in E by reflexivity. unfold wifi_state in Hw1. cbn [fst snd] in *.
    rewrite Hw1 in E. unfold ya_hal_ota_done in E. unfold bind at 1 in E. cbn [emit upd_hw] in E.
    destruct (otaHal_done _) as [[] t2| |] eqn:Eo; [|done|done]. exfalso. revert Eo. unfold otaHal_done, bind, when, ogets, gets. cbn.
    by destruct (_ && _).
  - pose proof (turn_unready k t Hc Hw) as Hk. destruct (ya_wifi_ota_download k t) as [[] t1| |]; [|done|done].
    apply IH. intros Hw1. by apply Hk in Hw1.
Qed.
End Verified.

(** ** Concrete runs *)
#[export] Instance sample_ota_env : OtaEnv := {|
  ya_hal_get_ip_by_name _ := Some 1; ya_tcp_client_connect_block _ _ := Some 3; sock_write b := len b;
  partion_info_get := Some (0x100000, 0x4000); crc32 b := foldr Z.add 0 b; ya_mcu_ota_download_addr := 0 |}.
(** A package of 100 bytes that arrives in three pieces. *)
Definition sample_image : bytes := zeros 8 ++ le32 100 ++ replicate 88 7.
Definition sample_url : url_para :=
  mkUrl (Some (str "http://h/f" ++ [0])) (Some (str "h" ++ zeros 10)) (Some (str "f" ++ zeros 10)) 80 0 5000
    (zeros 8 ++ le32 100 ++ replicate 4 7) (str "1.0.2" ++ zeros 60) 100.
Definition sample_answer : answer :=
  mkAnswer (str "HTTP/1.1") (str "OK") [str "Server: x"] (str ": ") (str "100") [str "Connection: close"]
    (take 70 sample_image) [take 20 (drop 70 sample_image); drop 90 sample_image].
Definition sample_ota : ota :=
  mkOta (mkSide zero_resp sample_url zero_file (zero_module 0xB6000))
    (mkSide zero_resp zero_url zero_file (set_http YA_HTTP_IDLE (zero_module 0))) 0 (zeros 33) (mkDigest false false [] 0) 0
    zero_info (r_stream sample_answer).
Definition running_app : app :=
  set_para (mkPara AKEETA_CN SNIFFER_MODE 60000 60000 (str "1.0.1" ++ [0]) (zeros 65) false false false false true) sample_app.
Lemma sample_answer_ok : answer_ok sample_image sample_answer.
Proof.
  repeat split; try evaluate; try done; repeat first [constructor | evaluate]; try done; repeat split; try evaluate; try done.
Qed.

(** ** The claims *)

(** Once the task has been told to fetch a firmware file, it runs to the
    restart with the file in place. *)
Lemma update_installs {C} `{NorChipLaws C, !NorReliable C, CloudEnv, JsonText, BlockCipher, OtaEnv}
    a o (h : hw C) addr n image u host resource w ticks :
  partition_ok addr n (len image) -> partion_info_get = Some (addr, n) -> is_bytes image ->
  md5 image = url_md5 u -> ota_size u = len image -> version_ok a ->
  ya_http_host u = Some host -> ya_http_resource u = Some resource -> 0 ∈ ota_ver u /\ len (cstr (ota_ver u)) <= 32 ->
  0 <= ya_http_connect_server (cstr host) (ya_http_port u) -> (forall r, 0 <= sock_write r) ->
  answer_ok image w -> ordered u (chip h) w YA_HTTP_START o h -> alone ((a, o), h) ->
  (length (r_rest w) + 9 <= length ticks)%nat ->
  exists t', for_each ticks ya_http_ota_app_step ((a, o), h) = Reset t' /\ ready_to_boot addr n image (chip h) (chip t'.2).
Proof.
  intros Hp Hi Hb Hm Hs Hv Hh Hr Hn Hc Hw Ha Ho Hal Hl. rewrite steps_alone by done.
  pose proof (wp_turns a addr n image u (chip h) Hp Hi Hb Hm Hv host resource Hh Hr Hn Hc Hw ticks w o h
    (fun t => ready_to_boot addr n image (chip h) (chip t.2)) Hs Ha Ho Hl) as Hwp.
  unfold wp in Hwp. destruct (for_each _ _ _) as [| |t']; [by destruct Hwp|by destruct Hwp|]. exists t'. split; [done|]. by apply Hwp.
Qed.

(** C24: With the download for the MCU idle and no command waiting (so that the
    task serves the firmware download alone), and not already waiting to reboot,
    the task restarts the device, whatever the network and the server send, only
    from a state in which the package in flash has the digest the cloud
    announced. *)
Theorem ota_restarts_only_verified {C} `{NorChipLaws C, CloudEnv, JsonText, BlockCipher, OtaEnv}
    ticks (t t' : (app * ota) * hw C) :
  alone t -> wifi_state t <> YA_WAIT_TO_REBOOT -> for_each ticks ya_http_ota_app_step t = Reset t' ->
  exists s h, verified (s, h) /\ wifi_state (s, h) = YA_WAIT_TO_REBOOT /\ otaHal_done (s, log (EvDelay 2000) h) = Reset t'.
Proof. intros Ht Hw. rewrite steps_alone by done. by apply restart_after_check. Qed.

Lemma ota_restarts_only_verified_witness : exists t' s h,
  for_each (replicate 11 0) ya_http_ota_app_step ((running_app, sample_ota), boot) = Reset t' /\
  verified (s, h) /\ otaHal_done (s, log (EvDelay 2000) h) = Reset t'.
Proof.
  assert (Hr : match for_each (replicate 11 0) ya_http_ota_app_step ((running_app, sample_ota), boot) with Reset _ => true | _ => false end = true)
    by (vm_compute; reflexivity).
  destruct (for_each (replicate 11 0) ya_http_ota_app_step ((running_app, sample_ota), boot)) as [| |t'] eqn:E; [discriminate|discriminate|].
  destruct (ota_restarts_only_verified (replicate 11 0) ((running_app, sample_ota), boot) t') as (s & h & Hv & _ & Hd);
    [split; reflexivity|discriminate|exact E|].
  exists t', s, h. split; [reflexivity|]. split; [exact Hv|exact Hd].
Defined.
