(* ===== verification/OtaCommand.v ===== *)
(** * From the cloud's command to the restart

    The address of the file is split, the command is checked and noted in
    flash, the file fetched, checked and handed to the boot loader; the
    firmware that starts then reports whether it is the one asked for. *)

From stdpp Require Import base numbers list strings.
From S2P Require Import Prelude Platform SpiFlash Flash CommonFunc HalTimer CJson SysTime.
From S2P Require Import DeviceTimer License MainQueue Cloud UserData AppMain UserDataProofs Aes OtaHttp Ota OtaProofs OtaSafety.

(** ** Addresses *)
Lemma prefix_of_b_self p s : prefix_of_b p (p ++ s) = true.
Proof. induction p as [|x p IH]; [done|]. cbn. by rewrite Z.eqb_refl. Qed.
Lemma strstr_self p s : strstr p (p ++ s) = Some (p ++ s).
Proof. unfold strstr. destruct (p ++ s) eqn:E; rewrite <- E, prefix_of_b_self; done. Qed.
Lemma strstr_none c s : c ∉ s -> strstr [c] s = None.
Proof.
  induction s as [|x s IH]; [done|]. intros Hn. apply not_elem_of_cons in Hn as [Hx Hn]. cbn.
  destruct (Z.eqb_spec c x); [done|]. cbn. by apply IH.
Qed.
Lemma strstr_at c l r : c ∉ l -> strstr [c] (l ++ c :: r) = Some (c :: r).
Proof.
  induction l as [|x l IH]; intros Hn; cbn.
  - by rewrite Z.eqb_refl.
  - apply not_elem_of_cons in Hn as [Hx Hn]. destruct (Z.eqb_spec c x); [done|]. cbn. by apply IH.
Qed.
Lemma before_app l r : before (l ++ r) r = l.
Proof. unfold before. rewrite length_app. replace (length l + length r - length r)%nat with (length l) by lia. apply take_app_length. Qed.

(** The digits of a port end at the slash. *)
Lemma atoi_port digits res : Forall (fun c => 48 <= c <= 57) digits -> digits <> [] ->
  atoi (digits ++ 47 :: res) = atoi digits.
Proof.
  intros Hd Hne. destruct digits as [|c ds]; [done|].
  assert (Hc : Forall (fun c => is_digit c = true) (c :: ds)).
  { eapply Forall_impl; [exact Hd|]. intros x Hx. unfold is_digit. zbool; done || lia. }
  assert (E : forall acc, CommonFunc.digits acc ((c :: ds) ++ 47 :: res) = CommonFunc.digits acc (c :: ds)).
  { intros acc. by rewrite digits_app by done. }
  apply Forall_cons in Hd as [Hc0 _]. unfold atoi.
  assert (S1 : skip_space ((c :: ds) ++ 47 :: res) = (c :: ds) ++ 47 :: res) by (cbn; unfold is_space; zbool; done || lia).
  rewrite S1, skip_space_digits by done.
  assert (Hm : forall s, match c :: s with 45 :: s' => - CommonFunc.digits 0 s' | 43 :: s' => CommonFunc.digits 0 s'
               | s' => CommonFunc.digits 0 s' end = CommonFunc.digits 0 (c :: s)).
  { intros s. destruct (decide (c = 45)); [lia|]. destruct (decide (c = 43)); [lia|].
    destruct c as [|p|p]; try done. repeat (destruct p as [p|p|]; try done). }
  cbn [List.app] in *. by rewrite !Hm, E.
Qed.

(** ["http://host/resource"] and ["http://host:port/resource"]. *)
Definition url_text (host : bytes) (port : option bytes) (resource : bytes) : bytes :=
  str "http://" ++ host ++ (match port with Some d => 58 :: d | None => [] end) ++ 47 :: resource.
Definition url_ok (host : bytes) (port : option bytes) (resource : bytes) : Prop :=
  no_nul host /\ 47 ∉ host /\ 58 ∉ host /\ no_nul resource /\
  match port with
  | Some d => Forall (fun c => 48 <= c <= 57) d /\ d <> []
  | None => 58 ∉ resource
  end.
Definition port_of (port : option bytes) : Z := match port with Some d => u16 (atoi d) | None => 80 end.

Section Address.
Context {T : Type}.
Lemma parser_url_ok host port resource n u (t : T) : url_ok host port resource ->
  ya_http_url u = Some (url_text host port resource ++ [0]) -> ya_http_host u = Some (zeros n) ->
  ya_http_resource u = Some (zeros n) -> len (url_text host port resource) < n ->
  ya_parser_url u t = Done (0, set_resource (Some (resource ++ zeros (n - len resource)))
    (set_port (port_of port) (set_host (Some (host ++ zeros (n - len host))) u))) t.
Proof.
  intros (Hh0&Hh47&Hh58&Hr0&Hp) Hu Hh Hr Hn. unfold url_text in Hn. rewrite !len_app, len_cons in Hn.
  pose proof (len_nonneg host). pose proof (len_nonneg resource). change (len (str "http://")) with 7 in Hn.
  assert (Hport : 0 <= len (match port with Some d => 58 :: d | None => [] end)) by apply len_nonneg.
  unfold ya_parser_url. rewrite Hu.
  assert (Hc : cstr (url_text host port resource ++ [0]) = url_text host port resource).
  { apply cstr_app_nul. unfold url_text, no_nul in *. rewrite !Forall_app, Forall_cons. split_and!; try done; [evaluate|].
    destruct port as [d|]; [|done]. constructor; [done|]. eapply Forall_impl; [apply Hp|]. cbn. lia. }
  rewrite Hc. unfold url_text. rewrite strstr_self.
  set (rest := host ++ _). change (drop 7 (str "http://" ++ rest)) with rest.
  assert (Hslash : strstr [47] (47 :: resource) = Some (47 :: resource)) by (apply (strstr_at 47 []), not_elem_of_nil).
  change (str ":") with [58]. change (str "/") with [47]. destruct port as [d|].
  - destruct Hp as [Hd Hne].
    change ((58 :: d) ++ 47 :: resource) with (58 :: d ++ 47 :: resource) in rest. unfold rest. rewrite (strstr_at 58) by done.
    rewrite Hh, before_app. change (drop 1 (58 :: ?x)) with x.
    erewrite bind_done by (unfold deref; erewrite bind_done by done; erewrite bind_done by (by apply (memcpy_zeros []); [done|lia]); reflexivity).
    cbn beta iota. change (host ++ 58 :: d ++ 47 :: resource) with (host ++ (58 :: d) ++ 47 :: resource).
    rewrite app_assoc, (strstr_at 47).
    2:{ rewrite elem_of_app, elem_of_cons. intros [?|[?|Hin]]; [done|done|]. eapply Forall_forall in Hd; [|exact Hin]. lia. }
    cbn [ya_http_resource set_port set_host]. rewrite Hr. erewrite bind_done by done. change (drop 1 (47 :: resource)) with resource.
    erewrite bind_done by (apply (memcpy_zeros []); [done|lia]). rewrite atoi_port by done. done.
  - unfold rest. cbn [List.app]. rewrite strstr_none by (rewrite elem_of_app, elem_of_cons; naive_solver).
    rewrite (strstr_at 47) by done. rewrite Hh, before_app.
    erewrite bind_done by (unfold deref; erewrite bind_done by done; erewrite bind_done by (by apply (memcpy_zeros []); [done|lia]); reflexivity).
    cbn beta iota. rewrite Hslash. cbn [ya_http_resource set_port set_host]. rewrite Hr. erewrite bind_done by done.
    change (drop 1 (47 :: resource)) with resource. by erewrite bind_done by (apply (memcpy_zeros []); [done|lia]).
Qed.
End Address.

(** ** The command *)

(** The texts of a command: the version is a common part and three digits. *)
Record order := mkOrder {
  q_size : bytes; q_base : bytes; q_new : bytes; q_host : bytes; q_port : option bytes; q_resource : bytes;
  q_sum : bytes; q_times : bytes; q_interval : bytes }.
Definition q_version (q : order) : bytes := q_base q ++ q_new q.
Definition q_url (q : order) : bytes := url_text (q_host q) (q_port q) (q_resource q).
Definition says (cmd : cJSON) (k : string) (v : bytes) : Prop :=
  exists p b, cJSON_GetObjectItem cmd (str k) = Some p /\ valuestring p = Some b /\ cstr b = v.
Definition order_in (root : cJSON) (q : order) : Prop :=
  exists cmd, cJSON_GetObjectItem root (str "data") = Some cmd /\ says cmd "size" (q_size q) /\
    says cmd "version" (q_version q) /\ says cmd "url" (q_url q) /\ says cmd "md5sum" (q_sum q) /\
    says cmd "failRetryTimes" (q_times q) /\ says cmd "failRetryInternal" (q_interval q).
Definition three_digits (l : bytes) : Prop := len l = 3 /\ Forall (fun c => 48 <= c <= 57) l.
Definition order_ok (q : order) (old digest : bytes) : Prop :=
  no_nul (q_base q) /\ is_bytes (q_base q) /\ 0 < len (q_base q) <= 29 /\ three_digits (q_new q) /\ three_digits old /\ atoi old < atoi (q_new q) /\
  url_ok (q_host q) (q_port q) (q_resource q) /\ 32 <= len (q_sum q) /\ md5_bytes_of 16 (q_sum q) (zeros 16) = (digest, true).
(** The parameters the download then has. *)
Definition order_url (q : order) (digest : bytes) : url_para :=
  let n := len (q_url q) + 1 in
  let i := atoi (q_interval q) in
  mkUrl (Some (q_url q ++ [0])) (Some (q_host q ++ zeros (n - len (q_host q))))
    (Some (q_resource q ++ zeros (n - len (q_resource q)))) (port_of (q_port q)) (atoi (q_times q))
    (if i <=? 0 then 5 * 1000 else i32 (i * 60 * 1000)) digest (q_version q ++ zeros (65 - len (q_version q)))
    (u32 (atoi (q_size q))).

(** ** The record of a pending update *)

(** The flag and the version asked for. *)
Definition pending (v : bytes) : bytes := 1 :: v ++ zeros (63 - len v).
Definition short (v : bytes) : Prop := no_nul v /\ is_bytes v /\ len v <= 32.
Lemma len_pending v : len v <= 32 -> len (pending v) = 64.
Proof. intros Hv. unfold pending. rewrite len_cons, len_app, len_zeros by lia. lia. Qed.

Section Record.
Context {C : Type} `{NorChipLaws C, !NorReliable C} `{CloudEnv} `{JsonText} `{BlockCipher} `{OtaEnv}.

Lemma write_enable_ok u v a o (h : hw C) : cstr (ota_ver u) = v -> short v -> heap h = [] ->
  exists c, ya_write_ota_enable_into_flash u ((a, o), h) = Done (stale h) ((a, o), set_chip c h) /\
    holds c YA_OTA_DATA_ADDR (pending v) /\
    forall x, x < YA_OTA_DATA_ADDR \/ YA_OTA_DATA_ADDR + 4096 <= x -> nor_read c x = nor_read (chip h) x.
Proof.
  intros Hv (Hn&Hb&Hl) Hh. unfold ya_write_ota_enable_into_flash. pose proof (len_nonneg v).
  erewrite bind_done by (apply wr_ok; rewrite len_zeros; lia). rewrite Hv.
  change (<[Z.to_nat 0:=u8 1]> (zeros 64)) with ([1] ++ zeros 63).
  erewrite bind_done by (apply memcpy_zeros; [done|lia]). rewrite <- app_assoc. change ([1] ++ v ++ zeros (63 - len v)) with (pending v).
  destruct (write_flash_spec YA_OTA_DATA_ADDR (pending v) 64 1 (a, o) h) as (c&E&Hc&Hf); try done; try lia; try (rewrite len_pending by lia; lia).
  { constructor; [unfold is_u8; lia|]. apply is_bytes_app. split; [done|apply is_bytes_zeros]. }
  exists c. split; [exact E|]. split; [|done]. by rewrite slice_full in Hc by (rewrite len_pending; lia).
Qed.

(** Two short strings in cleared arrays compare as strings. *)
Lemma padded_eq v w n : no_nul v -> no_nul w -> len v <= n -> len w <= n ->
  (v ++ zeros (n - len v) ==? w ++ zeros (n - len w)) = (v ==? w).
Proof.
  intros Hv Hw Lv Lw. destruct (bool_decide_reflect (v = w)) as [->|Hne]; [by apply bool_decide_true|].
  apply bool_decide_false. intros E. apply Hne. apply (f_equal (fun l => cstr (l ++ [0]))) in E. rewrite <- !app_assoc in E.
  assert (Hz : forall k, 0 <= k -> zeros k ++ [0] = 0 :: zeros k).
  { intros k Hk. unfold zeros. change [0] with (replicate 1 0). rewrite <- replicate_add.
    by replace (Z.to_nat k + 1)%nat with (S (Z.to_nat k)) by lia. }
  rewrite !Hz, !cstr_app_nul in E by (done || lia). done.
Qed.

(** The firmware that starts compares itself with the record, and clears it. *)
Lemma read_result_ok v a o (h : hw C) : holds (chip h) YA_OTA_DATA_ADDR (pending v) -> heap h = [] -> short v ->
  0 ∈ cur_version (para a) -> len (cstr (cur_version (para a))) <= 32 ->
  exists o' h', ya_read_ota_result_from_flash ((a, o), h) = Done 0 ((a, o'), h') /\
    ota_result_upload_enable o' = (if v ==? cstr (cur_version (para a)) then YA_NORMAL_WITH_OTA_SUCCESS else YA_NORMAL_WITH_OTA_FAILE) /\
    holds (chip h') YA_OTA_DATA_ADDR (zeros 64) /\ heap h' = [].
Proof.
  intros Hc Hh (Hn&Hb&Hl) Hz Hw. unfold ya_read_ota_result_from_flash. pose proof (len_nonneg v). set (w := cstr (cur_version (para a))) in *.
  pose proof (len_nonneg w). assert (Hwn : no_nul w) by apply cstr_is_no_nul.
  assert (Hpl : len (pending v) = 64) by (apply len_pending; lia).
  erewrite bind_done by (apply read_fix_holds; try done; rewrite ?Hpl; done || lia).
  assert (Ep : splice (zeros 64) 0 (take (Z.to_nat 64) (pending v)) = pending v).
  { rewrite take_ge by (unfold len in Hpl; lia). unfold splice. cbn [take List.app Z.to_nat].
    rewrite drop_ge, app_nil_r; [done|]. change (length (zeros 64)) with 64%nat. unfold len in Hpl. lia. }
  rewrite Ep. cbn [Z.eqb negb]. erewrite bind_done by (by eapply (rd_at _ [])). change (0 <? 1) with true. cbn iota.
  erewrite bind_done by reflexivity. cbn [fst]. erewrite bind_done by (apply strcpy_zeros; [done|fold w; lia]). fold w.
  erewrite bind_done by reflexivity.
  erewrite bind_done.
  2:{ apply (rdn_at _ [1] (v ++ zeros (32 - len v)) (zeros 31)); [|done|rewrite len_app, len_zeros by lia; unfold VERSION_LEN; lia].
      unfold pending. rewrite <- app_assoc. cbn [List.app]. do 2 f_equal. rewrite (zeros_split (32 - len v)) by lia. f_equal. f_equal. lia. }
  erewrite bind_done.
  2:{ apply (rdn_at _ [] (w ++ zeros (32 - len w)) [0]); [|done|rewrite len_app, len_zeros by lia; unfold VERSION_LEN; lia].
      cbn [List.app]. rewrite <- app_assoc. f_equal. rewrite (zeros_split (32 - len w)) by lia. f_equal.
      by replace (33 - len w - (32 - len w)) with 1 by lia. }
  rewrite padded_eq by (done || lia). erewrite bind_done by reflexivity. cbn [fst snd].
  match goal with |- context [((?a1, ?o1), ?h1)] => destruct (write_flash_spec YA_OTA_DATA_ADDR (zeros 64) 64 1 (a1, o1) h1) as (c&E&Hc'&_) end;
    try done; try lia; [apply is_bytes_zeros|].
  erewrite bind_done by exact E. eexists _, _. split; [reflexivity|]. split; [done|]. split; [exact Hc'|done].
Qed.
(** Without a record to act on nothing is claimed. *)
Lemma read_result_cleared a o (h : hw C) : holds (chip h) YA_OTA_DATA_ADDR (zeros 64) -> heap h = [] ->
  ya_read_ota_result_from_flash ((a, o), h) = Done 0 ((a, o), set_heap [] (live h) h).
Proof.
  intros Hc Hh. unfold ya_read_ota_result_from_flash.
  by erewrite bind_done by (apply read_fix_holds; try done; rewrite ?len_zeros; done || lia).
Qed.
(** The globals when the record is read. *)
Definition started (o : ota) : ota :=
  set_mcu (upd_mod (fun _ => zero_module ya_mcu_ota_download_addr) (mcu o))
    (set_wifi (upd_mod (fun _ => zero_module ya_get_ota_download_addr) (wifi o)) o).
Lemma app_init_runs a o o' (h h' : hw C) : ya_read_ota_result_from_flash ((a, started o), h) = Done 0 ((a, o'), h') ->
  exists o1, ya_http_ota_app_init ((a, o), h) = Done tt ((a, o1), h') /\ ota_result_upload_enable o1 = ota_result_upload_enable o'.
Proof.
  intros E. unfold ya_http_ota_app_init. do 2 erewrite bind_done by reflexivity. cbn [fst snd].
  erewrite bind_done by (destruct o as [[] [] ? ? ? ? ? ?]; exact E). eexists. split; [reflexivity|done].
Qed.
End Record.

(** The record written when an update is accepted survives the restart:
    the task that starts then finds the update successful exactly when it
    runs the version asked for, whatever the RAM held; and it says so once,
    for the next start finds nothing to report. *)
Theorem ota_result_after_restart {C} `{NorChipLaws C, !NorReliable C, CloudEnv, JsonText, BlockCipher, OtaEnv} a a1 o (h : hw C) u :
  short (cstr (ota_ver u)) -> heap h = [] -> 0 ∈ cur_version (para a1) -> len (cstr (cur_version (para a1))) <= 32 ->
  exists h1, ya_write_ota_enable_into_flash u ((a, o), h) = Done (stale h) ((a, o), h1) /\
  forall o0, exists o1 h2, ya_http_ota_app_init ((a1, o0), reboot h1) = Done tt ((a1, o1), h2) /\
    ota_result_upload_enable o1 = (if cstr (ota_ver u) ==? cstr (cur_version (para a1)) then YA_NORMAL_WITH_OTA_SUCCESS
                                   else YA_NORMAL_WITH_OTA_FAILE) /\
  forall o3, exists o4 h3, ya_http_ota_app_init ((a1, o3), reboot h2) = Done tt ((a1, o4), h3) /\
    ota_result_upload_enable o4 = ota_result_upload_enable o3.
Proof.
  intros Hv Hh Hz Hl. destruct (write_enable_ok u _ a o h eq_refl Hv Hh) as (c&E&Hc&_). exists (set_chip c h). split; [done|].
  intros o0. destruct (read_result_ok (cstr (ota_ver u)) a1 (started o0) (reboot (set_chip c h))) as (o1&h2&E1&Hu1&Hc1&Hh1); try done.
  destruct (app_init_runs _ o0 _ _ _ E1) as (o2&E2&Hu2). exists o2, h2. split; [exact E2|]. split; [by rewrite Hu2|].
  intros o3. edestruct (app_init_runs a1 o3) as (o4&E4&Hu4); [by apply (read_result_cleared _ _ (reboot h2))|]. eexists _, _. by split; [exact E4|].
Qed.
Lemma ota_result_after_restart_witness : exists h1 o1 h2,
  ya_write_ota_enable_into_flash sample_url ((running_app, sample_ota), boot) = Done 0 ((running_app, sample_ota), h1) /\
  ya_http_ota_app_init ((running_app, sample_ota), reboot h1) = Done tt ((running_app, o1), h2) /\
  ota_result_upload_enable o1 = YA_NORMAL_WITH_OTA_FAILE.
Proof.
  destruct (ota_result_after_restart running_app running_app sample_ota boot sample_url) as (h1 & E & Hr);
    [repeat split; evaluate|reflexivity|evaluate|evaluate|].
  destruct (Hr sample_ota) as (o1 & h2 & E1 & Hu & _). exists h1, o1, h2. split; [exact E|]. split; [exact E1|exact Hu].
Defined.

Section Command.
Context {C : Type} `{NorChipLaws C, !NorReliable C} `{CloudEnv} `{JsonText} `{BlockCipher} `{OtaEnv}.
Context (a : app) (q : order) (old digest : bytes).
Context (Hq : order_ok q old digest).
Context (Hcur : 0 ∈ cur_version (para a)) (Hcur' : cstr (cur_version (para a)) = q_base q ++ old).
(** No test run of updates is going on. *)
Context (Htest : cstr (drop (Z.to_nat o_ota_url) (ud a)) = []).

Lemma wp_prop_text cmd k v o (h : hw C) Q R : says cmd k v -> Q (Some v) ((a, o), h) -> wp (prop_text cmd k) Q R ((a, o), h).
Proof.
  intros (p&b&Hp&Hb&Hv) HQ. unfold prop_text. rewrite Hp. wstep. eapply wp_deref; [exact Hb|]. apply wp_ret. by rewrite Hv.
Qed.
Lemma wp_alloc_zero n o (h : hw C) Q R : 0 < n -> heap h = [] ->
  (forall h', moved 1 h h' -> Q (Some (zeros n)) ((a, o), h')) -> wp (alloc_zero n) Q R ((a, o), h).
Proof.
  intros Hn Hh HQ. unfold alloc_zero. wstep. apply wp_alloc_moved; [lia| |intros h1 [?|?] _; [lia|done]].
  intros b h1 _ _ M. apply wp_ret. by apply HQ.
Qed.

(** Three digits after a common part. *)
Lemma digit_at_in l pre x post o (h : hw C) Q R : l = pre ++ x :: post -> 48 <= x <= 57 ->
  Q true ((a, o), h) -> forall i, i = len pre -> wp (digit_at l i) Q R ((a, o), h).
Proof.
  intros Hl Hx HQ i ->. unfold digit_at. wstep. eapply wp_done; [by eapply (rd_at _ pre)|]. apply wp_ret.
  assert ((48 <=? x) && (x <=? 57) = true) as -> by (zbool; done || lia). done.
Qed.
Lemma wp_version_newer o (h : hw C) Q R :
  Q (Some true) ((a, o), h) ->
  wp (version_newer (q_version q ++ zeros (65 - len (q_version q))) ((q_base q ++ old) ++ zeros (65 - len (q_base q ++ old)))) Q R ((a, o), h).
Proof.
  intros HQ. destruct Hq as (Hb0&Hbb&Hbl&[Hn3 Hnd]&[Ho3 Hod]&Hlt&_). unfold q_version, version_newer.
  destruct (q_new q) as [|x [|y [|z [|]]]] eqn:En; try (unfold len in Hn3; cbn in Hn3; lia).
  destruct old as [|x' [|y' [|z' [|]]]] eqn:Eo; try (unfold len in Ho3; cbn in Ho3; lia).
  pose proof Hnd as Hnd'. pose proof Hod as Hod'.
  repeat match goal with Hf : Forall _ (_ :: _) |- _ => lazymatch Hf with Hnd' => fail | Hod' => fail | _ => apply Forall_cons in Hf as [? Hf] end end.
  assert (Hno : forall l, Forall (fun c => 48 <= c <= 57) l -> no_nul (q_base q ++ l)).
  { intros l Hl. apply Forall_app. split; [done|]. eapply Forall_impl; [exact Hl|]. cbn. lia. }
  assert (Hlen : forall l, len l = 3 -> len (q_base q ++ l) = len (q_base q) + 3) by (intros l Hl; rewrite len_app; lia).
  rewrite cstr_zeros by (apply Hno; done) || (rewrite Hlen by done; lia). rewrite !Hlen by done.
  replace (len (q_base q) + 3 - 3) with (len (q_base q)) by lia. rewrite <- !app_assoc. cbn [List.app].
  set (z1 := zeros _). set (base := q_base q) in *.
  assert (Hd : forall k v pre post Q', v = pre ++ k :: post -> 48 <= k <= 57 -> Q' true ((a, o), h) -> wp (digit_at v (len pre)) Q' R ((a, o), h))
    by (intros; by eapply digit_at_in).
  wstep. eapply wp_done; [by eapply (rdn_at _ [] base)|]. wstep. eapply wp_done; [by eapply (rdn_at _ [] base)|].
  rewrite bool_decide_true by done. cbn [negb]. wstep.
  assert (E1 : len base + 1 = len (base ++ [x]) /\ len base + 1 = len (base ++ [x']) /\
    len base + 2 = len (base ++ [x; y]) /\ len base + 2 = len (base ++ [x'; y'])) by (rewrite !len_app; done).
  destruct E1 as (E1&E1'&E2&E2').
  wstep. wstep. eapply Hd; [done|lia|]. wstep. eapply Hd; [done|lia|]. apply wp_ret. cbn [andb].
  wstep. wstep. rewrite E1. eapply Hd; [by rewrite <- app_assoc|lia|]. wstep. rewrite <- E1, E1'.
  eapply Hd; [by rewrite <- app_assoc|lia|]. apply wp_ret. cbn [andb].
  wstep. rewrite E2. eapply Hd; [by rewrite <- app_assoc|lia|]. wstep. rewrite <- E2, E2'.
  eapply Hd; [by rewrite <- app_assoc|lia|]. apply wp_ret. cbn [andb].
  wstep. apply wp_zoom. unfold ya_check_enter_ota_test_mode, ud_string. wstep. wstep. apply wp_gets. apply wp_ret. cbn [fst snd].
  rewrite Htest. apply wp_ret. cbn [len length Z.of_nat Z.eqb fst snd]. apply wp_ret.
  rewrite !(drop_len base) by done.
  assert (Hc3 : forall l, Forall (fun c => 48 <= c <= 57) l -> cstr (l ++ z1) = l).
  { intros l Hl. apply cstr_zeros; [|lia]. eapply Forall_impl; [exact Hl|]. cbn. lia. }
  change (x :: y :: z :: z1) with ([x; y; z] ++ z1). change (x' :: y' :: z' :: z1) with ([x'; y'; z'] ++ z1). rewrite !Hc3 by done.
  destruct (Z.ltb_spec (atoi [x; y; z]) (atoi [x'; y'; z'])); [lia|]. destruct (Z.eqb_spec (atoi [x; y; z]) (atoi [x'; y'; z'])); [lia|].
  exact HQ.
Qed.

Definition with_url (u : url_para) (o : ota) : ota := set_wifi (upd_url (fun _ => u) (wifi o)) o.
Lemma wp_dupd_url f u o (h : hw C) Q R : d_url (wifi o) = u -> Q tt ((a, with_url (f u) o), h) ->
  wp (dupd Wifi (upd_url f)) Q R ((a, o), h).
Proof. intros <- HQ. apply wp_puts. exact HQ. Qed.

Lemma wp_require_url cmd u o (h : hw C) Q R :
  says cmd "url" (q_url q) -> says cmd "md5sum" (q_sum q) -> says cmd "failRetryTimes" (q_times q) ->
  says cmd "failRetryInternal" (q_interval q) ->
  d_url (wifi o) = u -> url_md5 u = zeros 16 -> heap h = [] ->
  (forall h', moved 3 h h' ->
     Q (Some tt) ((a, with_url (set_size (ota_size u) (set_ver (ota_ver u) (order_url q digest))) o), h')) ->
  wp (require_url Wifi cmd) Q R ((a, o), h).
Proof.
  intros Su Sm St Si Hu Hm Hh HQ. destruct Hq as (_&_&_&_&_&_&Hok&Hs32&Hdig). unfold require_url. pose proof (len_nonneg (q_url q)).
  wstep. eapply wp_prop_text; [exact Su|]. cbv zeta. set (n := len (q_url q) + 1).
  wstep. apply wp_alloc_zero; [lia|done|]. intros h1 M1. wstep. eapply wp_dupd_url; [exact Hu|]. cbn [fmap option_fmap option_map].
  wstep. apply wp_ret. wstep. apply wp_alloc_zero; [lia|by apply M1|]. intros h2 M2. wstep. eapply wp_dupd_url; [reflexivity|].
  wstep. apply wp_ret. wstep. apply wp_alloc_zero; [lia|by apply M2, M1|]. intros h3 M3. wstep. eapply wp_dupd_url; [reflexivity|].
  wstep. apply wp_ret. wstep. apply wp_gets. cbn [snd fst]. wstep.
  eapply wp_done; [apply (parser_url_ok (q_host q) (q_port q) (q_resource q) n);
    [done|reflexivity|reflexivity|reflexivity|fold (q_url q); lia]|].
  cbn beta iota. wstep. eapply wp_dupd_url; [reflexivity|]. wstep. apply wp_ret. cbn [Z.eqb]. cbn beta iota.
  wstep. eapply wp_prop_text; [exact Sm|]. wstep. apply wp_ret. destruct (Z.ltb_spec (len (q_sum q)) 32); [lia|]. cbn [negb].
  cbn [url_md5 set_resource set_port set_host set_url with_url upd_url wifi set_wifi d_url]. rewrite Hm, Hdig.
  wstep. eapply wp_dupd_url; [reflexivity|]. wstep. apply wp_ret. wstep. eapply wp_prop_text; [exact St|].
  wstep. eapply wp_dupd_url; [reflexivity|]. wstep. eapply wp_prop_text; [exact Si|]. cbv zeta. wstep. eapply wp_dupd_url; [reflexivity|].
  apply wp_ret. pose proof (moved_trans _ _ _ _ _ M1 (moved_trans _ _ _ _ _ M2 M3)) as M.
  specialize (HQ h3 ltac:(by eapply moved_eq; [exact M|])). unfold order_url in HQ. subst u. by destruct o as [[? [] ? ?] ? ? ? ? ? ? ?].
Qed.

(** What the command is answered with: 0, and the parameters it gave. *)
Lemma wp_require_handle root buf o (h : hw C) Q R : cJSON_Parse (cstr buf) = Some root -> order_in root q ->
  d_url (wifi o) = zero_url -> heap h = [] ->
  (forall h', moved 3 h h' -> Q 0 ((a, with_url (order_url q digest) o), h')) ->
  wp (ya_ota_require_handle Wifi buf) Q R ((a, o), h).
Proof.
  intros Hroot (cmd&Hcmd&Ss&Sv&Su&Sm&St&Si) Hu Hh HQ. pose proof Hq as (Hb0&Hbb&Hbl&[Hn3 Hnd]&[Ho3 Hod]&Hlt&_).
  assert (Hvl : len (q_version q) = len (q_base q) + 3) by (unfold q_version; rewrite len_app; lia).
  unfold ya_ota_require_handle, ya_get_ver_string. wstep. wstep. apply wp_gets. cbn [fst].
  eapply wp_done; [apply strcpy_zeros; [done|rewrite Hcur', len_app; lia]|]. rewrite Hcur'.
  wstep. rewrite (parse_some _ _ Hroot). eapply wp_done; [by apply take_spare|]. cbn beta iota.
  wstep. unfold require_body. wstep. rewrite Hcmd. apply wp_ret. wstep. eapply wp_prop_text; [exact Ss|].
  wstep. eapply wp_dupd_url; [exact Hu|]. wstep. eapply wp_prop_text; [exact Sv|].
  wstep. wstep. apply wp_ret.
  destruct (Z.ltb_spec VERSION_LEN (len (q_version q))); [unfold VERSION_LEN in *; lia|].
  destruct (Z.ltb_spec (len (q_version q)) 4); [lia|]. cbn [orb negb]. cbn beta iota.
  wstep. apply wp_gets. cbn [snd fst]. wstep.
  assert (Hnul : no_nul (q_version q)).
  { apply Forall_app. split; [done|]. eapply Forall_impl; [exact Hnd|]. cbn. lia. }
  eapply wp_done.
  { cbn. apply strcpy_zeros; [apply elem_of_app; right; left|]. rewrite cstr_app_nul by done. lia. }
  rewrite cstr_app_nul by done. wstep. eapply wp_dupd_url; [reflexivity|]. apply wp_version_newer. cbn [negb].
  wstep. eapply wp_require_url; try done. intros h1 M1. apply wp_ret. cbn beta iota. change (0 =? YA_HTTP_SUCCESS) with false. cbn iota.
  wstep. apply wp_upd_hw, wp_ret.
  match goal with |- Q 0 ((_, ?o1), _) => replace o1 with (with_url (order_url q digest) o) by (by destruct o as [[] ? ? ? ? ? ? ?]) end. apply HQ.
  destruct M1 as [M1 M1']. split; [|intros _; by apply M1']. rewrite M1. cbn. unfold set_heap. cbn. f_equal. lia.
Qed.

(** The machine with memory to spare and the same flash and queues. *)
Definition calm (h h' : hw C) : Prop := heap h' = [] /\ chip h' = chip h /\ stale h' = stale h /\ queues h' = queues h.
Lemma calm_moved n h h' : moved n h h' -> heap h = [] -> calm h h'.
Proof. intros [E Hp] Hh. unfold calm. rewrite Hp by done. by rewrite E. Qed.
Lemma calm_talked n h h' : talked n h h' -> heap h = [] -> calm h h'.
Proof.
  intros (msgs&E&Hp) Hh. destruct (log_fields (EvCloudMsg <$> msgs) h) as (Ec&_&_&Eq&_&Es&_). unfold calm. rewrite Hp by done. rewrite E. done.
Qed.
Lemma calm_trans h h1 h2 : calm h h1 -> calm h1 h2 -> calm h h2.
Proof. intros (_&E1&E2&E3) (E4&E5&E6&E7). unfold calm. by rewrite E5, E6, E7. Qed.
Lemma calm_closed h h' : (h' = h \/ exists e, h' = log e h) -> heap h = [] -> calm h h'.
Proof. intros [->|[e ->]] Hh; done. Qed.
Lemma calm_refl h : heap h = [] -> calm h h.
Proof. done. Qed.

Lemma wp_free_calm {A} (p : option A) (o : ota) (h : hw C) Q R : heap h = [] ->
  (forall h', calm h h' -> Q tt ((a, o), h')) -> wp (free_if p) Q R ((a, o), h).
Proof. intros Hh HQ. destruct p; [apply wp_upd_hw|apply wp_ret]; by apply HQ. Qed.

(** The old parameters are given back. *)
Lemma wp_ota_init o (h : hw C) Q R : heap h = [] ->
  (forall m' h', ya_http_state m' = ya_http_state (d_mod (wifi o)) -> ota_buffer m' = ota_buffer (d_mod (wifi o)) -> calm h h' ->
     Q tt ((a, set_wifi (mkSide (d_resp (wifi o)) zero_url (d_file (wifi o)) m') (set_upload 0 o)), h')) ->
  wp ya_wifi_ota_init Q R ((a, o), h).
Proof.
  intros Hh HQ. unfold ya_wifi_ota_init. wstep. apply wp_puts. wstep. apply wp_close. intros m' h1 Es Eb Eh.
  pose proof (calm_closed _ _ Eh Hh) as C1. wstep. unfold ya_free_http_url_resource. wstep. apply wp_gets. cbn [snd fst].
  wstep. apply wp_free_calm; [apply C1|]. intros h2 C2. wstep. apply wp_puts.
  wstep. apply wp_free_calm; [apply C2|]. intros h3 C3. wstep. apply wp_puts.
  wstep. apply wp_free_calm; [apply C3|]. intros h4 C4. apply wp_puts. apply wp_puts.
  apply (HQ (set_retries (ya_ota_retry_timer m') 0 m') h4); [exact Es|exact Eb|].
  eapply calm_trans; [exact C1|]. eapply calm_trans; [exact C2|]. by eapply calm_trans.
Qed.

(** The download is about to start, and noted. *)
Record accepted (o o' : ota) (h h' : hw C) : Prop := {
  acc_state : ya_http_state (d_mod (wifi o')) = YA_HTTP_START;
  acc_url : d_url (wifi o') = order_url q digest;
  acc_buffer : ota_buffer (d_mod (wifi o')) = ota_buffer (d_mod (wifi o));
  acc_net : net o' = net o;
  acc_mcu : mcu o' = mcu o;
  acc_heap : heap h' = [];
  acc_queues : queues h' = queues h;
  acc_record : holds (chip h') YA_OTA_DATA_ADDR (pending (q_version q));
  acc_frame : forall x, x < YA_OTA_DATA_ADDR \/ YA_OTA_DATA_ADDR + 4096 <= x -> nor_read (chip h') x = nor_read (chip h) x;
}.
Lemma version_fits : version_ok a /\ short (q_version q) /\ cstr (ota_ver (order_url q digest)) = q_version q.
Proof.
  pose proof Hq as (Hb0&Hbb&Hbl&[Hn3 Hnd]&[Ho3 Hod]&Hlt&_). assert (Hvl : len (q_version q) = len (q_base q) + 3) by (unfold q_version; rewrite len_app; lia).
  assert (Hs : short (q_version q)).
  { split; [|split; [|lia]]; apply Forall_app; (split; [done|]); (eapply Forall_impl; [exact Hnd|]); unfold is_u8; cbn; lia. }
  split; [split; [done|rewrite Hcur', len_app; lia]|]. split; [done|]. cbn. apply cstr_zeros; [apply Hs|lia].
Qed.

Lemma wp_wifi_require m buf root o (h : hw C) Q R : m_addr m = Some buf -> cJSON_Parse (cstr buf) = Some root -> order_in root q ->
  heap h = [] -> stale h = 0 -> (forall o' h', accepted o o' h h' -> Q tt ((a, o'), h')) ->
  wp (wifi_require m) Q R ((a, o), h).
Proof.
  intros Hm Hroot Hin Hh Hs HQ. destruct version_fits as (Hv&Hshort&Hcv). unfold wifi_require. wstep. apply wp_gets. cbn [snd fst]. wstep.
  assert (Hr : forall Q', (forall h', calm h h' -> Q' tt ((a, o), h')) ->
    wp (if ota_file_addr (d_mod (wifi o)) =? 0 then ya_report_ota_result (-1) ;; ret tt else ret tt) Q' R ((a, o), h)).
  { intros Q' HQ'. wstep; [|by apply wp_ret, HQ']. wstep. apply wp_report_ota; [done..|]. intros _ h1 T. apply wp_ret, HQ'.
    by eapply calm_talked. }
  apply Hr. intros h1 C1. wstep. apply wp_ota_init; [apply C1|]. intros m' h2 Es Eb C2. wstep. eapply wp_deref; [exact Hm|].
  wstep. eapply wp_require_handle; [exact Hroot|done|done|apply C2|]. intros h3 M3. pose proof (calm_moved _ _ _ M3 (proj1 C2)) as C3.
  cbn [Z.ltb Z.compare orb]. change (0 =? YA_HTTP_SUCCESS) with false. cbn iota. wstep. apply wp_gets. cbn [snd fst]. wstep.
  pose proof (calm_trans _ _ _ C1 (calm_trans _ _ _ C2 C3)) as (Eh&Ec&Est&Eq).
  set (o1 := with_url _ _). change (d_url (wifi o1)) with (order_url q digest).
  destruct (write_enable_ok (order_url q digest) (q_version q) a o1 h3) as (c&E&Hc&Hf); [done|done|done|].
  eapply wp_done; [exact E|]. rewrite Est, Hs. cbn [Z.eqb negb]. apply wp_puts, HQ. constructor; try done. intros x Hx. cbn. by rewrite Hf, Ec.
Qed.

(** The turn in which the task gets the command. *)
Lemma wp_command_step tick m buf root o (h : hw C) Q R : m_type m = YA_WIFI_OTA_REQUIRE -> m_addr m = Some buf ->
  cJSON_Parse (cstr buf) = Some root -> order_in root q -> heap h = [] -> stale h = 0 ->
  ya_http_state (d_mod (wifi o)) = YA_HTTP_IDLE -> ya_http_state (d_mod (mcu o)) = YA_HTTP_IDLE -> queues h QOta = [m] ->
  (forall o' h', accepted o o' (set_queue QOta [] h) h' -> Q tt ((a, o'), h')) ->
  wp (ya_http_ota_app_step tick) Q R ((a, o), h).
Proof.
  intros Hty Hm Hroot Hin Hh Hs Hw Hmc Hqu HQ. unfold ya_http_ota_app_step. wstep. unfold ya_wifi_ota_download.
  wstep. apply wp_gets. cbn [snd fst]. rewrite Hw. apply wp_ret. wstep. unfold ya_mcu_ota_download. wstep. apply wp_gets. cbn [snd fst].
  rewrite Hmc. apply wp_ret. wstep. unfold wp at 1, ya_hal_os_queue_recv. rewrite Hqu. cbn beta iota. wstep. rewrite Hty. cbn [Z.eqb YA_WIFI_OTA_REQUIRE].
  eapply wp_wifi_require; [exact Hm|exact Hroot|done|done|done|]. intros o1 h1 A. rewrite Hm. apply wp_upd_hw, HQ. destruct A. by constructor.
Qed.
End Command.

(** ** From the command to the new firmware *)

(** A device at rest with a command in its queue, a file that fits the
    partition beside the record, and a server that has it. *)
Record commanded {C} `{NorChip C, JsonText, BlockCipher, OtaEnv} (a : app) (q : order) (old image : bytes) (addr n : Z) (w : answer)
    (m : msg) (root : cJSON) (o : ota) (h : hw C) : Prop := {
  cmd_order : order_ok q old (md5 image);
  cmd_size : u32 (atoi (q_size q)) = len image;
  cmd_bytes : is_bytes image;
  cmd_running : 0 ∈ cur_version (para a) /\ cstr (cur_version (para a)) = q_base q ++ old;
  cmd_no_test : cstr (drop (Z.to_nat o_ota_url) (ud a)) = [];
  cmd_partition : partition_ok addr n (len image) /\ partion_info_get = Some (addr, n);
  cmd_beside : addr + n <= YA_OTA_DATA_ADDR \/ YA_OTA_DATA_ADDR + 4096 <= addr;
  cmd_server : 0 <= ya_http_connect_server (q_host q) (port_of (q_port q)) /\ forall r, 0 <= sock_write r;
  cmd_answer : answer_ok image w /\ net o = r_stream w;
  cmd_message : m_type m = YA_WIFI_OTA_REQUIRE /\ exists buf, m_addr m = Some buf /\ cJSON_Parse (cstr buf) = Some root;
  cmd_document : order_in root q;
  cmd_queue : queues h QOta = [m];
  cmd_idle : ya_http_state (d_mod (wifi o)) = YA_HTTP_IDLE /\ ya_http_state (d_mod (mcu o)) = YA_HTTP_IDLE;
  cmd_buffer : match ota_buffer (d_mod (wifi o)) with Some b => len b = 4096 | None => True end;
  cmd_machine : heap h = [] /\ stale h = 0;
}.

(** C6: From the cloud's command to the new firmware.  On an idle device with
    memory to spare and no factory test set up, with the command alone in its
    queue and naming a later version of the product running, the server reachable, its answer a status 200
    whose whole header arrives in one read and whose first piece of the file
    behind it has at least 64 bytes, the file as announced and of a size that
    fits the partition, which does not overlap the record of the version: the
    task accepts the command, notes the version, fetches the file in whatever
    further pieces it comes, checks it and restarts within as many turns as
    there are pieces and ten more.  (The indeterminate result of
    [ya_hal_flash_write] reads as 0, [stale h = 0].)  The partition then holds the
    file and both records for the boot loader, no byte of the flash beside the
    partition and the noted version has changed, and the firmware that starts
    reports success when it is the version asked for. *)
Theorem ota_command_installs {C} `{NorChipLaws C, !NorReliable C, CloudEnv, JsonText, BlockCipher, OtaEnv}
    a q old image addr n w m root o (h : hw C) ticks :
  commanded a q old image addr n w m root o h -> (length (r_rest w) + 10 <= length ticks)%nat ->
  exists t', for_each ticks ya_http_ota_app_step ((a, o), h) = Reset t' /\
    nor_bytes (chip t'.2) (package_addr addr n (len image)) (len image) = image /\
    nor_bytes (chip t'.2) (addr + n - 8192) 24 = boot_record addr n image /\
    nor_bytes (chip t'.2) (addr + n - 4096) 24 = boot_record addr n image /\
    (forall x, x < addr \/ addr + n <= x -> x < YA_OTA_DATA_ADDR \/ YA_OTA_DATA_ADDR + 4096 <= x ->
       nor_read (chip t'.2) x = nor_read (chip h) x) /\
    forall a1 o0, 0 ∈ cur_version (para a1) -> cstr (cur_version (para a1)) = q_version q ->
      exists o1 h1, ya_http_ota_app_init ((a1, o0), reboot t'.2) = Done tt ((a1, o1), h1) /\
        ota_result_upload_enable o1 = YA_NORMAL_WITH_OTA_SUCCESS.
Proof.
  intros [Hq Hsize Hby [Hc1 Hc2] Ht [Hp Hi] Hbe [Hsv Hsw] [Ha Hn] [Hty (buf&Hm&Hroot)] Hdoc Hqu [Hw Hmc] Hb [Hh Hs]] Hl.
  destruct ticks as [|k ticks]; [cbn in Hl; lia|]. cbn [for_each length] in *.
  destruct (version_fits a q old _ Hq Hc1 Hc2) as (Hv&Hshort&Hcv). pose proof Hq as (_&_&_&_&_&_&Hurl&_).
  destruct (wp_elim (ya_http_ota_app_step k) (fun _ t => exists o1 h1, t = ((a, o1), h1) /\ accepted q (md5 image) o o1 (set_queue QOta [] h) h1)
    ((a, o), h)) as ([]&t1&E1&o1&h1&->&A).
  { eapply wp_command_step; try done. intros o1 h1 A. by exists o1, h1. }
  rewrite (bind_done _ _ _ _ _ E1). destruct A as [As Au Ab An Am Ah Aq Ar Af].
  set (u := order_url q (md5 image)) in *.
  assert (Hlast : len (q_host q) < len (q_url q) + 1).
  { unfold q_url, url_text. rewrite !len_app. pose proof (len_nonneg (str "http://")).
    match goal with |- context [len (q_host q) + (?x + ?y)] => pose proof (len_nonneg (match q_port q with Some d => 58 :: d | None => [] end));
      pose proof (len_nonneg (47 :: q_resource q)) end. lia. }
  destruct (update_installs a o1 h1 addr n image u (q_host q ++ zeros (len (q_url q) + 1 - len (q_host q)))
    (q_resource q ++ zeros (len (q_url q) + 1 - len (q_resource q))) w ticks) as (t'&E'&Hf1&Hf2&Hf3&Hf4); try done.
  - unfold u. cbn [ota_ver order_url]. split; [apply zero_in|]; destruct Hshort as (_&_&?); [lia|]. change (q_version q ++ _) with (ota_ver u). rewrite Hcv. lia.
  - rewrite cstr_zeros; [done|apply Hurl|lia].
  - constructor; try done; [by rewrite Ab; destruct (ota_buffer (d_mod (wifi o)))|by rewrite An].
  - split; [cbn; by rewrite Am|cbn; by rewrite Aq].
  - lia.
  - exists t'. split; [exact E'|]. split; [done|]. split; [done|]. split; [done|]. split.
    + intros x Hx1 Hx2. rewrite Hf4 by done. by apply Af.
    + intros a1 o0 Hz1 Hz2. assert (Hrec : holds (chip (reboot t'.2)) YA_OTA_DATA_ADDR (pending (q_version q))).
      { eapply holds_frame; [|exact Ar]. intros x Hx. apply Hf4. rewrite len_pending in Hx by apply Hshort.
        assert (record_size 64 = 72) as E by done. rewrite E in Hx. lia. }
      destruct (read_result_ok (q_version q) a1 (started o0) (reboot t'.2)) as (o2&h2&E2&Hu2&_); try done; [by rewrite Hz2; apply Hshort|].
      destruct (app_init_runs _ o0 _ _ _ E2) as (o3&E3&Hu3). exists o3, h2. split; [done|]. by rewrite Hu3, Hu2, Hz2, bool_decide_true.
Qed.

Definition sample_order : order :=
  mkOrder (str "100") (str "1.0.") (str "002") (str "ota.example.com") None (str "fw.bin")
    (str "00000000000000006400000007070707") (str "3") (str "1").
Definition sample_command : cJSON :=
  jroot [jobj "data" [jstr "size" "100"; jstr "version" "1.0.002"; jstr "url" "http://ota.example.com/fw.bin";
    jstr "md5sum" "00000000000000006400000007070707"; jstr "failRetryTimes" "3"; jstr "failRetryInternal" "1"]].
(** Parsers are free to accept any text; this one knows one. *)
Definition command_text : JsonText :=
  json_of (fun s => if s ==? str "upgrade" then Some sample_command else None) (fun _ => Some (str "{}")).
Definition old_app : app :=
  set_para (mkPara AKEETA_CN SNIFFER_MODE 60000 60000 (str "1.0.001" ++ [0]) (zeros 65) false false false false true) sample_app.
Definition command_msg : msg := mkMsg 8 (Some (str "upgrade" ++ [0])) YA_WIFI_OTA_REQUIRE.
Definition idle_ota : ota := set_wifi (upd_mod (set_http YA_HTTP_IDLE) (wifi sample_ota)) sample_ota.
Lemma ota_command_installs_witness :
  exists t', for_each (replicate 12 0) (ya_http_ota_app_step (H1 := command_text)) ((old_app, idle_ota), set_queue QOta [command_msg] boot) = Reset t' /\
    nor_bytes (chip t'.2) (package_addr 0x100000 0x4000 100) 100 = sample_image.
Proof.
  destruct (ota_command_installs (H2 := command_text) old_app sample_order (str "001") sample_image 0x100000 0x4000 sample_answer command_msg sample_command
    idle_ota (set_queue QOta [command_msg] boot) (replicate 12 0)) as (t' & E & Hf & _).
  - constructor.
    + repeat split; first [evaluate | reflexivity].
    + reflexivity.
    + evaluate.
    + split; [evaluate|reflexivity].
    + reflexivity.
    + split; [repeat split; evaluate|reflexivity].
    + right. evaluate.
    + split; [evaluate|]. intros r. apply len_nonneg.
    + split; [exact sample_answer_ok|reflexivity].
    + split; [reflexivity|]. exists (str "upgrade" ++ [0]). split; reflexivity.
    + eexists. split; [reflexivity|]. repeat split; eexists _, _; (split; [reflexivity|split; reflexivity]).
    + reflexivity.
    + split; reflexivity.
    + exact I.
    + split; reflexivity.
  - evaluate.
  - exists t'. split; [exact E|exact Hf].
Defined.
