(* ===== verification/AtCmd.v ===== *)
(** * AT commands: [at/ya_atcmd.c]

    The factory tool types commands on the console: reading and setting the MAC
    address, writing the licences as JSON protected by a CRC, measuring the
    signal of a network, starting an update, changing the mode.  A command is
    handled in place in the buffer it was typed into, which the tokenizer cuts
    up.  The variant compiled is the one without [UART_POLLING_DATA]. *)

From stdpp Require Import base numbers list strings.
From S2P Require Import Prelude Platform SpiFlash Flash CommonFunc CJson License MainQueue Cloud Uart UserData Aes.

Definition CMD_RET_DATA_ERROR : Z := -1.
Definition ya_CMD_RET_SUCCESS : Z := 0.
Definition ya_CMD_RET_FAILURE : Z := 1.
Definition IOTX_PRODUCT_KEY_LEN : Z := 20.
Definition OTA_URL_CN : bytes := str "http://device-open.oss-cn-shanghai.aliyuncs.com/index/top/".
Definition OTA_URL_OVERSEA : bytes := str "http://oemapp-panel-us.s3.us-west-2.amazonaws.com/OtaFirmware/".

(** The file's globals and the static of [mystrtok], an offset in the command
    buffer (all its calls are on that buffer). *)
Record at_t := mkAt {
  pcmd_buffer : option bytes; strtok_last : option Z; md5_string : bytes; get_md5_string_flag : Z;
  enter_get_rssi_mode : Z; at_cmd_LOG_FLAG : Z }.
Definition set_pcmd v a := mkAt v (strtok_last a) (md5_string a) (get_md5_string_flag a) (enter_get_rssi_mode a) (at_cmd_LOG_FLAG a).
Definition set_last v a := mkAt (pcmd_buffer a) v (md5_string a) (get_md5_string_flag a) (enter_get_rssi_mode a) (at_cmd_LOG_FLAG a).
Definition set_md5 v f a := mkAt (pcmd_buffer a) (strtok_last a) v f (enter_get_rssi_mode a) (at_cmd_LOG_FLAG a).
Definition set_rssi v a := mkAt (pcmd_buffer a) (strtok_last a) (md5_string a) (get_md5_string_flag a) v (at_cmd_LOG_FLAG a).
Definition set_log v a := mkAt (pcmd_buffer a) (strtok_last a) (md5_string a) (get_md5_string_flag a) (enter_get_rssi_mode a) v.
Definition fresh_at : at_t := mkAt None None (zeros 33) 0 0 1.

(** The WLAN driver's address and the key-value store. *)
Class AtEnv := {
  wifi_get_mac_addr : bytes;
  ef_set_env_blob : bytes -> bytes -> Z;
  wifi_set_mac_addr : bytes -> Z;
}.
Class AtEnvLaws `{AtEnv} := {
  mac_len : len wifi_get_mac_addr = 6;
  mac_bytes : is_bytes wifi_get_mac_addr;
}.

(** ** Text *)
Definition at_cmd_hex2num (c : Z) : Z :=
  if (48 <=? c) && (c <=? 57) then c - 48
  else if (97 <=? c) && (c <=? 102) then c - 97 + 10
  else if (65 <=? c) && (c <=? 70) then c - 65 + 10
  else -1.

(** ["%02x%02x%02x%02x%02x%02x"], and with colons. *)
Definition mac_text (mac : bytes) : bytes := mjoin (hex_pad 2 <$> mac).
Fixpoint mac_colons (mac : bytes) : bytes :=
  match mac with
  | [] => []
  | [x] => hex_pad 2 x
  | x :: mac => hex_pad 2 x ++ 58 :: mac_colons mac
  end.

(** [sscanf(s, "%x", &v)]: white space, a sign, [0x], digits; nothing is stored
    without a digit.  Values over 32 bits saturate as [strtoul] does. *)
Fixpoint hex_number (acc : Z) (s : bytes) : Z :=
  match s with
  | c :: s => if 0 <=? at_cmd_hex2num c then hex_number (16 * acc + at_cmd_hex2num c) s else acc
  | [] => acc
  end.
Definition is_hex (s : bytes) : bool := match s with c :: _ => 0 <=? at_cmd_hex2num c | [] => false end.
Definition scan_hex (s : bytes) : option Z :=
  let s := skip_space s in
  let '(neg, s) := match s with
                   | c :: r => if c =? 45 then (true, r) else if c =? 43 then (false, r) else (false, s)
                   | [] => (false, s)
                   end in
  let s := match s with
           | z :: x :: r => if (z =? 48) && ((x =? 120) || (x =? 88)) && is_hex r then r else s
           | _ => s
           end in
  if is_hex s then
    let v := Z.min 4294967295 (hex_number 0 s) in Some (u32 (if neg then - v else v))
  else None.

(** [json_len]: each digit is shifted to its place and added to 16 bits; a
    shift by 32 or more is undefined. *)
Fixpoint json_len_of {T} (acc : Z) (token : bytes) : M T Z :=
  match token with
  | [] => ret acc
  | c :: rest =>
    if 32 <=? 4 * len rest then fail BadShift
    else json_len_of (u16 (acc + at_cmd_hex2num c * 2 ^ (4 * len rest))) rest
  end.

Section AtCmd.
Context {C : Type} `{NorChip C} `{CertCheck} `{JsonText} `{BlockCipher} `{AtEnv}.
Abbreviation PA := (P C (app * at_t)).

Definition agets {B} (f : at_t -> B) : PA B := gets (fun s => f s.2).
Definition aputs (f : at_t -> at_t) : PA unit := puts (fun s => (s.1, f s.2)).
Definition lic_of {B} (m : P C lic B) : PA B := zoom_s (fun s => a_lic s.1) (fun l s => (set_lic l s.1, s.2)) m.

(** The text at a pointer whose block ends with [b]; it must be terminated. *)
Definition c_str (b : bytes) : PA bytes := if bool_decide (0 ∈ b) then ret (cstr b) else fail OutOfBounds.
Definition at_response (s : bytes) : PA unit := let* s := c_str s in emit (EvWlan "at" [s]).
Definition RESP_OK : bytes := str "rsp:OK".
Definition RESP_ERR : bytes := str "rsp:ERROR".
Definition RESP_NO_LICENSE : bytes := str "rsp:0,0,0".
Definition respond (s : bytes) : PA unit := at_response (s ++ [0]).

Definition set_enter_get_rssi_mode : PA unit := aputs (set_rssi 1).
Definition clear_enter_get_rssi_mode : PA unit := aputs (set_rssi 0).
Definition check_enter_get_rssi_mode : PA Z := agets enter_get_rssi_mode.
Definition at_cmd_log_ON : PA unit := aputs (set_log 1).
Definition at_cmd_log_OFF : PA unit := aputs (set_log 0).

Definition cmd_buf : PA bytes := let* p := agets pcmd_buffer in deref p.
Definition put_cmd (b : bytes) : PA unit := aputs (set_pcmd (Some b)).
(** [strlen] and the characters of the text at an offset. *)
Definition str_at (off : Z) : PA bytes := let* b := cmd_buf in c_str (drop (Z.to_nat off) b).

(** ** [mystrtok] *)

(** The [cont] loop: the first character from [s] that is no delimiter, and the
    pointer after it; [rest] is the buffer from [s] on. *)
Fixpoint skip_delims (delim : bytes) (s : Z) (rest : bytes) : PA (Z * Z * bytes) :=
  match rest with
  | [] => fail OutOfBounds
  | c :: rest => if bool_decide (c ∈ delim) then skip_delims delim (s + 1) rest else ret (c, s + 1, rest)
  end.
(** The [while] loop: the delimiter that ends the token is overwritten. *)
Fixpoint scan_token (delim : bytes) (s : Z) (rest : bytes) : PA unit :=
  match rest with
  | [] => fail OutOfBounds
  | x :: rest =>
    if x =? 0 then ret tt
    else if bool_decide (x ∈ delim) then
      let* b := cmd_buf in
      let* b := wr b s 0 in
      put_cmd b ;; aputs (set_last (Some (s + 1)))
    else
      match rest with
      | [] => fail OutOfBounds
      | y :: _ => when (y =? 0) (aputs (set_last None))
      end ;;
      scan_token delim (s + 1) rest
  end.
Definition mystrtok (s : option Z) (delim : bytes) : PA (option Z) :=
  let* l := agets strtok_last in
  match (match s with Some s => Some s | None => l end) with
  | None => ret None
  | Some s =>
    let* b := cmd_buf in
    let* '(c, s, rest) := skip_delims delim s (drop (Z.to_nat s) b) in
    if c =? 0 then aputs (set_last None) ;; ret None
    else scan_token delim s rest ;; ret (Some (s - 1))
  end.

(** ** MAC address *)
Definition ya_hal_wlan_set_mac_address (mac : bytes) : PA Z :=
  let mac_str := mac_colons mac in
  emit (EvWlan "ef_set_env_blob" [str "MAC"; mac_str]) ;;
  if negb (ef_set_env_blob (str "MAC") mac_str =? 0) then ret (-1)
  else
    emit (EvWlan "ef_set_env_blob" [str "ApMac"; mac_str]) ;;
    if negb (ef_set_env_blob (str "ApMac") mac_str =? 0) then ret (-1)
    else emit (EvWlan "wifi_set_mac_addr" [mac]) ;; ret (wifi_set_mac_addr mac).

Definition getmac : PA Z :=
  at_cmd_log_OFF ;;
  let mac := wifi_get_mac_addr in
  respond (str "getmac") ;;
  respond (str "rsp:" ++ mac_text mac ++ hex_pad 4 (crc_check mac)) ;;
  ret ya_CMD_RET_SUCCESS.
(** Digit pairs, read without looking for the end of the token. *)
Fixpoint mac_pairs (n : nat) (b : bytes) (off : Z) : PA bytes :=
  match n with
  | O => ret []
  | S n =>
    let* hi := rd b off in
    let* lo := rd b (off + 1) in
    let* rest := mac_pairs n b (off + 2) in
    ret (u8 (at_cmd_hex2num hi * 0x10 + at_cmd_hex2num lo) :: rest)
  end.
Definition setmac : PA Z :=
  let* token := mystrtok None (str " ") in
  match token with
  | None => ret ya_CMD_RET_FAILURE
  | Some off =>
    let* b := cmd_buf in
    let* mac := mac_pairs 6 b off in
    let crc16_cal := crc_check mac in
    if crc16_cal =? 0 then ret ya_CMD_RET_FAILURE
    else
      let* token := mystrtok None [] in
      match token with
      | None => ret ya_CMD_RET_FAILURE
      | Some off =>
        let* t := str_at off in
        let crc16_arg := default 0 (scan_hex t) in
        if negb (crc16_arg =? crc16_cal) then ret ya_CMD_RET_FAILURE
        else
          let* r := ya_hal_wlan_set_mac_address mac in
          if r =? 0 then respond RESP_OK ;; ret ya_CMD_RET_SUCCESS else ret ya_CMD_RET_FAILURE
      end
  end.

(** ** Version *)
Definition getversion : PA Z :=
  at_cmd_log_OFF ;;
  let* str_buf := memcpy (zeros 48) 0 (str "rsp:" ++ [0]) in
  let* a := gets fst in
  let* v := c_str (cur_version (para a)) in
  let* str_buf := memcpy str_buf 4 (v ++ [0]) in
  at_response str_buf ;;
  ret ya_CMD_RET_SUCCESS.

(** ** Licences *)

(** [license_md5_string]: both licences as JSON documents, one after the other,
    and the digest of the text.  An object not yet attached when the function
    gives up is lost. *)
Definition us_document (cert id key ty : bytes) : cJSON :=
  jroot [jstr "server" "US";
         jobj "license" [member "client_cert" (cstr cert); member "client_id" (cstr id);
                         member "private_key" (cstr key); member "thing_type" (cstr ty)]].
Definition cn_document (pk di se : bytes) : cJSON :=
  jroot [jstr "server" "CN";
         jobj "license" [member "product_key" (cstr pk); member "device_id" (cstr di);
                         member "device_secret" (cstr se)]].
(** The text of both documents, as far as [license_md5]; the two print buffers
    and [buf_all] are freed at the end. *)
Definition license_digest (us cn : cJSON) : PA Z :=
  let* buf_US := json_document us in
  let* buf_CN := json_document cn in
  let* a := deref buf_CN in
  let* b := deref buf_US in
  let n := len a + len b in
  let* p := ya_hal_os_memory_alloc (n + 1) in
  match p with
  | None => cJSON_Delete ;; cJSON_Delete ;; ya_hal_os_memory_free ;; ya_hal_os_memory_free ;; ret (u8 C_ERROR)
  | Some buf_all =>
    let* buf_all := memset buf_all 0 (n + 3) in
    let* buf_all := memcpy buf_all 0 a in
    let* buf_all := memcpy buf_all (len a) b in
    let* buf_all := wr buf_all n 0 in
    let* text := rdn buf_all 0 n in
    let '(_, license_md5) := ya_mbedtls_md5 text (zeros 16) in
    let* m := agets md5_string in
    let* m := memcpy m 0 (HexArrayToString license_md5) in
    aputs (set_md5 m 1) ;;
    cJSON_Delete ;; cJSON_Delete ;; ya_hal_os_memory_free ;; ya_hal_os_memory_free ;; ya_hal_os_memory_free ;;
    ret (u8 C_OK)
  end.
Definition license_md5_string : PA Z :=
  let* flag := agets get_md5_string_flag in
  if flag =? 1 then ret (u8 C_OK)
  else
    let both := cJSON_Delete ;; cJSON_Delete ;; ret (u8 C_ERROR) in
    let* license_key_US := cJSON_CreateObject in
    match license_key_US with
    | None => ret (u8 C_ERROR)
    | Some _ =>
    let* license_US_info := cJSON_CreateObject in
    match license_US_info with
    | None => cJSON_Delete ;; ret (u8 C_ERROR)
    | Some _ =>
    let* license_key_CN := cJSON_CreateObject in
    match license_key_CN with
    | None => cJSON_Delete ;; ret (u8 C_ERROR)
    | Some _ =>
    let* license_CN_info := cJSON_CreateObject in
    match license_CN_info with
    | None => both
    | Some _ =>
      cJSON_AddItemToObject ;;
      let* l := gets (fun s => a_lic s.1) in
      match aws_certificateBuff l, aws_client_id l, aws_privateKeyBuff l, aws_thing_type l with
      | Some cert, Some id, Some key, Some ty =>
        cJSON_AddItemToObject ;;
        let* '(n, pk) := lic_of (ya_get_productKey (zeros (IOTX_PRODUCT_KEY_LEN + 1))) in
        if negb (0 <? n) then both
        else
        let* '(n, di) := lic_of (ya_get_deviceID (zeros (YA_DEVICE_ID_LEN + 1))) in
        if negb (0 <? n) then both
        else
        let* '(n, se) := lic_of (ya_get_deviceSecret (zeros (YA_DEVICE_SECRET_LEN + 1))) in
        if negb (0 <? n) then both
        else license_digest (us_document cert id key ty) (cn_document pk di se)
      | _, _, _, _ => both
      end
    end end end end.

Definition getlicense : PA Z :=
  let* ret_us := lic_of ya_check_us_license_exit in
  let* ret_cn := lic_of ya_check_cn_license_exit in
  (if (ret_us =? 0) && (ret_cn =? 0) then
     let* '(n, product_key) := lic_of (ya_get_productKey (zeros (IOTX_PRODUCT_KEY_LEN + 1))) in
     if negb (0 <? n) then respond RESP_NO_LICENSE
     else
       let* response_buf := memcpy (zeros (IOTX_PRODUCT_KEY_LEN + 1 + YA_DEVICE_ID_LEN + 1 + 5 + 34)) 0 (str "rsp:") in
       let* v := rdn product_key 0 n in
       let* response_buf := memcpy response_buf 4 v in
       let* response_buf := memcpy response_buf (4 + n) (str ",") in
       let* '(m, device_ID) := lic_of (ya_get_deviceID (zeros (YA_DEVICE_ID_LEN + 1))) in
       if negb (0 <? m) then respond RESP_NO_LICENSE
       else
         let* v := rdn device_ID 0 m in
         let* response_buf := memcpy response_buf (4 + n + 1) v in
         let* r := license_md5_string in
         if r =? C_OK then
           let* response_buf := memcpy response_buf (4 + n + 1 + m) (str ",") in
           let* md5 := agets md5_string in
           let* md5 := c_str md5 in
           let* response_buf := memcpy response_buf (4 + n + 1 + m + 1) md5 in
           at_response response_buf
         else respond RESP_NO_LICENSE
   else respond RESP_NO_LICENSE) ;;
  ret ya_CMD_RET_SUCCESS.

(** One string of the Aliyun licence, length first, into the command buffer;
    [None] is [goto END]. *)
Definition put_field (license : cJSON) (key : string) (pos : Z) : PA (option Z) :=
  match cJSON_GetObjectItem license (str key) with
  | None => ret None
  | Some sub_object =>
    let* v := deref (valuestring sub_object) in
    let v := cstr v in
    let* b := cmd_buf in
    let* b := wr b pos (len v) in
    let* b := memcpy b (u16 (pos + 1)) v in
    put_cmd b ;;
    ret (Some (u16 (pos + 1 + len v)))
  end.
(** The status of the write is set and then overwritten. *)
Definition wrcert_cn (license : cJSON) (json_len : Z) : PA Z :=
  let* b := cmd_buf in
  let* b := memset b 0 (json_len + 1) in
  put_cmd b ;;
  let* ok :=
    let? pos := put_field license "product_key" 0 in
    let? pos := put_field license "device_id" pos in
    let? pos := put_field license "device_secret" pos in
    let* b := cmd_buf in
    let* _ := ya_write_aliyun_cert b pos YA_LICENSE_ALIYUUN in
    ret (Some tt) in
  match ok with
  | None => ret ya_CMD_RET_FAILURE
  | Some _ => respond RESP_OK ;; ret ya_CMD_RET_SUCCESS
  end.
(** One item of the AWS licence, handed to its writer with its length. *)
Definition us_field (license : cJSON) (key : string) (write : bytes -> Z -> PA Z) : PA (option unit) :=
  match cJSON_GetObjectItem license (str key) with
  | None => ret None
  | Some sub_object =>
    let* v := deref (valuestring sub_object) in
    let* r := write (cstr v ++ [0]) (len (cstr v)) in
    guard (r =? 0)
  end.
Definition wrcert_us (license : cJSON) : PA Z :=
  let* ok :=
    let? _ := us_field license "client_cert" (fun v n =>
                let* '(r, _) := ya_write_check_aws_para_device_cert v n YA_LICENSE_DEVICE_CERT_ADDR in ret r) in
    let? _ := us_field license "client_id" (fun v n =>
                ya_write_check_aws_para_device_id v n YA_LICENSE_DEVICE_ID_ADDR) in
    let? _ := us_field license "private_key" (fun v n =>
                let* '(r, _) := ya_write_check_aws_para_device_rsa_private_key v n
                                  YA_LICENSE_DEVICE_RSA_PRIVATE_KEY_ADDR in ret r) in
    us_field license "thing_type" (fun v n =>
      ya_write_check_aws_para_thing_type v n YA_LICENSE_THING_TYPE_ADDR) in
  match ok with
  | None => ret ya_CMD_RET_FAILURE
  | Some _ => respond RESP_OK ;; ret ya_CMD_RET_SUCCESS
  end.
(** The parsed document: which cloud, and its licence. *)
Definition wrcert_document (doc : cJSON) (json_len : Z) : PA Z :=
  match cJSON_GetObjectItem doc (str "server") with
  | None => ret ya_CMD_RET_FAILURE
  | Some sub_object =>
    let* v := deref (valuestring sub_object) in
    let* f := agets get_md5_string_flag in
    aputs (set_md5 (zeros 33) f) ;;
    let server := cstr v in
    if server ==? str "CN" then
      match cJSON_GetObjectItem doc (str "license") with
      | None => ret ya_CMD_RET_FAILURE
      | Some license => wrcert_cn license json_len
      end
    else if server ==? str "US" then
      match cJSON_GetObjectItem doc (str "license") with
      | None => ret ya_CMD_RET_FAILURE
      | Some license => wrcert_us license
      end
    else ret ya_CMD_RET_FAILURE
  end.
(** The document is taken where it starts if single blanks separate the
    arguments; a missing CRC argument is not checked for. *)
Definition wrcert : PA Z :=
  let* token := mystrtok None (str " ") in
  match token with
  | None => ret ya_CMD_RET_FAILURE
  | Some off =>
    let* arg2 := str_at off in
    let* json_len := json_len_of 0 arg2 in
    if negb (0 <? json_len) then ret ya_CMD_RET_FAILURE
    else
      let* token := mystrtok None (str " ") in
      let* off := deref token in
      let* arg3 := str_at off in
      let crc16_arg := default 0 (scan_hex arg3) in
      if crc16_arg =? 0 then ret ya_CMD_RET_FAILURE
      else
        let start := 6 + len arg2 + len arg3 + 3 in
        let* b := cmd_buf in
        let* v := rdn b start json_len in
        if negb (crc_check v =? crc16_arg) then ret ya_CMD_RET_FAILURE
        else
          let* text := str_at start in
          let* doc := json_parse text in
          match doc with
          | None => ret ya_CMD_RET_FAILURE
          | Some doc => let* r := wrcert_document doc json_len in cJSON_Delete ;; ret r
          end
  end.

(** ** RSSI measurement and update test *)
Definition getrssi : PA Z :=
  let* busy := check_enter_get_rssi_mode in
  if negb (busy =? 0) then ret ya_CMD_RET_FAILURE
  else
    let* text := str_at 0 in
    let getrssi_name_len := u8 (len text - 8) in
    if (getrssi_name_len <=? 0) || (32 <? getrssi_name_len) then ret ya_CMD_RET_FAILURE
    else
      set_enter_get_rssi_mode ;;
      let* b := cmd_buf in
      let* v := rdn b 8 (len text - 8) in
      let* getrssi_name := memcpy (zeros 33) 0 v in
      ya_set_factory_rssi_info getrssi_name ;;
      ret ya_CMD_RET_SUCCESS.

(** The next argument copied into an array of [n] zeros; [None] when there is
    none. *)
Definition next_arg (n : Z) : PA (option bytes) :=
  let* token := mystrtok None (str " ") in
  match token with
  | None => ret None
  | Some off => let* s := str_at off in let* v := memcpy (zeros n) 0 s in ret (Some v)
  end.
Definition ota_document (md5 size url version : bytes) : cJSON :=
  jroot [jobj "data" [jstr "failRetryInternal" "0"; jstr "failRetryTimes" "3"; jstr "firmwareType" "module";
                      member "md5sum" md5; member "size" size; jstr "type" "wifi"; member "url" url;
                      member "version" version];
         jstr "method" "thing.service.device.upgrade"].
(** The document and its text are never freed. *)
Definition ota_test_start (name size version : bytes) (cloud_type : Z) (ota_md5 : bytes) : PA Z :=
  let* ota_cmd := cJSON_CreateObject in
  match ota_cmd with
  | None => ret ya_CMD_RET_FAILURE
  | Some _ =>
    let* ota_cmd_data := cJSON_CreateObject in
    match ota_cmd_data with
    | None => ret ya_CMD_RET_FAILURE
    | Some _ =>
      cJSON_AddItemToObject ;;
      let* md5 := c_str ota_md5 in
      let* size := c_str size in
      let base := if cloud_type =? 0 then OTA_URL_CN else OTA_URL_OVERSEA in
      let* ota_url := memcpy (zeros 200) 0 base in
      let* n := c_str name in
      let* ota_url := memcpy ota_url (len base) n in
      let* url := c_str ota_url in
      let* version := c_str version in
      let* ota_cmd_string := json_document (ota_document md5 size url version) in
      let* s := deref ota_cmd_string in
      ya_set_enter_ota_test_mode s ;;
      ret ya_CMD_RET_SUCCESS
    end
  end.
Definition ota_test : PA Z :=
  let* ota_name := next_arg 100 in
  match ota_name with None => ret ya_CMD_RET_FAILURE | Some ota_name =>
  let* ota_size := next_arg 20 in
  match ota_size with None => ret ya_CMD_RET_FAILURE | Some ota_size =>
  let* ota_ver_new := next_arg 100 in
  match ota_ver_new with None => ret ya_CMD_RET_FAILURE | Some ota_ver_new =>
  let* token := mystrtok None (str " ") in
  match token with None => ret ya_CMD_RET_FAILURE | Some off =>
    let* t := str_at off in
    let cloud_type := u8 (atoi t) in
    if 1 <? cloud_type then ret ya_CMD_RET_FAILURE
    else
      let* ota_md5 := next_arg 33 in
      match ota_md5 with
      | None => ret ya_CMD_RET_SUCCESS
      | Some ota_md5 => ota_test_start ota_name ota_size ota_ver_new cloud_type ota_md5
      end
  end end end end.

(** ** The dispatcher *)
Definition tokenized : PA Z :=
  let* token := mystrtok (Some 0) (str " ") in
  match token with
  | None => ret CMD_RET_DATA_ERROR
  | Some off =>
    let* t := str_at off in
    if t ==? str "ya_ota_test" then ota_test
    else if t ==? str "wrcert" then wrcert
    else if t ==? str "setmac" then setmac
    else ret CMD_RET_DATA_ERROR
  end.
Definition dispatch (cmd : bytes) : PA Z :=
  if cmd ==? str "getmac" then getmac
  else if cmd ==? str "getversion" then getversion
  else if cmd ==? str "yasoftap" then respond RESP_OK ;; ya_set_ap_mode ;; ret ya_CMD_RET_SUCCESS
  else if cmd ==? str "yasniffer" then respond RESP_OK ;; ya_set_sniffer_mode ;; ret ya_CMD_RET_SUCCESS
  else if cmd ==? str "yareset" then respond RESP_OK ;; ya_hal_sys_reboot
  else if cmd ==? str "yafac" then respond RESP_OK ;; ya_reset_module_to_factory ;; ret ya_CMD_RET_SUCCESS
  else if cmd ==? str "getlicense" then getlicense
  else if cmd ==? str "ya_ota_exit" then
    zoom_s fst (fun a s => (a, s.2)) ya_set_exit_ota_test_mode ;; ret CMD_RET_DATA_ERROR
  else if strstr cmd (str "getrssi ") then getrssi
  else if strstr cmd (str "wrcert") || strstr cmd (str "setmac") || strstr cmd (str "ya_ota_test") then tokenized
  else ret CMD_RET_DATA_ERROR.
Definition ya_data_atcmd_handler : PA Z :=
  let* cmd := str_at 0 in
  let* at_cmd_ret := dispatch cmd in
  when (at_cmd_ret =? ya_CMD_RET_FAILURE) (respond RESP_ERR) ;;
  ret at_cmd_ret.
(** The command line, as the block it is in, or NULL. *)
Definition ya_atcmd_handler (cmd : option bytes) : PA Z :=
  match cmd with
  | None => ret CMD_RET_DATA_ERROR
  | Some _ => aputs (set_pcmd cmd) ;; ya_data_atcmd_handler
  end.
End AtCmd.
