(* ===== verification/AtProofs.v ===== *)
(** * What the AT commands do

    The tokenizer against a reference split of the line; the commands that set
    the address and write licences, from the line typed to the flash. *)

From stdpp Require Import base numbers list strings.
From S2P Require Import Prelude Platform SpiFlash Flash CommonFunc CJson License MainQueue Cloud Uart UartProofs UserData UserDataProofs Aes AtCmd.

(** ** Words of a line *)
Section Words.
Variable delim : bytes.
Implicit Types (s w d : bytes).

Definition delims d : Prop := Forall (fun c => c ∈ delim) d.
Definition word w : Prop := w <> [] /\ Forall (fun c => c ∉ delim) w.

(** The reference: maximal runs of characters that are no delimiters. *)
Fixpoint words_from (cur s : bytes) : list bytes :=
  match s with
  | [] => if decide (cur = []) then [] else [cur]
  | c :: s =>
    if bool_decide (c ∈ delim) then (if decide (cur = []) then [] else [cur]) ++ words_from [] s
    else words_from (cur ++ [c]) s
  end.
Definition words s : list bytes := words_from [] s.

Lemma words_delims d s : delims d -> words (d ++ s) = words s.
Proof. induction 1 as [|c d Hc _ IH]; [done|]. cbn. unfold words in *. cbn. rewrite bool_decide_true by done. exact IH. Qed.
Lemma words_none d : delims d -> words d = [].
Proof. intros Hd. rewrite <- (app_nil_r d), words_delims by done. done. Qed.
Lemma words_run cur w s : Forall (fun c => c ∉ delim) w -> words_from cur (w ++ s) = words_from (cur ++ w) s.
Proof.
  intros Hw. revert cur. induction Hw as [|c w Hc _ IH]; intros cur; [by rewrite app_nil_r|].
  cbn. rewrite bool_decide_false by done. by rewrite IH, <- app_assoc.
Qed.
Lemma words_last d w : delims d -> word w -> words (d ++ w) = [w].
Proof.
  intros Hd [Hne Hw]. rewrite words_delims by done. unfold words.
  rewrite <- (app_nil_r w), words_run by done. cbn. rewrite !app_nil_r, decide_False by done. done.
Qed.
Lemma words_more d w x s : delims d -> word w -> x ∈ delim -> words (d ++ w ++ x :: s) = w :: words s.
Proof.
  intros Hd [Hne Hw] Hx. rewrite words_delims by done. unfold words at 1.
  rewrite words_run by done. cbn. rewrite bool_decide_true, decide_False by done. done.
Qed.

(** How a line starts. *)
Inductive line_view : bytes -> Prop :=
| view_none d : delims d -> line_view d
| view_last d w : delims d -> word w -> line_view (d ++ w)
| view_more d w x s : delims d -> word w -> x ∈ delim -> line_view (d ++ w ++ x :: s).
Lemma line_cases s : line_view s.
Proof.
  induction s as [|c s IH]; [apply view_none; constructor|].
  destruct (decide (c ∈ delim)) as [Hc|Hc].
  - destruct IH; rewrite ?app_comm_cons; constructor; try done; by constructor.
  - assert (Hn : delims []) by constructor.
    assert (Hq : word [c]) by (split; [done|by constructor]).
    destruct IH as [d Hd|d w Hd Hw|d w x s Hd Hw Hx].
    + destruct Hd as [|y d Hy Hd]; [by apply (view_last [] [c])|]. by apply (view_more [] [c] y d).
    + destruct Hd as [|y d Hy Hd]; [|by apply (view_more [] [c] y (d ++ w))].
      apply (view_last [] (c :: w)); [done|]. destruct Hw. split; [done|by constructor].
    + destruct Hd as [|y d Hy Hd]; [|by apply (view_more [] [c] y (d ++ w ++ x :: s))].
      apply (view_more [] (c :: w) x s); try done. destruct Hw. split; [done|by constructor].
Qed.
End Words.

(** ** One call of [mystrtok] *)
Section Strtok.
Context {C : Type} `{NorChip C} `{CertCheck} `{JsonText} `{BlockCipher} `{AtEnv}.
Variable delim : bytes.
Hypothesis delim_no_nul : 0 ∉ delim.
Implicit Types (a : app) (t : at_t) (h : hw C) (b d w pre : bytes).

Lemma skip_delims_run d c r s (st : app * at_t * hw C) : delims delim d -> c ∉ delim ->
  skip_delims delim s (d ++ c :: r) st = Done (c, s + len d + 1, r) st.
Proof.
  intros Hd Hc. revert s. induction Hd as [|x d Hx _ IH]; intros s; cbn [List.app skip_delims].
  - rewrite bool_decide_false by done. unfold ret. change (len []) with 0. do 3 f_equal. lia.
  - rewrite bool_decide_true by done. rewrite IH, len_cons. do 3 f_equal. lia.
Qed.
Lemma skip_delims_end d r s (st : app * at_t * hw C) : delims delim d ->
  skip_delims delim s (d ++ 0 :: r) st = Done (0, s + len d + 1, r) st.
Proof. intros Hd. by apply skip_delims_run. Qed.
Lemma not_nul x : x ∈ delim -> x <> 0.
Proof. by intros Hx ->. Qed.
(** Up to a delimiter, which is overwritten. *)
Lemma scan_token_delim w x r s a t h b : Forall (fun c => c ∉ delim) w -> no_nul w -> x ∈ delim ->
  pcmd_buffer t = Some b -> 0 <= s -> s + len w < len b ->
  scan_token delim s (w ++ x :: r) (a, t, h) =
    Done tt (a, set_last (Some (s + len w + 1)) (set_pcmd (Some (<[Z.to_nat (s + len w) := 0]> b)) t), h).
Proof.
  intros Hw Hz Hx Hb. revert s. induction w as [|c w IH]; intros s Hs Hl; cbn [List.app scan_token].
  - apply not_nul in Hx as Hx0. destruct (Z.eqb_spec x 0); [done|]. rewrite bool_decide_true by done.
    unfold cmd_buf, agets. rewrite !bind_assoc. erewrite bind_done by reflexivity. cbn [fst snd]. rewrite Hb.
    erewrite bind_done by reflexivity. change (len []) with 0 in *. rewrite Z.add_0_r.
    erewrite bind_done by (apply wr_ok; lia). reflexivity.
  - apply Forall_cons in Hw as [Hc Hw]. apply Forall_cons in Hz as [Hc0 Hz]. rewrite len_cons in *.
    destruct (Z.eqb_spec c 0); [done|]. rewrite bool_decide_false by done.
    assert (Hy : exists y l, w ++ x :: r = y :: l /\ y <> 0).
    { destruct w as [|y w]; cbn; eexists _, _; split; try done; [by apply not_nul|]. by apply Forall_cons in Hz as [? _]. }
    destruct Hy as (y & l & Ey & Hy). rewrite Ey. destruct (Z.eqb_spec y 0); [done|].
    erewrite bind_done by reflexivity. rewrite <- Ey, IH by (done || lia). by replace (s + 1 + len w) with (s + (len w + 1)) by lia.
Qed.
(** Up to the end of the text: the static is cleared, unless the token has a
    single character. *)
Lemma scan_token_end w r s a t h : Forall (fun c => c ∉ delim) w -> no_nul w ->
  scan_token delim s (w ++ 0 :: r) (a, t, h) = Done tt (a, if decide (w = []) then t else set_last None t, h).
Proof.
  intros Hw Hz. revert s t. induction w as [|c w IH]; intros s t; cbn [List.app scan_token]; [done|].
  apply Forall_cons in Hw as [Hc Hw]. apply Forall_cons in Hz as [Hc0 Hz].
  destruct (Z.eqb_spec c 0); [done|]. rewrite bool_decide_false by done.
  destruct w as [|y w]; [done|]. cbn [List.app]. apply Forall_cons in Hz as Hq. destruct Hq as [Hy _].
  destruct (Z.eqb_spec y 0); [done|]. erewrite bind_done by reflexivity.
  change (y :: w ++ 0 :: r) with ((y :: w) ++ 0 :: r). rewrite IH by done. by rewrite !decide_False.
Qed.

(** Where a call starts: the argument, or the static. *)
Definition from (s : option Z) t : option Z := match s with Some s => Some s | None => strtok_last t end.
Lemma mystrtok_starts s0 s a t h b : from s0 t = Some s -> pcmd_buffer t = Some b ->
  mystrtok s0 delim (a, t, h) =
  (let* '(c, s, rest) := skip_delims delim s (drop (Z.to_nat s) b) in
   if c =? 0 then aputs (set_last None) ;; ret None
   else scan_token delim s rest ;; ret (Some (s - 1))) (a, t, h).
Proof.
  intros Hs Hb. unfold mystrtok, agets, cmd_buf. erewrite bind_done by reflexivity. cbn [fst snd].
  unfold from in Hs. rewrite Hs. rewrite bind_assoc. erewrite bind_done by reflexivity. cbn [fst snd]. by rewrite Hb.
Qed.
Lemma mystrtok_none s0 s a t h pre d r : from s0 t = Some s -> pcmd_buffer t = Some (pre ++ d ++ 0 :: r) ->
  s = len pre -> delims delim d -> mystrtok s0 delim (a, t, h) = Done None (a, set_last None t, h).
Proof.
  intros Hs Hb -> Hd. erewrite mystrtok_starts by eassumption. rewrite drop_len by done.
  by erewrite bind_done by (by apply skip_delims_end).
Qed.
Lemma mystrtok_last s0 s a t h pre d w r : from s0 t = Some s ->
  pcmd_buffer t = Some (pre ++ d ++ w ++ 0 :: r) -> s = len pre -> delims delim d -> word delim w -> no_nul w ->
  mystrtok s0 delim (a, t, h) =
    Done (Some (len (pre ++ d))) (a, if decide (length w = 1%nat) then t else set_last None t, h).
Proof.
  intros Hs Hb -> Hd [Hne Hw] Hz. erewrite mystrtok_starts by eassumption. rewrite drop_len by done.
  destruct w as [|c w]; [done|]. apply Forall_cons in Hw as [Hc Hw]. apply Forall_cons in Hz as [Hc0 Hz]. cbn [List.app].
  erewrite bind_done by (by apply skip_delims_run). cbn beta iota. destruct (Z.eqb_spec c 0); [done|].
  erewrite bind_done by (by apply scan_token_end). unfold ret. rewrite len_app. f_equal; [f_equal; lia|].
  destruct w; [done|]. by rewrite !decide_False.
Qed.
Lemma mystrtok_more s0 s a t h pre d w x r : from s0 t = Some s ->
  pcmd_buffer t = Some (pre ++ d ++ w ++ x :: r) -> s = len pre -> delims delim d -> word delim w -> no_nul w -> x ∈ delim ->
  mystrtok s0 delim (a, t, h) =
    Done (Some (len (pre ++ d)))
      (a, set_last (Some (len (pre ++ d ++ w ++ [0]))) (set_pcmd (Some (pre ++ d ++ w ++ 0 :: r)) t), h).
Proof.
  intros Hs Hb -> Hd [Hne Hw] Hz Hx. erewrite mystrtok_starts by eassumption. rewrite drop_len by done.
  destruct w as [|c w]; [done|]. apply Forall_cons in Hw as [Hc Hw]. apply Forall_cons in Hz as [Hc0 Hz]. cbn [List.app].
  erewrite bind_done by (by apply skip_delims_run). cbn beta iota. destruct (Z.eqb_spec c 0); [done|].
  pose proof (len_nonneg pre). pose proof (len_nonneg d). pose proof (len_nonneg w). pose proof (len_nonneg r).
  erewrite bind_done.
  2:{ eapply scan_token_delim; try done; [lia|]. rewrite !len_app, !len_cons. lia. }
  unfold ret. do 2 f_equal; [rewrite len_app; f_equal; lia|]. f_equal. f_equal.
  { f_equal. rewrite !len_app, len_cons, len_app. change (len [0]) with 1. lia. }
  f_equal. f_equal.
  replace (len pre + len d + 1 + len w) with (len (pre ++ d ++ c :: w)) by (rewrite !len_app, len_cons; lia).
  unfold len. rewrite Nat2Z.id.
  replace (pre ++ d ++ (c :: w) ++ x :: r) with ((pre ++ d ++ c :: w) ++ x :: r) by (by rewrite <- !app_assoc).
  rewrite insert_app_r_alt, Nat.sub_diag by lia. by rewrite <- !app_assoc.
Qed.
(** Reading the token a call returned. *)
Lemma str_at_word a t h pre w r off : pcmd_buffer t = Some (pre ++ w ++ 0 :: r) -> off = len pre -> no_nul w ->
  str_at off (a, t, h) = Done w (a, t, h).
Proof.
  intros Hb -> Hz. unfold str_at, cmd_buf, agets. rewrite bind_assoc. erewrite bind_done by reflexivity.
  cbn [fst snd]. rewrite Hb. erewrite bind_done by reflexivity. rewrite drop_len by done. unfold c_str.
  rewrite bool_decide_true by (apply elem_of_app; right; left). by rewrite cstr_app_nul.
Qed.

(** ** All the calls: the words of the line *)

(** The texts of up to [n] tokens, read as they come. *)
Fixpoint tokens (n : nat) (s : option Z) : P C (app * at_t) (list bytes) :=
  match n with
  | O => ret []
  | S n =>
    let* token := mystrtok s delim in
    match token with
    | None => ret []
    | Some off => let* w := str_at off in let* ws := tokens n None in ret (w :: ws)
    end
  end.
Lemma tokens_some n s a t h off w a1 t1 h1 :
  mystrtok s delim (a, t, h) = Done (Some off) (a1, t1, h1) -> str_at off (a1, t1, h1) = Done w (a1, t1, h1) ->
  tokens (S n) s (a, t, h) = (let* ws := tokens n None in ret (w :: ws)) (a1, t1, h1).
Proof. intros Hq Hp2. cbn [tokens]. erewrite bind_done by exact Hq. cbn beta iota. by erewrite bind_done by exact Hp2. Qed.

Lemma tokens_none n s a t h t1 :
  mystrtok s delim (a, t, h) = Done None (a, t1, h) -> tokens (S n) s (a, t, h) = Done [] (a, t1, h).
Proof. intros Hq. cbn [tokens]. by erewrite bind_done by exact Hq. Qed.

(** What the calls return after the words: a last word of a single character
    comes back for ever. *)
Fixpoint echo_from (prev : bool) (s : bytes) : option bytes :=
  match s with
  | [] => None
  | c :: s =>
    if decide (s = []) then (if prev && bool_decide (c ∉ delim) then Some [c] else None)
    else echo_from (bool_decide (c ∈ delim)) s
  end.
Definition echo (n : nat) (s : bytes) : list bytes := match echo_from true s with Some w => replicate n w | None => [] end.
Lemma echo_after v p x s : x ∈ delim -> echo_from v (p ++ x :: s) = echo_from true s.
Proof.
  intros Hx. revert v. induction p as [|c p IH]; intros v; cbn [List.app echo_from].
  - destruct (decide (s = [])) as [->|]; [|by rewrite bool_decide_true].
    rewrite (bool_decide_false (x ∉ delim)) by auto. by rewrite andb_false_r.
  - rewrite decide_False by (by destruct p). apply IH.
Qed.
Lemma echo_word v w : Forall (fun c => c ∉ delim) w -> (2 <= length w)%nat \/ v = false -> echo_from v w = None.
Proof.
  intros Hw. revert v. induction Hw as [|c w Hc Hw IH]; intros v Hb; [done|]. cbn [echo_from].
  destruct (decide (w = [])) as [->|].
  - destruct Hb as [Hb| ->]; [cbn in Hb; lia|done].
  - apply IH. right. by apply bool_decide_false.
Qed.
Lemma echo_last d w : delims delim d -> word delim w ->
  echo_from true (d ++ w) = if decide (length w = 1%nat) then Some w else None.
Proof.
  intros Hd [Hne Hw]. assert (Hr : echo_from true (d ++ w) = echo_from true w).
  { destruct d as [|c d] using rev_ind; [done|]. apply Forall_app in Hd as [_ Hc]. apply Forall_cons in Hc as [Hc _].
    rewrite <- app_assoc. by apply echo_after. }
  rewrite Hr. destruct w as [|c [|c' w]]; [done| |].
  - apply Forall_cons in Hw as [Hw _]. cbn. by rewrite bool_decide_true.
  - rewrite decide_False by done. apply echo_word; [done|]. left. cbn. lia.
Qed.
Lemma echo_delims d v : delims delim d -> echo_from v d = None.
Proof.
  intros Hd. destruct d as [|c d] using rev_ind; [done|]. apply Forall_app in Hd as [_ Hc]. apply Forall_cons in Hc as [Hc _].
  by apply echo_after.
Qed.
Lemma take_echo n m (l : list bytes) w : (n <= m)%nat -> take n (l ++ replicate m w) = take n (l ++ replicate n w).
Proof. intros Hm. rewrite !take_app, !take_replicate. do 2 f_equal. lia. Qed.
Lemma no_nul_parts d w s : no_nul (d ++ w ++ s) -> no_nul d /\ no_nul w /\ no_nul s.
Proof. unfold no_nul. by rewrite !Forall_app. Qed.

(** From the static: a line [s] left to read. *)
Lemma tokens_from n s : forall a t h pre r,
  strtok_last t = Some (len pre) -> pcmd_buffer t = Some (pre ++ s ++ 0 :: r) -> no_nul s ->
  exists t', tokens n None (a, t, h) = Done (take n (words delim s ++ echo n s)) (a, t', h).
Proof.
  revert s. induction n as [|n IH]; intros s a t h pre r Hl Hb Hz; [by exists t|].
  destruct (line_cases delim s) as [d Hd|d w Hd Hw|d w x s Hd Hw Hx].
  - eexists. erewrite tokens_none by (by eapply (mystrtok_none None)).
    unfold echo. by rewrite words_none, echo_delims.
  - rewrite <- app_assoc in Hb. rewrite <- (app_nil_r w) in Hz. apply no_nul_parts in Hz as (_ & Hz & _).
    assert (Hk : mystrtok None delim (a, t, h) = _) by (by eapply (mystrtok_last None)).
    rewrite words_last by done. unfold echo. rewrite echo_last by done.
    destruct (decide (length w = 1%nat)) as [H1w|H1w].
    + destruct (IH (d ++ w) a t h pre r) as [t' Ht]; [done|by rewrite <- app_assoc| |].
      { apply Forall_app. split; [|done]. eapply Forall_impl; [exact Hd|]. apply not_nul. }
      exists t'. erewrite (tokens_some n); [|exact Hk|eapply str_at_word; [by rewrite (assoc_L (++)) in Hb|done|done]].
      erewrite bind_done by exact Ht. unfold ret. rewrite words_last by done. unfold echo. rewrite echo_last, decide_True by done.
      done.
    + erewrite (tokens_some n); [|exact Hk|eapply str_at_word; [by rewrite (assoc_L (++)) in Hb|done|done]].
      destruct n as [|n]; [by eexists|]. eexists. by rewrite app_nil_r.
  - rewrite <- !app_assoc in Hb. cbn [List.app] in Hb.
    apply no_nul_parts in Hz as (_ & Hzw & Hzs). apply Forall_cons in Hzs as [_ Hzs].
    assert (Hk : mystrtok None delim (a, t, h) = _) by (by eapply (mystrtok_more None)).
    set (t1 := set_last _ _) in Hk.
    destruct (IH s a t1 h (pre ++ d ++ w ++ [0]) r) as [t' Ht]; [done|by cbn; rewrite <- !app_assoc|done|].
    exists t'. erewrite (tokens_some n); [|exact Hk|eapply str_at_word; [cbn; by rewrite (assoc_L (++))|done|done]].
    erewrite bind_done by exact Ht. unfold ret, echo. rewrite words_more, (assoc_L (++) d w), echo_after by done.
    cbn [List.app take]. do 2 f_equal. destruct (echo_from true s); [|done].
    symmetry. apply take_echo. lia.
Qed.

Lemma mystrtok_over a t h : strtok_last t = None -> mystrtok None delim (a, t, h) = Done None (a, t, h).
Proof. intros Hl. unfold mystrtok. erewrite bind_done by reflexivity. cbn [fst snd]. by rewrite Hl. Qed.
Lemma echo_nothing n s : words delim s = [] -> echo n s = [].
Proof.
  unfold echo. destruct (line_cases delim s) as [d Hd|d w Hd Hw|d w x s Hd Hw Hx].
  - by rewrite echo_delims.
  - by rewrite words_last.
  - by rewrite words_more.
Qed.
(** What [n] calls yield for a whole line. *)
Definition yields (n : nat) (line : bytes) : list bytes :=
  take n (words delim line ++ if decide (2 <= length (words delim line))%nat then echo n line else []).

(** Cutting a line with [mystrtok] (one call with the line, then calls with
    NULL, each token read when it is returned) yields the words of the line in
    order, for every line and every set of delimiters, with one exception: when
    the last of several words is a single character and ends the line, the
    calls after it return it again, for ever, instead of NULL. *)
Theorem strtok_words (n : nat) (line r : bytes) a t h :
  no_nul line -> pcmd_buffer t = Some (line ++ 0 :: r) ->
  length (words delim line) <> 1%nat \/ strtok_last t = None ->
  exists t', tokens n (Some 0) (a, t, h) = Done (yields n line) (a, t', h).
Proof.
  intros Hz Hb Hl. destruct n as [|n]; [by exists t|]. unfold yields.
  assert (Hb' : pcmd_buffer t = Some ([] ++ line ++ 0 :: r)) by done.
  destruct (line_cases delim line) as [d Hd|d w Hd Hw|d w x s Hd Hw Hx].
  - eexists. erewrite tokens_none by (by eapply (mystrtok_none (Some 0))). by rewrite words_none.
  - rewrite <- app_assoc in Hb, Hb'. rewrite <- (app_nil_r w) in Hz. apply no_nul_parts in Hz as (_ & Hz & _).
    assert (Hk : mystrtok (Some 0) delim (a, t, h) = _) by (by eapply (mystrtok_last (Some 0))).
    rewrite words_last in * by done. destruct Hl as [Hl|Hl]; [done|]. rewrite decide_False by (cbn; lia).
    erewrite (tokens_some n); [|exact Hk|eapply str_at_word; [|done|done]; case_decide; exact Hb].
    destruct n as [|n]; [by eexists|]. set (t1 := if decide _ then _ else _).
    exists t1. by erewrite bind_done by (apply tokens_none, mystrtok_over; unfold t1; by case_decide).
  - rewrite <- !app_assoc in Hb, Hb'. cbn [List.app] in Hb, Hb'.
    apply no_nul_parts in Hz as (_ & Hzw & Hzs). apply Forall_cons in Hzs as [_ Hzs].
    assert (Hk : mystrtok (Some 0) delim (a, t, h) = _) by (by eapply (mystrtok_more (Some 0) 0 a t h [])).
    set (t1 := set_last _ _) in Hk.
    destruct (tokens_from n s a t1 h (d ++ w ++ [0]) r) as [t' Ht]; [done|by cbn; rewrite <- !app_assoc|done|].
    exists t'. erewrite (tokens_some n); [|exact Hk|eapply str_at_word; [done|done|done]].
    erewrite bind_done by exact Ht. unfold ret, echo. rewrite words_more, (assoc_L (++) d w), echo_after by done.
    cbn [List.app take length]. do 2 f_equal.
    destruct (words delim s) as [|w' ws] eqn:E.
    + pose proof (echo_nothing n s E) as En. pose proof (echo_nothing (S n) s E) as En'. unfold echo in *. by rewrite En.
    + rewrite decide_True by (cbn; lia). destruct (echo_from true s); [|done]. symmetry. apply (take_echo n (S n) (w' :: ws)). lia.
Qed.
End Strtok.

(** ** Hexadecimal texts *)
Definition is_lower_hex (c : Z) : Prop := 48 <= c <= 57 \/ 97 <= c <= 102.
Lemma lower_digit_facts d : 0 <= d < 16 -> is_lower_hex (lower_digit d) /\ at_cmd_hex2num (lower_digit d) = d.
Proof.
  intros Hd. unfold is_lower_hex.
  assert (Hc : forallb (fun d => (((48 <=? lower_digit d) && (lower_digit d <=? 57)) || ((97 <=? lower_digit d) && (lower_digit d <=? 102)))
    && (at_cmd_hex2num (lower_digit d) =? d)) (seqZ 0 16) = true) by (vm_compute; reflexivity).
  rewrite forallb_forall in Hc. specialize (Hc d). cbn beta in Hc.
  assert (Hin : List.In d (seqZ 0 16)) by (apply list_elem_of_In, elem_of_seqZ; lia).
  apply Hc in Hin. zbool; split; try done; lia.
Qed.
Lemma length_hex_pad n v : length (hex_pad n v) = n.
Proof. revert v. induction n as [|n IH]; intros v; [done|]. cbn [hex_pad]. rewrite length_app, IH. cbn. lia. Qed.
Lemma hex_pad_chars n v : Forall is_lower_hex (hex_pad n v).
Proof.
  revert v. induction n as [|n IH]; intros v; [constructor|]. cbn [hex_pad]. apply Forall_app. split; [apply IH|].
  constructor; [|constructor]. apply lower_digit_facts, Z.mod_pos_bound. lia.
Qed.
Lemma hex_pad_bytes n v : is_bytes (hex_pad n v).
Proof. eapply Forall_impl; [apply hex_pad_chars|]. unfold is_lower_hex, is_u8. cbn beta. lia. Qed.
Lemma hex_char_num c : is_lower_hex c -> 0 <= at_cmd_hex2num c.
Proof. unfold is_lower_hex, at_cmd_hex2num. intros Hc. zbool; lia. Qed.
Lemma hex_number_app acc s s' : Forall is_lower_hex s -> hex_number acc (s ++ s') = hex_number (hex_number acc s) s'.
Proof.
  intros Hs. revert acc. induction Hs as [|c s Hc _ IH]; intros acc; [done|]. cbn [List.app hex_number].
  apply hex_char_num in Hc. destruct (Z.leb_spec 0 (at_cmd_hex2num c)); [apply IH|lia].
Qed.
Lemma hex_number_pad n v acc : 0 <= v < 16 ^ Z.of_nat n -> hex_number acc (hex_pad n v) = acc * 16 ^ Z.of_nat n + v.
Proof.
  revert v acc. induction n as [|n IH]; intros v acc Hv.
  - change (16 ^ Z.of_nat 0) with 1 in *. cbn. lia.
  - rewrite Nat2Z.inj_succ, Z.pow_succ_r in * by lia. cbn [hex_pad]. rewrite hex_number_app by apply hex_pad_chars.
    rewrite IH by (split; [apply Z.div_pos; lia|apply Z.div_lt_upper_bound; lia]). cbn [hex_number].
    pose proof (Z.mod_pos_bound v 16 ltac:(lia)). destruct (lower_digit_facts (v mod 16)) as [_ E]; [lia|]. rewrite E.
    destruct (Z.leb_spec 0 (v mod 16)); [|lia]. pose proof (Z.div_mod v 16). lia.
Qed.
(** [sscanf("%x")] of lower-case digits. *)
Lemma scan_hex_digits s : Forall is_lower_hex s -> s <> [] -> hex_number 0 s <= 4294967295 -> 0 <= hex_number 0 s ->
  scan_hex s = Some (hex_number 0 s).
Proof.
  intros Hs Hne Hmax Hmin. destruct Hs as [|c s Hc Hs]; [done|]. unfold scan_hex.
  assert (E1 : skip_space (c :: s) = c :: s) by (cbn; unfold is_space, is_lower_hex in *; zbool; done || lia).
  rewrite E1. unfold is_lower_hex in Hc.
  destruct (Z.eqb_spec c 45); [lia|]. destruct (Z.eqb_spec c 43); [lia|].
  assert (E2 : match c :: s with z :: x :: r => if (z =? 48) && ((x =? 120) || (x =? 88)) && is_hex r then r else c :: s
               | _ => c :: s end = c :: s).
  { destruct Hs as [|x s Hx _]; [done|]. unfold is_lower_hex in Hx. zbool; try lia; cbn [andb]; try done; destruct (c =? 48); done. }
  rewrite E2. assert (E3 : is_hex (c :: s) = true) by (apply Z.leb_le, hex_char_num; unfold is_lower_hex; lia).
  rewrite E3. rewrite Z.min_r by lia. by rewrite u32_small by (unfold is_u32; lia).
Qed.
Lemma scan_hex_pad n v : (1 <= n <= 8)%nat -> 0 <= v < 16 ^ Z.of_nat n -> scan_hex (hex_pad n v) = Some v.
Proof.
  intros Hn Hv. assert (E : hex_number 0 (hex_pad n v) = v) by (rewrite hex_number_pad; lia).
  assert (16 ^ Z.of_nat n <= 16 ^ 8) by (apply Z.pow_le_mono_r; lia). change (16 ^ 8) with 4294967296 in *.
  rewrite scan_hex_digits; rewrite ?E; try done; [apply hex_pad_chars| |lia|lia].
  intros En%(f_equal length). rewrite length_hex_pad in En. cbn in En. lia.
Qed.
Lemma hex_text_word s : Forall is_lower_hex s -> s <> [] -> word [32] s /\ word [] s /\ no_nul s.
Proof.
  intros Hs Hne. unfold word. split_and!; try done; (eapply Forall_impl; [exact Hs|]); unfold is_lower_hex; cbn beta; intros c Hc.
  - intros Hin%list_elem_of_singleton. lia.
  - apply not_elem_of_nil.
  - lia.
Qed.
Lemma mac_text_chars mac : Forall is_lower_hex (mac_text mac).
Proof. induction mac as [|x mac IH]; [constructor|]. cbn [mac_text fmap list_fmap mjoin list_join]. apply Forall_app. split; [apply hex_pad_chars|exact IH]. Qed.
Lemma len_mac_text mac : len (mac_text mac) = 2 * len mac.
Proof.
  induction mac as [|x mac IH]; [done|]. change (mac_text (x :: mac)) with (hex_pad 2 x ++ mac_text mac).
  rewrite len_app, IH, len_cons. unfold len at 1. rewrite length_hex_pad. lia.
Qed.

(** ** Finding a command in a line *)
Lemma prefix_chars p s : prefix_of_b p s = true -> Forall (fun c => c ∈ s) p.
Proof.
  revert s. induction p as [|x p IH]; intros s Hp; [constructor|]. destruct s as [|y s]; [done|]. cbn in Hp.
  apply andb_true_iff in Hp as [E Hp]. apply Z.eqb_eq in E as ->. constructor; [left|].
  eapply Forall_impl; [by apply IH|]. intros z Hz. by right.
Qed.
Lemma strstr_chars s p : strstr s p = true -> Forall (fun c => c ∈ s) p.
Proof.
  induction s as [|y s IH]; cbn; intros Hp.
  - rewrite orb_false_r in Hp. by apply prefix_chars.
  - apply orb_true_iff in Hp as [Hp|Hp]; [by apply (prefix_chars _ (y :: s))|].
    eapply Forall_impl; [by apply IH|]. intros z Hz. by right.
Qed.
Lemma strstr_absent s c p : c ∉ s -> strstr s (c :: p) = false.
Proof. intros Hc. destruct (strstr s (c :: p)) eqn:E; [|done]. apply strstr_chars, Forall_cons in E as [? _]. done. Qed.
Lemma strstr_starts p s : strstr (p ++ s) p = true.
Proof.
  assert (Hp : prefix_of_b p (p ++ s) = true) by (induction p as [|x p IH]; [done|]; cbn; by rewrite Z.eqb_refl).
  destruct (p ++ s); cbn; by rewrite Hp.
Qed.

Section Commands.
Context {C : Type} `{NorChip C} `{CertCheck} `{JsonText} `{BlockCipher} `{AtEnv}.
Implicit Types (a : app) (t : at_t) (h : hw C).

Lemma respond_run s a t h : no_nul s -> respond s (a, t, h) = Done tt (a, t, log (EvWlan "at" [s]) h).
Proof.
  intros Hs. unfold respond, at_response, c_str. rewrite bool_decide_true by (apply elem_of_app; right; left).
  erewrite bind_done by reflexivity. by rewrite cstr_app_nul.
Qed.
Lemma cmd_buf_run a t h b : pcmd_buffer t = Some b -> cmd_buf (a, t, h) = Done b (a, t, h).
Proof. intros Hb. unfold cmd_buf. erewrite bind_done by reflexivity. cbn [fst snd]. by rewrite Hb. Qed.
(** A line that no exact command matches, and that names one of the three
    commands with arguments, is handed to the tokenizer. *)
Definition exact_commands : list bytes :=
  [str "getmac"; str "getversion"; str "yasoftap"; str "yasniffer"; str "yareset"; str "yafac"; str "getlicense"; str "ya_ota_exit"].
Lemma dispatch_tokenized cmd : cmd ∉ exact_commands -> strstr cmd (str "getrssi ") = false ->
  strstr cmd (str "wrcert") || strstr cmd (str "setmac") || strstr cmd (str "ya_ota_test") = true ->
  dispatch cmd = tokenized.
Proof.
  intros Hx Hr Ht. unfold exact_commands in Hx. rewrite !not_elem_of_cons in Hx.
  destruct Hx as (?&?&?&?&?&?&?&?&_). unfold dispatch. rewrite !bool_decide_false by done. by rewrite Hr, Ht.
Qed.
Lemma blank_no_nul : 0 ∉ [32].
Proof. by intros ?%list_elem_of_singleton. Qed.
(** [name arguments]: the first token. *)
Lemma tokenized_runs name rest r a t h : word [32] name -> no_nul name -> pcmd_buffer t = Some (name ++ 32 :: rest ++ 0 :: r) ->
  tokenized (a, t, h) =
  (if name ==? str "ya_ota_test" then ota_test else if name ==? str "wrcert" then wrcert
   else if name ==? str "setmac" then setmac else ret CMD_RET_DATA_ERROR)
  (a, set_last (Some (len name + 1)) (set_pcmd (Some (name ++ 0 :: rest ++ 0 :: r)) t), h).
Proof.
  intros Hw Hz Hb. unfold tokenized. change (str " ") with [32].
  erewrite bind_done by (eapply (mystrtok_more [32] blank_no_nul (Some 0) 0 a t h [] []); try done; [constructor|left]).
  cbn beta iota. erewrite bind_done by (by eapply (str_at_word _ _ _ [])).
  cbn [List.app]. rewrite len_app. done.
Qed.

(** ** Setting the address *)
Lemma mac_pairs_run mac : forall pre rest b off (st : app * at_t * hw C), is_bytes mac ->
  b = pre ++ mac_text mac ++ rest -> off = len pre -> mac_pairs (length mac) b off st = Done mac st.
Proof.
  induction mac as [|x mac IH]; intros pre rest b off st Hm -> ->; [done|]. apply Forall_cons in Hm as [Hx Hm].
  cbn [length mac_pairs]. change (mac_text (x :: mac)) with (hex_pad 2 x ++ mac_text mac).
  assert (Hd : hex_pad 2 x = [lower_digit (x / 16); lower_digit (x mod 16)]).
  { cbn [hex_pad List.app]. do 2 f_equal. unfold is_u8 in Hx. rewrite Z.mod_small; [done|zdiv]. }
  rewrite Hd. set (p := lower_digit (x / 16)). set (q := lower_digit (x mod 16)).
  erewrite bind_done by (by eapply (rd_at _ pre p (q :: mac_text mac ++ rest))).
  erewrite bind_done by (eapply (rd_at _ (pre ++ [p]) q (mac_text mac ++ rest)); [by rewrite <- !app_assoc|rewrite len_app; done]).
  erewrite bind_done by (eapply (IH (pre ++ [p; q]) rest); [done|by rewrite <- !app_assoc|rewrite len_app; done]).
  unfold ret. do 2 f_equal. unfold is_u8 in Hx.
  destruct (lower_digit_facts (x / 16)) as [_ E1]; [zdiv|]. destruct (lower_digit_facts (x mod 16)) as [_ E2]; [zdiv|].
  unfold p, q. rewrite E1, E2, u8_small; [zdiv|unfold is_u8; zdiv].
Qed.
Definition setmac_line (digits crc : bytes) : bytes := str "setmac " ++ digits ++ str " " ++ crc.
(** What a successful setting leaves in the trace, most recent first. *)
Definition address_set (mac : bytes) : list event :=
  [EvWlan "at" [RESP_OK]; EvWlan "wifi_set_mac_addr" [mac]; EvWlan "ef_set_env_blob" [str "ApMac"; mac_colons mac];
   EvWlan "ef_set_env_blob" [str "MAC"; mac_colons mac]].
Definition store_accepts (mac : bytes) : Prop :=
  ef_set_env_blob (str "MAC") (mac_colons mac) = 0 /\ ef_set_env_blob (str "ApMac") (mac_colons mac) = 0 /\ wifi_set_mac_addr mac = 0.

Lemma set_address_run mac a t h : store_accepts mac ->
  ya_hal_wlan_set_mac_address mac (a, t, h) = Done 0 (a, t, foldr log h (tail (address_set mac))).
Proof. intros (E1 & E2 & E3). unfold ya_hal_wlan_set_mac_address. rewrite E1, E2, E3. reflexivity. Qed.
Lemma setmac_runs mac crc r a t h : is_bytes mac -> len mac = 6 -> crc_check mac <> 0 -> store_accepts mac -> 0 <= crc < 65536 ->
  strtok_last t = Some 7 -> pcmd_buffer t = Some (str "setmac" ++ 0 :: (mac_text mac ++ str " " ++ hex_pad 4 crc) ++ 0 :: r) ->
  exists t', setmac (a, t, h) =
    if decide (crc = crc_check mac) then Done ya_CMD_RET_SUCCESS (a, t', foldr log h (address_set mac))
    else Done ya_CMD_RET_FAILURE (a, t', h).
Proof.
  intros Hm Hl Hc Hs Hr Hlast Hb. change (str " ") with [32] in Hb.
  assert (Hb' : pcmd_buffer t = Some ((str "setmac" ++ [0]) ++ [] ++ mac_text mac ++ 32 :: hex_pad 4 crc ++ 0 :: r))
    by (rewrite Hb; cbn [List.app]; by rewrite <- app_assoc).
  pose proof (len_mac_text mac) as Hlm.
  destruct (hex_text_word (mac_text mac)) as (Hw & _ & Hz); [apply mac_text_chars|intros E; rewrite E, Hl in Hlm; done|].
  destruct (hex_text_word (hex_pad 4 crc)) as (_ & Hw' & Hz'); [apply hex_pad_chars|by intros E%(f_equal length); rewrite length_hex_pad in E|].
  unfold setmac. change (str " ") with [32].
  erewrite bind_done by (eapply (mystrtok_more [32] blank_no_nul None 7); try done; [constructor|left]).
  cbn beta iota. rewrite app_nil_r. set (t1 := set_last _ _).
  assert (Hb1 : pcmd_buffer t1 = Some ((str "setmac" ++ [0]) ++ mac_text mac ++ 0 :: hex_pad 4 crc ++ 0 :: r)) by done.
  erewrite bind_done by (by apply cmd_buf_run). replace 6%nat with (length mac) by (unfold len in Hl; lia).
  erewrite bind_done by (by eapply mac_pairs_run). destruct (Z.eqb_spec (crc_check mac) 0); [done|].
  assert (Hl1 : strtok_last t1 = Some (len ((str "setmac" ++ [0]) ++ mac_text mac ++ [0]))) by done.
  erewrite bind_done by (eapply (mystrtok_last [] None _ _ _ _ ((str "setmac" ++ [0]) ++ mac_text mac ++ [0]) []);
    try done; [by rewrite Hb1, <- !app_assoc|constructor]).
  cbn beta iota. rewrite app_nil_r, decide_False by (by rewrite length_hex_pad).
  erewrite bind_done by (eapply (str_at_word _ _ _ ((str "setmac" ++ [0]) ++ mac_text mac ++ [0])); try done;
    cbn [pcmd_buffer set_last]; by rewrite Hb1, <- !app_assoc).
  rewrite scan_hex_pad by (try done; lia). cbn [default from_option id]. eexists.
  destruct (decide (crc = crc_check mac)) as [->|Hne].
  - rewrite Z.eqb_refl. cbn [negb]. erewrite bind_done by (by apply set_address_run).
    cbn [Z.eqb]. erewrite bind_done by (apply respond_run; evaluate). reflexivity.
  - destruct (Z.eqb_spec crc (crc_check mac)); [done|]. reflexivity.
Qed.

(** The whole handler on a terminated line. *)
Lemma handler_runs line r a t h : no_nul line -> pcmd_buffer t = Some (line ++ 0 :: r) ->
  ya_data_atcmd_handler (a, t, h) =
  (let* at_cmd_ret := dispatch line in
   when (at_cmd_ret =? ya_CMD_RET_FAILURE) (respond RESP_ERR) ;; ret at_cmd_ret) (a, t, h).
Proof. intros Hz Hb. unfold ya_data_atcmd_handler. by erewrite bind_done by (by eapply (str_at_word _ _ _ [])). Qed.
(** [name rest], with one of the commands that take arguments. *)
Lemma handler_args name rest r a t h : word [32] name -> name ∈ [str "wrcert"; str "setmac"; str "ya_ota_test"] ->
  no_nul (name ++ 32 :: rest) -> strstr (name ++ 32 :: rest) (str "getrssi ") = false ->
  pcmd_buffer t = Some ((name ++ 32 :: rest) ++ 0 :: r) ->
  ya_data_atcmd_handler (a, t, h) =
  (let* x := if name ==? str "ya_ota_test" then ota_test else if name ==? str "wrcert" then wrcert
             else if name ==? str "setmac" then setmac else ret CMD_RET_DATA_ERROR in
   when (x =? ya_CMD_RET_FAILURE) (respond RESP_ERR) ;; ret x)
  (a, set_last (Some (len name + 1)) (set_pcmd (Some (name ++ 0 :: rest ++ 0 :: r)) t), h).
Proof.
  intros Hw Hin Hz Hr Hb. rewrite (handler_runs _ r) by done.
  assert (Hx : name ++ 32 :: rest ∉ exact_commands).
  { intros Hex.
    assert (Hc : Forall (fun c => 32 ∉ c) exact_commands) by evaluate.
    rewrite Forall_forall in Hc. apply Hc in Hex. apply Hex. apply elem_of_app. right. left. }
  assert (Hk : strstr (name ++ 32 :: rest) name = true) by apply strstr_starts.
  rewrite dispatch_tokenized; [|exact Hx|exact Hr|].
  - unfold bind at 1. rewrite (tokenized_runs name rest r); [done|done| |by rewrite Hb, <- app_assoc].
    by apply Forall_app in Hz as [? _].
  - rewrite !elem_of_cons in Hin. rewrite !orb_true_iff.
    destruct Hin as [->|[->|[->|[]%elem_of_nil]]]; auto.
Qed.
Lemma setmac_line_chars digits crc : Forall is_lower_hex digits -> Forall is_lower_hex crc ->
  Forall (fun c => c <> 0 /\ c <> 103 /\ c <> 121) (setmac_line digits crc).
Proof.
  intros Hd Hc. unfold setmac_line. rewrite !Forall_app. split_and!; [evaluate| |evaluate|].
  all: eapply Forall_impl; [eassumption|]; unfold is_lower_hex; cbn beta; lia.
Qed.
Lemma handler_setmac mac crc r a t h : is_bytes mac -> len mac = 6 -> crc_check mac <> 0 -> store_accepts mac ->
  0 <= crc < 65536 -> pcmd_buffer t = Some (setmac_line (mac_text mac) (hex_pad 4 crc) ++ 0 :: r) ->
  exists t', ya_data_atcmd_handler (a, t, h) =
    if decide (crc = crc_check mac) then Done ya_CMD_RET_SUCCESS (a, t', foldr log h (address_set mac))
    else Done ya_CMD_RET_FAILURE (a, t', log (EvWlan "at" [RESP_ERR]) h).
Proof.
  intros Hm Hl Hc Hs Hr Hb.
  assert (Hch : Forall _ _) by exact (setmac_line_chars (mac_text mac) (hex_pad 4 crc) (mac_text_chars mac) (hex_pad_chars 4 crc)).
  set (rest := mac_text mac ++ str " " ++ hex_pad 4 crc).
  assert (Eline : setmac_line (mac_text mac) (hex_pad 4 crc) = str "setmac" ++ 32 :: rest) by done. rewrite Eline in *.
  rewrite (handler_args (str "setmac") rest r); [|split; [done|evaluate]|by right; left| | |done].
  2:{ eapply Forall_impl; [exact Hch|]; by intros c [? _]. }
  2:{ apply (strstr_absent _ 103). intros Hin. rewrite Forall_forall in Hch. by destruct (Hch _ Hin) as (_ & ? & _). }
  change (str "setmac" ==? str "ya_ota_test") with false. change (str "setmac" ==? str "wrcert") with false.
  change (str "setmac" ==? str "setmac") with true. cbn beta iota. set (t1 := set_last _ _).
  destruct (setmac_runs mac crc r a t1 h) as [t' Ht]; [done..|]. exists t'. unfold bind at 1. rewrite Ht.
  destruct (decide (crc = crc_check mac)); [reflexivity|].
  erewrite bind_done by (apply respond_run; evaluate). reflexivity.
Qed.
Lemma getmac_run `{!AtEnvLaws} a t h :
  getmac (a, t, h) = Done ya_CMD_RET_SUCCESS (a, set_log 0 t,
    foldr log h [EvWlan "at" [str "rsp:" ++ mac_text wifi_get_mac_addr ++ hex_pad 4 (crc_check wifi_get_mac_addr)];
                 EvWlan "at" [str "getmac"]]).
Proof.
  unfold getmac. erewrite bind_done by reflexivity. erewrite bind_done by (apply respond_run; evaluate).
  erewrite bind_done; [reflexivity|]. apply respond_run. unfold no_nul. rewrite !Forall_app. split_and!; [evaluate|..].
  all: eapply Forall_impl; [apply mac_text_chars || apply hex_pad_chars|]; unfold is_lower_hex; cbn beta; lia.
Qed.
End Commands.

(** The factory tool can move an address from one module to another.  The
    answer of [getmac] on a module is ["rsp:"], twelve digits and four digits;
    typing [setmac] with these digits on another module (whose store accepts
    it) sets exactly the address of the first, in the key-value store under
    both names and in the driver, and answers ["rsp:OK"]; with any other four
    digits nothing is set and the answer is ["rsp:ERROR"].  (An address whose
    CRC is 0 is always refused.) *)
Theorem address_roundtrip {C} `{NorChip C, CertCheck, JsonText, BlockCipher} (first second : AtEnv) (laws : @AtEnvLaws first)
    (a : app) (t : at_t) (h : hw C) (crc : Z) (r : bytes) :
  let mac := @wifi_get_mac_addr first in
  crc_check mac <> 0 -> @store_accepts second mac -> 0 <= crc < 65536 ->
  exists answer t1,
    @getmac C first (a, t, h) = Done ya_CMD_RET_SUCCESS (a, t1, foldr log h [EvWlan "at" [answer]; EvWlan "at" [str "getmac"]]) /\
    hex_pad 4 (crc_check mac) = slice answer 16 4 /\
    forall a' t' h', exists t2,
      @ya_atcmd_handler C _ _ _ _ second (Some (setmac_line (slice answer 4 12) (hex_pad 4 crc) ++ 0 :: r)) (a', t', h') =
      if decide (hex_pad 4 crc = slice answer 16 4) then Done ya_CMD_RET_SUCCESS (a', t2, foldr log h' (address_set mac))
      else Done ya_CMD_RET_FAILURE (a', t2, log (EvWlan "at" [RESP_ERR]) h').
Proof.
  intros mac Hc Hs Hr.
  set (answer := str "rsp:" ++ mac_text mac ++ hex_pad 4 (crc_check mac)). pose proof (len_mac_text mac) as Hl.
  assert (Hm6 : len mac = 6) by apply mac_len. rewrite Hm6 in Hl.
  assert (Hd : slice answer 4 12 = mac_text mac) by (apply slice_mid; done).
  assert (Hk : slice answer 16 4 = hex_pad 4 (crc_check mac)).
  { unfold answer. rewrite (assoc_L (++)). apply slice_app_r; [by rewrite len_app, Hl|unfold len; by rewrite length_hex_pad]. }
  exists answer. eexists. split; [apply getmac_run|]. split; [by rewrite Hk|]. intros a' t' h'. rewrite Hd, Hk.
  unfold ya_atcmd_handler. unfold aputs, puts, bind at 1. cbn [fst snd].
  destruct (@handler_setmac C _ _ _ _ second mac crc r a' (set_pcmd (Some (setmac_line (mac_text mac) (hex_pad 4 crc) ++ 0 :: r)) t') h')
    as [t2 E]; try done; [apply mac_bytes|].
  exists t2. rewrite E. pose proof (crc_check_u16 mac) as Hu. unfold is_u16 in Hu.
  destruct (decide (crc = crc_check mac)) as [->|Hne]; [by rewrite decide_True|]. rewrite decide_False; [done|].
  intros Eh. apply Hne. apply (f_equal scan_hex) in Eh. rewrite !scan_hex_pad in Eh by (try done; lia). by injection Eh.
Qed.

(** ** Writing a licence *)
Lemma hex_number_acc acc s : Forall is_lower_hex s -> hex_number acc s = acc * 16 ^ len s + hex_number 0 s.
Proof.
  intros Hs. revert acc. induction Hs as [|c s Hc _ IH]; intros acc; [change (len []) with 0; cbn [hex_number]; lia|]. cbn [hex_number].
  pose proof (hex_char_num c Hc). destruct (Z.leb_spec 0 (at_cmd_hex2num c)); [|lia].
  rewrite IH, (IH (16 * 0 + _)), len_cons, Z.pow_add_r by (pose proof (len_nonneg s); lia). lia.
Qed.
Lemma json_len_digits {T} s acc (t : T) : Forall is_lower_hex s -> len s <= 8 -> is_u16 acc ->
  json_len_of acc s t = Done (u16 (acc + hex_number 0 s)) t.
Proof.
  intros Hs Hl. revert acc. induction Hs as [|c s Hc Hs IH]; intros acc Ha.
  - cbn. by rewrite Z.add_0_r, u16_small.
  - rewrite len_cons in Hl. pose proof (len_nonneg s). cbn [json_len_of hex_number]. pose proof (hex_char_num c Hc).
    destruct (Z.leb_spec 32 (4 * len s)); [lia|]. destruct (Z.leb_spec 0 (at_cmd_hex2num c)); [|lia].
    rewrite IH by (lia || apply u16_range). rewrite (hex_number_acc (16 * 0 + _)) by done. unfold u16.
    rewrite Zplus_mod_idemp_l. rewrite Z.pow_mul_r by lia. change (2 ^ 4) with 16. do 2 f_equal. lia.
Qed.
Lemma json_len_pad {T} k v (t : T) : (1 <= k <= 8)%nat -> 0 <= v < 65536 -> v < 16 ^ Z.of_nat k -> json_len_of 0 (hex_pad k v) t = Done v t.
Proof.
  intros Hk Hv Hv'. rewrite json_len_digits; [|apply hex_pad_chars|unfold len; rewrite length_hex_pad; lia|done].
  rewrite hex_number_pad by lia. rewrite u16_small by (unfold is_u16; lia). done.
Qed.
Lemma splice_at (pre z src : bytes) off : off = len pre -> splice (pre ++ z) off src = pre ++ src ++ drop (length src) z.
Proof. intros ->. unfold splice, len. by rewrite Nat2Z.id, take_app_length, drop_app_add. Qed.

(** A member of an object and its text. *)
Definition has_text (o : cJSON) (key : string) (s : bytes) : Prop :=
  exists i v, cJSON_GetObjectItem o (str key) = Some i /\ valuestring i = Some v /\ cstr v = s.

Section Wrcert.
Context {C : Type} `{NorChipLaws C, !NorReliable C} `{CertCheck} `{JsonText} `{BlockCipher} `{AtEnv}.
Implicit Types (a : app) (t : at_t) (h : hw C).

Lemma length_field f : length (field f) = S (length f).
Proof. done. Qed.
Lemma put_field_run o key f pre z a t h : has_text o key f -> pcmd_buffer t = Some (pre ++ z) ->
  len f < 256 -> len (field f) <= len z -> len pre + len (field f) < 65536 ->
  put_field o key (len pre) (a, t, h) =
    Done (Some (len (pre ++ field f))) (a, set_pcmd (Some ((pre ++ field f) ++ drop (length (field f)) z)) t, h).
Proof.
  intros (i & v & Hi & Hv & <-) Hb Hf Hz Hp. unfold put_field. rewrite Hi, Hv. erewrite bind_done by reflexivity.
  set (s := cstr v) in *. rewrite len_field in *. pose proof (len_nonneg pre). pose proof (len_nonneg s).
  erewrite bind_done by (by apply cmd_buf_run).
  erewrite bind_done by (apply wr_ok; rewrite len_app; lia).
  rewrite (u8_small (len s)) by (unfold is_u8; lia). rewrite (u16_small (len pre + 1)) by (unfold is_u16; lia).
  erewrite bind_done by (apply memcpy_ok; [lia|rewrite len_insert, len_app; lia]).
  rewrite <- splice_cons by (rewrite len_app; lia). rewrite splice_at by done.
  erewrite bind_done by reflexivity. rewrite u16_small by (unfold is_u16; lia). unfold ret. rewrite len_app, len_field.
  rewrite <- app_assoc. do 2 f_equal. lia.
Qed.
(** The three fields in a row. *)
Lemma put_fields_run o pk di se z a t h : has_text o "product_key" pk -> has_text o "device_id" di -> has_text o "device_secret" se ->
  fits_limits pk di se -> pcmd_buffer t = Some z -> len (aliyun_image pk di se) <= len z ->
  let img := aliyun_image pk di se in
  forall (K : Z -> P C (app * at_t) (option unit)),
  (let? pos := put_field o "product_key" 0 in
   let? pos := put_field o "device_id" pos in
   let? pos := put_field o "device_secret" pos in K pos) (a, t, h) =
  K (len img) (a, set_pcmd (Some (img ++ drop (length img) z)) t, h).
Proof.
  intros Hpk Hdi Hse (Lp & Ld & Ls) Hb Hz img K. unfold YA_PRODUCT_KEY_LEN, YA_DEVICE_ID_LEN, YA_DEVICE_SECRET_LEN in *.
  pose proof (len_aliyun_image pk di se) as Hl. fold img in Hz, Hl.
  pose proof (len_nonneg pk). pose proof (len_nonneg di). pose proof (len_nonneg se).
  unfold obind at 1. erewrite bind_done.
  2:{ apply (put_field_run o "product_key" pk [] z); [exact Hpk|exact Hb|rewrite ?len_field; lia..|].
      change (len []) with 0. rewrite len_field. lia. }
  cbn beta iota. unfold obind at 1. erewrite bind_done.
  2:{ apply (put_field_run o "device_id" di (field pk)); [exact Hdi|reflexivity|lia| |rewrite !len_field; lia].
      rewrite len_field. unfold len in *. rewrite length_drop, length_field. lia. }
  cbn beta iota. unfold obind at 1. erewrite bind_done.
  2:{ apply (put_field_run o "device_secret" se (field pk ++ field di)); [exact Hse|reflexivity|lia| |rewrite !len_app, !len_field; lia].
      rewrite len_field. unfold len in *. rewrite !length_drop, !length_field. lia. }
  cbn beta iota. rewrite !drop_drop, <- !app_assoc. fold img.
  replace (field pk ++ field di ++ field se ++ _) with (img ++ drop (length img) z); [done|].
  unfold img, aliyun_image. rewrite <- !app_assoc. do 4 f_equal. rewrite !length_app. lia.
Qed.
Lemma wrcert_cn_run o pk di se n b a t h : has_text o "product_key" pk -> has_text o "device_id" di -> has_text o "device_secret" se ->
  fits_limits pk di se -> is_bytes (pk ++ di ++ se) -> pcmd_buffer t = Some b -> is_bytes b -> 0 <= n < len b ->
  len (aliyun_image pk di se) <= len b -> heap h = [] ->
  exists t' c b', wrcert_cn o n (a, t, h) = Done ya_CMD_RET_SUCCESS (a, t', log (EvWlan "at" [RESP_OK]) (set_chip c h)) /\
    holds c YA_LICENSE_ALIYUUN (aliyun_image pk di se) /\ pcmd_buffer t' = Some b' /\ len b' = len b /\ is_bytes b'.
Proof.
  intros Hpk Hdi Hse Hlim Hbytes Hb Hbb Hn Hi Hheap. unfold wrcert_cn.
  erewrite bind_done by (by apply cmd_buf_run). erewrite bind_done by (apply memset_ok; lia).
  set (b1 := replicate _ _ ++ drop _ b).
  assert (Hb1 : len b1 = len b) by (unfold b1, len in *; rewrite length_app, length_replicate, length_drop; lia).
  assert (Hbb1 : is_bytes b1) by (apply is_bytes_app; split; [apply Forall_replicate, u8_range|by apply Forall_drop]).
  erewrite bind_done by reflexivity. cbn [fst snd]. unfold bind at 1.
  rewrite (put_fields_run o pk di se b1) by (done || lia). set (img := aliyun_image pk di se) in *.
  erewrite bind_done by (by apply cmd_buf_run).
  match goal with |- context [bind (ya_write_aliyun_cert _ _ _) _ (?s, h)] =>
    destruct (write_aliyun_image s h pk di se (drop (length img) b1)) as (c & Hw & Hc); [done|done|by apply Forall_drop|done|] end.
  erewrite bind_done by exact Hw. unfold ret at 1. eexists _, c, _. split; [|split; [exact Hc|]].
  - erewrite bind_done by (apply respond_run; evaluate). reflexivity.
  - split; [reflexivity|]. split; [unfold len in *; rewrite length_app, length_drop; lia|].
    apply is_bytes_app. split; [by apply image_bytes|by apply Forall_drop].
Qed.

Definition wrcert_line (k : nat) (crc : Z) (json : bytes) : bytes :=
  str "wrcert " ++ hex_pad k (len json) ++ str " " ++ hex_pad 4 crc ++ str " " ++ json.
(** The document for the Chinese cloud. *)
Definition cn_licence (doc : cJSON) (pk di se : bytes) : Prop :=
  has_text doc "server" (str "CN") /\ exists o, cJSON_GetObjectItem doc (str "license") = Some o /\
    has_text o "product_key" pk /\ has_text o "device_id" di /\ has_text o "device_secret" se.
Lemma wrcert_document_cn doc pk di se n b a t h : cn_licence doc pk di se ->
  fits_limits pk di se -> is_bytes (pk ++ di ++ se) -> pcmd_buffer t = Some b -> is_bytes b -> 0 <= n < len b ->
  len (aliyun_image pk di se) <= len b -> heap h = [] ->
  exists t' c b', wrcert_document doc n (a, t, h) = Done ya_CMD_RET_SUCCESS (a, t', log (EvWlan "at" [RESP_OK]) (set_chip c h)) /\
    holds c YA_LICENSE_ALIYUUN (aliyun_image pk di se) /\ pcmd_buffer t' = Some b' /\ len b' = len b /\ is_bytes b'.
Proof.
  intros ((i & v & Hi & Hv & Hs) & o & Ho & Hpk & Hdi & Hse) Hlim Hbytes Hb Hbb Hn Himg Hheap.
  unfold wrcert_document. rewrite Hi, Hv. do 3 (erewrite bind_done by reflexivity). cbn [fst snd].
  rewrite Hs, bool_decide_true by done. rewrite Ho. by apply (wrcert_cn_run o pk di se n b).
Qed.
(** From the arguments to the document, or to a refusal. *)
Lemma wrcert_args k crc json r a t h : (1 <= k <= 8)%nat -> 0 < len json < 65536 -> len json < 16 ^ Z.of_nat k ->
  0 < crc < 65536 -> no_nul json -> strtok_last t = Some 7 ->
  pcmd_buffer t = Some (str "wrcert" ++ 0 :: (hex_pad k (len json) ++ str " " ++ hex_pad 4 crc ++ str " " ++ json) ++ 0 :: r) ->
  exists t' b', pcmd_buffer t' = Some b' /\ len b' = len (wrcert_line k crc json) + 1 + len r /\
    (is_bytes json -> is_bytes r -> is_bytes b') /\
    wrcert (a, t, h) =
    (if negb (crc_check json =? crc) then ret ya_CMD_RET_FAILURE
     else let* doc := json_parse json in
          match doc with
          | None => ret ya_CMD_RET_FAILURE
          | Some doc => let* x := wrcert_document doc (len json) in cJSON_Delete ;; ret x
          end) (a, t', h).
Proof.
  intros Hk Hl Hl' Hc Hz Hlast Hb. change (str " ") with [32] in Hb. set (L := hex_pad k (len json)) in *. set (K := hex_pad 4 crc) in *.
  assert (HlL : len L = Z.of_nat k) by (unfold L, len; by rewrite length_hex_pad).
  assert (HlK : len K = 4) by (unfold K, len; by rewrite length_hex_pad).
  destruct (hex_text_word L) as (HwL & _ & HzL); [apply hex_pad_chars|intros E; rewrite E in HlL; change (len []) with 0 in HlL; lia|].
  destruct (hex_text_word K) as (HwK & _ & HzK); [apply hex_pad_chars|by intros E; rewrite E in HlK|].
  set (p1 := str "wrcert" ++ [0]). set (p2 := p1 ++ L ++ [0]). set (p3 := p2 ++ K ++ [0]).
  assert (Hb0 : pcmd_buffer t = Some (p1 ++ [] ++ L ++ 32 :: K ++ 32 :: json ++ 0 :: r))
    by (rewrite Hb; unfold p1; by rewrite <- !app_assoc).
  unfold wrcert. change (str " ") with [32].
  erewrite bind_done by (eapply (mystrtok_more [32] blank_no_nul None 7); [exact Hlast|exact Hb0|reflexivity|constructor|exact HwL|exact HzL|left]).
  cbn beta iota. rewrite app_nil_r. change (p1 ++ [] ++ L ++ [0]) with p2. set (t1 := set_last _ _).
  assert (Hb1 : pcmd_buffer t1 = Some (p1 ++ L ++ 0 :: K ++ 32 :: json ++ 0 :: r)) by done.
  assert (Hb1' : pcmd_buffer t1 = Some (p2 ++ [] ++ K ++ 32 :: json ++ 0 :: r)) by (rewrite Hb1; unfold p2; by rewrite <- !app_assoc).
  erewrite bind_done by (eapply str_at_word; [exact Hb1|reflexivity|exact HzL]).
  erewrite bind_done by (apply json_len_pad; lia). destruct (Z.ltb_spec 0 (len json)); [|lia]. cbn [negb].
  erewrite bind_done by (eapply (mystrtok_more [32] blank_no_nul None (len p2)); [done|exact Hb1'|done|constructor|exact HwK|exact HzK|left]).
  cbn [deref]. erewrite bind_done by reflexivity. rewrite app_nil_r. change (p2 ++ [] ++ K ++ [0]) with p3. set (t2 := set_last _ _).
  assert (Hb2 : pcmd_buffer t2 = Some (p2 ++ K ++ 0 :: json ++ 0 :: r)) by done.
  assert (Hb2' : pcmd_buffer t2 = Some (p3 ++ json ++ 0 :: r)) by (rewrite Hb2; unfold p3; by rewrite <- !app_assoc).
  erewrite bind_done by (eapply str_at_word; [exact Hb2|reflexivity|exact HzK]).
  assert (HK : scan_hex K = Some crc) by (apply scan_hex_pad; [lia|change (16 ^ Z.of_nat 4) with 65536; lia]).
  rewrite !HK. cbn [default from_option id].
  destruct (Z.eqb_spec crc 0); [lia|].
  assert (Hp3 : 6 + len L + len K + 3 = len p3).
  { unfold p3, p2, p1. rewrite !len_app. change (len (str "wrcert")) with 6. change (len [0]) with 1. lia. }
  rewrite Hp3. erewrite bind_done by (apply cmd_buf_run; exact Hb2').
  erewrite bind_done by (eapply rdn_at; reflexivity).
  exists t2, (p3 ++ json ++ 0 :: r). split; [exact Hb2'|]. split_and!.
  - unfold wrcert_line. rewrite !len_app, len_cons, <- Hp3. fold L K. change (len (str "wrcert ")) with 7. change (len (str " ")) with 1. lia.
  - intros Hj Hr. unfold p3, p2, p1. rewrite !is_bytes_app. split_and!; try (evaluate || apply hex_pad_bytes || done).
    by constructor.
  - destruct (negb (crc_check json =? crc)); [done|].
    erewrite bind_done by (eapply str_at_word; [exact Hb2'|reflexivity|exact Hz]). done.
Qed.
End Wrcert.

(** The licence command on its line. *)
Lemma licence_command {C} `{NorChipLaws C, !NorReliable C, CertCheck, JsonText, BlockCipher, AtEnv}
    (k : nat) (crc : Z) (json r : bytes) (doc : cJSON) (pk di se : bytes) (a : app) (t : at_t) (h : hw C) :
  (1 <= k <= 8)%nat -> len json < 16 ^ Z.of_nat k -> 0 < len json < 65536 -> 0 < crc < 65536 ->
  no_nul json -> is_bytes json -> is_bytes r -> strstr (wrcert_line k crc json) (str "getrssi ") = false ->
  cJSON_Parse json = Some doc -> cn_licence doc pk di se -> fits_limits pk di se -> is_bytes (pk ++ di ++ se) ->
  len (aliyun_image pk di se) <= len json -> heap h = [] ->
  exists t' h', ya_atcmd_handler (Some (wrcert_line k crc json ++ 0 :: r)) (a, t, h) =
    Done (if decide (crc = crc_check json) then ya_CMD_RET_SUCCESS else ya_CMD_RET_FAILURE) (a, t', h') /\
  live h' = live h /\ queues h' = queues h /\
  (exists b', pcmd_buffer t' = Some b' /\ len b' = len (wrcert_line k crc json ++ 0 :: r) /\ is_bytes b') /\
  if decide (crc = crc_check json) then
    trace h' = EvWlan "at" [RESP_OK] :: trace h /\
    forall hb l, heap hb = [] -> chip hb = chip h' -> aliyun_blocks l = 0 ->
    exists l' hb', ya_aliyun_para_init (l, hb) = Done C_OK (l', hb') /\
      aliyun_productkey l' = Some (pk ++ [0]) /\ aliyun_deviceid l' = Some (di ++ [0]) /\
      aliyun_productsecret l' = Some (se ++ [0])
  else trace h' = EvWlan "at" [RESP_ERR] :: trace h /\ chip h' = chip h.
Proof.
  intros Hk Hl' Hl Hc Hz Hbj Hbr Hrssi Hp Hdoc Hlim Hbytes Himg Hheap.
  unfold ya_atcmd_handler. unfold aputs, puts. unfold bind at 1. cbn [fst snd].
  set (rest := hex_pad k (len json) ++ str " " ++ hex_pad 4 crc ++ str " " ++ json).
  assert (Eline : wrcert_line k crc json = str "wrcert" ++ 32 :: rest) by done. rewrite Eline in *.
  rewrite (handler_args (str "wrcert") rest r); [|split; [done|evaluate]|by left| |done|done].
  2:{ unfold no_nul. rewrite <- Eline. unfold wrcert_line. rewrite !Forall_app. split_and!; try done; try evaluate.
      all: eapply Forall_impl; [apply hex_pad_chars|]; unfold is_lower_hex; cbn beta; lia. }
  change (str "wrcert" ==? str "ya_ota_test") with false. change (str "wrcert" ==? str "wrcert") with true. cbn beta iota.
  set (t1 := set_last _ _).
  destruct (wrcert_args k crc json r a t1 h) as (t2 & b2 & Hb2 & Hlb & Hbb & Hrun); [done..|].
  unfold bind at 1. rewrite Hrun. destruct (decide (crc = crc_check json)) as [E|E].
  - rewrite <- E, Z.eqb_refl. cbn [negb]. rewrite (parse_some json doc) by (by rewrite cstr_no_nul).
    erewrite bind_done by (by apply take_spare). set (h1 := set_heap _ _ _).
    assert (Hlw : len (wrcert_line k crc json) >= len json).
    { unfold wrcert_line. rewrite !len_app. pose proof (len_nonneg (hex_pad k (len json))). pose proof (len_nonneg (hex_pad 4 crc)).
      change (len (str "wrcert ")) with 7. change (len (str " ")) with 1. lia. }
    pose proof (len_nonneg r).
    destruct (wrcert_document_cn doc pk di se (len json) b2 a t2 h1) as (t3 & c & b3 & Hd & Hh & Hb3 & Hl3 & Hbb3); try done; [by apply Hbb|lia|lia|].
    unfold bind at 1. rewrite Hd. eexists t3, _. split; [reflexivity|]. cbn [live queues trace chip log set_chip set_heap h1]. split; [unfold h1; cbn; lia|].
    split; [done|]. split; [exists b3; split; [done|]; split; [rewrite Hl3, len_app, len_cons, <- Eline, Hlb; lia|done]|]. split; [done|].
    intros hb l Hhb Hcb Hbl. destruct (aliyun_reload l hb pk di se) as (l' & hb' & Hr & E1 & E2 & E3 & _); try done; [by rewrite Hcb|].
    by exists l', hb'.
  - destruct (Z.eqb_spec (crc_check json) crc); [congruence|]. cbn [negb]. unfold ret at 1.
    change (ya_CMD_RET_FAILURE =? ya_CMD_RET_FAILURE) with true. cbn [when].
    erewrite bind_done by (apply respond_run; evaluate). eexists t2, _. split; [reflexivity|]. split; [done|]. split; [done|]. split; [|done].
    exists b2. split; [done|]. split; [rewrite len_app, len_cons, <- Eline, Hlb; lia|by apply Hbb].
Qed.

(** ** Witnesses *)
#[export] Instance sample_at : AtEnv :=
  {| wifi_get_mac_addr := [0x02; 0xA0; 0; 0; 0; 0x1F]; ef_set_env_blob _ _ := 0; wifi_set_mac_addr _ := 0 |}.
#[export] Instance sample_at_laws : @AtEnvLaws sample_at.
Proof. split; [reflexivity|evaluate]. Qed.
#[export] Existing Instance sample_check.

Lemma strtok_words_witness :
  exists t', tokens (C := ideal) [32] 5 (Some 0) (sample_app, set_pcmd (Some (str " getup ab c" ++ [0])) fresh_at, boot)
    = Done [str "getup"; str "ab"; str "c"; str "c"; str "c"] (sample_app, t', boot).
Proof.
  destruct (strtok_words (C := ideal) [32] blank_no_nul 5 (str " getup ab c") [] sample_app
    (set_pcmd (Some (str " getup ab c" ++ [0])) fresh_at) boot) as [t' E]; [evaluate|reflexivity|by right|].
  exists t'. exact E.
Defined.
Lemma address_roundtrip_witness :
  exists answer t1 t2, getmac (sample_app, fresh_at, boot) = Done 0 (sample_app, t1,
      foldr log boot [EvWlan "at" [answer]; EvWlan "at" [str "getmac"]]) /\
    ya_atcmd_handler (Some (setmac_line (slice answer 4 12) (hex_pad 4 (crc_check wifi_get_mac_addr)) ++ [0])) (sample_app, fresh_at, boot)
      = Done 0 (sample_app, t2, foldr log boot (address_set wifi_get_mac_addr)).
Proof.
  destruct (address_roundtrip sample_at sample_at sample_at_laws sample_app fresh_at boot (crc_check wifi_get_mac_addr) [])
    as (answer & t1 & E & Hs & Hr); [by vm_compute|by vm_compute|by vm_compute|].
  destruct (Hr sample_app fresh_at boot) as [t2 Ht]. rewrite decide_True in Ht by exact Hs.
  exists answer, t1, t2. split; [exact E|exact Ht].
Defined.
Definition sample_licence : cJSON :=
  jroot [jstr "server" "CN"; jobj "license" [jstr "product_key" "a1Key"; jstr "device_id" "dev1"; jstr "device_secret" "s3cret"]].
Definition licence_text : JsonText :=
  json_of (fun s => if bool_decide (s = replicate 18 123) then Some sample_licence else None) (fun _ => None).
