(* ===== verification/AtTest.v ===== *)
(** * The update test command, from the console to the next start

    [ya_ota_test] builds an upgrade command for the update task and posts it to
    the main task, which stores it in the user data and restarts; the module
    that starts finds it there. *)

From stdpp Require Import base numbers list strings.
From S2P Require Import Prelude Platform SpiFlash Flash CommonFunc HalTimer CJson SysTime.
From S2P Require Import DeviceTimer License MainQueue Cloud Uart UserData AppMain UserDataProofs Aes AtCmd AtProofs.

Section Arguments.
Context {C : Type} `{NorChip C} `{CertCheck} `{JsonText} `{BlockCipher} `{AtEnv}.
Implicit Types (a : app) (t : at_t) (h : hw C) (pre rest w : bytes).

(** The static points at [rest] in the buffer. *)
Definition reading t pre rest : Prop := strtok_last t = Some (len pre) /\ pcmd_buffer t = Some (pre ++ rest).
Definition argument w : Prop := word [32] w /\ no_nul w.

Lemma next_token_more a t h pre w rest : reading t pre (w ++ 32 :: rest) -> argument w ->
  exists t', mystrtok None [32] (a, t, h) = Done (Some (len pre)) (a, t', h) /\
    str_at (len pre) (a, t', h) = Done w (a, t', h) /\ reading t' (pre ++ w ++ [0]) rest.
Proof.
  intros [Hl Hb] [Hw Hz]. eexists. split_and!.
  - rewrite (mystrtok_more [32] blank_no_nul None (len pre) a t h pre [] w 32 rest); try done; [|constructor|left].
    by rewrite app_nil_r.
  - by eapply str_at_word.
  - split; [done|]. cbn. by rewrite <- !app_assoc.
Qed.
Lemma next_token_last a t h pre w r : reading t pre (w ++ 0 :: r) -> argument w ->
  exists t', mystrtok None [32] (a, t, h) = Done (Some (len pre)) (a, t', h) /\
    str_at (len pre) (a, t', h) = Done w (a, t', h) /\ (length w = 1%nat -> reading t' pre (w ++ 0 :: r)).
Proof.
  intros [Hl Hb] [Hw Hz]. eexists. split_and!.
  - rewrite (mystrtok_last [32] None (len pre) a t h pre [] w r); try done; [|constructor]. by rewrite app_nil_r.
  - case_decide; by eapply str_at_word.
  - intros Hone. by rewrite decide_True.
Qed.
(** An argument copied into an array of [n] bytes. *)
Lemma next_arg_run n a t h t' pre w :
  mystrtok None [32] (a, t, h) = Done (Some (len pre)) (a, t', h) -> str_at (len pre) (a, t', h) = Done w (a, t', h) ->
  len w <= n -> next_arg n (a, t, h) = Done (Some (w ++ zeros (n - len w))) (a, t', h).
Proof.
  intros Hm Hs Hn. unfold next_arg. change (str " ") with [32]. erewrite bind_done by exact Hm. cbn beta iota.
  erewrite bind_done by exact Hs. erewrite bind_done by (by apply (memcpy_zeros [])). done.
Qed.
Lemma c_str_array w n a t h : no_nul w -> 0 < n -> c_str (w ++ zeros n) (a, t, h) = Done w (a, t, h).
Proof. intros Hw Hn. unfold c_str. rewrite bool_decide_true by (by apply zero_in). by rewrite cstr_zeros. Qed.

(** ** Building and posting the upgrade command *)
Definition ota_base (cloud_type : Z) : bytes := if cloud_type =? 0 then OTA_URL_CN else OTA_URL_OVERSEA.
(** The message the main task gets; its block holds the text. *)
Definition test_msg (text : bytes) : msg := mkMsg (u16 (len text + 1)) (Some (text ++ [0])) YA_SET_OTA_TEST.
Lemma alloc_spare {S} n (s : S) h : heap h = [] -> 0 < n ->
  ya_hal_os_memory_alloc n (s, h) = Done (Some (replicate (Z.to_nat n) (u8 (junk h)))) (s, set_heap [] (live h + 1) h).
Proof. intros Hh Hn. unfold ya_hal_os_memory_alloc. destruct (Z.eqb_spec n 0); [lia|]. by rewrite Hh. Qed.
Lemma post_string_run {S} type text (s : S) h : heap h = [] -> no_nul text -> (length (queues h QMain) < 16)%nat ->
  post_string type text (s, h) = Done 0 (s, set_queue QMain (queues h QMain ++ [mkMsg (u16 (len text + 1)) (Some (text ++ [0])) type])
    (set_heap [] (live h + 1) h)).
Proof.
  intros Hh Hz Hq. unfold post_string. rewrite cstr_no_nul by done. pose proof (len_nonneg text).
  erewrite bind_done by (apply alloc_spare; [done|lia]). cbn [deref]. erewrite bind_done by reflexivity.
  set (b := replicate _ _). assert (Hb : len b = len text + 1) by (unfold b, len; rewrite length_replicate; lia).
  erewrite bind_done by (apply memset_ok; lia).
  rewrite drop_ge, app_nil_r by (unfold len in *; lia). change (replicate _ (u8 0)) with (zeros (len text + 1)).
  assert (Ec : cstr (text ++ [0]) = text) by (by apply cstr_app_nul).
  erewrite bind_done by (apply strcpy_zeros; [apply elem_of_app; right; left|rewrite Ec; lia]). rewrite Ec.
  replace (len text + 1 - len text) with 1 by lia. change (zeros 1) with [0].
  unfold ya_hal_os_queue_send. unfold bind at 1. cbn [queues set_heap]. change (queue_length QMain) with 16%nat.
  rewrite bool_decide_true by done. done.
Qed.
Lemma create_run (s : app * at_t) h : heap h = [] -> cJSON_CreateObject (s, h) = Done (Some tt) (s, set_heap [] (live h + 1) h).
Proof. intros Hh. unfold cJSON_CreateObject. by erewrite bind_done by (by apply alloc_spare). Qed.

Lemma ota_test_start_run name size version md5 cloud_type raw a t h :
  no_nul name -> no_nul size -> no_nul version -> no_nul md5 -> len name < 100 -> len size < 20 -> len version < 100 -> len md5 < 33 ->
  cJSON_PrintUnformatted (ota_document md5 size (ota_base cloud_type ++ name) version) = Some raw ->
  heap h = [] -> (length (queues h QMain) < 16)%nat ->
  ota_test_start (name ++ zeros (100 - len name)) (size ++ zeros (20 - len size)) (version ++ zeros (100 - len version)) cloud_type
    (md5 ++ zeros (33 - len md5)) (a, t, h) =
  Done ya_CMD_RET_SUCCESS (a, t, set_queue QMain (queues h QMain ++ [test_msg (cstr raw)]) (set_heap [] (live h + 3) h)).
Proof.
  intros Zn Zs Zv Zm Ln Ls Lv Lm Hp Hh Hq. unfold ota_test_start.
  erewrite bind_done by (by apply create_run). cbn beta iota. erewrite bind_done by (by apply create_run).
  cbn beta iota. erewrite bind_done by reflexivity.
  erewrite bind_done by (apply c_str_array; [done|lia]). erewrite bind_done by (apply c_str_array; [done|lia]).
  fold (ota_base cloud_type). set (base := ota_base cloud_type) in *.
  assert (Hb : len base <= 62 /\ no_nul base) by (unfold base, ota_base; destruct (cloud_type =? 0); split; evaluate).
  destruct Hb as [Lb Zb]. pose proof (len_nonneg base). pose proof (len_nonneg name).
  erewrite bind_done by (apply (memcpy_zeros []); [done|lia]). cbn [List.app].
  erewrite bind_done by (apply c_str_array; [done|lia]).
  erewrite bind_done by (apply memcpy_zeros; [done|lia]).
  erewrite bind_done by (apply c_str_array; [by apply Forall_app|lia]). erewrite bind_done by (apply c_str_array; [done|lia]).
  erewrite bind_done by (apply document_done; [done|reflexivity|by rewrite Hp]). cbn [deref]. erewrite bind_done by reflexivity.
  erewrite bind_done by (apply post_string_run; [done|apply cstr_is_no_nul|done]).
  unfold ret, test_msg. do 3 f_equal. cbn. unfold set_queue, set_heap. cbn. f_equal. lia.
Qed.

(** The arguments of the command; without a digest the line ends after the
    cloud. *)
Definition test_args (name size version : bytes) (c : Z) (md5 : option bytes) : bytes :=
  name ++ 32 :: size ++ 32 :: version ++ 32 :: c :: match md5 with Some m => 32 :: m | None => [] end.
(** The digest the upgrade command carries: the last argument, or the cloud
    digit once more. *)
Definition test_digest (c : Z) (md5 : option bytes) : bytes := default [c] md5.
Lemma ota_test_run name size version md5 c raw pre r a t h :
  argument name -> argument size -> argument version -> argument (test_digest c md5) ->
  len name < 100 -> len size < 20 -> len version < 100 -> len (test_digest c md5) < 33 -> 48 <= c <= 49 ->
  cJSON_PrintUnformatted (ota_document (test_digest c md5) size (ota_base (c - 48) ++ name) version) = Some raw ->
  heap h = [] -> (length (queues h QMain) < 16)%nat -> reading t pre (test_args name size version c md5 ++ 0 :: r) ->
  exists t', ota_test (a, t, h) =
    Done ya_CMD_RET_SUCCESS (a, t', set_queue QMain (queues h QMain ++ [test_msg (cstr raw)]) (set_heap [] (live h + 3) h)).
Proof.
  intros An As Av Am Ln Ls Lv Lm Hc Hp Hh Hq Hr. unfold test_args in Hr. rewrite <- !app_assoc in Hr. cbn [List.app] in Hr.
  rewrite <- !app_assoc in Hr. cbn [List.app] in Hr. rewrite <- !app_assoc in Hr. cbn [List.app] in Hr.
  assert (Ac : argument [c]).
  { split; [split; [done|]|]; constructor; try constructor; [intros E%list_elem_of_singleton; lia|lia]. }
  destruct (next_token_more a t h pre name _ Hr An) as (t1 & M1 & S1 & R1).
  destruct (next_token_more a t1 h _ size _ R1 As) as (t2 & M2 & S2 & R2).
  destruct (next_token_more a t2 h _ version _ R2 Av) as (t3 & M3 & S3 & R3).
  set (p3 := (_ ++ version ++ [0])) in *.
  assert (Hend : exists t4, mystrtok None [32] (a, t3, h) = Done (Some (len p3)) (a, t4, h) /\
    str_at (len p3) (a, t4, h) = Done [c] (a, t4, h) /\
    exists p4 t5, mystrtok None [32] (a, t4, h) = Done (Some (len p4)) (a, t5, h) /\
      str_at (len p4) (a, t5, h) = Done (test_digest c md5) (a, t5, h)).
  { destruct md5 as [m|]; cbn [List.app test_digest default from_option] in *.
    - destruct (next_token_more a t3 h p3 [c] _ R3 Ac) as (t4 & M4 & S4 & R4). exists t4. split_and!; try done.
      destruct (next_token_last a t4 h _ m r R4 Am) as (t5 & M5 & S5 & _). by eexists _, t5.
    - destruct (next_token_last a t3 h p3 [c] r R3 Ac) as (t4 & M4 & S4 & R4). exists t4. split_and!; try done.
      destruct (next_token_last a t4 h p3 [c] r (R4 eq_refl) Ac) as (t5 & M5 & S5 & _). by exists p3, t5. }
  destruct Hend as (t4 & M4 & S4 & p4 & t5 & M5 & S5).
  exists t5. unfold ota_test. change (str " ") with [32].
  erewrite bind_done by (eapply next_arg_run; [exact M1|exact S1|lia]). cbn beta iota.
  erewrite bind_done by (eapply next_arg_run; [exact M2|exact S2|lia]). cbn beta iota.
  erewrite bind_done by (eapply next_arg_run; [exact M3|exact S3|lia]). cbn beta iota.
  erewrite bind_done by exact M4. cbn beta iota. erewrite bind_done by exact S4.
  assert (Ea : u8 (atoi [c]) = c - 48) by (assert (c = 48 \/ c = 49) as [-> | ->] by lia; done).
  rewrite Ea. destruct (Z.ltb_spec 1 (c - 48)); [lia|].
  erewrite bind_done by (eapply next_arg_run; [exact M5|exact S5|lia]). cbn beta iota.
  apply ota_test_start_run; try done; try lia; try apply An; try apply As; try apply Av; apply Am.
Qed.
Definition test_line (name size version : bytes) (c : Z) (md5 : option bytes) : bytes :=
  str "ya_ota_test" ++ 32 :: test_args name size version c md5.
Lemma handler_test name size version md5 c raw r a t h :
  argument name -> argument size -> argument version -> argument (test_digest c md5) ->
  len name < 100 -> len size < 20 -> len version < 100 -> len (test_digest c md5) < 33 -> 48 <= c <= 49 ->
  strstr (test_line name size version c md5) (str "getrssi ") = false ->
  cJSON_PrintUnformatted (ota_document (test_digest c md5) size (ota_base (c - 48) ++ name) version) = Some raw ->
  heap h = [] -> (length (queues h QMain) < 16)%nat ->
  exists t', ya_atcmd_handler (Some (test_line name size version c md5 ++ 0 :: r)) (a, t, h) =
    Done ya_CMD_RET_SUCCESS (a, t', set_queue QMain (queues h QMain ++ [test_msg (cstr raw)]) (set_heap [] (live h + 3) h)).
Proof.
  intros An As Av Am Ln Ls Lv Lm Hc Hrssi Hp Hh Hq.
  unfold ya_atcmd_handler. unfold aputs, puts. unfold bind at 1. cbn [fst snd]. unfold test_line in *.
  assert (Hz : no_nul (test_args name size version c md5)).
  { unfold test_args. destruct An as [_ Zn], As as [_ Zs], Av as [_ Zv], Am as [_ Zm].
    apply Forall_app; split; [done|]. constructor; [done|]. apply Forall_app; split; [done|]. constructor; [done|].
    apply Forall_app; split; [done|]. constructor; [done|]. constructor; [lia|]. destruct md5; [by constructor|constructor]. }
  rewrite (handler_args (str "ya_ota_test") (test_args name size version c md5) r);
    [|split; [done|evaluate]|by right; right; left| |done|done].
  2:{ apply Forall_app. split; [evaluate|]. by constructor. }
  change (str "ya_ota_test" ==? str "ya_ota_test") with true. cbn beta iota. set (t1 := set_last _ _).
  destruct (ota_test_run name size version md5 c raw (str "ya_ota_test" ++ [0]) r a t1 h) as [t' E]; try done.
  exists t'. unfold bind at 1. rewrite E. reflexivity.
Qed.
End Arguments.

(** ** The main task stores it; the next start finds it *)
Section Stored.
Context {C : Type} `{NorChipLaws C, !NorReliable C} `{CloudEnv} `{JsonText} `{MainEnv}.
Implicit Types (s : app) (h : hw C).

(** The user data with the command in its field. *)
Definition with_command (u text : bytes) : bytes := splice (splice u o_ota_url (zeros 400)) o_ota_url text.
Lemma with_command_image u text : ud_image u -> is_bytes text -> len text < 400 -> ud_image (with_command u text).
Proof.
  intros [Hl Hb] Ht Hlt. unfold with_command, ud_image, o_ota_url, SIZEOF_USER_DATA in *. pose proof (len_nonneg text).
  assert (Hz : len (zeros 400) = 400) by (by apply len_zeros).
  assert (Hs : len (splice u 153 (zeros 400)) = 564) by (rewrite len_splice; lia).
  split; [rewrite len_splice; lia|]. by repeat apply is_bytes_splice; try apply is_bytes_zeros.
Qed.
Lemma with_command_below u text i : ud_image u -> len text < 400 -> (i < 153)%nat -> with_command u text !!! i = u !!! i.
Proof.
  intros [Hl Hb] Hlt Hi. unfold with_command, o_ota_url, SIZEOF_USER_DATA in *.
  assert (Hz : len (zeros 400) = 400) by (by apply len_zeros).
  assert (Hs : len (splice u 153 (zeros 400)) = 564) by (rewrite len_splice; lia).
  rewrite !list_lookup_total_alt. rewrite !lookup_splice_below; [done|lia|lia|lia|lia].
Qed.
Lemma with_command_text u text : ud_image u -> no_nul text -> len text < 400 ->
  cstr (drop (Z.to_nat o_ota_url) (with_command u text)) = text.
Proof.
  intros [Hl Hb] Hz Hlt. unfold with_command, o_ota_url, SIZEOF_USER_DATA in *. pose proof (len_nonneg text).
  assert (E : splice u 153 (zeros 400) = take 153 u ++ zeros 400 ++ drop 553 u) by done. rewrite E.
  assert (Ht : len (take 153 u) = 153) by (apply (len_take u 153); lia).
  rewrite splice_at by done. rewrite (drop_len (take 153 u)) by done.
  rewrite drop_app_le by (unfold zeros, len in *; rewrite length_replicate; lia). unfold zeros. rewrite drop_replicate.
  replace (Z.to_nat 400 - length text)%nat with (S (399 - length text)) by (unfold len in *; lia).
  cbn [replicate List.app]. by apply cstr_app_nul.
Qed.
Lemma with_command_valid u text : ud_image u -> len text < 400 -> user_data_valid u = true -> user_data_valid (with_command u text) = true.
Proof.
  intros Hu Hl Hv. unfold user_data_valid in *. rewrite !with_command_below by (done || (vm_compute; lia)). done.
Qed.
Lemma ud_copy_run o v s h : 0 <= o -> o + len v <= len (ud s) -> ud_copy o v (s, h) = Done tt (set_ud (splice (ud s) o v) s, h).
Proof.
  intros Ho Hl. unfold ud_copy. erewrite bind_done by reflexivity. cbn [fst].
  by erewrite bind_done by (by apply memcpy_ok).
Qed.
Lemma store_command now text ms h : ud_image (ud (ms_app ms)) -> no_nul text -> is_bytes text -> len text < 400 -> heap h = [] ->
  exists ms' h', handle_main_msg now (test_msg text) (ms, h) = Reset (ms', h') /\
    holds (chip h') YA_USER_DATA_ADDR (with_command (ud (ms_app ms)) text).
Proof.
  intros Hu Hz Ht Hl Hh. set (s := ms_app ms) in *. set (u := with_command (ud s) text).
  assert (Hu' : ud_image u) by (by apply with_command_image).
  change (handle_main_msg now (test_msg text)) with (in_app (ya_set_enter_ota_test_mode_internal (A := unit) (Some (text ++ [0])))).
  unfold in_app, zoom_s, zoom. fold s.
  assert (E : exists c, ya_set_enter_ota_test_mode_internal (A := unit) (Some (text ++ [0])) (s, h) =
    Reset (set_ud u s, log (EvDelay 50) (set_chip c h)) /\ holds c YA_USER_DATA_ADDR u).
  { destruct (save_ok (set_ud u s) h Hu' Hh) as (c & Hs & _ & Hc & _). exists c. split; [|exact Hc].
    destruct Hu as [Hlu _]. unfold SIZEOF_USER_DATA, u, with_command in *.
    unfold ya_set_enter_ota_test_mode_internal.
    assert (Hz4 : len (zeros 400) = 400) by (by apply len_zeros).
    erewrite bind_done by (apply ud_copy_run; unfold o_ota_url; lia). cbn [deref]. erewrite bind_done by reflexivity.
    rewrite cstr_app_nul by done.
    assert (Hls : len (splice (ud s) o_ota_url (zeros 400)) = 564) by (unfold o_ota_url; rewrite len_splice; lia).
    erewrite bind_done by (apply ud_copy_run; cbn [ud set_ud]; unfold o_ota_url in *; lia).
    cbn [ud set_ud]. erewrite bind_done by exact Hs. reflexivity. }
  destruct E as (c & E & Hc). rewrite E. eexists _, _. split; [reflexivity|]. exact Hc.
Qed.
End Stored.

(** The update test command takes effect.  For every file name, size,
    version, cloud digit and digest that fit their arrays, typing
    [ya_ota_test] with them leaves one message for the main task; when the main
    task handles it the module restarts, and after the start the update task
    finds exactly the text of the upgrade command (file name under the cloud's
    address, size, version, digest).  When the line ends after the cloud digit
    the command is not refused: it carries that digit as the digest. *)
Theorem update_test_command {C} `{NorChipLaws C, !NorReliable C, CertCheck, JsonText, BlockCipher, AtEnv, CloudEnv, MainEnv}
    (name size version : bytes) (c : Z) (md5 : option bytes) (raw r : bytes) (a : app) (t : at_t) (h : hw C) :
  argument name -> argument size -> argument version -> argument (test_digest c md5) ->
  len name < 100 -> len size < 20 -> len version < 100 -> len (test_digest c md5) < 33 -> 48 <= c <= 49 ->
  strstr (test_line name size version c md5) (str "getrssi ") = false ->
  cJSON_PrintUnformatted (ota_document (test_digest c md5) size (ota_base (c - 48) ++ name) version) = Some raw ->
  is_bytes raw -> 0 < len (cstr raw) < 400 ->
  ud_image (ud a) -> user_data_valid (ud a) = true -> heap h = [] -> queues h QMain = [] ->
  exists t' h1 m,
    ya_atcmd_handler (Some (test_line name size version c md5 ++ 0 :: r)) (a, t, h) = Done ya_CMD_RET_SUCCESS (a, t', h1) /\
    queues h1 QMain = [m] /\
    forall now ms, ms_app ms = a ->
    exists ms' h2, handle_main_msg now m (ms, set_queue QMain [] h1) = Reset (ms', h2) /\
    forall p s0, fresh_ram s0 ->
    exists s1 h3, ya_start_app_main p (s0, reboot h2) = Done tt (s1, h3) /\
      ya_get_ota_test_mode_url (s1, h3) = Done (Some (cstr raw)) (s1, h3).
Proof.
  intros An As Av Am Ln Ls Lv Lm Hc Hrssi Hp Hraw Hlen Hu Hv Hh Hq.
  destruct (handler_test name size version md5 c raw r a t h) as [t' E]; try done; [rewrite Hq; cbn; lia|].
  eexists t', _, _. split; [exact E|]. split; [cbn; by rewrite Hq|]. intros now ms <-.
  destruct (store_command now (cstr raw) ms (set_queue QMain [] (set_queue QMain (queues h QMain ++ [test_msg (cstr raw)]) (set_heap [] (live h + 3) h))))
    as (ms' & h2 & E2 & Hc2); try done; [apply cstr_is_no_nul|by apply is_bytes_cstr|lia|].
  exists ms', h2. split; [exact E2|]. intros p s0 Hs0.
  set (u := with_command (ud (ms_app ms)) (cstr raw)) in *.
  assert (Hu' : ud_image u) by (apply with_command_image; [done|by apply is_bytes_cstr|lia]).
  assert (Hid : reboot h2 = set_chip (chip h2) (reboot h2)) by done.
  destruct (start_after_read p s0 (reboot h2) u (chip h2)) as (s1 & h1 & Hst & _ & Hud & _); [|done..|].
  { rewrite <- Hid. apply read_main; [done|apply with_command_valid; [done|lia|done]|done|exact Hc2]. }
  exists s1, h1. split; [exact Hst|]. unfold ya_get_ota_test_mode_url, ud_string.
  rewrite bind_assoc. erewrite bind_done by reflexivity. cbn [fst]. rewrite Hud. unfold u.
  erewrite bind_done by reflexivity. rewrite with_command_text by (done || apply cstr_is_no_nul || lia).
  destruct (Z.eqb_spec (len (cstr raw)) 0); [lia|]. done.
Qed.

(** ** Witness: the digest left out, and a printer that answers something *)
Definition brief_text : JsonText := json_of (fun _ => None) (fun _ => Some (str "{upgrade}")).
Lemma update_test_command_witness :
  exists t' h1 m,
    @ya_atcmd_handler ideal _ _ brief_text _ _ (Some (test_line (str "fw.bin") (str "120") (str "v2") 49 None ++ [0])) (sample_app, fresh_at, boot)
      = Done 0 (sample_app, t', h1) /\ queues h1 QMain = [m].
Proof.
  destruct (@update_test_command ideal _ _ _ _ brief_text _ _ _ _ (str "fw.bin") (str "120") (str "v2") 49 None (str "{upgrade}") []
    sample_app fresh_at boot) as (t' & h1 & m & E & Hq & _).
  1-4: split; [split; [discriminate|evaluate]|evaluate].
  1-5: by vm_compute.
  1: vm_compute; reflexivity.
  1: reflexivity.
  1: evaluate.
  1: by vm_compute.
  1: evaluate.
  1: vm_compute; reflexivity.
  1-2: reflexivity.
  exists t', h1, m. split; [exact E|exact Hq].
Defined.

(** ** Defects, on the code as it is *)
Section Defects.
Context {C : Type} `{NorChip C} `{CertCheck} `{JsonText} `{BlockCipher} `{AtEnv}.

(** The digest of the licences clears two bytes past the end of its block,
    whatever the documents are. *)
Theorem license_digest_overflows us cn ru rc (a : app) (t : at_t) (h : hw C) :
  cJSON_PrintUnformatted us = Some ru -> cJSON_PrintUnformatted cn = Some rc ->
  printable us = true -> printable cn = true -> heap h = [] ->
  license_digest us cn (a, t, h) = Fault OutOfBounds.
Proof.
  intros Eu Ec Pu Pc Hh. unfold license_digest. erewrite bind_done by (apply document_done; [done|done|by rewrite Eu]).
  erewrite bind_done by (apply document_done; [done|done|by rewrite Ec]). cbn [deref]. do 2 erewrite bind_done by reflexivity.
  pose proof (len_nonneg (cstr rc)). pose proof (len_nonneg (cstr ru)).
  erewrite bind_done by (apply alloc_spare; [done|lia]). cbn beta iota. unfold bind at 1. unfold memset.
  set (b := replicate _ _). assert (Hb : len b = len (cstr rc) + len (cstr ru) + 1) by (unfold b, len in *; rewrite length_replicate; lia).
  rewrite Hb. zbool; done || lia.
Qed.
(** A name of 256 characters more than one that fits passes the check of its
    length, which is cut to eight bits, and overflows the array. *)
Theorem getrssi_overflows name r (a : app) (t : at_t) (h : hw C) :
  no_nul name -> len name = 256 + 5 -> enter_get_rssi_mode t = 0 ->
  pcmd_buffer t = Some ((str "getrssi " ++ name) ++ 0 :: r) -> getrssi (a, t, h) = Fault OutOfBounds.
Proof.
  intros Hz Hl Hm Hb. unfold getrssi, check_enter_get_rssi_mode, agets. erewrite bind_done by reflexivity. cbn [fst snd]. rewrite Hm. cbn [Z.eqb negb].
  erewrite bind_done by (eapply (str_at_word _ _ _ []); [exact Hb|done|apply Forall_app; split; [evaluate|done]]).
  rewrite len_app. change (len (str "getrssi ")) with 8. rewrite Hl. change (u8 (8 + (256 + 5) - 8)) with 5.
  cbn [Z.leb Z.ltb Z.compare orb]. change (32 <? 5) with false. cbn [orb]. erewrite bind_done by reflexivity. cbn [fst snd].
  erewrite bind_done by (apply cmd_buf_run; exact Hb).
  pose proof (len_nonneg r).
  erewrite bind_done by (apply rdn_ok; rewrite ?len_app, ?len_cons; change (len (str "getrssi ")) with 8; lia).
  unfold bind at 1. unfold memcpy. rewrite len_slice by (rewrite ?len_app, ?len_cons; change (len (str "getrssi ")) with 8; lia).
  change (len (zeros 33)) with 33. zbool; done || lia.
Qed.
End Defects.

(** A licence command without its CRC, or with a length beyond the buffer. *)
Example wrcert_without_crc :
  ya_atcmd_handler (Some (str "wrcert 10" ++ [0])) (sample_app, fresh_at, boot) = Fault NullDeref.
Proof. vm_compute. reflexivity. Qed.
Example wrcert_reads_past_buffer :
  ya_atcmd_handler (Some (str "wrcert ffff 1 {}" ++ [0])) (sample_app, fresh_at, boot) = Fault OutOfBounds.
Proof. vm_compute. reflexivity. Qed.
(** A short address is read past the end of the command. *)
Example setmac_reads_past_line :
  ya_atcmd_handler (Some (str "setmac 02a0" ++ [0])) (sample_app, fresh_at, boot) = Fault OutOfBounds.
Proof. vm_compute. reflexivity. Qed.
(** A product key that is too long is not written; the answer is ["rsp:OK"]. *)
Definition long_licence : cJSON :=
  jroot [jstr "server" "CN"; jobj "license" [jstr "product_key" "a1KeyThatIsFarTooLongToFit"; jstr "device_id" "d"; jstr "device_secret" "s"]].
Definition refusing_text : JsonText := json_of (fun _ => Some long_licence) (fun _ => None).
Theorem wrcert_failure_reported_ok :
  exists t' h', @ya_atcmd_handler ideal _ _ refusing_text _ _ (Some (wrcert_line 2 (crc_check (replicate 40 123)) (replicate 40 123) ++ [0]))
      (sample_app, fresh_at, boot) = Done ya_CMD_RET_SUCCESS (sample_app, t', h') /\
    trace h' = [EvWlan "at" [RESP_OK]] /\ chip h' = chip boot.
Proof. eexists _, _. split; [vm_compute; reflexivity|]. split; reflexivity. Qed.
