(* ===== verification/Console.v ===== *)
(** * The console: [system/util_cli_freertos.c] and [system/util_cmd.c]

    The interrupt handler of the console UART edits a line (with a history on
    the cursor key) and hands it to the system task, which offers it to the AT
    commands and, while none of them has been used yet, to the table of shell
    commands.  After the first AT command the console works with one large
    buffer that the commands cut up in place. *)

From stdpp Require Import base numbers list strings.
From S2P Require Import Prelude Platform SpiFlash Flash CommonFunc CJson License MainQueue Cloud Uart UserData Aes AtCmd.

Definition MAX_INPUT_LENGTH : Z := 128.
Definition MAX_INPUT_LENGTH_ATCMD : Z := 8 * 1024.
Definition NRC_MAX_CMDLINE_SIZE : Z := 128.
Definition MAX_HISTORY : Z := 10.
Definition NRC_MAX_ARGV : nat := 16.
Definition ESCAPE_KEY : Z := 0x1b.
Definition BACKSP_KEY : Z := 0x08.
Definition RETURN_KEY : Z := 0x0D.
Definition IS_ASCII (c : Z) : bool := (0x1F <? c) && (c <? 0x7F).
Definition CMD_RET_UNHANDLED : Z := 2.

(** An entry of the command table; sub-commands follow their command. *)
Record nrc_cmd := mkCmd { cmd_name : bytes; cmd_handler : option (list bytes -> Z); cmd_flag : Z }.
Class Shell := { cmd_table : list nrc_cmd }.

(** The globals of both files.  [works] are the lines handed to the system
    task: the block of a line, or [None] for the shared buffer; [refusals]
    are the answers of the next hand-overs ([[]]: accepted).  The history is
    one array of ten rows. *)
Record console := mkConsole {
  cli_buffer : pointer; cli_index : Z; g_cli_history : bytes; g_cli_history_index : Z; g_cli_history_rd_index : Z;
  g_cli_history_escape : bool; g_cli_typing : bool; reMalloc_flag : Z; ya_atcmd_start_flag : Z;
  works : list (option bytes); refusals : list bool }.
Definition set_cli b i k := mkConsole b i (g_cli_history k) (g_cli_history_index k) (g_cli_history_rd_index k) (g_cli_history_escape k)
  (g_cli_typing k) (reMalloc_flag k) (ya_atcmd_start_flag k) (works k) (refusals k).
Definition set_history v i r k := mkConsole (cli_buffer k) (cli_index k) v i r (g_cli_history_escape k)
  (g_cli_typing k) (reMalloc_flag k) (ya_atcmd_start_flag k) (works k) (refusals k).
Definition set_escape e k := mkConsole (cli_buffer k) (cli_index k) (g_cli_history k) (g_cli_history_index k) (g_cli_history_rd_index k) e
  (g_cli_typing k) (reMalloc_flag k) (ya_atcmd_start_flag k) (works k) (refusals k).
Definition set_typing v k := mkConsole (cli_buffer k) (cli_index k) (g_cli_history k) (g_cli_history_index k) (g_cli_history_rd_index k)
  (g_cli_history_escape k) v (reMalloc_flag k) (ya_atcmd_start_flag k) (works k) (refusals k).
Definition set_flags r f k := mkConsole (cli_buffer k) (cli_index k) (g_cli_history k) (g_cli_history_index k) (g_cli_history_rd_index k)
  (g_cli_history_escape k) (g_cli_typing k) r f (works k) (refusals k).
Definition set_works w r k := mkConsole (cli_buffer k) (cli_index k) (g_cli_history k) (g_cli_history_index k) (g_cli_history_rd_index k)
  (g_cli_history_escape k) (g_cli_typing k) (reMalloc_flag k) (ya_atcmd_start_flag k) w r.


(** ** The line editor *)
Section Editor.
Context {C : Type}.
Abbreviation PK := (P C console).

(** What [cli.buffer] points to. *)
Definition cli_block : PK bytes :=
  let* p := gets cli_buffer in
  match p with POwned b => ret b | PNull => fail NullDeref | PFreed => fail UseAfterFree end.
(** [cli.buffer[cli.index++] = c]. *)
Definition cli_put (c : Z) : PK unit :=
  let* b := cli_block in
  let* i := gets cli_index in
  let* b := wr b i c in
  puts (set_cli (POwned b) (i + 1)).
(** A new block of [n] bytes; the assertion only prints. *)
Definition cli_alloc (n : Z) : PK unit :=
  let* p := ya_hal_os_memory_alloc n in
  puts (set_cli (match p with Some b => POwned b | None => PNull end) 0).
Definition cli_prepare : PK unit :=
  let* k := gets id in
  if ya_atcmd_start_flag k =? 0 then
    match cli_buffer k with PNull => cli_alloc MAX_INPUT_LENGTH | _ => ret tt end
  else if reMalloc_flag k =? 0 then
    puts (set_flags 1 (ya_atcmd_start_flag k)) ;;
    match cli_buffer k with
    | PNull => ret tt
    | POwned _ => ya_hal_os_memory_free
    | PFreed => fail BadFree
    end ;;
    cli_alloc MAX_INPUT_LENGTH_ATCMD
  else ret tt.

(** The cursor key: backwards to a row that is not empty, at most ten steps. *)
Fixpoint history_back (n : nat) (rows : bytes) (rd_index : Z) : PK Z :=
  match n with
  | O => ret rd_index
  | S n =>
    let rd_index := if rd_index =? 0 then MAX_HISTORY - 1 else rd_index - 1 in
    let* c := rd rows (rd_index * MAX_INPUT_LENGTH) in
    if negb (c =? 0) then ret rd_index else history_back n rows rd_index
  end.
Definition recall : PK unit :=
  let* k := gets id in
  let* rd_index := history_back (Z.to_nat MAX_HISTORY) (g_cli_history k) (g_cli_history_rd_index k) in
  puts (set_history (g_cli_history k) (g_cli_history_index k) rd_index) ;;
  let* history := text_at (drop (Z.to_nat (rd_index * MAX_INPUT_LENGTH)) (g_cli_history k)) in
  let* b := cli_block in
  let* b := memcpy b 0 history in
  puts (set_cli (POwned b) (len history)).
(** The third character of an escape sequence. *)
Definition escape_end : PK unit :=
  puts (set_escape false) ;;
  let* b := cli_block in
  let* x := rd b 0 in let* y := rd b 1 in let* z := rd b 2 in
  if (x =? 27) && (y =? 91) && (z =? 65) then recall
  else let* p := gets cli_buffer in puts (set_cli p 0).
Definition remember : PK unit :=
  let* k := gets id in
  if 0 <? cli_index k then
    let row := g_cli_history_index k * MAX_INPUT_LENGTH in
    let* b := cli_block in
    let* rows := memcpy (g_cli_history k) row (zeros MAX_INPUT_LENGTH) in
    let* v := rdn b 0 (cli_index k) in
    let* rows := memcpy rows row v in
    let i := u8 (g_cli_history_index k + 1) in
    let i := if i =? MAX_HISTORY then 0 else i in
    puts (set_history rows i i)
  else ret tt.
(** [system_schedule_work_queue_from_isr(cli_handler, cli.buffer, NULL)]. *)
Definition schedule (w : option bytes) : PK bool :=
  let* k := gets id in
  match refusals k with
  | [] => puts (set_works (works k ++ [w]) []) ;; ret true
  | true :: l => puts (set_works (works k) l) ;; ret false
  | false :: l => puts (set_works (works k ++ [w]) l) ;; ret true
  end.
(** The line is finished; a refused one is freed, and in AT mode the pointer
    stays. *)
Definition cli_return : PK unit :=
  let* k := gets id in
  let at_mode := negb (ya_atcmd_start_flag k =? 0) in
  when (negb at_mode) (puts (set_typing (negb (g_cli_typing k)))) ;;
  if 0 <? cli_index k then
    let* b := cli_block in
    let* b := wr b (cli_index k) 0 in
    puts (set_cli (POwned b) (cli_index k)) ;;
    let* ok := schedule (if at_mode then None else Some b) in
    when (negb ok) (ya_hal_os_memory_free ;; puts (set_cli PFreed (cli_index k))) ;;
    when (negb at_mode) (puts (set_cli PNull (cli_index k)))
  else ret tt.
Definition cli_key (c : Z) : PK unit :=
  let* k := gets id in
  let at_mode := negb (ya_atcmd_start_flag k =? 0) in
  if c =? BACKSP_KEY then
    if negb at_mode && (0 <? cli_index k) then puts (set_cli (cli_buffer k) (cli_index k - 1)) else ret tt
  else if c =? RETURN_KEY then cli_return
  else if c =? 10 then ret tt
  else if at_mode then
    if IS_ASCII c && (cli_index k <? MAX_INPUT_LENGTH_ATCMD) then cli_put c else ret tt
  else if IS_ASCII c && (cli_index k <? MAX_INPUT_LENGTH) then puts (set_typing true) ;; cli_put c
  else ret tt.
Definition util_cli_callback (c : Z) : PK unit :=
  cli_prepare ;;
  let* k := gets id in
  if negb (ya_atcmd_start_flag k =? 0) then cli_key c
  else if c =? ESCAPE_KEY then
    puts (set_cli (cli_buffer k) 0) ;; cli_put c ;; puts (set_escape true)
  else if g_cli_history_escape k then
    cli_put c ;;
    let* k := gets id in
    if cli_index k =? 3 then escape_end else ret tt
  else
    puts (set_escape false) ;;
    when (c =? RETURN_KEY) remember ;;
    cli_key c.
End Editor.

(** ** Running a line *)

(** [isblank2]. *)
Definition isblank2 (c : Z) : bool := (c =? 32) || (c =? 9).
Fixpoint skip_blanks {T} (s : bytes) : M T bytes :=
  match s with
  | [] => fail OutOfBounds
  | c :: r => if isblank2 c then skip_blanks r else ret s
  end.
(** The characters up to a blank or the end, and what follows. *)
Fixpoint until_blank {T} (s : bytes) : M T (bytes * bytes) :=
  match s with
  | [] => fail OutOfBounds
  | c :: r => if (c =? 0) || isblank2 c then ret ([], s) else let* '(w, r) := until_blank r in ret (c :: w, r)
  end.
(** [util_cmd_parse_line]: the texts of [argv], with [n] entries left; the NULL
    after the last one goes past the array when it is full. *)
Fixpoint parse_args {T} (n : nat) (s : bytes) : M T (list bytes) :=
  match n with
  | O => fail OutOfBounds
  | S n =>
    let* s := skip_blanks s in
    let* c := rd s 0 in
    if c =? 0 then ret []
    else
      let* '(w, r) := until_blank s in
      let* x := rd r 0 in
      if x =? 0 then match n with O => fail OutOfBounds | S _ => ret [w] end
      else let* ws := parse_args n (drop 1 r) in ret (w :: ws)
  end.
Definition util_cmd_parse_line {T} (s : bytes) : M T (list bytes) := parse_args NRC_MAX_ARGV s.

(** The entry found and those behind it. *)
Fixpoint find_cmd (t : list nrc_cmd) (cmd : bytes) : option (nrc_cmd * list nrc_cmd) :=
  match t with
  | [] => None
  | e :: t => if (cmd_flag e =? 0) && (cmd ==? cmd_name e) then Some (e, t) else find_cmd t cmd
  end.
Fixpoint find_sub_cmd (t : list nrc_cmd) (cmd : bytes) : option nrc_cmd :=
  match t with
  | [] => None
  | e :: t => if Z.land (cmd_flag e) 1 =? 0 then None else if cmd_name e ==? cmd then Some e else find_sub_cmd t cmd
  end.
Definition cmd_process {T} `{Shell} (argv : list bytes) : M T Z :=
  match argv with
  | [] => fail NullDeref
  | arg0 :: args =>
    match find_cmd cmd_table arg0 with
    | None => ret (-1)
    | Some (e, t) =>
      let rc := match cmd_handler e with Some f => f argv | None => CMD_RET_UNHANDLED end in
      if negb (rc =? CMD_RET_UNHANDLED) then ret rc
      else match args with
           | [] => ret (-1)
           | arg1 :: _ =>
             match find_sub_cmd t arg1 with
             | None => ret 1
             | Some e => let* f := deref (cmd_handler e) in ret (f args)
             end
           end
    end
  end.

Section Run.
Context {C : Type} `{NorChip C} `{CertCheck} `{JsonText} `{BlockCipher} `{AtEnv} `{Shell}.
Abbreviation PR := (P C (app * at_t * console)).
Definition kgets {B} (f : console -> B) : PR B := gets (fun s => f s.2).
Definition kputs (f : console -> console) : PR unit := puts (fun s => (s.1, f s.2)).
Definition in_at {B} (m : P C (app * at_t) B) : PR B := zoom_s fst (fun x s => (x, s.2)) m.
Definition in_cli {B} (m : P C console B) : PR B := zoom_s snd (fun k s => (s.1, k)) m.

(** The status, and what the commands, which work in place, leave in the block
    of [cmd]. *)
Definition util_cmd_run_command (cmd : option bytes) : PR (Z * option bytes) :=
  match cmd with
  | None => ret (-1, None)
  | Some b =>
    let* c := rd b 0 in
    if c =? 0 then ret (-1, Some b)
    else
      let* s := text_at b in
      let* flag := kgets ya_atcmd_start_flag in
      if (if flag =? 0 then NRC_MAX_CMDLINE_SIZE <=? len s else MAX_INPUT_LENGTH_ATCMD <? len s) then ret (-1, Some b)
      else
        let* rc := in_at (ya_atcmd_handler cmd) in
        let* b := in_at cmd_buf in
        when (0 <=? rc) (kputs (fun k => set_flags (reMalloc_flag k) 1 k)) ;;
        let* flag := kgets ya_atcmd_start_flag in
        if flag =? 0 then
          let* argv := util_cmd_parse_line b in
          match argv with [] => ret (-1, Some b) | _ => let* rc := cmd_process argv in ret (rc, Some b) end
        else ret (rc, Some b)
  end.
(** The system task takes a line: its own block, freed afterwards, or in AT
    mode whatever the console's buffer holds. *)
Definition cli_handler (w : option bytes) : PR unit :=
  let* k := kgets id in
  if ya_atcmd_start_flag k =? 0 then
    match w with
    | Some b => util_cmd_run_command (Some b) ;; ya_hal_os_memory_free
    | None =>
      let* b := in_cli cli_block in
      util_cmd_run_command (Some b) ;; ya_hal_os_memory_free ;; kputs (set_cli PFreed (cli_index k))
    end
  else
    match cli_buffer k with
    | PNull => util_cmd_run_command None ;; kputs (set_cli PNull 0)
    | PFreed => fail UseAfterFree
    | POwned b =>
      let* '(_, b) := util_cmd_run_command (Some b) in
      kputs (set_cli (match b with Some b => POwned b | None => PNull end) 0)
    end.
(** One turn of the system task. *)
Definition sys_task_turn : PR unit :=
  let* k := kgets id in
  match works k with
  | [] => ret tt
  | w :: l => kputs (set_works l (refusals k)) ;; cli_handler w
  end.
(** A character of the line arrives. *)
Definition type_key (c : Z) : PR unit := in_cli (util_cli_callback c).
End Run.
