(* ===== verification/ConsoleProofs.v ===== *)
(** * What the console guarantees

    Splitting a line into arguments against the reference split; the line
    editor against a reference on texts; and typed commands, from the keys to
    their effect. *)

From stdpp Require Import base numbers list strings.
From S2P Require Import Prelude Platform SpiFlash Flash CommonFunc CJson License MainQueue Cloud Uart UartProofs UserData UserDataProofs Aes AtCmd AtProofs Console.

(** ** Arguments *)
Section Args.
Context {T : Type}.
Definition blanks : bytes := [32; 9].
Lemma isblank2_spec c : isblank2 c = bool_decide (c ∈ blanks).
Proof.
  unfold isblank2, blanks. symmetry. destruct (Z.eqb_spec c 32) as [->|]; [done|]. destruct (Z.eqb_spec c 9) as [->|]; [done|].
  cbn [orb]. apply bool_decide_eq_false. rewrite !elem_of_cons. intros [?|[?|[]%elem_of_nil]]; done.
Qed.
Lemma skip_blanks_run d c r (t : T) : delims blanks d -> c ∉ blanks -> skip_blanks (d ++ c :: r) t = Done (c :: r) t.
Proof.
  intros Hd Hc. induction Hd as [|x d Hx _ IH]; cbn [List.app skip_blanks]; rewrite isblank2_spec.
  - by rewrite bool_decide_false.
  - by rewrite bool_decide_true.
Qed.
Lemma until_blank_run w x r (t : T) : Forall (fun c => c ∉ blanks) w -> no_nul w -> x = 0 \/ x ∈ blanks ->
  until_blank (w ++ x :: r) t = Done (w, x :: r) t.
Proof.
  intros Hw Hz Hx. induction Hw as [|c w Hc _ IH]; cbn [List.app until_blank]; rewrite isblank2_spec.
  - destruct Hx as [->|Hx]; [done|]. by rewrite (bool_decide_true (x ∈ blanks)), orb_true_r.
  - apply Forall_cons in Hz as [Hc0 Hz]. destruct (Z.eqb_spec c 0); [done|]. rewrite bool_decide_false by done. cbn [orb].
    by erewrite bind_done by (by apply IH).
Qed.
Lemma nul_not_blank : 0 ∉ blanks.
Proof. unfold blanks. rewrite !elem_of_cons. intros [?|[?|[]%elem_of_nil]]; done. Qed.

Lemma parse_args_words n line r (t : T) : no_nul line -> 
  parse_args n (line ++ 0 :: r) t = if decide (length (words blanks line) < n)%nat then Done (words blanks line) t else Fault OutOfBounds.
Proof.
  revert line. induction n as [|n IH]; intros line Hz; [by rewrite decide_False by lia|]. cbn [parse_args].
  destruct (line_cases blanks line) as [d Hd|d w Hd Hw|d w x s Hd Hw Hx].
  - erewrite bind_done by (apply skip_blanks_run; [done|apply nul_not_blank]). rewrite words_none by done. cbn [length].
    erewrite bind_done by (by eapply (rd_at _ [])). done.
  - rewrite words_last by done. pose proof Hw as [Hne Hw']. destruct w as [|c w]; [done|].
    apply Forall_app in Hz as [_ Hz]. apply Forall_cons in Hw' as Hc. destruct Hc as [Hc _]. apply Forall_cons in Hz as Hc0. destruct Hc0 as [Hc0 _].
    rewrite <- app_assoc. erewrite bind_done by (by apply (skip_blanks_run d c (w ++ 0 :: r))).
    erewrite bind_done by (by eapply (rd_at _ [])). destruct (Z.eqb_spec c 0); [done|].
    erewrite bind_done by (apply (until_blank_run (c :: w) 0 r); [done|done|by left]). cbn beta iota.
    erewrite bind_done by (by eapply (rd_at _ [])). cbn [Z.eqb]. destruct n; [by rewrite decide_False by (cbn; lia)|].
    by rewrite decide_True by (cbn; lia).
  - rewrite words_more by done. pose proof Hw as [Hne Hw']. destruct w as [|c w]; [done|].
    apply no_nul_parts in Hz as (_ & Hz & Hzs). apply Forall_cons in Hzs as [_ Hzs].
    apply Forall_cons in Hw' as Hc. destruct Hc as [Hc _]. apply Forall_cons in Hz as Hc0. destruct Hc0 as [Hc0 _].
    rewrite <- !app_assoc. cbn [List.app].
    erewrite bind_done by (by apply (skip_blanks_run d c (w ++ x :: s ++ 0 :: r))).
    erewrite bind_done by (by eapply (rd_at _ [])). destruct (Z.eqb_spec c 0); [done|].
    erewrite bind_done by (apply (until_blank_run (c :: w) x (s ++ 0 :: r)); [done|done|by right]). cbn beta iota.
    erewrite bind_done by (by eapply (rd_at _ [])). destruct (Z.eqb_spec x 0) as [->|]; [by destruct nul_not_blank|].
    unfold bind at 1. change (drop 1 (x :: s ++ 0 :: r)) with (s ++ 0 :: r). rewrite IH by done. cbn [length].
    destruct (decide (length (words blanks s) < n)%nat); [rewrite decide_True by lia|rewrite decide_False by lia]; done.
Qed.
End Args.

Lemma for_each_snoc {T A} (l : list A) x (body : A -> M T unit) s s' :
  for_each l body s = Done tt s' -> for_each (l ++ [x]) body s = body x s'.
Proof.
  revert s. induction l as [|y l IH]; intros s; cbn [List.app for_each].
  - intros [= <-]. unfold bind, ret. by destruct (body x s) as [[]| |].
  - unfold bind. destruct (body y s); [apply IH|done|done].
Qed.

(** ** The line editor *)

(** The reference: the text after a key, for keys that neither end the line nor
    start an escape sequence. *)
Definition edit (max : Z) (line : bytes) (c : Z) : bytes :=
  if c =? BACKSP_KEY then take (length line - 1) line
  else if IS_ASCII c && (len line <? max) then line ++ [c] else line.
Definition plain_key (c : Z) : Prop := c <> ESCAPE_KEY /\ c <> RETURN_KEY.
#[export] Instance plain_key_dec c : Decision (plain_key c).
Proof. unfold plain_key; apply _. Defined.

Section Editor.
Context {C : Type}.
Implicit Types (k : console) (h : hw C) (line b : bytes).

(** The first bytes of the block are the line. *)
Definition shows k line b : Prop := cli_buffer k = POwned b /\ cli_index k = len line /\ take (length line) b = line.
Lemma shows_split k line b : shows k line b -> b = line ++ drop (length line) b.
Proof. intros (_ & _ & Ht). by rewrite <- Ht at 1; rewrite take_drop. Qed.
Lemma shows_fits k line b : shows k line b -> len line <= len b.
Proof. intros Hs. rewrite (shows_split _ _ _ Hs), len_app. pose proof (len_nonneg (drop (length line) b)). lia. Qed.
Lemma cli_block_run k h b : cli_buffer k = POwned b -> cli_block (k, h) = Done b (k, h).
Proof. intros Hb. unfold cli_block. erewrite bind_done by reflexivity. cbn [fst]. by rewrite Hb. Qed.
Lemma cli_put_run k h line b c : shows k line b -> len line < len b -> is_u8 c ->
  exists b', cli_put c (k, h) = Done tt (set_cli (POwned b') (len line + 1) k, h) /\ len b' = len b /\
    (is_bytes b -> is_bytes b') /\ shows (set_cli (POwned b') (len line + 1) k) (line ++ [c]) b'.
Proof.
  intros Hs Hl Hc. pose proof Hs as (Hb & Hi & Ht). pose proof (len_nonneg line). unfold cli_put.
  erewrite bind_done by (by apply cli_block_run). erewrite bind_done by reflexivity. cbn [fst]. rewrite Hi.
  erewrite bind_done by (apply wr_ok; lia). eexists. split; [reflexivity|]. rewrite u8_small by done. split; [apply len_insert|].
  split; [intros Hbb; by apply Forall_insert|]. split; [done|]. split; [cbn; by rewrite len_app|].
  rewrite (shows_split _ _ _ Hs). unfold len in *. rewrite Nat2Z.id, insert_app_r_alt, Nat.sub_diag by lia.
  destruct (drop (length line) b) as [|y z] eqn:E; [apply (f_equal length) in E; rewrite length_drop in E; cbn in E; lia|].
  cbn [list_insert]. rewrite length_app. cbn [length]. rewrite take_app_add. done.
Qed.

(** Shell mode: no AT command yet, no escape sequence. *)
Definition shell_mode k : Prop := ya_atcmd_start_flag k = 0 /\ g_cli_history_escape k = false.
Definition same_queue k k' : Prop :=
  works k' = works k /\ refusals k' = refusals k /\ g_cli_history k' = g_cli_history k /\ g_cli_history_index k' = g_cli_history_index k.
(** A key that is no escape, with a buffer in place. *)
Lemma shell_enter k h b c : shell_mode k -> cli_buffer k = POwned b -> c <> ESCAPE_KEY ->
  util_cli_callback c (k, h) = (when (c =? RETURN_KEY) remember ;; cli_key c) (set_escape false k, h).
Proof.
  intros [Hf He] Hbk Hc.
  unfold util_cli_callback, cli_prepare. rewrite bind_assoc. erewrite bind_done by reflexivity. cbn [fst id]. rewrite Hf, Hbk. cbn [Z.eqb].
  erewrite bind_done by reflexivity. erewrite bind_done by reflexivity. cbn [fst id]. rewrite Hf. cbn [Z.eqb negb].
  destruct (Z.eqb_spec c ESCAPE_KEY); [done|]. rewrite He. by erewrite bind_done by reflexivity.
Qed.
Lemma shell_key k h line b c : shell_mode k -> shows k line b -> len b = MAX_INPUT_LENGTH -> plain_key c -> is_u8 c ->
  exists k' b', util_cli_callback c (k, h) = Done tt (k', h) /\ shell_mode k' /\ shows k' (edit MAX_INPUT_LENGTH line c) b' /\
    len b' = MAX_INPUT_LENGTH /\ same_queue k k'.
Proof.
  intros [Hf He] Hs Hb [Hesc Hret] Hc. pose proof Hs as (Hbk & Hi & Ht). pose proof (shows_fits _ _ _ Hs) as Hfit.
  rewrite (shell_enter k h b) by done.
  destruct (Z.eqb_spec c RETURN_KEY) as [|_]; [done|]. cbn [when]. erewrite bind_done by reflexivity.
  set (k0 := set_escape false k).
  assert (Hs0 : shows k0 line b) by done.
  unfold cli_key. erewrite bind_done by reflexivity. cbn [fst id]. change (ya_atcmd_start_flag k0) with (ya_atcmd_start_flag k). rewrite Hf.
  cbn [Z.eqb negb andb]. unfold edit. pose proof (len_nonneg line). destruct (Z.eqb_spec c BACKSP_KEY) as [->|].
  - change (cli_index k0) with (cli_index k). rewrite Hi. destruct (Z.ltb_spec 0 (len line)).
    + eexists _, b. split; [reflexivity|]. split; [done|]. split; [|split; [done|done]].
      split; [done|]. unfold len in *. split; [cbn; rewrite length_take; lia|].
      rewrite length_take, Nat.min_l by lia. rewrite <- Ht at 3. rewrite take_take. f_equal. lia.
    + eexists k0, b. split; [reflexivity|]. split; [done|]. split; [|done].
      assert (line = []) as -> by (destruct line; [done|unfold len in *; cbn in *; lia]). done.
  - destruct (Z.eqb_spec c RETURN_KEY) as [|_]; [done|]. destruct (Z.eqb_spec c 10) as [->|_].
    { eexists k0, b. split; [reflexivity|]. by split. }
    change (cli_index k0) with (cli_index k). rewrite Hi. destruct (IS_ASCII c && (len line <? MAX_INPUT_LENGTH)) eqn:Ha.
    + apply andb_true_iff in Ha as [_ Ha%Z.ltb_lt]. erewrite bind_done by reflexivity.
      destruct (cli_put_run (set_typing true k0) h line b c) as (b' & Hp & Hlb & _ & Hs'); [done|lia|done|].
      eexists _, b'. split; [exact Hp|]. split; [done|]. split; [done|]. split; [by rewrite Hlb|done].
    + eexists k0, b. split; [reflexivity|]. by split.
Qed.

Lemma shell_keys keys : forall k h line b, shell_mode k -> shows k line b -> len b = MAX_INPUT_LENGTH ->
  Forall plain_key keys -> is_bytes keys ->
  exists k' b', for_each keys util_cli_callback (k, h) = Done tt (k', h) /\ shell_mode k' /\
    shows k' (foldl (edit MAX_INPUT_LENGTH) line keys) b' /\ len b' = MAX_INPUT_LENGTH /\ same_queue k k'.
Proof.
  induction keys as [|c keys IH]; intros k h line b Hk Hs Hb Hp Hc; [by exists k, b|].
  apply Forall_cons in Hp as [Hp Hps]. apply Forall_cons in Hc as [Hc Hcs].
  destruct (shell_key k h line b c) as (k1 & b1 & E & Hk1 & Hs1 & Hb1 & Hq1); [done..|].
  destruct (IH k1 h (edit MAX_INPUT_LENGTH line c) b1) as (k2 & b2 & E2 & Hk2 & Hs2 & Hb2 & Hq2); [done..|].
  exists k2, b2. cbn [for_each foldl]. erewrite bind_done by exact E. split; [exact E2|]. split_and!; try done.
  unfold same_queue in *. destruct Hq1 as (?&?&?&?), Hq2 as (?&?&?&?). split_and!; congruence.
Qed.
Lemma edit_bound max line keys : len line <= max -> len (foldl (edit max) line keys) <= max.
Proof.
  revert line. induction keys as [|c keys IH]; intros line Hl; [done|]. cbn. apply IH. unfold edit.
  destruct (c =? BACKSP_KEY); [unfold len in *; rewrite length_take; lia|].
  destruct (IS_ASCII c && (len line <? max)) eqn:E; [|done]. apply andb_true_iff in E as [_ E%Z.ltb_lt].
  rewrite len_app. change (len [c]) with 1. lia.
Qed.
(** The history's rows. *)
Definition history_wf k : Prop := len (g_cli_history k) = MAX_HISTORY * MAX_INPUT_LENGTH /\ 0 <= g_cli_history_index k < MAX_HISTORY.
Lemma remember_run k h line b : shows k line b -> history_wf k -> 0 < len line <= MAX_INPUT_LENGTH ->
  exists rows i, remember (k, h) = Done tt (set_history rows i i k, h) /\ history_wf (set_history rows i i k) /\
    slice rows (g_cli_history_index k * MAX_INPUT_LENGTH) MAX_INPUT_LENGTH = line ++ zeros (MAX_INPUT_LENGTH - len line).
Proof.
  intros Hs [Hh Hx] Hl. pose proof Hs as (Hb & Hi & Ht). pose proof (shows_fits _ _ _ Hs). unfold MAX_HISTORY, MAX_INPUT_LENGTH in *.
  unfold remember. erewrite bind_done by reflexivity. cbn [fst id]. rewrite Hi. destruct (Z.ltb_spec 0 (len line)); [|lia].
  set (row := g_cli_history_index k * MAX_INPUT_LENGTH). unfold MAX_INPUT_LENGTH in *.
  assert (Hz : len (zeros 128) = 128) by (by apply len_zeros).
  erewrite bind_done by (by apply cli_block_run). erewrite bind_done by (apply memcpy_ok; unfold row; lia).
  erewrite bind_done by (by apply (rdn_at b [] line (drop (length line) b)); [apply (shows_split _ _ _ Hs)|..]).
  assert (H1 : len (splice (g_cli_history k) row (zeros 128)) = 1280) by (rewrite len_splice; unfold row; lia).
  erewrite bind_done by (apply memcpy_ok; unfold row in *; lia).
  set (i := if u8 (g_cli_history_index k + 1) =? 10 then 0 else u8 (g_cli_history_index k + 1)).
  exists (splice (splice (g_cli_history k) row (zeros 128)) row line), i. split; [reflexivity|]. split.
  - split; cbn [g_cli_history g_cli_history_index set_history]; unfold MAX_HISTORY, MAX_INPUT_LENGTH; [rewrite len_splice; unfold row in *; lia|].
    unfold i. rewrite u8_small by (unfold is_u8; lia). zbool; lia.
  - assert (Es : splice (g_cli_history k) row (zeros 128) =
      take (Z.to_nat row) (g_cli_history k) ++ zeros 128 ++ drop (Z.to_nat row + 128) (g_cli_history k)) by done.
    assert (Hp : len (take (Z.to_nat row) (g_cli_history k)) = row) by (apply len_take; unfold row; lia).
    rewrite Es, splice_at by done. rewrite drop_app_le by (unfold zeros, len in *; rewrite length_replicate; lia).
    replace (drop (length line) (zeros 128)) with (zeros (128 - len line)) by (unfold zeros, len; rewrite drop_replicate; f_equal; lia).
    rewrite (assoc_L (++) line). apply slice_mid; [done|]. rewrite len_app, len_zeros; lia.
Qed.
Lemma terminate_block k line b : shows k line b -> len line < len b ->
  <[Z.to_nat (len line) := u8 0]> b = line ++ 0 :: drop (S (length line)) b.
Proof.
  intros Hs Hl. rewrite (shows_split _ _ _ Hs) at 1. unfold len in *. rewrite Nat2Z.id, insert_app_r_alt, Nat.sub_diag by lia. f_equal.
  destruct (drop (length line) b) as [|y z] eqn:Ed; [apply (f_equal length) in Ed; rewrite length_drop in Ed; cbn in Ed; lia|].
  cbn. f_equal. change (S (length line)) with (1 + length line)%nat. rewrite Nat.add_comm, <- drop_drop, Ed. done.
Qed.
(** Ending a line in shell mode. *)
Lemma shell_return k h line b : shell_mode k -> shows k line b -> len b = MAX_INPUT_LENGTH -> history_wf k -> refusals k = [] ->
  0 < len line ->
  if decide (len line = MAX_INPUT_LENGTH) then util_cli_callback RETURN_KEY (k, h) = Fault OutOfBounds
  else exists k' rest, util_cli_callback RETURN_KEY (k, h) = Done tt (k', h) /\ shell_mode k' /\ cli_buffer k' = PNull /\
    works k' = works k ++ [Some (line ++ 0 :: rest)] /\ refusals k' = [] /\ history_wf k' /\
    slice (g_cli_history k') (g_cli_history_index k * MAX_INPUT_LENGTH) MAX_INPUT_LENGTH = line ++ zeros (MAX_INPUT_LENGTH - len line).
Proof.
  intros [Hf He] Hs Hb Hh Hr Hl. pose proof Hs as (Hbk & Hi & Ht). pose proof (shows_fits _ _ _ Hs) as Hfit.
  destruct (remember_run (set_escape false k) h line b) as (rows & i & Em & Hw & Hrow); [done|done|lia|].
  assert (Erun : util_cli_callback RETURN_KEY (k, h) = cli_return (set_history rows i i (set_escape false k), h)).
  { rewrite (shell_enter k h b) by done. change (RETURN_KEY =? RETURN_KEY) with true. cbn [when]. erewrite bind_done by exact Em.
    unfold cli_key. erewrite bind_done by reflexivity. reflexivity. }
  rewrite Erun. unfold cli_return. erewrite bind_done by reflexivity. cbn [fst id].
  set (k1 := set_history rows i i (set_escape false k)). change (ya_atcmd_start_flag k1) with (ya_atcmd_start_flag k).
  change (cli_index k1) with (cli_index k). rewrite Hf, Hi. cbn [Z.eqb negb when]. erewrite bind_done by reflexivity.
  destruct (Z.ltb_spec 0 (len line)); [|lia]. erewrite bind_done by (by apply cli_block_run).
  destruct (decide (len line = MAX_INPUT_LENGTH)) as [E|E].
  - unfold bind at 1. unfold wr. rewrite Hb, E. zbool; done || lia.
  - erewrite bind_done by (apply wr_ok; lia). erewrite bind_done by reflexivity.
    rewrite (terminate_block k line b) by (done || lia). unfold schedule. erewrite bind_done by (erewrite bind_done by reflexivity; cbn [fst id]; 
      match goal with |- context [refusals ?k'] => change (refusals k') with (refusals k) end; rewrite Hr; reflexivity).
    cbn [negb when]. erewrite bind_done by reflexivity. eexists _, (drop (S (length line)) b). split; [reflexivity|].
    split_and!; try done.
Qed.

(** Ending an empty line. *)
Lemma shell_return_empty k h b : shell_mode k -> shows k [] b ->
  exists k', util_cli_callback RETURN_KEY (k, h) = Done tt (k', h) /\ shell_mode k' /\ works k' = works k.
Proof.
  intros [Hf He] (Hbk & Hi & _). change (len []) with 0 in Hi. eexists. split.
  - rewrite (shell_enter k h b) by done. change (RETURN_KEY =? RETURN_KEY) with true. cbn [when].
    erewrite bind_done by (unfold remember; erewrite bind_done by reflexivity; cbn [fst id set_escape cli_index]; rewrite Hi; reflexivity).
    unfold cli_key. erewrite bind_done by reflexivity. cbn [fst id]. change (RETURN_KEY =? BACKSP_KEY) with false. change (RETURN_KEY =? RETURN_KEY) with true.
    cbn beta iota. unfold cli_return. erewrite bind_done by reflexivity. cbn [fst id set_escape cli_index ya_atcmd_start_flag]. rewrite Hf, Hi.
    cbn [Z.eqb negb when]. erewrite bind_done by reflexivity. reflexivity.
  - done.
Qed.
(** The first key of a line finds no buffer and gets one. *)
Lemma first_key k h c : ya_atcmd_start_flag k = 0 -> cli_buffer k = PNull -> heap h = [] ->
  exists b, len b = MAX_INPUT_LENGTH /\
    util_cli_callback c (k, h) = util_cli_callback c (set_cli (POwned b) 0 k, set_heap [] (live h + 1) h).
Proof.
  intros Hf Hb Hh. exists (replicate (Z.to_nat MAX_INPUT_LENGTH) (u8 (junk h))). split; [unfold len; by rewrite length_replicate|].
  unfold util_cli_callback. unfold bind at 1. symmetry. unfold bind at 1. symmetry.
  unfold cli_prepare. erewrite !bind_done by reflexivity. cbn [fst id cli_buffer ya_atcmd_start_flag set_cli]. rewrite Hf, Hb.
  change (0 =? 0) with true. cbn beta iota. unfold cli_alloc. unfold bind at 1. unfold ya_hal_os_memory_alloc. rewrite Hh. reflexivity.
Qed.

(** ** AT mode *)
Definition at_mode k : Prop := ya_atcmd_start_flag k = 1 /\ reMalloc_flag k = 1.
Lemma at_enter k h c : at_mode k -> util_cli_callback c (k, h) = cli_key c (k, h).
Proof.
  intros [Hf Hr]. unfold util_cli_callback, cli_prepare. rewrite bind_assoc. erewrite bind_done by reflexivity. cbn [fst id]. rewrite Hf, Hr.
  cbn [Z.eqb]. erewrite bind_done by reflexivity. erewrite bind_done by reflexivity. cbn [fst id]. by rewrite Hf.
Qed.
Lemma at_key k h line b c : at_mode k -> shows k line b -> len line < MAX_INPUT_LENGTH_ATCMD <= len b -> IS_ASCII c = true ->
  exists b', util_cli_callback c (k, h) = Done tt (set_cli (POwned b') (len line + 1) k, h) /\ len b' = len b /\
    (is_bytes b -> is_bytes b') /\ shows (set_cli (POwned b') (len line + 1) k) (line ++ [c]) b'.
Proof.
  intros Hk Hs Hl Ha. pose proof Hs as (Hbk & Hi & _). rewrite at_enter by done. destruct Hk as [Hf Hr].
  unfold cli_key. erewrite bind_done by reflexivity. cbn [fst id]. rewrite Hf, Hi, Ha. cbn [Z.eqb negb andb].
  assert (Hc : 31 < c < 127) by (unfold IS_ASCII in Ha; zbool; done || lia).
  unfold BACKSP_KEY, RETURN_KEY. destruct (Z.eqb_spec c 8); [lia|]. destruct (Z.eqb_spec c 13); [lia|]. destruct (Z.eqb_spec c 10); [lia|].
  destruct (Z.ltb_spec (len line) MAX_INPUT_LENGTH_ATCMD); [|lia]. apply (cli_put_run k h line b c); [done|lia|unfold is_u8; lia].
Qed.
Lemma at_keys text : forall k h line b, at_mode k -> shows k line b -> len line + len text <= MAX_INPUT_LENGTH_ATCMD -> len b = MAX_INPUT_LENGTH_ATCMD ->
  Forall (fun c => IS_ASCII c = true) text ->
  exists b', for_each text util_cli_callback (k, h) = Done tt (set_cli (POwned b') (len line + len text) k, h) /\ len b' = MAX_INPUT_LENGTH_ATCMD /\
    (is_bytes b -> is_bytes b') /\ shows (set_cli (POwned b') (len line + len text) k) (line ++ text) b'.
Proof.
  induction text as [|c text IH]; intros k h line b Hk Hs Hl Hb Ht.
  - exists b. rewrite app_nil_r. change (len []) with 0. rewrite Z.add_0_r. destruct Hs as (E1 & E2 & E3). rewrite <- E1, <- E2. split; [by destruct k|]. done.
  - apply Forall_cons in Ht as [Hc Ht]. rewrite len_cons in *. pose proof (len_nonneg text).
    destruct (at_key k h line b c) as (b1 & E & Hb1 & Hbb1 & Hs1); [done|done|lia|done|].
    destruct (IH (set_cli (POwned b1) (len line + 1) k) h (line ++ [c]) b1) as (b2 & E2 & Hb2 & Hbb2 & Hs2);
      [done|done|rewrite len_app; change (len [c]) with 1; lia|lia|done|].
    rewrite <- app_assoc in Hs2. replace (len (line ++ [c]) + len text) with (len line + (len text + 1)) in * by (rewrite len_app; change (len [c]) with 1; lia).
    exists b2. cbn [for_each]. erewrite bind_done by exact E. split; [exact E2|]. split_and!; [done|auto|done..].
Qed.
Lemma at_return k h line b : at_mode k -> shows k line b -> 0 < len line < len b -> refusals k = [] ->
  util_cli_callback RETURN_KEY (k, h) =
    Done tt (set_works (works k ++ [None]) [] (set_cli (POwned (line ++ 0 :: drop (S (length line)) b)) (len line) k), h).
Proof.
  intros Hk Hs Hl Hr. pose proof Hs as (Hbk & Hi & _). rewrite at_enter by done. destruct Hk as [Hf Hm].
  unfold cli_key. erewrite bind_done by reflexivity. cbn [fst id]. rewrite Hf. change (RETURN_KEY =? BACKSP_KEY) with false.
  change (RETURN_KEY =? RETURN_KEY) with true. cbn beta iota. unfold cli_return. erewrite bind_done by reflexivity. cbn [fst id]. rewrite Hf, Hi.
  cbn [Z.eqb negb when]. erewrite bind_done by reflexivity. destruct (Z.ltb_spec 0 (len line)); [|lia].
  erewrite bind_done by (by apply cli_block_run). erewrite bind_done by (apply wr_ok; lia). erewrite bind_done by reflexivity.
  rewrite (terminate_block k line b) by (done || lia). unfold schedule.
  erewrite bind_done by (erewrite bind_done by reflexivity; cbn [fst id]; 
      match goal with |- context [refusals ?k'] => change (refusals k') with (refusals k) end; rewrite Hr; reflexivity).
  reflexivity.
Qed.
End Editor.

(** C14: The line editor of the shell works like one on texts.  From an idle
    console, whatever keys are typed (escape sequences apart), the Return key
    hands over exactly the text that the reference editor has after these keys
    (printable characters appended while there is room, Backspace removing the
    last one, everything else ignored), as a terminated string in a block of
    its own; an empty line hands over nothing; and the line is kept in the
    history.  The exception is a line that fills the buffer: its terminator is
    written behind the block. *)
Theorem shell_line_edited {C} (keys : bytes) (k : console) (h : hw C) :
  Forall plain_key keys -> is_bytes keys -> shell_mode k -> cli_buffer k = PNull -> history_wf k -> refusals k = [] -> heap h = [] ->
  let line := foldl (edit MAX_INPUT_LENGTH) [] keys in
  let run := for_each (keys ++ [RETURN_KEY]) util_cli_callback (k, h) in
  if decide (len line = MAX_INPUT_LENGTH) then run = Fault OutOfBounds
  else exists k' h', run = Done tt (k', h') /\ shell_mode k' /\ live h' = live h + 1 /\ queues h' = queues h /\ chip h' = chip h /\
    if decide (line = []) then works k' = works k
    else cli_buffer k' = PNull /\ (exists rest, works k' = works k ++ [Some (line ++ 0 :: rest)]) /\ history_wf k' /\
      slice (g_cli_history k') (g_cli_history_index k * MAX_INPUT_LENGTH) MAX_INPUT_LENGTH = line ++ zeros (MAX_INPUT_LENGTH - len line).
Proof.
  intros Hp Hb Hk Hn Hh Hr Hheap line run. pose proof Hk as [Hf He].
  set (h1 := set_heap [] (live h + 1) h).
  assert (Hstart : exists b, len b = MAX_INPUT_LENGTH /\
    run = for_each (keys ++ [RETURN_KEY]) util_cli_callback (set_cli (POwned b) 0 k, h1)).
  { unfold run. destruct keys as [|c keys]; cbn [List.app for_each].
    - destruct (first_key k h RETURN_KEY) as (b & Hlb & E); [done..|]. exists b. split; [done|]. unfold bind. by rewrite E.
    - destruct (first_key k h c) as (b & Hlb & E); [done..|]. exists b. split; [done|]. unfold bind at 1. rewrite E. done. }
  destruct Hstart as (b & Hlb & ->). set (k0 := set_cli (POwned b) 0 k).
  destruct (shell_keys keys k0 h1 [] b) as (k1 & b1 & E1 & Hk1 & Hs1 & Hb1 & Hq1 & Hq2 & Hq3 & Hq4); [done..|]. fold line in Hs1.
  rewrite (for_each_snoc keys RETURN_KEY _ _ _ E1). assert (Hh1 : history_wf k1) by (unfold history_wf; rewrite Hq3, Hq4; done).
  pose proof (edit_bound MAX_INPUT_LENGTH [] keys ltac:(done)) as Hmax. fold line in Hmax.
  destruct (decide (line = [])) as [El|El].
  - rewrite decide_False by (rewrite El; done). rewrite El in Hs1.
    destruct (shell_return_empty k1 h1 b1) as (k2 & E2 & Hk2 & Hw2); [done..|]. exists k2, h1.
    split; [exact E2|]. split_and!; try done. by rewrite Hw2, Hq1.
  - assert (Hpos : 0 < len line) by (destruct line; [done|rewrite len_cons; pose proof (len_nonneg line); lia]).
    pose proof (shell_return k1 h1 line b1 Hk1 Hs1 Hb1 Hh1 ltac:(by rewrite Hq2) Hpos) as Hret.
    destruct (decide (len line = MAX_INPUT_LENGTH)) as [Em|Em]; [exact Hret|].
    destruct Hret as (k2 & rest & E2 & Hk2 & Hn2 & Hw2 & Hr2 & Hh2 & Hrow).
    exists k2, h1. split; [exact E2|]. split_and!; try done; [|by rewrite Hq4 in Hrow]. exists rest. by rewrite Hw2, Hq1.
Qed.

(** ** Typed AT commands *)
Section Typed.
Context {C : Type} `{NorChip C} `{CertCheck} `{JsonText} `{BlockCipher} `{AtEnv} `{Shell}.
Implicit Types (a : app) (t : at_t) (k : console) (h : hw C).

Lemma type_keys_run l (s : app * at_t) k h k' h' :
  for_each l util_cli_callback (k, h) = Done tt (k', h') -> for_each l type_key (s, k, h) = Done tt (s, k', h').
Proof.
  revert k h. induction l as [|c l IH]; intros k h; cbn [for_each]; [by intros [= -> ->]|]. intros E.
  destruct (util_cli_callback c (k, h)) as [[] [k1 h1]| |] eqn:Ec; unfold bind at 1 in E; rewrite Ec in E; [|done|done].
  erewrite bind_done by (unfold type_key, in_cli, zoom_s, zoom; cbn [snd]; rewrite Ec; reflexivity). by apply IH.
Qed.
(** A line offered to the AT commands once they are in use. *)
Lemma run_at_line text rest rc b' a t k h a' t' h' : ya_atcmd_start_flag k = 1 -> no_nul text -> 0 < len text <= MAX_INPUT_LENGTH_ATCMD ->
  ya_atcmd_handler (Some (text ++ 0 :: rest)) (a, t, h) = Done rc (a', t', h') -> pcmd_buffer t' = Some b' ->
  util_cmd_run_command (Some (text ++ 0 :: rest)) (a, t, k, h) = Done (rc, Some b') (a', t', k, h').
Proof.
  intros Hf Hnn Hl Hrun Hb'. destruct text as [|c text]; [change (len []) with 0 in Hl; lia|]. apply Forall_cons in Hnn as Hc. destruct Hc as [Hc _].
  unfold util_cmd_run_command. erewrite bind_done by (by eapply (rd_at _ [])). destruct (Z.eqb_spec c 0); [done|].
  unfold text_at. rewrite bool_decide_true by (apply elem_of_app; right; left). erewrite bind_done by reflexivity.
  rewrite cstr_app_nul by done. unfold kgets. erewrite bind_done by reflexivity. cbn [fst snd]. rewrite Hf. cbn [Z.eqb].
  destruct (Z.ltb_spec MAX_INPUT_LENGTH_ATCMD (len (c :: text))); [lia|].
  erewrite bind_done by (unfold in_at, zoom_s, zoom; cbn [fst snd]; rewrite Hrun; reflexivity).
  erewrite bind_done by (unfold in_at, zoom_s, zoom; cbn [fst snd]; rewrite (cmd_buf_run _ _ _ b') by done; reflexivity).
  assert (Es : set_flags (reMalloc_flag k) 1 k = k) by (destruct k; cbn in Hf; by subst).
  unfold when. destruct (0 <=? rc).
  - erewrite bind_done by reflexivity. cbn [fst snd]. rewrite Es. erewrite bind_done by reflexivity. cbn [fst snd]. by rewrite Hf.
  - erewrite bind_done by reflexivity. erewrite bind_done by reflexivity. cbn [fst snd]. by rewrite Hf.
Qed.
(** A console in AT mode, between two lines. *)
Definition at_idle k : Prop :=
  at_mode k /\ works k = [] /\ refusals k = [] /\ exists b, cli_buffer k = POwned b /\ cli_index k = 0 /\ len b = MAX_INPUT_LENGTH_ATCMD /\ is_bytes b.
(** A line typed, ended and taken by the system task is a run of the AT command
    handler on it, in place. *)
Definition type_line (text : bytes) : P C (app * at_t * console) unit :=
  for_each (text ++ [RETURN_KEY]) type_key ;; sys_task_turn.
Lemma typed_command (Q : Z -> app -> at_t -> hw C -> bytes -> Prop) text a t k h : at_idle k ->
  Forall (fun c => IS_ASCII c = true) text -> 0 < len text < MAX_INPUT_LENGTH_ATCMD ->
  (forall rest, len (text ++ 0 :: rest) = MAX_INPUT_LENGTH_ATCMD -> is_bytes rest -> exists rc a' t' h' b',
     ya_atcmd_handler (Some (text ++ 0 :: rest)) (a, t, h) = Done rc (a', t', h') /\ pcmd_buffer t' = Some b' /\ Q rc a' t' h' b') ->
  exists rc a' t' h' b', type_line text (a, t, k, h) = Done tt (a', t', set_cli (POwned b') 0 k, h') /\ Q rc a' t' h' b'.
Proof.
  intros (Hm & Hw & Hr & b & Hb & Hi & Hlb & Hbb) Ht Hl Hrun.
  assert (Hs : shows k [] b) by (split; [done|split; [done|by rewrite take_0]]).
  destruct (at_keys text k h [] b) as (b1 & E1 & Hb1 & Hbb1 & Hs1); [done|done|change (len []) with 0; lia|done|done|].
  cbn [List.app] in Hs1. change (len []) with 0 in *. rewrite Z.add_0_l in *. set (k1 := set_cli (POwned b1) (len text) k) in *.
  assert (Hm1 : at_mode k1) by done.
  pose proof (at_return k1 h text b1 Hm1 Hs1 ltac:(lia) Hr) as E2.
  assert (Hty : for_each (text ++ [RETURN_KEY]) util_cli_callback (k, h) = _) by (rewrite (for_each_snoc _ _ _ _ _ E1); exact E2).
  unfold type_line. erewrite bind_done by (apply type_keys_run; exact Hty).
  set (blk := text ++ 0 :: drop (S (length text)) b1).
  assert (Hlk : len blk = MAX_INPUT_LENGTH_ATCMD).
  { unfold blk. rewrite <- (terminate_block k1 text b1) by (done || lia). by rewrite len_insert. }
  destruct (Hrun (drop (S (length text)) b1) Hlk (Forall_drop _ _ _ (Hbb1 Hbb))) as (rc & a' & t' & h' & b' & Hrun' & Hb' & HQ). exists rc, a', t', h', b'. split; [|exact HQ].
  unfold sys_task_turn, kgets. erewrite bind_done by reflexivity. cbn [fst snd id]. cbn [works set_works]. change (works k1) with (works k).
  rewrite Hw. cbn [List.app]. erewrite bind_done by reflexivity. cbn [fst snd]. unfold cli_handler, kgets. erewrite bind_done by reflexivity. cbn [fst snd id].
  destruct Hm as [Hf Hre].
  match goal with |- context [ya_atcmd_start_flag ?q] => change (ya_atcmd_start_flag q) with (ya_atcmd_start_flag k); set (k2 := q) end.
  rewrite Hf. cbn [Z.eqb]. change (cli_buffer k2) with (POwned blk). cbn beta iota.
  assert (Hnn : no_nul text) by (eapply Forall_impl; [exact Ht|]; intros c Hc ->; done).
  assert (Ec : util_cmd_run_command (Some blk) (a, t, k2, h) = Done (rc, Some b') (a', t', k2, h'))
    by (by apply run_at_line; try lia).
  erewrite bind_done by exact Ec. cbn beta iota. unfold kputs, puts. cbn [fst snd]. do 3 f_equal.
  unfold k2, k1, set_cli, set_works. cbn. by rewrite Hw, Hr.
Qed.
End Typed.

Lemma ascii_no_nul l : Forall (fun c => IS_ASCII c = true) l -> no_nul l.
Proof. intros Hl. eapply Forall_impl; [exact Hl|]. by intros c Hc ->. Qed.
Lemma ascii_bytes l : Forall (fun c => IS_ASCII c = true) l -> is_bytes l.
Proof. intros Hl. eapply Forall_impl; [exact Hl|]. intros c Hc. unfold IS_ASCII in Hc. unfold is_u8. zbool; done || lia. Qed.
Lemma wrcert_line_ascii n crc json : Forall (fun c => IS_ASCII c = true) json -> Forall (fun c => IS_ASCII c = true) (wrcert_line n crc json).
Proof.
  intros Hj. unfold wrcert_line. rewrite !Forall_app. split_and!; try done; try evaluate.
  all: eapply Forall_impl; [apply hex_pad_chars|]; unfold is_lower_hex, IS_ASCII; cbn beta; intros c Hc; zbool; done || lia.
Qed.
(** What the licence command leaves: the answer, and the flash as it is read at
    the next start. *)
Definition stored_or_refused {C} `{NorChip C, CertCheck} (crc : Z) (json pk di se : bytes) (h h' : hw C) : Prop :=
  if decide (crc = crc_check json) then
    trace h' = EvWlan "at" [RESP_OK] :: trace h /\
    forall hb l, heap hb = [] -> chip hb = chip h' -> aliyun_blocks l = 0 ->
    exists l' hb', ya_aliyun_para_init (l, hb) = Done C_OK (l', hb') /\
      aliyun_productkey l' = Some (pk ++ [0]) /\ aliyun_deviceid l' = Some (di ++ [0]) /\ aliyun_productsecret l' = Some (se ++ [0])
  else trace h' = EvWlan "at" [RESP_ERR] :: trace h /\ chip h' = chip h.

(** C13: The factory tool's licence command, from the keys to the next start.  In
    AT mode the line [wrcert], the length of a JSON document in 1 to 8 digits,
    a CRC in four digits and the document is typed and ended with Return.  When
    the CRC is the document's and the document parses to a licence for the
    Chinese cloud within the length limits, the module answers ["rsp:OK"],
    frees what it allocated, and at the next start the cloud connection is
    given exactly the product key, device id and secret of the document.  With
    any other CRC the answer is ["rsp:ERROR"] and the flash is untouched.  In
    both cases the console is ready for the next line. *)
Theorem typed_licence_stored {C} `{NorChipLaws C, !NorReliable C, CertCheck, JsonText, BlockCipher, AtEnv, Shell}
    (n : nat) (crc : Z) (json : bytes) (doc : cJSON) (pk di se : bytes) (a : app) (t : at_t) (k : console) (h : hw C) :
  at_idle k -> (1 <= n <= 8)%nat -> len json < 16 ^ Z.of_nat n -> 0 < len json -> len (wrcert_line n crc json) < MAX_INPUT_LENGTH_ATCMD ->
  0 < crc < 65536 -> Forall (fun c => IS_ASCII c = true) json -> strstr (wrcert_line n crc json) (str "getrssi ") = false ->
  cJSON_Parse json = Some doc -> cn_licence doc pk di se -> fits_limits pk di se -> is_bytes (pk ++ di ++ se) ->
  len (aliyun_image pk di se) <= len json -> heap h = [] ->
  exists a' t' k' h', type_line (wrcert_line n crc json) (a, t, k, h) = Done tt (a', t', k', h') /\
    at_idle k' /\ live h' = live h /\ stored_or_refused crc json pk di se h h'.
Proof.
  intros Hk Hn Hl' Hl Hmax Hc Hj Hrssi Hp Hdoc Hlim Hbytes Himg Hheap. set (line := wrcert_line n crc json) in *.
  assert (Hlj : len json <= len line).
  { unfold line, wrcert_line. rewrite !len_app. pose proof (len_nonneg (hex_pad n (len json))). pose proof (len_nonneg (hex_pad 4 crc)).
    change (len (str "wrcert ")) with 7. change (len (str " ")) with 1. lia. }
  destruct (typed_command (fun rc a' t' h' b' => len b' = MAX_INPUT_LENGTH_ATCMD /\ is_bytes b' /\ live h' = live h /\ stored_or_refused crc json pk di se h h')
    line a t k h) as (rc & a' & t' & h' & b' & E & Hlb & Hbb & Hlive & HQ); [done|by apply wrcert_line_ascii|lia| |].
  - intros rest Hrest Hbr. destruct (licence_command n crc json rest doc pk di se a t h) as (t' & h' & E & Hlv & _ & (b' & Hb' & Hlb & Hbb) & HQ);
      try done; [unfold MAX_INPUT_LENGTH_ATCMD in *; lia|by apply ascii_no_nul|by apply ascii_bytes|].
    eexists _, a, t', h', b'. split; [exact E|]. split; [done|]. rewrite Hlb. done.
  - exists a', t', (set_cli (POwned b') 0 k), h'. split; [exact E|]. split; [|by split]. destruct Hk as (Hm & Hw & Hr & _).
    split; [done|]. split; [done|]. split; [done|]. by exists b'.
Qed.

(** ** Witnesses *)
#[export] Instance sample_shell : Shell := {| cmd_table := [] |}.
Definition idle_console (flag : Z) (p : pointer) : console :=
  mkConsole p 0 (zeros (MAX_HISTORY * MAX_INPUT_LENGTH)) 0 0 false false flag flag [] [].
(** "ab", Backspace, "c", Return. *)
Lemma shell_line_edited_witness :
  exists k' h' rest, for_each [97; 98; 8; 99; 13] util_cli_callback (idle_console 0 PNull, boot) = Done tt (k', h') /\
    works k' = [Some (str "ac" ++ 0 :: rest)].
Proof.
  destruct (shell_line_edited [97; 98; 8; 99] (idle_console 0 PNull) boot) as (k' & h' & E & _ & _ & _ & _ & _ & (rest & Hw) & _);
    [evaluate|evaluate|done|done|by vm_compute|done|done|].
  exists k', h', rest. split; [exact E|exact Hw].
Defined.
#[local] Existing Instance licence_text.
Lemma typed_licence_stored_witness :
  let json := replicate 18 123 in let k := idle_console 1 (POwned (zeros MAX_INPUT_LENGTH_ATCMD)) in
  exists a' t' k' h', type_line (wrcert_line 2 (crc_check json) json) (sample_app, fresh_at, k, boot) = Done tt (a', t', k', h') /\
    trace h' = EvWlan "at" [RESP_OK] :: trace boot.
Proof.
  intros json k.
  destruct (typed_licence_stored 2 (crc_check json) json sample_licence (str "a1Key") (str "dev1") (str "s3cret") sample_app fresh_at k boot)
    as (a' & t' & k' & h' & E & _ & _ & Hst).
  - split; [done|]. split; [done|]. split; [done|]. exists (zeros MAX_INPUT_LENGTH_ATCMD). split_and!; [done|done|done|apply is_bytes_zeros].
  - lia.
  - done.
  - done.
  - by vm_compute.
  - by vm_compute.
  - evaluate.
  - by vm_compute.
  - by vm_compute.
  - by split; [do 2 eexists|eexists; split; [reflexivity|]; split_and!; do 2 eexists].
  - by vm_compute.
  - evaluate.
  - by vm_compute.
  - reflexivity.
  - exists a', t', k', h'. split; [exact E|]. unfold stored_or_refused in Hst. rewrite decide_True in Hst by done. exact (proj1 Hst).
Defined.
