(* ===== verification/CloudEvents.v ===== *)
(** * What the two cloud modules share: listeners, routing, reports

    [ya_aws_cloud.c] and [ya_aliyun_cloud.c] hold the same text for the chain
    of listeners, the routing of a message from the cloud by its method, the
    queueing of a report and the three documents sent after a connection.
    Here that text is modelled once, for a module with a chain of listeners, a
    queue and a message type; the two modules instantiate it. *)

From stdpp Require Import base numbers list strings.
From S2P Require Import Prelude Platform CommonFunc CJson License Cloud Hardware UserData AppMain AtCmd Console.

Definition CLOUD_ONOFF_EVENT : Z := 0.
Definition CLOUD_SET_EVENT : Z := 1.
Definition CLOUD_UPGRADE_EVENT : Z := 2.
Definition SIZEOF_LISTENER : Z := 16.

(** A node of the chain; [H] names the callbacks. *)
Record listener (H : Type) := mkListener { task_name : bytes; event_type : Z; ya_cloud_event_handler : H }.
Arguments mkListener {H}. Arguments task_name {H}. Arguments event_type {H}. Arguments ya_cloud_event_handler {H}.

(** The callbacks act on the application's globals and on the state [V] of the
    other tasks. *)
Class Callbacks (C H V : Type) := { callback : H -> bytes -> Z -> P C (app * V) unit }.

(** What the shared text needs of a module's globals [K]. *)
Class CloudModule (H K : Type) := {
  callback_list : K -> list (listener H);
  set_callback_list : list (listener H) -> K -> K;
  msg_queue : qid;
  YA_HARDWARE_REPORT : Z;
}.

(** [snprintf(b, n, "%s", text)], [n] a [size_t]. *)
Definition snprintf {T} (b : bytes) (n : Z) (text : bytes) : M T bytes :=
  if u32 n =? 0 then ret b else memcpy b 0 (take (Z.to_nat (u32 n - 1)) text ++ [0]).

Section Events.
Context {C H V K : Type} `{Callbacks C H V} `{CloudModule H K} `{JsonText} `{AtEnv}.
(** The application, the other tasks, the module. *)
Abbreviation PK := (P C (app * V * K)).
Definition on_app {A} (m : P C app A) : PK A := zoom_s (fun s => s.1.1) (fun a s => (a, s.1.2, s.2)) m.
Definition on_rest {A} (m : P C (app * V) A) : PK A := zoom_s fst (fun r s => (r, s.2)) m.
Definition mgets {A} (f : K -> A) : PK A := gets (fun s => f s.2).
Definition mputs (f : K -> K) : PK unit := puts (fun s => (s.1, f s.2)).

(** ** Listeners *)
(** [strcmp(node->task_name, name) == 0 && node->event_type == event]. *)
Definition listens (name : bytes) (event : Z) (n : listener H) : bool :=
  (cstr (task_name n) ==? cstr name) && (event_type n =? event).
(** A new node goes to the end of the chain, unless the task listens to the
    event already. *)
Definition add_event_listener (name : option bytes) (event : Z) (h : H) : PK Z :=
  match name with
  | None => ret (-1)
  | Some name =>
    let* l := mgets callback_list in
    if existsb (listens name event) l then ret 0
    else
      let* add_node := ya_hal_os_memory_alloc SIZEOF_LISTENER in
      match add_node with
      | None => ret (-1)
      | Some _ =>
        let* p := ya_hal_os_memory_alloc (len (cstr name) + 1) in
        match p with
        | None => ya_hal_os_memory_free ;; ret (-1)
        | Some b =>
          let* b := strcpy b (cstr name ++ [0]) in
          mputs (set_callback_list (l ++ [mkListener b event h])) ;; ret 0
        end
      end
  end.
(** The walk ends at the node, or returns an error at the end of the chain;
    [if (list_node) return C_ERROR] then gives up at the node too, and only an
    empty chain goes on, to the member of a NULL list. *)
Definition remove_event_listener (name : option bytes) (event : Z) : PK Z :=
  match name with
  | None => ret (-1)
  | Some name =>
    let* l := mgets callback_list in
    match l with
    | [] => fail NullDeref
    | _ => if existsb (listens name event) l then ret (-1) else ret (-1)
    end
  end.
Definition trigger_event_listener (event : Z) (data : bytes) (data_len : Z) : PK Z :=
  let* l := mgets callback_list in
  for_each l (fun n => when (event_type n =? event) (on_rest (callback (ya_cloud_event_handler n) data data_len))) ;;
  ret 0.
Definition ya_send_cloud_status (cloud_status : Z) : PK Z := trigger_event_listener CLOUD_ONOFF_EVENT [u8 cloud_status] 1.

(** ** Messages from the cloud *)
(** The method decides by a substring; the text handed on is the buffer. *)
Definition subscribe_event_transfer (buf : bytes) (data_len : Z) : PK Z :=
  let* cmd := json_parse buf in
  match cmd with
  | None => ret (-1)
  | Some cmd =>
    match cJSON_GetObjectItem cmd (str "method") with
    | None => cJSON_Delete ;; ret (-1)
    | Some method =>
      let* v := deref (valuestring method) in
      (if strstr (cstr v) (str "set") then trigger_event_listener CLOUD_SET_EVENT buf data_len
       else if strstr (cstr v) (str "upgrade") then trigger_event_listener CLOUD_UPGRADE_EVENT buf data_len
       else if strstr (cstr v) (str "unregister") then ya_send_cloud_status YA_CLOUD_DEBIND
       else ret 0) ;;
      cJSON_Delete ;; ret 0
    end
  end.

(** ** Messages to the cloud *)
(** A zero-terminated copy of [data], owned by a message of the module's queue;
    the allocation is used unchecked, and freed when the queue is full. *)
Definition queue_copy (type : Z) (data : bytes) (data_len : Z) : PK Z :=
  let* p := ya_hal_os_memory_alloc (data_len + 1) in
  let* buf := deref p in
  let* buf := memset buf 0 (data_len + 1) in
  let* src := rdn data 0 data_len in
  let* buf := memcpy buf 0 src in
  let* r := ya_hal_os_queue_send msg_queue (mkMsg (u16 (data_len + 1)) (Some buf) type) in
  if negb (r =? 0) then ya_hal_os_memory_free ;; ret (-1) else ret 0.

(** *** The documents sent after a connection *)
Section Documents.
(** The module's own report function and the names it gives the device. *)
Context (report : bytes -> Z -> PK Z) (thing client : PK (option bytes)).
(** [data = cJSON_PrintUnformatted(cmd); if (data) { report; free }]
    [cJSON_Delete(cmd)]. *)
Definition report_cmd (cmd : cJSON) : PK unit :=
  let* p := json_document cmd in
  match p with
  | Some data => report (data ++ [0]) (u16 (len data)) ;; ya_hal_os_memory_free
  | None => ret tt
  end ;;
  cJSON_Delete.
(** Two objects, the second a member of the first. *)
Definition with_property (body : PK Z) : PK Z :=
  let* cmd := cJSON_CreateObject in
  match cmd with
  | None => ret (-1)
  | Some _ =>
    let* property := cJSON_CreateObject in
    match property with
    | None => cJSON_Delete ;; ret (-1)
    | Some _ => cJSON_AddItemToObject ;; body
    end
  end.
(** [ya_get_mac_addr_string] into the array that held the version. *)
Definition mac_into (value : bytes) : PK bytes := snprintf value 50 (mac_text wifi_get_mac_addr).
Definition updata_device_version : PK Z :=
  with_property
    (let* a := on_app (gets id) in
     let* version := strcpy (zeros 65) (cur_version (para a)) in
     let* mcu := strcpy (zeros 65) (mcu_version (para a)) in
     let* m0 := rd mcu 0 in
     let* value := mac_into mcu in
     report_cmd (jroot [jstr "method" "thing.service.device.bootInfo.report";
       jobj "property" ([jstr "startType" "2"; member "version" (cstr version)] ++
         (if negb (m0 =? 0) then [member "mcuVersion" (cstr mcu)] else []) ++
         [member "mac" (cstr value); jstr "type" "wifi"])]) ;;
     ret 0).
(** The document with one property and the device's names. *)
Definition named_document (method key : string) (v : bytes) : PK Z :=
  with_property
    (let* t := thing in let* t := deref t in
     let* c := client in let* c := deref c in
     report_cmd (jroot [jstr "method" method; jobj "property" [member key v];
       member "productKey" (cstr t); member "deviceName" (cstr c)]) ;;
     ret 0).
Definition updata_debind_information : PK Z := named_document "thing.service.device.allow.bind" "bind" (str "1").
(** The token is cleared before anything is sent. *)
Definition updata_random_information : PK Z :=
  let* '(r, random) := on_app (ya_get_randomnum (zeros 33)) in
  if r =? -1 then ret (-1)
  else
    on_app ya_clear_randomnum ;;
    named_document "thing.service.device.bindToken.report" "bindToken" (cstr random).
(** The three, in the order both modules send them. *)
Definition updata_all : PK unit :=
  (let* d := on_app ya_get_debind_enable in
   when d (on_app ya_debind_disable ;; updata_debind_information ;; ret tt)) ;;
  updata_random_information ;;
  updata_device_version ;; ret tt.
End Documents.

(** A topic: a block of [n] bytes, cleared and printed into. *)
Definition print_topic (n : Z) (text : bytes) : PK (option bytes) :=
  let* p := ya_hal_os_memory_alloc n in
  match p with
  | None => ret None
  | Some topic => let* topic := memset topic 0 n in let* topic := snprintf topic n text in ret (Some topic)
  end.
End Events.
