(* ===== verification/AwsCloud.v ===== *)
(** * The AWS connection: [akeeta/app/src/ya_aws_cloud.c]

    A task that keeps an MQTT session while the router is connected: it
    connects, reconnects five seconds after an error, hands messages from the
    cloud to the listeners, and publishes what the other tasks queued.  The
    MQTT library is not part of the program: every call is logged, and its
    answers and what it delivers are inputs. *)

From stdpp Require Import base numbers list strings.
From S2P Require Import OtaHttp Prelude Platform CommonFunc HalTimer CJson License Cloud Hardware UserData AppMain AtCmd Console CloudEvents.

Inductive ya_aws_cloud_state_t :=
| AWS_CLOUD_INIT | AWS_TO_CONNECT_CLOUD | AWS_CONNECTED_CLOUD | AWS_CONNECT_ERROR | AWS_RECONNECT_WAIT.
#[export] Instance aws_state_dec : EqDecision ya_aws_cloud_state_t.
Proof. solve_decision. Defined.
Definition YA_PUBLISH_RESPONSE : Z := 0.
Definition AWS_IOT_MQTT_HOST_US : bytes := str "a1q3ywz7wfeo4i-ats.iot.us-west-2.amazonaws.com".
Definition AWS_IOT_MQTT_HOST_EU : bytes := str "a1q3ywz7wfeo4i-ats.iot.eu-central-1.amazonaws.com".
Definition AWS_REPORT : Z := 1.

(** What the library hands to the program while it is polled: a message, as the
    topic, the receive buffer from the payload on and the payload's length; or
    the loss of the connection. *)
Inductive delivery := Message (topicName payload : bytes) (payloadLen : Z) | Disconnected.

(** The module's globals and the task's timer and counter; [calls] are the
    answers of the next library calls ([[]]: success), [yields] what the next
    polls deliver and answer. *)
Record aws (H : Type) := mkAws {
  aws_listeners : list (listener H); ya_aws_cloud_state : ya_aws_cloud_state_t; ya_cloud_connected : Z;
  subscribe_topic : option bytes; aws_cloud_domain : Z; ya_aws_cloud_timer : Ya_Timer; count : Z;
  calls : list Z; yields : list (list delivery * Z) }.
Arguments mkAws {H}. Arguments aws_listeners {H}. Arguments ya_aws_cloud_state {H}. Arguments ya_cloud_connected {H}.
Arguments subscribe_topic {H}. Arguments aws_cloud_domain {H}. Arguments ya_aws_cloud_timer {H}. Arguments count {H}.
Arguments calls {H}. Arguments yields {H}.

Section Aws.
Context {C H V : Type} `{Callbacks C H V} `{JsonText} `{AtEnv}.
Implicit Types (k : aws H).
Definition aws_set_listeners v (k : aws H) : aws H := mkAws v (ya_aws_cloud_state k) (ya_cloud_connected k) (subscribe_topic k)
  (aws_cloud_domain k) (ya_aws_cloud_timer k) (count k) (calls k) (yields k).
Definition aws_set_state v (k : aws H) : aws H := mkAws (aws_listeners k) v (ya_cloud_connected k) (subscribe_topic k)
  (aws_cloud_domain k) (ya_aws_cloud_timer k) (count k) (calls k) (yields k).
Definition aws_set_connected v (k : aws H) : aws H := mkAws (aws_listeners k) (ya_aws_cloud_state k) v (subscribe_topic k)
  (aws_cloud_domain k) (ya_aws_cloud_timer k) (count k) (calls k) (yields k).
Definition aws_set_topic v (k : aws H) : aws H := mkAws (aws_listeners k) (ya_aws_cloud_state k) (ya_cloud_connected k) v
  (aws_cloud_domain k) (ya_aws_cloud_timer k) (count k) (calls k) (yields k).
Definition aws_set_domain v (k : aws H) : aws H := mkAws (aws_listeners k) (ya_aws_cloud_state k) (ya_cloud_connected k) (subscribe_topic k)
  v (ya_aws_cloud_timer k) (count k) (calls k) (yields k).
Definition aws_set_timer v (k : aws H) : aws H := mkAws (aws_listeners k) (ya_aws_cloud_state k) (ya_cloud_connected k) (subscribe_topic k)
  (aws_cloud_domain k) v (count k) (calls k) (yields k).
Definition aws_set_count v (k : aws H) : aws H := mkAws (aws_listeners k) (ya_aws_cloud_state k) (ya_cloud_connected k) (subscribe_topic k)
  (aws_cloud_domain k) (ya_aws_cloud_timer k) v (calls k) (yields k).
Definition aws_set_calls v (k : aws H) : aws H := mkAws (aws_listeners k) (ya_aws_cloud_state k) (ya_cloud_connected k) (subscribe_topic k)
  (aws_cloud_domain k) (ya_aws_cloud_timer k) (count k) v (yields k).
Definition aws_set_yields v (k : aws H) : aws H := mkAws (aws_listeners k) (ya_aws_cloud_state k) (ya_cloud_connected k) (subscribe_topic k)
  (aws_cloud_domain k) (ya_aws_cloud_timer k) (count k) (calls k) v.
#[export] Instance aws_module : CloudModule H (aws H) :=
  {| callback_list := aws_listeners; set_callback_list := aws_set_listeners; msg_queue := QAws; YA_HARDWARE_REPORT := AWS_REPORT |}.
Abbreviation PK := (P C (app * V * aws H)).

Definition ya_add_aws_cloud_event_listener : option bytes -> Z -> H -> PK Z := add_event_listener.
Definition ya_remove_aws_cloud_event_listener : option bytes -> Z -> PK Z := remove_event_listener.
Definition ya_trigger_aws_cloud_event_listener : Z -> bytes -> Z -> PK Z := trigger_event_listener.
Definition ya_aws_send_cloud_status : Z -> PK Z := ya_send_cloud_status.
Definition ya_aws_subscribe_event_transfer : bytes -> Z -> PK Z := subscribe_event_transfer.
Definition ya_aws_disconnectCallbackHandler : PK unit := mputs (aws_set_state AWS_CONNECT_ERROR).

(** A call of the library: logged, and answered by the next input. *)
Definition mqtt (call : string) (args : list bytes) : PK Z :=
  emit (EvMqtt call args) ;;
  let* l := mgets calls in
  mputs (aws_set_calls (tail l)) ;; ret (match l with r :: _ => r | [] => 0 end).

(** Creating the queue and the task. *)
Definition os_call (what : string) (arg : Z) : PK Z :=
  emit (EvCloud what arg) ;;
  let* l := mgets calls in
  mputs (aws_set_calls (tail l)) ;; ret (match l with r :: _ => r | [] => 0 end).
Definition ya_start_cloud_aws_app : PK Z :=
  let* r := os_call "queue_create" (Z.of_nat MSG_QUEUE_LENGTH) in
  if negb (r =? 0) then ret (-1)
  else let* r := os_call "thread_create" (8 * 1024) in ret (if r =? 0 then 0 else -1).

(** [ya_get_client_id], [ya_get_thing_type] through [cloud_conn]. *)
Definition conn_get (cn us : P C app (option bytes)) : PK (option bytes) :=
  on_app (let* a := gets id in
          match a_conn a with
          | None => ret None
          | Some ty => if ty =? WIFI_CN then cn else us
          end).
Definition conn_client_id : PK (option bytes) := conn_get ya_aly_get_client_id (in_lic ya_aws_get_client_id).
Definition conn_thing_type : PK (option bytes) := conn_get ya_aly_get_thing_name (in_lic ya_aws_get_thing_type).
(** Both, as [strlen] and ["%s"] need them. *)
Definition names : PK (bytes * bytes) :=
  let* c := conn_client_id in let* c := deref c in
  let* t := conn_thing_type in let* t := deref t in
  ret (cstr t, cstr c).

(** ** Messages from the cloud *)
(** The topic is copied, the payload terminated in place, and the message id
    after ["/request/"] queued for an answer before the message is handed on;
    a full queue drops the message. *)
Definition ya_subscribe_callback_handler (topicName payload : bytes) (payloadLen : Z) : PK unit :=
  let n := len topicName in
  let* p := ya_hal_os_memory_alloc (n + 1) in
  let* topic_get := deref p in
  let* topic_get := memset topic_get 0 (n + 1) in
  let* topic_get := memcpy topic_get 0 topicName in
  let* payload := wr payload payloadLen 0 in
  match OtaHttp.strstr (str "/request/") (cstr topic_get) with
  | None => ya_hal_os_memory_free
  | Some p =>
    let id := drop 9 p in
    let msg_id_len := u16 (len id) in
    let* ok := if msg_id_len =? 0 then ret 0 else queue_copy YA_PUBLISH_RESPONSE id msg_id_len in
    if negb (ok =? 0) then ya_hal_os_memory_free
    else ya_aws_subscribe_event_transfer payload (u16 payloadLen) ;; ya_hal_os_memory_free
  end.
Definition request_topic (t c : bytes) : bytes := str "/" ++ t ++ str "/rrpc/" ++ c ++ str "/request/+".
Definition ya_get_subscribe_topic : PK Z :=
  let* '(t, c) := names in
  let* topic := print_topic (len (str "/%s/rrpc/%s/request/+") + len c + len t + 1) (request_topic t c) in
  mputs (aws_set_topic topic) ;;
  ret (match topic with Some _ => 0 | None => -1 end).
Definition ya_aws_subscribe : PK Z :=
  let* t := mgets subscribe_topic in
  let* t := deref t in
  mqtt "subscribe" [cstr t].

(** ** Messages to the cloud *)
Definition response_topic (t c : bytes) : bytes := str "/" ++ t ++ str "/rrpc/" ++ c ++ str "/response/".
Definition update_topic (t c : bytes) : bytes := str "/" ++ t ++ str "/" ++ c ++ str "/update".
(** The id is copied behind the printed topic without a terminator; the block
    was cleared. *)
Definition ya_aws_publish_ack (msgid : bytes) (buf : option bytes) : PK Z :=
  let* '(t, c) := names in
  let* topic := print_topic (len (str "/%s/rrpc/%s/response/") + len c + len t + len (cstr msgid) + 1) (response_topic t c) in
  match topic with
  | None => ret (-1)
  | Some topic =>
    let* topic := memcpy topic (len (cstr topic)) (cstr msgid) in
    let* buf := deref buf in
    let* rc := mqtt "publish" [cstr topic; cstr buf] in
    ya_hal_os_memory_free ;; ret (if rc =? 0 then 0 else -1)
  end.
Definition ya_report_msg_to_aws_cloud (data : bytes) (data_len : Z) : PK Z := queue_copy AWS_REPORT data data_len.
Definition ya_aws_report (buf : bytes) : PK Z :=
  let* '(t, c) := names in
  let* topic := print_topic (len (str "/%s/%s/update") + len c + len t + 1) (update_topic t c) in
  match topic with
  | None => ret (-1)
  | Some topic =>
    let* rc := mqtt "publish" [cstr topic; cstr buf] in
    ya_hal_os_memory_free ;; ret (if rc =? 0 then 0 else -1)
  end.
(** ["code"] is the number 0; items carry no other number. *)
Definition ack_document : cJSON := jroot [jstr "message" "success"; Item (Some (str "code")) cJSON_Number None []].
Definition ya_aws_gen_ack_publish_and_send (msgid : bytes) : PK Z :=
  let* ack := cJSON_CreateObject in
  match ack with
  | None => ret (-1)
  | Some _ =>
    let* buf := json_document ack_document in
    let* r := ya_aws_publish_ack msgid buf in
    cJSON_Delete ;; free_if buf ;; ret r
  end.
Definition aws_updata_device_version : PK Z := updata_device_version ya_report_msg_to_aws_cloud.
Definition aws_updata_debind_information : PK Z :=
  updata_debind_information ya_report_msg_to_aws_cloud (on_app (in_lic ya_aws_get_thing_type)) (on_app (in_lic ya_aws_get_client_id)).
Definition aws_updata_random_information : PK Z :=
  updata_random_information ya_report_msg_to_aws_cloud (on_app (in_lic ya_aws_get_thing_type)) (on_app (in_lic ya_aws_get_client_id)).

(** ** The session *)
Definition ya_aws_cloud_connect : PK Z :=
  let* cert := on_app (in_lic ya_get_client_cert) in
  let* key := on_app (in_lic ya_get_private_key) in
  match cert, key with
  | Some cert, Some key =>
    let* domain := mgets aws_cloud_domain in
    let* rc := mqtt "init" [if domain =? WIFI_US then AWS_IOT_MQTT_HOST_US else AWS_IOT_MQTT_HOST_EU; cstr cert; cstr key] in
    if negb (rc =? 0) then ret rc
    else
      let* c := conn_client_id in
      let* c := deref c in
      let* rc := mqtt "connect" [cstr c] in
      if negb (rc =? 0) then ret rc
      else
        let* rc := mqtt "autoreconnect" [] in
        if negb (rc =? 0) then ret rc else ya_aws_subscribe
  | _, _ => ret (-1)
  end.
Definition ya_aws_get_cloud_status : PK Z := let* c := mgets ya_cloud_connected in ret (if c =? 1 then 1 else 0).

(** The entry of [ya_cloud_app], before its loop. *)
Definition ya_aws_cloud_app_init : PK unit := ya_get_subscribe_topic ;; mputs (aws_set_connected 0).
(** One turn of [while (1)]: following the router's state; *)
Definition follow_router : PK unit :=
  let* st := on_app (gets ya_app_state) in
  let* k := mgets id in
  if (st ==? YA_APP_CONNECTED) && (ya_aws_cloud_state k ==? AWS_CLOUD_INIT) then mputs (aws_set_state AWS_TO_CONNECT_CLOUD)
  else if (st <>? YA_APP_CONNECTED) && (ya_aws_cloud_state k <>? AWS_CLOUD_INIT) then
    mqtt "disconnect" [] ;; mqtt "free" [] ;;
    mputs (aws_set_connected 0) ;; mputs (aws_set_state AWS_CLOUD_INIT)
  else ret tt.
(** connecting; *)
Definition connect_cloud : PK unit :=
  let* r := ya_aws_cloud_connect in
  if negb (r =? 0) then mputs (aws_set_state AWS_CONNECT_ERROR)
  else
    mputs (aws_set_connected 1) ;; mputs (aws_set_state AWS_CONNECTED_CLOUD) ;;
    ya_aws_send_cloud_status YA_CLOUD_ONLINE ;;
    updata_all ya_report_msg_to_aws_cloud (on_app (in_lic ya_aws_get_thing_type)) (on_app (in_lic ya_aws_get_client_id)).
Definition close_cloud (tick : Z) : PK unit :=
  (let* c := mgets ya_cloud_connected in
   when (negb (c =? 0)) (mputs (aws_set_connected 0) ;; ya_aws_send_cloud_status YA_CLOUD_OFFLINE ;; ret tt)) ;;
  mputs (aws_set_timer (ya_countdown_ms tick ya_init_timer 5000)) ;;
  mqtt "disconnect" [] ;; mqtt "free" [] ;;
  mputs (aws_set_state AWS_RECONNECT_WAIT).
Definition aws_state_step (tick : Z) : PK unit :=
  let* k := mgets id in
  match ya_aws_cloud_state k with
  | AWS_CLOUD_INIT => ret tt
  | AWS_TO_CONNECT_CLOUD => connect_cloud
  | AWS_CONNECTED_CLOUD => ret tt
  | AWS_CONNECT_ERROR => close_cloud tick
  | AWS_RECONNECT_WAIT =>
    when (ya_has_timer_expired tick (ya_aws_cloud_timer k) =? 0) (mputs (aws_set_state AWS_TO_CONNECT_CLOUD))
  end.
(** polling the library for 100 ms; *)
Definition deliver (d : delivery) : PK unit :=
  match d with
  | Message topicName payload n => ya_subscribe_callback_handler topicName payload n
  | Disconnected => ya_aws_disconnectCallbackHandler
  end.
Definition aws_iot_mqtt_yield : PK Z :=
  let* l := mgets yields in
  match l with
  | [] => ret 0
  | (ds, r) :: l => mputs (aws_set_yields l) ;; for_each ds deliver ;; ret r
  end.
Definition poll_cloud : PK unit :=
  let* k := mgets id in
  when (ya_aws_cloud_state k ==? AWS_CONNECTED_CLOUD)
    (let* r := aws_iot_mqtt_yield in
     if negb (r =? 0) then mputs (aws_set_state AWS_CONNECT_ERROR)
     else mputs (fun k => aws_set_count (if 100 <=? count k then 0 else u16 (count k + 1)) k)).
(** and one queued message, sent while connected, dropped otherwise. *)
Definition send_queued : PK unit :=
  let* o := ya_hal_os_queue_recv QAws in
  match o with
  | None => ret tt
  | Some m =>
    (let* c := mgets ya_cloud_connected in
     when (negb (c =? 0))
       (if m_type m =? YA_PUBLISH_RESPONSE then
          let* a := deref (m_addr m) in ya_aws_gen_ack_publish_and_send a ;; ret tt
        else if m_type m =? AWS_REPORT then
          let* a := deref (m_addr m) in ya_aws_report a ;; ret tt
        else ret tt)) ;;
    free_if (m_addr m)
  end.
Definition ya_aws_cloud_app_turn (tick : Z) : PK unit :=
  follow_router ;; aws_state_step tick ;; poll_cloud ;; send_queued.
End Aws.
