(* ===== verification/AlyCloud.v ===== *)
(** * The Aliyun connection: [akeeta/app/src/ya_aliyun_cloud.c]

    A task that builds an MQTT client once the router is connected and polls
    it for ever; the library reconnects by itself and reports its state through
    events.  As for AWS, library calls are logged, their answers and what the
    library delivers are inputs. *)

From stdpp Require Import base numbers list strings.
From S2P Require Import Prelude Platform CommonFunc CJson License Cloud Hardware UserData AppMain AtCmd Console CloudEvents.

Definition ALY_UNCONNECTED_CLOUD : Z := 0.
Definition ALY_CONNECTED_CLOUD : Z := 1.
Definition ALY_REPORT : Z := 0.
Definition MSG_ID_LEN_MAX : Z := 64.
Definition TOPIC_LEN_MAX : Z := 256.
Definition IOTX_MQTT_EVENT_DISCONNECT : Z := 1.
Definition IOTX_MQTT_EVENT_RECONNECT : Z := 2.
Definition IOTX_MQTT_EVENT_SUBCRIBE_SUCCESS : Z := 3.
Definition IOTX_MQTT_EVENT_PUBLISH_RECEIVED : Z := 12.

(** What a poll delivers: an event of the session, or one of a subscribed topic
    with the packet from the topic on, the topic's length, the packet from the
    payload on, and the payload's length. *)
Inductive aly_delivery :=
| SessionEvent (event_type : Z)
| TopicEvent (event_type : Z) (ptopic : bytes) (topic_len : Z) (payload : bytes) (payload_len : Z).

(** The module's globals; [pclient] of the task; the inputs.  The cached names
    are with the application's globals. *)
Record aly (H : Type) := mkAly {
  aly_listeners : list (listener H); aly_connected : Z; send_connect_flag : Z; pclient : bool;
  aly_calls : list Z; aly_yields : list (list aly_delivery) }.
Arguments mkAly {H}. Arguments aly_listeners {H}. Arguments aly_connected {H}. Arguments send_connect_flag {H}.
Arguments pclient {H}. Arguments aly_calls {H}. Arguments aly_yields {H}.

Section Aly.
Context {C H V : Type} `{Callbacks C H V} `{JsonText} `{AtEnv}.
Implicit Types (k : aly H).
Definition aly_set_listeners v (k : aly H) : aly H := mkAly v (aly_connected k) (send_connect_flag k) (pclient k) (aly_calls k) (aly_yields k).
Definition aly_set_connected v (k : aly H) : aly H := mkAly (aly_listeners k) v (send_connect_flag k) (pclient k) (aly_calls k) (aly_yields k).
Definition aly_set_flag v (k : aly H) : aly H := mkAly (aly_listeners k) (aly_connected k) v (pclient k) (aly_calls k) (aly_yields k).
Definition aly_set_client v (k : aly H) : aly H := mkAly (aly_listeners k) (aly_connected k) (send_connect_flag k) v (aly_calls k) (aly_yields k).
Definition aly_set_calls v (k : aly H) : aly H := mkAly (aly_listeners k) (aly_connected k) (send_connect_flag k) (pclient k) v (aly_yields k).
Definition aly_set_yields v (k : aly H) : aly H := mkAly (aly_listeners k) (aly_connected k) (send_connect_flag k) (pclient k) (aly_calls k) v.
#[export] Instance aly_module : CloudModule H (aly H) :=
  {| callback_list := aly_listeners; set_callback_list := aly_set_listeners; msg_queue := QAly; YA_HARDWARE_REPORT := ALY_REPORT |}.
Abbreviation PK := (P C (app * V * aly H)).

Definition ya_add_aly_cloud_event_listener : option bytes -> Z -> H -> PK Z := add_event_listener.
Definition ya_remove_aly_cloud_event_listener : option bytes -> Z -> PK Z := remove_event_listener.
Definition ya_trigger_aly_cloud_event_listener : Z -> bytes -> Z -> PK Z := trigger_event_listener.
Definition ya_aly_send_cloud_status : Z -> PK Z := ya_send_cloud_status.
Definition ya_aly_subscribe_event_transfer : bytes -> Z -> PK Z := subscribe_event_transfer.

Definition aly_answer : PK Z :=
  let* l := mgets aly_calls in
  mputs (aly_set_calls (tail l)) ;; ret (match l with r :: _ => r | [] => 0 end).
Definition iot_mqtt (call : string) (args : list bytes) : PK Z := emit (EvMqtt call args) ;; aly_answer.
Definition aly_os_call (what : string) (arg : Z) : PK Z := emit (EvCloud what arg) ;; aly_answer.
(** The two names as C strings. *)
Definition aly_names : PK (bytes * bytes) := let* a := on_app (gets id) in ret (cstr (product_key a), cstr (device_name a)).

(** ** Messages from the cloud *)
Definition rrpc_response_topic (pk dn id : bytes) : bytes :=
  str "/sys/" ++ pk ++ str "/" ++ dn ++ str "/rrpc/response/" ++ id.
Definition ya_aly_rrpc_response (message_id response : bytes) : PK Z :=
  let* '(pk, dn) := aly_names in
  let topic_len := len (str "/sys/%s/%s/rrpc/response/%s") + len pk + len dn + len (cstr message_id) + 1 in
  let* p := ya_hal_os_memory_alloc topic_len in
  match p with
  | None => ret (-1)
  | Some topic =>
    let* topic := snprintf topic topic_len (rrpc_response_topic pk dn (cstr message_id)) in
    let* res := iot_mqtt "publish" [cstr topic; cstr response] in
    ya_hal_os_memory_free ;; ret (if res <? 0 then -1 else 0)
  end.
Definition quoted (s : string) : bytes := 34 :: str s ++ [34].
(** The text [{code:rc,message:null}] with its quotes. *)
Definition resp_text (rc : Z) : bytes :=
  str "{" ++ quoted "code" ++ str ":" ++ ya_int_to_string rc ++ str "," ++ quoted "message" ++ str ":" ++ quoted "null" ++ str "}".
(** The message id is what follows the fixed part of the topic, printed into an
    array of 65 with the remaining length of the topic as its limit. *)
Definition aly_callback_handler (event : Z) (ptopic : bytes) (topic_len : Z) (payload : bytes) (payload_len : Z) : PK unit :=
  let* rc := if event =? IOTX_MQTT_EVENT_PUBLISH_RECEIVED then ya_aly_subscribe_event_transfer payload (u16 payload_len) else ret 0 in
  let* text := text_at ptopic in
  when (strstr text (str "/rrpc/request/"))
    (let* '(pk, dn) := aly_names in
     let n := len (str "/sys///rrpc/request/") + len pk + len dn in
     let msg_id_len := topic_len - n in
     let* tail := text_at (drop (Z.to_nat n) ptopic) in
     let* msg_id := snprintf (zeros (MSG_ID_LEN_MAX + 1)) (msg_id_len + 1) tail in
     let* resp := snprintf (zeros 128) 128 (resp_text rc) in
     ya_aly_rrpc_response msg_id resp ;; ret tt).

(** ** Messages to the cloud *)
Definition ya_report_msg_to_aly_cloud (data : bytes) (data_len : Z) : PK Z :=
  let* c := mgets aly_connected in
  if c =? ALY_UNCONNECTED_CLOUD then ret (-1) else queue_copy ALY_REPORT data data_len.
Definition ya_ali_get_cloud_status : PK Z := let* c := mgets aly_connected in ret (if c =? ALY_CONNECTED_CLOUD then 1 else 0).
Definition aly_update_topic (pk dn : bytes) : bytes := str "/" ++ pk ++ str "/" ++ dn ++ str "/update".
(** The limit given to [snprintf] is 256, whatever the block's size. *)
Definition ya_aly_report (buf : bytes) : PK Z :=
  let* '(pk, dn) := aly_names in
  let* p := ya_hal_os_memory_alloc (len (str "/%s/%s/update") + len pk + len dn + 1) in
  match p with
  | None => ret (-1)
  | Some topic =>
    let* topic := snprintf topic TOPIC_LEN_MAX (aly_update_topic pk dn) in
    let* res := iot_mqtt "publish" [cstr topic; cstr buf] in
    ya_hal_os_memory_free ;; ret (if res <? 0 then -1 else 0)
  end.
Definition aly_updata_device_version : PK Z := updata_device_version ya_report_msg_to_aly_cloud.
Definition aly_updata_debind_information : PK Z :=
  updata_debind_information ya_report_msg_to_aly_cloud (on_app ya_aly_get_thing_name) (on_app ya_aly_get_client_id).
Definition aly_updata_random_information : PK Z :=
  updata_random_information ya_report_msg_to_aly_cloud (on_app ya_aly_get_thing_name) (on_app ya_aly_get_client_id).

(** ** The session *)
Definition ya_aly_cloud_event_handle (event : Z) : PK unit :=
  let* c := mgets aly_connected in
  if (event =? IOTX_MQTT_EVENT_RECONNECT) || (event =? IOTX_MQTT_EVENT_SUBCRIBE_SUCCESS) then
    when (negb (c =? ALY_CONNECTED_CLOUD))
      (mputs (aly_set_connected ALY_CONNECTED_CLOUD) ;; ya_aly_send_cloud_status YA_CLOUD_ONLINE ;; mputs (aly_set_flag 1))
  else if event =? IOTX_MQTT_EVENT_DISCONNECT then
    when (negb (c =? ALY_UNCONNECTED_CLOUD))
      (mputs (aly_set_connected ALY_UNCONNECTED_CLOUD) ;; ya_aly_send_cloud_status YA_CLOUD_OFFLINE ;; ret tt)
  else ret tt.
Definition ya_aly_topic_subscribe (fmt : string) (text : bytes -> bytes -> bytes) : PK Z :=
  let* '(pk, dn) := aly_names in
  let* topic := print_topic (len (str fmt) + len pk + len dn + 1) (text pk dn) in
  match topic with
  | None => ret (-1)
  | Some topic =>
    let* res := iot_mqtt "subscribe" [cstr topic] in
    ya_hal_os_memory_free ;; ret (if res <? 0 then -1 else 0)
  end.
Definition ya_aly_subscribe : PK Z :=
  ya_aly_topic_subscribe "/ext/error/%s/%s" (fun pk dn => str "/ext/error/" ++ pk ++ str "/" ++ dn) ;;
  ya_aly_topic_subscribe "/sys/%s/%s/rrpc/request/+" (fun pk dn => str "/sys/" ++ pk ++ str "/" ++ dn ++ str "/rrpc/request/+") ;;
  ya_aly_topic_subscribe "/%s/%s/dispatch/instruction/execution"
    (fun pk dn => str "/" ++ pk ++ str "/" ++ dn ++ str "/dispatch/instruction/execution") ;;
  ret 0.
(** Whether there is a client. *)
Definition ya_aly_cloud_start : PK bool :=
  let* r := iot_mqtt "construct" [] in
  if negb (r =? 0) then ret false
  else
    let* r := ya_aly_subscribe in
    if r <? 0 then iot_mqtt "destroy" [] ;; ret false else ret true.
Definition aly_deliver (d : aly_delivery) : PK unit :=
  match d with
  | SessionEvent e => ya_aly_cloud_event_handle e
  | TopicEvent e ptopic n payload m => aly_callback_handler e ptopic n payload m
  end.
Definition IOT_MQTT_Yield : PK unit :=
  let* l := mgets aly_yields in
  match l with [] => ret tt | ds :: l => mputs (aly_set_yields l) ;; for_each ds aly_deliver end.
(** One turn of [ya_cloud_loop]. *)
Definition announce_connection : PK unit :=
  let* f := mgets send_connect_flag in
  when (negb (f =? 0))
    (updata_all ya_report_msg_to_aly_cloud (on_app ya_aly_get_thing_name) (on_app ya_aly_get_client_id) ;;
     mputs (aly_set_flag 0)).
Definition aly_send_queued : PK unit :=
  let* o := ya_hal_os_queue_recv QAly in
  match o with
  | None => ret tt
  | Some m =>
    (let* c := mgets aly_connected in
     when (negb (c =? 0))
       (when (m_type m =? ALY_REPORT) (let* a := deref (m_addr m) in ya_aly_report a ;; ret tt))) ;;
    free_if (m_addr m)
  end.
Definition ya_cloud_loop_turn : PK unit := announce_connection ;; IOT_MQTT_Yield ;; aly_send_queued.
(** One turn of the task: waiting for the router, building the client, or a
    turn of the loop, which is never left. *)
Definition ya_aly_cloud_app_turn : PK unit :=
  let* c := mgets pclient in
  if (c : bool) then ya_cloud_loop_turn
  else
    let* st := on_app (gets ya_app_state) in
    if st <>? YA_APP_CONNECTED then emit (EvDelay 200)
    else
      let* c := ya_aly_cloud_start in
      mputs (aly_set_client c) ;; when (negb c) (emit (EvDelay 1000)).
Definition ya_start_cloud_aly_app : PK Z :=
  on_app (let* a := gets id in
          let* '(_, dn) := in_lic (ya_get_deviceID (device_name a)) in
          let* '(_, pk) := in_lic (ya_get_productKey (product_key a)) in
          puts (set_names pk dn)) ;;
  let* r := aly_os_call "queue_create" (Z.of_nat MSG_QUEUE_LENGTH) in
  if negb (r =? 0) then ret (-1)
  else let* r := aly_os_call "thread_create" (6 * 1024) in ret (if r =? 0 then 0 else -1).
End Aly.
