(* ===== verification/CloudProofs.v ===== *)
(** * What the cloud modules share, proved once

    The chain of listeners against a reference, and the runs of the shared
    operations on a machine with memory to spare. *)

From stdpp Require Import base numbers list strings.
From S2P Require Import Prelude Platform CommonFunc CJson License Cloud Hardware UserData AppMain AtCmd Console CloudEvents.

Class CloudModuleLaws (H K : Type) `{CloudModule H K} := {
  callback_list_set : forall l k, callback_list (set_callback_list l k) = l;
}.

(** ** A machine with memory to spare *)
Section Spare.
Context {C : Type}.
Implicit Types (h : hw C).
Lemma spare_alloc {S} n (s : S) h : heap h = [] -> 0 < n ->
  ya_hal_os_memory_alloc n (s, h) = Done (Some (replicate (Z.to_nat n) (u8 (junk h)))) (s, set_heap [] (live h + 1) h).
Proof. intros Hh Hn. unfold ya_hal_os_memory_alloc. rewrite Hh. destruct (Z.eqb_spec n 0); [lia|done]. Qed.
Lemma spare_same h : heap h = [] -> set_heap [] (live h) h = h.
Proof. intros Hh. destruct h. cbn in *. by subst. Qed.
Lemma spare_fix n h : heap h = [] -> n = live h -> set_heap [] n h = h.
Proof. intros Hh ->. by apply spare_same. Qed.
Lemma memset_block {T} b n (t : T) : n = len b -> 0 <= n -> memset b 0 n t = Done (zeros n) t.
Proof.
  intros -> Hn. rewrite memset_ok by lia. unfold zeros. change (u8 0) with 0.
  rewrite drop_ge by (unfold len; lia). by rewrite app_nil_r.
Qed.
Lemma len_block n (x : Z) : 0 <= n -> len (replicate (Z.to_nat n) x) = n.
Proof. intros. unfold len. rewrite length_replicate. lia. Qed.
(** [snprintf] of a text that fits. *)
Lemma snprintf_zeros {T} n m text (t : T) : len text < n -> n <= m -> n < 4294967296 ->
  snprintf (zeros m) n text t = Done (text ++ zeros (m - len text)) t.
Proof.
  intros Hl Hm Hn. pose proof (len_nonneg text). unfold snprintf. rewrite u32_small by (unfold is_u32; lia).
  destruct (Z.eqb_spec n 0); [lia|]. rewrite take_ge by (unfold len in *; lia).
  rewrite <- (app_nil_l (zeros m)), memcpy_string by (try done; lia). done.
Qed.
End Spare.

Section Shared.
Context {C H V K : Type} `{Callbacks C H V} `{CloudModuleLaws H K} `{JsonText} `{AtEnv}.
Implicit Types (r : app * V) (k : K) (h : hw C).
Abbreviation PK := (P C (app * V * K)).

(** ** Listeners *)
(** A registration, and the reference: for one event, the callbacks of the
    tasks in the order of their first registration. *)
Definition reg : Type := bytes * Z * H.
Definition register (g : reg) : PK unit := add_event_listener (Some g.1.1) g.1.2 g.2 ;; ret tt.
Fixpoint handlers_of (event : Z) (seen : list bytes) (regs : list reg) : list H :=
  match regs with
  | [] => []
  | (name, ev, x) :: regs =>
    if (ev =? event) && bool_decide (cstr name ∉ seen) then x :: handlers_of event (cstr name :: seen) regs
    else handlers_of event seen regs
  end.
Definition key (n : listener H) : bytes * Z := (cstr (task_name n), event_type n).
Definition add_node (l : list (listener H)) (g : reg) : list (listener H) :=
  if existsb (listens g.1.1 g.1.2) l then l else l ++ [mkListener (cstr g.1.1 ++ [0]) g.1.2 g.2].
Lemma listens_key name ev n : listens name ev n = true <-> key n = (cstr name, ev).
Proof.
  unfold listens, key. rewrite andb_true_iff, bool_decide_eq_true, Z.eqb_eq. split; [by intros [-> ->]|by intros [= -> ->]].
Qed.
Lemma listens_any name ev l : existsb (listens name ev) l = true <-> (cstr name, ev) ∈ key <$> l.
Proof.
  rewrite existsb_exists, list_elem_of_fmap. split.
  - intros (n & Hn & Hl%listens_key). exists n. split; [done|]. by apply list_elem_of_In.
  - intros (n & Hk & Hn). exists n. split; [by apply list_elem_of_In|]. by apply listens_key.
Qed.
Lemma cstr_block name : cstr (cstr name ++ [0]) = cstr name.
Proof. apply cstr_app_nul, cstr_is_no_nul. Qed.
Lemma add_node_nodup l g : NoDup (key <$> l) -> NoDup (key <$> add_node l g).
Proof.
  intros Hn. unfold add_node. destruct (existsb _ l) eqn:E; [done|]. rewrite fmap_app. apply NoDup_app. split; [done|]. split; [|apply NoDup_singleton].
  intros x Hx ->%list_elem_of_singleton. assert (existsb (listens g.1.1 g.1.2) l = true); [|congruence].
  apply listens_any. unfold key at 1 in Hx. cbn [task_name event_type] in Hx. by rewrite cstr_block in Hx.
Qed.
(** One registration. *)
Lemma register_run g r k h : heap h = [] ->
  register g (r, k, h) = Done tt (if existsb (listens g.1.1 g.1.2) (callback_list k) then (r, k, h)
    else (r, set_callback_list (add_node (callback_list k) g) k, set_heap [] (live h + 2) h)).
Proof.
  intros Hh. destruct g as [[name ev] x]. unfold register, add_node. cbn [fst snd].
  erewrite bind_done; [reflexivity|]. instantiate (1 := 0). unfold add_event_listener. erewrite bind_done by reflexivity. cbn [fst snd].
  destruct (existsb _ _) eqn:E; [done|]. pose proof (len_nonneg (cstr name)).
  erewrite bind_done by (by apply spare_alloc). cbn beta iota. erewrite bind_done by (apply spare_alloc; [done|lia]). cbn beta iota.
  unfold strcpy. rewrite bool_decide_true by (apply elem_of_app; right; left). rewrite cstr_block.
  erewrite bind_done by (apply memcpy_ok; [done|rewrite len_block, len_app by lia; change (len [0]) with 1; lia]).
  erewrite bind_done by reflexivity. cbn [fst snd]. unfold ret, set_heap. cbn [live chip junk stale ticks queues trace].
  do 2 f_equal; [|f_equal; lia]. do 4 f_equal. unfold splice. cbn [Z.to_nat take List.app].
  rewrite drop_ge, app_nil_r; [done|]. rewrite length_replicate, length_app. unfold len. cbn. lia.
Qed.
Lemma handlers_seen event seen seen' regs : (forall x, x ∈ seen <-> x ∈ seen') -> handlers_of event seen regs = handlers_of event seen' regs.
Proof.
  revert seen seen'. induction regs as [|[[name ev] x] regs IH]; intros seen seen' Hs; [done|]. cbn [handlers_of].
  destruct (ev =? event); cbn [andb]; [|by apply IH].
  rewrite (bool_decide_ext (cstr name ∉ seen) (cstr name ∉ seen')) by (by rewrite Hs).
  destruct (bool_decide _); [f_equal|]; apply IH; [|done]. intros y. rewrite !elem_of_cons. by rewrite Hs.
Qed.
(** The callbacks of an event in a chain, and the tasks that listen to it. *)
Definition of_event (event : Z) (l : list (listener H)) : list (listener H) := List.filter (fun n => event_type n =? event) l.
Lemma of_event_seen event name l : (cstr name, event) ∈ key <$> l <-> cstr name ∈ (fun n => cstr (task_name n)) <$> of_event event l.
Proof.
  rewrite !list_elem_of_fmap. unfold of_event. split; intros (n & Hn & Hl); exists n.
  - injection Hn as E1 E2. split; [done|]. apply list_elem_of_In, filter_In. split; [by apply list_elem_of_In|]. rewrite E2. apply Z.eqb_refl.
  - apply list_elem_of_In, filter_In in Hl as [Hl E%Z.eqb_eq]. unfold key. split; [by rewrite Hn, E|by apply list_elem_of_In].
Qed.
Lemma chain_handlers event regs : forall l,
  ya_cloud_event_handler <$> of_event event (foldl add_node l regs) =
  (ya_cloud_event_handler <$> of_event event l) ++ handlers_of event ((fun n => cstr (task_name n)) <$> of_event event l) regs.
Proof.
  induction regs as [|[[name ev] x] regs IH]; intros l; cbn [foldl handlers_of]; [by rewrite app_nil_r|].
  rewrite IH. unfold add_node at 1 2. cbn [fst snd]. destruct (existsb (listens name ev) l) eqn:E.
  - apply listens_any in E. destruct (Z.eqb_spec ev event) as [->|]; [|done]. apply of_event_seen in E.
    by rewrite bool_decide_false by (intros Hn; by apply Hn).
  - assert (Hn : (cstr name, ev) ∉ key <$> l) by (intros Hn%listens_any; congruence).
    unfold of_event. rewrite List.filter_app. cbn [List.filter event_type]. destruct (Z.eqb_spec ev event) as [->|]; cbn [andb].
    + rewrite !fmap_app. cbn [fmap list_fmap ya_cloud_event_handler task_name]. rewrite cstr_block, <- app_assoc.
      rewrite bool_decide_true by (by rewrite of_event_seen in Hn). cbn [List.app]. do 2 f_equal.
      apply handlers_seen. intros y. rewrite elem_of_app, !elem_of_cons, elem_of_nil. tauto.
    + by rewrite app_nil_r.
Qed.
Lemma registers_run regs : forall r k h, heap h = [] ->
  exists k' h', for_each regs register (r, k, h) = Done tt (r, k', h') /\ callback_list k' = foldl add_node (callback_list k) regs /\
    h' = set_heap [] (live h + 2 * (Z.of_nat (length (callback_list k')) - Z.of_nat (length (callback_list k)))) h.
Proof.
  induction regs as [|g regs IH]; intros r k h Hh.
  - exists k, h. split_and!; try done. symmetry. apply spare_fix; [done|lia].
  - cbn [for_each foldl]. erewrite bind_done by (by apply register_run).
    assert (Ha : add_node (callback_list k) g = if existsb (listens g.1.1 g.1.2) (callback_list k) then callback_list k
      else callback_list k ++ [mkListener (cstr g.1.1 ++ [0]) g.1.2 g.2]) by done.
    destruct (existsb _ _); rewrite Ha; [by apply IH|].
    match goal with |- context [for_each regs register (r, ?k1, ?h1)] =>
      destruct (IH r k1 h1) as (k' & h' & E1 & E2 & E3); [done|] end.
    exists k', h'. split; [exact E1|]. rewrite callback_list_set in E2, E3. split; [exact E2|].
    rewrite E3. unfold set_heap. cbn. f_equal. rewrite length_app. cbn. lia.
Qed.
Lemma trigger_run event data n r k h :
  trigger_event_listener event data n (r, k, h) =
    (for_each (ya_cloud_event_handler <$> of_event event (callback_list k)) (fun x => on_rest (callback x data n)) ;; ret 0) (r, k, h).
Proof.
  unfold trigger_event_listener. erewrite bind_done by reflexivity. cbn [fst snd]. generalize (callback_list k) as l. intros l.
  unfold bind at 1. symmetry. unfold bind at 1.
  match goal with |- match ?a with _ => _ end = match ?b with _ => _ end => enough (Ha : a = b) by (by rewrite Ha) end.
  generalize (r, k, h) as t. induction l as [|y l IH]; intros t; [done|]. cbn [of_event List.filter for_each].
  destruct (event_type y =? event); cbn [fmap list_fmap for_each when].
  - unfold bind. destruct (on_rest _ t); [apply IH|done|done].
  - unfold bind at 1. unfold ret at 1. apply IH.
Qed.

(** ** Runs of the shared operations *)
(** A report queued, or refused by a full queue. *)
Definition has_room (h : hw C) (q : qid) : bool := bool_decide (length (queues h q) < queue_length q)%nat.
Lemma queue_copy_run type data n r k h : heap h = [] -> 0 <= n <= len data ->
  queue_copy type data n (r, k, h) =
    if has_room h msg_queue then
      Done 0 (r, k, set_queue msg_queue (queues h msg_queue ++ [mkMsg (u16 (n + 1)) (Some (slice data 0 n ++ [0])) type])
        (set_heap [] (live h + 1) h))
    else Done (-1) (r, k, h).
Proof.
  intros Hh Hn. unfold queue_copy. erewrite bind_done by (apply spare_alloc; [done|lia]). cbn [deref]. erewrite bind_done by reflexivity.
  erewrite bind_done by (apply memset_block; [by rewrite len_block by lia|lia]).
  erewrite bind_done by (apply rdn_ok; lia). assert (Hs : len (slice data 0 n) = n) by (apply len_slice; lia).
  rewrite <- (app_nil_l (zeros (n + 1))). erewrite bind_done by (apply memcpy_zeros; [done|lia]). cbn [List.app].
  rewrite Hs. replace (n + 1 - n) with 1 by lia. change (zeros 1) with [0].
  unfold ya_hal_os_queue_send, has_room. unfold bind at 1. cbn [queues set_heap]. destruct (bool_decide _); [done|].
  cbn [Z.eqb negb]. unfold ya_hal_os_memory_free, upd_hw. unfold bind at 1. unfold ret. do 2 f_equal.
  cbn [heap live set_heap]. destruct h. cbn in *. subst. unfold set_heap. cbn. f_equal. lia.
Qed.
Lemma print_topic_run n text r k h : heap h = [] -> len text < n -> n < 4294967296 -> 
  print_topic n text (r, k, h) = Done (Some (text ++ zeros (n - len text))) (r, k, set_heap [] (live h + 1) h).
Proof.
  intros Hh Hl Hn. pose proof (len_nonneg text). unfold print_topic. erewrite bind_done by (apply spare_alloc; [done|lia]).
  cbn beta iota. erewrite bind_done by (apply memset_block; [by rewrite len_block by lia|lia]).
  by erewrite bind_done by (apply snprintf_zeros; lia).
Qed.
End Shared.

(** The chain of listeners.  Whatever tasks register for whatever events,
    in whatever order and however often, an event then runs exactly the
    callbacks a reference gives: those of the tasks registered for it, each
    task once and with its first callback, in the order of registration, on the
    data of the event.  A task is in the chain at most once per event, and a
    node costs two blocks of memory. *)
Theorem listeners_dispatched {C H V K} `{Callbacks C H V} `{CloudModuleLaws H K}
    (regs : list (bytes * Z * H)) (r : app * V) (k : K) (h : hw C) :
  callback_list k = [] -> heap h = [] ->
  exists k' h', for_each regs register (r, k, h) = Done tt (r, k', h') /\
    NoDup (key <$> callback_list k') /\
    h' = set_heap [] (live h + 2 * Z.of_nat (length (callback_list k'))) h /\
    forall event data n r1 h1, trigger_event_listener event data n (r1, k', h1) =
      (for_each (handlers_of event [] regs) (fun x => on_rest (callback x data n)) ;; ret 0) (r1, k', h1).
Proof.
  intros Hk Hh. destruct (registers_run regs r k h Hh) as (k' & h' & E & El & Eh). exists k', h'. split; [exact E|]. rewrite Hk in El, Eh.
  split_and!.
  - rewrite El. cut (NoDup (key (H := H) <$> [])); [|apply NoDup_nil_2]. generalize (@nil (listener H)) as l.
    clear. induction regs as [|g regs IH]; intros l Hl; [done|]. cbn. by apply IH, add_node_nodup.
  - rewrite Eh. f_equal. cbn. lia.
  - intros event data n r1 h1. rewrite trigger_run, El, chain_handlers. done.
Qed.
