(* ===== verification/AwsProofs.v ===== *)
(** * What the AWS connection guarantees

    Reports leave in order through a refined bounded queue; a command from the
    cloud reaches its listeners and is answered; the session is opened, used and
    closed in order, and opened again after an error. *)

From stdpp Require Import base numbers list strings.
From S2P Require Import OtaHttp Prelude Platform CommonFunc HalTimer CJson DeviceTimer License Cloud Hardware UserData AppMain UserDataProofs AtCmd AtProofs Console CloudEvents AwsCloud CloudProofs.

#[export] Instance aws_module_laws H : CloudModuleLaws H (aws H).
Proof. by split. Qed.

Section Aws.
Context {C H V : Type} `{Callbacks C H V} `{JsonText} `{AtEnv}.
Implicit Types (a : app) (v : V) (k : aws H) (h : hw C).
Abbreviation PK := (P C (app * V * aws H)).

Lemma on_app_run {A} (m : P C app A) x a a' v k h h' : m (a, h) = Done x (a', h') -> on_app m (a, v, k, h) = Done x (a', v, k, h').
Proof. intros E. unfold on_app, zoom_s, zoom. cbn [fst snd]. by rewrite E. Qed.
Lemma in_lic_gets {A} (f : lic -> A) a h : in_lic (gets f) (a, h) = Done (f (a_lic a)) (a, h).
Proof. unfold in_lic, zoom_s, zoom. cbn [fst snd gets]. by destruct a. Qed.

(** A device of the AWS cloud, with its thing type and client id. *)
Definition device a (t c : bytes) : Prop :=
  (exists ty, a_conn a = Some ty /\ ty <> WIFI_CN) /\
  (exists b, aws_thing_type (a_lic a) = Some b /\ cstr b = t) /\ (exists b, aws_client_id (a_lic a) = Some b /\ cstr b = c) /\
  len t + len c < 65536.
Lemma conn_get_run cn (f : lic -> option bytes) a v k h : (exists ty, a_conn a = Some ty /\ ty <> WIFI_CN) ->
  conn_get cn (in_lic (gets f)) (a, v, k, h) = Done (f (a_lic a)) (a, v, k, h).
Proof.
  intros (ty & Hty & Hne). apply on_app_run. erewrite bind_done by reflexivity. cbn [fst snd id]. rewrite Hty.
  destruct (Z.eqb_spec ty WIFI_CN); [done|]. apply in_lic_gets.
Qed.
Lemma names_run a v k h t c : device a t c -> names (a, v, k, h) = Done (t, c) (a, v, k, h).
Proof.
  intros (Hc & (tb & Ht & <-) & (cb & Hcb & <-) & _). unfold names.
  erewrite bind_done by (by apply conn_get_run). rewrite Hcb. cbn [deref]. erewrite bind_done by reflexivity.
  erewrite bind_done by (by apply conn_get_run). rewrite Ht. cbn [deref]. by erewrite bind_done by reflexivity.
Qed.
Lemma device_text a t c : device a t c -> no_nul t /\ no_nul c.
Proof. intros (_ & (? & _ & <-) & (? & _ & <-) & _). split; apply cstr_is_no_nul. Qed.
Definition next_answer (l : list Z) : Z := match l with x :: _ => x | [] => 0 end.
Lemma mqtt_run call args a v k h :
  mqtt call args (a, v, k, h) = Done (next_answer (calls k)) (a, v, aws_set_calls (tail (calls k)) k, log (EvMqtt call args) h).
Proof. done. Qed.

(** ** Publishing *)
Lemma update_topic_text a t c : device a t c -> no_nul (update_topic t c) /\ len (update_topic t c) = 9 + len t + len c.
Proof.
  intros [Ht Hc]%device_text. unfold update_topic. split.
  - unfold no_nul. rewrite !Forall_app. split_and!; try done; evaluate.
  - rewrite !len_app. change (len (str "/")) with 1. change (len (str "/update")) with 7. lia.
Qed.
Lemma response_topic_text a t c : device a t c -> no_nul (response_topic t c) /\ len (response_topic t c) = 17 + len t + len c.
Proof.
  intros [Ht Hc]%device_text. unfold response_topic. split.
  - unfold no_nul. rewrite !Forall_app. split_and!; try done; evaluate.
  - rewrite !len_app. change (len (str "/")) with 1. change (len (str "/rrpc/")) with 6. change (len (str "/response/")) with 10. lia.
Qed.
Definition status_of (rc : Z) : Z := if rc =? 0 then 0 else -1.
Lemma spare_turn n h (e : event) : heap h = [] -> n = live h ->
  set_heap [] n (log e (set_heap [] (live h + 1) h)) = log e h.
Proof. intros Hh ->. destruct h. cbn in *. by subst. Qed.
Lemma ya_aws_report_run buf a v k h t c : device a t c -> heap h = [] ->
  ya_aws_report buf (a, v, k, h) = Done (status_of (next_answer (calls k)))
    (a, v, aws_set_calls (tail (calls k)) k, log (EvMqtt "publish" [update_topic t c; cstr buf]) h).
Proof.
  intros Hd Hh. destruct (update_topic_text a t c Hd) as [Hz Hl]. pose proof (len_nonneg t). pose proof (len_nonneg c).
  pose proof Hd as (_ & _ & _ & Hmax). unfold ya_aws_report. erewrite bind_done by (by apply names_run). cbn beta iota.
  change (len (str "/%s/%s/update")) with 13. erewrite bind_done by (apply print_topic_run; [done|lia|lia]). cbn beta iota.
  rewrite cstr_zeros by (done || lia). erewrite bind_done by apply mqtt_run. erewrite bind_done by reflexivity.
  unfold ret. cbn [heap live log set_heap]. by rewrite spare_turn by (done || lia).
Qed.
Lemma set_heap_twice n m (l l' : list bool) h : set_heap l n (set_heap l' m h) = set_heap l n h.
Proof. done. Qed.
Lemma ya_aws_publish_ack_run msgid buf a v k h t c : device a t c -> heap h = [] -> len (cstr msgid) < 65536 ->
  ya_aws_publish_ack msgid (Some buf) (a, v, k, h) = Done (status_of (next_answer (calls k)))
    (a, v, aws_set_calls (tail (calls k)) k, log (EvMqtt "publish" [response_topic t c ++ cstr msgid; cstr buf]) h).
Proof.
  intros Hd Hh Hm. destruct (response_topic_text a t c Hd) as [Hz Hl]. pose proof (len_nonneg t). pose proof (len_nonneg c).
  pose proof (len_nonneg (cstr msgid)). pose proof Hd as (_ & _ & _ & Hmax). unfold ya_aws_publish_ack.
  erewrite bind_done by (by apply names_run). cbn beta iota.
  change (len (str "/%s/rrpc/%s/response/")) with 21. erewrite bind_done by (apply print_topic_run; [done|lia|lia]). cbn beta iota.
  rewrite cstr_zeros by (done || lia). erewrite bind_done by (apply memcpy_zeros; [done|lia]). cbn [deref]. erewrite bind_done by reflexivity.
  rewrite cstr_zeros; [|apply Forall_app; split; [done|apply cstr_is_no_nul]|lia].
  erewrite bind_done by apply mqtt_run. erewrite bind_done by reflexivity.
  unfold ret. cbn [heap live log set_heap]. by rewrite spare_turn by (done || lia).
Qed.
Lemma ack_run msgid raw a v k h t c : device a t c -> heap h = [] -> len (cstr msgid) < 65536 ->
  cJSON_PrintUnformatted ack_document = Some raw ->
  ya_aws_gen_ack_publish_and_send msgid (a, v, k, h) = Done (status_of (next_answer (calls k)))
    (a, v, aws_set_calls (tail (calls k)) k, log (EvMqtt "publish" [response_topic t c ++ cstr msgid; cstr raw]) h).
Proof.
  intros Hd Hh Hm Hp. unfold ya_aws_gen_ack_publish_and_send, cJSON_CreateObject. rewrite bind_assoc.
  erewrite bind_done by (by apply spare_alloc). erewrite bind_done by reflexivity. cbn beta iota.
  erewrite bind_done by (apply document_done; [done|done|by rewrite Hp]). erewrite bind_done by (by apply (ya_aws_publish_ack_run _ _ _ _ _ _ t c)).
  erewrite bind_done by reflexivity. cbn [free_if]. erewrite bind_done by reflexivity. unfold ret. do 2 f_equal.
  rewrite (cstr_no_nul (cstr raw)) by apply cstr_is_no_nul. cbn [heap live log set_heap]. destruct h. cbn in *. subst. unfold set_heap, log. cbn. f_equal. lia.
Qed.

(** ** A quiet turn of a connected task *)
(** Connected to the router and the cloud; the library accepts everything and
    delivers nothing. *)
Definition online a k : Prop := ya_app_state a = YA_APP_CONNECTED /\ ya_aws_cloud_state k = AWS_CONNECTED_CLOUD /\ ya_cloud_connected k = 1.
Definition calm k : Prop := calls k = [] /\ yields k = [].
Lemma follow_online a v k h : online a k -> follow_router (a, v, k, h) = Done tt (a, v, k, h).
Proof.
  intros (Ha & Hk & _). unfold follow_router. erewrite bind_done by (by apply on_app_run). erewrite bind_done by reflexivity. cbn [fst snd id].
  by rewrite Ha, Hk.
Qed.
Lemma state_online tick a v k h : online a k -> aws_state_step tick (a, v, k, h) = Done tt (a, v, k, h).
Proof. intros (_ & Hk & _). unfold aws_state_step. erewrite bind_done by reflexivity. cbn [fst snd id]. by rewrite Hk. Qed.
Definition ticked k : aws H := aws_set_count (if 100 <=? count k then 0 else u16 (count k + 1)) k.
Lemma poll_quiet a v k h : online a k -> yields k = [] -> poll_cloud (a, v, k, h) = Done tt (a, v, ticked k, h).
Proof.
  intros (_ & Hk & _) Hy. unfold poll_cloud. erewrite bind_done by reflexivity. cbn [fst snd id]. rewrite Hk, bool_decide_true by done.
  cbn [when]. unfold aws_iot_mqtt_yield. rewrite bind_assoc. erewrite bind_done by reflexivity. cbn [fst snd id]. rewrite Hy.
  by erewrite bind_done by reflexivity.
Qed.
(** The turn as the sending of one queued message. *)
Lemma turn_quiet tick a v k h : online a k -> yields k = [] ->
  ya_aws_cloud_app_turn tick (a, v, k, h) = send_queued (a, v, ticked k, h).
Proof.
  intros Ho Hy. unfold ya_aws_cloud_app_turn. erewrite bind_done by (by apply follow_online). erewrite bind_done by (by apply state_online).
  by erewrite bind_done by (by apply poll_quiet).
Qed.

(** ** Reports leave in order *)
(** The abstract contract: a bounded queue of texts, and what has been sent. *)
Record fifo := mkFifo { waiting : list bytes; sent : list bytes }.
Inductive uplink := Report (text : bytes) | Turn (tick : Z).
Definition fifo_step (q : fifo) (o : uplink) : fifo :=
  match o with
  | Report d => if bool_decide (length (waiting q) < MSG_QUEUE_LENGTH)%nat then mkFifo (waiting q ++ [d]) (sent q) else q
  | Turn _ => match waiting q with [] => q | d :: w => mkFifo w (sent q ++ [d]) end
  end.
(** A task's report ([cloud_report_msg(data, strlen(data))]) or a turn. *)
Definition run_uplink (o : uplink) : PK unit :=
  match o with
  | Report d => ya_report_msg_to_aws_cloud (d ++ [0]) (u16 (len d)) ;; ret tt
  | Turn tick => ya_aws_cloud_app_turn tick
  end.
Definition report_msg (d : bytes) : msg := mkMsg (u16 (len d + 1)) (Some (d ++ [0])) AWS_REPORT.
Definition published (t c d : bytes) : event := EvMqtt "publish" [update_topic t c; d].
Definition reportable (o : uplink) : Prop := match o with Report d => no_nul d /\ len d < 65536 | Turn _ => True end.
(** The machine holds the abstract queue: its messages, and on top of the trace
    [tr] what was sent; every waiting text is one block above [base]. *)
Record carries (t c : bytes) (tr : list event) (base : Z) (others : qid -> list msg) (q : fifo) h : Prop := {
  ca_queue : queues h QAws = report_msg <$> waiting q;
  ca_text : Forall no_nul (waiting q);
  ca_trace : trace h = rev (published t c <$> sent q) ++ tr;
  ca_live : live h = base + Z.of_nat (length (waiting q));
  ca_heap : heap h = [];
  ca_other : forall i, i <> QAws -> queues h i = others i;
}.
Lemma report_carried t c tr base others q d a v k h : carries t c tr base others q h -> reportable (Report d) ->
  exists h', run_uplink (Report d) (a, v, k, h) = Done tt (a, v, k, h') /\ carries t c tr base others (fifo_step q (Report d)) h'.
Proof.
  intros [Hq Hz Ht Hl Hh Ho] [Hd Hld]. pose proof (len_nonneg d). cbn [run_uplink fifo_step]. rewrite u16_small by (unfold is_u16; lia).
  assert (Hroom : has_room h QAws = bool_decide (length (waiting q) < MSG_QUEUE_LENGTH)%nat)
    by (unfold has_room; apply bool_decide_ext; by rewrite Hq, length_fmap).
  unfold ya_report_msg_to_aws_cloud. unfold bind at 1.
  rewrite queue_copy_run by (try done; rewrite len_app; change (len [0]) with 1; lia). change msg_queue with QAws. rewrite Hroom.
  destruct (bool_decide _); [|by exists h].
  rewrite slice_app_l by done. eexists. split; [reflexivity|]. split; cbn [queues set_queue set_heap waiting sent heap live trace]; try done.
  - rewrite bool_decide_true, fmap_app by done. by rewrite Hq.
  - apply Forall_app. by split; [|constructor].
  - rewrite Hl, length_app. cbn. lia.
  - intros i Hi. rewrite bool_decide_false by done. by apply Ho.
Qed.
Lemma turn_carried t c tr base others q tick a v k h : device a t c -> online a k -> calm k -> carries t c tr base others q h ->
  exists k' h', ya_aws_cloud_app_turn tick (a, v, k, h) = Done tt (a, v, k', h') /\ online a k' /\ calm k' /\
    carries t c tr base others (fifo_step q (Turn tick)) h'.
Proof.
  intros Hd Ho [Hc Hy] [Hq Hz Ht Hl Hh Hoth]. rewrite turn_quiet by done. destruct q as [w snt]. cbn [fifo_step waiting sent] in *.
  unfold send_queued, ya_hal_os_queue_recv. unfold bind at 1. rewrite Hq. destruct w as [|d w]; cbn [fmap list_fmap].
  { exists (ticked k), h. split_and!; done. }
  cbn [m_addr report_msg m_type]. apply Forall_cons in Hz as [Hdz Hz]. set (h1 := set_queue QAws _ h).
  assert (E : ya_aws_report (d ++ [0]) (a, v, ticked k, h1) = _) by (by apply (ya_aws_report_run _ _ _ _ _ t c)).
  cbn [ticked aws_set_count calls] in E. rewrite Hc in E.
  rewrite bind_assoc. erewrite bind_done by reflexivity. cbn [fst snd ticked aws_set_count ya_cloud_connected].
  destruct Ho as (Ha & Hs & Hcon). rewrite Hcon. cbn [Z.eqb negb when]. change (AWS_REPORT =? YA_PUBLISH_RESPONSE) with false.
  change (AWS_REPORT =? AWS_REPORT) with true. cbn beta iota. cbn [deref]. rewrite !bind_assoc. erewrite bind_done by reflexivity. rewrite bind_assoc.
  erewrite bind_done by exact E. erewrite bind_done by reflexivity.
  eexists _, _. split; [reflexivity|]. split; [done|]. split; [done|].
  rewrite cstr_app_nul by done. split; cbn [queues set_queue set_heap waiting sent heap live trace log h1]; try done.
  - rewrite Ht. rewrite fmap_app, rev_app_distr. done.
  - rewrite Hl. cbn [length]. lia.
  - intros i Hi. rewrite bool_decide_false by done. by apply Hoth.
Qed.
Lemma uplinks_carried t c tr base others ops : forall q a v k h, device a t c -> online a k -> calm k -> carries t c tr base others q h ->
  Forall reportable ops ->
  exists k' h', for_each ops run_uplink (a, v, k, h) = Done tt (a, v, k', h') /\ online a k' /\ calm k' /\
    carries t c tr base others (foldl fifo_step q ops) h'.
Proof.
  induction ops as [|o ops IH]; intros q a v k h Hd Ho Hc Hs Hr; [by exists k, h|]. apply Forall_cons in Hr as [Hr Hrs].
  cbn [for_each foldl]. destruct o as [d|tick].
  - destruct (report_carried t c tr base others q d a v k h Hs Hr) as (h1 & E1 & Hs1). erewrite bind_done by exact E1. by apply IH.
  - destruct (turn_carried t c tr base others q tick a v k h Hd Ho Hc Hs) as (k1 & h1 & E1 & Ho1 & Hc1 & Hs1).
    erewrite bind_done by exact E1. by apply IH.
Qed.

(** ** Commands from the cloud *)
Lemma put_into_queue_run {S} type data n (s : S) h : heap h = [] -> 0 <= n <= len data -> has_room h QHardware = true ->
  put_into_queue type data n (s, h) = Done tt (s, set_queue QHardware
    (queues h QHardware ++ [mkMsg (u16 (n + 1)) (Some (slice data 0 n ++ [0])) type]) (set_heap [] (live h + 1) h)).
Proof.
  intros Hh Hn Hr. unfold put_into_queue. erewrite bind_done by (apply spare_alloc; [done|lia]). cbn beta iota.
  erewrite bind_done by (apply memset_block; [by rewrite len_block by lia|lia]).
  erewrite bind_done by (apply rdn_ok; lia). assert (Hs : len (slice data 0 n) = n) by (apply len_slice; lia).
  rewrite <- (app_nil_l (zeros (n + 1))). erewrite bind_done by (apply memcpy_zeros; [done|lia]). cbn [List.app].
  rewrite Hs. replace (n + 1 - n) with 1 by lia. change (zeros 1) with [0].
  unfold ya_hal_os_queue_send. unfold bind at 1. cbn [queues set_heap]. unfold has_room in Hr. by rewrite Hr.
Qed.
Lemma strstr_len p s r : OtaHttp.strstr p s = Some r -> len r <= len s.
Proof.
  induction s as [|x s IH]; cbn [OtaHttp.strstr].
  - destruct (prefix_of_b p []); [by intros [= <-]|done].
  - destruct (prefix_of_b p (x :: s)); [by intros [= <-]|]. intros E%IH. rewrite len_cons. lia.
Qed.
(** A command: the topic ends in the message id, and the payload, terminated in
    the receive buffer, is a document with a method. *)
Record command (topic payload : bytes) (n : Z) (id text method : bytes) (doc : cJSON) : Prop := {
  co_topic : no_nul topic /\ len topic < 65536;
  co_id : OtaHttp.strstr (str "/request/") topic = Some (str "/request/" ++ id);
  co_id_len : 0 < len id;
  co_room : 0 <= n < len payload /\ n < 65536;
  co_text : slice payload 0 n = text /\ no_nul text;
  co_doc : cJSON_Parse text = Some doc;
  co_method : exists m s, cJSON_GetObjectItem doc (str "method") = Some m /\ valuestring m = Some s /\ cstr s = method;
}.
(** The event a method stands for. *)
Definition event_of (method : bytes) : option Z :=
  if strstr method (str "set") then Some CLOUD_SET_EVENT
  else if strstr method (str "upgrade") then Some CLOUD_UPGRADE_EVENT else None.
Lemma transfer_run topic payload n id text method doc ev a v k h a' v' h' :
  command topic payload n id text method doc -> event_of method = Some ev -> heap h = [] ->
  trigger_event_listener ev (<[Z.to_nat n := 0]> payload) n (a, v, k, set_heap (heap h) (live h + 1) h) = Done 0 (a', v', k, h') ->
  ya_aws_subscribe_event_transfer (<[Z.to_nat n := 0]> payload) n (a, v, k, h) = Done 0 (a', v', k, set_heap (heap h') (live h' - 1) h').
Proof.
  intros [_ _ _ [Hn Hn'] [Ht Hz] Hdoc (m & s & Hm & Hs & Hc)] Hev Hh Htr. unfold ya_aws_subscribe_event_transfer, subscribe_event_transfer.
  assert (Hcs : cstr (<[Z.to_nat n := 0]> payload) = text).
  { rewrite insert_take_drop by (unfold len in *; lia). rewrite cstr_app_nul; [exact Ht|].
    change (no_nul (slice payload 0 n)). by rewrite Ht. }
  rewrite (parse_some _ doc) by (by rewrite Hcs). erewrite bind_done by (by apply take_spare). cbn beta iota. rewrite Hm. cbn beta iota. rewrite Hs.
  cbn [deref]. erewrite bind_done by reflexivity. rewrite Hc.
  unfold event_of in Hev. destruct (strstr method (str "set")); [injection Hev as <-; by erewrite bind_done by exact Htr|].
  destruct (strstr method (str "upgrade")); [injection Hev as <-; by erewrite bind_done by exact Htr|done].
Qed.
Definition response_msg (id : bytes) : msg := mkMsg (u16 (len id + 1)) (Some (id ++ [0])) YA_PUBLISH_RESPONSE.
(** The callback on a command: its id is queued for the answer, then the event's
    listeners run on the terminated payload. *)
Lemma command_run topic payload n id text method doc ev a v k h a' v' h' :
  command topic payload n id text method doc -> event_of method = Some ev -> heap h = [] -> has_room h QAws = true ->
  trigger_event_listener ev (<[Z.to_nat n := 0]> payload) n
    (a, v, k, set_queue QAws (queues h QAws ++ [response_msg id]) (set_heap [] (live h + 3) h)) = Done 0 (a', v', k, h') ->
  ya_subscribe_callback_handler topic payload n (a, v, k, h) = Done tt (a', v', k, set_heap (heap h') (live h' - 2) h').
Proof.
  intros Hco Hev Hh Hr Htr. pose proof Hco as [[Hzt Hlt] Hid Hil [Hn Hn'] _ _ _]. pose proof (len_nonneg topic).
  assert (Hlid : len id < 65536).
  { apply strstr_len in Hid. rewrite len_app in Hid. change (len (str "/request/")) with 9 in Hid. lia. }
  unfold ya_subscribe_callback_handler. erewrite bind_done by (apply spare_alloc; [done|lia]). cbn [deref]. erewrite bind_done by reflexivity.
  erewrite bind_done by (apply memset_block; [by rewrite len_block by lia|lia]).
  rewrite <- (app_nil_l (zeros _)). erewrite bind_done by (apply memcpy_zeros; [done|lia]). cbn [List.app].
  erewrite bind_done by (by apply wr_ok). rewrite cstr_zeros by (done || lia). rewrite Hid. change (u8 0) with 0.
  change (drop 9 (str "/request/" ++ id)) with id. rewrite !u16_small by (unfold is_u16; lia). destruct (Z.eqb_spec (len id) 0); [lia|].
  unfold bind at 1. rewrite queue_copy_run by (done || lia). change msg_queue with QAws. change (has_room (set_heap _ _ h) QAws) with (has_room h QAws).
  rewrite Hr. cbn [Z.eqb negb]. rewrite slice_full by done.
  erewrite bind_done by (eapply transfer_run; [exact Hco|exact Hev|done|]; rewrite <- Htr; do 2 f_equal; cbn [live heap set_queue set_heap];
    unfold set_queue, set_heap; cbn; f_equal; lia).
  unfold ya_hal_os_memory_free, upd_hw. do 2 f_equal. unfold set_heap. cbn. f_equal. lia.
Qed.
Lemma poll_run ds ys a v k h a' v' k1 h1 : online a k -> yields k = (ds, 0) :: ys ->
  for_each ds deliver (a, v, aws_set_yields ys k, h) = Done tt (a', v', k1, h1) -> poll_cloud (a, v, k, h) = Done tt (a', v', ticked k1, h1).
Proof.
  intros (_ & Hk & _) Hy Hd. unfold poll_cloud. erewrite bind_done by reflexivity. cbn [fst snd id]. rewrite Hk, bool_decide_true by done.
  cbn [when]. unfold aws_iot_mqtt_yield. rewrite bind_assoc. erewrite bind_done by reflexivity. cbn [fst snd id]. rewrite Hy.
  rewrite !bind_assoc. erewrite bind_done by reflexivity. cbn [fst snd]. rewrite bind_assoc. by erewrite bind_done by exact Hd.
Qed.
(** The answer leaves with the same turn when nothing is queued before it. *)
Lemma send_answer id raw a v k h t c : device a t c -> ya_cloud_connected k = 1 -> calls k = [] -> heap h = [] -> no_nul id -> len id < 65536 ->
  queues h QAws = [response_msg id] -> cJSON_PrintUnformatted ack_document = Some raw ->
  send_queued (a, v, k, h) = Done tt (a, v, aws_set_calls [] k,
    set_heap [] (live h - 1) (log (EvMqtt "publish" [response_topic t c ++ id; cstr raw]) (set_queue QAws [] h))).
Proof.
  intros Hd Hcon Hc Hh Hz Hl Hq Hp. unfold send_queued, ya_hal_os_queue_recv. unfold bind at 1. rewrite Hq. cbn [m_addr response_msg m_type].
  set (h1 := set_queue QAws [] h).
  assert (E : ya_aws_gen_ack_publish_and_send (id ++ [0]) (a, v, k, h1) = _)
    by (apply (ack_run _ raw _ _ _ _ t c); try done; by rewrite cstr_app_nul).
  rewrite Hc, cstr_app_nul in E by done. rewrite bind_assoc. erewrite bind_done by reflexivity. cbn [fst snd]. rewrite Hcon.
  cbn [Z.eqb negb when]. change (YA_PUBLISH_RESPONSE =? YA_PUBLISH_RESPONSE) with true. cbn beta iota. cbn [deref]. rewrite !bind_assoc.
  erewrite bind_done by reflexivity. rewrite bind_assoc. erewrite bind_done by exact E. erewrite bind_done by reflexivity.
  cbn [free_if]. unfold ya_hal_os_memory_free, upd_hw. cbn [heap live log]. unfold h1. cbn. by rewrite Hh.
Qed.
(** C9: A command from the cloud reaches the hardware task and is answered.  Let
    the task be online with its own queue empty, memory to spare, the hardware
    task's callback the one listener for commands and room in its queue, and let
    the library answer its calls with success.  Then a message delivered on a
    request topic, whose document's method contains ["set"], is in the same turn
    copied as it is, terminated, to the end of the hardware task's queue, and
    acknowledged on the response topic with the id at the end of the request
    topic; apart from the copy no memory is kept, and no other queue, nor the
    flash, is changed. *)
Theorem aws_set_delivered x topic payload n id text method doc raw tick a v k h t c :
  device a t c -> online a k -> calls k = [] -> yields k = [([Message topic payload n], 0)] ->
  command topic payload n id text method doc -> strstr method (str "set") = true -> no_nul id ->
  ya_cloud_event_handler <$> of_event CLOUD_SET_EVENT (aws_listeners k) = [x] ->
  (forall data m s, callback x data m s = ya_put_cloud_data_into_queue data m s) ->
  heap h = [] -> queues h QAws = [] -> has_room h QHardware = true -> cJSON_PrintUnformatted ack_document = Some raw ->
  exists k' h', ya_aws_cloud_app_turn tick (a, v, k, h) = Done tt (a, v, k', h') /\ online a k' /\ calm k' /\
    queues h' QHardware = queues h QHardware ++ [mkMsg (u16 (n + 1)) (Some (text ++ [0])) YA_HARDWARE_HANDLE_CLOUD_DATA] /\
    (forall q, q <> QHardware -> queues h' q = queues h q) /\
    trace h' = EvMqtt "publish" [response_topic t c ++ id; cstr raw] :: trace h /\ live h' = live h + 1 /\ heap h' = [] /\ chip h' = chip h.
Proof.
  intros Hd Ho Hc Hy Hco Hm Hzi Hx Hcb Hh Hq Hr Hp. pose proof Hco as [[Hzt Hlt] Hid Hil [Hn Hn'] [Htx _] _ _].
  assert (Hlid : len id < 65536).
  { apply strstr_len in Hid. rewrite len_app in Hid. change (len (str "/request/")) with 9 in Hid. lia. }
  unfold ya_aws_cloud_app_turn. erewrite bind_done by (by apply follow_online). erewrite bind_done by (by apply state_online).
  set (k0 := aws_set_yields [] k). set (hq := set_queue QAws [response_msg id] (set_heap [] (live h + 3) h)).
  assert (Htr : trigger_event_listener CLOUD_SET_EVENT (<[Z.to_nat n := 0]> payload) n (a, v, k0, hq) =
    Done 0 (a, v, k0, set_queue QHardware (queues h QHardware ++ [mkMsg (u16 (n + 1)) (Some (text ++ [0])) YA_HARDWARE_HANDLE_CLOUD_DATA])
      (set_heap [] (live h + 4) hq))).
  { rewrite trigger_run. change (callback_list k0) with (aws_listeners k). rewrite Hx. cbn [for_each].
    rewrite !bind_assoc. erewrite bind_done.
    2:{ unfold on_rest, zoom_s, zoom. cbn [fst snd]. rewrite Hcb. unfold ya_put_cloud_data_into_queue.
        rewrite put_into_queue_run by (try done; rewrite len_insert; lia). reflexivity. }
    erewrite bind_done by reflexivity. cbn [fst snd]. unfold ret.
    replace (live hq + 1) with (live h + 4) by (cbn; lia).
    replace (slice (<[Z.to_nat n := 0]> payload) 0 n) with text; [done|]. rewrite <- Htx. unfold slice. cbn [Z.to_nat]. rewrite !drop_0.
    symmetry. by apply take_insert_ge. }
  erewrite bind_done.
  2:{ eapply poll_run; [done|exact Hy|]. cbn [for_each deliver]. erewrite bind_done by (eapply command_run; [exact Hco| |done|by unfold has_room; rewrite Hq| ];
        [unfold event_of; by rewrite Hm|rewrite Hq; exact Htr]). reflexivity. }
  eexists _, _. split; [apply (send_answer id raw _ _ _ _ t c); try done; exact (proj2 (proj2 Ho))|]. split; [done|]. split; [done|].
  cbn [queues trace live chip heap set_queue set_heap log hq]. split_and!; try done; [|lia].
  intros q Hne. rewrite !(bool_decide_false (q = QHardware)) by done. destruct (decide (q = QAws)) as [->|Hne'].
  - by rewrite bool_decide_true.
  - by rewrite bool_decide_false.
Qed.
End Aws.

(** C8: Reports to the AWS cloud refine a bounded queue.  Interleave at will
    reports of the other tasks and turns of the cloud task, while the session
    stands: the task publishes, on the device's update topic, exactly the texts
    of the abstract queue of 16, in the order reported and each once; what the
    full queue refuses is dropped whole; every waiting text costs one block of
    memory, given back when it is sent, and nothing else of the machine moves. *)
Theorem aws_uplink_refines {C H V} `{Callbacks C H V} `{JsonText} `{AtEnv}
    (ops : list uplink) (t c : bytes) (a : app) (v : V) (k : aws H) (h : hw C) :
  device a t c -> online a k -> calm k -> Forall reportable ops -> heap h = [] -> queues h QAws = [] ->
  exists k' h', for_each ops run_uplink (a, v, k, h) = Done tt (a, v, k', h') /\ online a k' /\
    carries t c (trace h) (live h) (queues h) (foldl fifo_step (mkFifo [] []) ops) h'.
Proof.
  intros Hd Ho Hc Hr Hh Hq.
  assert (Hs : carries t c (trace h) (live h) (queues h) (mkFifo [] []) h) by (split; try done; cbn; lia).
  destruct (uplinks_carried t c (trace h) (live h) (queues h) ops (mkFifo [] []) a v k h) as (k' & h' & E & Ho' & _ & Hs'); [done..|].
  by exists k', h'.
Qed.

(** ** Witnesses *)
Definition aws_app : app :=
  set_state YA_APP_CONNECTED (set_conn (Some WIFI_US) (set_lic
    (mkLic (Some (str "cert" ++ [0])) (Some (str "key" ++ [0])) (Some (str "c1" ++ [0])) (Some (str "t1" ++ [0])) None None None)
    (set_para (mkPara AKEETA_OVERSEA SNIFFER_MODE 60000 60000 (str "1.0.1" ++ [0]) (zeros 65) false false false false true) sample_app))).
Definition aws_online : aws unit :=
  mkAws [mkListener (str "hw" ++ [0]) CLOUD_SET_EVENT tt] AWS_CONNECTED_CLOUD 1 (Some (str "/t1/rrpc/c1/request/+" ++ [0])) WIFI_US
    ya_init_timer 0 [] [].
#[export] Instance hardware_callbacks : Callbacks ideal unit unit := {| callback _ := ya_put_cloud_data_into_queue |}.
Definition set_document : cJSON := jroot [jstr "method" "thing.service.device.property.set"].
#[export] Instance aws_text : JsonText :=
  json_of (fun s => if bool_decide (s = str "{}") then Some set_document else None) (fun _ => Some (str "ok")).
Lemma aws_device : device aws_app (str "t1") (str "c1").
Proof. split; [by exists WIFI_US|]. split; [by eexists|]. split; [by eexists|]. by vm_compute. Qed.

Lemma aws_uplink_refines_witness :
  exists k' h', for_each [Report (str "a"); Report (str "b"); Turn 0; Turn 1] run_uplink (aws_app, tt, aws_online, boot) = Done tt (aws_app, tt, k', h') /\
    trace h' = [published (str "t1") (str "c1") (str "b"); published (str "t1") (str "c1") (str "a")] /\ queues h' QAws = [].
Proof.
  destruct (aws_uplink_refines [Report (str "a"); Report (str "b"); Turn 0; Turn 1] (str "t1") (str "c1") aws_app tt aws_online boot)
    as (k' & h' & E & _ & [Hq _ Ht _ _ _]); [apply aws_device|done|done|repeat constructor; evaluate|done|done|].
  exists k', h'. split; [exact E|]. split; [exact Ht|exact Hq].
Defined.
Lemma aws_set_delivered_witness :
  exists k' h', ya_aws_cloud_app_turn 7 (aws_app, tt, aws_set_yields [([Message (str "/t1/rrpc/c1/request/42") (str "{}" ++ [9]) 2], 0)] aws_online, boot)
      = Done tt (aws_app, tt, k', h') /\
    queues h' QHardware = [mkMsg 3 (Some (str "{}" ++ [0])) YA_HARDWARE_HANDLE_CLOUD_DATA] /\
    trace h' = [EvMqtt "publish" [str "/t1/rrpc/c1/response/42"; str "ok"]].
Proof.
  destruct (aws_set_delivered tt (str "/t1/rrpc/c1/request/42") (str "{}" ++ [9]) 2 (str "42") (str "{}") (str "thing.service.device.property.set")
    set_document (str "ok") 7 aws_app tt (aws_set_yields [([Message (str "/t1/rrpc/c1/request/42") (str "{}" ++ [9]) 2], 0)] aws_online) boot
    (str "t1") (str "c1")) as (k' & h' & E & _ & _ & Hq & _ & Ht & _); try done; [apply aws_device| |evaluate|].
  - split; try done; try evaluate. by do 2 eexists.
  - exists k', h'. split; [exact E|]. split; [exact Hq|exact Ht].
Defined.
Lemma listeners_dispatched_witness :
  exists k' h', for_each [(str "hw", CLOUD_SET_EVENT, tt); (str "ota", CLOUD_SET_EVENT, tt); (str "hw", CLOUD_SET_EVENT, tt)] register
      (aws_app, tt, aws_set_listeners [] aws_online, boot) = Done tt (aws_app, tt, k', h') /\
    trigger_event_listener CLOUD_SET_EVENT (str "{}" ++ [0]) 2 (aws_app, tt, k', boot) =
      (for_each [tt; tt] (fun x => on_rest (callback x (str "{}" ++ [0]) 2)) ;; ret 0) (aws_app, tt, k', boot).
Proof.
  destruct (listeners_dispatched [(str "hw", CLOUD_SET_EVENT, tt); (str "ota", CLOUD_SET_EVENT, tt); (str "hw", CLOUD_SET_EVENT, tt)]
    (aws_app, tt) (aws_set_listeners [] aws_online) boot) as (k' & h' & E & _ & _ & Ht); [done|done|].
  exists k', h'. split; [exact E|]. exact (Ht CLOUD_SET_EVENT (str "{}" ++ [0]) 2 (aws_app, tt) boot).
Defined.

(** ** What goes wrong *)
Section Defects.
Context {C H V : Type} `{Callbacks C H V} `{JsonText} `{AtEnv}.
Implicit Types (a : app) (v : V) (k : aws H) (h : hw C).
(** A listener is never removed: a registered one is refused like an unknown
    one, and an empty chain is dereferenced. *)
Theorem listener_never_removed name event a v k h :
  ya_remove_aws_cloud_event_listener (Some name) event (a, v, k, h) =
    match aws_listeners k with [] => Fault NullDeref | _ => Done (-1) (a, v, k, h) end.
Proof.
  unfold ya_remove_aws_cloud_event_listener, remove_event_listener. erewrite bind_done by reflexivity. cbn [fst snd callback_list aws_module].
  destruct (aws_listeners k) as [|y l]; [done|]. by destruct (existsb _ _).
Qed.
(** A payload that fills the receive buffer has its terminator written behind it. *)
Theorem full_payload_overflows topic payload a v k h : heap h = [] ->
  ya_subscribe_callback_handler topic payload (len payload) (a, v, k, h) = Fault OutOfBounds.
Proof.
  intros Hh. pose proof (len_nonneg topic). unfold ya_subscribe_callback_handler. erewrite bind_done by (apply spare_alloc; [done|lia]). cbn [deref].
  erewrite bind_done by reflexivity. erewrite bind_done by (apply memset_block; [by rewrite len_block by lia|lia]).
  rewrite <- (app_nil_l (zeros _)). erewrite bind_done by (apply memcpy_zeros; [done|lia]).
  unfold bind at 1, wr. destruct (Z.ltb_spec (len payload) (len payload)); [lia|]. by rewrite andb_false_r.
Qed.
(** A document whose method is not a string crashes the device. *)
Theorem numeric_method_crashes buf n doc m a v k h : cJSON_Parse (cstr buf) = Some doc -> cJSON_GetObjectItem doc (str "method") = Some m ->
  valuestring m = None -> heap h = [] -> ya_aws_subscribe_event_transfer buf n (a, v, k, h) = Fault NullDeref.
Proof.
  intros Hp Hm Hs Hh. unfold ya_aws_subscribe_event_transfer, subscribe_event_transfer. rewrite (parse_some _ _ Hp).
  erewrite bind_done by (by apply take_spare). cbn beta iota. rewrite Hm. cbn beta iota. by rewrite Hs.
Qed.
(** A report without memory writes through NULL. *)
Theorem report_without_memory data n a v k h hp : heap h = false :: hp -> 0 <= n -> ya_report_msg_to_aws_cloud data n (a, v, k, h) = Fault NullDeref.
Proof.
  intros Hh Hn. unfold ya_report_msg_to_aws_cloud, queue_copy. unfold bind at 1, ya_hal_os_memory_alloc. rewrite Hh.
  by destruct (Z.eqb_spec (n + 1) 0); [lia|].
Qed.
(** Losing the router while online closes the session, but tells no listener. *)
Theorem router_loss_untold a v k h : ya_app_state a <> YA_APP_CONNECTED -> online (set_state YA_APP_CONNECTED a) k -> calls k = [] ->
  follow_router (a, v, k, h) = Done tt (a, v, aws_set_state AWS_CLOUD_INIT (aws_set_connected 0 (aws_set_calls [] k)),
    foldr log h [EvMqtt "free" []; EvMqtt "disconnect" []]).
Proof.
  intros Ha (_ & Hk & _) Hc. unfold follow_router. erewrite bind_done by (by apply on_app_run). erewrite bind_done by reflexivity. cbn [fst snd id].
  rewrite Hk, (bool_decide_false (ya_app_state a = _)) by done. cbn [andb]. rewrite bool_decide_true by done. cbn [andb].
  rewrite bool_decide_true by done. erewrite bind_done by apply mqtt_run. erewrite bind_done by apply mqtt_run. rewrite Hc. cbn [calls aws_set_calls tail].
  by erewrite bind_done by reflexivity.
Qed.
End Defects.
