(* ===== verification/AwsSafety.v ===== *)
(** * The AWS task never goes wrong

    Every turn of the task ends without a fault, and its calls of the MQTT
    library keep to the order the library asks for, whatever it answers and
    delivers, provided memory suffices and the callbacks keep their contract. *)

From stdpp Require Import base numbers list strings.
From S2P Require Import OtaHttp Prelude Platform CommonFunc HalTimer CJson DeviceTimer License Cloud Hardware UserData AppMain UserDataProofs AtCmd AtProofs Console CloudEvents AwsCloud CloudProofs AwsProofs.

(** ** The session as the library sees it *)
(** A client is initialised, connected, subscribed, and freed. *)
Inductive phase := Freed | Ready | Linked | Subscribed.
#[export] Instance phase_dec : EqDecision phase.
Proof. solve_decision. Defined.
(** The calls allowed in a phase; closing and freeing always are. *)
Definition phase_step (call : string) (p : phase) : option phase :=
  if bool_decide (call = "free") then Some Freed
  else if bool_decide (call = "disconnect") then Some p
  else match p with
       | Freed => if bool_decide (call = "init") then Some Ready else None
       | Ready => if bool_decide (call = "connect") then Some Linked else None
       | Linked => if bool_decide (call = "autoreconnect") then Some Linked
                   else if bool_decide (call = "subscribe") then Some Subscribed else None
       | Subscribed => if bool_decide (call = "publish") then Some Subscribed else None
       end.
Definition mqtt_call (e : event) : option string := match e with EvMqtt call _ => Some call | _ => None end.
Definition mqtt_calls (tr : list event) : list string := omap mqtt_call tr.
(** The phase after a trace (the last call is first), [None] after a call out of
    order. *)
Definition session (tr : list event) : option phase := foldr (fun call p => p ≫= phase_step call) (Some Freed) (mqtt_calls tr).

(** What the library may deliver: a payload that leaves room for its
    terminator, on which the JSON parser does not overrun, and whose method, if
    the document has one, is a string. *)
Definition friendly `{JsonText} (d : delivery) : Prop :=
  match d with
  | Disconnected => True
  | Message topic payload n => len topic < 65536 /\ 0 <= n < len payload /\ n < 65536 /\
      overruns (cstr (<[Z.to_nat n := 0]> payload)) = false /\
      forall doc m, cJSON_Parse (cstr (<[Z.to_nat n := 0]> payload)) = Some doc ->
        cJSON_GetObjectItem doc (str "method") = Some m -> is_Some (valuestring m)
  end.
(** The application's texts fit the arrays they are copied to; [ast] is the state
    of the router's connection, [l] the licence. *)
Definition texts_ok (ast : ya_app_status_t) (l : lic) (a : app) : Prop :=
  (0 ∈ cur_version (para a) /\ len (cstr (cur_version (para a))) < 65) /\
  (0 ∈ mcu_version (para a) /\ len (cstr (mcu_version (para a))) < 65) /\
  len (config_random_num a) = 33 /\ 0 ∈ config_random_num a /\ ya_app_state a = ast /\ a_lic a = l.
Definition msg_ok (m : msg) : Prop := exists b, m_addr m = Some b /\ len (cstr b) < 65536.
Definition base {C} (t c : bytes) (ast : ya_app_status_t) (l : lic) (a : app) (h : hw C) : Prop :=
  device a t c /\ texts_ok ast l a /\ heap h = [] /\ Forall msg_ok (queues h QAws).

(** The contract of the callbacks: they return, keep what the task relies on,
    and leave the MQTT library alone. *)
Class SafeCallbacks (C H V : Type) `{Callbacks C H V} (t c : bytes) := {
  callback_safe : forall x data n ast l a v h, base t c ast l a h -> 0 <= n <= len data ->
    wp (callback x data n) (fun _ s => base t c ast l s.1.1 s.2 /\ mqtt_calls (trace s.2) = mqtt_calls (trace h)) (fun _ => False) (a, v, h);
}.

Section Safety.
Context {C H V : Type} {t c : bytes} `{Hcb : SafeCallbacks C H V t c} `{JsonText} `{AtEnv}.
Context (ast : ya_app_status_t) (lc : lic) (Hack : is_Some (cJSON_PrintUnformatted ack_document)).
Implicit Types (a : app) (v : V) (k : aws H) (h : hw C) (s : app * V * aws H * hw C).
Abbreviation PK := (P C (app * V * aws H)).

Record inv (k0 : aws H) (p : phase) s : Prop := {
  i_base : base t c ast lc s.1.1.1 s.2;
  i_module : s.1.2 = k0;
  i_session : session (trace s.2) = Some p;
}.
(** What the module needs to run. *)
Definition good k : Prop := is_Some (subscribe_topic k) /\ Forall (fun y => Forall friendly y.1) (yields k).
(** A computation that changes none of it. *)
Definition neutral {A} (m : PK A) : Prop := forall k0 p s, inv k0 p s -> wp m (fun _ s' => inv k0 p s') (fun _ => False) s.
Lemma neutral_ret {A} (x : A) : neutral (ret x).
Proof. by intros k0 p s Hi. Qed.
Lemma neutral_bind {A B} (m : PK A) (f : A -> PK B) : neutral m -> (forall x, neutral (f x)) -> neutral (bind m f).
Proof. intros Hm Hf k0 p s Hi. apply wp_bind. eapply wp_mono; [by apply Hm| |done]. intros x s' Hi'. by apply Hf. Qed.
(** The same, with what is known of the result. *)
Definition gives {A} (Px : A -> Prop) (m : PK A) : Prop :=
  forall k0 p s, inv k0 p s -> wp m (fun x s' => Px x /\ inv k0 p s') (fun _ => False) s.
Lemma neutral_then {A B} (Px : A -> Prop) (m : PK A) (f : A -> PK B) : gives Px m -> (forall x, Px x -> neutral (f x)) -> neutral (bind m f).
Proof. intros Hm Hf k0 p s Hi. apply wp_bind. eapply wp_mono; [by apply Hm| |done]. intros x s' [Hx Hi']. by apply Hf. Qed.
Lemma gives_ret {A} (Px : A -> Prop) x : Px x -> gives Px (ret x).
Proof. by intros Hx k0 p s Hi. Qed.
Lemma neutral_for_each {A} (l : list A) (f : A -> PK unit) : (forall x, neutral (f x)) -> neutral (for_each l f).
Proof. intros Hf. induction l as [|x l IH]; [apply neutral_ret|]. cbn. by apply neutral_bind. Qed.
Lemma neutral_when b (m : PK unit) : neutral m -> neutral (when b m).
Proof. destruct b; [done|]. intros _. apply neutral_ret. Qed.
Lemma neutral_mgets {A} (f : aws H -> A) : neutral (mgets f).
Proof. by intros k0 p [[[a v] k] h] Hi. Qed.
(** A step that only moves heap blocks. *)
Lemma inv_live k0 p a v k h n : inv k0 p (a, v, k, h) -> inv k0 p (a, v, k, set_heap (heap h) n h).
Proof. intros []. by split. Qed.
Lemma inv_spare k0 p a v k h n : inv k0 p (a, v, k, h) -> inv k0 p (a, v, k, set_heap [] n h).
Proof. intros Hi. pose proof (i_base _ _ _ Hi) as (_ & _ & Hh & _). rewrite <- Hh. by apply inv_live. Qed.
Lemma neutral_free : neutral ya_hal_os_memory_free.
Proof. intros k0 p [[[a v] k] h] Hi. by apply inv_live. Qed.
Lemma gives_json {A} (o : option A) : gives (fun x => x = o) (json_take o).
Proof.
  intros k0 p [[[a v] k] h] Hi. destruct o; [|done]. eapply wp_done; [apply take_spare; apply (i_base _ _ _ Hi)|]. split; [done|]. by apply inv_live.
Qed.
Lemma gives_document j : printable j = true -> gives (fun x => x = cstr <$> cJSON_PrintUnformatted j) (json_document j).
Proof.
  intros Hp k0 p [[[a v] k] h] Hi. unfold wp. rewrite document_spare; [|apply (i_base _ _ _ Hi)|done]. by apply gives_json.
Qed.
Lemma gives_alloc n : 0 < n -> gives (fun o => exists b, o = Some b /\ len b = n) (ya_hal_os_memory_alloc n).
Proof.
  intros Hn k0 p [[[a v] k] h] Hi. pose proof (i_base _ _ _ Hi) as (_ & _ & Hh & _).
  eapply wp_done; [by apply spare_alloc|]. split; [|by apply inv_spare]. eexists. split; [done|]. apply len_block. lia.
Qed.
Lemma gives_done {A} (Px : A -> Prop) (m : PK A) : (forall s, exists x, m s = Done x s /\ Px x) -> gives Px m.
Proof. intros Hm k0 p s Hi. destruct (Hm s) as (x & E & Hx). eapply wp_done; [exact E|]. done. Qed.
Lemma neutral_create : neutral cJSON_CreateObject.
Proof. eapply neutral_then; [by apply gives_alloc|]. intros. apply neutral_ret. Qed.
Lemma neutral_add : neutral cJSON_AddItemToObject.
Proof. intros k0 p [[[a v] k] h] Hi. by apply inv_live. Qed.

(** ** Listeners *)
Lemma neutral_trigger ev data n : 0 <= n <= len data -> neutral (trigger_event_listener ev data n).
Proof.
  intros Hn. unfold trigger_event_listener. apply neutral_bind; [apply neutral_mgets|]. intros chain.
  apply neutral_bind; [|intros; apply neutral_ret]. apply neutral_for_each. intros y. apply neutral_when.
  intros k0 p [[[a v] k] h] Hi. unfold on_rest. apply wp_zoom. cbn [fst snd].
  eapply wp_mono; [by apply callback_safe; [apply (i_base _ _ _ Hi)|]| |done].
  intros [] [[a' v'] h'] [Hb Hm]. destruct Hi. split; try done. cbn [snd]. unfold session. cbn [snd] in Hm. by rewrite Hm.
Qed.
Lemma neutral_status x : neutral (ya_send_cloud_status x).
Proof. by apply neutral_trigger. Qed.
Lemma neutral_transfer payload n : 0 <= n <= len payload ->
  overruns (cstr payload) = false ->
  (forall doc m, cJSON_Parse (cstr payload) = Some doc -> cJSON_GetObjectItem doc (str "method") = Some m -> is_Some (valuestring m)) ->
  neutral (ya_aws_subscribe_event_transfer payload n).
Proof.
  intros Hn Ho Hm. unfold ya_aws_subscribe_event_transfer, subscribe_event_transfer, json_parse. rewrite (read_ok _ Ho).
  eapply neutral_then; [apply gives_json|]. intros o ->. destruct (cJSON_Parse (cstr payload)) as [doc|]; [|apply neutral_ret].
  destruct (cJSON_GetObjectItem doc (str "method")) as [m|] eqn:Em; [|by apply neutral_bind; [apply neutral_free|intros; apply neutral_ret]].
  destruct (Hm doc m eq_refl Em) as [w ->]. cbn [deref]. apply neutral_bind; [apply neutral_ret|]. intros x.
  apply neutral_bind; [|intros; apply neutral_bind; [apply neutral_free|intros; apply neutral_ret]].
  repeat case_match; first [by apply neutral_trigger|apply neutral_status|apply neutral_ret].
Qed.
(** ** Queueing *)
Lemma gives_queue_copy type data n : 0 <= n <= len data -> n < 65536 -> gives (fun r => r = 0 \/ r = -1) (queue_copy type data n).
Proof.
  intros Hn Hn' k0 p [[[a v] k] h] Hi. pose proof (i_base _ _ _ Hi) as (Hd & Hx & Hh & Hq). cbn [fst snd] in *.
  unfold wp. rewrite queue_copy_run by done. destruct (has_room h msg_queue); (split; [by auto|]); [|done].
  destruct Hi. split; try done. split; [done|]. split; [done|]. split; [done|]. cbn [snd queues set_queue set_heap].
  change (msg_queue (H := H) (K := aws H)) with QAws. rewrite bool_decide_true by done. apply Forall_app. split; [done|]. constructor; [|constructor].
  eexists. split; [reflexivity|]. rewrite <- (app_nil_r [0]). change (([0] : bytes) ++ []) with (0 :: ([] : bytes)).
  destruct (decide (0 ∈ slice data 0 n)) as [Hz|Hz].
  - rewrite cstr_app by done. apply len_cstr_le in Hz. rewrite len_slice in Hz by lia. lia.
  - rewrite cstr_app_nul; [rewrite len_slice by lia; lia|]. apply Forall_forall. intros x Hin ->. done.
Qed.
Lemma neutral_gives {A} (Px : A -> Prop) (m : PK A) : gives Px m -> neutral m.
Proof. intros Hm k0 p s Hi. eapply wp_mono; [by apply Hm| |done]. by intros x s' []. Qed.

(** ** The documents *)
Lemma neutral_report data n : 0 <= n <= len data -> n < 65536 -> neutral (ya_report_msg_to_aws_cloud data n).
Proof. intros Hn Hn'. eapply neutral_gives, gives_queue_copy; done. Qed.
Lemma neutral_report_cmd cmd : printable cmd = true -> neutral (report_cmd ya_report_msg_to_aws_cloud cmd).
Proof.
  intros Hpr. unfold report_cmd. eapply neutral_then; [by apply gives_document|]. intros o _. apply neutral_bind; [|intros; apply neutral_free].
  destruct o as [d|]; [|apply neutral_ret]. apply neutral_bind; [|intros; apply neutral_free].
  pose proof (u16_range (len d)) as Hr. unfold is_u16 in Hr. apply neutral_report; [|lia]. split; [lia|].
  rewrite len_app. change (len [0]) with 1. pose proof (len_nonneg d). unfold u16. pose proof (Z.mod_le (len d) 65536). lia.
Qed.
Lemma neutral_with_property body : neutral body -> neutral (with_property body).
Proof.
  intros Hb. unfold with_property. apply neutral_bind; [apply neutral_create|]. intros [x|]; [|apply neutral_ret].
  apply neutral_bind; [apply neutral_create|]. intros [y|].
  - apply neutral_bind; [apply neutral_add|by intros].
  - apply neutral_bind; [apply neutral_free|]. intros. apply neutral_ret.
Qed.
(** On the application's own globals. *)
Lemma gives_app {A} (Px : A -> Prop) (m : P C app A) :
  (forall a h, base t c ast lc a h -> exists x a', m (a, h) = Done x (a', h) /\ base t c ast lc a' h /\ Px x) -> gives Px (on_app m).
Proof.
  intros Hm k0 p [[[a v] k] h] Hi. destruct (Hm a h (i_base _ _ _ Hi)) as (x & a' & E & Hb & Hx).
  eapply wp_done; [by apply on_app_run|]. split; [done|]. destruct Hi. by split.
Qed.
Lemma gives_thing : gives is_Some (on_app (in_lic ya_aws_get_thing_type)).
Proof.
  apply gives_app. intros a h Hb. pose proof Hb as ((_ & (b & Hx & _) & _) & _). eexists _, a. split; [apply in_lic_gets|]. by rewrite Hx.
Qed.
Lemma gives_client : gives is_Some (on_app (in_lic ya_aws_get_client_id)).
Proof.
  apply gives_app. intros a h Hb. pose proof Hb as ((_ & _ & (b & Hx & _) & _) & _). eexists _, a. split; [apply in_lic_gets|]. by rewrite Hx.
Qed.
Lemma neutral_deref {A B} (o : option A) (f : A -> PK B) : is_Some o -> (forall x, neutral (f x)) -> neutral (bind (deref o) f).
Proof. intros [x ->] Hf. apply neutral_bind; [apply neutral_ret|done]. Qed.
Lemma neutral_named method key w : neutral (named_document ya_report_msg_to_aws_cloud
  (on_app (in_lic ya_aws_get_thing_type)) (on_app (in_lic ya_aws_get_client_id)) method key w).
Proof.
  apply neutral_with_property. eapply neutral_then; [apply gives_thing|]. intros o Ho. apply neutral_deref; [done|]. intros x.
  eapply neutral_then; [apply gives_client|]. intros o' Ho'. apply neutral_deref; [done|]. intros y.
  apply neutral_bind; [by apply neutral_report_cmd|]. intros. apply neutral_ret.
Qed.
Lemma neutral_random : neutral (updata_random_information ya_report_msg_to_aws_cloud
  (on_app (in_lic ya_aws_get_thing_type)) (on_app (in_lic ya_aws_get_client_id))).
Proof.
  unfold updata_random_information. eapply (neutral_then (fun _ => True)).
  - apply gives_app. intros a h Hb. pose proof Hb as (_ & (_ & _ & Hl & Hz & _) & _). unfold ya_get_randomnum.
    pose proof (len_cstr_le _ Hz). erewrite bind_done by reflexivity. erewrite bind_done by (apply rd_ok; lia).
    destruct (_ =? 0); [by eexists _, a|]. erewrite bind_done by (apply strcpy_zeros; [done|lia]). by eexists _, a.
  - intros [x w] _. destruct (x =? -1); [apply neutral_ret|]. apply neutral_bind; [|intros; apply neutral_named].
    apply (neutral_gives (fun _ => True)), gives_app. intros a h Hb. pose proof Hb as (Hd & (Hc & Hm & Hl & Hz & Hst) & Hh & Hq).
    unfold ya_clear_randomnum. erewrite bind_done by reflexivity. erewrite bind_done by (apply memset_ok; lia). eexists _, _.
    split; [reflexivity|]. split; [|done]. split; [done|]. split; [|done]. split; [done|]. split; [done|]. cbn [config_random_num set_random].
    rewrite drop_ge, app_nil_r by (unfold len in Hl; lia). split; [done|]. split; [|done]. change (u8 0) with 0. by left.
Qed.
Lemma snprintf_fits {T} b n text (x : T) : 0 < n <= len b -> n < 4294967296 -> exists b', snprintf b n text x = Done b' x.
Proof.
  intros Hn Hn'. unfold snprintf. rewrite u32_small by (unfold is_u32; lia). destruct (Z.eqb_spec n 0); [lia|].
  eexists. apply memcpy_ok; [done|]. rewrite len_app. change (len [0]) with 1. unfold len in *. rewrite length_take. lia.
Qed.
Lemma neutral_version : neutral (updata_device_version ya_report_msg_to_aws_cloud).
Proof.
  apply neutral_with_property. eapply (neutral_then (texts_ok ast lc)).
  - apply gives_app. intros a h Hb. exists a, a. split; [done|]. split; [done|]. apply Hb.
  - intros a ((Hc & Hcl) & (Hm & Hml) & _). pose proof (len_nonneg (cstr (mcu_version (para a)))).
    eapply (neutral_then (fun _ => True)); [eapply gives_done; intros s; eexists; split; [by apply strcpy_zeros|exact I]|]. intros x _.
    eapply (neutral_then (fun b => len b = 65)).
    { eapply gives_done. intros s. eexists. split; [by apply strcpy_zeros|]. rewrite len_app, len_zeros; lia. }
    intros mcu Hmcu. eapply (neutral_then (fun _ => True)); [eapply gives_done; intros s; eexists; split; [apply rd_ok; lia|done]|]. intros m0 _.
    eapply (neutral_then (fun _ => True)); [|intros value _; apply neutral_bind; [by apply neutral_report_cmd; destruct (m0 =? 0)|intros; apply neutral_ret]].
    eapply gives_done. intros s. destruct (snprintf_fits mcu 50 (mac_text wifi_get_mac_addr) s) as [b' E]; [lia|lia|]. by exists b'.
Qed.
Lemma neutral_updata : neutral (updata_all ya_report_msg_to_aws_cloud (on_app (in_lic ya_aws_get_thing_type)) (on_app (in_lic ya_aws_get_client_id))).
Proof.
  unfold updata_all. apply neutral_bind; [|intros; apply neutral_bind; [apply neutral_random|intros; apply neutral_bind;
    [apply neutral_version|intros; apply neutral_ret]]].
  eapply (neutral_then (fun _ => True)).
  - apply gives_app. intros a h Hb. by exists (debine_enable a), a.
  - intros d _. apply neutral_when, neutral_bind; [|intros; apply neutral_bind; [apply neutral_named|intros; apply neutral_ret]].
    apply (neutral_gives (fun _ => True)), gives_app. intros a h Hb. eexists _, _. split; [reflexivity|]. split; [|done]. exact Hb.
Qed.

(** ** Messages from the cloud *)
Lemma u16_le n : 0 <= n -> 0 <= u16 n <= n /\ u16 n < 65536.
Proof. intros Hn. pose proof (u16_range n) as Hr. unfold is_u16 in Hr. unfold u16 in *. pose proof (Z.mod_le n 65536 Hn). lia. Qed.
Lemma gives_run {A} (m : PK A) x : (forall s, m s = Done x s) -> gives (fun y => y = x) m.
Proof. intros Hm. apply gives_done. intros s. by exists x. Qed.
Lemma neutral_message topic payload n : friendly (Message topic payload n) -> neutral (ya_subscribe_callback_handler topic payload n).
Proof.
  intros (Hlt & Hn & Hn' & Hdoc). pose proof (len_nonneg topic). unfold ya_subscribe_callback_handler.
  eapply neutral_then; [apply gives_alloc; lia|]. intros o (b & -> & Hb). cbn [deref].
  eapply (neutral_then (fun x => x = b)); [by apply gives_ret|]. intros ? ->.
  eapply neutral_then; [apply gives_run; intros s; by apply memset_block; [|lia]|]. intros ? ->. rewrite <- (app_nil_l (zeros _)).
  eapply neutral_then; [apply gives_run; intros s; apply memcpy_zeros; [done|lia]|]. intros ? ->.
  eapply neutral_then; [apply gives_run; intros s; by apply wr_ok|]. intros ? ->. change (u8 0) with 0.
  destruct (OtaHttp.strstr _ _) as [r|]; [|apply neutral_free]. set (id := drop 9 r). cbn zeta.
  destruct (u16_le (len id) (len_nonneg id)) as [Hu Hu'].
  eapply (neutral_then (fun _ => True)).
  { destruct (_ =? 0); [by apply gives_ret|]. intros k0 p s Hi. eapply wp_mono; [by apply gives_queue_copy| |done]. by intros ? ? [_ ?]. }
  intros ok _. destruct (negb _); [apply neutral_free|]. rewrite u16_small by (unfold is_u16; lia).
  apply neutral_bind; [|intros; apply neutral_free]. destruct Hdoc as [Ho Hdoc]. apply neutral_transfer; [rewrite len_insert; lia|done|done].
Qed.
(** ** Calls of the library *)
Lemma wp_neutral {A} (m : PK A) Q R k p s : neutral m -> inv k p s -> (forall x s', inv k p s' -> Q x s') -> wp m Q R s.
Proof. intros Hm Hi HQ. eapply wp_mono; [by apply Hm|done|done]. Qed.
(** Storing into the module. *)
Lemma wp_mputs f Q R k p s : inv k p s -> (forall s', inv (f k) p s' -> Q tt s') -> wp (mputs f) Q R s.
Proof. intros [Hb <- Hs] HQ. destruct s as [[[a v] k] h]. apply wp_puts. apply HQ. by split. Qed.
Lemma wp_mgets {A} (f : aws H -> A) Q R k p s : inv k p s -> Q (f k) s -> wp (mgets f) Q R s.
Proof. intros [Hb <- Hs] HQ. destruct s as [[[a v] k] h]. by apply wp_gets. Qed.
Lemma wp_mqtt k0 p p' call args Q R s : inv k0 p s -> phase_step call p = Some p' ->
  (forall s', inv (aws_set_calls (tail (calls k0)) k0) p' s' -> Q (next_answer (calls k0)) s') -> wp (mqtt call args) Q R s.
Proof.
  intros [Hb <- Hs] Hp HQ. destruct s as [[[a v] k] h]. eapply wp_done; [apply mqtt_run|]. apply HQ. split; try done.
  unfold session, mqtt_calls in *. cbn [snd trace log omap list_omap mqtt_call foldr] in *. by rewrite Hs.
Qed.
(** Connecting from a freed client ends subscribed or with an error; with its
    certificate, its key and an obliging library it succeeds. *)
Definition licensed : Prop := is_Some (aws_certificateBuff lc) /\ is_Some (aws_privateKeyBuff lc).
Ltac refused := split; [intros E; by rewrite E in *|intros _ E; by rewrite E in *].
Lemma connect_session k0 s : inv k0 Freed s -> is_Some (subscribe_topic k0) ->
  wp ya_aws_cloud_connect (fun r s' => exists p cs, inv (aws_set_calls cs k0) p s' /\ (r = 0 -> p = Subscribed) /\
    (licensed -> calls k0 = [] -> r = 0 /\ cs = [])) (fun _ => False) s.
Proof.
  intros Hi [topic Htopic]. unfold ya_aws_cloud_connect. destruct s as [[[a v] k] h].
  pose proof (i_base _ _ _ Hi) as (_ & (_ & _ & _ & _ & _ & Hlic) & _). cbn [fst snd] in Hlic.
  assert (Hself : aws_set_calls (calls k0) k0 = k0) by (by destruct k0).
  wstep. eapply wp_done; [apply on_app_run, in_lic_gets|]. wstep. eapply wp_done; [apply on_app_run, in_lic_gets|]. rewrite Hlic.
  destruct (aws_certificateBuff lc) as [cert|] eqn:Ec; [|by exists Freed, (calls k0); rewrite Hself; split_and!; [done|done|intros [[? ?] _]; congruence]].
  destruct (aws_privateKeyBuff lc) as [pkey|] eqn:Ek; [|by exists Freed, (calls k0); rewrite Hself; split_and!; [done|done|intros [_ [? ?]]; congruence]].
  wstep. apply wp_gets. cbn [fst snd]. wstep. eapply wp_mqtt; [exact Hi|reflexivity|]. clear a v k h Hi Hlic. intros s Hi.
  wstep; [apply wp_ret; eexists Ready, _; split; [exact Hi|]; refused|].
  destruct s as [[[a v] k] h]. pose proof (i_base _ _ _ Hi) as (Hd & _). cbn [fst snd] in Hd. pose proof Hd as (Hconn & _ & (cb & Hcb' & _) & _).
  wstep. eapply wp_done; [by apply conn_get_run|]. rewrite Hcb'. cbn [deref]. wstep. wstep.
  wstep. eapply wp_mqtt; [exact Hi|reflexivity|]. clear a v k h Hi Hd Hconn cb Hcb'. intros s Hi.
  wstep; [apply wp_ret; eexists Linked, _; split; [exact Hi|]; refused|].
  wstep. eapply wp_mqtt; [exact Hi|reflexivity|]. clear s Hi. intros s Hi.
  wstep; [apply wp_ret; eexists Linked, _; split; [exact Hi|]; refused|].
  unfold ya_aws_subscribe. wstep. eapply wp_mgets; [exact Hi|]. cbn [subscribe_topic aws_set_calls]. rewrite Htopic. cbn [deref]. wstep. wstep.
  eapply wp_mqtt; [exact Hi|reflexivity|]. intros s' Hi'. eexists Subscribed, _. split; [exact Hi'|]. split; [done|].
  intros _ E. cbn [calls aws_set_calls]. by rewrite E.
Qed.
(** ** The turn *)
(** What the state of the task says of the session. *)
Definition consistent k (p : phase) : Prop :=
  match ya_aws_cloud_state k with
  | AWS_CLOUD_INIT | AWS_TO_CONNECT_CLOUD | AWS_RECONNECT_WAIT => ya_cloud_connected k = 0 /\ p = Freed
  | AWS_CONNECTED_CLOUD => ya_cloud_connected k = 1 /\ p = Subscribed
  | AWS_CONNECT_ERROR => ya_cloud_connected k = 0 \/ (ya_cloud_connected k = 1 /\ p = Subscribed)
  end.
Lemma connected_subscribed k p : consistent k p -> ya_cloud_connected k <> 0 -> p = Subscribed.
Proof. unfold consistent. destruct (ya_aws_cloud_state k); intros Hc Hn; try (by destruct Hc); by destruct Hc as [|[]]. Qed.
(** The module is [k]. *)
Definition at_module k s : Prop := exists p, inv k p s /\ good k /\ consistent k p.
(** Following the router. *)
Definition followed k : aws H :=
  if (ast ==? YA_APP_CONNECTED) && (ya_aws_cloud_state k ==? AWS_CLOUD_INIT) then aws_set_state AWS_TO_CONNECT_CLOUD k
  else if (ast <>? YA_APP_CONNECTED) && (ya_aws_cloud_state k <>? AWS_CLOUD_INIT)
  then aws_set_state AWS_CLOUD_INIT (aws_set_connected 0 (aws_set_calls (tail (tail (calls k))) k)) else k.
Lemma follow_to k s : at_module k s -> wp follow_router (fun _ => at_module (followed k)) (fun _ => False) s.
Proof.
  intros (p & Hi & Hg & Hc). pose proof (i_base _ _ _ Hi) as (_ & (_ & _ & _ & _ & Hast & _) & _). unfold follow_router, followed.
  wstep. destruct s as [[[a v] k1] h]. eapply wp_done; [by apply on_app_run|]. cbn [fst snd] in Hast. rewrite Hast.
  wstep. eapply wp_mgets; [exact Hi|]. cbn [id]. destruct ((ast ==? YA_APP_CONNECTED) && (ya_aws_cloud_state k ==? AWS_CLOUD_INIT)) eqn:E1;
    [|destruct ((ast <>? YA_APP_CONNECTED) && (ya_aws_cloud_state k <>? AWS_CLOUD_INIT))].
  - apply andb_true_iff in E1 as [_ E1%bool_decide_eq_true]. eapply wp_mputs; [exact Hi|]. intros s' Hi'. exists p. split; [done|]. split; [done|].
    unfold consistent in *. by rewrite E1 in Hc.
  - wstep. eapply wp_mqtt; [exact Hi|reflexivity|]. intros s1 Hi1. wstep. eapply wp_mqtt; [exact Hi1|reflexivity|]. intros s2 Hi2.
    wstep. eapply wp_mputs; [exact Hi2|]. intros s3 Hi3. eapply wp_mputs; [exact Hi3|]. intros s4 Hi4. by exists Freed.
  - apply wp_ret. by exists p.
Qed.
(** Connecting. *)
Definition connected_with (cs : list Z) k : aws H := aws_set_state AWS_CONNECTED_CLOUD (aws_set_connected 1 (aws_set_calls cs k)).
Lemma connect_to k s : at_module k s -> ya_aws_cloud_state k = AWS_TO_CONNECT_CLOUD ->
  wp connect_cloud (fun _ s' => exists k', at_module k' s' /\ (licensed -> calls k = [] -> k' = connected_with [] k)) (fun _ => False) s.
Proof.
  intros (p & Hi & [Ht Hy] & Hc) Hst. unfold consistent in Hc. rewrite Hst in Hc. destruct Hc as [Hcon ->]. unfold connect_cloud.
  wstep. eapply wp_mono; [by apply connect_session| |done]. clear s Hi. intros r s (p & cs & Hi & Hr & Hl). wstep.
  - eapply wp_mputs; [exact Hi|]. intros s' Hi'. eexists. split; [exists p; split; [exact Hi'|]; split; [done|by left]|].
    intros H7 H8. destruct (Hl H7 H8) as [-> _]. done.
  - destruct (Z.eqb_spec r 0) as [E|]; [|done]. rewrite (Hr E) in Hi. wstep. eapply wp_mputs; [exact Hi|]. intros s1 Hi1.
    wstep. eapply wp_mputs; [exact Hi1|]. intros s2 Hi2.
    wstep. eapply wp_neutral; [apply neutral_status|exact Hi2|]. intros x s3 Hi3.
    eapply wp_neutral; [apply neutral_updata|exact Hi3|]. intros y s4 Hi4. eexists. split; [exists Subscribed; split; [exact Hi4|]; done|].
    intros H7 H8. destruct (Hl H7 H8) as [_ ->]. done.
Qed.
(** Closing. *)
Definition closed (tick : Z) k : aws H := aws_set_state AWS_RECONNECT_WAIT (aws_set_calls (tail (tail (calls k)))
  (aws_set_timer (ya_countdown_ms tick ya_init_timer 5000) (aws_set_connected 0 k))).
Lemma close_to tick k s : at_module k s -> ya_aws_cloud_state k = AWS_CONNECT_ERROR ->
  wp (close_cloud tick) (fun _ => at_module (closed tick k)) (fun _ => False) s.
Proof.
  intros (p & Hi & Hg & Hc) Hst. unfold consistent in Hc. rewrite Hst in Hc. unfold close_cloud. wstep.
  eapply (wp_mono _ (fun _ s' => inv (aws_set_connected 0 k) p s') _ (fun _ => False)); [| |done].
  - wstep. eapply wp_mgets; [exact Hi|]. destruct Hc as [Hc|[Hc _]]; rewrite Hc; cbn [Z.eqb negb when].
    + apply wp_ret. replace (aws_set_connected 0 k) with k; [done|]. destruct k; cbn in *; by subst.
    + wstep. eapply wp_mputs; [exact Hi|]. intros s1 Hi1. wstep. eapply wp_neutral; [apply neutral_status|exact Hi1|]. intros x s2 Hi2. by apply wp_ret.
  - intros ? s1 Hi1. wstep. eapply wp_mputs; [exact Hi1|]. intros s2 Hi2. wstep. eapply wp_mqtt; [exact Hi2|reflexivity|]. intros s3 Hi3.
    wstep. eapply wp_mqtt; [exact Hi3|reflexivity|]. intros s4 Hi4. eapply wp_mputs; [exact Hi4|]. intros s5 Hi5. exists Freed. split; [exact Hi5|]. done.
Qed.
Definition sound s : Prop := exists k, at_module k s.
Lemma wait_to tick k s : at_module k s -> ya_aws_cloud_state k = AWS_RECONNECT_WAIT ->
  wp (aws_state_step tick) (fun _ => at_module (if ya_has_timer_expired tick (ya_aws_cloud_timer k) =? 0 then aws_set_state AWS_TO_CONNECT_CLOUD k else k))
    (fun _ => False) s.
Proof.
  intros (p & Hi & Hg & Hc) Hst. unfold aws_state_step. wstep. eapply wp_mgets; [exact Hi|]. cbn [id]. rewrite Hst.
  destruct (_ =? 0); cbn [when]; [|apply wp_ret; by exists p]. eapply wp_mputs; [exact Hi|]. intros s' Hi'. exists p. split; [done|]. split; [done|].
  unfold consistent in *. by rewrite Hst in Hc.
Qed.
(** The step of a state of the module. *)
Lemma state_at tick k s Q : at_module k s ->
  wp (match ya_aws_cloud_state k with
      | AWS_TO_CONNECT_CLOUD => connect_cloud
      | AWS_CONNECT_ERROR => close_cloud tick
      | AWS_RECONNECT_WAIT => aws_state_step tick
      | _ => ret tt end) Q (fun _ => False) s -> wp (aws_state_step tick) Q (fun _ => False) s.
Proof.
  intros (p & Hi & _) Hw. destruct (ya_aws_cloud_state k) eqn:Hst; [..|done].
  all: unfold aws_state_step; wstep; (eapply wp_mgets; [exact Hi|]); cbn [id]; rewrite Hst; exact Hw.
Qed.
Lemma state_sound tick s : sound s -> wp (aws_state_step tick) (fun _ => sound) (fun _ => False) s.
Proof.
  intros (k & Hk). eapply state_at; [exact Hk|]. destruct (ya_aws_cloud_state k) eqn:Hst.
  - apply wp_ret. by exists k.
  - eapply wp_mono; [by apply (connect_to k)| |done]. intros ? s' (k' & Hs' & _). by exists k'.
  - apply wp_ret. by exists k.
  - eapply wp_mono; [by apply (close_to tick k)| |done]. intros ? s' Hs'. eexists. exact Hs'.
  - eapply wp_mono; [by apply (wait_to tick k)| |done]. intros ? s' Hs'. eexists. exact Hs'.
Qed.
(** Polling: connected, or closed by the library meanwhile. *)
Definition polled s : Prop := exists k, (ya_aws_cloud_state k = AWS_CONNECTED_CLOUD \/ ya_aws_cloud_state k = AWS_CONNECT_ERROR) /\
  ya_cloud_connected k = 1 /\ inv k Subscribed s /\ good k.
Lemma deliver_polled d s : friendly d -> polled s -> wp (deliver d) (fun _ => polled) (fun _ => False) s.
Proof.
  intros Hd (k & Hst & Hcon & Hi & Hg). destruct d as [topic payload n|].
  - eapply wp_neutral; [by apply neutral_message|exact Hi|]. intros x s' Hi'. by exists k.
  - eapply wp_mputs; [exact Hi|]. intros s' Hi'. exists (aws_set_state AWS_CONNECT_ERROR k). split; [by right|]. split; [exact Hcon|]. split; [exact Hi'|exact Hg].
Qed.
Lemma polled_sound s : polled s -> sound s.
Proof. intros (k & Hst & Hcon & Hi & Hg). exists k, Subscribed. split; [done|]. split; [done|]. unfold consistent. destruct Hst as [->| ->]; auto. Qed.
Lemma idle_poll k s : at_module k s -> ya_aws_cloud_state k <> AWS_CONNECTED_CLOUD -> wp poll_cloud (fun _ => at_module k) (fun _ => False) s.
Proof.
  intros (p & Hi & Hgc) Hst. unfold poll_cloud. wstep. eapply wp_mgets; [exact Hi|]. cbn [id]. rewrite bool_decide_false by done. apply wp_ret. by exists p.
Qed.
Lemma poll_sound s : sound s -> wp poll_cloud (fun _ => sound) (fun _ => False) s.
Proof.
  intros (k & Hk). destruct (decide (ya_aws_cloud_state k = AWS_CONNECTED_CLOUD)) as [Hst|Hst].
  2:{ eapply wp_mono; [by apply (idle_poll k)| |done]. intros ? s' Hs'. by exists k. }
  destruct Hk as (p & Hi & [Ht Hy] & Hc). unfold consistent in Hc. rewrite Hst in Hc. destruct Hc as [Hcon ->].
  unfold poll_cloud. wstep. eapply wp_mgets; [exact Hi|]. cbn [id]. rewrite bool_decide_true by done. cbn [when]. wstep.
  unfold aws_iot_mqtt_yield. wstep. eapply wp_mgets; [exact Hi|]. eapply (wp_mono _ (fun _ => polled) _ (fun _ => False)); [| |done].
  - destruct (yields k) as [|[ds r] l] eqn:Ey; [apply wp_ret; exists k; split; [by left|]; split; [done|]; split; [done|]; split; [done|by rewrite Ey]|].
    apply Forall_cons in Hy as [Hds Hl]. cbn [fst] in Hds. wstep. eapply wp_mputs; [exact Hi|]. intros s1 Hi1. wstep.
    assert (Hp : polled s1) by (exists (aws_set_yields l k); split; [left; exact Hst|]; split; [exact Hcon|]; split; [exact Hi1|]; by split).
    clear -Hp Hds Hcb Hack. revert s1 Hp. induction Hds as [|d ds Hd _ IH]; intros s1 Hp; [done|]. cbn [for_each]. wstep.
    eapply wp_mono; [by apply deliver_polled| |done]. intros ? s2 Hp'. by apply IH.
  - intros r s1 (k1 & Hst1 & Hcon1 & Hi1 & Hg1). wstep.
    + eapply wp_mputs; [exact Hi1|]. intros s2 Hi2. eexists _, Subscribed. split; [exact Hi2|]. split; [done|]. by right.
    + eapply wp_mputs; [exact Hi1|]. intros s2 Hi2. apply polled_sound. exists (ticked k1). split; [exact Hst1|]. split; [exact Hcon1|]. by split.
Qed.
(** A published message keeps a subscribed session. *)
Lemma inv_published k a v k1 h l args : inv k Subscribed (a, v, k1, h) ->
  inv (aws_set_calls l k) Subscribed (a, v, aws_set_calls l k1, log (EvMqtt "publish" args) h).
Proof.
  intros [Hb Hk Hs]. cbn [fst snd] in Hk. split; [done|by rewrite <- Hk|]. unfold session, mqtt_calls in *.
  cbn [snd trace log omap list_omap mqtt_call foldr] in *. by rewrite Hs.
Qed.
Lemma send_to k s : at_module k s -> wp send_queued (fun _ s' => exists cs, at_module (aws_set_calls cs k) s' /\ (calls k = [] -> cs = [])) (fun _ => False) s.
Proof.
  intros (p & Hi & Hg & Hc). destruct s as [[[a v] k1] h]. pose proof Hi as [(Hd & Hx & Hh & Hq) Hk Hs]. cbn [fst snd] in *. subst k1.
  assert (Hself : aws_set_calls (calls k) k = k) by (by destruct k).
  unfold send_queued. wstep. unfold wp at 1, ya_hal_os_queue_recv. destruct (queues h QAws) as [|m l] eqn:Eq.
  { apply wp_ret. exists (calls k). rewrite Hself. split; [by exists p|done]. }
  apply Forall_cons in Hq as [(b & Hm & Hb) Hl]. assert (Hi1 : inv k p (a, v, k, set_queue QAws l h)) by (destruct Hi; by split).
  wstep. eapply (wp_mono _ (fun _ s' => exists cs, inv (aws_set_calls cs k) p s' /\ (calls k = [] -> cs = [])) _ (fun _ => False)); [| |done].
  - wstep. eapply wp_mgets; [exact Hi1|]. destruct (Z.eqb_spec (ya_cloud_connected k) 0) as [|Hne]; cbn [negb when].
    { apply wp_ret. exists (calls k). by rewrite Hself. }
    rewrite (connected_subscribed k p Hc Hne) in *.
    rewrite Hm. cbn [deref]. destruct Hack as [raw Hraw].
    wstep; [|wstep; [|apply wp_ret; exists (calls k); by rewrite Hself]]; wstep; wstep; wstep.
    + eapply wp_done; [by apply (ack_run _ raw _ _ _ _ t c)|]. apply wp_ret. exists (tail (calls k)). split; [by apply inv_published|by intros ->].
    + eapply wp_done; [by apply (ya_aws_report_run _ _ _ _ _ t c)|]. apply wp_ret. exists (tail (calls k)). split; [by apply inv_published|by intros ->].
  - intros ? s1 (cs & Hi2 & Hcs). rewrite Hm. cbn [free_if]. eapply wp_neutral; [apply neutral_free|exact Hi2|]. intros ? s2 Hi3.
    exists cs. split; [by exists p|done].
Qed.
Lemma turn_sound tick s : sound s -> wp (ya_aws_cloud_app_turn tick) (fun _ => sound) (fun _ => False) s.
Proof.
  intros (k & Hk). unfold ya_aws_cloud_app_turn. wstep. eapply wp_mono; [exact (follow_to k s Hk)| |done]. intros ? s1 Hs1.
  wstep. eapply wp_mono; [apply state_sound; exists (followed k); exact Hs1| |done]. intros ? s2 Hs2.
  wstep. eapply wp_mono; [by apply poll_sound| |done]. intros ? s3 (k3 & Hk3). eapply wp_mono; [exact (send_to k3 s3 Hk3)| |done].
  intros ? s4 (cs & Hs4 & _). eexists. exact Hs4.
Qed.
Lemma init_sound a v k h : base t c ast lc a h -> ya_aws_cloud_state k = AWS_CLOUD_INIT -> session (trace h) = Some Freed ->
  Forall (fun y => Forall friendly y.1) (yields k) -> wp ya_aws_cloud_app_init (fun _ => sound) (fun _ => False) (a, v, k, h).
Proof.
  intros Hb Hk Hs Hy. pose proof Hb as (Hd & Hx & Hh & Hq). pose proof Hd as (_ & _ & _ & Hl). pose proof (len_nonneg t). pose proof (len_nonneg c).
  assert (Hlen : len (request_topic t c) = 17 + len t + len c).
  { unfold request_topic. rewrite !len_app. change (len (str "/")) with 1. change (len (str "/rrpc/")) with 6. change (len (str "/request/+")) with 10. lia. }
  unfold ya_aws_cloud_app_init, ya_get_subscribe_topic. wstep. wstep. eapply wp_done; [by apply names_run|].
  cbn beta iota. change (len (str "/%s/rrpc/%s/request/+")) with 21. wstep. eapply wp_done; [apply print_topic_run; [done|lia|lia]|].
  wstep. apply wp_puts. wstep. apply wp_puts. cbn [fst snd]. eexists _, Freed. split; [by split|]. split; [by split|].
  unfold consistent. cbn. by rewrite Hk.
Qed.

(** ** Opening the session again *)
(** A turn outside the connected state, with the router there and a library
    that has nothing to say. *)
Lemma followed_same k : ast = YA_APP_CONNECTED -> ya_aws_cloud_state k <> AWS_CLOUD_INIT -> followed k = k.
Proof.
  intros Hast Hst. unfold followed. rewrite Hast, (bool_decide_false (ya_aws_cloud_state k = _)), andb_false_r by done.
  by rewrite (bool_decide_false (YA_APP_CONNECTED <> _)) by (intros Hn; by apply Hn).
Qed.
Lemma no_calls k : calls k = [] -> aws_set_calls [] k = k.
Proof. destruct k. cbn. by intros ->. Qed.
Lemma idle_turn tick k k' s : ast = YA_APP_CONNECTED -> at_module k s -> ya_aws_cloud_state k <> AWS_CLOUD_INIT ->
  (forall s, at_module k s -> wp (aws_state_step tick) (fun _ => at_module k') (fun _ => False) s) ->
  ya_aws_cloud_state k' <> AWS_CONNECTED_CLOUD -> calls k' = [] ->
  wp (ya_aws_cloud_app_turn tick) (fun _ => at_module k') (fun _ => False) s.
Proof.
  intros Hast Hk Hst Hstep Hst' Hc. unfold ya_aws_cloud_app_turn. wstep. eapply wp_mono; [exact (follow_to k s Hk)| |done]. intros ? s1 Hs1.
  rewrite followed_same in Hs1 by done. wstep. eapply wp_mono; [by apply Hstep| |done]. intros ? s2 Hs2.
  wstep. eapply wp_mono; [exact (idle_poll k' s2 Hs2 Hst')| |done]. intros ? s3 Hs3. eapply wp_mono; [exact (send_to k' s3 Hs3)| |done].
  intros ? s4 (cs & Hs4 & Hcs). rewrite (Hcs Hc), no_calls in Hs4 by done. exact Hs4.
Qed.
Lemma closing_turn tick k s : ast = YA_APP_CONNECTED -> at_module k s -> ya_aws_cloud_state k = AWS_CONNECT_ERROR -> calls k = [] ->
  wp (ya_aws_cloud_app_turn tick) (fun _ => at_module (closed tick k)) (fun _ => False) s.
Proof.
  intros Hast Hk Hst Hc. apply (idle_turn tick k); try done; [congruence| |by cbn; rewrite Hc].
  intros s1 Hs1. eapply (state_at tick k); [exact Hs1|]. rewrite Hst. by apply close_to.
Qed.
Lemma waiting_turn tick k s : ast = YA_APP_CONNECTED -> at_module k s -> ya_aws_cloud_state k = AWS_RECONNECT_WAIT -> calls k = [] ->
  ya_has_timer_expired tick (ya_aws_cloud_timer k) = -1 -> wp (ya_aws_cloud_app_turn tick) (fun _ => at_module k) (fun _ => False) s.
Proof.
  intros Hast Hk Hst Hc Ht. apply (idle_turn tick k); try done; [congruence| |congruence].
  intros s1 Hs1. pose proof (wait_to tick k s1 Hs1 Hst) as Hw. by rewrite Ht in Hw.
Qed.
Lemma expired_turn tick k s : ast = YA_APP_CONNECTED -> at_module k s -> ya_aws_cloud_state k = AWS_RECONNECT_WAIT -> calls k = [] ->
  ya_has_timer_expired tick (ya_aws_cloud_timer k) = 0 ->
  wp (ya_aws_cloud_app_turn tick) (fun _ => at_module (aws_set_state AWS_TO_CONNECT_CLOUD k)) (fun _ => False) s.
Proof.
  intros Hast Hk Hst Hc Ht. apply (idle_turn tick k); try done; [congruence|].
  intros s1 Hs1. pose proof (wait_to tick k s1 Hs1 Hst) as Hw. by rewrite Ht in Hw.
Qed.
Lemma quiet_poll k s : at_module k s -> ya_aws_cloud_state k = AWS_CONNECTED_CLOUD -> yields k = [] ->
  wp poll_cloud (fun _ => at_module (ticked k)) (fun _ => False) s.
Proof.
  intros (p & Hi & Hg & Hc) Hst Hy. unfold poll_cloud. wstep. eapply wp_mgets; [exact Hi|]. cbn [id]. rewrite bool_decide_true by done. cbn [when].
  wstep. unfold aws_iot_mqtt_yield. wstep. eapply wp_mgets; [exact Hi|]. rewrite Hy. apply wp_ret. cbn [Z.eqb negb].
  eapply wp_mputs; [exact Hi|]. intros s' Hi'. by exists p.
Qed.
Lemma connecting_turn tick k s : ast = YA_APP_CONNECTED -> licensed -> at_module k s -> ya_aws_cloud_state k = AWS_TO_CONNECT_CLOUD ->
  calls k = [] -> yields k = [] ->
  wp (ya_aws_cloud_app_turn tick) (fun _ => at_module (ticked (connected_with [] k))) (fun _ => False) s.
Proof.
  intros Hast Hl Hk Hst Hc Hy. unfold ya_aws_cloud_app_turn. wstep. eapply wp_mono; [exact (follow_to k s Hk)| |done]. intros ? s1 Hs1.
  rewrite followed_same in Hs1 by (done || congruence). wstep.
  eapply wp_mono; [eapply (state_at tick k); [exact Hs1|]; rewrite Hst; by apply (connect_to k)| |done].
  intros ? s2 (k' & Hs2 & Ek). rewrite (Ek Hl Hc) in Hs2. wstep. eapply wp_mono; [by apply (quiet_poll (connected_with [] k))| |done]. intros ? s3 Hs3.
  eapply wp_mono; [exact (send_to _ s3 Hs3)| |done]. intros ? s4 (cs & Hs4 & Hcs). rewrite (Hcs eq_refl) in Hs4. exact Hs4.
Qed.
End Safety.

(** The router comes and goes between the turns. *)
Definition run_at {C H V} `{Callbacks C H V} `{JsonText} `{AtEnv} (step : Z * ya_app_status_t)
  : P C (app * V * aws H) unit := on_app (puts (set_state step.2)) ;; ya_aws_cloud_app_turn step.1.

(** C7: The AWS task never goes wrong while memory is to spare.  Started on a
    device with its licence and names, and run for any number of turns at any
    times while the router comes and goes, whatever the MQTT library answers and
    whatever it delivers (payloads with room for their terminator, on which the
    JSON parser does not overrun, and whose method, if any, is a string), with
    callbacks that keep their contract ([SafeCallbacks]) and an acknowledgement
    that prints, every turn returns without a memory fault; and the calls it has
    made are in the library's order: a client is initialised only when fresh or
    freed, connected and subscribed after that and in this order, and published
    to only when subscribed and not yet freed.  While the connected flag is set
    the client is subscribed. *)
Theorem aws_task_safe {C H V} (t c : bytes) `{Hcb : SafeCallbacks C H V t c} `{JsonText} `{AtEnv}
    (steps : list (Z * ya_app_status_t)) (a : app) (v : V) (k : aws H) (h : hw C) :
  is_Some (cJSON_PrintUnformatted ack_document) ->
  base t c (ya_app_state a) (a_lic a) a h -> ya_aws_cloud_state k = AWS_CLOUD_INIT -> session (trace h) = Some Freed ->
  Forall (fun y => Forall friendly y.1) (yields k) ->
  exists s, (ya_aws_cloud_app_init ;; for_each steps run_at) (a, v, k, h) = Done tt s /\
    exists p, session (trace s.2) = Some p /\ consistent s.1.2 p.
Proof.
  intros Hack Hb Hk Hs Hy.
  assert (Hw : wp (ya_aws_cloud_app_init ;; for_each steps run_at)
    (fun _ s => exists ast, sound (t := t) (c := c) ast (a_lic a) s) (fun _ => False) (a, v, k, h)).
  { wstep. eapply wp_mono; [by apply (init_sound (t := t) (c := c) (ya_app_state a) (a_lic a))| |done]. intros ? s0 Hs0.
    assert (He : exists ast, sound (t := t) (c := c) ast (a_lic a) s0) by (eexists; exact Hs0). clear Hs0. revert s0 He.
    induction steps as [|[tick ast'] steps IH]; intros s0 He; [done|]. cbn [for_each]. wstep.
    destruct He as (ast & k0 & p & Hi & Hgc). unfold run_at. wstep. destruct s0 as [[[b0 v0] k1] h0]. eapply wp_done; [by apply on_app_run|].
    assert (Hs1 : sound (t := t) (c := c) ast' (a_lic a) (set_state ast' b0, v0, k1, h0)).
    { exists k0, p. split; [|done]. destruct Hi as [(Hd & (H7 & H8 & H9 & H10 & _ & H11) & H12) H13 H14]. by split. }
    eapply wp_mono; [by apply (turn_sound (t := t) (c := c) ast' (a_lic a))| |done]. intros ? s2 Hs2. apply IH. eexists. exact Hs2. }
  apply wp_elim in Hw as ([] & s & E & ast & k0 & p & Hi & _ & Hc). exists s. split; [exact E|]. destruct Hi as [_ -> Hp]. by exists p.
Qed.

(** C10: The session is opened again five seconds after an error.  When the
    library reports the session broken at tick [t0], the task closes it; in every
    turn of the next 5000 ms it waits, with the client freed; in the first turn
    after that it decides to connect, and in the next one it does, and is
    connected and subscribed again when the library obliges. *)
Theorem aws_reconnects {C H V} (t c : bytes) `{Hcb : SafeCallbacks C H V t c} `{JsonText} `{AtEnv}
    (t0 n1 t2 : Z) (waits : list Z) (a : app) (v : V) (k : aws H) (h : hw C) (p : phase) :
  is_Some (cJSON_PrintUnformatted ack_document) ->
  base t c YA_APP_CONNECTED (a_lic a) a h -> licensed (a_lic a) -> good k -> session (trace h) = Some p -> consistent k p ->
  ya_aws_cloud_state k = AWS_CONNECT_ERROR -> calls k = [] -> yields k = [] ->
  is_u32 t0 -> Forall (fun j => 0 <= j * 5 <= 5000) waits -> 5001 < n1 * 5 < 4294967296 ->
  let after j := u32 (t0 + j) in
  exists s1 s2, for_each (t0 :: (after <$> waits)) ya_aws_cloud_app_turn (a, v, k, h) = Done tt s1 /\
    ya_aws_cloud_state s1.1.2 = AWS_RECONNECT_WAIT /\ session (trace s1.2) = Some Freed /\
    for_each [after n1; t2] ya_aws_cloud_app_turn s1 = Done tt s2 /\
    ya_aws_cloud_state s2.1.2 = AWS_CONNECTED_CLOUD /\ ya_cloud_connected s2.1.2 = 1 /\ session (trace s2.2) = Some Subscribed.
Proof.
  intros Hack Hb Hl Hg Hs Hc Hst Hcalls Hy Ht0 Hw Hn1 after.
  assert (Hk0 : at_module (t := t) (c := c) YA_APP_CONNECTED (a_lic a) k (a, v, k, h)) by (exists p; by split).
  set (kw := closed t0 k). assert (Hcw : calls kw = []) by (cbn; by rewrite Hcalls).
  assert (W1 : wp (for_each (t0 :: (after <$> waits)) ya_aws_cloud_app_turn)
    (fun _ => at_module (t := t) (c := c) YA_APP_CONNECTED (a_lic a) kw) (fun _ => False) (a, v, k, h)).
  { cbn [for_each]. wstep. eapply wp_mono; [by apply (closing_turn (t := t) (c := c)) | |done]. intros ? s Hs'. fold kw in Hs'.
    revert s Hs'. induction Hw as [|j waits Hj _ IH]; intros s Hs'; [done|]. cbn [fmap list_fmap for_each]. wstep.
    eapply wp_mono; [apply (waiting_turn (t := t) (c := c) YA_APP_CONNECTED (a_lic a) Hack (after j) kw); try done|by intros ? s' ?; apply IH|done].
    unfold kw, closed, after. cbn [ya_aws_cloud_timer aws_set_timer aws_set_state aws_set_calls aws_set_connected].
    rewrite timer_ms_expiry by (done || lia). unfold wrap_slip. zbool; done || lia. }
  apply wp_elim in W1 as ([] & s1 & E1 & Hs1).
  assert (W2 : wp (for_each [after n1; t2] ya_aws_cloud_app_turn)
    (fun _ => at_module (t := t) (c := c) YA_APP_CONNECTED (a_lic a) (ticked (connected_with [] (aws_set_state AWS_TO_CONNECT_CLOUD kw)))) (fun _ => False) s1).
  { cbn [for_each]. wstep. eapply wp_mono; [by apply (expired_turn (t := t) (c := c) YA_APP_CONNECTED (a_lic a) Hack (after n1) kw);
      try done; unfold kw, closed, after; cbn [ya_aws_cloud_timer aws_set_timer aws_set_state aws_set_calls aws_set_connected];
      rewrite timer_ms_expiry by (done || lia); unfold wrap_slip; zbool; done || lia| |done].
    intros ? s2 Hs2. wstep. eapply wp_mono; [by apply (connecting_turn (t := t) (c := c) YA_APP_CONNECTED (a_lic a) Hack t2 (aws_set_state AWS_TO_CONNECT_CLOUD kw))| |done].
    by intros. }
  apply wp_elim in W2 as ([] & s2 & E2 & Hs2). exists s1, s2. split; [exact E1|].
  destruct Hs1 as (p1 & [_ Hm1 Hp1] & _ & Hc1). destruct Hs2 as (p2 & [_ Hm2 Hp2] & _ & Hc2). rewrite Hm1, Hm2, Hp1, Hp2.
  destruct Hc1 as [_ ->], Hc2 as [_ ->]. done.
Qed.

(** ** The hardware task's listener keeps the contract *)
#[export] Instance hardware_safe t c : SafeCallbacks ideal unit unit t c.
Proof.
  split. intros x data n ast l a v h Hb Hn. pose proof Hb as (Hd & Hx & Hh & Hq). cbn [callback hardware_callbacks].
  unfold ya_put_cloud_data_into_queue. destruct (has_room h QHardware) eqn:Hr.
  - eapply wp_done; [by apply put_into_queue_run|]. split; [|done]. by split.
  - unfold put_into_queue. wstep. eapply wp_done; [apply spare_alloc; [done|lia]|]. cbn beta iota.
    wstep. eapply wp_done; [apply memset_block; [by rewrite len_block by lia|lia]|]. wstep. apply wp_rdn; [lia..|]. wstep.
    apply wp_memcpy; [done|rewrite len_slice, len_zeros by lia; lia|]. wstep. unfold wp at 1, ya_hal_os_queue_send. cbn [queues set_heap].
    unfold has_room in Hr. rewrite Hr. cbn [Z.eqb negb]. apply wp_upd_hw. split; [|done]. split; [done|]. split; [done|]. cbn [snd heap set_heap queues]. done.
Qed.
Lemma sample_base st : base (str "t1") (str "c1") st (a_lic aws_app) (set_state st aws_app) boot.
Proof.
  split; [apply aws_device|]. split; [|by split]. split; [|split; [|split; [|split; [|done]]]]; try (split; [|by vm_compute]); try (by vm_compute).
  all: evaluate.
Qed.
Definition first_aws (y : list (list delivery * Z)) : aws unit :=
  mkAws [mkListener (str "hw" ++ [0]) CLOUD_SET_EVENT tt] AWS_CLOUD_INIT 0 None WIFI_US ya_init_timer 0 [0; 5] y.
Lemma aws_task_safe_witness :
  exists s, (ya_aws_cloud_app_init ;; for_each [(0, YA_APP_CONNECTED); (1, YA_APP_CONNECTED); (2, YA_APP_TO_CONNECT)] run_at)
      (aws_app, tt, first_aws [([Message (str "/t1/rrpc/c1/request/42") (str "{}" ++ [9]) 2; Disconnected], 0)], boot) = Done tt s /\
    exists p, session (trace s.2) = Some p.
Proof.
  destruct (aws_task_safe (str "t1") (str "c1") [(0, YA_APP_CONNECTED); (1, YA_APP_CONNECTED); (2, YA_APP_TO_CONNECT)] aws_app tt
    (first_aws [([Message (str "/t1/rrpc/c1/request/42") (str "{}" ++ [9]) 2; Disconnected], 0)]) boot) as (s & E & p & Hp & _).
  - by eexists.
  - apply (sample_base YA_APP_CONNECTED).
  - done.
  - done.
  - repeat constructor; try done. intros doc m Hd Hm. injection Hd as <-. injection Hm as <-. by eexists.
  - exists s. split; [exact E|]. by exists p.
Defined.
Definition broken_aws : aws unit :=
  mkAws [] AWS_CONNECT_ERROR 1 (Some (str "/t1/rrpc/c1/request/+" ++ [0])) WIFI_US ya_init_timer 0 [] [].
Definition used_machine : hw ideal := foldr log boot [EvMqtt "subscribe" []; EvMqtt "autoreconnect" []; EvMqtt "connect" []; EvMqtt "init" []].
Lemma aws_reconnects_witness :
  exists s1 s2, for_each [100; 101; 1100] ya_aws_cloud_app_turn (aws_app, tt, broken_aws, used_machine) = Done tt s1 /\
    for_each [1101; 1102] ya_aws_cloud_app_turn s1 = Done tt s2 /\ ya_cloud_connected s2.1.2 = 1.
Proof.
  destruct (aws_reconnects (str "t1") (str "c1") 100 1001 1102 [1; 1000] aws_app tt broken_aws used_machine Subscribed)
    as (s1 & s2 & E1 & _ & _ & E2 & _ & Hc & _).
  - by eexists.
  - apply (sample_base YA_APP_CONNECTED).
  - split; by eexists.
  - split; [by eexists|constructor].
  - by vm_compute.
  - by right.
  - done.
  - done.
  - done.
  - by vm_compute.
  - repeat constructor; lia.
  - done.
  - exists s1, s2. split; [exact E1|]. split; [exact E2|exact Hc].
Defined.
