(* ===== verification/AlyProofs.v ===== *)
(** * What the Aliyun connection guarantees

    The listeners are told the state of the connection in turns; a request is
    handed on and answered under its own id; and what goes wrong with long ids. *)

From stdpp Require Import base numbers list strings.
From S2P Require Import Prelude Platform CommonFunc CJson DeviceTimer License Cloud Hardware UserData AppMain UserDataProofs AtCmd AtProofs Console CloudEvents AlyCloud CloudProofs.

#[export] Instance aly_module_laws H : CloudModuleLaws H (aly H).
Proof. by split. Qed.

(** ** The state of the connection, as told *)
(** The reference: the statuses told for a sequence of events, from a state. *)
Definition comes_up (e : Z) : bool := (e =? IOTX_MQTT_EVENT_RECONNECT) || (e =? IOTX_MQTT_EVENT_SUBCRIBE_SUCCESS).
Fixpoint told (up : bool) (es : list Z) : list Z :=
  match es with
  | [] => []
  | e :: es =>
    if comes_up e then (if up then told true es else YA_CLOUD_ONLINE :: told true es)
    else if e =? IOTX_MQTT_EVENT_DISCONNECT then (if up then YA_CLOUD_OFFLINE :: told false es else told false es)
    else told up es
  end.
Definition finally (up : bool) (es : list Z) : bool :=
  foldl (fun up e => if comes_up e then true else if e =? IOTX_MQTT_EVENT_DISCONNECT then false else up) up es.
(** The statuses alternate, beginning with the change. *)
Fixpoint alternates (up : bool) (l : list Z) : Prop :=
  match l with
  | [] => True
  | x :: l => x = (if up then YA_CLOUD_OFFLINE else YA_CLOUD_ONLINE) /\ alternates (negb up) l
  end.
Lemma told_alternates up es : alternates up (told up es).
Proof.
  revert up. induction es as [|e es IH]; intros up; [done|]. cbn [told].
  destruct (comes_up e); [destruct up; [apply (IH true)|split; [done|apply (IH true)]]|].
  destruct (e =? _); [destruct up; [split; [done|apply (IH false)]|apply (IH false)]|apply IH].
Qed.

Section Aly.
Context {C H V : Type} `{Callbacks C H V} `{JsonText} `{AtEnv}.
Implicit Types (r : app * V) (a : app) (v : V) (k : aly H) (h : hw C).
Abbreviation PK := (P C (app * V * aly H)).

Definition up_flag (up : bool) : Z := if up then ALY_CONNECTED_CLOUD else ALY_UNCONNECTED_CLOUD.
(** Telling a status depends on the module only through the chain. *)
Lemma for_each_rest {A} (l : list A) (f : A -> P C (app * V) unit) r k k' h :
  for_each l (fun x => on_rest (f x)) (r, k', h) =
    match for_each l (fun x => on_rest (f x)) (r, k, h) with
    | Done x (r1, _, h1) => Done x (r1, k', h1) | Fault e => Fault e | Reset (r1, _, h1) => Reset (r1, k', h1) end.
Proof.
  revert r h. induction l as [|x l IH]; intros r h; [done|]. cbn [for_each]. unfold bind at 1. symmetry. unfold bind at 1. symmetry.
  unfold on_rest at 1 3, zoom_s, zoom. cbn [fst snd]. destruct (f x (r, h)) as [[] [r1 h1]| |[r1 h1]]; [apply IH|done|done].
Qed.
Lemma status_run s r k k' h r1 h1 : aly_listeners k' = aly_listeners k -> ya_aly_send_cloud_status s (r, k, h) = Done 0 (r1, k, h1) ->
  ya_aly_send_cloud_status s (r, k', h) = Done 0 (r1, k', h1).
Proof.
  intros Hl. unfold ya_aly_send_cloud_status, ya_send_cloud_status. rewrite !trigger_run. cbn [callback_list aly_module]. rewrite Hl.
  unfold bind. rewrite (for_each_rest _ _ r k k'). destruct (for_each _ _ (r, k, h)) as [? [[r2 k2] h2]| |[[r2 k2] h2]]; [|done|done].
  unfold ret. by intros [= -> _ ->].
Qed.
Definition tell (s : Z) : PK unit := ya_aly_send_cloud_status s ;; ret tt.
(** A status told leaves the module as it is. *)
Lemma tell_module s r k h r1 k1 h1 : tell s (r, k, h) = Done tt (r1, k1, h1) -> k1 = k /\ ya_aly_send_cloud_status s (r, k, h) = Done 0 (r1, k, h1).
Proof.
  unfold tell, bind at 1. destruct (ya_aly_send_cloud_status s (r, k, h)) as [x [[r2 k2] h2]| |] eqn:E; [|done|done]. unfold ret. intros [= -> -> ->].
  revert E. unfold ya_aly_send_cloud_status, ya_send_cloud_status. rewrite trigger_run. unfold bind, ret.
  rewrite (for_each_rest _ _ r k k). destruct (for_each _ _ (r, k, h)) as [? [[r2 k2] h2]| |[[r2 k2] h2]]; [|done|done]. intros E. simplify_eq. done.
Qed.
Lemma tells_module l r k h r1 k1 h1 : for_each l tell (r, k, h) = Done tt (r1, k1, h1) -> k1 = k.
Proof.
  revert r h. induction l as [|s l IH]; intros r h; cbn [for_each]; [by intros [= _ -> _]|]. unfold bind at 1.
  destruct (tell s (r, k, h)) as [[] [[r2 k2] h2]| |] eqn:E; [|done|done]. apply tell_module in E as [-> _]. apply IH.
Qed.
Lemma tells_transport l r k k' h r1 h1 : aly_listeners k' = aly_listeners k -> for_each l tell (r, k, h) = Done tt (r1, k, h1) ->
  for_each l tell (r, k', h) = Done tt (r1, k', h1).
Proof.
  intros Hl. revert r h. induction l as [|s l IH]; intros r h; cbn [for_each]; [by intros [= -> ->]|]. unfold bind at 1.
  destruct (tell s (r, k, h)) as [[] [[r2 k2] h2]| |] eqn:E; [|done|done]. apply tell_module in E as [-> E]. intros Et.
  erewrite bind_done; [by apply IH|]. unfold tell. by erewrite bind_done by (by apply (status_run s r k)).
Qed.
(** One event. *)
Definition told_one (up : bool) (e : Z) : list Z :=
  if comes_up e then (if up then [] else [YA_CLOUD_ONLINE])
  else if e =? IOTX_MQTT_EVENT_DISCONNECT then (if up then [YA_CLOUD_OFFLINE] else []) else [].
Lemma told_cons up e es : told up (e :: es) = told_one up e ++ told (finally up [e]) es.
Proof. unfold told_one, finally. cbn. by destruct (comes_up e), up, (e =? IOTX_MQTT_EVENT_DISCONNECT). Qed.
Definition flag_after (l : list Z) k : Z := if decide (YA_CLOUD_ONLINE ∈ l) then 1 else send_connect_flag k.
Lemma event_run up e r k h r1 h1 : aly_connected k = up_flag up -> for_each (told_one up e) tell (r, k, h) = Done tt (r1, k, h1) ->
  exists k', ya_aly_cloud_event_handle e (r, k, h) = Done tt (r1, k', h1) /\ aly_connected k' = up_flag (finally up [e]) /\
    aly_listeners k' = aly_listeners k /\ send_connect_flag k' = flag_after (told_one up e) k.
Proof.
  intros Hc. unfold ya_aly_cloud_event_handle, told_one, flag_after, finally. erewrite bind_done by reflexivity. cbn [fst snd foldl].
  fold (comes_up e). rewrite Hc. destruct (comes_up e); [|destruct (Z.eqb_spec e IOTX_MQTT_EVENT_DISCONNECT)].
  - destruct up; cbn [up_flag negb Z.eqb when ALY_CONNECTED_CLOUD ALY_UNCONNECTED_CLOUD]; [intros [= -> ->]; by exists k|]. cbn [for_each]. unfold bind at 1.
    destruct (tell _ _) as [[] [[r2 k2] h2]| |] eqn:E; [|done|done]. apply tell_module in E as [-> E]. intros [= -> ->].
    erewrite bind_done by reflexivity. cbn [fst snd].
    erewrite bind_done by (by apply (status_run _ r k)). eexists. split; [reflexivity|]. done.
  - destruct up; cbn [up_flag negb Z.eqb when ALY_CONNECTED_CLOUD ALY_UNCONNECTED_CLOUD]; [|intros [= -> ->]; by exists k]. cbn [for_each]. unfold bind at 1.
    destruct (tell _ _) as [[] [[r2 k2] h2]| |] eqn:E; [|done|done]. apply tell_module in E as [-> E]. intros [= -> ->].
    erewrite bind_done by reflexivity. cbn [fst snd].
    erewrite bind_done by (by apply (status_run _ r k)). eexists. split; [reflexivity|]. done.
  - intros [= -> ->]. by exists k.
Qed.
End Aly.

(** ** Requests and their answers *)
Lemma strstr_within x p y : strstr (x ++ p ++ y) p = true.
Proof. induction x as [|z x IH]; [cbn [List.app]; apply strstr_starts|]. cbn [List.app strstr]. by rewrite IH, orb_true_r. Qed.
Lemma cstr_within x r : no_nul x -> cstr (x ++ r) = x ++ cstr r.
Proof. induction 1 as [|z x Hz _ IH]; [done|]. cbn. destruct (Z.eqb_spec z 0); [done|]. by rewrite IH. Qed.
Section Requests.
Context {C H V : Type} `{Callbacks C H V} `{JsonText} `{AtEnv}.
Implicit Types (a : app) (v : V) (k : aly H) (h : hw C).
Definition aly_device a (pk dn : bytes) : Prop := cstr (product_key a) = pk /\ cstr (device_name a) = dn /\ len pk + len dn < 65536.
Lemma aly_names_run a v k h pk dn : aly_device a pk dn -> aly_names (a, v, k, h) = Done (pk, dn) (a, v, k, h).
Proof. intros (<- & <- & _). done. Qed.
Lemma aly_device_text a pk dn : aly_device a pk dn -> no_nul pk /\ no_nul dn.
Proof. intros (<- & <- & _). split; apply cstr_is_no_nul. Qed.
Definition request_start (pk dn : bytes) : bytes := str "/sys/" ++ pk ++ str "/" ++ dn ++ str "/rrpc/request/".
(** A topic printed into a block of junk. *)
Lemma snprintf_block {T} n m x text (t : T) : no_nul text -> len text < n <= m -> n < 4294967296 ->
  exists b, snprintf (replicate (Z.to_nat m) x) n text t = Done b t /\ cstr b = text.
Proof.
  intros Hz Hl Hn. pose proof (len_nonneg text). unfold snprintf. rewrite u32_small by (unfold is_u32; lia). destruct (Z.eqb_spec n 0); [lia|].
  rewrite take_ge by (unfold len in *; lia). eexists. split; [apply memcpy_ok; [done|rewrite len_block, len_app by lia; change (len [0]) with 1; lia]|].
  by apply cstr_splice_0.
Qed.
Lemma rrpc_response_run id resp a v k h pk dn : aly_device a pk dn -> heap h = [] -> no_nul id -> len id <= 64 -> aly_calls k = [] ->
  ya_aly_rrpc_response (id ++ 0 :: zeros (64 - len id)) resp (a, v, k, h) =
    Done 0 (a, v, aly_set_calls [] k, log (EvMqtt "publish" [rrpc_response_topic pk dn id; cstr resp]) h).
Proof.
  intros Hd Hh Hz Hl Hc. destruct (aly_device_text _ _ _ Hd) as [Hzp Hzd]. pose proof Hd as (_ & _ & Hmax).
  pose proof (len_nonneg pk). pose proof (len_nonneg dn). pose proof (len_nonneg id).
  assert (Ht : no_nul (rrpc_response_topic pk dn id)) by (unfold rrpc_response_topic, no_nul; rewrite !Forall_app; split_and!; try done; evaluate).
  assert (Hlt : len (rrpc_response_topic pk dn id) = 21 + len pk + len dn + len id).
  { unfold rrpc_response_topic. rewrite !len_app. change (len (str "/sys/")) with 5. change (len (str "/")) with 1. change (len (str "/rrpc/response/")) with 15. lia. }
  unfold ya_aly_rrpc_response. erewrite bind_done by (by apply aly_names_run). cbn beta iota zeta. rewrite cstr_app_nul by done.
  change (len (str "/sys/%s/%s/rrpc/response/%s")) with 27. erewrite bind_done by (apply spare_alloc; [done|lia]). cbn beta iota.
  match goal with |- bind (snprintf (replicate (Z.to_nat ?m) ?x) ?n ?text) _ ?t = _ =>
    destruct (snprintf_block n m x text t Ht) as (b & E & Hb); [lia|lia|] end.
  erewrite bind_done by exact E. rewrite Hb. unfold iot_mqtt, aly_answer. rewrite bind_assoc. erewrite bind_done by reflexivity. rewrite bind_assoc.
  erewrite bind_done by reflexivity. cbn [fst snd]. rewrite Hc. rewrite bind_assoc. erewrite bind_done by reflexivity. erewrite bind_done by reflexivity.
  cbn [tail]. unfold ret. erewrite bind_done by reflexivity. cbn [heap live log set_heap fst snd]. do 2 f_equal. destruct h. cbn in *. subst.
  unfold set_heap, log. cbn. f_equal. lia.
Qed.
(** The handler up to the printing of the id. *)
Lemma request_id pk dn id rest n a v k h : aly_device a pk dn -> no_nul id -> 0 ∈ rest ->
  let topic := request_start pk dn ++ id in n = len (request_start pk dn) ->
  text_at (topic ++ rest) (a, v, k, h) = Done (topic ++ cstr rest) (a, v, k, h) /\
  text_at (drop (Z.to_nat n) (topic ++ rest)) (a, v, k, h) = Done (id ++ cstr rest) (a, v, k, h) /\
  strstr (topic ++ cstr rest) (str "/rrpc/request/") = true.
Proof.
  intros Hd Hz H0r topic ->. destruct (aly_device_text _ _ _ Hd) as [Hzp Hzd].
  assert (Ht : no_nul topic) by (unfold topic, request_start, no_nul; rewrite !Forall_app; split_and!; try done; evaluate).
  split_and!.
  - unfold text_at. rewrite bool_decide_true by (apply elem_of_app; by right). by rewrite cstr_within.
  - unfold topic. rewrite <- app_assoc, drop_len by done. unfold text_at. rewrite bool_decide_true by (apply elem_of_app; by right). by rewrite cstr_within.
  - unfold topic, request_start. rewrite <- !app_assoc.
    rewrite (assoc_L (++) (str "/sys/")), (assoc_L (++) (str "/sys/" ++ pk)), (assoc_L (++) ((str "/sys/" ++ pk) ++ str "/")). apply strstr_within.
Qed.
(** The id in its array of 65. *)
Lemma id_printed {T} id tail (t : T) : len id < 65536 ->
  snprintf (zeros (64 + 1)) (len id + 1) (id ++ tail) t =
    if decide (len id <= 64) then Done (id ++ 0 :: zeros (64 - len id)) t else Fault OutOfBounds.
Proof.
  intros Hl. pose proof (len_nonneg id). unfold snprintf. rewrite u32_small by (unfold is_u32; lia). destruct (Z.eqb_spec (len id + 1) 0); [lia|].
  replace (len id + 1 - 1) with (len id) by lia.
  replace (take (Z.to_nat (len id)) (id ++ tail)) with id by (unfold len; by rewrite Nat2Z.id, take_app_length).
  destruct (decide (len id <= 64)) as [Hle|Hgt].
  - rewrite <- (app_nil_l (zeros (64 + 1))), memcpy_string by (try done; lia). cbn [List.app].
    replace (64 + 1 - len id) with (64 - len id + 1) by lia. by rewrite <- zeros_succ by lia.
  - unfold memcpy. rewrite len_zeros, len_app by lia. change (len [0]) with 1. zbool; done || lia.
Qed.
End Requests.

(** C11: The listeners hear of the Aliyun connection in turns.  Whatever events
    the library reports, in whatever order and however often it repeats itself,
    the listeners are told exactly the changes: online and offline alternate,
    beginning with the change from the state at hand, and the module ends in
    the state of the last change; an announcement to the cloud is pending
    exactly when it came online meanwhile or one was pending before. *)
Theorem aly_status_told {C H V} `{Callbacks C H V} `{JsonText} `{AtEnv}
    (es : list Z) (up : bool) (r r' : app * V) (k : aly H) (h h' : hw C) :
  aly_connected k = up_flag up -> for_each (told up es) tell (r, k, h) = Done tt (r', k, h') ->
  alternates up (told up es) /\
  exists k', for_each es ya_aly_cloud_event_handle (r, k, h) = Done tt (r', k', h') /\
    aly_connected k' = up_flag (finally up es) /\ send_connect_flag k' = flag_after (told up es) k.
Proof.
  intros Hc Ht. split; [apply told_alternates|]. revert up r k h Hc Ht. induction es as [|e es IH]; intros up r k h Hc Ht.
  { cbn in Ht. injection Ht as -> ->. by exists k. }
  rewrite told_cons in Ht. rewrite for_each_app in Ht. unfold bind at 1 in Ht.
  destruct (for_each (told_one up e) tell (r, k, h)) as [[] [[r1 k1] h1]| |] eqn:E; [|done|done]. pose proof (tells_module _ _ _ _ _ _ _ E) as ->.
  destruct (event_run up e r k h r1 h1 Hc E) as (k2 & E2 & Hc2 & Hl2 & Hf2).
  destruct (IH (finally up [e]) r1 k2 h1 Hc2) as (k3 & E3 & Hc3 & Hf3); [by apply (tells_transport _ _ k)|].
  exists k3. cbn [for_each]. erewrite bind_done by exact E2. split; [exact E3|]. split; [exact Hc3|]. rewrite Hf3. unfold flag_after. rewrite Hf2.
  unfold flag_after. rewrite told_cons. destruct (decide (_ ∈ told_one up e ++ _)) as [[Hi|Hi]%elem_of_app|Hn].
  - destruct (decide (_ ∈ told _ es)); [done|]. by rewrite decide_True.
  - by rewrite decide_True.
  - rewrite elem_of_app in Hn. rewrite !decide_False by tauto. done.
Qed.

(** ** What a request means *)
Section Meaning.
Context {C H V : Type} `{Callbacks C H V} `{JsonText}.
Implicit Types (r : app * V) (k : aly H) (h : hw C).
(** The method a document names, if it is one. *)
Definition method_item (payload : bytes) : option cJSON :=
  cJSON_Parse (cstr payload) ≫= fun j => cJSON_GetObjectItem j (str "method").
(** Whom a method concerns: the event, and what its listeners are given. *)
Definition concerned (method payload : bytes) (n : Z) : list (Z * (bytes * Z)) :=
  if strstr method (str "set") then [(CLOUD_SET_EVENT, (payload, n))]
  else if strstr method (str "upgrade") then [(CLOUD_UPGRADE_EVENT, (payload, n))]
  else if strstr method (str "unregister") then [(CLOUD_ONOFF_EVENT, ([u8 YA_CLOUD_DEBIND], 1))]
  else [].
(** The listeners of the request handle it one after the other, while the
    document occupies a block. *)
Definition blocks_held (d : Z) : P C (app * V) unit := upd_hw (fun h => set_heap (heap h) (live h + d) h).
Definition listeners_handle k (payload : bytes) (n : Z) : P C (app * V) unit :=
  match method_item payload with
  | None => match cJSON_Parse (cstr payload) with Some _ => blocks_held 1 ;; blocks_held (-1) | None => ret tt end
  | Some m =>
    blocks_held 1 ;;
    for_each (concerned (cstr (default [] (valuestring m))) payload n) (fun '(event, (data, len)) =>
      for_each (ya_cloud_event_handler <$> of_event event (aly_listeners k)) (fun x => callback x data len)) ;;
    blocks_held (-1)
  end.
Lemma for_each_on_rest {A} (l : list A) (f : A -> P C (app * V) unit) r r' k h h' :
  for_each l f (r, h) = Done tt (r', h') -> for_each l (fun x => on_rest (f x)) (r, k, h) = Done tt (r', k, h').
Proof.
  revert r h. induction l as [|x l IH]; intros r h; cbn [for_each]; [by intros [= <- <-]|].
  unfold bind. unfold on_rest at 1, zoom_s, zoom. cbn [fst snd]. destruct (f x (r, h)) as [[] [r1 h1]| |]; [|done|done]. cbn [fst snd]. apply IH.
Qed.
Lemma told_run event data n r r' k h h' :
  for_each (ya_cloud_event_handler <$> of_event event (aly_listeners k)) (fun x => callback x data n) (r, h) = Done tt (r', h') ->
  trigger_event_listener event data n (r, k, h) = Done 0 (r', k, h').
Proof. intros E. rewrite trigger_run. cbn [callback_list aly_module]. by erewrite bind_done by (by apply for_each_on_rest). Qed.
(** The transfer: the listeners are told, and the answer tells whether there
    was a method. *)
Lemma aly_transfer_run payload n r r' k h h' : overruns (cstr payload) = false -> heap h = [] ->
  (forall m, method_item payload = Some m -> is_Some (valuestring m)) ->
  listeners_handle k payload n (r, h) = Done tt (r', h') ->
  ya_aly_subscribe_event_transfer payload n (r, k, h) = Done (if method_item payload then 0 else -1) (r', k, h').
Proof.
  intros Ho Hh Hm. unfold ya_aly_subscribe_event_transfer, subscribe_event_transfer, listeners_handle, method_item, json_parse in *.
  rewrite (read_ok _ Ho). destruct (cJSON_Parse (cstr payload)) as [j|]; [|by intros [= <- <-]]. cbn [mbind option_bind] in *.
  erewrite bind_done by (by apply take_spare). cbn beta iota. destruct (cJSON_GetObjectItem j (str "method")) as [m|].
  2: { by intros [= <- <-]. }
  destruct (Hm m eq_refl) as [v Hv]. rewrite Hv. cbn [default]. change (id v) with v. erewrite bind_done by reflexivity.
  intros E. erewrite bind_done by reflexivity. revert E. cbn [fst snd]. set (h1 := set_heap (heap h) (live h + 1) h).
  unfold concerned.
  assert (Hone : forall event data len (k1 : P C (app * V) unit), (for_each [(event, (data, len))] (fun '(event, (data, len)) =>
      for_each (ya_cloud_event_handler <$> of_event event (aly_listeners k)) (fun x => callback x data len)) ;; k1) (r, h1) = Done tt (r', h') ->
      exists r2 h2, trigger_event_listener event data len (r, k, h1) = Done 0 (r2, k, h2) /\ k1 (r2, h2) = Done tt (r', h')).
  { intros event data len k1. cbn [for_each]. unfold bind at 1 2.
    destruct (for_each (ya_cloud_event_handler <$> of_event event (aly_listeners k)) (fun x => callback x data len) (r, h1)) as [[] [r2 h2]| |] eqn:E; [|done|done].
    unfold ret. intros E2. exists r2, h2. split; [by apply told_run|exact E2]. }
  destruct (strstr (cstr v) (str "set")); [|destruct (strstr (cstr v) (str "upgrade")); [|destruct (strstr (cstr v) (str "unregister"))]].
  1-3: intros (r2 & h2 & Et & Ef)%Hone; erewrite bind_done by exact Et; unfold cJSON_Delete; injection Ef as <- <-; reflexivity.
  intros [= <- <-]. reflexivity.
Qed.
End Meaning.

(** C12: A request of the Aliyun cloud is handed on and answered under its own id.
    A message received on the topic [/sys/<key>/<name>/rrpc/request/<id>] with an
    id of at most 64 characters goes to the listeners its method concerns, if its
    document names one, and is answered on [/sys/<key>/<name>/rrpc/response/<id>]:
    with code 0 exactly when the payload is a document with a method (whether
    or not any listener is concerned), and with -1 when it is not one or names
    no method; no memory is kept beyond what the listeners keep.  A longer id
    is printed past the end of its array.  (With memory to spare, a parser that
    does not overrun on the payload, and methods that are strings.) *)
Theorem aly_request_answered {C H V} `{Callbacks C H V} `{JsonText} `{AtEnv}
    (pk dn id rest payload : bytes) (n : Z) (a a' : app) (v v' : V) (k : aly H) (h h' : hw C) :
  aly_device a' pk dn -> no_nul id -> 0 ∈ rest -> len id < 65536 ->
  overruns (cstr payload) = false -> (forall m, method_item payload = Some m -> is_Some (valuestring m)) ->
  listeners_handle k payload (u16 n) (a, v, h) = Done tt (a', v', h') ->
  heap h = [] -> heap h' = [] -> aly_calls k = [] ->
  let topic := request_start pk dn ++ id in
  let run := aly_callback_handler IOTX_MQTT_EVENT_PUBLISH_RECEIVED (topic ++ rest) (len topic) payload n (a, v, k, h) in
  let code := if method_item payload then 0 else -1 in
  if decide (len id <= MSG_ID_LEN_MAX) then
    run = Done tt (a', v', aly_set_calls [] k, log (EvMqtt "publish" [rrpc_response_topic pk dn id; resp_text code]) h')
  else run = Fault OutOfBounds.
Proof.
  intros Hd Hz Hr Hl Hov Htx Hcb Hh0 Hh Hc topic run rc. pose proof (len_nonneg id). unfold MSG_ID_LEN_MAX.
  pose proof (aly_transfer_run payload (u16 n) (a, v) (a', v') k h h' Hov Hh0 Htx Hcb) as Htr. fold rc in Htr.
  assert (Hrc : rc = 0 \/ rc = -1) by (unfold rc; destruct (method_item payload); auto).
  destruct (request_id pk dn id rest (len (request_start pk dn)) a' v' k h' Hd Hz Hr eq_refl) as (E1 & E2 & E3). fold topic in E1, E2, E3.
  assert (Hn : len (str "/sys///rrpc/request/") + len pk + len dn = len (request_start pk dn)).
  { unfold request_start. rewrite !len_app. change (len (str "/sys///rrpc/request/")) with 20. change (len (str "/sys/")) with 5.
    change (len (str "/")) with 1. change (len (str "/rrpc/request/")) with 14. lia. }
  assert (Hid : len topic - len (request_start pk dn) = len id) by (unfold topic; rewrite len_app; lia).
  unfold run, aly_callback_handler, MSG_ID_LEN_MAX. change (IOTX_MQTT_EVENT_PUBLISH_RECEIVED =? IOTX_MQTT_EVENT_PUBLISH_RECEIVED) with true. cbn beta iota.
  erewrite bind_done by exact Htr. erewrite bind_done by exact E1. rewrite E3. cbn [when]. erewrite bind_done by (by apply aly_names_run).
  cbn beta iota zeta. rewrite Hn, Hid. erewrite bind_done by exact E2. pose proof (id_printed id (cstr rest) (a', v', k, h') Hl) as Ep.
  destruct (decide (len id <= 64)) as [Hle|Hgt]; [|unfold bind at 1; by rewrite Ep]. erewrite bind_done by exact Ep.
  assert (Hzr : no_nul (resp_text rc) /\ len (resp_text rc) < 128) by (destruct Hrc as [->| ->]; (split; [evaluate|by vm_compute])).
  destruct Hzr as [Hzr Hlr]. erewrite bind_done by (apply snprintf_zeros; lia).
  erewrite bind_done by (by apply (rrpc_response_run id _ _ _ _ _ pk dn)). rewrite cstr_zeros by (done || lia). done.
Qed.

(** ** Witnesses *)
Definition aly_app : app := set_names (str "a1Key" ++ zeros 16) (str "dev1" ++ zeros 29) sample_app.
Definition aly_online : aly unit := mkAly [] ALY_CONNECTED_CLOUD 0 true [] [].
#[local] Instance silent_callbacks : Callbacks ideal unit unit := {| callback _ _ _ := ret tt |}.
#[local] Instance set_text : JsonText :=
  json_of (fun s => if bool_decide (s = str "{}") then Some (jroot [jstr "method" "thing.service.device.property.set"]) else None) (fun _ => None).
Lemma aly_status_told_witness :
  exists k', for_each [3; 2; 1; 7; 1; 2] ya_aly_cloud_event_handle (aly_app, tt, aly_set_connected 0 aly_online, boot) = Done tt (aly_app, tt, k', boot) /\
    told false [3; 2; 1; 7; 1; 2] = [YA_CLOUD_ONLINE; YA_CLOUD_OFFLINE; YA_CLOUD_ONLINE] /\ aly_connected k' = ALY_CONNECTED_CLOUD.
Proof.
  destruct (aly_status_told [3; 2; 1; 7; 1; 2] false (aly_app, tt) (aly_app, tt) (aly_set_connected 0 aly_online) boot boot) as (_ & k' & E & Hc & _);
    [reflexivity|reflexivity|]. exists k'. split; [exact E|]. split; [reflexivity|exact Hc].
Defined.
Lemma aly_request_answered_witness :
  let topic := request_start (str "a1Key") (str "dev1") ++ str "77" in
  aly_callback_handler IOTX_MQTT_EVENT_PUBLISH_RECEIVED (topic ++ [123; 125; 0]) (len topic)
    (str "{}" ++ [0]) 2 (aly_app, tt, aly_online, boot) =
  Done tt (aly_app, tt, aly_set_calls [] aly_online, log (EvMqtt "publish" [rrpc_response_topic (str "a1Key") (str "dev1") (str "77"); resp_text 0]) boot).
Proof.
  intros topic.
  pose proof (aly_request_answered (str "a1Key") (str "dev1") (str "77") [123; 125; 0] (str "{}" ++ [0]) 2 aly_app aly_app tt tt aly_online boot boot) as E.
  cbv zeta in E. rewrite decide_True in E by done. apply E.
  - split; [by vm_compute|]. split; [by vm_compute|]. by vm_compute.
  - evaluate.
  - do 2 right. left.
  - by vm_compute.
  - reflexivity.
  - intros m [= <-]. by eexists.
  - reflexivity.
  - reflexivity.
  - reflexivity.
  - reflexivity.
Defined.
