(* ===== verification/CloudConn.v ===== *)
(** * The table of a connection: [cloud_context_t] of [cloud.h] and [cloud.c]

    [cloud_conn] points to a table of functions, filled by one of the two
    modules; the rest of the firmware calls the cloud only through it.  The
    other files see the connection as an interface ([CloudEnv]); here is what
    stands behind it. *)

From stdpp Require Import base numbers list strings.
From S2P Require Import Prelude Platform CommonFunc HalTimer CJson License Cloud UserData AppMain AtCmd CloudEvents AwsCloud AlyCloud CloudProofs.

(** The functions of a table act on the application, the other tasks and both
    modules. *)
Record cloud_context_t (C H S : Type) := mkContext {
  add_listener : option bytes -> Z -> H -> P C S Z;
  remove_listener : option bytes -> Z -> P C S Z;
  send_msg : bytes -> Z -> P C S Z;
  start_cloud : P C S Z;
  cloud_get_client_id : P C S (option bytes);
  cloud_get_thing_name : P C S (option bytes);
  cloud_get_status : P C S Z }.
Arguments mkContext {C H S}. Arguments add_listener {C H S}. Arguments remove_listener {C H S}. Arguments send_msg {C H S}.
Arguments start_cloud {C H S}. Arguments cloud_get_client_id {C H S}. Arguments cloud_get_thing_name {C H S}. Arguments cloud_get_status {C H S}.
Definition SIZEOF_CONTEXT : Z := 32.

Section Conn.
Context {C H V : Type} `{Callbacks C H V} `{JsonText} `{AtEnv}.
Abbreviation S := (app * V * (aws H * aly H))%type.
Definition in_aws {A} (m : P C (app * V * aws H) A) : P C S A := zoom_s (fun s => (s.1, s.2.1)) (fun u s => (u.1, (u.2, s.2.2))) m.
Definition in_aly {A} (m : P C (app * V * aly H) A) : P C S A := zoom_s (fun s => (s.1, s.2.2)) (fun u s => (u.1, (s.2.1, u.2))) m.

Definition aws_context : cloud_context_t C H S := {|
  add_listener n e x := in_aws (ya_add_aws_cloud_event_listener n e x);
  remove_listener n e := in_aws (ya_remove_aws_cloud_event_listener n e);
  send_msg d n := in_aws (ya_report_msg_to_aws_cloud d n);
  start_cloud := in_aws ya_start_cloud_aws_app;
  cloud_get_client_id := in_aws (on_app (in_lic ya_aws_get_client_id));
  cloud_get_thing_name := in_aws (on_app (in_lic ya_aws_get_thing_type));
  cloud_get_status := in_aws ya_aws_get_cloud_status |}.
Definition aly_context : cloud_context_t C H S := {|
  add_listener n e x := in_aly (ya_add_aly_cloud_event_listener n e x);
  remove_listener n e := in_aly (ya_remove_aly_cloud_event_listener n e);
  send_msg d n := in_aly (ya_report_msg_to_aly_cloud d n);
  start_cloud := in_aly ya_start_cloud_aly_app;
  cloud_get_client_id := in_aly (on_app ya_aly_get_client_id);
  cloud_get_thing_name := in_aly (on_app ya_aly_get_thing_name);
  cloud_get_status := in_aly ya_ali_get_cloud_status |}.
(** The table of the type in [a_conn]; NULL without one. *)
Definition cloud_conn : P C S (option (cloud_context_t C H S)) :=
  let* a := gets (fun s => s.1.1) in
  ret (match a_conn a with
       | None => None
       | Some ty => Some (if ty =? WIFI_CN then aly_context else aws_context)
       end).
(** Call through [cloud_conn], or answer [d] without one. *)
Definition through {A} (d : A) (f : cloud_context_t C H S -> P C S A) : P C S A :=
  let* c := cloud_conn in match c with Some c => f c | None => ret d end.
Definition cloud_add_event_listener (n : option bytes) (e : Z) (x : H) : P C S Z := through (-1) (fun c => add_listener c n e x).
Definition cloud_remove_event_listener (n : option bytes) (e : Z) : P C S Z := through (-1) (fun c => remove_listener c n e).
Definition conn_report_msg (data : bytes) (data_len : Z) : P C S Z := through (-1) (fun c => send_msg c data data_len).
Definition conn_get_client_id : P C S (option bytes) := through None cloud_get_client_id.
Definition conn_get_thing_type : P C S (option bytes) := through None cloud_get_thing_name.
Definition conn_get_cloud_status : P C S Z := through 0 cloud_get_status.
Definition conn_start : P C S Z := through (-1) start_cloud.

(** The tables are blocks of memory; NULL without any. *)
Definition create (ty : Z) : P C S (option Z) :=
  let* p := ya_hal_os_memory_alloc SIZEOF_CONTEXT in ret (match p with Some _ => Some ty | None => None end).
Definition ya_aws_cloud_create (cloud_type : Z) : P C S (option Z) :=
  in_aws (mputs (aws_set_domain (u8 cloud_type))) ;; create cloud_type.
Definition aliyun_cloud_create : P C S (option Z) := create WIFI_CN.
Definition set_cloud_conn (c : option Z) : P C S unit := puts (fun s => (set_conn c s.1.1, s.1.2, s.2)).
Definition conn_create (cloud_type : Z) : P C S Z :=
  (if cloud_type =? WIFI_CN then let* c := aliyun_cloud_create in set_cloud_conn c
   else if (cloud_type =? WIFI_US) || (cloud_type =? WIFI_EU) then let* c := ya_aws_cloud_create cloud_type in set_cloud_conn c
   else ret tt) ;;
  let* a := gets (fun s => s.1.1) in
  ret (match a_conn a with Some _ => 0 | None => -1 end).
(** The tasks of [ya_hardware_app.c] and [ya_ota.c] register through the table. *)
Definition ya_add_hareware_listen_event_from_cloud (onoff set : H) : P C S unit :=
  cloud_add_event_listener (Some (str "ya_app_hardware thread" ++ [0])) CLOUD_ONOFF_EVENT onoff ;;
  cloud_add_event_listener (Some (str "ya_app_hardware thread" ++ [0])) CLOUD_SET_EVENT set ;; ret tt.
Definition ya_ota_add_event_listener (upgrade onoff : H) : P C S unit :=
  cloud_add_event_listener (Some (str "ya_http_ota_app thread" ++ [0])) CLOUD_UPGRADE_EVENT upgrade ;;
  cloud_add_event_listener (Some (str "ya_http_ota_app thread" ++ [0])) CLOUD_ONOFF_EVENT onoff ;; ret tt.
End Conn.

(** ** The interface the other files use is what the tables do *)
Section Refines.
Context {C H V : Type} `{Callbacks C H V} `{JsonText} `{AtEnv} `{CloudEnv}.
Implicit Types (a : app) (v : V) (h : hw C).
(** Whether a table can be allocated. *)
Definition fresh_block h : bool := match heap h with false :: _ => false | _ => true end.
Lemma conn_create_refines ty a v (k : aws H) (y : aly H) h : (forall x, cloud_context x = fresh_block h) ->
  exists k' h', conn_create ty (a, v, (k, y), h) =
    Done (cloud_create (a_conn a) ty).2 (set_conn (cloud_create (a_conn a) ty).1 a, v, (k', y), h').
Proof.
  intros Hc. unfold conn_create, cloud_create, aliyun_cloud_create, ya_aws_cloud_create, create, set_cloud_conn, fresh_block in *.
  destruct (ty =? WIFI_CN); [|destruct ((ty =? WIFI_US) || (ty =? WIFI_EU))]; rewrite ?Hc.
  - rewrite !bind_assoc. unfold bind at 1, ya_hal_os_memory_alloc. cbn [Z.eqb]. destruct (heap h) as [|[] hp]; by eexists _, _.
  - rewrite !bind_assoc. erewrite bind_done by reflexivity. cbn [fst snd]. rewrite bind_assoc. unfold bind at 1, ya_hal_os_memory_alloc.
    cbn [Z.eqb]. destruct (heap h) as [|[] hp]; by eexists _, _.
  - erewrite bind_done by reflexivity. erewrite bind_done by reflexivity. cbn [fst snd]. exists k, h. unfold ret. do 2 f_equal. by destruct a.
Qed.
End Refines.
