(* ===== verification/CJsonText.v ===== *)
(** * JSON text: the parser and the printer of [platform/json/cJSON.c]

    The other files see JSON text through an interface ([CJson.JsonText]).  Here
    is the code behind it: reading a text into a tree of items, writing a tree
    as text, and deleting a tree, with every allocation, and every access to
    the text and to the blocks checked.  A pointer into the text is the list of
    the bytes from it to the end of the block. *)

From stdpp Require Import base numbers list strings.
From Stdlib Require Import SpecFloat.
From S2P Require Import Prelude Platform CommonFunc Double CJson.

Definition cJSON_True : Z := 1.
Definition cJSON_NULL : Z := 2.
Definition cJSON_IsReference : Z := 256.
Definition cJSON_StringIsConst : Z := 512.
Definition SIZEOF_CJSON : Z := 40.

(** [struct cJSON], with its number; [Node None 0 None 0 0 []] is an item all of
    zeros.  Strings are kept as the text before their terminator. *)
Inductive node :=
| Node (string : option bytes) (type : Z) (valuestring : option bytes) (valueint : Z) (valuedouble : spec_float) (child : list node).
Definition n_string (n : node) : option bytes := let '(Node s _ _ _ _ _) := n in s.
Definition n_type (n : node) : Z := let '(Node _ t _ _ _ _) := n in t.
Definition n_valuestring (n : node) : option bytes := let '(Node _ _ v _ _ _) := n in v.
Definition n_child (n : node) : list node := let '(Node _ _ _ _ _ c) := n in c.
Definition fresh_node : node := Node None 0 None 0 (S754_zero false) [].
Definition set_type ty n := let '(Node s _ v i d c) := n in Node s ty v i d c.
Definition set_child l n := let '(Node s t v i d _) := n in Node s t v i d l.
(** [item->valuestring = out; item->type = cJSON_String]. *)
Definition set_text x n := let '(Node s _ _ i d c) := n in Node s cJSON_String (Some x) i d c.
(** [child->string = child->valuestring; child->valuestring = 0]. *)
Definition take_key n := let '(Node _ t v i d c) := n in Node v t None i d c.
Definition set_number i d n := let '(Node s _ v _ _ c) := n in Node s cJSON_Number v i d c.
Definition set_valueint i n := let '(Node s t v _ d c) := n in Node s t v i d c.

(** [pow] of the C library, and what the compiler makes of the conversion of a
    number outside the range of [int]. *)
Class Libm := { pow : spec_float -> spec_float -> spec_float; int_outside : spec_float -> Z }.
(** [pow(x, 0)] is 1. *)
Class LibmLaws `{Libm} := { pow_zero : forall x, pow x (S754_zero false) = d_of_int 1 }.
Definition d_to_int `{Libm} (f : spec_float) : Z := if d_fits f then d_int f else int_outside f.

Section Text.
Context {T : Type}.
(** [skip], on a pointer that is not NULL. *)
Fixpoint skip (s : bytes) : M T bytes :=
  match s with
  | [] => fail OutOfBounds
  | c :: r => if negb (c =? 0) && (c <=? 32) then skip r else ret s
  end.
(** [!strncmp(value, word, strlen(word))]. *)
Fixpoint starts (word s : bytes) : M T bool :=
  match word with
  | [] => ret true
  | x :: word =>
    match s with
    | [] => fail OutOfBounds
    | c :: s => if c =? x then starts word s else ret false
    end
  end.

(** ** Strings *)
(** One digit of [parse_hex4]. *)
Definition hex_digit (c : Z) : option Z :=
  if (48 <=? c) && (c <=? 57) then Some (c - 48)
  else if (65 <=? c) && (c <=? 70) then Some (10 + c - 65)
  else if (97 <=? c) && (c <=? 102) then Some (10 + c - 97)
  else None.
(** [n] more digits after [h]; 0 at the first that is none. *)
Fixpoint parse_hex (n : nat) (h : Z) (s : bytes) : M T Z :=
  match n with
  | O => ret h
  | S n =>
    let* c := rd s 0 in
    match hex_digit c with Some d => parse_hex n (u32 (16 * h) + d) (drop 1 s) | None => ret 0 end
  end.
Definition parse_hex4 (s : bytes) : M T Z := parse_hex 4 0 s.
(** The bytes of the [switch (len)], which falls through from the last byte of
    the sequence to the first. *)
Definition trailing (uc : Z) : Z := Z.land (Z.lor uc 0x80) 0xBF.
Definition utf8 (uc : Z) : bytes :=
  u8 <$>
  (if uc <? 0x80 then [uc]
   else if uc <? 0x800 then [Z.lor (Z.shiftr uc 6) 0xC0; trailing uc]
   else if uc <? 0x10000 then [Z.lor (Z.shiftr uc 12) 0xE0; trailing (Z.shiftr uc 6); trailing uc]
   else [Z.lor (Z.shiftr uc 18) 0xF0; trailing (Z.shiftr uc 12); trailing (Z.shiftr uc 6); trailing uc]).
(** [\u]: [s] points at the [u], and stays at the last digit read; [None] is
    [break], nothing to write. *)
Definition parse_unicode (s : bytes) : M T (bytes * option Z) :=
  let* uc := parse_hex4 (drop 1 s) in
  let s := drop 4 s in
  if (0xDC00 <=? uc) && (uc <=? 0xDFFF) || (uc =? 0) then ret (s, None)
  else if (0xD800 <=? uc) && (uc <=? 0xDBFF) then
    let* a := rd s 1 in
    if negb (a =? 92) then ret (s, None)
    else
      let* b := rd s 2 in
      if negb (b =? 117) then ret (s, None)
      else
        let* uc2 := parse_hex4 (drop 3 s) in
        let s := drop 6 s in
        if (uc2 <? 0xDC00) || (0xDFFF <? uc2) then ret (s, None)
        else ret (s, Some (0x10000 + Z.lor (Z.shiftl (Z.land uc 0x3FF) 10) (Z.land uc2 0x3FF)))
  else ret (s, Some uc).
(** The characters [\b \f \n \r \t]. *)
Definition control (c : Z) : option Z :=
  if c =? 98 then Some 8 else if c =? 102 then Some 12 else if c =? 110 then Some 10
  else if c =? 114 then Some 13 else if c =? 116 then Some 9 else None.
(** What follows a backslash: written at [out + i]. *)
Definition unescape (s out : bytes) (i : Z) : M T (bytes * bytes * Z) :=
  let* c := rd s 0 in
  match control c with
  | Some x => let* out := wr out i x in ret (drop 1 s, out, i + 1)
  | None =>
    if c =? 117 then
      let* '(s, uc) := parse_unicode s in
      match uc with
      | None => ret (drop 1 s, out, i)
      | Some uc => let* out := memcpy out i (utf8 uc) in ret (drop 1 s, out, i + len (utf8 uc))
      end
    else let* out := wr out i c in ret (drop 1 s, out, i + 1)
  end.
(** The first pass: how long the string is, roughly. *)
Fixpoint count_string (s : bytes) (n : Z) : M T Z :=
  match s with
  | [] => fail OutOfBounds
  | c :: r =>
    if (c =? 34) || (c =? 0) then ret n
    else if c =? 92 then match r with [] => fail OutOfBounds | _ :: r => count_string r (n + 1) end
    else count_string r (n + 1)
  end.
(** The second pass.  Every round takes at least one byte of the block, so that
    [fuel], the bytes left, is 0 only behind its end. *)
Fixpoint copy_string (fuel : nat) (s out : bytes) (i : Z) : M T (bytes * bytes * Z) :=
  match fuel with
  | O => fail OutOfBounds
  | S fuel =>
    let* c := rd s 0 in
    if (c =? 34) || (c =? 0) then ret (s, out, i)
    else if negb (c =? 92) then let* out := wr out i c in copy_string fuel (drop 1 s) out (i + 1)
    else let* '(s, out, i) := unescape (drop 1 s) out i in copy_string fuel s out i
  end.

(** ** Numbers *)
Definition d_ten : spec_float := d_of_int 10.
(** The loop [n = n*10.0 + digit], counting the digits. *)
Fixpoint number_digits (n : spec_float) (k : Z) (s : bytes) : M T (spec_float * Z * bytes) :=
  match s with
  | [] => fail OutOfBounds
  | c :: r => if is_digit c then number_digits (dadd (dmul n d_ten) (d_of_int (c - 48))) (k + 1) r else ret (n, k, s)
  end.
Fixpoint exponent_digits (e : Z) (s : bytes) : M T (Z * bytes) :=
  match s with
  | [] => fail OutOfBounds
  | c :: r => if is_digit c then exponent_digits (i32 (e * 10 + (c - 48))) r else ret (e, s)
  end.
Definition exponent (s : bytes) : M T (Z * bytes) :=
  let* c := rd s 0 in
  if (c =? 101) || (c =? 69) then
    let* c := rd s 1 in
    let* '(e, s) := exponent_digits 0 (drop (if (c =? 43) || (c =? 45) then 2 else 1) s) in
    ret (i32 (if c =? 45 then - e else e), s)
  else ret (0, s).
(** [scale] counts down from 0, exactly. *)
Definition parse_number `{Libm} (item : node) (num : bytes) : M T (node * option bytes) :=
  let* c := rd num 0 in
  let sign := d_of_int (if c =? 45 then -1 else 1) in
  let num := if c =? 45 then drop 1 num else num in
  let* c := rd num 0 in
  let num := if c =? 48 then drop 1 num else num in
  let* c := rd num 0 in
  let zero := S754_zero false in
  let* '(n, _, num) := if (49 <=? c) && (c <=? 57) then number_digits zero 0 num else ret (zero, 0, num) in
  let* c := rd num 0 in
  let* '(n, k, num) :=
    if c =? 46 then let* d := rd num 1 in if is_digit d then number_digits n 0 (drop 1 num) else ret (n, 0, num)
    else ret (n, 0, num) in
  let* '(e, num) := exponent num in
  let n := dmul (dmul sign n) (pow d_ten (dadd (d_of_int (- k)) (d_of_int e))) in
  ret (set_number (d_to_int n) n item, Some num).
End Text.

Section Parse.
Context {C S : Type} `{Libm}.
Abbreviation PJ := (P C S).

(** [cJSON_New_Item]. *)
Definition cJSON_New_Item : PJ (option node) :=
  let* p := ya_hal_os_memory_alloc SIZEOF_CJSON in ret (match p with Some _ => Some fresh_node | None => None end).
(** The parsers return the item as far as it has got, and the pointer, or NULL. *)
Definition parse_string (item : node) (s : bytes) : PJ (node * option bytes) :=
  let* c := rd s 0 in
  if negb (c =? 34) then ret (item, None)
  else
    let* n := count_string (drop 1 s) 0 in
    let* p := ya_hal_os_memory_alloc (n + 1) in
    match p with
    | None => ret (item, None)
    | Some out =>
      let* '(s, out, i) := copy_string (length s) (drop 1 s) out 0 in
      let* out := wr out i 0 in
      let* c := rd s 0 in
      ret (set_text (cstr out) item, Some (if c =? 34 then drop 1 s else s))
    end.

Section Values.
(** [parse_value], of the nested values. *)
Context (value : node -> bytes -> PJ (node * option bytes)).
(** [skip(parse_value(child, skip(s)))]. *)
Definition spaced_value (item : node) (s : bytes) : PJ (node * option bytes) :=
  let* s := skip s in
  let* '(item, r) := value item s in
  match r with None => ret (item, None) | Some s => let* s := skip s in ret (item, Some s) end.
Definition member_value (item : node) (s : bytes) : PJ (node * option bytes) :=
  let* s := skip s in
  let* '(item, r) := parse_string item s in
  match r with
  | None => ret (item, None)
  | Some s =>
    let* s := skip s in
    let item := take_key item in
    let* c := rd s 0 in
    if negb (c =? 58) then ret (item, None) else spaced_value item (drop 1 s)
  end.
Section Items.
Context (close : Z) (element : node -> bytes -> PJ (node * option bytes)).
(** The loop while a comma follows: the further children, and the end.  Every round
    takes a byte. *)
Fixpoint more_items (fuel : nat) (s : bytes) : PJ (list node * option bytes) :=
  let* c := rd s 0 in
  if negb (c =? 44) then ret ([], if c =? close then Some (drop 1 s) else None)
  else
    match fuel with
    | O => fail OutOfBounds
    | Datatypes.S fuel =>
      let* p := cJSON_New_Item in
      match p with
      | None => ret ([], None)
      | Some new_item =>
        let* '(child, r) := element new_item (drop 1 s) in
        match r with
        | None => ret ([child], None)
        | Some s => let* '(l, r) := more_items fuel s in ret (child :: l, r)
        end
      end
    end.
Definition parse_items (item : node) (s : bytes) : PJ (node * option bytes) :=
  let* s := skip (drop 1 s) in
  let* c := rd s 0 in
  if c =? close then ret (item, Some (drop 1 s))
  else
    let* p := cJSON_New_Item in
    match p with
    | None => ret (item, None)
    | Some child =>
      let* '(child, r) := element child s in
      match r with
      | None => ret (set_child [child] item, None)
      | Some s => let* '(l, r) := more_items (length s) s in ret (set_child (child :: l) item, r)
      end
    end.
End Items.
Definition parse_array (item : node) (s : bytes) : PJ (node * option bytes) :=
  let* c := rd s 0 in
  if negb (c =? 91) then ret (item, None) else parse_items 93 spaced_value (set_type cJSON_Array item) s.
Definition parse_object (item : node) (s : bytes) : PJ (node * option bytes) :=
  let* c := rd s 0 in
  if negb (c =? 123) then ret (item, None) else parse_items 125 member_value (set_type cJSON_Object item) s.
End Values.

(** A nested value starts at least one byte later; [fuel] is the number of
    bytes left. *)
Fixpoint parse_value (fuel : nat) (item : node) (s : bytes) : PJ (node * option bytes) :=
  match fuel with
  | O => fail OutOfBounds
  | Datatypes.S fuel =>
    let* b := starts (str "null") s in
    if (b : bool) then ret (set_type cJSON_NULL item, Some (drop 4 s))
    else
    let* b := starts (str "false") s in
    if (b : bool) then ret (set_type cJSON_False item, Some (drop 5 s))
    else
    let* b := starts (str "true") s in
    if (b : bool) then ret (set_valueint 1 (set_type cJSON_True item), Some (drop 4 s))
    else
    let* c := rd s 0 in
    if c =? 34 then parse_string item s
    else if (c =? 45) || is_digit c then parse_number item s
    else if c =? 91 then parse_array (parse_value fuel) item s
    else if c =? 123 then parse_object (parse_value fuel) item s
    else ret (item, None)
  end.

(** [cJSON_Delete], for one item of a chain. *)
Definition each (f : node -> PJ unit) : list node -> PJ unit :=
  fix go l := match l with [] => ret tt | x :: l => f x ;; go l end.
Fixpoint cJSON_delete (n : node) : PJ unit :=
  match n with
  | Node s ty v _ _ c =>
    let owned := Z.land ty cJSON_IsReference =? 0 in
    when owned (each cJSON_delete c) ;;
    when owned (free_if v) ;;
    when (Z.land ty cJSON_StringIsConst =? 0) (free_if s) ;;
    ya_hal_os_memory_free
  end.

Definition cJSON_ParseWithOpts (value : bytes) (require_null_terminated : bool) : PJ (option (node * bytes)) :=
  let* p := cJSON_New_Item in
  match p with
  | None => ret None
  | Some c =>
    let* value := skip value in
    let* '(c, e) := parse_value (length value) c value in
    match e with
    | None => cJSON_delete c ;; ret None
    | Some e =>
      if require_null_terminated then
        let* e := skip e in
        let* x := rd e 0 in
        if negb (x =? 0) then cJSON_delete c ;; ret None else ret (Some (c, e))
      else ret (Some (c, e))
    end
  end.
Definition cJSON_parse (value : bytes) : PJ (option node) :=
  let* r := cJSON_ParseWithOpts value false in ret (fst <$> r).
End Parse.

(** ** Printing, into blocks of its own ([p] is NULL) *)
Section Print.
Context {C S : Type} `{Libm}.
Abbreviation PJ := (P C S).

(** [strcpy] or [sprintf] of a text into a new block of [n] bytes. *)
Definition print_text (n : Z) (text : bytes) : PJ (option bytes) :=
  let* p := ya_hal_os_memory_alloc n in
  match p with None => ret None | Some out => let* out := memcpy out 0 (text ++ [0]) in ret (Some out) end.
Definition DBL_EPSILON : spec_float := binary_normalize 53 1024 1 (-52) false.
Definition print_number (i : Z) (d : spec_float) : PJ (option bytes) :=
  if SFeqb d (S754_zero false) then print_text 2 (str "0")
  else if SFleb (SFabs (dsub (d_of_int i) d)) DBL_EPSILON && SFleb d (d_of_int 2147483647) && SFleb (d_of_int (-2147483648)) d
  then print_text 21 (ya_int_to_string i)
  else
    let whole := d_to_int d in
    print_text 64 (ya_int_to_string whole ++ [46] ++ ya_int_to_string (d_to_int (dmul (dsub d (d_of_int whole)) d_ten))).

(** [(c > 0 && c < 32) || c == quote || c == backslash], for a character that is
    not the terminator. *)
Definition needs_escape (c : Z) : bool := (c <? 32) || (c =? 34) || (c =? 92).
(** The characters with an escape of one letter. *)
Definition short_escape (c : Z) : option Z :=
  if c =? 92 then Some 92 else if c =? 34 then Some 34 else if c =? 8 then Some 98 else if c =? 12 then Some 102
  else if c =? 10 then Some 110 else if c =? 13 then Some 114 else if c =? 9 then Some 116 else None.
Definition escaped_length (c : Z) : Z := match short_escape c with Some _ => 2 | None => if c <? 32 then 6 else 1 end.
Fixpoint escape_loop (s out : bytes) (i : Z) : PJ (bytes * Z) :=
  match s with
  | [] => ret (out, i)
  | c :: s =>
    if negb (needs_escape c) then let* out := wr out i c in escape_loop s out (i + 1)
    else
      let* out := wr out i 92 in
      match short_escape c with
      | Some x => let* out := wr out (i + 1) x in escape_loop s out (i + 2)
      | None => let* out := memcpy out (i + 1) (117 :: hex_pad 4 c ++ [0]) in escape_loop s out (i + 6)
      end
  end.
Definition print_string_ptr (text : option bytes) : PJ (option bytes) :=
  let* text := deref text in
  let s := cstr text in
  if negb (existsb needs_escape s) then
    let* p := ya_hal_os_memory_alloc (len s + 3) in
    match p with
    | None => ret None
    | Some out =>
      let* out := wr out 0 34 in
      let* out := memcpy out 1 (s ++ [0]) in
      let* out := wr out (len s + 1) 34 in
      let* out := wr out (len s + 2) 0 in
      ret (Some out)
    end
  else
    let* p := ya_hal_os_memory_alloc (foldr (fun c n => escaped_length c + n) 0 s + 3) in
    match p with
    | None => ret None
    | Some out =>
      let* out := wr out 0 34 in
      let* '(out, i) := escape_loop s out 1 in
      let* out := wr out i 34 in
      let* out := wr out (i + 1) 0 in
      ret (Some out)
    end.

(** The texts of the children, up to the first that fails. *)
Definition entry_texts {A} (f : node -> PJ (option A)) : list node -> PJ (list A * bool) :=
  fix go l :=
    match l with
    | [] => ret ([], true)
    | c :: l =>
      let* r := f c in
      match r with
      | None => ret ([], false)
      | Some x => let* '(xs, ok) := go l in ret (x :: xs, ok)
      end
    end.
(** [cJSON_free] of [n] blocks. *)
Fixpoint free_n (n : nat) : PJ unit := match n with O => ret tt | Datatypes.S n => ya_hal_os_memory_free ;; free_n n end.
(** A character at the end of what is written. *)
Definition put (c : Z) (w : bytes * Z) : PJ (bytes * Z) := let* out := wr w.1 w.2 c in ret (out, w.2 + 1).
Definition put_text (s : bytes) (w : bytes * Z) : PJ (bytes * Z) := let* out := memcpy w.1 w.2 s in ret (out, w.2 + len s).
Fixpoint put_n (n : nat) (c : Z) (w : bytes * Z) : PJ (bytes * Z) :=
  match n with O => ret w | Datatypes.S n => let* w := put c w in put_n n c w end.
(** The terminator, which the next character overwrites. *)
Definition put_end (w : bytes * Z) : PJ (bytes * Z) := let* out := wr w.1 w.2 0 in ret (out, w.2).
Definition put_if (b : bool) (c : Z) (w : bytes * Z) : PJ (bytes * Z) := if b then put c w else ret w.

Section Containers.
Context (fmt : bool).
(** *** Arrays *)
Fixpoint put_entries (l : list bytes) (w : bytes * Z) : PJ (bytes * Z) :=
  match l with
  | [] => ret w
  | e :: l =>
    let* w := put_text (cstr e) w in
    let* w := match l with [] => ret w | _ => let* w := put 44 w in let* w := put_if fmt 32 w in put_end w end in
    ya_hal_os_memory_free ;;
    put_entries l w
  end.
Definition array_length (l : list bytes) : Z := 5 + foldr (fun e n => len (cstr e) + 2 + (if fmt then 1 else 0) + n) 0 l.
Definition print_array (value : node -> PJ (option bytes)) (child : list node) : PJ (option bytes) :=
  match child with
  | [] => print_text 3 (str "[]")
  | _ =>
    let* p := ya_hal_os_memory_alloc (4 * Z.of_nat (length child)) in
    match p with
    | None => ret None
    | Some _ =>
      let* '(l, ok) := entry_texts value child in
      let failed := free_n (length l) ;; free_n 1 ;; ret None in
      if negb ok then failed
      else
        let* p := ya_hal_os_memory_alloc (array_length l) in
        match p with
        | None => failed
        | Some out =>
          let* w := put 91 (out, 0) in
          let* w := put_end w in
          let* w := put_entries l w in
          ya_hal_os_memory_free ;;
          let* w := put 93 w in
          let* w := put 0 w in
          ret (Some w.1)
        end
    end
  end.

(** *** Objects *)
(** A name and a value; when only one could be printed it is freed with the
    others. *)
Definition member_texts (value : node -> PJ (option bytes)) (c : node) : PJ (option (bytes * bytes)) :=
  let* name := print_string_ptr (n_string c) in
  let* v := value c in
  match name, v with
  | Some name, Some v => ret (Some (name, v))
  | _, _ => free_if name ;; free_if v ;; ret None
  end.
Fixpoint put_members (depth : Z) (l : list (bytes * bytes)) (w : bytes * Z) : PJ (bytes * Z) :=
  match l with
  | [] => ret w
  | (name, e) :: l =>
    let* w := if fmt then put_n (Z.to_nat depth) 9 w else ret w in
    let* w := put_text (cstr name) w in
    let* w := put 58 w in
    let* w := put_if fmt 9 w in
    let* w := put_text (cstr e) w in
    let* w := put_end w in
    let* w := match l with [] => ret w | _ => put 44 w end in
    let* w := put_if fmt 10 w in
    let* w := put_end w in
    free_n 2 ;;
    put_members depth l w
  end.
Definition object_length (depth : Z) (l : list (bytes * bytes)) : Z :=
  7 + (if fmt then depth else 0) +
  foldr (fun e n => len (cstr e.2) + len (cstr e.1) + 2 + (if fmt then 2 + depth else 0) + n) 0 l.
Definition print_object (depth : Z) (value : node -> PJ (option bytes)) (child : list node) : PJ (option bytes) :=
  match child with
  | [] =>
    let* p := ya_hal_os_memory_alloc (if fmt then depth + 4 else 3) in
    match p with
    | None => ret None
    | Some out =>
      let* w := put 123 (out, 0) in
      let* w := if fmt then let* w := put 10 w in put_n (Z.to_nat (depth - 1)) 9 w else ret w in
      let* w := put 125 w in
      let* w := put 0 w in
      ret (Some w.1)
    end
  | _ =>
    let* p := ya_hal_os_memory_alloc (4 * Z.of_nat (length child)) in
    match p with
    | None => ret None
    | Some _ =>
      let* p := ya_hal_os_memory_alloc (4 * Z.of_nat (length child)) in
      match p with
      | None => ya_hal_os_memory_free ;; ret None
      | Some _ =>
        let depth := depth + 1 in
        let* '(l, ok) := entry_texts (member_texts value) child in
        let failed := free_n (2 * length l) ;; free_n 2 ;; ret None in
        if negb ok then failed
        else
          let* p := ya_hal_os_memory_alloc (object_length depth l) in
          match p with
          | None => failed
          | Some out =>
            let* w := put 123 (out, 0) in
            let* w := put_if fmt 10 w in
            let* w := put_end w in
            let* w := put_members depth l w in
            free_n 2 ;;
            let* w := if fmt then put_n (Z.to_nat (depth - 1)) 9 w else ret w in
            let* w := put 125 w in
            let* w := put 0 w in
            ret (Some w.1)
          end
      end
    end
  end.

(** [print_value]: the block with the text, or NULL. *)
Fixpoint print_value (depth : Z) (item : node) : PJ (option bytes) :=
  match item with
  | Node _ ty v i d child =>
    let ty := Z.land ty 255 in
    if ty =? cJSON_NULL then print_text 5 (str "null")
    else if ty =? cJSON_False then print_text 6 (str "false")
    else if ty =? cJSON_True then print_text 5 (str "true")
    else if ty =? cJSON_Number then print_number i d
    else if ty =? cJSON_String then print_string_ptr v
    else if ty =? cJSON_Array then print_array (print_value (depth + 1)) child
    else if ty =? cJSON_Object then print_object depth (print_value (depth + 1)) child
    else ret None
  end.
End Containers.
Definition cJSON_Print (item : node) : PJ (option bytes) := print_value true 0 item.
Definition cJSON_printUnformatted (item : node) : PJ (option bytes) := print_value false 0 item.
End Print.
