(* ===== verification/CJsonPrint.v ===== *)
(** * Printing JSON: what the printer writes, and that it fits

    The text of a tree is defined first ([render]); then the printer is shown
    to produce it, whatever the allocator answers: every block it asks for is
    long enough for what it writes, and every block but the result is freed. *)

From stdpp Require Import base numbers list strings.
From Stdlib Require Import SpecFloat.
From S2P Require Import Prelude Platform CommonFunc Double CJson CJsonText.

(** ** Trees *)
Lemma node_ind' (P : node -> Prop) :
  (forall s ty v i d c, Forall P c -> P (Node s ty v i d c)) -> forall n, P n.
Proof.
  intros Hn. fix IH 1. intros [s ty v i d c]. apply Hn. induction c as [|x c IHc]; constructor; [apply IH|exact IHc].
Qed.

Definition no_number (i : Z) (d : spec_float) : bool := (i =? 0) && (d ==? S754_zero false).
(** The trees the parser makes and the application builds: members of an object
    have keys and others have none, an item has the values of its type only,
    and numbers are integers of 32 bits. *)
Fixpoint wf_node (keyed : bool) (n : node) : bool :=
  match n with
  | Node s ty v i d c =>
    (match s with Some k => keyed && text_ok k | None => negb keyed end) &&
    (if (ty =? cJSON_False) || (ty =? cJSON_NULL) then (v ==? None) && no_number i d && match c with [] => true | _ => false end
     else if ty =? cJSON_True then (v ==? None) && (i =? 1) && (d ==? S754_zero false) && match c with [] => true | _ => false end
     else if ty =? cJSON_Number then
       (v ==? None) && (-2147483648 <=? i) && (i <=? 2147483647) && (d ==? d_of_int i) && match c with [] => true | _ => false end
     else if ty =? cJSON_String then
       match v with Some x => text_ok x | None => false end && no_number i d && match c with [] => true | _ => false end
     else if ty =? cJSON_Array then (v ==? None) && no_number i d && forallb (wf_node false) c
     else if ty =? cJSON_Object then (v ==? None) && no_number i d && forallb (wf_node true) c
     else false)
  end.

(** The same as cases. *)
Inductive shape : node -> Prop :=
| shape_false s : shape (Node s cJSON_False None 0 (S754_zero false) [])
| shape_null s : shape (Node s cJSON_NULL None 0 (S754_zero false) [])
| shape_true s : shape (Node s cJSON_True None 1 (S754_zero false) [])
| shape_number s i : -2147483648 <= i <= 2147483647 -> shape (Node s cJSON_Number None i (d_of_int i) [])
| shape_string s x : text_ok x = true -> shape (Node s cJSON_String (Some x) 0 (S754_zero false) [])
| shape_array s c : Forall (fun n => wf_node false n = true) c -> shape (Node s cJSON_Array None 0 (S754_zero false) c)
| shape_object s c : Forall (fun n => wf_node true n = true) c -> shape (Node s cJSON_Object None 0 (S754_zero false) c).
Lemma forallb_Forall {A} (f : A -> bool) l : forallb f l = true -> Forall (fun x => f x = true) l.
Proof. induction l as [|x l IH]; cbn; [done|]. intros [? ?]%andb_prop. constructor; auto. Qed.
Lemma wf_shape keyed n : wf_node keyed n = true ->
  shape n /\ (if keyed then exists k, n_string n = Some k /\ text_ok k = true else n_string n = None).
Proof.
  destruct n as [s ty v i d c]. cbn [wf_node n_string]. intros [Hs Hw]%andb_prop. split.
  - unfold no_number in Hw.
    repeat (match type of Hw with (if ?b then _ else _) = true => destruct b eqn:?E end);
      repeat match goal with H : (_ || _) = true |- _ => apply orb_prop in H as [] | H : (_ =? _) = true |- _ => apply Z.eqb_eq in H; subst end;
      repeat match goal with H : (_ && _) = true |- _ => apply andb_prop in H as [] end;
      repeat match goal with H : bool_decide _ = true |- _ => apply bool_decide_eq_true in H; subst end;
      repeat match goal with H : (_ =? _) = true |- _ => apply Z.eqb_eq in H; subst end;
      try (destruct c; [|done]); try (destruct v as [x|]; [|done]); try done; constructor; try done; try lia; by apply forallb_Forall.
  - destruct keyed, s as [k|]; cbn in *; try done. eauto.
Qed.

(** ** The text of a tree *)
Definition escaped (c : Z) : bytes :=
  match short_escape c with Some x => [92; x] | None => if c <? 32 then 92 :: 117 :: hex_pad 4 c else [c] end.
Definition string_text (s : bytes) : bytes := 34 :: mjoin (escaped <$> s) ++ [34].
(** Texts with a separator between them. *)
Fixpoint join (sep : bytes) (l : list bytes) : bytes :=
  match l with [] => [] | [x] => x | x :: l => x ++ sep ++ join sep l end.
Definition tabs (n : Z) : bytes := replicate (Z.to_nat n) 9.
Section Render.
Context (fmt : bool).
(** What only the formatted text has. *)
Definition pretty (s : bytes) : bytes := if fmt then s else [].
Definition array_text (l : list bytes) : bytes := 91 :: join (44 :: pretty [32]) l ++ [93].
Definition member_text (depth : Z) (k v : bytes) : bytes := pretty (tabs depth) ++ string_text k ++ 58 :: pretty [9] ++ v.
Definition object_text (depth : Z) (l : list bytes) : bytes :=
  match l with
  | [] => 123 :: pretty (10 :: tabs (depth - 1)) ++ [125]
  | _ => 123 :: pretty [10] ++ join (44 :: pretty [10]) l ++ pretty (10 :: tabs depth) ++ [125]
  end.
Definition key (n : node) : bytes := default [] (n_string n).
Fixpoint render (depth : Z) (n : node) : bytes :=
  match n with
  | Node _ ty v i d c =>
    if ty =? cJSON_NULL then str "null"
    else if ty =? cJSON_False then str "false"
    else if ty =? cJSON_True then str "true"
    else if ty =? cJSON_Number then ya_int_to_string i
    else if ty =? cJSON_String then string_text (default [] v)
    else if ty =? cJSON_Array then array_text (render (depth + 1) <$> c)
    else object_text depth ((fun m => member_text (depth + 1) (key m) (render (depth + 1) m)) <$> c)
  end.
End Render.

(** ** Writing at the end of a block *)
(** A block of [L] bytes starts with [t], and the next character goes behind it. *)
Definition holds (L : Z) (t : bytes) (w : bytes * Z) : Prop :=
  len w.1 = L /\ w.2 = len t /\ take (length t) w.1 = t.
Lemma holds_nil out : holds (len out) [] (out, 0).
Proof. done. Qed.
Section Writing.
Context {C S : Type}.
Implicit Types (s : S) (h : hw C) (t x : bytes) (w : bytes * Z).
Lemma take_splice (b x : bytes) n : (n + length x <= length b)%nat -> take (n + length x) (splice b (Z.of_nat n) x) = take n b ++ x.
Proof.
  intros Hn. unfold splice. rewrite Nat2Z.id, app_assoc.
  rewrite take_app_length' by (rewrite length_app, length_take; lia). done.
Qed.
Lemma holds_splice L t x w : holds L t w -> len t + len x <= L -> holds L (t ++ x) (splice w.1 w.2 x, w.2 + len x).
Proof.
  destruct w as [b i]. intros (Hl&Hi&Ht) Hx. cbn [fst snd] in *. subst i. pose proof (len_nonneg t). pose proof (len_nonneg x).
  split_and!; cbn [fst snd]; [rewrite len_splice by lia; done|by rewrite len_app|]. unfold len in *. rewrite length_app, take_splice by lia.
  by rewrite Ht.
Qed.
Lemma splice_one (b : bytes) i c : 0 <= i < len b -> <[Z.to_nat i := c]> b = splice b i [c].
Proof. intros Hi. rewrite splice_cons by done. unfold splice. cbn. by rewrite Nat.add_0_r, take_drop. Qed.
Lemma wp_put L t c w Q R s h : holds L t w -> len t < L -> is_u8 c ->
  (forall w', holds L (t ++ [c]) w' -> Q w' (s, h)) -> wp (put (C:=C) (S:=S) c w) Q R (s, h).
Proof.
  intros Hw Hl Hc HQ. pose proof Hw as (Hlen&Hi&_). pose proof (len_nonneg t). apply wp_bind, wp_wr; [lia|]. apply wp_ret, HQ.
  rewrite u8_small, splice_one by (done || lia). apply (holds_splice L t [c] w Hw). unfold len in *. cbn. lia.
Qed.
Lemma wp_put_text L t x w Q R s h : holds L t w -> len t + len x <= L ->
  (forall w', holds L (t ++ x) w' -> Q w' (s, h)) -> wp (put_text (C:=C) (S:=S) x w) Q R (s, h).
Proof.
  intros Hw Hl HQ. pose proof Hw as (Hlen&Hi&_). pose proof (len_nonneg t). apply wp_bind, wp_memcpy; [lia|lia|].
  by apply wp_ret, HQ, holds_splice.
Qed.
Lemma wp_put_end L t w Q R s h : holds L t w -> len t < L ->
  (forall w', holds L t w' -> Q w' (s, h)) -> wp (put_end (C:=C) (S:=S) w) Q R (s, h).
Proof.
  intros (Hlen&Hi&Ht) Hl HQ. pose proof (len_nonneg t). apply wp_bind, wp_wr; [lia|]. apply wp_ret, HQ.
  split_and!; cbn [fst snd]; [by rewrite len_insert|done|]. rewrite take_insert_ge; [done|]. unfold len in *. lia.
Qed.
Lemma wp_put_if L t (b : bool) c w Q R s h : holds L t w -> len t + 1 <= L -> is_u8 c ->
  (forall w', holds L (t ++ if b then [c] else []) w' -> Q w' (s, h)) -> wp (put_if (C:=C) (S:=S) b c w) Q R (s, h).
Proof.
  intros Hw Hl Hc HQ. destruct b; [apply (wp_put L t); (done || lia)|]. apply wp_ret, HQ. by rewrite app_nil_r.
Qed.
Lemma wp_put_n L c n : is_u8 c -> forall t w Q R s h, holds L t w -> len t + Z.of_nat n <= L ->
  (forall w', holds L (t ++ replicate n c) w' -> Q w' (s, h)) -> wp (put_n (C:=C) (S:=S) n c w) Q R (s, h).
Proof.
  intros Hc. induction n as [|n IH]; intros t w Q R s h Hw Hl HQ; cbn [put_n].
  - apply wp_ret, HQ. by rewrite app_nil_r.
  - apply wp_bind. eapply wp_put; [done|lia|done|]. intros w' Hw'. eapply IH; [done|rewrite len_app; unfold len in *; cbn; lia|].
    intros w2 Hw2. apply HQ. by rewrite <- app_assoc in Hw2.
Qed.
(** The finished block. *)
Lemma holds_cstr L t out i : holds L (t ++ [0]) (out, i) -> no_nul t -> cstr out = t /\ 0 ∈ out.
Proof.
  intros (_&_&Ht) Hn. cbn [fst] in Ht. rewrite <- (take_drop (length (t ++ [0])) out), Ht, <- app_assoc.
  split; [by apply cstr_app_nul|]. rewrite elem_of_app. right. by left.
Qed.

(** A printer: the text in a block of its own, or NULL for lack of memory. *)
Definition prints (text : bytes) (h : hw C) (s : S) (o : option bytes) (t : S * hw C) : Prop :=
  t.1 = s /\ match o with
             | Some out => cstr out = text /\ 0 ∈ out /\ moved 1 h t.2
             | None => moved 0 h t.2 /\ heap h <> []
             end.
Lemma moved_heap n h h' : moved n h h' -> heap h' <> [] -> heap h <> [].
Proof. intros [_ Hh] Hn He. by apply Hn, Hh. Qed.
Lemma prints_print_text n text R s h : no_nul text -> len text < n ->
  wp (print_text (C:=C) (S:=S) n text) (prints text h s) R (s, h).
Proof.
  intros Hn Hl. pose proof (len_nonneg text). apply wp_bind, wp_alloc_moved; [lia| |].
  - intros b h' Hb _ Hm. apply wp_bind, wp_memcpy; [lia|rewrite len_app; unfold len in *; cbn; lia|]. apply wp_ret.
    split; [done|]. unfold splice. change (Z.to_nat 0) with 0%nat. rewrite take_0, <- app_assoc. cbn [app].
    split; [by apply cstr_app_nul|]. split; [|done]. rewrite elem_of_app. right. by left.
  - intros h' [?|?] Hm; [lia|]. by apply wp_ret.
Qed.
End Writing.

(** ** Numbers and strings *)
Lemma length_dec_digits fuel : forall n acc, (length (dec_digits fuel n acc) <= fuel + length acc)%nat.
Proof.
  induction fuel as [|fuel IH]; intros n acc; cbn [dec_digits]; [lia|]. destruct (n <? 10); cbn [length]; [lia|].
  specialize (IH (n / 10) ((48 + n mod 10) :: acc)). cbn [length] in IH. lia.
Qed.
Lemma len_int_string v : len (ya_int_to_string v) <= 11.
Proof.
  unfold ya_int_to_string, len. destruct (i32 v <? 0); cbn [length].
  - pose proof (length_dec_digits 10 (- i32 v) []). cbn [length] in *. lia.
  - pose proof (length_dec_digits 10 (i32 v) []). cbn [length] in *. lia.
Qed.
Lemma text_ok_forall x : text_ok x = true -> no_nul x /\ is_bytes x.
Proof. intros Hx%forallb_Forall. split; eapply Forall_impl; try done; unfold is_u8; cbn; intros; lia. Qed.
(** Bounds on the lengths of texts put together. *)
Ltac wlen := repeat first [rewrite len_app | rewrite len_cons]; change (len []) with 0 in *; lia.
Section Scalars.
Context {C S : Type} `{Libm}.
Implicit Types (s : S) (h : hw C) (t x : bytes) (w : bytes * Z).
Lemma prints_number i R s h : -2147483648 <= i <= 2147483647 ->
  wp (print_number (C:=C) i (d_of_int i)) (prints (ya_int_to_string i) h s) R (s, h).
Proof.
  intros Hi. unfold print_number. rewrite d_eqb_zero by lia. destruct (Z.eqb_spec i 0) as [->|].
  { apply (prints_print_text 2 (str "0")); [by repeat constructor|done]. }
  rewrite d_sub_self, !d_leb by lia. cbn [andb SFabs]. change (SFleb (S754_zero false) DBL_EPSILON) with true. cbn [andb].
  apply prints_print_text; [apply int_to_string_no_nul|]. pose proof (len_int_string i). lia.
Qed.

Lemma wp_wr_at L t b i c Q R s h : holds L t (b, i) -> len t < L -> is_u8 c ->
  (forall b', holds L (t ++ [c]) (b', i + 1) -> Q b' (s, h)) -> wp (wr b i c) Q R (s, h).
Proof.
  intros Hw Hl Hc HQ. pose proof Hw as (Hlen&Hi&_). cbn [fst snd] in *. pose proof (len_nonneg t). apply wp_wr; [lia|].
  apply HQ. rewrite u8_small, splice_one by (done || lia). apply (holds_splice L t [c] (b, i) Hw). unfold len in *. cbn. lia.
Qed.
Lemma wp_memcpy_at L t x b i Q R s h : holds L t (b, i) -> len t + len x <= L ->
  (forall b', holds L (t ++ x) (b', i + len x) -> Q b' (s, h)) -> wp (memcpy b i x) Q R (s, h).
Proof.
  intros Hw Hl HQ. pose proof Hw as (Hlen&Hi&_). cbn [fst snd] in *. pose proof (len_nonneg t).
  apply wp_memcpy; [lia|lia|]. by apply HQ, (holds_splice L t x (b, i)).
Qed.
(** Writing over the terminator. *)
Lemma holds_back L t c b i : holds L (t ++ [c]) (b, i) -> holds L t (b, i - 1).
Proof.
  intros (Hl&Hi&Ht). cbn [fst snd] in *. rewrite len_app in Hi. split_and!; cbn [fst snd]; [done|unfold len in *; cbn in *; lia|].
  rewrite length_app in Ht. apply (f_equal (take (length t))) in Ht. rewrite take_take in Ht.
  rewrite take_app_length in Ht. by rewrite Nat.min_l in Ht by (cbn; lia).
Qed.

Lemma holds_at L t b i j : holds L t (b, i) -> i = j -> holds L t (b, j).
Proof. by intros ? <-. Qed.
Lemma escapes_cons c x : mjoin (escaped <$> (c :: x)) = escaped c ++ mjoin (escaped <$> x).
Proof. done. Qed.
Lemma escaped_len c : is_u8 c -> len (escaped c) = escaped_length c.
Proof.
  intros Hc. unfold escaped, escaped_length. destruct (short_escape c); [done|]. destruct (c <? 32); [|done].
  by vm_compute.
Qed.
Lemma lower_digit_ok d : 0 <= d < 16 -> 48 <= lower_digit d < 128.
Proof.
  intros Hd. assert (Hf : forallb (fun i => (48 <=? lower_digit i) && (lower_digit i <? 128)) (seqZ 0 16) = true) by reflexivity.
  apply forallb_Forall in Hf. rewrite Forall_forall in Hf. specialize (Hf d). rewrite elem_of_seqZ in Hf. specialize (Hf ltac:(lia)). lia.
Qed.
Lemma hex_pad_ok n : forall v, Forall (fun c => 48 <= c < 128) (hex_pad n v).
Proof.
  induction n as [|n IH]; intros v; cbn [hex_pad]; [constructor|]. apply Forall_app. split; [apply IH|].
  repeat constructor; apply lower_digit_ok; apply Z.mod_pos_bound; lia.
Qed.
Lemma short_escape_ok c (x : Z) : short_escape c = Some x -> 34 <= x < 128.
Proof. unfold short_escape. intros Hx. repeat (destruct (_ =? _); [injection Hx as <-; lia|]). done. Qed.
Lemma escaped_no_nul c : c <> 0 -> is_u8 c -> no_nul (escaped c).
Proof.
  intros Hn Hc. unfold escaped. destruct (short_escape c) as [x|] eqn:E.
  - apply short_escape_ok in E. repeat constructor; lia.
  - destruct (c <? 32); [|by repeat constructor]. do 2 (constructor; [done|]). eapply Forall_impl; [apply hex_pad_ok|]. cbn. intros; lia.
Qed.
Lemma string_text_no_nul x : text_ok x = true -> no_nul (string_text x).
Proof.
  intros [Hn Hb]%text_ok_forall. constructor; [done|]. apply Forall_app. split; [|by repeat constructor].
  induction x as [|c x IH]; [constructor|]. inversion Hn; inversion Hb; subst. cbn. apply Forall_app. split; [by apply escaped_no_nul|auto].
Qed.
Lemma len_escapes x : is_bytes x -> len (mjoin (escaped <$> x)) = foldr (fun c n => escaped_length c + n) 0 x.
Proof.
  induction x as [|c x IH]; intros Hb; [done|]. inversion Hb; subst. cbn [foldr].
  rewrite escapes_cons, len_app, escaped_len by done. by rewrite IH.
Qed.
Lemma wp_escape_loop L x : is_bytes x -> forall t b i Q R s h,
  holds L t (b, i) -> len t + len (mjoin (escaped <$> x)) < L ->
  (forall b' i', holds L (t ++ mjoin (escaped <$> x)) (b', i') -> Q (b', i') (s, h)) ->
  wp (escape_loop (C:=C) (S:=S) x b i) Q R (s, h).
Proof.
  induction x as [|c x IH]; intros Hb t b i Q R s h Hw Hl HQ; cbn [escape_loop].
  - apply wp_ret, HQ. cbn. by rewrite app_nil_r.
  - inversion Hb as [|?? Hc Hx]; subst. rewrite escapes_cons in *. rewrite len_app in Hl.
    pose proof (len_nonneg (mjoin (escaped <$> x))). pose proof (len_nonneg t).
    assert (Hgo : forall b' i', holds L (t ++ escaped c) (b', i') -> wp (escape_loop (C:=C) (S:=S) x b' i') Q R (s, h)).
    { intros b' i' Hw'. eapply (IH Hx); [exact Hw'|rewrite len_app; lia|]. intros b2 i2 Hw2. apply HQ. by rewrite app_assoc. }
    rewrite escaped_len in Hl by done. unfold escaped in Hgo. unfold escaped_length in Hl. unfold needs_escape. destruct (short_escape c) as [y|] eqn:Ey.
    + assert (He : (c <? 32) || (c =? 34) || (c =? 92) = true) by (unfold short_escape in Ey; zbool; done || lia).
      rewrite He. cbn [negb]. pose proof (short_escape_ok _ _ Ey).
      apply wp_bind. eapply wp_wr_at; [exact Hw|lia|done|]. intros b1 Hw1. apply wp_bind. eapply wp_wr_at; [exact Hw1|rewrite len_app; unfold len in *; cbn; lia|unfold is_u8; lia|].
      intros b2 Hw2. replace (i + 2) with (i + 1 + 1) by lia. apply Hgo. by rewrite <- app_assoc in Hw2.
    + assert (Hs : (c =? 34) = false /\ (c =? 92) = false) by (unfold short_escape in Ey; zbool; done).
      destruct Hs as [-> ->]. rewrite !orb_false_r. destruct (c <? 32) eqn:E32; cbn [negb].
      * assert (Hp : len (hex_pad 4 c) = 4) by reflexivity.
        apply wp_bind. eapply wp_wr_at; [exact Hw|lia|done|]. intros b1 Hw1.
        apply wp_bind. eapply wp_memcpy_at; [exact Hw1|rewrite !len_app, !len_cons, !len_app, Hp; unfold len in *; cbn; lia|].
        intros b2 Hw2. rewrite len_cons, len_app, Hp in Hw2.
        assert (Ht2 : (t ++ [92]) ++ 117 :: hex_pad 4 c ++ [0] = (t ++ 92 :: 117 :: hex_pad 4 c) ++ [0]) by (rewrite <- !app_assoc; done).
        rewrite Ht2 in Hw2. apply holds_back in Hw2. apply Hgo. apply (holds_at _ _ _ _ _ Hw2). wlen.
      * apply wp_bind. eapply wp_wr_at; [exact Hw|lia|done|]. intros b1 Hw1. by apply Hgo.
Qed.
Lemma unescaped x : is_bytes x -> existsb needs_escape x = false -> mjoin (escaped <$> x) = x.
Proof.
  induction x as [|c x IH]; intros Hb; [done|]. inversion Hb; subst. cbn [existsb]. rewrite escapes_cons.
  intros [Hc Hx]%orb_false_elim. rewrite IH by done. unfold needs_escape in Hc.
  assert (escaped c = [c]) as ->; [|done]. unfold escaped, short_escape. zbool; try done; lia.
Qed.
Lemma prints_string x R s h : text_ok x = true -> wp (print_string_ptr (C:=C) (Some x)) (prints (string_text x) h s) R (s, h).
Proof.
  intros Hx. pose proof (text_ok_forall x Hx) as [Hn Hb]. pose proof (string_text_no_nul x Hx) as Hnt.
  unfold print_string_ptr. cbn [deref]. apply wp_bind, wp_ret. rewrite cstr_no_nul by done.
  pose proof (len_nonneg x). pose proof (len_escapes x Hb) as Hle. pose proof (len_nonneg (mjoin (escaped <$> x))).
  destruct (existsb needs_escape x) eqn:E; cbn [negb].
  - rewrite <- Hle. apply wp_bind, wp_alloc_moved; [lia| |intros h' [?|?] Hm; [lia|by apply wp_ret]].
    intros b h' Hlb _ Hm. pose proof (holds_nil b) as Hw. rewrite Hlb in Hw.
    apply wp_bind. eapply wp_wr_at; [exact Hw|wlen|done|]. intros b1 Hw1.
    apply wp_bind. eapply (wp_escape_loop _ x Hb); [exact Hw1|wlen|]. intros b2 i2 Hw2.
    cbn beta iota. apply wp_bind. eapply wp_wr_at; [exact Hw2|wlen|done|]. intros b3 Hw3.
    apply wp_bind. eapply wp_wr_at; [exact Hw3|wlen|done|]. intros b4 Hw4.
    apply wp_ret. split; [done|]. cbn [fst snd]. change (([] ++ [34]) ++ ?y) with (34 :: y) in Hw4. 
    apply holds_cstr in Hw4; [|done]. by destruct Hw4.
  - rewrite (unescaped x) in * by done. apply wp_bind, wp_alloc_moved; [lia| |intros h' [?|?] Hm; [lia|by apply wp_ret]].
    intros b h' Hlb _ Hm. pose proof (holds_nil b) as Hw. rewrite Hlb in Hw.
    apply wp_bind. eapply wp_wr_at; [exact Hw|wlen|done|]. intros b1 Hw1.
    apply wp_bind. eapply wp_memcpy_at; [exact Hw1|wlen|]. intros b2 Hw2.
    rewrite len_app in Hw2. rewrite app_assoc in Hw2. apply holds_back in Hw2.
    apply wp_bind. eapply wp_wr_at; [apply (holds_at _ _ _ _ _ Hw2); wlen|wlen|done|].
    intros b3 Hw3. apply wp_bind. eapply wp_wr_at; [apply (holds_at _ _ _ _ _ Hw3); wlen|wlen|done|].
    intros b4 Hw4. apply wp_ret. split; [done|]. cbn [fst snd]. apply holds_cstr in Hw4; [|].
    + unfold string_text. rewrite (unescaped x) by done. by destruct Hw4.
    + unfold string_text in Hnt. by rewrite (unescaped x) in Hnt by done.
Qed.
End Scalars.

(** ** Arrays and objects *)
Lemma len_join sep l : len (join sep l) <= foldr (fun e n => len e + len sep + n) 0 l.
Proof.
  induction l as [|x l IH]; [done|]. destruct l as [|y l]; cbn [join foldr] in *; [pose proof (len_nonneg sep); lia|].
  rewrite !len_app. lia.
Qed.
Lemma no_nul_join sep l : no_nul sep -> Forall no_nul l -> no_nul (join sep l).
Proof.
  intros Hs. induction l as [|x l IH]; intros Hl; [constructor|]. inversion Hl; subst. destruct l as [|y l]; [done|].
  cbn [join]. apply Forall_app. split; [done|]. apply Forall_app. split; [done|]. by apply IH.
Qed.
Lemma no_nul_tabs n : no_nul (tabs n).
Proof. by apply Forall_replicate. Qed.
Lemma no_nul_pretty fmt t : no_nul t -> no_nul (pretty fmt t).
Proof. intros Hn. destruct fmt; [done|constructor]. Qed.
Section Printers.
Context {C S : Type} `{Libm} (fmt : bool).
Implicit Types (s : S) (h : hw C) (t x : bytes) (w : bytes * Z) (R : S * hw C -> Prop).

Lemma wp_free_n n : forall Q R s h, (forall h', moved (- Z.of_nat n) h h' -> Q tt (s, h')) -> wp (free_n (C:=C) (S:=S) n) Q R (s, h).
Proof.
  induction n as [|n IH]; intros Q R s h HQ; cbn [free_n]; [apply wp_ret, HQ, moved_refl|].
  apply wp_bind, wp_free_moved. intros h1 Hm. apply IH. intros h2 Hm2. apply HQ. eapply moved_eq; [exact (moved_trans _ _ _ _ _ Hm Hm2)|lia].
Qed.
(** Failing to print gives back what was printed. *)
Lemma wp_failed n m h0 h R s text : moved (Z.of_nat (n + m)) h0 h -> heap h0 <> [] ->
  wp (bind (free_n n) (fun _ => bind (free_n m) (fun _ => ret None))) (prints text h0 s) R (s, h).
Proof.
  intros Hm Hh. apply wp_bind, wp_free_n. intros h1 Hm1. apply wp_bind, wp_free_n. intros h2 Hm2. apply wp_ret. split; [done|]. split; [|done].
  eapply moved_eq; [exact (moved_trans _ _ _ _ _ (moved_trans _ _ _ _ _ Hm Hm1) Hm2)|lia].
Qed.

Definition gives {A} (k : Z) (ok : A -> Prop) h s (o : option A) (t : S * hw C) : Prop :=
  t.1 = s /\ match o with Some a => ok a /\ moved k h t.2 | None => moved 0 h t.2 /\ heap h <> [] end.
Lemma wp_entries {A} (f : node -> P C S (option A)) (ok : node -> A -> Prop) k R l :
  Forall (fun n => forall s h, wp (f n) (gives k (ok n) h s) R (s, h)) l ->
  forall Q s h,
    (forall xs h', Forall2 ok l xs -> moved (k * Z.of_nat (length xs)) h h' -> Q (xs, true) (s, h')) ->
    (forall xs h', moved (k * Z.of_nat (length xs)) h h' -> heap h <> [] -> Q (xs, false) (s, h')) ->
    wp (entry_texts f l) Q R (s, h).
Proof.
  induction 1 as [|n l Hn Hl IH]; intros Q s h Ht Hf; cbn [entry_texts].
  - apply wp_ret, Ht; [constructor|]. rewrite Z.mul_0_r. apply moved_refl.
  - apply wp_bind. eapply wp_mono; [apply Hn| |done]. intros o [s' h1] [Es Ho]. cbn [fst snd] in *. subst s'. destruct o as [a|].
    + destruct Ho as [Ha Hm]. apply wp_bind. apply IH.
      * intros xs h' Hxs Hm'. apply wp_ret, Ht; [by constructor|]. eapply moved_eq; [exact (moved_trans _ _ _ _ _ Hm Hm')|cbn; lia].
      * intros xs h' Hm' Hh. apply wp_ret, Hf; [|by eapply moved_heap].
        eapply moved_eq; [exact (moved_trans _ _ _ _ _ Hm Hm')|cbn; lia].
    + destruct Ho as [Hm Hh]. apply wp_ret, Hf; [|done]. eapply moved_eq; [exact Hm|cbn; lia].
Qed.

Lemma wp_put_entries L l : forall t w Q R s h,
  holds L t w -> len t + len (join (44 :: pretty fmt [32]) (cstr <$> l)) < L ->
  (forall w' h', holds L (t ++ join (44 :: pretty fmt [32]) (cstr <$> l)) w' -> moved (- Z.of_nat (length l)) h h' -> Q w' (s, h')) ->
  wp (put_entries (C:=C) (S:=S) fmt l w) Q R (s, h).
Proof.
  induction l as [|e l IH]; intros t w Q R s h Hw Hl HQ; cbn [put_entries].
  { apply wp_ret, HQ; [|apply moved_refl]. cbn. by rewrite app_nil_r. }
  apply wp_bind. destruct l as [|e2 l].
  - cbn in Hl. eapply wp_put_text; [done|cbn; lia|]. intros w1 Hw1. apply wp_bind, wp_ret, wp_bind, wp_free_moved. intros h1 Hm1.
    apply (IH (t ++ cstr e) w1); [done|cbn; wlen|]. intros w2 h2 Hw2 Hm2. apply HQ; [by rewrite app_nil_r in Hw2|].
    eapply moved_eq; [exact (moved_trans _ _ _ _ _ Hm1 Hm2)|done].
  - set (l2 := e2 :: l) in *. change (join _ (cstr <$> e :: l2)) with (cstr e ++ (44 :: pretty fmt [32]) ++ join (44 :: pretty fmt [32]) (cstr <$> l2)) in *.
    assert (Hj : len (cstr e ++ (44 :: pretty fmt [32]) ++ join (44 :: pretty fmt [32]) (cstr <$> l2)) =
      len (cstr e) + 1 + len (pretty fmt [32]) + len (join (44 :: pretty fmt [32]) (cstr <$> l2))) by wlen.
    rewrite Hj in Hl. pose proof (len_nonneg (join (44 :: pretty fmt [32]) (cstr <$> l2))). pose proof (len_nonneg (pretty fmt [32])).
    eapply wp_put_text; [done|lia|]. intros w1 Hw1. apply wp_bind. cbn [l2]. fold l2.
    apply wp_bind. eapply wp_put; [done|wlen|done|]. intros w2 Hw2.
    apply wp_bind. eapply (wp_put_if L _ fmt 32); [done| |done|].
    { destruct fmt; cbn [pretty] in *; [change (len [32]) with 1 in *; wlen|change (len []) with 0 in *; wlen]. }
    intros w3 Hw3. eapply wp_put_end; [done|change (if fmt then [32] else []) with (pretty fmt [32]) in *; wlen|].
    intros w4 Hw4. apply wp_bind, wp_free_moved. intros h1 Hm1.
    apply (IH (((t ++ cstr e) ++ [44]) ++ pretty fmt [32]) w4); [done|wlen|]. intros w5 h5 Hw5 Hm5. apply HQ.
    + rewrite <- !app_assoc in Hw5. exact Hw5.
    + eapply moved_eq; [exact (moved_trans _ _ _ _ _ Hm1 Hm5)|cbn [length]; lia].
Qed.

Definition text_in x (out : bytes) : Prop := cstr out = x /\ 0 ∈ out.
Lemma prints_gives x h s o (t : S * hw C) : prints x h s o t <-> gives 1 (text_in x) h s o t.
Proof. unfold prints, gives, text_in. by destruct o; rewrite <- ?(assoc and). Qed.
Lemma cstr_texts {A} (f : A -> bytes) l (xs : list bytes) : Forall2 (fun n => text_in (f n)) l xs -> cstr <$> xs = f <$> l.
Proof. induction 1 as [|n x l xs [Hx _] _ IH]; cbn; congruence. Qed.
Lemma prints_array (value : node -> P C S (option bytes)) (f : node -> bytes) R c :
  Forall (fun n => forall s h, wp (value n) (prints (f n) h s) R (s, h)) c ->
  forall s h, wp (print_array fmt value c) (prints (array_text fmt (f <$> c)) h s) R (s, h).
Proof.
  intros Hc s h. destruct c as [|c0 c]; [apply (prints_print_text 3 (str "[]")); [by repeat constructor|done]|].
  set (cs := c0 :: c) in *. cbn [print_array]. fold cs. apply wp_bind, wp_alloc_moved; [lia| |intros h' [?|?] Hm; [cbn in *; lia|by apply wp_ret]].
  intros _ h1 _ _ Hm1. apply wp_bind. eapply (wp_entries _ (fun n => text_in (f n)) 1).
  { eapply Forall_impl; [exact Hc|]. intros n Hn s' h'. eapply wp_mono; [apply Hn| |done]. intros o t. apply prints_gives. }
  - intros xs h2 Hxs Hm2. cbn [negb]. pose proof (cstr_texts _ _ _ Hxs) as Hx.
    assert (Hm12 : moved (Z.of_nat (Datatypes.S (length xs))) h h2) by (eapply moved_eq; [exact (moved_trans _ _ _ _ _ Hm1 Hm2)|lia]).
    pose proof (len_join (44 :: pretty fmt [32]) (cstr <$> xs)) as Hj. rewrite Hx in Hj.
    assert (HL : 3 + foldr (fun e n => len e + len (44 :: pretty fmt [32]) + n) 0 (f <$> cs) <= array_length fmt xs).
    { unfold array_length. rewrite <- Hx. clear. induction xs as [|x xs IH]; cbn [fmap list_fmap foldr]; [lia|].
      assert (Hs : len (44 :: pretty fmt [32]) = 1 + if fmt then 1 else 0) by (by destruct fmt). lia. }
    pose proof (len_nonneg (join (44 :: pretty fmt [32]) (f <$> cs))).
    apply wp_bind, wp_alloc_moved; [lia| |].
    + intros out h3 Hlo _ Hm3. pose proof (holds_nil out) as Hw. rewrite Hlo in Hw.
      apply wp_bind. eapply wp_put; [done|wlen|done|]. intros w1 Hw1. apply wp_bind. eapply wp_put_end; [done|wlen|]. intros w2 Hw2.
      apply wp_bind. eapply wp_put_entries; [done|rewrite Hx; wlen|]. intros w3 h4 Hw3 Hm4. rewrite Hx in Hw3.
      apply wp_bind, wp_free_moved. intros h5 Hm5. apply wp_bind. eapply wp_put; [done|wlen|done|]. intros w4 Hw4.
      apply wp_bind. eapply wp_put; [done|wlen|done|]. intros w5 Hw5. apply wp_ret. split; [done|].
      rewrite <- !app_assoc in Hw5. cbn [app] in Hw5. destruct w5 as [out' i'].
      assert (Ht : holds (array_length fmt xs) (array_text fmt (f <$> cs) ++ [0]) (out', i')).
      { unfold array_text. cbn [app]. by rewrite <- app_assoc. }
      apply holds_cstr in Ht as [Ht1 Ht2]; [|].
      * split_and!; [done|done|]. eapply moved_eq; [exact (moved_trans _ _ _ _ _ (moved_trans _ _ _ _ _ (moved_trans _ _ _ _ _ Hm12 Hm3) Hm4) Hm5)|lia].
      * unfold array_text. constructor; [done|]. apply Forall_app. split; [|by repeat constructor].
        apply no_nul_join; [by constructor; [|apply no_nul_pretty; repeat constructor]|]. rewrite <- Hx. apply Forall_fmap, Forall_true. intros e. apply cstr_is_no_nul.
    + intros h3 [?|?] Hm3; [lia|]. apply (wp_failed (length xs) 1 h h3).
      * eapply moved_eq; [exact (moved_trans _ _ _ _ _ Hm12 Hm3)|lia].
      * by eapply moved_heap.
  - intros xs h2 Hm2 Hh. cbn [negb]. apply (wp_failed (length xs) 1 h h2).
    + eapply moved_eq; [exact (moved_trans _ _ _ _ _ Hm1 Hm2)|lia].
    + by eapply moved_heap.
Qed.

(** A printed name and value, as the text of a member. *)
Definition pair_text (depth : Z) (m : bytes * bytes) : bytes :=
  pretty fmt (tabs depth) ++ cstr m.1 ++ 58 :: pretty fmt [9] ++ cstr m.2.
Lemma gives_member (value : node -> P C S (option bytes)) R n k x s h :
  n_string n = Some k -> text_ok k = true -> (forall s h, wp (value n) (prints x h s) R (s, h)) ->
  wp (member_texts value n) (gives 2 (fun m => text_in (string_text k) m.1 /\ text_in x m.2) h s) R (s, h).
Proof.
  intros Hk Hok Hv. unfold member_texts. rewrite Hk. apply wp_bind. eapply wp_mono; [by apply prints_string| |done].
  intros o1 [s1 h1] [E1 H1]. cbn [fst snd] in *. subst s1. apply wp_bind. eapply wp_mono; [apply Hv| |done].
  intros o2 [s2 h2] [E2 H2]. cbn [fst snd] in *. subst s2. destruct o1 as [a|], o2 as [b|].
  - destruct H1 as (?&?&Hm1), H2 as (?&?&Hm2). apply wp_ret. split; [done|]. split; [done|]. exact (moved_trans _ _ _ _ _ Hm1 Hm2).
  - destruct H1 as (?&?&Hm1), H2 as [Hm2 Hh]. cbn [free_if]. apply wp_bind, wp_free_moved. intros h3 Hm3. apply wp_bind, wp_ret, wp_ret.
    split; [done|]. split; [|by eapply moved_heap]. eapply moved_eq; [exact (moved_trans _ _ _ _ _ (moved_trans _ _ _ _ _ Hm1 Hm2) Hm3)|done].
  - destruct H1 as [Hm1 Hh], H2 as (?&?&Hm2). cbn [free_if]. apply wp_bind, wp_ret, wp_bind, wp_free_moved. intros h3 Hm3. apply wp_ret.
    split; [done|]. split; [|done]. eapply moved_eq; [exact (moved_trans _ _ _ _ _ (moved_trans _ _ _ _ _ Hm1 Hm2) Hm3)|done].
  - destruct H1 as [Hm1 Hh], H2 as [Hm2 _]. cbn [free_if]. apply wp_bind, wp_ret, wp_bind, wp_ret, wp_ret. split; [done|]. split; [|done].
    exact (moved_trans _ _ _ _ _ Hm1 Hm2).
Qed.

(** The members as they are written: every one ends in a comma, or is the last;
    and in a line break when formatted. *)
Fixpoint members_text (depth : Z) (l : list (bytes * bytes)) : bytes :=
  match l with
  | [] => []
  | m :: l => pair_text depth m ++ (match l with [] => [] | _ => [44] end) ++ pretty fmt [10] ++ members_text depth l
  end.
Lemma members_join depth l : l <> [] ->
  members_text depth l = join (44 :: pretty fmt [10]) (pair_text depth <$> l) ++ pretty fmt [10].
Proof.
  induction l as [|m l IH]; intros Hl; [done|]. destruct l as [|m2 l].
  - cbn [members_text fmap list_fmap join app]. by rewrite app_nil_r.
  - set (l2 := m2 :: l) in *. change (members_text depth (m :: l2)) with (pair_text depth m ++ [44] ++ pretty fmt [10] ++ members_text depth l2).
    change (join _ (pair_text depth <$> m :: l2)) with (pair_text depth m ++ (44 :: pretty fmt [10]) ++ join (44 :: pretty fmt [10]) (pair_text depth <$> l2)).
    rewrite IH by done. by rewrite <- !app_assoc.
Qed.
Lemma len_members depth l : 0 <= depth -> len (members_text depth l) <= object_length fmt depth l - 7 - (if fmt then depth else 0).
Proof.
  intros Hd. unfold object_length. induction l as [|m l IH]; cbn [members_text foldr]; [change (len []) with 0; lia|].
  unfold pair_text. rewrite !len_app, len_cons, !len_app.
  assert (len (match l with [] => [] | _ => [44] end) <= 1) by (destruct l; [done|done]).
  assert (len (pretty fmt (tabs depth)) = if fmt then depth else 0).
  { destruct fmt; [|done]. unfold pretty, tabs, len. rewrite length_replicate. lia. }
  assert (len (pretty fmt [9]) = (if fmt then 1 else 0) /\ len (pretty fmt [10]) = if fmt then 1 else 0) as [] by (by destruct fmt).
  destruct fmt; lia.
Qed.
Lemma wp_put_members L depth l : 0 <= depth -> forall t w Q R s h,
  holds L t w -> len t + len (members_text depth l) < L ->
  (forall w' h', holds L (t ++ members_text depth l) w' -> moved (- (2 * Z.of_nat (length l))) h h' -> Q w' (s, h')) ->
  wp (put_members (C:=C) (S:=S) fmt depth l w) Q R (s, h).
Proof.
  intros Hd. induction l as [|[k e] l IH]; intros t w Q R s h Hw Hl HQ; cbn [put_members members_text] in *.
  { apply wp_ret, HQ; [|apply moved_refl]. by rewrite app_nil_r. }
  unfold pair_text in Hl, HQ. cbn [fst snd] in Hl, HQ. set (comma := match l with [] => [] | _ => [44] end) in *.
  rewrite !len_app, len_cons, !len_app in Hl. pose proof (len_nonneg t). pose proof (len_nonneg (cstr k)). pose proof (len_nonneg (cstr e)).
  pose proof (len_nonneg (pretty fmt (tabs depth))). pose proof (len_nonneg (pretty fmt [9])). pose proof (len_nonneg (pretty fmt [10])).
  pose proof (len_nonneg comma). pose proof (len_nonneg (members_text depth l)).
  assert (Htab : len (pretty fmt (tabs depth)) = if fmt then depth else 0).
  { destruct fmt; [|done]. unfold pretty, tabs, len. rewrite length_replicate. lia. }
  apply wp_bind. assert (Hgo : forall w, holds L (t ++ pretty fmt (tabs depth)) w ->
    wp (let* w := put_text (cstr k) w in let* w := put 58 w in let* w := put_if fmt 9 w in let* w := put_text (cstr e) w in
        let* w := put_end w in let* w := match l with [] => ret w | _ => put 44 w end in let* w := put_if fmt 10 w in
        let* w := put_end w in free_n 2 ;; put_members fmt depth l w) Q R (s, h)).
  { clear w Hw. intros w Hw. apply wp_bind. eapply wp_put_text; [done|wlen|]. intros w1 Hw1. apply wp_bind. eapply wp_put; [done|wlen|done|].
    intros w2 Hw2. apply wp_bind. eapply wp_put_if; [done|wlen|done|]. intros w3 Hw3.
    change (if fmt then [9] else []) with (pretty fmt [9]) in Hw3.
    apply wp_bind. eapply wp_put_text; [done|wlen|]. intros w4 Hw4. apply wp_bind. eapply wp_put_end; [done|wlen|]. intros w5 Hw5.
    apply wp_bind. assert (Hc : forall Q', (forall w', holds L (((((t ++ pretty fmt (tabs depth)) ++ cstr k) ++ [58]) ++ pretty fmt [9]) ++ cstr e ++ comma) w' -> Q' w' (s, h)) ->
      wp (match l with [] => ret w5 | _ => put 44 w5 end) Q' R (s, h)).
    { intros Q' HQ'. destruct l; [apply wp_ret, HQ'; by rewrite app_nil_r|]. eapply wp_put; [done| |done|].
      - change (len comma) with 1 in *. wlen.
      - intros w' Hw'. apply HQ'. by rewrite app_assoc. }
    apply Hc. intros w6 Hw6. apply wp_bind. eapply wp_put_if; [done|wlen|done|]. intros w7 Hw7.
    change (if fmt then [10] else []) with (pretty fmt [10]) in Hw7. apply wp_bind. eapply wp_put_end; [done|wlen|]. intros w8 Hw8.
    apply wp_bind, wp_free_n. intros h1 Hm1. eapply IH; [done|wlen|]. intros w9 h9 Hw9 Hm9. apply HQ.
    - rewrite <- !app_assoc in *. cbn [app] in *. by rewrite <- !app_assoc in *.
    - eapply moved_eq; [exact (moved_trans _ _ _ _ _ Hm1 Hm9)|cbn [length]; lia]. }
  destruct fmt eqn:Ef; [|apply wp_ret, Hgo; cbn [pretty]; by rewrite app_nil_r].
  eapply wp_put_n; [done|done| |exact Hgo]. rewrite Z2Nat.id by done. lia.
Qed.

Lemma pair_texts depth (f : node -> bytes) c ms :
  Forall2 (fun n m => text_in (string_text (key n)) m.1 /\ text_in (f n) m.2) c ms ->
  pair_text depth <$> ms = (fun n => member_text fmt depth (key n) (f n)) <$> c.
Proof.
  induction 1 as [|n m c ms [[Hk _] [Hv _]] _ IH]; [done|]. cbn [fmap list_fmap]. rewrite IH. f_equal.
  unfold pair_text, member_text. by rewrite Hk, Hv.
Qed.
Lemma no_nul_member depth k v : text_ok k = true -> no_nul v -> no_nul (member_text fmt depth k v).
Proof.
  intros Hk Hv. unfold member_text. repeat (apply Forall_app; split); [apply no_nul_pretty, no_nul_tabs|by apply string_text_no_nul|].
  constructor; [done|]. apply Forall_app. split; [apply no_nul_pretty; repeat constructor; done|done].
Qed.
Lemma len_pretty_tabs n : 0 <= n -> len (pretty fmt (tabs n)) = if fmt then n else 0.
Proof. intros Hn. destruct fmt; [|done]. unfold pretty, tabs, len. rewrite length_replicate. lia. Qed.

Lemma prints_empty_object depth value R s h : 0 <= depth ->
  wp (print_object (C:=C) (S:=S) fmt depth value []) (prints (object_text fmt depth []) h s) R (s, h).
Proof.
  intros Hd. cbn [print_object]. set (L := if fmt then depth + 4 else 3).
  assert (HL : 3 + len (pretty fmt (10 :: tabs (depth - 1))) <= L).
  { subst L. unfold pretty, tabs. destruct fmt; [|done]. rewrite len_cons. unfold len. rewrite length_replicate. lia. }
  pose proof (len_nonneg (pretty fmt (10 :: tabs (depth - 1)))).
  apply wp_bind, wp_alloc_moved; [lia| |intros h' [?|?] Hm; [lia|by apply wp_ret]].
  intros out h1 Hlo _ Hm1. pose proof (holds_nil out) as Hw. rewrite Hlo in Hw.
  apply wp_bind. eapply wp_put; [done|wlen|done|]. intros w1 Hw1. apply wp_bind.
  assert (Hgo : forall w, holds L (([] ++ [123]) ++ pretty fmt (10 :: tabs (depth - 1))) w ->
    wp (let* w := put 125 w in let* w := put 0 w in ret (Some w.1)) (prints (object_text fmt depth []) h s) R (s, h1)).
  { intros w Hw2. apply wp_bind. eapply wp_put; [done|wlen|done|]. intros w3 Hw3. apply wp_bind. eapply wp_put; [done|wlen|done|].
    intros [out' i] Hw4. apply wp_ret. split; [done|]. rewrite <- (app_assoc [] [123]) in Hw4. rewrite <- (app_assoc [] _ [125]) in Hw4.
    rewrite <- (app_assoc [123]) in Hw4. apply holds_cstr in Hw4 as [? ?]; [done|].
    cbn [app]. constructor; [done|]. apply Forall_app. split; [|by repeat constructor]. apply no_nul_pretty. constructor; [done|apply no_nul_tabs]. }
  destruct fmt; [|apply wp_ret, Hgo; by rewrite app_nil_r]. apply wp_bind. eapply wp_put; [done|cbn [pretty] in HL; rewrite len_cons in HL; pose proof (len_nonneg (tabs (depth - 1))); wlen|done|].
  intros w2 Hw2. eapply wp_put_n; [done|done| |].
  - cbn [pretty] in HL. rewrite len_cons in HL. unfold tabs, len in HL. rewrite length_replicate in HL. unfold len. cbn. lia.
  - intros w3 Hw3. apply Hgo. cbn [pretty]. rewrite <- app_assoc in Hw3. exact Hw3.
Qed.
(** The closing bracket and the terminator. *)
Lemma wp_closed L x y w h0 R s h : holds L x w -> is_u8 y -> y <> 0 -> no_nul x -> len x + 2 <= L -> moved 1 h0 h ->
  wp (let* w := put y w in let* w := put 0 w in ret (Some w.1)) (prints (C:=C) (S:=S) (x ++ [y]) h0 s) R (s, h).
Proof.
  intros Hw Hy H0 Hn Hl Hm. apply wp_bind. eapply wp_put; [done|lia|done|]. intros w1 Hw1. apply wp_bind. eapply wp_put; [done|wlen|done|].
  intros [out' i] Hw2. apply wp_ret. split; [done|]. apply holds_cstr in Hw2 as [? ?]; [by split_and!|]. apply Forall_app. by repeat constructor.
Qed.
Lemma no_nul_members depth ms : no_nul (join (44 :: pretty fmt [10]) (pair_text depth <$> ms)).
Proof.
  apply no_nul_join; [by constructor; [|apply no_nul_pretty; repeat constructor]|].
  apply Forall_fmap, Forall_true. intros m. unfold pair_text. repeat (apply Forall_app; split); [apply no_nul_pretty, no_nul_tabs|apply cstr_is_no_nul|].
  constructor; [done|]. apply Forall_app. split; [apply no_nul_pretty; by repeat constructor|apply cstr_is_no_nul].
Qed.
Lemma prints_object depth (value : node -> P C S (option bytes)) (f : node -> bytes) R c : 0 <= depth ->
  Forall (fun n => (exists k, n_string n = Some k /\ text_ok k = true) /\ forall s h, wp (value n) (prints (f n) h s) R (s, h)) c ->
  forall s h, wp (print_object fmt depth value c)
    (prints (object_text fmt depth ((fun n => member_text fmt (depth + 1) (key n) (f n)) <$> c)) h s) R (s, h).
Proof.
  intros Hd Hc s h. destruct c as [|c0 c]; [by apply prints_empty_object|].
  set (cs := c0 :: c) in *. cbn [print_object]. fold cs.
  apply wp_bind, wp_alloc_moved; [lia| |intros h' [?|?] Hm; [cbn in *; lia|by apply wp_ret]]. intros _ h1 _ _ Hm1.
  apply wp_bind, wp_alloc_moved; [lia| |].
  2:{ intros h' [?|?] Hm; [cbn in *; lia|]. apply wp_bind, wp_free_moved. intros h2 Hm2. apply wp_ret. split; [done|].
      split; [|by eapply moved_heap]. eapply moved_eq; [exact (moved_trans _ _ _ _ _ (moved_trans _ _ _ _ _ Hm1 Hm) Hm2)|done]. }
  intros _ h2 _ _ Hm2. pose proof (moved_trans _ _ _ _ _ Hm1 Hm2) as Hm12. apply wp_bind.
  eapply (wp_entries _ (fun n m => text_in (string_text (key n)) m.1 /\ text_in (f n) m.2) 2).
  { eapply Forall_impl; [exact Hc|]. intros n [(k&Hk&Hok) Hn] s' h'. unfold key. rewrite Hk. by apply (gives_member value R n k). }
  - intros ms h3 Hms Hm3. cbn [negb]. pose proof (pair_texts (depth + 1) f cs ms Hms) as Hp.
    assert (Hne : ms <> []) by (intros ->; by apply Forall2_length in Hms).
    pose proof (moved_trans _ _ _ _ _ Hm12 Hm3) as Hm13. pose proof (len_members (depth + 1) ms ltac:(lia)) as Hlm.
    pose proof (len_nonneg (members_text (depth + 1) ms)). pose proof (len_pretty_tabs depth Hd) as Htab.
    set (L := object_length fmt (depth + 1) ms) in *. assert (Hle : len (members_text (depth + 1) ms) + 7 + (if fmt then depth + 1 else 0) <= L) by lia.
    apply wp_bind, wp_alloc_moved; [destruct fmt; lia| |].
    + intros out h4 Hlo _ Hm4. pose proof (holds_nil out) as Hw. rewrite Hlo in Hw.
      apply wp_bind. eapply wp_put; [done|destruct fmt; wlen|done|]. intros w1 Hw1.
      apply wp_bind. eapply wp_put_if; [done|destruct fmt; wlen|done|]. intros w2 Hw2. change (if fmt then [10] else []) with (pretty fmt [10]) in Hw2.
      assert (Hl10 : len (pretty fmt [10]) <= 1) by (by destruct fmt).
      apply wp_bind. eapply wp_put_end; [done|destruct fmt; wlen|]. intros w3 Hw3.
      apply wp_bind. eapply wp_put_members; [lia|done|destruct fmt; wlen|]. intros w4 h5 Hw4 Hm5.
      apply wp_bind, wp_free_n. intros h6 Hm6. apply wp_bind. replace (depth + 1 - 1) with depth by lia.
      assert (Hgo : forall w, holds L (((([] ++ [123]) ++ pretty fmt [10]) ++ members_text (depth + 1) ms) ++ pretty fmt (tabs depth)) w ->
        wp (let* w := put 125 w in let* w := put 0 w in ret (Some w.1))
          (prints (object_text fmt depth ((fun n => member_text fmt (depth + 1) (key n) (f n)) <$> cs)) h s) R (s, h6)).
      { intros w Hw5. assert (Ht : ((((([] ++ [123]) ++ pretty fmt [10]) ++ members_text (depth + 1) ms) ++ pretty fmt (tabs depth)) ++ [125]) =
          object_text fmt depth ((fun n => member_text fmt (depth + 1) (key n) (f n)) <$> cs)).
        { rewrite members_join by done. rewrite Hp. unfold object_text. cbn [cs fmap list_fmap]. rewrite <- !app_assoc. cbn [app].
          do 3 f_equal. by destruct fmt. }
        rewrite <- Ht. eapply wp_closed; [exact Hw5|done|done| |destruct fmt; wlen|].
        - rewrite members_join by done. cbn [app]. constructor; [done|].
          repeat (apply Forall_app; split); [apply no_nul_pretty; by repeat constructor|apply no_nul_members|apply no_nul_pretty; by repeat constructor|apply no_nul_pretty, no_nul_tabs].
        - eapply moved_eq; [exact (moved_trans _ _ _ _ _ (moved_trans _ _ _ _ _ (moved_trans _ _ _ _ _ Hm13 Hm4) Hm5) Hm6)|lia]. }
      destruct fmt; [|apply wp_ret, Hgo; by rewrite app_nil_r].
      eapply wp_put_n; [done|done| |exact Hgo]. rewrite Z2Nat.id by done. wlen.
    + intros h4 [?|?] Hm4; [destruct fmt; lia|]. apply (wp_failed (2 * length ms) 2 h h4).
      * eapply moved_eq; [exact (moved_trans _ _ _ _ _ Hm13 Hm4)|lia].
      * by eapply moved_heap.
  - intros ms h3 Hm3 Hh. cbn [negb]. apply (wp_failed (2 * length ms) 2 h h3).
    + eapply moved_eq; [exact (moved_trans _ _ _ _ _ Hm12 Hm3)|lia].
    + by eapply moved_heap.
Qed.

(** Every well-formed tree is printed as [render] says, or given up for lack of
    memory; no access is out of bounds and no block is lost. *)
Lemma prints_value R n : forall keyed depth s h, wf_node keyed n = true -> 0 <= depth ->
  wp (print_value (C:=C) (S:=S) fmt depth n) (prints (render fmt depth n) h s) R (s, h).
Proof.
  induction n as [k ty v i d c IH] using node_ind'. intros keyed depth s h Hw Hd.
  apply wf_shape in Hw as [Hs _]. inversion Hs as [|?|?|?? Hi|?? Hx|?? Hc|?? Hc]; subst; cbn [print_value render];
    change (Z.land ?a 255) with a; cbn [Z.eqb Pos.eqb cJSON_NULL cJSON_False cJSON_True cJSON_Number cJSON_String cJSON_Array cJSON_Object default].
  - by apply prints_print_text; [repeat constructor|].
  - by apply prints_print_text; [repeat constructor|].
  - by apply prints_print_text; [repeat constructor|].
  - by apply prints_number.
  - by apply prints_string.
  - apply prints_array. rewrite Forall_forall in *. intros n Hn s' h'. eapply IH; [done|by apply Hc|lia].
  - apply prints_object; [done|]. rewrite Forall_forall in *. intros n Hn. specialize (Hc n Hn). split; [by apply wf_shape in Hc as [_ ?]|].
    intros s' h'. eapply IH; [done|done|lia].
Qed.
End Printers.
