(* ===== verification/CJsonRead.v ===== *)
(** * Parsing JSON: a reference reader, and that the parser implements it

    The parser of [cJSON.c] measures a string, allocates it, and fills it in a
    second pass over the text; it builds the tree in place and leaves it half
    built when it fails.  The reader below is a function on texts.  On a text
    whose escapes are complete the parser gives the reader's tree or, for lack
    of memory, nothing; it stays inside its blocks, and deleting the tree gives
    back every block.  On other texts the two passes disagree, and the second
    one writes behind the block. *)

From stdpp Require Import base numbers list strings.
From Stdlib Require Import SpecFloat.
From S2P Require Import Prelude Platform CommonFunc Double CJson CJsonText CJsonPrint.

(** ** The reader *)
Fixpoint trim (s : bytes) : bytes :=
  match s with c :: r => if negb (c =? 0) && (c <=? 32) then trim r else s | [] => [] end.
(** The number of four hexadecimal digits. *)
Definition hex4 (s : bytes) : Z := foldl (fun h c => 16 * h + default 0 (hex_digit c)) 0 (take 4 s).
(** What follows a backslash and a [u]: the character, if it is one, and the rest. *)
Definition read_unicode (s : bytes) : option Z * bytes :=
  let uc := hex4 s in
  let r := drop 4 s in
  if (0xDC00 <=? uc) && (uc <=? 0xDFFF) || (uc =? 0) then (None, r)
  else if (0xD800 <=? uc) && (uc <=? 0xDBFF) then
    match r with
    | a :: b :: r2 =>
      if (a =? 92) && (b =? 117) then
        let uc2 := hex4 r2 in
        (if (uc2 <? 0xDC00) || (0xDFFF <? uc2) then None
         else Some (0x10000 + Z.lor (Z.shiftl (Z.land uc 0x3FF) 10) (Z.land uc2 0x3FF)), drop 4 r2)
      else (None, r)
    | _ => (None, r)
    end
  else (Some uc, r).
(** One character of a string, or one escape: the bytes it stands for. *)
Definition read_char (s : bytes) : bytes * bytes :=
  match s with
  | [] => ([], [])
  | c :: r =>
    if negb (c =? 92) then ([c], r)
    else
      match r with
      | [] => ([], [])
      | y :: r =>
        match control y with
        | Some z => ([z], r)
        | None => if y =? 117 then let '(uc, r) := read_unicode r in (match uc with Some uc => utf8 uc | None => [] end, r) else ([y], r)
        end
      end
  end.
(** Up to a quote or the end. *)
Definition at_end (s : bytes) : bool := match s with [] => true | c :: _ => (c =? 34) || (c =? 0) end.
Fixpoint read_chars (fuel : nat) (s : bytes) : bytes * bytes :=
  match fuel with
  | O => ([], s)
  | S fuel =>
    if at_end s then ([], s)
    else let '(x, r) := read_char s in let '(y, r) := read_chars fuel r in (x ++ y, r)
  end.
Definition read_string (item : node) (s : bytes) : option (node * bytes) :=
  match s with
  | c :: r =>
    if c =? 34 then
      let '(x, r) := read_chars (length r) r in
      Some (set_text x item, match r with c :: q => if c =? 34 then q else r | [] => r end)
    else None
  | [] => None
  end.
(** A computation that uses no state, as a function. *)
Definition run0 {A} (m : M unit A) : option A := match m tt with Done a _ => Some a | _ => None end.

Section Read.
Context `{Libm}.
Definition read_number (item : node) (s : bytes) : option (node * bytes) :=
  match run0 (parse_number item s) with Some (n, Some r) => Some (n, r) | _ => None end.
Section Values.
Context (value : node -> bytes -> option (node * bytes)).
Definition read_element (item : node) (s : bytes) : option (node * bytes) := prod_map id trim <$> value item (trim s).
Definition read_member (item : node) (s : bytes) : option (node * bytes) :=
  '(n, r) ← read_string item (trim s);
  match trim r with c :: r => if c =? 58 then read_element (take_key n) r else None | [] => None end.
Section Items.
Context (close : Z) (element : node -> bytes -> option (node * bytes)).
Fixpoint read_more (fuel : nat) (s : bytes) : option (list node * bytes) :=
  match s with
  | [] => None
  | c :: r =>
    if negb (c =? 44) then if c =? close then Some ([], r) else None
    else match fuel with
         | O => None
         | S fuel => '(n, r) ← element fresh_node r; '(l, r) ← read_more fuel r; Some (n :: l, r)
         end
  end.
Definition read_items (item : node) (s : bytes) : option (node * bytes) :=
  match trim (drop 1 s) with
  | [] => None
  | c :: r =>
    if c =? close then Some (item, r)
    else '(n, r) ← element fresh_node (c :: r); '(l, r) ← read_more (length r) r; Some (set_child (n :: l) item, r)
  end.
End Items.
End Values.
Fixpoint read_value (fuel : nat) (item : node) (s : bytes) : option (node * bytes) :=
  match fuel with
  | O => None
  | S fuel =>
    if prefix_of_b (str "null") s then Some (set_type cJSON_NULL item, drop 4 s)
    else if prefix_of_b (str "false") s then Some (set_type cJSON_False item, drop 5 s)
    else if prefix_of_b (str "true") s then Some (set_valueint 1 (set_type cJSON_True item), drop 4 s)
    else
      match s with
      | [] => None
      | c :: _ =>
        if c =? 34 then read_string item s
        else if (c =? 45) || is_digit c then read_number item s
        else if c =? 91 then read_items 93 (read_element (read_value fuel)) (set_type cJSON_Array item) s
        else if c =? 123 then read_items 125 (read_member (read_value fuel)) (set_type cJSON_Object item) s
        else None
      end
  end.
Definition read (s : bytes) : option node := let s := trim s in fst <$> read_value (length s) fresh_node s.
End Read.

(** ** Texts whose escapes are complete *)
(** Up to the terminator, a backslash is followed by a character, and [u] after
    a backslash by four hexadecimal digits. *)
Definition is_hex_char (c : Z) : bool := match hex_digit c with Some _ => true | None => false end.
Fixpoint escapes_ok (s : bytes) : bool :=
  match s with
  | [] => false
  | c :: r =>
    if c =? 0 then true
    else if c =? 92 then
      match r with
      | [] => false
      | y :: r =>
        negb (y =? 0) && (if y =? 117 then (4 <=? length r)%nat && forallb is_hex_char (take 4 r) else true) && escapes_ok r
      end
    else escapes_ok r
  end.
Definition good (s : bytes) : Prop := escapes_ok s = true /\ is_bytes s.
#[export] Instance good_dec s : Decision (good s).
Proof. unfold good; apply _. Defined.

Lemma good_cons c r : good (c :: r) -> c <> 0 -> c <> 92 -> good r.
Proof. intros [He Hb] H0 H92. inversion Hb; subst. split; [|done]. cbn in He. by zbool. Qed.
Lemma good_not_nil s : good s -> exists c r, s = c :: r.
Proof. intros [He _]. destruct s; [done|eauto]. Qed.
Section Good.
Context {T : Type}.
Implicit Types (t : T).
Lemma rd_0 c r t : rd (c :: r) 0 t = Done c t.
Proof. rewrite rd_ok; [done|]. rewrite len_cons. pose proof (len_nonneg r). lia. Qed.
Lemma trim_le s : (length (trim s) <= length s)%nat.
Proof. induction s as [|c s IH]; cbn; [done|]. destruct (_ && _); cbn; lia. Qed.
Lemma trim_good s : good s -> good (trim s).
Proof.
  induction s as [|c s IH]; [done|]. intros Hg. cbn [trim]. destruct (negb (c =? 0) && (c <=? 32)) eqn:E; [|done].
  apply IH. eapply good_cons; [done| |]; zbool; try done; lia.
Qed.
Lemma skip_good s t : good s -> skip s t = Done (trim s) t.
Proof.
  induction s as [|c s IH]; intros Hg; [by destruct Hg|]. cbn [skip trim]. destruct (negb (c =? 0) && (c <=? 32)) eqn:E; [|done].
  apply IH. eapply good_cons; [done| |]; zbool; try done; lia.
Qed.
Definition plain_word (w : bytes) : Prop := Forall (fun x => x <> 0 /\ x <> 92) w.
Lemma starts_good w : plain_word w -> forall s t, good s -> starts w s t = Done (prefix_of_b w s) t.
Proof.
  induction 1 as [|x w [Hx0 Hx] Hw IH]; intros s t Hg; [done|]. destruct (good_not_nil s Hg) as (c&r&->). cbn [starts prefix_of_b].
  rewrite (Z.eqb_sym x). destruct (Z.eqb_spec c x) as [->|]; [|done]. cbn [andb]. apply IH. by eapply good_cons.
Qed.
Lemma prefix_good w : plain_word w -> forall s, good s -> prefix_of_b w s = true -> good (drop (length w) s).
Proof.
  induction 1 as [|x w [Hx0 Hx] Hw IH]; intros s Hg Hp; [done|]. destruct s as [|c r]; [done|]. cbn in *.
  apply andb_prop in Hp as [E Hp]. apply IH; [|done]. apply Z.eqb_eq in E as <-. by eapply good_cons.
Qed.

(** ** Strings *)
Fixpoint cnt (s : bytes) : Z :=
  match s with
  | [] => 0
  | c :: r => if (c =? 34) || (c =? 0) then 0 else if c =? 92 then match r with [] => 0 | _ :: r => 1 + cnt r end else 1 + cnt r
  end.
Lemma cnt_nonneg s : 0 <= cnt s.
Proof.
  induction s as [s IH] using (induction_ltof1 _ (@length Z)). unfold ltof in IH. destruct s as [|c [|y r]]; cbn [cnt]; [lia| |].
  - destruct (_ || _); [lia|]. destruct (c =? 92); cbn; lia.
  - destruct (_ || _); [lia|]. destruct (c =? 92); [pose proof (IH r ltac:(cbn; lia)); lia|].
    pose proof (IH (y :: r) ltac:(cbn; lia)) as Hy. cbn [cnt] in Hy. lia.
Qed.
Lemma cnt_plain c r : c <> 34 -> c <> 0 -> c <> 92 -> cnt (c :: r) = 1 + cnt r.
Proof. intros. cbn [cnt]. by zbool. Qed.
Lemma count_string_good s : forall n t, good s -> count_string s n t = Done (n + cnt s) t.
Proof.
  induction s as [s IH] using (induction_ltof1 _ (@length Z)). unfold ltof in IH. intros n t Hg.
  destruct (good_not_nil s Hg) as (c&r&->). cbn [count_string cnt]. destruct (Z.eqb_spec c 34); [by rewrite Z.add_0_r|].
  destruct (Z.eqb_spec c 0); [by rewrite Z.add_0_r|]. cbn [orb]. destruct (Z.eqb_spec c 92) as [->|].
  - destruct Hg as [He Hb]. cbn in He. destruct r as [|y r]; [done|]. apply andb_prop in He as [_ He]. inversion Hb as [|?? _ Hb']; inversion Hb'; subst.
    rewrite (IH r ltac:(cbn; lia)) by done. f_equal. lia.
  - rewrite (IH r ltac:(cbn; lia)) by (by eapply good_cons). f_equal. lia.
Qed.

Lemma hex_digit_range c d : hex_digit c = Some d -> 0 <= d < 16 /\ c <> 34 /\ c <> 0 /\ c <> 92.
Proof. unfold hex_digit. intros Hd. zbool; simplify_eq; lia. Qed.
Lemma hex_chars_cons4 (r : bytes) : (4 <= length r)%nat -> forallb is_hex_char (take 4 r) = true ->
  exists a b c d q A B C D, r = a :: b :: c :: d :: q /\ hex_digit a = Some A /\ hex_digit b = Some B /\ hex_digit c = Some C /\ hex_digit d = Some D.
Proof.
  intros Hl Hf. destruct r as [|a [|b [|c [|d q]]]]; cbn in Hl; try lia. cbn in Hf. unfold is_hex_char in Hf.
  destruct (hex_digit a) eqn:?, (hex_digit b) eqn:?, (hex_digit c) eqn:?, (hex_digit d) eqn:?; try done. by do 9 eexists.
Qed.
Lemma parse_hex4_good r t : (4 <= length r)%nat -> forallb is_hex_char (take 4 r) = true ->
  parse_hex4 r t = Done (hex4 r) t /\ 0 <= hex4 r < 65536.
Proof.
  intros Hl Hf. destruct (hex_chars_cons4 r Hl Hf) as (a&b&c&d&q&A&B&C&D&->&Ha&Hb&Hc&Hd).
  pose proof (hex_digit_range _ _ Ha) as [? _]. pose proof (hex_digit_range _ _ Hb) as [? _].
  pose proof (hex_digit_range _ _ Hc) as [? _]. pose proof (hex_digit_range _ _ Hd) as [? _].
  unfold parse_hex4, hex4. cbn [parse_hex take foldl]. rewrite Ha, Hb, Hc, Hd. cbn [default].
  rewrite (bind_done _ _ _ _ _ (rd_0 a _ t)), Ha. cbn [drop].
  rewrite (bind_done _ _ _ _ _ (rd_0 b _ t)), Hb. cbn [drop]. rewrite (bind_done _ _ _ _ _ (rd_0 c _ t)), Hc. cbn [drop].
  rewrite (bind_done _ _ _ _ _ (rd_0 d _ t)), Hd. rewrite take_0. cbn [foldl].
  rewrite (u32_small (16 * 0)), (u32_small (16 * (16 * 0 + A))), (u32_small (16 * (16 * (16 * 0 + A) + B))),
    (u32_small (16 * (16 * (16 * (16 * 0 + A) + B) + C))) by (unfold is_u32; lia). unfold id. split; [done|lia].
Qed.
(** Four hexadecimal digits are four plain characters. *)
Lemma hex4_plain r : (4 <= length r)%nat -> forallb is_hex_char (take 4 r) = true -> good r ->
  good (drop 4 r) /\ cnt r = 4 + cnt (drop 4 r) /\ (length (drop 4 r) + 4 = length r)%nat.
Proof.
  intros Hl Hf Hg. destruct (hex_chars_cons4 r Hl Hf) as (a&b&c&d&q&A&B&C&D&->&Ha&Hb&Hc&Hd).
  apply hex_digit_range in Ha as (_&?&?&?), Hb as (_&?&?&?), Hc as (_&?&?&?), Hd as (_&?&?&?).
  change (drop 4 (a :: b :: c :: d :: q)) with (drop 0 q). rewrite drop_0. split_and!; [|rewrite !cnt_plain by done; lia|cbn; lia]. do 4 (apply good_cons in Hg; [|done|done]). done.
Qed.

Lemma bit7_byte z : Z.testbit z 7 = true -> u8 z <> 0.
Proof.
  intros Hb Hz. assert (Ht : Z.testbit (z mod 2 ^ 8) 7 = Z.testbit z 7) by (apply Z.mod_pow2_bits_low; lia).
  change (z mod 2 ^ 8) with (u8 z) in Ht. by rewrite Hz, Hb in Ht.
Qed.
Lemma trailing_byte z : u8 (trailing z) <> 0.
Proof. apply bit7_byte. unfold trailing. by rewrite Z.land_spec, Z.lor_spec, orb_true_r. Qed.
Lemma lead_byte a m : Z.testbit m 7 = true -> u8 (Z.lor a m) <> 0.
Proof. intros Hm. apply bit7_byte. by rewrite Z.lor_spec, Hm, orb_true_r. Qed.
Lemma utf8_ok uc : 0 < uc -> no_nul (utf8 uc) /\ is_bytes (utf8 uc) /\ len (utf8 uc) <= 4 /\ (uc < 0x10000 -> len (utf8 uc) <= 3).
Proof.
  intros Huc. unfold utf8.
  assert (Hb : forall l, is_bytes (u8 <$> l)) by (intros l; apply Forall_fmap, Forall_true; intros z; apply u8_range).
  destruct (Z.ltb_spec uc 0x80) as [Hs|]; [|destruct (uc <? 0x800); [|destruct (Z.ltb_spec uc 0x10000)]].
  - split_and!; [|done|done|done]. repeat constructor. rewrite u8_small; unfold is_u8; lia.
  - split_and!; [|done|done|done]. repeat constructor; [by apply lead_byte|apply trailing_byte].
  - split_and!; [|done|done|done]. repeat constructor; [by apply lead_byte|apply trailing_byte|apply trailing_byte].
  - split_and!; [|done|done|lia]. repeat constructor; [by apply lead_byte|apply trailing_byte|apply trailing_byte|apply trailing_byte].
Qed.

(** What one step of the second pass takes from the text and writes. *)
Record step_ok (s x r : bytes) : Prop := {
  st_good : good r;
  st_shorter : (length r < length s)%nat;
  st_fits : len x + cnt r <= cnt s;
  st_text : no_nul x /\ is_bytes x;
}.
Definition uni_text (uc : option Z) : bytes := match uc with Some uc => utf8 uc | None => [] end.
Lemma uni_none r q : good q -> (length q <= length r)%nat -> cnt q <= cnt r -> step_ok (92 :: 117 :: r) [] q.
Proof.
  intros Hg Hl Hc. split; [done|cbn; lia| |split; constructor]. change (len []) with 0. cbn [cnt]. change (92 =? 34) with false.
  change (92 =? 0) with false. change (92 =? 92) with true. cbn [orb]. lia.
Qed.
Lemma uni_some r q uc : 0 < uc -> len (utf8 uc) <= 4 -> good q -> (length q <= length r)%nat -> 4 + cnt q <= cnt r -> step_ok (92 :: 117 :: r) (utf8 uc) q.
Proof.
  intros Hu Hlu Hg Hl Hc. pose proof (utf8_ok uc Hu) as (?&?&?&?). split; [done|cbn; lia| |done]. cbn [cnt]. change (92 =? 34) with false.
  change (92 =? 0) with false. change (92 =? 92) with true. cbn [orb]. lia.
Qed.
Lemma good_backslash y r : good (92 :: y :: r) ->
  y <> 0 /\ good r /\ (y = 117 -> (4 <= length r)%nat /\ forallb is_hex_char (take 4 r) = true).
Proof.
  intros [He Hb]. cbn [escapes_ok] in He. change (92 =? 0) with false in He. change (92 =? 92) with true in He. apply andb_prop in He as [He Hr]. apply andb_prop in He as [Hy Hu]. inversion Hb as [|?? _ Hb']; inversion Hb'; subst.
  split_and!; [by zbool|done|]. intros ->. change (117 =? 117) with true in Hu. cbn iota in Hu. apply andb_prop in Hu as [Hl Hf]. split; [|done]. by apply Nat.leb_le in Hl.
Qed.
Lemma rd_S (b : bytes) x i t : 0 <= i -> rd (x :: b) (i + 1) t = rd b i t.
Proof.
  intros Hi. unfold rd. rewrite len_cons. destruct (Z.ltb_spec i (len b)), (Z.ltb_spec (i + 1) (len b + 1)); try lia.
  - destruct (Z.leb_spec 0 i), (Z.leb_spec 0 (i + 1)); try lia. cbn [andb]. by replace (Z.to_nat (i + 1)) with (S (Z.to_nat i)) by lia.
  - by rewrite !andb_false_r.
Qed.
Lemma surrogates uc uc2 : 0xD800 <= uc <= 0xDBFF -> 0xDC00 <= uc2 <= 0xDFFF ->
  0 < 0x10000 + Z.lor (Z.shiftl (Z.land uc 0x3FF) 10) (Z.land uc2 0x3FF).
Proof.
  intros. assert (0 <= Z.lor (Z.shiftl (Z.land uc 0x3FF) 10) (Z.land uc2 0x3FF)); [|lia].
  apply Z.lor_nonneg. split; [apply Z.shiftl_nonneg|]; apply Z.land_nonneg; lia.
Qed.
Lemma parse_unicode_good r t : good (92 :: 117 :: r) ->
  exists s', parse_unicode (117 :: r) t = Done (s', (read_unicode r).1) t /\ drop 1 s' = (read_unicode r).2 /\
    step_ok (92 :: 117 :: r) (uni_text (read_unicode r).1) (read_unicode r).2.
Proof.
  intros Hg. apply good_backslash in Hg as (_&Hg&Hu). destruct (Hu eq_refl) as [Hl Hf]. clear Hu.
  destruct (parse_hex4_good r t Hl Hf) as [Hx Hr]. destruct (hex4_plain r Hl Hf Hg) as (Hg4&Hc4&Hl4).
  unfold parse_unicode, read_unicode. change (drop 1 (117 :: r)) with (drop 0 r). rewrite drop_0, (bind_done _ _ _ _ _ Hx).
  assert (exists d, drop 4 (117 :: r) = d :: drop 4 r) as [d Hd]
    by (destruct r as [|a [|b [|c [|d q]]]]; cbn in Hl; try lia; by exists d). rewrite Hd. set (q := drop 4 r) in *. cbn beta zeta.
  assert (Hnone : step_ok (92 :: 117 :: r) [] q) by (apply uni_none; [done|lia|lia]).
  destruct ((0xDC00 <=? hex4 r) && (hex4 r <=? 0xDFFF) || (hex4 r =? 0)) eqn:E1; [by exists (d :: q)|].
  destruct ((0xD800 <=? hex4 r) && (hex4 r <=? 0xDBFF)) eqn:E2.
  2:{ exists (d :: q). split_and!; [done|done|]. cbn [fst snd uni_text]. assert (0 < hex4 r) by (zbool; try done; lia).
      apply uni_some; [done|by apply utf8_ok|done|lia|lia]. }
  destruct (good_not_nil q Hg4) as (a&q1&Eq). rewrite Eq in *. change 1 with (0 + 1) at 1. erewrite bind_done by (rewrite rd_S by lia; apply rd_0).
  destruct (Z.eqb_spec a 92) as [->|]; cbn [negb].
  2:{ exists (d :: a :: q1). split; [by destruct q1|]. split; [by destruct q1|]. by destruct q1. }
  destruct q1 as [|b r2]; [by destruct Hg4|]. change 2 with (0 + 1 + 1) at 1. erewrite bind_done by (rewrite !rd_S by lia; apply rd_0).
  destruct (good_backslash b r2 Hg4) as (_&Hgr2&Hu2). destruct (Z.eqb_spec b 117) as [->|]; cbn [negb andb]; [|by exists (d :: 92 :: b :: r2)].
  destruct (Hu2 eq_refl) as [Hl2 Hf2]. destruct (parse_hex4_good r2 t Hl2 Hf2) as [Hx2 Hr2]. destruct (hex4_plain r2 Hl2 Hf2 Hgr2) as (Hg6&Hc6&Hl6).
  change (drop 3 (d :: 92 :: 117 :: r2)) with (drop 0 r2). rewrite drop_0, (bind_done _ _ _ _ _ Hx2).
  assert (exists e, drop 6 (d :: 92 :: 117 :: r2) = e :: drop 4 r2) as [e He]
    by (destruct r2 as [|a2 [|b2 [|c2 [|d2 q2]]]]; cbn in Hl2; try lia; by exists d2). rewrite He.
  assert (Hcq : cnt (92 :: 117 :: r2) = 1 + cnt r2) by done. cbn [length] in Hl4. rewrite Hcq in Hc4.
  destruct ((hex4 r2 <? 0xDC00) || (0xDFFF <? hex4 r2)) eqn:E3; (exists (e :: drop 4 r2); split_and!; [done|by rewrite <- (drop_0 (drop 4 r2)) at 2|]).
  - cbn [fst snd uni_text]. apply uni_none; [done|lia|lia].
  - cbn [fst snd uni_text]. assert (0 < 0x10000 + Z.lor (Z.shiftl (Z.land (hex4 r) 0x3FF) 10) (Z.land (hex4 r2) 0x3FF))
      by (apply surrogates; zbool; try done; lia). apply uni_some; [done|by apply utf8_ok|done|lia|lia].
Qed.

Lemma control_ok y z : control y = Some z -> 8 <= z <= 13.
Proof. unfold control. intros Hc. repeat (destruct (_ =? _); [injection Hc as <-; lia|]). done. Qed.
Lemma one_text c : c <> 0 -> is_u8 c -> no_nul [c] /\ is_bytes [c].
Proof. intros. split; by apply Forall_singleton. Qed.
Lemma step_one c y r : good r -> c <> 0 -> is_u8 c -> step_ok (92 :: y :: r) [c] r.
Proof.
  intros Hg Hc Hu. split; [done|cbn; lia| |by apply one_text]. cbn [cnt]. change (92 =? 34) with false.
  change (92 =? 0) with false. change (92 =? 92) with true. cbn [orb]. change (len [c]) with 1. lia.
Qed.
(** One round of the second pass. *)
Lemma copy_round L fuel s out i x0 t : good s -> at_end s = false -> holds L x0 (out, i) -> len x0 + cnt s < L ->
  exists out', holds L (x0 ++ (read_char s).1) (out', i + len (read_char s).1) /\ step_ok s (read_char s).1 (read_char s).2 /\
    copy_string (S fuel) s out i t = copy_string fuel (read_char s).2 out' (i + len (read_char s).1) t.
Proof.
  intros Hg Ha Hw HL. destruct (good_not_nil s Hg) as (c&r&->). cbn [at_end] in Ha. cbn [copy_string read_char].
  erewrite bind_done by apply rd_0. rewrite Ha. apply orb_false_elim in Ha as [H34%Z.eqb_neq H0%Z.eqb_neq].
  pose proof Hw as (Hlo&Hi&_). cbn [fst snd] in *. pose proof (len_nonneg x0). pose proof (cnt_nonneg r).
  assert (Hwrite : forall x, len x <= cnt (c :: r) -> holds L (x0 ++ x) (splice out i x, i + len x))
    by (intros x Hx; apply (holds_splice L x0 x (out, i) Hw); lia).
  assert (Hone : forall z, is_u8 z -> z <> 0 -> 1 <= cnt (c :: r) -> wr out i z t = Done (splice out i [z]) t).
  { intros z Hz Hz0 Hx. rewrite wr_ok by lia. rewrite u8_small by done. by rewrite splice_one by lia. }
  destruct (Z.eqb_spec c 92) as [->|]; cbn [negb].
  - destruct r as [|y r]; [by destruct Hg|]. destruct (good_backslash y r Hg) as (Hy&Hgr&_).
    assert (Hyu : is_u8 y) by (destruct Hg as [_ Hb]; inversion Hb as [|?? _ Hb']; by inversion Hb').
    change (drop 1 (92 :: y :: r)) with (y :: r). unfold unescape. rewrite !bind_assoc. erewrite bind_done by apply rd_0.
    pose proof (cnt_nonneg r). assert (Hc1 : cnt (92 :: y :: r) = 1 + cnt r) by done.
    destruct (control y) as [z|] eqn:Ec.
    + pose proof (control_ok _ _ Ec). assert (is_u8 z) by (unfold is_u8; lia). exists (splice out i [z]). cbn [fst snd].
      split; [apply Hwrite; change (len [z]) with 1; lia|]. split; [apply step_one; [done|lia|done]|].
      rewrite bind_assoc, (bind_done _ _ _ _ _ (Hone z ltac:(done) ltac:(lia) ltac:(lia))). rewrite bind_ret_l.
      change (drop 1 (y :: r)) with (drop 0 r). by rewrite drop_0.
    + destruct (Z.eqb_spec y 117) as [->|].
      * destruct (parse_unicode_good r t Hg) as (s'&Hp&Hd&Hst). rewrite bind_assoc, (bind_done _ _ _ _ _ Hp).
        destruct (read_unicode r) as [[uc|] r'] eqn:Er; cbn [fst snd uni_text] in *.
        -- pose proof (st_fits _ _ _ Hst) as Hfit. pose proof (cnt_nonneg r'). destruct (st_text _ _ _ Hst) as [Hn Hb]. exists (splice out i (utf8 uc)).
           split; [apply Hwrite; lia|]. split; [done|]. rewrite bind_assoc, (bind_done _ _ _ _ _ (memcpy_ok out i (utf8 uc) t ltac:(lia) ltac:(lia))).
           rewrite bind_ret_l. by rewrite Hd.
        -- exists out. change (len []) with 0. rewrite Z.add_0_r, app_nil_r. split; [done|]. split; [done|]. rewrite bind_ret_l. by rewrite Hd.
      * exists (splice out i [y]). cbn [fst snd].
        split; [apply Hwrite; change (len [y]) with 1; lia|]. split; [by apply step_one|].
        rewrite bind_assoc, (bind_done _ _ _ _ _ (Hone y ltac:(done) ltac:(done) ltac:(lia))). rewrite bind_ret_l.
        change (drop 1 (y :: r)) with (drop 0 r). by rewrite drop_0.
  - assert (Hcu : is_u8 c) by (destruct Hg as [_ Hb]; by inversion Hb). rewrite cnt_plain in * by done. exists (splice out i [c]). cbn [fst snd].
    split; [apply Hwrite; change (len [c]) with 1; lia|].
    split; [split; [by eapply good_cons|cbn; lia|rewrite cnt_plain by done; change (len [c]) with 1; lia|by apply one_text]|].
    rewrite (bind_done _ _ _ _ _ (Hone c Hcu H0 ltac:(lia))). change (drop 1 (c :: r)) with (drop 0 r). by rewrite drop_0.
Qed.
Lemma copy_string_good L fuel : forall s out i x0 t, good s -> (length s <= fuel)%nat -> holds L x0 (out, i) -> len x0 + cnt s < L ->
  let '(x, r) := read_chars fuel s in
  exists out', copy_string fuel s out i t = Done (r, out', i + len x) t /\ holds L (x0 ++ x) (out', i + len x) /\
    len x <= cnt s /\ at_end r = true /\ good r /\ (length r <= length s)%nat /\ no_nul x /\ is_bytes x.
Proof.
  induction fuel as [|fuel IH]; intros s out i x0 t Hg Hf Hw HL.
  { destruct (good_not_nil s Hg) as (c&r&->). cbn in Hf. lia. }
  cbn [read_chars]. destruct (at_end s) eqn:Ha.
  - exists out. change (len []) with 0. rewrite Z.add_0_r, app_nil_r. pose proof (cnt_nonneg s).
    destruct (good_not_nil s Hg) as (c&r&->). cbn [copy_string]. erewrite bind_done by apply rd_0. cbn [at_end] in Ha. rewrite Ha.
    split_and!; try done; constructor.
  - destruct (copy_round L fuel s out i x0 t Hg Ha Hw HL) as (out1&Hw1&[Hg1 Hl1 Hc1 [Hn1 Hb1]]&Heq). rewrite Heq.
    destruct (read_char s) as [x r]. cbn [fst snd] in *.
    specialize (IH r out1 (i + len x) (x0 ++ x) t Hg1 ltac:(lia) Hw1). destruct (read_chars fuel r) as [y r'].
    destruct IH as (out2&Hcp&Hw2&Hc2&Ha2&Hg2&Hl2&Hn2&Hb2); [rewrite len_app; lia|]. exists out2. rewrite len_app, Z.add_assoc, app_assoc.
    split_and!; try done; [lia|lia|by apply Forall_app|by apply Forall_app].
Qed.
End Good.

(** ** Numbers *)
Lemma good_drop1 c r : good (c :: r) -> c <> 0 -> c <> 92 -> good (drop 1 (c :: r)).
Proof. intros. change (drop 1 (c :: r)) with (drop 0 r). rewrite drop_0. by eapply good_cons. Qed.
Lemma is_digit_plain c : is_digit c = true -> c <> 0 /\ c <> 92.
Proof. unfold is_digit. lia. Qed.
Lemma number_digits_good s : forall n k, good s ->
  exists n' k' r, (forall T (t : T), number_digits n k s t = Done (n', k', r) t) /\ good r /\ (length r <= length s)%nat.
Proof.
  induction s as [|c s IH]; intros n k Hg; [by destruct Hg|]. cbn [number_digits]. destruct (is_digit c) eqn:E; [|by exists n, k, (c :: s)].
  apply is_digit_plain in E as []. destruct (IH (dadd (dmul n d_ten) (d_of_int (c - 48))) (k + 1)) as (n'&k'&r&Hr&?&?); [by eapply good_cons|].
  exists n', k', r. split_and!; [done|done|cbn; lia].
Qed.
Lemma exponent_digits_good s : forall e, good s ->
  exists e' r, (forall T (t : T), exponent_digits e s t = Done (e', r) t) /\ good r /\ (length r <= length s)%nat.
Proof.
  induction s as [|c s IH]; intros e Hg; [by destruct Hg|]. cbn [exponent_digits]. destruct (is_digit c) eqn:E; [|by exists e, (c :: s)].
  apply is_digit_plain in E as []. destruct (IH (i32 (e * 10 + (c - 48)))) as (e'&r&Hr&?&?); [by eapply good_cons|].
  exists e', r. split_and!; [done|done|cbn; lia].
Qed.
Lemma exponent_good s : good s -> exists e r, (forall T (t : T), exponent s t = Done (e, r) t) /\ good r /\ (length r <= length s)%nat.
Proof.
  intros Hg. destruct (good_not_nil s Hg) as (c&q&->). destruct ((c =? 101) || (c =? 69)) eqn:E.
  - assert (Hgq : good q) by (eapply good_cons; [done| |]; intros ->; done). destruct (good_not_nil q Hgq) as (x&q2&->).
    set (b := (x =? 43) || (x =? 45)). assert (Hd : good (drop (if b then 2 else 1) (c :: x :: q2)) /\ (length (drop (if b then 2 else 1) (c :: x :: q2)) <= length (c :: x :: q2))%nat).
    { split; [|rewrite length_drop; lia]. subst b. destruct ((x =? 43) || (x =? 45)) eqn:Ex; [|done].
      change (drop 2 (c :: x :: q2)) with (drop 1 (x :: q2)). apply good_drop1; [done| |]; intros ->; done. }
    destruct Hd as [Hd Hl]. destruct (exponent_digits_good _ 0 Hd) as (e&r&Hr&?&?). exists (i32 (if x =? 45 then - e else e)), r.
    split; [|split; [done|lia]]. intros T t. unfold exponent. erewrite bind_done by apply rd_0. rewrite E.
    change 1 with (0 + 1) at 1. erewrite bind_done by (rewrite rd_S by lia; apply rd_0). fold b. by rewrite (bind_done _ _ _ _ _ (Hr T t)).
  - exists 0, (c :: q). split; [|done]. intros T t. unfold exponent. erewrite bind_done by apply rd_0. by rewrite E.
Qed.
Lemma skip_char (b : bool) c r : good (c :: r) -> (b = true -> c <> 0 /\ c <> 92) ->
  good (if b then drop 1 (c :: r) else c :: r) /\ (length (if b then drop 1 (c :: r) else c :: r) <= length (c :: r))%nat.
Proof. intros Hg Hb. destruct b; [|done]. destruct (Hb eq_refl). split; [by apply good_drop1|rewrite length_drop; lia]. Qed.
Section Numbers.
Context `{Libm}.
(** The digits before the point, and those behind it. *)
Lemma whole_good s : good s -> exists c x r, (forall T (t : T), rd s 0 t = Done c t) /\ good r /\ (length r <= length s)%nat /\
  (forall T (t : T), (if (49 <=? c) && (c <=? 57) then number_digits (S754_zero false) 0 s else ret (S754_zero false, 0, s)) t = Done (x, r) t).
Proof.
  intros Hg. destruct (good_not_nil s Hg) as (c&q&->). exists c. destruct ((49 <=? c) && (c <=? 57)).
  - destruct (number_digits_good _ (S754_zero false) 0 Hg) as (n&k&r&Hr&?&?). exists (n, k), r. split_and!; done || (intros; apply rd_0).
  - exists (S754_zero false, 0), (c :: q). split_and!; done || (intros; apply rd_0).
Qed.
Lemma fraction_good n s : good s -> exists c x r, (forall T (t : T), rd s 0 t = Done c t) /\ good r /\ (length r <= length s)%nat /\
  (forall T (t : T), (if c =? 46 then let* d := rd s 1 in if is_digit d then number_digits n 0 (drop 1 s) else ret (n, 0, s) else ret (n, 0, s)) t = Done (x, r) t).
Proof.
  intros Hg. destruct (good_not_nil s Hg) as (c&q&->). exists c. destruct (Z.eqb_spec c 46) as [->|].
  - assert (Hgq : good q) by (by eapply good_cons). destruct (good_not_nil q Hgq) as (x&q2&->).
    assert (Hx : forall T (t : T), rd (46 :: x :: q2) 1 t = Done x t) by (intros; change 1 with (0 + 1); rewrite rd_S by lia; apply rd_0).
    destruct (is_digit x) eqn:E.
    + destruct (number_digits_good _ n 0 Hgq) as (n'&k&r&Hr&?&?). exists (n', k), r. split_and!; [intros; apply rd_0|done|cbn in *; lia|].
      intros T t. rewrite (bind_done _ _ _ _ _ (Hx T t)), E. apply Hr.
    + exists (n, 0), (46 :: x :: q2). split_and!; [intros; apply rd_0|done|done|]. intros T t. by rewrite (bind_done _ _ _ _ _ (Hx T t)), E.
  - exists (n, 0), (c :: q). split_and!; done || (intros; apply rd_0).
Qed.
Lemma parse_number_good item s : good s -> exists i d r, (forall T (t : T), parse_number item s t = Done (set_number i d item, Some r) t) /\
  good r /\ (length r <= length s)%nat.
Proof.
  intros Hg. destruct (good_not_nil s Hg) as (c&q&->). destruct (skip_char (c =? 45) c q Hg) as [Hg1 Hl1]; [lia|].
  set (s1 := if c =? 45 then drop 1 (c :: q) else c :: q) in *. destruct (good_not_nil s1 Hg1) as (c1&q1&E1).
  rewrite E1 in *. destruct (skip_char (c1 =? 48) c1 q1 Hg1) as [Hg2 Hl2]; [lia|]. set (s2 := if c1 =? 48 then drop 1 (c1 :: q1) else c1 :: q1) in *.
  destruct (whole_good s2 Hg2) as (c2&[n k]&s3&Hr2&Hg3&Hl3&Hw). destruct (fraction_good n s3 Hg3) as (c3&[n' k']&s4&Hr3&Hg4&Hl4&Hf).
  destruct (exponent_good s4 Hg4) as (e&r&He&Hgr&Hlr). do 2 eexists. exists r. split; [|split; [done|lia]]. intros T t. unfold parse_number.
  erewrite bind_done by apply rd_0. fold s1. rewrite E1. erewrite bind_done by apply rd_0. fold s2.
  rewrite (bind_done _ _ _ _ _ (Hr2 T t)), (bind_done _ _ _ _ _ (Hw T t)). cbn beta iota.
  rewrite (bind_done _ _ _ _ _ (Hr3 T t)), (bind_done _ _ _ _ _ (Hf T t)). cbn beta iota. by rewrite (bind_done _ _ _ _ _ (He T t)).
Qed.
End Numbers.

(** The reader needs no more fuel than there are bytes. *)
Lemma read_chars_more f : forall y, at_end (read_chars f y).2 = true -> read_chars (S f) y = read_chars f y.
Proof.
  induction f as [|f IH]; intros y Hy; cbn [read_chars]; [cbn in Hy; by rewrite Hy|]. cbn [read_chars] in Hy.
  destruct (at_end y) eqn:Ey; [done|]. destruct (read_char y) as [a r]. specialize (IH r). destruct (read_chars f r) as [b r'] eqn:Er. cbn [snd] in *.
  specialize (IH Hy). cbn [read_chars] in IH. by rewrite IH.
Qed.
Lemma read_chars_fuel c q : good q -> read_chars (length (c :: q)) q = read_chars (length q) q.
Proof.
  intros Hg. apply read_chars_more. pose proof (cnt_nonneg q). set (out := zeros (cnt q + 1)).
  assert (Hw : holds (cnt q + 1) [] (out, 0)) by (split; [by apply len_zeros; lia|done]).
  pose proof (copy_string_good (cnt q + 1) (length q) q out 0 [] tt Hg ltac:(lia) Hw ltac:(change (len []) with 0; lia)) as Hcp.
  destruct (read_chars (length q) q) as [y r]. by destruct Hcp as (_&_&_&_&?&_).
Qed.

(** ** Trees *)
Definition held {A} (o : option A) : Z := match o with Some _ => 1 | None => 0 end.
(** The blocks of a tree: items, their strings and their keys. *)
Fixpoint blocks (n : node) : Z :=
  match n with Node s _ v _ _ c => 1 + held s + held v + foldr (fun c k => blocks c + k) 0 c end.
(** No item is a reference or has a constant key. *)
Fixpoint owned (n : node) : bool :=
  match n with
  | Node _ ty _ _ _ c => (Z.land ty cJSON_IsReference =? 0) && (Z.land ty cJSON_StringIsConst =? 0) && forallb owned c
  end.
(** A new item, perhaps with a key. *)
Definition blank (n : node) : Prop :=
  n_valuestring n = None /\ n_child n = [] /\ owned n = true.
Section Parser.
Context {C S : Type} `{Libm}.
Implicit Types (s : S) (h : hw C) (x : bytes) (n item : node).

Lemma wp_delete_tree n : forall Q R s h, owned n = true -> (forall h', moved (- blocks n) h h' -> Q tt (s, h')) ->
  wp (cJSON_delete (C:=C) (S:=S) n) Q R (s, h).
Proof.
  induction n as [k ty v i d c IH] using node_ind'. intros Q R s h Ho HQ. cbn [cJSON_delete owned blocks] in *.
  apply andb_prop in Ho as [[Hr Hs]%andb_prop Hc]. rewrite Hr, Hs. cbn [when].
  assert (Heach : forall h Q, (forall h', moved (- foldr (fun c k => blocks c + k) 0 c) h h' -> Q tt (s, h')) -> wp (each (cJSON_delete (C:=C) (S:=S)) c) Q R (s, h)).
  { clear h HQ. induction IH as [|m c Hm _ IHc]; intros h Q' HQ'; cbn [each foldr] in *; [apply wp_ret, HQ', moved_refl|].
    apply andb_prop in Hc as [Hm0 Hc]. apply wp_bind, Hm; [done|]. intros h1 Hm1. apply (IHc Hc). intros h2 Hm2. apply HQ'.
    eapply moved_eq; [exact (moved_trans _ _ _ _ _ Hm1 Hm2)|lia]. }
  assert (Hfree : forall (o : option bytes) h (Q : unit -> S * hw C -> Prop), (forall h', moved (- held o) h h' -> Q tt (s, h')) -> wp (free_if o) Q R (s, h)).
  { intros [] h' Q' HQ'; [by apply wp_free_moved|]. apply wp_ret, HQ', moved_refl. }
  apply wp_bind, Heach. intros h1 Hm1. apply wp_bind, Hfree. intros h2 Hm2. apply wp_bind, Hfree. intros h3 Hm3. apply wp_free_moved. intros h4 Hm4.
  apply HQ. eapply moved_eq; [exact (moved_trans _ _ _ _ _ (moved_trans _ _ _ _ _ (moved_trans _ _ _ _ _ Hm1 Hm2) Hm3) Hm4)|lia].
Qed.

(** A parser of [item] at [x] gives what the reader gives, with the blocks of
    the tree built so far; it fails when the reader does, or for lack of memory. *)
Definition parses (r : option (node * bytes)) item x h s (o : node * option bytes) (t : S * hw C) : Prop :=
  t.1 = s /\ moved (blocks o.1 - blocks item) h t.2 /\ owned o.1 = true /\
  match o.2 with
  | Some q => r = Some (o.1, q) /\ good q /\ (length q <= length x)%nat
  | None => r = None \/ heap h <> []
  end.
Lemma blocks_set_text x item : n_valuestring item = None -> blocks (set_text x item) = blocks item + 1.
Proof. destruct item as [k ty [v|] i d c]; cbn; [done|lia]. Qed.
Lemma owned_set_text x item : owned item = true -> owned (set_text x item) = true.
Proof. destruct item. cbn. by intros [_ ->]%andb_prop. Qed.
Lemma parses_string item x R s h : good x -> blank item ->
  wp (parse_string (C:=C) item x) (parses (read_string item x) item x h s) R (s, h).
Proof.
  intros Hg (Hv&Hc&Ho). assert (Hfail : forall r, r = None \/ heap h <> [] -> forall h', moved 0 h h' -> parses r item x h s (item, None) (s, h')).
  { intros r Hr h' Hm. split_and!; [done|eapply moved_eq; [done|cbn; lia]|done|done]. }
  destruct (good_not_nil x Hg) as (c&q&->). unfold parse_string, read_string. apply wp_bind. eapply wp_done; [apply rd_0|].
  destruct (Z.eqb_spec c 34) as [->|]; cbn [negb]; [|apply wp_ret, Hfail; [by left|apply moved_refl]].
  change (drop 1 (34 :: q)) with (drop 0 q). rewrite drop_0. assert (Hgq : good q) by (by eapply good_cons). pose proof (cnt_nonneg q).
  apply wp_bind. eapply wp_done; [by apply count_string_good|]. rewrite Z.add_0_l. apply wp_bind, wp_alloc_moved; [lia| |].
  2:{ intros h' [?|?] Hm; [lia|]. apply wp_ret, Hfail; [by right|done]. }
  intros out h1 Hlo _ Hm. pose proof (holds_nil out) as Hw. rewrite Hlo in Hw.
  pose proof (copy_string_good (cnt q + 1) (length (34 :: q)) q out 0 [] (s, h1) Hgq ltac:(cbn; lia) Hw ltac:(change (len []) with 0; lia)) as Hcp.
  rewrite read_chars_fuel in Hcp by done. destruct (read_chars (length q) q) as [y r]. destruct Hcp as (out2&Hcp&Hw2&Hly&Ha&Hgr&Hlr&Hny&Hby).
  apply wp_bind. eapply wp_done; [exact Hcp|]. cbn beta iota. pose proof (len_nonneg y).
  apply wp_bind. eapply wp_wr_at; [exact Hw2|cbn [app]; lia|done|]. intros out3 Hw3. apply holds_cstr in Hw3 as [Hcs _]; [|done]. rewrite Hcs.
  destruct (good_not_nil r Hgr) as (c&r'&->). apply wp_bind. eapply wp_done; [apply rd_0|]. apply wp_ret.
  assert (Hgoal : good (if c =? 34 then drop 1 (c :: r') else c :: r') /\ (length (if (c =? 34)%Z then drop 1 (c :: r') else c :: r') <= length (34%Z :: q))%nat).
  { destruct (skip_char (c =? 34) c r' Hgr) as [??]; [lia|]. split; [done|]. cbn [length] in *. lia. }
  split_and!; [done|eapply moved_eq; [done|cbn; rewrite blocks_set_text by done; lia]|by apply owned_set_text|].
  cbn [snd fst app]. split; [|exact Hgoal]. destruct (c =? 34); [|done]. change (drop 1 (c :: r')) with (drop 0 r'). by rewrite drop_0.
Qed.

(** ** Values *)
Lemma wp_weaken {A} (m : P C S A) (Q Q' : A -> S * hw C -> Prop) R t : wp m Q R t -> (forall a t', Q a t' -> Q' a t') -> wp m Q' R t.
Proof. intros Hm HQ. eapply wp_mono; [exact Hm|done|done]. Qed.
Lemma parses_chain r item item' x x' h h1 s o t : moved (blocks item' - blocks item) h h1 -> (length x' <= length x)%nat ->
  parses r item' x' h1 s o t -> parses r item x h s o t.
Proof.
  intros Hm Hl (?&Hm1&?&Ho). split_and!; [done|eapply moved_eq; [exact (moved_trans _ _ _ _ _ Hm Hm1)|lia]|done|].
  destruct (o.2) as [q|]; [destruct Ho as (?&?&?); split_and!; [done|done|lia]|]. destruct Ho as [?|?]; [by left|right; by eapply moved_heap].
Qed.
(** What a failed step leaves, and the result of the reader when it has none. *)
Lemma parses_fail r r' item x x' h s n t : parses r item x h s (n, None) t -> (r = None -> r' = None) -> parses r' item x' h s (n, None) t.
Proof. intros (?&?&?&Hr0) Hr. split_and!; [done|done|done|]. destruct Hr0; [left; auto|by right]. Qed.
Lemma parses_refused item x h s : owned item = true -> parses None item x h s (item, None) (s, h).
Proof. intros Ho. split_and!; [done|eapply moved_eq; [apply moved_refl|cbn; lia]|done|by left]. Qed.
Lemma parses_leaf item n x q h s : owned n = true -> blocks n = blocks item -> good q -> (length q <= length x)%nat ->
  parses (Some (n, q)) item x h s (n, Some q) (s, h).
Proof. intros Ho Hb Hg Hl. split_and!; [done|eapply moved_eq; [apply moved_refl|cbn; lia]|done|by split]. Qed.

(** A parser that implements a reader, on texts of at most [f] bytes and on the
    items [ok]. *)
Definition implements (f : nat) (ok : node -> Prop) (m : node -> bytes -> P C S (node * option bytes)) (r : node -> bytes -> option (node * bytes)) : Prop :=
  forall item x R s h, ok item -> good x -> (length x <= f)%nat -> wp (m item x) (parses (r item x) item x h s) R (s, h).

Section Nested.
Context (f : nat) (value : node -> bytes -> P C S (node * option bytes)) (rvalue : node -> bytes -> option (node * bytes)).
Hypothesis Hvalue : implements f blank value rvalue.
Lemma element_implements : implements f blank (spaced_value value) (read_element rvalue).
Proof.
  intros item x R s h Hi Hg Hl. unfold spaced_value, read_element. pose proof (trim_le x). apply wp_bind. eapply wp_done; [by apply skip_good|].
  apply wp_bind. eapply wp_weaken; [apply Hvalue; [done|by apply trim_good|lia]|]. intros [n [q|]] [s1 h1] Hp.
  - destruct Hp as (Hs&Hm&Ho&Hr&Hq&Hlq). cbn [fst snd] in *. subst s1. pose proof (trim_le q). apply wp_bind. eapply wp_done; [by apply skip_good|].
    apply wp_ret. rewrite Hr. split_and!; [done|done|done|]. split_and!; [done|by apply trim_good|cbn in *; lia].
  - apply wp_ret. eapply parses_fail; [done|]. by intros ->.
Qed.
Lemma member_implements : implements f (fun n => n = fresh_node) (member_value value) (read_member rvalue).
Proof.
  intros item x R s h -> Hg Hl. unfold member_value, read_member. pose proof (trim_le x). apply wp_bind. eapply wp_done; [by apply skip_good|].
  apply wp_bind. eapply wp_weaken; [apply parses_string; [by apply trim_good|done]|]. intros [n [q|]] [s1 h1] Hp.
  2:{ apply wp_ret. eapply parses_fail; [done|]. by intros ->. }
  destruct Hp as (Hs&Hm&Ho&Hr&Hq&Hlq). cbn [fst snd] in *. subst s1. pose proof (trim_le q). rewrite Hr. cbn [mbind option_bind].
  apply wp_bind. eapply wp_done; [by apply skip_good|]. pose proof (trim_good q Hq) as Ht. destruct (good_not_nil _ Ht) as (c&q'&E). rewrite E in *.
  apply wp_bind. eapply wp_done; [apply rd_0|].
  assert (Hk : blank (take_key n) /\ blocks (take_key n) = blocks n).
  { unfold read_string in Hr. destruct (trim x) as [|c0 x0]; [done|]. destruct (c0 =? 34); [|done]. destruct (read_chars _ _). by simplify_eq. }
  destruct Hk as [Hk Hb]. destruct (Z.eqb_spec c 58) as [->|]; cbn [negb].
  - change (drop 1 (58 :: q')) with (drop 0 q'). rewrite drop_0. eapply wp_weaken; [apply element_implements; [done|by eapply good_cons|cbn in *; lia]|].
    intros o t. apply parses_chain; [by rewrite Hb|cbn in *; lia].
  - apply wp_ret. eapply (parses_chain _ _ (take_key n) _ []); [by rewrite Hb|cbn; lia|by apply parses_refused, Hk].
Qed.
End Nested.

(** ** Arrays and objects *)
Definition sum_blocks (l : list node) : Z := foldr (fun c k => blocks c + k) 0 l.
Lemma blank_fresh : blank fresh_node.
Proof. done. Qed.
Lemma wp_new_item Q R s h : (forall h', moved 1 h h' -> Q (Some fresh_node) (s, h')) -> (forall h', heap h <> [] -> moved 0 h h' -> Q None (s, h')) ->
  wp (cJSON_New_Item (C:=C) (S:=S)) Q R (s, h).
Proof.
  intros HS HN. apply wp_bind, wp_alloc_moved; [done| |].
  - intros b h' _ _ Hm. by apply wp_ret, HS.
  - intros h' [?|?] Hm; [done|]. by apply wp_ret, HN.
Qed.
Lemma blocks_set_child l item : n_child item = [] -> blocks (set_child l item) = blocks item + sum_blocks l.
Proof. destruct item. cbn. intros ->. unfold sum_blocks. cbn. lia. Qed.
Lemma owned_set_child l item : owned item = true -> owned (set_child l item) = forallb owned l.
Proof. destruct item. cbn. by intros [-> _]%andb_prop. Qed.
Section Items.
Context (f : nat) (close : Z) (element : node -> bytes -> P C S (node * option bytes)) (relement : node -> bytes -> option (node * bytes)).
Hypotheses (Helement : implements f (fun n => n = fresh_node) element relement) (Hclose : close <> 0 /\ close <> 92).
Definition parses_list (r : option (list node * bytes)) x h s (o : list node * option bytes) (t : S * hw C) : Prop :=
  t.1 = s /\ moved (sum_blocks o.1) h t.2 /\ forallb owned o.1 = true /\
  match o.2 with
  | Some q => r = Some (o.1, q) /\ good q /\ (length q <= length x)%nat
  | None => r = None \/ heap h <> []
  end.
Lemma more_items_implements fuel : forall x R s h, good x -> (length x <= fuel)%nat -> (length x <= f)%nat ->
  wp (more_items close element fuel x) (parses_list (read_more close relement fuel x) x h s) R (s, h).
Proof.
  induction fuel as [|fuel IH]; intros x R s h Hg Hl Hf; destruct (good_not_nil x Hg) as (c&q&->); [cbn in Hl; lia|].
  cbn [more_items read_more]. apply wp_bind. eapply wp_done; [apply rd_0|]. change (drop 1 (c :: q)) with (drop 0 q). rewrite drop_0.
  destruct (Z.eqb_spec c 44) as [->|]; cbn [negb].
  2:{ apply wp_ret. destruct (Z.eqb_spec c close) as [->|]; (split_and!; [done|apply moved_refl|done|]); [|by left].
      destruct Hclose. split_and!; [done|by eapply good_cons|cbn; lia]. }
  assert (Hgq : good q) by (by eapply good_cons). cbn in Hl, Hf.
  apply wp_bind, wp_new_item; [|intros h1 ? Hm; apply wp_ret; split_and!; [done|done|done|by right]].
  intros h1 Hm1. apply wp_bind. eapply wp_weaken; [apply Helement; [done|done|lia]|]. intros [n [q1|]] [s1 h2] (Hs&Hm2&Ho&Hr); cbn [fst snd] in *; subst s1.
  - destruct Hr as (Hr&Hg1&Hl1). rewrite Hr. cbn [mbind option_bind]. apply wp_bind. eapply wp_weaken; [apply IH; [done|lia|lia]|].
    intros [l r] [s2 h3] (Hs&Hm3&Ho3&Hr3). cbn [fst snd] in *. subst s2. apply wp_ret.
    split_and!; [done| |by cbn; rewrite Ho|].
    + eapply moved_eq; [exact (moved_trans _ _ _ _ _ (moved_trans _ _ _ _ _ Hm1 Hm2) Hm3)|]. cbn [sum_blocks foldr fst]. change (blocks fresh_node) with 1. fold (sum_blocks l). lia.
    + cbn [fst snd]. destruct r as [q2|].
      * destruct Hr3 as (->&?&?). split_and!; [done|done|cbn; lia].
      * destruct Hr3 as [->|?]; [by left|]. right. by eapply moved_heap, moved_heap.
  - apply wp_ret. split_and!; [done| |by cbn; rewrite Ho|].
    + eapply moved_eq; [exact (moved_trans _ _ _ _ _ Hm1 Hm2)|]. cbn. lia.
    + destruct Hr as [->|?]; [by left|right; by eapply moved_heap].
Qed.
Lemma items_implements item x R s h : blank item -> good x -> (length x <= Datatypes.S f)%nat -> at_end x = false -> hd 0 x <> 92 ->
  wp (parse_items close element item x) (parses (read_items close relement item x) item x h s) R (s, h).
Proof.
  intros (Hv&Hc&Ho) Hg Hl Ha Hx. destruct (good_not_nil x Hg) as (c&q&->). cbn [at_end hd] in *. unfold parse_items, read_items.
  change (drop 1 (c :: q)) with (drop 0 q). rewrite drop_0. assert (Hgq : good q) by (eapply good_cons; [done|lia|done]).
  apply wp_bind. eapply wp_done; [by apply skip_good|]. pose proof (trim_good q Hgq) as Ht. pose proof (trim_le q).
  destruct (good_not_nil _ Ht) as (c1&q1&E). rewrite E in *. cbn in Hl. apply wp_bind. eapply wp_done; [apply rd_0|].
  destruct (Z.eqb_spec c1 close) as [->|].
  { apply wp_ret. change (drop 1 (close :: q1)) with (drop 0 q1). rewrite drop_0. destruct Hclose. apply parses_leaf; [done|done|by eapply good_cons|cbn in *; lia]. }
  apply wp_bind, wp_new_item; [|intros h1 ? Hm; apply wp_ret; split_and!; [done|eapply moved_eq; [done|cbn; lia]|done|by right]].
  intros h1 Hm1. apply wp_bind. eapply wp_weaken; [apply Helement; [done|done|cbn in *; lia]|].
  intros [m [q2|]] [s1 h2] (Hs&Hm2&Hn&Hr); cbn [fst snd] in *; subst s1.
  - destruct Hr as (Hr&Hg2&Hl2). rewrite Hr. cbn [mbind option_bind]. apply wp_bind. eapply wp_weaken; [apply more_items_implements; [done|lia|cbn in *; lia]|].
    intros [l r] [s2 h3] (Hs&Hm3&Ho3&Hr3). cbn [fst snd] in *. subst s2. apply wp_ret.
    split_and!; [done| | |].
    + eapply moved_eq; [exact (moved_trans _ _ _ _ _ (moved_trans _ _ _ _ _ Hm1 Hm2) Hm3)|]. cbn [fst]. rewrite blocks_set_child by done. cbn. fold (sum_blocks l). lia.
    + cbn [fst]. rewrite owned_set_child by done. cbn. by rewrite Hn.
    + cbn [fst snd]. destruct r as [q3|].
      * destruct Hr3 as (->&?&?). split_and!; [done|done|cbn in *; lia].
      * destruct Hr3 as [->|?]; [by left|]. right. by eapply moved_heap, moved_heap.
  - apply wp_ret. split_and!; [done| |cbn [fst]; rewrite owned_set_child by done; cbn; by rewrite Hn|].
    + eapply moved_eq; [exact (moved_trans _ _ _ _ _ Hm1 Hm2)|]. cbn [fst]. rewrite blocks_set_child by done. cbn. lia.
    + destruct Hr as [->|?]; [by left|right; by eapply moved_heap].
Qed.
End Items.

Lemma word_implements w ty item x h s : plain_word w -> good x -> prefix_of_b w x = true -> owned (ty item) = true -> blocks (ty item) = blocks item ->
  parses (Some (ty item, drop (length w) x)) item x h s (ty item, Some (drop (length w) x)) (s, h).
Proof. intros Hw Hg Hp Ho Hb. apply parses_leaf; [done|done|by apply prefix_good|rewrite length_drop; lia]. Qed.
Lemma blank_set_type ty item : blank item -> Z.land ty cJSON_IsReference = 0 -> Z.land ty cJSON_StringIsConst = 0 ->
  blank (set_type ty item) /\ blocks (set_type ty item) = blocks item.
Proof.
  destruct item. intros (?&?&Ho) Hx Hy. unfold blank. cbn in *. rewrite Hx, Hy. apply andb_prop in Ho as [_ ->]. done.
Qed.
Lemma implements_value f : implements f blank (parse_value f) (read_value f).
Proof.
  induction f as [|f IH]; intros item x R s h Hi Hg Hl; destruct (good_not_nil x Hg) as (c&q&E0); [subst x; cbn in Hl; lia|].
  cbn [parse_value read_value].
  assert (Hplain : plain_word (str "null") /\ plain_word (str "false") /\ plain_word (str "true")) by (split_and!; repeat constructor; done).
  destruct Hplain as (Hw1&Hw2&Hw3).
  assert (Hty : forall ty, Z.land ty cJSON_IsReference = 0 -> Z.land ty cJSON_StringIsConst = 0 -> blank (set_type ty item) /\ blocks (set_type ty item) = blocks item)
    by (intros; by apply blank_set_type).
  apply wp_bind. eapply wp_done; [by apply starts_good|]. destruct (prefix_of_b (str "null") x) eqn:E1.
  { apply wp_ret. destruct (Hty cJSON_NULL eq_refl eq_refl) as [(_&_&?) ?]. by apply (word_implements (str "null") (set_type cJSON_NULL)). }
  apply wp_bind. eapply wp_done; [by apply starts_good|]. destruct (prefix_of_b (str "false") x) eqn:E2.
  { apply wp_ret. destruct (Hty cJSON_False eq_refl eq_refl) as [(_&_&?) ?]. by apply (word_implements (str "false") (set_type cJSON_False)). }
  apply wp_bind. eapply wp_done; [by apply starts_good|]. destruct (prefix_of_b (str "true") x) eqn:E3.
  { apply wp_ret. destruct (Hty cJSON_True eq_refl eq_refl) as [(_&_&?) ?].
    apply (word_implements (str "true") (fun n => set_valueint 1 (set_type cJSON_True n))); try done; by destruct item. }
  subst x. apply wp_bind. eapply wp_done; [apply rd_0|]. destruct (c =? 34); [by apply parses_string|].
  destruct ((c =? 45) || is_digit c) eqn:Ed.
  { destruct (parse_number_good item (c :: q) Hg) as (i&d&r&Hr&?&?). eapply wp_done; [apply Hr|]. unfold read_number, run0. rewrite Hr.
    destruct Hi as (?&?&Ho). apply parses_leaf; try done; destruct item; cbn in *; [|done]. by apply andb_prop in Ho as [_ ->]. }
  destruct (Z.eqb_spec c 91) as [->|].
  { destruct (Hty cJSON_Array eq_refl eq_refl) as [Hb Hn]. unfold parse_array. apply wp_bind. eapply wp_done; [apply rd_0|]. cbn [Z.eqb negb].
    eapply wp_weaken; [apply (items_implements f); try done|].
    - intros n' x' R' s' h' ->. apply (element_implements f _ _ IH). apply blank_fresh.
    - intros o t. by apply parses_chain; [rewrite Hn; eapply moved_eq; [apply moved_refl|lia]|]. }
  destruct (Z.eqb_spec c 123) as [->|].
  { destruct (Hty cJSON_Object eq_refl eq_refl) as [Hb Hn]. unfold parse_object. apply wp_bind. eapply wp_done; [apply rd_0|]. cbn [Z.eqb negb].
    eapply wp_weaken; [apply (items_implements f); try done|].
    - by apply (member_implements f _ _ IH).
    - intros o t. by apply parses_chain; [rewrite Hn; eapply moved_eq; [apply moved_refl|lia]|]. }
  apply wp_ret, parses_refused, Hi.
Qed.

(** ** The whole text *)
(** What is read from a text, and what is left of it; [null] asks for nothing
    behind the value. *)
Definition read_text (null : bool) x : option (node * bytes) :=
  '(n, e) ← read_value (length (trim x)) fresh_node (trim x);
  if null then match trim e with c :: _ => if c =? 0 then Some (n, trim e) else None | [] => None end else Some (n, e).
Lemma wp_dropped {A} n (o : A) Q R s h : owned n = true -> (forall h', moved (- blocks n) h h' -> Q o (s, h')) ->
  wp (cJSON_delete (C:=C) (S:=S) n ;; ret o) Q R (s, h).
Proof. intros Ho HQ. apply wp_bind, wp_delete_tree; [done|]. intros h' Hm. by apply wp_ret, HQ. Qed.
Lemma wp_parse null x R s h : good x ->
  wp (cJSON_ParseWithOpts (C:=C) x null)
    (fun o t => t.1 = s /\
       match o with
       | Some (n, e) => read_text null x = Some (n, e) /\ owned n = true /\ moved (blocks n) h t.2
       | None => (read_text null x = None \/ heap h <> []) /\ moved 0 h t.2
       end) R (s, h).
Proof.
  intros Hg. unfold cJSON_ParseWithOpts, read_text. apply wp_bind, wp_new_item; [|intros h1 ? Hm; apply wp_ret; split; [done|split; [by right|done]]].
  intros h1 Hm1. apply wp_bind. eapply wp_done; [by apply skip_good|]. pose proof (trim_good x Hg) as Ht.
  apply wp_bind. eapply wp_weaken; [apply implements_value; [apply blank_fresh|done|done]|].
  intros [n r] [s1 h2] (Hs&Hm2&Ho&Hr). cbn [fst snd] in *. subst s1. pose proof (moved_trans _ _ _ _ _ Hm1 Hm2) as Hm. change (blocks fresh_node) with 1 in Hm.
  assert (Hgone : forall h', moved (- blocks n) h2 h' -> moved 0 h h') by (intros h' Hd; eapply moved_eq; [exact (moved_trans _ _ _ _ _ Hm Hd)|lia]).
  assert (Hall : moved (blocks n) h h2) by (eapply moved_eq; [exact Hm|lia]).
  destruct r as [e|].
  - destruct Hr as (->&Hge&Hle). cbn [mbind option_bind]. destruct null; [|apply wp_ret; by split_and!].
    apply wp_bind. eapply wp_done; [by apply skip_good|]. destruct (good_not_nil _ (trim_good e Hge)) as (c&e'&E). rewrite E.
    apply wp_bind. eapply wp_done; [apply rd_0|]. destruct (c =? 0); cbn [negb]; [apply wp_ret; by split_and!|].
    apply wp_dropped; [done|]. intros h3 Hd. split; [done|]. split; [by left|by apply Hgone].
  - apply wp_dropped; [done|]. intros h3 Hd. split; [done|]. split; [|by apply Hgone].
    destruct Hr as [->|Hh]; [by left|right; exact (moved_heap _ _ _ Hm1 Hh)].
Qed.

(** C15: On a text whose escapes are complete, whatever the allocator answers,
    the parser stays inside the text and its blocks and returns; what it returns
    is the tree and the rest of the text that the reader gives, in as many
    blocks as the tree has, all of which [cJSON_Delete] gives back.  When it
    returns NULL the reader refuses the text or memory was short, and no block
    is kept. *)
Theorem json_parse_refines null x s h : good x ->
  exists o h', cJSON_ParseWithOpts (C:=C) x null (s, h) = Done o (s, h') /\
    match o with
    | Some (n, e) =>
      read_text null x = Some (n, e) /\ moved (blocks n) h h' /\
      exists h2, cJSON_delete n (s, h') = Done tt (s, h2) /\ moved 0 h h2
    | None => (read_text null x = None \/ heap h <> []) /\ moved 0 h h'
    end.
Proof.
  intros Hg. destruct (wp_elim _ _ _ (wp_parse null x (fun _ => False) s h Hg)) as (o&[s' h']&He&Hs&Ho). cbn [fst snd] in *. subst s'.
  exists o, h'. split; [exact He|]. destruct o as [[n e]|]; [|done]. destruct Ho as (Hr&Hw&Hm). split_and!; [done|done|].
  assert (Hd : wp (cJSON_delete n) (fun _ t => t.1 = s /\ moved 0 h t.2) (fun _ => False) (s, h')).
  { apply wp_delete_tree; [done|]. intros h2 Hm2. split; [done|]. eapply moved_eq; [exact (moved_trans _ _ _ _ _ Hm Hm2)|lia]. }
  destruct (wp_elim _ _ _ Hd) as ([]&[s2 h2]&Hd'&Hs&Hm2). cbn in Hs. subst s2. by exists h2.
Qed.

End Parser.

(** A [pow] for whole exponents, by multiplication. *)
Definition whole_libm : Libm :=
  {| pow x y := let p := Pos.iter (dmul x) (d_of_int 1) (Z.to_pos (Z.abs (d_int y))) in
                if d_int y =? 0 then d_of_int 1 else if d_int y <? 0 then ddiv (d_of_int 1) p else p;
     int_outside _ := -2147483648 |}.
Lemma whole_libm_laws : LibmLaws (H:=whole_libm).
Proof. by constructor. Qed.
(** The text of an object, [a] being an array of 1 and [true]. *)
Definition sample_text : bytes := [123; 34; 97; 34; 58; 91; 49; 44; 116; 114; 117; 101; 93; 125; 0].
Lemma json_parse_refines_witness :
  exists o h', cJSON_ParseWithOpts (H:=whole_libm) sample_text true (tt, boot) = Done o (tt, h') /\
    match o with
    | Some (n, e) =>
      read_text (H:=whole_libm) true sample_text = Some (n, e) /\ moved (blocks n) boot h' /\
      exists h2, cJSON_delete n (tt, h') = Done tt (tt, h2) /\ moved 0 boot h2
    | None => (read_text (H:=whole_libm) true sample_text = None \/ heap boot <> []) /\ moved 0 boot h'
    end.
Proof. apply (json_parse_refines (H:=whole_libm) true sample_text tt boot). by apply (bool_decide_unpack (good sample_text)). Defined.

Section Overflow.
Context {C S : Type} `{Libm}.
Implicit Types (s : S) (h : hw C) (x : bytes).
(** ** Texts whose escapes are not complete *)
Definition plain_char (c : Z) : Prop := c <> 34 /\ c <> 0 /\ c <> 92.
Lemma copy_plain {T} fuel c r out i (t : T) : plain_char c ->
  copy_string (Datatypes.S fuel) (c :: r) out i t = (let* out := wr out i c in copy_string fuel r out (i + 1)) t.
Proof.
  intros (?&?&?). cbn [copy_string]. erewrite bind_done by apply rd_0. rewrite (proj2 (Z.eqb_neq c 34)), (proj2 (Z.eqb_neq c 0)), (proj2 (Z.eqb_neq c 92)) by done. done.
Qed.
Lemma copy_prefix {T} p fuel z out i (t : T) : Forall plain_char p -> 0 <= i -> i + len p <= len out ->
  exists out', copy_string (length p + fuel) (p ++ z) out i t = copy_string fuel z out' (i + len p) t /\ len out' = len out.
Proof.
  revert out i. induction p as [|c p IH]; intros out i Hp Hi Hl.
  { exists out. by rewrite Z.add_0_r. }
  apply Forall_cons in Hp as [Hc Hp]. rewrite len_cons in *. pose proof (len_nonneg p). cbn [length Nat.add app]. rewrite copy_plain by done.
  erewrite bind_done by (apply wr_ok; lia). destruct (IH (<[Z.to_nat i:=u8 c]> out) (i + 1) Hp) as (out'&E&El); [lia|unfold len in *; rewrite length_insert; lia|].
  exists out'. split; [|rewrite El; unfold len; by rewrite length_insert]. rewrite E. f_equal. lia.
Qed.
Lemma count_prefix {T} p y n (t : T) : Forall plain_char p -> count_string (p ++ 92 :: 117 :: 34 :: y) n t = Done (n + len p + 1) t.
Proof.
  revert n. induction p as [|c p IH]; intros n Hp.
  { cbn. unfold ret. f_equal. change (len []) with 0. lia. }
  apply Forall_cons in Hp as [(?&?&?) Hp]. cbn [app count_string].
  rewrite (proj2 (Z.eqb_neq c 34)), (proj2 (Z.eqb_neq c 0)), (proj2 (Z.eqb_neq c 92)) by done. cbn [orb]. rewrite IH by done. f_equal. rewrite len_cons. lia.
Qed.
Lemma copy_overflows {T} fuel (d e f : Z) (x out : bytes) i (t : T) : Forall plain_char [d; e; f] -> 0 <= i -> len out = i + 2 ->
  copy_string (3 + fuel) (d :: e :: f :: x) out i t = Fault OutOfBounds.
Proof.
  intros Hp Hi Hl. inversion Hp as [|?? Hd Hp']; inversion Hp' as [|?? He Hp'']; inversion Hp'' as [|?? Hf _]; subst.
  cbn [Nat.add]. rewrite copy_plain by done. erewrite bind_done by (apply wr_ok; lia).
  rewrite copy_plain by done. erewrite bind_done by (apply wr_ok; unfold len in *; rewrite length_insert; lia). rewrite copy_plain by done.
  unfold bind, wr. unfold len in *. rewrite !length_insert. zbool; done || lia.
Qed.
(** A string of plain characters that ends in an escape without digits. *)
Definition cut_escape (p y : bytes) : bytes := 34 :: p ++ 92 :: 117 :: 34 :: y.
Lemma string_overflows p a b c d e f x item s h : Forall plain_char p -> Forall plain_char [d; e; f] -> heap h = [] ->
  parse_string (C:=C) item (cut_escape p (a :: b :: c :: d :: e :: f :: x)) (s, h) = Fault OutOfBounds.
Proof.
  intros Hpp Hp Hh. unfold cut_escape. set (y := a :: b :: c :: d :: e :: f :: x). pose proof (len_nonneg p). unfold parse_string.
  erewrite bind_done by apply rd_0. change (negb (34 =? 34)) with false. cbn iota. cbn [drop skipn].
  erewrite bind_done by (by apply count_prefix).
  erewrite bind_done by (unfold ya_hal_os_memory_alloc; rewrite (proj2 (Z.eqb_neq _ _)) by lia; rewrite Hh; done).
  unfold bind at 1.
  match goal with |- context [copy_string ?f ?s ?o ?i ?t] => assert (E : copy_string f s o i t = Fault OutOfBounds) end; [|by rewrite E].
  replace (length (34 :: p ++ 92 :: 117 :: 34 :: y)) with (length p + (10 + length x))%nat by (cbn; rewrite length_app; cbn; lia).
  match goal with |- copy_string _ _ ?o _ ?t = _ => destruct (copy_prefix p (10 + length x) (92 :: 117 :: 34 :: y) o 0 t Hpp) as (out&E&El) end;
    [lia|unfold len in *; rewrite length_replicate; lia|]. etrans; [exact E|clear E]. unfold len in El. rewrite length_replicate in El. fold (len out) in El.
  match goal with |- copy_string _ _ _ _ ?t = _ => transitivity (copy_string (9 + length x) (d :: e :: f :: x) out (0 + len p) t) end; [done|].
  apply (copy_overflows (6 + length x)); [done|lia|unfold len in *; lia].
Qed.
(** C17: A text that is a string of plain characters up to a [u] escape without a
    single digit, the closing quote, and at least six characters more of which
    the last three are plain, makes the parser write behind the block it has
    allocated (with memory to spare): the first pass stops at the quote, where
    the second one skips four characters and goes on copying what follows. *)
Theorem json_short_escape_overflows p a b c d e f x s h : heap h = [] -> Forall plain_char p -> Forall plain_char [d; e; f] ->
  cJSON_parse (C:=C) (cut_escape p (a :: b :: c :: d :: e :: f :: x)) (s, h) = Fault OutOfBounds.
Proof.
  intros Hh Hpp Hp. set (y := a :: b :: c :: d :: e :: f :: x). unfold cJSON_parse, cJSON_ParseWithOpts, cJSON_New_Item. rewrite !bind_assoc.
  erewrite bind_done by (unfold ya_hal_os_memory_alloc; cbn [Z.eqb SIZEOF_CJSON]; rewrite Hh; done).
  rewrite bind_ret_l. unfold bind at 1 2 3. change (skip (cut_escape p y)) with (ret (T:=S * hw C) (cut_escape p y)).
  assert (E : parse_value (length (cut_escape p y)) fresh_node (cut_escape p y) (s, set_heap [] (live h + 1) h) = Fault OutOfBounds).
  { rewrite <- (string_overflows p a b c d e f x fresh_node s (set_heap [] (live h + 1) h) Hpp Hp eq_refl). done. }
  unfold ret at 1. by rewrite E.
Qed.
End Overflow.
Lemma json_short_escape_overflows_witness :
  cJSON_parse (H:=whole_libm) (cut_escape (str "name") (str "abcdef" ++ [0])) (tt, boot) = Fault OutOfBounds.
Proof. apply (json_short_escape_overflows (H:=whole_libm) (str "name") 97 98 99 100 101 102 [0] tt boot); [done|repeat constructor; done|repeat constructor; done]. Defined.
