(* ===== verification/CJsonRound.v ===== *)
(** * Printing JSON and parsing it back

    The reader of [CJsonRead] applied to the text of a tree, with or without
    formatting, gives the tree; with the two refinements this is so of the
    parser and the printer.  The text interface the rest of the library is
    proved against is discharged by the code. *)

From stdpp Require Import base numbers list strings.
From Stdlib Require Import SpecFloat.
From S2P Require Import Prelude Platform CommonFunc Double CJson CJsonText CJsonPrint CJsonRead.

(** ** Space between the tokens *)
Definition space (c : Z) : bool := negb (c =? 0) && (c <=? 32).
Definition spaces (w : bytes) : Prop := Forall (fun c => space c = true) w.
Lemma trim_spaces w y : spaces w -> trim (w ++ y) = trim y.
Proof. induction 1 as [|c w Hc _ IH]; [done|]. cbn [app trim]. unfold space in Hc. by rewrite Hc. Qed.
Lemma trim_char c y : space c = false -> trim (c :: y) = c :: y.
Proof. unfold space. cbn [trim]. by intros ->. Qed.
Lemma trim_trim y : trim (trim y) = trim y.
Proof. induction y as [|c y IH]; [done|]. cbn [trim]. destruct (negb (c =? 0) && (c <=? 32)) eqn:E; [done|]. by apply trim_char. Qed.
Lemma spaces_tabs n : spaces (tabs n).
Proof. by apply Forall_replicate. Qed.
Lemma spaces_pretty fmt w : spaces w -> spaces (pretty fmt w).
Proof. by destruct fmt; [|constructor]. Qed.

(** ** Strings *)
Lemma small_cases (P : Z -> Prop) n : Forall P (seqZ 0 n) -> forall c, 0 <= c < n -> P c.
Proof. intros HP c Hc. rewrite Forall_forall in HP. apply HP, elem_of_seqZ. lia. Qed.
Lemma read_escaped c y : 0 < c < 256 -> read_char (escaped c ++ y) = ([c], y) /\ at_end (escaped c ++ y) = false.
Proof.
  intros Hc. destruct (decide (c < 32)) as [Hs|].
  - refine (small_cases (fun c => 0 < c -> read_char (escaped c ++ y) = ([c], y) /\ at_end (escaped c ++ y) = false) 32 _ c ltac:(lia) ltac:(lia)).
    let l := eval vm_compute in (seqZ 0 32) in change (seqZ 0 32) with l. repeat (apply Forall_cons_2; [intros; split; reflexivity || lia|]); constructor.
  - destruct (decide (c = 92)) as [->|]; [by split|]. destruct (decide (c = 34)) as [->|]; [by split|].
    assert (Hn : escaped c = [c]) by (unfold escaped, short_escape; repeat case_match; zbool; done || lia).
    rewrite Hn. cbn [app read_char at_end].
    rewrite (proj2 (Z.eqb_neq c 34)), (proj2 (Z.eqb_neq c 0)), (proj2 (Z.eqb_neq c 92)) by (done || lia). done.
Qed.
Lemma read_escapes x : forall fuel rest, text_ok x = true -> (length x <= fuel)%nat ->
  read_chars fuel (mjoin (escaped <$> x) ++ 34 :: rest) = (x, 34 :: rest).
Proof.
  induction x as [|c x IH]; intros fuel rest Hx Hf; [by destruct fuel|]. destruct fuel as [|fuel]; cbn in Hf; [lia|].
  cbn in Hx. apply andb_prop in Hx as [Hc Hx]. rewrite escapes_cons, <- app_assoc. cbn [read_chars].
  destruct (read_escaped c (mjoin (escaped <$> x) ++ 34 :: rest)) as [Hr Ha]; [lia|]. rewrite Ha, Hr, IH by (done || lia). done.
Qed.
Lemma length_escapes x : (length x <= length (mjoin (escaped <$> x)))%nat.
Proof.
  induction x as [|c x IH]; [done|]. rewrite escapes_cons, length_app. assert (0 < length (escaped c))%nat.
  { unfold escaped. repeat case_match; cbn; lia. } cbn. lia.
Qed.
Lemma read_string_text item x rest : text_ok x = true -> read_string item (string_text x ++ rest) = Some (set_text x item, rest).
Proof.
  intros Hx. unfold string_text, read_string. cbn [app]. change (34 =? 34) with true. cbn iota. rewrite <- app_assoc. cbn [app].
  pose proof (length_escapes x). rewrite read_escapes; [done|done|rewrite length_app; lia].
Qed.

(** ** Numbers *)
(** What may follow a number. *)
Definition ends_number (c : Z) : bool := negb (is_digit c || (c =? 46) || (c =? 101) || (c =? 69)).
Definition rest_ok (q : bytes) : Prop := exists c r, q = c :: r /\ ends_number c = true.
Lemma digits_mono ds : Forall (fun c => is_digit c = true) ds -> forall m, 0 <= m -> m <= digits m ds.
Proof.
  induction 1 as [|c ds Hc _ IH]; intros m Hm; [done|]. cbn [digits]. rewrite Hc. unfold is_digit in Hc. specialize (IH (10 * m + (c - 48)) ltac:(lia)).
  replace (10 * m + (c - 48)) with (m * 10 + (c - 48)) in IH by lia. lia.
Qed.
Lemma number_digits_run {T} ds rest : Forall (fun c => is_digit c = true) ds -> rest_ok rest -> forall m k (t : T), 0 <= m -> digits m ds < 2 ^ 53 ->
  number_digits (d_of_int m) k (ds ++ rest) t = Done (d_of_int (digits m ds), k + len ds, rest) t.
Proof.
  intros Hds (c0&r&->&He). induction Hds as [|c ds Hc Hds IH]; intros m k t Hm Hl.
  - cbn [app number_digits]. unfold ends_number in He. destruct (is_digit c0); [done|]. change (len []) with 0. by rewrite Z.add_0_r.
  - cbn [app number_digits digits] in *. rewrite Hc in *. unfold is_digit in Hc. pose proof (digits_mono ds Hds (m * 10 + (c - 48)) ltac:(lia)).
    unfold d_ten. rewrite d_digit by lia. replace (10 * m + (c - 48)) with (m * 10 + (c - 48)) by lia. rewrite IH by lia. rewrite len_cons. do 3 f_equal. lia.
Qed.
(** The first digit of a number is 0 only when it is the only one. *)
Lemma dec_digits_lead fuel n : 0 < n < 10 ^ Z.of_nat fuel -> exists c r, dec_digits fuel n [] = c :: r /\ 49 <= c <= 57.
Proof.
  revert n. induction fuel as [|fuel IH]; intros n Hn; [change (10 ^ Z.of_nat 0) with 1 in Hn; lia|]. cbn [dec_digits].
  pose proof (Z.mod_pos_bound n 10 ltac:(lia)). pose proof (Z.div_mod n 10 ltac:(lia)). destruct (Z.ltb_spec n 10).
  - rewrite Z.mod_small by lia. do 2 eexists. split; [done|lia].
  - rewrite dec_digits_app. destruct (IH (n / 10)) as (c&r&->&Hc); [|by exists c, (r ++ [48 + n mod 10])].
    split; [lia|]. apply Z.div_lt_upper_bound; [lia|]. replace (Z.of_nat (S fuel)) with (Z.of_nat fuel + 1) in Hn by lia. rewrite Z.pow_add_r in Hn by lia. lia.
Qed.
Section Numbers.
Context `{LibmLaws}.
(** Behind the sign: the digits of [n]. *)
Lemma whole_run {T} n rest (t : T) : 0 <= n < 10 ^ 10 -> rest_ok rest ->
  exists c q, rd (dec_digits 10 n [] ++ rest) 0 t = Done c t /\ q = (if c =? 48 then drop 1 (dec_digits 10 n [] ++ rest) else dec_digits 10 n [] ++ rest) /\
    exists c1 k, rd q 0 t = Done c1 t /\
    (if (49 <=? c1) && (c1 <=? 57) then number_digits (S754_zero false) 0 q else ret (S754_zero false, 0, q)) t = Done (d_of_int n, k, rest) t.
Proof.
  intros Hn Hr. destruct (decide (n = 0)) as [->|].
  - change (dec_digits 10 0 []) with [48]. exists 48, rest. split_and!; [apply rd_0|by change (rest = drop 0 rest); rewrite drop_0|].
    destruct Hr as (c&r&->&He). exists c, 0. split; [apply rd_0|]. unfold ends_number, is_digit in He. destruct ((49 <=? c) && (c <=? 57)) eqn:E; [|done].
    assert ((48 <=? c) && (c <=? 57) = true) as Hx by lia. by rewrite Hx in He.
  - destruct (dec_digits_lead 10 n) as (c&r&E&Hc); [lia|]. destruct (dec_digits_spec 10 n) as (Hd&Hv&_); [lia|]. rewrite E in *.
    exists c, ((c :: r) ++ rest). split_and!; [apply rd_0|by destruct (Z.eqb_spec c 48); [lia|]|].
    exists c, (0 + len (c :: r)). split; [apply rd_0|]. replace ((49 <=? c) && (c <=? 57)) with true by lia.
    change (S754_zero false) with (d_of_int 0). rewrite number_digits_run by (done || (rewrite Hv; lia)). by rewrite Hv.
Qed.
Lemma read_number_text item i rest : -2147483648 <= i <= 2147483647 -> rest_ok rest ->
  read_number item (ya_int_to_string i ++ rest) = Some (set_number i (d_of_int i) item, rest).
Proof.
  intros Hi Hr. set (neg := i <? 0). set (n := Z.abs i).
  assert (Et : ya_int_to_string i = (if neg then [45] else []) ++ dec_digits 10 n []).
  { unfold ya_int_to_string, neg, n. rewrite i32_small by lia. destruct (Z.ltb_spec i 0); [by replace (- i) with (Z.abs i) by lia|by rewrite Z.abs_eq by lia]. }
  destruct (whole_run n rest tt) as (c&q&Hc&Hq&c1&k&Hc1&Hw); [lia|done|].
  assert (Hs : exists c0, rd (ya_int_to_string i ++ rest) 0 tt = Done c0 tt /\ (c0 =? 45) = neg /\
    (if c0 =? 45 then drop 1 (ya_int_to_string i ++ rest) else ya_int_to_string i ++ rest) = dec_digits 10 n [] ++ rest).
  { rewrite Et. destruct neg eqn:En; [exists 45; split_and!; [apply rd_0|done|by change (drop 0 (dec_digits 10 n [] ++ rest) = dec_digits 10 n [] ++ rest); rewrite drop_0]|].
    exists c. cbn [app]. split; [done|]. assert (Hd : c <> 45).
    { destruct (dec_digits_spec 10 n) as (Hd&_&Hne); [lia|]. destruct (dec_digits 10 n []) as [|d r]; [by destruct Hne|]. cbn [app] in Hc. rewrite rd_0 in Hc.
      injection Hc as <-. apply Forall_cons in Hd as [Hd _]. intros ->. done. }
    by rewrite (proj2 (Z.eqb_neq c 45)) by done. }
  destruct Hs as (c0&Hc0&Hn0&Hd0). destruct Hr as (c2&r&Er&He). assert (Hc2 : rd rest 0 tt = Done c2 tt) by (rewrite Er; apply rd_0).
  unfold ends_number in He. apply negb_true_iff in He. repeat (apply orb_false_elim in He as [He ?]).
  unfold read_number, run0, parse_number. rewrite (bind_done _ _ _ _ _ Hc0), Hd0, Hn0, (bind_done _ _ _ _ _ Hc), <- Hq, (bind_done _ _ _ _ _ Hc1), (bind_done _ _ _ _ _ Hw).
  cbn beta iota. rewrite (bind_done _ _ _ _ _ Hc2). replace (c2 =? 46) with false by done. rewrite bind_ret_l. cbn beta iota.
  unfold exponent. rewrite bind_assoc, (bind_done _ _ _ _ _ Hc2). replace ((c2 =? 101) || (c2 =? 69)) with false by (by rewrite orb_comm; apply eq_sym, orb_false_intro).
  rewrite bind_ret_l. change (dadd (d_of_int (- 0)) (d_of_int 0)) with (S754_zero false). rewrite pow_zero, d_signed; [|lia|intros; apply Z.ltb_ge; lia].
  replace (if neg then - n else n) with i by (subst neg n; destruct (Z.ltb_spec i 0); lia). cbn [ret].
  unfold d_to_int. by rewrite d_fits_int, d_int_exact by lia.
Qed.
End Numbers.

(** ** Arrays and objects *)
(** An item with its key, before it has a value. *)
Definition unset (k : option bytes) (ty : Z) : node := Node k ty None 0 (S754_zero false) [].
Section Items.
Context (f : nat) (close : Z) (relement : node -> bytes -> option (node * bytes)).
Hypotheses (Htrim : forall y, relement fresh_node (trim y) = relement fresh_node y) (Hclose : close = 93 \/ close = 125).
(** The text [t] of the item [n], whatever follows; it does not look like the end
    of the container. *)
Record reads_item (n : node) (t : bytes) : Prop := {
  ri_read : forall q, rest_ok q -> (length (t ++ q) <= f)%nat -> relement fresh_node (t ++ q) = Some (n, trim q);
  ri_first : exists w c r, t = w ++ c :: r /\ spaces w /\ space c = false /\ c <> 93 /\ c <> 125;
}.
Definition tail_text (sep : bytes) (ts : list bytes) (rest : bytes) : bytes := mjoin ((fun t => 44 :: sep ++ t) <$> ts) ++ rest.
Lemma join_tail sep t ts rest : join (44 :: sep) (t :: ts) ++ rest = t ++ tail_text sep ts rest.
Proof.
  unfold tail_text. revert t. induction ts as [|u ts IH]; intros t; [done|].
  change (join (44 :: sep) (t :: u :: ts)) with (t ++ (44 :: sep) ++ join (44 :: sep) (u :: ts)). rewrite <- !app_assoc, IH.
  cbn [fmap list_fmap]. change (mjoin (?a :: ?l)) with (a ++ mjoin l). cbn [app]. by rewrite <- !app_assoc.
Qed.
Lemma close_facts : space close = false /\ ends_number close = true /\ close <> 44.
Proof. destruct Hclose as [-> | ->]; by split_and!. Qed.
Lemma tail_rest sep e ts rest : spaces e -> rest_ok (tail_text sep ts (e ++ close :: rest)).
Proof.
  intros He. destruct close_facts as (_&Hn&_). destruct ts as [|t ts]; [|by do 2 eexists]. unfold tail_text. cbn [fmap list_fmap mjoin list_join app].
  destruct He as [|c e Hc He]; do 2 eexists; (split; [done|]); [done|]. unfold space in Hc. unfold ends_number, is_digit.
  destruct (48 <=? c) eqn:?, (c =? 46) eqn:?, (c =? 101) eqn:?, (c =? 69) eqn:?; cbn; done || lia.
Qed.
Lemma read_tail sep e rest ns ts : spaces sep -> spaces e -> Forall2 reads_item ns ts ->
  forall fuel, (length (trim (tail_text sep ts (e ++ close :: rest))) <= fuel)%nat -> (length (tail_text sep ts (e ++ close :: rest)) <= f)%nat ->
  read_more close relement fuel (trim (tail_text sep ts (e ++ close :: rest))) = Some (ns, rest).
Proof.
  intros Hsep He. destruct close_facts as (Hs&_&H44). induction 1 as [|n t ns ts Hi Hl IH]; intros fuel Hf Hf2.
  - unfold tail_text. cbn [fmap list_fmap mjoin list_join app]. rewrite trim_spaces, trim_char by done. assert (E : (close =? 44) = false) by lia.
    destruct fuel; cbn [read_more]; rewrite E, Z.eqb_refl; done.
  - assert (Ht : tail_text sep (t :: ts) (e ++ close :: rest) = 44 :: sep ++ t ++ tail_text sep ts (e ++ close :: rest))
      by (unfold tail_text; cbn [fmap list_fmap]; change (mjoin (?a :: ?l)) with (a ++ mjoin l); cbn [app]; by rewrite <- !app_assoc).
    rewrite Ht in *. rewrite trim_char in * by done. cbn [length] in Hf, Hf2. rewrite !length_app in Hf, Hf2. destruct fuel as [|fuel]; [lia|]. cbn [read_more].
    change (negb (44 =? 44)) with false. cbn iota. rewrite <- Htrim, trim_spaces, Htrim by done.
    rewrite (ri_read _ _ Hi) by (by apply tail_rest || (rewrite length_app; lia)). cbn [mbind option_bind].
    pose proof (trim_le (tail_text sep ts (e ++ close :: rest))). rewrite IH by lia. done.
Qed.
Lemma read_items_text item open lead sep e rest n t ns ts : spaces lead -> spaces sep -> spaces e -> Forall2 reads_item (n :: ns) (t :: ts) ->
  (length (t ++ tail_text sep ts (e ++ close :: rest)) <= f)%nat ->
  read_items close relement item (open :: lead ++ t ++ tail_text sep ts (e ++ close :: rest)) = Some (set_child (n :: ns) item, rest).
Proof.
  intros Hlead Hsep He Hf Hl. inversion Hf as [|???? Hi Hts]; subst. unfold read_items. cbn [drop]. rewrite drop_0, trim_spaces by done.
  set (q := tail_text sep ts (e ++ close :: rest)) in *. pose proof (tail_rest sep e ts rest He) as Hq. fold q in Hq.
  destruct (ri_first _ _ Hi) as (w&c&r&Et&Hw&Hc&?&?).
  assert (Ec : trim (t ++ q) = c :: r ++ q) by (rewrite Et, <- app_assoc, trim_spaces by done; cbn [app]; by apply trim_char).
  rewrite Ec. replace (c =? close) with false by (destruct Hclose; lia). rewrite <- Ec, Htrim, (ri_read _ _ Hi) by done. cbn [mbind option_bind].
  rewrite length_app in Hl. rewrite (read_tail sep e rest ns ts) by (done || (fold q; lia)). done.
Qed.
End Items.

(** ** Values *)
Section Values.
Context `{LibmLaws} (fmt : bool).
Lemma read_element_trim v y : read_element v fresh_node (trim y) = read_element v fresh_node y.
Proof. unfold read_element. by rewrite trim_trim. Qed.
Lemma read_member_trim v y : read_member v fresh_node (trim y) = read_member v fresh_node y.
Proof. unfold read_member. by rewrite trim_trim. Qed.
(** The first character of a value. *)
Lemma int_first i : exists c r, ya_int_to_string i = c :: r /\ (c = 45 \/ is_digit c = true).
Proof.
  pose proof (i32_range i). unfold ya_int_to_string. destruct (Z.ltb_spec (i32 i) 0); [do 2 eexists; split; [done|by left]|].
  destruct (dec_digits_spec 10 (i32 i)) as (Hd&_&Hne); [lia|]. destruct (dec_digits 10 (i32 i) []) as [|c r]; [by destruct Hne|].
  apply Forall_cons in Hd as [Hc _]. exists c, r. split; [done|by right].
Qed.
Lemma render_first keyed depth n : wf_node keyed n = true -> exists c r, render fmt depth n = c :: r /\ space c = false /\ c <> 93 /\ c <> 125.
Proof.
  intros Hw. apply wf_shape in Hw as [Hs _]. inversion Hs; subst; cbn [render];
    cbn [Z.eqb Pos.eqb cJSON_NULL cJSON_False cJSON_True cJSON_Number cJSON_String cJSON_Array cJSON_Object default].
  1-3: by do 2 eexists.
  2-3: by do 2 eexists.
  - destruct (int_first i) as (c&r&->&Hc). exists c, r. split; [done|]. unfold space. destruct Hc as [->|Hc]; [done|]. unfold is_digit in Hc. lia.
  - unfold object_text. case_match; by do 2 eexists.
Qed.
Lemma trim_string x y : trim (string_text x ++ y) = string_text x ++ y.
Proof. done. Qed.
(** Reading back the text of [n], with whatever follows. *)
Definition reads_back (n : node) : Prop :=
  forall f ty depth rest, rest_ok rest -> (length (render fmt depth n ++ rest) <= f)%nat ->
    read_value f (unset (n_string n) ty) (render fmt depth n ++ rest) = Some (n, rest).
Lemma element_reads f n depth : wf_node false n = true -> reads_back n ->
  reads_item f (read_element (read_value f)) n (render fmt depth n).
Proof.
  intros Hw Hr. destruct (render_first false depth n Hw) as (c&r&E&Hc&?&?). split; [|exists [], c, r; by split_and!; [|constructor|..]].
  intros q Hq Hl. unfold read_element. rewrite E in *. cbn [app] in *. rewrite trim_char by done.
  assert (Ek : n_string n = None) by (by apply wf_shape in Hw as [_ ?]). specialize (Hr f 0 depth q Hq). rewrite Ek, E in Hr.
  change (unset None 0) with fresh_node in Hr. cbn [app] in Hr. by rewrite Hr.
Qed.
Lemma member_reads f n depth : wf_node true n = true -> reads_back n ->
  reads_item f (read_member (read_value f)) n (member_text fmt depth (key n) (render fmt depth n)).
Proof.
  intros Hw Hr. destruct (render_first true depth n Hw) as (c&r&E&Hc&?&?). apply wf_shape in Hw as [_ (k&Ek&Hk)].
  assert (Hsp : spaces (pretty fmt (tabs depth))) by apply spaces_pretty, spaces_tabs.
  unfold member_text, key. rewrite Ek. cbn [default]. split; [|do 3 eexists; by split_and!].
  intros q Hq Hl. unfold read_member. rewrite <- !app_assoc, trim_spaces in * by done. cbn [app] in *. rewrite <- ?app_assoc in *.
  unfold id in *. rewrite trim_string, read_string_text by done. cbn [mbind option_bind]. rewrite trim_char by done. change (58 =? 58) with true. cbn iota.
  unfold read_element. rewrite trim_spaces by (apply spaces_pretty; by repeat constructor). rewrite E in *. cbn [app] in *. rewrite trim_char by done.
  specialize (Hr f cJSON_String depth q Hq). rewrite Ek, E in Hr. change (take_key (set_text k fresh_node)) with (unset (Some k) cJSON_String).
  cbn [app] in Hr. rewrite Hr; [done|]. revert Hl. rewrite !length_app. cbn. rewrite !length_app. cbn. rewrite ?length_app. lia.
Qed.
(** A value that is not one of the three words, by its first character. *)
Lemma read_value_first f item c r : c <> 110 -> c <> 102 -> c <> 116 ->
  read_value (S f) item (c :: r) =
    (if c =? 34 then read_string item (c :: r)
     else if (c =? 45) || is_digit c then read_number item (c :: r)
     else if c =? 91 then read_items 93 (read_element (read_value f)) (set_type cJSON_Array item) (c :: r)
     else if c =? 123 then read_items 125 (read_member (read_value f)) (set_type cJSON_Object item) (c :: r)
     else None).
Proof.
  intros H1 H2 H3. cbn [read_value]. change (str "null") with [110; 117; 108; 108]. change (str "false") with [102; 97; 108; 115; 101].
  change (str "true") with [116; 114; 117; 101]. cbn [prefix_of_b].
  rewrite (proj2 (Z.eqb_neq 110 c)), (proj2 (Z.eqb_neq 102 c)), (proj2 (Z.eqb_neq 116 c)) by done. done.
Qed.
Lemma reads_array f k ty depth cs rest : (length (array_text fmt (render fmt depth <$> cs) ++ rest) <= S f)%nat ->
  Forall (fun n => reads_item f (read_element (read_value f)) n (render fmt depth n)) cs ->
  read_value (S f) (unset k ty) (array_text fmt (render fmt depth <$> cs) ++ rest) = Some (Node k cJSON_Array None 0 (S754_zero false) cs, rest).
Proof.
  intros Hl Hc. unfold array_text in *. cbn [app] in *. rewrite read_value_first by done. cbn [Z.eqb Pos.eqb orb is_digit Z.leb Z.compare Pos.compare Pos.compare_cont andb].
  destruct cs as [|n cs]; [done|]. cbn [fmap list_fmap] in *. rewrite <- app_assoc, join_tail in *. cbn [length] in Hl.
  change (set_type cJSON_Array (unset k ty)) with (unset k cJSON_Array).
  apply (read_items_text f 93 _ ltac:(intros; apply read_element_trim) ltac:(by left) (unset k cJSON_Array) 91 [] (pretty fmt [32]) [] rest n (render fmt depth n) cs (render fmt depth <$> cs)).
  - constructor.
  - apply spaces_pretty. by repeat constructor.
  - constructor.
  - apply Forall_cons in Hc as [Hn Hc]. constructor; [done|]. by apply Forall2_fmap_r, Forall_Forall2_diag.
  - cbn [app] in *. lia.
Qed.
Lemma reads_object f k ty depth cs rest : 
  let text := object_text fmt depth ((fun m => member_text fmt (depth + 1) (key m) (render fmt (depth + 1) m)) <$> cs) in
  (length (text ++ rest) <= S f)%nat ->
  Forall (fun n => reads_item f (read_member (read_value f)) n (member_text fmt (depth + 1) (key n) (render fmt (depth + 1) n))) cs ->
  read_value (S f) (unset k ty) (text ++ rest) = Some (Node k cJSON_Object None 0 (S754_zero false) cs, rest).
Proof.
  intros text Hl Hc. subst text. set (mt := fun m => member_text fmt (depth + 1) (key m) (render fmt (depth + 1) m)) in *.
  assert (Hfirst : forall r, read_value (S f) (unset k ty) (123 :: r) = read_items 125 (read_member (read_value f)) (unset k cJSON_Object) (123 :: r))
    by (intros r; by rewrite read_value_first by done).
  destruct cs as [|n cs]; cbn [fmap list_fmap object_text app] in *; rewrite Hfirst.
  - unfold read_items. cbn [drop]. rewrite drop_0, <- app_assoc, trim_spaces; [done|]. apply spaces_pretty. constructor; [done|apply spaces_tabs].
  - rewrite <- !app_assoc in *. rewrite join_tail in *. cbn [length] in Hl. rewrite !length_app in Hl.
    apply (read_items_text f 125 _ ltac:(intros; apply read_member_trim) ltac:(by right) (unset k cJSON_Object) 123 (pretty fmt [10]) (pretty fmt [10]) (pretty fmt (10 :: tabs depth)) rest n (mt n) cs (mt <$> cs)).
    + apply spaces_pretty. by repeat constructor.
    + apply spaces_pretty. by repeat constructor.
    + apply spaces_pretty. constructor; [done|apply spaces_tabs].
    + apply Forall_cons in Hc as [Hn Hc]. constructor; [done|]. by apply Forall2_fmap_r, Forall_Forall2_diag.
    + rewrite length_app. cbn [app] in *. lia.
Qed.
Lemma reads_back_wf n : forall keyed, wf_node keyed n = true -> reads_back n.
Proof.
  induction n as [k ty v i d c IH] using node_ind'. intros keyed Hw f ty0 depth rest Hr Hl.
  destruct f as [|f]; [destruct (render_first keyed depth _ Hw) as (c0&r0&E0&_); rewrite E0 in Hl; cbn in Hl; lia|].
  apply wf_shape in Hw as [Hs _]. inversion Hs as [|?|?|?? Hi|?? Hx|?? Hc|?? Hc]; subst; cbn [render n_string] in *;
    cbn [Z.eqb Pos.eqb cJSON_NULL cJSON_False cJSON_True cJSON_Number cJSON_String cJSON_Array cJSON_Object default] in *.
  - done.
  - done.
  - done.
  - destruct (int_first i) as (c&r&E&Hc). pose proof (read_number_text (unset k ty0) i rest Hi Hr) as Hn. rewrite E in *. cbn [app] in *.
    rewrite read_value_first; [|unfold is_digit in Hc; lia..]. destruct (Z.eqb_spec c 34) as [->|]; [by destruct Hc|].
    replace ((c =? 45) || is_digit c) with true by (destruct Hc as [->|Hc]; [done|by rewrite Hc, orb_true_r]). exact Hn.
  - pose proof (read_string_text (unset k ty0) x rest Hx) as Hn. exact Hn.
  - apply reads_array; [done|]. rewrite Forall_forall in *. intros n Hn. apply element_reads; [by apply Hc|]. eapply IH; [done|by apply Hc].
  - apply reads_object; [done|]. rewrite Forall_forall in *. intros n Hn. apply member_reads; [by apply Hc|]. eapply IH; [done|by apply Hc].
Qed.
End Values.

(** ** The text of a tree has complete escapes *)
Definition clean (x : bytes) : Prop := is_bytes x /\ forall q, escapes_ok (x ++ q) = escapes_ok q.
Lemma clean_nil : clean [].
Proof. by split; [constructor|]. Qed.
Lemma clean_app x y : clean x -> clean y -> clean (x ++ y).
Proof. intros [Hx Ex] [Hy Ey]. split; [by apply Forall_app|]. intros q. by rewrite <- app_assoc, Ex, Ey. Qed.
Lemma clean_plain x : Forall (fun c => 0 < c < 256 /\ c <> 92) x -> clean x.
Proof.
  induction 1 as [|c x [Hc H92] _ [Hb IH]]; [apply clean_nil|]. split; [by constructor; [unfold is_u8; lia|]|]. intros q. cbn [app escapes_ok].
  by rewrite (proj2 (Z.eqb_neq c 0)), (proj2 (Z.eqb_neq c 92)), IH by (done || lia).
Qed.
Lemma clean_cons c x : 0 < c < 256 -> c <> 92 -> clean x -> clean (c :: x).
Proof. intros Hc H92 Hx. change (c :: x) with ([c] ++ x). apply clean_app; [|done]. apply clean_plain. constructor; [done|constructor]. Qed.
Lemma clean_pretty fmt x : clean x -> clean (pretty fmt x).
Proof. destruct fmt; [done|]. intros _. apply clean_nil. Qed.
Lemma clean_tabs n : clean (tabs n).
Proof. apply clean_plain, Forall_replicate. lia. Qed.
Lemma clean_join sep l : clean sep -> Forall clean l -> clean (join sep l).
Proof.
  intros Hs. induction 1 as [|x l Hx Hl IH]; [apply clean_nil|]. destruct l as [|y l]; [done|].
  change (join sep (x :: y :: l)) with (x ++ sep ++ join sep (y :: l)). by repeat apply clean_app.
Qed.
Create HintDb clean.
#[local] Hint Extern 1 (_ < _ < _) => lia : clean.
#[local] Hint Extern 1 (_ <> _) => lia : clean.
#[local] Hint Resolve clean_nil clean_app clean_cons clean_pretty clean_tabs : clean.
Lemma clean_escaped c : 0 < c < 256 -> clean (escaped c).
Proof.
  intros Hc. destruct (decide (c < 32)) as [Hs|].
  - refine (small_cases (fun c => 0 < c -> clean (escaped c)) 32 _ c ltac:(lia) ltac:(lia)).
    let l := eval vm_compute in (seqZ 0 32) in change (seqZ 0 32) with l.
    repeat (apply Forall_cons_2; [intros; lia || (split; [by apply (bool_decide_unpack _)|done])|]). constructor.
  - destruct (decide (c = 92)) as [->|]; [split; [by repeat constructor|done]|]. destruct (decide (c = 34)) as [->|]; [split; [by repeat constructor|done]|].
    assert (Hn : escaped c = [c]) by (unfold escaped, short_escape; repeat case_match; zbool; done || lia). rewrite Hn. auto with clean.
Qed.
Lemma clean_string x : text_ok x = true -> clean (string_text x).
Proof.
  intros Hx. unfold string_text. apply clean_cons; [done|done|]. apply clean_app; [|auto with clean]. induction x as [|c x IH]; [apply clean_nil|].
  cbn in Hx. apply andb_prop in Hx as [Hc Hx]. rewrite escapes_cons. apply clean_app; [apply clean_escaped; lia|by apply IH].
Qed.
Lemma clean_int i : clean (ya_int_to_string i).
Proof.
  pose proof (i32_range i).
  assert (Hd : forall n, 0 <= n < 10 ^ Z.of_nat 10 -> clean (dec_digits 10 n [])).
  { intros n Hn. destruct (dec_digits_spec 10 n Hn) as (Hd&_). apply clean_plain. eapply Forall_impl; [exact Hd|]. unfold is_digit. intros c Hc. lia. }
  unfold ya_int_to_string. destruct (i32 i <? 0) eqn:E; [apply clean_cons; [done|done|]|]; apply Hd; lia.
Qed.
Lemma clean_member fmt depth k v : text_ok k = true -> clean v -> clean (member_text fmt depth k v).
Proof. intros Hk Hv. unfold member_text. apply clean_app; [auto with clean|]. apply clean_app; [by apply clean_string|]. auto with clean. Qed.
Lemma clean_object fmt depth l : Forall clean l -> clean (object_text fmt depth l).
Proof.
  intros Hl. destruct l as [|x l]; unfold object_text; apply clean_cons; try done; repeat apply clean_app; auto 6 with clean.
  apply clean_join; auto with clean.
Qed.
Lemma clean_render fmt n : forall keyed depth, wf_node keyed n = true -> clean (render fmt depth n).
Proof.
  induction n as [k ty v i d c IH] using node_ind'. intros keyed depth Hw.
  apply wf_shape in Hw as [Hs _]. inversion Hs as [|?|?|?? Hi|?? Hx|?? Hc|?? Hc]; subst; cbn [render];
    cbn [Z.eqb Pos.eqb cJSON_NULL cJSON_False cJSON_True cJSON_Number cJSON_String cJSON_Array cJSON_Object default].
  1-3: apply clean_plain; by repeat constructor.
  - apply clean_int.
  - by apply clean_string.
  - unfold array_text. apply clean_cons; [done|done|]. apply clean_app; [|auto with clean]. apply clean_join; [auto with clean|].
    apply Forall_fmap. rewrite Forall_forall in *. intros n Hn. eapply IH; [done|by apply Hc].
  - apply clean_object, Forall_fmap. rewrite Forall_forall in *. intros n Hn. specialize (Hc n Hn). pose proof (wf_shape _ _ Hc) as [_ (k'&Ek&Hk)].
    cbn. unfold key. rewrite Ek. apply clean_member; [done|]. by eapply IH.
Qed.

(** ** On the machine *)
Lemma rest_ok_end q : rest_ok (0 :: q).
Proof. by exists 0, q. Qed.
Section Machine.
Context `{LibmLaws} {C S : Type}.
Implicit Types (s : S) (h : hw C) (n : node).
Lemma render_good fmt depth keyed n q : wf_node keyed n = true -> is_bytes q -> good (render fmt depth n ++ 0 :: q).
Proof.
  intros Hw Hq. destruct (clean_render fmt n keyed depth Hw) as [Hb He]. split; [by rewrite He|]. apply Forall_app. split; [done|]. by constructor.
Qed.
Lemma read_text_render null fmt n q : wf_node false n = true -> read_text null (render fmt 0 n ++ 0 :: q) = Some (n, 0 :: q).
Proof.
  intros Hw. destruct (render_first fmt false 0 n Hw) as (c&r&E&Hc&_).
  assert (Et : trim (render fmt 0 n ++ 0 :: q) = render fmt 0 n ++ 0 :: q) by (rewrite E; cbn [app]; by apply trim_char).
  assert (Ek : n_string n = None) by (by apply wf_shape in Hw as [_ ?]).
  pose proof (reads_back_wf fmt n false Hw (length (render fmt 0 n ++ 0 :: q)) 0 0 (0 :: q) (rest_ok_end q) (le_n _)) as Hr. rewrite Ek in Hr.
  unfold read_text. rewrite Et. change (unset None 0) with fresh_node in Hr. rewrite Hr. by destruct null.
Qed.
(** C16: Printing a tree and parsing the text gives the tree back, for the trees of
    [wf_node]: strings are terminated texts, members of objects have keys, items
    have the fields of their type only, and numbers are integers of 32 bits (a
    fraction is printed with one decimal and does not come back).  It holds with
    or without formatting, whatever bytes follow the terminator and whatever the
    two calls find on the heap; a call gives NULL only when the allocator has
    refused a block. *)
Theorem json_roundtrip fmt null n q s h : wf_node false n = true -> is_bytes q ->
  exists o h1, print_value (C:=C) fmt 0 n (s, h) = Done o (s, h1) /\
    match o with
    | None => heap h <> []
    | Some text =>
      exists o' h2, cJSON_ParseWithOpts (cstr text ++ 0 :: q) null (s, h1) = Done o' (s, h2) /\
        match o' with None => heap h <> [] | Some (n', e) => n' = n /\ e = 0 :: q /\ moved (1 + blocks n) h h2 end
    end.
Proof.
  intros Hw Hq. destruct (wp_elim _ _ _ (prints_value fmt (fun _ => False) n false 0 s h Hw ltac:(lia))) as (o&[s1 h1]&Ho&Hs&Hp).
  cbn [fst snd] in *. subst s1. exists o, h1. split; [done|]. destruct o as [text|]; [|by destruct Hp]. destruct Hp as (->&_&Hm1).
  destruct (wp_elim _ _ _ (wp_parse null _ (fun _ => False) s h1 (render_good fmt 0 false n q Hw Hq))) as (o'&[s2 h2]&Ho'&Hs&Hp).
  cbn [fst snd] in *. subst s2. exists o', h2. split; [done|]. rewrite read_text_render in Hp by done. destruct o' as [[n' e]|].
  - destruct Hp as ([= <- <-]&_&Hm2). split_and!; [done|done|]. exact (moved_trans _ _ _ _ _ Hm1 Hm2).
  - destruct Hp as [[?|Hh] _]; [done|]. by eapply moved_heap.
Qed.
End Machine.
(** An object with a member of each kind; the string needs escapes. *)
Definition sample_tree : node :=
  Node None cJSON_Object None 0 (S754_zero false)
    [Node (Some (str "on")) cJSON_True None 1 (S754_zero false) [];
     Node (Some (str "level")) cJSON_Number None (-20) (d_of_int (-20)) [];
     Node (Some (str "list")) cJSON_Array None 0 (S754_zero false)
       [Node None cJSON_String (Some [34; 92; 10; 1; 200]) 0 (S754_zero false) []; Node None cJSON_NULL None 0 (S754_zero false) []]].
Lemma json_roundtrip_witness :
  exists o h1, print_value (H:=whole_libm) true 0 sample_tree (tt, boot) = Done o (tt, h1) /\
    match o with
    | None => heap boot <> []
    | Some text =>
      exists o' h2, cJSON_ParseWithOpts (H:=whole_libm) (cstr text ++ 0 :: [7]) true (tt, h1) = Done o' (tt, h2) /\
        match o' with None => heap boot <> [] | Some (n', e) => n' = sample_tree /\ e = 0 :: [7] /\ moved (1 + blocks sample_tree) boot h2 end
    end.
Proof. apply (json_roundtrip (H0:=whole_libm_laws) true true sample_tree [7] tt boot); [by vm_compute|by repeat constructor]. Defined.
