(* ===== verification/JsonUse.v ===== *)
(** * The JSON interface, implemented by the code

    The components that use JSON are proved against [CJson.JsonText] and its
    laws.  Here the interface is the parser and the printer of [CJsonText], the
    laws are theorems about them, and the statement on the light's report is
    repeated without hypotheses on the text. *)

From stdpp Require Import base numbers list strings.
From Stdlib Require Import SpecFloat.
From S2P Require Import Prelude Platform SpiFlash Flash CommonFunc Double HalTimer CJson SysTime.
From S2P Require Import DeviceTimer License MainQueue Cloud Hardware UserData AppMain UserDataProofs.
From S2P Require Import LightColor LightIo Light LightProofs LightCloud CJsonText CJsonPrint CJsonRead CJsonRound.

(** ** Items with and without their number *)
Fixpoint erase (n : node) : cJSON := match n with Node k ty v _ _ c => Item k ty v (List.map erase c) end.
(** The application prints trees of strings, arrays and objects only. *)
Fixpoint embed (j : cJSON) : node := match j with Item k ty v c => Node k ty v (if ty =? cJSON_True then 1 else 0) (S754_zero false) (List.map embed c) end.
Lemma erase_embed j : erase (embed j) = j.
Proof.
  revert j. fix IH 1. intros [k ty v c]. cbn [embed erase]. f_equal. induction c as [|x c IHc]; [done|]. cbn [List.map]. by rewrite IH, IHc.
Qed.
(** The bytes of a block are bytes; a parser that faults has overrun its text. *)
Definition real_json `{Libm} : JsonText :=
  {| json_read t := match cJSON_parse (t ++ [0]) (tt, boot) with Done o _ => Some (option_map erase o) | _ => None end;
     cJSON_PrintUnformatted j := match cJSON_printUnformatted (embed j) (tt, boot) with Done o _ => option_map (List.map u8) o | _ => None end |}.

(** ** Every string item has its text and every member its key, whatever was parsed *)
Fixpoint typed (n : node) : bool :=
  match n with Node _ ty v _ _ c =>
    (negb (ty =? cJSON_String) || is_there v) && forallb (fun m => (negb (ty =? cJSON_Object) || is_there (n_string m)) && typed m) c end.
(** An item without children yet. *)
Definition bare (n : node) : Prop := n_child n = [].
(** When the computation returns, its result satisfies [Q]. *)
Definition ensures {T A} (m : M T A) (Q : A -> Prop) : Prop := forall t a t', m t = Done a t' -> Q a.
Lemma post_ret {T A} (a : A) (Q : A -> Prop) : Q a -> ensures (T:=T) (ret a) Q.
Proof. intros HQ t b t' [= <- _]. done. Qed.
Lemma post_bind {T A B} (m : M T A) (k : A -> M T B) Q1 Q2 : ensures m Q1 -> (forall a, Q1 a -> ensures (k a) Q2) -> ensures (bind m k) Q2.
Proof. intros Hm Hk t b t'. unfold bind. destruct (m t) eqn:E; [|done|done]. eapply Hk, Hm, E. Qed.
Lemma post_step {T A B} (m : M T A) (k : A -> M T B) Q : (forall a, ensures (k a) Q) -> ensures (bind m k) Q.
Proof. intros Hk. apply (post_bind _ _ (fun _ => True)); [done|auto]. Qed.
Lemma post_if {T A} (b : bool) (m1 m2 : M T A) Q : ensures m1 Q -> ensures m2 Q -> ensures (if b then m1 else m2) Q.
Proof. by destruct b. Qed.
Lemma post_mono {T A} (m : M T A) (Q1 Q2 : A -> Prop) : ensures m Q1 -> (forall a, Q1 a -> Q2 a) -> ensures m Q2.
Proof. intros Hm HQ t a t' E. eapply HQ, Hm, E. Qed.
Section Typed.
Context {C S : Type} `{Libm}.
(** What a parser makes of an item with the key [k], when it succeeds. *)
Definition gives (k : option bytes) (o : node * option bytes) : Prop := is_Some o.2 -> typed o.1 = true /\ n_string o.1 = k.
Lemma gives_none k n : gives k (n, None).
Proof. intros [? [=]]. Qed.
Lemma string_gives item x : bare item ->
  ensures (parse_string (C:=C) (S:=S) item x) (fun o => gives (n_string item) o /\ (is_Some o.2 -> bare o.1 /\ is_Some (n_valuestring o.1))).
Proof.
  intros Hb. assert (Hn : forall n, gives (n_string item) (n, None) /\ (is_Some (n, None : option bytes).2 -> bare n /\ is_Some (n_valuestring n)))
    by (intros n; split; [apply gives_none|by intros [? [=]]]).
  apply post_step. intros c. apply post_if; [by apply post_ret|]. apply post_step. intros n. apply post_step. intros [out|]; [|by apply post_ret].
  apply post_step. intros [[s' out'] i]. apply post_step. intros o. apply post_step. intros c'. apply post_ret.
  destruct item as [k ty v iv d ch]. unfold bare in Hb. cbn in Hb. subst ch. split; [by intros _; split|]. intros _. split; [done|]. by eexists.
Qed.
Lemma number_typed item x : bare item -> ensures (T:=S * hw C) (parse_number item x) (gives (n_string item)).
Proof.
  intros Hb. unfold parse_number. do 3 (apply post_step; intros ?). apply post_step. intros [[n0 ?] ?]. apply post_step. intros ?. apply post_step. intros [[n1 ?] ?].
  apply post_step. intros [? ?]. apply post_ret. intros _. destruct item as [k ty v iv d ch]. unfold bare in Hb. cbn in Hb. by subst ch.
Qed.
Lemma new_item_bare : ensures (cJSON_New_Item (C:=C) (S:=S)) (fun o => forall n, o = Some n -> bare n).
Proof. apply post_step. intros [b|]; apply post_ret; [by intros n [= <-]|done]. Qed.
Section Nested.
Context (value : node -> bytes -> P C S (node * option bytes)).
Hypothesis Hvalue : forall item x, bare item -> ensures (value item x) (gives (n_string item)).
Lemma spaced_typed item x : bare item -> ensures (spaced_value value item x) (gives (n_string item)).
Proof.
  intros Hk. apply post_step. intros s. eapply post_bind; [by apply Hvalue|]. intros [n [q|]] Hn; [|apply post_ret, gives_none].
  apply post_step. intros s'. apply post_ret. intros _. by apply Hn.
Qed.
Lemma member_typed item x : bare item -> ensures (member_value value item x) (fun o => is_Some o.2 -> typed o.1 = true /\ is_there (n_string o.1) = true).
Proof.
  assert (Hnone : forall n : node, is_Some (n, None : option bytes).2 -> typed n = true /\ is_there (n_string n) = true) by (by intros n [? [=]]).
  intros Hk. apply post_step. intros s. eapply post_bind; [by apply string_gives|]. intros [n [q|]] Hn; [|apply post_ret, Hnone].
  apply post_step. intros s'. apply post_step. intros c. apply post_if; [apply post_ret, Hnone|].
  destruct Hn as [_ [Hb [x' Hv]]]; [by eexists|]. cbn [fst] in *. destruct n as [k ty v iv d ch]. cbn in Hv. subst v.
  eapply post_mono; [by apply spaced_typed|]. intros o Ho Hs. destruct (Ho Hs) as [? ->]. done.
Qed.
Section Items.
Context (keyed : bool) (close : Z) (element : node -> bytes -> P C S (node * option bytes)).
Definition fine (m : node) : bool := (negb keyed || is_there (n_string m)) && typed m.
Hypothesis Helement : forall item x, bare item -> ensures (element item x) (fun o => is_Some o.2 -> fine o.1 = true).
Lemma more_typed fuel : forall x, ensures (more_items close element fuel x) (fun o => is_Some o.2 -> forallb fine o.1 = true).
Proof.
  induction fuel as [|fuel IH]; intros x; cbn [more_items]; apply post_step; intros c; (apply post_if; [by apply post_ret|]); [by intros ???|].
  eapply post_bind; [apply new_item_bare|]. intros [n|] Hn; [|apply post_ret; by intros [? [=]]]. eapply post_bind; [by apply Helement, Hn|].
  intros [m [q|]] Hm; [|apply post_ret; by intros [? [=]]]. eapply post_bind; [apply IH|]. intros [l r] Hl. apply post_ret. cbn in *. intros Hr.
  rewrite Hm by eauto. by apply Hl.
Qed.
Lemma items_typed item x : bare item -> n_type item <> cJSON_String -> (n_type item =? cJSON_Object) = keyed ->
  ensures (parse_items close element item x) (gives (n_string item)).
Proof.
  intros Hk Hty Hkey. assert (Htyped : forall l, forallb fine l = true -> typed (set_child l item) = true /\ n_string (set_child l item) = n_string item).
  { destruct item as [k ty v i d c]. cbn in *. intros l Hl. rewrite (proj2 (Z.eqb_neq ty cJSON_String)) by done. rewrite Hkey. done. }
  apply post_step. intros s. apply post_step. intros c. apply post_if.
  { apply post_ret. intros _. specialize (Htyped [] eq_refl). destruct item as [k ty v i d ch]. unfold bare in Hk. cbn in Hk. by subst ch. }
  eapply post_bind; [apply new_item_bare|]. intros [n|] Hn; [|apply post_ret, gives_none]. eapply post_bind; [by apply Helement, Hn|].
  intros [m [q|]] Hm; [|apply post_ret, gives_none]. eapply post_bind; [apply more_typed|]. intros [l r] Hl. apply post_ret. intros Hr. apply Htyped.
  cbn in *. rewrite Hm by eauto. by apply Hl.
Qed.
End Items.
End Nested.
Lemma value_typed fuel : forall item x, bare item -> ensures (parse_value (C:=C) (S:=S) fuel item x) (gives (n_string item)).
Proof.
  induction fuel as [|fuel IH]; intros item x Hb; [by intros ???|]. cbn [parse_value].
  assert (Hleaf : forall ty, ty <> cJSON_String -> gives (n_string item) (set_type ty item, Some (drop 4 x)) /\ gives (n_string item) (set_type ty item, Some (drop 5 x)) /\
    gives (n_string item) (set_valueint 1 (set_type ty item), Some (drop 4 x)) /\ bare (set_type ty item) /\ n_type (set_type ty item) = ty /\ n_string (set_type ty item) = n_string item).
  { intros ty Hty. destruct item as [k ty' v i d ch]. unfold bare in *. cbn in Hb. subst ch. unfold gives. cbn. by rewrite (proj2 (Z.eqb_neq ty cJSON_String)). }
  apply post_step; intros b; apply post_if; [apply post_ret; by apply Hleaf|].
  apply post_step; intros b1; apply post_if; [apply post_ret; by apply Hleaf|].
  apply post_step; intros b2; apply post_if; [apply post_ret; by apply Hleaf|].
  apply post_step. intros c. apply post_if; [eapply post_mono; [by apply string_gives|by intros o [? _]]|]. apply post_if; [by apply number_typed|].
  apply post_if; [apply post_step; intros c1; apply post_if; [apply post_ret, gives_none|]|].
  { destruct (Hleaf cJSON_Array) as (_ & _ & _ & Hba & Hta & Es); [done|]. rewrite <- Es. apply (items_typed false); [|done|by rewrite Hta..].
    intros item' x' Hb'. eapply post_mono; [by apply (spaced_typed _ IH)|]. intros o Ho Hs. by apply Ho. }
  apply post_if; [apply post_step; intros c1; apply post_if; [apply post_ret, gives_none|]|apply post_ret, gives_none].
  destruct (Hleaf cJSON_Object) as (_ & _ & _ & Hba & Hta & Es); [done|]. rewrite <- Es. apply (items_typed true); [|done|by rewrite Hta..].
  intros item' x' Hb'. eapply post_mono; [by apply (member_typed _ IH)|]. intros o Ho Hs. unfold fine. by destruct (Ho Hs) as [-> ->].
Qed.
Lemma parse_typed x : ensures (cJSON_parse (C:=C) (S:=S) x) (fun o => forall n, o = Some n -> typed n = true).
Proof.
  eapply post_bind; [|intros r Hr; apply post_ret; exact Hr]. eapply post_bind; [apply new_item_bare|].
  intros [n|] Hn; [|by apply post_ret]. apply post_step. intros s. eapply post_bind; [by apply value_typed, Hn|].
  intros [m [e|]] Hm; [apply post_ret; intros n' [= <-]; by apply Hm|]. apply post_step. intros _. by apply post_ret.
Qed.
End Typed.

(** ** The laws of the interface *)
Section Laws.
Context `{LibmLaws}.
Lemma typed_printable : forall n, typed n = true -> printable (erase n) = true.
Proof.
  fix IH 1. intros [k ty v i d c]. cbn. intros [Hv Hc]%andb_prop. rewrite Hv. cbn [andb].
  induction c as [|m c IHc]; [done|]. cbn in *. apply andb_prop in Hc as [[Hk Hm]%andb_prop Hc]. rewrite (IH m Hm), IHc by done.
  destruct m. cbn in *. by rewrite Hk.
Qed.
#[export] Instance real_json_laws : JsonTextLaws (H:=real_json).
Proof.
  constructor. intros j x. cbn. destruct (cJSON_printUnformatted (embed j) (tt, boot)) as [[out|]|?|?]; [|done|done|done]. cbn. intros [= <-].
  apply Forall_fmap, Forall_true. intros z. apply u8_range.
Qed.
(** Printing a tree of the application succeeds, and parsing the text gives it back. *)
Lemma real_print j : wf_node false (embed j) = true ->
  exists out, cJSON_PrintUnformatted (JsonText:=real_json) j = Some out /\ cstr out = render false 0 (embed j).
Proof.
  intros Hw. cbn. destruct (wp_elim _ _ _ (prints_value (C:=ideal) false (fun _ => False) (embed j) false 0 tt boot Hw ltac:(lia))) as (o&t&Ho&_&Hp).
  unfold cJSON_printUnformatted. rewrite Ho. destruct o as [out|]; [|by destruct Hp]. exists (List.map u8 out). split; [done|]. destruct Hp as (Hc&_&_).
  destruct (clean_render false (embed j) false 0 Hw) as [Hb _]. rewrite <- Hc in *.
  clear -Hb. induction out as [|c out IH]; [done|]. cbn in *. destruct (Z.eqb_spec c 0) as [->|]; [done|].
  apply Forall_cons in Hb as [Hc Hb]. rewrite u8_small by done. destruct (Z.eqb_spec c 0); [done|]. by rewrite IH.
Qed.
Lemma real_roundtrip j out : wf_node false (embed j) = true -> cJSON_PrintUnformatted (JsonText:=real_json) j = Some out ->
  cJSON_Parse (H:=real_json) (cstr out) = Some j.
Proof.
  intros Hw Ho. destruct (real_print j Hw) as (out'&Ho'&Ht). rewrite Ho in Ho'. injection Ho' as <-. rewrite Ht. cbn.
  pose proof (wp_parse (C:=ideal) false (render false 0 (embed j) ++ [0]) (fun _ => False) tt boot (render_good false 0 false (embed j) [] Hw ltac:(constructor))) as Hp.
  destruct (wp_elim _ _ _ Hp) as (o&t&He&_&Hr). rewrite read_text_render in Hr by done. unfold cJSON_Parse, real_json, json_read, cJSON_parse.
  rewrite (bind_done _ _ _ _ _ He). destruct o as [[n e]|]; [destruct Hr as ([= <- <-]&_)|by destruct Hr as [[?|?] _]]. cbn. by rewrite erase_embed.
Qed.
(** The parser survives a text whose escapes are complete. *)
Lemma string_member_wf m : string_member m = true -> wf_node true (embed m) = true.
Proof.
  destruct m as [[k|] ty [v|] [|? ?]]; try done; cbn; intros Hm; try (by rewrite ?andb_false_r in Hm).
  apply andb_prop in Hm as [[Ht%Z.eqb_eq Hk]%andb_prop Hv]. subst ty. cbn. by rewrite Hk, Hv.
Qed.
Lemma text_document_wf j : text_document j = true -> wf_node false (embed j) = true.
Proof.
  destruct j as [[k|] ty [v|] c]; try done; cbn. intros [Ht%Z.eqb_eq Hc]%andb_prop. subst ty.
  assert (Hall : forallb (wf_node true) (List.map embed c) = true); [|exact Hall].
  induction c as [|m c IHc]; [done|]. cbn [List.map forallb] in *. apply andb_prop in Hc as [Hm Hc].
  by rewrite string_member_wf, IHc.
Qed.
#[export] Instance real_json_strings : JsonStrings (H:=real_json).
Proof.
  constructor.
  - intros t j. unfold cJSON_Parse. cbn. pose proof (parse_typed (C:=ideal) (S:=unit) (t ++ [0]) (tt, boot)) as Hp.
    destruct (cJSON_parse (t ++ [0]) (tt, boot)) as [[n|]|?|?]; [|done|done|done]. cbn. intros [= <-]. by eapply typed_printable, Hp.
  - intros j x Ht Hx. pose proof (real_roundtrip j x (text_document_wf j Ht) Hx) as Hr. unfold overruns. by rewrite (read_parse _ _ Hr).
Qed.
End Laws.

(** ** The report of the light *)
Lemma member_wf k v : text_ok (str k) = true -> wf_node true (embed (member k (ya_int_to_string v))) = true.
Proof. intros Hk. unfold member. cbn. by rewrite Hk, int_text_ok. Qed.
Lemma report_wf l : wf_node false (embed (jroot (report_members l))) = true.
Proof.
  assert (Hall : forallb (wf_node true) (List.map embed (report_members l)) = true); [|exact Hall].
  unfold report_members. destruct (onoff l =? 1); cbn [List.map forallb]; by rewrite !member_wf.
Qed.
(** C36: Report and command are inverse to each other where the lamp is concerned,
    through the text: the report of a valid setting of one device is printed, and
    another device (memory to spare, its queue empty, nothing pending) that
    parses the text as a command, and lets its light task run, shows the light
    of the first, whatever it showed before. *)
Theorem report_text_reproduces_lamp {C} `{NorChipLaws C, !NorReliable C} `{CloudEnv, MainEnv} `{LibmLaws} tick l n s (h : hw C) :
  valid_setting l -> heap h = [] -> queues h QLight = [] -> lamp_ok (l_io s) h -> idle_turn s -> light_wf (l_new s) ->
  exists text s1 h1 s2 h2, cJSON_PrintUnformatted (JsonText:=real_json) (jroot (report_members l)) = Some text /\
    ya_thing_handle_downlink_data (H0:=real_json) text n (s, h) = Done tt (s1, h1) /\
    ya_light_task_step tick (s1, h1) = Done tt (s2, h2) /\
    lamp_ok (l_io s2) h2 /\ lamp_shows (effective (scene_light s) l) h2.
Proof.
  intros Hv Hh Hq Hl Hi Hw. destruct (real_print _ (report_wf l)) as (text&Hp&_). exists text.
  destruct (report_reproduces_lamp (H2:=real_json_strings) tick l text n s h) as (s1&h1&s2&h2&?); try done; [|by exists s1, h1, s2, h2].
  by apply real_roundtrip; [apply report_wf|].
Qed.
Lemma report_text_reproduces_lamp_witness :
  exists text s1 h1 s2 h2, cJSON_PrintUnformatted (JsonText:=real_json (H:=whole_libm)) (jroot (report_members green)) = Some text /\
    ya_thing_handle_downlink_data (H0:=real_json (H:=whole_libm)) text 1 (sample_light, boot) = Done tt (s1, h1) /\
    ya_light_task_step 3 (s1, h1) = Done tt (s2, h2) /\
    lamp_ok (l_io s2) h2 /\ lamp_shows green h2.
Proof.
  apply (report_text_reproduces_lamp (H4:=whole_libm_laws) 3 green 1 sample_light boot);
    [split_and!; try evaluate; by right | done | done | apply (sample_lamp []) | done | evaluate].
Defined.
