(* ===== verification/AmtNv.v ===== *)
(** * The factory parameters: [nv/amtNv/amtNv.c]

    Serial number, MAC address, test flags, radio calibration and the Aliyun
    identity live in a sector of their own, each parameter at a fixed address.
    The sector has two blocks: a new value goes to the free one and the old
    value is marked deleted; when both are taken the valid values are gathered
    in RAM, saved in a backup sector and written to the erased sector. *)

From stdpp Require Import base numbers list strings.
From S2P Require Import Prelude Platform SpiFlash CommonFunc.

Definition DRV_ERROR : Z := -1.
Definition DRV_ERR_INVALID_PARAM : Z := -4.
Definition DRV_ERR_MEM_ALLOC : Z := -5.

Definition AMT_PARTION_SIZE : Z := 4096.
(** The preprocessor takes the variable [amt_partion_base] for 0 when it chooses
    the size of a block: 2047 is below 2048 only. *)
Definition AMT_NV_BLOCK_SIZE : Z := 2048.
Definition AMT_NV_BLOCK_NUM : Z := AMT_PARTION_SIZE / AMT_NV_BLOCK_SIZE.
Definition AMT_NV_SIZE : Z := 2048 - 1.
Definition AMT_NV_MAGIC_VALUE : Z := 0x4E56.
Definition AMT_NV_MAGIC_NONE : Z := 0xFFFF.
Definition AMT_NV_STATE_USED : Z := 0xFF00.
Definition AMT_NV_STATE_DELE : Z := 0x0000.
Definition AMT_NV_HEAD_SIZE : Z := 6.
Definition AMT_NV_BACKUP_BASE : Z := 0xFE000.
Definition AMT_NV_BACKUP_BEGIN : Z := AMT_NV_BACKUP_BASE.
Definition AMT_NV_BACKUP_COMP : Z := AMT_NV_BACKUP_BASE + 4.
Definition AMT_NV_BACKUP_ADDR : Z := AMT_NV_BACKUP_BASE + 16.
(** RAM at 0x253000, used as it is found. *)
Definition CACHE_SIZE : Z := 4096.
Definition WORD_ALIGN (x : Z) : Z := Z.shiftl (Z.shiftr (u32 x + 3) 2) 2.

(** A 16-bit and a 32-bit number in memory, least significant byte first. *)
Definition bytes16 (z : Z) : bytes := [u8 z; u8 (Z.shiftr z 8)].
Definition get16 (b : bytes) : Z := match b with lo :: hi :: _ => lo + 256 * hi | _ => 0 end.
Definition get32 (b : bytes) : Z := get16 b + 65536 * get16 (drop 2 b).

(** [struct amt_nv_head_t], as its six bytes. *)
Definition head_magic (b : bytes) : Z := get16 b.
Definition head_state (b : bytes) : Z := get16 (drop 2 b).
Definition head_val_len (b : bytes) : Z := b !!! 4%nat.
Definition head_crc8 (b : bytes) : Z := b !!! 5%nat.
Definition is_used (b : bytes) : bool := (head_magic b =? AMT_NV_MAGIC_VALUE) && (head_state b =? AMT_NV_STATE_USED).
Definition is_dele (b : bytes) : bool := (head_magic b =? AMT_NV_MAGIC_VALUE) && (head_state b =? AMT_NV_STATE_DELE).

(** One round of the inner loop of [amt_nv_crc8]. *)
Definition crc8_bit (crc : Z) : Z :=
  if negb (Z.land crc 0x80 =? 0) then u8 (Z.lxor (Z.shiftl crc 1) 0x31) else u8 (Z.shiftl crc 1).
Definition amt_nv_crc8 (buf : bytes) : Z := foldl (fun crc b => Nat.iter 8 crc8_bit (Z.lxor crc b)) 0 buf.

(** [amt_partion_base] and [amt_partion_flag]. *)
Record amt := mkAmt { amt_partion_base : Z; amt_partion_flag : Z }.
Definition amt_boot : amt := mkAmt 0xFF000 0.
(** What the partition table says of [nv_amt]; without an entry the variable
    keeps its value. *)
Class AmtPartition := { amt_partition : option Z }.

Section AmtNv.
Context {C : Type} `{NorChip C} `{AmtPartition}.
Abbreviation PA := (P C amt).

(** The driver; the code does not look at its results. *)
Definition nv_read (addr n : Z) : PA bytes := let* h := get_hw in ret (hal_spiflash_read (chip h) addr n).2.
Definition nv_write (addr : Z) (b : bytes) : PA unit := upd_hw (fun h => set_chip (hal_spifiash_write (chip h) addr b).2 h).
Definition nv_erase (addr n : Z) : PA unit := upd_hw (fun h => set_chip (hal_spiflash_erase (chip h) addr n).2 h).
Definition find_partition : PA unit :=
  puts (fun s => if amt_partion_flag s =? 0 then mkAmt (default (amt_partion_base s) amt_partition) 1 else s).
Definition block (addr i : Z) : Z := addr + i * AMT_NV_BLOCK_SIZE.

(** The loop of [amt_nv_search], from block [i] with [n] to go. *)
Fixpoint search_blocks (n : nat) (i addr : Z) (pHead : bytes) (search_id : Z) : PA (bytes * Z * Z) :=
  match n with
  | O => ret (pHead, search_id, AMT_NV_BLOCK_NUM)
  | S n =>
    let* head := nv_read (block addr i) AMT_NV_HEAD_SIZE in
    if head_magic head =? AMT_NV_MAGIC_VALUE then
      if head_state head =? AMT_NV_STATE_USED then
        if search_id =? AMT_NV_BLOCK_NUM then search_blocks n (i + 1) addr head i
        else nv_write (block addr i + 2) (bytes16 AMT_NV_STATE_DELE) ;; search_blocks n (i + 1) addr pHead search_id
      else search_blocks n (i + 1) addr pHead search_id
    else if head_magic head =? AMT_NV_MAGIC_NONE then
      ret (pHead, if i =? 0 then AMT_NV_BLOCK_NUM else if search_id <? AMT_NV_BLOCK_NUM then search_id else AMT_NV_BLOCK_NUM, i)
    else search_blocks n (i + 1) addr pHead search_id
  end.
(** The head that was found (or what was in [pHead]), [index_search] and
    [index_alloc]. *)
Definition amt_nv_search (addr : Z) (pHead : bytes) : PA (bytes * Z * Z) :=
  find_partition ;; search_blocks (Z.to_nat AMT_NV_BLOCK_NUM) 0 addr pHead AMT_NV_BLOCK_NUM.

(** One round of the scan of the cache: a deleted parameter is replaced by its
    valid copy, or blanked; returns the cache and the next offset. *)
Definition gc_step (base : Z) (cache : bytes) (offset : Z) : PA (bytes * Z) :=
  let* pHead := rdn cache offset AMT_NV_HEAD_SIZE in
  if is_dele pHead then
    let* '(pHead, index_search, _) := amt_nv_search (base + offset) pHead in
    let* cache := memcpy cache offset pHead in
    let* cache :=
      if index_search <? AMT_NV_BLOCK_NUM then
        let* data := nv_read (block (base + offset) index_search + AMT_NV_HEAD_SIZE) (head_val_len pHead) in
        memcpy cache (offset + AMT_NV_HEAD_SIZE) data
      else memcpy cache offset (replicate (Z.to_nat (head_val_len pHead + AMT_NV_HEAD_SIZE)) 0xFF) in
    let* val_len := rd cache (offset + 4) in
    ret (cache, offset + WORD_ALIGN (AMT_NV_HEAD_SIZE + val_len))
  else if is_used pHead then ret (cache, offset + WORD_ALIGN (AMT_NV_HEAD_SIZE + head_val_len pHead))
  else ret (cache, offset + 4).
(** [do ... while (offset < AMT_NV_SIZE)]; a round advances by four at least. *)
Fixpoint gc_loop (fuel : nat) (base : Z) (cache : bytes) (offset : Z) : PA bytes :=
  match fuel with
  | O => fail OutOfBounds
  | S fuel =>
    let* '(cache, offset) := gc_step base cache offset in
    if offset <? AMT_NV_SIZE then gc_loop fuel base cache offset else ret cache
  end.
Definition gc_rounds : nat := 512.
(** The backup and the new sector. *)
Definition gc_store (base : Z) (cache : bytes) : PA unit :=
  nv_write AMT_NV_BACKUP_BEGIN [0] ;;
  nv_write AMT_NV_BACKUP_ADDR cache ;;
  nv_write AMT_NV_BACKUP_COMP [0] ;;
  nv_erase base AMT_PARTION_SIZE ;;
  nv_write base cache ;;
  nv_erase AMT_NV_BACKUP_BASE AMT_PARTION_SIZE.
Definition amt_nv_gc (addr : Z) (buf : option bytes) : PA unit :=
  find_partition ;;
  let* base := gets amt_partion_base in
  let* h := get_hw in
  let* stored := nv_read base AMT_NV_SIZE in
  let* cache := memcpy (replicate (Z.to_nat CACHE_SIZE) (u8 (junk h))) 0 stored in
  let* cache := gc_loop gc_rounds base cache 0 in
  let* cache := match buf with Some b => memcpy cache (addr - base) b | None => ret cache end in
  gc_store base (take (Z.to_nat AMT_NV_SIZE) cache).

(** [buf] is the block of the caller, [None] for NULL. *)
Definition bad_address (base addr : Z) : bool := (addr <? base) || (base + 2048 - 1 <? addr).
Definition amt_nv_write (addr : Z) (buf : option bytes) (n : Z) : PA Z :=
  find_partition ;;
  let* base := gets amt_partion_base in
  match buf with
  | None => ret DRV_ERR_INVALID_PARAM
  | Some buf =>
    if bad_address base addr then ret DRV_ERR_INVALID_PARAM
    else
      let* p := ya_hal_os_memory_alloc (n + AMT_NV_HEAD_SIZE) in
      match p with
      | None => ret DRV_ERR_MEM_ALLOC
      | Some _ =>
        let* data := rdn buf 0 n in
        let record := bytes16 AMT_NV_MAGIC_VALUE ++ bytes16 AMT_NV_STATE_USED ++ [u8 n; amt_nv_crc8 (take (Z.to_nat (u16 n)) data)] ++ data in
        let* h := get_hw in
        let* '(_, index_search, index_alloc) := amt_nv_search addr (replicate 6 (u8 (junk h))) in
        (if index_alloc =? AMT_NV_BLOCK_NUM then amt_nv_gc addr (Some record)
         else
           nv_write (block addr index_alloc) record ;;
           when (index_search <? AMT_NV_BLOCK_NUM) (nv_write (block addr index_search + 2) (bytes16 AMT_NV_STATE_DELE))) ;;
        ya_hal_os_memory_free ;;
        ret 0
      end
  end.

Definition amt_nv_init : PA unit :=
  find_partition ;;
  let* base := gets amt_partion_base in
  let* backup_begin := nv_read AMT_NV_BACKUP_BEGIN 4 in
  let* backup_comp := nv_read AMT_NV_BACKUP_COMP 4 in
  if (get32 backup_comp =? 0xFFFFFFFF) && (get32 backup_begin =? 0xFFFFFFFF) then ret tt
  else if (get32 backup_comp =? 0xFFFFFF00) && (get32 backup_begin =? 0xFFFFFF00) then
    let* cache := nv_read AMT_NV_BACKUP_ADDR AMT_NV_SIZE in
    nv_erase base AMT_PARTION_SIZE ;;
    nv_write base cache ;;
    nv_erase AMT_NV_BACKUP_BASE AMT_PARTION_SIZE
  else nv_erase AMT_NV_BACKUP_BASE AMT_PARTION_SIZE.

(** The first block with a valid value, and its head. *)
Fixpoint read_blocks (n : nat) (i addr : Z) : PA (option (Z * bytes)) :=
  match n with
  | O => ret None
  | S n =>
    let* head := nv_read (block addr i) AMT_NV_HEAD_SIZE in
    if is_used head then ret (Some (i, head)) else read_blocks n (i + 1) addr
  end.
(** Returns the status and the block of the caller. *)
Definition amt_nv_read (addr : Z) (buf : option bytes) (n : Z) : PA (Z * option bytes) :=
  find_partition ;;
  let* base := gets amt_partion_base in
  match buf with
  | None => ret (DRV_ERR_INVALID_PARAM, None)
  | Some buf =>
    if bad_address base addr then ret (DRV_ERR_INVALID_PARAM, Some buf)
    else
      let* r := read_blocks (Z.to_nat AMT_NV_BLOCK_NUM) 0 addr in
      match r with
      | None => ret (DRV_ERROR, Some buf)
      | Some (index_search, head) =>
        if n <? head_val_len head then ret (DRV_ERROR, Some buf)
        else
          let* data := nv_read (block addr index_search + AMT_NV_HEAD_SIZE) (head_val_len head) in
          let* buf := memcpy buf 0 data in
          ret (if head_crc8 head =? amt_nv_crc8 data then 0 else DRV_ERROR, Some buf)
      end
  end.

(** ** The shell commands *)
(** Name, distance from the start of the sector, and length. *)
Definition parameters : list (string * Z * Z) :=
  [("SN", 0, 64); ("MAC", 72, 18); ("PIN_FLAG", 96, 2); ("PSM_FLAG", 104, 2); ("WIFI_FLAG", 112, 2); ("UPDATE_FLAG", 120, 2);
   ("SN_FLAG", 128, 2); ("MAC_FLAG", 136, 2); ("FREQOFFSET_FLAG", 144, 2); ("FREQOFFSET", 152, 8); ("TXPOWER_FLAG", 168, 2);
   ("TXPOWER_HTCH1", 176, 8); ("TXPOWER_HTCH6", 192, 8); ("TXPOWER_HTCH11", 208, 8); ("TXPOWER_HTCH3", 224, 8); ("TXPOWER_HTCH8", 240, 8);
   ("TXPOWER_NONHTCH1", 256, 8); ("TXPOWER_NONHTCH6", 272, 8); ("TXPOWER_NONHTCH11", 288, 8); ("TXPOWER_11BCH1", 304, 8);
   ("TXPOWER_11BCH6", 320, 8); ("TXPOWER_11BCH11", 336, 8); ("CALIBRATION", 352, 2); ("PDK", 360, 32); ("PDS", 400, 32); ("DN", 440, 32);
   ("DS", 480, 32); ("ALY_FLAG", 520, 2)]%string.
Definition parameter (key : bytes) : option (Z * Z) :=
  (fun e => (e.1.2, e.2)) <$> List.find (fun e => bool_decide (str e.1.1 = cstr key)) parameters.
Definition CMD_FAILURE : Z := 1.
(** An argument is the memory from its first character on.  Returns the status and
    what is printed of the value. *)
Definition amt_nv_set (argv : list bytes) : PA Z :=
  find_partition ;;
  let* base := gets amt_partion_base in
  match argv with
  | [_; key; value] =>
    match parameter key with
    | None => ret CMD_FAILURE
    | Some (offset, n) =>
      let* r := amt_nv_write (base + offset) (Some value) n in
      if negb (r =? 0) then ret CMD_FAILURE
      else
        let* '(r, readvalue) := amt_nv_read (base + offset) (Some (zeros 256)) n in
        if negb (r =? 0) then ret CMD_FAILURE
        else ret (if cstr (default [] readvalue) ==? cstr value then 0 else CMD_FAILURE)
    end
  | _ => ret CMD_FAILURE
  end.
Definition amt_nv_get (argv : list bytes) : PA (Z * option bytes) :=
  find_partition ;;
  let* base := gets amt_partion_base in
  match argv with
  | [_; key] =>
    match parameter key with
    | None => ret (if cstr key ==? str "all" then 0 else CMD_FAILURE, None)
    | Some (offset, n) =>
      let* '(r, readvalue) := amt_nv_read (base + offset) (Some (zeros 256)) n in
      if negb (r =? 0) then ret (CMD_FAILURE, None) else ret (0, cstr <$> readvalue)
    end
  | _ => ret (CMD_FAILURE, None)
  end.
End AmtNv.
