(* ===== verification/AmtNvProofs.v ===== *)
(** * The factory parameters keep their values

    An abstract store is a list of parameters, each with its length and its
    value if it has one, laid out one after the other.  Writing refines an
    update of that list, in the free block and through the garbage collection
    alike ([AmtNvCut] has the writes that lose power).  The shell commands read
    back what they set; a partition table that puts the parameters where the
    backup goes loses them. *)

From stdpp Require Import base numbers list strings.
From S2P Require Import Prelude Platform SpiFlash CommonFunc CJson Cloud UserData AppMain UserDataProofs PowerCut AmtNv.

(** ** Records and sizes *)
Definition record (st : Z) (v : bytes) : bytes := bytes16 AMT_NV_MAGIC_VALUE ++ bytes16 st ++ [u8 (len v); amt_nv_crc8 v] ++ v.
Definition value_ok (n : Z) (v : bytes) : Prop := len v = n /\ is_bytes v.
Definition nv_room (n : Z) : Z := WORD_ALIGN (6 + n).
Lemma room_bounds n : 0 <= n < 256 -> 6 + n <= nv_room n < 6 + n + 4 /\ nv_room n mod 4 = 0.
Proof.
  intros Hn. unfold nv_room, WORD_ALIGN. rewrite u32_small, Z.shiftl_mul_pow2, Z.shiftr_div_pow2 by (unfold is_u32; lia). change (2 ^ 2) with 4.
  pose proof (Z_div_mod_eq_full (6 + n + 3) 4). pose proof (Z.mod_pos_bound (6 + n + 3) 4). split; [lia|apply Z_mod_mult].
Qed.
Lemma crc8_bit_u8 c : is_u8 (crc8_bit c).
Proof. unfold crc8_bit. destruct (negb _); apply u8_range. Qed.
Lemma crc8_u8 v : is_u8 (amt_nv_crc8 v).
Proof.
  unfold amt_nv_crc8. cut (forall z, is_u8 z -> is_u8 (foldl (fun crc b => Nat.iter 8 crc8_bit (Z.lxor crc b)) z v)); [intros Hc; apply Hc; unfold is_u8; lia|].
  induction v as [|b v IH]; intros z Hz; [done|]. cbn [foldl]. apply IH. apply crc8_bit_u8.
Qed.
Lemma len_record st v : len (record st v) = 6 + len v.
Proof. unfold record. rewrite !len_app. change (len (bytes16 _)) with 2. unfold len. cbn. lia. Qed.
Definition head_of (st : Z) (v : bytes) : bytes := [0x56; 0x4E; u8 st; u8 (Z.shiftr st 8); u8 (len v); amt_nv_crc8 v].
Lemma record_head st v : record st v = head_of st v ++ v.
Proof. done. Qed.

Lemma record_bytes st n v : value_ok n v -> is_bytes (record st v).
Proof.
  intros [_ Hv]. rewrite record_head. apply Forall_app; split; [|done]. unfold head_of.
  repeat (apply Forall_cons_2; [first [apply u8_range|apply crc8_u8|unfold is_u8; lia]|]). constructor.
Qed.
(** As [amt_nv_write] puts it together. *)
Lemma record_built n v : 0 <= n < 256 -> len v = n ->
  bytes16 AMT_NV_MAGIC_VALUE ++ bytes16 AMT_NV_STATE_USED ++ [u8 n; amt_nv_crc8 (take (Z.to_nat (u16 n)) v)] ++ v = record AMT_NV_STATE_USED v.
Proof. intros Hn Hl. unfold record. rewrite u16_small by (unfold is_u16; lia). rewrite take_ge by (unfold len in Hl; lia). by rewrite Hl. Qed.
(** ** What a range of the chip holds *)
Section Holds.
Context {C : Type} `{NorChipLaws C}.
Implicit Types c : C.
Definition has c (a : Z) (b : bytes) : Prop := forall i v, b !! i = Some v -> nor_read c (a + Z.of_nat i) = v.
Definition blank c (a n : Z) : Prop := forall x, a <= x < a + n -> nor_read c x = 255.
Definition agree c c' (a n : Z) : Prop := forall x, a <= x < a + n -> nor_read c' x = nor_read c x.
Lemma has_bytes c a b n : has c a b -> n = len b -> nor_bytes c a n = b.
Proof. intros Hb ->. by apply nor_bytes_eq. Qed.
Lemma has_app c a x y : has c a (x ++ y) <-> has c a x /\ has c (a + len x) y.
Proof.
  split.
  - intros Ha. split; intros i v Hi.
    + apply Ha. by apply lookup_app_l_Some.
    + rewrite <- (Ha (length x + i)%nat v); [f_equal; unfold len; lia|]. rewrite lookup_app_r by lia. by replace (length x + i - length x)%nat with i by lia.
  - intros [Hx Hy] i v Hi. destruct (decide (i < length x)%nat).
    + rewrite lookup_app_l in Hi by done. by apply Hx.
    + rewrite lookup_app_r in Hi by lia. rewrite <- (Hy _ _ Hi). f_equal. unfold len. lia.
Qed.
Lemma has_agree c c' a b n : agree c c' a n -> len b <= n -> has c a b -> has c' a b.
Proof. intros Hc Hn Hb i v Hi. rewrite Hc; [by apply Hb|]. pose proof (lookup_lt_Some _ _ _ Hi). unfold len in Hn. lia. Qed.
Lemma blank_agree c c' a n m : agree c c' a n -> m <= n -> blank c a m -> blank c' a m.
Proof. intros Hc Hn Hb x Hx. rewrite Hc by lia. by apply Hb. Qed.
Lemma agree_sub c c' a n b m : agree c c' a n -> a <= b -> b + m <= a + n -> agree c c' b m.
Proof. intros Hc ?? x Hx. apply Hc. lia. Qed.
Lemma blank_sub c a n b m : blank c a n -> a <= b -> b + m <= a + n -> blank c b m.
Proof. intros Hc ?? x Hx. apply Hc. lia. Qed.
Lemma agree_programmed c c' a b x n : programmed c c' a b -> x + n <= a \/ a + len b <= x -> agree c c' x n.
Proof. intros Hp Hx y Hy. rewrite (Hp y). by rewrite bool_decide_eq_false_2 by lia. Qed.
Lemma agree_erased c c' a m x n : erased c c' a m -> x + n <= a \/ a + m <= x -> agree c c' x n.
Proof. intros Hp Hx y Hy. rewrite (Hp y). by rewrite bool_decide_eq_false_2 by lia. Qed.
Lemma has_programmed c c' a b : programmed c c' a b -> blank c a (len b) -> is_bytes b -> has c' a b.
Proof.
  intros Hp Hb Hby i v Hi. pose proof (lookup_lt_Some _ _ _ Hi) as Hl. rewrite (Hp _), bool_decide_eq_true_2 by (unfold len; lia).
  rewrite Hb by (unfold len; lia). replace (Z.to_nat (a + Z.of_nat i - a)) with i by lia. rewrite (list_lookup_total_correct _ _ _ Hi).
  apply land_ff. by eapply Forall_lookup_1 in Hi.
Qed.
Lemma has_blank c a n : blank c a n -> has c a (replicate (Z.to_nat n) 255).
Proof. intros Hb i v [-> Hi]%lookup_replicate. apply Hb. lia. Qed.
Lemma blank_has c a n : has c a (replicate (Z.to_nat n) 255) -> blank c a n.
Proof.
  intros Hb x Hx. specialize (Hb (Z.to_nat (x - a)) 255). rewrite <- Hb; [f_equal; lia|]. apply lookup_replicate. lia.
Qed.
End Holds.

(** ** The store *)
Section Store.
Context {C : Type} `{NorChipLaws C}.
Implicit Types (c : C) (a n : Z).
(** Where the value of a parameter is: nowhere, in the first block, or in the
    second with a deleted one in the first; with what [amt_nv_search] finds. *)
Inductive place c a n : option bytes -> Z -> Z -> Prop :=
| Unset : blank c a (nv_room n) -> blank c (a + 2048) (6 + n) -> place c a n None 2 0
| First v : value_ok n v -> has c a (record AMT_NV_STATE_USED v) -> blank c (a + 2048) (6 + n) -> place c a n (Some v) 0 1
| Second w v : value_ok n w -> value_ok n v -> has c a (record AMT_NV_STATE_DELE w) -> has c (a + 2048) (record AMT_NV_STATE_USED v) ->
    place c a n (Some v) 1 2.
Definition entry c a (p : Z * option bytes) : Prop := 0 <= p.1 < 256 /\ exists i j, place c a p.1 p.2 i j.
Definition total (l : list (Z * option bytes)) : Z := foldr (fun p t => nv_room p.1 + t) 0 l.
Fixpoint nv_entries c a (l : list (Z * option bytes)) : Prop :=
  match l with [] => True | p :: l => entry c a p /\ nv_entries c (a + nv_room p.1) l end.
Lemma total_app l1 l2 : total (l1 ++ l2) = total l1 + total l2.
Proof. unfold total. rewrite foldr_app. induction l1 as [|p l1 IH]; cbn; lia. Qed.
Lemma entries_app c a l1 l2 : nv_entries c a (l1 ++ l2) <-> nv_entries c a l1 /\ nv_entries c (a + total l1) l2.
Proof.
  revert a. induction l1 as [|p l1 IH]; intros a; cbn [Datatypes.app nv_entries total foldr]; [rewrite Z.add_0_r; tauto|].
  rewrite IH. fold (total l1). rewrite Z.add_assoc. tauto.
Qed.
Lemma entries_total c a l : nv_entries c a l -> 0 <= total l /\ total l mod 4 = 0.
Proof.
  revert a. induction l as [|p l IH]; intros a Hl; [done|]. cbn [nv_entries total foldr] in *. destruct Hl as [[Hp _] Hl]. fold (total l).
  destruct (IH _ Hl) as [? Hm]. destruct (room_bounds p.1 Hp) as [? Hr]. split; [lia|]. by rewrite Zplus_mod, Hr, Hm.
Qed.
Lemma place_agree c c' a n o i j : 0 <= n < 256 -> agree c c' a (nv_room n) -> agree c c' (a + 2048) (6 + n) -> place c a n o i j -> place c' a n o i j.
Proof.
  intros Hn Hg1 Hg2 Hp. pose proof (room_bounds n Hn) as [? _]. destruct Hp as [Hb1 Hb2|v Hv Hh Hb|w v Hw Hv Hh1 Hh2].
  - constructor; [by eapply blank_agree|by eapply blank_agree].
  - pose proof Hv as [Hl _]. constructor; [done|eapply has_agree; [done| |done]|by eapply blank_agree]. rewrite len_record. lia.
  - pose proof Hv as [Hl _]. pose proof Hw as [Hlw _]. econstructor; [exact Hw|done|eapply has_agree; [exact Hg1| |done]|eapply has_agree; [exact Hg2| |done]]; rewrite len_record; lia.
Qed.
Lemma entries_agree c c' a l : agree c c' a (total l) -> agree c c' (a + 2048) (total l) -> nv_entries c a l -> nv_entries c' a l.
Proof.
  revert a. induction l as [|p l IH]; intros a Hg1 Hg2 Hl; [done|]. cbn [nv_entries total foldr] in *. fold (total l) in *. destruct Hl as [[Hp (i&j&Hpl)] Hl].
  pose proof (room_bounds p.1 Hp) as [? _]. pose proof (entries_total _ _ _ Hl) as [? _]. split.
  - split; [done|]. exists i, j. eapply place_agree; [done|apply (agree_sub _ _ _ _ _ _ Hg1); lia|apply (agree_sub _ _ _ _ _ _ Hg2); lia|done].
  - apply IH; [apply (agree_sub _ _ _ _ _ _ Hg1); lia|apply (agree_sub _ _ _ _ _ _ Hg2); lia|done].
Qed.
End Store.

(** ** Searching and reading *)
Ltac decide_if := match goal with |- (if ?b then _ else _) ?t = _ => let r := eval vm_compute in b in change b with r; cbn iota end.
Section Runs.
Context {C : Type} `{NorChip C} `{AmtPartition}.
Implicit Types (c : C) (a n : Z) (s : amt) (h : hw C).
(** The partition table has been looked up. *)
Definition located s : Prop := amt_partion_flag s <> 0.
Definition in_flash a : Prop := 0 <= a /\ a + 8192 < 4294967296.
Lemma find_located s h : located s -> find_partition (s, h) = Done tt (s, h).
Proof. intros Hs. unfold find_partition, puts. by rewrite (proj2 (Z.eqb_neq _ _) Hs). Qed.
Lemma nv_read_run a n s h : 0 <= a -> 0 <= n -> a + n < 4294967296 -> nv_read a n (s, h) = Done (nor_bytes (chip h) a n) (s, h).
Proof. intros. unfold nv_read. erewrite bind_done by reflexivity. by rewrite hal_read_eq by lia. Qed.
Lemma nv_read_has a b n s h : has (chip h) a b -> n = len b -> 0 <= a -> a + n < 4294967296 -> nv_read a n (s, h) = Done b (s, h).
Proof. intros Hb -> Ha Hl. rewrite nv_read_run by (try apply len_nonneg; lia). by rewrite (has_bytes _ _ b). Qed.
Lemma head_used v : head_magic (head_of AMT_NV_STATE_USED v) = AMT_NV_MAGIC_VALUE /\ head_state (head_of AMT_NV_STATE_USED v) = AMT_NV_STATE_USED.
Proof. done. Qed.
Lemma has_head c a st v : has c a (record st v) -> has c a (head_of st v) /\ has c (a + 6) v.
Proof. rewrite record_head. by intros [? ?]%has_app. Qed.
Lemma blank_head c a n : 0 <= n -> blank c a (6 + n) -> has c a (replicate 6 255).
Proof. intros Hn Hb. apply (has_blank c a 6). eapply blank_sub; [done|lia|lia]. Qed.
Definition found_head (p : bytes) (o : option bytes) : bytes := match o with Some v => head_of AMT_NV_STATE_USED v | None => p end.
Lemma search_run a n o i j p s h : located s -> in_flash a -> 0 <= n < 256 -> place (chip h) a n o i j ->
  amt_nv_search a p (s, h) = Done (found_head p o, i, j) (s, h).
Proof.
  intros Hs [Ha1 Ha2] Hn Hp. unfold amt_nv_search. rewrite (bind_done _ _ _ _ _ (find_located s h Hs)).
  change (Z.to_nat AMT_NV_BLOCK_NUM) with 2%nat. cbn [search_blocks]. unfold block. change (0 * AMT_NV_BLOCK_SIZE) with 0. change ((0 + 1) * AMT_NV_BLOCK_SIZE) with 2048.
  rewrite Z.add_0_r. pose proof (room_bounds n Hn) as [? _]. destruct Hp as [Hb1 Hb2|v Hv Hh Hb|w v Hw Hv Hh1 Hh2].
  - assert (Hr : nv_read a AMT_NV_HEAD_SIZE (s, h) = Done (replicate 6 255) (s, h)).
    { apply nv_read_has; [apply (blank_head _ _ (nv_room n - 6)); [lia|apply (blank_sub _ _ _ _ _ Hb1); lia]|done|lia|unfold AMT_NV_HEAD_SIZE; lia]. }
    by rewrite (bind_done _ _ _ _ _ Hr).
  - assert (Hr : nv_read a AMT_NV_HEAD_SIZE (s, h) = Done (head_of AMT_NV_STATE_USED v) (s, h)) by (apply nv_read_has; [by apply has_head|done|lia|unfold AMT_NV_HEAD_SIZE; lia]).
    assert (Hr2 : nv_read (a + 2048) AMT_NV_HEAD_SIZE (s, h) = Done (replicate 6 255) (s, h)) by (apply nv_read_has; [by eapply (blank_head _ _ n); [lia|]|done|lia|unfold AMT_NV_HEAD_SIZE; lia]).
    rewrite (bind_done _ _ _ _ _ Hr). repeat decide_if. rewrite (bind_done _ _ _ _ _ Hr2). by repeat decide_if.
  - assert (Hr : nv_read a AMT_NV_HEAD_SIZE (s, h) = Done (head_of AMT_NV_STATE_DELE w) (s, h)) by (apply nv_read_has; [by apply has_head|done|lia|unfold AMT_NV_HEAD_SIZE; lia]).
    assert (Hr2 : nv_read (a + 2048) AMT_NV_HEAD_SIZE (s, h) = Done (head_of AMT_NV_STATE_USED v) (s, h)) by (apply nv_read_has; [by apply has_head|done|lia|unfold AMT_NV_HEAD_SIZE; lia]).
    rewrite (bind_done _ _ _ _ _ Hr). repeat decide_if. rewrite (bind_done _ _ _ _ _ Hr2). by repeat decide_if.
Qed.
(** What a reader with a buffer [buf] of [m] bytes gets. *)
Definition answer_of (buf : bytes) (o : option bytes) : Z * option bytes :=
  match o with Some v => (0, Some (splice buf 0 v)) | None => (DRV_ERROR, Some buf) end.
(** All a reader needs of a parameter: the block behind a valid value does not
    matter. *)
Inductive legible c a n : option bytes -> Prop :=
| NoValue : blank c a (nv_room n) -> blank c (a + 2048) (6 + n) -> legible c a n None
| InFirst v : value_ok n v -> has c a (record AMT_NV_STATE_USED v) -> legible c a n (Some v)
| InSecond w v : value_ok n w -> value_ok n v -> has c a (record AMT_NV_STATE_DELE w) -> has c (a + 2048) (record AMT_NV_STATE_USED v) -> legible c a n (Some v).
Lemma place_legible c a n o i j : place c a n o i j -> legible c a n o.
Proof. intros [Hb1 Hb2|v Hv Hh Hb|w v Hw Hv Hh1 Hh2]; [by apply NoValue|by apply InFirst|by apply (InSecond _ _ _ w)]. Qed.
Lemma read_run a n o buf m s h : located s -> in_flash a -> 0 <= n < 256 -> n <= m <= len buf -> bad_address (amt_partion_base s) a = false ->
  legible (chip h) a n o -> amt_nv_read a (Some buf) m (s, h) = Done (answer_of buf o) (s, h).
Proof.
  intros Hs [Ha1 Ha2] Hn Hm Hbad Hp. unfold amt_nv_read. rewrite (bind_done _ _ _ _ _ (find_located s h Hs)). erewrite bind_done by reflexivity.
  cbn [fst]. rewrite Hbad. change (Z.to_nat AMT_NV_BLOCK_NUM) with 2%nat. cbn [read_blocks]. unfold block.
  change (0 * AMT_NV_BLOCK_SIZE) with 0. change ((0 + 1) * AMT_NV_BLOCK_SIZE) with 2048. rewrite Z.add_0_r. pose proof (room_bounds n Hn) as [? _].
  assert (Hget : forall b st v, has (chip h) b (record st v) -> 0 <= b <= a + 2048 -> value_ok n v -> nv_read b AMT_NV_HEAD_SIZE (s, h) = Done (head_of st v) (s, h)
    /\ nv_read (b + AMT_NV_HEAD_SIZE) (len v) (s, h) = Done v (s, h)).
  { intros b st v [Hh1 Hh2]%has_head Hb [Hl _]. split; apply nv_read_has; try done; unfold AMT_NV_HEAD_SIZE; lia. }
  assert (Hfin : forall k v, block a k + 6 = block a k + AMT_NV_HEAD_SIZE -> value_ok n v -> nv_read (block a k + AMT_NV_HEAD_SIZE) (len v) (s, h) = Done v (s, h) ->
    (if m <? head_val_len (head_of AMT_NV_STATE_USED v) then ret (DRV_ERROR, Some buf) else
     let* data := nv_read (block a k + AMT_NV_HEAD_SIZE) (head_val_len (head_of AMT_NV_STATE_USED v)) in
     let* buf := memcpy buf 0 data in
     ret (if head_crc8 (head_of AMT_NV_STATE_USED v) =? amt_nv_crc8 data then 0 else DRV_ERROR, Some buf)) (s, h) = Done (0, Some (splice buf 0 v)) (s, h)).
  { intros k v _ [Hl Hb] Hd. change (head_val_len (head_of AMT_NV_STATE_USED v)) with (u8 (len v)). change (head_crc8 (head_of AMT_NV_STATE_USED v)) with (amt_nv_crc8 v).
    rewrite u8_small by (unfold is_u8; lia). destruct (Z.ltb_spec m (len v)); [lia|]. rewrite (bind_done _ _ _ _ _ Hd).
    rewrite (bind_done _ _ _ _ _ (memcpy_ok buf 0 v (s, h) ltac:(lia) ltac:(lia))). by rewrite Z.eqb_refl. }
  destruct Hp as [Hb1 Hb2|v Hv Hh|w v Hw Hv Hh1 Hh2].
  - assert (Hr : nv_read a AMT_NV_HEAD_SIZE (s, h) = Done (replicate 6 255) (s, h)).
    { apply nv_read_has; [apply (blank_head _ _ (nv_room n - 6)); [lia|apply (blank_sub _ _ _ _ _ Hb1); lia]|done|lia|unfold AMT_NV_HEAD_SIZE; lia]. }
    assert (Hr2 : nv_read (a + 2048) AMT_NV_HEAD_SIZE (s, h) = Done (replicate 6 255) (s, h)) by (apply nv_read_has; [by eapply (blank_head _ _ n); [lia|]|done|lia|unfold AMT_NV_HEAD_SIZE; lia]).
    rewrite bind_assoc, (bind_done _ _ _ _ _ Hr). change (is_used (replicate 6 255)) with false. cbn iota. by rewrite bind_assoc, (bind_done _ _ _ _ _ Hr2).
  - destruct (Hget a _ v Hh ltac:(lia) Hv) as [Hr Hd]. rewrite bind_assoc, (bind_done _ _ _ _ _ Hr). change (is_used (head_of AMT_NV_STATE_USED v)) with true. cbn iota.
    rewrite bind_ret_l. apply (Hfin 0); [done|done|]. unfold block. change (0 * AMT_NV_BLOCK_SIZE) with 0. by rewrite Z.add_0_r.
  - destruct (Hget a _ w Hh1 ltac:(lia) Hw) as [Hr _]. destruct (Hget (a + 2048) _ v Hh2 ltac:(lia) Hv) as [Hr2 Hd].
    rewrite bind_assoc, (bind_done _ _ _ _ _ Hr). change (is_used (head_of AMT_NV_STATE_DELE w)) with false. cbn iota. rewrite bind_assoc, (bind_done _ _ _ _ _ Hr2).
    change (is_used (head_of AMT_NV_STATE_USED v)) with true. cbn iota. rewrite bind_ret_l. by apply (Hfin 1).
Qed.
End Runs.

(** ** Writing to the free block *)
(** The parameters from the start of the sector and nothing behind them in the
    first block; for the whole store, an empty backup sector too. *)
Definition sector {C} `{NorChip C} (c : C) (base : Z) (l : list (Z * option bytes)) : Prop :=
  nv_entries c base l /\ blank c (base + total l) (2048 - total l) /\ total l <= 2044.
Record store {C} `{NorChip C} (c : C) (base : Z) (l : list (Z * option bytes)) : Prop := {
  st_entries : nv_entries c base l;
  st_rest : blank c (base + total l) (2048 - total l);
  st_backup : blank c AMT_NV_BACKUP_BASE 4096;
  st_total : total l <= 2044;
}.
Lemma store_sector {C} `{NorChip C} (c : C) base l : store c base l -> sector c base l.
Proof. by intros [He Hr _ Ht]. Qed.
Definition sector_at (base : Z) : Prop := base mod 4096 = 0 /\ 0 <= base /\ base + 16384 < 4294967296 /\ base <> AMT_NV_BACKUP_BASE.
Lemma sector_low base : sector_at base -> 0 <= base.
Proof. by intros (_&?&_). Qed.
Lemma sector_high base : sector_at base -> base + 16384 < 4294967296.
Proof. by intros (_&_&?&_). Qed.
Lemma sector_apart base : sector_at base -> base + 4096 <= AMT_NV_BACKUP_BASE \/ AMT_NV_BACKUP_BASE + 4096 <= base.
Proof.
  intros (Hm&H0&_&Hne). unfold AMT_NV_BACKUP_BASE in *. pose proof (Z_div_mod_eq_full base 4096) as E. rewrite Hm in E.
  destruct (decide (base / 4096 < 254)); [left; lia|]. destruct (decide (base / 4096 = 254)); [lia|right; lia].
Qed.
Section Writes.
Context {C : Type} `{NorChipLaws C, !NorReliable C} `{AmtPartition}.
Implicit Types (c : C) (a n : Z) (s : amt) (h : hw C) (v : bytes).
Lemma nv_write_run a b s h : 0 <= a -> a + len b < 4294967296 -> is_bytes b ->
  exists c', nv_write a b (s, h) = Done tt (s, set_chip c' h) /\ programmed (chip h) c' a b.
Proof. intros Ha Hl Hb. destruct (spi_write_spec (chip h) a b Ha Hl Hb) as (c'&E&Hp). exists c'. unfold nv_write, upd_hw. by rewrite E. Qed.
Lemma nv_erase_run a s h : a mod 4096 = 0 -> exists c', nv_erase a 4096 (s, h) = Done tt (s, set_chip c' h) /\ erased (chip h) c' a 4096.
Proof. intros Ha. destruct (hal_spiflash_erase_one (chip h) a Ha) as (c'&E&Hp). exists c'. unfold nv_erase, upd_hw. by rewrite E. Qed.
(** [c'] differs from [c] only where the parameter of [n] bytes at [a] is. *)
Definition only_at a n c c' : Prop :=
  forall x, x < a \/ a + nv_room n <= x < a + 2048 \/ a + 2048 + nv_room n <= x -> nor_read c' x = nor_read c x.
Lemma only_at_trans a n c c1 c2 : only_at a n c c1 -> only_at a n c1 c2 -> only_at a n c c2.
Proof. intros Hc1 Hc2 x Hx. by rewrite Hc2, Hc1 by done. Qed.
Lemma entries_update base l1 n o v l2 c c' : let a := base + total l1 in
  nv_entries c base (l1 ++ (n, o) :: l2) -> total (l1 ++ (n, o) :: l2) <= 2044 -> only_at a n c c' -> entry c' a (n, Some v) ->
  nv_entries c' base (l1 ++ (n, Some v) :: l2).
Proof.
  intros a Hl Ht Ho He. rewrite total_app in Ht. cbn [total foldr fst] in Ht. fold (total l2) in Ht. apply entries_app in Hl as [Hl1 [[Hn _] Hl2]]. fold a in Hl2. cbn [fst] in *.
  pose proof (entries_total _ _ _ Hl1) as [? _]. pose proof (entries_total _ _ _ Hl2) as [? _]. pose proof (room_bounds n Hn) as [? _].
  apply entries_app. fold a. split; [|split; [done|cbn [fst]]]; (eapply entries_agree; [| |done]; intros x Hx; apply Ho; lia).
Qed.
Lemma store_update base l1 n o v l2 c c' : let a := base + total l1 in sector_at base ->
  store c base (l1 ++ (n, o) :: l2) -> only_at a n c c' -> entry c' a (n, Some v) -> store c' base (l1 ++ (n, Some v) :: l2).
Proof.
  intros a Hb [He Hr Hk Ht] Ho Hv. assert (Etot : total (l1 ++ (n, Some v) :: l2) = total (l1 ++ (n, o) :: l2)) by (by rewrite !total_app).
  pose proof (entries_update base l1 n o v l2 c c' He Ht Ho Hv) as He'. pose proof He as He0. apply entries_app in He0 as [Hl1 [[Hn _] Hl2]]. cbn [fst] in *.
  pose proof (entries_total _ _ _ Hl1) as [? _]. pose proof (entries_total _ _ _ Hl2) as [? _]. pose proof (room_bounds n Hn) as [? _].
  rewrite total_app in Ht, Hr. cbn [total foldr fst] in Ht, Hr. fold (total l2) in Ht, Hr. pose proof (sector_apart base Hb) as Hap. unfold AMT_NV_BACKUP_BASE in *.
  split; [done| | |by rewrite Etot, total_app]; rewrite ?Etot, ?total_app; cbn [total foldr fst]; fold (total l2).
  - intros x Hx. rewrite Ho by lia. by apply Hr.
  - intros x Hx. unfold AMT_NV_BACKUP_BASE in Hx. rewrite Ho by lia. by apply Hk.
Qed.
(** The deletion mark on a valid record. *)
Lemma marked_deleted c c' a w : has c a (record AMT_NV_STATE_USED w) -> programmed c c' (a + 2) (bytes16 AMT_NV_STATE_DELE) -> has c' a (record AMT_NV_STATE_DELE w).
Proof.
  intros Hh Hp i x Hi. rewrite (Hp _). change (len (bytes16 AMT_NV_STATE_DELE)) with 2.
  destruct (decide (i = 2%nat)) as [->|]; [|destruct (decide (i = 3%nat)) as [->|]].
  - rewrite bool_decide_eq_true_2 by lia. cbn in Hi. injection Hi as <-. replace (Z.to_nat _) with 0%nat by lia. apply Z.land_0_r.
  - rewrite bool_decide_eq_true_2 by lia. cbn in Hi. injection Hi as <-. replace (Z.to_nat _) with 1%nat by lia. apply Z.land_0_r.
  - rewrite bool_decide_eq_false_2 by lia. apply Hh. rewrite <- Hi. destruct i as [|[|[|[|i]]]]; done.
Qed.
End Writes.

(** ** Gathering the valid values *)
Lemma splice_mid (x y z w : bytes) o : o = len x -> len w = len y -> splice (x ++ y ++ z) o w = x ++ w ++ z.
Proof.
  intros -> Hl. unfold splice, len in *. rewrite Nat2Z.id, take_app_length. f_equal. f_equal. rewrite <- drop_drop, drop_app_length.
  replace (length w) with (length y) by lia. apply drop_app_length.
Qed.
Section Gather.
Context {C : Type} `{NorChip C} `{AmtPartition}.
Implicit Types (c : C) (a n : Z) (s : amt) (h : hw C) (v : bytes).
Definition gap c a n : bytes := nor_bytes c (a + 6 + n) (nv_room n - 6 - n).
(** The parameter in one piece, valid; the bytes up to the next stay as they are. *)
Definition gathered c a (p : Z * option bytes) : bytes :=
  match p.2 with None => replicate (Z.to_nat (nv_room p.1)) 255 | Some v => record AMT_NV_STATE_USED v ++ gap c a p.1 end.
Fixpoint image c a (l : list (Z * option bytes)) : bytes :=
  match l with [] => [] | p :: l => gathered c a p ++ image c (a + nv_room p.1) l end.
Lemma len_gathered c a p : 0 <= p.1 < 256 -> (forall v, p.2 = Some v -> len v = p.1) -> len (gathered c a p) = nv_room p.1.
Proof.
  intros Hn Hv. pose proof (room_bounds p.1 Hn) as [? _]. unfold gathered. destruct (p.2) as [v|].
  - rewrite len_app, len_record, (Hv v eq_refl). unfold gap. rewrite len_nor_bytes by lia. lia.
  - unfold len. rewrite length_replicate. lia.
Qed.
Lemma place_len c a n o i j v : place c a n o i j -> o = Some v -> value_ok n v.
Proof. intros [] ?; by simplify_eq. Qed.
Lemma entry_gathered c a p : entry c a p -> len (gathered c a p) = nv_room p.1.
Proof. intros [Hn (i&j&Hp)]. apply len_gathered; [done|]. intros v Hv. by destruct (place_len _ _ _ _ _ _ _ Hp Hv). Qed.
Lemma len_nv_image c a l : nv_entries c a l -> len (image c a l) = total l.
Proof.
  revert a. induction l as [|p l IH]; intros a Hl; [done|]. cbn [nv_entries image total foldr] in *. destruct Hl as [He Hl]. rewrite len_app, entry_gathered, IH by done. done.
Qed.
Lemma head_magic_ff r : head_magic (255 :: 255 :: r) = AMT_NV_MAGIC_NONE.
Proof. done. Qed.
(** Four bytes of which the first two are blank are stepped over. *)
Lemma gc_step_skip base cache o s h : 0 <= o -> o + 6 <= len cache -> cache !! Z.to_nat o = Some 255 -> cache !! Z.to_nat (o + 1) = Some 255 ->
  gc_step base cache o (s, h) = Done (cache, o + 4) (s, h).
Proof.
  intros Ho Hl H1 H2. unfold gc_step. change AMT_NV_HEAD_SIZE with 6. rewrite (bind_done _ _ _ _ _ (rdn_ok cache o 6 (s, h) ltac:(lia) ltac:(lia) ltac:(lia))).
  assert (E : exists r, slice cache o 6 = 255 :: 255 :: r).
  { unfold slice. rewrite <- (take_drop_middle cache (Z.to_nat o) 255 H1). unfold len in Hl. rewrite drop_app_length' by (rewrite length_take; lia).
    replace (Z.to_nat (o + 1)) with (S (Z.to_nat o)) in H2 by lia. rewrite (drop_S cache 255 (S (Z.to_nat o))) by done. by eexists. }
  destruct E as [r ->]. done.
Qed.
Lemma gc_skip base cache m : forall fuel o s h, 0 <= o -> o + 4 * Z.of_nat m < AMT_NV_SIZE -> AMT_NV_SIZE + 8 <= len cache ->
  (forall x, o <= x < o + 4 * Z.of_nat m -> cache !! Z.to_nat x = Some 255) ->
  gc_loop (m + fuel) base cache o (s, h) = gc_loop fuel base cache (o + 4 * Z.of_nat m) (s, h).
Proof.
  unfold AMT_NV_SIZE. induction m as [|m IH]; intros fuel o s h Ho Hm Hl Hff; [by rewrite Z.add_0_r|]. cbn [Nat.add gc_loop].
  rewrite (bind_done _ _ _ _ _ (gc_step_skip base cache o s h ltac:(lia) ltac:(lia) (Hff o ltac:(lia)) (Hff (o + 1) ltac:(lia)))).
  unfold AMT_NV_SIZE. destruct (Z.ltb_spec (o + 4) (2048 - 1)); [|lia]. rewrite IH by (try lia; intros; apply Hff; lia). f_equal. lia.
Qed.
Lemma gc_tail base cache fuel : forall o s h, 0 <= o < AMT_NV_SIZE -> o mod 4 = 0 -> 2048 - o <= 4 * Z.of_nat fuel -> AMT_NV_SIZE + 8 <= len cache ->
  (forall x, o <= x < AMT_NV_SIZE -> cache !! Z.to_nat x = Some 255) -> gc_loop fuel base cache o (s, h) = Done cache (s, h).
Proof.
  unfold AMT_NV_SIZE. induction fuel as [|fuel IH]; intros o s h Ho Hm Hf Hl Hff; [lia|]. cbn [gc_loop].
  assert (o <= 2044) by (pose proof (Z_div_mod_eq_full o 4); lia).
  rewrite (bind_done _ _ _ _ _ (gc_step_skip base cache o s h ltac:(lia) ltac:(lia) (Hff o ltac:(lia)) (Hff (o + 1) ltac:(lia)))).
  unfold AMT_NV_SIZE. destruct (Z.ltb_spec (o + 4) (2048 - 1)); [|done]. apply IH; [lia| |lia|lia|].
  - by rewrite Zplus_mod, Hm.
  - intros x Hx. apply Hff. lia.
Qed.
(** A parameter that has a value. *)
Lemma slice_head pre st v r o : o = len pre -> slice (pre ++ record st v ++ r) o 6 = head_of st v.
Proof. intros ->. unfold slice, len. by rewrite Nat2Z.id, drop_app_length. Qed.
Lemma gc_step_first base pre v r o n s h : 0 <= n < 256 -> o = len pre -> len v = n ->
  gc_step base (pre ++ record AMT_NV_STATE_USED v ++ r) o (s, h) = Done (pre ++ record AMT_NV_STATE_USED v ++ r, o + nv_room n) (s, h).
Proof.
  intros Hn Ho Hl. pose proof (len_nonneg pre). pose proof (len_nonneg r). unfold gc_step. change AMT_NV_HEAD_SIZE with 6.
  erewrite bind_done by (apply rdn_ok; [lia|lia|rewrite !len_app, len_record; lia]). rewrite slice_head by done.
  change (is_dele (head_of AMT_NV_STATE_USED v)) with false. change (is_used (head_of AMT_NV_STATE_USED v)) with true. cbn iota.
  change (head_val_len (head_of AMT_NV_STATE_USED v)) with (u8 (len v)). rewrite u8_small, Hl by (unfold is_u8; lia). done.
Qed.
Lemma gc_step_second base pre w v r o n s h : located s -> in_flash (base + o) -> 0 <= n < 256 -> o = len pre -> value_ok n w -> value_ok n v ->
  has (chip h) (base + o) (record AMT_NV_STATE_DELE w) -> has (chip h) (base + o + 2048) (record AMT_NV_STATE_USED v) ->
  gc_step base (pre ++ record AMT_NV_STATE_DELE w ++ r) o (s, h) = Done (pre ++ record AMT_NV_STATE_USED v ++ r, o + nv_room n) (s, h).
Proof.
  intros Hs Ha Hn Ho Hw Hv Hh1 Hh2. pose proof Hw as [Hlw _]. pose proof Hv as [Hlv _]. pose proof (len_nonneg pre). pose proof (len_nonneg r).
  unfold gc_step. change AMT_NV_HEAD_SIZE with 6.
  erewrite bind_done by (apply rdn_ok; [lia|lia|rewrite !len_app, len_record; lia]). rewrite slice_head by done.
  change (is_dele (head_of AMT_NV_STATE_DELE w)) with true. cbn iota.
  rewrite (bind_done _ _ _ _ _ (search_run (base + o) n (Some v) 1 2 _ s h Hs Ha Hn (Second _ _ _ _ _ Hw Hv Hh1 Hh2))). cbn beta iota. cbn [found_head].
  erewrite bind_done by (apply memcpy_ok; [lia|rewrite !len_app, len_record; change (len (head_of _ _)) with 6; lia]).
  rewrite record_head, <- app_assoc, splice_mid by done. change (1 <? AMT_NV_BLOCK_NUM) with true. cbn iota. rewrite bind_assoc.
  change (head_val_len (head_of AMT_NV_STATE_USED v)) with (u8 (len v)). rewrite u8_small by (unfold is_u8; lia).
  apply has_head in Hh2 as [_ Hd]. destruct Ha. change (block (base + o) 1) with (base + o + 2048).
  erewrite bind_done by (apply nv_read_has; [exact Hd|done|lia|lia]).
  erewrite bind_done by (apply memcpy_ok; [lia|rewrite !len_app; change (len (head_of _ _)) with 6; lia]).
  rewrite (app_assoc pre), splice_mid by (rewrite ?len_app; change (len (head_of _ _)) with 6; lia). rewrite <- (app_assoc pre).
  erewrite bind_done by (apply rd_ok; rewrite !len_app; change (len (head_of _ _)) with 6; pose proof (len_nonneg v); lia).
  replace ((pre ++ head_of AMT_NV_STATE_USED v ++ v ++ r) !!! Z.to_nat (o + 4)) with (u8 (len v)).
  2:{ unfold len in Ho. rewrite lookup_total_app_r by lia. replace (Z.to_nat (o + 4) - length pre)%nat with 4%nat by lia. done. }
  rewrite u8_small by (unfold is_u8; lia). unfold nv_room. rewrite Hlv, record_head, <- app_assoc. done.
Qed.
(** The bytes of a parameter, as they are and as the scan leaves them. *)
Lemma stored_value c a n b : 0 <= n < 256 -> has c a b -> len b = 6 + n -> nor_bytes c a (nv_room n) = b ++ gap c a n.
Proof.
  intros Hn Hb Hl. pose proof (room_bounds n Hn) as [? _]. replace (nv_room n) with (6 + n + (nv_room n - 6 - n)) at 1 by lia. rewrite nor_bytes_app by lia.
  f_equal; [apply has_bytes; [done|lia]|]. unfold gap. f_equal. lia.
Qed.
Lemma gc_step_entry base pre p r o s h : located s -> in_flash (base + o) -> o = len pre -> entry (chip h) (base + o) p -> p.2 <> None ->
  gc_step base (pre ++ nor_bytes (chip h) (base + o) (nv_room p.1) ++ r) o (s, h) = Done (pre ++ gathered (chip h) (base + o) p ++ r, o + nv_room p.1) (s, h).
Proof.
  intros Hs Ha Ho [Hn (i&j&Hp)] Hv. unfold gathered. destruct p as [n o']. cbn [fst snd] in *. destruct Hp as [|v [Hl Hb] Hh _|w v Hw Hv' Hh1 Hh2]; [done| |].
  - rewrite (stored_value _ _ n (record AMT_NV_STATE_USED v)), <- app_assoc by (done || (rewrite len_record; lia)). by apply gc_step_first.
  - pose proof Hw as [Hl _]. rewrite (stored_value _ _ n (record AMT_NV_STATE_DELE w)), <- !app_assoc by (done || (rewrite len_record; lia)). by apply gc_step_second.
Qed.
Lemma gather_run l : forall base pre r o fuel s h, located s -> 0 <= base -> base + 16384 < 4294967296 -> o = len pre -> o mod 4 = 0 ->
  o + total l <= 2044 -> 2048 - o <= 4 * Z.of_nat fuel -> nv_entries (chip h) (base + o) l ->
  (forall k, 0 <= k < 2047 - (o + total l) -> r !! Z.to_nat k = Some 255) -> 2055 <= o + total l + len r ->
  gc_loop fuel base (pre ++ nor_bytes (chip h) (base + o) (total l) ++ r) o (s, h) = Done (pre ++ image (chip h) (base + o) l ++ r) (s, h).
Proof.
  induction l as [|p l IH]; intros base pre r o fuel s h Hs Hb1 Hb2 Ho Hm Ht Hf Hl Hr Hlen; pose proof (len_nonneg pre).
  - cbn [total foldr image] in *. change (nor_bytes (chip h) (base + o) 0) with (@nil Z). cbn [Datatypes.app].
    unfold len in Ho. apply gc_tail; unfold AMT_NV_SIZE; [lia|done|lia|rewrite len_app; unfold len in *; lia|]. intros x Hx. rewrite lookup_app_r by lia.
    rewrite <- (Hr (x - o)) by lia. f_equal. lia.
  - cbn [total foldr image nv_entries] in *. fold (total l) in *. destruct Hl as [He Hl]. pose proof He as [Hn (i&j&Hp)]. pose proof (room_bounds p.1 Hn) as [? Hr4].
    pose proof (entries_total _ _ _ Hl) as [? _]. rewrite nor_bytes_app, <- !app_assoc by lia.
    assert (Hnext : forall fuel' x, len x = nv_room p.1 -> 2048 - (o + nv_room p.1) <= 4 * Z.of_nat fuel' ->
      gc_loop fuel' base (pre ++ x ++ nor_bytes (chip h) (base + o + nv_room p.1) (total l) ++ r) (o + nv_room p.1) (s, h)
        = Done (pre ++ x ++ image (chip h) (base + o + nv_room p.1) l ++ r) (s, h)).
    { intros fuel' x Hx Hf'. rewrite (app_assoc pre x), (app_assoc pre x). rewrite <- Z.add_assoc in *.
      apply IH; try done; [rewrite len_app; lia|by rewrite Zplus_mod, Hm, Hr4|lia|intros k Hk; apply Hr; lia|lia]. }
    pose proof (entry_gathered _ _ _ He) as Hg. destruct (p.2) as [v|] eqn:Ev.
    + destruct fuel as [|fuel]; [lia|]. cbn [gc_loop].
      rewrite (bind_done _ _ _ _ _ (gc_step_entry base pre p _ o s h Hs ltac:(split; lia) Ho He ltac:(congruence))).
      unfold AMT_NV_SIZE. destruct (Z.ltb_spec (o + nv_room p.1) (2048 - 1)); [|lia]. apply Hnext; [done|lia].
    + assert (Hbl : nor_bytes (chip h) (base + o) (nv_room p.1) = gathered (chip h) (base + o) p).
      { unfold gathered. rewrite Ev. inversion Hp as [Hbl _| |]; simplify_eq. apply has_bytes; [by apply has_blank|]. unfold len. rewrite length_replicate. lia. }
      rewrite Hbl. set (m := Z.to_nat (nv_room p.1 / 4)). assert (Hm4 : 4 * Z.of_nat m = nv_room p.1) by (pose proof (Z_div_mod_eq_full (nv_room p.1) 4); lia).
      replace fuel with (m + (fuel - m))%nat by lia. rewrite gc_skip; unfold AMT_NV_SIZE; [|lia|lia|rewrite !len_app, len_nor_bytes; lia|].
      * rewrite Hm4. apply Hnext; [done|lia].
      * intros x Hx. unfold len in Ho. rewrite lookup_app_r by lia. unfold gathered. rewrite Ev. rewrite lookup_app_l by (rewrite length_replicate; lia). apply lookup_replicate. lia.
Qed.
Lemma image_app c a l1 l2 : image c a (l1 ++ l2) = image c a l1 ++ image c (a + total l1) l2.
Proof.
  revert a. induction l1 as [|p l1 IH]; intros a; cbn [Datatypes.app image total foldr]; [by rewrite Z.add_0_r|].
  rewrite IH, <- app_assoc. fold (total l1). by rewrite Z.add_assoc.
Qed.
Definition blanks (n : Z) : bytes := replicate (Z.to_nat n) 255.
(** What the collection writes back: the sector with the new value. *)
Definition new_sector c base l : bytes := image c base l ++ blanks (2047 - total l).
Lemma gc_prefix base l1 n w v l2 s h : let a := base + total l1 in located s -> amt_partion_base s = base -> 0 <= base -> base + 16384 < 4294967296 ->
  sector (chip h) base (l1 ++ (n, Some w) :: l2) -> value_ok n v ->
  amt_nv_gc a (Some (record AMT_NV_STATE_USED v)) (s, h) = gc_store base (new_sector (chip h) base (l1 ++ (n, Some v) :: l2)) (s, h).
Proof.
  intros a Hs Eb Hb0 Hb1 (He&Hr&Ht) [Hlv Hbv]. set (l := l1 ++ (n, Some w) :: l2) in *.
  pose proof (entries_total _ _ _ He) as [? _]. assert (Ht' : total (l1 ++ (n, Some v) :: l2) = total l) by (unfold l; by rewrite !total_app).
  unfold amt_nv_gc. rewrite (bind_done _ _ _ _ _ (find_located s h Hs)). erewrite bind_done by reflexivity. cbn [fst]. rewrite Eb. erewrite bind_done by reflexivity.
  rewrite (bind_done _ _ _ _ _ (nv_read_run base AMT_NV_SIZE s h Hb0 ltac:(done) ltac:(unfold AMT_NV_SIZE; lia))).
  set (scratch := replicate (Z.to_nat CACHE_SIZE) (u8 (junk h))).
  assert (Estored : nor_bytes (chip h) base AMT_NV_SIZE = nor_bytes (chip h) base (total l) ++ blanks (2047 - total l)).
  { replace AMT_NV_SIZE with (total l + (2047 - total l)) by (unfold AMT_NV_SIZE; lia). rewrite nor_bytes_app by lia. f_equal.
    apply has_bytes; [apply has_blank, (blank_sub _ _ _ _ _ Hr); lia|unfold blanks, len; rewrite length_replicate; lia]. }
  erewrite bind_done by (apply memcpy_ok; [lia|rewrite len_nor_bytes by done; unfold scratch, len, AMT_NV_SIZE, CACHE_SIZE; rewrite length_replicate; lia]).
  set (r := blanks (2047 - total l) ++ drop 2047 scratch).
  assert (Ecache : splice scratch 0 (nor_bytes (chip h) base AMT_NV_SIZE) = [] ++ nor_bytes (chip h) base (total l) ++ r).
  { unfold splice. change (Z.to_nat 0) with 0%nat. cbn [take Datatypes.app Nat.add]. replace (length (nor_bytes (chip h) base AMT_NV_SIZE)) with 2047%nat.
    - rewrite Estored, <- app_assoc. done.
    - pose proof (len_nor_bytes (chip h) base AMT_NV_SIZE ltac:(done)) as Hx. unfold len, AMT_NV_SIZE in Hx. unfold AMT_NV_SIZE. lia. }
  rewrite Ecache. assert (Hlr : len r = 2047 - total l + 2049).
  { unfold r, blanks, scratch, len, CACHE_SIZE. rewrite length_app, length_drop, !length_replicate. lia. }
  pose proof (gather_run l base [] r 0 gc_rounds s h Hs Hb0 Hb1 eq_refl eq_refl ltac:(lia) ltac:(done)) as Hg. rewrite Z.add_0_r in Hg.
  rewrite (bind_done _ _ _ _ _ (Hg He ltac:(intros k Hk; unfold r, blanks; rewrite lookup_app_l by (rewrite length_replicate; lia); apply lookup_replicate; lia) ltac:(lia))).
  pose proof He as He0. unfold l in He0. apply entries_app in He0 as [Hl1 _].
  assert (Esplit : forall u, len u = n -> image (chip h) base (l1 ++ (n, Some u) :: l2) ++ r =
    image (chip h) base l1 ++ record AMT_NV_STATE_USED u ++ gap (chip h) a n ++ image (chip h) (a + nv_room n) l2 ++ r).
  { intros u _. rewrite image_app. cbn [image gathered fst snd]. by rewrite <- !app_assoc. }
  assert (Hlw : len w = n).
  { unfold l in He. apply entries_app in He as [_ [[_ (i&j&Hp)] _]]. cbn [fst snd] in Hp. by destruct (place_len _ _ _ _ _ _ w Hp eq_refl). }
  cbn [Datatypes.app]. replace (a - base) with (len (image (chip h) base l1)) by (rewrite (len_nv_image _ _ _ Hl1); unfold a; lia).
  pose proof (len_nv_image _ _ _ He) as Hli. unfold l at 1. rewrite Esplit by done.
  assert (Hfit : len (image (chip h) base l1) + len (record AMT_NV_STATE_USED w) <= total l).
  { rewrite <- Hli. unfold l. rewrite image_app, len_app. cbn [image gathered fst snd]. rewrite !len_app.
    pose proof (len_nonneg (gap (chip h) (base + total l1) n)). pose proof (len_nonneg (image (chip h) (base + total l1 + nv_room n) l2)). lia. }
  rewrite !len_record in Hfit. erewrite bind_done.
  2:{ apply memcpy_ok; [apply len_nonneg|]. rewrite <- Esplit by done. fold l. rewrite len_app, Hli, len_record. lia. }
  rewrite splice_mid by (rewrite ?len_record; lia). rewrite <- Esplit by done. f_equal. unfold new_sector, r. rewrite Ht', app_assoc. apply take_app_length'.
  assert (Hx : len (image (chip h) base (l1 ++ (n, Some v) :: l2)) = total l).
  { rewrite <- Hli. unfold l. rewrite !image_app, !len_app. cbn [image gathered fst snd]. rewrite !len_app, !len_record. lia. }
  unfold len in Hx. rewrite length_app. unfold blanks. rewrite length_replicate. change (Z.to_nat AMT_NV_SIZE) with 2047%nat. lia.
Qed.
End Gather.

(** ** The new sector *)
Lemma len_blanks n : 0 <= n -> len (blanks n) = n.
Proof. intros. unfold blanks, len. rewrite length_replicate. lia. Qed.
Definition nv_sound (p : Z * option bytes) : Prop := 0 <= p.1 < 256 /\ forall v, p.2 = Some v -> value_ok p.1 v.
Lemma sound_total l : Forall nv_sound l -> 0 <= total l.
Proof. induction 1 as [|p l [Hn _] _ IH]; [done|]. cbn. pose proof (room_bounds p.1 Hn) as [? _]. fold (total l). lia. Qed.
Section Sector.
Context {C : Type} `{NorChipLaws C}.
Implicit Types (c : C) (a n : Z).
Lemma entries_sound c a l : nv_entries c a l -> Forall nv_sound l.
Proof.
  revert a. induction l as [|p l IH]; intros a Hl; [constructor|]. destruct Hl as [[Hn (i&j&Hp)] Hl]. constructor; [|by eapply IH].
  split; [done|]. intros v Hv. by eapply place_len.
Qed.
Lemma entries_image c c' a l : Forall nv_sound l -> has c' a (image c a l) -> blank c' (a + 2048) (total l) -> nv_entries c' a l.
Proof.
  intros Hl. revert a. induction Hl as [|p l [Hn Hv] Hl IH]; intros a Hh Hb; [done|]. cbn [nv_entries image total foldr] in *. fold (total l) in Hb.
  apply has_app in Hh as [Hh1 Hh2]. rewrite len_gathered in Hh2 by (try done; intros v E; by destruct (Hv v E)).
  pose proof (room_bounds p.1 Hn) as [? _]. pose proof (sound_total l Hl).
  split; [|apply IH; [done|apply (blank_sub _ _ _ _ _ Hb); lia]]. split; [done|]. unfold gathered in Hh1. destruct (p.2) as [v|] eqn:Ev.
  - exists 0, 1. apply has_app in Hh1 as [Hh1 _]. constructor; [by apply Hv|done|apply (blank_sub _ _ _ _ _ Hb); lia].
  - exists 2, 0. constructor; [by apply blank_has|apply (blank_sub _ _ _ _ _ Hb); lia].
Qed.
Lemma nv_image_bytes c a l : Forall nv_sound l -> is_bytes (image c a l) /\ len (image c a l) = total l.
Proof.
  intros Hl. revert a. induction Hl as [|p l [Hn Hv] Hl IH]; intros a; [split; [constructor|done]|]. cbn [image total foldr]. destruct (IH (a + nv_room p.1)) as [Hb E]. split.
  - apply Forall_app. split; [|done]. unfold gathered. destruct (p.2) as [v|]; [apply Forall_app; split|].
    + by eapply record_bytes, Hv.
    + apply is_bytes_nor_bytes.
    + apply Forall_replicate. unfold is_u8. lia.
  - rewrite len_app, E, len_gathered; [done|done|]. intros v Ev. by destruct (Hv v Ev).
Qed.
Definition is_new_sector c' base (b : bytes) : Prop := has c' base b /\ blank c' (base + 2047) 2049 /\ blank c' AMT_NV_BACKUP_BASE 4096.
Lemma store_new_sector c c' base l : Forall nv_sound l -> total l <= 2044 -> is_new_sector c' base (new_sector c base l) -> store c' base l.
Proof.
  intros Hl Ht (Hh&Hb&Hk). pose proof (nv_image_bytes c base l Hl) as [_ Hli]. pose proof (len_nonneg (image c base l)). unfold new_sector in Hh.
  apply has_app in Hh as [Hh1 Hh2]. rewrite Hli in *. apply blank_has in Hh2. split; [|intros x Hx|done|done].
  - apply (entries_image c); [done|done|apply (blank_sub _ _ _ _ _ Hb); lia].
  - destruct (decide (x < base + 2047)); [apply Hh2; lia|apply Hb; lia].
Qed.
Lemma new_sector_bytes c base l : Forall nv_sound l -> total l <= 2044 -> is_bytes (new_sector c base l) /\ len (new_sector c base l) = 2047.
Proof.
  intros Hl Ht. destruct (nv_image_bytes c base l Hl) as [Hb E]. pose proof (len_nonneg (image c base l)). unfold new_sector. split.
  - apply Forall_app. split; [done|]. apply Forall_replicate. unfold is_u8. lia.
  - rewrite len_app, E, len_blanks by lia. lia.
Qed.

Context `{!NorReliable C} `{AmtPartition}.
Implicit Types (s : amt) (h : hw C).
(** Erasing the sector, writing it and clearing the backup: the end of the
    collection, and of a recovery at start. *)
Lemma rewrite_run base b s h : sector_at base -> is_bytes b -> len b = 2047 ->
  exists c', (nv_erase base AMT_PARTION_SIZE ;; nv_write base b ;; nv_erase AMT_NV_BACKUP_BASE AMT_PARTION_SIZE) (s, h) = Done tt (s, set_chip c' h) /\
    is_new_sector c' base b.
Proof.
  intros Hb Hby Hl. pose proof (sector_apart base Hb) as Hap. destruct Hb as (Hm&Hb0&Hb1&_). unfold AMT_NV_BACKUP_BASE in *. change AMT_PARTION_SIZE with 4096.
  destruct (nv_erase_run base s h Hm) as (c1&E1&He1). rewrite (bind_done _ _ _ _ _ E1).
  destruct (nv_write_run base b s (set_chip c1 h) Hb0 ltac:(lia) Hby) as (c2&E2&Hp2). rewrite (bind_done _ _ _ _ _ E2).
  destruct (nv_erase_run 0xFE000 s (set_chip c2 (set_chip c1 h)) eq_refl) as (c3&E3&He3). exists c3. split; [by rewrite E3|].
  cbn [chip set_chip] in *. split_and!.
  - apply (has_agree c2 _ _ _ (len b)); [apply (agree_erased _ _ _ _ _ _ He3); lia|done|]. apply (has_programmed c1); [done| |done].
    intros x Hx. rewrite (He1 x). by rewrite bool_decide_eq_true_2 by lia.
  - intros x Hx. rewrite (He3 x), bool_decide_eq_false_2, (Hp2 x), bool_decide_eq_false_2, (He1 x), bool_decide_eq_true_2 by lia. done.
  - intros x Hx. rewrite (He3 x). by rewrite bool_decide_eq_true_2 by (unfold AMT_NV_BACKUP_BASE in Hx; lia).
Qed.
Lemma gc_store_run base b s h : sector_at base -> is_bytes b -> len b = 2047 ->
  exists c', gc_store base b (s, h) = Done tt (s, set_chip c' h) /\ is_new_sector c' base b.
Proof.
  intros Hb Hby Hl. unfold gc_store.
  destruct (nv_write_run AMT_NV_BACKUP_BEGIN [0] s h ltac:(done) ltac:(done) ltac:(by repeat constructor)) as (c1&E1&_). rewrite (bind_done _ _ _ _ _ E1).
  destruct (nv_write_run AMT_NV_BACKUP_ADDR b s (set_chip c1 h) ltac:(done) ltac:(unfold AMT_NV_BACKUP_ADDR, AMT_NV_BACKUP_BASE; lia) Hby) as (c2&E2&_). rewrite (bind_done _ _ _ _ _ E2).
  destruct (nv_write_run AMT_NV_BACKUP_COMP [0] s (set_chip c2 (set_chip c1 h)) ltac:(done) ltac:(done) ltac:(by repeat constructor)) as (c3&E3&_). rewrite (bind_done _ _ _ _ _ E3).
  destruct (rewrite_run base b s (set_chip c3 (set_chip c2 (set_chip c1 h))) Hb Hby Hl) as (c4&E4&Hn). exists c4. split; [by rewrite E4|done].
Qed.
End Sector.

(** ** Writing is an update of the store *)
Section Update.
Context {C : Type} `{NorChipLaws C, !NorReliable C} `{AmtPartition}.
Implicit Types (c : C) (a n : Z) (s : amt) (h : hw C) (v : bytes).
Lemma sound_update l1 n o v l2 : Forall nv_sound (l1 ++ (n, o) :: l2) -> value_ok n v -> Forall nv_sound (l1 ++ (n, Some v) :: l2).
Proof.
  intros Hl Hv. apply Forall_app in Hl as [Hl1 Hl2]. apply Forall_cons in Hl2 as [[Hn _] Hl2]. apply Forall_app. split; [done|]. constructor; [|done].
  split; [done|]. by intros v' [= <-].
Qed.
(** To the free block, with the old value deleted; or through the collection. *)
Definition place_value a v index_search index_alloc : P C amt unit :=
  if index_alloc =? AMT_NV_BLOCK_NUM then amt_nv_gc a (Some (record AMT_NV_STATE_USED v))
  else
    nv_write (block a index_alloc) (record AMT_NV_STATE_USED v) ;;
    when (index_search <? AMT_NV_BLOCK_NUM) (nv_write (block a index_search + 2) (bytes16 AMT_NV_STATE_DELE)).
Lemma place_value_run base l1 n o v l2 i j s h : let a := base + total l1 in located s -> amt_partion_base s = base -> sector_at base ->
  store (chip h) base (l1 ++ (n, o) :: l2) -> place (chip h) a n o i j -> value_ok n v ->
  exists c', place_value a v i j (s, h) = Done tt (s, set_chip c' h) /\ store c' base (l1 ++ (n, Some v) :: l2).
Proof.
  intros a Hs Eb Hb Hst Hp Hv. pose proof Hst as [He _ _ Ht]. pose proof (entries_sound _ _ _ He) as Hsound. pose proof Hv as [Hlv Hbv].
  assert (Hn : 0 <= n < 256) by (apply Forall_app in Hsound as [_ Hx]; by apply Forall_cons in Hx as [[? _] _]).
  pose proof He as He0. apply entries_app in He0 as [Hl1 [_ Hl2]]. pose proof (entries_total _ _ _ Hl1) as [? _]. pose proof (entries_total _ _ _ Hl2) as [? _].
  pose proof (room_bounds n Hn) as [? _]. rewrite total_app in Ht. cbn [total foldr fst] in Ht. fold (total l2) in Ht. pose proof Hb as (_&Hb0&Hb1&_).
  pose proof (record_bytes AMT_NV_STATE_USED n v Hv) as Hrb. pose proof (len_record AMT_NV_STATE_USED v) as Hrl.
  unfold place_value. inversion Hp as [Hb1' Hb2'|w Hw Hh Hbl|w u Hw Hu Hh1 Hh2]; subst o i j.
  - change (0 =? AMT_NV_BLOCK_NUM) with false. change (2 <? AMT_NV_BLOCK_NUM) with false. cbn iota. change (block a 0) with (a + 0). rewrite Z.add_0_r.
    destruct (nv_write_run a (record AMT_NV_STATE_USED v) s h ltac:(lia) ltac:(lia) Hrb) as (c1&E1&Hp1). rewrite (bind_done _ _ _ _ _ E1).
    exists c1. split; [done|]. apply (store_update base l1 n None v l2 (chip h)); [done|done| |].
    + intros x Hx. fold a in Hx. rewrite (Hp1 x). by rewrite bool_decide_eq_false_2 by lia.
    + split; [done|]. exists 0, 1. fold a. cbn [fst snd]. constructor; [done| |].
      * apply (has_programmed (chip h)); [done| |done]. apply (blank_sub _ _ _ _ _ Hb1'); lia.
      * apply (blank_agree (chip h) _ _ (6 + n)); [|lia|done]. apply (agree_programmed _ _ _ _ _ _ Hp1). lia.
  - change (1 =? AMT_NV_BLOCK_NUM) with false. change (0 <? AMT_NV_BLOCK_NUM) with true. cbn iota. change (block a 1) with (a + 2048). change (block a 0) with (a + 0). rewrite Z.add_0_r.
    destruct (nv_write_run (a + 2048) (record AMT_NV_STATE_USED v) s h ltac:(lia) ltac:(lia) Hrb) as (c1&E1&Hp1). rewrite (bind_done _ _ _ _ _ E1).
    destruct (nv_write_run (a + 2) (bytes16 AMT_NV_STATE_DELE) s (set_chip c1 h) ltac:(lia) ltac:(change (len (bytes16 _)) with 2; lia) ltac:(repeat constructor; done)) as (c2&E2&Hp2).
    exists c2. split; [cbn [when]; by rewrite E2|]. cbn [chip set_chip] in Hp2. change (len (bytes16 AMT_NV_STATE_DELE)) with 2 in *. apply (store_update base l1 n (Some w) v l2 (chip h)); [done|done| |].
    + intros x Hx. fold a in Hx. rewrite (Hp2 x), bool_decide_eq_false_2, (Hp1 x), bool_decide_eq_false_2 by (change (len (bytes16 AMT_NV_STATE_DELE)) with 2; lia). done.
    + split; [done|]. exists 1, 2. fold a. cbn [fst snd]. apply (Second _ _ _ w); [done|done| |].
      * apply (marked_deleted c1); [|done]. apply (has_agree (chip h) _ _ _ (6 + n)); [|rewrite len_record; destruct Hw; lia|done]. apply (agree_programmed _ _ _ _ _ _ Hp1). lia.
      * apply (has_agree c1 _ _ _ (6 + n)); [apply (agree_programmed _ _ _ _ _ _ Hp2); change (len (bytes16 AMT_NV_STATE_DELE)) with 2; lia|lia|].
        apply (has_programmed (chip h)); [done| |done]. apply (blank_sub _ _ _ _ _ Hbl); lia.
  - change (2 =? AMT_NV_BLOCK_NUM) with true. cbn iota. rewrite (gc_prefix base l1 n u v l2 s h) by (try done; first [by apply store_sector|by apply sector_low|by apply sector_high]).
    pose proof (sound_update l1 n (Some u) v l2 Hsound Hv) as Hs'. assert (Ht' : total (l1 ++ (n, Some v) :: l2) <= 2044) by (rewrite total_app; cbn; fold (total l2); lia).
    destruct (new_sector_bytes (chip h) base _ Hs' Ht') as [Hnb Hnl].
    destruct (gc_store_run base (new_sector (chip h) base (l1 ++ (n, Some v) :: l2)) s h Hb Hnb Hnl) as (c'&E&Hnew). exists c'. split; [done|]. by eapply store_new_sector.
Qed.
Lemma moved_chip m h h' : moved m h h' -> chip h' = chip h.
Proof. by intros [-> _]. Qed.
Lemma moved_set_chip c m h h' : moved m h h' -> moved m (set_chip c h) (set_chip c h').
Proof. intros [-> Hh]. by split. Qed.
Lemma set_chip_self c h : chip h = c -> set_chip c h = h.
Proof. intros <-. by destruct h. Qed.
Lemma parameter_address base l1 n o l2 c s : sector c base (l1 ++ (n, o) :: l2) -> 0 <= base -> base + 16384 < 4294967296 -> amt_partion_base s = base ->
  bad_address (amt_partion_base s) (base + total l1) = false /\ in_flash (base + total l1) /\ 0 <= n < 256 /\ exists i j, place c (base + total l1) n o i j.
Proof.
  intros (He&_&Ht) Hb0 Hb1 ->. pose proof He as He0. apply entries_app in He0 as [Hl1 [[Hn Hp] Hl2]]. pose proof (entries_total _ _ _ Hl1) as [? _].
  pose proof (entries_total _ _ _ Hl2) as [? _]. rewrite total_app in Ht. cbn [total foldr fst] in *. fold (total l2) in Ht. pose proof (room_bounds n Hn) as [? _].
  split_and!; [unfold bad_address; lia|unfold in_flash; lia|lia|lia|done].
Qed.
Lemma write_run base l1 n o l2 buf s h : let v := slice buf 0 n in located s -> amt_partion_base s = base -> sector_at base ->
  store (chip h) base (l1 ++ (n, o) :: l2) -> is_bytes buf -> n <= len buf ->
  exists r h', amt_nv_write (base + total l1) (Some buf) n (s, h) = Done r (s, h') /\ moved 0 h (set_chip (chip h) h') /\
    (r = 0 /\ store (chip h') base (l1 ++ (n, Some v) :: l2) \/ r = DRV_ERR_MEM_ALLOC /\ chip h' = chip h /\ heap h <> []).
Proof.
  intros v Hs Eb Hb Hst Hbuf Hn. destruct (parameter_address base l1 n o l2 _ s (store_sector _ _ _ Hst) (sector_low _ Hb) (sector_high _ Hb) Eb) as (Hbad&Hfl&Hn'&i&j&Hp).
  assert (Hv : value_ok n v) by (split; [apply len_slice; lia|by apply Forall_take, Forall_drop]).
  unfold amt_nv_write. rewrite (bind_done _ _ _ _ _ (find_located s h Hs)). erewrite bind_done by reflexivity. cbn [fst]. rewrite Hbad.
  assert (Hrun : wp (let* p := ya_hal_os_memory_alloc (n + AMT_NV_HEAD_SIZE) in
      match p with
      | None => ret DRV_ERR_MEM_ALLOC
      | Some _ =>
        let* data := rdn buf 0 n in
        let record := bytes16 AMT_NV_MAGIC_VALUE ++ bytes16 AMT_NV_STATE_USED ++ [u8 n; amt_nv_crc8 (take (Z.to_nat (u16 n)) data)] ++ data in
        let* h := get_hw in
        let* '(_, index_search, index_alloc) := amt_nv_search (base + total l1) (replicate 6 (u8 (junk h))) in
        (if index_alloc =? AMT_NV_BLOCK_NUM then amt_nv_gc (base + total l1) (Some record)
         else
           nv_write (block (base + total l1) index_alloc) record ;;
           when (index_search <? AMT_NV_BLOCK_NUM) (nv_write (block (base + total l1) index_search + 2) (bytes16 AMT_NV_STATE_DELE))) ;;
        ya_hal_os_memory_free ;;
        ret 0
      end) (fun r t => t.1 = s /\ moved 0 h (set_chip (chip h) t.2) /\
        (r = 0 /\ store (chip t.2) base (l1 ++ (n, Some v) :: l2) \/ r = DRV_ERR_MEM_ALLOC /\ chip t.2 = chip h /\ heap h <> [])) (fun _ => False) (s, h)).
  { apply wp_bind, wp_alloc_moved; [unfold AMT_NV_HEAD_SIZE; lia| |].
    2:{ intros h1 [?|?] Hm; [unfold AMT_NV_HEAD_SIZE in *; lia|]. apply wp_ret. pose proof (moved_chip _ _ _ Hm) as Ec. cbn [fst snd].
        split; [done|]. rewrite set_chip_self by done. split; [done|by right]. }
    intros _ h1 _ _ Hm. pose proof (moved_chip _ _ _ Hm) as Ec. apply wp_bind. eapply wp_done; [apply rdn_ok; lia|]. fold v. apply wp_bind. eapply wp_done; [reflexivity|].
    apply wp_bind. eapply wp_done; [apply (search_run _ n o i j); try done; by rewrite Ec|]. cbn beta iota.
    destruct (place_value_run base l1 n o v l2 i j s h1) as (c'&E&Hst'); try done; [by rewrite Ec|by rewrite Ec|].
    apply wp_bind. eapply wp_done. { rewrite <- E. unfold place_value. by rewrite (record_built n v) by (done || apply Hv). }
    apply wp_bind, wp_free_moved. intros h2 Hm2. apply wp_ret. pose proof (moved_chip _ _ _ Hm2) as Ec2. cbn [fst snd]. split; [done|]. split; [|left; split; [done|by rewrite Ec2]].
    apply (moved_set_chip (chip h)) in Hm2. change (set_chip (chip h) (set_chip c' h1)) with (set_chip (chip h) h1) in Hm2.
    rewrite (set_chip_self (chip h) h1 Ec) in Hm2. exact (moved_trans _ _ _ _ _ Hm Hm2). }
  destruct (wp_elim _ _ _ Hrun) as (r&[s' h']&E&Es&Hm&Hr). cbn [fst snd] in *. subst s'. by exists r, h'.
Qed.
End Update.

Section WriteShape.
Context {C : Type} `{NorChip C} `{AmtPartition}.
Implicit Types (s : amt) (h : hw C).
(** With memory to spare, a write is the placing of its value. *)
Lemma write_shape a n o i j buf c' s h : located s -> bad_address (amt_partion_base s) a = false -> in_flash a -> 0 <= n < 256 -> n <= len buf -> heap h = [] ->
  place (chip h) a n o i j -> (let h1 := set_heap [] (live h + 1) h in place_value a (slice buf 0 n) i j (s, h1) = Done tt (s, set_chip c' h1)) ->
  amt_nv_write a (Some buf) n (s, h) = Done 0 (s, set_chip c' h).
Proof.
  intros Hs Hbad Hfl Hn Hl Hh Hp Hv. set (h1 := set_heap [] (live h + 1) h).
  unfold amt_nv_write. rewrite (bind_done _ _ _ _ _ (find_located s h Hs)). erewrite bind_done by reflexivity. cbn [fst]. rewrite Hbad.
  assert (Ea : ya_hal_os_memory_alloc (n + AMT_NV_HEAD_SIZE) (s, h) = Done (Some (replicate (Z.to_nat (n + AMT_NV_HEAD_SIZE)) (u8 (junk h)))) (s, h1)).
  { unfold ya_hal_os_memory_alloc. unfold AMT_NV_HEAD_SIZE. destruct (Z.eqb_spec (n + 6) 0); [lia|]. by rewrite Hh. }
  rewrite (bind_done _ _ _ _ _ Ea). rewrite (bind_done _ _ _ _ _ (rdn_ok buf 0 n (s, h1) ltac:(lia) ltac:(lia) ltac:(lia))). erewrite bind_done by reflexivity.
  rewrite (bind_done _ _ _ _ _ (search_run a n o i j _ s h1 Hs Hfl Hn Hp)). cbn beta iota. rewrite (record_built n) by (try done; apply len_slice; lia).
  erewrite bind_done by (exact Hv). erewrite bind_done by reflexivity. unfold h1. destruct h; cbn in *. subst. do 3 f_equal. unfold set_heap, set_chip. cbn. f_equal. lia.
Qed.
End WriteShape.

(** ** Sequences of writes *)
(** A write: which parameter, and the block the value is copied from. *)
Definition put_op : Type := nat * bytes.
Definition offset (ns : list Z) (k : nat) : Z := foldr (fun n t => nv_room n + t) 0 (take k ns).
Definition put_ok (ns : list Z) (op : put_op) : Prop := exists n, ns !! op.1 = Some n /\ is_bytes op.2 /\ n <= len op.2.
Definition put_value (l : list (Z * option bytes)) (op : put_op) : list (Z * option bytes) :=
  match l !! op.1 with Some (n, _) => <[op.1 := (n, Some (slice op.2 0 n))]> l | None => l end.
Lemma offset_total l k : offset l.*1 k = total (take k l).
Proof. unfold offset, total. rewrite <- fmap_take. induction (take k l) as [|p q IH]; [done|]. cbn. by rewrite IH. Qed.
Lemma put_fst l op : (put_value l op).*1 = l.*1.
Proof.
  unfold put_value. destruct (l !! op.1) as [[n o]|] eqn:E; [|done]. rewrite list_fmap_insert. apply list_insert_id. by rewrite list_lookup_fmap, E.
Qed.
Lemma nth_split (l : list (Z * option bytes)) k p : l !! k = Some p -> l = take k l ++ p :: drop (S k) l.
Proof. intros Hk. symmetry. by apply take_drop_middle. Qed.
Section Sequence.
Context {C : Type} `{NorChipLaws C, !NorReliable C} `{AmtPartition}.
Implicit Types (c : C) (a n : Z) (s : amt) (h : hw C) (v : bytes).
Definition nv_put base (ns : list Z) (op : put_op) : P C amt Z := amt_nv_write (base + offset ns op.1) (Some op.2) (ns !!! op.1).
Lemma put_run base l op s h : located s -> amt_partion_base s = base -> sector_at base -> store (chip h) base l -> heap h = [] -> put_ok l.*1 op ->
  exists h', nv_put base l.*1 op (s, h) = Done 0 (s, h') /\ store (chip h') base (put_value l op) /\ heap h' = [] /\ live h' = live h.
Proof.
  intros Hs Eb Hb Hst Hh (n&Hk&Hby&Hl). unfold nv_put, put_value. rewrite offset_total. rewrite (list_lookup_total_correct _ _ _ Hk).
  rewrite list_lookup_fmap in Hk. destruct (l !! op.1) as [[n' o]|] eqn:E; [|done]. injection Hk as ->. pose proof (nth_split _ _ _ E) as El. rewrite El in Hst.
  destruct (write_run base (take op.1 l) n o (drop (S op.1) l) op.2 s h Hs Eb Hb Hst Hby Hl) as (r&h'&Hr&[Em Hm]&[[-> Hst']|(_&_&?)]); [|done].
  exists h'. split; [done|]. split; [|split; [by apply Hm|]].
  - rewrite insert_take_drop by (by eapply lookup_lt_Some). done.
  - apply (f_equal live) in Em. cbn in Em. lia.
Qed.
Lemma get_run base l k n o buf m s h : located s -> amt_partion_base s = base -> sector_at base -> store (chip h) base l -> l !! k = Some (n, o) ->
  n <= m <= len buf -> amt_nv_read (base + offset l.*1 k) (Some buf) m (s, h) = Done (answer_of buf o) (s, h).
Proof.
  intros Hs Eb Hb Hst Hk Hm. rewrite offset_total. pose proof (nth_split _ _ _ Hk) as El. rewrite El in Hst.
  destruct (parameter_address base _ n o _ _ s (store_sector _ _ _ Hst) (sector_low _ Hb) (sector_high _ Hb) Eb) as (Hbad&Hfl&Hn&i&j&Hp). eapply read_run; try done. by eapply place_legible.
Qed.
Definition puts_all base (ns : list Z) (ops : list put_op) : P C amt unit := for_each ops (fun op => let* _ := nv_put base ns op in ret tt).
Lemma puts_run base ops s : located s -> amt_partion_base s = base -> sector_at base -> forall l h, store (chip h) base l -> heap h = [] -> Forall (put_ok l.*1) ops ->
  exists h', puts_all base l.*1 ops (s, h) = Done tt (s, h') /\ store (chip h') base (foldl put_value l ops) /\ (foldl put_value l ops).*1 = l.*1 /\ heap h' = [] /\ live h' = live h.
Proof.
  intros Hs Eb Hb. unfold puts_all. induction ops as [|op ops IH]; intros l h Hst Hh Hops; [by exists h|].
  apply Forall_cons in Hops as [Hop Hops]. destruct (put_run base l op s h Hs Eb Hb Hst Hh Hop) as (h1&E1&Hst1&Hh1&Hl1).
  destruct (IH (put_value l op) h1 Hst1 Hh1) as (h2&E2&Hst2&Ef&Hh2&Hl2); [by rewrite put_fst|]. rewrite put_fst in *. exists h2.
  split; [|split_and!; [done|done|done|congruence]]. cbn [for_each]. rewrite bind_assoc, (bind_done _ _ _ _ _ E1). exact E2.
Qed.
(** C19: The parameter store refines a table of values: whatever parameters are
    written in whatever order and however often, every write succeeds (the full
    sector is collected in between), and afterwards every parameter reads as the
    value written last, or as it was before; no block of memory is kept. *)
Theorem amt_nv_refines base l ops s h : located s -> amt_partion_base s = base -> sector_at base -> store (chip h) base l -> heap h = [] ->
  Forall (put_ok l.*1) ops ->
  exists h', puts_all base l.*1 ops (s, h) = Done tt (s, h') /\ live h' = live h /\
    forall k n o buf m, foldl put_value l ops !! k = Some (n, o) -> n <= m <= len buf ->
      amt_nv_read (base + offset l.*1 k) (Some buf) m (s, h') = Done (answer_of buf o) (s, h').
Proof.
  intros Hs Eb Hb Hst Hh Hops. destruct (puts_run base ops s Hs Eb Hb l h Hst Hh Hops) as (h'&E&Hst'&Ef&_&Hl). exists h'. split_and!; [done|done|].
  intros k n o buf m Hk Hm. rewrite <- Ef. by eapply get_run.
Qed.
End Sequence.

(** ** The parameters of the product *)
Definition unset_all (ns : list Z) : list (Z * option bytes) := (fun n => (n, None)) <$> ns.
Definition layout : list Z := (fun e => e.2) <$> parameters.
Lemma unset_all_fst ns : (unset_all ns).*1 = ns.
Proof. unfold unset_all. rewrite <- list_fmap_compose. apply list_fmap_id. Qed.
Lemma unset_total ns : Forall (fun n => 0 <= n < 256) ns -> 0 <= total (unset_all ns).
Proof.
  induction 1 as [|n ns Hn _ IH]; [done|]. pose proof (room_bounds n Hn) as [? _]. change (total (unset_all (n :: ns))) with (nv_room n + total (unset_all ns)). lia.
Qed.
(** An erased sector holds the table without values. *)
Lemma entries_erased {C} `{NorChip C} (c : C) ns : Forall (fun n => 0 <= n < 256) ns -> forall base,
  blank c base (total (unset_all ns)) -> blank c (base + 2048) (total (unset_all ns)) -> nv_entries c base (unset_all ns).
Proof.
  induction 1 as [|n ns Hn Hns IH]; intros base Hb1 Hb2; [done|]. pose proof (unset_total ns Hns) as Hnn.
  pose proof (room_bounds n Hn) as [? _]. change (total (unset_all (n :: ns))) with (nv_room n + total (unset_all ns)) in *. split.
  - split; [done|]. exists 2, 0. constructor; [apply (blank_sub _ _ _ _ _ Hb1)|apply (blank_sub _ _ _ _ _ Hb2)]; cbn [fst]; lia.
  - apply IH; [apply (blank_sub _ _ _ _ _ Hb1)|apply (blank_sub _ _ _ _ _ Hb2)]; cbn [fst]; lia.
Qed.
Lemma store_erased {C} `{NorChip C} (c : C) base ns : Forall (fun n => 0 <= n < 256) ns -> total (unset_all ns) <= 2044 ->
  blank c base 4096 -> blank c AMT_NV_BACKUP_BASE 4096 -> store c base (unset_all ns).
Proof.
  intros Hns Ht Hb Hk. pose proof (unset_total ns Hns) as Hnn.
  split; [apply entries_erased; [done|apply (blank_sub _ _ _ _ _ Hb)..]|apply (blank_sub _ _ _ _ _ Hb)|done|done]; lia.
Qed.
(** The addresses of [amtNV.h] are those of the table. *)
Lemma parameters_layout : Forall (fun k => (fun e => e.1.2) <$> parameters !! k = Some (offset layout k)) (seq 0 28).
Proof. repeat constructor. Qed.
#[export] Instance sample_partition : AmtPartition := {| amt_partition := Some 0xFF000 |}.
Definition located_boot : amt := mkAmt 0xFF000 1.
Definition blank_boot : hw ideal := set_chip (fun _ => 255) boot.
(** Three serial numbers, which fill both blocks and make the third collect, and a
    MAC address. *)
Definition sample_writes : list put_op :=
  [(0%nat, replicate 64 49); (0%nat, replicate 64 50); (1%nat, str "12:34:56:78:90:AB" ++ [0]); (0%nat, replicate 64 51)].
Lemma store_boot : store (chip blank_boot) 0xFF000 (unset_all layout).
Proof. apply store_erased; [by apply (bool_decide_unpack _)|done|done|done]. Qed.
Lemma amt_nv_refines_witness :
  exists h', puts_all 0xFF000 layout sample_writes (located_boot, blank_boot) = Done tt (located_boot, h') /\ live h' = live blank_boot /\
    forall k n o buf m, foldl put_value (unset_all layout) sample_writes !! k = Some (n, o) -> n <= m <= len buf ->
      amt_nv_read (0xFF000 + offset layout k) (Some buf) m (located_boot, h') = Done (answer_of buf o) (located_boot, h').
Proof.
  assert (El : (unset_all layout).*1 = layout) by (apply unset_all_fst). rewrite <- El.
  apply (amt_nv_refines 0xFF000 (unset_all layout) sample_writes located_boot blank_boot); [done|done|done|apply store_boot|done|].
  rewrite El. repeat constructor; eexists; (split; [reflexivity|split; [by apply (bool_decide_unpack _)|done]]).
Defined.

(** ** The shell commands *)
Definition nv_argument (name : string) : bytes := str name ++ [0].
Lemma parameters_found : Forall (fun e => parameter (nv_argument e.1.1) = Some (e.1.2, e.2) /\ e.2 <= 256) parameters.
Proof. repeat (apply Forall_cons_2; [split; [vm_compute; reflexivity|done]|]). constructor. Qed.
Lemma parameter_nth k name o n : parameters !! k = Some (name, o, n) -> parameter (nv_argument name) = Some (o, n) /\ o = offset layout k /\ layout !! k = Some n /\ n <= 256.
Proof.
  intros Hk. pose proof parameters_found as Hf. eapply Forall_lookup_1 in Hf as [Hp Hn]; [|exact Hk]. cbn in Hp, Hn. split_and!; [done| |unfold layout; by rewrite list_lookup_fmap, Hk|done].
  pose proof parameters_layout as Hl. rewrite Forall_forall in Hl. specialize (Hl k). rewrite Hk in Hl. cbn in Hl.
  apply lookup_lt_Some in Hk. assert (Hin : k ∈ seq 0 28) by (apply elem_of_seq; change (length parameters) with 28%nat in Hk; lia). by injection (Hl Hin).
Qed.
(** The text of a value that is shorter than its parameter, read into a cleared
    array. *)
Lemma read_text_back w t n : no_nul w -> len w < n <= 256 -> n <= len (w ++ 0 :: t) -> cstr (splice (zeros 256) 0 (slice (w ++ 0 :: t) 0 n)) = w.
Proof.
  intros Hw Hn Hl. unfold splice, slice. change (Z.to_nat 0) with 0%nat. rewrite drop_0. cbn [take Datatypes.app Nat.add].
  unfold len in *. rewrite take_app, (take_ge w) by lia. replace (Z.to_nat n - length w)%nat with (S (Z.to_nat n - length w - 1)) by lia.
  cbn [take]. rewrite <- !app_assoc. cbn [Datatypes.app]. by apply cstr_app_nul.
Qed.
Section Shell.
Context {C : Type} `{NorChipLaws C, !NorReliable C} `{AmtPartition}.
Implicit Types (s : amt) (h : hw C).
Definition shown_value (o : option bytes) : Z * option bytes :=
  match o with Some v => (0, Some (cstr (splice (zeros 256) 0 v))) | None => (CMD_FAILURE, None) end.
Lemma shell_get cmd base l k name off n o s h : located s -> amt_partion_base s = base -> sector_at base -> store (chip h) base l -> l.*1 = layout ->
  parameters !! k = Some (name, off, n) -> l !! k = Some (n, o) -> amt_nv_get [cmd; nv_argument name] (s, h) = Done (shown_value o) (s, h).
Proof.
  intros Hs Eb Hb Hst El Hk Hlk. destruct (parameter_nth k name off n Hk) as (Hp&Ho&_&Hn). unfold amt_nv_get.
  rewrite (bind_done _ _ _ _ _ (find_located s h Hs)). erewrite bind_done by reflexivity. cbn [fst]. rewrite Hp. pose proof (st_entries _ _ _ Hst) as He. apply entries_sound in He.
  eapply Forall_lookup_1 in He as [Hn0 _]; [|exact Hlk]. cbn [fst] in Hn0. rewrite Eb, Ho, <- El.
  rewrite (bind_done _ _ _ _ _ (get_run base l k n o (zeros 256) n s h Hs Eb Hb Hst Hlk ltac:(rewrite len_zeros by lia; lia))).
  by destruct o as [v|].
Qed.
(** What the production line sets it can read back: the command stores a text
    shorter than its parameter and confirms it, reading the parameter then shows
    exactly this text, and every other parameter shows what it showed before. *)
Theorem amt_set_then_get cmd base l k name off n w t s h : located s -> amt_partion_base s = base -> sector_at base -> store (chip h) base l ->
  l.*1 = layout -> heap h = [] -> parameters !! k = Some (name, off, n) -> no_nul w -> is_bytes (w ++ 0 :: t) -> len w < n <= len (w ++ 0 :: t) ->
  exists h', amt_nv_set [cmd; nv_argument name; w ++ 0 :: t] (s, h) = Done 0 (s, h') /\ live h' = live h /\
    amt_nv_get [cmd; nv_argument name] (s, h') = Done (0, Some w) (s, h') /\
    forall k' name' off' n', k' <> k -> parameters !! k' = Some (name', off', n') ->
      exists a, amt_nv_get [cmd; nv_argument name'] (s, h) = Done a (s, h) /\ amt_nv_get [cmd; nv_argument name'] (s, h') = Done a (s, h').
Proof.
  intros Hs Eb Hb Hst El Hh Hk Hw Hby Hn. destruct (parameter_nth k name off n Hk) as (Hp&Ho&Hln&Hn256). set (op := (k, w ++ 0 :: t) : put_op).
  assert (Hop : put_ok l.*1 op) by (exists n; rewrite El; split_and!; [done|done|cbn; lia]).
  destruct (put_run base l op s h Hs Eb Hb Hst Hh Hop) as (h'&Hr&Hst'&_&Hl'). unfold nv_put in Hr. rewrite El in Hr. cbn [fst snd op] in Hr. rewrite (list_lookup_total_correct _ _ _ Hln), <- Ho in Hr.
  assert (Hlk : exists o, l !! k = Some (n, o)).
  { rewrite <- El, list_lookup_fmap in Hln. destruct (l !! k) as [[n' o]|]; [|done]. injection Hln as ->. by exists o. }
  destruct Hlk as [o Hlk]. set (v := slice (w ++ 0 :: t) 0 n). assert (Hput : put_value l op = <[k := (n, Some v)]> l) by (unfold put_value; cbn [op fst snd]; by rewrite Hlk).
  assert (Hk' : put_value l op !! k = Some (n, Some v)) by (rewrite Hput; apply list_lookup_insert_eq; by eapply lookup_lt_Some).
  assert (El' : (put_value l op).*1 = layout) by (by rewrite put_fst). exists h'. split; [|split; [done|split]].
  - unfold amt_nv_set. rewrite (bind_done _ _ _ _ _ (find_located s h Hs)). erewrite bind_done by reflexivity. cbn [fst]. rewrite Hp, Eb, (bind_done _ _ _ _ _ Hr).
    change (negb (0 =? 0)) with false. cbn iota. rewrite Ho, <- El'. rewrite (bind_done _ _ _ _ _ (get_run base _ k n (Some v) (zeros 256) n s h' Hs Eb Hb Hst' Hk' ltac:(rewrite len_zeros by lia; lia))).
    cbn [answer_of]. change (negb (0 =? 0)) with false. cbn iota. change (default [] (Some ?x)) with x. unfold v. rewrite read_text_back by (done || lia). rewrite cstr_app_nul by done.
    by rewrite bool_decide_eq_true_2.
  - rewrite (shell_get cmd base (put_value l op) k name off n (Some v)) by done. cbn [shown_value]. unfold v. by rewrite read_text_back by (done || lia).
  - intros k2 name2 off2 n2 Hne Hk2. destruct (parameter_nth k2 name2 off2 n2 Hk2) as (_&_&Hl2&_).
    assert (Hlk2 : exists o2, l !! k2 = Some (n2, o2)).
    { rewrite <- El, list_lookup_fmap in Hl2. destruct (l !! k2) as [[n' o2]|]; [|done]. injection Hl2 as ->. by exists o2. }
    destruct Hlk2 as [o2 Hlk2]. exists (shown_value o2). split; [by eapply shell_get|]. eapply shell_get; try done. rewrite Hput, list_lookup_insert_ne; done.
Qed.
End Shell.
Lemma amt_set_then_get_witness :
  exists h', amt_nv_set [[]; nv_argument "MAC"; str "12:34:56:78:90:AB" ++ 0 :: [0]] (located_boot, blank_boot) = Done 0 (located_boot, h') /\ live h' = live blank_boot /\
    amt_nv_get [[]; nv_argument "MAC"] (located_boot, h') = Done (0, Some (str "12:34:56:78:90:AB")) (located_boot, h') /\
    forall k' name' off' n', k' <> 1%nat -> parameters !! k' = Some (name', off', n') ->
      exists a, amt_nv_get [[]; nv_argument name'] (located_boot, blank_boot) = Done a (located_boot, blank_boot) /\ amt_nv_get [[]; nv_argument name'] (located_boot, h') = Done a (located_boot, h').
Proof.
  apply (amt_set_then_get [] 0xFF000 (unset_all layout) 1 "MAC" 72 18 (str "12:34:56:78:90:AB") [0] located_boot blank_boot); try done.
  - apply store_boot.
  - by apply (bool_decide_unpack _).
  - by apply (bool_decide_unpack _).
Defined.

(** ** A partition table that puts the parameters where the backup goes *)
Section Overlap.
Context {C : Type} `{NorChipLaws C, !NorReliable C} `{AmtPartition}.
Implicit Types (s : amt) (h : hw C).
Lemma gc_store_overlap b s h : is_bytes b -> len b = 2047 ->
  exists c', gc_store AMT_NV_BACKUP_BASE b (s, h) = Done tt (s, set_chip c' h) /\ blank c' AMT_NV_BACKUP_BASE 4096.
Proof.
  intros Hby Hl. unfold gc_store.
  destruct (nv_write_run AMT_NV_BACKUP_BEGIN [0] s h ltac:(done) ltac:(done) ltac:(by repeat constructor)) as (c1&E1&_). rewrite (bind_done _ _ _ _ _ E1).
  destruct (nv_write_run AMT_NV_BACKUP_ADDR b s (set_chip c1 h) ltac:(done) ltac:(unfold AMT_NV_BACKUP_ADDR, AMT_NV_BACKUP_BASE; lia) Hby) as (c2&E2&_). rewrite (bind_done _ _ _ _ _ E2).
  destruct (nv_write_run AMT_NV_BACKUP_COMP [0] s (set_chip c2 (set_chip c1 h)) ltac:(done) ltac:(done) ltac:(by repeat constructor)) as (c3&E3&_). rewrite (bind_done _ _ _ _ _ E3).
  destruct (nv_erase_run AMT_NV_BACKUP_BASE s (set_chip c3 (set_chip c2 (set_chip c1 h))) eq_refl) as (c4&E4&_). change AMT_PARTION_SIZE with 4096. rewrite (bind_done _ _ _ _ _ E4).
  destruct (nv_write_run AMT_NV_BACKUP_BASE b s (set_chip c4 h) ltac:(done) ltac:(unfold AMT_NV_BACKUP_BASE; lia) Hby) as (c5&E5&_). rewrite (bind_done _ _ _ _ _ E5).
  destruct (nv_erase_run AMT_NV_BACKUP_BASE s (set_chip c5 h) eq_refl) as (c6&E6&He6). exists c6. split; [exact E6|].
  intros x Hx. rewrite (He6 x). by rewrite bool_decide_eq_true_2 by lia.
Qed.
(** C20: The backup sector is fixed, the sector of the parameters comes from the
    partition table.  If the table puts them in the same place, the first write
    that finds both blocks taken reports success and loses every parameter. *)
Theorem amt_overlap_loses l op w s h : located s -> amt_partion_base s = AMT_NV_BACKUP_BASE -> sector (chip h) AMT_NV_BACKUP_BASE l -> heap h = [] -> put_ok l.*1 op ->
  l !! op.1 = Some (len w, Some w) -> has (chip h) (AMT_NV_BACKUP_BASE + offset l.*1 op.1 + 2048) (record AMT_NV_STATE_USED w) ->
  exists h', nv_put AMT_NV_BACKUP_BASE l.*1 op (s, h) = Done 0 (s, h') /\
    forall k n o buf m, l !! k = Some (n, o) -> n <= m <= len buf ->
      amt_nv_read (AMT_NV_BACKUP_BASE + offset l.*1 k) (Some buf) m (s, h') = Done (DRV_ERROR, Some buf) (s, h').
Proof.
  intros Hs Eb Hsec Hh (n&Hk&Hby&Hl) Hw Hu. unfold nv_put. rewrite (list_lookup_total_correct _ _ _ Hk). rewrite list_lookup_fmap, Hw in Hk. injection Hk as <-.
  rewrite offset_total in *. pose proof (nth_split _ _ _ Hw) as El. pose proof Hsec as Hsec'. rewrite El in Hsec'. set (l1 := take op.1 l) in *. set (l2 := drop (S op.1) l) in *. set (n := len w) in *.
  destruct (parameter_address AMT_NV_BACKUP_BASE l1 n (Some w) l2 _ s Hsec' ltac:(done) ltac:(done) Eb) as (Hbad&Hfl&Hn&i&j&Hp).
  assert (Hij : i = 1 /\ j = 2).
  { inversion Hp as [|w' Hw' Hh' Hbl|]; simplify_eq; [|done]. exfalso. specialize (Hbl (AMT_NV_BACKUP_BASE + total l1 + 2048)).
    specialize (Hu 0%nat 0x56 eq_refl). rewrite Z.add_0_r in Hu. rewrite Hu in Hbl. by specialize (Hbl ltac:(lia)). }
  destruct Hij as [-> ->]. set (v := slice op.2 0 n). assert (Hv : value_ok n v) by (split; [apply len_slice; lia|by apply Forall_take, Forall_drop]).
  pose proof Hsec' as (He&_&Ht). pose proof (sound_update l1 n (Some w) v l2 (entries_sound _ _ _ He) Hv) as Hsd.
  assert (Ht' : total (l1 ++ (n, Some v) :: l2) <= 2044) by (by rewrite total_app in *).
  destruct (new_sector_bytes (chip h) AMT_NV_BACKUP_BASE _ Hsd Ht') as [Hnb Hnl].
  destruct (gc_store_overlap (new_sector (chip h) AMT_NV_BACKUP_BASE (l1 ++ (n, Some v) :: l2)) s (set_heap [] (live h + 1) h) Hnb Hnl) as (c'&E&Hblank).
  exists (set_chip c' h). split.
  - apply (write_shape _ n (Some w) 1 2); try done. unfold place_value. change (2 =? AMT_NV_BLOCK_NUM) with true. cbn iota zeta. fold v.
    by rewrite (gc_prefix AMT_NV_BACKUP_BASE l1 n w v l2) by done.
  - intros k n2 o buf m Hk Hm. rewrite offset_total. pose proof (nth_split _ _ _ Hk) as El2. clear -Hs Eb Hsec Hblank El2 Hm. rewrite El2 in Hsec.
    destruct (parameter_address AMT_NV_BACKUP_BASE _ n2 o _ _ s Hsec ltac:(done) ltac:(done) Eb) as (Hbad&Hfl&Hn&_).
    destruct Hsec as (He&_&Ht). apply entries_sound in He. apply Forall_app in He as [Hs1 Hs2]. apply Forall_cons in Hs2 as [_ Hs2].
    pose proof (sound_total _ Hs1). pose proof (sound_total _ Hs2). rewrite total_app in Ht. cbn [total foldr fst] in Ht. fold (total (drop (S k) l)) in Ht. pose proof (room_bounds n2 Hn) as [? _].
    apply (read_run _ n2 None buf m s (set_chip c' h)); try done. apply NoValue; apply (blank_sub _ _ _ _ _ Hblank); lia.
Qed.
End Overlap.
(** Two serial numbers where the backup goes, as a table with [nv_amt] at 0xFE000
    has them. *)
Definition two_serials_chip : ideal := fun x =>
  if bool_decide (AMT_NV_BACKUP_BASE <= x < AMT_NV_BACKUP_BASE + 70) then record AMT_NV_STATE_DELE (replicate 64 49) !!! Z.to_nat (x - AMT_NV_BACKUP_BASE)
  else if bool_decide (AMT_NV_BACKUP_BASE + 2048 <= x < AMT_NV_BACKUP_BASE + 2118) then record AMT_NV_STATE_USED (replicate 64 50) !!! Z.to_nat (x - AMT_NV_BACKUP_BASE - 2048)
  else 255.
Definition two_serials_table : list (Z * option bytes) := (64, Some (replicate 64 50)) :: unset_all (drop 1 layout).
Lemma two_serials_first : has two_serials_chip AMT_NV_BACKUP_BASE (record AMT_NV_STATE_DELE (replicate 64 49)).
Proof.
  intros i v Hi. assert (Hl : (i < 70)%nat) by (by apply lookup_lt_Some in Hi). change (nor_read two_serials_chip ?y) with (u8 (two_serials_chip y)). unfold two_serials_chip.
  rewrite bool_decide_eq_true_2 by lia. replace (Z.to_nat _) with i by lia.
  rewrite (list_lookup_total_correct _ _ _ Hi). apply u8_small. revert Hi. apply Forall_lookup_1. apply (record_bytes _ 64). split; [done|by apply (bool_decide_unpack _)].
Qed.
Lemma two_serials_second : has two_serials_chip (AMT_NV_BACKUP_BASE + 2048) (record AMT_NV_STATE_USED (replicate 64 50)).
Proof.
  intros i v Hi. assert (Hl : (i < 70)%nat) by (by apply lookup_lt_Some in Hi). change (nor_read two_serials_chip ?y) with (u8 (two_serials_chip y)). unfold two_serials_chip.
  rewrite bool_decide_eq_false_2, bool_decide_eq_true_2 by lia. replace (Z.to_nat _) with i by lia.
  rewrite (list_lookup_total_correct _ _ _ Hi). apply u8_small. revert Hi. apply Forall_lookup_1. apply (record_bytes _ 64). split; [done|by apply (bool_decide_unpack _)].
Qed.
Lemma two_serials_blank a n : AMT_NV_BACKUP_BASE + 70 <= a /\ a + n <= AMT_NV_BACKUP_BASE + 2048 \/ AMT_NV_BACKUP_BASE + 2118 <= a -> blank two_serials_chip a n.
Proof. intros Ha x Hx. change (nor_read two_serials_chip ?y) with (u8 (two_serials_chip y)). unfold two_serials_chip. rewrite !bool_decide_eq_false_2 by lia. done. Qed.
Lemma amt_overlap_loses_witness :
  exists h', nv_put AMT_NV_BACKUP_BASE layout (0%nat, replicate 64 51) (mkAmt AMT_NV_BACKUP_BASE 1, set_chip two_serials_chip boot) = Done 0 (mkAmt AMT_NV_BACKUP_BASE 1, h') /\
    forall k n o buf m, two_serials_table !! k = Some (n, o) -> n <= m <= len buf ->
      amt_nv_read (AMT_NV_BACKUP_BASE + offset layout k) (Some buf) m (mkAmt AMT_NV_BACKUP_BASE 1, h') = Done (DRV_ERROR, Some buf) (mkAmt AMT_NV_BACKUP_BASE 1, h').
Proof.
  assert (El : two_serials_table.*1 = layout) by reflexivity. rewrite <- El.
  apply (amt_overlap_loses two_serials_table (0%nat, replicate 64 51) (replicate 64 50)); [done|done| |done| |reflexivity|exact two_serials_second].
  - change (total two_serials_table) with 528. split_and!; [split; [split; [done|]|]| |done].
    + exists 1, 2. apply (Second _ _ _ (replicate 64 49)); [| |exact two_serials_first|exact two_serials_second]; (split; [done|by apply (bool_decide_unpack _)]).
    + apply entries_erased; [by apply (bool_decide_unpack _)|apply two_serials_blank..]; [left|right]; done.
    + apply two_serials_blank. left. change (total two_serials_table) with 528. done.
  - exists 64. rewrite El. split; [done|]. split; [by apply (bool_decide_unpack _)|done].
Defined.
