(* ===== verification/AmtNvCut.v ===== *)
(** * Power failure while a parameter is written

    The parameter store on a chip whose power fails after a given number of page
    programs and sector erases, as in [PowerCut].  The module offers a recovery
    routine, [amt_nv_init], to be called at a start; if it is, a parameter that
    has a value keeps the old one or gets the new one and the others keep
    theirs, also when power fails again and again in the routine itself.  No
    source of this firmware calls it: [unrecovered_loses] is a cut after which
    a value can no longer be read without it. *)

From stdpp Require Import base numbers list strings.
From S2P Require Import Prelude Platform SpiFlash CommonFunc CJson Cloud UserData AppMain UserDataProofs PowerCut AmtNv AmtNvProofs.

(** ** A table that can be read *)
Section Legible.
Context {C : Type} `{NorChip C}.
Implicit Types (c : C) (a n : Z).
Fixpoint legibles c a (l : list (Z * option bytes)) : Prop :=
  match l with [] => True | p :: l => (0 <= p.1 < 256 /\ legible c a p.1 p.2) /\ legibles c (a + nv_room p.1) l end.
Lemma legibles_app c a l1 l2 : legibles c a (l1 ++ l2) <-> legibles c a l1 /\ legibles c (a + total l1) l2.
Proof.
  revert a. induction l1 as [|p l1 IH]; intros a; cbn [Datatypes.app legibles total foldr]; [rewrite Z.add_0_r; tauto|].
  rewrite IH. fold (total l1). rewrite Z.add_assoc. tauto.
Qed.
Lemma entries_legibles c a l : nv_entries c a l -> legibles c a l.
Proof.
  revert a. induction l as [|p l IH]; intros a Hl; [done|]. destruct Hl as [[Hn (i&j&Hp)] Hl]. split; [|by apply IH]. split; [done|]. by eapply place_legible.
Qed.
Lemma legible_agree c c' a n o : 0 <= n < 256 -> agree c c' a (nv_room n) -> agree c c' (a + 2048) (6 + n) -> legible c a n o -> legible c' a n o.
Proof.
  intros Hn Hg1 Hg2 Hp. pose proof (room_bounds n Hn) as [? _]. destruct Hp as [Hb1 Hb2|v Hv Hh|w v Hw Hv Hh1 Hh2].
  - apply NoValue; [by eapply blank_agree|by eapply blank_agree].
  - pose proof Hv as [Hl _]. apply InFirst; [done|]. eapply has_agree; [done| |done]. rewrite len_record. lia.
  - pose proof Hv as [Hl _]. pose proof Hw as [Hlw _].
    apply (InSecond _ _ _ w); [done|done|eapply has_agree; [exact Hg1| |done]|eapply has_agree; [exact Hg2| |done]]; rewrite len_record; lia.
Qed.
Lemma legibles_agree c c' a l : Forall nv_sound l -> agree c c' a (total l) -> agree c c' (a + 2048) (total l) -> legibles c a l -> legibles c' a l.
Proof.
  intros Hs. revert a. induction Hs as [|p l [Hp _] Hs IH]; intros a Hg1 Hg2 Hl; [done|]. cbn [legibles total foldr] in *. fold (total l) in *.
  destruct Hl as [[_ Hpl] Hl]. pose proof (room_bounds p.1 Hp) as [? _]. pose proof (sound_total _ Hs). split.
  - split; [done|]. eapply legible_agree; [done|apply (agree_sub _ _ _ _ _ _ Hg1); lia|apply (agree_sub _ _ _ _ _ _ Hg2); lia|done].
  - apply IH; [apply (agree_sub _ _ _ _ _ _ Hg1); lia|apply (agree_sub _ _ _ _ _ _ Hg2); lia|done].
Qed.
End Legible.

(** ** What the recovery at start finds *)
Definition nv_mark : bytes := [0; 255; 255; 255].
Section Survive.
Context {C : Type} `{NorChipLaws C}.
Implicit Types (c : C) (a n : Z).
(** The sector can be read and the backup is not complete; or the backup is
    complete, whatever is in the sector. *)
Definition settled c base l : Prop := legibles c base l /\ blank c AMT_NV_BACKUP_COMP 4.
Definition saved c base l : Prop :=
  has c AMT_NV_BACKUP_BEGIN nv_mark /\ has c AMT_NV_BACKUP_COMP nv_mark /\ exists c0 : C, has c AMT_NV_BACKUP_ADDR (new_sector c0 base l).
Definition survives c base l : Prop := settled c base l \/ saved c base l.
Definition table_ok (l : list (Z * option bytes)) : Prop := Forall nv_sound l /\ total l <= 2044.
Lemma store_table c base l : store c base l -> table_ok l /\ settled c base l.
Proof.
  intros [He _ Hk Ht]. split; [split; [by eapply entries_sound|done]|]. split; [by apply entries_legibles|].
  apply (blank_sub _ _ _ _ _ Hk); unfold AMT_NV_BACKUP_COMP; lia.
Qed.
Lemma saved_agree c c' base l : table_ok l -> agree c c' AMT_NV_BACKUP_BASE 4096 -> saved c base l -> saved c' base l.
Proof.
  intros [Hs Ht] Hg (H1&H2&c0&H3). destruct (new_sector_bytes c0 base l Hs Ht) as [_ Hl].
  unfold AMT_NV_BACKUP_BEGIN, AMT_NV_BACKUP_COMP, AMT_NV_BACKUP_ADDR, AMT_NV_BACKUP_BASE in *. split_and!; [| |exists c0].
  - apply (has_agree c _ _ _ 4); [|done|done]. apply (agree_sub _ _ _ _ _ _ Hg); unfold AMT_NV_BACKUP_BEGIN, AMT_NV_BACKUP_BASE; lia.
  - apply (has_agree c _ _ _ 4); [|done|done]. apply (agree_sub _ _ _ _ _ _ Hg); unfold AMT_NV_BACKUP_COMP, AMT_NV_BACKUP_BASE; lia.
  - apply (has_agree c _ _ _ 2047); [|lia|done]. apply (agree_sub _ _ _ _ _ _ Hg); unfold AMT_NV_BACKUP_ADDR, AMT_NV_BACKUP_BASE; lia.
Qed.
Lemma settled_agree c c' base l : table_ok l -> agree c c' base 4096 -> blank c' AMT_NV_BACKUP_COMP 4 -> settled c base l -> settled c' base l.
Proof.
  intros [Hs Ht] Hg Hb [Hl _]. pose proof (sound_total l Hs). split; [|done].
  apply (legibles_agree c); [done|apply (agree_sub _ _ _ _ _ _ Hg); lia|apply (agree_sub _ _ _ _ _ _ Hg); lia|done].
Qed.
End Survive.

(** ** The recovery, on any chip *)
Section Recovery.
Context {C : Type} `{NorChip C} `{AmtPartition}.
Implicit Types (c : C) (s : amt) (h : hw C).
Definition nv_started : amt := mkAmt (default 0xFF000 amt_partition) 1.
Lemma find_start h : find_partition (amt_boot, h) = Done tt (nv_started, h).
Proof. done. Qed.
Lemma init_saved base b h : amt_partion_base nv_started = base -> has (chip h) AMT_NV_BACKUP_BEGIN nv_mark -> has (chip h) AMT_NV_BACKUP_COMP nv_mark ->
  has (chip h) AMT_NV_BACKUP_ADDR b -> len b = 2047 ->
  amt_nv_init (amt_boot, h) = (nv_erase base AMT_PARTION_SIZE ;; nv_write base b ;; nv_erase AMT_NV_BACKUP_BASE AMT_PARTION_SIZE) (nv_started, h).
Proof.
  intros Eb H1 H2 H3 Hl. unfold amt_nv_init. rewrite (bind_done _ _ _ _ _ (find_start h)). erewrite bind_done by reflexivity. cbn [fst]. rewrite Eb.
  rewrite (bind_done _ _ _ _ _ (nv_read_has AMT_NV_BACKUP_BEGIN nv_mark 4 nv_started h H1 eq_refl ltac:(done) ltac:(done))).
  rewrite (bind_done _ _ _ _ _ (nv_read_has AMT_NV_BACKUP_COMP nv_mark 4 nv_started h H2 eq_refl ltac:(done) ltac:(done))).
  change (get32 nv_mark) with 0xFFFFFF00. cbn [Z.eqb Pos.eqb andb].
  by rewrite (bind_done _ _ _ _ _ (nv_read_has AMT_NV_BACKUP_ADDR b AMT_NV_SIZE nv_started h H3 ltac:(by rewrite Hl) ltac:(done) ltac:(done))).
Qed.
Lemma init_settled h : blank (chip h) AMT_NV_BACKUP_COMP 4 ->
  amt_nv_init (amt_boot, h) = Done tt (nv_started, h) \/ amt_nv_init (amt_boot, h) = nv_erase AMT_NV_BACKUP_BASE AMT_PARTION_SIZE (nv_started, h).
Proof.
  intros Hb%(has_blank _ _ 4). unfold amt_nv_init. rewrite (bind_done _ _ _ _ _ (find_start h)). erewrite bind_done by reflexivity.
  rewrite (bind_done _ _ _ _ _ (nv_read_run AMT_NV_BACKUP_BEGIN 4 nv_started h ltac:(done) ltac:(done) ltac:(done))).
  rewrite (bind_done _ _ _ _ _ (nv_read_has AMT_NV_BACKUP_COMP _ 4 nv_started h Hb eq_refl ltac:(done) ltac:(done))).
  change (get32 (replicate (Z.to_nat 4) 255)) with 0xFFFFFFFF. cbn [Z.eqb Pos.eqb andb]. destruct (_ =? _); [by left|by right].
Qed.
End Recovery.

(** ** Losing power *)
Section Cut.
Context {C : Type} `{NorChipLaws C} `{AmtPartition}.
Implicit Types (c : C) (a n : Z) (s : amt) (h : hw (cutting C)) (m : nat).
(** A write programs whole pages: all of them, or power is gone. *)
Definition cut_written c m c' m' a (b : bytes) (k : Z) : Prop :=
  0 <= k <= len b /\ programmed c c' a (take (Z.to_nat k) b) /\ (k = len b \/ m' = 0%nat /\ (k = 0 \/ (a + k) mod 256 = 0)) /\
  (m = 0%nat -> k = 0 /\ c' = c /\ m' = 0%nat).
Lemma cut_nv_write c m a b s h : chip h = mkCut c m -> 0 <= a -> a + len b < 4294967296 -> is_bytes b -> 0 < len b ->
  exists k c' m', nv_write a b (s, h) = Done tt (s, set_chip (mkCut c' m') h) /\ cut_written c m c' m' a b k.
Proof.
  intros Hc Ha Hl Hb Hpos. unfold nv_write, upd_hw. rewrite Hc. unfold hal_spifiash_write, SPIFLASH_PAGE_SIZE. destruct (Z.eqb_spec (len b) 0); [lia|].
  pose proof (Z.mod_pos_bound a 256 ltac:(lia)) as Hm.
  destruct (cut_pages (List.length b) c m a b (if 256 - a mod 256 <? len b then 256 - a mod 256 else len b)) as (k&c'&m'&->&Hk&Hp&Hend&H0'); try done.
  1-3: destruct (Z.ltb_spec (256 - a mod 256) (len b)); try lia.
  - intros _. pose proof (Z_div_mod_eq_full a 256) as E. replace (a + (256 - a mod 256)) with ((a / 256 + 1) * 256) by lia. apply Z_mod_mult.
  - exists k, c', m'. split; [done|]. split; [done|]. split; [done|]. split; [done|]. intros ->. destruct (H0' eq_refl) as [-> ->]. split_and!; try done.
    destruct Hend as [?|[? _]]; [lia|done].
Qed.
Definition cut_erased c m c' m' a : Prop := (erased c c' a 4096 \/ c' = c /\ m' = 0%nat) /\ (m = 0%nat -> c' = c /\ m' = 0%nat).
Lemma cut_nv_erase c m a s h : chip h = mkCut c m -> a mod 4096 = 0 ->
  exists c' m', nv_erase a AMT_PARTION_SIZE (s, h) = Done tt (s, set_chip (mkCut c' m') h) /\ cut_erased c m c' m' a.
Proof.
  intros Hc Ha. unfold nv_erase, upd_hw. rewrite Hc. unfold hal_spiflash_erase, SPIFLASH_SECTOR_SIZE. rewrite Ha.
  change (Z.to_nat (AMT_PARTION_SIZE / 4096)) with 1%nat. destruct m as [|m].
  - exists c, 0%nat. split; [done|]. split; [by right|done].
  - exists (nor_erase c a), m. split; [done|]. split; [|done]. left. intros x. by apply nor_erase_spec.
Qed.
Lemma agree_refl c a n : agree c c a n.
Proof. done. Qed.
Lemma agree_trans c c1 c2 a n : agree c c1 a n -> agree c1 c2 a n -> agree c c2 a n.
Proof. intros Hc1 Hc2 x Hx. by rewrite Hc2, Hc1. Qed.
Lemma written_agree c m c' m' a b k x n : cut_written c m c' m' a b k -> x + n <= a \/ a + len b <= x -> agree c c' x n.
Proof. intros (Hk&Hp&_) Hx. apply (agree_programmed _ _ _ _ _ _ Hp). rewrite len_take; lia. Qed.
Lemma erased_agree c m c' m' a x n : cut_erased c m c' m' a -> x + n <= a \/ a + 4096 <= x -> agree c c' x n.
Proof. intros [[He|[-> _]] _] Hx; [by apply (agree_erased _ _ _ _ _ _ He)|apply agree_refl]. Qed.
Lemma written_full c m c' m' a b k : cut_written c m c' m' a b k -> k = len b -> programmed c c' a b.
Proof. intros (_&Hp&_) ->. by rewrite take_ge in Hp by (unfold len; lia). Qed.
Lemma set_chip_set c c' h m m' : set_chip (mkCut c m) (set_chip (mkCut c' m') h) = set_chip (mkCut c m) h.
Proof. done. Qed.

(** The end of a collection or a recovery, cut. *)
Lemma rewrite_cut c m base l c0 s h : sector_at base -> table_ok l -> chip h = mkCut c m -> saved c base l ->
  exists c' m', (nv_erase base AMT_PARTION_SIZE ;; nv_write base (new_sector c0 base l) ;; nv_erase AMT_NV_BACKUP_BASE AMT_PARTION_SIZE) (s, h)
    = Done tt (s, set_chip (mkCut c' m') h) /\ survives c' base l.
Proof.
  intros Hb Htab Hc Hsv. pose proof (sector_apart base Hb) as Hap. pose proof Hb as (Hm&Hb0&Hb1&_). pose proof Htab as [Hsd Ht].
  destruct (new_sector_bytes c0 base l Hsd Ht) as [Hby Hl]. set (b := new_sector c0 base l) in *.
  destruct (cut_nv_erase c m base s h Hc Hm) as (c1&m1&E1&He1). rewrite (bind_done _ _ _ _ _ E1).
  destruct (cut_nv_write c1 m1 base b s (set_chip (mkCut c1 m1) h) eq_refl Hb0 ltac:(lia) Hby ltac:(lia)) as (k&c2&m2&E2&Hw2). rewrite (bind_done _ _ _ _ _ E2).
  destruct (cut_nv_erase c2 m2 AMT_NV_BACKUP_BASE s (set_chip (mkCut c2 m2) (set_chip (mkCut c1 m1) h)) eq_refl eq_refl) as (c3&m3&E3&He3).
  exists c3, m3. split; [by rewrite E3|]. assert (Hsv2 : saved c2 base l).
  { apply (saved_agree c); [done| |done]. apply (agree_trans c c1); [apply (erased_agree _ _ _ _ _ _ _ He1); lia|apply (written_agree _ _ _ _ _ _ _ _ _ Hw2); lia]. }
  destruct He3 as [[He3|[-> _]] H30]; [|by right]. destruct (decide (m2 = 0%nat)) as [->|Hm2]; [destruct (H30 eq_refl) as [-> _]; by right|]. left.
  assert (Hm1 : m1 <> 0%nat) by (intros ->; destruct Hw2 as (_&_&_&Hw0); destruct (Hw0 eq_refl) as (_&_&?); done).
  destruct He1 as [[He1|[_ ?]] _]; [|done]. assert (Hk : k = len b) by (destruct Hw2 as (_&_&[?|[? _]]&_); done). pose proof (written_full _ _ _ _ _ _ _ Hw2 Hk) as Hp2.
  apply (store_table c3), (store_new_sector c0); [done|done|]. fold b. unfold AMT_NV_BACKUP_BASE in *. split_and!.
  - apply (has_agree c2 _ _ _ (len b)); [apply (agree_erased _ _ _ _ _ _ He3); lia|done|]. apply (has_programmed c1); [done| |done].
    intros x Hx. rewrite (He1 x). by rewrite bool_decide_eq_true_2 by lia.
  - intros x Hx. rewrite (He3 x), bool_decide_eq_false_2, (Hp2 x), bool_decide_eq_false_2, (He1 x), bool_decide_eq_true_2 by lia. done.
  - intros x Hx. rewrite (He3 x). by rewrite bool_decide_eq_true_2 by (unfold AMT_NV_BACKUP_BASE in Hx; lia).
Qed.
(** A start that is cut. *)
Lemma init_cut c m base l h : amt_partion_base nv_started = base -> sector_at base -> table_ok l -> chip h = mkCut c m -> survives c base l ->
  exists c' m', amt_nv_init (amt_boot, h) = Done tt (nv_started, set_chip (mkCut c' m') h) /\ survives c' base l.
Proof.
  intros Eb Hb Htab Hc [Hst|Hsv].
  - destruct (init_settled h) as [E|E]; [rewrite Hc; apply Hst| |].
    + exists c, m. split; [rewrite E, <- Hc; by destruct h|by left].
    + rewrite E. destruct (cut_nv_erase c m AMT_NV_BACKUP_BASE nv_started h Hc eq_refl) as (c'&m'&E'&He). exists c', m'. split; [done|]. left.
      apply (settled_agree c); [done|apply (erased_agree _ _ _ _ _ _ _ He); pose proof (sector_apart base Hb); lia| |done].
      destruct He as [[He|[-> _]] _]; [|apply Hst]. intros x Hx. rewrite (He x). by rewrite bool_decide_eq_true_2 by (unfold AMT_NV_BACKUP_COMP in Hx; lia).
  - pose proof Hsv as (H1'&H2'&c0&H3'). destruct Htab as [Hs Ht]. destruct (new_sector_bytes c0 base l Hs Ht) as [_ Hl].
    rewrite (init_saved base (new_sector c0 base l)) by (done || by rewrite Hc). by apply (rewrite_cut c m).
Qed.
End Cut.

(** ** Writing, cut *)
Section CutWrite.
Context {C : Type} `{NorChipLaws C} `{AmtPartition}.
Implicit Types (c : C) (a n : Z) (s : amt) (h : hw (cutting C)) (m : nat).
Lemma place_cut c m a n o i j : place c a n o i j -> place (mkCut c m) a n o i j.
Proof. intros [Hb1 Hb2|v Hv Hh Hb|w v Hw Hv Hh1 Hh2]; [by apply Unset|by apply First|by apply (Second _ _ _ w)]. Qed.
Lemma entries_cut c m a l : nv_entries c a l -> nv_entries (mkCut c m) a l.
Proof.
  revert a. induction l as [|p l IH]; intros a Hl; [done|]. destruct Hl as [[Hn (i&j&Hp)] Hl]. split; [|by apply IH]. split; [done|]. exists i, j. by apply place_cut.
Qed.
Lemma store_cut c m base l : store c base l -> store (mkCut c m) base l.
Proof. intros [He Hr Hk Ht]. split; [by apply entries_cut|done|done|done]. Qed.
Lemma image_cut c m a l : image (mkCut c m) a l = image c a l.
Proof. revert a. induction l as [|p l IH]; intros a; [done|]. cbn [image]. by rewrite IH. Qed.
(** A short write that stays in its page happens or does not. *)
Lemma short_write c m c' m' a b k : cut_written c m c' m' a b k -> 0 < len b -> a mod 256 + len b <= 256 -> 0 <= a ->
  programmed c c' a b \/ programmed c c' a [] /\ m' = 0%nat.
Proof.
  intros Hw Hl Hpg Ha. pose proof Hw as ([Hk1 Hk2]&Hp&Hend&_). destruct (decide (k = len b)) as [Hk|Hk]; [left; by eapply written_full|]. destruct Hend as [?|[-> Hk0]]; [done|].
  destruct (decide (k = 0)) as [->|Hnz]; [right; by split|]. destruct Hk0 as [?|Hm]; [done|]. exfalso.
  pose proof (Z_div_mod_eq_full a 256). pose proof (Z_div_mod_eq_full (a + k) 256). pose proof (Z.mod_pos_bound a 256). lia.
Qed.
Lemma programmed_nil_agree c c' a x n : programmed c c' a [] -> agree c c' x n.
Proof. intros Hp y _. rewrite (Hp y). by rewrite bool_decide_eq_false_2 by (unfold len; cbn; lia). Qed.

(** Without power nothing changes any more. *)
Lemma rewrite_dead c base b s h : base mod 4096 = 0 -> 0 <= base -> base + len b < 4294967296 -> is_bytes b -> 0 < len b -> chip h = mkCut c 0 ->
  (nv_erase base AMT_PARTION_SIZE ;; nv_write base b ;; nv_erase AMT_NV_BACKUP_BASE AMT_PARTION_SIZE) (s, h) = Done tt (s, h).
Proof.
  intros Hm Hb0 Hl Hby Hpos Hc. destruct (cut_nv_erase c 0 base s h Hc Hm) as (c1&m1&E1&_&He1). destruct (He1 eq_refl) as [-> ->].
  assert (Eh : set_chip (mkCut c 0) h = h) by (rewrite <- Hc; by destruct h). rewrite Eh in E1. rewrite (bind_done _ _ _ _ _ E1).
  destruct (cut_nv_write c 0 base b s h Hc Hb0 Hl Hby Hpos) as (k&c2&m2&E2&_&_&_&He2). destruct (He2 eq_refl) as (_&->&->). rewrite Eh in E2. rewrite (bind_done _ _ _ _ _ E2).
  destruct (cut_nv_erase c 0 AMT_NV_BACKUP_BASE s h Hc eq_refl) as (c3&m3&E3&_&He3). destruct (He3 eq_refl) as [-> ->]. by rewrite E3, Eh.
Qed.
(** A mark is the first byte of a word that was blank. *)
Lemma has_mark c c' a : programmed c c' a [0] -> blank c a 4 -> has c' a nv_mark.
Proof.
  intros Hp Hb i v Hi. rewrite (Hp _). change (len [0]) with 1. destruct i as [|i].
  - injection Hi as <-. rewrite bool_decide_eq_true_2 by lia. replace (Z.to_nat (a + Z.of_nat 0 - a)) with 0%nat by lia. apply Z.land_0_r.
  - rewrite bool_decide_eq_false_2 by lia. assert (Hlt : (S i < 4)%nat) by (by apply lookup_lt_Some in Hi). rewrite Hb by lia.
    destruct i as [|[|[|i]]]; [by injection Hi..|lia].
Qed.
(** The collection, cut. *)
Lemma gc_store_cut c m base l l' s h : sector_at base -> store c base l -> table_ok l' -> chip h = mkCut c m ->
  exists c' m', gc_store base (new_sector c base l') (s, h) = Done tt (s, set_chip (mkCut c' m') h) /\ (settled c' base l \/ survives c' base l').
Proof.
  intros Hb Hst Htab Hc. pose proof (sector_apart base Hb) as Hap. destruct (store_table _ _ _ Hst) as [Htl Hset]. pose proof Htab as [Hsd Ht].
  destruct (new_sector_bytes c base l' Hsd Ht) as [Hby Hl]. set (b := new_sector c base l') in *. destruct Hst as [_ _ Hbk _]. unfold gc_store.
  destruct (cut_nv_write c m AMT_NV_BACKUP_BEGIN [0] s h Hc ltac:(done) ltac:(done) ltac:(by repeat constructor) ltac:(done)) as (k1&c1&m1&E1&Hw1). rewrite (bind_done _ _ _ _ _ E1).
  destruct (cut_nv_write c1 m1 AMT_NV_BACKUP_ADDR b s (set_chip (mkCut c1 m1) h) eq_refl ltac:(done) ltac:(unfold AMT_NV_BACKUP_ADDR, AMT_NV_BACKUP_BASE; lia) Hby ltac:(lia))
    as (k2&c2&m2&E2&Hw2). rewrite (bind_done _ _ _ _ _ E2), set_chip_set.
  destruct (cut_nv_write c2 m2 AMT_NV_BACKUP_COMP [0] s (set_chip (mkCut c2 m2) h) eq_refl ltac:(done) ltac:(done) ltac:(by repeat constructor) ltac:(done)) as (k3&c3&m3&E3&Hw3).
  rewrite (bind_done _ _ _ _ _ E3), set_chip_set.
  assert (Hmain : agree c c3 base 4096).
  { unfold AMT_NV_BACKUP_BEGIN, AMT_NV_BACKUP_ADDR, AMT_NV_BACKUP_COMP, AMT_NV_BACKUP_BASE in *. change (len [0]) with 1 in *.
    apply (agree_trans c c1); [apply (written_agree _ _ _ _ _ _ _ _ _ Hw1); change (len [0]) with 1; lia|].
    apply (agree_trans c1 c2); [apply (written_agree _ _ _ _ _ _ _ _ _ Hw2); lia|apply (written_agree _ _ _ _ _ _ _ _ _ Hw3); change (len [0]) with 1; lia]. }
  assert (Hword : blank c2 AMT_NV_BACKUP_COMP 4).
  { apply (blank_agree c _ _ 4); [|done|apply (blank_sub _ _ _ _ _ Hbk); unfold AMT_NV_BACKUP_COMP; lia].
    apply (agree_trans c c1); [apply (written_agree _ _ _ _ _ _ _ _ _ Hw1); unfold AMT_NV_BACKUP_COMP, AMT_NV_BACKUP_BEGIN; change (len [0]) with 1; lia|].
    apply (written_agree _ _ _ _ _ _ _ _ _ Hw2); unfold AMT_NV_BACKUP_COMP, AMT_NV_BACKUP_ADDR; lia. }
  destruct Hb as (Hm&Hb0&Hb1&Hne). assert (Hdead : agree c2 c3 AMT_NV_BACKUP_COMP 4 -> m3 = 0%nat ->
    exists c' m', (nv_erase base AMT_PARTION_SIZE ;; nv_write base b ;; nv_erase AMT_NV_BACKUP_BASE AMT_PARTION_SIZE) (s, set_chip (mkCut c3 m3) h)
      = Done tt (s, set_chip (mkCut c' m') h) /\ (settled c' base l \/ survives c' base l')).
  { intros Hg ->. exists c3, 0%nat. split; [by apply (rewrite_dead c3); try done; lia|]. left. apply (settled_agree c); try done. by apply (blank_agree c2 _ _ 4). }
  destruct (decide (m2 = 0%nat)) as [->|Hm2]; [destruct Hw3 as (_&_&_&Hw0); destruct (Hw0 eq_refl) as (_&->&?); by apply Hdead|].
  destruct (short_write _ _ _ _ _ _ _ Hw3) as [Hp3|[Hp3 ?]]; [done|done|done| |by apply Hdead; [eapply programmed_nil_agree|]].
  assert (Hm1 : m1 <> 0%nat) by (intros ->; destruct Hw2 as (_&_&_&Hw0); destruct (Hw0 eq_refl) as (_&_&?); done).
  destruct (short_write _ _ _ _ _ _ _ Hw1) as [Hp1|[_ ?]]; [done|done|done| |done].
  assert (Hk2 : k2 = len b) by (destruct Hw2 as (_&_&[?|[? _]]&_); done). pose proof (written_full _ _ _ _ _ _ _ Hw2 Hk2) as Hp2.
  destruct (rewrite_cut c3 m3 base l' c s (set_chip (mkCut c3 m3) h)) as (c4&m4&E4&Hsv); [done|done|done| |exists c4, m4; split; [exact E4|by right]].
  unfold AMT_NV_BACKUP_BEGIN, AMT_NV_BACKUP_ADDR, AMT_NV_BACKUP_COMP in *. split_and!; [| |exists c; fold b].
  - apply (has_agree c1 _ _ _ 4); [|done|]; [|apply (has_mark c); [done|apply (blank_sub _ _ _ _ _ Hbk); unfold AMT_NV_BACKUP_BEGIN; lia]].
    apply (agree_trans c1 c2); [apply (agree_programmed _ _ _ _ _ _ Hp2)|apply (agree_programmed _ _ _ _ _ _ Hp3)]; unfold AMT_NV_BACKUP_BEGIN; lia.
  - by apply (has_mark c2).
  - apply (has_agree c2 _ _ _ 2047); [apply (agree_programmed _ _ _ _ _ _ Hp3); change (len [0]) with 1; unfold AMT_NV_BACKUP_COMP, AMT_NV_BACKUP_ADDR; lia|lia|].
    apply (has_programmed c1); [done| |done]. apply (blank_agree c _ _ 2047); [|lia|apply (blank_sub _ _ _ _ _ Hbk); unfold AMT_NV_BACKUP_ADDR; lia].
    apply (agree_programmed _ _ _ _ _ _ Hp1). change (len [0]) with 1. unfold AMT_NV_BACKUP_BEGIN, AMT_NV_BACKUP_ADDR. lia.
Qed.
(** Writing to the free block, cut. *)
Lemma settled_update base l1 n o o' l2 c c' : let a := base + total l1 in sector_at base -> store c base (l1 ++ (n, o) :: l2) -> only_at a n c c' ->
  legible c' a n o' -> settled c' base (l1 ++ (n, o') :: l2).
Proof.
  intros a Hb Hst Ho Hv. destruct (store_table _ _ _ Hst) as [[Hs Ht] [Hl Hk]]. pose proof (sector_apart base Hb) as Hap.
  apply legibles_app in Hl as [Hl1 [[Hn _] Hl2]]. apply Forall_app in Hs as [Hs1 Hs2]. apply Forall_cons in Hs2 as [_ Hs2].
  cbn [fst] in *. pose proof (sound_total _ Hs1). pose proof (sound_total _ Hs2). pose proof (room_bounds n Hn) as [? _].
  rewrite total_app in Ht. cbn [total foldr fst] in Ht. fold (total l2) in Ht. split.
  - apply legibles_app. fold a. split; [|split; [done|cbn [fst]]]; (eapply legibles_agree; [done| | |done]; intros x Hx; apply Ho; lia).
  - unfold AMT_NV_BACKUP_BASE, AMT_NV_BACKUP_COMP in *. intros x Hx. unfold AMT_NV_BACKUP_BASE in Hx. rewrite Ho by lia. by apply Hk.
Qed.
Lemma free_block_cut base l1 n w v l2 c m s h : let a := base + total l1 in sector_at base -> store c base (l1 ++ (n, Some w) :: l2) -> value_ok n v ->
  value_ok n w -> has c a (record AMT_NV_STATE_USED w) -> blank c (a + 2048) (6 + n) -> chip h = mkCut c m -> 0 <= n < 256 -> 0 <= total l1 -> total l1 + nv_room n <= 2044 -> total l1 mod 4 = 0 ->
  exists c' m', (nv_write (a + 2048) (record AMT_NV_STATE_USED v) ;; nv_write (a + 2) (bytes16 AMT_NV_STATE_DELE)) (s, h) = Done tt (s, set_chip (mkCut c' m') h) /\
    (settled c' base (l1 ++ (n, Some w) :: l2) \/ settled c' base (l1 ++ (n, Some v) :: l2)).
Proof.
  intros a Hb Hst Hv Hw Hh Hbl Hc Hn Ht0 Ht Hm4. pose proof Hv as [Hlv _]. pose proof Hw as [Hlw _]. pose proof Hb as (Hm&Hb0&Hb1&_). pose proof (room_bounds n Hn) as [? _].
  pose proof (record_bytes AMT_NV_STATE_USED n v Hv) as Hrb. pose proof (len_record AMT_NV_STATE_USED v) as Hrl. pose proof (len_record AMT_NV_STATE_USED w) as Hrw.
  destruct (cut_nv_write c m (a + 2048) (record AMT_NV_STATE_USED v) s h Hc ltac:(lia) ltac:(lia) Hrb ltac:(lia)) as (k1&c1&m1&E1&Hw1). rewrite (bind_done _ _ _ _ _ E1).
  destruct (cut_nv_write c1 m1 (a + 2) (bytes16 AMT_NV_STATE_DELE) s (set_chip (mkCut c1 m1) h) eq_refl ltac:(lia) ltac:(change (len (bytes16 _)) with 2; lia) ltac:(repeat constructor; done) ltac:(done))
    as (k2&c2&m2&E2&Hw2). exists c2, m2. split; [by rewrite E2|].
  assert (Honly : only_at a n c c2).
  { intros x Hx. rewrite (agree_trans c c1 c2 x 1); [done| | |lia]; [apply (written_agree _ _ _ _ _ _ _ _ _ Hw1)|apply (written_agree _ _ _ _ _ _ _ _ _ Hw2); change (len (bytes16 _)) with 2]; lia. }
  assert (Hh1 : has c1 a (record AMT_NV_STATE_USED w)) by (apply (has_agree c _ _ _ (6 + n)); [apply (written_agree _ _ _ _ _ _ _ _ _ Hw1); lia|lia|done]).
  assert (Hpage : (a + 2) mod 256 + 2 <= 256).
  { unfold a. pose proof (Z_div_mod_eq_full base 4096). pose proof (Z_div_mod_eq_full (total l1) 4). pose proof (Z_div_mod_eq_full (base + total l1 + 2) 256).
    pose proof (Z.mod_pos_bound (base + total l1 + 2) 256). lia. }
  assert (Hold : has c2 a (record AMT_NV_STATE_USED w) -> settled c2 base (l1 ++ (n, Some w) :: l2)).
  { intros Hh2. apply (settled_update base l1 n (Some w) (Some w) l2 c); [done|done|done|]. by apply InFirst. }
  destruct (decide (m1 = 0%nat)) as [->|Hm1]; [destruct Hw2 as (_&_&_&Hw0); destruct (Hw0 eq_refl) as (_&->&_); left; by apply Hold|].
  destruct (short_write _ _ _ _ _ _ _ Hw2) as [Hp2|[Hp2 _]]; [done|done|lia| |].
  - right. apply (settled_update base l1 n (Some w) (Some v) l2 c); [done|done|done|]. apply (InSecond _ _ _ w); [done|done|by apply (marked_deleted c1)|].
    apply (has_agree c1 _ _ _ (6 + n)); [apply (agree_programmed _ _ _ _ _ _ Hp2); change (len (bytes16 AMT_NV_STATE_DELE)) with 2; lia|lia|].
    assert (Hk : k1 = len (record AMT_NV_STATE_USED v)) by (destruct Hw1 as (_&_&[?|[? _]]&_); done).
    apply (has_programmed c); [by eapply written_full|apply (blank_sub _ _ _ _ _ Hbl); lia|done].
  - left. apply Hold. apply (has_agree c1 _ _ _ (6 + n)); [by eapply programmed_nil_agree|lia|done].
Qed.
End CutWrite.

(** ** The whole history: a write, cut, recoveries, cut, and one that completes *)
Section PowerFail.
Context {C : Type} `{NorChipLaws C} `{AmtPartition}.
Implicit Types (c : C) (a n : Z) (s : amt) (m : nat).
(** Calls of the recovery routine, each in a fresh RAM, that lose power after so
    many operations each. *)
Fixpoint recoveries (ms : list nat) (h : hw C) : option (hw C) :=
  match ms with
  | [] => Some h
  | m :: ms =>
    match amt_nv_init (amt_boot, with_chip (mkCut (chip h) m) h) with
    | Done _ (_, h') => recoveries ms (reboot (set_chip (inner (chip h')) h))
    | _ => None
    end
  end.
Lemma recoveries_survive base l : amt_partion_base nv_started = base -> sector_at base -> table_ok l ->
  forall ms h, survives (chip h) base l -> exists h', recoveries ms h = Some h' /\ survives (chip h') base l.
Proof.
  intros Eb Hb Ht ms. induction ms as [|m ms IH]; intros h Hs; [by exists h|].
  destruct (init_cut (chip h) m base l (with_chip (mkCut (chip h) m) h) Eb Hb Ht eq_refl Hs) as (c'&m'&E&Hs'). cbn [recoveries]. rewrite E. by apply IH.
Qed.
Lemma put_cut base l op old m s (h : hw C) : located s -> amt_partion_base s = base -> sector_at base -> store (chip h) base l -> heap h = [] -> put_ok l.*1 op ->
  l !! op.1 = Some (len old, Some old) ->
  exists c' m', nv_put base l.*1 op (s, with_chip (mkCut (chip h) m) h) = Done 0 (s, with_chip (mkCut c' m') h) /\
    (settled c' base l \/ survives c' base (put_value l op)) /\ table_ok (put_value l op).
Proof.
  intros Hs Eb Hb Hst Hh (n&Hk&Hby&Hl) Hold. set (h0 := with_chip (mkCut (chip h) m) h). set (v := slice op.2 0 n).
  unfold nv_put, put_value. rewrite offset_total, (list_lookup_total_correct _ _ _ Hk), Hold. rewrite list_lookup_fmap, Hold in Hk. injection Hk as <-. fold v. set (n := len old) in *.
  rewrite insert_take_drop by (by eapply lookup_lt_Some). pose proof (nth_split _ _ _ Hold) as El. set (l1 := take op.1 l) in *. set (l2 := drop (S op.1) l) in *. clearbody l1 l2. subst l.
  destruct (parameter_address base l1 n (Some old) l2 _ s (store_sector _ _ _ Hst) (sector_low _ Hb) (sector_high _ Hb) Eb) as (Hbad&Hfl&Hn&i&j&Hp). pose proof Hst as [He _ _ Ht].
  pose proof (entries_sound _ _ _ He) as Hsd. assert (Hv : value_ok n v) by (split; [apply len_slice; lia|by apply Forall_take, Forall_drop]).
  assert (Htab : table_ok (l1 ++ (n, Some v) :: l2)) by (split; [by eapply sound_update|by rewrite total_app in *]).
  pose proof He as He0. apply entries_app in He0 as [Hl1 [_ Hl2]]. pose proof (entries_total _ _ _ Hl1) as [? Hm4]. pose proof (entries_total _ _ _ Hl2) as [? _].
  rewrite total_app in Ht. cbn [total foldr fst] in Ht. fold (total l2) in Ht.
  set (h1 := set_heap [] (live h0 + 1) h0). assert (Hrun : exists c' m', place_value (base + total l1) v i j (s, h1) = Done tt (s, set_chip (mkCut c' m') h1) /\
    (settled c' base (l1 ++ (n, Some old) :: l2) \/ survives c' base (l1 ++ (n, Some v) :: l2))).
  { unfold place_value. inversion Hp as [|w Hw Hh1 Hbl|w u Hw Hu Hh1 Hh2]; simplify_eq.
    - destruct (free_block_cut (amt_partion_base s) l1 n old v l2 (chip h) m s h1) as (c'&m'&E&Hr); try done; [lia|]. exists c', m'. rewrite <- E. split; [|destruct Hr; [by left|by right; left]].
      change (1 =? AMT_NV_BLOCK_NUM) with false. change (0 <? AMT_NV_BLOCK_NUM) with true. cbn iota. change (block ?x 1) with (x + 2048). change (block ?x 0) with (x + 0). by rewrite Z.add_0_r.
    - change (2 =? AMT_NV_BLOCK_NUM) with true. cbn iota. rewrite (gc_prefix (amt_partion_base s) l1 n old v l2 s h1) by (try done; first [by apply store_sector, store_cut|by apply sector_low|by apply sector_high]). change (chip h1) with (mkCut (chip h) m). unfold new_sector. rewrite image_cut.
      by apply (gc_store_cut (chip h) m). }
  destruct Hrun as (c'&m'&E&Hr). exists c', m'. split; [|done].
  rewrite (write_shape (base + total l1) n (Some old) i j op.2 (mkCut c' m') s h0); try done. by apply place_cut.
Qed.
Context `{!NorReliable C}.
(** A start with power: the table can be read. *)
Lemma init_recovers base l (h : hw C) : amt_partion_base nv_started = base -> sector_at base -> table_ok l -> survives (chip h) base l ->
  exists h', amt_nv_init (amt_boot, h) = Done tt (nv_started, h') /\ legibles (chip h') base l.
Proof.
  intros Eb Hb Ht [Hset|Hsv].
  - destruct (init_settled h) as [E|E]; [apply Hset| |]; rewrite E; [exists h; split; [done|apply Hset]|].
    destruct (nv_erase_run AMT_NV_BACKUP_BASE nv_started h eq_refl) as (c'&E'&He). exists (set_chip c' h). split; [done|]. destruct Ht as [Hs Ht]. pose proof (sound_total _ Hs).
    pose proof (sector_apart base Hb). apply (legibles_agree (chip h)); [done| | |apply Hset]; apply (agree_erased _ _ _ _ _ _ He); lia.
  - destruct Hsv as (H1'&H2'&c0&H3'). destruct Ht as [Hs Ht]. destruct (new_sector_bytes c0 base l Hs Ht) as [Hby Hl].
    rewrite (init_saved base (new_sector c0 base l)) by done. destruct (rewrite_run base (new_sector c0 base l) nv_started h Hb Hby Hl) as (c'&E&Hnew).
    exists (set_chip c' h). split; [done|]. apply entries_legibles. by eapply st_entries, store_new_sector.
Qed.
Lemma read_legibles base l k n o buf mm s (h : hw C) : located s -> amt_partion_base s = base -> sector_at base -> table_ok l -> legibles (chip h) base l ->
  l !! k = Some (n, o) -> n <= mm <= len buf -> amt_nv_read (base + offset l.*1 k) (Some buf) mm (s, h) = Done (answer_of buf o) (s, h).
Proof.
  intros Hs Eb (_&Hb0&Hb1&_) [Hsd Ht] Hl Hk Hm. rewrite offset_total. pose proof (nth_split _ _ _ Hk) as El. rewrite El in Hsd, Ht, Hl.
  apply legibles_app in Hl as [_ [[Hn Hp] _]]. apply Forall_app in Hsd as [Hs1 Hs2]. apply Forall_cons in Hs2 as [_ Hs2].
  pose proof (sound_total _ Hs1). pose proof (sound_total _ Hs2). rewrite total_app in Ht. cbn [total foldr fst snd] in *. fold (total (drop (S k) l)) in Ht.
  pose proof (room_bounds n Hn) as [? _]. apply (read_run _ n); try done; [unfold in_flash; lia|unfold bad_address; lia].
Qed.
(** C18: The recovery routine of the parameter store is right.  For a parameter
    that has a value: power may fail after any number of page programs and sector
    erases of a write, the garbage collection included, and again in any number
    of calls of [amt_nv_init]; after the next call of it that completes, the
    whole table reads as before the write, or as after it.  This is a property
    of the two routines together.  That the routine is called at a start is
    assumed: no source of this firmware does so, and without it the value can be
    lost ([unrecovered_loses]). *)
Theorem amt_nv_power_fail base l op old m ms s (h : hw C) : located s -> amt_partion_base s = base -> amt_partion_base nv_started = base -> sector_at base ->
  store (chip h) base l -> heap h = [] -> put_ok l.*1 op -> l !! op.1 = Some (len old, Some old) ->
  exists c1 m1, nv_put base l.*1 op (s, with_chip (mkCut (chip h) m) h) = Done 0 (s, with_chip (mkCut c1 m1) h) /\
  exists h2, recoveries ms (reboot (set_chip c1 h)) = Some h2 /\
  exists h3, amt_nv_init (amt_boot, h2) = Done tt (nv_started, h3) /\
  exists l', (l' = l \/ l' = put_value l op) /\
    forall k n o buf mm, l' !! k = Some (n, o) -> n <= mm <= len buf ->
      amt_nv_read (base + offset l.*1 k) (Some buf) mm (nv_started, h3) = Done (answer_of buf o) (nv_started, h3).
Proof.
  intros Hs Eb Est Hb Hst Hh Hop Hold. destruct (put_cut base l op old m s h Hs Eb Hb Hst Hh Hop Hold) as (c1&m1&E1&Hr&Htp). exists c1, m1. split; [done|].
  assert (Hl' : exists l', (l' = l \/ l' = put_value l op) /\ table_ok l' /\ l'.*1 = l.*1 /\ survives c1 base l').
  { destruct Hr as [Hr|Hr]; [exists l|exists (put_value l op)]; split_and!; try done; [by left|by eapply store_table|by left|by right|apply put_fst]. }
  destruct Hl' as (l'&Hor&Ht&Ef&Hsv). destruct (recoveries_survive base l' Est Hb Ht ms (reboot (set_chip c1 h)) Hsv) as (h2&E2&Hsv2). exists h2. split; [done|].
  destruct (init_recovers base l' h2 Est Hb Ht Hsv2) as (h3&E3&Hleg). exists h3. split; [done|]. exists l'. split; [done|].
  intros k n o buf mm Hk Hm. rewrite <- Ef. by eapply read_legibles.
Qed.
End PowerFail.

(** Two serial numbers fill both blocks; the third collects, loses power while the
    sector is rewritten, and so do two starts after it. *)
Definition two_serials : list put_op := [(0%nat, replicate 64 49); (0%nat, replicate 64 50)].
Definition full_boot : hw ideal := match puts_all 0xFF000 layout two_serials (located_boot, blank_boot) with Done _ (_, h) => h | _ => blank_boot end.
Lemma full_store : store (chip full_boot) 0xFF000 (foldl put_value (unset_all layout) two_serials) /\ heap full_boot = [].
Proof.
  destruct (puts_run 0xFF000 two_serials located_boot) with (l := unset_all layout) (h := blank_boot) as (h'&E&Hst&_&Hh&_); [done|done|done|apply store_boot|done| |].
  - rewrite unset_all_fst. repeat constructor; eexists; (split; [reflexivity|split; [by apply (bool_decide_unpack _)|done]]).
  - rewrite unset_all_fst in E. unfold full_boot. by rewrite E.
Qed.
Lemma amt_nv_power_fail_witness :
  let l := foldl put_value (unset_all layout) two_serials in let op : put_op := (0%nat, replicate 64 51) in
  exists c1 m1, nv_put 0xFF000 layout op (located_boot, with_chip (mkCut (chip full_boot) 13) full_boot) = Done 0 (located_boot, with_chip (mkCut c1 m1) full_boot) /\
  exists h2, recoveries [4%nat; 9%nat] (reboot (set_chip c1 full_boot)) = Some h2 /\
  exists h3, amt_nv_init (amt_boot, h2) = Done tt (nv_started, h3) /\
  exists l', (l' = l \/ l' = put_value l op) /\
    forall k n o buf mm, l' !! k = Some (n, o) -> n <= mm <= len buf ->
      amt_nv_read (0xFF000 + offset layout k) (Some buf) mm (nv_started, h3) = Done (answer_of buf o) (nv_started, h3).
Proof.
  cbn zeta. assert (El : (foldl put_value (unset_all layout) two_serials).*1 = layout) by reflexivity. rewrite <- El. destruct full_store as [Hst Hh].
  apply (amt_nv_power_fail 0xFF000 _ (0%nat, replicate 64 51) (replicate 64 50) 13 [4%nat; 9%nat] located_boot full_boot); [done|done|done|done|exact Hst|exact Hh| |reflexivity].
  exists 64. split; [by rewrite El|]. split; [by apply (bool_decide_unpack _)|done].
Defined.
(** Without the recovery: the same write, cut after the sector was erased; the
    serial number, which had a value, reads as absent. *)
Definition read_unrecovered (m : nat) : option Z :=
  match nv_put 0xFF000 layout (0%nat, replicate 64 51) (located_boot, with_chip (mkCut (chip full_boot) m) full_boot) with
  | Done _ (_, h) =>
    match amt_nv_read 0xFF000 (Some (zeros 64)) 64 (located_boot, reboot (set_chip (inner (chip h)) full_boot)) with
    | Done (r, _) _ => Some r
    | _ => None
    end
  | _ => None
  end.
Lemma unrecovered_loses : read_unrecovered 0 = Some 0 /\ read_unrecovered 12 = Some (-1).
Proof. split; vm_compute; reflexivity. Qed.
