(* ===== verification/Partition.v ===== *)
(** * The partition table: [partion_parser] and [partion_info_get] of [ef_env.c]

    The flash is divided by a read-only table of names with address and length as
    text.  The product's own code asks it for the sector of the factory
    parameters and the area of an update.  The table is parsed once, entry by
    entry, into an array of eight; without a table some names have fixed
    places. *)

From stdpp Require Import base numbers list strings.
From S2P Require Import Prelude Platform SpiFlash CommonFunc AmtNv AmtNvProofs.

Definition PARTION_INDEX_MAX : Z := 8.
Definition KEY_MAX_LEN : Z := 16.
Record partion_info := mkPartion { p_key : bytes; p_base : Z; p_length : Z }.
Record partion_dev := mkDev { num : Z; index_nv_usr : Z; index_nv_backup : Z; partion : list partion_info }.
Definition partionDev : partion_dev := mkDev 0 0 0 (replicate 8 (mkPartion (zeros 16) 0 0)).
(** What [partion_parser] uses of [struct env_meta_data]: the memory from the name
    on, its length, and the value in flash. *)
Record env_meta_data := mkEnv { e_name : bytes; e_name_len : Z; e_value : bytes }.

(** [strstr]: the text from the first occurrence on. *)
Fixpoint text_from (p s : bytes) : option bytes :=
  if prefix_of_b p s then Some s else match s with [] => None | _ :: s => text_from p s end.
Definition DATA_BEGIN : bytes := str "0x".
(** The hexadecimal digits at the start of a text: their number, as far as it fits
    into a [long], and what follows. *)
Fixpoint hex_run (acc : Z) (s : bytes) : Z * bytes :=
  match s with
  | [] => (acc, [])
  | c :: r => match hex_value c with Some d => hex_run (Z.min 0x7FFFFFFF (16 * acc + d)) r | None => (acc, s) end
  end.
(** [strtol] with base 0 on a text that starts with [0x]; without a digit behind it
    only the 0 is read. *)
Definition strtol (s : bytes) : Z * bytes :=
  match drop 2 s with
  | c :: _ => match hex_value c with Some _ => hex_run 0 (drop 2 s) | None => (0, drop 1 s) end
  | [] => (0, drop 1 s)
  end.
Definition strncmp_eq (key name : bytes) : bool := bool_decide (take (length key) (cstr name) = key).

Section Partition.
Context {C : Type}.
Abbreviation PD := (P C partion_dev).
Definition upd_partion (i : Z) (f : partion_info -> partion_info) (d : partion_dev) : partion_dev :=
  mkDev (num d) (index_nv_usr d) (index_nv_backup d) (alter f (Z.to_nat i) (partion d)).
Definition strlcpy (dst src : bytes) (size : Z) : PD bytes := memcpy dst 0 (take (Z.to_nat (size - 1)) (cstr src) ++ [0]).
Definition partion_parser (env : env_meta_data) : PD Z :=
  let* d := gets (fun d => d) in
  let i := num d in
  puts (fun d => mkDev (i + 1) (index_nv_usr d) (index_nv_backup d) (partion d)) ;;
  match partion d !! Z.to_nat i with
  | None => fail OutOfBounds
  | Some p =>
    let* key := strlcpy (p_key p) (e_name env) (Z.min (e_name_len env + 1) KEY_MAX_LEN) in
    puts (upd_partion i (fun p => mkPartion key (p_base p) (p_length p))) ;;
    let* buf := memcpy (zeros 64) 0 (e_value env) in
    if negb (bool_decide (0 ∈ buf)) then fail OutOfBounds
    else
      match text_from DATA_BEGIN (cstr buf) with
      | None => ret (-1)
      | Some data =>
        let '(base, rest) := strtol data in
        puts (upd_partion i (fun p => mkPartion (p_key p) base (p_length p))) ;;
        match text_from DATA_BEGIN rest with
        | None => ret (-1)
        | Some data =>
          puts (upd_partion i (fun p => mkPartion (p_key p) (p_base p) (strtol data).1)) ;;
          (if strncmp_eq (str "nv_usr") (e_name env) then puts (fun d => mkDev (num d) i (index_nv_backup d) (partion d))
           else if strncmp_eq (str "nv_backup") (e_name env) then puts (fun d => mkDev (num d) (index_nv_usr d) i (partion d))
           else ret tt) ;;
          ret 0
        end
      end
  end.
End Partition.

(** Without a table: an image of the first builds. *)
Definition compatible_partion (key : bytes) : option (Z * Z) :=
  if strncmp_eq (str "cpu1") key then Some (0x4000, 0x7C000)
  else if strncmp_eq (str "cpu2") key then Some (0x80000, 0x7C000)
  else if strncmp_eq (str "nv_usr") key then Some (0xFB000, 0x3000)
  else if strncmp_eq (str "nv_amt") key then Some (0xFF000, 0x1000)
  else None.
(** [None] is [return -1]; otherwise what is stored through the two pointers.  The
    name is compared up to the length of the key only. *)
Definition partion_info_get (d : partion_dev) (key : bytes) : option (Z * Z) :=
  if num d =? 0 then compatible_partion key
  else (fun p => (p_base p, p_length p)) <$> List.find (fun p => strncmp_eq key (p_key p)) (take (Z.to_nat (num d)) (partion d)).

(** ** A table reads back *)
(** An entry: its name and the digits of its address and its length. *)
Record part := mkPart { pt_name : bytes; pt_base : bytes; pt_length : bytes }.
Definition is_hex_digit (c : Z) : Prop := is_Some (hex_value c).
#[export] Instance is_hex_digit_dec c : Decision (is_hex_digit c).
Proof. unfold is_hex_digit. apply _. Defined.
Definition hex_fold (acc : Z) (s : bytes) : Z := foldl (fun a c => 16 * a + default 0 (hex_value c)) acc s.
Definition number_ok (s : bytes) : Prop := s <> [] /\ Forall is_hex_digit s /\ hex_fold 0 s <= 0x7FFFFFFF.
Definition part_text (p : part) : bytes := str "0x" ++ pt_base p ++ str ",0x" ++ pt_length p.
Definition part_ok (p : part) : Prop :=
  no_nul (pt_name p) /\ len (pt_name p) < KEY_MAX_LEN /\ number_ok (pt_base p) /\ number_ok (pt_length p) /\ len (part_text p) < 64.
Definition part_env (p : part) : env_meta_data := mkEnv (pt_name p) (len (pt_name p)) (part_text p).
Definition part_info (p : part) : partion_info :=
  mkPartion (pt_name p ++ zeros (16 - len (pt_name p))) (hex_fold 0 (pt_base p)) (hex_fold 0 (pt_length p)).

Lemma hex_value_range c d : hex_value c = Some d -> 0 <= d < 16 /\ c <> 0.
Proof.
  unfold hex_value. destruct ((97 <=? c) && (c <=? 102)) eqn:E1; [intros [= <-]; lia|]. destruct ((65 <=? c) && (c <=? 70)) eqn:E2; [intros [= <-]; lia|].
  destruct ((48 <=? c) && (c <=? 57)) eqn:E3; [intros [= <-]; lia|done].
Qed.
Lemma hex_fold_grows s : forall acc, 0 <= acc -> Forall is_hex_digit s -> acc <= hex_fold acc s.
Proof.
  induction s as [|c s IH]; intros acc Ha Hs; [done|]. apply Forall_cons in Hs as [[d Hd] Hs]. pose proof (hex_value_range _ _ Hd). cbn [hex_fold foldl]. rewrite Hd. cbn [default].
  specialize (IH (16 * acc + d) ltac:(lia) Hs). unfold hex_fold, from_option, id in *. lia.
Qed.
Lemma hex_run_digits s rest : (forall c r, rest = c :: r -> hex_value c = None) -> forall acc, 0 <= acc -> Forall is_hex_digit s -> hex_fold acc s <= 0x7FFFFFFF ->
  hex_run acc (s ++ rest) = (hex_fold acc s, rest).
Proof.
  intros Hr. induction s as [|c s IH]; intros acc Ha Hs Hm.
  - cbn [Datatypes.app]. destruct rest as [|c r]; [done|]. cbn [hex_run]. by rewrite (Hr c r eq_refl).
  - apply Forall_cons in Hs as [[d Hd] Hs]. pose proof (hex_value_range _ _ Hd). cbn [Datatypes.app hex_run]. rewrite Hd.
    assert (E : hex_fold acc (c :: s) = hex_fold (16 * acc + d) s) by (cbn [hex_fold foldl]; by rewrite Hd). rewrite E in *.
    pose proof (hex_fold_grows s (16 * acc + d) ltac:(lia) Hs). rewrite Z.min_r by lia. apply IH; [lia|done|done].
Qed.
Lemma strtol_number s rest : number_ok s -> (forall c r, rest = c :: r -> hex_value c = None) -> strtol (str "0x" ++ s ++ rest) = (hex_fold 0 s, rest).
Proof.
  intros (Hne&Hs&Hm) Hr. unfold strtol. change (drop 2 (str "0x" ++ s ++ rest)) with (s ++ rest). destruct s as [|c s]; [done|]. pose proof Hs as Hs0.
  apply Forall_cons in Hs0 as [[d Hd] _]. cbn [Datatypes.app]. rewrite Hd. by apply (hex_run_digits (c :: s)).
Qed.
Lemma digits_nul s : Forall is_hex_digit s -> no_nul s.
Proof. intros Hs. eapply Forall_impl; [exact Hs|]. intros c [d Hd]. by apply hex_value_range in Hd as [_ ?]. Qed.
Lemma part_text_nul p : part_ok p -> no_nul (part_text p).
Proof.
  intros (_&_&(_&Hb&_)&(_&Hl&_)&_). unfold part_text, no_nul. rewrite !Forall_app. split_and!; [by apply (bool_decide_unpack _)|by apply digits_nul|by apply (bool_decide_unpack _)|by apply digits_nul].
Qed.
Lemma splice_start (x : bytes) n : len x <= n -> splice (zeros n) 0 x = x ++ zeros (n - len x).
Proof.
  intros Hl. pose proof (len_nonneg x). unfold splice. change (Z.to_nat 0) with 0%nat. rewrite take_0. cbn [Datatypes.app Nat.add]. f_equal. unfold zeros. rewrite drop_replicate.
  f_equal. unfold len. lia.
Qed.
Section Parse.
Context {C : Type}.
Implicit Types (d : partion_dev) (h : hw C) (l : list part).
(** The array after the entries [l]. *)
Definition parsed l : list partion_info := (part_info <$> l) ++ replicate (8 - length l) (mkPartion (zeros 16) 0 0).
Lemma parsed_split l : (length l < 8)%nat ->
  exists r, parsed l = (part_info <$> l) ++ mkPartion (zeros 16) 0 0 :: r /\ forall p, parsed (l ++ [p]) = (part_info <$> l) ++ part_info p :: r.
Proof.
  intros Hl. exists (replicate (8 - (length l + 1)) (mkPartion (zeros 16) 0 0)). unfold parsed. split.
  - by replace (8 - length l)%nat with (S (8 - (length l + 1))) by lia.
  - intros p. by rewrite fmap_app, <- app_assoc, length_app.
Qed.
Lemma alter_at {A} (a : list A) x r f i : i = length a -> alter f i (a ++ x :: r) = a ++ f x :: r.
Proof. intros ->. by induction a as [|y a IH]; [|cbn; f_equal]. Qed.
Lemma parse_one l p iu ib h : (length l < 8)%nat -> part_ok p ->
  exists iu' ib', partion_parser (part_env p) (mkDev (Z.of_nat (length l)) iu ib (parsed l), h) = Done 0 (mkDev (Z.of_nat (length (l ++ [p]))) iu' ib' (parsed (l ++ [p])), h).
Proof.
  intros Hl Hp. pose proof (part_text_nul p Hp) as Htx. destruct Hp as (Hnn&Hnl&Hb&Hg&H64). unfold KEY_MAX_LEN in *. pose proof (len_nonneg (pt_name p)).
  unfold partion_parser. erewrite bind_done by reflexivity. cbn [fst num partion]. erewrite bind_done by reflexivity. rewrite Nat2Z.id.
  destruct (parsed_split l Hl) as (r&El&Elp). rewrite El, Elp, list_lookup_middle by (by rewrite length_fmap). cbn [fst].
  cbn [p_key e_name e_name_len e_value part_env]. unfold strlcpy. rewrite Z.min_l by (unfold KEY_MAX_LEN; lia). rewrite cstr_no_nul, take_ge by (done || (unfold len; lia)).
  assert (E1 : len (pt_name p ++ [0]) <= 16) by (rewrite len_app; change (len [0]) with 1; lia).
  rewrite (bind_done _ _ _ _ _ (memcpy_ok (zeros 16) 0 _ _ ltac:(done) E1)). rewrite (splice_start _ 16 E1), <- app_assoc.
  replace ([0] ++ zeros (16 - len (pt_name p ++ [0]))) with (zeros (16 - len (pt_name p))).
  2:{ rewrite len_app. change (len [0]) with 1. unfold zeros. replace (Z.to_nat (16 - len (pt_name p))) with (S (Z.to_nat (16 - (len (pt_name p) + 1)))) by lia. done. }
  erewrite bind_done by reflexivity. rewrite (bind_done _ _ _ _ _ (memcpy_ok (zeros 64) 0 (part_text p) _ ltac:(done) ltac:(change (len (zeros 64)) with 64; lia))).
  rewrite (splice_start _ 64) by lia. set (k := 64 - len (part_text p)). assert (Hk : zeros k = 0 :: zeros (k - 1)).
  { unfold zeros. replace (Z.to_nat k) with (S (Z.to_nat (k - 1))) by (unfold k; lia). done. }
  rewrite Hk. rewrite (bool_decide_eq_true_2 (0 ∈ _)) by (apply elem_of_app; right; apply list_elem_of_here). cbn [negb]. rewrite cstr_app_nul by done.
  change (text_from DATA_BEGIN (part_text p)) with (Some (part_text p)). unfold part_text at 1. rewrite strtol_number by (try done; by intros c r0 [= <- <-]).
  erewrite bind_done by reflexivity. change (text_from DATA_BEGIN (str ",0x" ++ pt_length p)) with (Some (str "0x" ++ pt_length p)).
  assert (Es : strtol (str "0x" ++ pt_length p) = (hex_fold 0 (pt_length p), [])) by (rewrite <- (strtol_number (pt_length p) []) by done; by rewrite app_nil_r).
  cbv beta iota. rewrite Es. cbn [fst]. erewrite bind_done by reflexivity.
  set (f1 := fun q : partion_info => mkPartion _ _ _). set (f2 := fun q : partion_info => mkPartion _ _ _). set (f3 := fun q : partion_info => mkPartion _ _ _).
  assert (En : Z.of_nat (length l) + 1 = Z.of_nat (length (l ++ [p]))) by (rewrite length_app; cbn [length]; lia).
  destruct (strncmp_eq (str "nv_usr") (pt_name p)); [|destruct (strncmp_eq (str "nv_backup") (pt_name p))]; (eexists _, _; erewrite bind_done by reflexivity; unfold ret;
    unfold upd_partion; cbn [num index_nv_usr index_nv_backup partion]; rewrite ?Nat2Z.id, !alter_at, En by (by rewrite length_fmap); reflexivity).
Qed.
(** The loop of [partion_init] over the entries of the table, which goes on after
    an entry that cannot be parsed. *)
Definition parse_table (es : list env_meta_data) : P C partion_dev unit := for_each es (fun e => let* _ := partion_parser e in ret tt).
Lemma parse_rest l2 : forall l1 iu ib h, (length l1 + length l2 <= 8)%nat -> Forall part_ok l2 ->
  exists iu' ib', parse_table (part_env <$> l2) (mkDev (Z.of_nat (length l1)) iu ib (parsed l1), h)
    = Done tt (mkDev (Z.of_nat (length (l1 ++ l2))) iu' ib' (parsed (l1 ++ l2)), h).
Proof.
  induction l2 as [|p l2 IH]; intros l1 iu ib h Hl Hok; [exists iu, ib; by rewrite app_nil_r|]. apply Forall_cons in Hok as [Hp Hok]. cbn [length] in Hl.
  destruct (parse_one l1 p iu ib h ltac:(lia) Hp) as (iu1&ib1&E). unfold parse_table. cbn [fmap list_fmap for_each]. rewrite bind_assoc, (bind_done _ _ _ _ _ E).
  destruct (IH (l1 ++ [p]) iu1 ib1 h) as (iu2&ib2&E2); [rewrite length_app; cbn [length]; lia|done|]. exists iu2, ib2. rewrite <- app_assoc in E2. exact E2.
Qed.
Lemma key_name p key : part_ok p -> strncmp_eq key (p_key (part_info p)) = bool_decide (key `prefix_of` pt_name p).
Proof.
  intros (Hnn&Hl&_). unfold strncmp_eq. cbn [p_key part_info]. unfold KEY_MAX_LEN in Hl. assert (E : zeros (16 - len (pt_name p)) = 0 :: zeros (15 - len (pt_name p))).
  { unfold zeros. replace (Z.to_nat (16 - len (pt_name p))) with (S (Z.to_nat (15 - len (pt_name p)))) by lia. done. }
  rewrite E, cstr_app_nul by done. apply bool_decide_ext. split.
  - intros <-. apply prefix_take.
  - intros [r ->]. by rewrite take_app_length.
Qed.
Lemma find_fmap {A B} (f : A -> B) (q : B -> bool) (q' : A -> bool) (l : list A) : Forall (fun a => q (f a) = q' a) l -> List.find q (f <$> l) = f <$> List.find q' l.
Proof. induction 1 as [|a l E _ IH]; [done|]. cbn. rewrite E. by destruct (q' a). Qed.
(** C21: A partition table of up to eight entries is found again: asking for a key
    gives address and length of the first entry whose name starts with it, and
    fails when there is none. *)
Theorem partition_lookup l h : Forall part_ok l -> (0 < length l <= 8)%nat ->
  exists d, parse_table (part_env <$> l) (partionDev, h) = Done tt (d, h) /\
    forall key, partion_info_get d key = (fun p => (hex_fold 0 (pt_base p), hex_fold 0 (pt_length p))) <$> List.find (fun p => bool_decide (key `prefix_of` pt_name p)) l.
Proof.
  intros Hok Hl. destruct (parse_rest l [] 0 0 h) as (iu&ib&E); [cbn; lia|done|]. eexists. split; [exact E|]. intros key.
  unfold partion_info_get. cbn [num partion Datatypes.app]. destruct (Z.eqb_spec (Z.of_nat (length l)) 0); [lia|]. rewrite Nat2Z.id. unfold parsed.
  rewrite take_app_length' by (by rewrite length_fmap). rewrite (find_fmap _ _ (fun p => bool_decide (key `prefix_of` pt_name p))).
  - by destruct (List.find _ l).
  - eapply Forall_impl; [exact Hok|]. intros p Hp. by apply key_name.
Qed.
(** A ninth entry is written behind the array. *)
Theorem partition_ninth_overflows l p h : Forall part_ok l -> length l = 8%nat ->
  parse_table ((part_env <$> l) ++ [p]) (partionDev, h) = Fault OutOfBounds.
Proof.
  intros Hok Hl. destruct (parse_rest l [] 0 0 h) as (iu&ib&E); [cbn; lia|done|]. unfold parse_table in *. rewrite for_each_app.
  change partionDev with (mkDev (Z.of_nat (length (@nil part))) 0 0 (parsed [])). rewrite (bind_done _ _ _ _ _ E). cbn [Datatypes.app]. rewrite Hl. cbn [for_each]. rewrite bind_assoc.
  assert (Hend : parsed l !! Z.to_nat (Z.of_nat 8) = None).
  { apply lookup_ge_None_2. unfold parsed. rewrite length_app, length_fmap, length_replicate. lia. }
  unfold partion_parser, bind, gets, puts. cbn [num partion]. by rewrite Hend.
Qed.
End Parse.

(** ** The tables of the product *)
Definition table_text (name base length : string) : part := mkPart (str name) (str base) (str length).
(** [TR6260_partition_at_0x6000_diff.bin]. *)
Definition at_table : list part :=
  [table_text "cpu1" "7000" "AF000"; table_text "data_ota" "B6000" "41000"; table_text "data_cert" "F7000" "1000"; table_text "data_ca" "F8000" "1000";
   table_text "data_key" "F9000" "1000"; table_text "nv_backup" "FA000" "1000"; table_text "nv_usr" "FB000" "3000"; table_text "nv_amt" "FF000" "1000"].
#[export] Instance part_ok_dec p : Decision (part_ok p).
Proof. unfold part_ok, number_ok. apply _. Defined.
Lemma partition_lookup_witness :
  exists d, parse_table (part_env <$> at_table) (partionDev, boot) = Done tt (d, boot) /\
    partion_info_get d (str "nv_amt") = Some (0xFF000, 0x1000) /\ partion_info_get d (str "data_ota") = Some (0xB6000, 0x41000) /\ partion_info_get d (str "cpu2") = None.
Proof.
  destruct (partition_lookup at_table boot) as (d&E&Hget); [by apply (bool_decide_unpack _)|cbn; lia|]. exists d. split; [exact E|]. rewrite !Hget. done.
Defined.
(** The table [TR6260_NV_parameter_partition.csv] of the tools puts the factory
    parameters where [amtNv.c] keeps its backup (see [AmtNvProofs.amt_overlap_loses]);
    the table above does not. *)
Definition csv_table : list part :=
  [table_text "cpu1" "4000" "97000"; table_text "data_ota" "9B000" "5C000"; table_text "data_cert" "F7000" "1000"; table_text "data_ca" "F8000" "1000";
   table_text "data_key" "F9000" "1000"; table_text "nv_backup" "FA000" "1000"; table_text "nv_usr" "FB000" "3000"; table_text "nv_amt" "FE000" "2000"].
Definition table_partition (d : partion_dev) : AmtPartition := {| amt_partition := fst <$> partion_info_get d (str "nv_amt") |}.
Lemma nv_amt_places : exists d1 d2 : partion_dev,
  parse_table (part_env <$> at_table) (partionDev, boot) = Done tt (d1, boot) /\ @amt_partition (table_partition d1) = Some 0xFF000 /\ sector_at 0xFF000 /\
  parse_table (part_env <$> csv_table) (partionDev, boot) = Done tt (d2, boot) /\ @amt_partition (table_partition d2) = Some AMT_NV_BACKUP_BASE.
Proof. eexists _, _. split_and!; vm_compute; done. Qed.
