(* ===== verification/OtaFull.v ===== *)
(** * The update of whole images: [platform/otaHal/otaHal.c]

    Builds without differential updates store the image they receive as it is: the
    length, the data, and a CRC over both.  The device restarts into the new image
    when the length fits what was received and the CRC fits what is in flash; the
    theorem says that this is exactly the format, and that damage to a single byte
    is always found.  The CRC, computed with a table, is shown equal to the one
    computed bit by bit.  (The functions have the names of those of
    [otaDiffHal.c] in the source; here they are called [full_init], [full_write]
    and [full_done].) *)

From stdpp Require Import base numbers list strings.
From S2P Require Import Prelude Platform SpiFlash CommonFunc CJson Cloud UserData AppMain UserDataProofs PowerCut AmtNv AmtNvProofs Partition.

(** ** The CRC *)
Definition crc32_le_table : list Z :=
  [0x00000000; 0x77073096; 0xee0e612c; 0x990951ba; 0x076dc419; 0x706af48f; 0xe963a535; 0x9e6495a3;
   0x0edb8832; 0x79dcb8a4; 0xe0d5e91e; 0x97d2d988; 0x09b64c2b; 0x7eb17cbd; 0xe7b82d07; 0x90bf1d91;
   0x1db71064; 0x6ab020f2; 0xf3b97148; 0x84be41de; 0x1adad47d; 0x6ddde4eb; 0xf4d4b551; 0x83d385c7;
   0x136c9856; 0x646ba8c0; 0xfd62f97a; 0x8a65c9ec; 0x14015c4f; 0x63066cd9; 0xfa0f3d63; 0x8d080df5;
   0x3b6e20c8; 0x4c69105e; 0xd56041e4; 0xa2677172; 0x3c03e4d1; 0x4b04d447; 0xd20d85fd; 0xa50ab56b;
   0x35b5a8fa; 0x42b2986c; 0xdbbbc9d6; 0xacbcf940; 0x32d86ce3; 0x45df5c75; 0xdcd60dcf; 0xabd13d59;
   0x26d930ac; 0x51de003a; 0xc8d75180; 0xbfd06116; 0x21b4f4b5; 0x56b3c423; 0xcfba9599; 0xb8bda50f;
   0x2802b89e; 0x5f058808; 0xc60cd9b2; 0xb10be924; 0x2f6f7c87; 0x58684c11; 0xc1611dab; 0xb6662d3d;
   0x76dc4190; 0x01db7106; 0x98d220bc; 0xefd5102a; 0x71b18589; 0x06b6b51f; 0x9fbfe4a5; 0xe8b8d433;
   0x7807c9a2; 0x0f00f934; 0x9609a88e; 0xe10e9818; 0x7f6a0dbb; 0x086d3d2d; 0x91646c97; 0xe6635c01;
   0x6b6b51f4; 0x1c6c6162; 0x856530d8; 0xf262004e; 0x6c0695ed; 0x1b01a57b; 0x8208f4c1; 0xf50fc457;
   0x65b0d9c6; 0x12b7e950; 0x8bbeb8ea; 0xfcb9887c; 0x62dd1ddf; 0x15da2d49; 0x8cd37cf3; 0xfbd44c65;
   0x4db26158; 0x3ab551ce; 0xa3bc0074; 0xd4bb30e2; 0x4adfa541; 0x3dd895d7; 0xa4d1c46d; 0xd3d6f4fb;
   0x4369e96a; 0x346ed9fc; 0xad678846; 0xda60b8d0; 0x44042d73; 0x33031de5; 0xaa0a4c5f; 0xdd0d7cc9;
   0x5005713c; 0x270241aa; 0xbe0b1010; 0xc90c2086; 0x5768b525; 0x206f85b3; 0xb966d409; 0xce61e49f;
   0x5edef90e; 0x29d9c998; 0xb0d09822; 0xc7d7a8b4; 0x59b33d17; 0x2eb40d81; 0xb7bd5c3b; 0xc0ba6cad;
   0xedb88320; 0x9abfb3b6; 0x03b6e20c; 0x74b1d29a; 0xead54739; 0x9dd277af; 0x04db2615; 0x73dc1683;
   0xe3630b12; 0x94643b84; 0x0d6d6a3e; 0x7a6a5aa8; 0xe40ecf0b; 0x9309ff9d; 0x0a00ae27; 0x7d079eb1;
   0xf00f9344; 0x8708a3d2; 0x1e01f268; 0x6906c2fe; 0xf762575d; 0x806567cb; 0x196c3671; 0x6e6b06e7;
   0xfed41b76; 0x89d32be0; 0x10da7a5a; 0x67dd4acc; 0xf9b9df6f; 0x8ebeeff9; 0x17b7be43; 0x60b08ed5;
   0xd6d6a3e8; 0xa1d1937e; 0x38d8c2c4; 0x4fdff252; 0xd1bb67f1; 0xa6bc5767; 0x3fb506dd; 0x48b2364b;
   0xd80d2bda; 0xaf0a1b4c; 0x36034af6; 0x41047a60; 0xdf60efc3; 0xa867df55; 0x316e8eef; 0x4669be79;
   0xcb61b38c; 0xbc66831a; 0x256fd2a0; 0x5268e236; 0xcc0c7795; 0xbb0b4703; 0x220216b9; 0x5505262f;
   0xc5ba3bbe; 0xb2bd0b28; 0x2bb45a92; 0x5cb36a04; 0xc2d7ffa7; 0xb5d0cf31; 0x2cd99e8b; 0x5bdeae1d;
   0x9b64c2b0; 0xec63f226; 0x756aa39c; 0x026d930a; 0x9c0906a9; 0xeb0e363f; 0x72076785; 0x05005713;
   0x95bf4a82; 0xe2b87a14; 0x7bb12bae; 0x0cb61b38; 0x92d28e9b; 0xe5d5be0d; 0x7cdcefb7; 0x0bdbdf21;
   0x86d3d2d4; 0xf1d4e242; 0x68ddb3f8; 0x1fda836e; 0x81be16cd; 0xf6b9265b; 0x6fb077e1; 0x18b74777;
   0x88085ae6; 0xff0f6a70; 0x66063bca; 0x11010b5c; 0x8f659eff; 0xf862ae69; 0x616bffd3; 0x166ccf45;
   0xa00ae278; 0xd70dd2ee; 0x4e048354; 0x3903b3c2; 0xa7672661; 0xd06016f7; 0x4969474d; 0x3e6e77db;
   0xaed16a4a; 0xd9d65adc; 0x40df0b66; 0x37d83bf0; 0xa9bcae53; 0xdebb9ec5; 0x47b2cf7f; 0x30b5ffe9;
   0xbdbdf21c; 0xcabac28a; 0x53b39330; 0x24b4a3a6; 0xbad03605; 0xcdd70693; 0x54de5729; 0x23d967bf;
   0xb3667a2e; 0xc4614ab8; 0x5d681b02; 0x2a6f2b94; 0xb40bbe37; 0xc30c8ea1; 0x5a05df1b; 0x2d02ef8d].
Definition not32 (x : Z) : Z := Z.lxor x 0xFFFFFFFF.
Definition crc32_byte (crc b : Z) : Z := Z.lxor (crc32_le_table !!! Z.to_nat (Z.land (Z.lxor crc b) 0xff)) (Z.shiftr crc 8).
Definition crc32_le (crc : Z) (buf : bytes) : Z := not32 (foldl crc32_byte (not32 crc) buf).

(** ** The partition *)
Definition TRS_ERR_NO_MEM : Z := -2.
Definition TRS_ERR_OTA_VALIDATE_FAILED : Z := 0x1003.
Definition SPI_FLASH_SEC_SIZE : Z := 4096.
(** [OTA_OPERATE_INFO_T] and [ota_total_len]. *)
Record image_info := mkImage {
  im_init : Z; im_first_frame : Z; im_addr : Z; im_offset : Z; im_max_len : Z; im_partion : Z; im_data_len : Z; ota_total_len : Z }.
Definition set_offset v i := mkImage (im_init i) (im_first_frame i) (im_addr i) v (im_max_len i) (im_partion i) (im_data_len i) (ota_total_len i).
Definition set_data_len v i := mkImage (im_init i) (im_first_frame i) (im_addr i) (im_offset i) (im_max_len i) (im_partion i) v (ota_total_len i).
Definition set_place a n i := mkImage (im_init i) (im_first_frame i) a (im_offset i) n (im_partion i) (im_data_len i) (ota_total_len i).
Definition set_partion a p i := mkImage (im_init i) (im_first_frame i) a (im_offset i) (im_max_len i) p (im_data_len i) (ota_total_len i).
Definition image_boot : image_info := mkImage 0 0 0 0 0 0 0 0.
(** The environment store: what it holds under the name of the image to start,
    the flash after a value has been set (the store keeps its records in the
    partition [nv_usr]), and where that partition is. *)
Class OtaAddr (C : Type) := {
  nv_ota_addr : bytes;
  ef_set_env_blob : bytes -> bytes -> C -> C;
  nv_usr_base : Z;
  nv_usr_length : Z;
}.
(** It changes its own partition only. *)
Class OtaAddrLaws (C : Type) `{NorChip C, OtaAddr C} := {
  set_env_frame : forall key value c x, x < nv_usr_base \/ nv_usr_base + nv_usr_length <= x ->
    nor_read (ef_set_env_blob key value c) x = nor_read c x;
}.

Section Full.
Context {C : Type} `{NorChip C} `{!OtaAddr C}.
Abbreviation PF := (P C image_info).
Implicit Types d : partion_dev.
Definition image_write (addr : Z) (b : bytes) : PF unit := upd_hw (fun h => set_chip (hal_spifiash_write (chip h) (u32 addr) b).2 h).

(** [otaHal_init]. *)
Definition full_init d : PF Z :=
  puts (fun i => mkImage (im_init i) 0 (im_addr i) 0 (496 * 1024) (im_partion i) (im_data_len i) (ota_total_len i)) ;;
  (match partion_info_get d (str "data_ota") with
   | Some (addr, n) => puts (set_place addr n)
   | None =>
     let partion := match nv_ota_addr with [c] => if (48 <=? c) && (c <=? 57) then c - 48 else 0 | _ => 1 end in
     let key := if partion =? 2 then str "cpu1" else str "cpu2" in
     puts (fun i => set_partion (default (im_addr i) (fst <$> partion_info_get d key)) (if partion =? 2 then 1 else 2) i)
   end) ;;
  let* i := gets (fun i => i) in
  let* h := get_hw in
  let '(r, c) := hal_spiflash_erase (chip h) (im_addr i) (im_max_len i) in
  upd_hw (set_chip c) ;;
  if negb (r =? 0) then ret r
  else
    puts (fun i => mkImage 1 (im_first_frame i) (im_addr i) (im_offset i) (im_max_len i) (im_partion i) (im_data_len i) (ota_total_len i)) ;;
    ret 0.

(** Eight decimal digits, at 32 bits. *)
Definition decimal8 (b : bytes) : Z := foldl (fun a c => u32 (c - 48 + a * 10)) 0 b.
Definition be32 (b : bytes) : Z :=
  Z.lor (Z.lor (Z.shiftl (b !!! 0%nat) 24) (Z.shiftl (b !!! 1%nat) 16)) (Z.lor (Z.shiftl (b !!! 2%nat) 8) (b !!! 3%nat)).
(** [otaHal_write]: a download partition takes the image as it comes; of the two
    images of a device without one, only the part for the other one is stored. *)
Definition full_write (data : bytes) (n : Z) : PF Z :=
  let n := u16 n in
  let* i := gets (fun i => i) in
  if im_init i =? 0 then ret 1
  else if im_partion i =? 0 then
    let* ok :=
      if im_offset i =? 0 then let* b := rdn data 0 4 in ret (be32 b <=? im_max_len i) else ret true in
    if negb ok then ret TRS_ERR_NO_MEM
    else
      let* b := rdn data 0 n in
      image_write (im_addr i + im_offset i) b ;;
      puts (set_offset (u32 (im_offset i + n))) ;;
      ret 0
  else
    (if im_first_frame i =? 0 then
       let* b := rdn data 0 16 in
       puts (fun i => mkImage (im_init i) 1 (im_addr i) (im_offset i) (im_max_len i) (im_partion i)
         (u32 (0x10 + decimal8 (drop 8 b) + decimal8 (take 8 b))) (ota_total_len i))
     else ret tt) ;;
    let* i := gets (fun i => i) in
    if im_partion i =? 2 then
      if im_data_len i <? im_offset i then
        let* b := rdn data 0 n in
        image_write (im_addr i + im_offset i - im_data_len i) b ;;
        puts (set_offset (u32 (im_offset i + n))) ;;
        ret 0
      else
        let offset := u32 (im_offset i + n) in
        puts (set_offset offset) ;;
        (if im_data_len i <? offset then
           let* b := rdn data (n - (offset - im_data_len i)) (offset - im_data_len i) in
           image_write (im_addr i) b
         else ret tt) ;;
        ret 0
    else if negb (im_data_len i =? 0) then
      let length_temp := Z.min (im_data_len i) n in
      let* b := rdn data 0 length_temp in
      image_write (im_addr i + im_offset i) b ;;
      puts (fun i => set_offset (u32 (im_offset i + length_temp)) (set_data_len (im_data_len i - length_temp) i)) ;;
      ret 0
    else ret 0.

(** The whole sections of [trs_ota_verify]; every round but the last takes one. *)
Fixpoint verify_sections (fuel : nat) (offset remain_size result : Z) : PF (Z * Z * Z) :=
  match fuel with
  | O => fail OutOfBounds
  | S fuel =>
    if SPI_FLASH_SEC_SIZE <? remain_size then
      let* h := get_hw in
      let result := crc32_le result (hal_spiflash_read (chip h) offset SPI_FLASH_SEC_SIZE).2 in
      verify_sections fuel (u32 (offset + SPI_FLASH_SEC_SIZE)) (remain_size - SPI_FLASH_SEC_SIZE) result
    else ret (offset, remain_size, result)
  end.
Definition trs_ota_verify (offset size : Z) : PF Z :=
  let remain_size := u32 (size + 4) in
  let* buff := ya_hal_os_memory_alloc SPI_FLASH_SEC_SIZE in
  match buff with
  | None => ret TRS_ERR_NO_MEM
  | Some _ =>
    let* '(offset, remain_size, result) := verify_sections (S (Z.to_nat (remain_size / SPI_FLASH_SEC_SIZE))) offset remain_size 0xFFFFFFFF in
    let* h := get_hw in
    let '(offset, result) :=
      if negb (remain_size =? 0) then (u32 (offset + remain_size), crc32_le result (hal_spiflash_read (chip h) offset remain_size).2) else (offset, result) in
    ret (if result =? get32 (hal_spiflash_read (chip h) offset 4).2 then 0 else TRS_ERR_OTA_VALIDATE_FAILED)
  end.
(** [otaHal_done]; [system_reset] does not return. *)
Definition full_done : PF Z :=
  let* i := gets (fun i => i) in
  let* h := get_hw in
  let total := be32 (hal_spiflash_read (chip h) (im_addr i) 4).2 in
  puts (fun i => mkImage (im_init i) (im_first_frame i) (im_addr i) (im_offset i) (im_max_len i) (im_partion i) (im_data_len i) total) ;;
  if u32 (total + 8) =? im_offset i then
    let* r := trs_ota_verify (im_addr i) total in
    if r =? 0 then
      let nv_str := dec_digits 10 (im_partion i) [] in
      upd_hw (fun h => set_chip (ef_set_env_blob (str "OTAAdd") (take (length nv_str - 1) nv_str) (chip h)) h) ;;
      reset
    else ret (-1)
  else ret (-1).
End Full.

(** ** The CRC, bit by bit *)
Definition crc32_bit (c : Z) : Z := if Z.testbit c 0 then Z.lxor (Z.shiftr c 1) 0xEDB88320 else Z.shiftr c 1.
Definition crc32_bits (crc b : Z) : Z := Nat.iter 8 crc32_bit (Z.lxor crc b).
Definition crc32_ref (crc : Z) (buf : bytes) : Z := not32 (foldl crc32_bits (not32 crc) buf).
Lemma crc32_bit_lxor a b : crc32_bit (Z.lxor a b) = Z.lxor (crc32_bit a) (crc32_bit b).
Proof.
  unfold crc32_bit. rewrite Z.lxor_spec, Z.shiftr_lxor. destruct (Z.testbit a 0), (Z.testbit b 0); cbn [xorb]; apply Z.bits_inj'; intros n _; rewrite !Z.lxor_spec;
    destruct (Z.testbit (Z.shiftr a 1) n), (Z.testbit (Z.shiftr b 1) n), (Z.testbit 0xEDB88320 n); done.
Qed.
Lemma crc32_iter_lxor k a b : Nat.iter k crc32_bit (Z.lxor a b) = Z.lxor (Nat.iter k crc32_bit a) (Nat.iter k crc32_bit b).
Proof. induction k as [|k IH]; [done|]. by rewrite !Nat.iter_succ, IH, crc32_bit_lxor. Qed.
Lemma crc32_iter_high k hi : Nat.iter k crc32_bit (Z.shiftl hi (Z.of_nat k)) = hi.
Proof.
  induction k as [|k IH]; [apply Z.shiftl_0_r|]. rewrite Nat.iter_succ_r. rewrite <- IH at 2. f_equal. unfold crc32_bit. rewrite Z.shiftl_spec_low by lia.
  rewrite Z.shiftr_shiftl_l by lia. f_equal. lia.
Qed.
Lemma crc32_table i : 0 <= i < 256 -> crc32_le_table !!! Z.to_nat i = Nat.iter 8 crc32_bit i.
Proof.
  intros Hi. assert (Hall : Forall (fun k => crc32_le_table !!! k = Nat.iter 8 crc32_bit (Z.of_nat k)) (seq 0 256)) by (by apply (bool_decide_unpack _); vm_compute).
  rewrite Forall_forall in Hall. rewrite Hall by (apply elem_of_seq; lia). by rewrite Z2Nat.id by lia.
Qed.
Lemma low_byte x : 0 <= Z.land x 255 < 256.
Proof. change 255 with (Z.ones 8). rewrite Z.land_ones by lia. apply Z.mod_pos_bound. lia. Qed.
Lemma split_byte x : x = Z.lxor (Z.land x 255) (Z.shiftl (Z.shiftr x 8) 8).
Proof.
  apply Z.bits_inj'. intros n Hn. rewrite Z.lxor_spec, Z.land_spec, Z.shiftl_spec by done. change 255 with (Z.ones 8). destruct (decide (n < 8)).
  - rewrite Z.ones_spec_low by lia. rewrite Z.testbit_neg_r with (n := n - 8) by lia. by destruct (Z.testbit x n).
  - rewrite Z.ones_spec_high by lia. rewrite Z.shiftr_spec by lia. replace (n - 8 + 8) with n by lia. by destruct (Z.testbit x n).
Qed.
Lemma crc32_byte_bits crc b : is_u8 b -> crc32_byte crc b = crc32_bits crc b.
Proof.
  intros Hb. unfold crc32_byte, crc32_bits. set (x := Z.lxor crc b). rewrite crc32_table by apply low_byte. rewrite (split_byte x) at 2.
  rewrite crc32_iter_lxor. change 8 with (Z.of_nat 8) at 2. rewrite crc32_iter_high. f_equal. unfold x. rewrite Z.shiftr_lxor. change (Z.of_nat 8) with 8.
  replace (Z.shiftr b 8) with 0; [by rewrite Z.lxor_0_r|]. rewrite Z.shiftr_div_pow2 by lia. symmetry. by apply Z.div_small.
Qed.
Lemma crc32_fold buf : is_bytes buf -> forall c, foldl crc32_byte c buf = foldl crc32_bits c buf.
Proof. induction 1 as [|b buf Hb _ IH]; intros c; [done|]. cbn [foldl]. by rewrite crc32_byte_bits, IH. Qed.
(** The CRC of the image check, computed with a table, is the one computed bit
    by bit with the polynomial 0xEDB88320. *)
Theorem crc32_le_bitwise crc buf : is_bytes buf -> crc32_le crc buf = crc32_ref crc buf.
Proof. intros Hb. unfold crc32_le, crc32_ref. by rewrite crc32_fold. Qed.
Lemma crc32_le_bitwise_witness : crc32_le 0 (str "123456789") = crc32_ref 0 (str "123456789") /\ crc32_le 0 (str "123456789") = 0xCBF43926.
Proof. split; [apply crc32_le_bitwise; by apply (bool_decide_unpack _)|reflexivity]. Defined.
Lemma not32_not32 x : not32 (not32 x) = x.
Proof. unfold not32. by rewrite Z.lxor_assoc, Z.lxor_nilpotent, Z.lxor_0_r. Qed.
Lemma crc32_app c a b : crc32_le (crc32_le c a) b = crc32_le c (a ++ b).
Proof. unfold crc32_le. by rewrite not32_not32, foldl_app. Qed.
Lemma lxor_u32 a b : is_u32 a -> is_u32 b -> is_u32 (Z.lxor a b).
Proof.
  intros [Ha1 Ha2] [Hb1 Hb2]. split; [by apply Z.lxor_nonneg; split|]. destruct (decide (Z.lxor a b = 0)) as [->|]; [done|].
  change 4294967296 with (2 ^ 32). apply Z.log2_lt_pow2; [assert (0 <= Z.lxor a b) by (by apply Z.lxor_nonneg; split); lia|].
  pose proof (Z.log2_lxor a b Ha1 Hb1). assert (Hl : forall x, 0 <= x < 4294967296 -> Z.log2 x < 32).
  { intros x Hx. destruct (decide (x = 0)) as [->|]; [done|]. apply Z.log2_lt_pow2; lia. }
  pose proof (Hl a ltac:(lia)). pose proof (Hl b ltac:(lia)). lia.
Qed.
(** Different states never meet again. *)
Lemma crc32_bit_u32 c : is_u32 c -> is_u32 (crc32_bit c).
Proof.
  intros Hc. assert (Hs : 0 <= Z.shiftr c 1 < 2147483648) by (rewrite Z.shiftr_div_pow2 by lia; change (2 ^ 1) with 2; unfold is_u32 in Hc; zdiv).
  unfold crc32_bit. destruct (Z.testbit c 0); [|unfold is_u32; lia]. apply lxor_u32; unfold is_u32; lia.
Qed.
Lemma crc32_bit_kernel c : is_u32 c -> crc32_bit c = 0 -> c = 0.
Proof.
  intros Hc. assert (Hs : 0 <= Z.shiftr c 1 < 2147483648) by (rewrite Z.shiftr_div_pow2 by lia; change (2 ^ 1) with 2; unfold is_u32 in Hc; zdiv).
  unfold crc32_bit. destruct (Z.testbit c 0) eqn:E.
  - intros H0%Z.lxor_eq. lia.
  - rewrite Z.bit0_odd in E. intros H0. rewrite Z.shiftr_div_pow2 in H0 by lia. change (2 ^ 1) with 2 in H0. rewrite <- Z.negb_even in E. apply negb_false_iff in E.
    apply Z.even_spec in E as [k ->]. rewrite Z.mul_comm, Z.div_mul in H0 by lia. lia.
Qed.
Lemma crc32_iter_u32 k c : is_u32 c -> is_u32 (Nat.iter k crc32_bit c).
Proof. intros Hc. induction k as [|k IH]; [done|]. rewrite Nat.iter_succ. by apply crc32_bit_u32. Qed.
Lemma crc32_iter_inj k a b : is_u32 a -> is_u32 b -> Nat.iter k crc32_bit a = Nat.iter k crc32_bit b -> a = b.
Proof.
  intros Ha Hb E. apply Z.lxor_eq. pose proof (lxor_u32 a b Ha Hb) as Hx. assert (H0 : Nat.iter k crc32_bit (Z.lxor a b) = 0) by (by rewrite crc32_iter_lxor, E, Z.lxor_nilpotent).
  clear -Hx H0. induction k as [|k IH]; [done|]. rewrite Nat.iter_succ in H0. apply IH, crc32_bit_kernel; [by apply crc32_iter_u32|done].
Qed.
Lemma u8_u32 b : is_u8 b -> is_u32 b.
Proof. unfold is_u8, is_u32. lia. Qed.
Lemma lxor_cancel_l a b c : Z.lxor a b = Z.lxor a c -> b = c.
Proof. intros E. apply (f_equal (Z.lxor a)) in E. by rewrite <- !Z.lxor_assoc, Z.lxor_nilpotent, !Z.lxor_0_l in E. Qed.
Lemma crc32_bits_u32 c b : is_u32 c -> is_u8 b -> is_u32 (crc32_bits c b).
Proof. intros Hc Hb. apply crc32_iter_u32, lxor_u32; [done|by apply u8_u32]. Qed.
Lemma crc32_fold_u32 buf : is_bytes buf -> forall c, is_u32 c -> is_u32 (foldl crc32_bits c buf).
Proof. induction 1 as [|b buf Hb _ IH]; intros c Hc; [done|]. cbn [foldl]. by apply IH, crc32_bits_u32. Qed.
Lemma crc32_fold_inj buf : is_bytes buf -> forall a b, is_u32 a -> is_u32 b -> foldl crc32_bits a buf = foldl crc32_bits b buf -> a = b.
Proof.
  induction 1 as [|x buf Hx _ IH]; intros a b Ha Hb E; [done|]. cbn [foldl] in E. apply IH in E; [|by apply crc32_bits_u32..].
  unfold crc32_bits in E. apply crc32_iter_inj in E; [|by apply lxor_u32; [|apply u8_u32]..]. rewrite !(Z.lxor_comm _ x) in E. by apply lxor_cancel_l in E.
Qed.
Lemma crc32_le_u32 c buf : is_u32 c -> is_bytes buf -> is_u32 (crc32_le c buf).
Proof. intros Hc Hb. unfold crc32_le, not32. rewrite crc32_fold by done. apply lxor_u32; [apply crc32_fold_u32; [done|by apply lxor_u32]|done]. Qed.
(** A byte that is changed changes the CRC. *)
Lemma crc32_one_byte c p x y q : is_u32 c -> is_bytes p -> is_u8 x -> is_u8 y -> is_bytes q -> crc32_le c (p ++ x :: q) = crc32_le c (p ++ y :: q) -> x = y.
Proof.
  intros Hc Hp Hx Hy Hq E. unfold crc32_le in E. apply (f_equal not32) in E. rewrite !not32_not32, !foldl_app in E. cbn [foldl] in E.
  rewrite !(crc32_fold p), !(crc32_fold q), !crc32_byte_bits in E by done. set (s := foldl crc32_bits (not32 c) p) in *.
  assert (Hs : is_u32 s) by (apply crc32_fold_u32; [done|by apply lxor_u32]). apply crc32_fold_inj in E; [|done|by apply crc32_bits_u32..].
  unfold crc32_bits in E. apply crc32_iter_inj in E; [|by apply lxor_u32; [|apply u8_u32]..]. by apply lxor_cancel_l in E.
Qed.

(** ** An update from its pieces *)
(** The format: length, data, CRC. *)
Definition package_ok (d : bytes) : bool :=
  let k := Z.to_nat (len d - 4) in
  (be32 (take 4 d) + 8 =? len d) && (crc32_le 0xFFFFFFFF (take k d) =? get32 (drop k d)).
Section Install.
Context {C : Type} `{NorChip C} `{!OtaAddr C}.
(** The calls of a download: every piece as it arrives, and the end. *)
Fixpoint full_send (pieces : list bytes) : P C image_info Z :=
  match pieces with
  | [] => full_done
  | p :: pieces => let* r := full_write p (len p) in if negb (r =? 0) then ret r else full_send pieces
  end.
Definition full_install (d : partion_dev) (pieces : list bytes) : P C image_info Z :=
  let* r := full_init d in if negb (r =? 0) then ret r else full_send pieces.
End Install.
Definition area_ok (addr n : Z) : Prop := addr mod 4096 = 0 /\ n mod 4096 = 0 /\ 0 <= addr /\ 0 <= n /\ addr + n + 8192 < 4294967296.
Definition piece_ok (p : bytes) : Prop := 0 < len p < 65536 /\ is_bytes p.
Section InstallProofs.
Context {C : Type} `{NorChipLaws C, !NorReliable C} `{!OtaAddr C}.
Implicit Types (c ce : C) (h : hw C) (i : image_info).
(** [dn] has been stored. *)
Definition receiving addr n (dn : bytes) i : Prop :=
  im_init i = 1 /\ im_addr i = addr /\ im_offset i = len dn /\ im_max_len i = n /\ im_partion i = 0.
Lemma full_init_run d addr n i h : partion_info_get d (str "data_ota") = Some (addr, n) -> area_ok addr n -> im_partion i = 0 ->
  exists i' c, full_init d (i, h) = Done 0 (i', set_chip c h) /\ receiving addr n [] i' /\ erased (chip h) c addr n.
Proof.
  intros Hp (Ha&Hn&Ha0&Hn0&Hr) Hi. destruct (hal_spiflash_erase_whole (chip h) addr n Ha Hn Ha0 Hn0 ltac:(lia)) as (c&Ec&He).
  unfold full_init. erewrite bind_done by reflexivity. rewrite Hp. erewrite bind_done by reflexivity. erewrite bind_done by reflexivity. erewrite bind_done by reflexivity.
  cbn [im_addr im_max_len set_place]. rewrite Ec. erewrite bind_done by reflexivity. change (negb (0 =? 0)) with false. cbn iota. eexists _, c. split; [reflexivity|]. split; [|done].
  split_and!; done.
Qed.
Lemma full_write_run ce addr n dn p i h : area_ok addr n -> receiving addr n dn i -> piece_ok p -> len dn + len p <= n ->
  (dn = [] -> 4 <= len p /\ be32 (take 4 p) <= n) -> programmed ce (chip h) addr dn ->
  exists i' c, full_write p (len p) (i, h) = Done 0 (i', set_chip c h) /\ receiving addr n (dn ++ p) i' /\ programmed ce c addr (dn ++ p).
Proof.
  intros (_&_&Ha0&_&Hr) (Hi1&Hi2&Hi3&Hi4&Hi5) [Hl Hb] Hfit Hfirst Hp. pose proof (len_nonneg dn).
  destruct (spi_write_spec (chip h) (addr + len dn) p ltac:(lia) ltac:(lia) Hb) as (c&Ec&Hc). exists (set_offset (len (dn ++ p)) i), c.
  split; [|split; [by split_and!|by eapply programmed_app]]. unfold full_write. rewrite u16_small by (unfold is_u16; lia). erewrite bind_done by reflexivity. cbn [fst].
  rewrite Hi1, Hi5. cbn [Z.eqb]. rewrite Hi3.
  assert (Hok : (if len dn =? 0 then let* b := rdn p 0 4 in ret (be32 b <=? im_max_len i) else ret true) (i, h) = Done true (i, h)).
  { destruct (Z.eqb_spec (len dn) 0) as [E|]; [|done]. destruct dn as [|x dn]; [|rewrite len_cons in E; pose proof (len_nonneg dn); lia].
    destruct (Hfirst eq_refl) as [H4 Hle]. rewrite (bind_done _ _ _ _ _ (rdn_ok p 0 4 (i, h) ltac:(lia) ltac:(lia) ltac:(lia))). unfold ret. rewrite Hi4.
    change (slice p 0 4) with (take 4 p). by rewrite (proj2 (Z.leb_le _ _) Hle). }
  rewrite (bind_done _ _ _ _ _ Hok). cbn [negb]. rewrite (bind_done _ _ _ _ _ (rdn_ok p 0 (len p) (i, h) ltac:(lia) ltac:(lia) ltac:(lia))). rewrite slice_full by done.
  unfold image_write. erewrite bind_done by reflexivity. rewrite Hi2, !u32_small by (unfold is_u32; lia). rewrite Ec. erewrite bind_done by reflexivity.
  by rewrite len_app.
Qed.
Lemma full_write_refused addr n p i h : receiving addr n [] i -> 4 <= len p -> n < be32 (take 4 p) -> full_write p (len p) (i, h) = Done TRS_ERR_NO_MEM (i, h).
Proof.
  intros (Hi1&Hi2&Hi3&Hi4&Hi5) H4 Hgt. unfold full_write. erewrite bind_done by reflexivity. cbn [fst]. rewrite Hi1, Hi5, Hi3. change (len []) with 0. cbn [Z.eqb].
  rewrite bind_assoc, (bind_done _ _ _ _ _ (rdn_ok p 0 4 (i, h) ltac:(lia) ltac:(lia) ltac:(lia))). rewrite bind_ret_l, Hi4. change (slice p 0 4) with (take 4 p).
  by rewrite (proj2 (Z.leb_gt _ _) Hgt).
Qed.
Lemma full_send_run ce addr n ps : forall dn i h, area_ok addr n -> receiving addr n dn i -> dn <> [] -> Forall piece_ok ps -> len (dn ++ mjoin ps) <= n ->
  programmed ce (chip h) addr dn ->
  exists i' c, full_send ps (i, h) = full_done (i', set_chip c h) /\ receiving addr n (dn ++ mjoin ps) i' /\ programmed ce c addr (dn ++ mjoin ps).
Proof.
  induction ps as [|p ps IH]; intros dn i h Ha Hi Hne Hok Hl Hp.
  - exists i, (chip h). cbn [mjoin list_join]. rewrite app_nil_r. split; [by destruct h|done].
  - apply Forall_cons in Hok as [Hpp Hok]. cbn [mjoin list_join] in *. rewrite app_assoc in *. pose proof (len_nonneg (mjoin ps)) as Hjn. rewrite !len_app in Hl.
    destruct (full_write_run ce addr n dn p i h Ha Hi Hpp ltac:(unfold mjoin in *; lia) ltac:(done) Hp) as (i1&c1&E1&Hi1&Hp1). cbn [full_send]. rewrite (bind_done _ _ _ _ _ E1).
    change (negb (0 =? 0)) with false. cbn iota. destruct (IH (dn ++ p) i1 (set_chip c1 h)) as (i2&c2&E2&Hi2&Hp2); try done; [by destruct dn|rewrite !len_app; unfold mjoin in *; lia|].
    exists i2, c2. split; [|by split]. by rewrite E2.
Qed.
Lemma verify_sections_run fuel : forall offset remain result i h, 0 <= offset -> 0 <= remain -> offset + remain + 4096 < 4294967296 -> remain <= 4096 * Z.of_nat fuel -> (0 < fuel)%nat ->
  exists rest, verify_sections fuel offset remain result (i, h)
    = Done (offset + remain - rest, rest, crc32_le result (nor_bytes (chip h) offset (remain - rest))) (i, h) /\ 0 <= rest <= remain.
Proof.
  induction fuel as [|fuel IH]; intros offset remain result i h Ho Hn Hr Hf Hpos; [lia|]. cbn [verify_sections]. unfold SPI_FLASH_SEC_SIZE.
  destruct (Z.ltb_spec 4096 remain).
  - erewrite bind_done by reflexivity. rewrite hal_read_eq by lia. cbn [snd]. rewrite u32_small by (unfold is_u32; lia).
    destruct (IH (offset + 4096) (remain - 4096) (crc32_le result (nor_bytes (chip h) offset 4096)) i h) as (rest&E&Hrest); [lia..|]. exists rest. split; [|lia].
    rewrite E, crc32_app. replace (remain - rest) with (4096 + (remain - 4096 - rest)) by lia. rewrite nor_bytes_app by lia. do 3 f_equal. lia.
  - exists remain. split; [|lia]. rewrite Z.sub_diag. unfold ret. change (nor_bytes (chip h) offset 0) with (@nil Z). unfold crc32_le. cbn [foldl]. rewrite not32_not32. do 3 f_equal. lia.
Qed.
Lemma verify_run addr size i h : 0 <= addr -> 0 <= size -> addr + size + 8192 < 4294967296 -> heap h = [] ->
  exists h', trs_ota_verify addr size (i, h) =
    Done (if crc32_le 0xFFFFFFFF (nor_bytes (chip h) addr (size + 4)) =? get32 (nor_bytes (chip h) (addr + size + 4) 4) then 0 else TRS_ERR_OTA_VALIDATE_FAILED) (i, h') /\ chip h' = chip h.
Proof.
  intros Ha Hs Hr Hh. set (h1 := set_heap [] (live h + 1) h). exists h1. split; [|done]. unfold trs_ota_verify. rewrite u32_small by (unfold is_u32; lia).
  assert (Ea : ya_hal_os_memory_alloc SPI_FLASH_SEC_SIZE (i, h) = Done (Some (replicate (Z.to_nat SPI_FLASH_SEC_SIZE) (u8 (junk h)))) (i, h1)) by (unfold ya_hal_os_memory_alloc; by rewrite Hh).
  rewrite (bind_done _ _ _ _ _ Ea). set (n := size + 4). unfold SPI_FLASH_SEC_SIZE.
  destruct (verify_sections_run (S (Z.to_nat (n / 4096))) addr n 0xFFFFFFFF i h1) as (rest&E&Hrest); [lia|lia|lia| |lia|].
  { pose proof (Z_div_mod_eq_full n 4096). pose proof (Z.mod_pos_bound n 4096). pose proof (Z.div_pos n 4096). lia. }
  rewrite (bind_done _ _ _ _ _ E). cbn beta iota. erewrite bind_done by reflexivity. change (chip h1) with (chip h).
  destruct (Z.eqb_spec rest 0) as [->|]; cbn [negb].
  - rewrite !Z.sub_0_r, hal_read_eq by lia. cbn [snd]. unfold ret. by replace (addr + n) with (addr + size + 4) by (unfold n; lia).
  - rewrite u32_small by (unfold is_u32; lia). rewrite !hal_read_eq by lia. cbn [snd]. rewrite crc32_app. replace (addr + n - rest) with (addr + (n - rest)) by lia.
    rewrite <- nor_bytes_app by lia. unfold ret. replace (n - rest + rest) with n by lia.
    by replace (addr + (n - rest) + rest) with (addr + size + 4) by (unfold n; lia).
Qed.
Lemma lor_high x y k : 0 <= k -> 0 <= y < 2 ^ k -> Z.lor (Z.shiftl x k) y = x * 2 ^ k + y.
Proof.
  intros Hk Hy. rewrite <- Z.shiftl_mul_pow2 by done. rewrite <- Z.add_lor_land. replace (Z.land (Z.shiftl x k) y) with 0; [lia|]. symmetry.
  apply Z.bits_inj'. intros m Hm. rewrite Z.land_spec, Z.bits_0. destruct (decide (m < k)); [by rewrite Z.shiftl_spec_low by lia|].
  rewrite <- (Z.mod_small y (2 ^ k)) by done. rewrite Z.mod_pow2_bits_high by lia. apply andb_false_r.
Qed.
Lemma be32_eq b : is_bytes b -> be32 b = b !!! 0%nat * 16777216 + b !!! 1%nat * 65536 + b !!! 2%nat * 256 + b !!! 3%nat.
Proof.
  intros Hb. assert (Hu : forall k, 0 <= b !!! k < 256) by (intros k; by apply lookup_total_u8). pose proof (Hu 0%nat). pose proof (Hu 1%nat). pose proof (Hu 2%nat). pose proof (Hu 3%nat).
  unfold be32. rewrite (lor_high (b !!! 2%nat) _ 8) by (change (2 ^ 8) with 256; lia). change (2 ^ 8) with 256.
  rewrite <- Z.lor_assoc, (lor_high (b !!! 1%nat) _ 16) by (change (2 ^ 16) with 65536; lia). change (2 ^ 16) with 65536.
  rewrite lor_high by (change (2 ^ 24) with 16777216; lia). change (2 ^ 24) with 16777216. lia.
Qed.
Lemma be32_range b : is_bytes b -> 0 <= be32 b < 4294967296.
Proof.
  intros Hb. rewrite be32_eq by done. assert (Hu : forall k, 0 <= b !!! k < 256) by (intros k; by apply lookup_total_u8).
  pose proof (Hu 0%nat). pose proof (Hu 1%nat). pose proof (Hu 2%nat). pose proof (Hu 3%nat). lia.
Qed.
Lemma holds_take c addr (d : bytes) k : nor_bytes c addr (len d) = d -> 0 <= k <= len d -> nor_bytes c addr k = take (Z.to_nat k) d /\ nor_bytes c (addr + k) (len d - k) = drop (Z.to_nat k) d.
Proof.
  intros Hd Hk. replace (len d) with (k + (len d - k)) in Hd by lia. rewrite nor_bytes_app in Hd by lia. set (x := nor_bytes c addr k) in *. assert (Hx : length x = Z.to_nat k).
  { pose proof (len_nor_bytes c addr k ltac:(lia)) as E. unfold len in E. unfold x. lia. }
  set (y := nor_bytes c (addr + k) (len d - k)) in *. clearbody y. split; rewrite <- Hd; [by rewrite take_app_length'|by rewrite drop_app_length'].
Qed.
Lemma full_done_run addr n d i h : area_ok addr n -> receiving addr n d i -> is_bytes d -> 4 <= len d <= n -> be32 (take 4 d) <= n -> nor_bytes (chip h) addr (len d) = d -> heap h = [] ->
  exists i' h', full_done (i, h) = (if package_ok d then Reset (i', h') else Done (-1) (i', h')) /\
    (package_ok d = true -> exists value, chip h' = ef_set_env_blob (str "OTAAdd") value (chip h)).
Proof.
  intros (_&_&Ha0&_&Hr) (_&Hi2&Hi3&_) Hb Hl Hbe Hd Hh. pose proof (be32_range (take 4 d) ltac:(by apply Forall_take)) as Hbr.
  unfold full_done. erewrite bind_done by reflexivity. erewrite bind_done by reflexivity. cbn [fst]. rewrite Hi2, hal_read_eq by lia. cbn [snd].
  rewrite (proj1 (holds_take _ _ d 4 Hd ltac:(lia))). change (Z.to_nat 4) with 4%nat. erewrite bind_done by reflexivity. rewrite u32_small by (unfold is_u32; lia). rewrite Hi3. set (total := be32 (take 4 d)) in *.
  set (i1 := mkImage _ _ _ _ _ _ _ _). unfold package_ok. fold total. destruct (Z.eqb_spec (total + 8) (len d)) as [El|]; cbn [andb]; [|by exists i1, h].
  destruct (verify_run addr total i1 h Ha0 ltac:(lia) ltac:(lia) Hh) as (h1&E1&Hc1). rewrite (bind_done _ _ _ _ _ E1).
  replace (total + 4) with (len d - 4) by lia. replace (addr + total + 4) with (addr + (len d - 4)) by lia.
  destruct (holds_take _ _ d (len d - 4) Hd ltac:(lia)) as [Et Ed]. replace (len d - (len d - 4)) with 4 in Ed by lia. rewrite Et, Ed.
  destruct (crc32_le 0xFFFFFFFF (take (Z.to_nat (len d - 4)) d) =? get32 (drop (Z.to_nat (len d - 4)) d)); [|by exists i1, h1]. change (0 =? 0) with true. cbn iota. erewrite bind_done by reflexivity. do 2 eexists. split; [reflexivity|]. intros _. cbn [chip set_chip]. rewrite Hc1. by eexists.
Qed.
(** What a download of [d] ends in, and what it leaves in flash. *)
Definition installed addr n (d : bytes) h (o : outcome (image_info * hw C) Z) : Prop :=
  match o with
  | Reset (_, h') => package_ok d = true /\ exists value c, chip h' = ef_set_env_blob (str "OTAAdd") value c /\
      nor_bytes c addr (len d) = d /\ forall x, x < addr \/ addr + n <= x -> nor_read c x = nor_read (chip h) x
  | Done r _ => package_ok d = false /\ r <> 0
  | Fault _ => False
  end.
Lemma full_install_run d addr n pieces i h : partion_info_get d (str "data_ota") = Some (addr, n) -> area_ok addr n -> im_partion i = 0 -> heap h = [] ->
  Forall piece_ok pieces -> 4 <= len (hd [] pieces) -> len (mjoin pieces) <= n -> installed addr n (mjoin pieces) h (full_install d pieces (i, h)).
Proof.
  intros Hp Ha Hi Hh Hok H4 Hl. destruct pieces as [|p ps]; [by change (len (hd [] [])) with 0 in H4|]. cbn [hd] in H4. set (d' := mjoin (p :: ps)) in *. assert (Ed : d' = p ++ mjoin ps) by done.
  destruct (full_init_run d addr n i h Hp Ha Hi) as (i1&c1&E1&Hi1&He). unfold full_install. rewrite (bind_done _ _ _ _ _ E1). change (negb (0 =? 0)) with false. cbn iota.
  assert (Hb : is_bytes d') by (apply Forall_join; eapply Forall_impl; [exact Hok|by intros q [_ ?]]). pose proof Hok as Hok0. apply Forall_cons in Hok0 as [Hpp Hps]. pose proof Hpp as [Hlp _].
  assert (E4 : take 4 d' = take 4 p) by (rewrite Ed; apply take_app_le; unfold len in H4; lia). pose proof (len_nonneg (mjoin ps)). rewrite Ed, len_app in Hl. cbn [full_send].
  destruct (decide (be32 (take 4 p) <= n)) as [Hle|Hgt].
  - destruct (full_write_run c1 addr n [] p i1 (set_chip c1 h) Ha Hi1 Hpp ltac:(change (len []) with 0; lia) ltac:(done) ltac:(apply programmed_nil)) as (i2&c2&E2&Hi2&Hp2).
    rewrite (bind_done _ _ _ _ _ E2). change (negb (0 =? 0)) with false. cbn iota. cbn [Datatypes.app] in *.
    destruct (full_send_run c1 addr n ps p i2 (set_chip c2 h) Ha Hi2) as (i3&c3&E3&Hi3&Hp3); [by destruct p|done|rewrite len_app; lia|done|]. rewrite <- Ed in Hi3, Hp3.
    assert (Hd : nor_bytes c3 addr (len d') = d').
    { apply has_bytes; [|done]. apply (has_programmed c1); [done| |done]. intros x Hx. rewrite (He x). by rewrite bool_decide_eq_true_2 by (rewrite Ed, len_app in Hx; lia). }
    destruct (full_done_run addr n d' i3 (set_chip c3 h) Ha Hi3 Hb) as (i4&h4&E4'&Hc4); [rewrite Ed, len_app; lia|by rewrite E4|done|done|].
    change (set_chip c2 (set_chip c1 h)) with (set_chip c2 h). rewrite E3. change (set_chip c3 (set_chip c2 h)) with (set_chip c3 h). rewrite E4'. destruct (package_ok d') eqn:Eok; [|done].
    split; [done|]. destruct (Hc4 eq_refl) as [value ->]. exists value, c3. split; [done|]. split; [done|]. intros x Hx. rewrite (Hp3 x), bool_decide_eq_false_2, (He x), bool_decide_eq_false_2 by (rewrite ?Ed, ?len_app; lia). done.
  - rewrite (bind_done _ _ _ _ _ (full_write_refused addr n p i1 _ Hi1 H4 ltac:(lia))). change (negb (TRS_ERR_NO_MEM =? 0)) with true. cbn iota. split; [|done].
    unfold package_ok. rewrite E4. apply andb_false_intro1, Z.eqb_neq. rewrite Ed, len_app. lia.
Qed.
End InstallProofs.

(** ** Packages *)
Definition be32_bytes (v : Z) : bytes := [u8 (v / 16777216); u8 (v / 65536); u8 (v / 256); u8 v].
Definition package (body : bytes) : bytes := (be32_bytes (len body) ++ body) ++ le32 (crc32_le 0xFFFFFFFF (be32_bytes (len body) ++ body)).
Definition body_ok (body : bytes) : Prop := is_bytes body /\ len body < 4294967296.
Lemma be32_bytes_bytes v : is_bytes (be32_bytes v).
Proof. repeat (apply Forall_cons_2; [apply u8_range|]). constructor. Qed.
Lemma le32_bytes v : is_bytes (le32 v).
Proof. repeat (apply Forall_cons_2; [apply u8_range|]). constructor. Qed.
Lemma be32_bytes_value v : is_u32 v -> be32 (be32_bytes v) = v.
Proof. intros Hv. rewrite be32_eq by apply be32_bytes_bytes. cbn. unfold u8, is_u32 in *. zdiv. Qed.
Lemma get32_le32 v : is_u32 v -> get32 (le32 v) = v.
Proof. intros Hv. unfold get32, le32. cbn [get16 drop]. unfold u8, is_u32 in *. zdiv. Qed.
Lemma be32_inj a b : is_bytes a -> is_bytes b -> length a = 4%nat -> length b = 4%nat -> be32 a = be32 b -> a = b.
Proof.
  intros Ha Hb La Lb. rewrite !be32_eq by done. destruct a as [|a0 [|a1 [|a2 [|a3 [|]]]]]; try done. destruct b as [|b0 [|b1 [|b2 [|b3 [|]]]]]; try done. cbn.
  unfold is_bytes in Ha, Hb. rewrite !Forall_cons in Ha, Hb. unfold is_u8 in *. intros E. assert (a0 = b0 /\ a1 = b1 /\ a2 = b2 /\ a3 = b3) as (->&->&->&->) by lia. done.
Qed.
Lemma get32_inj a b : is_bytes a -> is_bytes b -> length a = 4%nat -> length b = 4%nat -> get32 a = get32 b -> a = b.
Proof.
  intros Ha Hb La Lb. destruct a as [|a0 [|a1 [|a2 [|a3 [|]]]]]; try done. destruct b as [|b0 [|b1 [|b2 [|b3 [|]]]]]; try done. unfold get32. cbn [get16 drop].
  unfold is_bytes in Ha, Hb. rewrite !Forall_cons in Ha, Hb. unfold is_u8 in *. intros E. assert (a0 = b0 /\ a1 = b1 /\ a2 = b2 /\ a3 = b3) as (->&->&->&->) by lia. done.
Qed.
Lemma split_package d : 8 <= len d -> d = (take 4 d ++ take (Z.to_nat (len d - 8)) (drop 4 d)) ++ drop (Z.to_nat (len d - 4)) d /\
  take (Z.to_nat (len d - 4)) d = take 4 d ++ take (Z.to_nat (len d - 8)) (drop 4 d).
Proof.
  intros Hl. assert (E : take (Z.to_nat (len d - 4)) d = take 4 d ++ take (Z.to_nat (len d - 8)) (drop 4 d)).
  { replace (Z.to_nat (len d - 4)) with (4 + Z.to_nat (len d - 8))%nat by lia. by rewrite <- take_take_drop. }
  split; [|done]. rewrite <- E. symmetry. apply take_drop.
Qed.
Lemma package_ok_iff d : is_bytes d -> package_ok d = true <-> exists body, body_ok body /\ d = package body.
Proof.
  intros Hb. assert (Hbt : is_bytes (take 4 d)) by (by apply Forall_take). pose proof (be32_range _ Hbt) as Hr. unfold package_ok. rewrite andb_true_iff, !Z.eqb_eq. split.
  - intros [El Ec]. destruct (split_package d ltac:(lia)) as [Ed Et]. set (body := take (Z.to_nat (len d - 8)) (drop 4 d)) in *. exists body.
    assert (Hlb : len body = len d - 8) by (unfold body, len in *; rewrite length_take, length_drop; lia).
    assert (E4 : be32_bytes (len body) = take 4 d).
    { apply be32_inj; [apply be32_bytes_bytes|done|done|unfold len in *; rewrite length_take; lia|]. rewrite be32_bytes_value by (unfold is_u32; lia). lia. }
    split; [split; [by apply Forall_take, Forall_drop|lia]|]. unfold package. rewrite E4, <- Et. rewrite Ed at 1. rewrite <- Et. f_equal.
    apply get32_inj; [by apply Forall_drop|apply le32_bytes|unfold len in *; rewrite length_drop; lia|done|].
    rewrite get32_le32; [done|]. apply crc32_le_u32; [done|by apply Forall_take].
  - intros (body&[Hby Hl]&->). pose proof (len_nonneg body). set (x := be32_bytes (len body) ++ body). assert (Hlx : len x = len body + 4) by (unfold x; rewrite len_app; change (len (be32_bytes _)) with 4; lia).
    assert (Hlp : len (package body) = len body + 8) by (unfold package; fold x; rewrite len_app, Hlx; change (len (le32 _)) with 4; lia). rewrite Hlp.
    assert (Hx : Z.to_nat (len body + 8 - 4) = length x) by (unfold len in *; lia). rewrite Hx. unfold package. fold x. rewrite take_app_length, drop_app_length.
    assert (Hxb : is_bytes x) by (apply Forall_app; split; [apply be32_bytes_bytes|done]). split; [|symmetry; apply get32_le32; by apply crc32_le_u32].
    change (take 4 (x ++ le32 (crc32_le 4294967295 x))) with (be32_bytes (len body)). rewrite be32_bytes_value by (unfold is_u32; lia). done.
Qed.
Lemma len_package body : len (package body) = len body + 8.
Proof. unfold package. rewrite !len_app. change (len (be32_bytes _)) with 4. change (len (le32 _)) with 4. lia. Qed.
(** No package differs from another in a single byte. *)
Lemma package_one_byte b1 b2 k x y : body_ok b1 -> body_ok b2 -> package b1 !! k = Some x -> package b2 = <[k := y]> (package b1) -> y = x.
Proof.
  intros [Hb1 Hl1] [Hb2 Hl2] Hk E. assert (El : len (package b2) = len (package b1)) by (rewrite E; unfold len; by rewrite length_insert). rewrite !len_package in El.
  assert (Elen : len b2 = len b1) by lia. pose proof (lookup_lt_Some _ _ _ Hk) as Hlt.
  assert (Ey : package b2 !! k = Some y) by (rewrite E; by apply list_lookup_insert_eq).
  assert (Hother : forall j, j <> k -> package b2 !! j = package b1 !! j) by (intros j Hj; rewrite E; by apply list_lookup_insert_ne).
  set (x1 := be32_bytes (len b1) ++ b1) in *. set (x2 := be32_bytes (len b2) ++ b2) in *. assert (Hlx : length x1 = length x2) by (unfold x1, x2; rewrite !length_app; change (length (be32_bytes _)) with 4%nat; unfold len in Elen; lia).
  change (package b1) with (x1 ++ le32 (crc32_le 0xFFFFFFFF x1)) in *. change (package b2) with (x2 ++ le32 (crc32_le 0xFFFFFFFF x2)) in *.
  assert (Hx1 : is_bytes x1) by (apply Forall_app; split; [apply be32_bytes_bytes|done]). assert (Hx2 : is_bytes x2) by (apply Forall_app; split; [apply be32_bytes_bytes|done]).
  destruct (decide (k < length x1)%nat) as [Hin|Hout].
  - rewrite lookup_app_l in Hk by done. rewrite lookup_app_l in Ey by lia. assert (Etail : le32 (crc32_le 0xFFFFFFFF x2) = le32 (crc32_le 0xFFFFFFFF x1)).
    { apply list_eq. intros j. specialize (Hother (length x1 + j)%nat ltac:(lia)). rewrite !lookup_app_r in Hother by lia. by replace (length x1 + j - length x2)%nat with j in Hother by lia; replace (length x1 + j - length x1)%nat with j in Hother by lia. }
    apply (f_equal get32) in Etail. rewrite !get32_le32 in Etail by (by apply crc32_le_u32). assert (Ex2 : x2 = <[k := y]> x1).
    { apply list_eq. intros j. destruct (decide (j = k)) as [->|Hj]; [by rewrite list_lookup_insert_eq|]. rewrite list_lookup_insert_ne by done.
      destruct (decide (j < length x1)%nat); [|by rewrite !lookup_ge_None_2 by lia]. specialize (Hother j Hj). by rewrite !lookup_app_l in Hother by lia. }
    rewrite insert_take_drop in Ex2 by done. rewrite <- (take_drop_middle x1 k x Hk) in Etail. rewrite Ex2 in Etail.
    eapply crc32_one_byte in Etail; [done|done|by apply Forall_take|by eapply Forall_lookup_1 in Ey|by eapply Forall_lookup_1 in Hk|by apply Forall_drop].
  - assert (Ex : x2 = x1). { apply list_eq. intros j. destruct (decide (j < length x1)%nat); [|by rewrite !lookup_ge_None_2 by lia]. specialize (Hother j ltac:(lia)). by rewrite !lookup_app_l in Hother by lia. }
    rewrite Ex in Ey. rewrite Hk in Ey. by injection Ey.
Qed.
Section Update.
Context {C : Type} `{NorChipLaws C, !NorReliable C} `{!OtaAddr C}.
Implicit Types (h : hw C) (i : image_info).
(** C22: An update is installed exactly when it is a package.  For a device with a
    download partition ([data_ota]; the store of two images is not in use,
    [im_partion] 0), memory to spare, and a download no larger than the partition
    that comes in pieces of less than 64 KiB of which the first has at least
    four bytes, cut in whatever way: if it is the length, the data and the CRC of
    a package, the device restarts with the download byte for byte in the
    partition and every byte of the flash outside it and outside the partition
    of the environment store (where the name of the image is noted) as it was;
    otherwise the update returns with an error. *)
Theorem full_update_exact `{!OtaAddrLaws C} d addr n pieces i h : partion_info_get d (str "data_ota") = Some (addr, n) -> area_ok addr n ->
  addr + n <= nv_usr_base \/ nv_usr_base + nv_usr_length <= addr -> im_partion i = 0 -> heap h = [] ->
  Forall piece_ok pieces -> 4 <= len (hd [] pieces) -> len (mjoin pieces) <= n ->
  ((exists body, body_ok body /\ mjoin pieces = package body) /\
     exists i' h', full_install d pieces (i, h) = Reset (i', h') /\ nor_bytes (chip h') addr (len (mjoin pieces)) = mjoin pieces /\
       forall x, x < addr \/ addr + n <= x -> x < nv_usr_base \/ nv_usr_base + nv_usr_length <= x -> nor_read (chip h') x = nor_read (chip h) x) \/
  (~ (exists body, body_ok body /\ mjoin pieces = package body) /\ exists r t, full_install d pieces (i, h) = Done r t /\ r <> 0).
Proof.
  intros Hp Ha Hnv Hi Hh Hok H4 Hl. pose proof (full_install_run d addr n pieces i h Hp Ha Hi Hh Hok H4 Hl) as Hrun.
  assert (Hb : is_bytes (mjoin pieces)) by (apply Forall_join; eapply Forall_impl; [exact Hok|by intros q [_ ?]]). rewrite <- package_ok_iff by done.
  destruct (full_install d pieces (i, h)) as [r t|f|[i' h']]; [right|done|left].
  - destruct Hrun as [-> Hr]. split; [done|by exists r, t].
  - destruct Hrun as (Hpk&value&c&Hc&Hd&Hf). split; [done|]. exists i', h'. split; [done|]. rewrite Hc. split.
    + rewrite <- Hd at 2. apply nor_bytes_ext. intros x Hx. apply set_env_frame. lia.
    + intros x Hx Hx'. rewrite set_env_frame by done. by apply Hf.
Qed.
(** C23: On a device with a download partition and memory to spare, a download
    (of which the first piece has at least four bytes) in which one byte of a
    package that fits the partition is damaged, wherever it is, is never
    installed. *)
Theorem full_update_damage d addr n pieces body k x y i h : partion_info_get d (str "data_ota") = Some (addr, n) -> area_ok addr n -> im_partion i = 0 -> heap h = [] ->
  Forall piece_ok pieces -> 4 <= len (hd [] pieces) -> body_ok body -> len body + 8 <= n -> package body !! k = Some x -> y <> x -> mjoin pieces = <[k := y]> (package body) ->
  exists r t, full_install d pieces (i, h) = Done r t /\ r <> 0.
Proof.
  intros Hp Ha Hi Hh Hok H4 Hbd Hl Hk Hy Hj. assert (Hlj : len (mjoin pieces) <= n).
  { rewrite Hj. unfold len. rewrite length_insert. fold (len (package body)). by rewrite len_package. }
  pose proof (full_install_run d addr n pieces i h Hp Ha Hi Hh Hok H4 Hlj) as Hrun.
  assert (Hb : is_bytes (mjoin pieces)) by (apply Forall_join; eapply Forall_impl; [exact Hok|by intros q [_ ?]]).
  destruct (full_install d pieces (i, h)) as [r t|f|[i' h']]; [by exists r, t; destruct Hrun|done|]. destruct Hrun as (Hpk&_). exfalso.
  apply package_ok_iff in Hpk as (b2&Hb2&E); [|done]. rewrite Hj in E. apply Hy. by apply (package_one_byte body b2 k).
Qed.
End Update.

Definition sample_dev : partion_dev := mkDev 1 0 0 [part_info (table_text "data_ota" "B6000" "41000")].
(** An environment store with one record. *)
#[export] Instance sample_ota_addr : OtaAddr ideal := {|
  nv_ota_addr := []; ef_set_env_blob _ value c := fun x => if bool_decide (0xF7000 <= x < 0xF8000) then len value else c x;
  nv_usr_base := 0xF7000; nv_usr_length := 0x1000 |}.
#[export] Instance sample_ota_addr_laws : OtaAddrLaws ideal.
Proof. constructor. intros key value c x Hx. cbn in *. unfold nor_read, ideal_chip. by rewrite bool_decide_false by lia. Qed.
Definition sample_package : bytes := Eval vm_compute in package (str "firmware").
Lemma sample_package_eq : package (str "firmware") = sample_package.
Proof. vm_compute. reflexivity. Qed.
Definition sample_download : list bytes := Eval vm_compute in [take 5 sample_package; drop 5 sample_package].
Definition damaged_download : list bytes := Eval vm_compute in [take 5 sample_package; <[1%nat := 0]> (drop 5 sample_package)].
#[export] Instance piece_ok_dec p : Decision (piece_ok p).
Proof. unfold piece_ok. apply _. Defined.
Lemma sample_area : partion_info_get sample_dev (str "data_ota") = Some (0xB6000, 0x41000) /\ area_ok 0xB6000 0x41000.
Proof. split; [vm_compute; reflexivity|done]. Qed.
Lemma sample_body : body_ok (str "firmware").
Proof. split; [by apply (bool_decide_unpack _)|done]. Qed.
Lemma full_update_exact_witness : exists i' h', full_install sample_dev sample_download (image_boot, boot) = Reset (i', h') /\ nor_bytes (chip h') 0xB6000 16 = sample_package.
Proof.
  destruct sample_area as [Hp Ha].
  destruct (full_update_exact sample_dev 0xB6000 0x41000 sample_download image_boot boot Hp Ha ltac:(by left) eq_refl eq_refl) as [[_ (i'&h'&E&Hd&_)]|[Hno _]];
    [by apply (bool_decide_unpack _)|done|done|exists i', h'; split; [exact E|exact Hd]|].
  destruct Hno. exists (str "firmware"). split; [exact sample_body|rewrite sample_package_eq; reflexivity].
Defined.
Lemma full_update_damage_witness : exists r t, full_install sample_dev damaged_download (image_boot, boot) = Done r t /\ r <> 0.
Proof.
  destruct sample_area as [Hp Ha]. apply (full_update_damage sample_dev 0xB6000 0x41000 damaged_download (str "firmware") 6 114 0 image_boot boot Hp Ha eq_refl eq_refl);
    [by apply (bool_decide_unpack _)|done|exact sample_body|done|rewrite sample_package_eq; reflexivity|done|rewrite sample_package_eq; reflexivity].
Defined.
